(* ===== verification/_CoqProject ===== *)
-Q . S2P
Prelude.v
PyStr.v
PyNum.v
Data.v
Conversation.v
Presets.v
OpenAI.v
EngineUtils.v
Streams.v
Pipeline.v
FunctionCall.v
Engine.v
Simulation.v
Api.v
Server.v
Router.v
Loader.v
ModelConfig.v
ModelPresets.v
ModelConfigs.v
PyArgs.v
CompilerFlags.v
Jit.v
EngineSetup.v
SyncEngine.v
JsonFFI.v
WeightMap.v
WeightMaps.v
NnModule.v
Spmd.v
TensorOps.v
TensorParallel.v
KvCache.v
TensorModel.v
Network.v
ModelSpecs.v
LlamaModel.v
CausalModel.v
Decoders.v
ParallelDecoders.v
CausalModels.v
ParallelModels.v
PipelineStages.v
ParallelExample.v
TirBuffer.v
SpecVerify.v
SpecDistribution.v
KernelArith.v
Interleave.v
LogitProcessors.v
SoftmaxTemperature.v
TopP.v
TopPSearch.v
Sampler.v
Rope.v
RopeRelative.v
MoeGating.v
MoeRouting.v
Quantization.v
MoeMatmul.v
MoeForward.v
QuantizeModel.v
ModelQuantizations.v
ConvertWeight.v
ConvertExact.v
