(* ===== verification/Prelude.v ===== *)
(** * MLC LLM: verification development (root file)

    ** The program

    MLC LLM compiles and serves language models.  Its Python package
    ([src/python/mlc_llm]) has two sides.  The serving side validates
    OpenAI-style requests, renders conversations to prompts, drives a C++
    engine through a foreign-function interface, turns the token deltas that
    the engine sends back into response chunks, and offers the result through
    a synchronous, an asynchronous, a batched and a JSON engine, an HTTP server
    and a router over servers.  The model side reads the configuration of a
    model, converts and quantizes its weights, defines the network and its
    kernels, distributes it over the GPUs, and compiles it, on demand when an
    engine starts.

    ** The files and what they model

    Basis:
    - [Prelude]: Python exceptions and their messages ([exn], [frag]), the
      result type [res] with [let?], state and exceptions [M] with [let!],
      dictionaries, list indexing, binary64 floats; generic lemmas, the hint
      database [py] and the tactics.
    - [PyStr], [PyNum], [PyArgs]: string methods, dynamic numbers on JSON
      values, [int(s)] and [argparse].

    Serving:
    - [Data]: [serve/data.py], images and [RequestStreamOutput.unpack].
    - [Conversation], [Presets]: [protocol/conversation_protocol.py] with
      [as_prompt], and the templates of [conversation_template/].
    - [OpenAI]: [protocol/openai_api_protocol.py] with the debug protocol and
      the generation config: records, validators, request checks.
    - [EngineUtils], [Streams], [Pipeline], [FunctionCall]: [serve/engine_utils.py]
      and [serve/engine_base.py]: prompts, [ErrorCleanupScope], the streams with
      the [EngineState] and its callbacks, request and response processing.
    - [EngineSetup]: the start of an engine ([serve/config.py],
      [serve/engine_base.py]): model arguments, libraries, reload, metrics text.
    - [Engine], [Simulation], [Api]: the generators, handlers and non-streaming
      calls of [MLCEngine] and [AsyncMLCEngine] ([serve/engine.py]); a simulation
      rule for two consumers of one generator.
    - [SyncEngine], [JsonFFI]: [serve/sync_engine.py], [json_ffi/engine.py].
    - [Server], [Router]: [serve/server/], the OpenAI and microserving
      entrypoints, [router/router.py].

    Configurations and compilation:
    - [ModelConfig], [ModelPresets], [ModelConfigs]: [support/config.py], the
      configuration classes of [model/] and the built-in configurations.
    - [CompilerFlags], [Jit]: [interface/compiler_flags.py], [interface/jit.py].

    Weights:
    - [Loader]: [loader/], the weight loader with its file cache and order.
    - [WeightMap], [WeightMaps]: [model/*/*_loader.py], the sources of every
      parameter; what the loaders share, and the 44 loaders.
    - [NnModule], [Quantization], [QuantizeModel], [ModelQuantizations]:
      modules and their traversal, the schemes of [quantization/] with their
      packing, [quantize_model] of every scheme, and the functions of
      [model/*/*_quantization.py].
    - [ConvertWeight], [ConvertExact]: [interface/convert_weight.py] and
      [support/preshard.py], where these parts meet.

    Networks on several workers:
    - [Spmd]: programs of workers that meet at collectives.
    - [TensorOps], [KvCache], [TensorModel]: the tensor operators and the paged
      KV cache as classes with laws, the relations between the tensors of the
      workers and a whole tensor, and a model of the classes over the rationals.
    - [TensorParallel]: [support/tensor_parallel.py].
    - [Network]: what the files [model/*/*_model.py] share: checks, parameters
      with strategies, residual connections, the loop over the layers.
    - [LlamaModel], [Decoders]: the decoder layers of 19 architectures, and
      Llama; [CausalModel], [CausalModels]: the language models made of them.
    - [ModelSpecs]: [create_paged_kv_cache] and [get_default_spec] of the models.
    - [ParallelDecoders], [ParallelModels], [PipelineStages], [ParallelExample]:
      the theorems, and a small Llama to which they are applied.

    Kernels:
    - [TirBuffer]: buffers and thread grids of TIR kernels.
    - [SpecVerify], [SpecDistribution]: [op/batch_spec_verify.py], its walk down
      the trees of draft tokens and the distribution of the token it leads to.
    - [KernelArith], [Interleave]: the arithmetic of the sampling kernels, with
      its instance on the real numbers; threads and their interleavings.
    - [LogitProcessors]: [compiler_pass/attach_logit_processor.py] and
      [support/max_thread_check.py].
    - [SoftmaxTemperature], [TopP], [TopPSearch], [Sampler]:
      [compiler_pass/attach_softmax_with_temperature.py], [op/top_p_pivot.py] and
      [compiler_pass/attach_sampler.py].
    - [Rope], [RopeRelative]: [op/position_embedding.py].
    - [MoeGating], [MoeRouting], [MoeMatmul], [MoeForward]: [op/moe_misc.py],
      [op/moe_matmul.py], [nn/expert.py] and the mixture-of-experts layer.

    Every file defines the data and the operations under the source's names,
    then its specifications, lemmas, theorems, and the concrete data that the
    witnesses use.  [WeightMaps], [ModelConfigs], [ModelQuantizations],
    [Decoders], [CausalModels] and [ModelSpecs] have a section per model family.

    ** How state and interaction are modelled

    State is passed explicitly: [M S A] is a computation on [S] that returns or
    raises and keeps the state in both cases.  The engine state is a record
    ([Streams.EngineState]) inside the engine record ([Engine.Engine]), which
    also logs the calls into the C++ engine.  The stream objects live in a heap
    ([es_streams]) because the registry and the consumer alias them; so do the
    flags of [CompilerFlags], which the presets share.  The registry itself is a
    class attribute, shared by the engines of a process
    ([Streams.ClassAttributes]): the theorems on an engine take any contents in
    which the id of the request is free, and no other engine runs meanwhile.  A request whose [stop]
    list Python extends in place is returned by the function that does so.

    A generator is modelled by internal iteration: it takes the body of the
    loop that consumes it.  An exception or an abandoned iteration of the
    consumer surfaces at the [yield], as in CPython.  In [JsonFFI] a generator
    object is the point where it is suspended, because several are interleaved.
    The answer of the C++ engine is an argument, a list of batches of deltas; a
    run that has consumed it without the final chunk is [Waiting].

    A kernel is a loop over buffers in the option monad: [None] is an access
    outside a buffer.  The threads of a grid run in an order that is an
    argument; the stores of the grouped products are interleaved arbitrarily;
    the blocks of the verification of speculative tokens run concurrently, an
    iteration of a block at a time, in a schedule that is an argument.
    The in-place kernels on logits are programs of atomic loads and stores
    ([Interleave.Thread]) of which every interleaving is considered.  The
    theorems on the sampling kernels and on rotary embeddings are about exact
    arithmetic ([KernelArith.R_kernel]), without rounding.
    A network on [n] workers is [n] programs, trees of collectives ([Spmd.Prog]);
    [spmd] runs them side by side and is [None] when they do not meet at the
    same collective.  Tensors have a shape and an element at every index;
    element types are not modelled, so [astype] is the identity, and a symbolic
    vocabulary size is the one of the configuration.

    Fuel: the loops over deltas recurse on the list; that of [async_drain] is one
    more than the queue length ([Engine.async_drain_spec]); that of the walk over
    a module tree is its depth; in the verification of speculative
    tokens a block makes as many iterations as the schedule gives it, and one per
    node of its tree is enough ([SpecVerify.batch_spec_verify_walks]); that of a
    block of the grouped product is one more than the number of tiles
    ([MoeMatmul.group_gemm_correct]); that of the search for the pivots of top-p
    is 58 iterations, which its three pivots and tolerance never exceed
    ([TopPSearch.renormalize_by_top_p_exact]).  Each of these theorems states that the
    result is reached.

    ** Parameters

    Code outside the repository's Python is a type class, its documented
    behaviour a class of laws; every class of laws has an instance, which the
    witnesses use.  Serving: [ImageBackend], [JsonBackend], [JsonDecode],
    [ServerBackend], [RouterBackend] (requests, JSON, pydantic), [TextStreamerOps]
    and [TokenizerOps] (the C++ tokenizer), [AstOps], [ConversationDump],
    [SetupEnv] and [JitEnv] with [DigestLaws] (files, subprocesses, digests).
    Configurations and weights: [AutoConfig] (transformers), [WeightFiles] and
    [Numpy], [Networks] and [ModelNetworks], [Mutator], [Conversion] and
    [DataTypes] with laws (TVM's modules), [Quantizers] with [QuantizerLaws]
    (TVM's arrays and compiler; a program that it builds returns the results of
    the program), [ConvertEnv].  Kernels and networks:
    [ScoreOps], [SoftmaxOps], [ScoreArith], [MatOps], [DequantOps], [MoeOps],
    [ProbOps], [KernelOps], [TrigOps] (arithmetic), [Elem], [NnOps], [Topi], [KVCache] with laws.  The laws
    of [Elem] are those of exact addition: sums over workers are compared up to
    the rounding that a different order of summation brings.  Random ids are
    arguments.

    ** What the theorems show

    - Networks: each of 18 language models on [n] workers, where its sizes are
      divided as it needs and it has none of the biases and variants that the
      findings name, returns on every worker
      what it returns on one worker, without deadlock; its KV cache fits
      its layers; the shards of a weight partition it; the pipeline stages of
      the weights are those that run the layers when they divide them.
    - Kernels: speculative verification terminates and keeps the distribution
      of the model; the mixture-of-experts layer computes the weighted sum of
      the chosen experts, in every schedule; gating chooses the highest scores.
    - Sampling: the logit processors compute their specification in every
      interleaving of their threads; the chunked softmax is the softmax; the
      search for the top-p pivot ends and keeps a set of the highest
      probabilities, whose sum is reached and renormalized to one.
    - Rotary embeddings: the score of a rotated query and key depends on their
      distance only, for every scaling.
    - Requests and prompts: the validators accept exactly the valid requests; a
      chat request becomes its system prefix and the tokens of its rendered
      conversation, or is refused for its length; rendering refines a
      specification; every preset renders every text chat.
    - Engines: the callback over interleaved deltas refines a per-request view;
      the asynchronous generator agrees with the synchronous one, which hands
      over the specified outputs and aborts exactly when the consumer fails; the
      non-streaming call returns the concatenated texts; the batched engine
      answers every prompt as if it were alone; a JSON stream gives its chunks in
      order.
    - Server and router: the chat endpoint refines the engine's own call and
      aborts the request of a client that has gone; preempted requests end.
    - Configurations: [from_dict] and [asdict] are inverse when no default is
      left open; in the 29 classes that bound the prefill chunk it is within
      the window, and not zero unless the window is; a cached library was compiled with the flags of the
      call; [update] of the flags is idempotent.
    - Weights: every loader maps every parameter; loading through the cache
      refines loading from the files; packing is lossless; the quantization
      mapping of the schemes that record one names exactly the parameters of
      the quantized network; conversion
      is sound and complete.
    - Deviations: several theorems state what the code does where that is not
      what it means to do; see the findings of the manifest.

    ** Not modelled

    The C++ engine and tokenizer; the tensor programs of TVM apart from the
    kernels above, and the schedules applied to them; the compiler passes, whose
    meaning is that of TVM's intermediate representation; the networks with
    images, recurrent state, encoders or experts beyond their configurations,
    weights and specifications; the conversion of element types; the rounding of
    the quotients of group quantization, and its groups that are all zero; the
    shard files that a failed conversion leaves; the caches of built programs; the commands
    that only call these parts, benchmarks, and the platform apps.  Within the
    modelled files: time stamps, logging, downloads, and the start of the
    engine's background threads.  Strings are sequences of bytes (UTF-8). *)

From Stdlib Require Import SpecFloat.
From stdpp Require Import base list strings gmap pretty.
Local Open Scope Z_scope.

(** ** Python exceptions and their messages

    An f-string is kept as the list of its fragments: the literal text and
    the values it interpolates, in order. *)

(** Python floats: IEEE-754 binary64, in the executable representation of the
    Standard Library. *)
Definition pyfloat : Set := spec_float.

(** ** JSON-like Python values *)
Inductive json : Set :=
| JNull
| JBool (b : bool)
| JInt (z : Z)
| JFloat (f : pyfloat)
| JStr (s : string)
| JArr (l : list json)
| JObj (o : list (string * json)).

(** A fragment of an f-string. *)
Inductive frag : Set :=
| Lit (s : string)
| FStr (s : string)
| FInt (z : Z)
| FFloat (f : pyfloat)
| FOpt (o : option string)
| FStrs (l : list string)
| FJson (j : json).

Definition message : Set := list frag.

Inductive exn : Set :=
| BadRequestError (m : message)
| ValueError (m : message)
| RuntimeError (m : message)
| FileNotFoundError (m : message)
| NotImplementedError (m : message)
| AssertionError
| KeyError (k : string)
| IndexError
| TypeError
| AttributeError
| SyntaxError
| ValidationError
| StopIteration
| StopAsyncIteration
| CancelledError
| GeneratorExit
| OtherError (k : string).

(** Python's [except Exception] does not catch [GeneratorExit] and (since 3.8)
    [asyncio.CancelledError]: both derive from [BaseException] only. *)
Definition is_Exception (e : exn) : bool :=
  match e with
  | GeneratorExit | CancelledError => false
  | _ => true
  end.

Inductive res (A : Type) : Type :=
| Ok (a : A)
| Raise (e : exn).
Arguments Ok {A} a.
Arguments Raise {A} e.

Definition rbind {A B : Type} (m : res A) (k : A -> res B) : res B :=
  match m with
  | Ok a => k a
  | Raise e => Raise e
  end.

(** A stateful Python computation: the state survives an exception. *)
Definition M (S A : Type) : Type := S -> res A * S.

Definition mret' {S A : Type} (a : A) : M S A := fun s => (Ok a, s).
Definition mraise {S A : Type} (e : exn) : M S A := fun s => (Raise e, s).
Definition mlift {S A : Type} (r : res A) : M S A := fun s => (r, s).
Definition mbind' {S A B : Type} (m : M S A) (k : A -> M S B) : M S B :=
  fun s => match m s with
           | (Ok a, s') => k a s'
           | (Raise e, s') => (Raise e, s')
           end.
Definition mget {S : Type} : M S S := fun s => (Ok s, s).
Definition mmodify {S : Type} (f : S -> S) : M S unit := fun s => (Ok tt, f s).

Declare Scope py_scope.
Delimit Scope py_scope with py.
Notation "'let?' x := m 'in' k" := (rbind m (fun x => k))
  (at level 10, x pattern, m at level 100, k at level 200) : py_scope.
Notation "'let!' x := m 'in' k" := (mbind' m (fun x => k))
  (at level 10, x pattern, m at level 100, k at level 200) : py_scope.
Notation "m ;! k" := (mbind' m (fun _ => k))
  (at level 199, right associativity) : py_scope.
Notation "m ;? k" := (rbind m (fun _ => k))
  (at level 199, right associativity) : py_scope.
Open Scope py_scope.

Definition py_assert (b : bool) : res unit :=
  if b then Ok tt else Raise AssertionError.

Definition is_ok {A} (r : res A) : bool :=
  match r with Ok _ => true | Raise _ => false end.

(** [for x in l: body(x)], stopping at the first exception. *)
Fixpoint rfor {A : Type} (body : A -> res unit) (l : list A) : res unit :=
  match l with
  | [] => Ok tt
  | x :: l => body x ;? rfor body l
  end.

(** A list comprehension whose body may raise. *)
Fixpoint rmap {A B : Type} (f : A -> res B) (l : list A) : res (list B) :=
  match l with
  | [] => Ok []
  | x :: l => let? y := f x in let? ys := rmap f l in Ok (y :: ys)
  end.

Definition opt_res {A} (o : option A) (e : exn) : res A :=
  match o with Some a => Ok a | None => Raise e end.

(** Python dictionaries whose order matters: association lists. *)
Definition dict (V : Type) : Type := list (string * V).

Fixpoint dict_get {V : Type} (d : dict V) (k : string) : option V :=
  match d with
  | [] => None
  | (k', v) :: d => if String.eqb k k' then Some v else dict_get d k
  end.

(** [d[k] = v]: an existing key keeps its position. *)
Fixpoint dict_set {V : Type} (d : dict V) (k : string) (v : V) : dict V :=
  match d with
  | [] => [(k, v)]
  | (k', v') :: d => if String.eqb k k' then (k', v) :: d
                     else (k', v') :: dict_set d k v
  end.

(** [d.update(e)]. *)
Definition dict_update {V : Type} (d e : dict V) : dict V :=
  fold_left (fun d kv => dict_set d (fst kv) (snd kv)) e d.

Definition dict_getitem {V : Type} (d : dict V) (k : string) : res V :=
  opt_res (dict_get d k) (KeyError k).

Definition dict_has {V : Type} (d : dict V) (k : string) : bool :=
  match dict_get d k with Some _ => true | None => false end.

(** [del d[k]] *)
Fixpoint dict_del {V} (d : dict V) (k : string) : dict V :=
  match d with
  | [] => []
  | (k', v) :: d => if String.eqb k k' then d else (k', v) :: dict_del d k
  end.

Definition dict_keys {V} (d : dict V) : list string := map fst d.

(** The dictionary built by [d[k] = v] over a sequence of pairs. *)
Definition dict_of {V} (l : list (string * V)) : dict V :=
  fold_left (fun d kv => dict_set d (fst kv) (snd kv)) l [].

Definition str_mem (s : string) (l : list string) : bool := existsb (String.eqb s) l.

(** [x is None] *)
Definition is_none {A} (o : option A) : bool :=
  match o with None => true | Some _ => false end.

(** [a == b] on [Optional[str]]. *)
Definition opt_str_eqb (a b : option string) : bool :=
  match a, b with
  | None, None => true
  | Some a, Some b => String.eqb a b
  | _, _ => false
  end.

(** [x or default] is not used for strings below; [Optional] defaults are. *)
Definition opt_default {A} (d : A) (o : option A) : A :=
  match o with Some a => a | None => d end.

(** ** Floats *)
Definition f64_of_Z (z : Z) : pyfloat := binary_normalize 53 1024 z 0 false.
Definition f64_ltb (a b : pyfloat) : bool := SFltb a b.
Definition f64_eqb (a b : pyfloat) : bool := SFeqb a b.
Definition f64_abs (a : pyfloat) : pyfloat := SFabs a.
(** [bool(x)] of a float: [0.0] and [-0.0] are falsy, NaN is truthy. *)
Definition f64_truthy (a : pyfloat) : bool :=
  match a with S754_zero _ => false | _ => true end.

(** ** Python list indexing *)

(** [l[i]] for a non-negative [i]. *)
Definition list_getitem {A} (l : list A) (i : nat) : res A :=
  opt_res (l !! i) IndexError.

(** [l[i] = x] for a non-negative [i]: out of range raises. *)
Definition list_setitem {A} (l : list A) (i : nat) (x : A) : res (list A) :=
  if Nat.ltb i (length l) then Ok (<[i:=x]> l) else Raise IndexError.

(** [enumerate(l)] *)
Definition enumerate {A} (l : list A) : list (nat * A) := combine (seq 0 (length l)) l.

(** ** Generic lemmas *)

Lemma rbind_Ok {A B} (m : res A) (k : A -> res B) b :
  rbind m k = Ok b <-> exists a, m = Ok a /\ k a = Ok b.
Proof. destruct m; simpl; naive_solver. Qed.

Lemma rfor_Ok {A} (body : A -> res unit) l :
  rfor body l = Ok tt <-> Forall (fun x => body x = Ok tt) l.
Proof.
  induction l as [|x l IH]; simpl; [split; constructor|].
  rewrite Forall_cons. destruct (body x) as [[]|] eqn:E; simpl; naive_solver.
Qed.

(** A loop that raises does so at its first raising element. *)
Lemma rfor_Raise {A} (body : A -> res unit) l e :
  rfor body l = Raise e <->
  exists l1 x l2, l = l1 ++ x :: l2 /\ Forall (fun y => body y = Ok tt) l1 /\ body x = Raise e.
Proof.
  induction l as [|x l IH]; simpl.
  - split; [done|]. intros (l1 & y & l2 & Heq & _). by destruct l1.
  - destruct (body x) as [[]|e'] eqn:E; simpl.
    + rewrite IH. split.
      * intros (l1 & y & l2 & -> & Hl & Hy). exists (x :: l1), y, l2. by repeat constructor.
      * intros ([|z l1] & y & l2 & Heq & Hl & Hy); simplify_eq/=; [congruence|].
        apply Forall_cons in Hl as [_ Hl]. by exists l1, y, l2.
    + split.
      * intros [= ->]. by exists [], x, l.
      * intros ([|z l1] & y & l2 & Heq & Hl & Hy); simplify_eq/=; [congruence|].
        apply Forall_cons in Hl as [Hz _]. congruence.
Qed.

Lemma rmap_Ok {A B} (f : A -> res B) l ys :
  rmap f l = Ok ys <-> Forall2 (fun x y => f x = Ok y) l ys.
Proof.
  revert ys. induction l as [|x l IH]; intros ys; simpl.
  - split; [intros [= <-]; constructor | by inversion 1].
  - destruct (f x) as [y|] eqn:E; simpl.
    + split.
      * destruct (rmap f l) as [zs|] eqn:E2; simpl; [|done]. intros [= <-].
        constructor; [done|]. by apply IH.
      * inversion 1 as [|? y' ? ys' Hy Hys]; subst. apply IH in Hys. rewrite Hys. simpl. congruence.
    + split; [done|]. inversion 1; congruence.
Qed.

Lemma rmap_length {A B} (f : A -> res B) l ys : rmap f l = Ok ys -> length ys = length l.
Proof. rewrite rmap_Ok. intros H. symmetry. by eapply Forall2_length. Qed.

(** Every body succeeds: the comprehension is the plain [map]. *)
Lemma rmap_total {A B} (f : A -> res B) (g : A -> B) l :
  Forall (fun x => f x = Ok (g x)) l -> rmap f l = Ok (map g l).
Proof. induction 1 as [|x l Hx _ IH]; simpl; [done|]. by rewrite Hx, IH. Qed.

Lemma dict_get_set {V} (d : dict V) k v k' :
  dict_get (dict_set d k v) k' = if String.eqb k' k then Some v else dict_get d k'.
Proof.
  induction d as [|[k0 v0] d IH]; simpl.
  - destruct (String.eqb_spec k' k); done.
  - destruct (String.eqb_spec k k0) as [->|]; simpl.
    + destruct (String.eqb_spec k' k0); done.
    + rewrite IH. destruct (String.eqb_spec k' k0), (String.eqb_spec k' k); congruence.
Qed.

Lemma dict_has_set {V} (d : dict V) k v k' :
  dict_has (dict_set d k v) k' = String.eqb k' k || dict_has d k'.
Proof. unfold dict_has. rewrite dict_get_set. by destruct (String.eqb k' k). Qed.

Lemma dict_has_update {V} (e d : dict V) k :
  dict_has (dict_update d e) k = dict_has d k || dict_has e k.
Proof.
  unfold dict_update. revert d. induction e as [|[k0 v0] e IH]; intros d; simpl.
  - by rewrite orb_false_r.
  - rewrite IH, dict_has_set. unfold dict_has at 4. simpl.
    destruct (String.eqb k k0); simpl; [by rewrite orb_true_r|]. done.
Qed.

Lemma str_mem_In s l : str_mem s l = true <-> In s l.
Proof.
  unfold str_mem. rewrite existsb_exists. split.
  - intros (x & Hx & <-%String.eqb_eq). done.
  - intros H. exists s. by rewrite String.eqb_refl.
Qed.

Lemma dict_get_In {V} (d : dict V) k : In k (dict_keys d) <-> exists v, dict_get d k = Some v.
Proof.
  induction d as [|[k' v'] d IH]; simpl; [naive_solver|].
  destruct (String.eqb_spec k k') as [->|Hne].
  - split; [by exists v'|by left].
  - rewrite <- IH. naive_solver.
Qed.

Lemma dict_has_In {V} (d : dict V) k : dict_has d k = true <-> In k (dict_keys d).
Proof. rewrite dict_get_In. unfold dict_has. destruct (dict_get d k); naive_solver. Qed.

Lemma dict_get_NoDup {V} (d : dict V) : NoDup (dict_keys d) ->
  forall k v, In (k, v) d -> dict_get d k = Some v.
Proof.
  induction d as [|[k v] d IH]; [done|]. intros [Hk Hnd]%NoDup_cons k' v' [[= <- <-]|Hin]; simpl.
  - by rewrite String.eqb_refl.
  - destruct (String.eqb_spec k' k) as [->|]; [|by apply IH].
    destruct Hk. apply list_elem_of_In, in_map_iff. by exists (k, v').
Qed.

Lemma dict_get_None {V} (d : dict V) k : ~ In k (dict_keys d) <-> dict_get d k = None.
Proof. rewrite dict_get_In. destruct (dict_get d k); naive_solver. Qed.

Lemma dict_keys_set {V} (d : dict V) k v x :
  In x (dict_keys (dict_set d k v)) <-> In x (dict_keys d) \/ x = k.
Proof.
  rewrite !dict_get_In. rewrite dict_get_set. destruct (String.eqb_spec x k); naive_solver.
Qed.

Lemma dict_set_NoDup {V} (d : dict V) k v : NoDup (dict_keys d) -> NoDup (dict_keys (dict_set d k v)).
Proof.
  induction d as [|[k' v'] d IH]; simpl; [intros _; apply NoDup_singleton|].
  intros [H1 H2]%NoDup_cons. destruct (String.eqb_spec k k') as [->|Hne]; simpl.
  - by apply NoDup_cons.
  - apply NoDup_cons. split; [|by apply IH]. rewrite list_elem_of_In.
    intros [H|H]%dict_keys_set; [by apply H1, list_elem_of_In|congruence].
Qed.

Lemma dict_of_NoDup {V} (l : list (string * V)) : NoDup (dict_keys (dict_of l)).
Proof.
  unfold dict_of. enough (forall d : dict V, NoDup (dict_keys d) ->
    NoDup (dict_keys (fold_left (fun d kv => dict_set d (fst kv) (snd kv)) l d))) as H.
  { apply H. constructor. }
  induction l as [|[k v] l IH]; intros d H; cbn; [done|]. by apply IH, dict_set_NoDup.
Qed.

Lemma dict_get_del {V} (d : dict V) k x : NoDup (dict_keys d) ->
  dict_get (dict_del d k) x = if String.eqb x k then None else dict_get d x.
Proof.
  induction d as [|[k' v'] d IH]; simpl; [by destruct (String.eqb x k)|].
  intros [H1 H2]%NoDup_cons. destruct (String.eqb_spec k k') as [->|Hne]; simpl.
  - destruct (String.eqb_spec x k') as [Hx|]; [|done].
    apply dict_get_None. by rewrite Hx, <- list_elem_of_In.
  - rewrite IH by done. destruct (String.eqb_spec x k'), (String.eqb_spec x k); congruence.
Qed.

Lemma dict_del_NoDup {V} (d : dict V) k : NoDup (dict_keys d) -> NoDup (dict_keys (dict_del d k)).
Proof.
  induction d as [|[k' v'] d IH]; simpl; [done|].
  intros [H1 H2]%NoDup_cons. destruct (String.eqb_spec k k') as [->|Hne]; simpl; [done|].
  apply NoDup_cons. split; [|by apply IH]. rewrite !list_elem_of_In in *.
  intros [v Hv]%dict_get_In. rewrite dict_get_del in Hv by done.
  destruct (String.eqb k' k); [done|]. apply H1, dict_get_In. by exists v.
Qed.

Lemma dict_get_pair {V} (d : dict V) k v : dict_get d k = Some v -> In (k, v) d.
Proof.
  induction d as [|[k' v'] d IH]; simpl; [done|].
  destruct (String.eqb_spec k k') as [->|]; [intros [= ->]; by left|right; auto].
Qed.

Lemma fold_left_map {A B C} (f : C -> B -> C) (g : A -> B) l c :
  fold_left f (map g l) c = fold_left (fun c x => f c (g x)) l c.
Proof. revert c. induction l as [|x l IH]; intros c; simpl; [done|]. apply IH. Qed.

Lemma list_setitem_Ok {A} (l : list A) i x l' :
  list_setitem l i x = Ok l' <-> (i < length l)%nat /\ l' = <[i:=x]> l.
Proof.
  unfold list_setitem. destruct (Nat.ltb_spec i (length l)); split; intros H1.
  - by simplify_eq.
  - by destruct H1 as [_ ->].
  - done.
  - lia.
Qed.

Lemma list_setitem_total {A} (l : list A) i x :
  (i < length l)%nat -> list_setitem l i x = Ok (<[i:=x]> l).
Proof. intros H. by apply list_setitem_Ok. Qed.

Lemma lookup_mid {A} (pre : list A) x l : (pre ++ x :: l) !! length pre = Some x.
Proof. by rewrite list_lookup_middle. Qed.

Lemma setitem_mid {A} (pre : list A) x l y :
  list_setitem (pre ++ x :: l) (length pre) y = Ok (pre ++ y :: l).
Proof.
  apply list_setitem_Ok. rewrite length_app. simpl. split; [lia|].
  by rewrite insert_app_r_alt, Nat.sub_diag by lia.
Qed.
Lemma list_getitem_lookup {A} (l : list A) i x : l !! i = Some x -> list_getitem l i = Ok x.
Proof. unfold list_getitem. by intros ->. Qed.

Lemma elem_of_combine_seq {A} (l : list A) k i x :
  (i, x) ∈ combine (seq k (length l)) l <-> (k <= i)%nat /\ l !! (i - k)%nat = Some x.
Proof.
  revert k. induction l as [|y l IH]; intros k; simpl.
  - split; [intros H; by apply elem_of_nil in H | by intros [_ ?]].
  - rewrite elem_of_cons, IH. split.
    + intros [[= -> ->]|[Hk H]]; [by rewrite Nat.sub_diag|].
      split; [lia|]. replace (i - k)%nat with (S (i - S k)) by lia. done.
    + intros [Hk H]. destruct (decide (i = k)) as [->|Hne].
      * left. rewrite Nat.sub_diag in H. by injection H as ->.
      * right. split; [lia|]. by replace (i - k)%nat with (S (i - S k)) in H by lia.
Qed.

Lemma Forall_enumerate {A} (P : nat * A -> Prop) l :
  Forall P (enumerate l) <-> forall i x, l !! i = Some x -> P (i, x).
Proof.
  unfold enumerate. rewrite Forall_forall. split.
  - intros H i x Hx. apply H, elem_of_combine_seq. by rewrite Nat.sub_0_r; split; [lia|].
  - intros H [i x] Hin. apply elem_of_combine_seq in Hin as [_ Hx].
    rewrite Nat.sub_0_r in Hx. by apply H.
Qed.

Lemma mbind_Ok {S A B} (m : M S A) (k : A -> M S B) s a s' :
  m s = (Ok a, s') -> mbind' m k s = k a s'.
Proof. unfold mbind'. by intros ->. Qed.

Lemma mbind_Raise {S A B} (m : M S A) (k : A -> M S B) s e s' :
  m s = (Raise e, s') -> mbind' m k s = (Raise e, s').
Proof. unfold mbind'. by intros ->. Qed.

Lemma mbind_lift {S A B} (r : res A) (k : A -> M S B) s a :
  r = Ok a -> mbind' (mlift r) k s = k a s.
Proof. intros ->. done. Qed.

Lemma mbind_assoc {S A B C} (m : M S A) (k : A -> M S B) (k' : B -> M S C) s :
  mbind' (mbind' m k) k' s = mbind' m (fun a => mbind' (k a) k') s.
Proof. unfold mbind'. by destruct (m s) as [[a|e] s']. Qed.

Lemma mbind_inv {S A B} (m : M S A) (k : A -> M S B) s r s' :
  mbind' m k s = (r, s') ->
  (exists a s1, m s = (Ok a, s1) /\ k a s1 = (r, s')) \/
  (exists e, m s = (Raise e, s') /\ r = Raise e).
Proof. unfold mbind'. destruct (m s) as [[a|e] s1]; naive_solver. Qed.

Lemma mbind_lift_inv {S A B} (r : res A) (k : A -> M S B) s r' s' :
  mbind' (mlift r) k s = (r', s') ->
  (exists a, r = Ok a /\ k a s = (r', s')) \/ (exists e, r = Raise e /\ r' = Raise e /\ s' = s).
Proof. unfold mbind', mlift. destruct r; [naive_solver|]. intros [= <- <-]. right. by eexists. Qed.

Create HintDb py.
Create Rewrite HintDb py.
#[export] Hint Rewrite @dict_get_set @dict_has_set @dict_has_update : py.
#[export] Hint Rewrite @list_getitem_lookup @list_setitem_total using (first [done|lia]) : py.
#[export] Hint Resolve rmap_length : py.

(** Case analysis on the scrutinee of a match or conditional in a hypothesis
    or in the goal, keeping its equation. *)
Ltac case_res :=
  match goal with
  | H : context [rbind ?m _] |- _ => destruct m eqn:?; simpl in H
  | |- context [rbind ?m _] => destruct m eqn:?; simpl
  end.

Ltac inv_ok :=
  repeat match goal with
  | H : rbind _ _ = Ok _ |- _ => apply rbind_Ok in H as (? & ? & H)
  | H : Ok _ = Ok _ |- _ => injection H as H; subst
  | H : Raise _ = Ok _ |- _ => discriminate H
  end.

(** Run the first action of a bind, whose outcome is [H]. *)
Ltac mstep H := rewrite (mbind_Ok _ _ _ _ _ H).
