(* ===== verification/PyStr.v ===== *)
(** * Python string operations used by the serving stack

    [str.replace], [str.rsplit(sep, 1)], [str.split] on one character,
    [str.upper], [str.startswith], [str.join], and the compact lemmas about
    them.  Strings are sequences of bytes, the UTF-8 encoding of a Python string;
    [str.upper] agrees with Python on ASCII text. *)

From stdpp Require Import base list strings.
From Stdlib Require Import Ascii.
From S2P Require Import Prelude.

Arguments String.append !_ _ : simpl nomatch.

(** A string here is the UTF-8 encoding of a Python string; its code points.
    [need] continuation bytes are missing from [acc]. *)
Fixpoint utf8_points (need : nat) (acc : Z) (s : string) : list Z :=
  (match s with
  | EmptyString => []
  | String c s =>
      let n := Z.of_nat (nat_of_ascii c) in
      if n <? 128 then n :: utf8_points 0%nat 0 s
      else if n <? 192 then
        let acc := acc * 64 + (n - 128) in
        match need with
        | S (S need) => utf8_points (S need) acc s
        | _ => acc :: utf8_points 0%nat 0 s
        end
      else if n <? 224 then utf8_points 1%nat (n - 192) s
      else if n <? 240 then utf8_points 2%nat (n - 224) s
      else utf8_points 3%nat (n - 240) s
  end)%Z.
(** The code points of a string; [len(s)] is their number. *)
Definition code_points (s : string) : list Z := utf8_points 0 0%Z s.

(** [s.startswith(p)] *)
Definition startswith (p s : string) : bool := String.prefix p s.
Arguments startswith : simpl never.

(** [s[n:]] for a non-negative [n]. *)
Fixpoint str_drop (n : nat) (s : string) : string :=
  match n, s with
  | O, _ => s
  | S n, EmptyString => EmptyString
  | S n, String _ s => str_drop n s
  end.

(** Leftmost, non-overlapping replacement; [skip] counts the characters of the
    current occurrence still to be passed over. *)
Fixpoint replace_from (old new : string) (skip : nat) (s : string) : string :=
  match s with
  | EmptyString => EmptyString
  | String c s' =>
      match skip with
      | S k => replace_from old new k s'
      | O => if startswith old s
             then String.append new (replace_from old new (String.length old - 1) s')
             else String c (replace_from old new 0 s')
      end
  end.

(** [s.replace(old, new)] for a non-empty [old]. *)
Definition str_replace (old new s : string) : string := replace_from old new 0 s.

(** [old in s] for a non-empty [old]. *)
Fixpoint str_contains (old s : string) : bool :=
  match s with
  | EmptyString => String.eqb old EmptyString
  | String _ s' => startswith old s || str_contains old s'
  end.

(** [new.join(s.rsplit(old, 1))]: the last occurrence of [old] becomes [new]. *)
Fixpoint replace_last (old new s : string) : string :=
  match s with
  | EmptyString => EmptyString
  | String c s' =>
      if str_contains old s' then String c (replace_last old new s')
      else if startswith old s then String.append new (str_drop (String.length old) s)
      else s
  end.

(** [s.split(sep)] for a one-character separator. *)
Fixpoint str_split (sep : ascii) (s : string) : list string :=
  match s with
  | EmptyString => [EmptyString]
  | String c s' =>
      if Ascii.eqb c sep then EmptyString :: str_split sep s'
      else match str_split sep s' with
           | [] => [String c EmptyString]
           | w :: ws => String c w :: ws
           end
  end.

Definition upper_ascii (c : ascii) : ascii :=
  let n := nat_of_ascii c in
  if (Nat.leb 97 n && Nat.leb n 122)%bool then ascii_of_nat (n - 32) else c.

(** [s.upper()] *)
Fixpoint str_upper (s : string) : string :=
  match s with
  | EmptyString => EmptyString
  | String c s => String (upper_ascii c) (str_upper s)
  end.

(** [sep.join(l)] *)
Fixpoint str_join (sep : string) (l : list string) : string :=
  match l with
  | [] => EmptyString
  | [x] => x
  | x :: l => String.append x (String.append sep (str_join sep l))
  end.

(** ["".join(l)] *)
Fixpoint str_concat (l : list string) : string :=
  match l with
  | [] => EmptyString
  | x :: l => String.append x (str_concat l)
  end.

(** [s[0]] and [s[-1]]: an empty string raises [IndexError]. *)
Definition str_first (s : string) : res ascii :=
  match s with
  | EmptyString => Raise IndexError
  | String c _ => Ok c
  end.

Fixpoint last_ascii (c : ascii) (s : string) : ascii :=
  match s with
  | EmptyString => c
  | String c' s => last_ascii c' s
  end.

Definition str_last (s : string) : res ascii :=
  match s with
  | EmptyString => Raise IndexError
  | String c s => Ok (last_ascii c s)
  end.

(** ASCII white space, as [bytes.strip] knows it; [str.strip] also removes the
    separators 28 to 31. *)
Definition is_space (c : ascii) : bool :=
  let n := nat_of_ascii c in (Nat.eqb n 32 || (Nat.leb 9 n && Nat.leb n 13))%bool.
Definition is_str_space (c : ascii) : bool :=
  let n := nat_of_ascii c in (is_space c || (Nat.leb 28 n && Nat.leb n 31))%bool.

Fixpoint strip_left (p : ascii -> bool) (s : string) : string :=
  match s with
  | EmptyString => EmptyString
  | String c s' => if p c then strip_left p s' else s
  end.

Definition str_rev (s : string) : string :=
  String.string_of_list_ascii (rev (String.list_ascii_of_string s)).

(** [s.strip()], the characters in [p] being white space *)
Definition strip_by (p : ascii -> bool) (s : string) : string :=
  str_rev (strip_left p (str_rev (strip_left p s))).

Definition lower_ascii (c : ascii) : ascii :=
  let n := nat_of_ascii c in
  if (Nat.leb 65 n && Nat.leb n 90)%bool then ascii_of_nat (n + 32) else c.

(** [s.lower()] *)
Fixpoint str_lower (s : string) : string :=
  match s with
  | EmptyString => EmptyString
  | String c s => String (lower_ascii c) (str_lower s)
  end.

(** The part before the first [sep], and the part behind it, if there is one. *)
Fixpoint str_partition (sep : ascii) (s : string) : string * option string :=
  match s with
  | EmptyString => (EmptyString, None)
  | String c s' =>
      if Ascii.eqb c sep then (EmptyString, Some s')
      else let '(a, b) := str_partition sep s' in (String c a, b)
  end.

(** Every character satisfies [p]. *)
Fixpoint all_chars (p : ascii -> bool) (s : string) : bool :=
  match s with
  | EmptyString => true
  | String c s => p c && all_chars p s
  end.

(** A double quote, and a newline. *)
Definition dquote : string := String "034"%char EmptyString.
Definition newline : string := String "010"%char EmptyString.

(** ** Lemmas *)

Lemma app_empty_r s : String.append s EmptyString = s.
Proof. induction s as [|c s IH]; simpl; [done|]. by rewrite IH. Qed.

Lemma app_assoc_str a b c :
  String.append (String.append a b) c = String.append a (String.append b c).
Proof. induction a as [|x a IH]; simpl; [done|]. by rewrite IH. Qed.

Lemma str_concat_app l1 l2 :
  str_concat (l1 ++ l2) = String.append (str_concat l1) (str_concat l2).
Proof.
  induction l1 as [|x l1 IH]; simpl; [done|]. by rewrite IH, app_assoc_str.
Qed.

Lemma str_concat_singleton s : str_concat [s] = s.
Proof. apply app_empty_r. Qed.

Lemma app_empty_inv a b :
  String.append a b = EmptyString <-> a = EmptyString /\ b = EmptyString.
Proof. destruct a; simpl; [naive_solver|]. split; [done|]. by intros [? _]. Qed.

Lemma length_app_str a b :
  String.length (String.append a b) = (String.length a + String.length b)%nat.
Proof. induction a as [|c a IH]; simpl; [done|]. by rewrite IH. Qed.

Lemma startswith_app p s : startswith p (String.append p s) = true.
Proof.
  unfold startswith. induction p as [|c p IH]; simpl; [by destruct s|].
  destruct (ascii_dec c c); [done|congruence].
Qed.

Lemma startswith_spec p s :
  startswith p s = true <-> exists t, s = String.append p t.
Proof.
  split.
  - unfold startswith. revert s. induction p as [|c p IH]; intros s H; [by exists s|].
    destruct s as [|c' s]; simpl in H; [done|].
    destruct (ascii_dec c c') as [->|]; [|done].
    apply IH in H as [t ->]. by exists t.
  - intros [t ->]. apply startswith_app.
Qed.

Lemma str_drop_app p s : str_drop (String.length p) (String.append p s) = s.
Proof. induction p as [|c p IH]; simpl; [by destruct s|done]. Qed.

Lemma str_contains_mid p a b :
  str_contains p (String.append a (String.append p b)) = true.
Proof.
  induction a as [|c a IH].
  - cbn [String.append]. destruct p as [|c p]; [by destruct b|].
    cbn [str_contains String.append].
    change (String c (String.append p b)) with (String.append (String c p) b).
    by rewrite startswith_app.
  - cbn [String.append str_contains]. by rewrite IH, orb_true_r.
Qed.

Lemma str_contains_spec p s :
  str_contains p s = true <-> exists a b, s = String.append a (String.append p b).
Proof.
  split; [|intros (a & b & ->); apply str_contains_mid].
  induction s as [|c s IH]; intros H; simpl in H.
  - apply String.eqb_eq in H as ->. by exists EmptyString, EmptyString.
  - apply orb_true_iff in H as [H|H].
    + apply startswith_spec in H as [t Ht]. by exists EmptyString, t.
    + destruct (IH H) as (a & b & ->). by exists (String c a), b.
Qed.

(** Replacing an absent pattern changes nothing. *)
Lemma str_replace_absent old new s :
  str_contains old s = false -> str_replace old new s = s.
Proof.
  unfold str_replace. induction s as [|c s IH]; intros H; [done|].
  cbn [str_contains] in H. apply orb_false_iff in H as [H1 H2].
  cbn [replace_from]. rewrite H1. by rewrite IH.
Qed.

Lemma replace_last_absent old new s :
  str_contains old s = false -> replace_last old new s = s.
Proof.
  destruct s as [|c s]; intros H; [done|].
  cbn [str_contains] in H. apply orb_false_iff in H as [H1 H2].
  cbn [replace_last]. by rewrite H2, H1.
Qed.

(** The occurrence that [replace_last] rewrites is the last one. *)
Lemma replace_last_spec old new a b :
  old <> EmptyString ->
  str_contains old (str_drop 1 (String.append old b)) = false ->
  replace_last old new (String.append a (String.append old b))
  = String.append a (String.append new b).
Proof.
  intros Hne Hlast. induction a as [|c a IH].
  - cbn [String.append]. destruct old as [|c old]; [done|].
    cbn [String.append str_drop] in Hlast |- *. cbn [replace_last].
    rewrite Hlast.
    change (String c (String.append old b)) with (String.append (String c old) b).
    by rewrite startswith_app, str_drop_app.
  - cbn [String.append replace_last]. by rewrite str_contains_mid, IH.
Qed.

Lemma replace_from_skip old new p s :
  replace_from old new (String.length p) (String.append p s) = replace_from old new 0 s.
Proof. induction p as [|c p IH]; simpl; [done|]. by destruct (String.length p). Qed.

(** A pattern at the head of the string is replaced and skipped over. *)
Lemma str_replace_head old new s :
  old <> EmptyString ->
  str_replace old new (String.append old s) = String.append new (str_replace old new s).
Proof.
  intros Hne. destruct old as [|c old]; [done|]. unfold str_replace.
  cbn [String.append replace_from].
  change (String c (String.append old s)) with (String.append (String c old) s).
  rewrite startswith_app. cbn [String.length]. rewrite Nat.sub_1_r. simpl Nat.pred.
  by rewrite replace_from_skip.
Qed.

(** A template that is exactly the placeholder becomes the replacement. *)
Lemma str_replace_whole old new : old <> EmptyString -> str_replace old new old = new.
Proof.
  intros Hne. rewrite <- (app_empty_r old) at 2. rewrite str_replace_head by done.
  apply app_empty_r.
Qed.

(** ** Splitting and stripping *)

Lemma all_chars_app p a b : all_chars p (String.append a b) = (all_chars p a && all_chars p b)%bool.
Proof. induction a as [|c a IH]; simpl; [done|]. by rewrite IH, andb_assoc. Qed.

Lemma all_chars_impl (p q : ascii -> bool) s :
  (forall c, p c = true -> q c = true) -> all_chars p s = true -> all_chars q s = true.
Proof.
  intros H. induction s as [|c s IH]; simpl; [done|]. rewrite !andb_true_iff. naive_solver.
Qed.

Definition not_char (c : ascii) : ascii -> bool := fun c' => negb (Ascii.eqb c' c).

Lemma str_partition_app sep a b : all_chars (not_char sep) a = true ->
  str_partition sep (String.append a (String sep b)) = (a, Some b).
Proof.
  induction a as [|c a IH]; simpl; [by rewrite Ascii.eqb_refl|].
  intros [Hc H]%andb_true_iff. unfold not_char in Hc. destruct (Ascii.eqb c sep); [done|].
  by rewrite IH.
Qed.

Lemma str_split_whole sep s : all_chars (not_char sep) s = true -> str_split sep s = [s].
Proof.
  induction s as [|c s IH]; simpl; [done|]. intros [Hc H]%andb_true_iff.
  unfold not_char in Hc. destruct (Ascii.eqb c sep); [done|]. by rewrite IH.
Qed.

Lemma str_split_app sep a b : all_chars (not_char sep) a = true ->
  str_split sep (String.append a (String sep b)) = a :: str_split sep b.
Proof.
  induction a as [|c a IH]; simpl; [by rewrite Ascii.eqb_refl|].
  intros [Hc H]%andb_true_iff. unfold not_char in Hc. destruct (Ascii.eqb c sep); [done|].
  by rewrite IH.
Qed.

(** [split] undoes [join]. *)
Lemma str_split_join sep l : l <> [] -> Forall (fun s => all_chars (not_char sep) s = true) l ->
  str_split sep (str_join (String sep EmptyString) l) = l.
Proof.
  intros Hne H. induction H as [|x l Hx Hl IH]; [done|]. destruct l as [|y l].
  - by apply str_split_whole.
  - change (str_join (String sep EmptyString) (x :: y :: l))
      with (String.append x (String sep (str_join (String sep EmptyString) (y :: l)))).
    rewrite str_split_app by done. by rewrite IH.
Qed.

Lemma strip_left_id p s : all_chars (fun c => negb (p c)) s = true -> strip_left p s = s.
Proof. destruct s as [|c s]; simpl; [done|]. by destruct (p c). Qed.

Lemma all_chars_list p s : all_chars p s = forallb p (String.list_ascii_of_string s).
Proof. induction s as [|c s IH]; simpl; [done|]. by rewrite IH. Qed.

Lemma all_chars_rev p s : all_chars p (str_rev s) = all_chars p s.
Proof.
  rewrite !all_chars_list. unfold str_rev. rewrite String.list_ascii_of_string_of_list_ascii.
  apply eq_true_iff_eq. rewrite !forallb_forall. split; intros H x Hx; apply H.
  - by rewrite <- in_rev.
  - by apply in_rev.
Qed.

Lemma str_rev_rev s : str_rev (str_rev s) = s.
Proof.
  unfold str_rev. rewrite String.list_ascii_of_string_of_list_ascii, rev_involutive.
  apply String.string_of_list_ascii_of_string.
Qed.

(** Nothing to strip. *)
Lemma strip_by_id p s : all_chars (fun c => negb (p c)) s = true -> strip_by p s = s.
Proof.
  intros H. unfold strip_by. rewrite (strip_left_id p s H).
  rewrite strip_left_id by (by rewrite all_chars_rev). apply str_rev_rev.
Qed.

#[export] Hint Rewrite app_empty_r app_assoc_str str_concat_app : py.
#[export] Hint Resolve str_contains_mid startswith_app : py.

Lemma list_ascii_app a b : String.list_ascii_of_string (a +:+ b)
  = String.list_ascii_of_string a ++ String.list_ascii_of_string b.
Proof. induction a as [|c a IH]; [done|]. cbn. by rewrite IH. Qed.

Lemma string_of_app l1 l2 : String.string_of_list_ascii (l1 ++ l2)
  = String.string_of_list_ascii l1 +:+ String.string_of_list_ascii l2.
Proof. induction l1 as [|c l1 IH]; [done|]. cbn. by rewrite IH. Qed.

Lemma str_rev_app a b : str_rev (a +:+ b) = str_rev b +:+ str_rev a.
Proof. unfold str_rev. by rewrite list_ascii_app, rev_app_distr, string_of_app. Qed.

Lemma str_tail_inj (a b s : string) : a +:+ s = b +:+ s -> a = b.
Proof.
  intros H. apply (f_equal String.list_ascii_of_string) in H. rewrite !list_ascii_app in H.
  apply app_inv_tail in H. apply (f_equal String.string_of_list_ascii) in H.
  by rewrite !String.string_of_list_ascii_of_string in H.
Qed.
