(* ===== verification/PyNum.v ===== *)
(** * Python's dynamic numbers on JSON values

    The model configurations of [model/] and [support/config.py] compute with
    whatever a JSON file holds.  This file gives the operators they use their
    Python meaning on [json]: [==], [<], [min], [max], [*], [//], [%], [int()]
    and truth values, on integers, booleans, binary64 floats and, where Python
    defines them, strings and lists.  The formatting meaning of [%] on strings
    and the comparison of lists are not modelled (they raise here). *)

From Stdlib Require Import SpecFloat Ascii.
From stdpp Require Import base list strings.
From S2P Require Import Prelude PyStr.
Local Open Scope Z_scope.

(** ** Numbers *)

Inductive num : Set := NInt (z : Z) | NFloat (f : pyfloat).

(** A [bool] is an [int]. *)
Definition as_num (v : json) : option num :=
  match v with
  | JInt z => Some (NInt z)
  | JBool b => Some (NInt (Z.b2z b))
  | JFloat f => Some (NFloat f)
  | _ => None
  end.

Definition of_num (n : num) : json :=
  match n with NInt z => JInt z | NFloat f => JFloat f end.

(** An integer against a float: the comparison is exact. *)
Definition compare_Z_float (z : Z) (f : pyfloat) : option comparison :=
  match f with
  | S754_nan => None
  | S754_infinity s => Some (if s then Gt else Lt)
  | S754_zero _ => Some (Z.compare z 0)
  | S754_finite s m e =>
      let m := if s then Zneg m else Zpos m in
      Some (if 0 <=? e then Z.compare z (m * 2 ^ e) else Z.compare (z * 2 ^ (- e)) m)
  end.

Definition num_compare (a b : num) : option comparison :=
  match a, b with
  | NInt a, NInt b => Some (Z.compare a b)
  | NInt a, NFloat b => compare_Z_float a b
  | NFloat a, NInt b => option_map CompOpp (compare_Z_float b a)
  | NFloat a, NFloat b => SFcompare a b
  end.

Definition num_eqb (a b : num) : bool :=
  match num_compare a b with Some Eq => true | _ => false end.
Definition num_ltb (a b : num) : bool :=
  match num_compare a b with Some Lt => true | _ => false end.

(** ** [==] and truth values *)

Definition prim_eq (a b : json) : bool :=
  match a, b with
  | JNull, JNull => true
  | JStr s, JStr t => String.eqb s t
  | _, _ => match as_num a, as_num b with
            | Some x, Some y => num_eqb x y
            | _, _ => false
            end
  end.

(** Lists compare elementwise, dictionaries without regard to order. *)
Fixpoint py_eq (a b : json) : bool :=
  match a, b with
  | JArr l, JArr m =>
      (fix list_eq (l m : list json) : bool :=
         match l, m with
         | [], [] => true
         | x :: l, y :: m => py_eq x y && list_eq l m
         | _, _ => false
         end) l m
  | JObj d, JObj e =>
      Nat.eqb (length d) (length e) &&
      forallb (fun kv => match dict_get e (fst kv) with
                         | Some w => py_eq (snd kv) w
                         | None => false
                         end) d
  | _, _ => prim_eq a b
  end.

Definition is_zero (v : json) : bool := py_eq v (JInt 0).
Definition is_null (v : json) : bool := match v with JNull => true | _ => false end.
(** [v == 0 or v is None], [v is None or v == -1] *)
Definition zero_or_null (v : json) : bool := (is_zero v || is_null v)%bool.
Definition null_or_minus1 (v : json) : bool := (is_null v || py_eq v (JInt (-1)))%bool.

Definition py_truthy (v : json) : bool :=
  match v with
  | JNull => false
  | JBool b => b
  | JInt z => negb (z =? 0)
  | JFloat f => f64_truthy f
  | JStr s => negb (String.eqb s "")
  | JArr l => match l with [] => false | _ => true end
  | JObj d => match d with [] => false | _ => true end
  end.

(** ** Order *)

(** [a < b] *)
Definition py_lt (a b : json) : res bool :=
  match as_num a, as_num b with
  | Some x, Some y => Ok (num_ltb x y)
  | _, _ => match a, b with
            | JStr s, JStr t => Ok (String.ltb s t)
            | _, _ => Raise TypeError
            end
  end.

(** [a > b] *)
Definition py_gt (a b : json) : res bool := py_lt b a.

(** [a <= b]: not the negation of [b < a] on NaN. *)
Definition py_le (a b : json) : res bool :=
  match as_num a, as_num b with
  | Some x, Some y => Ok (num_ltb x y || num_eqb x y)
  | _, _ => match a, b with
            | JStr s, JStr t => Ok (String.leb s t)
            | _, _ => Raise TypeError
            end
  end.

(** [min(a, b)] and [max(a, b)] return the first of equal arguments. *)
Definition py_min (a b : json) : res json :=
  let? lt := py_lt b a in Ok (if lt then b else a).
Definition py_max (a b : json) : res json :=
  let? gt := py_gt b a in Ok (if gt then b else a).

(** [min( *l )] of at least two arguments *)
Fixpoint py_min_list (m : json) (l : list json) : res json :=
  match l with
  | [] => Ok m
  | x :: l => let? m := py_min m x in py_min_list m l
  end.

(** ** Arithmetic *)

Definition ZeroDivisionError : exn := OtherError "ZeroDivisionError".
Definition OverflowError : exn := OtherError "OverflowError".

Definition is_inf (f : pyfloat) : bool :=
  match f with S754_infinity _ => true | _ => false end.

(** [float(n)]: an integer out of range raises. *)
Definition to_float (n : num) : res pyfloat :=
  match n with
  | NFloat f => Ok f
  | NInt z => let f := f64_of_Z z in if is_inf f then Raise OverflowError else Ok f
  end.

Definition is_neg (f : pyfloat) : bool := SFltb f (S754_zero false).

(** C's [fmod], exact. *)
Definition f64_fmod (x y : pyfloat) : pyfloat :=
  match x, y with
  | S754_finite sx mx ex, S754_finite _ my ey =>
      let e := Z.min ex ey in
      let r := (Zpos mx * 2 ^ (ex - e)) mod (Zpos my * 2 ^ (ey - e)) in
      if r =? 0 then S754_zero sx
      else binary_normalize 53 1024 (if sx then - r else r) e sx
  | S754_zero _, S754_finite _ _ _ => x
  | S754_zero _, S754_infinity _ => x
  | S754_finite _ _ _, S754_infinity _ => x
  | _, _ => S754_nan
  end.

Definition f64_floor (x : pyfloat) : pyfloat :=
  match x with
  | S754_finite s m e =>
      if 0 <=? e then x
      else let q := (if s then Zneg m else Zpos m) / 2 ^ (- e) in
           if q =? 0 then S754_zero s else f64_of_Z q
  | _ => x
  end.

Definition f64_sub (a b : pyfloat) : pyfloat := SFsub 53 1024 a b.
Definition f64_half : pyfloat := S754_finite false 4503599627370496 (-53).
Definition f64_copysign0 (f : pyfloat) : pyfloat :=
  match f with
  | S754_zero s | S754_infinity s | S754_finite s _ _ => S754_zero s
  | S754_nan => S754_zero false
  end.

(** CPython's [float_divmod]: quotient and remainder, for a non-zero [wx]. *)
Definition float_divmod (vx wx : pyfloat) : pyfloat * pyfloat :=
  let m := f64_fmod vx wx in
  let div := SFdiv 53 1024 (f64_sub vx m) wx in
  let '(m, div) :=
    if f64_truthy m then
      if Bool.eqb (is_neg wx) (is_neg m) then (m, div)
      else (SFadd 53 1024 m wx, f64_sub div (f64_of_Z 1))
    else (f64_copysign0 wx, div) in
  if f64_truthy div then
    let fl := f64_floor div in
    (if f64_ltb f64_half (f64_sub div fl) then SFadd 53 1024 fl (f64_of_Z 1) else fl, m)
  else (f64_copysign0 (SFdiv 53 1024 vx wx), m).

Definition num_is_zero (n : num) : bool :=
  match n with NInt z => z =? 0 | NFloat f => negb (f64_truthy f) end.

(** [a // b] *)
Definition py_floordiv (a b : json) : res json :=
  match as_num a, as_num b with
  | Some x, Some y =>
      match x, y with
      | NInt x, NInt y => if y =? 0 then Raise ZeroDivisionError else Ok (JInt (x / y))
      | _, _ =>
          let? vx := to_float x in
          let? wx := to_float y in
          if num_is_zero y then Raise ZeroDivisionError
          else Ok (JFloat (fst (float_divmod vx wx)))
      end
  | _, _ => Raise TypeError
  end.

(** [a % b] on numbers *)
Definition py_mod (a b : json) : res json :=
  match as_num a, as_num b with
  | Some x, Some y =>
      match x, y with
      | NInt x, NInt y => if y =? 0 then Raise ZeroDivisionError else Ok (JInt (x mod y))
      | _, _ =>
          let? vx := to_float x in
          let? wx := to_float y in
          if num_is_zero y then Raise ZeroDivisionError
          else Ok (JFloat (snd (float_divmod vx wx)))
      end
  | _, _ => Raise TypeError
  end.

Definition py_repeat (v : json) (n : Z) : res json :=
  match v with
  | JStr s => Ok (JStr (str_concat (repeat s (Z.to_nat n))))
  | JArr l => Ok (JArr (concat (repeat l (Z.to_nat n))))
  | _ => Raise TypeError
  end.

(** [a * b]: a sequence times an integer repeats it. *)
Definition py_mul (a b : json) : res json :=
  match as_num a, as_num b with
  | Some x, Some y =>
      match x, y with
      | NInt x, NInt y => Ok (JInt (x * y))
      | _, _ =>
          let? vx := to_float x in
          let? wx := to_float y in
          Ok (JFloat (SFmul 53 1024 vx wx))
      end
  | Some (NInt x), None => py_repeat b x
  | None, Some (NInt y) => py_repeat a y
  | _, _ => Raise TypeError
  end.

(** [int(a)] of a number: floats are truncated. *)
Definition py_int (a : json) : res json :=
  match as_num a with
  | Some (NInt z) => Ok (JInt z)
  | Some (NFloat f) =>
      match f with
      | S754_nan => Raise (ValueError [Lit "cannot convert float NaN to integer"])
      | S754_infinity _ => Raise OverflowError
      | S754_zero _ => Ok (JInt 0)
      | S754_finite s m e =>
          let n := if 0 <=? e then Zpos m * 2 ^ e else Zpos m / 2 ^ (- e) in
          Ok (JInt (if s then - n else n))
      end
  | None => Raise TypeError
  end.

(** ** Lemmas *)

Lemma num_compare_refl n : num_compare n n = Some Eq \/ num_compare n n = None.
Proof.
  destruct n as [z|f]; simpl; [left; by rewrite Z.compare_refl|].
  destruct f as [s|s| |s m e]; simpl; auto; left.
  - by destruct s.
  - rewrite Z.compare_refl, Pos.compare_cont_refl. by destruct s.
Qed.

Lemma num_ltb_irrefl n : num_ltb n n = false.
Proof. unfold num_ltb. by destruct (num_compare_refl n) as [-> | ->]. Qed.

Lemma str_compare_refl s : String.compare s s = Eq.
Proof. induction s as [|c s IH]; simpl; [done|]. unfold Ascii.compare. by rewrite N.compare_refl. Qed.

Lemma py_lt_irrefl v : py_lt v v <> Ok true.
Proof.
  unfold py_lt. destruct (as_num v) as [n|]; [by rewrite num_ltb_irrefl|].
  destruct v as [| | | |s| |]; try done. unfold String.ltb. by rewrite str_compare_refl.
Qed.

(** What can be compared is not less than itself. *)
Lemma py_lt_self a b r : py_lt a b = Ok r -> py_lt a a = Ok false.
Proof.
  intros H. destruct (py_lt a a) as [[]|e] eqn:E; [by apply py_lt_irrefl in E|done|]. exfalso.
  unfold py_lt in H, E. destruct (as_num a) as [n|]; [done|]. by destruct a.
Qed.

(** [min(a, b)] is never greater than either argument. *)
Lemma py_min_not_gt a b m : py_min a b = Ok m ->
  (m = a /\ py_lt b a = Ok false) \/ (m = b /\ py_lt b a = Ok true).
Proof.
  unfold py_min. intros H. apply rbind_Ok in H as (lt & Hl & [= <-]).
  destruct lt; [by right|by left].
Qed.

Lemma py_floordiv_int x y : y <> 0 -> py_floordiv (JInt x) (JInt y) = Ok (JInt (x / y)).
Proof. intros H. unfold py_floordiv. simpl. by apply Z.eqb_neq in H as ->. Qed.

Lemma py_lt_int x y : py_lt (JInt x) (JInt y) = Ok (x <? y).
Proof. done. Qed.

Lemma is_zero_int z : is_zero (JInt z) = (z =? 0).
Proof.
  unfold is_zero, prim_eq. simpl. unfold num_eqb. simpl.
  destruct (Z.compare_spec z 0) as [->|H|H]; [done|symmetry; apply Z.eqb_neq; lia..].
Qed.

(** ** Examples: the floats behave as in Python *)

Definition fdiv (x y : Z) : pyfloat := SFdiv 53 1024 (f64_of_Z x) (f64_of_Z y).

Example floordiv_float : py_floordiv (JFloat (fdiv 15 2)) (JInt 2) = Ok (JFloat (f64_of_Z 3)).
Proof. reflexivity. Qed.
Example floordiv_neg : py_floordiv (JFloat (fdiv (-15) 2)) (JInt 2) = Ok (JFloat (f64_of_Z (-4))).
Proof. reflexivity. Qed.
Example mod_neg : py_mod (JFloat (fdiv (-15) 2)) (JInt 2) = Ok (JFloat (fdiv 1 2)).
Proof. reflexivity. Qed.
Example int_mul : (let? x := py_mul (JInt 2560) (JFloat (fdiv 7 2)) in py_int x) = Ok (JInt 8960).
Proof. reflexivity. Qed.
Example eq_mixed : py_eq (JInt 10000) (JFloat (f64_of_Z 10000)) = true.
Proof. reflexivity. Qed.
