(* ===== verification/Data.v ===== *)
(** * Multi-modality data and the request stream output ([serve/data.py])

    Prompt items are text, token ids or images.  Image decoding and fetching
    (base64, HTTP, PIL, numpy) is third-party: the class [ImageBackend] names
    what [ImageData.from_url] calls.  [RequestStreamOutput.unpack] turns the
    six fields handed over by the C++ engine into the per-generation outputs. *)

From stdpp Require Import base list strings.
From Stdlib Require Import Ascii.
From S2P Require Import Prelude PyStr.
Local Open Scope Z_scope.
Local Open Scope string_scope.
Local Open Scope list_scope.

(** What [ImageData.from_url] needs from base64, requests, PIL and numpy. *)
Class ImageBackend := {
  ndarray : Type;
  decode_base64_image : string -> res ndarray;
  fetch_http_image : string -> res ndarray;
}.

Section WithImages.
Context `{IB : ImageBackend}.

Record ImageData : Type := mkImageData {
  image : ndarray;
  embed_size : Z;
}.

Inductive Data : Type :=
| TextData (text : string)
| TokenData (token_ids : list Z)
| ImageDataD (img : ImageData).

(** [ImageData.from_url(url, config)] *)
Definition from_url (url : json) (config : dict json) : res ImageData :=
  match url with
  | JStr url =>
      let? image_tensor :=
        if startswith "data:image" url then
          let? base64_image := list_getitem (str_split ","%char url) 1 in
          decode_base64_image base64_image
        else if startswith "http" url then fetch_http_image url
        else Raise (ValueError [Lit "Unsupported image URL format: "; FStr url])
      in
      let? model_type := dict_getitem config "model_type" in
      let image_embed_size :=
        match model_type with
        | JStr t => if String.eqb t "phi3_v" then 1921 else 576
        | _ => 576
        end in
      Ok (mkImageData image_tensor image_embed_size)
  | _ => Raise AttributeError
  end.

End WithImages.

(** [SingleRequestStreamOutput] *)
Record SingleRequestStreamOutput : Type := mkSRSO {
  so_delta_token_ids : list Z;
  so_delta_logprob_json_strs : option (list string);
  so_finish_reason : option string;
  so_request_final_usage_json_str : option string;
  so_extra_prefix_string : string;
}.

(** The six fields returned by [_ffi_api.RequestStreamOutputUnpack]. *)
Record RequestStreamOutput : Type := mkRSO {
  rso_request_id : string;
  rso_group_delta_token_ids : list (list Z);
  rso_group_delta_logprob_json_strs : option (list (list string));
  rso_group_finish_reason : list (option string);
  rso_request_final_usage_json_str : option string;
  rso_group_extra_prefix_string : list string;
}.

(** [zip] of three lists *)
Fixpoint zip3 {A B C} (la : list A) (lb : list B) (lc : list C) : list (A * B * C) :=
  match la, lb, lc with
  | a :: la, b :: lb, c :: lc => (a, b, c) :: zip3 la lb lc
  | _, _, _ => []
  end.

(** [RequestStreamOutput.unpack] *)
Definition unpack (d : RequestStreamOutput) : res (string * list SingleRequestStreamOutput) :=
  match rso_request_final_usage_json_str d with
  | Some usage => Ok (rso_request_id d, [mkSRSO [] None None (Some usage) ""])
  | None =>
      let? stream_outputs :=
        rmap (fun '(i, (delta_token_ids, finish_reason, extra_prefix_string)) =>
                let? delta_logprob_json_strs :=
                  match rso_group_delta_logprob_json_strs d with
                  | Some strs => let? l := list_getitem strs i in Ok (Some l)
                  | None => Ok None
                  end in
                Ok (mkSRSO delta_token_ids delta_logprob_json_strs finish_reason None
                      extra_prefix_string))
             (enumerate (zip3 (rso_group_delta_token_ids d) (rso_group_finish_reason d)
                           (rso_group_extra_prefix_string d))) in
      Ok (rso_request_id d, stream_outputs)
  end.

(** ** Lemmas *)

Lemma zip3_length {A B C} (la : list A) (lb : list B) (lc : list C) :
  length (zip3 la lb lc) = Nat.min (length la) (Nat.min (length lb) (length lc)).
Proof.
  revert lb lc. induction la as [|a la IH]; intros [|b lb] [|c lc]; simpl; try lia.
  by rewrite IH.
Qed.

Lemma length_enumerate {A} (l : list A) : length (enumerate l) = length l.
Proof. unfold enumerate. rewrite length_combine, length_seq. lia. Qed.

(** A successful [unpack] keeps the request id, and yields either the single
    final usage output, or one output per generation of the group. *)
Lemma unpack_shape d rid outs :
  unpack d = Ok (rid, outs) ->
  rid = rso_request_id d /\
  match rso_request_final_usage_json_str d with
  | Some u => outs = [mkSRSO [] None None (Some u) ""]
  | None => Forall (fun o => so_request_final_usage_json_str o = None) outs /\
            length outs = length (zip3 (rso_group_delta_token_ids d)
                                   (rso_group_finish_reason d) (rso_group_extra_prefix_string d))
  end.
Proof.
  unfold unpack. destruct (rso_request_final_usage_json_str d) as [u|]; intros H.
  - by simplify_eq.
  - apply rbind_Ok in H as (outs' & Hm & H). injection H as <- <-.
    split; [done|]. split.
    + apply rmap_Ok in Hm. clear -Hm.
      induction Hm as [|[i [[a b] c]] y l l' Hxy _ IH]; [constructor|].
      constructor; [|done].
      apply rbind_Ok in Hxy as (? & _ & [= <-]). done.
    + erewrite rmap_length by done. apply length_enumerate.
Qed.

#[export] Hint Rewrite @length_enumerate @zip3_length : py.
