(* ===== verification/Conversation.v ===== *)
(** * The conversation protocol ([protocol/conversation_protocol.py])

    A [Conversation] is a prompt template together with the message history;
    [as_prompt] renders it to the list of prompt pieces that the engine
    tokenizes.  Rendering raises exactly as the Python code does. *)

From stdpp Require Import base list strings.
From Stdlib Require Import Ascii.
From S2P Require Import Prelude PyStr Data.
Local Open Scope string_scope.
Local Open Scope list_scope.

(** ** Data *)

Inductive MessagePlaceholders : Set := SYSTEM | USER | ASSISTANT | TOOL | FUNCTION.

#[export] Instance MessagePlaceholders_eq_dec : EqDecision MessagePlaceholders.
Proof. solve_decision. Defined.

(** [p.value] *)
Definition placeholder_value (p : MessagePlaceholders) : string :=
  match p with
  | SYSTEM => "{system_message}"
  | USER => "{user_message}"
  | ASSISTANT => "{assistant_message}"
  | TOOL => "{tool_message}"
  | FUNCTION => "{function_string}"
  end.

(** [MessagePlaceholders[name]] *)
Definition placeholder_getitem (name : string) : res MessagePlaceholders :=
  if String.eqb name "SYSTEM" then Ok SYSTEM
  else if String.eqb name "USER" then Ok USER
  else if String.eqb name "ASSISTANT" then Ok ASSISTANT
  else if String.eqb name "TOOL" then Ok TOOL
  else if String.eqb name "FUNCTION" then Ok FUNCTION
  else Raise (KeyError name).

(** The content of a message, when it is not [None]. *)
Inductive Content : Set :=
| CText (s : string)
| CItems (items : list json).

Definition Message : Set := string * option Content.

Record Conversation : Type := mkConversation {
  conv_name : option string;
  system_template : string;
  system_message : string;
  system_prefix_token_ids : option (list Z);
  add_role_after_system_message : bool;
  roles : dict string;
  role_templates : dict string;
  messages : list Message;
  seps : list string;
  role_content_sep : string;
  role_empty_sep : string;
  conv_stop_str : list string;
  conv_stop_token_ids : list Z;
  function_string : string;
  use_function_calling : bool;
}.

Definition set_system_message (c : Conversation) (s : string) : Conversation :=
  {| conv_name := conv_name c; system_template := system_template c; system_message := s;
     system_prefix_token_ids := system_prefix_token_ids c;
     add_role_after_system_message := add_role_after_system_message c;
     roles := roles c; role_templates := role_templates c; messages := messages c;
     seps := seps c; role_content_sep := role_content_sep c; role_empty_sep := role_empty_sep c;
     conv_stop_str := conv_stop_str c; conv_stop_token_ids := conv_stop_token_ids c;
     function_string := function_string c; use_function_calling := use_function_calling c |}.

(** [conv.messages.append(m)] *)
Definition append_message (c : Conversation) (m : Message) : Conversation :=
  {| conv_name := conv_name c; system_template := system_template c;
     system_message := system_message c;
     system_prefix_token_ids := system_prefix_token_ids c;
     add_role_after_system_message := add_role_after_system_message c;
     roles := roles c; role_templates := role_templates c; messages := messages c ++ [m];
     seps := seps c; role_content_sep := role_content_sep c; role_empty_sep := role_empty_sep c;
     conv_stop_str := conv_stop_str c; conv_stop_token_ids := conv_stop_token_ids c;
     function_string := function_string c; use_function_calling := use_function_calling c |}.

(** [conv.use_function_calling = b; conv.function_string = s], where [None]
    leaves the function string alone. *)
Definition set_function_calling (c : Conversation) (b : bool) (s : option string)
  : Conversation :=
  {| conv_name := conv_name c; system_template := system_template c;
     system_message := system_message c;
     system_prefix_token_ids := system_prefix_token_ids c;
     add_role_after_system_message := add_role_after_system_message c;
     roles := roles c; role_templates := role_templates c; messages := messages c;
     seps := seps c; role_content_sep := role_content_sep c; role_empty_sep := role_empty_sep c;
     conv_stop_str := conv_stop_str c; conv_stop_token_ids := conv_stop_token_ids c;
     function_string := opt_default (function_string c) s; use_function_calling := b |}.

(** The [seps] field validator. *)
Definition check_message_seps (s : list string) : res (list string) :=
  if (Nat.eqb (length s) 0 || Nat.ltb 2 (length s))%bool
  then Raise (ValueError [Lit "seps should have size 1 or 2."])
  else Ok s.

(** [Conversation.__init__]: the default role templates, overridden by the
    given ones; the [seps] validator runs in [super().__init__].  The argument
    carries the other fields. *)
Definition default_role_templates : dict string :=
  [("user", placeholder_value USER); ("assistant", placeholder_value ASSISTANT);
   ("tool", placeholder_value TOOL)].

Definition Conversation_init (role_templates_arg : option (dict string)) (kwargs : Conversation)
  : res Conversation :=
  let _role_templates :=
    match role_templates_arg with
    | Some rt => dict_update default_role_templates rt
    | None => default_role_templates
    end in
  let? s := check_message_seps (seps kwargs) in
  Ok {| conv_name := conv_name kwargs; system_template := system_template kwargs;
        system_message := system_message kwargs;
        system_prefix_token_ids := system_prefix_token_ids kwargs;
        add_role_after_system_message := add_role_after_system_message kwargs;
        roles := roles kwargs; role_templates := _role_templates; messages := messages kwargs;
        seps := s; role_content_sep := role_content_sep kwargs;
        role_empty_sep := role_empty_sep kwargs; conv_stop_str := conv_stop_str kwargs;
        conv_stop_token_ids := conv_stop_token_ids kwargs;
        function_string := function_string kwargs;
        use_function_calling := use_function_calling kwargs |}.

(** ** Rendering *)

Section Rendering.
Context `{IB : ImageBackend}.

(** A piece of the prompt: a string or an image. *)
Inductive Piece : Type :=
| PStr (s : string)
| PImage (i : ImageData).

Definition is_image (p : Piece) : bool :=
  match p with PImage _ => true | PStr _ => false end.

(** [_get_url_from_item] *)
Definition _get_url_from_item (item : dict json) : res json :=
  let? _ := py_assert (dict_has item "image_url") in
  let? u := dict_getitem item "image_url" in
  match u with
  | JStr s => Ok (JStr s)
  | JObj o => let? _ := py_assert (dict_has o "url") in dict_getitem o "url"
  | _ => Raise (ValueError [Lit "Content image_url item type not supported. ";
                            Lit "Should be a string or a dict with a url field."])
  end.

(** [_combine_consecutive_messages]; [last] is [combined_messages[-1]]. *)
Fixpoint combine_loop (last : Piece) (l : list Piece) : list Piece :=
  match l with
  | [] => [last]
  | PStr s :: l =>
      match last with
      | PStr t => combine_loop (PStr (t +:+ s)) l
      | PImage _ => last :: combine_loop (PStr s) l
      end
  | p :: l => last :: combine_loop p l
  end.

Definition _combine_consecutive_messages (l : list Piece) : list Piece :=
  match l with
  | [] => []
  | p :: l => combine_loop p l
  end.

(** [self.role_templates[role].replace(MessagePlaceholders[role.upper()].value, text)] *)
Definition fill_template (self : Conversation) (role text : string) : res string :=
  let? tmpl := dict_getitem (role_templates self) role in
  let? ph := placeholder_getitem (str_upper role) in
  Ok (str_replace (placeholder_value ph) text tmpl).

(** One element of a list-valued content. *)
Definition render_item (self : Conversation) (config : option (dict json)) (role : string)
    (item : json) : res (list Piece) :=
  match item with
  | JObj item =>
      let? _ := py_assert (dict_has item "type") in
      let? ty := dict_getitem item "type" in
      let unsupported := Raise (ValueError [Lit "Unsupported content type"]) in
      match ty with
      | JStr ty =>
          if String.eqb ty "text" then
            let? tmpl := dict_getitem (role_templates self) role in
            let? ph := placeholder_getitem (str_upper role) in
            let? text := dict_getitem item "text" in
            match text with
            | JStr text => Ok [PStr (str_replace (placeholder_value ph) text tmpl)]
            | _ => Raise TypeError
            end
          else if String.eqb ty "image_url" then
            match config with
            | None => Raise AssertionError
            | Some config =>
                let? url := _get_url_from_item item in
                let? img := from_url url config in
                Ok [PImage img; PStr newline]
            end
          else unsupported
      | _ => unsupported
      end
  | _ => Raise AssertionError
  end.

(** The body of the loop over the messages: the pieces it appends. *)
Definition render_message (self : Conversation) (config : option (dict json))
    (separators : list string) (system_msg : string) (i : nat) (m : Message)
  : res (list Piece) :=
  let '(role, content) := m in
  if negb (dict_has (roles self) role)
  then Raise (ValueError [Lit "Role "; FStr dquote; FStr role; FStr dquote;
                          Lit " is not a supported role in ";
                          FStrs (map fst (roles self))])
  else
    let? separator := list_getitem separators (if String.eqb role "assistant" then 1 else 0) in
    let? role_str := dict_getitem (roles self) role in
    match content with
    | None => Ok [PStr (role_str +:+ role_empty_sep self)]
    | Some content =>
        let role_prefix :=
          if (negb (add_role_after_system_message self) && negb (String.eqb system_msg "")
              && Nat.eqb i 0)%bool
          then "" else role_str +:+ role_content_sep self in
        match content with
        | CText text =>
            let? filled := fill_template self role text in
            Ok [PStr (role_prefix +:+ filled +:+ separator)]
        | CItems items =>
            let? pieces := rmap (render_item self config role) items in
            Ok (PStr role_prefix :: concat pieces ++ [PStr separator])
        end
    end.

Fixpoint render_messages (self : Conversation) (config : option (dict json))
    (separators : list string) (system_msg : string) (i : nat) (l : list Message)
  : res (list Piece) :=
  match l with
  | [] => Ok []
  | m :: l =>
      let? ps := render_message self config separators system_msg i m in
      let? rest := render_messages self config separators system_msg (S i) l in
      Ok (ps ++ rest)
  end.

Definition system_msg_of (self : Conversation) : string :=
  str_replace (placeholder_value SYSTEM) (system_message self) (system_template self).

Definition separators_of (self : Conversation) : list string :=
  match seps self with
  | [s] => [s; s]
  | l => l
  end.

(** The last function placeholder becomes the function string, the others
    the empty string. *)
Definition fill_function (fs s : string) : string :=
  str_replace (placeholder_value FUNCTION) ""
    (replace_last (placeholder_value FUNCTION) fs s).

(** [Conversation.as_prompt] *)
Definition as_prompt (self : Conversation) (config : option (dict json)) : res (list Piece) :=
  let system_msg := system_msg_of self in
  let separators := separators_of self in
  let head := if String.eqb system_msg "" then [] else [PStr system_msg] in
  let? rest := render_messages self config separators system_msg 0 (messages self) in
  let message_list := head ++ rest in
  let prompt := _combine_consecutive_messages message_list in
  if existsb is_image message_list then Ok prompt
  else match prompt with
       | [] => Raise IndexError
       | PStr s :: prompt => Ok (PStr (fill_function (function_string self) s) :: prompt)
       | PImage _ :: _ => Raise AttributeError
       end.
End Rendering.

(** ** The invariant of a conversation *)

(** The separators are valid and the three roles of a chat have a template. *)
Definition conv_ok (c : Conversation) : Prop :=
  check_message_seps (seps c) = Ok (seps c) /\
  forall r, In r ["user"; "assistant"; "tool"] -> dict_has (role_templates c) r = true.

(** ** The specification of text-only rendering *)

(** The placeholder a chat role's template carries. *)
Definition role_placeholder (r : string) : string :=
  if String.eqb r "user" then "{user_message}"
  else if String.eqb r "assistant" then "{assistant_message}"
  else "{tool_message}".

Definition chat_role (r : string) : Prop := In r ["user"; "assistant"; "tool"].

(** A message of a chat role the conversation knows, with a text content or
    none. *)
Definition text_message (c : Conversation) (m : Message) : Prop :=
  chat_role (fst m) /\ dict_has (roles c) (fst m) = true /\
  match snd m with Some (CItems _) => False | _ => True end.

Definition role_name (c : Conversation) (r : string) : string :=
  opt_default "" (dict_get (roles c) r).

Definition separator_spec (c : Conversation) (r : string) : string :=
  if String.eqb r "assistant" then List.last (seps c) "" else List.hd "" (seps c).

(** What one message contributes to the prompt. *)
Definition message_text (c : Conversation) (first : bool) (m : Message) : string :=
  let '(r, content) := m in
  match content with
  | Some (CText t) =>
      (if (first && negb (add_role_after_system_message c)
           && negb (String.eqb (system_msg_of c) ""))%bool
       then "" else role_name c r +:+ role_content_sep c)
      +:+ str_replace (role_placeholder r) t (opt_default "" (dict_get (role_templates c) r))
      +:+ separator_spec c r
  | _ => role_name c r +:+ role_empty_sep c
  end.

Fixpoint history_text (c : Conversation) (first : bool) (l : list Message) : string :=
  match l with
  | [] => ""
  | m :: l => message_text c first m +:+ history_text c false l
  end.

(** The prompt text: the system message followed by the history. *)
Definition prompt_text (c : Conversation) : string :=
  system_msg_of c +:+ history_text c true (messages c).

Section Streams.
Context `{IB : ImageBackend}.

(** The prompt as a flat stream of characters and images. *)
Fixpoint chars_then (s : string) (k : list (ascii + ImageData)) : list (ascii + ImageData) :=
  match s with
  | EmptyString => k
  | String c s => inl c :: chars_then s k
  end.

Fixpoint stream (l : list Piece) : list (ascii + ImageData) :=
  match l with
  | [] => []
  | PStr s :: l => chars_then s (stream l)
  | PImage i :: l => inr i :: stream l
  end.

(** No two adjacent strings. *)
Fixpoint separated (l : list Piece) : Prop :=
  match l with
  | PStr _ :: (PStr _ :: _) => False
  | _ :: l => separated l
  | [] => True
  end.

End Streams.

(** ** A two-turn chat in a Llama-2 style template, for the witnesses *)

Module ConversationDemo.
#[export] Instance demo_images : ImageBackend :=
  {| ndarray := string; decode_base64_image := Ok; fetch_http_image := Ok |}.

Definition base : Conversation :=
  {| conv_name := Some "demo"; system_template := "<<SYS>>{system_message}<</SYS>>";
     system_message := "Be kind."; system_prefix_token_ids := None;
     add_role_after_system_message := false; roles := [("user", "[INST]"); ("assistant", "[/INST]")];
     role_templates := []; messages := []; seps := [" "; "</s>"]; role_content_sep := " ";
     role_empty_sep := " "; conv_stop_str := ["</s>"]; conv_stop_token_ids := [2%Z];
     function_string := ""; use_function_calling := false |}.

Definition conv : Conversation :=
  match Conversation_init None base with Ok c => c | Raise _ => base end.

Definition chat : Conversation :=
  append_message (append_message (append_message (append_message conv
    ("user", Some (CText "Hi"))) ("assistant", Some (CText "Hello")))
    ("user", Some (CText "Bye"))) ("assistant", None).

End ConversationDemo.

(** ** The invariant is established and preserved *)

Lemma conv_ok_init rt kw c : Conversation_init rt kw = Ok c -> conv_ok c.
Proof.
  unfold Conversation_init. intros H. apply rbind_Ok in H as (s & Hs & [= <-]).
  assert (s = seps kw) as -> by
    (revert Hs; unfold check_message_seps; case_match; [done|by intros [= ->]]).
  split; simpl; [done|].
  intros r Hr. destruct rt as [rt|]; [rewrite dict_has_update|];
    destruct Hr as [<-|[<-|[<-|[]]]]; done.
Qed.

Lemma conv_ok_system c s : conv_ok c -> conv_ok (set_system_message c s).
Proof. done. Qed.
Lemma conv_ok_append c m : conv_ok c -> conv_ok (append_message c m).
Proof. done. Qed.
Lemma conv_ok_function c b s : conv_ok c -> conv_ok (set_function_calling c b s).
Proof. done. Qed.

Create HintDb conv.
#[export] Hint Resolve conv_ok_system conv_ok_append conv_ok_function : conv.

(** The separators as the loop sees them: always a pair. *)
Lemma separators_of_ok c :
  conv_ok c -> exists s0 s1, separators_of c = [s0; s1].
Proof.
  intros [H _]. unfold check_message_seps in H. unfold separators_of.
  destruct (seps c) as [|a [|b [|d l]]]; try done; eauto.
Qed.

(** ** Lemmas on the pieces *)

Section PieceLemmas.
Context `{IB : ImageBackend}.

Lemma chars_then_app s t k : chars_then (s +:+ t) k = chars_then s (chars_then t k).
Proof. induction s as [|c s IH]; simpl; [done|]. by rewrite IH. Qed.

Lemma combine_loop_stream last l : stream (combine_loop last l) = stream (last :: l).
Proof.
  revert last. induction l as [|[s|i] l IH]; intros last; [done| |].
  - destruct last as [t|j]; simpl combine_loop.
    + rewrite IH. simpl. apply chars_then_app.
    + simpl. by rewrite IH.
  - simpl. destruct last; simpl; by rewrite IH.
Qed.

(** The head of a combined list is a string exactly when the first piece is. *)
Lemma combine_loop_head last l :
  exists p r, combine_loop last l = p :: r /\ is_image p = is_image last.
Proof.
  revert last. induction l as [|[s|i] l IH]; intros last; simpl; [eauto| |].
  - destruct last as [t|j]; [|eauto]. destruct (IH (PStr (t +:+ s))) as (p & r & -> & H).
    eauto.
  - destruct last; eauto.
Qed.

Lemma separated_cons_image p l :
  separated l -> (is_image p = true \/ match l with PStr _ :: _ => False | _ => True end) ->
  separated (p :: l).
Proof. destruct p, l as [|[]]; simpl; naive_solver. Qed.

Lemma combine_loop_separated last l : separated (combine_loop last l).
Proof.
  revert last. induction l as [|[s|i] l IH]; intros last; simpl; [by destruct last| |].
  - destruct last as [t|j]; [apply IH|]. apply separated_cons_image; [apply IH|by left].
  - destruct (combine_loop_head (PImage i) l) as (p & r & Hl & Hp).
    assert (separated (last :: combine_loop (PImage i) l)) as Hs.
    { apply separated_cons_image; [apply IH|]. right. rewrite Hl. by destruct p. }
    by destruct last.
Qed.

(** Strings only: they collapse to one string. *)
Lemma combine_loop_text t l :
  combine_loop (PStr t) (map PStr l) = [PStr (t +:+ str_concat l)].
Proof.
  revert t. induction l as [|s l IH]; intros t; simpl; [by rewrite app_empty_r|].
  by rewrite IH, app_assoc_str.
Qed.

Lemma combine_text l :
  l <> [] -> _combine_consecutive_messages (map PStr l) = [PStr (str_concat l)].
Proof. destruct l as [|s l]; [done|]. intros _. apply combine_loop_text. Qed.

Lemma existsb_text l : existsb is_image (map PStr l) = false.
Proof. by induction l. Qed.
End PieceLemmas.

(** ** Rendering lemmas *)

Section RenderLemmas.
Context `{IB : ImageBackend}.

Lemma chat_role_placeholder r :
  chat_role r -> exists ph, placeholder_getitem (str_upper r) = Ok ph /\
                            placeholder_value ph = role_placeholder r.
Proof. intros [<-|[<-|[<-|[]]]]; eexists; split; reflexivity. Qed.

Lemma dict_getitem_has {V} (d : dict V) k dflt :
  dict_has d k = true -> dict_getitem d k = Ok (opt_default dflt (dict_get d k)).
Proof. unfold dict_has, dict_getitem. by destruct (dict_get d k). Qed.

Lemma fill_template_ok c r t :
  conv_ok c -> chat_role r ->
  fill_template c r t
  = Ok (str_replace (role_placeholder r) t (opt_default "" (dict_get (role_templates c) r))).
Proof.
  intros [_ Ht] Hr. unfold fill_template.
  rewrite (dict_getitem_has _ _ "") by auto. simpl.
  destruct (chat_role_placeholder r Hr) as (ph & -> & Hph). simpl. by rewrite Hph.
Qed.

Lemma separator_ok c r :
  conv_ok c ->
  list_getitem (separators_of c) (if String.eqb r "assistant" then 1 else 0)
  = Ok (separator_spec c r).
Proof.
  intros [H _]. unfold separators_of, separator_spec. unfold check_message_seps in H.
  destruct (seps c) as [|a [|b [|d l]]]; try done; by destruct (String.eqb r "assistant").
Qed.

Lemma render_text_message c cfg i m :
  conv_ok c -> text_message c m ->
  render_message c cfg (separators_of c) (system_msg_of c) i m
  = Ok [PStr (message_text c (Nat.eqb i 0) m)].
Proof.
  intros Hc (Hr & Hk & Ht). destruct m as [r content]; simpl in *.
  rewrite Hk. cbn [negb]. rewrite separator_ok by done. cbn [rbind].
  rewrite (dict_getitem_has _ _ "") by done. cbn [rbind].
  destruct content as [[t|items]|]; [|done|done].
  rewrite fill_template_ok by done. cbn [rbind]. unfold role_name.
  by destruct (add_role_after_system_message c), (String.eqb (system_msg_of c) ""), (Nat.eqb i 0).
Qed.

Lemma render_text_messages c cfg i l :
  conv_ok c -> Forall (text_message c) l ->
  exists ss, render_messages c cfg (separators_of c) (system_msg_of c) i l
             = Ok (map PStr ss)
             /\ str_concat ss = history_text c (Nat.eqb i 0) l /\ length ss = length l.
Proof.
  intros Hc Hl. revert i. induction Hl as [|m l Hm _ IH]; intros i; simpl; [by exists []|].
  rewrite render_text_message by done. cbn [rbind].
  destruct (IH (S i)) as (ss & -> & Hs & Hlen). simpl.
  exists (message_text c (Nat.eqb i 0) m :: ss). simpl. by rewrite Hs, Hlen.
Qed.

Lemma render_messages_unknown_role c cfg i l1 r x l2 :
  conv_ok c -> Forall (text_message c) l1 -> dict_has (roles c) r = false ->
  render_messages c cfg (separators_of c) (system_msg_of c) i (l1 ++ (r, x) :: l2)
  = Raise (ValueError [Lit "Role "; FStr dquote; FStr r; FStr dquote;
                       Lit " is not a supported role in "; FStrs (map fst (roles c))]).
Proof.
  intros Hc Hl Hr. revert i. induction Hl as [|m l Hm _ IH]; intros i.
  - simpl. by rewrite Hr.
  - cbn [app render_messages]. rewrite render_text_message by done. simpl. by rewrite IH.
Qed.
(** A text-only conversation renders to one string. *)
Lemma as_prompt_text_one c cfg :
  conv_ok c -> Forall (text_message c) (messages c) -> messages c <> [] ->
  as_prompt c cfg = Ok [PStr (fill_function (function_string c) (prompt_text c))].
Proof.
  intros Hc Hl Hne. unfold as_prompt, prompt_text.
  destruct (render_text_messages c cfg 0 (messages c) Hc Hl) as (ss & -> & Hs & Hlen).
  cbn [rbind Nat.eqb] in *. destruct ss as [|s ss]; [by destruct (messages c)|].
  rewrite <- Hs. destruct (String.eqb_spec (system_msg_of c) "") as [He|Hn].
  - cbn [app]. by rewrite existsb_text, combine_text, He.
  - change ([PStr (system_msg_of c)] ++ map PStr (s :: ss))
      with (map PStr (system_msg_of c :: s :: ss)).
    by rewrite existsb_text, combine_text.
Qed.
End RenderLemmas.

(** ** Theorems *)

Section Theorems.
Context `{IB : ImageBackend}.

(** C34: rendering refines its specification.  A well-formed conversation
    whose history holds only texts for known chat roles renders, without
    an exception, to exactly one string: the system message followed by
    every message with its role prefix, filled template and separator (or
    the role and empty separator for a message without content), with the
    function placeholders then filled. *)
Theorem as_prompt_text (c : Conversation) (cfg : option (dict json)) :
  conv_ok c -> Forall (text_message c) (messages c) -> messages c <> [] ->
  as_prompt c cfg = Ok [PStr (fill_function (function_string c) (prompt_text c))].
Proof. apply as_prompt_text_one. Qed.

(** A message of a role that the conversation does not list raises
    [ValueError] naming the role and the supported ones, whatever its
    content, provided the messages before it render. *)
Theorem as_prompt_unknown_role (c : Conversation) (cfg : option (dict json)) l1 r x l2 :
  conv_ok c -> messages c = l1 ++ (r, x) :: l2 -> Forall (text_message c) l1 ->
  dict_has (roles c) r = false ->
  as_prompt c cfg
  = Raise (ValueError [Lit "Role "; FStr dquote; FStr r; FStr dquote;
                       Lit " is not a supported role in "; FStrs (map fst (roles c))]).
Proof.
  intros Hc Hm Hl Hr. unfold as_prompt.
  by rewrite Hm, render_messages_unknown_role.
Qed.

(** Combining adjacent strings changes nothing that the engine sees: the
    stream of characters and images is the same, and no two strings are
    adjacent afterwards. *)
Theorem combine_consecutive_spec (l : list Piece) :
  stream (_combine_consecutive_messages l) = stream l /\
  separated (_combine_consecutive_messages l).
Proof.
  destruct l as [|p l]; [done|].
  split; [apply combine_loop_stream | apply combine_loop_separated].
Qed.
End Theorems.

(** ** Witnesses *)

Module ConversationWitness.
Import ConversationDemo.

Lemma conv_is_ok : conv_ok conv.
Proof. apply (conv_ok_init None base). reflexivity. Qed.

Lemma chat_is_ok : conv_ok chat.
Proof. exact conv_is_ok. Qed.

Lemma chat_text : Forall (text_message chat) (messages chat).
Proof. repeat (constructor; [unfold text_message, chat_role; simpl; tauto|]). constructor. Qed.

Example as_prompt_text_witness :
  as_prompt chat None
  = Ok [PStr "<<SYS>>Be kind.<</SYS>>Hi [/INST] Hello</s>[INST] Bye [/INST] "].
Proof.
  exact (as_prompt_text chat None chat_is_ok chat_text ltac:(done)).
Defined.

Example as_prompt_unknown_role_witness :
  as_prompt (append_message chat ("narrator", Some (CText "..."))) None
  = Raise (ValueError [Lit "Role "; FStr dquote; FStr "narrator"; FStr dquote;
                       Lit " is not a supported role in "; FStrs ["user"; "assistant"]]).
Proof.
  exact (as_prompt_unknown_role _ None (messages chat) "narrator" (Some (CText "...")) []
           (conv_ok_append _ _ chat_is_ok) eq_refl chat_text eq_refl).
Defined.
End ConversationWitness.
