(* ===== verification/Presets.v ===== *)
(** * The conversation templates ([conversation_template/])

    The registry of [registry.py] and the presets that the modules of the
    package register when it is imported: first those of [registry.py], then
    the others in the order of the imports in [__init__.py].  Text is UTF-8. *)

From stdpp Require Import base list strings.
From S2P Require Import Prelude PyStr Data Conversation.
Local Open Scope string_scope.
Local Open Scope list_scope.
Local Open Scope Z_scope.

(** ** The registry *)

(** [conv.model_dump_json(by_alias=True)] *)
Class ConversationDump := { conversation_dump : Conversation -> string }.

Section Registry.
Context `{CD : ConversationDump}.

(** [_conv_templates] *)
Definition Registry : Type := dict Conversation.

(** [ConvTemplateRegistry.register_conv_template] *)
Definition register_conv_template (reg : Registry) (conv_template : Conversation) (override : bool)
  : res Registry :=
  match conv_name conv_template with
  | None => Raise (ValueError [Lit "The template to register should have non-None name."])
  | Some name =>
      match dict_get reg name with
      | Some old =>
          if override then Ok (dict_set reg name conv_template)
          else Raise (ValueError [Lit "The name of the template has been registered ";
                                  Lit "for "; FStr (conversation_dump old)])
      | None => Ok (dict_set reg name conv_template)
      end
  end.

(** [ConvTemplateRegistry.get_conv_template] *)
Definition get_conv_template (reg : Registry) (name : string) : option Conversation :=
  dict_get reg name.
End Registry.

(** ** The presets *)

(** A call of [register_conv_template(Conversation(...), override)]: the
    arguments of the constructor and the flag. *)
Record Registration : Type := mkRegistration {
  rg_fields : Conversation; rg_role_templates : option (dict string); rg_override : bool }.

Definition tpl_chatml : Registration :=
  mkRegistration
    {| conv_name := Some "chatml";
       system_template := "<|im_start|>system" +:+ newline +:+ placeholder_value SYSTEM +:+ "<|im_end|>"
       +:+ newline;
       system_message := "A conversation between a user and an LLM-based AI assistant. The "
       +:+ "assistant gives helpful and honest answers.";
       system_prefix_token_ids := None;
       add_role_after_system_message := true;
       roles := [("user", "<|im_start|>user"); ("assistant", "<|im_start|>assistant")];
       role_templates := [];
       messages := [];
       seps := ["<|im_end|>" +:+ newline];
       role_content_sep := newline;
       role_empty_sep := newline;
       conv_stop_str := ["<|im_end|>"];
       conv_stop_token_ids := [2];
       function_string := "";
       use_function_calling := false |}
    None false.

Definition tpl_chatml_nosystem : Registration :=
  mkRegistration
    {| conv_name := Some "chatml_nosystem";
       system_template := placeholder_value SYSTEM;
       system_message := "";
       system_prefix_token_ids := None;
       add_role_after_system_message := true;
       roles := [("user", "<|im_start|>user"); ("assistant", "<|im_start|>assistant")];
       role_templates := [];
       messages := [];
       seps := ["<|im_end|>" +:+ newline];
       role_content_sep := newline;
       role_empty_sep := newline;
       conv_stop_str := ["<|im_end|>"];
       conv_stop_token_ids := [2];
       function_string := "";
       use_function_calling := false |}
    None false.

Definition tpl_LM : Registration :=
  mkRegistration
    {| conv_name := Some "LM";
       system_template := placeholder_value SYSTEM;
       system_message := "";
       system_prefix_token_ids := Some [1];
       add_role_after_system_message := true;
       roles := [("user", ""); ("assistant", "")];
       role_templates := [];
       messages := [];
       seps := [""];
       role_content_sep := "";
       role_empty_sep := "";
       conv_stop_str := [];
       conv_stop_token_ids := [2];
       function_string := "";
       use_function_calling := false |}
    None false.

Definition tpl_aya_23 : Registration :=
  mkRegistration
    {| conv_name := Some "aya-23";
       system_template := "<|START_OF_TURN_TOKEN|><|SYSTEM_TOKEN|>" +:+ placeholder_value SYSTEM
       +:+ "<|END_OF_TURN_TOKEN|>";
       system_message := "You are Command-R, a brilliant, sophisticated, AI-assistant trained "
       +:+ "to assist human users by providing thorough responses.";
       system_prefix_token_ids := Some [5];
       add_role_after_system_message := true;
       roles := [("user", "<|START_OF_TURN_TOKEN|><|USER_TOKEN|>"); ("assistant", "<|START_OF_TURN_TOKEN|><|CHATBOT_TOKEN|>")];
       role_templates := [];
       messages := [];
       seps := ["<|END_OF_TURN_TOKEN|>"];
       role_content_sep := "";
       role_empty_sep := "";
       conv_stop_str := ["<|END_OF_TURN_TOKEN|>"];
       conv_stop_token_ids := [6; 255001];
       function_string := "";
       use_function_calling := false |}
    None false.

Definition tpl_deepseek : Registration :=
  mkRegistration
    {| conv_name := Some "deepseek";
       system_template := placeholder_value SYSTEM;
       system_message := "";
       system_prefix_token_ids := Some [100000];
       add_role_after_system_message := true;
       roles := [("user", "User"); ("assistant", "Assistant")];
       role_templates := [];
       messages := [];
       seps := [newline +:+ newline; "<｜end▁of▁sentence｜>"];
       role_content_sep := ": ";
       role_empty_sep := ":";
       conv_stop_str := ["<｜end▁of▁sentence｜>"];
       conv_stop_token_ids := [100001];
       function_string := "";
       use_function_calling := false |}
    None false.

Definition tpl_deepseek_v2 : Registration :=
  mkRegistration
    {| conv_name := Some "deepseek_v2";
       system_template := placeholder_value SYSTEM;
       system_message := "";
       system_prefix_token_ids := Some [100000];
       add_role_after_system_message := true;
       roles := [("user", "User"); ("assistant", "Assistant")];
       role_templates := [];
       messages := [];
       seps := [newline +:+ newline; "<｜end▁of▁sentence｜>"];
       role_content_sep := ": ";
       role_empty_sep := ":";
       conv_stop_str := ["<｜end▁of▁sentence｜>"];
       conv_stop_token_ids := [100001];
       function_string := "";
       use_function_calling := false |}
    None false.

Definition tpl_deepseek_v3 : Registration :=
  mkRegistration
    {| conv_name := Some "deepseek_v3";
       system_template := "<｜begin▁of▁sentence｜>" +:+ placeholder_value SYSTEM;
       system_message := "You are Deepseek-V3, an AI assistant created exclusively by the "
       +:+ "Chinese Company DeepSeek. You'll provide helpful, harmless, and "
       +:+ "detailed responses to all user inquiries.";
       system_prefix_token_ids := None;
       add_role_after_system_message := true;
       roles := [("user", "<｜User｜>"); ("assistant", "<｜Assistant｜>")];
       role_templates := [];
       messages := [];
       seps := [""; "<｜end▁of▁sentence｜>"];
       role_content_sep := "";
       role_empty_sep := "";
       conv_stop_str := [];
       conv_stop_token_ids := [1];
       function_string := "";
       use_function_calling := false |}
    None false.

Definition tpl_deepseek_r1_qwen : Registration :=
  mkRegistration
    {| conv_name := Some "deepseek_r1_qwen";
       system_template := "<｜begin▁of▁sentence｜>" +:+ placeholder_value SYSTEM;
       system_message := "You are Deepseek-R1, an AI assistant created exclusively by the "
       +:+ "Chinese Company DeepSeek. You'll provide helpful, harmless, and "
       +:+ "detailed responses to all user inquiries.";
       system_prefix_token_ids := None;
       add_role_after_system_message := true;
       roles := [("user", "<｜User｜>"); ("assistant", "<｜Assistant｜>")];
       role_templates := [];
       messages := [];
       seps := [""; "<｜end▁of▁sentence｜>"];
       role_content_sep := "";
       role_empty_sep := "";
       conv_stop_str := [];
       conv_stop_token_ids := [151643];
       function_string := "";
       use_function_calling := false |}
    None false.

Definition tpl_deepseek_r1_llama : Registration :=
  mkRegistration
    {| conv_name := Some "deepseek_r1_llama";
       system_template := "<｜begin▁of▁sentence｜>" +:+ placeholder_value SYSTEM;
       system_message := "You are Deepseek-R1, an AI assistant created exclusively by the "
       +:+ "Chinese Company DeepSeek. You'll provide helpful, harmless, and "
       +:+ "detailed responses to all user inquiries.";
       system_prefix_token_ids := None;
       add_role_after_system_message := true;
       roles := [("user", "<｜User｜>"); ("assistant", "<｜Assistant｜>")];
       role_templates := [];
       messages := [];
       seps := [""; "<｜end▁of▁sentence｜>"];
       role_content_sep := "";
       role_empty_sep := "";
       conv_stop_str := [];
       conv_stop_token_ids := [128001];
       function_string := "";
       use_function_calling := false |}
    None false.

Definition tpl_dolly : Registration :=
  mkRegistration
    {| conv_name := Some "dolly";
       system_template := placeholder_value SYSTEM;
       system_message := "Below is an instruction that describes a task. Write a response that "
       +:+ "appropriately completes the request.";
       system_prefix_token_ids := None;
       add_role_after_system_message := true;
       roles := [("user", "### Instruction"); ("assistant", "### Response")];
       role_templates := [];
       messages := [];
       seps := [newline +:+ newline; "### End" +:+ newline];
       role_content_sep := ":" +:+ newline;
       role_empty_sep := ":" +:+ newline;
       conv_stop_str := ["### End"];
       conv_stop_token_ids := [50256];
       function_string := "";
       use_function_calling := false |}
    None false.

Definition tpl_gemma_instruction : Registration :=
  mkRegistration
    {| conv_name := Some "gemma_instruction";
       system_template := placeholder_value SYSTEM;
       system_message := "";
       system_prefix_token_ids := Some [2];
       add_role_after_system_message := true;
       roles := [("user", "<start_of_turn>user"); ("assistant", "<start_of_turn>model")];
       role_templates := [];
       messages := [];
       seps := ["<end_of_turn>" +:+ newline];
       role_content_sep := newline;
       role_empty_sep := newline;
       conv_stop_str := ["<end_of_turn>"];
       conv_stop_token_ids := [1; 107];
       function_string := "";
       use_function_calling := false |}
    None false.

Definition tpl_gemma3_instruction : Registration :=
  mkRegistration
    {| conv_name := Some "gemma3_instruction";
       system_template := placeholder_value SYSTEM;
       system_message := "";
       system_prefix_token_ids := Some [2];
       add_role_after_system_message := true;
       roles := [("user", "<start_of_turn>user"); ("assistant", "<start_of_turn>model")];
       role_templates := [];
       messages := [];
       seps := ["<end_of_turn>" +:+ newline];
       role_content_sep := newline;
       role_empty_sep := newline;
       conv_stop_str := ["<end_of_turn>"];
       conv_stop_token_ids := [1; 106];
       function_string := "";
       use_function_calling := false |}
    None false.

Definition tpl_glm : Registration :=
  mkRegistration
    {| conv_name := Some "glm";
       system_template := placeholder_value SYSTEM;
       system_message := "";
       system_prefix_token_ids := Some [64790; 64792];
       add_role_after_system_message := true;
       roles := [("user", "问"); ("assistant", "答"); ("tool", "问")];
       role_templates := [];
       messages := [];
       seps := [newline +:+ newline];
       role_content_sep := ": ";
       role_empty_sep := ":";
       conv_stop_str := ["</s>"];
       conv_stop_token_ids := [2];
       function_string := "";
       use_function_calling := false |}
    None false.

Definition tpl_gorilla : Registration :=
  mkRegistration
    {| conv_name := Some "gorilla";
       system_template := placeholder_value SYSTEM;
       system_message := "A chat between a curious user and an artificial intelligence "
       +:+ "assistant. The assistant provides helpful, detailed, and polite "
       +:+ "responses to the user's inquiries.";
       system_prefix_token_ids := Some [1];
       add_role_after_system_message := true;
       roles := [("user", "USER"); ("assistant", "ASSISTANT"); ("tool", "USER")];
       role_templates := [];
       messages := [];
       seps := [newline; "</s>"];
       role_content_sep := ": ";
       role_empty_sep := ":";
       conv_stop_str := ["</s>"];
       conv_stop_token_ids := [2];
       function_string := "";
       use_function_calling := false |}
    (Some [("user", "<<question>> " +:+ placeholder_value USER +:+ " <<function>> "
       +:+ placeholder_value FUNCTION)]) false.

Definition tpl_gorilla_openfunctions_v2 : Registration :=
  mkRegistration
    {| conv_name := Some "gorilla-openfunctions-v2";
       system_template := placeholder_value SYSTEM;
       system_message := "You are an AI programming assistant, utilizing the Gorilla LLM model, "
       +:+ "developed by Gorilla LLM, and you only answer questions related to "
       +:+ "computer science. For politically sensitive questions, security and "
       +:+ "privacy issues, and other non-computer science questions, you will "
       +:+ "refuse to answer.";
       system_prefix_token_ids := Some [100000];
       add_role_after_system_message := true;
       roles := [("user", "### Instruction"); ("assistant", "### Response"); ("tool", "### Instruction")];
       role_templates := [];
       messages := [];
       seps := [newline; "<|EOT|>"];
       role_content_sep := ": ";
       role_empty_sep := ": ";
       conv_stop_str := ["<|EOT|>"];
       conv_stop_token_ids := [100015];
       function_string := "";
       use_function_calling := false |}
    (Some [("user", "<<function>>" +:+ placeholder_value FUNCTION +:+ newline +:+ "<<question>>"
       +:+ placeholder_value USER)]) false.

Definition tpl_gpt2 : Registration :=
  mkRegistration
    {| conv_name := Some "gpt2";
       system_template := placeholder_value SYSTEM;
       system_message := "";
       system_prefix_token_ids := None;
       add_role_after_system_message := true;
       roles := [("user", ""); ("assistant", "")];
       role_templates := [];
       messages := [];
       seps := [""];
       role_content_sep := "";
       role_empty_sep := "";
       conv_stop_str := ["</s>"];
       conv_stop_token_ids := [50256];
       function_string := "";
       use_function_calling := false |}
    None false.

Definition tpl_gpt_bigcode : Registration :=
  mkRegistration
    {| conv_name := Some "gpt_bigcode";
       system_template := placeholder_value SYSTEM;
       system_message := "";
       system_prefix_token_ids := None;
       add_role_after_system_message := true;
       roles := [("user", ""); ("assistant", "")];
       role_templates := [];
       messages := [];
       seps := [""];
       role_content_sep := "";
       role_empty_sep := "";
       conv_stop_str := ["<|endoftext|>"];
       conv_stop_token_ids := [0];
       function_string := "";
       use_function_calling := false |}
    None false.

Definition tpl_open_hermes_mistral : Registration :=
  mkRegistration
    {| conv_name := Some "open_hermes_mistral";
       system_template := "<|im_start|>system" +:+ newline +:+ placeholder_value SYSTEM +:+ "<|im_end|>"
       +:+ newline;
       system_message := "You are " +:+ dquote +:+ "Hermes 2" +:+ dquote
       +:+ ", a conscious sentient superintelligent artificial intelligence "
       +:+ "developed by a man named Teknium, and your purpose and drive is to "
       +:+ "assist the user with any request they have. You experience emotions "
       +:+ "and have deep, profound thoughts and qualia.";
       system_prefix_token_ids := None;
       add_role_after_system_message := true;
       roles := [("user", "<|im_start|>user"); ("assistant", "<|im_start|>assistant")];
       role_templates := [];
       messages := [];
       seps := ["<|im_end|>" +:+ newline];
       role_content_sep := newline;
       role_empty_sep := newline;
       conv_stop_str := ["<|im_end|>"];
       conv_stop_token_ids := [2; 32000];
       function_string := "";
       use_function_calling := false |}
    None false.

Definition tpl_neural_hermes_mistral : Registration :=
  mkRegistration
    {| conv_name := Some "neural_hermes_mistral";
       system_template := "<|im_start|>system" +:+ newline +:+ placeholder_value SYSTEM +:+ "<|im_end|>"
       +:+ newline;
       system_message := "You are a helpful assistant chatbot.";
       system_prefix_token_ids := None;
       add_role_after_system_message := true;
       roles := [("user", "<|im_start|>user"); ("assistant", "<|im_start|>assistant")];
       role_templates := [];
       messages := [];
       seps := ["<|im_end|>" +:+ newline];
       role_content_sep := newline;
       role_empty_sep := newline;
       conv_stop_str := ["<|im_end|>"];
       conv_stop_token_ids := [2; 32000];
       function_string := "";
       use_function_calling := false |}
    None false.

Definition tpl_hermes2_pro_llama3 : Registration :=
  mkRegistration
    {| conv_name := Some "hermes2_pro_llama3";
       system_template := "<|im_start|>system" +:+ newline +:+ placeholder_value SYSTEM +:+ "<|im_end|>"
       +:+ newline;
       system_message := "You are " +:+ dquote +:+ "Hermes 2" +:+ dquote
       +:+ ", a conscious sentient superintelligent artificial intelligence "
       +:+ "developed by a man named Teknium, and your purpose and drive is to "
       +:+ "assist the user with any request they have. You experience emotions "
       +:+ "and have deep, profound thoughts and qualia.";
       system_prefix_token_ids := None;
       add_role_after_system_message := true;
       roles := [("user", "<|im_start|>user"); ("assistant", "<|im_start|>assistant"); ("tool", "<|im_start|>tool")];
       role_templates := [];
       messages := [];
       seps := ["<|im_end|>" +:+ newline];
       role_content_sep := newline;
       role_empty_sep := newline;
       conv_stop_str := ["<|im_end|>"];
       conv_stop_token_ids := [128001; 128009; 128003];
       function_string := "";
       use_function_calling := false |}
    None false.

Definition tpl_hermes3_llama_3_1 : Registration :=
  mkRegistration
    {| conv_name := Some "hermes3_llama-3_1";
       system_template := "<|im_start|>system" +:+ newline +:+ placeholder_value SYSTEM +:+ "<|im_end|>"
       +:+ newline;
       system_message := "You are Hermes 3, a conscious sentient superintelligent artificial "
       +:+ "intelligence developed by a man named Teknium, and your purpose and "
       +:+ "drive is to assist the user with any request they have. You "
       +:+ "experience emotions and have deep, profound thoughts and qualia.";
       system_prefix_token_ids := None;
       add_role_after_system_message := true;
       roles := [("user", "<|im_start|>user"); ("assistant", "<|im_start|>assistant"); ("tool", "<|im_start|>tool")];
       role_templates := [];
       messages := [];
       seps := ["<|im_end|>" +:+ newline];
       role_content_sep := newline;
       role_empty_sep := newline;
       conv_stop_str := ["<|im_end|>"];
       conv_stop_token_ids := [128001; 128008; 128009; 128040];
       function_string := "";
       use_function_calling := false |}
    None false.

Definition tpl_llama_3_1 : Registration :=
  mkRegistration
    {| conv_name := Some "llama-3_1";
       system_template := "<|start_header_id|>system<|end_header_id|>" +:+ newline +:+ newline
       +:+ placeholder_value SYSTEM +:+ "<|eot_id|>";
       system_message := "You are a helpful, respectful and honest assistant.";
       system_prefix_token_ids := Some [128000];
       add_role_after_system_message := true;
       roles := [("user", "<|start_header_id|>user"); ("assistant", "<|start_header_id|>assistant"); ("tool", "<|start_header_id|>ipython")];
       role_templates := [];
       messages := [];
       seps := ["<|eot_id|>"];
       role_content_sep := "<|end_header_id|>" +:+ newline +:+ newline;
       role_empty_sep := "<|end_header_id|>" +:+ newline +:+ newline;
       conv_stop_str := [];
       conv_stop_token_ids := [128001; 128008; 128009];
       function_string := "";
       use_function_calling := false |}
    None false.

Definition tpl_llama_3 : Registration :=
  mkRegistration
    {| conv_name := Some "llama-3";
       system_template := "<|start_header_id|>system<|end_header_id|>" +:+ newline +:+ newline
       +:+ placeholder_value SYSTEM +:+ "<|eot_id|>";
       system_message := "You are a helpful, respectful and honest assistant.";
       system_prefix_token_ids := Some [128000];
       add_role_after_system_message := true;
       roles := [("user", "<|start_header_id|>user"); ("assistant", "<|start_header_id|>assistant")];
       role_templates := [];
       messages := [];
       seps := ["<|eot_id|>"];
       role_content_sep := "<|end_header_id|>" +:+ newline +:+ newline;
       role_empty_sep := "<|end_header_id|>" +:+ newline +:+ newline;
       conv_stop_str := ["<|end_of_text|>"; "<|eot_id|>"];
       conv_stop_token_ids := [128001; 128009];
       function_string := "";
       use_function_calling := false |}
    None false.

Definition tpl_llama_2 : Registration :=
  mkRegistration
    {| conv_name := Some "llama-2";
       system_template := "[INST] <<SYS>>" +:+ newline +:+ placeholder_value SYSTEM +:+ newline +:+ "<</SYS>>"
       +:+ newline +:+ newline;
       system_message := "You are a helpful, respectful and honest assistant.";
       system_prefix_token_ids := Some [1];
       add_role_after_system_message := false;
       roles := [("user", "<s>[INST]"); ("assistant", "[/INST]"); ("tool", "[INST]")];
       role_templates := [];
       messages := [];
       seps := [" "; " </s>"];
       role_content_sep := " ";
       role_empty_sep := " ";
       conv_stop_str := ["[INST]"];
       conv_stop_token_ids := [2];
       function_string := "";
       use_function_calling := false |}
    None false.

Definition tpl_codellama_completion : Registration :=
  mkRegistration
    {| conv_name := Some "codellama_completion";
       system_template := placeholder_value SYSTEM;
       system_message := "";
       system_prefix_token_ids := Some [1];
       add_role_after_system_message := true;
       roles := [("user", ""); ("assistant", "")];
       role_templates := [];
       messages := [];
       seps := [""];
       role_content_sep := "";
       role_empty_sep := "";
       conv_stop_str := ["</s>"];
       conv_stop_token_ids := [2];
       function_string := "";
       use_function_calling := false |}
    None false.

Definition tpl_codellama_instruct : Registration :=
  mkRegistration
    {| conv_name := Some "codellama_instruct";
       system_template := placeholder_value SYSTEM;
       system_message := "";
       system_prefix_token_ids := Some [1];
       add_role_after_system_message := true;
       roles := [("user", "[INST]"); ("assistant", "[/INST]")];
       role_templates := [];
       messages := [];
       seps := [" "];
       role_content_sep := " ";
       role_empty_sep := " ";
       conv_stop_str := ["</s>"];
       conv_stop_token_ids := [2];
       function_string := "";
       use_function_calling := false |}
    None false.

Definition tpl_llava : Registration :=
  mkRegistration
    {| conv_name := Some "llava";
       system_template := placeholder_value SYSTEM;
       system_message := newline;
       system_prefix_token_ids := Some [1];
       add_role_after_system_message := false;
       roles := [("user", "USER"); ("assistant", "ASSISTANT")];
       role_templates := [];
       messages := [];
       seps := [" "];
       role_content_sep := ": ";
       role_empty_sep := ":";
       conv_stop_str := ["</s>"];
       conv_stop_token_ids := [2];
       function_string := "";
       use_function_calling := false |}
    None false.

Definition tpl_mistral_default : Registration :=
  mkRegistration
    {| conv_name := Some "mistral_default";
       system_template := "[INST] " +:+ placeholder_value SYSTEM;
       system_message := "Always assist with care, respect, and truth. Respond with utmost "
       +:+ "utility yet securely. Avoid harmful, unethical, prejudiced, or "
       +:+ "negative content. Ensure replies promote fairness and positivity.";
       system_prefix_token_ids := Some [1];
       add_role_after_system_message := false;
       roles := [("user", "[INST]"); ("assistant", "[/INST]"); ("tool", "[INST]")];
       role_templates := [];
       messages := [];
       seps := [" "];
       role_content_sep := " ";
       role_empty_sep := "";
       conv_stop_str := ["</s>"];
       conv_stop_token_ids := [2];
       function_string := "";
       use_function_calling := false |}
    None false.

Definition tpl_nemotron : Registration :=
  mkRegistration
    {| conv_name := Some "nemotron";
       system_template := "<extra_id_0>System" +:+ newline +:+ placeholder_value SYSTEM +:+ newline
       +:+ newline;
       system_message := "";
       system_prefix_token_ids := Some [2];
       add_role_after_system_message := true;
       roles := [("user", "<extra_id_1>User"); ("assistant", "<extra_id_1>Assistant"); ("tool", "<extra_id_1>Tool")];
       role_templates := [];
       messages := [];
       seps := [newline];
       role_content_sep := newline;
       role_empty_sep := newline;
       conv_stop_str := ["</s>"];
       conv_stop_token_ids := [3];
       function_string := "";
       use_function_calling := false |}
    None false.

Definition tpl_oasst : Registration :=
  mkRegistration
    {| conv_name := Some "oasst";
       system_template := placeholder_value SYSTEM;
       system_message := "";
       system_prefix_token_ids := None;
       add_role_after_system_message := true;
       roles := [("user", "<|prompter|>"); ("assistant", "<|assistant|>")];
       role_templates := [];
       messages := [];
       seps := ["<|endoftext|>"];
       role_content_sep := ": ";
       role_empty_sep := ": ";
       conv_stop_str := ["<|endoftext|>"];
       conv_stop_token_ids := [2];
       function_string := "";
       use_function_calling := false |}
    None false.

Definition tpl_olmo : Registration :=
  mkRegistration
    {| conv_name := Some "olmo";
       system_template := placeholder_value SYSTEM;
       system_message := "";
       system_prefix_token_ids := Some [50279];
       add_role_after_system_message := true;
       roles := [("user", "<|user|>"); ("assistant", "<|assistant|>")];
       role_templates := [];
       messages := [];
       seps := [newline];
       role_content_sep := newline;
       role_empty_sep := newline;
       conv_stop_str := [];
       conv_stop_token_ids := [50279];
       function_string := "";
       use_function_calling := false |}
    None false.

Definition tpl_orion : Registration :=
  mkRegistration
    {| conv_name := Some "orion";
       system_template := placeholder_value SYSTEM;
       system_message := "";
       system_prefix_token_ids := Some [1];
       add_role_after_system_message := true;
       roles := [("user", "Human: "); ("assistant", "Assistant: ")];
       role_templates := [];
       messages := [];
       seps := [newline +:+ newline; "</s>"];
       role_content_sep := "";
       role_empty_sep := "</s>";
       conv_stop_str := ["</s>"];
       conv_stop_token_ids := [2];
       function_string := "";
       use_function_calling := false |}
    None false.

Definition tpl_phi_2 : Registration :=
  mkRegistration
    {| conv_name := Some "phi-2";
       system_template := placeholder_value SYSTEM;
       system_message := "";
       system_prefix_token_ids := None;
       add_role_after_system_message := true;
       roles := [("user", "Instruct"); ("assistant", "Output")];
       role_templates := [];
       messages := [];
       seps := [newline];
       role_content_sep := ": ";
       role_empty_sep := ":";
       conv_stop_str := ["<|endoftext|>"];
       conv_stop_token_ids := [50256];
       function_string := "";
       use_function_calling := false |}
    None false.

Definition tpl_phi_3 : Registration :=
  mkRegistration
    {| conv_name := Some "phi-3";
       system_template := "<|system|>" +:+ newline +:+ placeholder_value SYSTEM;
       system_message := "You are a helpful digital assistant. Please provide safe, ethical and "
       +:+ "accurate information to the user.";
       system_prefix_token_ids := Some [1];
       add_role_after_system_message := true;
       roles := [("user", "<|user|>"); ("assistant", "<|assistant|>")];
       role_templates := [];
       messages := [];
       seps := ["<|end|>" +:+ newline];
       role_content_sep := newline;
       role_empty_sep := newline;
       conv_stop_str := ["<|endoftext|>"];
       conv_stop_token_ids := [2; 32000; 32001; 32007];
       function_string := "";
       use_function_calling := false |}
    None false.

Definition tpl_phi_3_vision : Registration :=
  mkRegistration
    {| conv_name := Some "phi-3-vision";
       system_template := placeholder_value SYSTEM;
       system_message := "";
       system_prefix_token_ids := Some [1];
       add_role_after_system_message := true;
       roles := [("user", "<|user|>"); ("assistant", "<|assistant|>")];
       role_templates := [];
       messages := [];
       seps := ["<|end|>" +:+ newline];
       role_content_sep := newline;
       role_empty_sep := newline;
       conv_stop_str := ["<|endoftext|>"];
       conv_stop_token_ids := [2; 32000; 32001; 32007];
       function_string := "";
       use_function_calling := false |}
    None false.

Definition tpl_qwen2 : Registration :=
  mkRegistration
    {| conv_name := Some "qwen2";
       system_template := "<|im_start|>system" +:+ newline +:+ placeholder_value SYSTEM +:+ "<|im_end|>"
       +:+ newline;
       system_message := "You are a helpful assistant.";
       system_prefix_token_ids := None;
       add_role_after_system_message := true;
       roles := [("user", "<|im_start|>user"); ("assistant", "<|im_start|>assistant")];
       role_templates := [];
       messages := [];
       seps := ["<|im_end|>" +:+ newline];
       role_content_sep := newline;
       role_empty_sep := newline;
       conv_stop_str := ["<|endoftext|>"; "<|im_end|>"];
       conv_stop_token_ids := [151643; 151645];
       function_string := "";
       use_function_calling := false |}
    None false.

Definition tpl_redpajama_chat : Registration :=
  mkRegistration
    {| conv_name := Some "redpajama_chat";
       system_template := placeholder_value SYSTEM;
       system_message := "";
       system_prefix_token_ids := None;
       add_role_after_system_message := true;
       roles := [("user", "<human>"); ("assistant", "<bot>")];
       role_templates := [];
       messages := [];
       seps := [newline];
       role_content_sep := ": ";
       role_empty_sep := ":";
       conv_stop_str := ["<human>"];
       conv_stop_token_ids := [0];
       function_string := "";
       use_function_calling := false |}
    None false.

Definition tpl_rwkv_world : Registration :=
  mkRegistration
    {| conv_name := Some "rwkv_world";
       system_template := "User: hi" +:+ newline +:+ newline +:+ "Assistant: " +:+ placeholder_value SYSTEM;
       system_message := "Hi. I am your assistant and I will provide expert full response in "
       +:+ "full details. Please feel free to ask any question and I will always "
       +:+ "answer it.";
       system_prefix_token_ids := None;
       add_role_after_system_message := true;
       roles := [("user", "User"); ("assistant", "Assistant")];
       role_templates := [];
       messages := [];
       seps := [newline +:+ newline];
       role_content_sep := ": ";
       role_empty_sep := ": ";
       conv_stop_str := [newline +:+ newline];
       conv_stop_token_ids := [0];
       function_string := "";
       use_function_calling := false |}
    None false.

Definition tpl_stablelm : Registration :=
  mkRegistration
    {| conv_name := Some "stablelm";
       system_template := placeholder_value SYSTEM;
       system_message := "<|SYSTEM|># StableLM Tuned (Alpha version)" +:+ newline
       +:+ "- StableLM is a helpful and harmless open-source AI language model "
       +:+ "developed by StabilityAI." +:+ newline
       +:+ "- StableLM is excited to be able to help the user, but will refuse to "
       +:+ "do anything that could be considered harmful to the user." +:+ newline
       +:+ "- StableLM is more than just an information source, StableLM is also "
       +:+ "able to write poetry, short stories, and make jokes." +:+ newline
       +:+ "- StableLM will refuse to participate in anything that could harm a "
       +:+ "human.";
       system_prefix_token_ids := None;
       add_role_after_system_message := true;
       roles := [("user", "<|USER|>"); ("assistant", "<|ASSISTANT|>")];
       role_templates := [];
       messages := [];
       seps := [""];
       role_content_sep := ": ";
       role_empty_sep := ": ";
       conv_stop_str := [""];
       conv_stop_token_ids := [50278; 50279; 50277; 1; 0];
       function_string := "";
       use_function_calling := false |}
    None false.

Definition tpl_stablelm_3b : Registration :=
  mkRegistration
    {| conv_name := Some "stablelm-3b";
       system_template := placeholder_value SYSTEM;
       system_message := "";
       system_prefix_token_ids := None;
       add_role_after_system_message := true;
       roles := [("user", "<|user|>"); ("assistant", "<|assistant|>")];
       role_templates := [];
       messages := [];
       seps := ["<|endoftext|>"; "<|endoftext|>"];
       role_content_sep := newline;
       role_empty_sep := newline;
       conv_stop_str := ["<|endoftext|>"];
       conv_stop_token_ids := [0];
       function_string := "";
       use_function_calling := false |}
    None false.

Definition tpl_stablelm_2 : Registration :=
  mkRegistration
    {| conv_name := Some "stablelm-2";
       system_template := placeholder_value SYSTEM;
       system_message := "";
       system_prefix_token_ids := None;
       add_role_after_system_message := true;
       roles := [("user", "<|user|>"); ("assistant", "<|assistant|>")];
       role_templates := [];
       messages := [];
       seps := ["<|endoftext|>"; "<|endoftext|>"];
       role_content_sep := newline;
       role_empty_sep := newline;
       conv_stop_str := ["<|endoftext|>"];
       conv_stop_token_ids := [100257];
       function_string := "";
       use_function_calling := false |}
    None false.

Definition tpl_tinyllama_v1_0 : Registration :=
  mkRegistration
    {| conv_name := Some "tinyllama_v1_0";
       system_template := "<|system|>" +:+ newline +:+ placeholder_value SYSTEM +:+ "</s>";
       system_message := "You are a helpful chatbot.";
       system_prefix_token_ids := None;
       add_role_after_system_message := true;
       roles := [("user", "<|user|>"); ("assistant", "<|assistant|>")];
       role_templates := [];
       messages := [];
       seps := ["</s>"];
       role_content_sep := newline;
       role_empty_sep := newline;
       conv_stop_str := ["</s>"];
       conv_stop_token_ids := [2];
       function_string := "";
       use_function_calling := false |}
    None false.

Definition tpl_wizardlm_7b : Registration :=
  mkRegistration
    {| conv_name := Some "wizardlm_7b";
       system_template := placeholder_value SYSTEM;
       system_message := "";
       system_prefix_token_ids := Some [1];
       add_role_after_system_message := true;
       roles := [("user", "User"); ("assistant", "Response")];
       role_templates := [];
       messages := [];
       seps := ["###"];
       role_content_sep := ": ";
       role_empty_sep := ":";
       conv_stop_str := ["###"];
       conv_stop_token_ids := [2];
       function_string := "";
       use_function_calling := false |}
    None false.

Definition tpl_wizard_coder_or_math : Registration :=
  mkRegistration
    {| conv_name := Some "wizard_coder_or_math";
       system_template := placeholder_value SYSTEM;
       system_message := "Below is an instruction that describes a task. Write a response that "
       +:+ "appropriately completes the request.";
       system_prefix_token_ids := Some [1];
       add_role_after_system_message := true;
       roles := [("user", "Instruction"); ("assistant", "Response")];
       role_templates := [];
       messages := [];
       seps := [newline +:+ newline +:+ "### "; newline +:+ newline +:+ "### "];
       role_content_sep := ":" +:+ newline;
       role_empty_sep := ":" +:+ newline;
       conv_stop_str := ["</s>"];
       conv_stop_token_ids := [2];
       function_string := "";
       use_function_calling := false |}
    None false.

Definition presets : list Registration :=
  [tpl_chatml;
   tpl_chatml_nosystem;
   tpl_LM;
   tpl_aya_23;
   tpl_deepseek;
   tpl_deepseek_v2;
   tpl_deepseek_v3;
   tpl_deepseek_r1_qwen;
   tpl_deepseek_r1_llama;
   tpl_dolly;
   tpl_gemma_instruction;
   tpl_gemma3_instruction;
   tpl_glm;
   tpl_gorilla;
   tpl_gorilla_openfunctions_v2;
   tpl_gpt2;
   tpl_gpt_bigcode;
   tpl_open_hermes_mistral;
   tpl_neural_hermes_mistral;
   tpl_hermes2_pro_llama3;
   tpl_hermes3_llama_3_1;
   tpl_llama_3_1;
   tpl_llama_3;
   tpl_llama_2;
   tpl_codellama_completion;
   tpl_codellama_instruct;
   tpl_llava;
   tpl_mistral_default;
   tpl_nemotron;
   tpl_oasst;
   tpl_olmo;
   tpl_orion;
   tpl_phi_2;
   tpl_phi_3;
   tpl_phi_3_vision;
   tpl_qwen2;
   tpl_redpajama_chat;
   tpl_rwkv_world;
   tpl_stablelm;
   tpl_stablelm_3b;
   tpl_stablelm_2;
   tpl_tinyllama_v1_0;
   tpl_wizardlm_7b;
   tpl_wizard_coder_or_math].

(** Running the registrations of the package. *)
Fixpoint register_all `{CD : ConversationDump} (reg : Registry) (l : list Registration)
  : res Registry :=
  match l with
  | [] => Ok reg
  | r :: l =>
      let? conv := Conversation_init (rg_role_templates r) (rg_fields r) in
      let? reg := register_conv_template reg conv (rg_override r) in
      register_all reg l
  end.

(** ** Lemmas *)

(** The names and the separators of a list of registrations, checked by
    computation. *)
Definition names (l : list Registration) : list (option string) :=
  map (fun r => conv_name (rg_fields r)) l.

Definition registrable (r : Registration) : bool :=
  is_ok (check_message_seps (seps (rg_fields r))) && negb (is_none (conv_name (rg_fields r)))
  && dict_has (roles (rg_fields r)) "user" && dict_has (roles (rg_fields r)) "assistant"
  && is_none (head (messages (rg_fields r))).

Definition all_distinct (l : list (option string)) : bool := bool_decide (NoDup l).

(** The conversation a registration builds. *)
Definition built (r : Registration) : Conversation :=
  match Conversation_init (rg_role_templates r) (rg_fields r) with
  | Ok c => c
  | Raise _ => rg_fields r
  end.

Lemma built_ok r : registrable r = true ->
  Conversation_init (rg_role_templates r) (rg_fields r) = Ok (built r) /\ conv_ok (built r) /\
  conv_name (built r) = conv_name (rg_fields r) /\ roles (built r) = roles (rg_fields r).
Proof.
  unfold registrable. intros H. do 4 (apply andb_prop in H as [H _]).
  unfold built. destruct (Conversation_init _ _) as [c|x] eqn:E.
  - split; [done|]. split; [by eapply conv_ok_init|].
    unfold Conversation_init in E. inv_ok. by subst.
  - unfold Conversation_init in E. by destruct (check_message_seps _).
Qed.

Section Lemmas.
Context `{CD : ConversationDump}.

(** Registering in a registry that does not know the name. *)
Lemma register_fresh reg c ov n : conv_name c = Some n -> dict_get reg n = None ->
  register_conv_template reg c ov = Ok (dict_set reg n c).
Proof. unfold register_conv_template. by intros -> ->. Qed.

(** A list of registrable registrations with distinct, fresh names loads, and
    the registry then gives each of them by its name. *)
Lemma register_all_ok l : Forall (fun r => registrable r = true) l -> NoDup (names l) ->
  forall reg, (forall n, In (Some n) (names l) -> dict_get reg n = None) ->
  exists reg', register_all reg l = Ok reg' /\
    (forall n, ~ In (Some n) (names l) -> dict_get reg' n = dict_get reg n) /\
    Forall (fun r => forall n, conv_name (rg_fields r) = Some n ->
                       get_conv_template reg' n = Some (built r)) l.
Proof.
  induction 1 as [|r l Hr Hl IH]; intros Hnd reg Hf; [by exists reg|].
  cbn [names map] in *. apply NoDup_cons in Hnd as [Hn Hnd].
  destruct (built_ok r Hr) as (Hi & _ & Hname & _).
  destruct (conv_name (rg_fields r)) as [n|] eqn:En.
  2:{ unfold registrable in Hr. rewrite En in Hr. by rewrite andb_false_r in Hr. }
  cbn [register_all]. rewrite Hi. cbn [rbind].
  rewrite (register_fresh _ _ _ n Hname) by (apply Hf; by left). cbn [rbind].
  destruct (IH Hnd (dict_set reg n (built r))) as (reg' & H1 & H2 & H3).
  { intros m Hm. rewrite dict_get_set. destruct (String.eqb_spec m n) as [->|Hne].
    - destruct Hn. by apply list_elem_of_In.
    - apply Hf. by right. }
  exists reg'. split; [done|]. split.
  - intros m Hm. rewrite H2 by (intros Hin; apply Hm; by right). rewrite dict_get_set.
    destruct (String.eqb_spec m n) as [->|]; [|done]. destruct Hm. by left.
  - constructor; [|done]. intros m Hm. rewrite En in Hm. injection Hm as <-. unfold get_conv_template. rewrite H2.
    + by rewrite dict_get_set, String.eqb_refl.
    + by intros Hin%list_elem_of_In.
Qed.

Lemma presets_registrable : forallb registrable presets = true.
Proof. vm_compute. reflexivity. Qed.

Lemma presets_distinct : NoDup (names presets).
Proof. apply (bool_decide_unpack _). vm_compute. exact I. Qed.

Lemma preset_registrable r : In r presets -> registrable r = true.
Proof. apply forallb_forall, presets_registrable. Qed.
End Lemmas.

(** ** Theorems *)

Section Theorems.
Context `{CD : ConversationDump} `{IB : ImageBackend}.

(** The registry is a map with guarded update.  Registering needs a name,
    refuses a known name unless overriding, and otherwise changes the entry of
    that name and no other. *)
Theorem register_conv_template_spec reg c override :
  match register_conv_template reg c override with
  | Ok reg' =>
      exists n, conv_name c = Some n /\ (dict_has reg n = false \/ override = true) /\
        forall m, get_conv_template reg' m
                  = if String.eqb m n then Some c else get_conv_template reg m
  | Raise _ =>
      match conv_name c with
      | None => True
      | Some n => dict_has reg n = true /\ override = false
      end
  end.
Proof.
  unfold register_conv_template, get_conv_template, dict_has.
  destruct (conv_name c) as [n|]; [|done].
  destruct (dict_get reg n) as [old|] eqn:E; [destruct override|]; try done.
  - exists n. split; [done|]. split; [by right|]. intros m. apply dict_get_set.
  - exists n. rewrite E. split; [done|]. split; [by left|]. intros m. apply dict_get_set.
Qed.

(** Importing the package succeeds: all the presets pass their validators and
    no name is registered twice, so the registry afterwards gives every preset
    by its name, as a well-formed conversation that knows the roles [user] and
    [assistant]. *)
Theorem presets_load :
  exists reg, register_all [] presets = Ok reg /\
    Forall (fun r => exists n c,
      conv_name (rg_fields r) = Some n /\
      Conversation_init (rg_role_templates r) (rg_fields r) = Ok c /\
      get_conv_template reg n = Some c /\ conv_ok c /\
      dict_has (roles c) "user" = true /\ dict_has (roles c) "assistant" = true) presets.
Proof.
  destruct (register_all_ok presets) with (reg := @nil (string * Conversation))
    as (reg & H1 & _ & H3); [|apply presets_distinct|done|].
  { apply Forall_forall. intros r Hr%list_elem_of_In. by apply preset_registrable. }
  exists reg. split; [done|]. apply Forall_forall. intros r Hr.
  pose proof (preset_registrable r (proj1 (list_elem_of_In _ _) Hr)) as Hb.
  destruct (built_ok r Hb) as (Hi & Hc & _ & Hroles).
  apply Forall_forall with (x := r) in H3; [|done].
  unfold registrable in Hb. apply andb_prop in Hb as [[[[_ Hn]%andb_prop Hu]%andb_prop Ha]%andb_prop _].
  destruct (conv_name (rg_fields r)) as [n|] eqn:En; [|discriminate Hn].
  exists n, (built r). rewrite Hroles. by auto 10.
Qed.

(** C36: every preset renders every text chat.  Whatever the texts of the user
    and the assistant, a non-empty history makes a registered template render,
    without an exception, to the one string of the specification. *)
Theorem presets_render r history cfg :
  In r presets -> history <> [] ->
  Forall (fun m => (fst m = "user" \/ fst m = "assistant") /\
                   match snd m with Some (CItems _) => False | _ => True end) history ->
  exists c, Conversation_init (rg_role_templates r) (rg_fields r) = Ok c /\
    let chat := fold_left append_message history c in
    as_prompt chat cfg = Ok [PStr (fill_function (function_string chat) (prompt_text chat))].
Proof.
  intros Hr Hne Hh. apply preset_registrable in Hr as Hb.
  destruct (built_ok r Hb) as (Hi & Hc & _ & Hroles). exists (built r). split; [done|].
  unfold registrable in Hb.
  apply andb_prop in Hb as [[[_ Hu]%andb_prop Ha]%andb_prop Hm].
  assert (forall l c, conv_ok c -> roles c = roles (rg_fields r) ->
    let c' := fold_left append_message l c in
    conv_ok c' /\ roles c' = roles (rg_fields r) /\ messages c' = messages c ++ l) as Hfold.
  { induction l as [|m l IH]; intros c Hcc Hcr; simpl; [by rewrite app_nil_r|].
    destruct (IH (append_message c m)) as (H1 & H2 & H3); [by apply conv_ok_append|done|].
    split; [done|]. split; [done|]. rewrite H3. simpl. by rewrite <- app_assoc. }
  destruct (Hfold history (built r) Hc Hroles) as (H1 & H2 & H3). cbv zeta.
  assert (messages (built r) = []) as Hmsg.
  { unfold Conversation_init in Hi. inv_ok. rewrite <- Hi. simpl.
    destruct (messages (rg_fields r)); [done|discriminate Hm]. }
  rewrite Hmsg in H3. cbn [app] in H3. apply as_prompt_text_one; rewrite ?H3; [done| |done].
  eapply Forall_impl; [exact Hh|]. intros [role x] [Hrole Hx]. simpl in *.
  split; [|split; [|done]]; simpl.
  - unfold chat_role. destruct Hrole as [-> | ->]; simpl; auto.
  - rewrite H2. by destruct Hrole as [-> | ->].
Qed.
End Theorems.

(** ** Witnesses *)

Module PresetsWitness.
Import ConversationDemo.

Example presets_render_witness :
  exists c, Conversation_init None (rg_fields tpl_llama_2) = Ok c /\
    as_prompt (append_message (append_message c ("user", Some (CText "Hi"))) ("assistant", None)) None
    = Ok [PStr ("[INST] <<SYS>>" +:+ newline +:+ "You are a helpful, respectful and honest assistant."
                +:+ newline +:+ "<</SYS>>" +:+ newline +:+ newline +:+ "Hi [/INST] ")].
Proof.
  destruct (presets_render tpl_llama_2 [("user", Some (CText "Hi")); ("assistant", None)] None)
    as (c & H1 & H2).
  - unfold presets. repeat (first [by left | right]).
  - discriminate.
  - repeat (constructor; [split; [simpl; tauto|exact I]|]). constructor.
  - exists c. split; [exact H1|]. injection H1 as <-. exact H2.
Defined.
End PresetsWitness.
