(* ===== verification/OpenAI.v ===== *)
(** * The OpenAI protocol ([protocol/openai_api_protocol.py],
    [protocol/debug_protocol.py], [protocol/generation_config.py])

    The request and response classes, their validators, the message checks and
    the selection of the tools of a function call.  Pydantic's type coercion
    has happened: a request value is a record of the declared types, and the
    validators of this file are the ones written in the source.  The class
    [JsonBackend] names the pydantic JSON functions that the code calls and
    CPython's [repr] of a float. *)

From stdpp Require Import base list strings pretty.
From Stdlib Require Import SpecFloat Ascii.
From S2P Require Import Prelude PyStr Data Conversation.
Local Open Scope string_scope.
Local Open Scope list_scope.
Local Open Scope Z_scope.

(** ** Data *)

Definition CHAT_COMPLETION_MAX_TOP_LOGPROBS : Z := 20.
Definition COMPLETION_MAX_TOP_LOGPROBS : Z := 5.

Record TopLogProbs : Type := mkTopLogProbs {
  tlp_token : string; tlp_logprob : pyfloat; tlp_bytes : option (list Z) }.

Record LogProbsContent : Type := mkLogProbsContent {
  lpc_token : string; lpc_logprob : pyfloat; lpc_bytes : option (list Z);
  lpc_top_logprobs : list TopLogProbs }.

(** [LogProbs(content=...)] *)
Record LogProbs : Type := mkLogProbs { lp_content : list LogProbsContent }.

Record CompletionLogProbs : Type := mkCompletionLogProbs {
  clp_text_offset : option (list Z);
  clp_token_logprobs : list pyfloat;
  clp_tokens : list string;
  clp_top_logprobs : list (dict pyfloat) }.

Record CompletionUsage : Type := mkCompletionUsage {
  prompt_tokens : Z; completion_tokens : Z; total_tokens : Z; extra : option (dict json) }.

Record StreamOptions : Type := mkStreamOptions { include_usage : option bool }.

Record RequestResponseFormat : Type := mkRequestResponseFormat {
  rf_type : string; json_schema : option string }.

Record DisaggConfig : Type := mkDisaggConfig {
  dg_kind : option string; dg_kv_append_metadata : option string;
  dg_kv_window_begin : option Z; dg_kv_window_end : option Z;
  dg_dst_group_offset : option Z }.

Record DebugConfig : Type := mkDebugConfig {
  ignore_eos : bool; pinned_system_prompt : bool; special_request : option string;
  grammar_execution_mode : string; disagg_config : option DisaggConfig }.

(** [Union[str, List[str]]] and [Union[str, List[int]]] *)
Inductive StopArg : Type := StopStr (s : string) | StopList (l : list string).
Inductive PromptArg : Type := PromptStr (s : string) | PromptIds (l : list Z).

Record CompletionRequest : Type := mkCompletionRequest {
  cm_model : option string; cm_prompt : PromptArg; cm_best_of : Z; cm_echo : bool;
  cm_frequency_penalty : option pyfloat; cm_presence_penalty : option pyfloat;
  cm_logprobs : option Z; cm_logit_bias : option (list (Z * pyfloat));
  cm_max_tokens : option Z; cm_n : Z; cm_seed : option Z; cm_stop : option StopArg;
  cm_stream : bool; cm_stream_options : option StreamOptions; cm_suffix : option string;
  cm_temperature : option pyfloat; cm_top_p : option pyfloat; cm_user : option string;
  cm_response_format : option RequestResponseFormat; cm_debug_config : option DebugConfig }.

Record ChatFunction : Type := mkChatFunction {
  cf_description : option string; cf_name : string; cf_parameters : dict json }.

Record ChatTool : Type := mkChatTool { ct_type : string; ct_function : ChatFunction }.

Record ChatFunctionCall : Type := mkChatFunctionCall {
  cfc_name : string; cfc_arguments : option (dict json) }.

Record ChatToolCall : Type := mkChatToolCall {
  ctc_id : string; ctc_type : string; ctc_function : ChatFunctionCall }.

Record ChatCompletionMessage : Type := mkChatCompletionMessage {
  msg_content : option Content; msg_role : string; msg_name : option string;
  msg_tool_calls : option (list ChatToolCall); msg_tool_call_id : option string }.

(** [Union[Literal["none", "auto"], Dict]] *)
Inductive ToolChoice : Type := TCStr (s : string) | TCDict (d : dict json).

Record ChatCompletionRequest : Type := mkChatCompletionRequest {
  ch_messages : list ChatCompletionMessage; ch_model : option string;
  ch_frequency_penalty : option pyfloat; ch_presence_penalty : option pyfloat;
  ch_logprobs : bool; ch_top_logprobs : Z; ch_logit_bias : option (list (Z * pyfloat));
  ch_max_tokens : option Z; ch_n : Z; ch_seed : option Z; ch_stop : option StopArg;
  ch_stream : bool; ch_stream_options : option StreamOptions;
  ch_temperature : option pyfloat; ch_top_p : option pyfloat;
  ch_tools : option (list ChatTool); ch_tool_choice : option ToolChoice;
  ch_user : option string; ch_response_format : option RequestResponseFormat;
  ch_debug_config : option DebugConfig }.

Record CompletionResponseChoice : Type := mkCompletionResponseChoice {
  cc_finish_reason : option string; cc_index : nat;
  cc_logprobs : option CompletionLogProbs; cc_text : string }.

(** The creation time is not modelled. *)
Record CompletionResponse : Type := mkCompletionResponse {
  cresp_id : string; cresp_choices : list CompletionResponseChoice;
  cresp_model : option string; cresp_usage : option CompletionUsage }.

(** [ChatCompletionResponseChoice]; the stream variant has [delta] for
    [message]. *)
Record ChatCompletionResponseChoice : Type := mkChatCompletionResponseChoice {
  rc_finish_reason : option string; rc_index : nat;
  rc_message : ChatCompletionMessage; rc_logprobs : option LogProbs }.

Record ChatCompletionStreamResponseChoice : Type := mkChatCompletionStreamResponseChoice {
  sc_finish_reason : option string; sc_index : nat;
  sc_delta : ChatCompletionMessage; sc_logprobs : option LogProbs }.

Record ChatCompletionResponse : Type := mkChatCompletionResponse {
  resp_id : string; resp_choices : list ChatCompletionResponseChoice;
  resp_model : option string; resp_system_fingerprint : string;
  resp_usage : option CompletionUsage }.

Record ChatCompletionStreamResponse : Type := mkChatCompletionStreamResponse {
  sresp_id : string; sresp_choices : list ChatCompletionStreamResponseChoice;
  sresp_model : option string; sresp_system_fingerprint : string;
  sresp_usage : option CompletionUsage }.

(** The [Literal] types of the finish reasons: another string is a pydantic
    [ValidationError] when the choice is built. *)
Definition literal_ok (allowed : list string) (v : option string) : res unit :=
  match v with
  | None => Ok tt
  | Some s => if existsb (String.eqb s) allowed then Ok tt else Raise ValidationError
  end.

Definition completion_reasons : list string := ["stop"; "length"; "preempt"].
Definition chat_reasons : list string := ["stop"; "length"; "tool_calls"; "error"].

Definition CompletionResponseChoice_init (i : nat) (fr : option string) (text : string)
    (lp : option CompletionLogProbs) : res CompletionResponseChoice :=
  let? _ := literal_ok completion_reasons fr in
  Ok (mkCompletionResponseChoice fr i lp text).

Definition ChatCompletionResponseChoice_init (i : nat) (fr : option string)
    (m : ChatCompletionMessage) (lp : option LogProbs) : res ChatCompletionResponseChoice :=
  let? _ := literal_ok chat_reasons fr in
  Ok (mkChatCompletionResponseChoice fr i m lp).

Definition ChatCompletionStreamResponseChoice_init (i : nat) (fr : option string)
    (m : ChatCompletionMessage) (lp : option LogProbs)
  : res ChatCompletionStreamResponseChoice :=
  let? _ := literal_ok chat_reasons fr in
  Ok (mkChatCompletionStreamResponseChoice fr i m lp).

(** [GenerationConfig] *)
Record GenerationConfig : Type := mkGenerationConfig {
  g_n : Z; g_temperature : option pyfloat; g_top_p : option pyfloat;
  g_frequency_penalty : option pyfloat; g_presence_penalty : option pyfloat;
  g_repetition_penalty : option pyfloat; g_logprobs : bool; g_top_logprobs : Z;
  g_logit_bias : option (list (Z * pyfloat)); g_max_tokens : Z; g_seed : option Z;
  g_stop_strs : option (list string); g_stop_token_ids : option (list Z);
  g_response_format : option RequestResponseFormat; g_debug_config : option DebugConfig }.

(** The pydantic and [repr] functions the code calls. *)
Class JsonBackend := {
  function_model_dump_json : ChatFunction -> string;
  float_repr : pyfloat -> string;
  parse_CompletionUsage : string -> res CompletionUsage;
  parse_LogProbsContent : string -> res LogProbsContent;
}.

(** ** Field validators *)

(** [check_penalty_range]: [None], zero and NaN pass. *)
Definition check_penalty_range (penalty_value : option pyfloat) : res (option pyfloat) :=
  match penalty_value with
  | None => Ok penalty_value
  | Some p =>
      if (f64_truthy p && (f64_ltb p (f64_of_Z (-2)) || f64_ltb (f64_of_Z 2) p))%bool
      then Raise (ValueError [Lit "Penalty value should be in range [-2, 2]."])
      else Ok penalty_value
  end.

(** [check_logit_bias] *)
Definition check_logit_bias (v : option (list (Z * pyfloat)))
  : res (option (list (Z * pyfloat))) :=
  match v with
  | None => Ok None
  | Some items =>
      let? _ :=
        rfor (fun '(token_id, bias) =>
                if f64_ltb (f64_of_Z 100) (f64_abs bias)
                then Raise (ValueError
                       [Lit "Logit bias value should be in range [-100, 100], while value ";
                        FFloat bias; Lit " is given for token id "; FInt token_id])
                else Ok tt) items in
      Ok v
  end.

(** [CompletionRequest.check_logprobs] *)
Definition completion_check_logprobs (r : CompletionRequest) : res unit :=
  match cm_logprobs r with
  | Some lp => if ((lp <? 0) || (COMPLETION_MAX_TOP_LOGPROBS <? lp))%bool
               then Raise (ValueError [FStr dquote; Lit "logprobs"; FStr dquote;
                                       Lit " must be in range [0, ";
                                       FInt COMPLETION_MAX_TOP_LOGPROBS; Lit "]"])
               else Ok tt
  | None => Ok tt
  end.

(** [ChatCompletionRequest.check_logprobs] *)
Definition chat_check_logprobs (r : ChatCompletionRequest) : res unit :=
  if ((ch_top_logprobs r <? 0) || (CHAT_COMPLETION_MAX_TOP_LOGPROBS <? ch_top_logprobs r))%bool
  then Raise (ValueError [FStr dquote; Lit "top_logprobs"; FStr dquote;
                          Lit " must be in range [0, ";
                          FInt CHAT_COMPLETION_MAX_TOP_LOGPROBS; Lit "]"])
  else if (negb (ch_logprobs r) && (0 <? ch_top_logprobs r))%bool
  then Raise (ValueError [FStr dquote; Lit "logprobs"; FStr dquote;
                          Lit " must be True to support "; FStr dquote; Lit "top_logprobs";
                          FStr dquote])
  else Ok tt.

(** [check_stream_options] *)
Definition check_stream_options (r : ChatCompletionRequest) : res unit :=
  match ch_stream_options r with
  | None => Ok tt
  | Some _ =>
      if negb (ch_stream r)
      then Raise (ValueError [Lit "stream must be set to True when stream_options is present"])
      else Ok tt
  end.

(** [x is None or not x.include_usage] *)
Definition no_include_usage (o : option StreamOptions) : bool :=
  match o with
  | Some so => negb (opt_default false (include_usage so))
  | None => true
  end.

(** [check_debug_config] *)
Definition check_debug_config (r : ChatCompletionRequest) : res unit :=
  match ch_debug_config r with
  | None => Ok tt
  | Some dc =>
      match special_request dc with
      | None => Ok tt
      | Some _ =>
          if negb (ch_stream r)
          then Raise (ValueError [Lit "DebugConfig.special_request requires stream=True"])
          else if no_include_usage (ch_stream_options r)
          then Raise (ValueError
                 [Lit "DebugConfig.special_request requires include_usage in stream_options"])
          else Ok tt
      end
  end.

(** A field validator's result becomes the field. *)
Definition chat_set_checked (r : ChatCompletionRequest) (frequency_penalty presence_penalty : option pyfloat)
    (logit_bias : option (list (Z * pyfloat))) : ChatCompletionRequest :=
  mkChatCompletionRequest
    (ch_messages r) (ch_model r) frequency_penalty presence_penalty (ch_logprobs r)
    (ch_top_logprobs r) logit_bias (ch_max_tokens r) (ch_n r) (ch_seed r) (ch_stop r)
    (ch_stream r) (ch_stream_options r) (ch_temperature r) (ch_top_p r) (ch_tools r)
    (ch_tool_choice r) (ch_user r) (ch_response_format r) (ch_debug_config r).
Definition completion_set_checked (r : CompletionRequest) (frequency_penalty presence_penalty : option pyfloat)
    (logit_bias : option (list (Z * pyfloat))) : CompletionRequest :=
  mkCompletionRequest
    (cm_model r) (cm_prompt r) (cm_best_of r) (cm_echo r) frequency_penalty presence_penalty
    (cm_logprobs r) logit_bias (cm_max_tokens r) (cm_n r) (cm_seed r) (cm_stop r)
    (cm_stream r) (cm_stream_options r) (cm_suffix r) (cm_temperature r) (cm_top_p r)
    (cm_user r) (cm_response_format r) (cm_debug_config r).

(** The validators of a chat request, field validators first, then the model
    validators in the order of their definition. *)
Definition ChatCompletionRequest_validate (r : ChatCompletionRequest)
  : res ChatCompletionRequest :=
  let? frequency_penalty := check_penalty_range (ch_frequency_penalty r) in
  let? presence_penalty := check_penalty_range (ch_presence_penalty r) in
  let? logit_bias := check_logit_bias (ch_logit_bias r) in
  let r := chat_set_checked r frequency_penalty presence_penalty logit_bias in
  let? _ := chat_check_logprobs r in
  let? _ := check_stream_options r in
  let? _ := check_debug_config r in
  Ok r.

Definition CompletionRequest_validate (r : CompletionRequest) : res CompletionRequest :=
  let? frequency_penalty := check_penalty_range (cm_frequency_penalty r) in
  let? presence_penalty := check_penalty_range (cm_presence_penalty r) in
  let? logit_bias := check_logit_bias (cm_logit_bias r) in
  let r := completion_set_checked r frequency_penalty presence_penalty logit_bias in
  let? _ := completion_check_logprobs r in
  Ok r.

(** ** [json.dumps] (CPython, default arguments) *)

Definition hex_digit (n : Z) : ascii :=
  ascii_of_nat (Z.to_nat (if n <? 10 then 48 + n else 87 + n)).
Definition backslash : string := String "092"%char EmptyString.
Definition u_escape (n : Z) : string :=
  backslash +:+ "u" +:+ String (hex_digit (n / 4096)) (String (hex_digit (n / 256 mod 16))
    (String (hex_digit (n / 16 mod 16)) (String (hex_digit (n mod 16)) EmptyString))).

(** The escape of one character; [ensure_ascii] is on, and a character above
    U+FFFF is a surrogate pair. *)
Definition json_escape_char (n : Z) : string :=
  if n =? 34 then backslash +:+ dquote
  else if n =? 92 then backslash +:+ backslash
  else if n =? 10 then backslash +:+ "n"
  else if n =? 13 then backslash +:+ "r"
  else if n =? 9 then backslash +:+ "t"
  else if n =? 12 then backslash +:+ "f"
  else if n =? 8 then backslash +:+ "b"
  else if (32 <=? n) && (n <=? 126) then String (ascii_of_nat (Z.to_nat n)) EmptyString
  else if n <? 65536 then u_escape n
  else u_escape (Z.lor 55296 (Z.shiftr (n - 65536) 10)) +:+ u_escape (Z.lor 56320 (Z.land (n - 65536) 1023)).

Definition json_escape (s : string) : string := str_join "" (map json_escape_char (code_points s)).

Definition json_str (s : string) : string := dquote +:+ json_escape s +:+ dquote.

Example json_str_escapes :
  json_str "naïve 😀" = dquote +:+ "na" +:+ backslash +:+ "u00efve " +:+ backslash +:+ "ud83d" +:+ backslash +:+ "ude00" +:+ dquote
  /\ json_str (String "127"%char EmptyString) = dquote +:+ backslash +:+ "u007f" +:+ dquote.
Proof. by vm_compute. Qed.

Section WithJson.
Context `{JB : JsonBackend}.

Fixpoint json_dumps (j : json) : string :=
  match j with
  | JNull => "null"
  | JBool true => "true"
  | JBool false => "false"
  | JInt z => pretty z
  | JFloat f => float_repr f
  | JStr s => json_str s
  | JArr l => "[" +:+ str_join ", " (map json_dumps l) +:+ "]"
  | JObj o => "{" +:+ str_join ", " (map (fun kv => json_str (fst kv) +:+ ": " +:+ json_dumps (snd kv)) o)
              +:+ "}"
  end.

(** [tool.function.model_dump(by_alias=True)] *)
Definition function_model_dump (f : ChatFunction) : json :=
  JObj [("description", match cf_description f with Some d => JStr d | None => JNull end);
        ("name", JStr (cf_name f)); ("parameters", JObj (cf_parameters f))].

(** ** [ChatCompletionRequest.check_message_validity] *)

Definition is_items (o : option Content) : bool :=
  match o with Some (CItems _) => true | _ => false end.

(** The checks on the [i]-th message. *)
Definition check_message (i : nat) (m : ChatCompletionMessage) : res unit :=
  if (String.eqb (msg_role m) "system" && negb (Nat.eqb i 0))%bool
  then Raise (BadRequestError [Lit "System prompt at position "; FInt (Z.of_nat i);
                               Lit " in the message list is invalid."])
  else if (negb (is_none (msg_tool_call_id m)) && negb (String.eqb (msg_role m) "tool"))%bool
  then Raise (BadRequestError [Lit "Non-tool message having `tool_call_id` is invalid."])
  else if (is_items (msg_content m) && negb (String.eqb (msg_role m) "user"))%bool
  then Raise (BadRequestError [Lit "Non-user message having a list of content is invalid."])
  else if negb (is_none (msg_tool_calls m))
  then if negb (String.eqb (msg_role m) "assistant")
       then Raise (BadRequestError [Lit "Non-assistant message having `tool_calls` is invalid."])
       else Raise (BadRequestError
              [Lit "Assistant message having `tool_calls` is not supported yet."])
  else Ok tt.

Definition check_message_validity (r : ChatCompletionRequest) : res unit :=
  rfor (fun '(i, m) => check_message i m) (enumerate (ch_messages r)).

(** ** [ChatCompletionRequest.check_function_call_usage] *)

(** [len(x)] and [x["name"]] of the Python value [x]. *)
Definition json_len (j : json) : res Z :=
  match j with
  | JStr s => Ok (Z.of_nat (length (code_points s)))
  | JArr l => Ok (Z.of_nat (length l))
  | JObj o => Ok (Z.of_nat (length o))
  | _ => Raise TypeError
  end.

Definition json_getitem (j : json) (k : string) : res json :=
  match j with
  | JObj o => dict_getitem o k
  | _ => Raise TypeError
  end.

(** [s == j] for a string [s]. *)
Definition json_is_str (s : string) (j : json) : bool :=
  match j with JStr t => String.eqb s t | _ => false end.

(** The loop that selects the tool named by [tool_choice]; [None] when the
    loop ends without a match. *)
Fixpoint select_tool (d : dict json) (tools : list ChatTool) : res (option ChatTool) :=
  match tools with
  | [] => Ok None
  | tool :: tools =>
      let? f := dict_getitem d "function" in
      let? name := json_getitem f "name" in
      if json_is_str (cf_name (ct_function tool)) name then Ok (Some tool)
      else select_tool d tools
  end.

(** Without a selected tool, the list of all the functions is dumped. *)
Definition use_all_tools (conv_template : Conversation) (tools : list ChatTool)
  : res Conversation :=
  let? function_list :=
    rmap (fun tool =>
            if negb (String.eqb (ct_type tool) "function")
            then Raise (BadRequestError [Lit "Only 'function' tool type is supported"])
            else Ok (function_model_dump (ct_function tool))) tools in
  Ok (set_function_calling conv_template true (Some (json_dumps (JArr function_list)))).

Definition check_function_call_usage (r : ChatCompletionRequest) (conv_template : Conversation)
  : res Conversation :=
  match ch_tools r with
  | None => Ok (set_function_calling conv_template false None)
  | Some tools =>
      match ch_tool_choice r with
      | Some (TCDict d) =>
          let? ty := dict_getitem d "type" in
          if negb (json_is_str "function" ty)
          then Raise (BadRequestError [Lit "Only 'function' tool choice is supported"])
          else
            let? f := dict_getitem d "function" in
            let? n := json_len f in
            if 1 <? n
            then Raise (BadRequestError
                   [Lit "Only one tool is supported when tool_choice is specified"])
            else
              let? sel := select_tool d tools in
              match sel with
              | Some tool =>
                  Ok (set_function_calling conv_template true
                        (Some (function_model_dump_json (ct_function tool))))
              | None =>
                  let? name := json_getitem f "name" in
                  Raise (BadRequestError [Lit "The tool_choice function "; FJson name;
                                          Lit " is not found in the tools list"])
              end
      | Some (TCStr s) =>
          if String.eqb s "none" then Ok (set_function_calling conv_template false None)
          else if negb (String.eqb s "auto")
          then Raise (BadRequestError [Lit "Invalid tool_choice value: "; FStr s])
          else use_all_tools conv_template tools
      | None => use_all_tools conv_template tools
      end
  end.

End WithJson.

(** ** [openai_api_get_unsupported_fields] *)

Inductive RequestProtocol : Type :=
| RCompletion (r : CompletionRequest)
| RChat (r : ChatCompletionRequest).

(** [hasattr(request, field)] and [getattr(request, field) != value] for the
    single entry [("best_of", 1)] of the table. *)
Definition openai_api_get_unsupported_fields (request : RequestProtocol) : list string :=
  match request with
  | RCompletion r => if negb (cm_best_of r =? 1) then ["best_of"] else []
  | RChat _ => []
  end.

(** ** Specifications *)

Definition penalty_valid (p : option pyfloat) : Prop :=
  match p with
  | None => True
  | Some p => f64_ltb p (f64_of_Z (-2)) = false /\ f64_ltb (f64_of_Z 2) p = false
  end.

Definition bias_valid (v : option (list (Z * pyfloat))) : Prop :=
  match v with
  | None => True
  | Some items => Forall (fun kv => f64_ltb (f64_of_Z 100) (f64_abs (snd kv)) = false) items
  end.

(** What a chat request that passed its validators satisfies. *)
Definition chat_request_valid (r : ChatCompletionRequest) : Prop :=
  penalty_valid (ch_frequency_penalty r) /\ penalty_valid (ch_presence_penalty r) /\
  bias_valid (ch_logit_bias r) /\
  0 <= ch_top_logprobs r <= 20 /\
  (0 < ch_top_logprobs r -> ch_logprobs r = true) /\
  (ch_stream_options r <> None -> ch_stream r = true) /\
  ((exists dc, ch_debug_config r = Some dc /\ special_request dc <> None) ->
   ch_stream r = true /\ exists so, ch_stream_options r = Some so /\ include_usage so = Some true).

(** What [check_message_validity] demands of the [i]-th message. *)
Definition message_valid (i : nat) (m : ChatCompletionMessage) : Prop :=
  (msg_role m = "system" -> i = 0%nat) /\
  (msg_tool_call_id m <> None -> msg_role m = "tool") /\
  (is_items (msg_content m) = true -> msg_role m = "user") /\
  msg_tool_calls m = None.

(** ** Lemmas *)

Lemma check_penalty_Ok p : check_penalty_range p = Ok p <-> penalty_valid p.
Proof.
  destruct p as [p|]; simpl; [|done].
  destruct (f64_truthy p) eqn:Ht; simpl.
  - destruct (f64_ltb p _), (f64_ltb _ p); simpl; naive_solver.
  - by destruct p as [[]| | |].
Qed.

Lemma check_penalty_shape p x : check_penalty_range p = Ok x -> x = p.
Proof. unfold check_penalty_range. repeat case_match; congruence. Qed.

Lemma check_bias_Ok v x : check_logit_bias v = Ok x <-> x = v /\ bias_valid v.
Proof.
  destruct v as [items|]; simpl; [|naive_solver].
  split.
  - intros H. apply rbind_Ok in H as ([] & Hf & [= <-]). split; [done|].
    apply rfor_Ok in Hf. eapply Forall_impl; [done|]. intros [k b]; simpl. by case_match.
  - intros [-> H]. assert (rfor _ items = Ok tt) as ->; [|done].
    apply rfor_Ok. eapply Forall_impl; [done|]. intros [k b]; simpl. by intros ->.
Qed.

Lemma chat_check_logprobs_Ok r :
  chat_check_logprobs r = Ok tt <->
  0 <= ch_top_logprobs r <= 20 /\ (0 < ch_top_logprobs r -> ch_logprobs r = true).
Proof.
  unfold chat_check_logprobs, CHAT_COMPLETION_MAX_TOP_LOGPROBS.
  destruct (Z.ltb_spec (ch_top_logprobs r) 0), (Z.ltb_spec 20 (ch_top_logprobs r)); simpl;
    try (split; [done|lia]).
  destruct (ch_logprobs r), (Z.ltb_spec 0 (ch_top_logprobs r)); simpl; split; try done; try lia.
Qed.

Lemma check_stream_options_Ok r :
  check_stream_options r = Ok tt <-> (ch_stream_options r <> None -> ch_stream r = true).
Proof.
  unfold check_stream_options. destruct (ch_stream_options r), (ch_stream r); simpl; try done.
  split; [done|]. intros H. discriminate H. done.
Qed.

Lemma check_debug_config_Ok r :
  check_debug_config r = Ok tt <->
  ((exists dc, ch_debug_config r = Some dc /\ special_request dc <> None) ->
   ch_stream r = true /\ exists so, ch_stream_options r = Some so /\ include_usage so = Some true).
Proof.
  unfold check_debug_config. destruct (ch_debug_config r) as [dc|]; [|naive_solver].
  destruct (special_request dc) as [q|] eqn:Eq; [|naive_solver].
  destruct (ch_stream r); simpl; [|naive_solver].
  unfold no_include_usage. destruct (ch_stream_options r) as [[[[]|]]|]; simpl; naive_solver.
Qed.

Lemma check_message_Ok i m : check_message i m = Ok tt <-> message_valid i m.
Proof.
  unfold check_message, message_valid.
  destruct (String.eqb_spec (msg_role m) "system") as [Hs|Hs],
    (Nat.eqb_spec i 0), (msg_tool_call_id m), (is_items (msg_content m)), (msg_tool_calls m),
    (String.eqb_spec (msg_role m) "tool"), (String.eqb_spec (msg_role m) "user"); simpl;
    try case_match; naive_solver.
Qed.

Lemma select_tool_find d n tools :
  dict_get d "function" = Some (JObj [("name", JStr n)]) ->
  select_tool d tools
  = Ok (List.find (fun t => String.eqb (cf_name (ct_function t)) n) tools).
Proof.
  intros Hf. induction tools as [|t tools IH]; [done|].
  simpl. unfold dict_getitem at 1. rewrite Hf. cbn. by destruct (String.eqb _ n).
Qed.

(** ** Theorems *)

(** The field validators return the fields as they are. *)
Lemma chat_checked_same r fp pp lb :
  check_penalty_range (ch_frequency_penalty r) = Ok fp -> check_penalty_range (ch_presence_penalty r) = Ok pp ->
  check_logit_bias (ch_logit_bias r) = Ok lb -> chat_set_checked r fp pp lb = r.
Proof. intros ->%check_penalty_shape ->%check_penalty_shape [-> _]%check_bias_Ok. by destruct r. Qed.

Lemma completion_checked_same r fp pp lb :
  check_penalty_range (cm_frequency_penalty r) = Ok fp -> check_penalty_range (cm_presence_penalty r) = Ok pp ->
  check_logit_bias (cm_logit_bias r) = Ok lb -> completion_set_checked r fp pp lb = r.
Proof. intros ->%check_penalty_shape ->%check_penalty_shape [-> _]%check_bias_Ok. by destruct r. Qed.

(** The validators of a chat request, together. *)
Lemma chat_validate_Ok (r r' : ChatCompletionRequest) :
  ChatCompletionRequest_validate r = Ok r' <-> r' = r /\ chat_request_valid r.
Proof.
  unfold ChatCompletionRequest_validate, chat_request_valid. split.
  - intros (fp & H1 & (pp & H2 & (lb & H3 & H)%rbind_Ok)%rbind_Ok)%rbind_Ok.
    rewrite (chat_checked_same _ _ _ _ H1 H2 H3) in H.
    apply rbind_Ok in H as ([] & H4 & ([] & H5 & ([] & H6 & [= <-])%rbind_Ok)%rbind_Ok).
    rewrite (check_penalty_shape _ _ H1) in H1. rewrite (check_penalty_shape _ _ H2) in H2.
    apply check_penalty_Ok in H1, H2. apply check_bias_Ok in H3 as [_ H3].
    rewrite (and_assoc (0 <= _ <= _)), <- chat_check_logprobs_Ok.
    by rewrite <- check_stream_options_Ok, <- check_debug_config_Ok.
  - intros (-> & H1 & H2 & H3 & H4 & H5 & H6 & H7). apply check_penalty_Ok in H1, H2.
    assert (check_logit_bias (ch_logit_bias r) = Ok (ch_logit_bias r)) as Hb by by apply check_bias_Ok.
    rewrite H1, H2. cbn [rbind]. rewrite Hb. cbn [rbind]. rewrite (chat_checked_same _ _ _ _ H1 H2 Hb).
    rewrite (proj2 (chat_check_logprobs_Ok r) (conj H4 H5)). cbn [rbind].
    rewrite (proj2 (check_stream_options_Ok r) H6). cbn [rbind].
    by rewrite (proj2 (check_debug_config_Ok r) H7).
Qed.

(** C37: the validators of a chat request accept exactly the valid requests, and
    return them unchanged.  A penalty is accepted when it is neither below -2
    nor above 2 (so NaN is accepted); [special_request] is accepted only for a
    stream that includes its usage. *)
Theorem chat_validate_iff (r r' : ChatCompletionRequest) :
  ChatCompletionRequest_validate r = Ok r' <-> r' = r /\ chat_request_valid r.
Proof. apply chat_validate_Ok. Qed.

(** The message check accepts exactly the histories in which a system
    message is only in first place, a tool-call id only on a tool message, a
    list of contents only on a user message, and no message has tool calls. *)
Theorem check_message_validity_iff (r : ChatCompletionRequest) :
  check_message_validity r = Ok tt <->
  forall i m, ch_messages r !! i = Some m -> message_valid i m.
Proof.
  unfold check_message_validity. rewrite rfor_Ok, Forall_enumerate.
  apply forall_proper. intros i. apply forall_proper. intros m.
  by rewrite check_message_Ok.
Qed.

(** With a [tool_choice] that names a function, the template receives the
    dump of the first tool of that name and function calling is on; when no
    tool has the name the request is refused and the error names it. *)
Theorem tool_choice_selects_first `{JB : JsonBackend} (r : ChatCompletionRequest) conv tools d n :
  ch_tools r = Some tools -> ch_tool_choice r = Some (TCDict d) ->
  dict_get d "type" = Some (JStr "function") ->
  dict_get d "function" = Some (JObj [("name", JStr n)]) ->
  check_function_call_usage r conv
  = match List.find (fun t => String.eqb (cf_name (ct_function t)) n) tools with
    | Some t => Ok (set_function_calling conv true (Some (function_model_dump_json (ct_function t))))
    | None => Raise (BadRequestError [Lit "The tool_choice function "; FJson (JStr n);
                                      Lit " is not found in the tools list"])
    end.
Proof.
  intros Ht Hc Hty Hf. unfold check_function_call_usage. rewrite Ht, Hc.
  unfold dict_getitem. rewrite Hty, Hf. cbn.
  rewrite (select_tool_find d n) by done. cbn. by destruct (List.find _ _).
Qed.

(** The range check of a penalty lets NaN through. *)
Theorem penalty_accepts_nan : check_penalty_range (Some S754_nan) = Ok (Some S754_nan).
Proof. reflexivity. Qed.

(** ** Witnesses *)

Module OpenAIWitness.
#[export] Instance demo_json : JsonBackend :=
  {| function_model_dump_json f := "{" +:+ cf_name f +:+ "}"; float_repr _ := "0.0";
     parse_CompletionUsage s :=
       if String.eqb s "bad" then Raise ValidationError
       else Ok (mkCompletionUsage 3 2 5 (Some [("s", JStr s)]));
     parse_LogProbsContent s := Ok (mkLogProbsContent s (S754_zero true) None []) |}.

Definition fn (n : string) : ChatFunction := mkChatFunction None n [].
Definition tools : list ChatTool := [mkChatTool "function" (fn "f"); mkChatTool "function" (fn "g")].
Definition choice : dict json :=
  [("type", JStr "function"); ("function", JObj [("name", JStr "g")])].
Definition chat_request : ChatCompletionRequest :=
  {| ch_messages := [mkChatCompletionMessage (Some (CText "Hi")) "user" None None None];
     ch_model := None; ch_frequency_penalty := None; ch_presence_penalty := None;
     ch_logprobs := false; ch_top_logprobs := 0; ch_logit_bias := None; ch_max_tokens := None;
     ch_n := 2; ch_seed := None; ch_stop := Some (StopList ["END"]); ch_stream := false;
     ch_stream_options := None; ch_temperature := None; ch_top_p := None;
     ch_tools := Some tools; ch_tool_choice := Some (TCDict choice); ch_user := None;
     ch_response_format := None; ch_debug_config := None |}.

Example tool_choice_witness :
  check_function_call_usage chat_request ConversationDemo.conv
  = Ok (set_function_calling ConversationDemo.conv true (Some "{g}")).
Proof.
  exact (tool_choice_selects_first chat_request ConversationDemo.conv tools choice "g"
           eq_refl eq_refl eq_refl eq_refl).
Defined.
End OpenAIWitness.
