(* ===== verification/EngineUtils.v ===== *)
(** * Engine utilities ([serve/engine_utils.py])

    Generation configs, prompt processing and the cleanup scope.  The list
    held by [request.stop] is shared with the keyword dictionary of the
    generation config and extended in place, so the operations that build a
    config return the request as they leave it. *)

From stdpp Require Import base list strings.
From S2P Require Import Prelude PyStr Data Conversation OpenAI.
Local Open Scope string_scope.
Local Open Scope list_scope.
Local Open Scope Z_scope.

(** ** Requests, seen through the attributes both kinds have *)

Definition set_cm_stop (r : CompletionRequest) (s : option StopArg) : CompletionRequest :=
  {| cm_model := cm_model r; cm_prompt := cm_prompt r; cm_best_of := cm_best_of r;
     cm_echo := cm_echo r; cm_frequency_penalty := cm_frequency_penalty r;
     cm_presence_penalty := cm_presence_penalty r; cm_logprobs := cm_logprobs r;
     cm_logit_bias := cm_logit_bias r; cm_max_tokens := cm_max_tokens r; cm_n := cm_n r;
     cm_seed := cm_seed r; cm_stop := s; cm_stream := cm_stream r;
     cm_stream_options := cm_stream_options r; cm_suffix := cm_suffix r;
     cm_temperature := cm_temperature r; cm_top_p := cm_top_p r; cm_user := cm_user r;
     cm_response_format := cm_response_format r; cm_debug_config := cm_debug_config r |}.

Definition set_ch_stop (r : ChatCompletionRequest) (s : option StopArg)
  : ChatCompletionRequest :=
  {| ch_messages := ch_messages r; ch_model := ch_model r;
     ch_frequency_penalty := ch_frequency_penalty r;
     ch_presence_penalty := ch_presence_penalty r; ch_logprobs := ch_logprobs r;
     ch_top_logprobs := ch_top_logprobs r; ch_logit_bias := ch_logit_bias r;
     ch_max_tokens := ch_max_tokens r; ch_n := ch_n r; ch_seed := ch_seed r; ch_stop := s;
     ch_stream := ch_stream r; ch_stream_options := ch_stream_options r;
     ch_temperature := ch_temperature r; ch_top_p := ch_top_p r; ch_tools := ch_tools r;
     ch_tool_choice := ch_tool_choice r; ch_user := ch_user r;
     ch_response_format := ch_response_format r; ch_debug_config := ch_debug_config r |}.

Definition request_stop (r : RequestProtocol) : option StopArg :=
  match r with RCompletion r => cm_stop r | RChat r => ch_stop r end.

Definition set_request_stop (r : RequestProtocol) (s : option StopArg) : RequestProtocol :=
  match r with
  | RCompletion r => RCompletion (set_cm_stop r s)
  | RChat r => RChat (set_ch_stop r s)
  end.

(** ** Generation configs *)

(** The keyword arguments: [GenerationConfig]'s fields, where an absent
    [stop_strs] or [stop_token_ids] is [None], and whether the [stop_strs]
    list is the very object [request.stop]. *)
Record Kwargs : Type := mkKwargs { kw_config : GenerationConfig; kw_stop_aliased : bool }.

(** The [stop_strs] keyword and whether it is [request.stop] itself. *)
Definition stop_kwarg (stop : option StopArg) : option (list string) * bool :=
  match stop with
  | None => (None, false)
  | Some (StopStr s) => (Some [s], false)
  | Some (StopList l) => (Some l, true)
  end.

(** [kwargs["max_tokens"]] after the default. *)
Definition max_tokens_kwarg (m : option Z) : Z :=
  match m with None => -1 | Some m => m end.

(** [openai_api_get_generation_config] *)
Definition openai_api_get_generation_config (request : RequestProtocol) : Kwargs :=
  let '(stop_strs, aliased) := stop_kwarg (request_stop request) in
  match request with
  | RChat r =>
      mkKwargs
        {| g_n := ch_n r; g_temperature := ch_temperature r; g_top_p := ch_top_p r;
           g_frequency_penalty := ch_frequency_penalty r;
           g_presence_penalty := ch_presence_penalty r; g_repetition_penalty := None;
           g_logprobs := ch_logprobs r; g_top_logprobs := ch_top_logprobs r;
           g_logit_bias := ch_logit_bias r; g_max_tokens := max_tokens_kwarg (ch_max_tokens r);
           g_seed := ch_seed r; g_stop_strs := stop_strs; g_stop_token_ids := None;
           g_response_format := ch_response_format r; g_debug_config := ch_debug_config r |}
        aliased
  | RCompletion r =>
      mkKwargs
        {| g_n := cm_n r; g_temperature := cm_temperature r; g_top_p := cm_top_p r;
           g_frequency_penalty := cm_frequency_penalty r;
           g_presence_penalty := cm_presence_penalty r; g_repetition_penalty := None;
           g_logprobs := negb (is_none (cm_logprobs r));
           g_top_logprobs := opt_default 0 (cm_logprobs r);
           g_logit_bias := cm_logit_bias r; g_max_tokens := max_tokens_kwarg (cm_max_tokens r);
           g_seed := cm_seed r; g_stop_strs := stop_strs; g_stop_token_ids := None;
           g_response_format := cm_response_format r; g_debug_config := cm_debug_config r |}
        aliased
  end.

Definition set_stops (g : GenerationConfig) (strs : option (list string))
    (ids : option (list Z)) : GenerationConfig :=
  {| g_n := g_n g; g_temperature := g_temperature g; g_top_p := g_top_p g;
     g_frequency_penalty := g_frequency_penalty g;
     g_presence_penalty := g_presence_penalty g;
     g_repetition_penalty := g_repetition_penalty g; g_logprobs := g_logprobs g;
     g_top_logprobs := g_top_logprobs g; g_logit_bias := g_logit_bias g;
     g_max_tokens := g_max_tokens g; g_seed := g_seed g; g_stop_strs := strs;
     g_stop_token_ids := ids; g_response_format := g_response_format g;
     g_debug_config := g_debug_config g |}.

(** [get_generation_config]: the config, and the request with the in-place
    [stop_strs += extra_stop_str] visible through [request.stop]. *)
Definition get_generation_config (request : RequestProtocol)
    (extra_stop_token_ids : option (list Z)) (extra_stop_str : option (list string))
  : GenerationConfig * RequestProtocol :=
  let kw := openai_api_get_generation_config request in
  let cfg := kw_config kw in
  let ids :=
    match extra_stop_token_ids with
    | Some e => Some (opt_default [] (g_stop_token_ids cfg) ++ e)
    | None => g_stop_token_ids cfg
    end in
  match extra_stop_str with
  | Some e =>
      let stop_strs := opt_default [] (g_stop_strs cfg) ++ e in
      (set_stops cfg (Some stop_strs) ids,
       if kw_stop_aliased kw then set_request_stop request (Some (StopList stop_strs))
       else request)
  | None => (set_stops cfg (g_stop_strs cfg) ids, request)
  end.

(** [get_unsupported_fields] and [check_unsupported_fields] *)
Definition get_unsupported_fields (request : RequestProtocol) : list string :=
  openai_api_get_unsupported_fields request.

Definition check_unsupported_fields (request : RequestProtocol) : res unit :=
  let unsupported_fields := get_unsupported_fields request in
  if negb (Nat.eqb (length unsupported_fields) 0)
  then Raise (BadRequestError
         [Lit "Request fields ";
          FStr (str_join ", " (map (fun f => dquote +:+ f +:+ dquote) unsupported_fields));
          Lit " are not supported right now."])
  else Ok tt.

(** ** Prompts *)

Section Prompts.
Context `{IB : ImageBackend}.

(** A dynamically typed prompt. *)
Inductive PyPrompt : Type :=
| PyStr (s : string)
| PyInt (z : Z)
| PyList (l : list PyPrompt)
| PyData (d : Data).

(** A processed prompt: token ids or an image. *)
Inductive Prompt : Type :=
| Tokens (l : list Z)
| Image (i : ImageData).

(** [isinstance(x, int)] for all elements: the integers. *)
Fixpoint all_ints (l : list PyPrompt) : option (list Z) :=
  match l with
  | [] => Some []
  | PyInt z :: l => match all_ints l with Some zs => Some (z :: zs) | None => None end
  | _ :: _ => None
  end.

Definition prompt_len (p : Prompt) : Z :=
  match p with
  | Tokens l => Z.of_nat (length l)
  | Image i => embed_size i
  end.

(** [check_and_get_prompts_length] *)
Definition check_and_get_prompts_length (prompts : list Prompt)
    (max_input_sequence_length : Z) : res Z :=
  let total_length := fold_left (fun acc p => acc + prompt_len p) prompts 0 in
  if max_input_sequence_length <? total_length
  then Raise (BadRequestError [Lit "Request prompt has "; FInt total_length;
                               Lit " tokens in total,";
                               Lit " larger than the model input length limit ";
                               FInt max_input_sequence_length; Lit "."])
  else Ok total_length.

Definition invalid_prompt : exn := BadRequestError [Lit "Invalid request prompt "].

(** One element of a list of prompts (case 3). *)
Definition process_one (ftokenize : string -> list Z) (p : PyPrompt) : res Prompt :=
  match p with
  | PyStr s => Ok (Tokens (ftokenize s))
  | PyList l =>
      match all_ints l with
      | Some zs => Ok (Tokens zs)
      | None => Raise invalid_prompt
      end
  | PyData (ImageDataD i) => Ok (Image i)
  | _ => Raise invalid_prompt
  end.

(** [process_prompts] *)
Definition process_prompts (input_prompts : PyPrompt) (ftokenize : string -> list Z)
  : res (list Prompt) :=
  match input_prompts with
  | PyStr s => Ok [Tokens (ftokenize s)]
  | PyList [] => Raise invalid_prompt
  | PyList (PyInt z :: l) =>
      match all_ints (PyInt z :: l) with
      | Some zs => Ok [Tokens zs]
      | None => Raise invalid_prompt
      end
  | PyList l => rmap (process_one ftokenize) l
  | _ => Raise AssertionError
  end.

(** [convert_prompts_to_data] *)
Fixpoint convert_prompts_to_data (prompts : PyPrompt) : res (list Data) :=
  match prompts with
  | PyData d => Ok [d]
  | PyStr s => Ok [TextData s]
  | PyInt _ => Raise TypeError
  | PyList [] => Raise IndexError
  | PyList (PyInt z :: l) =>
      match all_ints (PyInt z :: l) with
      | Some zs => Ok [TokenData zs]
      | None => Raise AssertionError
      end
  | PyList l =>
      rmap (fun x => let? ds := convert_prompts_to_data x in list_getitem ds 0) l
  end.

(** How the engine passes processed prompts on to [_generate]. *)
Definition prompt_to_py (p : Prompt) : PyPrompt :=
  match p with
  | Tokens l => PyList (map PyInt l)
  | Image i => PyData (ImageDataD i)
  end.

Definition piece_to_py (p : Piece) : PyPrompt :=
  match p with
  | PStr s => PyStr s
  | PImage i => PyData (ImageDataD i)
  end.

End Prompts.

(** [with ErrorCleanupScope(cleanup): body] — [__exit__] runs the cleanup
    exactly when the body left with an exception of any kind. *)
Definition ErrorCleanupScope {S A : Type} (cleanup : S -> S) (body : M S A) : M S A :=
  fun s => match body s with
           | (Ok a, s') => (Ok a, s')
           | (Raise e, s') => (Raise e, cleanup s')
           end.

(** ** Specifications *)

(** The stop strings a request asks for, as a list. *)
Definition stop_list (s : option StopArg) : list string :=
  match s with
  | None => []
  | Some (StopStr s) => [s]
  | Some (StopList l) => l
  end.

(** What the engine relies on in a generation config. *)
Definition generation_config_valid (g : GenerationConfig) : Prop :=
  0 <= g_top_logprobs g <= 20 /\ (0 < g_top_logprobs g -> g_logprobs g = true) /\
  penalty_valid (g_frequency_penalty g) /\ penalty_valid (g_presence_penalty g) /\
  bias_valid (g_logit_bias g).

Definition request_validated (r : RequestProtocol) : Prop :=
  match r with
  | RCompletion r => CompletionRequest_validate r = Ok r
  | RChat r => ChatCompletionRequest_validate r = Ok r
  end.

(** The data the engine makes of one processed prompt. *)
Definition prompt_data `{IB : ImageBackend} (p : Prompt) : Data :=
  match p with
  | Tokens l => TokenData l
  | Image i => ImageDataD i
  end.

Definition prompt_nonempty `{IB : ImageBackend} (p : Prompt) : bool :=
  match p with Tokens [] => false | _ => true end.

(** ** Lemmas *)

Lemma all_ints_map `{IB : ImageBackend} zs : all_ints (map PyInt zs) = Some zs.
Proof. induction zs as [|z zs IH]; simpl; [done|]. by rewrite IH. Qed.

Lemma completion_validate_inv r :
  CompletionRequest_validate r = Ok r ->
  penalty_valid (cm_frequency_penalty r) /\ penalty_valid (cm_presence_penalty r) /\
  bias_valid (cm_logit_bias r) /\
  match cm_logprobs r with Some lp => 0 <= lp <= 5 | None => True end.
Proof.
  unfold CompletionRequest_validate. intros H.
  apply rbind_Ok in H as (? & H1 & H). apply rbind_Ok in H as (? & H2 & H).
  apply rbind_Ok in H as (? & H3 & H). rewrite (completion_checked_same _ _ _ _ H1 H2 H3) in H.
  apply rbind_Ok in H as (? & H4 & _).
  rewrite (check_penalty_shape _ _ H1) in H1. rewrite (check_penalty_shape _ _ H2) in H2.
  apply check_penalty_Ok in H1, H2. apply check_bias_Ok in H3 as [_ H3].
  repeat split; try done. revert H4. unfold completion_check_logprobs.
  destruct (cm_logprobs r) as [lp|]; [|done]. unfold COMPLETION_MAX_TOP_LOGPROBS.
  destruct (Z.ltb_spec lp 0), (Z.ltb_spec 5 lp); simpl; done.
Qed.

Section PromptLemmas.
Context `{IB : ImageBackend}.

Lemma process_pieces ps tok :
  ps <> [] ->
  process_prompts (PyList (map piece_to_py ps)) tok
  = Ok (map (fun p => match p with PStr s => Tokens (tok s) | PImage i => Image i end) ps).
Proof.
  intros Hne. destruct ps as [|p ps]; [done|].
  transitivity (rmap (process_one tok) (map piece_to_py (p :: ps))); [by destruct p|].
  generalize (p :: ps) as l. clear. induction l as [|[s|i] l IH]; simpl; [done| |];
    by rewrite IH.
Qed.

Lemma convert_prompt p :
  (let? ds := convert_prompts_to_data (prompt_to_py p) in list_getitem ds 0)
  = match p with Tokens [] => Raise IndexError | _ => Ok (prompt_data p) end.
Proof. destruct p as [[|z zs]|i]; simpl; [done| |done]. by rewrite all_ints_map. Qed.

Lemma convert_prompts ps :
  ps <> [] ->
  convert_prompts_to_data (PyList (map prompt_to_py ps))
  = rmap (fun p => match p with Tokens [] => Raise IndexError | _ => Ok (prompt_data p) end) ps.
Proof.
  intros Hne. destruct ps as [|p ps]; [done|].
  transitivity (rmap (fun x => let? ds := convert_prompts_to_data x in list_getitem ds 0)
                  (map prompt_to_py (p :: ps))); [by destruct p|].
  generalize (p :: ps) as l. clear. induction l as [|p l IH]; [done|].
  cbn [map rmap]. rewrite convert_prompt, IH. done.
Qed.
End PromptLemmas.

(** ** Theorems *)

(** A request that passed its validators yields a generation config within
    the engine's bounds: at most 20 top logprobs, only when logprobs are on,
    and valid penalties and logit biases; this holds for both protocols and
    for any stops of the template. *)
Theorem generation_config_bounds (r : RequestProtocol) ids strs :
  request_validated r -> generation_config_valid (fst (get_generation_config r ids strs)).
Proof.
  intros Hr. unfold get_generation_config.
  enough (generation_config_valid (kw_config (openai_api_get_generation_config r)))
    as H by (by destruct strs).
  unfold openai_api_get_generation_config, generation_config_valid.
  destruct (stop_kwarg _) as [ss al]. destruct r as [r|r]; simpl in *.
  - apply completion_validate_inv in Hr as (H1 & H2 & H3 & H4).
    destruct (cm_logprobs r); simpl; repeat split; try done; lia.
  - apply chat_validate_Ok in Hr as (_ & H1 & H2 & H3 & H4 & H5 & _).
    exact (conj H4 (conj H5 (conj H1 (conj H2 H3)))).
Qed.

(** The config stops on the request's stop strings followed by the
    template's, but when the request carries a list that list object itself
    is extended: building a config from the same request again stops twice on
    the template's strings, and so on for every further call. *)
Theorem get_generation_config_mutates_stop (r : RequestProtocol) ids ids' l e :
  request_stop r = Some (StopList l) ->
  let '(cfg, r') := get_generation_config r ids (Some e) in
  let '(cfg', _) := get_generation_config r' ids' (Some e) in
  g_stop_strs cfg = Some (l ++ e) /\ request_stop r' = Some (StopList (l ++ e)) /\
  g_stop_strs cfg' = Some (l ++ e ++ e).
Proof.
  intros Hs. unfold get_generation_config, openai_api_get_generation_config. rewrite Hs.
  destruct r as [r|r]; simpl; by rewrite <- app_assoc.
Qed.

(** Every other request is left alone: without a list in [request.stop] the
    config has the same stop strings (the single string, or none) followed by
    the template's, and the request comes back unchanged. *)
Theorem get_generation_config_pure (r : RequestProtocol) ids e :
  (forall l, request_stop r <> Some (StopList l)) ->
  get_generation_config r ids (Some e)
  = (set_stops (kw_config (openai_api_get_generation_config r))
       (Some (stop_list (request_stop r) ++ e)) ids, r).
Proof.
  intros Hs. unfold get_generation_config, openai_api_get_generation_config.
  destruct r as [r|r]; simpl in *.
  - destruct (cm_stop r) as [[s|l]|]; [|by destruct (Hs l eq_refl)|]; by destruct ids.
  - destruct (ch_stop r) as [[s|l]|]; [|by destruct (Hs l eq_refl)|]; by destruct ids.
Qed.

(** The processed prompts reach the engine one datum per prompt, in order,
    exactly when there is a prompt and no token list is empty; otherwise the
    conversion raises [IndexError], not a bad-request error. *)
Theorem convert_processed_prompts `{IB : ImageBackend} (ps : list Prompt) :
  convert_prompts_to_data (PyList (map prompt_to_py ps))
  = if (negb (Nat.eqb (length ps) 0) && forallb prompt_nonempty ps)%bool
    then Ok (map prompt_data ps) else Raise IndexError.
Proof.
  destruct (decide (ps = [])) as [->|Hne]; [done|]. rewrite convert_prompts by done.
  replace (Nat.eqb (length ps) 0) with false by (by destruct ps). cbn [negb andb]. clear.
  induction ps as [|[[|z zs]|i] ps IH]; simpl; [done|done|..]; rewrite IH; by destruct (forallb _ ps).
Qed.

(** ** Witnesses *)

Module EngineUtilsWitness.
Import OpenAIWitness ConversationDemo.

Example generation_config_bounds_witness :
  generation_config_valid (fst (get_generation_config (RChat chat_request) (Some [2]) (Some ["</s>"]))).
Proof. apply (generation_config_bounds (RChat chat_request)). reflexivity. Defined.

Example get_generation_config_mutates_stop_witness :
  let '(cfg, r') := get_generation_config (RChat chat_request) (Some [2]) (Some ["</s>"]) in
  let '(cfg', _) := get_generation_config r' (Some [2]) (Some ["</s>"]) in
  g_stop_strs cfg = Some ["END"; "</s>"] /\ request_stop r' = Some (StopList ["END"; "</s>"]) /\ g_stop_strs cfg' = Some ["END"; "</s>"; "</s>"].
Proof.
  exact (get_generation_config_mutates_stop (RChat chat_request) (Some [2]) (Some [2])
           ["END"] ["</s>"] eq_refl).
Defined.

Example get_generation_config_pure_witness :
  get_generation_config (RChat (set_ch_stop chat_request (Some (StopStr "END")))) None (Some ["</s>"])
  = (set_stops (kw_config (openai_api_get_generation_config
                             (RChat (set_ch_stop chat_request (Some (StopStr "END"))))))
       (Some ["END"; "</s>"]) None, RChat (set_ch_stop chat_request (Some (StopStr "END")))).
Proof.
  apply (get_generation_config_pure (RChat (set_ch_stop chat_request (Some (StopStr "END"))))).
  discriminate.
Defined.
End EngineUtilsWitness.
