(* ===== verification/Streams.v ===== *)
(** * Request streams and the engine state ([serve/engine_base.py])

    [AsyncRequestStream] is the queue between the engine's callback and the
    coroutine that serves a request.  [EngineState] holds the optional trace,
    the registered streams of the asynchronous engine, and the output queue
    and text streamers of the synchronous one; its callbacks turn the token
    deltas of the C++ engine into text deltas.

    A stream object is shared between the registry and its consumer, so
    streams live in a store and the registry maps a request id to a location
    together with the request's text streamers.  The text streamer is the C++
    tokenizer's: the class [TextStreamerOps] is its interface. *)

From stdpp Require Import base list strings gmap.
From S2P Require Import Prelude PyStr Data.
Local Open Scope string_scope.
Local Open Scope list_scope.

(** The incremental detokenizer of the C++ tokenizers. *)
Class TextStreamerOps := {
  streamer : Type;
  streamer_new : streamer;
  streamer_put : streamer -> list Z -> streamer * string;
  streamer_finish : streamer -> streamer * string;
}.

(** ** [CallbackStreamOutput] *)
Record CallbackStreamOutput : Type := mkCSO {
  co_delta_text : string;
  co_delta_logprob_json_strs : option (list string);
  co_finish_reason : option string;
  co_request_final_usage_json_str : option string;
}.

(** ** [AsyncRequestStream] *)

(** A queue element: outputs, or an exception object. *)
Inductive QItem : Type :=
| QOutputs (l : list CallbackStreamOutput)
| QExn (e : exn).

Record AsyncRequestStream : Type := mkStream { st_queue : list QItem; st_finished : bool }.

Definition stream_new : AsyncRequestStream := mkStream [] false.

Definition already_finished : exn :=
  RuntimeError [Lit "The request has already finished. ";
                Lit "The stream is not supposed to accept new items."].

(** [push] *)
Definition stream_push (s : AsyncRequestStream) (item_or_exception : QItem)
  : AsyncRequestStream :=
  if st_finished s
  then mkStream (st_queue s ++ [QExn already_finished]) (st_finished s)
  else mkStream (st_queue s ++ [item_or_exception]) (st_finished s).

(** [finish] *)
Definition stream_finish (s : AsyncRequestStream) : AsyncRequestStream :=
  mkStream (st_queue s ++ [QExn StopIteration]) true.

(** [__anext__]; [None] when the queue is empty and the coroutine waits. *)
Definition stream_anext (s : AsyncRequestStream)
  : option (res (list CallbackStreamOutput)) * AsyncRequestStream :=
  match st_queue s with
  | [] => (None, s)
  | item :: queue =>
      let s' := mkStream queue (st_finished s) in
      match item with
      | QExn StopIteration => (Some (Raise StopAsyncIteration), s')
      | QExn e => (Some (Raise e), s')
      | QOutputs l => (Some (Ok l), s')
      end
  end.

(** ** [EngineState] *)

Section State.
Context `{TS : TextStreamerOps}.

Record EngineState : Type := mkES {
  (** the calls of [trace_recorder.add_event], when there is a recorder *)
  es_trace : option (list (string * string));
  (** the store of stream objects *)
  es_streams : gmap nat AsyncRequestStream;
  es_async_streamers : gmap string (nat * list streamer);
  (** the batches put into [sync_output_queue] and not yet taken *)
  es_sync_output_queue : list (list RequestStreamOutput);
  es_sync_text_streamers : list streamer;
}.

(** The class attributes [async_streamers] and [sync_output_queue], with the
    store of streams: objects that every engine of the process shares.
    [__init__] does not replace them, so a new engine sees what is in them
    ([sync_text_streamers] is only ever assigned to an instance, and so is
    [sync_output_queue] when a [generate] starts).  An engine writes to the
    shared dictionary under the ids of its own requests; its theorems are about
    any contents in which the id of the request is free. *)
Record ClassAttributes : Type := mkClassAttributes {
  cls_streams : gmap nat AsyncRequestStream;
  cls_async_streamers : gmap string (nat * list streamer);
  cls_sync_output_queue : list (list RequestStreamOutput);
}.

(** As the class statement leaves them *)
Definition class_attributes : ClassAttributes := mkClassAttributes ∅ ∅ [].

Definition EngineState_init (cls : ClassAttributes) (enable_tracing : bool) : EngineState :=
  mkES (if enable_tracing then Some [] else None) (cls_streams cls) (cls_async_streamers cls)
    (cls_sync_output_queue cls) [].

Definition set_trace (s : EngineState) t : EngineState :=
  mkES t (es_streams s) (es_async_streamers s) (es_sync_output_queue s) (es_sync_text_streamers s).
Definition set_streams (s : EngineState) m : EngineState :=
  mkES (es_trace s) m (es_async_streamers s) (es_sync_output_queue s) (es_sync_text_streamers s).
Definition set_async_streamers (s : EngineState) m : EngineState :=
  mkES (es_trace s) (es_streams s) m (es_sync_output_queue s) (es_sync_text_streamers s).
Definition set_sync_output_queue (s : EngineState) q : EngineState :=
  mkES (es_trace s) (es_streams s) (es_async_streamers s) q (es_sync_text_streamers s).
Definition set_sync_text_streamers (s : EngineState) l : EngineState :=
  mkES (es_trace s) (es_streams s) (es_async_streamers s) (es_sync_output_queue s) l.

(** [record_event] *)
Definition record_event (request_id event : string) : M EngineState unit :=
  mmodify (fun s => match es_trace s with
                    | None => s
                    | Some t => set_trace s (Some (t ++ [(request_id, event)]))
                    end).

(** The text of one delta: the extra prefix, the tokens, and the rest of the
    streamer's buffer when the generation finishes. *)
Definition delta_text (so : SingleRequestStreamOutput) (ts : streamer) : streamer * string :=
  let '(ts, text) :=
    if Nat.ltb 0 (length (so_delta_token_ids so))
    then streamer_put ts (so_delta_token_ids so) else (ts, "") in
  let text := so_extra_prefix_string so +:+ text in
  match so_finish_reason so with
  | Some _ => let '(ts, tail) := streamer_finish ts in (ts, text +:+ tail)
  | None => (ts, text)
  end.

Definition delta_output_of (so : SingleRequestStreamOutput) (text : string)
  : CallbackStreamOutput :=
  mkCSO text (so_delta_logprob_json_strs so) (so_finish_reason so) None.

(** [for stream_output, text_streamer in zip(stream_outputs, text_streamers)] *)
Fixpoint detokenize (request_id : string) (sos : list SingleRequestStreamOutput)
    (tss : list streamer) : M EngineState (list CallbackStreamOutput * list streamer) :=
  match sos, tss with
  | so :: sos, ts :: tss =>
      record_event request_id "start detokenization" ;!
      let '(ts, text) := delta_text so ts in
      record_event request_id "finish detokenization" ;!
      let! (outs, tss) := detokenize request_id sos tss in
      mret' (delta_output_of so text :: outs, ts :: tss)
  | _, _ => mret' ([], tss)
  end.

Definition usage_output (u : option string) : CallbackStreamOutput := mkCSO "" None None u.

(** Update of the stream object at a location. *)
Definition on_stream (loc : nat) (f : AsyncRequestStream -> AsyncRequestStream)
  : M EngineState unit :=
  mmodify (fun s => set_streams s (alter f loc (es_streams s))).

(** One iteration of the loop of [_async_request_stream_callback_impl]. *)
Definition async_callback_one (delta_output : RequestStreamOutput) : M EngineState unit :=
  let! (request_id, stream_outputs) := mlift (unpack delta_output) in
  let! s := mget in
  match es_async_streamers s !! request_id with
  | None => mret' tt
  | Some (stream, text_streamers) =>
      record_event request_id "start callback" ;!
      let! so0 := mlift (list_getitem stream_outputs 0) in
      match so_request_final_usage_json_str so0 with
      | Some u =>
          on_stream stream (fun st => stream_push st (QOutputs [usage_output (Some u)])) ;!
          on_stream stream stream_finish ;!
          mmodify (fun s => set_async_streamers s (delete request_id (es_async_streamers s)))
      | None =>
          let! (outputs, text_streamers) := detokenize request_id stream_outputs text_streamers in
          mmodify (fun s => set_async_streamers s
                     (<[request_id := (stream, text_streamers)]> (es_async_streamers s))) ;!
          on_stream stream (fun st => stream_push st (QOutputs outputs)) ;!
          record_event request_id "finish callback"
      end
  end.

(** [_async_request_stream_callback_impl] *)
Fixpoint _async_request_stream_callback_impl (delta_outputs : list RequestStreamOutput)
  : M EngineState unit :=
  match delta_outputs with
  | [] => mret' tt
  | d :: delta_outputs =>
      async_callback_one d ;! _async_request_stream_callback_impl delta_outputs
  end.

(** [_sync_request_stream_callback] *)
Definition _sync_request_stream_callback (delta_outputs : list RequestStreamOutput)
  : M EngineState unit :=
  mmodify (fun s => set_sync_output_queue s (es_sync_output_queue s ++ [delta_outputs])).

(** [MLCEngine._request_stream_callback_impl]: the batch outputs and the final
    usage; the deltas after a final chunk are dropped. *)
Fixpoint _request_stream_callback_impl (delta_outputs : list RequestStreamOutput)
  : M EngineState (list (list CallbackStreamOutput) * option string) :=
  match delta_outputs with
  | [] => mret' ([], None)
  | d :: delta_outputs =>
      let! (request_id, stream_outputs) := mlift (unpack d) in
      record_event request_id "start callback" ;!
      let! so0 := mlift (list_getitem stream_outputs 0) in
      match so_request_final_usage_json_str so0 with
      | Some u => mret' ([], Some u)
      | None =>
          let! s := mget in
          let! (outputs, tss) := detokenize request_id stream_outputs (es_sync_text_streamers s) in
          mmodify (fun s => set_sync_text_streamers s tss) ;!
          record_event request_id "finish callback" ;!
          let! (batch_outputs, usage) := _request_stream_callback_impl delta_outputs in
          mret' (outputs :: batch_outputs, usage)
      end
  end.

(** ** Specifications *)

(** The pure part of [detokenize]. *)
Fixpoint detok (sos : list SingleRequestStreamOutput) (tss : list streamer)
  : list CallbackStreamOutput * list streamer :=
  match sos, tss with
  | so :: sos, ts :: tss =>
      let '(ts, text) := delta_text so ts in
      let '(outs, tss) := detok sos tss in
      (delta_output_of so text :: outs, ts :: tss)
  | _, _ => ([], tss)
  end.

(** What one unpacked delta of request [r] pushes to its stream, given the
    state of its text streamers; [None] afterwards means it is finished. *)
Definition view_step (v : list streamer) (sos : list SingleRequestStreamOutput)
  : list QItem * option (list streamer) :=
  match sos with
  | so0 :: _ =>
      match so_request_final_usage_json_str so0 with
      | Some u => ([QOutputs [usage_output (Some u)]; QExn StopIteration], None)
      | None => let '(outs, v) := detok sos v in ([QOutputs outs], Some v)
      end
  | [] => ([], Some v)
  end.

(** The items request [r] receives from a list of unpacked deltas, and its
    text streamers afterwards: the abstract, single-request view of the
    callback. *)
Fixpoint request_view (r : string) (v : option (list streamer))
    (ds : list (string * list SingleRequestStreamOutput))
  : list QItem * option (list streamer) :=
  match ds with
  | [] => ([], v)
  | (r', sos) :: ds =>
      match v with
      | None => ([], None)
      | Some w =>
          if String.eqb r' r
          then let '(items, v) := view_step w sos in
               let '(rest, v) := request_view r v ds in (items ++ rest, v)
          else request_view r (Some w) ds
      end
  end.

(** Deltas that unpack, with the outputs they hold (never empty: the engine
    reports on at least one generation). *)
Definition unpacks (ds : list RequestStreamOutput)
    (us : list (string * list SingleRequestStreamOutput)) : Prop :=
  Forall2 (fun d u => unpack d = Ok u /\ snd u <> []) ds us.

(** Equal up to the trace: what the event log cannot influence. *)
Definition same_but_trace (s s' : EngineState) : Prop := set_trace s None = set_trace s' None.

(** Every registered stream exists, has not finished, and is registered once. *)
Definition registry_ok (s : EngineState) : Prop :=
  (forall r loc tss, es_async_streamers s !! r = Some (loc, tss) ->
     exists q, es_streams s !! loc = Some (mkStream q false)) /\
  (forall r r' loc tss tss', es_async_streamers s !! r = Some (loc, tss) ->
     es_async_streamers s !! r' = Some (loc, tss') -> r = r').
End State.

(** [async for outputs in stream], run to the first exception or until the
    queue is empty: the outputs received and how the iteration ended. *)
Fixpoint drain (fuel : nat) (s : AsyncRequestStream)
  : list (list CallbackStreamOutput) * option exn :=
  match fuel with
  | O => ([], None)
  | S fuel =>
      match stream_anext s with
      | (None, _) => ([], None)
      | (Some (Raise e), _) => ([], Some e)
      | (Some (Ok l), s') => let '(ls, e) := drain fuel s' in (l :: ls, e)
      end
  end.

(** ** Lemmas: the queue *)

Lemma push_all q ls :
  fold_left stream_push (map QOutputs ls) (mkStream q false)
  = mkStream (q ++ map QOutputs ls) false.
Proof.
  revert q. induction ls as [|l ls IH]; intros q; simpl; [by rewrite app_nil_r|].
  unfold stream_push at 2. simpl. by rewrite IH, <- app_assoc.
Qed.

Lemma push_finished q items :
  exists q', fold_left stream_push items (mkStream q true) = mkStream (q ++ q') true.
Proof.
  revert q. induction items as [|i items IH]; intros q; simpl; [exists []; by rewrite app_nil_r|].
  unfold stream_push at 2. simpl. destruct (IH (q ++ [QExn already_finished])) as [q' ->].
  exists ([QExn already_finished] ++ q'). by rewrite <- app_assoc.
Qed.

Lemma drain_outputs fuel ls q fin :
  (length ls < fuel)%nat ->
  drain fuel (mkStream (map QOutputs ls ++ QExn StopIteration :: q) fin)
  = (ls, Some StopAsyncIteration).
Proof.
  revert fuel. induction ls as [|l ls IH]; intros [|fuel] Hf; simpl in *; try lia; [done|].
  rewrite IH by lia. done.
Qed.

(** ** Lemmas: the callbacks *)

Section CallbackLemmas.
Context `{TS : TextStreamerOps}.

#[export] Instance same_but_trace_equiv : Equivalence same_but_trace.
Proof. unfold same_but_trace. split; congruence. Qed.

Lemma same_but_trace_fields s s' :
  same_but_trace s s' <->
  es_streams s = es_streams s' /\ es_async_streamers s = es_async_streamers s' /\
  es_sync_output_queue s = es_sync_output_queue s' /\
  es_sync_text_streamers s = es_sync_text_streamers s'.
Proof. unfold same_but_trace, set_trace. split; [by intros [=]|]. intros (->&->&->&->). done. Qed.

#[export] Instance es_streams_proper : Proper (same_but_trace ==> eq) es_streams.
Proof. by intros s s' (?&?&?&?)%same_but_trace_fields. Qed.
#[export] Instance es_async_streamers_proper :
  Proper (same_but_trace ==> eq) es_async_streamers.
Proof. by intros s s' (?&?&?&?)%same_but_trace_fields. Qed.
#[export] Instance registry_ok_proper : Proper (same_but_trace ==> iff) registry_ok.
Proof. intros s s' (H1&H2&_&_)%same_but_trace_fields. unfold registry_ok. by rewrite H1, H2. Qed.

Lemma record_event_spec r e s :
  exists s', record_event r e s = (Ok tt, s') /\ same_but_trace s' s.
Proof. unfold record_event, mmodify. eexists. split; [done|]. by destruct (es_trace s). Qed.

#[global] Opaque same_but_trace.

(** Detokenization computes [detok] and only touches the trace. *)
Lemma detokenize_spec r sos tss s :
  exists s', detokenize r sos tss s = (Ok (detok sos tss), s') /\ same_but_trace s' s.
Proof.
  revert tss s. induction sos as [|so sos IH]; intros [|ts tss] s; simpl;
    try (by eexists).
  destruct (record_event_spec r "start detokenization" s) as (s1 & H1 & E1).
  unfold mbind'. rewrite H1. destruct (delta_text so ts) as [ts' text].
  destruct (record_event_spec r "finish detokenization" s1) as (s2 & H2 & E2).
  rewrite H2. destruct (IH tss s2) as (s3 & H3 & E3). rewrite H3.
  destruct (detok sos tss) as [outs tss']. exists s3. split; [done|]. by rewrite E3, E2.
Qed.

Lemma view_step_pushes st tss sos so0 rest :
  sos = so0 :: rest -> st_finished st = false ->
  let '(items, v) := view_step tss sos in
  match so_request_final_usage_json_str so0 with
  | Some u => stream_finish (stream_push st (QOutputs [usage_output (Some u)]))
  | None => stream_push st (QOutputs (fst (detok sos tss)))
  end = mkStream (st_queue st ++ items) (is_none v).
Proof.
  intros -> Hf. unfold view_step, stream_push, stream_finish. rewrite Hf.
  destruct (so_request_final_usage_json_str so0); cbn [st_queue is_none].
  - by rewrite <- app_assoc.
  - destruct st as [q f]. cbn [st_finished] in Hf. subst f. by destruct (detok (so0 :: rest) tss).
Qed.

(** One delta: the registered request's stream receives the items of
    [view_step], and the registry keeps the new streamers or forgets it. *)
Lemma async_callback_one_spec d s r sos :
  unpack d = Ok (r, sos) -> sos <> [] -> registry_ok s ->
  exists s', async_callback_one d s = (Ok tt, s') /\
  match es_async_streamers s !! r with
  | None => es_streams s' = es_streams s /\ es_async_streamers s' = es_async_streamers s
  | Some (loc, tss) =>
      exists q, es_streams s !! loc = Some (mkStream q false) /\
      let '(items, v) := view_step tss sos in
      es_streams s' = <[loc := mkStream (q ++ items) (is_none v)]> (es_streams s) /\
      es_async_streamers s'
      = match v with
        | Some tss' => <[r := (loc, tss')]> (es_async_streamers s)
        | None => delete r (es_async_streamers s)
        end
  end.
Proof.
  intros Hu Hne [Hreg _]. unfold async_callback_one, mbind', mlift, mget. rewrite Hu.
  destruct (es_async_streamers s !! r) as [[loc tss]|] eqn:Er; [|by eexists].
  destruct (Hreg r loc tss Er) as [q Hq].
  destruct (record_event_spec r "start callback" s) as (s1 & -> & E1).
  destruct sos as [|so0 rest]; [done|]. cbn [list_getitem lookup list_lookup opt_res].
  pose proof (view_step_pushes (mkStream q false) tss (so0 :: rest) so0 rest eq_refl eq_refl) as Hp.
  unfold list_getitem, opt_res. simpl lookup.
  destruct (so_request_final_usage_json_str so0) as [u|] eqn:Eu.
  - simpl. eexists. split; [reflexivity|]. exists q. split; [done|]. rewrite Eu. cbn.
    rewrite E1. split; [|done]. unfold view_step in Hp. rewrite Eu in Hp. cbn in Hp.
    apply map_eq. intros i. rewrite !lookup_alter, lookup_insert.
    repeat case_decide; simplify_eq; try done. rewrite Hq. by apply (f_equal Some).
  - destruct (detokenize_spec r (so0 :: rest) tss s1) as (s2 & -> & E2).
    destruct (detok (so0 :: rest) tss) as [outs tss'] eqn:Ed.
    unfold on_stream, mmodify.
    match goal with |- context [record_event r "finish callback" ?st] =>
      destruct (record_event_spec r "finish callback" st) as (s3 & -> & E3) end.
    eexists. split; [reflexivity|]. exists q. split; [done|].
    unfold view_step. rewrite Eu, Ed. rewrite !E3. simpl. rewrite E2, E1.
    split; [|done]. apply map_eq. intros i. rewrite lookup_alter, lookup_insert.
    repeat case_decide; simplify_eq; try done. by rewrite Hq.
Qed.

Lemma registry_ok_step d s s' r sos :
  unpack d = Ok (r, sos) -> sos <> [] -> registry_ok s ->
  async_callback_one d s = (Ok tt, s') -> registry_ok s'.
Proof.
  intros Hu Hne Hok Hs. destruct (async_callback_one_spec d s r sos Hu Hne Hok) as (s2 & Hs2 & H).
  assert (s2 = s') as -> by congruence. clear Hs Hs2.
  destruct (es_async_streamers s !! r) as [[loc tss]|] eqn:Er.
  - destruct H as (q & Hq & H). destruct (view_step tss sos) as [items v]. destruct H as [H1 H2].
    destruct Hok as [Ha Hb]. split; rewrite ?H1, H2.
    + intros r1 loc1 tss1 H. destruct v as [v|].
      * apply lookup_insert_Some in H as [[<- [= <- <-]]|[Hn H]].
        -- eexists. by rewrite lookup_insert_eq.
        -- rewrite lookup_insert_ne; [by eapply Ha|]. intros <-. by eapply Hn, Hb.
      * apply lookup_delete_Some in H as [Hn H].
        rewrite lookup_insert_ne; [by eapply Ha|]. intros <-. by eapply Hn, Hb.
    + intros r1 r2 loc1 tss1 tss2 G1 G2. destruct v as [v|].
      * apply lookup_insert_Some in G1 as [[<- [= <- <-]]|[Hn1 G1]];
          apply lookup_insert_Some in G2 as [[<- [= E]]|[Hn2 G2]]; subst; eauto.
      * apply lookup_delete_Some in G1 as [_ G1], G2 as [_ G2]. eauto.
  - destruct H as [H1 H2]. unfold registry_ok. by rewrite H1, H2.
Qed.
End CallbackLemmas.

(** ** Theorems *)

(** The stream delivers what was pushed before [finish], in order, and then
    ends the iteration; whatever is pushed after [finish] is never seen.  The
    iteration is bounded by the number of pushed outputs, so it terminates. *)
Theorem stream_fifo (ls : list (list CallbackStreamOutput)) (late : list QItem) fuel :
  (length ls < fuel)%nat ->
  drain fuel (fold_left stream_push late
                (stream_finish (fold_left stream_push (map QOutputs ls) stream_new)))
  = (ls, Some StopAsyncIteration).
Proof.
  intros Hf. unfold stream_new. rewrite push_all. unfold stream_finish. simpl.
  destruct (push_finished (map QOutputs ls ++ [QExn StopIteration]) late) as [q ->].
  rewrite <- app_assoc. by apply drain_outputs.
Qed.

Section Theorems.
Context `{TS : TextStreamerOps}.

(** A stream whose location is not registered is left alone. *)
Lemma async_callback_frame us ds s loc :
  unpacks ds us -> registry_ok s ->
  (forall r tss, es_async_streamers s !! r <> Some (loc, tss)) ->
  exists s', _async_request_stream_callback_impl ds s = (Ok tt, s') /\ registry_ok s' /\
             es_streams s' !! loc = es_streams s !! loc /\
             forall r, es_async_streamers s !! r = None -> es_async_streamers s' !! r = None.
Proof.
  intros Hus. revert s. induction Hus as [|d [r sos] ds us [Hu Hne] Hus IH]; intros s Hok Hloc.
  { simpl. by exists s. }
  destruct (async_callback_one_spec d s r sos Hu Hne Hok) as (s1 & Hs1 & H).
  pose proof (registry_ok_step d s s1 r sos Hu Hne Hok Hs1) as Hok1.
  simpl. unfold mbind' at 1. rewrite Hs1.
  destruct (es_async_streamers s !! r) as [[loc1 tss1]|] eqn:Er.
  - destruct H as (q & Hq & H). destruct (view_step tss1 sos) as [items v]. destruct H as [H1 H2].
    assert (loc <> loc1) as Hne1 by (intros ->; by eapply Hloc).
    destruct (IH s1 Hok1) as (s' & Hs' & Hok' & Hl & Hr).
    { intros r2 tss2. rewrite H2. destruct v; [rewrite lookup_insert|rewrite lookup_delete];
        case_decide; try congruence; eauto. }
    exists s'. repeat split; [done|by apply Hok'..| |].
    + by rewrite Hl, H1, lookup_insert_ne.
    + intros r2 Hr2. apply Hr. rewrite H2. destruct v; [rewrite lookup_insert_ne|rewrite lookup_delete];
        repeat case_decide; congruence.
  - destruct H as [H1 H2]. destruct (IH s1 Hok1) as (s' & Hs' & Hok' & Hl & Hr).
    { by setoid_rewrite H2. }
    exists s'. rewrite H1 in Hl. rewrite H2 in Hr. by repeat split; try apply Hok'.
Qed.

(** The refinement, for the engines to use. *)
Lemma async_callback_refines us ds s r loc tss q :
  unpacks ds us -> registry_ok s ->
  es_async_streamers s !! r = Some (loc, tss) ->
  es_streams s !! loc = Some (mkStream q false) ->
  exists s', _async_request_stream_callback_impl ds s = (Ok tt, s') /\ registry_ok s' /\
  let '(items, v) := request_view r (Some tss) us in
  es_streams s' !! loc = Some (mkStream (q ++ items) (is_none v)) /\
  es_async_streamers s' !! r = option_map (pair loc) v.
Proof.
  intros Hus. revert s tss q.
  induction Hus as [|d [r1 sos] ds us [Hu Hne] Hus IH]; intros s tss q Hok Hr Hq.
  { exists s. simpl. by rewrite app_nil_r. }
  destruct (async_callback_one_spec d s r1 sos Hu Hne Hok) as (s1 & Hs1 & H).
  pose proof (registry_ok_step d s s1 r1 sos Hu Hne Hok Hs1) as Hok1.
  simpl. unfold mbind' at 1. rewrite Hs1. destruct (String.eqb_spec r1 r) as [->|Hn].
  - rewrite Hr in H. destruct H as (q1 & Hq1 & H). assert (q1 = q) as -> by congruence.
    destruct (view_step tss sos) as [items [tss1|]]; destruct H as [H1 H2].
    + edestruct (IH s1 tss1 (q ++ items) Hok1) as (s' & Hs' & Hok' & H).
      { by rewrite H2, lookup_insert_eq. } { by rewrite H1, lookup_insert_eq. }
      exists s'. split; [done|]. split; [done|].
      destruct (request_view r (Some tss1) us) as [rest v]. by rewrite app_assoc.
    + destruct (async_callback_frame us ds s1 loc Hus Hok1) as (s' & Hs' & Hok' & Hl & Hrr).
      { intros r2 tss2. rewrite H2, lookup_delete. case_decide; [done|]. intros G.
        by destruct Hok as [_ Hb]; specialize (Hb _ _ _ _ _ G Hr). }
      exists s'. split; [done|]. split; [done|].
      assert (request_view r None us = ([], None)) as -> by (by destruct us as [|[]]).
      rewrite app_nil_r, Hl, H1, lookup_insert_eq. split; [done|].
      apply Hrr. by rewrite H2, lookup_delete_eq.
  - eapply IH; [done| |].
    + destruct (es_async_streamers s !! r1) as [[loc1 tss1]|].
      * destruct H as (q1 & Hq1 & H). destruct (view_step tss1 sos) as [items v].
        destruct H as [_ ->]. destruct v; by rewrite ?lookup_insert_ne, ?lookup_delete_ne.
      * by destruct H as [_ ->].
    + destruct (es_async_streamers s !! r1) as [[loc1 tss1]|] eqn:Er1.
      * destruct H as (q1 & Hq1 & H). destruct (view_step tss1 sos) as [items v].
        destruct H as [-> _]. rewrite lookup_insert_ne; [done|]. intros ->.
        destruct Hok as [_ Hb]. by specialize (Hb _ _ _ _ _ Er1 Hr).
      * by destruct H as [-> _].
Qed.

(** C23: the callback of the asynchronous engine refines the single-request
    view.  Given any interleaving of deltas for any requests, the stream of a
    registered request receives exactly the items that its own deltas give
    when processed alone, in order, up to and including its final usage chunk
    and the end marker; the request stays registered with its text streamers
    until that chunk and is then forgotten, and the registry invariant is
    preserved. *)
Theorem async_callback_refines_view us ds s r loc tss q :
  unpacks ds us -> registry_ok s ->
  es_async_streamers s !! r = Some (loc, tss) ->
  es_streams s !! loc = Some (mkStream q false) ->
  exists s', _async_request_stream_callback_impl ds s = (Ok tt, s') /\ registry_ok s' /\
  let '(items, v) := request_view r (Some tss) us in
  es_streams s' !! loc = Some (mkStream (q ++ items) (is_none v)) /\
  es_async_streamers s' !! r = option_map (pair loc) v.
Proof. apply async_callback_refines. Qed.
End Theorems.

(** ** Witnesses *)

Module StreamsWitness.
(** A streamer that holds back one token: it renders token [n] as [n] dots. *)
Definition render (l : list Z) : string :=
  str_concat (map (fun z => str_concat (repeat "." (Z.to_nat z))) l).
#[export] Instance demo_streamer : TextStreamerOps :=
  {| streamer := list Z; streamer_new := [];
     streamer_put ts l := (l, render ts); streamer_finish ts := ([], render ts) |}.

Example stream_fifo_witness :
  drain 3 (fold_left stream_push [QOutputs []]
             (stream_finish (fold_left stream_push
                (map QOutputs [[mkCSO "a" None None None]; [mkCSO "b" None (Some "stop") None]])
                stream_new)))
  = ([[mkCSO "a" None None None]; [mkCSO "b" None (Some "stop") None]], Some StopAsyncIteration).
Proof. apply stream_fifo. simpl. lia. Defined.

Definition two_requests : EngineState :=
  mkES (Some []) {[0%nat := stream_new; 1%nat := stream_new]}
    {["a" := (0%nat, [[]]); "b" := (1%nat, [[]])]} [] [].

Definition deltas : list RequestStreamOutput :=
  [mkRSO "a" [[1%Z]] None [None] None [""]; mkRSO "b" [[2%Z]] None [None] None [""];
   mkRSO "a" [[]] None [Some "stop"] None [""]; mkRSO "a" [] None [] (Some "usage") [];
   mkRSO "a" [[1%Z]] None [None] None [""]].

Definition unpacked : list (string * list SingleRequestStreamOutput) :=
  map (fun d => match unpack d with Ok u => u | Raise _ => ("", []) end) deltas.

Lemma two_requests_ok : registry_ok two_requests.
Proof.
  split; unfold two_requests; simpl.
  - intros r loc tss H. apply lookup_insert_Some in H as [[_ [= <- _]]|[_ H]]; [by eexists|].
    apply lookup_singleton_Some in H as [_ [= <- _]]. by eexists.
  - intros r r' loc tss tss' H H'.
    apply lookup_insert_Some in H as [[<- [= <- _]]|[_ H]];
      apply lookup_insert_Some in H' as [[<- [= E]]|[_ H']]; try done;
      repeat match goal with H : {[_ := _]} !! _ = Some _ |- _ =>
        apply lookup_singleton_Some in H as [<- [= ? ?]] end; congruence.
Qed.

Example async_callback_refines_view_witness :
  exists s', _async_request_stream_callback_impl deltas two_requests = (Ok tt, s') /\ registry_ok s' /\
  let '(items, v) := request_view "a" (Some [[]]) unpacked in
  es_streams s' !! 0%nat = Some (mkStream ([] ++ items) (is_none v)) /\
  es_async_streamers s' !! "a" = option_map (pair 0%nat) v.
Proof.
  apply (async_callback_refines_view unpacked deltas two_requests "a" 0%nat [[]] []).
  - repeat (constructor; [by split|]). constructor.
  - exact two_requests_ok.
  - reflexivity.
  - reflexivity.
Defined.

(** The items request [a] receives in that run: its two text deltas (the
    streamer holds one token back), the usage chunk and the end marker. *)
Example request_view_demo :
  request_view "a" (Some [[]]) unpacked
  = ([QOutputs [mkCSO "" None None None]; QOutputs [mkCSO "." None (Some "stop") None];
      QOutputs [usage_output (Some "usage")]; QExn StopIteration], None).
Proof. reflexivity. Qed.
End StreamsWitness.
