(* ===== verification/Pipeline.v ===== *)
(** * Request and response processing ([serve/engine_base.py])

    [process_chat_completion_request] and [process_completion_request] turn a
    request into prompts and a generation config; the two
    [process_*_stream_output] functions turn the text deltas of all the
    generations into one response chunk, keeping the finish reasons; the rest
    converts function calls and wraps the non-streaming results.

    A computation runs on the engine state (whose only part used here is the
    trace) and, for the stream outputs, on the list of finish reasons that the
    Python code updates in place. *)

From stdpp Require Import base list strings gmap.
From Stdlib Require Import Ascii.
From S2P Require Import Prelude PyStr Data Conversation OpenAI EngineUtils Streams.
Local Open Scope string_scope.
Local Open Scope list_scope.
Local Open Scope Z_scope.

(** The tokenizer of the C++ side. *)
Class TokenizerOps := { tok_encode : string -> list Z; tok_decode : list Z -> string }.

(** ** Python's [ast] module, as far as function calls need it *)

(** An expression node: a call, a name, or anything else.  The keyword
    argument of a [**kwargs] has no name. *)
Inductive AstExpr : Type :=
| ACall (func : AstExpr) (keywords : list (option string * AstExpr))
| AName (id : string)
| AOther (tag : string).

Class AstOps := {
  ast_parse : string -> res AstExpr;           (* ast.parse(s, mode="eval").body *)
  ast_literal_eval : string -> res json;       (* ast.literal_eval(s) *)
  ast_literal_eval_node : AstExpr -> res json; (* ast.literal_eval(node) *)
}.

Section Pipeline.
Context `{IB : ImageBackend} `{JB : JsonBackend} `{TS : TextStreamerOps} `{TK : TokenizerOps}.

(** ** Requests *)

(** [for message in request.messages]: the template afterwards. *)
Fixpoint add_messages (conv_template : Conversation) (l : list ChatCompletionMessage)
  : res Conversation :=
  match l with
  | [] => Ok conv_template
  | message :: l =>
      if String.eqb (msg_role message) "system"
      then match msg_content message with
           | Some (CText content) => add_messages (set_system_message conv_template content) l
           | _ => Raise AssertionError
           end
      else add_messages (append_message conv_template (msg_role message, msg_content message)) l
  end.

(** The system prefix tokens in front of the prompts. *)
Definition prepend_prefix (prefix : option (list Z)) (prompts : list Prompt)
  : res (list Prompt) :=
  match prefix with
  | None => Ok prompts
  | Some ids =>
      match prompts with
      | [] => Raise IndexError
      | Tokens l :: ps => Ok (Tokens (ids ++ l) :: ps)
      | ps => Ok (Tokens ids :: ps)
      end
  end.

(** [process_chat_completion_request]: the prompts, the generation config, the
    function-calling flag and the prompt length, with the request and the
    template as they are left. *)
Record ChatRequestInfo : Type := mkChatRequestInfo {
  ci_prompts : list Prompt; ci_generation_cfg : GenerationConfig;
  ci_use_function_calling : bool; ci_prompt_length : Z;
  ci_request : RequestProtocol; ci_conv_template : Conversation }.

Definition process_chat_completion_request (request : ChatCompletionRequest)
    (request_id : string) (model_config : dict json) (f_tokenize : string -> list Z)
    (max_input_sequence_length : Z) (conv_template : Conversation)
  : M EngineState ChatRequestInfo :=
  record_event request_id "receive request" ;!
  let! _ := mlift (check_unsupported_fields (RChat request)) in
  let! _ := mlift (check_message_validity request) in
  let! conv_template := mlift (check_function_call_usage request conv_template) in
  let! conv_template := mlift (add_messages conv_template (ch_messages request)) in
  let conv_template := append_message conv_template ("assistant", None) in
  record_event request_id "start tokenization" ;!
  let! pieces := mlift (as_prompt conv_template (Some model_config)) in
  let! prompts := mlift (process_prompts (PyList (map piece_to_py pieces)) f_tokenize) in
  record_event request_id "finish tokenization" ;!
  let! prompts := mlift (prepend_prefix (system_prefix_token_ids conv_template) prompts) in
  let! prompt_length := mlift (check_and_get_prompts_length prompts max_input_sequence_length) in
  let '(generation_cfg, request') :=
    get_generation_config (RChat request) (Some (conv_stop_token_ids conv_template))
      (Some (conv_stop_str conv_template)) in
  mret' (mkChatRequestInfo prompts generation_cfg (use_function_calling conv_template)
           prompt_length request' conv_template).

(** [process_completion_request] *)
Record CompletionRequestInfo : Type := mkCompletionRequestInfo {
  mi_prompt : list Z; mi_generation_cfg : GenerationConfig; mi_prompt_length : Z;
  mi_echo_response : option CompletionResponse; mi_request : RequestProtocol }.

Definition prompt_arg_to_py (p : PromptArg) : PyPrompt :=
  match p with
  | PromptStr s => PyStr s
  | PromptIds l => PyList (map PyInt l)
  end.

Definition process_completion_request (request : CompletionRequest) (request_id : string)
    (max_input_sequence_length : Z) (conv_template : Conversation)
  : M EngineState CompletionRequestInfo :=
  record_event request_id "receive request" ;!
  let! _ := mlift (check_unsupported_fields (RCompletion request)) in
  record_event request_id "start tokenization" ;!
  let! prompts := mlift (process_prompts (prompt_arg_to_py (cm_prompt request)) tok_encode) in
  record_event request_id "finish tokenization" ;!
  let! prompt_length := mlift (check_and_get_prompts_length prompts max_input_sequence_length) in
  let! prompt := mlift (list_getitem prompts 0) in
  match prompt with
  | Image _ => mraise AssertionError
  | Tokens prompt =>
      let '(generation_cfg, request') :=
        get_generation_config (RCompletion request) (Some (conv_stop_token_ids conv_template))
          (Some (conv_stop_str conv_template)) in
      let! echo_response :=
        if cm_echo request then
          let text := tok_decode prompt in
          let! choices :=
            mlift (rmap (fun i => CompletionResponseChoice_init i None text None)
                     (seq 0 (Z.to_nat (g_n generation_cfg)))) in
          mret' (Some (mkCompletionResponse request_id choices (cm_model request) None))
        else mret' None in
      mret' (mkCompletionRequestInfo prompt generation_cfg prompt_length echo_response request')
  end.

(** ** Stream outputs *)

(** The engine state and the finish reasons. *)
Definition FM (A : Type) : Type := M (EngineState * list (option string)) A.

Definition on_engine {A} (m : M EngineState A) : FM A :=
  fun '(s, frs) => let '(r, s') := m s in (r, (s', frs)).

Definition get_finish_reasons : FM (list (option string)) := fun s => (Ok (snd s), s).

Definition set_finish_reason (i : nat) (fr : option string) : FM unit :=
  fun '(s, frs) => match list_setitem frs i fr with
                   | Ok frs' => (Ok tt, (s, frs'))
                   | Raise e => (Raise e, (s, frs))
                   end.

(** The guard [delta.finish_reason is not None and finish_reasons[i] is None]
    and the assignment it protects; whether the reason was updated. *)
Definition update_finish_reason (i : nat) (finish_reason : option string) (new : option string)
  : FM bool :=
  match finish_reason with
  | None => mret' false
  | Some _ =>
      let! frs := get_finish_reasons in
      let! old := mlift (list_getitem frs i) in
      match old with
      | Some _ => mret' false
      | None => set_finish_reason i new ;! mret' true
      end
  end.

Definition assistant_text (text : string) : ChatCompletionMessage :=
  mkChatCompletionMessage (Some (CText text)) "assistant" None None None.

Definition logprobs_of (strs : option (list string)) : res (option LogProbs) :=
  match strs with
  | None => Ok None
  | Some strs => let? content := rmap parse_LogProbsContent strs in Ok (Some (mkLogProbs content))
  end.

(** The body of the loop over the delta outputs; [None] is [continue]. *)
Definition chat_delta (request_id : string) (use_function_calling : bool) (i : nat)
    (delta_output : CallbackStreamOutput) : FM (option ChatCompletionStreamResponseChoice) :=
  let! finish_reason_updated :=
    update_finish_reason i (co_finish_reason delta_output)
      (if use_function_calling then Some "tool_calls" else co_finish_reason delta_output) in
  if (negb finish_reason_updated && String.eqb (co_delta_text delta_output) "")%bool
  then on_engine (record_event request_id "skip empty delta text") ;! mret' None
  else
    let! frs := get_finish_reasons in
    let! fr := mlift (list_getitem frs i) in
    let! lp := mlift (logprobs_of (co_delta_logprob_json_strs delta_output)) in
    let! choice := mlift (ChatCompletionStreamResponseChoice_init i fr
                            (assistant_text (co_delta_text delta_output)) lp) in
    mret' (Some choice).

Fixpoint chat_deltas (request_id : string) (use_function_calling : bool) (i : nat)
    (delta_outputs : list CallbackStreamOutput) : FM (list ChatCompletionStreamResponseChoice) :=
  match delta_outputs with
  | [] => mret' []
  | d :: delta_outputs =>
      let! c := chat_delta request_id use_function_calling i d in
      let! cs := chat_deltas request_id use_function_calling (S i) delta_outputs in
      mret' (match c with Some c => c :: cs | None => cs end)
  end.

(** Whether the final usage chunk is streamed back. *)
Definition usage_wanted (stream : bool) (stream_options : option StreamOptions) : bool :=
  negb stream || negb (no_include_usage stream_options).

(** [process_chat_completion_stream_output] *)
Definition process_chat_completion_stream_output (delta_outputs : list CallbackStreamOutput)
    (request : ChatCompletionRequest) (request_id : string) (use_function_calling : bool)
  : FM (option ChatCompletionStreamResponse) :=
  let! d0 := mlift (list_getitem delta_outputs 0) in
  match co_request_final_usage_json_str d0 with
  | Some u =>
      let! _ := mlift (py_assert (Nat.eqb (length delta_outputs) 1)) in
      on_engine (record_event request_id "yield final usage") ;!
      let! usage := mlift (parse_CompletionUsage u) in
      let response := mkChatCompletionStreamResponse request_id [] (ch_model request) ""
                        (Some usage) in
      if usage_wanted (ch_stream request) (ch_stream_options request)
      then mret' (Some response) else mret' None
  | None =>
      let! _ := mlift (py_assert (Z.of_nat (length delta_outputs) =? ch_n request)) in
      let! choices := chat_deltas request_id use_function_calling 0 delta_outputs in
      match choices with
      | [] => mret' None
      | _ => on_engine (record_event request_id "yield delta output") ;!
             mret' (Some (mkChatCompletionStreamResponse request_id choices (ch_model request) ""
                            None))
      end
  end.

(** [get_logprobs_from_delta] *)
Definition get_logprobs_from_delta (delta_logprob_json_strs : list string)
  : res CompletionLogProbs :=
  let? contents := rmap parse_LogProbsContent delta_logprob_json_strs in
  Ok (mkCompletionLogProbs None (map lpc_logprob contents) (map lpc_token contents)
        (map (fun content =>
                fold_left (fun d t => dict_set d (tlp_token t) (tlp_logprob t))
                  (lpc_top_logprobs content) [])
           contents)).

Definition completion_delta (i : nat) (delta_output : CallbackStreamOutput)
  : FM (option CompletionResponseChoice) :=
  let! finish_reason_updated :=
    update_finish_reason i (co_finish_reason delta_output) (co_finish_reason delta_output) in
  if (negb finish_reason_updated && String.eqb (co_delta_text delta_output) "")%bool
  then mret' None
  else
    let! logprobs :=
      match co_delta_logprob_json_strs delta_output with
      | Some strs => let! lp := mlift (get_logprobs_from_delta strs) in mret' (Some lp)
      | None => mret' None
      end in
    let! frs := get_finish_reasons in
    let! fr := mlift (list_getitem frs i) in
    let! choice := mlift (CompletionResponseChoice_init i fr (co_delta_text delta_output)
                            logprobs) in
    mret' (Some choice).

Fixpoint completion_deltas (i : nat) (delta_outputs : list CallbackStreamOutput)
  : FM (list CompletionResponseChoice) :=
  match delta_outputs with
  | [] => mret' []
  | d :: delta_outputs =>
      let! c := completion_delta i d in
      let! cs := completion_deltas (S i) delta_outputs in
      mret' (match c with Some c => c :: cs | None => cs end)
  end.

(** [process_completion_stream_output] *)
Definition process_completion_stream_output (delta_outputs : list CallbackStreamOutput)
    (request : CompletionRequest) (request_id : string) : FM (option CompletionResponse) :=
  let! d0 := mlift (list_getitem delta_outputs 0) in
  match co_request_final_usage_json_str d0 with
  | Some u =>
      let! _ := mlift (py_assert (Nat.eqb (length delta_outputs) 1)) in
      on_engine (record_event request_id "yield final usage") ;!
      let! usage := mlift (parse_CompletionUsage u) in
      let response := mkCompletionResponse request_id [] (cm_model request) (Some usage) in
      if usage_wanted (cm_stream request) (cm_stream_options request)
      then mret' (Some response) else mret' None
  | None =>
      let! _ := mlift (py_assert (Z.of_nat (length delta_outputs) =? cm_n request)) in
      let! choices := completion_deltas 0 delta_outputs in
      match choices with
      | [] => mret' None
      | _ => on_engine (record_event request_id "yield delta output") ;!
             mret' (Some (mkCompletionResponse request_id choices (cm_model request) None))
      end
  end.

(** [create_completion_suffix_response] *)
Definition create_completion_suffix_response (request : CompletionRequest)
    (request_id : string) (finish_reasons : list (option string))
  : res (option CompletionResponse) :=
  match cm_suffix request with
  | None => Ok None
  | Some suffix =>
      let? _ := py_assert (forallb (fun fr => negb (is_none fr)) finish_reasons) in
      let? choices := rmap (fun '(i, fr) => CompletionResponseChoice_init i fr suffix None)
                        (enumerate finish_reasons) in
      Ok (Some (mkCompletionResponse request_id choices (cm_model request) None))
  end.

End Pipeline.

(** ** Specifications *)

(** A reason once given is kept; a new one is [tool_calls] when function
    calling is used. *)
Definition merge_reason (use_function_calling : bool) (old new : option string)
  : option string :=
  match old, new with
  | Some _, _ => old
  | None, None => None
  | None, Some r => Some (if use_function_calling then "tool_calls" else r)
  end.

(** A delta is reported when it has text or gives the first finish reason. *)
Definition reported (old : option string) (d : CallbackStreamOutput) : bool :=
  (is_none old && negb (is_none (co_finish_reason d))) || negb (String.eqb (co_delta_text d) "").

Section Specs.
Context `{JB : JsonBackend}.

(** The choice reported for generation [i]. *)
Definition chat_choice_spec (use_function_calling : bool) (i : nat) (old : option string)
    (d : CallbackStreamOutput) : ChatCompletionStreamResponseChoice :=
  mkChatCompletionStreamResponseChoice
    (merge_reason use_function_calling old (co_finish_reason d)) i
    (assistant_text (co_delta_text d))
    (match logprobs_of (co_delta_logprob_json_strs d) with Ok lp => lp | Raise _ => None end).

Fixpoint chat_choices_spec (use_function_calling : bool) (i : nat) (frs : list (option string))
    (ds : list CallbackStreamOutput) : list ChatCompletionStreamResponseChoice :=
  match frs, ds with
  | fr :: frs, d :: ds =>
      (if reported fr d then [chat_choice_spec use_function_calling i fr d] else [])
      ++ chat_choices_spec use_function_calling (S i) frs ds
  | _, _ => []
  end.

Definition merge_reasons (use_function_calling : bool) (frs : list (option string))
    (ds : list CallbackStreamOutput) : list (option string) :=
  zip_with (fun fr d => merge_reason use_function_calling fr (co_finish_reason d)) frs ds.

(** What the engine promises of one delta: a legal finish reason, and log
    probabilities that parse. *)
Definition delta_ok (d : CallbackStreamOutput) : Prop :=
  (forall r, co_finish_reason d = Some r -> r = "stop" \/ r = "length") /\
  is_ok (logprobs_of (co_delta_logprob_json_strs d)) = true.

Definition reason_ok (fr : option string) : Prop :=
  literal_ok chat_reasons fr = Ok tt.
End Specs.

(** ** Lemmas *)

Section Lemmas.
Context `{IB : ImageBackend} `{JB : JsonBackend} `{TS : TextStreamerOps} `{TK : TokenizerOps}.

Lemma on_engine_Ok {A} (m : M EngineState A) s frs a s' :
  m s = (Ok a, s') -> on_engine m (s, frs) = (Ok a, (s', frs)).
Proof. unfold on_engine. by intros ->. Qed.

Lemma merge_reason_ok ufc fr d : reason_ok fr -> delta_ok d -> reason_ok (merge_reason ufc fr (co_finish_reason d)).
Proof.
  intros Hfr [Hd _]. destruct fr as [r|]; [done|]. simpl.
  destruct (co_finish_reason d) as [r|]; [|done]. destruct ufc; [done|].
  destruct (Hd r eq_refl) as [-> | ->]; done.
Qed.

(** The guarded update of the finish reason of generation [length pre]. *)
Lemma update_finish_reason_spec s pre fr frs new :
  update_finish_reason (length pre) (co_finish_reason new)
     (co_finish_reason new) (s, pre ++ fr :: frs)
  = (Ok (is_none fr && negb (is_none (co_finish_reason new))),
     (s, pre ++ merge_reason false fr (co_finish_reason new) :: frs)).
Proof.
  unfold update_finish_reason. destruct (co_finish_reason new) as [r|]; simpl.
  - unfold mbind', get_finish_reasons, mlift. simpl.
    unfold list_getitem. rewrite lookup_mid. simpl. destruct fr; [done|].
    unfold set_finish_reason. by rewrite setitem_mid.
  - rewrite andb_false_r. by destruct fr.
Qed.

Lemma update_finish_reason_chat ufc s pre fr frs new :
  update_finish_reason (length pre) (co_finish_reason new)
     (if (ufc : bool) then Some "tool_calls" else co_finish_reason new) (s, pre ++ fr :: frs)
  = (Ok (is_none fr && negb (is_none (co_finish_reason new))),
     (s, pre ++ merge_reason ufc fr (co_finish_reason new) :: frs)).
Proof.
  destruct ufc; [|apply update_finish_reason_spec].
  unfold update_finish_reason. destruct (co_finish_reason new) as [r|]; simpl.
  - unfold mbind', get_finish_reasons, mlift. simpl.
    unfold list_getitem. rewrite lookup_mid. simpl. destruct fr; [done|].
    unfold set_finish_reason. by rewrite setitem_mid.
  - rewrite andb_false_r. by destruct fr.
Qed.

Lemma reported_spec fr d :
  (negb (is_none fr && negb (is_none (co_finish_reason d))) && String.eqb (co_delta_text d) "")%bool
  = negb (reported fr d).
Proof. unfold reported. by rewrite negb_orb, negb_involutive. Qed.

(** One delta of a chat chunk. *)
Lemma chat_delta_spec rid ufc s pre fr frs d :
  reason_ok fr -> delta_ok d ->
  exists s', chat_delta rid ufc (length pre) d (s, pre ++ fr :: frs)
    = (Ok (if reported fr d then Some (chat_choice_spec ufc (length pre) fr d) else None),
       (s', pre ++ merge_reason ufc fr (co_finish_reason d) :: frs))
    /\ same_but_trace s' s.
Proof.
  intros Hfr Hd. unfold chat_delta. unfold mbind' at 1. rewrite update_finish_reason_chat.
  rewrite reported_spec. destruct (reported fr d); simpl.
  - exists s. unfold mbind', get_finish_reasons, mlift, list_getitem. simpl. rewrite lookup_mid. simpl.
    unfold chat_choice_spec. destruct (logprobs_of _) as [lp|] eqn:El;
      [|destruct Hd as [_ Hd]; by rewrite El in Hd].
    unfold ChatCompletionStreamResponseChoice_init.
    pose proof (merge_reason_ok ufc fr d Hfr Hd) as Hm. unfold reason_ok in Hm. by rewrite Hm.
  - destruct (record_event_spec rid "skip empty delta text" s) as (s' & Hs & E).
    exists s'. unfold mbind', on_engine. by rewrite Hs.
Qed.

Lemma chat_deltas_spec rid ufc ds s pre frs :
  length frs = length ds -> Forall reason_ok frs -> Forall delta_ok ds ->
  exists s', chat_deltas rid ufc (length pre) ds (s, pre ++ frs)
    = (Ok (chat_choices_spec ufc (length pre) frs ds), (s', pre ++ merge_reasons ufc frs ds))
    /\ same_but_trace s' s.
Proof.
  revert s pre frs. induction ds as [|d ds IH]; intros s pre [|fr frs] Hlen Hfrs Hds;
    try discriminate Hlen.
  { by exists s. }
  injection Hlen as Hlen. apply Forall_cons in Hfrs as [Hfr Hfrs], Hds as [Hd Hds].
  cbn [chat_deltas]. destruct (chat_delta_spec rid ufc s pre fr frs d Hfr Hd) as (s1 & H1 & E1).
  unfold mbind' at 1. rewrite H1.
  destruct (IH s1 (pre ++ [merge_reason ufc fr (co_finish_reason d)]) frs Hlen Hfrs Hds)
    as (s2 & H2 & E2).
  rewrite length_app, Nat.add_1_r, <- app_assoc in H2. unfold mbind'. cbn [app] in H2. rewrite H2.
  exists s2. split; [|by transitivity s1]. rewrite <- app_assoc. cbn.
  by destruct (reported fr d).
Qed.
(** A normal chunk. *)
Lemma chat_chunk_run (request : ChatCompletionRequest) rid ufc ds s frs :
  ds <> [] -> Z.of_nat (length ds) = ch_n request -> length frs = length ds ->
  (forall d, head ds = Some d -> co_request_final_usage_json_str d = None) ->
  Forall reason_ok frs -> Forall delta_ok ds ->
  exists s', same_but_trace s' s /\
  process_chat_completion_stream_output ds request rid ufc (s, frs)
  = (Ok (match chat_choices_spec ufc 0 frs ds with
         | [] => None
         | choices => Some (mkChatCompletionStreamResponse rid choices (ch_model request) "" None)
         end), (s', merge_reasons ufc frs ds)).
Proof.
  intros Hne Hn Hlen Hu Hfrs Hds. unfold process_chat_completion_stream_output.
  destruct ds as [|d ds]; [done|]. rewrite (mbind_lift _ _ _ d) by done.
  rewrite (Hu d eq_refl).
  rewrite (mbind_lift _ _ _ tt) by (unfold py_assert; by rewrite (proj2 (Z.eqb_eq _ _) Hn)).
  destruct (chat_deltas_spec rid ufc (d :: ds) s [] frs Hlen Hfrs Hds) as (s1 & H1 & E1).
  change (length (@nil (option string))) with 0%nat in H1. cbn [app] in H1. mstep H1.
  destruct (chat_choices_spec ufc 0 frs (d :: ds)) as [|c cs]; [by exists s1|].
  destruct (record_event_spec rid "yield delta output" s1) as (s2 & H2 & E2).
  exists s2. split; [by transitivity s1|]. by mstep (on_engine_Ok _ _ (merge_reasons ufc frs (d :: ds)) _ _ H2).
Qed.

(** The final usage chunk. *)
Lemma chat_final_run (request : ChatCompletionRequest) rid ufc t u usage s frs :
  parse_CompletionUsage u = Ok usage ->
  exists s', same_but_trace s' s /\
  process_chat_completion_stream_output [mkCSO t None None (Some u)] request rid ufc (s, frs)
  = (Ok (if ch_stream request
         then match ch_stream_options request with
              | Some so => if opt_default false (include_usage so)
                           then Some (mkChatCompletionStreamResponse rid [] (ch_model request) ""
                                        (Some usage))
                           else None
              | None => None
              end
         else Some (mkChatCompletionStreamResponse rid [] (ch_model request) "" (Some usage))),
     (s', frs)).
Proof.
  intros Hp. unfold process_chat_completion_stream_output.
  rewrite (mbind_lift _ _ _ (mkCSO t None None (Some u))) by done.
  cbn [co_request_final_usage_json_str]. rewrite (mbind_lift _ _ _ tt) by done.
  destruct (record_event_spec rid "yield final usage" s) as (s1 & H1 & E1).
  mstep (on_engine_Ok _ _ frs _ _ H1). rewrite (mbind_lift _ _ _ usage) by done.
  exists s1. split; [done|]. unfold usage_wanted, no_include_usage.
  destruct (ch_stream request); [|done].
  destruct (ch_stream_options request) as [[[[]|]]|]; done.
Qed.

(** *** What only depends on the finish reasons *)

(** The result and the new finish reasons do not depend on the engine state,
    of which only the trace changes. *)
Definition oblivious {A} (m : FM A) : Prop :=
  forall s s2 frs, exists s',
    m (s, frs) = (fst (m (s2, frs)), (s', snd (snd (m (s2, frs))))) /\ same_but_trace s' s.

Lemma oblivious_ret {A} (a : A) : oblivious (mret' a).
Proof. intros s s2 frs. by exists s. Qed.

Lemma oblivious_lift {A} (r : res A) : oblivious (mlift r).
Proof. intros s s2 frs. by exists s. Qed.

Lemma oblivious_get : oblivious get_finish_reasons.
Proof. intros s s2 frs. by exists s. Qed.

Lemma oblivious_set i fr : oblivious (set_finish_reason i fr).
Proof. intros s s2 frs. exists s. unfold set_finish_reason. by destruct (list_setitem frs i fr). Qed.

Lemma oblivious_record r e : oblivious (on_engine (record_event r e)).
Proof.
  intros s s2 frs. destruct (record_event_spec r e s) as (s' & H & E).
  destruct (record_event_spec r e s2) as (s2' & H2 & _).
  exists s'. unfold on_engine. by rewrite H, H2.
Qed.

Lemma oblivious_bind {A B} (m : FM A) (k : A -> FM B) :
  oblivious m -> (forall a, oblivious (k a)) -> oblivious (mbind' m k).
Proof.
  intros Hm Hk s s2 frs. destruct (Hm s s2 frs) as (s' & H & E). unfold mbind'. rewrite H.
  destruct (m (s2, frs)) as [[a|x] [s2' frs']]; simpl; [|by exists s'].
  destruct (Hk a s' s2' frs') as (s1 & H1 & E1). exists s1. split; [done|by transitivity s'].
Qed.

Create HintDb oblivious.
#[local] Hint Resolve oblivious_ret oblivious_lift oblivious_get oblivious_set
  oblivious_record oblivious_bind : oblivious.

Lemma oblivious_update i a b : oblivious (update_finish_reason i a b).
Proof.
  unfold update_finish_reason. destruct a; auto with oblivious.
  apply oblivious_bind; auto with oblivious. intros frs.
  apply oblivious_bind; auto with oblivious. intros [|]; auto with oblivious.
Qed.
#[local] Hint Resolve oblivious_update : oblivious.

Lemma oblivious_chat_deltas rid ufc i ds : oblivious (chat_deltas rid ufc i ds).
Proof.
  revert i. induction ds as [|d ds IH]; intros i; simpl; auto with oblivious.
  apply oblivious_bind; [|auto with oblivious]. unfold chat_delta.
  apply oblivious_bind; auto with oblivious. intros b. case_match; auto 10 with oblivious.
Qed.
#[local] Hint Resolve oblivious_chat_deltas : oblivious.

Lemma oblivious_chat_output ds request rid ufc :
  oblivious (process_chat_completion_stream_output ds request rid ufc).
Proof.
  unfold process_chat_completion_stream_output. apply oblivious_bind; auto with oblivious.
  intros d0. case_match; (apply oblivious_bind; auto with oblivious); intros [].
  - apply oblivious_bind; auto with oblivious. intros [].
    apply oblivious_bind; auto with oblivious. intros usage. case_match; auto with oblivious.
  - apply oblivious_bind; auto with oblivious. intros choices. case_match; auto with oblivious.
Qed.

(** Processing a chat request only records events. *)
Lemma frame_lift {A B} (r : res A) (k : A -> M EngineState B) :
  (forall a s, same_but_trace (snd (k a s)) s) ->
  forall s, same_but_trace (snd (mbind' (mlift r) k s)) s.
Proof. intros Hk s. unfold mbind', mlift. destruct r; [apply Hk|done]. Qed.

Lemma frame_record {B} rid ev (k : unit -> M EngineState B) :
  (forall a s, same_but_trace (snd (k a s)) s) ->
  forall s, same_but_trace (snd (mbind' (record_event rid ev) k s)) s.
Proof.
  intros Hk s. destruct (record_event_spec rid ev s) as (s1 & H & E). mstep H.
  by transitivity s1.
Qed.

Lemma process_chat_request_frame request rid cfg tok max conv s :
  same_but_trace (snd (process_chat_completion_request request rid cfg tok max conv s)) s.
Proof.
  unfold process_chat_completion_request.
  repeat (first [apply frame_lift | apply frame_record]; intros ? ?).
  by destruct (get_generation_config _ _ _).
Qed.

(** The generation config of a chat request asks for its [n]. *)
Lemma process_chat_request_n request rid cfg tok max conv s info s' :
  process_chat_completion_request request rid cfg tok max conv s = (Ok info, s') ->
  g_n (ci_generation_cfg info) = ch_n request.
Proof.
  unfold process_chat_completion_request. intros H.
  repeat (apply mbind_inv in H as [(? & ? & _ & H)|(? & _ & [=])]).
  revert H. unfold get_generation_config, openai_api_get_generation_config.
  destruct (stop_kwarg _). simpl. by intros [= <- _].
Qed.
End Lemmas.

(** ** Theorems *)

Section Theorems.
Context `{IB : ImageBackend} `{JB : JsonBackend} `{TS : TextStreamerOps} `{TK : TokenizerOps}.

(** One chunk of a chat stream.  Given one legal delta per generation, the
    response reports exactly the generations with new text or a first finish
    reason, in order of their index and with the reason as it stands; the
    first reason of a generation is kept for good (as [tool_calls] under
    function calling), nothing else changes the reasons, and there is no
    response when nothing is reported. *)
Theorem chat_stream_chunk (request : ChatCompletionRequest) rid ufc ds s frs :
  ds <> [] -> Z.of_nat (length ds) = ch_n request -> length frs = length ds ->
  (forall d, head ds = Some d -> co_request_final_usage_json_str d = None) ->
  Forall reason_ok frs -> Forall delta_ok ds ->
  exists s', same_but_trace s' s /\
  process_chat_completion_stream_output ds request rid ufc (s, frs)
  = (Ok (match chat_choices_spec ufc 0 frs ds with
         | [] => None
         | choices => Some (mkChatCompletionStreamResponse rid choices (ch_model request) "" None)
         end), (s', merge_reasons ufc frs ds)).
Proof.
  apply chat_chunk_run.
Qed.

(** The final usage chunk is returned to a non-streaming request and to a
    stream that asked for its usage, and to no other; it never touches the
    finish reasons. *)
Theorem chat_final_chunk (request : ChatCompletionRequest) rid ufc t u usage s frs :
  parse_CompletionUsage u = Ok usage ->
  exists s', same_but_trace s' s /\
  process_chat_completion_stream_output [mkCSO t None None (Some u)] request rid ufc (s, frs)
  = (Ok (if ch_stream request
         then match ch_stream_options request with
              | Some so => if opt_default false (include_usage so)
                           then Some (mkChatCompletionStreamResponse rid [] (ch_model request) ""
                                        (Some usage))
                           else None
              | None => None
              end
         else Some (mkChatCompletionStreamResponse rid [] (ch_model request) "" (Some usage))),
     (s', frs)).
Proof.
  apply chat_final_run.
Qed.

(** C32: a text chat request is turned into a single list of token ids: the
    template's system prefix, then the tokens of the rendered conversation
    (the history, the request's messages and an open assistant turn).  It is
    accepted exactly when that list fits the engine's input length; the
    reported prompt length is its length. *)
Theorem process_chat_request_spec (request : ChatCompletionRequest) rid cfg
    (f_tokenize : string -> list Z) max conv conv1 conv2 s :
  conv_ok conv -> check_message_validity request = Ok tt ->
  check_function_call_usage request conv = Ok conv1 ->
  add_messages conv1 (ch_messages request) = Ok conv2 ->
  let conv3 := append_message conv2 ("assistant", None) in
  conv_ok conv3 -> Forall (text_message conv3) (messages conv3) ->
  let ids := opt_default [] (system_prefix_token_ids conv3)
             ++ f_tokenize (fill_function (function_string conv3) (prompt_text conv3)) in
  exists s', same_but_trace s' s /\
  process_chat_completion_request request rid cfg f_tokenize max conv s
  = (if max <? Z.of_nat (length ids)
     then Raise (BadRequestError [Lit "Request prompt has "; FInt (Z.of_nat (length ids));
                                  Lit " tokens in total,";
                                  Lit " larger than the model input length limit ";
                                  FInt max; Lit "."])
     else let '(g, r) := get_generation_config (RChat request) (Some (conv_stop_token_ids conv3))
                           (Some (conv_stop_str conv3)) in
          Ok (mkChatRequestInfo [Tokens ids] g (use_function_calling conv3)
                (Z.of_nat (length ids)) r conv3), s').
Proof.
  intros Hc Hv Hf Ha conv3 Hc3 Ht ids. unfold process_chat_completion_request.
  destruct (record_event_spec rid "receive request" s) as (s1 & H1 & E1). mstep H1.
  rewrite (mbind_lift _ _ _ tt) by done. rewrite (mbind_lift _ _ _ tt) by done.
  rewrite (mbind_lift _ _ _ conv1), (mbind_lift _ _ _ conv2) by done. fold conv3.
  destruct (record_event_spec rid "start tokenization" s1) as (s2 & H2 & E2). mstep H2.
  assert (messages conv3 <> []) as Hne by (unfold conv3; simpl; by destruct (messages conv2)).
  erewrite mbind_lift by (by apply as_prompt_text_one).
  erewrite mbind_lift by (simpl; reflexivity).
  destruct (record_event_spec rid "finish tokenization" s2) as (s3 & H3 & E3). mstep H3.
  rewrite (mbind_lift _ _ _ [Tokens ids])
    by (unfold ids; by destruct (system_prefix_token_ids conv3)).
  exists s3. split; [by transitivity s2; [|transitivity s1]|].
  unfold check_and_get_prompts_length. cbn [fold_left prompt_len]. rewrite Z.add_0_l.
  destruct (Z.ltb_spec max (Z.of_nat (length ids))); [done|].
  rewrite (mbind_lift _ _ _ (Z.of_nat (length ids))) by done.
  by destruct (get_generation_config _ _ _).
Qed.

(** Log probabilities are lost with an empty delta: a delta without text and
    without a finish reason (a token that does not complete a character, for
    instance) is skipped whatever log probabilities it carries. *)
Theorem empty_delta_drops_logprobs rid ufc i lps s frs :
  fst (chat_delta rid ufc i (mkCSO "" lps None None) (s, frs)) = Ok None /\
  snd (snd (chat_delta rid ufc i (mkCSO "" lps None None) (s, frs))) = frs.
Proof.
  unfold chat_delta. rewrite (mbind_Ok _ _ _ false (s, frs)) by done. cbn [negb andb co_delta_text String.eqb].
  destruct (record_event_spec rid "skip empty delta text" s) as (s1 & H1 & E1).
  by mstep (on_engine_Ok _ _ frs _ _ H1).
Qed.
End Theorems.

(** ** Witnesses *)

Module PipelineWitness.
Import ConversationDemo ConversationWitness OpenAIWitness StreamsWitness.
#[export] Instance demo_tokenizer : TokenizerOps :=
  {| tok_encode s := map (fun c => Z.of_N (N_of_ascii c)) (String.list_ascii_of_string s);
     tok_decode l := String.string_of_list_ascii (map (fun z => ascii_of_N (Z.to_N z)) l) |}.

Definition st0 : EngineState := EngineState_init class_attributes true.
Definition two_deltas : list CallbackStreamOutput :=
  [mkCSO "He" None None None; mkCSO "" None (Some "stop") None].

Lemma two_deltas_ok : Forall delta_ok two_deltas.
Proof.
  apply Forall_cons. split; [by split|]. apply Forall_cons. split; [|by apply Forall_nil].
  split; [|done]. intros r [= <-]. by left.
Qed.

Example chat_stream_chunk_witness :
  exists s', same_but_trace s' st0 /\
  process_chat_completion_stream_output two_deltas chat_request "r" false (st0, [None; None])
  = (Ok (Some (mkChatCompletionStreamResponse "r"
           [mkChatCompletionStreamResponseChoice None 0 (assistant_text "He") None;
            mkChatCompletionStreamResponseChoice (Some "stop") 1 (assistant_text "") None]
           None "" None)), (s', [None; Some "stop"])).
Proof.
  apply (chat_stream_chunk chat_request "r" false two_deltas st0 [None; None]);
    [done|done|done|by intros ? [= <-]|repeat constructor|apply two_deltas_ok].
Defined.

Example chat_final_chunk_witness :
  exists s', same_but_trace s' st0 /\
  process_chat_completion_stream_output [mkCSO "" None None (Some "u")] chat_request "r" false
    (st0, [None; None])
  = (Ok (Some (mkChatCompletionStreamResponse "r" [] None ""
           (Some (mkCompletionUsage 3 2 5 (Some [("s", JStr "u")]))))), (s', [None; None])).
Proof. apply (chat_final_chunk chat_request "r" false ""). reflexivity. Defined.

Definition conv1 : Conversation := set_function_calling conv true (Some "{g}").
Definition conv2 : Conversation := append_message conv1 ("user", Some (CText "Hi")).
Definition conv3 : Conversation := append_message conv2 ("assistant", None).
Definition hi_ids : list Z := tok_encode "<<SYS>>Be kind.<</SYS>>Hi [/INST] ".

Lemma conv3_text : Forall (text_message conv3) (messages conv3).
Proof. repeat (constructor; [unfold text_message, chat_role; simpl; tauto|]). constructor. Qed.

Example process_chat_request_witness :
  exists s', same_but_trace s' st0 /\
  process_chat_completion_request chat_request "r" [] tok_encode 4096 conv st0
  = (let '(g, r) := get_generation_config (RChat chat_request) (Some [2]) (Some ["</s>"]) in
     Ok (mkChatRequestInfo [Tokens hi_ids] g true (Z.of_nat (length hi_ids)) r conv3), s').
Proof.
  exact (process_chat_request_spec chat_request "r" [] tok_encode 4096 conv conv1 conv2 st0
           conv_is_ok eq_refl eq_refl eq_refl conv_is_ok conv3_text).
Defined.
End PipelineWitness.
