(* ===== verification/FunctionCall.v ===== *)
(** * Function calls and response wrapping ([serve/engine_base.py])

    [convert_function_str_to_json] parses the function-call text a model
    produced, [process_function_call_output] applies it to every generation of
    a finished request, and the two [wrap_*] functions build the non-streaming
    responses.  Python's [ast] module is the class [AstOps]; the random tool
    call ids are a parameter. *)

From stdpp Require Import base list strings.
From Stdlib Require Import Ascii.
From S2P Require Import Prelude PyStr Data Conversation OpenAI Streams Pipeline.
Local Open Scope string_scope.
Local Open Scope list_scope.

Section FunctionCalls.
Context `{AO : AstOps}.

(** The dictionary [{"name": name, "arguments": arguments}]. *)
Record FnJson : Type := mkFnJson { fn_name : string; fn_arguments : list (option string * json) }.

(** [arguments[keyword.arg] = ...]; the key of a [**kwargs] is [None]. *)
Fixpoint arg_set (d : list (option string * json)) (k : option string) (v : json)
  : list (option string * json) :=
  match d with
  | [] => [(k, v)]
  | (k', v') :: d => if opt_str_eqb k k' then (k', v) :: d else (k', v') :: arg_set d k v
  end.

Fixpoint collect_arguments (d : list (option string * json))
    (keywords : list (option string * AstExpr)) : res (list (option string * json)) :=
  match keywords with
  | [] => Ok d
  | (arg, value) :: keywords =>
      let? v := ast_literal_eval_node value in
      collect_arguments (arg_set d arg v) keywords
  end.

(** [parse_function_call]; a call that is not a string is refused by
    [ast.parse]. *)
Definition parse_function_call (call_str : json) : res (option FnJson) :=
  match call_str with
  | JStr call_str =>
      let? node := ast_parse call_str in
      match node with
      | ACall (AName name) keywords =>
          let? arguments := collect_arguments [] keywords in
          Ok (Some (mkFnJson name arguments))
      | _ => Ok None
      end
  | _ => Raise TypeError
  end.

(** Iterating over the value of [ast.literal_eval]. *)
Definition json_iter (j : json) : res (list json) :=
  match j with
  | JArr l => Ok l
  | JStr s => Ok (map (fun c => JStr (String c EmptyString)) (String.list_ascii_of_string s))
  | JObj o => Ok (map (fun kv => JStr (fst kv)) o)
  | _ => Raise TypeError
  end.

(** [convert_function_str_to_json] *)
Definition convert_function_str_to_json (stringified_calls : string)
  : res (list (option FnJson)) :=
  let? first := str_first stringified_calls in
  let? last := str_last stringified_calls in
  let? calls :=
    if (Ascii.eqb first "["%char && Ascii.eqb last "]"%char)%bool
    then let? v := ast_literal_eval stringified_calls in json_iter v
    else Ok [JStr stringified_calls] in
  rmap parse_function_call calls.

(** [except (SyntaxError, ValueError)]: pydantic's [ValidationError] derives
    from [ValueError]. *)
Definition caught (e : exn) : bool :=
  match e with SyntaxError | ValueError _ | ValidationError => true | _ => false end.

(** [ChatFunctionCall(name=..., arguments=...)]: the keys must be strings. *)
Definition ChatFunctionCall_init (name : string) (arguments : list (option string * json))
  : res ChatFunctionCall :=
  let? args := rmap (fun kv => let? k := opt_res (fst kv) ValidationError in Ok (k, snd kv))
                 arguments in
  Ok (mkChatFunctionCall name (Some args)).

Variable call_id : nat -> nat -> string.

Definition invalid_output : string := "Got an invalid function call output from model".

(** The comprehension that builds the tool calls of generation [i]. *)
Definition tool_calls_of (i : nat) (fn_json_list : list (option FnJson))
  : res (list ChatToolCall) :=
  rmap (fun '(j, f) =>
          let? call := ChatFunctionCall_init (fn_name f) (fn_arguments f) in
          Ok (mkChatToolCall (call_id i j) "function" call))
       (enumerate (omap id fn_json_list)).

(** The lists [process_function_call_output] updates: the output texts, the
    finish reasons and the tool calls. *)
Record FcState : Type := mkFcState {
  fc_texts : list string; fc_reasons : list (option string);
  fc_calls : list (list ChatToolCall) }.

Definition fc_set_reason (i : nat) (fr : string) (st : FcState) : res FcState :=
  let? frs := list_setitem (fc_reasons st) i (Some fr) in
  Ok (mkFcState (fc_texts st) frs (fc_calls st)).

(** The body of the loop for generation [i].  In the [except] branch the
    message is assigned to the loop variable [output_text] only. *)
Definition fc_step (i : nat) (output_text : string) (st : FcState) : res FcState :=
  match convert_function_str_to_json output_text with
  | Raise e => if caught e then fc_set_reason i "error" st else Raise e
  | Ok fn_json_list =>
      let? calls := tool_calls_of i fn_json_list in
      let? all := list_setitem (fc_calls st) i calls in
      let st := mkFcState (fc_texts st) (fc_reasons st) all in
      if Nat.eqb (length calls) 0
      then let? texts := list_setitem (fc_texts st) i invalid_output in
           fc_set_reason i "error" (mkFcState texts (fc_reasons st) (fc_calls st))
      else fc_set_reason i "tool_calls" st
  end.

Fixpoint fc_loop (i : nat) (texts : list string) (st : FcState) : res FcState :=
  match texts with
  | [] => Ok st
  | t :: texts => let? st := fc_step i t st in fc_loop (S i) texts st
  end.

(** [finish_reason == "tool_calls"] *)
Definition is_tool_calls (fr : option string) : bool :=
  match fr with Some s => String.eqb s "tool_calls" | None => false end.

(** [process_function_call_output]: whether function calling is used, and the
    lists as they are left. *)
Definition process_function_call_output (output_texts : list string)
    (finish_reasons : list (option string)) : res (bool * FcState) :=
  let tool_calls_list := map (fun _ => []) output_texts in
  let st := mkFcState output_texts finish_reasons tool_calls_list in
  let use_function_calling := existsb is_tool_calls finish_reasons in
  if use_function_calling
  then let? st := fc_loop 0 output_texts st in Ok (true, st)
  else Ok (false, st).

End FunctionCalls.

(** ** Wrapping *)

Definition is_error (fr : option string) : bool :=
  match fr with Some s => String.eqb s "error" | None => false end.

(** [wrap_chat_completion_response] *)
Definition wrap_chat_completion_response (request_id : string) (model : option string)
    (output_texts : list string) (finish_reasons : list (option string))
    (tool_calls_list : list (list ChatToolCall))
    (logprob_results : option (list (list LogProbsContent))) (use_function_calling : bool)
    (usage : option CompletionUsage) : res ChatCompletionResponse :=
  let? choices :=
    rmap (fun '(i, (output_text, finish_reason, tool_calls)) =>
            let? lp := match logprob_results with
                       | Some l => let? c := list_getitem l i in Ok (Some (mkLogProbs c))
                       | None => Ok None
                       end in
            ChatCompletionResponseChoice_init i finish_reason
              (if (negb use_function_calling || is_error finish_reason)%bool
               then mkChatCompletionMessage (Some (CText output_text)) "assistant" None None None
               else mkChatCompletionMessage None "assistant" None (Some tool_calls) None)
              lp)
         (enumerate (zip3 output_texts finish_reasons tool_calls_list)) in
  Ok (mkChatCompletionResponse request_id choices model "" usage).

(** [wrap_completion_response] *)
Definition wrap_completion_response (request_id : string) (model : option string)
    (output_texts : list string) (finish_reasons : list (option string))
    (logprob_results : list (option CompletionLogProbs)) (usage : option CompletionUsage)
  : res CompletionResponse :=
  let? choices :=
    rmap (fun '(i, (output_text, finish_reason)) =>
            let? lp := list_getitem logprob_results i in
            CompletionResponseChoice_init i finish_reason output_text lp)
         (enumerate (combine output_texts finish_reasons)) in
  Ok (mkCompletionResponse request_id choices model usage).

(** ** Specification: the generations are converted independently *)

Section Spec.
Context `{AO : AstOps}.
Variable call_id : nat -> nat -> string.

(** The text, finish reason and tool calls generation [i] ends up with. *)
Definition fc_spec (i : nat) (output_text : string)
  : res (string * string * list ChatToolCall) :=
  match convert_function_str_to_json output_text with
  | Raise e => if caught e then Ok (output_text, "error", []) else Raise e
  | Ok fn_json_list =>
      let? calls := tool_calls_of call_id i fn_json_list in
      match calls with
      | [] => Ok (invalid_output, "error", [])
      | _ => Ok (output_text, "tool_calls", calls)
      end
  end.

Fixpoint fc_spec_all (i : nat) (texts : list string)
  : res (list (string * string * list ChatToolCall)) :=
  match texts with
  | [] => Ok []
  | t :: texts => let? x := fc_spec i t in let? xs := fc_spec_all (S i) texts in Ok (x :: xs)
  end.

Definition fc_assemble (l : list (string * string * list ChatToolCall)) : FcState :=
  mkFcState (map (fun x => fst (fst x)) l) (map (fun x => Some (snd (fst x))) l) (map snd l).

Definition fc_prefix (l : list (string * string * list ChatToolCall)) (texts : list string)
    (frs : list (option string)) : FcState :=
  mkFcState (fc_texts (fc_assemble l) ++ texts) (fc_reasons (fc_assemble l) ++ frs)
    (fc_calls (fc_assemble l) ++ map (fun _ => []) texts).
End Spec.

(** ** Lemmas *)

Section Lemmas.
Context `{AO : AstOps}.
Variable call_id : nat -> nat -> string.

Lemma setitem_mid_len {A} (pre : list A) x l y i :
  i = length pre -> list_setitem (pre ++ x :: l) i y = Ok (pre ++ y :: l).
Proof. intros ->. apply setitem_mid. Qed.

Lemma fc_step_spec l t texts fr frs :
  fc_step call_id (length l) t (fc_prefix l (t :: texts) (fr :: frs))
  = let? x := fc_spec call_id (length l) t in Ok (fc_prefix (l ++ [x]) texts frs).
Proof.
  unfold fc_step, fc_spec, fc_set_reason, fc_prefix, fc_assemble. simpl.
  destruct (convert_function_str_to_json t) as [js|e]; simpl.
  - destruct (tool_calls_of call_id (length l) js) as [calls|]; simpl; [|done].
    rewrite setitem_mid_len by (by rewrite length_map). simpl.
    destruct calls as [|c calls]; simpl.
    + rewrite setitem_mid_len by (by rewrite length_map). simpl.
      rewrite setitem_mid_len by (by rewrite length_map). simpl.
      by rewrite !map_app, <- !app_assoc.
    + rewrite setitem_mid_len by (by rewrite length_map). simpl.
      by rewrite !map_app, <- !app_assoc.
  - destruct (caught e); simpl; [|done].
    rewrite setitem_mid_len by (by rewrite length_map). simpl.
    by rewrite !map_app, <- !app_assoc.
Qed.

Lemma fc_loop_spec texts : forall l frs, length frs = length texts ->
  fc_loop call_id (length l) texts (fc_prefix l texts frs)
  = let? xs := fc_spec_all call_id (length l) texts in Ok (fc_assemble (l ++ xs)).
Proof.
  induction texts as [|t texts IH]; intros l [|fr frs] Hlen; try discriminate Hlen.
  - simpl. unfold fc_prefix. simpl. by rewrite !app_nil_r.
  - injection Hlen as Hlen. cbn [fc_loop fc_spec_all]. rewrite fc_step_spec.
    destruct (fc_spec call_id (length l) t) as [x|]; cbn [rbind]; [|done].
    specialize (IH (l ++ [x]) frs Hlen). rewrite length_app, Nat.add_1_r in IH. rewrite IH.
    destruct (fc_spec_all call_id (S (length l)) texts); cbn [rbind]; [|done].
    by rewrite <- app_assoc.
Qed.
End Lemmas.

(** ** Theorems *)

Section Theorems.
Context `{AO : AstOps}.
Variable call_id : nat -> nat -> string.

(** Function-call processing refines its per-generation specification.
    When some generation finished with [tool_calls], every generation is
    converted by itself: its calls and the reason [tool_calls] when it parses
    to at least one call, the reason [error] otherwise; an exception other
    than a syntax or value error propagates.  Without such a generation
    nothing changes. *)
Theorem process_function_call_output_spec (texts : list string) (frs : list (option string)) :
  length frs = length texts ->
  process_function_call_output call_id texts frs
  = if existsb is_tool_calls frs
    then let? xs := fc_spec_all call_id 0 texts in Ok (true, fc_assemble xs)
    else Ok (false, mkFcState texts frs (map (fun _ => []) texts)).
Proof.
  intros Hlen. unfold process_function_call_output. destruct (existsb is_tool_calls frs); [|done].
  pose proof (fc_loop_spec call_id texts [] frs Hlen) as H.
  unfold fc_prefix in H. simpl in H. rewrite H. by destruct (fc_spec_all call_id 0 texts).
Qed.

(** The error text is never delivered for an output that does not parse:
    the generation gets the reason [error] but keeps the raw output as its
    text, and that raw output is the content of the wrapped message. *)
Theorem unparsable_output_kept (t : string) e rid model usage :
  convert_function_str_to_json t = Raise e -> caught e = true ->
  (let? (use_function_calling, st) := process_function_call_output call_id [t] [Some "tool_calls"] in
   wrap_chat_completion_response rid model (fc_texts st) (fc_reasons st) (fc_calls st) None
     use_function_calling usage)
  = Ok (mkChatCompletionResponse rid
          [mkChatCompletionResponseChoice (Some "error") 0
             (mkChatCompletionMessage (Some (CText t)) "assistant" None None None) None]
          model "" usage).
Proof.
  intros Ht He. unfold process_function_call_output. simpl. unfold fc_step. rewrite Ht, He. done.
Qed.

(** An empty output under function calling is an unhandled [IndexError]:
    testing its first character raises before any parsing is attempted. *)
Theorem empty_tool_output_raises :
  process_function_call_output call_id [EmptyString] [Some "tool_calls"] = Raise IndexError.
Proof. reflexivity. Qed.
End Theorems.

(** ** Witnesses *)

Module FunctionCallWitness.
(** Parses [f(a=1)] and nothing else. *)
#[export] Instance demo_ast : AstOps :=
  {| ast_parse s :=
       if String.eqb s "f(a=1)" then Ok (ACall (AName "f") [(Some "a", AOther "1")])
       else if String.eqb s "x" then Ok (AName "x") else Raise SyntaxError;
     ast_literal_eval _ := Raise SyntaxError;
     ast_literal_eval_node _ := Ok (JInt 1) |}.

Definition ids (i j : nat) : string := "call_".

Example process_function_call_output_witness :
  process_function_call_output ids ["f(a=1)"; "oops("; "x"] [Some "tool_calls"; None; None]
  = Ok (true,
        mkFcState ["f(a=1)"; "oops("; invalid_output]
          [Some "tool_calls"; Some "error"; Some "error"]
          [[mkChatToolCall "call_" "function" (mkChatFunctionCall "f" (Some [("a", JInt 1)]))]; []; []]).
Proof.
  exact (process_function_call_output_spec ids ["f(a=1)"; "oops("; "x"]
           [Some "tool_calls"; None; None] eq_refl).
Defined.

Example unparsable_output_witness :
  (let? (use_function_calling, st) := process_function_call_output ids ["oops("] [Some "tool_calls"] in
   wrap_chat_completion_response "r" None (fc_texts st) (fc_reasons st) (fc_calls st) None
     use_function_calling None)
  = Ok (mkChatCompletionResponse "r"
          [mkChatCompletionResponseChoice (Some "error") 0
             (mkChatCompletionMessage (Some (CText "oops(")) "assistant" None None None) None]
          None "" None).
Proof. exact (unparsable_output_kept ids "oops(" SyntaxError "r" None None eq_refl eq_refl). Defined.
End FunctionCallWitness.
