(* ===== verification/Engine.v ===== *)
(** * The engines ([serve/engine.py]): [MLCEngine] and [AsyncMLCEngine]

    A generator is modelled by internal iteration: it takes the body of the
    loop that consumes it, and runs it at every [yield].  When the body leaves
    with an exception, or the consumer abandons the generator ([GeneratorExit]),
    the exception surfaces at the [yield], so the [ErrorCleanupScope] around it
    runs its cleanup (CPython finalizes an abandoned generator).

    The C++ engine answers a request with batches of deltas; the batches that
    arrive after [add_request] are an argument.  A computation that has
    consumed them all without seeing the final chunk is [Waiting].  The state
    is the engine and the consumer's local variables; the calls into the C++
    engine are logged. *)

From stdpp Require Import base list strings gmap.
From S2P Require Import Prelude PyStr Data Conversation OpenAI EngineUtils Streams Pipeline.
From S2P Require Import FunctionCall.
Local Open Scope string_scope.
Local Open Scope list_scope.
Local Open Scope Z_scope.

(** ** State *)

Inductive Progress : Set := Finished | Waiting.

Section Engines.
Context `{IB : ImageBackend} `{JB : JsonBackend} `{TS : TextStreamerOps} `{TK : TokenizerOps}
  `{AO : AstOps}.

(** A call into the C++ engine. *)
Inductive FfiCall : Type :=
| CreateRequest (request_id : string) (inputs : list Data) (cfg : GenerationConfig)
| AddRequest (request_id : string)
| AbortRequest (request_id : string).

Record Engine : Type := mkEngine {
  en_state : EngineState;
  en_ffi : list FfiCall;
  en_next_loc : nat;
  en_terminated : bool;
  en_conv_template : Conversation;
  en_model_config : dict json;
  en_max_input_sequence_length : Z;
}.

Definition set_en_state (e : Engine) (s : EngineState) : Engine :=
  mkEngine s (en_ffi e) (en_next_loc e) (en_terminated e) (en_conv_template e)
    (en_model_config e) (en_max_input_sequence_length e).

Definition ffi_call (c : FfiCall) (e : Engine) : Engine :=
  mkEngine (en_state e) (en_ffi e ++ [c]) (en_next_loc e) (en_terminated e)
    (en_conv_template e) (en_model_config e) (en_max_input_sequence_length e).

Definition next_loc (e : Engine) : Engine :=
  mkEngine (en_state e) (en_ffi e) (S (en_next_loc e)) (en_terminated e)
    (en_conv_template e) (en_model_config e) (en_max_input_sequence_length e).

(** Computations on the engine and the consumer's locals. *)
Definition EM (L A : Type) : Type := M (Engine * L) A.

Definition on_state {L A} (m : M EngineState A) : EM L A :=
  fun '(e, l) => let '(r, s) := m (en_state e) in (r, (set_en_state e s, l)).

Definition on_eng {L} (f : Engine -> Engine) : EM L unit :=
  fun '(e, l) => (Ok tt, (f e, l)).

Definition get_eng {L} : EM L Engine := fun '(e, l) => (Ok e, (e, l)).

Definition ffi {L} (c : FfiCall) : EM L unit := on_eng (ffi_call c).

(** A computation of the consumer, run inside a generator with locals [G]. *)
Definition outer {G L A} (m : EM L A) : EM (G * L) A :=
  fun '(e, (g, l)) => let '(r, (e', l')) := m (e, l) in (r, (e', (g, l'))).

(** A stream-output computation: its finish reasons are the locals. *)
Definition on_reasons {L A} (m : FM A) : EM (list (option string) * L) A :=
  fun '(e, (frs, l)) =>
    let '(r, (s, frs')) := m (en_state e, frs) in (r, (set_en_state e s, (frs', l))).

(** Run a generator with fresh locals [g]. *)
Definition with_locals {G L A} (g : G) (m : EM (G * L) A) : EM L A :=
  fun '(e, l) => let '(r, (e', (_, l'))) := m (e, (g, l)) in (r, (e', l')).

Fixpoint each {L Y} (yield : Y -> EM L unit) (l : list Y) : EM L unit :=
  match l with
  | [] => mret' tt
  | y :: l => yield y ;! each yield l
  end.

(** ** [_generate] *)

(** [MLCEngine.abort] *)
Definition sync_abort (request_id : string) (e : Engine) : Engine :=
  ffi_call (AbortRequest request_id) e.

(** [AsyncMLCEngine._abort] *)
Definition async_abort (request_id : string) (e : Engine) : Engine :=
  let s := en_state e in
  ffi_call (AbortRequest request_id)
    (set_en_state e (set_async_streamers s (delete request_id (es_async_streamers s)))).

(** The [while True] loop of the synchronous [_generate]. *)
Fixpoint sync_generate_loop {L} (incoming : list (list RequestStreamOutput))
    (yield : list CallbackStreamOutput -> EM L unit) : EM L Progress :=
  match incoming with
  | [] => mret' Waiting
  | delta_outputs :: incoming =>
      let! (request_outputs, request_final_usage_json_str) :=
        on_state (_request_stream_callback_impl delta_outputs) in
      each yield request_outputs ;!
      match request_final_usage_json_str with
      | Some u => yield [usage_output (Some u)] ;! mret' Finished
      | None => sync_generate_loop incoming yield
      end
  end.

(** [MLCEngine._generate] *)
Definition sync_generate {L} (incoming : list (list RequestStreamOutput)) (prompt : PyPrompt)
    (generation_config : GenerationConfig) (request_id : string)
    (yield : list CallbackStreamOutput -> EM L unit) : EM L Progress :=
  let! e := get_eng in
  if en_terminated e then mraise (ValueError [Lit "The engine has terminated."])
  else
    let! input_data := mlift (convert_prompts_to_data prompt) in
    ffi (CreateRequest request_id input_data generation_config) ;!
    on_eng (fun e =>
      set_en_state e
        (set_sync_text_streamers (set_sync_output_queue (en_state e) [])
           (repeat streamer_new (Z.to_nat (g_n generation_config))))) ;!
    ffi (AddRequest request_id) ;!
    ErrorCleanupScope (fun '(e, l) => (sync_abort request_id e, l))
      (sync_generate_loop incoming yield).

(** One [__anext__] on the stream at [loc]; [None] when the queue is empty. *)
Definition anext {L} (loc : nat) : EM L (option (list CallbackStreamOutput)) :=
  fun '(e, l) =>
    match es_streams (en_state e) !! loc with
    | None => (Ok None, (e, l))
    | Some st =>
        let '(r, st') := stream_anext st in
        let e' := set_en_state e
                    (set_streams (en_state e) (<[loc := st']> (es_streams (en_state e)))) in
        match r with
        | None => (Ok None, (e', l))
        | Some (Ok outs) => (Ok (Some outs), (e', l))
        | Some (Raise x) => (Raise x, (e', l))
        end
    end.

(** [async for request_output in stream: yield request_output], until the queue
    is empty or the iteration ends. *)
Fixpoint async_drain {L} (fuel : nat) (loc : nat)
    (yield : list CallbackStreamOutput -> EM L unit) : EM L Progress :=
  match fuel with
  | O => mret' Waiting
  | S fuel => fun s =>
      match anext loc s with
      | (Ok None, s) => (Ok Waiting, s)
      | (Ok (Some outs), s) => (yield outs ;! async_drain fuel loc yield) s
      | (Raise StopAsyncIteration, s) => (Ok Finished, s)
      | (Raise e, s) => (Raise e, s)
      end
  end.

Definition queue_length (loc : nat) (e : Engine) : nat :=
  match es_streams (en_state e) !! loc with
  | Some st => length (st_queue st)
  | None => 0
  end.

(** The stream is consumed as the event loop runs the callbacks. *)
Fixpoint async_generate_loop {L} (incoming : list (list RequestStreamOutput)) (loc : nat)
    (yield : list CallbackStreamOutput -> EM L unit) : EM L Progress :=
  let! e := get_eng in
  let! p := async_drain (S (queue_length loc e)) loc yield in
  match p with
  | Finished => mret' Finished
  | Waiting =>
      match incoming with
      | [] => mret' Waiting
      | delta_outputs :: incoming =>
          on_state (_async_request_stream_callback_impl delta_outputs) ;!
          async_generate_loop incoming loc yield
      end
  end.

Definition duplicate_id (request_id : string) : exn :=
  RuntimeError [Lit "The request id "; FStr dquote; FStr request_id; Lit " already exists. ";
                Lit "Please make sure the request id is unique."; FStr dquote].

(** The stream object of a new request, and its registration. *)
Definition async_register {L} (generation_config : GenerationConfig) (request_id : string)
  : EM L nat :=
  let! e := get_eng in
  let loc := en_next_loc e in
  let s := en_state e in
  on_eng (fun e => next_loc (set_en_state e (set_streams s (<[loc := stream_new]> (es_streams s))))) ;!
  match es_async_streamers s !! request_id with
  | Some _ =>
      on_state (on_stream loc (fun st => stream_push st (QExn (duplicate_id request_id)))) ;!
      mret' loc
  | None =>
      on_eng (fun e =>
        let s := en_state e in
        set_en_state e
          (set_async_streamers s
             (<[request_id := (loc, repeat streamer_new (Z.to_nat (g_n generation_config)))]>
                (es_async_streamers s)))) ;!
      ffi (AddRequest request_id) ;!
      mret' loc
  end.

(** [AsyncMLCEngine._generate] *)
Definition async_generate {L} (incoming : list (list RequestStreamOutput)) (prompt : PyPrompt)
    (generation_config : GenerationConfig) (request_id : string)
    (yield : list CallbackStreamOutput -> EM L unit) : EM L Progress :=
  let! e := get_eng in
  if en_terminated e then mraise (ValueError [Lit "The AsyncThreadedEngine has terminated."])
  else
    let! input_data := mlift (convert_prompts_to_data prompt) in
    ffi (CreateRequest request_id input_data generation_config) ;!
    let! loc := async_register generation_config request_id in
    ErrorCleanupScope (fun '(e, l) => (async_abort request_id e, l))
      (async_generate_loop incoming loc yield).

(** ** [_handle_chat_completion] and [_handle_completion] *)

(** The consumer of the response stream. *)
Definition ChatYield (L : Type) : Type := ChatCompletionStreamResponse -> EM L unit.
Definition CompletionYield (L : Type) : Type := CompletionResponse -> EM L unit.

(** The generator function the handler iterates over. *)
Definition Gen : Type :=
  forall L, PyPrompt -> GenerationConfig -> string ->
            (list CallbackStreamOutput -> EM L unit) -> EM L Progress.

Definition drop_chat_extra (r : ChatCompletionStreamResponse) : ChatCompletionStreamResponse :=
  mkChatCompletionStreamResponse (sresp_id r) (sresp_choices r) (sresp_model r)
    (sresp_system_fingerprint r)
    (option_map (fun u => mkCompletionUsage (prompt_tokens u) (completion_tokens u)
                            (total_tokens u) None) (sresp_usage r)).

Definition drop_completion_extra (r : CompletionResponse) : CompletionResponse :=
  mkCompletionResponse (cresp_id r) (cresp_choices r) (cresp_model r)
    (option_map (fun u => mkCompletionUsage (prompt_tokens u) (completion_tokens u)
                            (total_tokens u) None) (cresp_usage r)).

(** The loop body of the chat handlers: process the deltas and pass the
    response on. *)
Definition chat_body {L} (request : ChatCompletionRequest) (request_id : string)
    (use_function_calling : bool) (include_extra : bool) (yield : ChatYield L)
    (delta_outputs : list CallbackStreamOutput) : EM (list (option string) * L) unit :=
  let! response :=
    on_reasons (process_chat_completion_stream_output delta_outputs request request_id
                  use_function_calling) in
  match response with
  | None => mret' tt
  | Some response =>
      outer (yield (if include_extra then response else drop_chat_extra response))
  end.

Definition handle_chat {L} (gen : Gen) (request : ChatCompletionRequest) (request_id : string)
    (include_extra : bool) (yield : ChatYield L) : EM L Progress :=
  let! e := get_eng in
  let! info :=
    on_state (process_chat_completion_request request request_id (en_model_config e) tok_encode
                (en_max_input_sequence_length e) (en_conv_template e)) in
  let cfg := ci_generation_cfg info in
  on_state (record_event request_id "invoke generate") ;!
  let! p :=
    with_locals (repeat None (Z.to_nat (g_n cfg)))
      (gen _ (PyList (map prompt_to_py (ci_prompts info))) cfg request_id
         (chat_body request request_id (ci_use_function_calling info) include_extra yield)) in
  match p with
  | Waiting => mret' Waiting
  | Finished => on_state (record_event request_id "finish") ;! mret' Finished
  end.

(** [AsyncMLCEngine._handle_chat_completion] *)
Definition async_handle_chat_completion {L} (incoming : list (list RequestStreamOutput))
    (request : ChatCompletionRequest) (request_id : string)
    (request_final_usage_include_extra : bool) (yield : ChatYield L) : EM L Progress :=
  handle_chat (fun L => async_generate incoming) request request_id
    request_final_usage_include_extra yield.

(** [MLCEngine._handle_chat_completion] *)
Definition sync_handle_chat_completion {L} (incoming : list (list RequestStreamOutput))
    (request : ChatCompletionRequest) (request_id : string) (yield : ChatYield L)
  : EM L Progress :=
  handle_chat (fun L => sync_generate incoming) request request_id true yield.

Definition completion_body {L} (request : CompletionRequest) (request_id : string)
    (include_extra : bool) (yield : CompletionYield L)
    (delta_outputs : list CallbackStreamOutput) : EM (list (option string) * L) unit :=
  let! response :=
    on_reasons (process_completion_stream_output delta_outputs request request_id) in
  match response with
  | None => mret' tt
  | Some response =>
      outer (yield (if include_extra then response else drop_completion_extra response))
  end.

(** The tail of the completion handlers, after the generator has finished. *)
Definition completion_suffix {L} (request : CompletionRequest) (request_id : string)
    (yield : CompletionYield L) : EM (list (option string) * L) unit :=
  fun '(e, (frs, l)) =>
    (let! suffix_response := mlift (create_completion_suffix_response request request_id frs) in
     match suffix_response with
     | None => mret' tt
     | Some r => outer (yield r)
     end) (e, (frs, l)).

Definition handle_completion {L} (gen : Gen) (request : CompletionRequest)
    (request_id : string) (include_extra : bool) (yield : CompletionYield L)
  : EM L Progress :=
  let! e := get_eng in
  let! info :=
    on_state (process_completion_request request request_id (en_max_input_sequence_length e)
                (en_conv_template e)) in
  let cfg := mi_generation_cfg info in
  match mi_echo_response info with None => mret' tt | Some r => yield r end ;!
  on_state (record_event request_id "invoke generate") ;!
  let! p :=
    with_locals (repeat None (Z.to_nat (g_n cfg)))
      (let! p := gen _ (PyList (map PyInt (mi_prompt info))) cfg request_id
                   (completion_body request request_id include_extra yield) in
       match p with
       | Waiting => mret' Waiting
       | Finished => completion_suffix request request_id yield ;! mret' Finished
       end) in
  match p with
  | Waiting => mret' Waiting
  | Finished => on_state (record_event request_id "finish") ;! mret' Finished
  end.

(** [AsyncMLCEngine._handle_completion] *)
Definition async_handle_completion {L} (incoming : list (list RequestStreamOutput))
    (request : CompletionRequest) (request_id : string)
    (request_final_usage_include_extra : bool) (yield : CompletionYield L) : EM L Progress :=
  handle_completion (fun L => async_generate incoming) request request_id
    request_final_usage_include_extra yield.

(** [MLCEngine._handle_completion] *)
Definition sync_handle_completion {L} (incoming : list (list RequestStreamOutput))
    (request : CompletionRequest) (request_id : string) (yield : CompletionYield L)
  : EM L Progress :=
  handle_completion (fun L => sync_generate incoming) request request_id true yield.
End Engines.

(** ** Specifications *)

Section Specs.
Context `{IB : ImageBackend} `{JB : JsonBackend} `{TS : TextStreamerOps}.

(** Same engine but for [en_state]. *)
Definition same_outside (e' e : Engine) : Prop := set_en_state e' (en_state e) = e.

(** Same engine but for the trace. *)
Definition same_engine (e' e : Engine) : Prop :=
  same_outside e' e /\ same_but_trace (en_state e') (en_state e).

(** The consumer's loop as a function of its locals. *)
Fixpoint run_each {L Y} (f : Y -> L -> res unit * L) (ys : list Y) (l : L) : res unit * L :=
  match ys with
  | [] => (Ok tt, l)
  | y :: ys => match f y l with
               | (Ok _, l') => run_each f ys l'
               | (Raise e, l') => (Raise e, l')
               end
  end.

(** A loop body that only records events on the engine and otherwise is the
    function [f] of its locals. *)
Definition pure_consumer {L Y} (yield : Y -> EM L unit) (f : Y -> L -> res unit * L) : Prop :=
  forall y e l, exists e', yield y (e, l) = (fst (f y l), (e', snd (f y l))) /\ same_engine e' e.

(** The outputs one batch of unpacked deltas gives in the synchronous engine,
    the usage that ends it, and the text streamers afterwards. *)
Fixpoint batch_view (tss : list streamer) (us : list (string * list SingleRequestStreamOutput))
  : list (list CallbackStreamOutput) * option string * list streamer :=
  match us with
  | [] => ([], None, tss)
  | (_, []) :: _ => ([], None, tss)
  | (_, (so0 :: _) as sos) :: us =>
      match so_request_final_usage_json_str so0 with
      | Some u => ([], Some u, tss)
      | None =>
          let '(outs, tss) := detok sos tss in
          let '(rest, u, tss) := batch_view tss us in
          (outs :: rest, u, tss)
      end
  end.

(** Everything the synchronous generator yields, and whether it finishes. *)
Fixpoint sync_view (tss : list streamer)
    (uss : list (list (string * list SingleRequestStreamOutput)))
  : list (list CallbackStreamOutput) * Progress :=
  match uss with
  | [] => ([], Waiting)
  | us :: uss =>
      let '(outs, u, tss) := batch_view tss us in
      match u with
      | Some u => (outs ++ [[usage_output (Some u)]], Finished)
      | None => let '(ys, p) := sync_view tss uss in (outs ++ ys, p)
      end
  end.

(** How a run over the yielded outputs ends. *)
Definition ends (r : res unit) (p : Progress) : res Progress :=
  match r with Ok _ => Ok p | Raise e => Raise e end.

(** The calls a generator makes into the C++ engine: the request is created
    and added, and aborted exactly when the run leaves with an exception. *)
Definition generate_calls (rid : string) (data : list Data) (cfg : GenerationConfig)
    (r : res unit) : list FfiCall :=
  [CreateRequest rid data cfg; AddRequest rid]
  ++ match r with Ok _ => [] | Raise _ => [AbortRequest rid] end.

(** The queue items as the iteration over the stream sees them: the outputs
    up to the end marker, and whether it was reached. *)
Fixpoint items_view (items : list QItem) : list (list CallbackStreamOutput) * Progress :=
  match items with
  | QOutputs l :: items => let '(ys, p) := items_view items in (l :: ys, p)
  | QExn StopIteration :: _ => ([], Finished)
  | _ => ([], Waiting)
  end.

(** The registry is sound and its locations are older than the next one. *)
Definition engine_ok (e : Engine) : Prop :=
  registry_ok (en_state e) /\
  forall r loc tss, es_async_streamers (en_state e) !! r = Some (loc, tss) ->
    (loc < en_next_loc e)%nat.

(** Everything the asynchronous generator of request [r] yields. *)
Definition async_view (r : string) (tss : list streamer)
    (uss : list (list (string * list SingleRequestStreamOutput)))
  : list (list CallbackStreamOutput) * Progress :=
  items_view (fst (request_view r (Some tss) (concat uss))).
End Specs.

(** ** Lemmas *)

Section Lemmas.
Context `{IB : ImageBackend} `{JB : JsonBackend} `{TS : TextStreamerOps}.

#[export] Instance same_outside_equiv : Equivalence same_outside.
Proof.
  unfold same_outside. split.
  - by intros [].
  - intros [] [] [=]. by simplify_eq/=.
  - intros [] [] [] [=] [=]. by simplify_eq/=.
Qed.

#[export] Instance same_engine_equiv : Equivalence same_engine.
Proof.
  unfold same_engine. split.
  - by intros e.
  - intros e e' [H1 H2]. by split; symmetry.
  - intros e1 e2 e3 [H1 H2] [H3 H4]. split; [by transitivity e2|by transitivity (en_state e2)].
Qed.

Lemma same_outside_ffi e' e : same_outside e' e -> en_ffi e' = en_ffi e.
Proof. unfold same_outside. by intros <-. Qed.

Lemma same_outside_set e s : same_outside (set_en_state e s) e.
Proof. by destruct e. Qed.

Lemma same_engine_set e s : same_but_trace s (en_state e) -> same_engine (set_en_state e s) e.
Proof. intros H. by split; [apply same_outside_set|]. Qed.

Lemma on_state_run {L A} (m : M EngineState A) e (l : L) r s' :
  m (en_state e) = (r, s') -> on_state m (e, l) = (r, (set_en_state e s', l)).
Proof. unfold on_state. by intros ->. Qed.

Lemma run_each_app {L Y} (f : Y -> L -> res unit * L) ys zs l :
  run_each f (ys ++ zs) l
  = match run_each f ys l with
    | (Ok _, l') => run_each f zs l'
    | (Raise e, l') => (Raise e, l')
    end.
Proof.
  revert l. induction ys as [|y ys IH]; intros l; simpl; [done|].
  destruct (f y l) as [[]l']; [apply IH|done].
Qed.

Lemma each_spec {L Y} (yield : Y -> EM L unit) f ys e l :
  pure_consumer yield f ->
  exists e', each yield ys (e, l) = (fst (run_each f ys l), (e', snd (run_each f ys l)))
             /\ same_engine e' e.
Proof.
  intros Hf. revert e l. induction ys as [|y ys IH]; intros e l; simpl.
  { by exists e. }
  destruct (Hf y e l) as (e1 & H1 & E1). destruct (f y l) as [[[]|x] l1]; simpl in *.
  - mstep H1. destruct (IH e1 l1) as (e2 & H2 & E2). exists e2. split; [done|by transitivity e1].
  - exists e1. by rewrite (mbind_Raise _ _ _ _ _ H1).
Qed.

Lemma sync_callback_spec ds us s :
  unpacks ds us ->
  let '(outs, u, tss) := batch_view (es_sync_text_streamers s) us in
  exists s', _request_stream_callback_impl ds s = (Ok (outs, u), s')
             /\ es_sync_text_streamers s' = tss.
Proof.
  intros Hus. revert s. induction Hus as [|d [r sos] ds us [Hu Hne] Hus IH]; intros s; simpl.
  { by eexists. }
  simpl in Hne. rewrite (mbind_lift _ _ _ _ Hu).
  destruct (record_event_spec r "start callback" s) as (s1 & H1 & E1). mstep H1.
  destruct sos as [|so0 rest] eqn:Es; [done|]. rewrite <- Es in *.
  rewrite (mbind_lift _ _ _ so0) by (by rewrite Es).
  apply same_but_trace_fields in E1 as (_ & _ & _ & E1).
  destruct (so_request_final_usage_json_str so0) as [u|]; [by eexists|].
  rewrite (mbind_Ok mget _ _ s1 s1) by done.
  destruct (detokenize_spec r sos (es_sync_text_streamers s1) s1) as (s2 & H2 & E2).
  rewrite E1 in H2. rewrite E1. destruct (detok sos (es_sync_text_streamers s)) as [outs tss1].
  mstep H2. rewrite (mbind_Ok (mmodify _) _ _ tt (set_sync_text_streamers s2 tss1)) by done.
  destruct (record_event_spec r "finish callback" (set_sync_text_streamers s2 tss1))
    as (s3 & H3 & E3). mstep H3.
  apply same_but_trace_fields in E3 as (_ & _ & _ & E3).
  specialize (IH s3). rewrite E3 in IH. simpl in IH.
  destruct (batch_view tss1 us) as [[rest' u'] tss']. destruct IH as (s4 & H4 & E4).
  mstep H4. by eexists.
Qed.

Lemma sync_loop_spec {L} incoming uss (yield : list CallbackStreamOutput -> EM L unit) f e l :
  Forall2 unpacks incoming uss -> pure_consumer yield f ->
  let '(ys, p) := sync_view (es_sync_text_streamers (en_state e)) uss in
  exists e', sync_generate_loop incoming yield (e, l)
             = (ends (fst (run_each f ys l)) p, (e', snd (run_each f ys l)))
             /\ same_outside e' e.
Proof.
  intros Hus Hf. revert e l. induction Hus as [|ds us incoming uss Hd Hus IH]; intros e l; simpl.
  { by exists e. }
  pose proof (sync_callback_spec ds us (en_state e) Hd) as Hcb.
  destruct (batch_view (es_sync_text_streamers (en_state e)) us) as [[outs u] tss].
  destruct Hcb as (s1 & H1 & E1). mstep (on_state_run _ _ l _ _ H1).
  destruct (each_spec yield f outs (set_en_state e s1) l Hf) as (e2 & H2 & E2a & E2b).
  assert (same_outside e2 e) as E2 by (transitivity (set_en_state e s1); [done|apply same_outside_set]).
  destruct u as [u|].
  - rewrite run_each_app. destruct (run_each f outs l) as [[[]|x] l2]; simpl in *.
    + mstep H2. destruct (Hf [usage_output (Some u)] e2 l2) as (e3 & H3 & [E3 _]).
      destruct (f [usage_output (Some u)] l2) as [[[]|x] l3]; simpl in *.
      * mstep H3. exists e3. split; [done|by transitivity e2].
      * rewrite (mbind_Raise _ _ _ _ _ H3). exists e3. split; [done|by transitivity e2].
    + rewrite (mbind_Raise _ _ _ _ _ H2). by exists e2.
  - specialize (IH e2). destruct (sync_view tss uss) as [ys p] eqn:Ev.
    rewrite run_each_app. destruct (run_each f outs l) as [[[]|x] l2]; simpl in *.
    + mstep H2. specialize (IH l2).
      apply same_but_trace_fields in E2b as (_ & _ & _ & E2b). simpl in E2b.
      rewrite E2b, E1, Ev in IH. destruct IH as (e3 & H3 & E3).
      exists e3. split; [done|by transitivity e2].
    + rewrite (mbind_Raise _ _ _ _ _ H2). by exists e2.
Qed.

(** The synchronous generator on a request it can add. *)
Lemma sync_generate_spec {L} incoming uss prompt cfg rid data
    (yield : list CallbackStreamOutput -> EM L unit) f e l :
  en_terminated e = false -> convert_prompts_to_data prompt = Ok data ->
  Forall2 unpacks incoming uss -> pure_consumer yield f ->
  let '(ys, p) := sync_view (repeat streamer_new (Z.to_nat (g_n cfg))) uss in
  exists e', sync_generate incoming prompt cfg rid yield (e, l)
             = (ends (fst (run_each f ys l)) p, (e', snd (run_each f ys l)))
             /\ en_ffi e' = en_ffi e ++ generate_calls rid data cfg (fst (run_each f ys l)).
Proof.
  intros Ht Hp Hus Hf. unfold sync_generate. rewrite (mbind_Ok get_eng _ _ e (e, l)) by done.
  rewrite Ht. rewrite (mbind_lift _ _ _ _ Hp).
  unfold ffi, on_eng. do 3 rewrite (mbind_Ok _ _ (_, l) tt _) by reflexivity.
  match goal with |- context [ErrorCleanupScope _ _ (?e0, l)] => set (e1 := e0) end.
  pose proof (sync_loop_spec incoming uss yield f e1 l Hus Hf) as H.
  change (es_sync_text_streamers (en_state e1)) with (repeat streamer_new (Z.to_nat (g_n cfg))) in H.
  destruct (sync_view _ uss) as [ys p]. destruct H as (e2 & H2 & E2).
  unfold ErrorCleanupScope, generate_calls. rewrite H2.
  apply same_outside_ffi in E2. unfold e1 in E2. simpl in E2.
  destruct (fst (run_each f ys l)) as [[]|x]; simpl.
  - exists e2. by rewrite E2, <- app_assoc.
  - eexists. split; [reflexivity|]. simpl. rewrite E2, <- !app_assoc. done.
Qed.

(** *** The asynchronous generator *)

Lemma request_view_app r v us us' :
  request_view r v (us ++ us')
  = let '(items, v1) := request_view r v us in
    let '(items', v2) := request_view r v1 us' in (items ++ items', v2).
Proof.
  revert v. induction us as [|[r1 sos] us IH]; intros v; simpl.
  { by destruct (request_view r v us'). }
  destruct v as [w|]; [|by destruct us' as [|[]]].
  destruct (String.eqb r1 r); [|apply IH].
  destruct (view_step w sos) as [items v1]. rewrite IH.
  destruct (request_view r v1 us) as [items1 v2].
  destruct (request_view r v2 us') as [items2 v3]. by rewrite app_assoc.
Qed.

(** The items of a request: outputs, then the end marker if it finished. *)
Lemma request_view_shape r tss us :
  let '(items, v) := request_view r (Some tss) us in
  exists ys, items = map QOutputs ys
                     ++ match v with None => [QExn StopIteration] | Some _ => [] end.
Proof.
  revert tss. induction us as [|[r1 sos] us IH]; intros tss; simpl; [by exists []|].
  destruct (String.eqb r1 r); [|apply IH].
  unfold view_step. destruct sos as [|so0 rest] eqn:Es.
  { specialize (IH tss). by destruct (request_view r (Some tss) us). }
  rewrite <- Es. destruct (so_request_final_usage_json_str so0) as [u|].
  - assert (request_view r None us = ([], None)) as -> by (by destruct us as [|[]]).
    by exists [[usage_output (Some u)]].
  - destruct (detok sos tss) as [outs tss1]. specialize (IH tss1).
    destruct (request_view r (Some tss1) us) as [items v]. destruct IH as [ys ->].
    by exists (outs :: ys).
Qed.

Lemma items_view_outputs ys items :
  items_view (map QOutputs ys ++ items)
  = let '(zs, p) := items_view items in (ys ++ zs, p).
Proof.
  induction ys as [|y ys IH]; simpl; [by destruct (items_view items)|].
  rewrite IH. by destruct (items_view items).
Qed.

(** One [__anext__] on a stream whose queue starts with outputs. *)
Lemma anext_outputs {L} loc e (l : L) outs q fin :
  es_streams (en_state e) !! loc = Some (mkStream (QOutputs outs :: q) fin) ->
  anext loc (e, l)
  = (Ok (Some outs),
     (set_en_state e (set_streams (en_state e) (<[loc := mkStream q fin]> (es_streams (en_state e)))), l)).
Proof. unfold anext. by intros ->. Qed.

(** Draining a queue of outputs, ended or not. *)
Lemma async_drain_spec {L} loc (yield : list CallbackStreamOutput -> EM L unit) f ys ended fin :
  pure_consumer yield f ->
  forall fuel e l, (length ys < fuel)%nat ->
  es_streams (en_state e) !! loc
  = Some (mkStream (map QOutputs ys ++ (if (ended : bool) then [QExn StopIteration] else [])) fin) ->
  exists e', async_drain fuel loc yield (e, l)
    = (ends (fst (run_each f ys l)) (if ended then Finished else Waiting),
       (e', snd (run_each f ys l)))
    /\ same_outside e' e
    /\ (ended = false -> is_ok (fst (run_each f ys l)) = true ->
        same_but_trace (en_state e')
          (set_streams (en_state e) (<[loc := mkStream [] fin]> (es_streams (en_state e))))).
Proof.
  intros Hf. induction ys as [|y ys IH]; intros [|fuel] e l Hlen Hq; simpl in Hlen; try lia.
  - simpl in *. unfold anext. rewrite Hq. destruct ended; simpl.
    + eexists. split; [reflexivity|]. split; [apply same_outside_set|done].
    + eexists. split; [reflexivity|]. split; [apply same_outside_set|]. done.
  - cbn [map app] in Hq. cbn [async_drain]. rewrite (anext_outputs _ _ l _ _ _ Hq).
    match goal with |- context [(set_en_state ?e0 ?s0, l)] => set (e1 := set_en_state e0 s0) end.
    assert (same_outside e1 e) as E1 by apply same_outside_set.
    destruct (Hf y e1 l) as (e2 & H2 & E2a & E2b). simpl.
    destruct (f y l) as [[[]|x] l2]; simpl in H2.
    + mstep H2. pose proof (same_but_trace_fields (en_state e2) (en_state e1)) as Hfl.
      apply Hfl in E2b as Es. destruct Es as (Es & _).
      destruct (IH fuel e2 l2 ltac:(lia)) as (e3 & H3 & E3 & T3).
      { rewrite Es. unfold e1. simpl. by rewrite lookup_insert_eq. }
      exists e3. split; [done|]. split; [by transitivity e2; [|transitivity e1]|].
      intros Hend Hok. specialize (T3 Hend Hok).
      apply same_but_trace_fields in T3 as (T1 & T2 & T4 & T5).
      apply same_but_trace_fields in E2b as (F1 & F2 & F3 & F4).
      apply same_but_trace_fields. simpl in *.
      rewrite T1, T2, T4, T5, F1, F2, F3, F4. by rewrite insert_insert_eq.
    + rewrite (mbind_Raise _ _ _ _ _ H2). exists e2. split; [done|].
      split; [by transitivity e1|done].
Qed.

Lemma registry_ok_set_queue s loc q q' :
  registry_ok s -> es_streams s !! loc = Some (mkStream q false) ->
  registry_ok (set_streams s (<[loc := mkStream q' false]> (es_streams s))).
Proof.
  intros [Ha Hb] Hq. split; simpl; [|done].
  intros r loc1 tss H. destruct (decide (loc1 = loc)) as [->|Hne].
  - eexists. by rewrite lookup_insert_eq.
  - rewrite lookup_insert_ne by done. by eapply Ha.
Qed.

(** A queue that ends with the end marker is drained in one go. *)
Lemma async_loop_finished {L} incoming loc (yield : list CallbackStreamOutput -> EM L unit) f ys e l :
  pure_consumer yield f ->
  es_streams (en_state e) !! loc = Some (mkStream (map QOutputs ys ++ [QExn StopIteration]) true) ->
  exists e', async_generate_loop incoming loc yield (e, l)
    = (ends (fst (run_each f ys l)) Finished, (e', snd (run_each f ys l))) /\ same_outside e' e.
Proof.
  intros Hf Hq.
  destruct (async_drain_spec loc yield f ys true true Hf (S (length ys + 1)) e l ltac:(lia))
    as (e' & H & E & _); [done|].
  exists e'. split; [|done].
  destruct incoming as [|ds incoming]; cbn [async_generate_loop];
    rewrite (mbind_Ok get_eng _ _ e (e, l)) by done;
    unfold queue_length; rewrite Hq; cbn [st_queue]; rewrite length_app, length_map; simpl length;
    (destruct (run_each f ys l) as [[[]|x] l']; cbn [fst snd ends] in *;
     [by mstep H|by rewrite (mbind_Raise _ _ _ _ _ H)]).
Qed.

(** The loop of the asynchronous generator, from a queue of pending outputs. *)
Lemma async_loop_spec {L} incoming uss loc rid (yield : list CallbackStreamOutput -> EM L unit) f :
  Forall2 unpacks incoming uss -> pure_consumer yield f ->
  forall e l tss pending,
  registry_ok (en_state e) ->
  es_async_streamers (en_state e) !! rid = Some (loc, tss) ->
  es_streams (en_state e) !! loc = Some (mkStream (map QOutputs pending) false) ->
  let '(ys, p) := items_view (map QOutputs pending
                              ++ fst (request_view rid (Some tss) (concat uss))) in
  exists e', async_generate_loop incoming loc yield (e, l)
    = (ends (fst (run_each f ys l)) p, (e', snd (run_each f ys l))) /\ same_outside e' e.
Proof.
  intros Hus Hf. induction Hus as [|ds us incoming uss Hd Hus IH];
    intros e l tss pending Hok Hr Hq.
  - simpl. rewrite app_nil_r. rewrite <- (app_nil_r (map QOutputs pending)), items_view_outputs.
    simpl. rewrite app_nil_r. rewrite (mbind_Ok get_eng _ _ e (e, l)) by done.
    unfold queue_length. rewrite Hq. cbn [st_queue]. rewrite length_map.
    destruct (async_drain_spec loc yield f pending false false Hf (S (length pending)) e l
      ltac:(lia)) as (e1 & H1 & E1 & _); [by rewrite app_nil_r|].
    destruct (run_each f pending l) as [[[]|x] l1]; cbn [fst snd ends] in *.
    + mstep H1. by exists e1.
    + rewrite (mbind_Raise _ _ _ _ _ H1). by exists e1.
  - rewrite concat_cons, request_view_app.
    pose proof (request_view_shape rid tss us) as Hshape.
    cbn [async_generate_loop]. rewrite (mbind_Ok get_eng _ _ e (e, l)) by done.
    unfold queue_length. rewrite Hq. cbn [st_queue]. rewrite length_map.
    destruct (async_drain_spec loc yield f pending false false Hf (S (length pending)) e l
      ltac:(lia)) as (e1 & H1 & E1 & T1); [by rewrite app_nil_r|].
    rewrite items_view_outputs.
    destruct (request_view rid (Some tss) us) as [items v] eqn:Ev. destruct Hshape as [ys1 Hitems].
    destruct (request_view rid v (concat uss)) as [items2 v2] eqn:Ev2.
    assert (run_each f (pending ++ fst (items_view (items ++ items2))) l
            = match run_each f pending l with
              | (Ok _, l') => run_each f (fst (items_view (items ++ items2))) l'
              | (Raise e, l') => (Raise e, l') end) as Hrun by apply run_each_app.
    cbn [fst] in *. destruct (items_view (items ++ items2)) as [zs p] eqn:Ezs. cbn [fst] in Hrun.
    rewrite Hrun. destruct (run_each f pending l) as [[[]|x] l1]; cbn [fst snd ends is_ok] in *.
    2:{ rewrite (mbind_Raise _ _ _ _ _ H1). by exists e1. }
    mstep H1. specialize (T1 eq_refl eq_refl).
    assert (registry_ok (en_state e1)) as Hok1.
    { rewrite T1. by eapply registry_ok_set_queue. }
    pose proof (proj1 (same_but_trace_fields _ _) T1) as (S1 & S2 & _). simpl in S1, S2.
    destruct (async_callback_refines us ds (en_state e1) rid loc tss [] Hd Hok1)
      as (s2 & H2 & Hok2 & Hview).
    { by rewrite S2. } { by rewrite S1, lookup_insert_eq. }
    rewrite Ev in Hview. destruct Hview as [Hq2 Hr2]. cbn [app] in Hq2.
    mstep (on_state_run _ _ l1 _ _ H2).
    set (e2 := set_en_state e1 s2).
    assert (same_outside e2 e) as E2 by (transitivity e1; [apply same_outside_set|done]).
    destruct v as [tss2|]; cbn [is_none option_map] in *.
    + rewrite app_nil_r in Hitems. subst items.
      specialize (IH e2 l1 tss2 ys1 Hok2 Hr2 Hq2). rewrite Ev2 in IH. cbn [fst] in IH.
      rewrite Ezs in IH. destruct IH as (e3 & H3 & E3).
      exists e3. split; [done|by transitivity e2].
    + assert (request_view rid None (concat uss) = ([], None)) as Hn
        by (by destruct (concat uss) as [|[]]).
      rewrite Hn in Ev2. injection Ev2 as <- <-.
      rewrite app_nil_r, Hitems, items_view_outputs in Ezs. simpl in Ezs.
      rewrite app_nil_r in Ezs. injection Ezs as <- <-.
      destruct (async_loop_finished incoming loc yield f ys1 e2 l1 Hf) as (e3 & H3 & E3).
      { change (en_state e2) with s2. by rewrite Hq2, Hitems. }
      exists e3. split; [exact H3|by transitivity e2].
Qed.

(** Registering a fresh request keeps the engine sound. *)
Lemma async_register_fresh {L} cfg rid e (l : L) :
  engine_ok e -> es_async_streamers (en_state e) !! rid = None ->
  exists e', async_register cfg rid (e, l) = (Ok (en_next_loc e), (e', l)) /\ engine_ok e' /\
    en_ffi e' = en_ffi e ++ [AddRequest rid] /\
    es_async_streamers (en_state e') !! rid
    = Some (en_next_loc e, repeat streamer_new (Z.to_nat (g_n cfg))) /\
    es_streams (en_state e') !! en_next_loc e = Some stream_new.
Proof.
  intros [[Ha Hb] Hc] Hr. unfold async_register. rewrite (mbind_Ok get_eng _ _ e (e, l)) by done.
  unfold ffi, on_eng. rewrite (mbind_Ok _ _ (e, l) tt _) by reflexivity. cbv beta. rewrite Hr.
  do 2 rewrite (mbind_Ok _ _ (_, l) tt _) by reflexivity.
  eexists. split; [reflexivity|]. simpl. split.
  - split; [split; simpl|]; simpl.
    + intros r loc tss H. apply lookup_insert_Some in H as [[<- [= <- <-]]|[Hn H]].
      * eexists. by rewrite lookup_insert_eq.
      * rewrite lookup_insert_ne; [by eapply Ha|]. apply Hc in H. lia.
    + intros r r' loc tss tss' H H'.
      apply lookup_insert_Some in H as [[<- [= <- <-]]|[Hn H]];
        apply lookup_insert_Some in H' as [[<- [= E]]|[Hn' H']]; subst; try done.
      * apply Hc in H'. lia.
      * apply Hc in H. lia.
      * by eapply Hb.
    + intros r loc tss H. apply lookup_insert_Some in H as [[<- [= <- <-]]|[Hn H]]; [lia|].
      apply Hc in H. lia.
  - split; [done|]. by rewrite !lookup_insert_eq.
Qed.

(** The asynchronous generator on a request with a fresh id. *)
Lemma async_generate_spec {L} incoming uss prompt cfg rid data
    (yield : list CallbackStreamOutput -> EM L unit) f e l :
  engine_ok e -> es_async_streamers (en_state e) !! rid = None ->
  en_terminated e = false -> convert_prompts_to_data prompt = Ok data ->
  Forall2 unpacks incoming uss -> pure_consumer yield f ->
  let '(ys, p) := async_view rid (repeat streamer_new (Z.to_nat (g_n cfg))) uss in
  exists e', async_generate incoming prompt cfg rid yield (e, l)
             = (ends (fst (run_each f ys l)) p, (e', snd (run_each f ys l)))
             /\ en_ffi e' = en_ffi e ++ generate_calls rid data cfg (fst (run_each f ys l)).
Proof.
  intros Hok Hr Ht Hp Hus Hf. unfold async_generate.
  rewrite (mbind_Ok get_eng _ _ e (e, l)) by done.
  rewrite Ht. rewrite (mbind_lift _ _ _ _ Hp).
  unfold ffi at 1, on_eng. rewrite (mbind_Ok _ _ (_, l) tt _) by reflexivity. cbv beta.
  set (e0 := ffi_call (CreateRequest rid data cfg) e).
  destruct (async_register_fresh cfg rid e0 l Hok Hr) as (e1 & H1 & Hok1 & Hf1 & Hr1 & Hs1).
  mstep H1. pose proof (async_loop_spec incoming uss (en_next_loc e0) rid yield f Hus Hf e1 l
    _ [] (proj1 Hok1) Hr1 Hs1) as H. cbn [map app] in H.
  unfold async_view. destruct (items_view _) as [ys p]. destruct H as (e2 & H2 & E2).
  unfold ErrorCleanupScope, generate_calls. rewrite H2. apply same_outside_ffi in E2.
  unfold e0 in Hf1. simpl in Hf1. rewrite Hf1 in E2.
  destruct (fst (run_each f ys l)) as [[]|x]; simpl.
  - exists e2. by rewrite E2, <- app_assoc.
  - eexists. split; [reflexivity|]. simpl. by rewrite E2, <- !app_assoc.
Qed.

(** Registering an id in use: a fresh stream that holds the error. *)
Lemma async_register_duplicate {L} cfg rid e (l : L) loc tss :
  es_async_streamers (en_state e) !! rid = Some (loc, tss) ->
  exists e', async_register cfg rid (e, l) = (Ok (en_next_loc e), (e', l)) /\
    en_ffi e' = en_ffi e /\
    es_async_streamers (en_state e') = es_async_streamers (en_state e) /\
    es_streams (en_state e') !! en_next_loc e = Some (mkStream [QExn (duplicate_id rid)] false) /\
    forall k, k <> en_next_loc e ->
      es_streams (en_state e') !! k = es_streams (en_state e) !! k.
Proof.
  intros Hr. unfold async_register. rewrite (mbind_Ok get_eng _ _ e (e, l)) by done.
  unfold on_eng. rewrite (mbind_Ok _ _ (e, l) tt _) by reflexivity. cbv beta. rewrite Hr.
  erewrite mbind_Ok by reflexivity.
  eexists. split; [reflexivity|]. simpl. split; [done|]. split; [done|]. split.
  - by rewrite lookup_alter_eq, lookup_insert_eq.
  - intros k Hk. by rewrite lookup_alter_ne, lookup_insert_ne by done.
Qed.

(** A stream that starts with an exception ends the loop with it. *)
Lemma async_loop_raises {L} incoming loc (yield : list CallbackStreamOutput -> EM L unit) e l x q fin :
  es_streams (en_state e) !! loc = Some (mkStream (QExn x :: q) fin) ->
  (match x with StopIteration | StopAsyncIteration => False | _ => True end) ->
  exists e', async_generate_loop incoming loc yield (e, l) = (Raise x, (e', l)) /\
    en_ffi e' = en_ffi e /\
    es_async_streamers (en_state e') = es_async_streamers (en_state e) /\
    forall k, k <> loc -> es_streams (en_state e') !! k = es_streams (en_state e) !! k.
Proof.
  intros Hq Hx.
  assert (async_drain (S (queue_length loc e)) loc yield (e, l)
          = (Raise x, (set_en_state e (set_streams (en_state e)
              (<[loc := mkStream q fin]> (es_streams (en_state e)))), l))) as Hd.
  { cbn [async_drain]. unfold anext. rewrite Hq. by destruct x. }
  assert (async_generate_loop incoming loc yield (e, l)
          = (Raise x, (set_en_state e (set_streams (en_state e)
              (<[loc := mkStream q fin]> (es_streams (en_state e)))), l))) as ->.
  { destruct incoming; cbn [async_generate_loop]; rewrite (mbind_Ok get_eng _ _ e (e, l)) by done;
      by rewrite (mbind_Raise _ _ _ _ _ Hd). }
  eexists. split; [reflexivity|]. simpl. split; [done|]. split; [done|].
  intros k Hk. by rewrite lookup_insert_ne.
Qed.

(** A batch of a single request gives both engines the same outputs. *)
Lemma batch_view_request rid tss us :
  Forall (fun u => fst u = rid /\ snd u <> []) us ->
  let '(outs, u, tss') := batch_view tss us in
  request_view rid (Some tss) us
  = match u with
    | Some u => (map QOutputs (outs ++ [[usage_output (Some u)]]) ++ [QExn StopIteration], None)
    | None => (map QOutputs outs, Some tss')
    end.
Proof.
  intros H. revert tss. induction H as [|[r sos] us [Hr Hne] H IH]; intros tss; [done|].
  simpl in Hr, Hne. subst r. cbn [request_view batch_view].
  rewrite String.eqb_refl. destruct sos as [|so0 rest] eqn:Es; [done|]. rewrite <- Es.
  assert (view_step tss sos = match so_request_final_usage_json_str so0 with
    | Some u => ([QOutputs [usage_output (Some u)]; QExn StopIteration], None)
    | None => let '(outs, v) := detok sos tss in ([QOutputs outs], Some v) end) as -> by (by rewrite Es).
  destruct (so_request_final_usage_json_str so0) as [u|].
  - assert (request_view rid None us = ([], None)) as -> by (by destruct us as [|[]]). done.
  - destruct (detok sos tss) as [outs tss1]. specialize (IH tss1).
    destruct (batch_view tss1 us) as [[rest' u] tss2]. rewrite IH. by destruct u.
Qed.

Lemma views_agree rid tss uss :
  Forall (Forall (fun u => fst u = rid /\ snd u <> [])) uss ->
  async_view rid tss uss = sync_view tss uss.
Proof.
  unfold async_view. intros H. revert tss. induction H as [|us uss Hus H IH]; intros tss; [done|].
  rewrite concat_cons, request_view_app. cbn [sync_view].
  pose proof (batch_view_request rid tss us Hus) as Hb.
  destruct (batch_view tss us) as [[outs [u|]] tss1]; rewrite Hb.
  - assert (request_view rid None (concat uss) = ([], None)) as ->
      by (by destruct (concat uss) as [|[]]).
    cbn [fst]. rewrite app_nil_r, items_view_outputs. simpl. by rewrite app_nil_r.
  - specialize (IH tss1). destruct (request_view rid (Some tss1) (concat uss)) as [items v].
    cbn [fst] in *. rewrite items_view_outputs, IH. done.
Qed.
End Lemmas.

(** ** Theorems *)

Section Theorems.
Context `{IB : ImageBackend} `{JB : JsonBackend} `{TS : TextStreamerOps}.

(** C22: the synchronous generator.  On a live engine it hands its consumer
    exactly the outputs of the batches, in order, with the final usage chunk
    last; it finishes exactly when that chunk arrives and waits otherwise.
    The request is created and added once, and aborted in the C++ engine
    exactly when the consumer, which does not itself change the engine but for
    events, raises or abandons the generator. *)
Theorem sync_generate_correct {L} incoming uss prompt cfg rid data
    (yield : list CallbackStreamOutput -> EM L unit) f e l :
  en_terminated e = false -> convert_prompts_to_data prompt = Ok data ->
  Forall2 unpacks incoming uss -> pure_consumer yield f ->
  let '(ys, p) := sync_view (repeat streamer_new (Z.to_nat (g_n cfg))) uss in
  exists e', sync_generate incoming prompt cfg rid yield (e, l)
             = (ends (fst (run_each f ys l)) p, (e', snd (run_each f ys l)))
             /\ en_ffi e' = en_ffi e ++ generate_calls rid data cfg (fst (run_each f ys l)).
Proof. apply sync_generate_spec. Qed.

(** C21: the two engines agree.  When the incoming deltas are all for the given
    request and its id is fresh, the asynchronous generator (through its
    stream, registry and callback) behaves as the synchronous one (through its
    blocking queue): the consumer, which does not itself change the engine but
    for events, sees the same outputs, ends in the same state and with the same
    result, and the C++ engine gets the same calls. *)
Theorem engines_agree {L} incoming uss prompt cfg rid data
    (yield : list CallbackStreamOutput -> EM L unit) f e l :
  engine_ok e -> es_async_streamers (en_state e) !! rid = None ->
  en_terminated e = false -> convert_prompts_to_data prompt = Ok data ->
  Forall2 unpacks incoming uss ->
  Forall (Forall (fun u => fst u = rid /\ snd u <> [])) uss -> pure_consumer yield f ->
  exists r l' e1 e2,
    async_generate incoming prompt cfg rid yield (e, l) = (r, (e1, l')) /\
    sync_generate incoming prompt cfg rid yield (e, l) = (r, (e2, l')) /\
    en_ffi e1 = en_ffi e2.
Proof.
  intros Hok Hr Ht Hp Hus Hrid Hf.
  pose proof (async_generate_spec incoming uss prompt cfg rid data yield f e l Hok Hr Ht Hp Hus Hf) as Ha.
  pose proof (sync_generate_spec incoming uss prompt cfg rid data yield f e l Ht Hp Hus Hf) as Hs.
  rewrite (views_agree rid _ uss Hrid) in Ha.
  destruct (sync_view _ uss) as [ys p]. destruct Ha as (e1 & H1 & F1), Hs as (e2 & H2 & F2).
  eexists _, _, e1, e2. split; [exact H1|]. split; [exact H2|]. congruence.
Qed.

(** A second request with an id in use kills the first.  The new request
    fails with the duplicate-id error without having been added, but its
    cleanup forgets the registered request and aborts it in the C++ engine:
    whatever deltas arrive later, the stream of the first request never gets
    another item, so its consumer is never told. *)
Theorem duplicate_id_kills_original {L} incoming prompt cfg rid data
    (yield : list CallbackStreamOutput -> EM L unit) e l loc tss :
  engine_ok e -> es_async_streamers (en_state e) !! rid = Some (loc, tss) ->
  en_terminated e = false -> convert_prompts_to_data prompt = Ok data ->
  exists e', async_generate incoming prompt cfg rid yield (e, l)
             = (Raise (duplicate_id rid), (e', l)) /\
  en_ffi e' = en_ffi e ++ [CreateRequest rid data cfg; AbortRequest rid] /\
  es_async_streamers (en_state e') !! rid = None /\
  forall later us, unpacks later us ->
    exists s', _async_request_stream_callback_impl later (en_state e') = (Ok tt, s') /\
               es_streams s' !! loc = es_streams (en_state e) !! loc.
Proof.
  intros [Hok Hc] Hr Ht Hp. pose proof (Hc _ _ _ Hr) as Hlt.
  unfold async_generate. rewrite (mbind_Ok get_eng _ _ e (e, l)) by done.
  rewrite Ht. rewrite (mbind_lift _ _ _ _ Hp).
  unfold ffi, on_eng. rewrite (mbind_Ok _ _ (e, l) tt _) by reflexivity. cbv beta.
  set (e0 := ffi_call (CreateRequest rid data cfg) e).
  destruct (async_register_duplicate cfg rid e0 l loc tss Hr) as (e1 & H1 & F1 & R1 & Q1 & S1).
  mstep H1. destruct (async_loop_raises incoming (en_next_loc e0) yield e1 l (duplicate_id rid) [] false)
    as (e2 & H2 & F2 & R2 & S2); [done|done|].
  unfold ErrorCleanupScope. rewrite H2. eexists. split; [reflexivity|].
  assert (forall k, k <> en_next_loc e0 ->
            es_streams (en_state e2) !! k = es_streams (en_state e) !! k) as Hs.
  { intros k Hk. by rewrite S2, S1. }
  assert (es_async_streamers (en_state e2) = es_async_streamers (en_state e)) as Hreg
    by (by rewrite R2, R1).
  split; [simpl; rewrite F2, F1; simpl; by rewrite <- app_assoc|]. simpl.
  split; [apply lookup_delete_eq|]. intros later us Hl.
  edestruct (async_callback_frame us later) as (s' & Hs' & _ & Hsame & _); [exact Hl| | |].
  3:{ exists s'. split; [exact Hs'|]. rewrite Hsame. simpl. apply Hs.
      change (en_next_loc e0) with (en_next_loc e). lia. }
  - destruct Hok as [Ha Hb]. split; simpl; rewrite Hreg.
    + intros r loc1 tss1 [_ H]%lookup_delete_Some. rewrite Hs; [by eapply Ha|].
      apply Hc in H. change (en_next_loc e0) with (en_next_loc e). lia.
    + intros r r' loc1 t1 t2 [_ G1]%lookup_delete_Some [_ G2]%lookup_delete_Some. by eapply Hb.
  - simpl. rewrite Hreg. intros r t [Hn H]%lookup_delete_Some.
    destruct Hok as [_ Hb]. by specialize (Hb _ _ _ _ _ H Hr).
Qed.
End Theorems.

(** ** Witnesses *)

Module EngineWitness.
Import ConversationDemo OpenAIWitness StreamsWitness.

Definition cfg1 : GenerationConfig :=
  mkGenerationConfig 1 None None None None None false 0 None 8 None None None None None.

Definition engine0 : Engine := mkEngine (EngineState_init class_attributes true) [] 0 false conv [] 4096.

(** A consumer that keeps what it sees. *)
Definition keep (y : list CallbackStreamOutput) (l : list (list CallbackStreamOutput))
  : res unit * list (list CallbackStreamOutput) := (Ok tt, l ++ [y]).
Definition keeper (y : list CallbackStreamOutput)
  : EM (list (list CallbackStreamOutput)) unit := fun '(e, l) => (Ok tt, (e, l ++ [y])).

Lemma keeper_pure : pure_consumer keeper keep.
Proof. intros y e l. exists e. by split. Qed.

(** Two batches for request [a]: two text deltas, then the usage. *)
Definition batches : list (list RequestStreamOutput) :=
  [[mkRSO "a" [[1%Z]] None [None] None [""]; mkRSO "a" [[]] None [Some "stop"] None [""]];
   [mkRSO "a" [] None [] (Some "usage") []]].
Definition unpacked_batches : list (list (string * list SingleRequestStreamOutput)) :=
  map (map (fun d => match unpack d with Ok u => u | Raise _ => ("", []) end)) batches.

Lemma batches_unpack : Forall2 unpacks batches unpacked_batches.
Proof. repeat (constructor; [repeat (constructor; [by split|]); constructor|]). constructor. Qed.

Lemma batches_of_a : Forall (Forall (fun u => fst u = "a" /\ snd u <> [])) unpacked_batches.
Proof. repeat (constructor; [repeat (constructor; [by split|]); constructor|]). constructor. Qed.

Lemma engine0_ok : engine_ok engine0.
Proof. split; [split|]; intros *; simpl; by rewrite lookup_empty. Qed.

Definition prompt : PyPrompt := PyList [PyList [PyInt 5]].
Definition seen : list (list CallbackStreamOutput) :=
  [[mkCSO "" None None None]; [mkCSO "." None (Some "stop") None]; [usage_output (Some "usage")]].

Example sync_generate_witness :
  exists e', sync_generate batches prompt cfg1 "a" keeper (engine0, [])
             = (Ok Finished, (e', seen))
             /\ en_ffi e' = [CreateRequest "a" [TokenData [5%Z]] cfg1; AddRequest "a"].
Proof.
  exact (sync_generate_correct batches unpacked_batches prompt cfg1 "a" [TokenData [5%Z]]
           keeper keep engine0 [] eq_refl eq_refl batches_unpack keeper_pure).
Defined.

Example engines_agree_witness :
  exists r l' e1 e2,
    async_generate batches prompt cfg1 "a" keeper (engine0, []) = (r, (e1, l')) /\
    sync_generate batches prompt cfg1 "a" keeper (engine0, []) = (r, (e2, l')) /\
    en_ffi e1 = en_ffi e2.
Proof.
  exact (engines_agree batches unpacked_batches prompt cfg1 "a" [TokenData [5%Z]]
           keeper keep engine0 [] engine0_ok eq_refl eq_refl eq_refl batches_unpack batches_of_a
           keeper_pure).
Defined.

(** An engine in the middle of requests [a] and [b]. *)
Definition busy : Engine := mkEngine two_requests [] 2 false conv [] 4096.

Lemma busy_ok : engine_ok busy.
Proof.
  split; [exact two_requests_ok|]. intros r loc tss H. unfold busy, two_requests in H. simpl in H.
  apply lookup_insert_Some in H as [[_ [= <- _]]|[_ H]]; [simpl; lia|].
  apply lookup_singleton_Some in H as [_ [= <- _]]. simpl. lia.
Qed.

Example duplicate_id_witness :
  exists e', async_generate batches prompt cfg1 "a" keeper (busy, [])
             = (Raise (duplicate_id "a"), (e', [])) /\
  en_ffi e' = [CreateRequest "a" [TokenData [5%Z]] cfg1; AbortRequest "a"] /\
  es_async_streamers (en_state e') !! "a" = None /\
  forall later us, unpacks later us ->
    exists s', _async_request_stream_callback_impl later (en_state e') = (Ok tt, s') /\
               es_streams s' !! 0%nat = es_streams two_requests !! 0%nat.
Proof.
  exact (duplicate_id_kills_original batches prompt cfg1 "a" [TokenData [5%Z]] keeper busy []
           0%nat [[]] busy_ok eq_refl eq_refl eq_refl).
Defined.
End EngineWitness.
