(* ===== verification/Simulation.v ===== *)
(** * Simulation of the consumers of the asynchronous engine

    Two runs of the same generator with different consumers: when the
    consumers simulate each other, so do the runs.  [R] relates the locals of
    the two consumers, [RX] what is left after an exception.  With the same
    consumer on both sides the lemmas are an invariant rule. *)

From stdpp Require Import base list strings gmap.
From S2P Require Import Prelude PyStr Data Conversation OpenAI EngineUtils Streams Pipeline.
From S2P Require Import FunctionCall Engine.
Local Open Scope list_scope.

(** Both computations end with the same result on the same engine, in related
    locals. *)
Definition sim {L1 L2 A} `{IB : ImageBackend} `{TS : TextStreamerOps}
    (R : L1 -> L2 -> Prop) (RX : exn -> Engine -> L1 -> L2 -> Prop)
    (m1 : EM L1 A) (m2 : EM L2 A) : Prop :=
  forall e l1 l2, R l1 l2 ->
  exists r e' l1' l2', m1 (e, l1) = (r, (e', l1')) /\ m2 (e, l2) = (r, (e', l2')) /\
    match r with Ok _ => R l1' l2' | Raise x => RX x e' l1' l2' end.

(** The relation on the locals of a generator that runs over the consumer's. *)
Definition lift_rel {G L1 L2} (R : L1 -> L2 -> Prop) (p1 : G * L1) (p2 : G * L2) : Prop :=
  fst p1 = fst p2 /\ R (snd p1) (snd p2).

Definition lift_exn `{IB : ImageBackend} `{TS : TextStreamerOps} {G L1 L2}
    (RX : exn -> Engine -> L1 -> L2 -> Prop) (x : exn) (e : Engine) (p1 : G * L1) (p2 : G * L2)
  : Prop := fst p1 = fst p2 /\ RX x e (snd p1) (snd p2).

(** [__anext__] does not depend on the consumer. *)
Lemma anext_any `{IB : ImageBackend} `{TS : TextStreamerOps} loc e :
  exists r e', forall L (l : L), anext loc (e, l) = (r, (e', l)).
Proof.
  unfold anext. destruct (es_streams (en_state e) !! loc) as [st|]; [|by eexists _, _].
  destruct (stream_anext st) as [[[outs|x]|] st']; by eexists _, _.
Qed.

Section Sim.
Context `{IB : ImageBackend} `{JB : JsonBackend} `{TS : TextStreamerOps} `{TK : TokenizerOps}
  `{AO : AstOps}.
Context {L1 L2 : Type} (R : L1 -> L2 -> Prop) (RX : exn -> Engine -> L1 -> L2 -> Prop).
(** An exception that is not the consumer's leaves related locals. *)
Hypothesis R_exn : forall x e l1 l2, R l1 l2 -> RX x e l1 l2.

Lemma sim_ret {A} (a : A) : sim R RX (mret' a) (mret' a).
Proof. intros e l1 l2 H. by exists (Ok a), e, l1, l2. Qed.

Lemma sim_raise {A} x : sim (A:=A) R RX (mraise x) (mraise x).
Proof. intros e l1 l2 H. exists (Raise x), e, l1, l2. auto. Qed.

Lemma sim_bind {A B} (m1 : EM L1 A) (m2 : EM L2 A) (k1 : A -> EM L1 B) k2 :
  sim R RX m1 m2 -> (forall a, sim R RX (k1 a) (k2 a)) ->
  sim R RX (mbind' m1 k1) (mbind' m2 k2).
Proof.
  intros Hm Hk e l1 l2 H. destruct (Hm e l1 l2 H) as ([a|x] & e1 & l1' & l2' & H1 & H2 & HR).
  - mstep H1. mstep H2. by apply Hk.
  - rewrite (mbind_Raise _ _ _ _ _ H1), (mbind_Raise _ _ _ _ _ H2).
    by exists (Raise x), e1, l1', l2'.
Qed.

Lemma sim_lift {A} (r : res A) : sim R RX (mlift r) (mlift r).
Proof. intros e l1 l2 H. exists r, e, l1, l2. split; [done|]. split; [done|]. destruct r; auto. Qed.

Lemma sim_get_eng : sim R RX get_eng get_eng.
Proof. intros e l1 l2 H. by exists (Ok e), e, l1, l2. Qed.

Lemma sim_on_eng f : sim R RX (on_eng f) (on_eng f).
Proof. intros e l1 l2 H. by exists (Ok tt), (f e), l1, l2. Qed.

Lemma sim_on_state {A} (m : M EngineState A) : sim R RX (on_state m) (on_state m).
Proof.
  intros e l1 l2 H. unfold on_state. destruct (m (en_state e)) as [r s].
  exists r, (set_en_state e s), l1, l2. split; [done|]. split; [done|]. destruct r; auto.
Qed.


Lemma sim_async_drain fuel loc yield1 yield2 :
  (forall y, sim R RX (yield1 y) (yield2 y)) ->
  sim R RX (async_drain fuel loc yield1) (async_drain fuel loc yield2).
Proof.
  intros Hy. induction fuel as [|fuel IH]; [apply sim_ret|]. intros e l1 l2 H. cbn [async_drain].
  destruct (anext_any loc e) as (r & e1 & Ha). rewrite !Ha. destruct r as [[outs|]|x].
  - by apply (sim_bind (yield1 outs) (yield2 outs) (fun _ => async_drain fuel loc yield1)
               (fun _ => async_drain fuel loc yield2)).
  - by exists (Ok Waiting), e1, l1, l2.
  - destruct x; (eexists _, e1, l1, l2; split; [reflexivity|split; [reflexivity|]]); simpl; auto.
Qed.

Lemma sim_async_loop incoming loc yield1 yield2 :
  (forall y, sim R RX (yield1 y) (yield2 y)) ->
  sim R RX (async_generate_loop incoming loc yield1) (async_generate_loop incoming loc yield2).
Proof.
  intros Hy. induction incoming as [|ds incoming IH]; cbn [async_generate_loop];
    (apply sim_bind; [apply sim_get_eng|]; intros e;
     apply sim_bind; [by apply sim_async_drain|]; intros []); try apply sim_ret.
  apply sim_bind; [apply sim_on_state|by intros _].
Qed.

Lemma sim_register cfg rid : sim R RX (async_register cfg rid) (async_register cfg rid).
Proof.
  unfold async_register. apply sim_bind; [apply sim_get_eng|]. intros e.
  apply sim_bind; [apply sim_on_eng|]. intros _. case_match.
  - apply sim_bind; [apply sim_on_state|]. intros _. apply sim_ret.
  - apply sim_bind; [apply sim_on_eng|]. intros _. apply sim_bind; [apply sim_on_eng|]. intros _.
    apply sim_ret.
Qed.
End Sim.

Create HintDb sim.
#[export] Hint Resolve sim_ret sim_raise sim_lift sim_get_eng sim_on_eng sim_on_state
  sim_register : sim.

Section Generator.
Context `{IB : ImageBackend} `{JB : JsonBackend} `{TS : TextStreamerOps} `{TK : TokenizerOps}
  `{AO : AstOps}.
Context {L1 L2 : Type} (R : L1 -> L2 -> Prop).

(** The generator: the consumers' exceptions satisfy [RX], and the cleanup
    turns that into [RX']. *)
Lemma sim_async_generate RX RX' incoming prompt cfg rid yield1 yield2 :
  (forall x e l1 l2, R l1 l2 -> RX x e l1 l2) ->
  (forall x e l1 l2, R l1 l2 -> RX' x e l1 l2) ->
  (forall x e l1 l2, RX x e l1 l2 -> RX' x (async_abort rid e) l1 l2) ->
  (forall y, sim R RX (yield1 y) (yield2 y)) ->
  sim R RX' (async_generate incoming prompt cfg rid yield1)
            (async_generate incoming prompt cfg rid yield2).
Proof.
  intros HX HX' Ha Hy. unfold async_generate. apply sim_bind; [auto with sim|]. intros e0.
  destruct (en_terminated e0); [auto with sim|].
  apply sim_bind; [auto with sim|]. intros data. apply sim_bind; [apply sim_on_eng|]. intros _.
  apply sim_bind; [auto with sim|]. intros loc e l1 l2 H.
  destruct (sim_async_loop R RX HX incoming loc yield1 yield2 Hy e l1 l2 H)
    as (r & e' & l1' & l2' & H1 & H2 & HR).
  unfold ErrorCleanupScope. rewrite H1, H2. destruct r as [p|x].
  - by exists (Ok p), e', l1', l2'.
  - exists (Raise x), (async_abort rid e'), l1', l2'. auto.
Qed.

End Generator.

Section Handlers.
Context `{IB : ImageBackend} `{JB : JsonBackend} `{TS : TextStreamerOps} `{TK : TokenizerOps}
  `{AO : AstOps}.
Context {L1 L2 : Type} (R : L1 -> L2 -> Prop).

Lemma sim_outer {G A} RX (m1 : EM L1 A) (m2 : EM L2 A) :
  sim R RX m1 m2 -> sim (@lift_rel G _ _ R) (lift_exn RX) (outer m1) (outer m2).
Proof.
  intros Hm e [g1 l1] [g2 l2] [Hg H]. simpl in Hg, H. subst g2.
  destruct (Hm e l1 l2 H) as (r & e' & l1' & l2' & H1 & H2 & HR).
  unfold outer. rewrite H1, H2. exists r, e', (g1, l1'), (g1, l2'). by destruct r; repeat split.
Qed.

Lemma sim_with_locals {G A} RX (g : G) (m1 : EM (G * L1) A) (m2 : EM (G * L2) A) :
  sim (lift_rel R) (lift_exn RX) m1 m2 -> sim R RX (with_locals g m1) (with_locals g m2).
Proof.
  intros Hm e l1 l2 H.
  destruct (Hm e (g, l1) (g, l2)) as (r & e' & [g1 l1'] & [g2 l2'] & H1 & H2 & HR); [done|].
  unfold with_locals. rewrite H1, H2. exists r, e', l1', l2'. by destruct r, HR.
Qed.

Lemma sim_on_reasons {A} RX (m : FM A) :
  (forall x e l1 l2, R l1 l2 -> RX x e l1 l2) ->
  sim (lift_rel R) (lift_exn RX) (on_reasons m) (on_reasons m).
Proof.
  intros HX e [g1 l1] [g2 l2] [Hg H]. simpl in Hg, H. subst g2. unfold on_reasons.
  destruct (m (en_state e, g1)) as [r [s frs]].
  exists r, (set_en_state e s), (frs, l1), (frs, l2). split; [done|]. split; [done|].
  destruct r; split; simpl; auto.
Qed.

(** The usage chunk of a stream has no choices. *)
Definition chat_shape (r : ChatCompletionStreamResponse) : Prop :=
  sresp_usage r <> None -> sresp_choices r = [].

Lemma chat_output_shape ds request rid ufc s r s' :
  process_chat_completion_stream_output ds request rid ufc s = (Ok (Some r), s') -> chat_shape r.
Proof.
  unfold process_chat_completion_stream_output, chat_shape. intros H.
  apply mbind_inv in H as [(d0 & s1 & _ & H)|(? & _ & ?)]; [|done].
  destruct (co_request_final_usage_json_str d0);
    (apply mbind_inv in H as [([] & s2 & _ & H)|(? & _ & ?)]; [|done]).
  - apply mbind_inv in H as [([] & s3 & _ & H)|(? & _ & ?)]; [|done].
    apply mbind_inv in H as [(u & s4 & _ & H)|(? & _ & ?)]; [|done].
    destruct (usage_wanted _ _); injection H; [by intros _ <-|done].
  - apply mbind_inv in H as [(cs & s3 & _ & H)|(? & _ & ?)]; [|done].
    destruct cs; [by injection H|].
    apply mbind_inv in H as [([] & s4 & _ & H)|(? & _ & ?)]; [|done]. by injection H as <- _.
Qed.

(** A response as the handler passes it on. *)
Definition shown_chat (include_extra : bool) (r : ChatCompletionStreamResponse) :=
  if include_extra then r else drop_chat_extra r.

Lemma sim_chat_body RX request rid ufc ie1 ie2 (yield1 : ChatYield L1) (yield2 : ChatYield L2) ds :
  (forall x e l1 l2, R l1 l2 -> RX x e l1 l2) ->
  (forall r, chat_shape r -> sim R RX (yield1 (shown_chat ie1 r)) (yield2 (shown_chat ie2 r))) ->
  sim (lift_rel R) (lift_exn RX) (chat_body request rid ufc ie1 yield1 ds)
    (chat_body request rid ufc ie2 yield2 ds).
Proof.
  intros HX Hy e [g l1] [g2 l2] [Hg H]. simpl in Hg, H. subst g2. unfold chat_body.
  destruct (process_chat_completion_stream_output ds request rid ufc (en_state e, g)) as [r [s frs]] eqn:Ep.
  assert (forall L (l : L), on_reasons (process_chat_completion_stream_output ds request rid ufc)
    (e, (g, l)) = (r, (set_en_state e s, (frs, l)))) as Hrun.
  { intros L l. unfold on_reasons. by rewrite Ep. }
  destruct r as [[r|]|x].
  - mstep (Hrun _ l1). mstep (Hrun _ l2).
    by apply (sim_outer RX _ _ (Hy r (chat_output_shape _ _ _ _ _ _ _ Ep))).
  - mstep (Hrun _ l1). mstep (Hrun _ l2). by eexists (Ok tt), _, (frs, l1), (frs, l2).
  - rewrite (mbind_Raise _ _ _ _ _ (Hrun _ l1)), (mbind_Raise _ _ _ _ _ (Hrun _ l2)).
    eexists (Raise x), _, (frs, l1), (frs, l2). split; [done|]. split; [done|]. split; simpl; auto.
Qed.

(** The chat handler. *)
Lemma sim_handle_chat RX RX' incoming request rid ie1 ie2 (yield1 : ChatYield L1)
    (yield2 : ChatYield L2) :
  (forall x e l1 l2, R l1 l2 -> RX x e l1 l2) ->
  (forall x e l1 l2, R l1 l2 -> RX' x e l1 l2) ->
  (forall x e l1 l2, RX x e l1 l2 -> RX' x (async_abort rid e) l1 l2) ->
  (forall r, chat_shape r -> sim R RX (yield1 (shown_chat ie1 r)) (yield2 (shown_chat ie2 r))) ->
  sim R RX' (async_handle_chat_completion incoming request rid ie1 yield1)
            (async_handle_chat_completion incoming request rid ie2 yield2).
Proof.
  intros HX HX' Ha Hy. unfold async_handle_chat_completion, handle_chat.
  apply sim_bind; [apply sim_get_eng|]. intros e0.
  apply sim_bind; [by apply sim_on_state|]. intros info. cbv zeta.
  apply sim_bind; [by apply sim_on_state|]. intros _.
  apply sim_bind; [|intros []; [apply sim_bind; [by apply sim_on_state|]; intros []|]; apply sim_ret].
  apply sim_with_locals. cbv beta.
  apply (sim_async_generate (lift_rel R) (lift_exn RX) (lift_exn RX')).
  - intros x e [g1 l1] [g2 l2] [Hg H]. split; simpl; auto.
  - intros x e [g1 l1] [g2 l2] [Hg H]. split; simpl; auto.
  - intros x e [g1 l1] [g2 l2] [Hg H]. split; simpl; auto.
  - intros ds. by apply sim_chat_body.
Qed.

Definition shown_completion (include_extra : bool) (r : CompletionResponse) :=
  if include_extra then r else drop_completion_extra r.


Lemma sim_completion_body RX request rid ie1 ie2 (yield1 : CompletionYield L1)
    (yield2 : CompletionYield L2) ds :
  (forall x e l1 l2, R l1 l2 -> RX x e l1 l2) ->
  (forall r, sim R RX (yield1 (shown_completion ie1 r)) (yield2 (shown_completion ie2 r))) ->
  sim (lift_rel R) (lift_exn RX) (completion_body request rid ie1 yield1 ds)
    (completion_body request rid ie2 yield2 ds).
Proof.
  intros HX Hy. unfold completion_body. apply sim_bind; [by apply sim_on_reasons|].
  intros [r|]; [apply sim_outer, Hy|apply sim_ret].
Qed.

Lemma sim_completion_suffix RX request rid (yield1 : CompletionYield L1)
    (yield2 : CompletionYield L2) :
  (forall x e l1 l2, R l1 l2 -> RX x e l1 l2) -> (forall r, sim R RX (yield1 r) (yield2 r)) ->
  sim (lift_rel R) (lift_exn RX) (completion_suffix request rid yield1)
    (completion_suffix request rid yield2).
Proof.
  intros HX Hy e [g l1] [g2 l2] [Hg H]. simpl in Hg, H. subst g2. unfold completion_suffix, mlift.
  unfold mbind'. destruct (create_completion_suffix_response request rid g) as [[r|]|x].
  - by apply (sim_outer RX _ _ (Hy r)).
  - by eexists (Ok tt), e, (g, l1), (g, l2).
  - eexists (Raise x), e, (g, l1), (g, l2). split; [done|]. split; [done|]. split; simpl; auto.
Qed.

(** The completion handler; the echoed prompt and the suffix are passed on
    outside the cleanup scope. *)
Lemma sim_handle_completion RX RX' incoming request rid ie1 ie2 (yield1 : CompletionYield L1)
    (yield2 : CompletionYield L2) :
  (forall x e l1 l2, R l1 l2 -> RX x e l1 l2) ->
  (forall x e l1 l2, R l1 l2 -> RX' x e l1 l2) ->
  (forall x e l1 l2, RX x e l1 l2 -> RX' x (async_abort rid e) l1 l2) ->
  (forall r, sim R RX (yield1 (shown_completion ie1 r)) (yield2 (shown_completion ie2 r))) ->
  (forall r, sim R RX' (yield1 r) (yield2 r)) ->
  sim R RX' (async_handle_completion incoming request rid ie1 yield1)
            (async_handle_completion incoming request rid ie2 yield2).
Proof.
  intros HX HX' Ha Hy Hplain. unfold async_handle_completion, handle_completion.
  apply sim_bind; [apply sim_get_eng|]. intros e0.
  apply sim_bind; [by apply sim_on_state|]. intros info. cbv zeta.
  apply sim_bind; [destruct (mi_echo_response info); [apply Hplain|apply sim_ret]|]. intros _.
  apply sim_bind; [by apply sim_on_state|]. intros _.
  apply sim_bind; [|intros []; [apply sim_bind; [by apply sim_on_state|]; intros []|]; apply sim_ret].
  apply sim_with_locals. apply sim_bind.
  - apply (sim_async_generate (lift_rel R) (lift_exn RX) (lift_exn RX'));
      try (intros x e [g1 l1] [g2 l2] [Hg H]; split; simpl; auto).
    intros ds. by apply sim_completion_body.
  - intros []; [|apply sim_ret]. apply sim_bind; [by apply sim_completion_suffix|].
    intros _. apply sim_ret.
Qed.
End Handlers.
