(* ===== verification/Api.v ===== *)
(** * Non-streaming completions ([serve/engine.py]) and the server entrypoints
    ([serve/entrypoints/openai_entrypoints.py],
    [serve/entrypoints/microserving_entrypoints.py], [serve/server/server_context.py])

    The non-streaming calls consume the response stream of the handlers of
    [Engine.v] and collect it into one response; the entrypoints do the same
    for a request received by the server, whose context chooses the engine. *)

From stdpp Require Import base list strings gmap.
From S2P Require Import Prelude PyStr Data Conversation OpenAI EngineUtils Streams Pipeline.
From S2P Require Import FunctionCall Engine.
Local Open Scope string_scope.
Local Open Scope list_scope.
Local Open Scope Z_scope.

(** ** Collecting a chat stream *)

Record ChatAgg : Type := mkChatAgg {
  ca_texts : list string;
  ca_reasons : list (option string);
  ca_logprobs : option (list (list LogProbsContent));
  ca_usage : option CompletionUsage;
}.

Definition chat_agg_init (n : Z) (logprobs : bool) : ChatAgg :=
  mkChatAgg (repeat EmptyString (Z.to_nat n)) (repeat None (Z.to_nat n))
    (if logprobs then Some (repeat [] (Z.to_nat n)) else None) None.

Definition ca_set_usage (a : ChatAgg) (u : option CompletionUsage) : ChatAgg :=
  mkChatAgg (ca_texts a) (ca_reasons a) (ca_logprobs a) u.

(** [output_texts[i] += s] *)
Definition append_text (texts : list string) (i : nat) (s : string) : res (list string) :=
  let? t := list_getitem texts i in list_setitem texts i (t +:+ s).

(** [if reason is not None and reasons[i] is None: reasons[i] = reason] *)
Definition keep_first_reason (reasons : list (option string)) (i : nat) (reason : option string)
  : res (list (option string)) :=
  match reason with
  | None => Ok reasons
  | Some r =>
      let? old := list_getitem reasons i in
      match old with
      | None => list_setitem reasons i (Some r)
      | Some _ => Ok reasons
      end
  end.

(** The body of [for choice in response.choices]. *)
Definition chat_collect_choice (a : ChatAgg) (choice : ChatCompletionStreamResponseChoice)
  : res ChatAgg :=
  match msg_content (sc_delta choice) with
  | Some (CText content) =>
      let? texts := append_text (ca_texts a) (sc_index choice) content in
      let? reasons := keep_first_reason (ca_reasons a) (sc_index choice) (sc_finish_reason choice) in
      let? lps :=
        match sc_logprobs choice with
        | None => Ok (ca_logprobs a)
        | Some lp =>
            match ca_logprobs a with
            | None => Raise AssertionError
            | Some l =>
                let? old := list_getitem l (sc_index choice) in
                let? l' := list_setitem l (sc_index choice) (old ++ lp_content lp) in
                Ok (Some l')
            end
        end in
      Ok (mkChatAgg texts reasons lps (ca_usage a))
  | _ => Raise AssertionError
  end.

Fixpoint chat_collect_choices (a : ChatAgg) (l : list ChatCompletionStreamResponseChoice)
  : res ChatAgg :=
  match l with
  | [] => Ok a
  | c :: l => let? a := chat_collect_choice a c in chat_collect_choices a l
  end.

(** One response chunk of the stream; the usage chunk is the last one. *)
Definition chat_collect (a : ChatAgg) (response : ChatCompletionStreamResponse) : res ChatAgg :=
  match sresp_usage response with
  | Some u => Ok (ca_set_usage a (Some u))
  | None => chat_collect_choices a (sresp_choices response)
  end.

Record CompletionAgg : Type := mkCompletionAgg {
  ma_texts : list string;
  ma_reasons : list (option string);
  ma_logprobs : list (option CompletionLogProbs);
  ma_usage : option CompletionUsage;
}.

Definition completion_agg_init (n : Z) : CompletionAgg :=
  mkCompletionAgg (repeat EmptyString (Z.to_nat n)) (repeat None (Z.to_nat n))
    (repeat None (Z.to_nat n)) None.

Definition ma_set_usage (a : CompletionAgg) (u : option CompletionUsage) : CompletionAgg :=
  mkCompletionAgg (ma_texts a) (ma_reasons a) (ma_logprobs a) u.

(** The engine's loop body: a chunk's logprobs replace the earlier ones. *)
Definition completion_collect_choice (a : CompletionAgg) (choice : CompletionResponseChoice)
  : res CompletionAgg :=
  let? texts := append_text (ma_texts a) (cc_index choice) (cc_text choice) in
  let? reasons := keep_first_reason (ma_reasons a) (cc_index choice) (cc_finish_reason choice) in
  let? lps :=
    match cc_logprobs choice with
    | None => Ok (ma_logprobs a)
    | Some lp => list_setitem (ma_logprobs a) (cc_index choice) (Some lp)
    end in
  Ok (mkCompletionAgg texts reasons lps (ma_usage a)).

(** The server's loop body: a chunk's logprobs extend the earlier ones. *)
Definition extend_logprobs (old new : CompletionLogProbs) : CompletionLogProbs :=
  mkCompletionLogProbs (clp_text_offset old)
    (clp_token_logprobs old ++ clp_token_logprobs new)
    (clp_tokens old ++ clp_tokens new)
    (clp_top_logprobs old ++ clp_top_logprobs new).

Definition server_collect_choice (a : CompletionAgg) (choice : CompletionResponseChoice)
  : res CompletionAgg :=
  let? texts := append_text (ma_texts a) (cc_index choice) (cc_text choice) in
  let? reasons := keep_first_reason (ma_reasons a) (cc_index choice) (cc_finish_reason choice) in
  let? lps :=
    match cc_logprobs choice with
    | None => Ok (ma_logprobs a)
    | Some lp =>
        let? old := list_getitem (ma_logprobs a) (cc_index choice) in
        match old with
        | None => list_setitem (ma_logprobs a) (cc_index choice) (Some lp)
        | Some old => list_setitem (ma_logprobs a) (cc_index choice)
                        (Some (extend_logprobs old lp))
        end
    end in
  Ok (mkCompletionAgg texts reasons lps (ma_usage a)).

Fixpoint collect_choices {A C} (step : A -> C -> res A) (a : A) (l : list C) : res A :=
  match l with
  | [] => Ok a
  | c :: l => let? a := step a c in collect_choices step a l
  end.

Definition completion_collect (step : CompletionAgg -> CompletionResponseChoice -> res CompletionAgg)
    (a : CompletionAgg) (response : CompletionResponse) : res CompletionAgg :=
  match cresp_usage response with
  | Some u => Ok (ma_set_usage a (Some u))
  | None => collect_choices step a (cresp_choices response)
  end.

Definition all_finished (reasons : list (option string)) : bool :=
  forallb (fun fr => negb (is_none fr)) reasons.

(** ** The engines' non-streaming calls *)

Section Api.
Context `{IB : ImageBackend} `{JB : JsonBackend} `{TS : TextStreamerOps} `{TK : TokenizerOps}
  `{AO : AstOps}.
Variable call_id : nat -> nat -> string.

(** A consumer that updates an aggregate. *)
Definition collecting {A R} (step : A -> R -> res A) (r : R) : EM A unit :=
  fun '(e, a) => match step a r with
                 | Ok a' => (Ok tt, (e, a'))
                 | Raise x => (Raise x, (e, a))
                 end.

(** What a call returns: a generator for the caller to iterate, the response,
    or nothing yet. *)
Inductive Outcome (R : Type) : Type :=
| StreamOutcome
| Response (r : R)
| Blocked.

(** The end of a chat completion: convert the function calls and wrap. *)
Definition finish_chat (request : ChatCompletionRequest) (request_id : string) (a : ChatAgg)
  : res ChatCompletionResponse :=
  let? (use_function_calling, st) :=
    process_function_call_output call_id (ca_texts a) (ca_reasons a) in
  wrap_chat_completion_response request_id (ch_model request) (fc_texts st) (fc_reasons st)
    (fc_calls st) (ca_logprobs a) use_function_calling (ca_usage a).

(** The non-streaming chat completion over the stream of [handler]. *)
Definition collect_chat
    (handler : ChatYield ChatAgg -> EM ChatAgg Progress)
    (request : ChatCompletionRequest) (request_id : string)
  : EM unit (Outcome ChatCompletionResponse) :=
  fun '(e, _) =>
    let '(r, (e, a)) :=
      (let! p := handler (collecting chat_collect) in
       match p with
       | Waiting => mret' (Blocked _)
       | Finished =>
           let! a := (fun '(e, a) => (Ok a, (e, a))) in
           let! _ := mlift (py_assert (all_finished (ca_reasons a))) in
           let! resp := mlift (finish_chat request request_id a) in
           mret' (Response _ resp)
       end) (e, chat_agg_init (ch_n request) (ch_logprobs request)) in
    (r, (e, tt)).

(** [AsyncMLCEngine._chat_completion] *)
Definition async_chat_completion (incoming : list (list RequestStreamOutput))
    (request : ChatCompletionRequest) (request_id : string)
  : EM unit (Outcome ChatCompletionResponse) :=
  let! request := mlift (ChatCompletionRequest_validate request) in
  if ch_stream request then mret' (StreamOutcome _)
  else collect_chat (async_handle_chat_completion incoming request request_id true)
         request request_id.

(** [MLCEngine._chat_completion] *)
Definition sync_chat_completion (incoming : list (list RequestStreamOutput))
    (request : ChatCompletionRequest) (request_id : string)
  : EM unit (Outcome ChatCompletionResponse) :=
  let! request := mlift (ChatCompletionRequest_validate request) in
  if ch_stream request then mret' (StreamOutcome _)
  else collect_chat (sync_handle_chat_completion incoming request request_id)
         request request_id.

Definition collect_completion
    (handler : CompletionYield CompletionAgg -> EM CompletionAgg Progress)
    (request : CompletionRequest) (request_id : string)
  : EM unit (Outcome CompletionResponse) :=
  fun '(e, _) =>
    let '(r, (e, a)) :=
      (let! p := handler (collecting (completion_collect completion_collect_choice)) in
       match p with
       | Waiting => mret' (Blocked _)
       | Finished =>
           let! a := (fun '(e, a) => (Ok a, (e, a))) in
           let! _ := mlift (py_assert (all_finished (ma_reasons a))) in
           let! resp := mlift (wrap_completion_response request_id (cm_model request)
                                 (ma_texts a) (ma_reasons a) (ma_logprobs a) (ma_usage a)) in
           mret' (Response _ resp)
       end) (e, completion_agg_init (cm_n request)) in
    (r, (e, tt)).

(** [AsyncMLCEngine._completion] *)
Definition async_completion (incoming : list (list RequestStreamOutput))
    (request : CompletionRequest) (request_id : string)
  : EM unit (Outcome CompletionResponse) :=
  let! request := mlift (CompletionRequest_validate request) in
  if cm_stream request then mret' (StreamOutcome _)
  else collect_completion (async_handle_completion incoming request request_id true)
         request request_id.

(** [MLCEngine._completion] *)
Definition sync_completion (incoming : list (list RequestStreamOutput))
    (request : CompletionRequest) (request_id : string)
  : EM unit (Outcome CompletionResponse) :=
  let! request := mlift (CompletionRequest_validate request) in
  if cm_stream request then mret' (StreamOutcome _)
  else collect_completion (sync_handle_completion incoming request request_id)
         request request_id.
End Api.

(** ** Specifications *)

Section Specs.
Context `{JB : JsonBackend}.

(** What one chunk of deltas adds to the texts and the log probabilities. *)
Definition chunk_texts (texts : list string) (ds : list CallbackStreamOutput) : list string :=
  zip_with (fun t d => t +:+ co_delta_text d) texts ds.

Definition delta_contents (d : CallbackStreamOutput) : list LogProbsContent :=
  match logprobs_of (co_delta_logprob_json_strs d) with
  | Ok (Some lp) => lp_content lp
  | _ => []
  end.

(** The log probabilities of a delta count when the delta is reported. *)
Definition reported_contents (old : option string) (d : CallbackStreamOutput)
  : list LogProbsContent := if reported old d then delta_contents d else [].

Definition chunk_logprobs (frs : list (option string)) (lps : list (list LogProbsContent))
    (ds : list CallbackStreamOutput) : list (list LogProbsContent) :=
  zip_with (fun old fd => old ++ reported_contents (fst fd) (snd fd)) lps (zip frs ds).

(** What a generation has produced after a list of its deltas. *)
Fixpoint generation_text (ds : list CallbackStreamOutput) : string :=
  match ds with [] => EmptyString | d :: ds => co_delta_text d +:+ generation_text ds end.

Fixpoint generation_reason (ds : list CallbackStreamOutput) : option string :=
  match ds with
  | [] => None
  | d :: ds => match co_finish_reason d with Some r => Some r | None => generation_reason ds end
  end.

Fixpoint generation_logprobs (old : option string) (ds : list CallbackStreamOutput)
  : list LogProbsContent :=
  match ds with
  | [] => []
  | d :: ds => reported_contents old d
               ++ generation_logprobs (merge_reason false old (co_finish_reason d)) ds
  end.

(** The deltas of generation [i] in a list of chunks. *)
Definition column (i : nat) (chunks : list (list CallbackStreamOutput))
  : list CallbackStreamOutput := omap (fun ds => ds !! i) chunks.
#[global] Arguments column : simpl never.

(** The choice of the response for a generation with the given deltas. *)
Definition final_choice (logprobs : bool) (i : nat) (ds : list CallbackStreamOutput)
  : ChatCompletionResponseChoice :=
  mkChatCompletionResponseChoice (generation_reason ds) i (assistant_text (generation_text ds))
    (if logprobs then Some (mkLogProbs (generation_logprobs None ds)) else None).

(** A chunk the C++ engine may send for [n] generations: a legal delta for
    each, with log probabilities only when they were asked for. *)
Definition chunk_ok (n : nat) (logprobs : bool) (ds : list CallbackStreamOutput) : Prop :=
  length ds = n /\ Forall delta_ok ds /\
  Forall (fun d => co_request_final_usage_json_str d = None) ds /\
  (logprobs = false -> Forall (fun d => co_delta_logprob_json_strs d = None) ds).
(** The first finish reason of a list of chunks of one generation. *)
Fixpoint first_reason (cs : list CompletionResponseChoice) : option string :=
  match cs with
  | [] => None
  | c :: cs => match cc_finish_reason c with Some r => Some r | None => first_reason cs end
  end.

(** The log probabilities of all the chunks. *)
Fixpoint merged_logprobs (old : option CompletionLogProbs) (cs : list CompletionResponseChoice)
  : option CompletionLogProbs :=
  match cs with
  | [] => old
  | c :: cs =>
      merged_logprobs
        (match old, cc_logprobs c with
         | Some o, Some lp => Some (extend_logprobs o lp)
         | None, lp => lp
         | old, None => old
         end) cs
  end.
End Specs.

(** ** Lemmas *)

Section Lemmas.
Context `{IB : ImageBackend} `{JB : JsonBackend} `{TS : TextStreamerOps} `{TK : TokenizerOps}
  `{AO : AstOps}.

(** The log probabilities of a list of generations, when they are kept. *)
Definition lps_of (logprobs : bool) (l : list (list LogProbsContent))
  : option (list (list LogProbsContent)) := if logprobs then Some l else None.

Lemma keep_first_reason_spec pre fr frs d :
  keep_first_reason (pre ++ fr :: frs) (length pre) (merge_reason false fr (co_finish_reason d))
  = Ok (pre ++ merge_reason false fr (co_finish_reason d) :: frs).
Proof.
  unfold keep_first_reason, merge_reason, list_getitem.
  destruct fr as [r|]; [by rewrite lookup_mid|].
  destruct (co_finish_reason d) as [r|]; [|done]. rewrite lookup_mid. simpl. by rewrite setitem_mid.
Qed.

Lemma merge_unreported fr d : reported fr d = false ->
  merge_reason false fr (co_finish_reason d) = fr /\ co_delta_text d = EmptyString.
Proof.
  unfold reported. intros [H1 H2]%orb_false_elim. apply negb_false_iff, String.eqb_eq in H2.
  split; [|done]. by destruct fr, (co_finish_reason d).
Qed.

(** Collecting one chunk, generation by generation. *)
Lemma chat_collect_choices_spec logprobs u ds :
  Forall delta_ok ds ->
  (logprobs = false -> Forall (fun d => co_delta_logprob_json_strs d = None) ds) ->
  forall tpre texts rpre frs lpre lps,
  length texts = length ds -> length frs = length ds -> length lps = length ds ->
  length rpre = length tpre -> length lpre = length tpre ->
  chat_collect_choices (mkChatAgg (tpre ++ texts) (rpre ++ frs) (lps_of logprobs (lpre ++ lps)) u)
    (chat_choices_spec false (length tpre) frs ds)
  = Ok (mkChatAgg (tpre ++ chunk_texts texts ds) (rpre ++ merge_reasons false frs ds)
          (lps_of logprobs (lpre ++ chunk_logprobs frs lps ds)) u).
Proof.
  induction ds as [|d ds IH]; intros Hok Hlp tpre texts rpre frs lpre lps Ht Hf Hl Hr Hlpre.
  { by destruct texts, frs, lps. }
  destruct texts as [|t texts], frs as [|fr frs], lps as [|lp lps]; try discriminate.
  apply Forall_cons in Hok as [Hd Hok]. injection Ht as Ht. injection Hf as Hf. injection Hl as Hl.
  assert (logprobs = false -> Forall (fun d => co_delta_logprob_json_strs d = None) ds) as Hlp'.
  { intros H. by apply Hlp, Forall_cons in H as [_ H]. }
  specialize (IH Hok Hlp' (tpre ++ [t +:+ co_delta_text d]) texts
    (rpre ++ [merge_reason false fr (co_finish_reason d)]) frs
    (lpre ++ [lp ++ reported_contents fr d]) lps Ht Hf Hl).
  rewrite !length_app, !Nat.add_1_r, <- !app_assoc in IH. cbn [app] in IH.
  specialize (IH ltac:(lia) ltac:(lia)).
  change (chunk_texts (t :: texts) (d :: ds)) with ((t +:+ co_delta_text d) :: chunk_texts texts ds).
  change (merge_reasons false (fr :: frs) (d :: ds))
    with (merge_reason false fr (co_finish_reason d) :: merge_reasons false frs ds).
  change (chunk_logprobs (fr :: frs) (lp :: lps) (d :: ds))
    with ((lp ++ reported_contents fr d) :: chunk_logprobs frs lps ds).
  rewrite <- IH. cbn [chat_choices_spec]. unfold reported_contents.
  destruct (reported fr d) eqn:Er; cbn [app chat_collect_choices].
  - unfold chat_collect_choice, chat_choice_spec, append_text, list_getitem.
    cbn [sc_delta sc_index sc_finish_reason sc_logprobs assistant_text msg_content
         ca_texts ca_reasons ca_logprobs ca_usage].
    rewrite lookup_mid. cbn [opt_res rbind]. rewrite setitem_mid. cbn [rbind].
    rewrite <- Hr, keep_first_reason_spec. cbn [rbind].
    unfold delta_contents. destruct Hd as [_ Hd].
    destruct (logprobs_of (co_delta_logprob_json_strs d)) as [[lpd|]|] eqn:El; [| |done].
    + destruct logprobs.
      * cbn [lps_of]. rewrite Hr, <- Hlpre, lookup_mid. cbn [opt_res rbind].
        by rewrite setitem_mid.
      * specialize (Hlp eq_refl). apply Forall_cons in Hlp as [Hnone _].
        by rewrite Hnone in El.
    + by rewrite app_nil_r.
  - apply merge_unreported in Er as [-> ->]. by rewrite app_empty_r, app_nil_r.
Qed.

Lemma last_cons_default {A} (l : A) (xs : list A) (d : option A) :
  match last (l :: xs) with Some y => Some y | None => d end
  = match last xs with Some y => Some y | None => Some l end.
Proof. rewrite last_cons. by destruct (last xs). Qed.

(** Collecting the chunks of a single generation, both ways. *)
Lemma collect_choices_one cs : forall t r lp lp', Forall (fun c => cc_index c = 0%nat) cs ->
  let text := t +:+ str_concat (map cc_text cs) in
  let reason := match r with Some _ => r | None => first_reason cs end in
  collect_choices completion_collect_choice (mkCompletionAgg [t] [r] [lp] None) cs
  = Ok (mkCompletionAgg [text] [reason]
          [match last (omap cc_logprobs cs) with Some l => Some l | None => lp end] None) /\
  collect_choices server_collect_choice (mkCompletionAgg [t] [r] [lp'] None) cs
  = Ok (mkCompletionAgg [text] [reason] [merged_logprobs lp' cs] None).
Proof.
  induction cs as [|c cs IH]; intros t r lp lp' H; cbv zeta.
  { simpl. rewrite app_empty_r. by destruct r. }
  apply Forall_cons in H as [Hc H].
  set (r1 := match r with Some _ => r | None => cc_finish_reason c end).
  assert (keep_first_reason [r] 0 (cc_finish_reason c) = Ok [r1]) as Hr
    by (unfold r1; by destruct r, (cc_finish_reason c)).
  assert (match r1 with Some _ => r1 | None => first_reason cs end
          = match r with Some _ => r | None => first_reason (c :: cs) end) as Er
    by (unfold r1; cbn [first_reason]; destruct r, (cc_finish_reason c); reflexivity).
  cbn [collect_choices map str_concat merged_logprobs].
  unfold completion_collect_choice at 1, server_collect_choice at 1. rewrite Hc.
  cbn [ma_texts ma_reasons ma_logprobs ma_usage append_text list_getitem list_setitem].
  change (append_text [t] 0 (cc_text c)) with (@Ok (list string) [t +:+ cc_text c]).
  cbn [rbind]. rewrite Hr. cbn [rbind].
  destruct (IH (t +:+ cc_text c) r1
    (match cc_logprobs c with Some l => Some l | None => lp end)
    (match lp', cc_logprobs c with
     | Some o, Some lp => Some (extend_logprobs o lp)
     | None, lp => lp
     | old, None => old
     end) H) as [H1 H2]. rewrite Er, app_assoc_str in H1, H2.
  split.
  - change (omap cc_logprobs (c :: cs)) with
      (match cc_logprobs c with Some y => y :: omap cc_logprobs cs | None => omap cc_logprobs cs end).
    destruct (cc_logprobs c) as [l|]; [rewrite last_cons_default|]; exact H1.
  - destruct (cc_logprobs c) as [l|], lp' as [o|]; exact H2.
Qed.

(** The consumer of the non-streaming chat call as a function of its locals. *)
Definition chat_consumer (request : ChatCompletionRequest) (rid : string) (ufc : bool)
    (ds : list CallbackStreamOutput) (l : list (option string) * ChatAgg)
  : res unit * (list (option string) * ChatAgg) :=
  match process_chat_completion_stream_output ds request rid ufc (EngineState_init class_attributes false, fst l) with
  | (Raise x, (_, frs)) => (Raise x, (frs, snd l))
  | (Ok None, (_, frs)) => (Ok tt, (frs, snd l))
  | (Ok (Some response), (_, frs)) =>
      match chat_collect (snd l) response with
      | Ok a => (Ok tt, (frs, a))
      | Raise x => (Raise x, (frs, snd l))
      end
  end.

Lemma chat_body_pure request rid ufc :
  pure_consumer (chat_body request rid ufc true (collecting chat_collect))
    (chat_consumer request rid ufc).
Proof.
  intros ds e [frs a]. unfold chat_body, chat_consumer. cbn [fst snd].
  destruct (oblivious_chat_output ds request rid ufc (en_state e) (EngineState_init class_attributes false) frs)
    as (s1 & H1 & E1).
  assert (on_reasons (process_chat_completion_stream_output ds request rid ufc) (e, (frs, a))
    = (fst (process_chat_completion_stream_output ds request rid ufc (EngineState_init class_attributes false, frs)),
       (set_en_state e s1, (snd (snd (process_chat_completion_stream_output ds request rid ufc
          (EngineState_init class_attributes false, frs))), a)))) as H2 by (unfold on_reasons; by rewrite H1).
  destruct (process_chat_completion_stream_output ds request rid ufc (EngineState_init class_attributes false, frs))
    as [[[response|]|x] [s2 frs']]; cbn [fst snd] in *;
    (exists (set_en_state e s1); split; [|by apply same_engine_set]).
  - mstep H2. unfold outer, collecting. by destruct (chat_collect a response).
  - mstep H2. done.
  - by rewrite (mbind_Raise _ _ _ _ _ H2).
Qed.

(** What a list of chunks makes of the locals. *)
Definition texts_after (chunks : list (list CallbackStreamOutput)) (texts : list string) :=
  imap (fun i t => t +:+ generation_text (column i chunks)) texts.
Definition reasons_after (chunks : list (list CallbackStreamOutput)) (frs : list (option string)) :=
  imap (fun i fr => match fr with
                    | Some _ => fr
                    | None => generation_reason (column i chunks)
                    end) frs.
Definition logprobs_after (chunks : list (list CallbackStreamOutput)) (frs : list (option string))
    (lps : list (list LogProbsContent)) :=
  imap (fun i (fl : option string * list LogProbsContent) =>
          fl.2 ++ generation_logprobs fl.1 (column i chunks)) (zip frs lps).

Lemma column_cons i ds chunks d : ds !! i = Some d ->
  column i (ds :: chunks) = d :: column i chunks.
Proof. unfold column. simpl. by intros ->. Qed.

Lemma texts_after_cons ds chunks texts : length texts = length ds ->
  texts_after (ds :: chunks) texts = texts_after chunks (chunk_texts texts ds).
Proof.
  intros Hl. apply list_eq. intros i. unfold texts_after, chunk_texts.
  rewrite !list_lookup_imap, lookup_zip_with.
  destruct (texts !! i) as [t|] eqn:Et; simpl; [|done].
  destruct (lookup_lt_is_Some_2 ds i) as [d Ed].
  { rewrite <- Hl. by eapply lookup_lt_Some. }
  rewrite Ed. simpl. rewrite (column_cons _ _ _ _ Ed). simpl. by rewrite app_assoc_str.
Qed.

Lemma reasons_after_cons ds chunks frs : length frs = length ds ->
  reasons_after (ds :: chunks) frs = reasons_after chunks (merge_reasons false frs ds).
Proof.
  intros Hl. apply list_eq. intros i. unfold reasons_after, merge_reasons.
  rewrite !list_lookup_imap, lookup_zip_with.
  destruct (frs !! i) as [fr|] eqn:Et; simpl; [|done].
  destruct (lookup_lt_is_Some_2 ds i) as [d Ed].
  { rewrite <- Hl. by eapply lookup_lt_Some. }
  rewrite Ed. simpl. rewrite (column_cons _ _ _ _ Ed). simpl. f_equal.
  by destruct fr, (co_finish_reason d).
Qed.

Lemma logprobs_after_cons ds chunks frs lps : length frs = length ds -> length lps = length ds ->
  logprobs_after (ds :: chunks) frs lps
  = logprobs_after chunks (merge_reasons false frs ds) (chunk_logprobs frs lps ds).
Proof.
  intros Hf Hl. apply list_eq. intros i. unfold logprobs_after, merge_reasons, chunk_logprobs.
  rewrite !list_lookup_imap, !lookup_zip_with.
  destruct (frs !! i) as [fr|] eqn:Et; simpl; [|done].
  destruct (lookup_lt_is_Some_2 ds i) as [d Ed].
  { rewrite <- Hf. by eapply lookup_lt_Some. }
  rewrite Ed. simpl. rewrite (column_cons _ _ _ _ Ed).
  destruct (lps !! i) as [lp|] eqn:Elp; simpl; [|done]. by rewrite <- app_assoc.
Qed.

(** One chunk through the consumer. *)
Lemma chat_consumer_chunk n logprobs request rid ds texts frs lps u :
  (0 < n)%nat -> ch_n request = Z.of_nat n -> chunk_ok n logprobs ds ->
  length texts = n -> length frs = n -> length lps = n -> Forall reason_ok frs ->
  chat_consumer request rid false ds (frs, mkChatAgg texts frs (lps_of logprobs lps) u)
  = (Ok tt, (merge_reasons false frs ds,
             mkChatAgg (chunk_texts texts ds) (merge_reasons false frs ds)
               (lps_of logprobs (chunk_logprobs frs lps ds)) u)).
Proof.
  intros Hn Hr (Hlen & Hok & Hu & Hlp) Ht Hf Hl Hfr. unfold chat_consumer. cbn [fst snd].
  destruct (chat_chunk_run request rid false ds (EngineState_init class_attributes false) frs) as (s1 & _ & ->);
    [by intros ->; simpl in Hlen; lia|lia|lia| |done|done|].
  { intros d Hd. destruct ds as [|d0 ds]; [done|]. injection Hd as ->.
    by apply Forall_cons in Hu as [Hu _]. }
  pose proof (chat_collect_choices_spec logprobs u ds Hok Hlp [] texts [] frs [] lps
    ltac:(lia) ltac:(lia) ltac:(lia) eq_refl eq_refl) as Hc. cbn [app length] in Hc.
  destruct (chat_choices_spec false 0 frs ds) as [|c cs] eqn:Ec.
  - cbn [chat_collect_choices] in Hc. injection Hc as E1 E2 E3. by rewrite <- E1, <- E2, <- E3.
  - unfold chat_collect. cbn [sresp_usage sresp_choices]. by rewrite Hc.
Qed.

Lemma reason_ok_merge frs ds : Forall reason_ok frs -> Forall delta_ok ds ->
  Forall reason_ok (merge_reasons false frs ds).
Proof.
  unfold merge_reasons. intros Hf. revert ds. induction Hf as [|fr frs Hfr Hf IH]; intros [|d ds] Hd;
    simpl; try constructor.
  - apply Forall_cons in Hd as [Hd _]. by apply merge_reason_ok.
  - apply IH. by apply Forall_cons in Hd as [_ Hd].
Qed.

(** All the chunks through the consumer. *)
Lemma chat_consumer_chunks n logprobs request rid u chunks :
  (0 < n)%nat -> ch_n request = Z.of_nat n -> Forall (chunk_ok n logprobs) chunks ->
  forall texts frs lps,
  length texts = n -> length frs = n -> length lps = n -> Forall reason_ok frs ->
  run_each (chat_consumer request rid false) chunks (frs, mkChatAgg texts frs (lps_of logprobs lps) u)
  = (Ok tt, (reasons_after chunks frs,
             mkChatAgg (texts_after chunks texts) (reasons_after chunks frs)
               (lps_of logprobs (logprobs_after chunks frs lps)) u)).
Proof.
  intros Hn Hr Hc. induction Hc as [|ds chunks Hds Hc IH]; intros texts frs lps Ht Hf Hl Hfr.
  - simpl. repeat f_equal; apply list_eq; intros i;
      unfold texts_after, reasons_after, logprobs_after; rewrite list_lookup_imap, ?lookup_zip_with.
    + destruct (frs !! i) as [[|]|]; done.
    + destruct (texts !! i); simpl; by rewrite ?app_empty_r.
    + destruct (frs !! i) as [[|]|]; done.
    + destruct (lookup_lt_is_Some frs i), (lookup_lt_is_Some lps i).
      destruct (lps !! i) as [lp|] eqn:E1, (frs !! i) as [fr|] eqn:E2; simpl; rewrite ?app_nil_r; try done.
      apply lookup_lt_Some in E1. apply lookup_ge_None in E2. lia.
  - destruct Hds as (Hlen & Hok & Hrest). cbn [run_each].
    rewrite (chat_consumer_chunk n) by (try done; by repeat split).
    rewrite texts_after_cons, reasons_after_cons, logprobs_after_cons by lia. apply IH.
    + unfold chunk_texts. rewrite length_zip_with. lia.
    + unfold merge_reasons. rewrite length_zip_with. lia.
    + unfold chunk_logprobs. rewrite length_zip_with, length_zip_with. lia.
    + by apply reason_ok_merge.
Qed.

(** *** The final response *)

Lemma map_seq_nth {A} (f : nat -> A) (l : list A) n :
  length l = n -> (forall i, (i < n)%nat -> l !! i = Some (f i)) -> l = map f (seq 0 n).
Proof.
  intros Hl H. apply list_eq. intros i. rewrite list_lookup_fmap.
  destruct (decide (i < n)%nat) as [Hi|Hi].
  - rewrite H, lookup_seq_lt by done. done.
  - rewrite !lookup_ge_None_2; [done|rewrite length_seq; lia|lia].
Qed.

Lemma lookup_repeat_lt {A} (x : A) n i : (i < n)%nat -> repeat x n !! i = Some x.
Proof. revert i. induction n as [|n IH]; intros [|i] Hi; simpl; try lia; [done|]. apply IH. lia. Qed.

Lemma Forall_repeat {A} (P : A -> Prop) x n : P x -> Forall P (repeat x n).
Proof. intros H. by induction n; constructor. Qed.

Lemma texts_after_init chunks n :
  texts_after chunks (repeat EmptyString n)
  = map (fun i => generation_text (column i chunks)) (seq 0 n).
Proof.
  apply map_seq_nth; unfold texts_after; [by rewrite length_imap, repeat_length|].
  intros i Hi. by rewrite list_lookup_imap, lookup_repeat_lt.
Qed.

Lemma reasons_after_init chunks n :
  reasons_after chunks (repeat None n)
  = map (fun i => generation_reason (column i chunks)) (seq 0 n).
Proof.
  apply map_seq_nth; unfold reasons_after; [by rewrite length_imap, repeat_length|].
  intros i Hi. by rewrite list_lookup_imap, lookup_repeat_lt.
Qed.

Lemma logprobs_after_init chunks n :
  logprobs_after chunks (repeat None n) (repeat [] n)
  = map (fun i => generation_logprobs None (column i chunks)) (seq 0 n).
Proof.
  apply map_seq_nth; unfold logprobs_after.
  - rewrite length_imap, length_zip_with, !repeat_length. lia.
  - intros i Hi. by rewrite list_lookup_imap, lookup_zip_with, !lookup_repeat_lt.
Qed.

Lemma enumerate_zip3_seq {A B C} (f : nat -> A) (g : nat -> B) (h : nat -> C) n :
  enumerate (zip3 (map f (seq 0 n)) (map g (seq 0 n)) (map h (seq 0 n)))
  = map (fun i => (i, (f i, g i, h i))) (seq 0 n).
Proof.
  assert (forall l, zip3 (map f l) (map g l) (map h l) = map (fun i => (f i, g i, h i)) l) as Hz.
  { induction l as [|i l IH]; simpl; [done|]. by rewrite IH. }
  unfold enumerate. rewrite Hz, length_map, length_seq. generalize (seq 0 n).
  induction l as [|i l IH]; simpl; [done|]. by rewrite IH.
Qed.

Lemma generation_reason_ok ds r : Forall delta_ok ds -> generation_reason ds = Some r ->
  r = "stop" \/ r = "length".
Proof.
  induction 1 as [|d ds [Hd _] _ IH]; simpl; [done|].
  destruct (co_finish_reason d) as [r'|]; [|done]. intros [= <-]. by apply Hd.
Qed.

Lemma column_ok (P : CallbackStreamOutput -> Prop) i chunks : Forall (Forall P) chunks ->
  Forall P (column i chunks).
Proof.
  unfold column. induction 1 as [|ds chunks Hds _ IH]; simpl; [constructor|].
  destruct (ds !! i) as [d|] eqn:E; [|done]. constructor; [|done].
  by eapply Forall_lookup_1 in Hds.
Qed.

(** Wrapping finished generations, none of which is a function call. *)
Lemma finish_chat_spec call_id n request rid chunks usage :
  Forall (chunk_ok n (ch_logprobs request)) chunks ->
  finish_chat call_id request rid
    (mkChatAgg (map (fun i => generation_text (column i chunks)) (seq 0 n))
       (map (fun i => generation_reason (column i chunks)) (seq 0 n))
       (lps_of (ch_logprobs request)
          (map (fun i => generation_logprobs None (column i chunks)) (seq 0 n))) usage)
  = Ok (mkChatCompletionResponse rid
          (map (fun i => final_choice (ch_logprobs request) i (column i chunks)) (seq 0 n))
          (ch_model request) "" usage).
Proof.
  intros Hc.
  assert (Forall (Forall delta_ok) chunks) as Hok.
  { eapply Forall_impl; [exact Hc|]. by intros ds (_ & H & _). }
  unfold finish_chat, process_function_call_output. cbn [ca_texts ca_reasons ca_logprobs ca_usage].
  assert (existsb is_tool_calls (map (fun i => generation_reason (column i chunks)) (seq 0 n))
          = false) as ->.
  { generalize (seq 0 n). induction l as [|i l IH]; simpl; [done|]. rewrite IH, orb_false_r.
    destruct (generation_reason (column i chunks)) as [r|] eqn:Er; [|done].
    by apply generation_reason_ok in Er as [-> | ->]; [..|by apply column_ok]. }
  cbn [rbind]. unfold wrap_chat_completion_response. cbn [fc_texts fc_reasons fc_calls].
  rewrite map_map, enumerate_zip3_seq.
  rewrite (rmap_total _ (fun p => final_choice (ch_logprobs request) p.1 (column p.1 chunks))).
  { cbn [rbind]. by rewrite map_map. }
  apply Forall_map, Forall_forall. intros i Hi. apply elem_of_seq in Hi. cbn [fst].
  unfold final_choice. assert (literal_ok chat_reasons (generation_reason (column i chunks)) = Ok tt) as Hl.
  { destruct (generation_reason (column i chunks)) as [r|] eqn:Er; [|done].
    by apply generation_reason_ok in Er as [-> | ->]; [..|by apply column_ok]. }
  unfold ChatCompletionResponseChoice_init. cbn [negb orb].
  destruct (ch_logprobs request); cbn [lps_of rbind].
  - unfold list_getitem. rewrite list_lookup_fmap, lookup_seq_lt by lia.
    cbn [fmap option_fmap option_map opt_res rbind]. simpl. by rewrite Hl.
  - by rewrite Hl.
Qed.

(** *** From the generator to the response *)

(** A generator that hands the outputs [ys] to any pure consumer and finishes,
    aborting the request when the consumer raises. *)
Definition gen_hands_over (gen : Gen) (e : Engine) (prompts : list Prompt)
    (cfg : GenerationConfig) (rid : string) (data : list Data)
    (ys : list (list CallbackStreamOutput)) : Prop :=
  forall L (yield : list CallbackStreamOutput -> EM L unit) f l, pure_consumer yield f ->
  exists e', gen L (PyList (map prompt_to_py prompts)) cfg rid yield (e, l)
             = (ends (fst (run_each f ys l)) Finished, (e', snd (run_each f ys l)))
             /\ en_ffi e' = en_ffi e ++ generate_calls rid data cfg (fst (run_each f ys l)).

Lemma record_on_state {L} rid ev e (l : L) :
  exists e', on_state (record_event rid ev) (e, l) = (Ok tt, (e', l)) /\ same_engine e' e.
Proof.
  destruct (record_event_spec rid ev (en_state e)) as (s & H & E).
  exists (set_en_state e s). split; [by apply on_state_run|by apply same_engine_set].
Qed.

Lemma same_engine_ffi e' e : same_engine e' e -> en_ffi e' = en_ffi e.
Proof. intros [H _]. by apply same_outside_ffi. Qed.

(** The handler over such a generator leaves the collected chunks. *)
Lemma handle_chat_collect gen request rid n info data chunks u usage e :
  fst (process_chat_completion_request request rid (en_model_config e) tok_encode
         (en_max_input_sequence_length e) (en_conv_template e) (en_state e)) = Ok info ->
  ci_use_function_calling info = false -> ch_stream request = false ->
  ch_n request = Z.of_nat n -> (0 < n)%nat ->
  Forall (chunk_ok n (ch_logprobs request)) chunks ->
  parse_CompletionUsage u = Ok usage ->
  (forall e', same_engine e' e ->
     gen_hands_over gen e' (ci_prompts info) (ci_generation_cfg info) rid data
       (chunks ++ [[usage_output (Some u)]])) ->
  exists e', handle_chat gen request rid true (collecting chat_collect)
               (e, chat_agg_init (ch_n request) (ch_logprobs request))
    = (Ok Finished, (e', mkChatAgg
        (map (fun i => generation_text (column i chunks)) (seq 0 n))
        (map (fun i => generation_reason (column i chunks)) (seq 0 n))
        (lps_of (ch_logprobs request)
           (map (fun i => generation_logprobs None (column i chunks)) (seq 0 n))) (Some usage)))
    /\ en_ffi e' = en_ffi e ++ [CreateRequest rid data (ci_generation_cfg info); AddRequest rid].
Proof.
  intros Hp Hufc Hs Hn Hpos Hc Hu Hgen.
  pose proof (process_chat_request_frame request rid (en_model_config e) tok_encode
    (en_max_input_sequence_length e) (en_conv_template e) (en_state e)) as Hframe.
  destruct (process_chat_completion_request _ _ _ _ _ _ _) as [r s1] eqn:Ep in Hp, Hframe.
  simpl in Hp, Hframe. subst r.
  pose proof (process_chat_request_n _ _ _ _ _ _ _ _ _ Ep) as Hgn.
  unfold handle_chat. set (a0 := chat_agg_init _ _).
  rewrite (mbind_Ok get_eng _ _ e (e, a0)) by done.
  mstep (on_state_run _ _ a0 _ _ Ep). cbv zeta.
  destruct (record_on_state rid "invoke generate" (set_en_state e s1) a0) as (e2 & H2 & E2).
  mstep H2.
  assert (same_engine e2 e) as E by (transitivity (set_en_state e s1); [done|by apply same_engine_set]).
  rewrite Hgn, Hufc. set (frs0 := repeat None (Z.to_nat (ch_n request))).
  destruct (Hgen e2 E _ (chat_body request rid false true (collecting chat_collect))
    (chat_consumer request rid false) (frs0, a0) (chat_body_pure request rid false)) as (e3 & H3 & F3).
  pose proof (chat_consumer_chunks n (ch_logprobs request) request rid None chunks Hpos Hn Hc
    (repeat EmptyString n) (repeat None n) (repeat [] n)) as Hrun.
  rewrite !repeat_length in Hrun. specialize (Hrun eq_refl eq_refl eq_refl).
  rewrite texts_after_init, reasons_after_init, logprobs_after_init in Hrun.
  assert ((frs0, a0) = (repeat None n, mkChatAgg (repeat EmptyString n) (repeat None n)
    (lps_of (ch_logprobs request) (repeat [] n)) None)) as El.
  { unfold frs0, a0, chat_agg_init. by rewrite Hn, Nat2Z.id. }
  rewrite El, run_each_app, Hrun in H3, F3 by (by apply Forall_repeat).
  destruct (chat_final_run request rid false "" u usage (EngineState_init class_attributes false)
    (map (fun i => generation_reason (column i chunks)) (seq 0 n)) Hu) as (s4 & _ & H4).
  rewrite Hs in H4. fold (usage_output (Some u)) in H4.
  cbn [run_each] in H3, F3. unfold chat_consumer in H3, F3. cbn [fst snd] in H3, F3.
  rewrite H4 in H3, F3. cbn in H3, F3.
  erewrite (mbind_Ok (with_locals _ _)) by (unfold with_locals; rewrite El in *; by rewrite H3).
  cbv beta iota. unfold ca_set_usage. cbn [ca_texts ca_reasons ca_logprobs].
  match goal with |- context [(e3, ?a)] =>
    destruct (record_on_state rid "finish" e3 a) as (e4 & H5 & E4) end.
  mstep H5. exists e4. split; [done|].
  apply same_engine_ffi in E4, E. unfold generate_calls in F3. by rewrite E4, F3, E.
Qed.

Lemma all_finished_spec chunks n :
  (forall i, (i < n)%nat -> generation_reason (column i chunks) <> None) ->
  all_finished (map (fun i => generation_reason (column i chunks)) (seq 0 n)) = true.
Proof.
  intros H. apply forallb_forall. intros fr [i [<- Hi]]%in_map_iff.
  apply in_seq in Hi. specialize (H i ltac:(lia)). by destruct (generation_reason _).
Qed.

Lemma collect_chat_spec call_id gen request rid n info data chunks u usage e :
  fst (process_chat_completion_request request rid (en_model_config e) tok_encode
         (en_max_input_sequence_length e) (en_conv_template e) (en_state e)) = Ok info ->
  ci_use_function_calling info = false -> ch_stream request = false ->
  ch_n request = Z.of_nat n -> (0 < n)%nat ->
  Forall (chunk_ok n (ch_logprobs request)) chunks ->
  (forall i, (i < n)%nat -> generation_reason (column i chunks) <> None) ->
  parse_CompletionUsage u = Ok usage ->
  (forall e', same_engine e' e ->
     gen_hands_over gen e' (ci_prompts info) (ci_generation_cfg info) rid data
       (chunks ++ [[usage_output (Some u)]])) ->
  exists e', collect_chat call_id (handle_chat gen request rid true) request rid (e, tt)
    = (Ok (Response _ (mkChatCompletionResponse rid
             (map (fun i => final_choice (ch_logprobs request) i (column i chunks)) (seq 0 n))
             (ch_model request) "" (Some usage))), (e', tt))
    /\ en_ffi e' = en_ffi e ++ [CreateRequest rid data (ci_generation_cfg info); AddRequest rid].
Proof.
  intros Hp Hufc Hs Hn Hpos Hc Hfin Hu Hgen.
  destruct (handle_chat_collect gen request rid n info data chunks u usage e) as (e' & H & F);
    try done.
  exists e'. split; [|done]. unfold collect_chat. rewrite (mbind_Ok _ _ _ _ _ H).
  erewrite mbind_Ok by reflexivity. cbn [ca_reasons].
  rewrite (mbind_lift _ _ _ tt) by (by rewrite all_finished_spec).
  by rewrite (mbind_lift _ _ _ _ (finish_chat_spec call_id n request rid chunks (Some usage) Hc)).
Qed.

Lemma engine_ok_same e' e : same_engine e' e -> engine_ok e -> engine_ok e'.
Proof.
  intros [Ho Ht] [Hok Hl]. split; [by apply (registry_ok_proper _ _ Ht)|].
  rewrite (es_async_streamers_proper _ _ Ht). unfold same_outside in Ho. by rewrite <- Ho in Hl.
Qed.
End Lemmas.

(** ** Theorems *)

Section Theorems.
Context `{IB : ImageBackend} `{JB : JsonBackend} `{TS : TextStreamerOps} `{TK : TokenizerOps}
  `{AO : AstOps}.
Variable call_id : nat -> nat -> string.

(** C19: a non-streaming chat completion returns what was generated.  For an
    accepted request without function calling (its tools are not in use) on a
    live engine, when the C++ engine answers with legal
    chunks that finish every generation and then with the usage, both engines
    return one response: choice [i] holds the concatenation of all delta texts
    of generation [i], its first finish reason and (when asked for) the log
    probabilities of its reported deltas, together with the usage; the request
    was created and added once and never aborted. *)
Theorem chat_completion_response incoming uss request rid n info data chunks u usage e :
  ChatCompletionRequest_validate request = Ok request ->
  fst (process_chat_completion_request request rid (en_model_config e) tok_encode
         (en_max_input_sequence_length e) (en_conv_template e) (en_state e)) = Ok info ->
  ci_use_function_calling info = false -> ch_stream request = false ->
  convert_prompts_to_data (PyList (map prompt_to_py (ci_prompts info))) = Ok data ->
  ch_n request = Z.of_nat n -> (0 < n)%nat ->
  engine_ok e -> es_async_streamers (en_state e) !! rid = None -> en_terminated e = false ->
  Forall2 unpacks incoming uss ->
  Forall (Forall (fun p => fst p = rid /\ snd p <> [])) uss ->
  sync_view (repeat streamer_new n) uss = (chunks ++ [[usage_output (Some u)]], Finished) ->
  Forall (chunk_ok n (ch_logprobs request)) chunks ->
  (forall i, (i < n)%nat -> generation_reason (column i chunks) <> None) ->
  parse_CompletionUsage u = Ok usage ->
  let response := mkChatCompletionResponse rid
      (map (fun i => final_choice (ch_logprobs request) i (column i chunks)) (seq 0 n))
      (ch_model request) "" (Some usage) in
  let calls := [CreateRequest rid data (ci_generation_cfg info); AddRequest rid] in
  (exists e', sync_chat_completion call_id incoming request rid (e, tt)
              = (Ok (Response _ response), (e', tt)) /\ en_ffi e' = en_ffi e ++ calls) /\
  (exists e', async_chat_completion call_id incoming request rid (e, tt)
              = (Ok (Response _ response), (e', tt)) /\ en_ffi e' = en_ffi e ++ calls).
Proof.
  intros Hv Hp Hufc Hs Hd Hn Hpos Hok Hfresh Ht Hus Hrid Hview Hc Hfin Hu response calls.
  destruct (process_chat_completion_request _ _ _ _ _ _ _) as [r s1] eqn:Ep in Hp.
  simpl in Hp. subst r. pose proof (process_chat_request_n _ _ _ _ _ _ _ _ _ Ep) as Hgn.
  assert (Z.to_nat (g_n (ci_generation_cfg info)) = n) as Hgn' by (rewrite Hgn, Hn; lia).
  unfold sync_chat_completion, async_chat_completion.
  split; rewrite (mbind_lift _ _ _ request) by done; rewrite Hs;
    (eapply collect_chat_spec; [by rewrite Ep|try done..]); intros e2 E2 L yield f l Hf.
  - pose proof (sync_generate_spec incoming uss (PyList (map prompt_to_py (ci_prompts info)))
      (ci_generation_cfg info) rid data yield f e2 l)
      as H. rewrite Hgn', Hview in H. apply H; try done. destruct E2 as [E2 _].
    unfold same_outside in E2. by rewrite <- E2 in Ht.
  - pose proof (async_generate_spec incoming uss (PyList (map prompt_to_py (ci_prompts info)))
      (ci_generation_cfg info) rid data yield f e2 l)
      as H. rewrite Hgn', views_agree, Hview in H by done. apply H; try done.
    + by eapply engine_ok_same.
    + destruct E2 as [_ E2]. by rewrite (es_async_streamers_proper _ _ E2).
    + destruct E2 as [E2 _]. unfold same_outside in E2. by rewrite <- E2 in Ht.
Qed.

(** The two ways of collecting a completion agree on texts and finish reasons
    and disagree on log probabilities.  Over any chunks of one generation the
    engines keep only the log probabilities of the last chunk that has some,
    while the server keeps the concatenation of all of them. *)
Theorem completion_logprobs_overwritten cs :
  Forall (fun c => cc_index c = 0%nat) cs ->
  let text := str_concat (map cc_text cs) in
  let reason := first_reason cs in
  collect_choices completion_collect_choice (completion_agg_init 1) cs
  = Ok (mkCompletionAgg [text] [reason] [last (omap cc_logprobs cs)] None) /\
  collect_choices server_collect_choice (completion_agg_init 1) cs
  = Ok (mkCompletionAgg [text] [reason] [merged_logprobs None cs] None).
Proof.
  intros H. cbv zeta. pose proof (collect_choices_one cs EmptyString None None None H) as [H1 H2].
  by destruct (last (omap cc_logprobs cs)).
Qed.
End Theorems.

(** ** Witnesses *)

Module ApiWitness.
Import ConversationDemo OpenAIWitness StreamsWitness PipelineWitness FunctionCallWitness
  EngineWitness.

(** A request for two generations with log probabilities and no tools. *)
Definition plain_request : ChatCompletionRequest :=
  {| ch_messages := [mkChatCompletionMessage (Some (CText "Hi")) "user" None None None];
     ch_model := Some "m"; ch_frequency_penalty := None; ch_presence_penalty := None;
     ch_logprobs := true; ch_top_logprobs := 0; ch_logit_bias := None; ch_max_tokens := None;
     ch_n := 2; ch_seed := None; ch_stop := None; ch_stream := false;
     ch_stream_options := None; ch_temperature := None; ch_top_p := None;
     ch_tools := None; ch_tool_choice := None; ch_user := None;
     ch_response_format := None; ch_debug_config := None |}.

Definition info : ChatRequestInfo :=
  match fst (process_chat_completion_request plain_request "r" (en_model_config engine0) tok_encode
               (en_max_input_sequence_length engine0) (en_conv_template engine0)
               (en_state engine0)) with
  | Ok i => i
  | Raise _ => mkChatRequestInfo [] cfg1 false 0 (RChat plain_request) conv
  end.

Definition data : list Data :=
  match convert_prompts_to_data (PyList (map prompt_to_py (ci_prompts info))) with
  | Ok d => d | Raise _ => [] end.

(** Both generations give a token, then one stops and later the other. *)
Definition answer : list (list RequestStreamOutput) :=
  [[mkRSO "r" [[1%Z]; [2%Z]] (Some [["p"]; ["q"]]) [None; None] None [""; ""];
    mkRSO "r" [[1%Z]; []] (Some [["p2"]; ["q2"]]) [None; Some "stop"] None [""; ""]];
   [mkRSO "r" [[]; []] (Some [[]; []]) [Some "length"; None] None [""; ""]];
   [mkRSO "r" [] None [] (Some "u") []]].
Definition answer_us : list (list (string * list SingleRequestStreamOutput)) :=
  map (map (fun d => match unpack d with Ok u => u | Raise _ => ("", []) end)) answer.
Definition chunks : list (list CallbackStreamOutput) :=
  removelast (fst (sync_view (repeat streamer_new 2) answer_us)).

Lemma chunks_ok : Forall (chunk_ok 2 true) chunks.
Proof.
  repeat (constructor; [split; [reflexivity|split; [|split; [repeat constructor|discriminate]]]|]);
    [| | |constructor];
    (repeat (constructor; [split; [intros ? [=]; subst; auto|reflexivity]|]); constructor).
Qed.

Definition zero_lp (s : string) : LogProbs :=
  mkLogProbs [mkLogProbsContent s (SpecFloat.S754_zero true) None []].

(** The log probabilities of the first tokens are lost: their delta was empty. *)
Definition choices : list ChatCompletionResponseChoice :=
  [mkChatCompletionResponseChoice (Some "length") 0 (assistant_text "..") (Some (zero_lp "p2"));
   mkChatCompletionResponseChoice (Some "stop") 1 (assistant_text "..") (Some (zero_lp "q2"))].

Example chat_completion_response_witness :
  let response := mkChatCompletionResponse "r" choices
      (Some "m") "" (Some (mkCompletionUsage 3 2 5 (Some [("s", JStr "u")]))) in
  let calls := [CreateRequest "r" data (ci_generation_cfg info); AddRequest "r"] in
  (exists e', sync_chat_completion ids answer plain_request "r" (engine0, tt)
              = (Ok (Response _ response), (e', tt)) /\ en_ffi e' = calls) /\
  (exists e', async_chat_completion ids answer plain_request "r" (engine0, tt)
              = (Ok (Response _ response), (e', tt)) /\ en_ffi e' = calls).
Proof.
  assert (map (fun i => final_choice true i (column i chunks)) (seq 0 2) = choices) as E
    by (vm_compute; reflexivity).
  rewrite <- E.
  apply (chat_completion_response ids answer answer_us plain_request "r" 2 info data chunks "u"
           (mkCompletionUsage 3 2 5 (Some [("s", JStr "u")])) engine0);
    [reflexivity|vm_compute; reflexivity|reflexivity|reflexivity|vm_compute; reflexivity|reflexivity
    |lia|exact engine0_ok|reflexivity|reflexivity| | |vm_compute; reflexivity|exact chunks_ok| |reflexivity].
  - repeat (constructor; [repeat (constructor; [by split|]); constructor|]). constructor.
  - repeat (constructor; [repeat (constructor; [by split|]); constructor|]). constructor.
  - intros [|[|i]] Hi; [discriminate|discriminate|lia].
Defined.

Definition lp (tokens : list string) : CompletionLogProbs := mkCompletionLogProbs None [] tokens [].

Example completion_logprobs_witness :
  let cs := [mkCompletionResponseChoice None 0 (Some (lp ["a"])) "a";
             mkCompletionResponseChoice (Some "stop") 0 (Some (lp ["b"])) "b"] in
  collect_choices completion_collect_choice (completion_agg_init 1) cs
  = Ok (mkCompletionAgg ["ab"] [Some "stop"] [Some (lp ["b"])] None) /\
  collect_choices server_collect_choice (completion_agg_init 1) cs
  = Ok (mkCompletionAgg ["ab"] [Some "stop"] [Some (lp ["a"; "b"])] None).
Proof.
  apply (completion_logprobs_overwritten
    [mkCompletionResponseChoice None 0 (Some (lp ["a"])) "a";
     mkCompletionResponseChoice (Some "stop") 0 (Some (lp ["b"])) "b"]).
  repeat (constructor; [reflexivity|]). constructor.
Defined.
End ApiWitness.
