(* ===== verification/Server.v ===== *)
(** * The server entrypoints ([serve/server/server_context.py],
    [serve/entrypoints/openai_entrypoints.py],
    [serve/entrypoints/microserving_entrypoints.py])

    An endpoint takes a request, finds the engine in the server context and
    either collects the engine's response stream into one response or passes
    the stream on as server-sent events.  The client is a list of booleans:
    one for each response of the engine, whether the client has gone by then
    (a client whose list is exhausted stays).  Leaving the loop over the stream
    abandons the engine's generator, so that a [GeneratorExit] surfaces at its
    [yield].

    The engines are kept in a store; the context maps a model name to the
    location of its engine. *)

From stdpp Require Import base list strings gmap.
From S2P Require Import Prelude PyStr Data Conversation OpenAI EngineUtils Streams Pipeline.
From S2P Require Import FunctionCall Engine Simulation Api.
Local Open Scope string_scope.
Local Open Scope list_scope.
Local Open Scope Z_scope.

(** What pydantic does in the endpoints: dumping a response as JSON, and
    validating the fields of a [PrepRecvResponse]. *)
Class ServerBackend := {
  dump_completion_response : CompletionResponse -> string;
  dump_chat_stream_response : ChatCompletionStreamResponse -> string;
  validate_int : json -> res Z;
  validate_str : json -> res string;
}.

(** What an endpoint answers: a response object, an error response, a stream of
    events with the way it ended, or nothing yet. *)
Inductive HttpResult (R : Type) : Type :=
| HttpResponse (r : R)
| HttpError (status : Z) (message : message)
| HttpStream (events : list string) (ended : res Progress)
| HttpBlocked.
Arguments HttpResponse {R} r.
Arguments HttpError {R} status message.
Arguments HttpStream {R} events ended.
Arguments HttpBlocked {R}.

Definition BAD_REQUEST : Z := 400.

(** What an endpoint keeps of its client: its behaviour, and whether the loop
    was left because it had gone. *)
Abbreviation Client := (list bool * bool)%type.

Section Server.
Context `{IB : ImageBackend} `{JB : JsonBackend} `{TS : TextStreamerOps} `{TK : TokenizerOps}
  `{AO : AstOps} `{SB : ServerBackend}.

(** ** [ServerContext] *)

(** The models of a context, with the locations of their engines. *)
Record ServerContext : Type := mkServerContext { sc_models : dict nat }.

(** The process: the class attributes [server_context] (a location of [sv_contexts])
    and [enable_debug], the contexts and the engines. *)
Record Server : Type := mkServer {
  sv_server_context : option nat;
  sv_enable_debug : bool;
  sv_contexts : list ServerContext;
  sv_engines : list Engine;
}.

Definition set_server_context (s : Server) (c : option nat) : Server :=
  mkServer c (sv_enable_debug s) (sv_contexts s) (sv_engines s).
Definition set_contexts (s : Server) (cs : list ServerContext) : Server :=
  mkServer (sv_server_context s) (sv_enable_debug s) cs (sv_engines s).
Definition set_engines (s : Server) (es : list Engine) : Server :=
  mkServer (sv_server_context s) (sv_enable_debug s) (sv_contexts s) es.

(** [ServerContext()] *)
Definition ServerContext_new : M Server nat := fun s =>
  (Ok (length (sv_contexts s)), set_contexts s (sv_contexts s ++ [mkServerContext []])).

(** [ServerContext.__enter__] of the context at [c] *)
Definition ServerContext_enter (c : nat) : M Server nat := fun s =>
  match sv_server_context s with
  | Some _ => (Raise (RuntimeError [Lit "Server context already exists."]), s)
  | None => (Ok c, set_server_context s (Some c))
  end.

(** [engine.terminate()], as far as the Python side sees it *)
Definition terminate (e : Engine) : Engine :=
  mkEngine (en_state e) (en_ffi e) (en_next_loc e) true (en_conv_template e)
    (en_model_config e) (en_max_input_sequence_length e).

(** [ServerContext.__exit__] *)
Definition ServerContext_exit (c : nat) : M Server unit := fun s =>
  match sv_contexts s !! c with
  | None => (Ok tt, s)
  | Some ctx =>
      let engines := fold_left (fun es loc => alter terminate loc es)
                       (map snd (sc_models ctx)) (sv_engines s) in
      (Ok tt, set_contexts (set_engines s engines) (<[c := mkServerContext []]> (sv_contexts s)))
  end.

(** [ServerContext.add_model] *)
Definition add_model (hosted_model : string) (engine : nat) (ctx : ServerContext)
  : res ServerContext :=
  if dict_has (sc_models ctx) hosted_model
  then Raise (RuntimeError [Lit "Model "; FStr hosted_model; Lit " already running."])
  else Ok (mkServerContext (dict_set (sc_models ctx) hosted_model engine)).

(** [ServerContext.get_engine]; no model is named [None]. *)
Definition get_engine (model : option string) (ctx : ServerContext) : option nat :=
  match sc_models ctx with
  | [(_, engine)] => Some engine
  | _ => match model with Some m => dict_get (sc_models ctx) m | None => None end
  end.

(** [ServerContext.get_model_list] *)
Definition get_model_list (ctx : ServerContext) : list string := map fst (sc_models ctx).

(** [ServerContext.current()], used as an object at once *)
Definition current : M Server ServerContext := fun s =>
  match sv_server_context s with
  | None => (Raise AttributeError, s)
  | Some c => (opt_res (sv_contexts s !! c) AttributeError, s)
  end.

(** [request_models]: the ids of the models *)
Definition request_models : M Server (list string) :=
  let! ctx := current in mret' (get_model_list ctx).

(** ** Running an engine *)

(** Run a computation on the engine at [loc], with locals [l] that are dropped. *)
Definition on_loc {L A} (loc : nat) (l : L) (m : EM L A) : M Server A := fun s =>
  match sv_engines s !! loc with
  | None => (Raise AttributeError, s)
  | Some e => let '(r, (e', _)) := m (e, l) in (r, set_engines s (<[loc := e']> (sv_engines s)))
  end.

(** Whether the client has gone; the rest of its behaviour. *)
Definition disconnected (client : list bool) : bool * list bool :=
  match client with [] => (false, []) | b :: client => (b, client) end.

(** The loop body of the endpoints: leave the loop when the client has gone,
    update the aggregate otherwise. *)
Definition serving {A R} (step : A -> R -> res A) (r : R) : EM (A * Client) unit :=
  fun '(e, (a, (client, gave_up))) =>
    let '(gone, client) := disconnected client in
    if gone then (Raise GeneratorExit, (e, (a, (client, true))))
    else match step a r with
         | Ok a' => (Ok tt, (e, (a', (client, gave_up))))
         | Raise x => (Raise x, (e, (a, (client, gave_up))))
         end.

Definition not_served (model : option string) : message :=
  [Lit "The requested model "; FStr dquote; FOpt model; FStr dquote; Lit " is not served."].
Definition has_disconnected : message := [Lit "The request has disconnected"].

(** Run [handler] over the aggregate and build the response from the result;
    [return create_error_response(...)] inside the loop abandons the stream. *)
Definition serve_collect {A R Y} (handler : (Y -> EM (A * Client) unit) -> EM (A * Client) Progress)
    (step : A -> Y -> res A) (finish : A -> res R) (a0 : A) (client : list bool) (loc : nat)
  : M Server (HttpResult R) :=
  on_loc loc (a0, (client, false))
    (fun s =>
       match handler (serving step) s with
       | (Raise x, (e, (a, (client, true)))) =>
           (Ok (HttpError BAD_REQUEST has_disconnected), (e, (a, (client, true))))
       | (Raise x, s') => (Raise x, s')
       | (Ok Waiting, s') => (Ok HttpBlocked, s')
       | (Ok Finished, (e, (a, c))) =>
           match finish a with
           | Ok r => (Ok (HttpResponse r), (e, (a, c)))
           | Raise x => (Raise x, (e, (a, c)))
           end
       end).

(** A server-sent event. *)
Definition sse (data : string) : string := "data: " +:+ data +:+ newline +:+ newline.
Definition sse_done : string := sse "[DONE]".

(** Sending the event of a response; a client that has gone by then closes the
    stream at this event. *)
Definition streaming {Y} (dump : Y -> string) (r : Y) : EM (list string * list bool) unit :=
  fun '(e, (events, client)) =>
    let '(gone, client) := disconnected client in
    (if gone then Raise GeneratorExit else Ok tt, (e, (events ++ [sse (dump r)], client))).

(** The streaming branch.  The first response is awaited by the endpoint, so
    an exception before it is the endpoint's; when the generator ends without
    a response, [anext] raises [StopAsyncIteration].  Later exceptions end the
    event stream without its last event. *)
Definition serve_stream {R Y} (handler : (Y -> EM (list string * list bool) unit)
                                        -> EM (list string * list bool) Progress)
    (dump : Y -> string) (client : list bool) (loc : nat) : M Server (HttpResult R) :=
  on_loc loc ([], client)
    (fun s =>
       let '(r, (e, (events, client))) := handler (streaming dump) s in
       (match events, r with
        | [], Raise x => Raise x
        | [], Ok Waiting => Ok HttpBlocked
        | [], Ok Finished => Raise StopAsyncIteration
        | _, Ok Finished => Ok (HttpStream (events ++ [sse_done]) (Ok Finished))
        | _, r => Ok (HttpStream events r)
        end, (e, (events, client)))).

(** ** [v1/completions] *)

Definition set_cm_debug_config (r : CompletionRequest) (d : option DebugConfig)
  : CompletionRequest :=
  mkCompletionRequest (cm_model r) (cm_prompt r) (cm_best_of r) (cm_echo r)
    (cm_frequency_penalty r) (cm_presence_penalty r) (cm_logprobs r) (cm_logit_bias r)
    (cm_max_tokens r) (cm_n r) (cm_seed r) (cm_stop r) (cm_stream r) (cm_stream_options r)
    (cm_suffix r) (cm_temperature r) (cm_top_p r) (cm_user r) (cm_response_format r) d.

Definition set_ch_debug_config (r : ChatCompletionRequest) (d : option DebugConfig)
  : ChatCompletionRequest :=
  mkChatCompletionRequest (ch_messages r) (ch_model r) (ch_frequency_penalty r)
    (ch_presence_penalty r) (ch_logprobs r) (ch_top_logprobs r) (ch_logit_bias r)
    (ch_max_tokens r) (ch_n r) (ch_seed r) (ch_stop r) (ch_stream r) (ch_stream_options r)
    (ch_temperature r) (ch_top_p r) (ch_tools r) (ch_tool_choice r) (ch_user r)
    (ch_response_format r) d.

(** [usage.extra = None] unless debugging is enabled *)
Definition strip_extra (enable_debug : bool) (u : CompletionUsage) : CompletionUsage :=
  if enable_debug then u
  else mkCompletionUsage (prompt_tokens u) (completion_tokens u) (total_tokens u) None.

Definition server_completion_step (enable_debug : bool) (a : CompletionAgg)
    (response : CompletionResponse) : res CompletionAgg :=
  match cresp_usage response with
  | Some u => Ok (ma_set_usage a (Some (strip_extra enable_debug u)))
  | None => collect_choices server_collect_choice a (cresp_choices response)
  end.

(** [request_completion]; [uuid] is the random id. *)
Definition request_completion (uuid : string) (incoming : list (list RequestStreamOutput))
    (client : list bool) (request : CompletionRequest) : M Server (HttpResult CompletionResponse) :=
  let! ctx := current in
  let! s := mget in
  let debug := sv_enable_debug s in
  let request := if debug then request else set_cm_debug_config request None in
  match get_engine (cm_model request) ctx with
  | None => mret' (HttpError BAD_REQUEST (not_served (cm_model request)))
  | Some loc =>
      let request_id := opt_default ("cmpl-" +:+ uuid) (cm_user request) in
      if cm_stream request
      then serve_stream (async_handle_completion incoming request request_id debug)
             dump_completion_response client loc
      else serve_collect (async_handle_completion incoming request request_id debug)
             (server_completion_step debug)
             (fun a => wrap_completion_response request_id (cm_model request) (ma_texts a)
                         (ma_reasons a) (ma_logprobs a) (ma_usage a))
             (completion_agg_init (cm_n request)) client loc
  end.

(** ** [v1/chat/completions] *)

(** The usage chunk goes through the loop over the choices too. *)
Definition server_chat_step (enable_debug : bool) (a : ChatAgg)
    (response : ChatCompletionStreamResponse) : res ChatAgg :=
  let a := match sresp_usage response with
           | Some u => ca_set_usage a (Some (strip_extra enable_debug u))
           | None => a
           end in
  chat_collect_choices a (sresp_choices response).

(** [request_chat_completion] *)
Definition request_chat_completion (call_id : nat -> nat -> string) (uuid : string)
    (incoming : list (list RequestStreamOutput)) (client : list bool)
    (request : ChatCompletionRequest) : M Server (HttpResult ChatCompletionResponse) :=
  let! ctx := current in
  let! s := mget in
  let debug := sv_enable_debug s in
  let request := if debug then request else set_ch_debug_config request None in
  match get_engine (ch_model request) ctx with
  | None => mret' (HttpError BAD_REQUEST (not_served (ch_model request)))
  | Some loc =>
      let request_id := opt_default ("chatcmpl-" +:+ uuid) (ch_user request) in
      if ch_stream request
      then serve_stream (async_handle_chat_completion incoming request request_id debug)
             dump_chat_stream_response client loc
      else serve_collect (async_handle_chat_completion incoming request request_id debug)
             (server_chat_step debug)
             (fun a => let? _ := py_assert (all_finished (ca_reasons a)) in
                       finish_chat call_id request request_id a)
             (chat_agg_init (ch_n request) (ch_logprobs request)) client loc
  end.

(** ** Microserving *)

(** [request.debug_config.disagg_config = d]; there must be a debug config. *)
Definition set_disagg (r : CompletionRequest) (d : DisaggConfig) : res CompletionRequest :=
  match cm_debug_config r with
  | None => Raise AttributeError
  | Some c => Ok (set_cm_debug_config r (Some (mkDebugConfig (ignore_eos c)
                    (pinned_system_prompt c) (special_request c) (grammar_execution_mode c)
                    (Some d))))
  end.

(** [stream_options = StreamOptions(include_usage=True); stream = False] *)
Definition non_streaming (r : CompletionRequest) : CompletionRequest :=
  mkCompletionRequest (cm_model r) (cm_prompt r) (cm_best_of r) (cm_echo r)
    (cm_frequency_penalty r) (cm_presence_penalty r) (cm_logprobs r) (cm_logit_bias r)
    (cm_max_tokens r) (cm_n r) (cm_seed r) (cm_stop r) false
    (Some (mkStreamOptions (Some true)))
    (cm_suffix r) (cm_temperature r) (cm_top_p r) (cm_user r) (cm_response_format r)
    (cm_debug_config r).

Record PrepRecvRequest : Type := mkPrepRecvRequest {
  pr_request : CompletionRequest; pr_end : Z }.
Record PrepRecvResponse : Type := mkPrepRecvResponse {
  pr_kv_append_metadata : string; pr_prefix_matched_length : Z }.
Record RemoteSendRequest : Type := mkRemoteSendRequest {
  rs_request : CompletionRequest; rs_begin : Z; rs_end : Z; rs_kv_addr_info : string;
  rs_recv_rank : Z }.
Record StartGenerateRequest : Type := mkStartGenerateRequest {
  sg_request : CompletionRequest; sg_begin : Z }.

(** [prep_recv]; reading [usage] of an error response is an [AttributeError]. *)
Definition prep_recv (uuid : string) (incoming : list (list RequestStreamOutput))
    (client : list bool) (request : PrepRecvRequest) : M Server (HttpResult PrepRecvResponse) :=
  let! r := mlift (set_disagg (pr_request request)
                     (mkDisaggConfig (Some "prepare_receive") None (Some 0)
                        (Some (pr_end request)) None)) in
  let! response := request_completion uuid incoming client (non_streaming r) in
  match response with
  | HttpResponse response =>
      match cresp_usage response with
      | None => mraise AssertionError
      | Some u =>
          match extra u with
          | None => mraise AssertionError
          | Some ex =>
              let! _ := mlift (py_assert (dict_has ex "prefix_matched_length")) in
              let! _ := mlift (py_assert (dict_has ex "kv_append_metadata")) in
              let! n := mlift (dict_getitem ex "prefix_matched_length") in
              let! kv := mlift (dict_getitem ex "kv_append_metadata") in
              let! kv := mlift (validate_str kv) in
              let! n := mlift (validate_int n) in
              mret' (HttpResponse (mkPrepRecvResponse kv n))
          end
      end
  | HttpBlocked => mret' HttpBlocked
  | _ => mraise AttributeError
  end.

(** [remote_send]: the response is dropped. *)
Definition remote_send (uuid : string) (incoming : list (list RequestStreamOutput))
    (client : list bool) (request : RemoteSendRequest) : M Server (HttpResult unit) :=
  let! r := mlift (set_disagg (rs_request request)
                     (mkDisaggConfig (Some "remote_send") (Some (rs_kv_addr_info request))
                        (Some (rs_begin request)) (Some (rs_end request))
                        (Some (rs_recv_rank request)))) in
  let! response := request_completion uuid incoming client (non_streaming r) in
  match response with
  | HttpBlocked => mret' HttpBlocked
  | _ => mret' (HttpResponse tt)
  end.

(** [start_generate] *)
Definition start_generate (uuid : string) (incoming : list (list RequestStreamOutput))
    (client : list bool) (request : StartGenerateRequest)
  : M Server (HttpResult CompletionResponse) :=
  let! r := mlift (set_disagg (sg_request request)
                     (mkDisaggConfig (Some "start_generation") None (Some (sg_begin request))
                        None None)) in
  request_completion uuid incoming client r.
End Server.

(** ** Specifications *)

Section Specs.
Context `{IB : ImageBackend} `{TS : TextStreamerOps}.

(** What a response loses when debugging is off. *)
Definition shown_response (enable_debug : bool) (r : ChatCompletionResponse)
  : ChatCompletionResponse :=
  mkChatCompletionResponse (resp_id r) (resp_choices r) (resp_model r)
    (resp_system_fingerprint r) (option_map (strip_extra enable_debug) (resp_usage r)).

(** The endpoint's answer for the outcome of the engine's own call. *)
Definition served (enable_debug : bool) (r : res (Outcome ChatCompletionResponse))
  : res (HttpResult ChatCompletionResponse) :=
  match r with
  | Ok (Response _ resp) => Ok (HttpResponse (shown_response enable_debug resp))
  | Ok _ => Ok HttpBlocked
  | Raise x => Raise x
  end.

Definition strip_agg (enable_debug : bool) (a : ChatAgg) : ChatAgg :=
  ca_set_usage a (option_map (strip_extra enable_debug) (ca_usage a)).
End Specs.

(** ** Lemmas *)

Section Lemmas.
Context `{IB : ImageBackend} `{JB : JsonBackend} `{TS : TextStreamerOps} `{TK : TokenizerOps}
  `{AO : AstOps} `{SB : ServerBackend}.

Lemma collect_choice_usage u a c :
  chat_collect_choice (ca_set_usage a u) c
  = match chat_collect_choice a c with Ok a' => Ok (ca_set_usage a' u) | Raise x => Raise x end.
Proof.
  unfold chat_collect_choice. destruct (msg_content (sc_delta c)) as [[t|]|]; [|done|done].
  cbn [ca_texts ca_reasons ca_logprobs ca_usage ca_set_usage].
  destruct (append_text _ _ _); cbn [rbind]; [|done].
  destruct (keep_first_reason _ _ _); cbn [rbind]; [|done]. match goal with |- rbind ?m _ = _ => by destruct m end.
Qed.

Lemma collect_choice_keeps_usage a c a' :
  chat_collect_choice a c = Ok a' -> ca_usage a' = ca_usage a.
Proof.
  unfold chat_collect_choice. destruct (msg_content (sc_delta c)) as [[t|]|]; [|done|done].
  intros H. inv_ok. by subst.
Qed.

Lemma collect_choices_strip debug a cs :
  chat_collect_choices (strip_agg debug a) cs
  = match chat_collect_choices a cs with Ok a' => Ok (strip_agg debug a') | Raise x => Raise x end.
Proof.
  revert a. induction cs as [|c cs IH]; intros a; [done|]. cbn [chat_collect_choices].
  unfold strip_agg at 1. rewrite collect_choice_usage.
  destruct (chat_collect_choice a c) as [a'|] eqn:E; cbn [rbind]; [|done].
  apply collect_choice_keeps_usage in E. rewrite <- E. apply IH.
Qed.

(** The server's loop body on what the server is shown follows the engine's. *)
Lemma server_chat_step_spec debug a r : chat_shape r ->
  server_chat_step debug (strip_agg debug a) (shown_chat debug r)
  = match chat_collect a r with Ok a' => Ok (strip_agg debug a') | Raise x => Raise x end.
Proof.
  intros Hr. unfold server_chat_step, chat_collect, shown_chat.
  destruct (sresp_usage r) as [u|] eqn:Eu.
  - assert (sresp_choices r = []) as Hc by (apply Hr; by rewrite Eu).
    destruct debug; simpl; rewrite Eu, Hc; done.
  - destruct debug; simpl; rewrite Eu; simpl; apply collect_choices_strip.
Qed.

Lemma finish_chat_strip call_id request rid debug a :
  finish_chat call_id request rid (strip_agg debug a)
  = match finish_chat call_id request rid a with
    | Ok r => Ok (shown_response debug r)
    | Raise x => Raise x
    end.
Proof.
  unfold finish_chat. cbn [ca_texts ca_reasons ca_logprobs ca_usage ca_set_usage strip_agg].
  destruct (process_function_call_output _ _ _) as [[ufc st]|]; cbn [rbind]; [|done].
  unfold wrap_chat_completion_response. by destruct (rmap _ _).
Qed.

(** A client that stays. *)
Definition stays (client : list bool) : Prop := Forall (fun b => b = false) client.

Lemma stays_next client : stays client ->
  exists client', disconnected client = (false, client') /\ stays client'.
Proof. unfold stays. intros H. destruct H as [|b l -> H]; [by exists []|by exists l]. Qed.

(** The collecting consumers of the engine and of the server simulate each
    other. *)
Definition agg_rel (debug : bool) (a : ChatAgg) (l : ChatAgg * Client) : Prop :=
  fst l = strip_agg debug a /\ stays (fst (snd l)) /\ snd (snd l) = false.

Lemma sim_collecting debug r : chat_shape r ->
  sim (agg_rel debug) (fun _ _ => agg_rel debug) (collecting chat_collect (shown_chat true r))
    (serving (server_chat_step debug) (shown_chat debug r)).
Proof.
  intros Hr e a [a2 [client gave_up]] (H1 & H2 & H3). simpl in *. subst a2 gave_up.
  unfold collecting, serving. destruct (stays_next client H2) as (client' & -> & Hc).
  rewrite server_chat_step_spec by done. simpl.
  destruct (chat_collect a r) as [a'|x].
  - by eexists (Ok tt), e, a', (_, (_, _)).
  - by eexists (Raise x), e, a, (_, (_, _)).
Qed.

(** The consumer that leaves the loop when its client has gone. *)
Definition same_locals {L} (x : exn) (e : Engine) (l1 l2 : L) : Prop := l1 = l2.

Lemma sim_serving {A Y} (P : A -> Prop) (step : A -> Y -> res A) r :
  (forall a a', P a -> step a r = Ok a' -> P a') ->
  sim (fun l1 l2 => l1 = l2 /\ P (fst l1) /\ snd (snd l1) = false) same_locals
    (serving step r) (serving step r).
Proof.
  intros HP e l1 l2 (<- & Hp & Hl). destruct l1 as [a [client gave_up]]. cbn [fst snd] in *.
  unfold serving. destruct (disconnected client) as [[] client'].
  - by eexists (Raise GeneratorExit), e, _, _.
  - destruct (step a r) as [a'|x] eqn:E.
    + eexists (Ok tt), e, _, _. split; [done|]. split; [done|]. split; [done|]. split; [|done].
      by eapply HP.
    + by eexists (Raise x), e, _, _.
Qed.

(** What is left when the handler raises: the request is aborted if it was the
    client that had gone. *)
Definition aborted {A} (rid : string) (x : exn) (e : Engine) (l1 l2 : A * Client) : Prop :=
  l1 = l2 /\ (snd (snd l1) = true -> last (en_ffi e) = Some (AbortRequest rid)).

Lemma handle_chat_aborts {A} (step : A -> ChatCompletionStreamResponse -> res A) incoming request
    rid ie e a client :
  exists r e' a' client' gave_up,
    async_handle_chat_completion incoming request rid ie (serving step) (e, (a, (client, false)))
    = (r, (e', (a', (client', gave_up)))) /\
    (gave_up = true -> last (en_ffi e') = Some (AbortRequest rid)).
Proof.
  destruct (sim_handle_chat (fun l1 l2 : A * Client => l1 = l2 /\ True /\ snd (snd l1) = false)
    same_locals (aborted rid) incoming request rid ie ie (serving step) (serving step))
    with (e := e) (l1 := (a, (client, false))) (l2 := (a, (client, false)))
    as (r & e' & [a' [client' gave_up]] & l2' & H1 & _ & HR).
  - by intros x e0 l1 l2 [<- _].
  - intros x e0 l1 l2 (<- & _ & Hl). split; [done|]. rewrite Hl. done.
  - intros x e0 l1 l2 <-. split; [done|]. intros _. unfold async_abort. simpl. by rewrite last_snoc.
  - intros r0 _. by apply (sim_serving (fun _ : A => True)).
  - done.
  - exists r, e', a', client', gave_up. split; [done|]. destruct r as [p|x].
    + destruct HR as (_ & _ & Hl). simpl in Hl. by rewrite Hl.
    + by destruct HR as [_ HR].
Qed.

(** The usage collected while debugging is off has no extra. *)
Definition no_extra (u : option CompletionUsage) : Prop := forall v, u = Some v -> extra v = None.

Lemma server_collect_usage a cs a' :
  collect_choices server_collect_choice a cs = Ok a' -> ma_usage a' = ma_usage a.
Proof.
  revert a. induction cs as [|c cs IH]; intros a H; simpl in H; [by injection H as <-|].
  inv_ok. rewrite (IH _ H). match goal with H : server_collect_choice _ _ = Ok _ |- _ => rename H into Hc end.
  unfold server_collect_choice in Hc. inv_ok. by subst.
Qed.

Lemma server_completion_step_no_extra a r a' :
  no_extra (ma_usage a) -> server_completion_step false a r = Ok a' -> no_extra (ma_usage a').
Proof.
  unfold server_completion_step. intros Ha H. destruct (cresp_usage r) as [u|].
  - injection H as <-. by intros v [= <-].
  - by rewrite (server_collect_usage _ _ _ H).
Qed.

Lemma request_completion_no_extra uuid incoming client request s r s' :
  sv_enable_debug s = false ->
  request_completion uuid incoming client request s = (Ok (HttpResponse r), s') ->
  no_extra (cresp_usage r).
Proof.
  intros Hd H. unfold request_completion in H.
  apply mbind_inv in H as [(ctx & s1 & Hc & H)|(? & _ & ?)]; [|done].
  assert (s1 = s) as -> by (unfold current in Hc; destruct (sv_server_context s); congruence).
  rewrite (mbind_Ok mget _ s s s) in H by done. rewrite Hd in H.
  set (request' := set_cm_debug_config request None) in *.
  destruct (get_engine (cm_model request') ctx) as [loc|]; [|done].
  set (rid := opt_default _ _) in *. unfold serve_stream, serve_collect, on_loc in H.
  destruct (cm_stream request').
  { destruct (sv_engines s !! loc); [|done].
    destruct (async_handle_completion _ _ _ _ _ _) as [r0 [e' [events c]]].
    by destruct events, r0 as [[]|]. }
  destruct (sv_engines s !! loc) as [e|]; [|done].
  destruct (sim_handle_completion
    (fun l1 l2 : CompletionAgg * Client => l1 = l2 /\ no_extra (ma_usage (fst l1)) /\ snd (snd l1) = false)
    same_locals same_locals incoming request' rid false false (serving (server_completion_step false))
    (serving (server_completion_step false)))
    with (e := e) (l1 := (completion_agg_init (cm_n request'), (client, false)))
         (l2 := (completion_agg_init (cm_n request'), (client, false)))
    as (r0 & e' & [a' [client' gave_up]] & l2' & H1 & _ & HR); try done;
    try (by intros x e0 l1 l2 [<- _]).
  { intros r0. apply (sim_serving (fun a => no_extra (ma_usage a))).
    intros a a' Ha Hs. by eapply server_completion_step_no_extra. }
  { intros r0. apply (sim_serving (fun a => no_extra (ma_usage a))).
    intros a a' Ha Hs. by eapply server_completion_step_no_extra. }
  rewrite H1 in H. destruct r0 as [[]|x]; [|done|by destruct gave_up].
  destruct HR as (_ & Hn & _). simpl in Hn.
  destruct (wrap_completion_response _ _ _ _ _ _) as [resp|] eqn:Ew; [|done].
  injection H as <- _. unfold wrap_completion_response in Ew. inv_ok. by subst.
Qed.
End Lemmas.

(** ** Theorems *)

Section Theorems.
Context `{IB : ImageBackend} `{JB : JsonBackend} `{TS : TextStreamerOps} `{TK : TokenizerOps}
  `{AO : AstOps} `{SB : ServerBackend}.
Variable call_id : nat -> nat -> string.

(** C20: the chat endpoint refines the engine's own call.  For a client that
    stays and a model that is served, it answers a non-streaming request
    exactly as [AsyncMLCEngine] answers it under the id in [user] (or a random
    one), whatever the C++ engine sends, exceptions included: only the extra
    usage fields and the debug config disappear when debugging is off. *)
Theorem chat_endpoint_refines_engine s c ctx loc e uuid incoming client request :
  sv_server_context s = Some c -> sv_contexts s !! c = Some ctx ->
  get_engine (ch_model request) ctx = Some loc -> sv_engines s !! loc = Some e ->
  ch_stream request = false -> stays client ->
  let request' := if sv_enable_debug s then request else set_ch_debug_config request None in
  ChatCompletionRequest_validate request' = Ok request' ->
  let rid := opt_default ("chatcmpl-" +:+ uuid) (ch_user request) in
  let '(r, (e', _)) := async_chat_completion call_id incoming request' rid (e, tt) in
  request_chat_completion call_id uuid incoming client request s
  = (served (sv_enable_debug s) r, set_engines s (<[loc := e']> (sv_engines s))).
Proof.
  intros Hs Hctx Hloc He Hst Hc request' Hv rid.
  assert (ch_stream request' = false /\ ch_model request' = ch_model request /\
          ch_user request' = ch_user request) as (Hst' & Hm & Hu)
    by (unfold request'; by destruct (sv_enable_debug s)).
  unfold request_chat_completion, async_chat_completion.
  rewrite (mbind_Ok current _ s ctx s) by (unfold current; by rewrite Hs, Hctx).
  rewrite (mbind_Ok mget _ s s s) by done. fold request'. rewrite Hm, Hloc, Hu, Hst'. fold rid.
  rewrite (mbind_lift _ _ _ request') by done. rewrite Hst'.
  unfold serve_collect, on_loc, collect_chat. rewrite He.
  set (a0 := chat_agg_init (ch_n request') (ch_logprobs request')).
  set (debug := sv_enable_debug s).
  destruct (sim_handle_chat (agg_rel debug) (fun _ _ => agg_rel debug) (fun _ _ => agg_rel debug)
    incoming request' rid true debug (collecting chat_collect) (serving (server_chat_step debug))
    ltac:(done) ltac:(done) ltac:(done) (sim_collecting debug) e a0 (a0, (client, false)))
    as (r & e' & a & [a2 [client' gave_up]] & H1 & H2 & HR); [done|].
  rewrite H2. unfold agg_rel in HR. cbn [fst snd] in HR. destruct r as [[]|x].
  - mstep H1. destruct HR as (-> & _ & ->).
    erewrite mbind_Ok by reflexivity. unfold py_assert.
    change (ca_reasons (strip_agg debug a)) with (ca_reasons a).
    destruct (all_finished (ca_reasons a)); [|done].
    rewrite (mbind_lift _ _ _ tt) by done. cbn [rbind]. rewrite finish_chat_strip.
    unfold mlift. by destruct (finish_chat call_id request' rid a).
  - mstep H1. done.
  - rewrite (mbind_Raise _ _ _ _ _ H1). by destruct HR as (-> & _ & ->).
Qed.

(** C35: a request whose client has gone does not stay in the engine.  When the
    chat endpoint, asked for a non-streaming completion of a served model,
    answers that the client has disconnected, the last call into the C++ engine
    was the abort of this very request. *)
Theorem disconnected_chat_is_aborted s c ctx loc e uuid incoming client request s' :
  sv_server_context s = Some c -> sv_contexts s !! c = Some ctx ->
  get_engine (ch_model request) ctx = Some loc -> sv_engines s !! loc = Some e ->
  ch_stream request = false ->
  request_chat_completion call_id uuid incoming client request s
  = (Ok (HttpError BAD_REQUEST has_disconnected), s') ->
  exists e', sv_engines s' !! loc = Some e' /\
    last (en_ffi e') = Some (AbortRequest (opt_default ("chatcmpl-" +:+ uuid) (ch_user request))).
Proof.
  intros Hs Hctx Hloc He Hst.
  set (request' := if sv_enable_debug s then request else set_ch_debug_config request None).
  assert (ch_stream request' = false /\ ch_model request' = ch_model request /\
          ch_user request' = ch_user request) as (Hst' & Hm & Hu)
    by (unfold request'; by destruct (sv_enable_debug s)).
  unfold request_chat_completion.
  rewrite (mbind_Ok current _ s ctx s) by (unfold current; by rewrite Hs, Hctx).
  rewrite (mbind_Ok mget _ s s s) by done. fold request'. rewrite Hm, Hloc, Hu, Hst'.
  set (rid := opt_default _ _). unfold serve_collect, on_loc. rewrite He.
  set (a0 := chat_agg_init (ch_n request') (ch_logprobs request')).
  destruct (handle_chat_aborts (server_chat_step (sv_enable_debug s)) incoming request' rid
    (sv_enable_debug s) e a0 client) as (r & e' & a' & client' & gave_up & -> & Hab).
  intros H. assert (gave_up = true /\ s' = set_engines s (<[loc := e']> (sv_engines s))) as [-> ->].
  { destruct r as [[]|x]; [|done|destruct gave_up; [by injection H as <-|done]].
    by destruct (rbind _ _). }
  exists e'. split; [|by apply Hab]. simpl. apply list_lookup_insert_Some. left.
  split; [done|]. split; [done|]. by eapply lookup_lt_Some.
Qed.

(** [prep_recv] needs the debug mode.  Without it the extra usage fields it
    reads are stripped, so it never returns the metadata of the KV cache,
    whatever the request and the engine's answer. *)
Theorem prep_recv_needs_debug s uuid incoming client request :
  sv_enable_debug s = false ->
  match fst (prep_recv uuid incoming client request s) with
  | Ok (HttpResponse _) => False
  | _ => True
  end.
Proof.
  intros Hd. destruct (prep_recv _ _ _ _ _) as [[[r|st m|ev en|]|x] s'] eqn:H; try done.
  unfold prep_recv in H.
  apply mbind_inv in H as [(r0 & s1 & Hs & H)|(? & _ & ?)]; [|done]. injection Hs as _ <-.
  apply mbind_inv in H as [(response & s1 & Hr & H)|(? & _ & ?)]; [|done].
  destruct response as [resp|st m|ev en|]; try done.
  apply request_completion_no_extra in Hr; [|done].
  destruct (cresp_usage resp) as [u|]; [|done]. by rewrite (Hr u eq_refl) in H.
Qed.

(** [remote_send] acknowledges what it did not do.  Its response ignores the
    answer of the completion endpoint, so a request for a model that is not
    served is acknowledged like one whose KV data was sent. *)
Theorem remote_send_ignores_errors s c ctx uuid incoming client request d :
  sv_server_context s = Some c -> sv_contexts s !! c = Some ctx ->
  cm_debug_config (rs_request request) = Some d ->
  get_engine (cm_model (rs_request request)) ctx = None ->
  remote_send uuid incoming client request s = (Ok (HttpResponse tt), s).
Proof.
  intros Hs Hctx Hd Hg. unfold remote_send, set_disagg. rewrite Hd.
  erewrite mbind_lift by reflexivity. unfold request_completion at 1.
  assert (current s = (Ok ctx, s)) as Hc by (unfold current; by rewrite Hs, Hctx).
  rewrite (mbind_Ok (mbind' current _) _ s (HttpError BAD_REQUEST
    (not_served (cm_model (rs_request request)))) s); [done|].
  mstep Hc. rewrite (mbind_Ok mget _ s s s) by done.
  destruct (sv_enable_debug s); simpl; by rewrite Hg.
Qed.
End Theorems.

(** The context of a process can be entered once.  Leaving it does not clear
    the class attribute, so entering any context afterwards raises. *)
Theorem context_enters_once `{IB : ImageBackend} `{TS : TextStreamerOps} c c' s :
  fst ((ServerContext_enter c ;! ServerContext_exit c ;! ServerContext_enter c') s)
  = Raise (RuntimeError [Lit "Server context already exists."]).
Proof.
  unfold ServerContext_enter, ServerContext_exit, mbind'.
  destruct (sv_server_context s); [done|]. simpl. by destruct (sv_contexts s !! c).
Qed.

(** ** Witnesses *)

Module ServerWitness.
Import ConversationDemo OpenAIWitness StreamsWitness PipelineWitness FunctionCallWitness
  EngineWitness ApiWitness.
#[export] Instance demo_server : ServerBackend :=
  {| dump_completion_response r := cresp_id r; dump_chat_stream_response r := sresp_id r;
     validate_int j := match j with JInt z => Ok z | _ => Raise ValidationError end;
     validate_str j := match j with JStr s => Ok s | _ => Raise ValidationError end |}.

(** A server in normal mode with one model. *)
Definition one_model : ServerContext := mkServerContext [("m", 0%nat)].
Definition server0 : Server := mkServer (Some 0%nat) false [one_model] [engine0].

(** The request of [ApiWitness], from user [r]. *)
Definition user_request : ChatCompletionRequest :=
  {| ch_messages := ch_messages plain_request; ch_model := Some "m"; ch_frequency_penalty := None;
     ch_presence_penalty := None; ch_logprobs := true; ch_top_logprobs := 0; ch_logit_bias := None;
     ch_max_tokens := None; ch_n := 2; ch_seed := None; ch_stop := None; ch_stream := false;
     ch_stream_options := None; ch_temperature := None; ch_top_p := None; ch_tools := None;
     ch_tool_choice := None; ch_user := Some "r"; ch_response_format := None;
     ch_debug_config := None |}.

(** The response of the chat endpoint has no extra usage fields. *)
Example chat_endpoint_witness :
  exists s', request_chat_completion ids "uuid" answer [false] user_request server0
  = (Ok (HttpResponse (mkChatCompletionResponse "r" choices (Some "m") ""
           (Some (mkCompletionUsage 3 2 5 None)))), s').
Proof.
  assert (H := chat_endpoint_refines_engine ids server0 0%nat one_model 0%nat engine0 "uuid" answer
    [false] user_request eq_refl eq_refl eq_refl eq_refl eq_refl
    (Forall_cons_2 _ _ _ eq_refl (Forall_nil_2 _)) eq_refl).
  change (opt_default _ (ch_user user_request)) with "r" in H. cbv zeta in H.
  set (request' := if sv_enable_debug server0 then _ else _) in H.
  destruct (async_chat_completion ids answer request' "r" (engine0, tt)) as [r [e' []]] eqn:E.
  assert (fst (async_chat_completion ids answer request' "r" (engine0, tt))
          = Ok (Response _ (mkChatCompletionResponse "r" choices (Some "m") ""
                  (Some (mkCompletionUsage 3 2 5 (Some [("s", JStr "u")])))))) as Hr
    by (vm_compute; reflexivity).
  rewrite E in Hr. simpl in Hr. subst r. eexists. exact H.
Defined.

(** The client goes away at the second response. *)
Example disconnected_chat_witness :
  exists s' e', request_chat_completion ids "uuid" answer [false; true] user_request server0
  = (Ok (HttpError BAD_REQUEST has_disconnected), s') /\
  sv_engines s' !! 0%nat = Some e' /\ last (en_ffi e') = Some (AbortRequest "r").
Proof.
  destruct (request_chat_completion ids "uuid" answer [false; true] user_request server0)
    as [r s'] eqn:E.
  assert (r = Ok (HttpError BAD_REQUEST has_disconnected)) as ->.
  { assert (r = fst (request_chat_completion ids "uuid" answer [false; true] user_request server0))
      as -> by (by rewrite E). vm_compute. reflexivity. }
  destruct (disconnected_chat_is_aborted ids server0 0%nat one_model 0%nat engine0 "uuid" answer
    [false; true] user_request s' eq_refl eq_refl eq_refl eq_refl eq_refl E) as (e' & H1 & H2).
  exists s', e'. exact (conj eq_refl (conj H1 H2)).
Defined.

Definition completion_request : CompletionRequest :=
  {| cm_model := Some "other"; cm_prompt := PromptIds [5]; cm_best_of := 1; cm_echo := false;
     cm_frequency_penalty := None; cm_presence_penalty := None; cm_logprobs := None;
     cm_logit_bias := None; cm_max_tokens := None; cm_n := 1; cm_seed := None; cm_stop := None;
     cm_stream := true; cm_stream_options := None; cm_suffix := None; cm_temperature := None;
     cm_top_p := None; cm_user := Some "a"; cm_response_format := None;
     cm_debug_config := Some (mkDebugConfig false false None "jump_forward" None) |}.

(** A complete answer whose usage carries the metadata is not enough. *)
Example prep_recv_witness :
  match fst (prep_recv "uuid" batches [] (mkPrepRecvRequest completion_request (-1)) server0) with
  | Ok (HttpResponse _) => False
  | _ => True
  end.
Proof.
  apply (prep_recv_needs_debug server0 "uuid" batches []
           (mkPrepRecvRequest completion_request (-1)) eq_refl).
Defined.

Definition two_models : ServerContext := mkServerContext [("m", 0%nat); ("n", 0%nat)].
Definition server2 : Server := mkServer (Some 0%nat) true [two_models] [engine0].

Example remote_send_witness :
  remote_send "uuid" batches [] (mkRemoteSendRequest completion_request 0 1 "kv" 0) server2
  = (Ok (HttpResponse tt), server2).
Proof.
  exact (remote_send_ignores_errors server2 0%nat two_models "uuid" batches []
           (mkRemoteSendRequest completion_request 0 1 "kv" 0)
           (mkDebugConfig false false None "jump_forward" None) eq_refl eq_refl eq_refl eq_refl).
Defined.
End ServerWitness.
