(* ===== verification/Router.v ===== *)
(** * The router ([router/router.py])

    The router serves one completion API over several servers.  In round-robin
    mode it forwards a request to the server with the fewest running requests;
    in disaggregated mode server 0 prefills and another server decodes, in
    three calls.  A response whose finish reason is [preempt] makes the router
    start over.

    The servers are an argument: the answers to the router's POST requests, in
    the order of the requests; the requests are logged.  As in [Engine.v], a
    generator takes the body of the loop that consumes it, and a consumer that
    leaves the loop surfaces as an exception at the [yield]. *)

From Stdlib Require Import SpecFloat Ascii.
From stdpp Require Import base list strings pretty.
From S2P Require Import Prelude PyStr Data Conversation OpenAI EngineUtils Streams Pipeline Server.
Local Open Scope string_scope.
Local Open Scope list_scope.
Local Open Scope Z_scope.

(** ** Bytes *)

(** [b.strip()] *)
Definition strip (s : string) : string := strip_by is_space s.

(** ** Float arithmetic of the balance factor *)

Definition f64_sub (a b : pyfloat) : pyfloat := SFsub 53 1024 a b.
Definition f64_mul (a b : pyfloat) : pyfloat := SFmul 53 1024 a b.

(** [1e-5] *)
Definition f64_1e_5 : pyfloat := S754_finite false 5902958103587057 (-69).

(** [int(x)]: truncation towards zero *)
Definition f64_int (x : pyfloat) : res Z :=
  match x with
  | S754_zero _ => Ok 0
  | S754_infinity _ => Raise (OtherError "OverflowError")
  | S754_nan => Raise (ValueError [Lit "cannot convert float NaN to integer"])
  | S754_finite s m e =>
      let a := if 0 <=? e then Z.pos m * 2 ^ e else Z.pos m / 2 ^ (- e) in
      Ok (if s then - a else a)
  end.

(** ** State *)

(** The body of a POST request. *)
Inductive Payload : Type :=
| CompletionPayload (r : CompletionRequest)
| PrepRecvPayload (r : PrepRecvRequest)
| RemoteSendPayload (r : RemoteSendRequest)
| StartGeneratePayload (r : StartGenerateRequest).

(** An answer: the status and text, the lines of a streamed body (the connection
    may fail at a line), and the body read as JSON. *)
Record Answer : Type := mkAnswer {
  an_status : Z;
  an_content : list (res string);
  an_json : res json;
}.

(** [json.loads] and [CompletionResponse.model_validate] *)
Class RouterBackend := {
  json_loads : string -> res json;
  validate_response : json -> res CompletionResponse;
}.

Record Router : Type := mkRouter {
  router_mode : string;
  pd_balance_factor : pyfloat;
  num_servers : nat;
  server_urls : list string;
  device_id_starts : list Z;
  num_running_requests : list Z;
  rt_answers : list (res Answer);
  rt_posts : list (string * Payload);
}.

Definition set_running (r : Router) (l : list Z) : Router :=
  mkRouter (router_mode r) (pd_balance_factor r) (num_servers r) (server_urls r)
    (device_id_starts r) l (rt_answers r) (rt_posts r).
Definition set_net (r : Router) (answers : list (res Answer)) (posts : list (string * Payload))
  : Router :=
  mkRouter (router_mode r) (pd_balance_factor r) (num_servers r) (server_urls r)
    (device_id_starts r) (num_running_requests r) answers posts.

(** [device_id_starts]: the sums of the prefixes of [num_gpus] *)
Fixpoint prefix_sums (acc : Z) (l : list Z) : list Z :=
  match l with
  | [] => [acc]
  | n :: l => acc :: prefix_sums (acc + n) l
  end.

(** [Router.__init__], without the start of the servers *)
Definition Router_init (hosts : option (list string)) (ports : option (list Z))
    (num_gpus : option (list Z)) (router_mode : string) (pd_balance_factor : pyfloat)
    (answers : list (res Answer)) : res Router :=
  let hosts := opt_default ["127.0.0.1"] hosts in
  let ports := opt_default [8080] ports in
  let num_gpus := opt_default [1] num_gpus in
  let n := length hosts in
  let? _ := py_assert (Nat.eqb n (length ports) && Nat.eqb (length ports) (length num_gpus)) in
  Ok (mkRouter router_mode pd_balance_factor n
        (zip_with (fun host port => "http://" +:+ host +:+ ":" +:+ pretty port) hosts ports)
        (prefix_sums 0 num_gpus) (repeat 0 n) answers []).

Section Router.
Context `{TK : TokenizerOps} `{RB : RouterBackend}.

(** Computations on the router and the consumer's locals. *)
Definition RM (L A : Type) : Type := M (Router * L) A.

Definition get_router {L} : RM L Router := fun '(r, l) => (Ok r, (r, l)).
Definition on_router {L} (f : Router -> Router) : RM L unit := fun '(r, l) => (Ok tt, (f r, l)).

(** A consumer: [None] stands for a preempted request. *)
Definition RYield (L : Type) : Type := option CompletionResponse -> RM L unit.

(** ** Scheduling *)

(** The loop of [_pick_endpoint]: the best candidate so far. *)
Fixpoint pick_loop (running : list Z) (best : option nat) (min_running_req : Z) (ids : list nat)
  : res (option nat) :=
  match ids with
  | [] => Ok best
  | candidate_id :: ids =>
      let? n := list_getitem running candidate_id in
      if n <? min_running_req then pick_loop running (Some candidate_id) n ids
      else pick_loop running best min_running_req ids
  end.

(** [_pick_endpoint] *)
Definition _pick_endpoint (endpoint_ids : list nat) (r : Router) : res nat :=
  let? best := pick_loop (num_running_requests r) None 1000000000 endpoint_ids in
  opt_res best AssertionError.

(** [self.num_running_requests[i] += d] *)
Definition add_running {L} (i : nat) (d : Z) : RM L unit := fun '(r, l) =>
  match list_getitem (num_running_requests r) i with
  | Raise x => (Raise x, (r, l))
  | Ok n => (Ok tt, (set_running r (<[i := n + d]> (num_running_requests r)), l))
  end.

(** [session.post(url, json=payload)] *)
Definition post {L} (url : string) (payload : Payload) : RM L Answer := fun '(r, l) =>
  match rt_answers r with
  | [] => (Raise (OtherError "ClientConnectionError"), (r, l))
  | a :: answers => (a, (set_net r answers (rt_posts r ++ [(url, payload)]), l))
  end.

(** [self.server_urls[i] + path] *)
Definition url_of {L} (i : nat) (path : string) : RM L string :=
  let! r := get_router in
  let! u := mlift (list_getitem (server_urls r) i) in
  mret' (u +:+ path).

(** ** Responses *)

(** One line of a streamed body: a response, or [None] for a line to skip. *)
Definition parse_line (chunk : string) : res (option CompletionResponse) :=
  let chunk := strip chunk in
  if String.eqb chunk "" then Ok None
  else
    let raw_data := strip (str_drop 6 chunk) in
    if String.eqb raw_data "[DONE]" then Ok None
    else
      let? data := json_loads raw_data in
      let? response := validate_response data in
      Ok (Some response).

Definition is_preempt (response : CompletionResponse) : bool :=
  match cresp_choices response with
  | c :: _ => match cc_finish_reason c with Some s => String.eqb s "preempt" | None => false end
  | [] => false
  end.

(** [if reason == "preempt": yield None], then [yield response] *)
Definition yield_response {L} (yield : RYield L) (response : CompletionResponse) : RM L unit :=
  (if is_preempt response then yield None else mret' tt) ;!
  yield (Some response).

(** [async for chunk in response.content] *)
Fixpoint stream_content {L} (content : list (res string))
    (emit : CompletionResponse -> RM L unit) : RM L unit :=
  match content with
  | [] => mret' tt
  | chunk :: content =>
      let! chunk := mlift chunk in
      let! o := mlift (parse_line chunk) in
      match o with
      | None => mret' tt
      | Some response => emit response
      end ;!
      stream_content content emit
  end.

(** The body of an answer to a completion request. *)
Definition answer_body {L} (stream : bool) (response : Answer)
    (emit : CompletionResponse -> RM L unit) : RM L unit :=
  let! _ := mlift (py_assert (an_status response =? 200)) in
  if stream then stream_content (an_content response) emit
  else
    let! data := mlift (an_json response) in
    let! r := mlift (validate_response data) in
    emit r.

(** ** Round robin *)

(** [_handle_completion_round_robin] *)
Definition _handle_completion_round_robin {L} (request : CompletionRequest) (yield : RYield L)
  : RM L unit :=
  let! r := get_router in
  let! cur_endpoint := mlift (_pick_endpoint (seq 0 (num_servers r)) r) in
  add_running cur_endpoint 1 ;!
  let! url := url_of cur_endpoint "/v1/completions" in
  let! response := post url (CompletionPayload request) in
  answer_body (cm_stream request) response (yield_response yield) ;!
  add_running cur_endpoint (-1).

(** ** Disaggregated serving *)

(** [response.status == 200], then the JSON body *)
Definition json_body {L} (response : Answer) : RM L json :=
  let! _ := mlift (py_assert (an_status response =? 200)) in
  mlift (an_json response).

(** [data[key]] *)
Definition subscript (data : json) (key : string) : res json :=
  match data with
  | JObj o => dict_getitem o key
  | _ => Raise TypeError
  end.

(** [send_prepare_receive] *)
Definition send_prepare_receive {L} (request : PrepRecvRequest) (server : nat)
  : RM L (json * json) :=
  let! url := url_of server "/microserving/prep_recv" in
  let! response := post url (PrepRecvPayload request) in
  let! data := json_body response in
  let! kv := mlift (subscript data "kv_append_metadata") in
  let! n := mlift (subscript data "prefix_matched_length") in
  mret' (kv, n).

(** [send_remote_send] *)
Definition send_remote_send {L} (request : RemoteSendRequest) (server : nat) : RM L unit :=
  let! url := url_of server "/microserving/remote_send" in
  let! response := post url (RemoteSendPayload request) in
  let! _ := json_body response in
  mret' tt.

(** [send_start_generate] *)
Definition send_start_generate {L} (request : StartGenerateRequest) (server : nat)
    (emit : CompletionResponse -> RM L unit) : RM L unit :=
  let! url := url_of server "/microserving/start_generate" in
  let! response := post url (StartGeneratePayload request) in
  answer_body (cm_stream (sg_request request)) response emit.

Definition prompt_length (p : PromptArg) : Z :=
  match p with
  | PromptStr s => Z.of_nat (length (code_points s))
  | PromptIds l => Z.of_nat (length l)
  end.

(** The end of the KV window: [-1], or a share of the prompt. *)
Definition initial_window_end (pd_balance_factor : pyfloat) (prompt : PromptArg) : res Z :=
  if f64_ltb (f64_abs pd_balance_factor) f64_1e_5 then Ok (-1)
  else f64_int (f64_mul (f64_sub (f64_of_Z 1) pd_balance_factor)
                  (f64_of_Z (prompt_length prompt))).

Definition resolve_window_end (kv_window_end : Z) (prompt : PromptArg) : Z :=
  if kv_window_end <? 0 then prompt_length prompt + kv_window_end else kv_window_end.

(** The fields of the requests that come from another server's JSON. *)
Context `{SB : ServerBackend}.

Definition set_user (r : CompletionRequest) (u : option string) : CompletionRequest :=
  mkCompletionRequest (cm_model r) (cm_prompt r) (cm_best_of r) (cm_echo r)
    (cm_frequency_penalty r) (cm_presence_penalty r) (cm_logprobs r) (cm_logit_bias r)
    (cm_max_tokens r) (cm_n r) (cm_seed r) (cm_stop r) (cm_stream r) (cm_stream_options r)
    (cm_suffix r) (cm_temperature r) (cm_top_p r) u (cm_response_format r) (cm_debug_config r).

Definition set_prompt (r : CompletionRequest) (p : PromptArg) : CompletionRequest :=
  mkCompletionRequest (cm_model r) p (cm_best_of r) (cm_echo r)
    (cm_frequency_penalty r) (cm_presence_penalty r) (cm_logprobs r) (cm_logit_bias r)
    (cm_max_tokens r) (cm_n r) (cm_seed r) (cm_stop r) (cm_stream r) (cm_stream_options r)
    (cm_suffix r) (cm_temperature r) (cm_top_p r) (cm_user r) (cm_response_format r)
    (cm_debug_config r).

(** The prefix length the server sent, compared with an integer; a
    [PrepRecvResponse] holds an integer there. *)
Definition json_int (j : json) : res Z :=
  match j with
  | JInt z => Ok z
  | JBool b => Ok (if b then 1 else 0)
  | _ => Raise TypeError
  end.

(** The body of the [try] in [_handle_completion_disagg]. *)
Definition disagg_body {L} (request : CompletionRequest) (kv_window_end : Z)
    (prefill_server_id decode_server_id : nat) (yield : RYield L) : RM L unit :=
  let! prep_request := mlift (CompletionRequest_validate request) in
  let! (kv_append_metadata_base64, prefix_json) :=
    send_prepare_receive (mkPrepRecvRequest prep_request kv_window_end) decode_server_id in
  let kv_window_end := resolve_window_end kv_window_end (cm_prompt request) in
  let! prefix_matched_length := mlift (json_int prefix_json) in
  let! _ := mlift (py_assert (prefix_matched_length <=? kv_window_end)) in
  (if prefix_matched_length <? kv_window_end then
     let! r := get_router in
     let! recv_rank := mlift (list_getitem (device_id_starts r) decode_server_id) in
     let! send_request := mlift (CompletionRequest_validate request) in
     let! kv_addr_info := mlift (validate_str kv_append_metadata_base64) in
     send_remote_send
       (mkRemoteSendRequest send_request prefix_matched_length kv_window_end kv_addr_info recv_rank)
       prefill_server_id
   else mret' tt) ;!
  let! start_request := mlift (CompletionRequest_validate request) in
  send_start_generate (mkStartGenerateRequest start_request kv_window_end) decode_server_id
    (yield_response yield).

(** [try: body except Exception as e: cleanup; raise e] *)
Definition except_Exception {L} (body : RM L unit) (cleanup : RM L unit) : RM L unit := fun s =>
  match body s with
  | (Ok a, s) => (Ok a, s)
  | (Raise x, s) => if is_Exception x then (cleanup ;! mraise x) s else (Raise x, s)
  end.

(** [_handle_completion_disagg] *)
Definition _handle_completion_disagg {L} (original_request : CompletionRequest)
    (request_id : string) (pd_balance_factor : pyfloat) (yield : RYield L) : RM L unit :=
  let request := set_user original_request (Some request_id) in
  let prefill_server_id := 0%nat in
  let! r := get_router in
  let! decode_server_id := mlift (_pick_endpoint (seq 1 (num_servers r - 1)) r) in
  let! kv_window_end := mlift (initial_window_end pd_balance_factor (cm_prompt request)) in
  add_running decode_server_id 1 ;!
  except_Exception (disagg_body request kv_window_end prefill_server_id decode_server_id yield)
    (add_running decode_server_id (-1)) ;!
  add_running decode_server_id (-1).

(** ** The API *)

(** [translate_request] *)
Definition translate_request {L} (request : CompletionRequest) (request_id : string)
    (yield : RYield L) : RM L unit :=
  let! r := get_router in
  if String.eqb (router_mode r) "disagg"
  then _handle_completion_disagg request request_id (pd_balance_factor r) yield
  else if String.eqb (router_mode r) "round-robin"
  then _handle_completion_round_robin request yield
  else mraise (ValueError [Lit "Cannot reach here"]).

(** The loop body of [handle_completion]: [break] at a [None] abandons the
    generator and sets the flag. *)
Definition until_preempted {L} (yield : CompletionResponse -> RM L unit)
    (o : option CompletionResponse) : RM (bool * L) unit := fun '(r, (broke, l)) =>
  match o with
  | None => (Raise GeneratorExit, (r, (true, l)))
  | Some response => let '(x, (r, l)) := yield response (r, l) in (x, (r, (broke, l)))
  end.

(** One round of [while not completed]: whether it completed. *)
Definition attempt {L} (request : CompletionRequest) (request_id : string)
    (yield : CompletionResponse -> RM L unit) : RM L bool := fun '(r, l) =>
  match translate_request request request_id (until_preempted yield) (r, (false, l)) with
  | (Ok _, (r, (_, l))) => (Ok true, (r, l))
  | (Raise GeneratorExit, (r, (true, l))) => (Ok false, (r, l))
  | (Raise x, (r, (_, l))) => (Raise x, (r, l))
  end.

(** The loop, with fuel; every round but the last takes an answer. *)
Fixpoint attempts {L} (fuel : nat) (request : CompletionRequest) (request_id : string)
    (yield : CompletionResponse -> RM L unit) : RM L unit :=
  match fuel with
  | O => mraise (OtherError "out of fuel")
  | S fuel =>
      let! completed := attempt request request_id yield in
      if completed then mret' tt else attempts fuel request request_id yield
  end.

Definition default_debug_config : DebugConfig := mkDebugConfig false false None "jump_forward" None.

(** The request as [handle_completion] completes it. *)
Definition prepare_request (request : CompletionRequest) : CompletionRequest :=
  let request := match cm_prompt request with
                 | PromptStr s => set_prompt request (PromptIds (tok_encode s))
                 | PromptIds _ => request
                 end in
  match cm_debug_config request with
  | None => set_cm_debug_config request (Some default_debug_config)
  | Some _ => request
  end.

(** [handle_completion] *)
Definition handle_completion {L} (request : CompletionRequest) (request_id : string)
    (yield : CompletionResponse -> RM L unit) : RM L unit :=
  let! r := get_router in
  attempts (S (length (rt_answers r))) (prepare_request request) request_id yield.
End Router.

(** ** Specifications *)

(** [i] is the first of [ids] with the fewest running requests. *)
Definition first_least (running : list Z) (ids : list nat) (i : nat) (n : Z) : Prop :=
  exists l1 l2, ids = l1 ++ i :: l2 /\ running !! i = Some n /\
    (forall j k, j ∈ l1 -> running !! j = Some k -> n < k) /\
    (forall j k, j ∈ l2 -> running !! j = Some k -> n <= k).

(** A computation that leaves the counts of running requests alone. *)
Definition keeps_running {L A} (m : RM L A) : Prop :=
  forall s r s', m s = (r, s') ->
    num_running_requests (fst s') = num_running_requests (fst s).

(** One more running request on server [i]. *)
Definition one_more (i : nat) (running running' : list Z) : Prop :=
  exists n, running !! i = Some n /\ running' = <[i := n + 1]> running.

(** The responses of a streamed body. *)
Definition responses_of `{RB : RouterBackend} (content : list (res string))
  : res (list CompletionResponse) :=
  let? os := rmap (fun chunk => let? c := chunk in parse_line c) content in
  Ok (omap id os).

(** The responses up to the first preempted one, and whether there is one. *)
Fixpoint before_preempt (l : list CompletionResponse) : list CompletionResponse * bool :=
  match l with
  | [] => ([], false)
  | r :: l => if is_preempt r then ([], true)
              else let '(rs, b) := before_preempt l in (r :: rs, b)
  end.

(** The router got this answer: a streamed body that parses to [rs]. *)
Definition streamed `{RB : RouterBackend} (a : res Answer) (rs : list CompletionResponse) : Prop :=
  exists ans, a = Ok ans /\ an_status ans = 200 /\ responses_of (an_content ans) = Ok rs.

(** The consumer that folds the responses into its locals. *)
Definition folding {L} (f : L -> CompletionResponse -> L) (response : CompletionResponse)
  : RM L unit := fun '(r, l) => (Ok tt, (r, f l response)).

Definition total (running : list Z) : Z := foldr Z.add 0 running.

(** A round-robin router whose servers can take [k] more requests each. *)
Definition round_robin_ok (k : nat) (r : Router) : Prop :=
  router_mode r = "round-robin" /\ (0 < num_servers r)%nat /\
  length (server_urls r) = num_servers r /\
  length (num_running_requests r) = num_servers r /\
  Forall (fun n => n + Z.of_nat k < 1000000000) (num_running_requests r).

(** ** Lemmas *)

Section Lemmas.
Context `{TK : TokenizerOps} `{RB : RouterBackend} `{SB : ServerBackend}.

Lemma pick_loop_spec running ids : forall best m,
  Forall (fun i => (i < length running)%nat) ids ->
  exists b, pick_loop running best m ids = Ok b /\
    ((b = best /\ forall j k, j ∈ ids -> running !! j = Some k -> m <= k) \/
     exists i n, b = Some i /\ first_least running ids i n /\ n < m).
Proof.
  induction ids as [|c ids IH]; intros best m Hin; simpl.
  { exists best. split; [done|]. left. split; [done|]. intros j k Hj. by apply elem_of_nil in Hj. }
  apply Forall_cons in Hin as [Hc Hin]. destruct (lookup_lt_is_Some_2 _ _ Hc) as [n Hn].
  rewrite (list_getitem_lookup _ _ _ Hn). cbn [rbind].
  destruct (Z.ltb_spec n m) as [Hlt|Hge].
  - destruct (IH (Some c) n Hin) as (b & -> & [[-> Hall]|(i & k & -> & Hf & Hk)]);
      eexists; (split; [done|]); right.
    + exists c, n. split; [done|]. split; [|done]. exists [], ids. split; [done|]. split; [done|].
      split; [|done]. intros j k Hj. by apply elem_of_nil in Hj.
    + exists i, k. split; [done|]. split; [|lia]. destruct Hf as (l1 & l2 & -> & Hi & H1 & H2).
      exists (c :: l1), l2. split; [done|]. split; [done|]. split; [|done].
      intros j k' [->|Hj]%elem_of_cons Hk'; [congruence|by eapply H1].
  - destruct (IH best m Hin) as (b & -> & [[-> Hall]|(i & k & -> & Hf & Hk)]);
      eexists; (split; [done|]).
    + left. split; [done|]. intros j k [->|Hj]%elem_of_cons Hk; [congruence|by eapply Hall].
    + right. exists i, k. split; [done|]. split; [|done].
      destruct Hf as (l1 & l2 & -> & Hi & H1 & H2).
      exists (c :: l1), l2. split; [done|]. split; [done|]. split; [|done].
      intros j k' [->|Hj]%elem_of_cons Hk'; [|by eapply H1]. assert (k' = n) by congruence. lia.
Qed.

(** *** Computations that keep the counts *)

Lemma keeps_bind {L A B} (m : RM L A) (k : A -> RM L B) :
  keeps_running m -> (forall a, keeps_running (k a)) -> keeps_running (mbind' m k).
Proof.
  intros Hm Hk s r s' H. apply mbind_inv in H as [(a & s1 & H1 & H2)|(x & H1 & _)].
  - apply Hm in H1. apply Hk in H2. congruence.
  - by apply Hm in H1.
Qed.

Lemma keeps_lift {L A} (x : res A) : keeps_running (L:=L) (mlift x).
Proof. by intros s r s' [= _ <-]. Qed.
Lemma keeps_ret {L A} (a : A) : keeps_running (L:=L) (mret' a).
Proof. by intros s r s' [= _ <-]. Qed.
Lemma keeps_get {L} : keeps_running (L:=L) get_router.
Proof. by intros [r l] x s' [= _ <-]. Qed.
Lemma keeps_post {L} u p : keeps_running (L:=L) (post u p).
Proof. intros [r l] x s' H. unfold post in H. by destruct (rt_answers r); injection H as _ <-. Qed.

Create HintDb keeps.
#[local] Hint Resolve keeps_bind keeps_lift keeps_ret keeps_get keeps_post : keeps.

Lemma keeps_url {L} i p : keeps_running (L:=L) (url_of i p).
Proof. unfold url_of. auto with keeps. Qed.
#[local] Hint Resolve keeps_url : keeps.

Lemma keeps_content {L} content (emit : CompletionResponse -> RM L unit) :
  (forall r, keeps_running (emit r)) -> keeps_running (stream_content content emit).
Proof.
  intros He. induction content as [|c content IH]; simpl; auto with keeps.
  apply keeps_bind; auto with keeps. intros chunk. apply keeps_bind; auto with keeps.
  intros [r|]; auto with keeps.
Qed.

Lemma keeps_answer {L} stream a (emit : CompletionResponse -> RM L unit) :
  (forall r, keeps_running (emit r)) -> keeps_running (answer_body stream a emit).
Proof.
  intros He. unfold answer_body. apply keeps_bind; auto with keeps. intros _.
  destruct stream; auto using keeps_content with keeps.
Qed.

Lemma keeps_yield {L} (yield : RYield L) r :
  (forall o, keeps_running (yield o)) -> keeps_running (yield_response yield r).
Proof. intros Hy. unfold yield_response. destruct (is_preempt r); auto with keeps. Qed.

Lemma keeps_disagg {L} request e p d (yield : RYield L) :
  (forall o, keeps_running (yield o)) -> keeps_running (disagg_body request e p d yield).
Proof.
  intros Hy. unfold disagg_body, send_prepare_receive, send_remote_send, send_start_generate,
    json_body.
  apply keeps_bind; auto with keeps. intros r1. apply keeps_bind; auto 10 with keeps.
  intros [kv n]. apply keeps_bind; auto with keeps. intros m. apply keeps_bind; auto with keeps.
  intros _. apply keeps_bind; [case_match; auto 15 with keeps|]. intros _.
  apply keeps_bind; auto with keeps. intros r2. apply keeps_bind; auto with keeps. intros u.
  apply keeps_bind; auto with keeps. intros a. auto using keeps_answer, keeps_yield.
Qed.

Lemma add_running_spec {L} i d r (l : L) n :
  num_running_requests r !! i = Some n ->
  add_running i d (r, l)
  = (Ok tt, (set_running r (<[i := n + d]> (num_running_requests r)), l)).
Proof. intros H. unfold add_running. by rewrite (list_getitem_lookup _ _ _ H). Qed.

Lemma pick_in_range ids r i : _pick_endpoint ids r = Ok i ->
  exists n, num_running_requests r !! i = Some n.
Proof.
  unfold _pick_endpoint. intros H. apply rbind_Ok in H as (b & Hb & H).
  destruct b as [j|]; [|done]. injection H as ->.
  assert (forall ids best m b, pick_loop (num_running_requests r) best m ids = Ok b ->
    b = best \/ exists j n, b = Some j /\ num_running_requests r !! j = Some n) as Hl.
  { clear. induction ids as [|c ids IH]; intros best m b; simpl; [intros [= <-]; by left|].
    unfold list_getitem at 1. destruct (num_running_requests r !! c) as [n|] eqn:En; [|done].
    cbn [opt_res rbind]. destruct (n <? m).
    - intros [->|H]%IH; right; [by exists c, n|done].
    - apply IH. }
  apply Hl in Hb as [?|(j & n & [= ->] & Hn)]; [done|by exists n].
Qed.

(** *** The rounds of [handle_completion] *)

Lemma emit_spec {L} (f : L -> CompletionResponse -> L) resp r l :
  yield_response (until_preempted (folding f)) resp (r, (false, l))
  = if is_preempt resp then (Raise GeneratorExit, (r, (true, l)))
    else (Ok tt, (r, (false, f l resp))).
Proof. unfold yield_response. by destruct (is_preempt resp). Qed.

Lemma stream_content_spec {L} (f : L -> CompletionResponse -> L) r content : forall rs l,
  responses_of content = Ok rs ->
  stream_content content (yield_response (until_preempted (folding f))) (r, (false, l))
  = let '(vs, b) := before_preempt rs in
    (if b then Raise GeneratorExit else Ok tt, (r, (b, fold_left f vs l))).
Proof.
  induction content as [|c content IH]; intros rs l H.
  { by injection H as <-. }
  unfold responses_of in H. cbn [rmap] in H.
  destruct c as [c|]; [|done]. cbn [rbind] in H.
  destruct (parse_line c) as [o|] eqn:Eo; [|done]. cbn [rbind] in H.
  destruct (rmap _ content) as [os|] eqn:Es; [|done]. injection H as <-.
  assert (responses_of content = Ok (omap id os)) as Hc by (unfold responses_of; by rewrite Es).
  cbn [stream_content]. rewrite (mbind_lift _ _ _ c), (mbind_lift _ _ _ o) by done.
  destruct o as [resp|].
  - change (omap id (Some resp :: os)) with (resp :: omap id os). cbn [before_preempt].
    pose proof (emit_spec f resp r l) as He. destruct (is_preempt resp).
    + by rewrite (mbind_Raise _ _ _ _ _ He).
    + mstep He. rewrite (IH _ _ Hc). destruct (before_preempt _) as [vs b]. reflexivity.
  - rewrite (mbind_Ok _ _ _ tt (r, (false, l))) by done. by apply IH.
Qed.

Lemma total_insert running i n d : running !! i = Some n ->
  total (<[i := n + d]> running) = total running + d.
Proof.
  revert i. induction running as [|m running IH]; intros [|i] H; simpl in *; try done.
  - injection H as ->. unfold total. simpl. lia.
  - unfold total in *. simpl. rewrite (IH i H). lia.
Qed.

(** *** The three calls of disaggregated serving *)

Lemma url_of_spec {L} i path u r (l : L) : server_urls r !! i = Some u ->
  url_of i path (r, l) = (Ok (u +:+ path), (r, l)).
Proof.
  intros Hu. unfold url_of. rewrite (mbind_Ok get_router _ _ r (r, l)) by done.
  by rewrite (mbind_lift _ _ _ u) by apply (list_getitem_lookup _ _ _ Hu).
Qed.

Lemma post_spec {L} url p a answers r (l : L) : rt_answers r = Ok a :: answers ->
  post url p (r, l) = (Ok a, (set_net r answers (rt_posts r ++ [(url, p)]), l)).
Proof. unfold post. by intros ->. Qed.

(** A consumer that takes the preemption marker for an error. *)
Definition strict {L} (f : L -> CompletionResponse -> L) (o : option CompletionResponse)
  : RM L unit := match o with None => mraise GeneratorExit | Some x => folding f x end.

Lemma stream_strict {L} (f : L -> CompletionResponse -> L) r content : forall rs l,
  responses_of content = Ok rs -> existsb is_preempt rs = false ->
  stream_content content (yield_response (strict f)) (r, l) = (Ok tt, (r, fold_left f rs l)).
Proof.
  induction content as [|c content IH]; intros rs l H Hp.
  { by injection H as <-. }
  unfold responses_of in H. cbn [rmap] in H.
  destruct c as [c|]; [|done]. cbn [rbind] in H.
  destruct (parse_line c) as [o|] eqn:Eo; [|done]. cbn [rbind] in H.
  destruct (rmap _ content) as [os|] eqn:Es; [|done]. injection H as <-.
  assert (responses_of content = Ok (omap id os)) as Hc by (unfold responses_of; by rewrite Es).
  cbn [stream_content]. rewrite (mbind_lift _ _ _ c), (mbind_lift _ _ _ o) by done.
  destruct o as [resp|].
  - change (omap id (Some resp :: os)) with (resp :: omap id os) in *.
    cbn [existsb] in Hp. apply orb_false_elim in Hp as [Hp1 Hp2].
    rewrite (mbind_Ok _ _ _ tt (r, f l resp)) by (unfold yield_response; by rewrite Hp1).
    by rewrite (IH _ (f l resp) Hc Hp2).
  - rewrite (mbind_Ok _ _ _ tt (r, l)) by done. by apply IH.
Qed.

Lemma json_body_spec {L} a j (s : Router * L) : an_status a = 200 -> an_json a = Ok j ->
  json_body a s = (Ok j, s).
Proof.
  intros H1 H2. unfold json_body. rewrite H1. rewrite (mbind_lift _ _ _ tt) by done.
  unfold mlift. by rewrite H2.
Qed.

(** The last call. *)
Lemma start_spec {L} (f : L -> CompletionResponse -> L) request r l d urld start rest rs :
  server_urls r !! d = Some urld -> rt_answers r = Ok start :: rest ->
  an_status start = 200 -> cm_stream (sg_request request) = true ->
  responses_of (an_content start) = Ok rs -> existsb is_preempt rs = false ->
  send_start_generate request d (yield_response (strict f)) (r, l)
  = (Ok tt, (set_net r rest (rt_posts r ++ [(urld +:+ "/microserving/start_generate",
                                             StartGeneratePayload request)]), fold_left f rs l)).
Proof.
  intros Hu Ha Hs Hst Hrs Hp. unfold send_start_generate.
  rewrite (mbind_Ok _ _ _ _ _ (url_of_spec d _ urld r l Hu)).
  rewrite (mbind_Ok _ _ _ _ _ (post_spec _ _ start rest r l Ha)).
  unfold answer_body. rewrite Hs, Hst. rewrite (mbind_lift _ _ _ tt) by done.
  by apply stream_strict.
Qed.

(** The call to the prefill server, when there is something to prefill. *)
Definition send_posts (request : CompletionRequest) (m e : Z) (kv : string) (offset : Z)
    (urlp : string) : list (string * Payload) :=
  if m <? e
  then [(urlp +:+ "/microserving/remote_send",
         RemoteSendPayload (mkRemoteSendRequest request m e kv offset))]
  else [].

Lemma disagg_body_posts {L} (f : L -> CompletionResponse -> L) request r l d m kv ids
    prep ack start rest rs urlp urld offset :
  cm_prompt request = PromptIds ids -> CompletionRequest_validate request = Ok request ->
  0 <= m <= Z.of_nat (length ids) - 1 -> validate_str (JStr kv) = Ok kv ->
  an_status prep = 200 -> an_json prep = Ok (JObj [("kv_append_metadata", JStr kv);
                                                   ("prefix_matched_length", JInt m)]) ->
  an_status ack = 200 -> is_ok (an_json ack) = true ->
  an_status start = 200 -> cm_stream request = true ->
  responses_of (an_content start) = Ok rs -> existsb is_preempt rs = false ->
  let e := Z.of_nat (length ids) - 1 in
  rt_answers r = Ok prep :: (if m <? e then [Ok ack] else []) ++ Ok start :: rest ->
  server_urls r !! 0%nat = Some urlp -> server_urls r !! d = Some urld ->
  device_id_starts r !! d = Some offset ->
  disagg_body request (-1) 0 d (strict f) (r, l)
  = (Ok tt, (set_net r rest (((rt_posts r
      ++ [(urld +:+ "/microserving/prep_recv", PrepRecvPayload (mkPrepRecvRequest request (-1)))])
      ++ send_posts request m e kv offset urlp)
      ++ [(urld +:+ "/microserving/start_generate",
           StartGeneratePayload (mkStartGenerateRequest request e))]), fold_left f rs l)).
Proof.
  intros Hids Hv Hm Hkv Hp1 Hp2 Ha1 Ha2 Hs1 Hst Hrs Hpre e Hans Hup Hud Hoff.
  unfold disagg_body. rewrite (mbind_lift _ _ _ request) by done.
  set (rest1 := (if m <? e then [Ok ack] else []) ++ Ok start :: rest) in Hans.
  set (p1 := rt_posts r ++ _).
  assert (send_prepare_receive (mkPrepRecvRequest request (-1)) d (r, l)
          = (Ok (JStr kv, JInt m), (set_net r rest1 p1, l))) as H1.
  { unfold send_prepare_receive. rewrite (mbind_Ok _ _ _ _ _ (url_of_spec d _ urld r l Hud)).
    rewrite (mbind_Ok _ _ _ _ _ (post_spec _ _ prep rest1 r l Hans)).
    by rewrite (mbind_Ok _ _ _ _ _ (json_body_spec _ _ _ Hp1 Hp2)). }
  mstep H1. unfold resolve_window_end. rewrite Hids. cbn [prompt_length].
  change (-1 <? 0) with true. cbv iota. replace (Z.of_nat (length ids) + -1) with e by lia.
  rewrite (mbind_lift _ _ _ m) by done.
  rewrite (mbind_lift _ _ _ tt) by (unfold py_assert; by rewrite (proj2 (Z.leb_le m e)) by lia).
  set (r1 := set_net r rest1 p1). unfold send_posts, rest1 in *.
  destruct (m <? e) eqn:Em; cbn [app] in *.
  - set (p2 := RemoteSendPayload (mkRemoteSendRequest request m e kv offset)).
    rewrite (mbind_Ok (mbind' get_router _) _ _ tt
      (set_net r1 (Ok start :: rest) (p1 ++ [(urlp +:+ "/microserving/remote_send", p2)]), l)).
    + rewrite (mbind_lift _ _ _ request) by done. by erewrite start_spec.
    + rewrite (mbind_Ok get_router _ _ r1 (r1, l)) by done.
      rewrite (mbind_lift _ _ _ offset) by apply (list_getitem_lookup _ _ _ Hoff).
      rewrite (mbind_lift _ _ _ request), (mbind_lift _ _ _ kv) by done.
      unfold send_remote_send. rewrite (mbind_Ok _ _ _ _ _ (url_of_spec 0 _ urlp r1 l Hup)).
      rewrite (mbind_Ok _ _ _ _ _ (post_spec _ _ ack (Ok start :: rest) r1 l eq_refl)).
      destruct (an_json ack) as [j|] eqn:Ej; [|done].
      by rewrite (mbind_Ok _ _ _ _ _ (json_body_spec _ _ _ Ha1 Ej)).
  - rewrite (mbind_Ok (mret' tt) _ _ tt (r1, l)) by done.
    rewrite (mbind_lift _ _ _ request) by done. rewrite app_nil_r. by erewrite start_spec.
Qed.

(** A round-robin router always finds a server, and its counts stay small enough
    when one of them grows by one. *)
Lemma round_robin_pick k r : round_robin_ok k r ->
  exists i n u, _pick_endpoint (seq 0 (num_servers r)) r = Ok i /\
    num_running_requests r !! i = Some n /\ server_urls r !! i = Some u.
Proof.
  intros (_ & Hn & Hu & Hl & Hk).
  destruct (pick_loop_spec (num_running_requests r) (seq 0 (num_servers r)) None 1000000000)
    as (b & Hp & Hb).
  { apply Forall_forall. intros i Hi%elem_of_seq. lia. }
  destruct Hb as [[-> Hb]|(i & n & -> & (_ & _ & _ & Hi & _) & _)].
  - exfalso. destruct (lookup_lt_is_Some_2 (num_running_requests r) 0) as [n0 H0]; [lia|].
    pose proof (Hb 0%nat n0 ltac:(apply elem_of_seq; lia) H0).
    eapply Forall_lookup_1 in Hk; [|exact H0]. lia.
  - destruct (lookup_lt_is_Some_2 (server_urls r) i) as [u Eu];
      [apply lookup_lt_Some in Hi; lia|].
    exists i, n, u. split; [|done]. unfold _pick_endpoint. by rewrite Hp.
Qed.

Lemma round_robin_ok_more k r i n r' : round_robin_ok (S k) r ->
  num_running_requests r !! i = Some n ->
  router_mode r' = router_mode r -> num_servers r' = num_servers r -> server_urls r' = server_urls r ->
  num_running_requests r' = <[i := n + 1]> (num_running_requests r) -> round_robin_ok k r'.
Proof.
  intros (Hm & Hn & Hu & Hl & Hk) Hi E1 E2 E3 E4. unfold round_robin_ok.
  rewrite E1, E2, E3, E4, length_insert. split; [done|]. split; [done|]. split; [done|].
  split; [done|]. apply Forall_insert.
  - eapply Forall_impl; [exact Hk|]. simpl. lia.
  - eapply Forall_lookup_1 in Hk; [|exact Hi]. lia.
Qed.

Lemma round_robin_ok_same k r r' : round_robin_ok (S k) r ->
  router_mode r' = router_mode r -> num_servers r' = num_servers r -> server_urls r' = server_urls r ->
  num_running_requests r' = num_running_requests r -> round_robin_ok k r'.
Proof.
  intros (Hm & Hn & Hu & Hl & Hk) E1 E2 E3 E4. unfold round_robin_ok.
  rewrite E1, E2, E3, E4. split_and!; try done. eapply Forall_impl; [exact Hk|]. simpl. lia.
Qed.

(** A round of a round-robin router that gets a streamed answer. *)
Lemma attempt_spec {L} k request rid (f : L -> CompletionResponse -> L) r l a answers rs :
  round_robin_ok k r -> cm_stream request = true -> rt_answers r = a :: answers -> streamed a rs ->
  exists r', attempt request rid (folding f) (r, l)
    = (Ok (negb (snd (before_preempt rs))), (r', fold_left f (fst (before_preempt rs)) l)) /\
    rt_answers r' = answers /\ length (rt_posts r') = S (length (rt_posts r)) /\
    total (num_running_requests r')
    = total (num_running_requests r) + (if snd (before_preempt rs) then 1 else 0) /\
    forall k', k = S k' -> round_robin_ok k' r'.
Proof.
  intros Hrr Hs Ha (ans & -> & Hst & Hrs).
  unfold attempt, translate_request. rewrite (mbind_Ok get_router _ _ r (r, (false, l))) by done.
  rewrite (proj1 Hrr). change (String.eqb "round-robin" "disagg") with false.
  change (String.eqb "round-robin" "round-robin") with true. cbv iota.
  destruct (round_robin_pick k r Hrr) as (i & n & u & Hp & Hi & Eu).
  unfold _handle_completion_round_robin.
  rewrite (mbind_Ok get_router _ _ r (r, (false, l))), (mbind_lift _ _ _ i) by done.
  rewrite (mbind_Ok _ _ _ _ _ (add_running_spec i 1 r (false, l) n Hi)).
  set (r1 := set_running r _).
  rewrite (mbind_Ok _ _ _ _ _ (url_of_spec i _ u r1 (false, l) Eu)).
  set (p := CompletionPayload request). set (url := u +:+ "/v1/completions").
  set (r2 := set_net r1 answers (rt_posts r1 ++ [(url, p)])).
  rewrite (mbind_Ok _ _ _ _ _ (post_spec url p ans answers r1 (false, l) Ha)). fold r2.
  assert (answer_body (cm_stream request) ans (yield_response (until_preempted (folding f)))
    (r2, (false, l)) = let '(vs, b) := before_preempt rs in
    (if b then Raise GeneratorExit else Ok tt, (r2, (b, fold_left f vs l)))) as Hbody.
  { unfold answer_body. rewrite Hst, Hs. rewrite (mbind_lift _ _ _ tt) by done.
    by apply stream_content_spec. }
  destruct (before_preempt rs) as [vs [|]]; cbn [fst snd negb].
  - rewrite (mbind_Raise _ _ _ _ _ Hbody). exists r2. split; [done|]. split; [done|].
    split; [simpl; rewrite length_app; simpl; lia|]. split; [by apply total_insert|].
    intros k' ->. by apply (round_robin_ok_more k' r i n).
  - assert (num_running_requests r2 !! i = Some (n + 1)) as Hi2
      by (simpl; apply list_lookup_insert_eq; by eapply lookup_lt_Some).
    assert (<[i := n + 1 + -1]> (num_running_requests r2) = num_running_requests r) as E.
    { simpl. rewrite list_insert_insert_eq. apply list_insert_id. rewrite Hi. f_equal. lia. }
    mstep Hbody. rewrite (add_running_spec i (-1) r2 (false, fold_left f vs l) (n + 1) Hi2), E.
    eexists. split; [reflexivity|]. split; [done|].
    split; [simpl; rewrite length_app; simpl; lia|]. split; [simpl; lia|].
    intros k' ->. by apply (round_robin_ok_same k' r).
Qed.
End Lemmas.

(** ** Theorems *)

Section Theorems.
Context `{TK : TokenizerOps} `{RB : RouterBackend} `{SB : ServerBackend}.

(** The endpoint picked is the first of the candidates with the fewest
    running requests; picking fails exactly when no candidate runs fewer than
    10^9 requests. *)
Theorem pick_endpoint_least_loaded ids r :
  Forall (fun i => (i < length (num_running_requests r))%nat) ids ->
  match _pick_endpoint ids r with
  | Ok i => exists n, first_least (num_running_requests r) ids i n /\ n < 1000000000
  | Raise x => x = AssertionError /\
      forall j k, j ∈ ids -> num_running_requests r !! j = Some k -> 1000000000 <= k
  end.
Proof.
  intros Hin. unfold _pick_endpoint.
  destruct (pick_loop_spec (num_running_requests r) ids None 1000000000 Hin)
    as (b & -> & [[-> H]|(i & n & -> & H & Hn)]); simpl; [done|by exists n].
Qed.

(** Round robin counts a request that failed as running for ever.  With a
    consumer that leaves the counts alone, a completed request leaves them as
    they were; a request that ends with any exception (a failed server, a
    preempted or abandoned stream) leaves one more running request on the
    server that was picked. *)
Theorem round_robin_accounting {L} request (yield : RYield L) r l x r' l' :
  (forall o, keeps_running (yield o)) ->
  _handle_completion_round_robin request yield (r, l) = (x, (r', l')) ->
  match _pick_endpoint (seq 0 (num_servers r)) r with
  | Raise _ => num_running_requests r' = num_running_requests r
  | Ok i =>
      match x with
      | Ok _ => num_running_requests r' = num_running_requests r
      | Raise _ => one_more i (num_running_requests r) (num_running_requests r')
      end
  end.
Proof.
  intros Hy H. unfold _handle_completion_round_robin in H.
  rewrite (mbind_Ok get_router _ _ r (r, l)) in H by done.
  destruct (_pick_endpoint _ r) as [i|y] eqn:Ep; [|by injection H as _ <- _].
  rewrite (mbind_lift _ _ _ i) in H by done.
  destruct (pick_in_range _ _ _ Ep) as [n Hn].
  rewrite (mbind_Ok _ _ _ _ _ (add_running_spec i 1 r l n Hn)) in H.
  set (r1 := set_running r _) in H.
  assert (num_running_requests r1 !! i = Some (n + 1)) as Hn1.
  { simpl. apply list_lookup_insert_Some. left. split; [done|]. split; [done|].
    by eapply lookup_lt_Some. }
  apply mbind_inv in H as [(url & s1 & H1 & H)|(e & H1 & ->)].
  2:{ apply keeps_url in H1. simpl in H1. by exists n. }
  apply keeps_url in H1. destruct s1 as [r2 l2]. cbn [fst] in H1.
  apply mbind_inv in H as [(a & s2 & H2 & H)|(e & H2 & ->)].
  2:{ apply keeps_post in H2. cbn [fst] in H2. exists n. by rewrite H2, H1. }
  apply keeps_post in H2. destruct s2 as [r3 l3]. cbn [fst] in H2.
  apply mbind_inv in H as [(u & s3 & H3 & H)|(e & H3 & ->)].
  2:{ apply (keeps_answer _ _ _ (fun o => keeps_yield yield o Hy)) in H3. cbn [fst] in H3.
      exists n. by rewrite H3, H2, H1. }
  apply (keeps_answer _ _ _ (fun o => keeps_yield yield o Hy)) in H3.
  destruct s3 as [r4 l4]. cbn [fst] in H3.
  assert (num_running_requests r4 = num_running_requests r1) as E by congruence.
  assert (num_running_requests r4 !! i = Some (n + 1)) as Hn4 by congruence.
  rewrite (add_running_spec i (-1) r4 l4 (n + 1) Hn4) in H. injection H as <- <- _. simpl.
  rewrite E. simpl. rewrite list_insert_insert_eq. apply list_insert_id. rewrite Hn. f_equal. lia.
Qed.

(** The disaggregated mode restores its counts after a completed request
    and after an [Exception], but not when the stream is abandoned or
    cancelled: then one more request stays counted on the decode server. *)
Theorem disagg_accounting {L} request request_id factor (yield : RYield L) r l x r' l' :
  (forall o, keeps_running (yield o)) ->
  _handle_completion_disagg request request_id factor yield (r, l) = (x, (r', l')) ->
  match _pick_endpoint (seq 1 (num_servers r - 1)) r,
        initial_window_end factor (cm_prompt request) with
  | Ok i, Ok _ =>
      match x with
      | Raise e =>
          if is_Exception e then num_running_requests r' = num_running_requests r
          else one_more i (num_running_requests r) (num_running_requests r')
      | Ok _ => num_running_requests r' = num_running_requests r
      end
  | _, _ => num_running_requests r' = num_running_requests r
  end.
Proof.
  intros Hy H. unfold _handle_completion_disagg in H.
  rewrite (mbind_Ok get_router _ _ r (r, l)) in H by done.
  destruct (_pick_endpoint _ r) as [i|y] eqn:Ep; [|by injection H as _ <- _].
  rewrite (mbind_lift _ _ _ i) in H by done.
  change (cm_prompt (set_user request (Some request_id))) with (cm_prompt request) in H.
  destruct (initial_window_end factor (cm_prompt request)) as [w|y] eqn:Ew;
    [|by injection H as _ <- _].
  rewrite (mbind_lift _ _ _ w) in H by done.
  destruct (pick_in_range _ _ _ Ep) as [n Hn].
  rewrite (mbind_Ok _ _ _ _ _ (add_running_spec i 1 r l n Hn)) in H.
  set (r1 := set_running r _) in H.
  assert (forall r2 (l2 : L), num_running_requests r2 = num_running_requests r1 ->
    exists r3, add_running i (-1) (r2, l2) = (Ok tt, (r3, l2)) /\
      num_running_requests r3 = num_running_requests r) as Hback.
  { intros r2 l2 E. eexists. split.
    - apply (add_running_spec i (-1) r2 l2 (n + 1)). rewrite E. simpl.
      apply list_lookup_insert_Some. left. split; [done|]. split; [done|].
      by eapply lookup_lt_Some.
    - simpl. rewrite E. simpl. rewrite list_insert_insert_eq. apply list_insert_id.
      rewrite Hn. f_equal. lia. }
  unfold except_Exception, mbind' at 1 in H.
  destruct (disagg_body _ _ _ _ _ (r1, l)) as [[[]|e] [r2 l2]] eqn:Eb in H;
    apply (keeps_disagg _ _ _ _ _ Hy) in Eb; cbn [fst] in Eb;
    destruct (Hback r2 l2 Eb) as (r3 & H3 & E3).
  - rewrite H3 in H. by injection H as <- <- _.
  - destruct (is_Exception e) eqn:Ee.
    + rewrite (mbind_Ok _ _ _ _ _ H3) in H. injection H as <- <- _. by rewrite Ee.
    + injection H as <- <- _. rewrite Ee. exists n. by rewrite Eb.
Qed.

(** C33: preempted requests are answered twice.  When a streamed request is
    preempted a number of times before an answer that is not, round robin
    terminates, with one POST per round; its client receives what every
    preempted round had sent before it was preempted and then the whole last
    answer; and every preempted round stays counted as a running request. *)
Theorem preempted_rounds {L} request rid (f : L -> CompletionResponse -> L) r l
    preempted rss last rs rest :
  round_robin_ok (S (length preempted)) r -> cm_stream request = true ->
  rt_answers r = preempted ++ last :: rest ->
  Forall2 streamed preempted rss -> Forall (fun rs => snd (before_preempt rs) = true) rss ->
  streamed last rs -> existsb is_preempt rs = false ->
  exists r', handle_completion request rid (folding f) (r, l)
    = (Ok tt, (r', fold_left f (concat (map (fun rs => fst (before_preempt rs)) rss) ++ rs) l)) /\
  length (rt_posts r') = (length (rt_posts r) + S (length preempted))%nat /\
  total (num_running_requests r')
  = total (num_running_requests r) + Z.of_nat (length preempted).
Proof.
  intros Hok Hs Ha Hp Hpre Hl Hlast.
  assert (before_preempt rs = (rs, false)) as Hb.
  { clear -Hlast. induction rs as [|r rs IH]; simpl in *; [done|].
    apply orb_false_elim in Hlast as [-> H]. by rewrite IH. }
  unfold handle_completion. rewrite (mbind_Ok get_router _ _ r (r, l)) by done.
  assert (cm_stream (prepare_request request) = true) as Hs'
    by (unfold prepare_request; destruct (cm_prompt request); simpl; by destruct (cm_debug_config request)).
  set (request' := prepare_request request) in *.
  assert (S (length preempted) <= S (length (rt_answers r)))%nat as Hfuel
    by (rewrite Ha, length_app; simpl; lia).
  revert Hfuel. generalize (S (length (rt_answers r))). intros fuel Hfuel.
  revert r l fuel Hok Ha Hfuel Hpre. induction Hp as [|a rs0 preempted rss Hd Hp IH];
    intros r l fuel Hok Ha Hfuel Hpre; (destruct fuel as [|fuel]; [simpl in Hfuel; lia|]);
    cbn [attempts].
  - destruct (attempt_spec 1 request' rid f r l last rest rs Hok Hs' Ha Hl) as (r' & H1 & _ & H3 & H4 & _).
    rewrite Hb in H1, H4. cbn [fst snd negb] in *. mstep H1. exists r'. simpl.
    split; [done|]. split; lia.
  - apply Forall_cons in Hpre as [Hpre0 Hpre].
    destruct (attempt_spec _ request' rid f r l a (preempted ++ last :: rest) rs0 Hok Hs' Ha Hd)
      as (r1 & H1 & H2 & H3 & H4 & H5).
    rewrite Hpre0 in H1, H4. cbn [negb] in H1. mstep H1. cbn [map concat].
    destruct (IH r1 (fold_left f (fst (before_preempt rs0)) l) fuel) as (r' & G1 & G2 & G3);
      [by apply H5|done|simpl in Hfuel; lia|done|].
    exists r'. rewrite <- app_assoc, fold_left_app. split; [done|]. simpl length. split; lia.
Qed.

(** The three calls of disaggregated serving.  With a balance factor that is
    zero, when the decode server [d] reports a matched prefix of [m] tokens of
    the prompt of [n] tokens, the router posts exactly: the preparation with
    window end [-1] to [d]; then, unless the prefix already reaches [n - 1], the
    tokens [m] to [n - 1] to the prefill server with the group offset of [d];
    then the start of the generation at [n - 1] to [d].  The client receives
    the responses, and the counts of running requests are restored. *)
Theorem disagg_posts {L} request rid factor (f : L -> CompletionResponse -> L) r l
    d ids m kv prep ack start rest rs urlp urld offset :
  cm_prompt request = PromptIds ids -> f64_ltb (f64_abs factor) f64_1e_5 = true ->
  CompletionRequest_validate (set_user request (Some rid)) = Ok (set_user request (Some rid)) ->
  _pick_endpoint (seq 1 (num_servers r - 1)) r = Ok d ->
  0 <= m <= Z.of_nat (length ids) - 1 -> validate_str (JStr kv) = Ok kv ->
  an_status prep = 200 -> an_json prep = Ok (JObj [("kv_append_metadata", JStr kv);
                                                   ("prefix_matched_length", JInt m)]) ->
  an_status ack = 200 -> is_ok (an_json ack) = true ->
  an_status start = 200 -> cm_stream request = true ->
  responses_of (an_content start) = Ok rs -> existsb is_preempt rs = false ->
  let e := Z.of_nat (length ids) - 1 in
  let request' := set_user request (Some rid) in
  rt_answers r = Ok prep :: (if m <? e then [Ok ack] else []) ++ Ok start :: rest ->
  server_urls r !! 0%nat = Some urlp -> server_urls r !! d = Some urld ->
  device_id_starts r !! d = Some offset ->
  exists r', _handle_completion_disagg request rid factor (strict f) (r, l)
    = (Ok tt, (r', fold_left f rs l)) /\
  num_running_requests r' = num_running_requests r /\
  rt_posts r' = ((rt_posts r
    ++ [(urld +:+ "/microserving/prep_recv", PrepRecvPayload (mkPrepRecvRequest request' (-1)))])
    ++ send_posts request' m e kv offset urlp)
    ++ [(urld +:+ "/microserving/start_generate",
         StartGeneratePayload (mkStartGenerateRequest request' e))].
Proof.
  intros Hids Hf Hv Hd Hm Hkv Hp1 Hp2 Ha1 Ha2 Hs1 Hst Hrs Hpre e request' Hans Hup Hud Hoff.
  unfold _handle_completion_disagg. rewrite (mbind_Ok get_router _ _ r (r, l)) by done.
  rewrite (mbind_lift _ _ _ d) by done.
  change (cm_prompt (set_user request (Some rid))) with (cm_prompt request).
  rewrite (mbind_lift _ _ _ (-1)) by (unfold initial_window_end; by rewrite Hf).
  destruct (pick_in_range _ _ _ Hd) as [k Hk].
  rewrite (mbind_Ok _ _ _ _ _ (add_running_spec d 1 r l k Hk)). fold request'.
  set (r1 := set_running r _).
  pose proof (disagg_body_posts f request' r1 l d m kv ids prep ack start rest rs urlp urld offset
    Hids Hv Hm Hkv Hp1 Hp2 Ha1 Ha2 Hs1 Hst Hrs Hpre Hans Hup Hud Hoff) as Hb.
  fold e in Hb. set (r2 := set_net r1 _ _) in Hb.
  rewrite (mbind_Ok (except_Exception _ _) _ _ tt (r2, fold_left f rs l))
    by (unfold except_Exception; by rewrite Hb).
  rewrite (add_running_spec d (-1) r2 (fold_left f rs l) (k + 1)).
  2:{ simpl. apply list_lookup_insert_Some. left. split; [done|]. split; [done|].
      by eapply lookup_lt_Some. }
  eexists. split; [reflexivity|]. split; [|done]. simpl.
  rewrite list_insert_insert_eq. apply list_insert_id. rewrite Hk. f_equal. lia.
Qed.
End Theorems.

(** ** Witnesses *)

Module RouterWitness.
Import PipelineWitness ServerWitness.

(** A chunk whose data is [w]: one choice with text [w], preempted when it says so. *)
Definition chunk_response (w : string) : CompletionResponse :=
  mkCompletionResponse "r"
    [mkCompletionResponseChoice (if String.eqb w "preempt" then Some "preempt" else None) 0 None w]
    None None.

#[export] Instance demo_router : RouterBackend :=
  {| json_loads s := Ok (JStr s);
     validate_response j := match j with
                            | JStr w => Ok (chunk_response w)
                            | _ => Raise ValidationError
                            end |}.

Definition lines (ws : list string) : res Answer :=
  Ok (mkAnswer 200 (map (fun w => Ok ("data: " +:+ w +:+ newline)) ws) (Raise SyntaxError)).

Definition busy_router (answers : list (res Answer)) : Router :=
  mkRouter "round-robin" (S754_zero false) 3 ["u0"; "u1"; "u2"] [0; 1; 2; 3] [4; 2; 2] answers [].

Example pick_endpoint_witness :
  _pick_endpoint [0; 1; 2]%nat (busy_router []) = Ok 1%nat /\
  exists n, first_least [4; 2; 2] [0; 1; 2]%nat 1 n /\ n < 1000000000.
Proof.
  split; [reflexivity|].
  apply (pick_endpoint_least_loaded [0; 1; 2]%nat (busy_router [])).
  repeat (constructor; [simpl; lia|]). constructor.
Defined.

(** The completion request of [ServerWitness], streamed. *)
Definition streamed_request : CompletionRequest := completion_request.

(** A consumer that keeps the texts. *)
Definition texts (l : list string) (r : CompletionResponse) : list string :=
  l ++ map cc_text (cresp_choices r).

Lemma strict_keeps o : keeps_running (strict texts o).
Proof. destruct o as [x|]; [intros [r l] y s' [= _ <-]; done|apply keeps_lift]. Qed.

(** The server answers with status 503. *)
Definition failing : list (res Answer) := [Ok (mkAnswer 503 [] (Raise SyntaxError))].

Example round_robin_witness :
  exists r' l', _handle_completion_round_robin streamed_request (strict texts) (busy_router failing, [])
    = (Raise AssertionError, (r', l')) /\ one_more 1 [4; 2; 2] (num_running_requests r').
Proof.
  destruct (_handle_completion_round_robin streamed_request (strict texts) (busy_router failing, []))
    as [x [r' l']] eqn:E.
  pose proof (round_robin_accounting streamed_request (strict texts) (busy_router failing) [] x r' l'
    strict_keeps E) as H.
  assert (x = fst (_handle_completion_round_robin streamed_request (strict texts)
    (busy_router failing, []))) as Hx by (by rewrite E).
  vm_compute in Hx. subst x. exists r', l'. split; [reflexivity|exact H].
Defined.

(** The client of a disaggregated request goes away at the first response. *)
Definition leaving (o : option CompletionResponse) : RM (list string) unit := mraise GeneratorExit.
Definition prep_answer : Answer :=
  mkAnswer 200 [] (Ok (JObj [("kv_append_metadata", JStr "kv"); ("prefix_matched_length", JInt 1)])).
Definition ack_answer : Answer := mkAnswer 200 [] (Ok (JObj [])).
Definition words : Answer :=
  mkAnswer 200 (map (fun w => Ok ("data: " +:+ w +:+ newline)) ["Hello"; "world"; "[DONE]"])
    (Raise SyntaxError).
Definition disagg_router : Router :=
  mkRouter "disagg" (S754_zero false) 3 ["u0"; "u1"; "u2"] [0; 1; 2; 3] [0; 2; 1]
    [Ok prep_answer; Ok ack_answer; Ok words] [].
Definition three_tokens : CompletionRequest := set_prompt streamed_request (PromptIds [5; 6; 7]).

Example disagg_accounting_witness :
  exists r' l', _handle_completion_disagg three_tokens "id" (S754_zero false) leaving (disagg_router, [])
    = (Raise GeneratorExit, (r', l')) /\ one_more 2 [0; 2; 1] (num_running_requests r').
Proof.
  destruct (_handle_completion_disagg three_tokens "id" (S754_zero false) leaving (disagg_router, []))
    as [x [r' l']] eqn:E.
  pose proof (disagg_accounting three_tokens "id" (S754_zero false) leaving disagg_router [] x r' l'
    ltac:(intros o; apply keeps_lift) E) as H.
  assert (x = fst (_handle_completion_disagg three_tokens "id" (S754_zero false) leaving
    (disagg_router, []))) as Hx by (by rewrite E).
  vm_compute in Hx. subst x. exists r', l'. split; [reflexivity|exact H].
Defined.

(** Preempted after one word, then answered in full: the client reads the first
    word twice. *)
Example preempted_rounds_witness :
  exists r', handle_completion streamed_request "id" (folding texts)
    (busy_router [lines ["Hello"; "preempt"]; lines ["Hello"; "world"; "[DONE]"]], [])
    = (Ok tt, (r', ["Hello"; "Hello"; "world"])) /\
  length (rt_posts r') = 2%nat /\ total (num_running_requests r') = 9.
Proof.
  exact (preempted_rounds streamed_request "id" texts
    (busy_router [lines ["Hello"; "preempt"]; lines ["Hello"; "world"; "[DONE]"]]) []
    [lines ["Hello"; "preempt"]] [map chunk_response ["Hello"; "preempt"]]
    (lines ["Hello"; "world"; "[DONE]"]) (map chunk_response ["Hello"; "world"]) []
    ltac:(split; [done|]; split; [simpl; lia|]; split; [done|]; split; [done|];
          repeat (constructor; [simpl; lia|]); constructor)
    eq_refl eq_refl
    ltac:(constructor; [eexists; split; [reflexivity|]; split; reflexivity|constructor])
    ltac:(constructor; [reflexivity|constructor])
    ltac:(eexists; split; [reflexivity|]; split; reflexivity) eq_refl).
Defined.

Example disagg_posts_witness :
  exists r', _handle_completion_disagg three_tokens "id" (S754_zero false) (strict texts)
    (disagg_router, []) = (Ok tt, (r', ["Hello"; "world"])) /\
  num_running_requests r' = [0; 2; 1] /\
  rt_posts r' =
    [("u2/microserving/prep_recv",
      PrepRecvPayload (mkPrepRecvRequest (set_user three_tokens (Some "id")) (-1)));
     ("u0/microserving/remote_send",
      RemoteSendPayload (mkRemoteSendRequest (set_user three_tokens (Some "id")) 1 2 "kv" 2));
     ("u2/microserving/start_generate",
      StartGeneratePayload (mkStartGenerateRequest (set_user three_tokens (Some "id")) 2))].
Proof.
  exact (disagg_posts three_tokens "id" (S754_zero false) texts disagg_router [] 2 [5; 6; 7] 1 "kv"
    prep_answer ack_answer words [] (map chunk_response ["Hello"; "world"]) "u0" "u2" 2
    eq_refl eq_refl eq_refl eq_refl ltac:(simpl; lia) eq_refl eq_refl eq_refl eq_refl eq_refl
    eq_refl eq_refl eq_refl eq_refl eq_refl eq_refl eq_refl eq_refl).
Defined.
End RouterWitness.
