(* ===== verification/Loader.v ===== *)
(** * The weight loader ([loader/])

    [HuggingFaceLoader] reads the weight files of a HuggingFace repository,
    combines their tensors into the parameters of a model and quantizes them.
    It keeps the files it has read in a cache, which it trims when it has to
    read another file; [_loading_order] orders the parameters so that a file
    is read as few times as possible.

    The files, the tensors and the quantization functions are parameters; a
    tensor belongs to the path its file has in the index.  [load] is a
    generator, modelled as the list it yields when it is iterated to its end.
    The order in which Python iterates over a set of paths is unspecified; here
    it is the order of first occurrence. *)

From Stdlib Require Import SpecFloat Ascii.
From stdpp Require Import base list strings pretty.
From S2P Require Import Prelude PyStr.
Local Open Scope string_scope.
Local Open Scope list_scope.
Local Open Scope Z_scope.

(** ** Sets of strings *)

(** Adding to a set. *)
Definition set_add (l : list string) (s : string) : list string :=
  if str_mem s l then l else l ++ [s].
Definition set_of (l : list string) : list string := fold_left set_add l [].
Definition set_diff (a b : list string) : list string :=
  List.filter (fun s => negb (str_mem s b)) a.

(** ** Parameters *)

(** Arrays, the files (the two shard readers and the JSON index), and the
    conversion to a device array. *)
Class WeightFiles := {
  array : Type;
  nd_array : Type;
  nbytes : array -> Z;
  array_size : array -> Z;
  as_ndarray : array -> nd_array;
  is_file : string -> bool;
  load_safetensor_shard : string -> res (list (string * array));
  load_torch_shard : string -> res (list (string * array));
  read_weight_map : string -> res (dict string);
}.

Section Loader.
Context `{WF : WeightFiles}.

(** ** [ExternMapping] and [QuantizeMapping] *)

Record ExternMapping : Type := mkExternMapping {
  param_map : dict (list string);
  map_func : dict (list array -> res array);
  unused_params : list string;
}.

Definition ExternMapping_new : ExternMapping := mkExternMapping [] [] [].

(** [add_mapping] *)
Definition add_mapping (m : ExternMapping) (map_from : string) (map_to : list string)
    (func : list array -> res array) : ExternMapping :=
  mkExternMapping (dict_set (param_map m) map_from map_to)
    (dict_set (map_func m) map_from func) (unused_params m).

(** [add_unused] *)
Definition add_unused (m : ExternMapping) (name : string) : ExternMapping :=
  mkExternMapping (param_map m) (map_func m) (set_add (unused_params m) name).

Record QuantizeMapping : Type := mkQuantizeMapping {
  q_param_map : dict (list string);
  q_map_func : dict (nd_array -> res (list nd_array));
}.

(** ** [Stats]; the timers are left out *)

Record Stats : Type := mkStats {
  current_memory_gb : pyfloat;
  total_memory_gb : pyfloat;
  max_memory_gb : pyfloat;
  total_param_num : Z;
}.

Definition f64_add (a b : pyfloat) : pyfloat := SFadd 53 1024 a b.
Definition f64_minus (a b : pyfloat) : pyfloat := SFsub 53 1024 a b.
Definition gb (nbytes : Z) : pyfloat := SFdiv 53 1024 (f64_of_Z nbytes) (f64_of_Z (1024 ^ 3)).

Definition Stats_new : Stats := mkStats (S754_zero false) (S754_zero false) (S754_zero false) 0.

(** [mem_add] *)
Definition mem_add (st : Stats) (nbytes : Z) : Stats :=
  let mem_gb := gb nbytes in
  let current := f64_add (current_memory_gb st) mem_gb in
  mkStats current (f64_add (total_memory_gb st) mem_gb)
    (if f64_ltb (max_memory_gb st) current then current else max_memory_gb st)
    (total_param_num st).

(** [mem_rm] *)
Definition mem_rm (st : Stats) (nbytes : Z) : Stats :=
  mkStats (f64_minus (current_memory_gb st) (gb nbytes)) (total_memory_gb st)
    (max_memory_gb st) (total_param_num st).

Definition add_param_num (st : Stats) (n : Z) : Stats :=
  mkStats (current_memory_gb st) (total_memory_gb st) (max_memory_gb st) (total_param_num st + n).

(** ** [check_parameter_usage] *)

Definition used_extern_names (m : ExternMapping) : list string :=
  set_of (concat (map snd (param_map m))).

(** [sorted]; the order of code points is the order of their UTF-8 bytes. *)
Fixpoint insert_sorted (s : string) (l : list string) : list string :=
  match l with
  | [] => [s]
  | x :: xs => if String.leb s x then s :: l else x :: insert_sorted s xs
  end.
Definition sorted_names (l : list string) : list string := foldr insert_sorted [] l.

(** The warning about unused parameters is only logged. *)
Definition check_parameter_usage (m : ExternMapping) (extern_weights : list string) : res unit :=
  let nonexistent_extern_names := set_diff (used_extern_names m) extern_weights in
  match nonexistent_extern_names with
  | [] => Ok tt
  | names => Raise (ValueError [Lit "The following extern parameters do not exist in the weight files:";
                                FStrs (sorted_names names)])
  end.

(** ** [HuggingFaceLoader] *)

(** The attributes that do not change after [__init__], and those that do. *)
Record LoaderConfig : Type := mkLoaderConfig {
  extern_param_map : ExternMapping;
  torch_to_path : dict string;
  quantize_param_map : option QuantizeMapping;
}.

Record LoaderState : Type := mkLoaderState {
  cached_files : dict (dict array);
  stats : Stats;
}.

(** [path.suffix]: from the last dot of the last component, which is not its
    first or last character. *)
Fixpoint last_component (s cur : string) : string :=
  match s with
  | EmptyString => cur
  | String c s' => if Ascii.eqb c "/"%char then last_component s' EmptyString
                   else last_component s' (cur +:+ String c EmptyString)
  end.

Fixpoint suffix_from (first : bool) (s best : string) : string :=
  match s with
  | EmptyString => best
  | String c s' =>
      if (Ascii.eqb c "."%char && negb first)%bool
      then suffix_from false s' (if String.eqb s' "" then "" else s)
      else suffix_from false s' best
  end.

Definition path_suffix (path : string) : string :=
  suffix_from true (last_component path EmptyString) EmptyString.

(** [path.parent / name] of a normalised path *)
Fixpoint parent_prefix (s cur : string) : string :=
  match s with
  | EmptyString => EmptyString
  | String c s' => let cur := cur +:+ String c EmptyString in
                   if Ascii.eqb c "/"%char then cur +:+ parent_prefix s' EmptyString
                   else parent_prefix s' cur
  end.

Definition sibling_path (path name : string) : string :=
  if String.prefix "/" name then name else parent_prefix path EmptyString +:+ name.

(** [_load_file].  A shard reader that raises does so before it yields anything. *)
Fixpoint load_params (unused : list string) (l : list (string * array)) (st : Stats) : Stats :=
  match l with
  | [] => st
  | (name, param) :: l =>
      let st := mem_add st (nbytes param) in
      let st := if str_mem name unused then st else add_param_num st (array_size param) in
      load_params unused l st
  end.

Definition read_shard (path : string) : res (list (string * array)) :=
  if String.eqb (path_suffix path) ".safetensors" then load_safetensor_shard path
  else load_torch_shard path.

Definition _load_file (m : ExternMapping) (path : string) : M LoaderState unit :=
  fun s =>
    match read_shard path with
    | Raise x => (Raise x, s)
    | Ok l => (Ok tt, mkLoaderState (dict_set (cached_files s) path (dict_of l))
                        (load_params (unused_params m) l (stats s)))
    end.

(** [_unload_file] *)
Definition _unload_file (path : string) : M LoaderState unit :=
  fun s =>
    match dict_get (cached_files s) path with
    | None => (Raise (KeyError path), s)
    | Some d =>
        (Ok tt, mkLoaderState (dict_del (cached_files s) path)
                  (fold_left (fun st kv => mem_rm st (nbytes (snd kv))) d (stats s)))
    end.

Fixpoint for_paths (body : string -> M LoaderState unit) (l : list string) : M LoaderState unit :=
  match l with
  | [] => mret' tt
  | p :: l => body p ;! for_paths body l
  end.

(** [HuggingFaceLoader.__init__]; [read_weight_map] gives the entry [weight_map]
    of the JSON index *)
Definition HuggingFaceLoader_init (path : string) (m : ExternMapping)
    (q : option QuantizeMapping) : res (LoaderConfig * LoaderState) :=
  let? _ := py_assert (is_file path) in
  let suffix := path_suffix path in
  let s0 := mkLoaderState [] Stats_new in
  let? (paths, s) :=
    if str_mem suffix [".bin"; ".safetensors"; ".pt"] then
      match _load_file m path s0 with
      | (Raise x, _) => Raise x
      | (Ok _, s) =>
          let? d := dict_getitem (cached_files s) path in
          Ok (dict_of (map (fun name => (name, path)) (dict_keys d)), s)
      end
    else if String.eqb suffix ".json" then
      let? weight_map := read_weight_map path in
      Ok (dict_of (map (fun kv => (fst kv, sibling_path path (snd kv))) weight_map), s0)
    else Raise (FileNotFoundError [Lit "Unknown file suffix: "; FStr path]) in
  let? _ := check_parameter_usage m (dict_keys paths) in
  Ok (mkLoaderConfig m paths q, s).

(** [defaultdict(list)]: [d[k].append(v)] *)
Definition append_to (d : dict (list string)) (k v : string) : dict (list string) :=
  dict_set d k (opt_default [] (dict_get d k) ++ [v]).

(** [_loading_order] *)
Definition path_to_torch (torch_to_path : dict string) : dict (list string) :=
  fold_left (fun d tp => append_to d (snd tp) (fst tp)) torch_to_path [].

Definition torch_to_mlc (pm : dict (list string)) : dict (list string) :=
  fold_left (fun d mt => fold_left (fun d t => append_to d t (fst mt)) (snd mt) d) pm [].

Definition _loading_order (m : ExternMapping) (torch_to_path : dict string) : list string :=
  let by_torch := torch_to_mlc (param_map m) in
  fold_left
    (fun order torch_names =>
       fold_left
         (fun order torch_name =>
            fold_left set_add (opt_default [] (dict_get by_torch torch_name)) order)
         torch_names order)
    (map snd (path_to_torch torch_to_path)) [].

(** [self.cached_files[self.torch_to_path[i]][i]] *)
Definition cached_param (c : LoaderConfig) (s : LoaderState) (i : string) : res array :=
  let? path := dict_getitem (torch_to_path c) i in
  let? d := dict_getitem (cached_files s) path in
  dict_getitem d i.

(** [_load_mlc_param] *)
Definition _load_mlc_param (c : LoaderConfig) (mlc_name : string) : M LoaderState nd_array :=
  let m := extern_param_map c in
  let! torch_names := mlift (dict_getitem (param_map m) mlc_name) in
  let! required := mlift (rmap (dict_getitem (torch_to_path c)) torch_names) in
  let files_required := set_of required in
  let! s := mget in
  let files_existing := dict_keys (cached_files s) in
  let files_to_load := set_diff files_required files_existing in
  let files_to_unload := set_diff files_existing files_required in
  (match files_to_load with
   | [] => mret' tt
   | _ => for_paths _unload_file files_to_unload
   end) ;!
  for_paths (_load_file m) files_to_load ;!
  let! s := mget in
  let! torch_params := mlift (rmap (cached_param c s) torch_names) in
  let! func := mlift (dict_getitem (map_func m) mlc_name) in
  let! param := mlift (func torch_params) in
  mret' (as_ndarray param).

(** [_load_or_quantize]: the named parameters it yields *)
Definition _load_or_quantize (c : LoaderConfig) (mlc_name : string) (param : nd_array)
  : res (list (string * nd_array)) :=
  match quantize_param_map c with
  | Some q =>
      if dict_has (q_param_map q) mlc_name then
        let? q_names := dict_getitem (q_param_map q) mlc_name in
        let? func := dict_getitem (q_map_func q) mlc_name in
        let? q_params := func param in
        Ok (combine q_names q_params)
      else Ok [(mlc_name, param)]
  | None => Ok [(mlc_name, param)]
  end.

(** [_sharded_param_name] *)
Definition _sharded_param_name (param_name : string) (worker_id : nat) : string :=
  param_name +:+ "_shard-" +:+ pretty worker_id.

(** What [load] yields for one loaded or quantized parameter. *)
Definition preshard (preshard_funcs : option (dict (nd_array -> res (list nd_array))))
    (np : string * nd_array) : res (list (string * nd_array)) :=
  let '(name, loader_param) := np in
  match preshard_funcs with
  | Some fs =>
      match dict_get fs name with
      | Some func =>
          let? shards := func loader_param in
          Ok (map (fun '(i, p) => (_sharded_param_name name i, p)) (enumerate shards))
      | None => Ok [(name, loader_param)]
      end
  | None => Ok [(name, loader_param)]
  end.

(** What [load] yields for one parameter of the model. *)
Definition load_one (c : LoaderConfig)
    (preshard_funcs : option (dict (nd_array -> res (list nd_array)))) (mlc_name : string)
  : M LoaderState (list (string * nd_array)) :=
  let! param := _load_mlc_param c mlc_name in
  let! loaded := mlift (_load_or_quantize c mlc_name param) in
  let! outs := mlift (rmap (preshard preshard_funcs) loaded) in
  mret' (concat outs).

Fixpoint load_all (c : LoaderConfig)
    (preshard_funcs : option (dict (nd_array -> res (list nd_array)))) (l : list string)
  : M LoaderState (list (string * nd_array)) :=
  match l with
  | [] => mret' []
  | n :: l =>
      let! out := load_one c preshard_funcs n in
      let! outs := load_all c preshard_funcs l in
      mret' (out ++ outs)
  end.

(** [load], iterated to its end *)
Definition load (c : LoaderConfig)
    (preshard_funcs : option (dict (nd_array -> res (list nd_array))))
  : M LoaderState (list (string * nd_array)) :=
  let! outs := load_all c preshard_funcs (_loading_order (extern_param_map c) (torch_to_path c)) in
  let! s := mget in
  for_paths _unload_file (dict_keys (cached_files s)) ;!
  mret' outs.
End Loader.

(** ** Specifications *)

Section Specs.
Context `{WF : WeightFiles}.

(** The value of a source tensor, read from its file. *)
Definition disk_value (c : LoaderConfig) (t : string) : res array :=
  let? path := dict_getitem (torch_to_path c) t in
  let? l := read_shard path in
  dict_getitem (dict_of l) t.

(** Loading without a cache: a parameter is its mapping function applied to
    the values of its sources. *)
Definition param_spec (c : LoaderConfig) (mlc_name : string) : res nd_array :=
  let? torch_names := dict_getitem (param_map (extern_param_map c)) mlc_name in
  let? torch_params := rmap (disk_value c) torch_names in
  let? func := dict_getitem (map_func (extern_param_map c)) mlc_name in
  let? param := func torch_params in
  Ok (as_ndarray param).

Definition load_spec (c : LoaderConfig)
    (preshard_funcs : option (dict (nd_array -> res (list nd_array))))
  : res (list (string * nd_array)) :=
  let? outs := rmap (fun n => let? param := param_spec c n in
                              let? loaded := _load_or_quantize c n param in
                              let? outs := rmap (preshard preshard_funcs) loaded in
                              Ok (concat outs))
                 (_loading_order (extern_param_map c) (torch_to_path c)) in
  Ok (concat outs).

(** The cache holds what is on disk, once per file. *)
Definition cache_ok (s : LoaderState) : Prop :=
  NoDup (dict_keys (cached_files s)) /\
  forall p d, dict_get (cached_files s) p = Some d ->
    exists l, read_shard p = Ok l /\ d = dict_of l.

(** The index of the weights is right: every tensor is in its file, and every
    source of the mapping is in the index. *)
Definition weights_ok (c : LoaderConfig) : Prop :=
  (forall t p, dict_get (torch_to_path c) t = Some p ->
     exists l, read_shard p = Ok l /\ dict_has (dict_of l) t = true) /\
  check_parameter_usage (extern_param_map c) (dict_keys (torch_to_path c)) = Ok tt.
End Specs.

(** ** Lemmas: dictionaries and sets *)

Lemma set_add_In l s x : In x (set_add l s) <-> In x l \/ x = s.
Proof.
  unfold set_add. destruct (str_mem s l) eqn:E.
  - apply str_mem_In in E. split; [auto|]. by intros [H| ->].
  - rewrite in_app_iff. simpl. naive_solver.
Qed.

Lemma set_add_NoDup l s : NoDup l -> NoDup (set_add l s).
Proof.
  unfold set_add. intros H. destruct (str_mem s l) eqn:E; [done|].
  apply NoDup_app. split; [done|]. split; [|apply NoDup_singleton].
  intros x Hx ->%list_elem_of_singleton. apply list_elem_of_In in Hx.
  by rewrite (proj2 (str_mem_In s l) Hx) in E.
Qed.

Lemma fold_set_add l : forall acc,
  (NoDup acc -> NoDup (fold_left set_add l acc)) /\
  forall x, In x (fold_left set_add l acc) <-> In x acc \/ In x l.
Proof.
  induction l as [|y l IH]; intros acc; simpl; [naive_solver|].
  destruct (IH (set_add acc y)) as [H1 H2]. split.
  - intros H. by apply H1, set_add_NoDup.
  - intros x. rewrite H2, set_add_In. naive_solver.
Qed.

Lemma set_of_In l x : In x (set_of l) <-> In x l.
Proof. unfold set_of. rewrite (proj2 (fold_set_add l [])). simpl. tauto. Qed.

Lemma set_diff_In a b x : In x (set_diff a b) <-> In x a /\ ~ In x b.
Proof.
  unfold set_diff. rewrite filter_In, <- (str_mem_In x b).
  destruct (str_mem x b); simpl; naive_solver.
Qed.

Section Lemmas.
Context `{WF : WeightFiles}.

(** *** The cache *)

Lemma unload_all P : forall s, cache_ok s -> NoDup P -> (forall p, In p P -> In p (dict_keys (cached_files s))) ->
  exists s', for_paths _unload_file P s = (Ok tt, s') /\ cache_ok s' /\
    forall p, dict_get (cached_files s') p
              = if str_mem p P then None else dict_get (cached_files s) p.
Proof.
  induction P as [|q P IH]; intros s [Hnd Hc] HP Hin; [by exists s|].
  apply NoDup_cons in HP as [Hq HP]. cbn [for_paths].
  destruct (proj1 (dict_get_In _ q) (Hin q (or_introl eq_refl))) as [d Hd].
  set (s1 := mkLoaderState (dict_del (cached_files s) q)
    (fold_left (fun st kv => mem_rm st (nbytes (snd kv))) d (stats s))).
  assert (_unload_file q s = (Ok tt, s1)) as H1 by (unfold _unload_file; by rewrite Hd).
  mstep H1.
  assert (forall p, dict_get (cached_files s1) p
    = if String.eqb p q then None else dict_get (cached_files s) p) as Hg
    by (intros p; by apply dict_get_del).
  destruct (IH s1) as (s' & H2 & Hok & H3).
  - split; [by apply dict_del_NoDup|]. intros p d' Hp. rewrite Hg in Hp.
    destruct (String.eqb p q); [done|]. by apply Hc.
  - done.
  - intros p Hp. apply dict_get_In. rewrite Hg. destruct (String.eqb_spec p q) as [->|].
    + by destruct Hq; apply list_elem_of_In.
    + apply dict_get_In, Hin. by right.
  - exists s'. split; [done|]. split; [done|]. intros p. rewrite H3, Hg. cbn [str_mem existsb].
    fold (str_mem p P). by destruct (str_mem p P), (String.eqb p q).
Qed.

Lemma load_paths m P : forall s, cache_ok s -> (forall p, In p P -> exists l, read_shard p = Ok l) ->
  exists s', for_paths (_load_file m) P s = (Ok tt, s') /\ cache_ok s' /\
    forall p, In p (dict_keys (cached_files s')) <-> In p P \/ In p (dict_keys (cached_files s)).
Proof.
  induction P as [|q P IH]; intros s [Hnd Hc] Hr.
  { exists s. split; [done|]. split; [done|]. intros p. simpl. tauto. }
  destruct (Hr q (or_introl eq_refl)) as [l Hl]. cbn [for_paths].
  set (s1 := mkLoaderState (dict_set (cached_files s) q (dict_of l))
    (load_params (unused_params m) l (stats s))).
  assert (_load_file m q s = (Ok tt, s1)) as H1 by (unfold _load_file; by rewrite Hl).
  mstep H1. destruct (IH s1) as (s' & H2 & Hok & H3).
  - split; [by apply dict_set_NoDup|]. intros p d' Hp. simpl in Hp. rewrite dict_get_set in Hp.
    destruct (String.eqb_spec p q) as [->|]; [|by apply Hc]. injection Hp as <-. by exists l.
  - intros p Hp. apply Hr. by right.
  - exists s'. split; [done|]. split; [done|]. intros p. rewrite H3. simpl.
    rewrite dict_keys_set. split; [intros [?|[?|?]]; auto|intros [[?|?]|?]; auto].
Qed.

Lemma usage_Ok m ws : check_parameter_usage m ws = Ok tt <->
  forall n ts t, In (n, ts) (param_map m) -> In t ts -> In t ws.
Proof.
  unfold check_parameter_usage. split.
  - destruct (set_diff (used_extern_names m) ws) eqn:E; [|done]. intros _ n ts t Hn Ht.
    destruct (in_dec String.string_dec t ws) as [|Hnot]; [done|].
    assert (In t (set_diff (used_extern_names m) ws)) as H; [|by rewrite E in H].
    apply set_diff_In. split; [|done]. apply set_of_In, in_concat. exists ts. split; [|done].
    apply in_map_iff. by exists (n, ts).
  - intros H. destruct (set_diff (used_extern_names m) ws) as [|t l] eqn:E; [done|].
    assert (In t (set_diff (used_extern_names m) ws)) as Ht by (rewrite E; by left).
    apply set_diff_In in Ht as [Ht Hn]. apply set_of_In, in_concat in Ht as (ts & Hts & Ht).
    apply in_map_iff in Hts as ([n ts'] & <- & Hn'). destruct Hn. by eapply H.
Qed.

Lemma dict_getitem_Ok {V} (d : dict V) k v : dict_get d k = Some v -> dict_getitem d k = Ok v.
Proof. unfold dict_getitem. by intros ->. Qed.

(** The paths of sources that the index knows. *)
Lemma required_paths c ts : (forall t, In t ts -> In t (dict_keys (torch_to_path c))) ->
  exists ps, rmap (dict_getitem (torch_to_path c)) ts = Ok ps /\
    forall p, In p ps <-> exists t, In t ts /\ dict_get (torch_to_path c) t = Some p.
Proof.
  induction ts as [|t ts IH]; intros H; simpl.
  { exists []. split; [done|]. intros p. split; [done|]. by intros (t & [] & _). }
  destruct (proj1 (dict_get_In _ t) (H t (or_introl eq_refl))) as [p Hp].
  rewrite (dict_getitem_Ok _ _ _ Hp). cbn [rbind].
  destruct IH as (ps & -> & Hps); [intros t' Ht'; apply H; by right|].
  exists (p :: ps). split; [done|]. intros q. simpl. rewrite Hps. split.
  - intros [<-|(t' & Ht' & Hq)]; [by exists t; auto|by exists t'; auto].
  - intros (t' & [<-|Ht'] & Hq); [left; congruence|right; by exists t'].
Qed.

(** With its file in the cache, a source has its value on disk. *)
Lemma cached_param_spec c s t : cache_ok s ->
  (forall p, dict_get (torch_to_path c) t = Some p -> In p (dict_keys (cached_files s))) ->
  cached_param c s t = disk_value c t.
Proof.
  intros [_ Hc] Hin. unfold cached_param, disk_value, dict_getitem.
  destruct (dict_get (torch_to_path c) t) as [p|]; [|done]. cbn [opt_res rbind].
  destruct (proj1 (dict_get_In _ p) (Hin p eq_refl)) as [d Hd]. rewrite Hd.
  destruct (Hc p d Hd) as (l & Hl & ->). by rewrite Hl.
Qed.

(** What a parameter leaves in the cache, from the files it needs and those
    that were cached: nothing changes when all are there, otherwise exactly the
    needed files stay. *)
Definition cache_after (required existing after : list string) : Prop :=
  (set_diff (set_of required) existing = [] /\ forall p, In p after <-> In p existing) \/
  (set_diff (set_of required) existing <> [] /\ forall p, In p after <-> In p required).

Lemma NoDup_set_diff a b : NoDup a -> NoDup (set_diff a b).
Proof.
  unfold set_diff. induction 1 as [|x l Hx Hl IH]; simpl; [constructor|].
  destruct (negb _); [|done]. constructor; [|done].
  rewrite list_elem_of_In, filter_In, <- list_elem_of_In. tauto.
Qed.

(** The first step: files are unloaded only when another one is to be read, and
    then those that are not needed. *)
Lemma make_room ps (to_load : list string) s : cache_ok s ->
  let existing := dict_keys (cached_files s) in
  exists s1, (match to_load with [] => mret' tt
              | _ => for_paths _unload_file (set_diff existing (set_of ps)) end) s = (Ok tt, s1) /\
    cache_ok s1 /\
    forall p, In p (dict_keys (cached_files s1)) <-> In p existing /\ (to_load = [] \/ In p ps).
Proof.
  intros Hs. cbv zeta. set (existing := dict_keys (cached_files s)).
  destruct to_load as [|q to_load].
  { exists s. split; [done|]. split; [done|]. intros p. unfold existing. tauto. }
  destruct (unload_all (set_diff existing (set_of ps)) s Hs) as (s1 & H1 & Hok1 & Hg).
  - by apply NoDup_set_diff, Hs.
  - intros p Hp. by apply set_diff_In in Hp as [Hp _].
  - exists s1. split; [done|]. split; [done|]. intros p. rewrite dict_get_In, Hg.
    destruct (str_mem p _) eqn:Em.
    + apply str_mem_In, set_diff_In in Em as [_ Em]. rewrite set_of_In in Em.
      split; [by intros [? ?]|]. intros [_ [?|?]]; done.
    + rewrite <- dict_get_In. fold existing. split; [|tauto]. intros Hp. split; [done|]. right.
      destruct (in_dec String.string_dec p ps) as [|Hnot]; [done|].
      rewrite (proj2 (str_mem_In _ _)) in Em; [done|]. apply set_diff_In.
      by rewrite set_of_In.
Qed.

(** Both steps: afterwards the needed files are cached. *)
Lemma make_cache m ps s : cache_ok s ->
  (forall p, In p ps -> exists l, read_shard p = Ok l) ->
  let existing := dict_keys (cached_files s) in
  let to_load := set_diff (set_of ps) existing in
  exists s', ((match to_load with [] => mret' tt
               | _ => for_paths _unload_file (set_diff existing (set_of ps)) end) ;!
              for_paths (_load_file m) to_load) s = (Ok tt, s') /\
    cache_ok s' /\ cache_after ps existing (dict_keys (cached_files s')) /\
    forall p, In p ps -> In p (dict_keys (cached_files s')).
Proof.
  intros Hs Hread. cbv zeta. set (existing := dict_keys (cached_files s)).
  set (to_load := set_diff (set_of ps) existing).
  assert (forall p, In p to_load <-> In p ps /\ ~ In p existing) as Hto
    by (intros p; unfold to_load; by rewrite set_diff_In, set_of_In).
  destruct (make_room ps to_load s Hs) as (s1 & H1 & Hok1 & Hk1). fold existing in H1, Hk1. mstep H1.
  destruct (load_paths m to_load s1 Hok1) as (s2 & H2 & Hok2 & Hk2).
  { intros p Hp. by apply Hread, Hto. }
  exists s2. split; [done|]. split; [done|].
  assert (forall p, In p ps -> In p (dict_keys (cached_files s2))) as Hall.
  { intros p Hp. rewrite Hk2, Hto, Hk1. destruct (in_dec String.string_dec p existing); tauto. }
  split; [|done]. unfold cache_after. fold existing to_load.
  destruct (decide (to_load = [])) as [E|E]; [left|right]; (split; [done|]); intros p.
  - rewrite Hk2, Hk1, E. simpl. tauto.
  - split; [|apply Hall]. rewrite Hk2, Hk1, Hto. tauto.
Qed.

(** With their files cached, the tensors have the values on disk. *)
Lemma cached_values c s ts : cache_ok s ->
  (forall t p, In t ts -> dict_get (torch_to_path c) t = Some p -> In p (dict_keys (cached_files s))) ->
  rmap (cached_param c s) ts = rmap (disk_value c) ts.
Proof.
  intros Hs. induction ts as [|t ts IH]; intros H; simpl; [done|].
  rewrite cached_param_spec; [|done|].
  - rewrite IH; [done|]. intros t' p Ht'. apply H. by right.
  - intros p. apply H. by left.
Qed.

Lemma load_mlc_param_run c n s : weights_ok c -> cache_ok s ->
  In n (dict_keys (param_map (extern_param_map c))) ->
  exists s' ts ps, _load_mlc_param c n s = (param_spec c n, s') /\ cache_ok s' /\
    dict_get (param_map (extern_param_map c)) n = Some ts /\
    rmap (dict_getitem (torch_to_path c)) ts = Ok ps /\
    cache_after ps (dict_keys (cached_files s)) (dict_keys (cached_files s')).
Proof.
  intros [Hw Hu] Hs Hn. apply dict_get_In in Hn as [ts Hts].
  destruct (required_paths c ts) as (ps & Hps & Hin).
  { intros t Ht. rewrite usage_Ok in Hu. eapply Hu; [|exact Ht]. by apply dict_get_pair. }
  destruct (make_cache (extern_param_map c) ps s Hs) as (s' & H1 & Hok & Hafter & Hall).
  { intros p (t & _ & Ht)%Hin. destruct (Hw t p Ht) as (l & Hl & _). by exists l. }
  exists s', ts, ps. split; [|done]. unfold _load_mlc_param, param_spec.
  rewrite (mbind_lift _ _ _ ts) by (by apply dict_getitem_Ok).
  rewrite (dict_getitem_Ok _ _ _ Hts). cbn [rbind].
  rewrite (mbind_lift _ _ _ ps) by done.
  rewrite (mbind_Ok mget _ _ s s) by done.
  etransitivity; [symmetry; apply mbind_assoc|]. rewrite (mbind_Ok _ _ _ _ _ H1).
  rewrite (mbind_Ok mget _ _ s' s') by done.
  rewrite cached_values; [|done|].
  2:{ intros t p Ht Hp. apply Hall, Hin. by exists t. }
  unfold mlift, mbind'. destruct (rmap (disk_value c) ts) as [vs|]; [|done]. cbn [rbind].
  destruct (dict_getitem (map_func (extern_param_map c)) n) as [g|]; [|done]. cbn [rbind].
  by destruct (g vs).
Qed.

(** *** The loading order *)

Lemma append_to_In (d : dict (list string)) k v x :
  In x (concat (map snd (append_to d k v))) <-> In x (concat (map snd d)) \/ x = v.
Proof.
  unfold append_to. induction d as [|[k' vs] d IH]; simpl; [naive_solver|].
  destruct (String.eqb_spec k k') as [->|Hne]; simpl.
  - rewrite !in_app_iff. simpl. naive_solver.
  - rewrite !in_app_iff, IH. tauto.
Qed.

Lemma path_to_torch_In l t :
  In t (concat (map snd (path_to_torch l))) <-> In t (dict_keys l).
Proof.
  unfold path_to_torch. enough (forall d : dict (list string),
    In t (concat (map snd (fold_left (fun d tp => append_to d (snd tp) (fst tp)) l d)))
    <-> In t (concat (map snd d)) \/ In t (dict_keys l)) as H.
  { rewrite H. simpl. tauto. }
  induction l as [|[t' p] l IH]; intros d; simpl; [tauto|].
  rewrite IH, append_to_In. simpl. naive_solver.
Qed.

Lemma get_append_to (d : dict (list string)) k v x y :
  In y (opt_default [] (dict_get (append_to d k v) x))
  <-> In y (opt_default [] (dict_get d x)) \/ (x = k /\ y = v).
Proof.
  unfold append_to. rewrite dict_get_set. destruct (String.eqb_spec x k) as [->|Hne]; simpl.
  - rewrite in_app_iff. simpl. naive_solver.
  - naive_solver.
Qed.

Lemma torch_to_mlc_In pm t n :
  In n (opt_default [] (dict_get (torch_to_mlc pm) t))
  <-> exists ts, In (n, ts) pm /\ In t ts.
Proof.
  unfold torch_to_mlc. enough (forall d : dict (list string),
    In n (opt_default [] (dict_get (fold_left (fun d mt =>
       fold_left (fun d t => append_to d t (fst mt)) (snd mt) d) pm d) t))
    <-> In n (opt_default [] (dict_get d t)) \/ exists ts, In (n, ts) pm /\ In t ts) as H.
  { rewrite H. simpl. tauto. }
  induction pm as [|[m us] pm IH]; intros d; simpl; [naive_solver|].
  rewrite IH. clear IH. assert (forall us (d : dict (list string)),
    In n (opt_default [] (dict_get (fold_left (fun d t => append_to d t m) us d) t))
    <-> In n (opt_default [] (dict_get d t)) \/ (n = m /\ In t us)) as Hus.
  { clear. induction us as [|u us IH]; intros d; simpl; [tauto|].
    rewrite IH, get_append_to. naive_solver. }
  rewrite Hus. split.
  - intros [[H|[-> H]]|(ts & H1 & H2)]; [by left|right; by exists us; auto|right; by exists ts; auto].
  - intros [H|(ts & [[= <- <-]|H1] & H2)]; [by left; left|by left; right|right; by exists ts].
Qed.

Lemma order_spec m paths :
  NoDup (_loading_order m paths) /\
  forall n, In n (_loading_order m paths) <->
    exists ts t, In (n, ts) (param_map m) /\ In t ts /\ In t (dict_keys paths).
Proof.
  unfold _loading_order. set (by_torch := torch_to_mlc (param_map m)).
  set (step := fun order torch_name =>
    fold_left set_add (opt_default [] (dict_get by_torch torch_name)) order).
  assert (forall ts order, (NoDup order -> NoDup (fold_left step ts order)) /\
    forall n, In n (fold_left step ts order) <->
      In n order \/ exists t, In t ts /\ In n (opt_default [] (dict_get by_torch t))) as Hin.
  { induction ts as [|t ts IH]; intros order; simpl.
    - split; [done|]. intros n. split; [by left|]. by intros [?|(t & [] & _)].
    - destruct (IH (step order t)) as [H1 H2].
      destruct (fold_set_add (opt_default [] (dict_get by_torch t)) order) as [H3 H4].
      split; [intros H; by apply H1, H3|]. intros n. rewrite H2. unfold step at 1. rewrite H4. split.
      + intros [[H|H]|(u & Hu & Hn)]; [by left|right; by exists t; auto|right; by exists u; auto].
      + intros [H|(u & [<-|Hu] & Hn)]; [by left; left|by left; right|right; by exists u]. }
  assert (forall groups order, (NoDup order -> NoDup (fold_left (fun o g => fold_left step g o) groups order)) /\
    forall n, In n (fold_left (fun o g => fold_left step g o) groups order) <->
      In n order \/ exists t, In t (concat groups) /\ In n (opt_default [] (dict_get by_torch t)))
    as Hout.
  { induction groups as [|g groups IH]; intros order; simpl.
    - split; [done|]. intros n. split; [by left|]. by intros [?|(t & [] & _)].
    - destruct (IH (fold_left step g order)) as [H1 H2]. destruct (Hin g order) as [H3 H4].
      split; [intros H; by apply H1, H3|]. intros n. rewrite H2, H4. setoid_rewrite in_app_iff. split.
      + intros [[H|(u & Hu & Hn)]|(u & Hu & Hn)];
          [by left|right; by exists u; auto|right; by exists u; auto].
      + intros [H|(u & [Hu|Hu] & Hn)];
          [by left; left|left; right; by exists u|right; by exists u]. }
  destruct (Hout (map snd (path_to_torch paths)) []) as [H1 H2].
  split; [apply H1; constructor|]. intros n. rewrite H2. split.
  - intros [[]|(t & Ht & Hn)]. apply path_to_torch_In in Ht. apply torch_to_mlc_In in Hn as (ts & H3 & H4).
    by exists ts, t.
  - intros (ts & t & H3 & H4 & H5). right. exists t. rewrite path_to_torch_In. split; [done|].
    apply torch_to_mlc_In. by exists ts.
Qed.

(** *** The whole load *)

Lemma load_one_run c fs n s : weights_ok c -> cache_ok s ->
  In n (dict_keys (param_map (extern_param_map c))) ->
  exists s', load_one c fs n s
    = (let? param := param_spec c n in
       let? loaded := _load_or_quantize c n param in
       let? outs := rmap (preshard fs) loaded in
       Ok (concat outs), s') /\ cache_ok s'.
Proof.
  intros Hw Hs Hn. destruct (load_mlc_param_run c n s Hw Hs Hn) as (s' & ts & ps & H1 & Hok & _).
  exists s'. split; [|done]. unfold load_one. unfold mbind' at 1. rewrite H1.
  destruct (param_spec c n) as [param|]; cbn [rbind]; [|done].
  unfold mlift, mbind'. destruct (_load_or_quantize c n param) as [loaded|]; cbn [rbind]; [|done].
  by destruct (rmap (preshard fs) loaded).
Qed.

Lemma load_all_run c fs l : weights_ok c ->
  (forall n, In n l -> In n (dict_keys (param_map (extern_param_map c)))) ->
  forall s, cache_ok s ->
  exists s', load_all c fs l s
    = (let? outs := rmap (fun n => let? param := param_spec c n in
                                   let? loaded := _load_or_quantize c n param in
                                   let? outs := rmap (preshard fs) loaded in
                                   Ok (concat outs)) l in
       Ok (concat outs), s') /\ cache_ok s'.
Proof.
  intros Hw. induction l as [|n l IH]; intros Hl s Hs; [by exists s|].
  cbn [load_all rmap].
  destruct (load_one_run c fs n s Hw Hs (Hl n (or_introl eq_refl))) as (s1 & H1 & Hok1).
  destruct (let? param := param_spec c n in _) as [out|x]; cbn [rbind].
  - mstep H1. destruct (IH (fun n' Hn' => Hl n' (or_intror Hn')) s1 Hok1) as (s2 & H2 & Hok2).
    unfold mbind'. rewrite H2. exists s2. split; [|done]. by destruct (rmap _ l).
  - rewrite (mbind_Raise _ _ _ _ _ H1). by exists s1.
Qed.
End Lemmas.

(** ** Theorems *)

Section Theorems.
Context `{WF : WeightFiles}.

(** C38: the cache is transparent.  With a correct index, loading yields, in the
    loading order, exactly what loading every parameter straight from the
    files yields (mapping, quantization and sharding applied, exceptions
    included), whatever the cache held before; and when it succeeds the cache is
    empty afterwards. *)
Theorem load_refines_uncached c fs s :
  weights_ok c -> cache_ok s ->
  exists s', load c fs s = (load_spec c fs, s') /\
    (is_ok (load_spec c fs) = true -> cached_files s' = []).
Proof.
  intros Hw Hs. unfold load, load_spec.
  destruct (load_all_run c fs (_loading_order (extern_param_map c) (torch_to_path c)) Hw) with (s := s)
    as (s1 & H1 & Hok1); [|done|].
  { intros n (ts & t & Hn & _)%order_spec. apply in_map_iff. by exists (n, ts). }
  destruct (let? outs := rmap _ _ in Ok (concat outs)) as [outs|x].
  - mstep H1. rewrite (mbind_Ok mget _ _ s1 s1) by done.
    destruct (unload_all (dict_keys (cached_files s1)) s1 Hok1 (proj1 Hok1) (fun p H => H))
      as (s2 & H2 & Hok2 & Hg).
    mstep H2. exists s2. split; [done|]. intros _.
    destruct (cached_files s2) as [|[p d] rest] eqn:E; [done|].
    specialize (Hg p). cbn [dict_get] in Hg. rewrite String.eqb_refl in Hg.
    destruct (str_mem p _) eqn:Em; [done|]. symmetry in Hg.
    assert (In p (dict_keys (cached_files s1))) as Hp by (apply dict_get_In; by exists d).
    by rewrite (proj2 (str_mem_In _ _) Hp) in Em.
  - rewrite (mbind_Raise _ _ _ _ _ H1). by exists s1.
Qed.

(** The cache is trimmed when a file is read.  Loading one parameter leaves
    the cache alone when all its files are cached; otherwise exactly the files
    of this parameter are cached afterwards. *)
Theorem load_mlc_param_cache c n s :
  weights_ok c -> cache_ok s -> In n (dict_keys (param_map (extern_param_map c))) ->
  exists s' ts ps, _load_mlc_param c n s = (param_spec c n, s') /\ cache_ok s' /\
    dict_get (param_map (extern_param_map c)) n = Some ts /\
    rmap (dict_getitem (torch_to_path c)) ts = Ok ps /\
    cache_after ps (dict_keys (cached_files s)) (dict_keys (cached_files s')).
Proof. apply load_mlc_param_run. Qed.

(** The loading order lists, once each, exactly the parameters with a source
    in the weight files.  In particular a parameter whose mapping has no
    source, which the mapping type allows, is never loaded. *)
Theorem loading_order_spec m paths :
  NoDup (_loading_order m paths) /\
  forall n, In n (_loading_order m paths) <->
    exists ts t, In (n, ts) (param_map m) /\ In t ts /\ In t (dict_keys paths).
Proof. apply order_spec. Qed.
End Theorems.

(** ** Witnesses *)

Module LoaderWitness.
(** Arrays are lists of numbers; two files. *)
#[export] Instance demo_files : WeightFiles :=
  {| array := list Z; nd_array := list Z; nbytes a := 4 * Z.of_nat (length a);
     array_size a := Z.of_nat (length a); as_ndarray a := a; is_file _ := true;
     load_safetensor_shard p :=
       if String.eqb p "dir/a.safetensors" then Ok [("q", [1]); ("k", [2])]
       else if String.eqb p "dir/b.safetensors" then Ok [("w", [3]); ("unused", [9])]
       else Raise (FileNotFoundError [FStr p]);
     load_torch_shard p := Raise (FileNotFoundError [FStr p]);
     read_weight_map _ := Ok [("q", "a.safetensors"); ("w", "b.safetensors");
                              ("k", "a.safetensors"); ("unused", "b.safetensors")] |}.

(** [qk] concatenates two tensors, [w] is copied, [qw] needs both files, and
    [zeros] has no source. *)
Definition concat_func (l : list (list Z)) : res (list Z) := Ok (concat l).
Definition mapping : ExternMapping :=
  add_mapping (add_mapping (add_mapping (add_mapping (add_unused ExternMapping_new "unused")
    "qk" ["q"; "k"] concat_func) "zeros" [] concat_func) "w" ["w"] concat_func)
    "qw" ["q"; "w"] concat_func.

Definition config : LoaderConfig :=
  mkLoaderConfig mapping [("q", "dir/a.safetensors"); ("w", "dir/b.safetensors");
    ("k", "dir/a.safetensors"); ("unused", "dir/b.safetensors")] None.
Definition state0 : LoaderState := mkLoaderState [] Stats_new.

Example init_demo :
  HuggingFaceLoader_init "dir/model.safetensors.index.json" mapping None = Ok (config, state0).
Proof. reflexivity. Qed.

Lemma config_ok : weights_ok config.
Proof.
  split; [|reflexivity]. intros t p H. simpl in H.
  repeat (case_match; [injection H as <-; eexists; split; [reflexivity|]; simplify_eq/=;
    repeat match goal with E : String.eqb t _ = true |- _ => apply String.eqb_eq in E as -> end;
    reflexivity|]). done.
Qed.

Lemma state0_ok : cache_ok state0.
Proof. split; [constructor|done]. Qed.

Example load_witness :
  exists s', load config None state0
    = (Ok [("qk", [1; 2]); ("qw", [1; 3]); ("w", [3])], s') /\ cached_files s' = [].
Proof.
  destruct (load_refines_uncached config None state0 config_ok state0_ok) as (s' & H1 & H2).
  exists s'. split; [exact H1|exact (H2 eq_refl)].
Defined.

(** Loading [w] when the cache holds the other file. *)
Definition state1 : LoaderState := snd (_load_file mapping "dir/a.safetensors" state0).

Lemma state1_ok : cache_ok state1.
Proof.
  split; [apply NoDup_singleton|]. intros p d H. simpl in H.
  destruct (String.eqb_spec p "dir/a.safetensors") as [->|]; [|done]. injection H as <-.
  by eexists.
Qed.

Example load_mlc_param_witness :
  exists s' ts ps, _load_mlc_param config "w" state1 = (Ok [3], s') /\ cache_ok s' /\
    dict_get (param_map mapping) "w" = Some ts /\
    rmap (dict_getitem (torch_to_path config)) ts = Ok ps /\
    cache_after ps ["dir/a.safetensors"] (dict_keys (cached_files s')).
Proof.
  apply (load_mlc_param_cache config "w" state1 config_ok state1_ok).
  simpl. auto.
Defined.
End LoaderWitness.
