(* ===== verification/ModelConfig.v ===== *)
(** * Model configurations: the base classes ([support/config.py])

    [ConfigBase.from_dict] splits a JSON object into the fields of a dataclass
    and its [kwargs] and runs the class's [__post_init__]; [asdict] turns the
    object back into a dictionary; [ConfigOverrideBase.apply] overrides fields
    and rebuilds the object.

    A [__post_init__] is a list of statements over the object.  The classes of
    [model/] repeat a few statement forms; each form is a combinator here.  A
    statement comes with its footprint (the fields that decide whether it does
    anything when it is run again, and the fields it assigns) and with the test
    that says that it still has a default to fill in; [Lawful] states what the
    footprint means, and the theorems on re-running a [__post_init__] are
    proved from it for every class at once. *)

From Stdlib Require Import SpecFloat Ascii.
From stdpp Require Import base list strings.
From S2P Require Import Prelude PyStr.
From S2P Require Import PyNum.
Local Open Scope string_scope.
Local Open Scope list_scope.
Local Open Scope Z_scope.

(** ** Objects *)

(** A dataclass instance: its attributes and the dictionary [self.kwargs]. *)
Record obj : Type := mkObj { o_attrs : dict json; o_kwargs : dict json }.

Definition attr (o : obj) (f : string) : res json :=
  opt_res (dict_get (o_attrs o) f) AttributeError.

(** [self.f], [self.f = v], [self.kwargs] *)
Definition self (f : string) : M obj json := fun o => (attr o f, o).
Definition setattr (f : string) (v : json) : M obj unit :=
  mmodify (fun o => mkObj (dict_set (o_attrs o) f v) (o_kwargs o)).
Definition get_kwargs : M obj (dict json) := fun o => (Ok (o_kwargs o), o).

(** [self.kwargs.pop(name, None)], with [None] for an absent key *)
Definition kwargs_pop (name : string) : M obj (option json) := fun o =>
  match dict_get (o_kwargs o) name with
  | Some v => (Ok (Some v), mkObj (o_attrs o) (dict_del (o_kwargs o) name))
  | None => (Ok None, o)
  end.

(** [for name in names: if name in self.kwargs: ... self.kwargs.pop(name); break] *)
Fixpoint kwargs_pop_first (names : list string) : M obj (option json) :=
  match names with
  | [] => mret' None
  | n :: names =>
      let! v := kwargs_pop n in
      match v with
      | Some v => mret' (Some v)
      | None => kwargs_pop_first names
      end
  end.

(** ** Statements with their footprint *)

Record Stmt : Type := mkStmt {
  run : M obj unit;
  reads : list string;
  writes : list string;
  pending : obj -> bool;
}.

(** The body of a method. *)
Fixpoint run_all (l : list Stmt) : M obj unit :=
  match l with
  | [] => mret' tt
  | s :: l => run s ;! run_all l
  end.

(** A test of an attribute; an absent attribute counts as pending. *)
Definition attr_test (f : string) (test : json -> bool) (o : obj) : bool :=
  match attr o f with Ok v => test v | Raise _ => true end.

(** [if test(self.f): self.f = e] *)
Definition set_when (f : string) (test : json -> bool) (e : M obj json) : Stmt :=
  mkStmt (let! v := self f in
          if test v then let! w := e in setattr f w else mret' tt)
         [f] [f] (attr_test f test).

(** [assert] and [if ...: raise]: a check that reads the fields [fs]. *)
Definition check (fs : list string) (e : (string -> res json) -> res unit) : Stmt :=
  mkStmt (fun o => (e (attr o), o)) fs [] (fun _ => false).

(** An unconditional [self.f = e] *)
Definition assign (f : string) (e : M obj json) : Stmt := set_when f (fun _ => true) e.

(** [if test(self.f): self.f = self.g] *)
Definition default_copy (f : string) (test : json -> bool) (g : string) : Stmt :=
  set_when f test (self g).

(** [if test(self.f): self.f = 4 * self.g] *)
Definition default_times4 (f : string) (test : json -> bool) (g : string) : Stmt :=
  set_when f test (let! x := self g in mlift (py_mul (JInt 4) x)).

(** A block of statements under [if test(self.f):] *)
Definition guarded (f : string) (test : json -> bool) (body : list Stmt) : Stmt :=
  mkStmt (let! v := self f in if test v then run_all body else mret' tt)
         [f] (flat_map writes body) (attr_test f test).

(** [if self.f == 0: self.f = self.a // self.b] *)
Definition default_quotient (f a b : string) : Stmt :=
  set_when f is_zero
    (let! x := self a in let! y := self b in mlift (py_floordiv x y)).

(** [if "rope_theta" in self.kwargs: ... else: 10000] *)
Definition rope_theta_value : M obj json :=
  let! v := kwargs_pop "rope_theta" in
  mret' (match v with Some v => v | None => JInt 10000 end).
Definition rope_theta : Stmt := set_when "position_embedding_base" is_zero rope_theta_value.

Definition no_sequence_length : exn :=
  ValueError [Lit "Unable to determine the maximum sequence length"].

(** [if self.context_window_size == 0: for name in names: ... else: raise] *)
Definition context_window_value (names : list string) : M obj json :=
  let! v := kwargs_pop_first names in
  match v with
  | Some v => mret' v
  | None => mraise no_sequence_length
  end.
Definition context_window (names : list string) : Stmt :=
  set_when "context_window_size" is_zero (context_window_value names).

(** [assert self.a * self.b == self.c] *)
Definition assert_product (a b c : string) : Stmt :=
  check [a; b; c] (fun get =>
    let? x := get a in let? y := get b in let? z := get c in
    let? p := py_mul x y in py_assert (py_eq p z)).

(** [assert self.a % self.b == 0] *)
Definition assert_divides (a b : string) : Stmt :=
  check [a; b] (fun get =>
    let? x := get a in let? y := get b in
    let? r := py_mod x y in py_assert (is_zero r)).

(** A statement that computes, from the fields [fs], whether and to what it
    changes the field [f]. *)
Definition update (f : string) (fs : list string) (pend : (string -> res json) -> bool)
    (g : (string -> res json) -> res (option json)) : Stmt :=
  mkStmt (fun o => match g (attr o) with
                   | Raise e => (Raise e, o)
                   | Ok None => (Ok tt, o)
                   | Ok (Some w) => setattr f w o
                   end)
         fs [f] (fun o => pend (attr o)).

(** The prefill chunk is unset, or cannot be compared with the context window. *)
Definition prefill_pending (get : string -> res json) : bool :=
  match get "prefill_chunk_size", get "context_window_size" with
  | Ok p, Ok c => is_zero p || negb (is_ok (py_gt p c))
  | _, _ => true
  end.

(** The prefill chunk: unset, or above the context window, it becomes
    [cap(self.context_window_size)]. *)
Definition prefill_chunk_size (cap : json -> res json) : Stmt :=
  update "prefill_chunk_size" ["prefill_chunk_size"; "context_window_size"] prefill_pending
    (fun get =>
       let? p := get "prefill_chunk_size" in
       let? c := get "context_window_size" in
       let? change := (if is_zero p then Ok true else py_gt p c) in
       if change then let? v := cap c in Ok (Some v) else Ok None).

(** [min(self.context_window_size, k)] *)
Definition capped (k : Z) (c : json) : res json := py_min c (JInt k).

(** ** [ConfigBase] *)

(** A configuration class: its fields in order with their defaults (without
    [kwargs]) and its [__post_init__]. *)
Record ConfigClass : Type := mkClass {
  cls_name : string;
  fields : list (string * option json);
  post_init : list Stmt;
}.

Definition field_names (cls : ConfigClass) : list string := map fst (fields cls).

(** One argument of the generated [__init__]. *)
Definition init_field (given : dict json) (f : string * option json) : res (string * json) :=
  match dict_get given (fst f) with
  | Some v => Ok (fst f, v)
  | None => match snd f with
            | Some d => Ok (fst f, d)
            | None => Raise TypeError
            end
  end.

(** The constructor: [__init__], then [__post_init__]. *)
Definition construct (cls : ConfigClass) (given kwargs : dict json) : res obj :=
  let? attrs := rmap (init_field given) (fields cls) in
  match run_all (post_init cls) (mkObj attrs kwargs) with
  | (Ok _, o) => Ok o
  | (Raise e, _) => Raise e
  end.

(** [from_dict].  A key [kwargs] in the source collides with the keyword
    argument of the same name. *)
Definition from_dict (cls : ConfigClass) (source : dict json) : res obj :=
  if dict_has source "kwargs" then Raise TypeError
  else
    let is_field := fun kv : string * json => str_mem (fst kv) (field_names cls) in
    construct cls (List.filter is_field source)
      (List.filter (fun kv => negb (is_field kv)) source).

(** [asdict]: the fields, without [kwargs]. *)
Definition asdict (cls : ConfigClass) (o : obj) : dict json :=
  omap (fun f => option_map (pair f) (dict_get (o_attrs o) f)) (field_names cls).

(** ** [ConfigOverrideBase] *)

(** One field of an override; [None] leaves the configuration alone, and so
    does a field the configuration does not have (with a warning). *)
Definition override_one (updated : dict json) (kv : string * json) : dict json :=
  let '(key, value) := kv in
  if is_null value then updated
  else if dict_has updated key then dict_set updated key value
  else updated.

(** [apply] *)
Definition override_apply (overrides : dict json) (cls : ConfigClass) (config : obj) : res obj :=
  from_dict cls (fold_left override_one overrides (asdict cls config)).

(** ** What a footprint means *)

(** The object with its [kwargs] forgotten, as [asdict] forgets them. *)
Definition plain (o : obj) : obj := mkObj (o_attrs o) [].

(** The statement has no default to fill in, and running it again does nothing. *)
Definition noop (s : Stmt) (o : obj) : Prop :=
  pending s o = false /\ run s (plain o) = (Ok tt, plain o).

Definition agree (fs : list string) (o1 o2 : obj) : Prop :=
  forall f, In f fs -> attr o1 f = attr o2 f.

Definition attr_names (o : obj) : list string := map fst (o_attrs o).

Class Lawful (s : Stmt) : Prop := {
  lawful_frame o r o' f : run s o = (r, o') -> ~ In f (writes s) -> attr o' f = attr o f;
  lawful_names o r o' : run s o = (r, o') -> incl (writes s) (attr_names o) ->
    attr_names o' = attr_names o;
  lawful_settles o o' : run s o = (Ok tt, o') -> pending s o' = false -> noop s o';
  lawful_local o1 o2 : agree (reads s) o1 o2 -> noop s o1 -> noop s o2;
  lawful_pending o1 o2 : agree (reads s) o1 o2 -> pending s o1 = pending s o2;
}.

(** No statement assigns what an earlier one looks at. *)
Fixpoint independent (l : list Stmt) : bool :=
  match l with
  | [] => true
  | s :: l => forallb (fun s' => forallb (fun f => negb (str_mem f (writes s'))) (reads s)) l
              && independent l
  end.

(** No default of the class is left to fill in. *)
Definition resolved (cls : ConfigClass) (o : obj) : bool :=
  forallb (fun s => negb (pending s o)) (post_init cls).

(** The assigned attributes are fields, which are distinct. *)
Definition well_formed (cls : ConfigClass) : bool :=
  forallb (fun s => forallb (fun f => str_mem f (field_names cls)) (writes s)) (post_init cls)
  && negb (str_mem "kwargs" (field_names cls))
  && bool_decide (NoDup (field_names cls)).

(** ** Lemmas: attributes *)

Lemma str_mem_not s l : str_mem s l = false <-> ~ In s l.
Proof. rewrite <- str_mem_In. by destruct (str_mem s l). Qed.

Lemma dict_set_names {V} (d : dict V) k v :
  In k (map fst d) -> map fst (dict_set d k v) = map fst d.
Proof.
  induction d as [|[k' v'] d IH]; simpl; [done|]. intros H.
  destruct (String.eqb_spec k k') as [->|Hne]; simpl; [done|]. rewrite IH; naive_solver.
Qed.

(** Setting a key to the value it has. *)
Lemma dict_set_same {V} (d : dict V) k v : dict_get d k = Some v -> dict_set d k v = d.
Proof.
  induction d as [|[k' v'] d IH]; simpl; [done|].
  destruct (String.eqb_spec k k') as [->|]; [by intros [= ->]|]. intros H. by rewrite IH.
Qed.

Lemma attr_set o f v kw g :
  attr (mkObj (dict_set (o_attrs o) f v) kw) g
  = if String.eqb g f then Ok v else attr o g.
Proof. unfold attr. simpl. rewrite dict_get_set. by destruct (String.eqb g f). Qed.

Lemma attr_In o f v : attr o f = Ok v -> In f (attr_names o).
Proof.
  unfold attr, attr_names. intros H. apply dict_get_In. destruct (dict_get _ f); [eauto|done].
Qed.

Lemma attr_plain o f : attr (plain o) f = attr o f.
Proof. done. Qed.

Lemma agree_plain fs o : agree fs (plain o) o.
Proof. by intros f. Qed.

Lemma agree_sym fs o1 o2 : agree fs o1 o2 -> agree fs o2 o1.
Proof. intros H f Hf. symmetry. by apply H. Qed.

(** An expression that only touches [self.kwargs]. *)
Class KeepsAttrs {A} (e : M obj A) : Prop :=
  keeps_attrs o r o' : e o = (r, o') -> o_attrs o' = o_attrs o.

#[export] Instance keeps_ret {A} (a : A) : KeepsAttrs (mret' a).
Proof. by intros o r o' [= _ <-]. Qed.
#[export] Instance keeps_raise {A} e : KeepsAttrs (@mraise obj A e).
Proof. by intros o r o' [= _ <-]. Qed.
#[export] Instance keeps_lift {A} (r : res A) : KeepsAttrs (mlift r).
Proof. by intros o r' o' [= _ <-]. Qed.
#[export] Instance keeps_self f : KeepsAttrs (self f).
Proof. by intros o r o' [= _ <-]. Qed.
#[export] Instance keeps_get_kwargs : KeepsAttrs get_kwargs.
Proof. by intros o r o' [= _ <-]. Qed.
#[export] Instance keeps_pop n : KeepsAttrs (kwargs_pop n).
Proof. intros o r o'. unfold kwargs_pop. by destruct (dict_get _ n); intros [= _ <-]. Qed.
#[export] Instance keeps_bind {A B} (e : M obj A) (k : A -> M obj B) :
  KeepsAttrs e -> (forall a, KeepsAttrs (k a)) -> KeepsAttrs (mbind' e k).
Proof.
  intros He Hk o r o' H. apply mbind_inv in H as [(a & o1 & H1 & H2)|(x & H1 & _)].
  - rewrite (Hk a _ _ _ H2). by eapply He.
  - by eapply He.
Qed.
#[export] Instance keeps_if {A} (b : bool) (e1 e2 : M obj A) :
  KeepsAttrs e1 -> KeepsAttrs e2 -> KeepsAttrs (if b then e1 else e2).
Proof. by destruct b. Qed.
#[export] Instance keeps_opt {A B} (v : option A) (e1 : A -> M obj B) (e2 : M obj B) :
  (forall a, KeepsAttrs (e1 a)) -> KeepsAttrs e2 ->
  KeepsAttrs (match v with Some a => e1 a | None => e2 end).
Proof. by destruct v. Qed.
#[export] Instance keeps_pop_first ns : KeepsAttrs (kwargs_pop_first ns).
Proof. induction ns as [|n ns IH]; simpl; apply _. Qed.

(** ** The statement forms are lawful *)

(** A statement that does nothing once a test of one attribute fails. *)
Lemma lawful_by_test (m : M obj unit) f test ws :
  (forall o r o' g, m o = (r, o') -> ~ In g ws -> attr o' g = attr o g) ->
  (forall o r o', m o = (r, o') -> incl ws (attr_names o) -> attr_names o' = attr_names o) ->
  (forall o v, attr o f = Ok v -> test v = false -> m o = (Ok tt, o)) ->
  Lawful (mkStmt m [f] ws (attr_test f test)).
Proof.
  intros Hf Hn Ht.
  assert (forall o, attr_test f test o = false -> m (plain o) = (Ok tt, plain o)) as Hq.
  { intros o. unfold attr_test. destruct (attr o f) as [v|] eqn:E; [|done]. by apply Ht. }
  split; cbn [run reads writes pending].
  - exact Hf.
  - exact Hn.
  - intros o o' _ Hp. split; [done|]. by apply Hq.
  - intros o1 o2 Ha [Hp _]. cbn [pending] in Hp.
    assert (attr_test f test o2 = false) as Hp2.
    { unfold attr_test in *. rewrite <- (Ha f); [done|by left]. }
    split; [done|]. by apply Hq.
  - intros o1 o2 Ha. unfold attr_test. rewrite (Ha f); [done|by left].
Qed.

(** An expression that keeps the attributes, and an assignment. *)
Lemma set_result f e o r o' : KeepsAttrs e ->
  mbind' e (setattr f) o = (r, o') ->
  o_attrs o' = o_attrs o \/ exists v, o_attrs o' = dict_set (o_attrs o) f v.
Proof.
  intros He H. apply mbind_inv in H as [(v & o1 & H1 & H2)|(x & H1 & _)]; [|left; by eapply He].
  injection H2 as _ <-. right. exists v. cbn. by rewrite (He _ _ _ H1).
Qed.

#[export] Instance set_when_lawful f test e : KeepsAttrs e -> Lawful (set_when f test e).
Proof.
  intros He.
  assert (forall o r o', run (set_when f test e) o = (r, o') ->
    o_attrs o' = o_attrs o \/ exists v, o_attrs o' = dict_set (o_attrs o) f v) as Hrun.
  { intros o r o' H. cbn [run set_when] in H. unfold mbind' at 1, self in H.
    destruct (attr o f) as [w|]; [|injection H as _ <-; by left].
    destruct (test w); [|injection H as _ <-; by left]. by eapply set_result. }
  apply lawful_by_test.
  - intros o r o' g H Hg. unfold attr. destruct (Hrun _ _ _ H) as [-> |[v ->]]; [done|].
    rewrite dict_get_set. destruct (String.eqb_spec g f) as [->|]; [|done]. destruct Hg. by left.
  - intros o r o' H Hin. unfold attr_names.
    destruct (Hrun _ _ _ H) as [-> |[v ->]]; [done|]. apply dict_set_names, Hin. by left.
  - intros o v E Ht. unfold mbind', self. by rewrite E, Ht.
Qed.

(** A check may only look at the fields it names. *)
Class ReadsOnly {A} (fs : list string) (e : (string -> res json) -> A) : Prop :=
  reads_only g1 g2 : (forall f, In f fs -> g1 f = g2 f) -> e g1 = e g2.

#[export] Instance check_lawful fs e : ReadsOnly fs e -> Lawful (check fs e).
Proof.
  intros He. split.
  - by intros o r o' f [= _ <-] _.
  - by intros o r o' [= _ <-] _.
  - intros o o' [= H <-] _. split; [done|]. cbn [run check]. f_equal.
    rewrite <- H. by apply He.
  - intros o1 o2 Ha [_ [= H]]. split; [done|]. cbn [run check]. f_equal.
    rewrite <- H. apply He. intros f Hf. symmetry. by apply Ha.
  - done.
Qed.

Ltac solve_reads :=
  intros g1 g2 H;
  repeat match goal with
  | |- context [g1 ?f] => rewrite (H f) by (simpl; tauto)
  end; reflexivity.

#[export] Instance assert_product_lawful a b c : Lawful (assert_product a b c).
Proof. apply check_lawful. solve_reads. Qed.
#[export] Instance assert_divides_lawful a b : Lawful (assert_divides a b).
Proof. apply check_lawful. solve_reads. Qed.

(** The cap never exceeds the context window. *)
Class NotAbove (cap : json -> res json) : Prop :=
  not_above c v : cap c = Ok v -> py_gt v c <> Ok true.

Lemma capped_at_most k c v : capped k c = Ok v -> py_gt v c = Ok false.
Proof.
  intros H. unfold py_gt. destruct (py_min_not_gt _ _ _ H) as [[-> Hl]|[-> Hl]].
  - unfold capped, py_min in H. unfold py_lt in *.
    destruct (as_num c) as [n|] eqn:E; [by rewrite num_ltb_irrefl|].
    by destruct c.
  - unfold py_lt in *. cbn [as_num] in *. destruct (as_num c) as [n|] eqn:E; [|by destruct c].
    f_equal. injection Hl as Hl. unfold num_ltb in *.
    destruct (num_compare (NInt k) n) as [[]|] eqn:E2; try done.
    destruct n as [z|f]; simpl in *.
    + injection E2 as E2. by rewrite Z.compare_antisym, E2.
    + by rewrite E2.
Qed.

#[export] Instance capped_not_above k : NotAbove (capped k).
Proof. intros c v H. by rewrite (capped_at_most _ _ _ H). Qed.

(** [cap] is the identity in one class. *)
#[export] Instance ok_not_above : NotAbove Ok.
Proof. intros c v [= <-]. apply py_lt_irrefl. Qed.

(** An update that leaves its own result alone. *)
Lemma update_lawful f fs pend g : In f fs -> ReadsOnly fs pend -> ReadsOnly fs g ->
  (forall get get' w, g get = Ok (Some w) -> get' f = Ok w ->
     (forall h, h <> f -> get' h = get h) -> pend get' = false ->
     g get' = Ok None \/ g get' = Ok (Some w)) ->
  Lawful (update f fs pend g).
Proof.
  intros Hf Hp Hg Hi. split; cbn [run reads writes pending update].
  - intros o r o' h H Hh. destruct (g (attr o)) as [[w|]|]; injection H as _ <-; try done.
    rewrite attr_set. destruct (String.eqb_spec h f) as [->|]; [|done]. destruct Hh. by left.
  - intros o r o' H Hn. destruct (g (attr o)) as [[w|]|]; injection H as _ <-; try done.
    apply dict_set_names, Hn. by left.
  - intros o o' H Hpend. split; [done|]. cbn [run update].
    change (attr (plain o')) with (attr o').
    destruct (g (attr o)) as [[w|]|] eqn:E; [|injection H as <-; by rewrite E|done].
    injection H as <-. set (o' := mkObj _ _) in *.
    assert (attr o' f = Ok w) as Hw by (unfold o'; rewrite attr_set; by rewrite String.eqb_refl).
    destruct (Hi (attr o) (attr o') w E Hw) as [E'|E']; [|done|by rewrite E'|rewrite E'].
    + intros h Hh. unfold o'. rewrite attr_set. by destruct (String.eqb_spec h f).
    + unfold setattr, mmodify, plain. cbn. rewrite dict_set_same; [done|].
      rewrite dict_get_set. by rewrite String.eqb_refl.
  - intros o1 o2 Ha [Hp1 H]. cbn [pending run update] in *.
    split; [rewrite <- Hp1; symmetry; by apply Hp|]. cbn [run update].
    change (attr (plain o2)) with (attr o2). change (attr (plain o1)) with (attr o1) in H.
    rewrite <- (Hg (attr o1) (attr o2)) by exact Ha.
    destruct (g (attr o1)) as [[w|]|]; [|done|done]. injection H as H.
    unfold setattr, mmodify, plain. cbn. rewrite dict_set_same; [done|].
    apply (f_equal (fun d => dict_get d f)) in H. cbn in H.
    rewrite dict_get_set, String.eqb_refl in H. specialize (Ha f Hf).
    unfold attr in Ha. rewrite <- H in Ha. by destruct (dict_get (o_attrs o2) f); simplify_eq/=.
  - intros o1 o2 Ha. by apply Hp.
Qed.

Lemma prefill_pending_reads :
  ReadsOnly ["prefill_chunk_size"; "context_window_size"] prefill_pending.
Proof. unfold prefill_pending. solve_reads. Qed.

#[export] Instance prefill_lawful cap : NotAbove cap -> Lawful (prefill_chunk_size cap).
Proof.
  intros Hcap. apply update_lawful; [by left|apply prefill_pending_reads|solve_reads|].
  intros get get' w H Hw Hsame Hp. left. unfold prefill_pending in Hp. rewrite Hw in *.
  rewrite (Hsame "context_window_size") in * by done.
  apply rbind_Ok in H as (p & _ & H). apply rbind_Ok in H as (c & Hc & H).
  rewrite Hc in *. apply orb_false_iff in Hp as [Hz Hg].
  apply rbind_Ok in H as ([] & _ & H); [|done]. apply rbind_Ok in H as (v & Hv & [= ->]).
  cbn. rewrite Hz. pose proof (Hcap c w Hv). by destruct (py_gt w c) as [[]|].
Qed.

(** ** Running a [__post_init__] again *)

Lemma run_all_frame l : Forall Lawful l -> forall o r o' f,
  run_all l o = (r, o') -> (forall s, In s l -> ~ In f (writes s)) -> attr o' f = attr o f.
Proof.
  induction 1 as [|s l Hs _ IH]; intros o r o' f H Hf; simpl in H; [by injection H as _ <-|].
  apply mbind_inv in H as [(a & o1 & H1 & H2)|(e & H1 & _)].
  - rewrite (IH _ _ _ _ H2) by (intros s' Hs'; apply Hf; by right).
    eapply lawful_frame; [exact H1|]. apply Hf. by left.
  - eapply lawful_frame; [exact H1|]. apply Hf. by left.
Qed.

Lemma run_all_names l : Forall Lawful l -> forall o r o',
  run_all l o = (r, o') -> (forall s, In s l -> incl (writes s) (attr_names o)) ->
  attr_names o' = attr_names o.
Proof.
  induction 1 as [|s l Hs _ IH]; intros o r o' H Hw; simpl in H; [by injection H as _ <-|].
  assert (forall r1 o1, run s o = (r1, o1) -> attr_names o1 = attr_names o) as H0.
  { intros r1 o1 H1. eapply lawful_names; [exact H1|]. apply Hw. by left. }
  apply mbind_inv in H as [(a & o1 & H1 & H2)|(e & H1 & _)]; [|by eapply H0].
  apply H0 in H1. rewrite (IH _ _ _ H2); [done|].
  intros s' Hs'. rewrite H1. apply Hw. by right.
Qed.

#[export] Instance guarded_lawful f test body :
  Forall Lawful body -> Lawful (guarded f test body).
Proof.
  intros Hb. apply lawful_by_test.
  - intros o r o' g H Hg. unfold mbind', self in H.
    destruct (attr o f) as [v|]; [|by injection H as _ <-].
    destruct (test v); [|by injection H as _ <-]. eapply run_all_frame; [exact Hb|exact H|].
    intros s Hs Hw. apply Hg, in_flat_map. eauto.
  - intros o r o' H Hi. unfold mbind', self in H.
    destruct (attr o f) as [v|]; [|by injection H as _ <-].
    destruct (test v); [|by injection H as _ <-]. eapply run_all_names; [exact Hb|exact H|].
    intros s Hs g Hg. apply Hi, in_flat_map. eauto.
  - intros o v E Ht. unfold mbind', self. by rewrite E, Ht.
Qed.

Definition unresolved (l : list Stmt) (o : obj) : bool := existsb (fun s => pending s o) l.

(** After a run that left nothing pending, every statement has nothing to do. *)
Lemma run_all_settles l : Forall Lawful l -> independent l = true -> forall o o',
  run_all l o = (Ok tt, o') -> unresolved l o' = false -> Forall (fun s => noop s o') l.
Proof.
  induction 1 as [|s l Hs Hl IH]; intros Hi o o' H Hp; simpl in *; [constructor|].
  apply andb_true_iff in Hi as [Hi1 Hi2]. apply orb_false_iff in Hp as [Hp1 Hp2].
  apply mbind_inv in H as [([] & o1 & H1 & H2)|(e & _ & [=])].
  constructor; [|by eapply IH].
  assert (agree (reads s) o1 o') as Ha.
  { intros f Hf. symmetry. eapply run_all_frame; [exact Hl|exact H2|].
    intros s' Hs'. rewrite forallb_forall in Hi1. specialize (Hi1 _ Hs').
    rewrite forallb_forall in Hi1. specialize (Hi1 _ Hf).
    by apply negb_true_iff, str_mem_not in Hi1. }
  eapply lawful_local; [exact Ha|]. eapply lawful_settles; [exact H1|].
  by rewrite (lawful_pending _ _ Ha).
Qed.

Lemma run_all_noop l o : Forall (fun s => noop s o) l ->
  run_all l (plain o) = (Ok tt, plain o).
Proof.
  induction 1 as [|s l [_ Hs] _ IH]; simpl; [done|]. by mstep Hs.
Qed.

(** Nothing to do in one object, nothing to do in another that looks the same
    to the statements. *)
Lemma noop_agree l o1 o2 : Forall Lawful l ->
  (forall s, In s l -> agree (reads s) o1 o2) ->
  Forall (fun s => noop s o1) l -> Forall (fun s => noop s o2) l.
Proof.
  intros Hl Ha H. apply List.Forall_forall. intros s Hs.
  rewrite List.Forall_forall in Hl, H. specialize (Hl s Hs). eapply lawful_local; eauto.
Qed.

(** ** [from_dict] and [asdict] *)

Lemma filter_all {A} (p : A -> bool) l : (forall x, In x l -> p x = true) -> List.filter p l = l.
Proof.
  induction l as [|x l IH]; intros H; simpl; [done|].
  rewrite (H x (or_introl eq_refl)), IH; [done|]. intros y Hy. apply H. by right.
Qed.

Lemma filter_none {A} (p : A -> bool) l : (forall x, In x l -> p x = false) -> List.filter p l = [].
Proof.
  induction l as [|x l IH]; intros H; simpl; [done|].
  rewrite (H x (or_introl eq_refl)). apply IH. intros y Hy. apply H. by right.
Qed.

Lemma omap_names (d : dict json) : NoDup (map fst d) ->
  omap (fun f => option_map (pair f) (dict_get d f)) (map fst d) = d.
Proof.
  enough (forall d' : dict json, NoDup (map fst d) -> (forall k v, In (k, v) d -> dict_get d' k = Some v) ->
    omap (fun f => option_map (pair f) (dict_get d' f)) (map fst d) = d) as H.
  { intros Hnd. apply H; [done|]. by apply dict_get_NoDup. }
  induction d as [|[k v] d IH]; intros d' Hnd H; [done|]. apply NoDup_cons in Hnd as [_ Hnd].
  simpl. rewrite (H k v (or_introl eq_refl)). simpl. f_equal. apply IH; [done|].
  intros k' v' Hin. apply H. by right.
Qed.

Lemma init_complete (d : dict json) (fs : list (string * option json)) :
  NoDup (map fst d) -> map fst d = map fst fs -> rmap (init_field d) fs = Ok d.
Proof.
  intros Hnd Hn. apply rmap_Ok.
  enough (forall d' : dict json, (forall k v, In (k, v) d' -> dict_get d k = Some v) ->
    map fst d' = map fst fs -> Forall2 (fun f kv => init_field d f = Ok kv) fs d') as H.
  { apply H; [|done]. by apply dict_get_NoDup. }
  clear Hn. induction fs as [|[f dflt] fs IH]; intros [|[k v] d'] H Hn; try done; constructor.
  - injection Hn as -> _. unfold init_field. simpl. by rewrite (H f v (or_introl eq_refl)).
  - apply IH; [|by injection Hn]. intros k' v' Hin. apply H. by right.
Qed.

Lemma resolved_spec cls o : resolved cls o = negb (unresolved (post_init cls) o).
Proof.
  unfold resolved, unresolved. induction (post_init cls) as [|s l IH]; simpl; [done|].
  rewrite IH. by destruct (pending s o).
Qed.

Lemma construct_runs cls given kw c : construct cls given kw = Ok c ->
  exists attrs, run_all (post_init cls) (mkObj attrs kw) = (Ok tt, c).
Proof.
  unfold construct. intros H. apply rbind_Ok in H as (attrs & _ & H). exists attrs.
  by destruct (run_all _ _) as [[[]|e] o]; [injection H as <-|].
Qed.

(** What the theorems need of a class; decidable but for the laws. *)
Class Settling (cls : ConfigClass) : Prop := {
  settling_lawful : Forall Lawful (post_init cls);
  settling_independent : independent (post_init cls) = true;
  settling_well_formed : well_formed cls = true;
}.

Section Settling.
Context (cls : ConfigClass) `{!Settling cls}.

Lemma fields_NoDup : NoDup (field_names cls).
Proof.
  pose proof settling_well_formed as H. unfold well_formed in H.
  apply andb_true_iff in H as [_ H]. by apply bool_decide_eq_true in H.
Qed.

Lemma kwargs_not_field : str_mem "kwargs" (field_names cls) = false.
Proof.
  pose proof settling_well_formed as H. unfold well_formed in H.
  apply andb_true_iff in H as [H _]. apply andb_true_iff in H as [_ H].
  by apply negb_true_iff in H.
Qed.

Lemma writes_fields s : In s (post_init cls) -> incl (writes s) (field_names cls).
Proof.
  pose proof settling_well_formed as H. unfold well_formed in H.
  apply andb_true_iff in H as [H _]. apply andb_true_iff in H as [H _].
  rewrite forallb_forall in H. intros Hs f Hf. specialize (H _ Hs).
  rewrite forallb_forall in H. by apply str_mem_In, H.
Qed.

Lemma init_names given attrs :
  rmap (init_field given) (fields cls) = Ok attrs -> map fst attrs = field_names cls.
Proof.
  unfold field_names. generalize (fields cls). intros fs. revert attrs.
  induction fs as [|f fs IH]; intros attrs H; simpl in *; [by injection H as <-|].
  apply rbind_Ok in H as (y & Hy & H). apply rbind_Ok in H as (ys & Hys & [= <-]). simpl.
  rewrite (IH _ Hys). f_equal. unfold init_field in Hy.
  destruct (dict_get given (fst f)); [by injection Hy as <-|].
  destruct (snd f); [by injection Hy as <-|done].
Qed.

(** What a successful construction gives. *)
Lemma construct_Ok given kw c : construct cls given kw = Ok c ->
  attr_names c = field_names cls /\
  exists attrs, rmap (init_field given) (fields cls) = Ok attrs /\
    run_all (post_init cls) (mkObj attrs kw) = (Ok tt, c).
Proof.
  unfold construct. intros H. apply rbind_Ok in H as (attrs & Ha & H).
  destruct (run_all _ _) as [[[]|e] o] eqn:E; [|done]. injection H as <-.
  split; [|by exists attrs]. pose proof (init_names _ _ Ha) as Hn.
  rewrite <- Hn. change (map fst attrs) with (attr_names (mkObj attrs kw)).
  eapply run_all_names; [apply settling_lawful|exact E|].
  intros s Hs. unfold attr_names. simpl. rewrite Hn. by apply writes_fields.
Qed.

Lemma from_dict_Ok source c : from_dict cls source = Ok c ->
  exists given kw, construct cls given kw = Ok c.
Proof. unfold from_dict. destruct (dict_has _ _); [done|]. eauto. Qed.

(** The constructed object is settled. *)
Lemma from_dict_settles source c : from_dict cls source = Ok c -> resolved cls c = true ->
  Forall (fun s => noop s c) (post_init cls).
Proof.
  intros H Hr. apply from_dict_Ok in H as (given & kw & H).
  apply construct_Ok in H as (_ & attrs & _ & H).
  eapply run_all_settles; [apply settling_lawful|apply settling_independent|exact H|].
  rewrite resolved_spec in Hr. by apply negb_true_iff in Hr.
Qed.

Lemma asdict_attrs o : attr_names o = field_names cls -> asdict cls o = o_attrs o.
Proof.
  unfold asdict, attr_names. intros Hn. pose proof fields_NoDup as Hnd.
  rewrite <- Hn in *. by apply omap_names.
Qed.

Lemma attrs_not_kwargs o : attr_names o = field_names cls -> dict_has (o_attrs o) "kwargs" = false.
Proof.
  intros Hn. unfold dict_has. destruct (dict_get (o_attrs o) "kwargs") eqn:E; [|done].
  assert (In "kwargs" (attr_names o)) as H by (apply dict_get_In; eauto).
  rewrite Hn in H. apply str_mem_In in H. by rewrite kwargs_not_field in H.
Qed.

(** Rebuilding from a complete dictionary of fields: the arguments are the
    fields, and the [__post_init__] runs with empty [kwargs]. *)
Lemma from_dict_complete o : attr_names o = field_names cls ->
  from_dict cls (o_attrs o)
  = match run_all (post_init cls) (plain o) with
    | (Ok _, o') => Ok o'
    | (Raise e, _) => Raise e
    end.
Proof.
  intros Hn. unfold from_dict. rewrite (attrs_not_kwargs o Hn).
  set (is_field := fun kv : string * json => str_mem (fst kv) (field_names cls)).
  assert (forall kv, In kv (o_attrs o) -> is_field kv = true) as Hf.
  { intros kv Hkv. unfold is_field. rewrite <- Hn. apply str_mem_In, in_map_iff. eauto. }
  rewrite (filter_all is_field) by done.
  rewrite (filter_none (fun kv => negb (is_field kv))) by (intros kv Hkv; by rewrite Hf).
  unfold construct. enough (rmap (init_field (o_attrs o)) (fields cls) = Ok (o_attrs o)) as ->;
    [done|]. apply init_complete; [|done]. pose proof fields_NoDup. by rewrite <- Hn in *.
Qed.

(** Running [from_dict] on what [asdict] gives changes nothing. *)
Lemma from_dict_asdict source c : from_dict cls source = Ok c -> resolved cls c = true ->
  from_dict cls (asdict cls c) = Ok (plain c).
Proof.
  intros H Hr. pose proof (from_dict_settles _ _ H Hr) as Hs.
  apply from_dict_Ok in H as (given & kw & H). apply construct_Ok in H as (Hn & _).
  rewrite asdict_attrs, from_dict_complete by done. by rewrite run_all_noop.
Qed.

(** Overriding fields that no statement looks at. *)
Definition unread (k : string) : Prop :=
  forall s, In s (post_init cls) -> ~ In k (reads s).

Lemma override_one_names d kv : map fst (override_one d kv) = map fst d.
Proof.
  destruct kv as [k v]. unfold override_one. destruct (is_null v); [done|].
  unfold dict_has. destruct (dict_get d k) eqn:E; [|done]. apply dict_set_names, dict_get_In. eauto.
Qed.

Lemma override_names ovs d : map fst (fold_left override_one ovs d) = map fst d.
Proof.
  revert d. induction ovs as [|kv ovs IH]; intros d; simpl; [done|].
  by rewrite IH, override_one_names.
Qed.

Lemma override_get ovs d f :
  (forall k v, In (k, v) ovs -> is_null v = false -> k <> f) ->
  dict_get (fold_left override_one ovs d) f = dict_get d f.
Proof.
  revert d. induction ovs as [|[k v] ovs IH]; intros d H; simpl; [done|].
  rewrite IH by (intros k' v' Hin; apply H; by right).
  destruct (is_null v) eqn:Ev; [done|]. destruct (dict_has d k); [|done].
  rewrite dict_get_set. destruct (String.eqb_spec f k) as [->|]; [|done].
  by destruct (H k v (or_introl eq_refl) Ev).
Qed.

Lemma override_unread source c ovs : from_dict cls source = Ok c -> resolved cls c = true ->
  (forall k v, In (k, v) ovs -> is_null v = false -> unread k) ->
  override_apply ovs cls c = Ok (mkObj (fold_left override_one ovs (o_attrs c)) []).
Proof.
  intros H Hr Hu. pose proof (from_dict_settles _ _ H Hr) as Hs.
  apply from_dict_Ok in H as (given & kw & H). apply construct_Ok in H as (Hn & _).
  unfold override_apply. rewrite asdict_attrs by done.
  set (c' := mkObj (fold_left override_one ovs (o_attrs c)) []).
  change (fold_left override_one ovs (o_attrs c)) with (o_attrs c').
  assert (attr_names c' = field_names cls) as Hn' by (unfold attr_names; simpl; by rewrite override_names).
  rewrite from_dict_complete by done.
  rewrite run_all_noop; [done|]. eapply noop_agree; [apply settling_lawful| |exact Hs].
  intros s Hin f Hf. unfold attr. simpl. rewrite override_get; [done|].
  intros k v Hk Hv ->. by apply (Hu _ _ Hk Hv s Hin).
Qed.
End Settling.
