(* ===== verification/ModelPresets.v ===== *)
(** * The built-in model configurations ([model/model_preset.py])

    One definition per entry of [MODEL_PRESETS], as the JSON object it is. *)

From Stdlib Require Import SpecFloat.
From stdpp Require Import base list strings.
From S2P Require Import Prelude.
Local Open Scope string_scope.
Local Open Scope list_scope.
Local Open Scope Z_scope.

Definition preset_llama2_7b : dict json :=
  [
    ("architectures", JArr [JStr "LlamaForCausalLM"]); ("bos_token_id", JInt 1);
    ("eos_token_id", JInt 2); ("hidden_act", JStr "silu"); ("hidden_size", JInt 4096);
    ("initializer_range", JFloat (S754_finite false 5764607523034235 (-58)));
    ("intermediate_size", JInt 11008); ("max_position_embeddings", JInt 2048);
    ("model_type", JStr "llama"); ("num_attention_heads", JInt 32);
    ("num_hidden_layers", JInt 32); ("num_key_value_heads", JInt 32); ("pad_token_id", JInt 0);
    ("pretraining_tp", JInt 1);
    ("rms_norm_eps", JFloat (S754_finite false 5902958103587057 (-69)));
    ("rope_scaling", JNull); ("tie_word_embeddings", JBool false);
    ("torch_dtype", JStr "float16"); ("transformers_version", JStr "4.31.0.dev0");
    ("use_cache", JBool true); ("vocab_size", JInt 32000); ("context_window_size", JInt 2048);
    ("prefill_chunk_size", JInt 2048) ].

Definition preset_llama2_13b : dict json :=
  [
    ("_name_or_path", JStr "meta-llama/Llama-2-13b-hf");
    ("architectures", JArr [JStr "LlamaForCausalLM"]); ("bos_token_id", JInt 1);
    ("eos_token_id", JInt 2); ("hidden_act", JStr "silu"); ("hidden_size", JInt 5120);
    ("initializer_range", JFloat (S754_finite false 5764607523034235 (-58)));
    ("intermediate_size", JInt 13824); ("max_position_embeddings", JInt 2048);
    ("model_type", JStr "llama"); ("num_attention_heads", JInt 40);
    ("num_hidden_layers", JInt 40); ("num_key_value_heads", JInt 40); ("pad_token_id", JInt 0);
    ("pretraining_tp", JInt 2);
    ("rms_norm_eps", JFloat (S754_finite false 5902958103587057 (-69)));
    ("rope_scaling", JNull); ("tie_word_embeddings", JBool false);
    ("torch_dtype", JStr "float16"); ("transformers_version", JStr "4.31.0.dev0");
    ("use_cache", JBool true); ("vocab_size", JInt 32000); ("context_window_size", JInt 2048);
    ("prefill_chunk_size", JInt 2048) ].

Definition preset_llama2_70b : dict json :=
  [
    ("architectures", JArr [JStr "LlamaForCausalLM"]); ("bos_token_id", JInt 1);
    ("eos_token_id", JInt 2); ("hidden_act", JStr "silu"); ("hidden_size", JInt 8192);
    ("initializer_range", JFloat (S754_finite false 5764607523034235 (-58)));
    ("intermediate_size", JInt 28672); ("max_position_embeddings", JInt 2048);
    ("model_type", JStr "llama"); ("num_attention_heads", JInt 64);
    ("num_hidden_layers", JInt 80); ("num_key_value_heads", JInt 8); ("pad_token_id", JInt 0);
    ("rms_norm_eps", JFloat (S754_finite false 5902958103587057 (-69)));
    ("tie_word_embeddings", JBool false); ("torch_dtype", JStr "float16");
    ("transformers_version", JStr "4.31.0.dev0"); ("use_cache", JBool true);
    ("vocab_size", JInt 32000); ("context_window_size", JInt 2048);
    ("prefill_chunk_size", JInt 2048) ].

Definition preset_codellama_7b : dict json :=
  [
    ("_name_or_path", JStr "codellama/CodeLlama-7b-hf");
    ("architectures", JArr [JStr "LlamaForCausalLM"]); ("bos_token_id", JInt 1);
    ("eos_token_id", JInt 2); ("hidden_act", JStr "silu"); ("hidden_size", JInt 4096);
    ("initializer_range", JFloat (S754_finite false 5764607523034235 (-58)));
    ("intermediate_size", JInt 11008); ("max_position_embeddings", JInt 16384);
    ("model_type", JStr "llama"); ("num_attention_heads", JInt 32);
    ("num_hidden_layers", JInt 32); ("num_key_value_heads", JInt 32);
    ("pretraining_tp", JInt 1);
    ("rms_norm_eps", JFloat (S754_finite false 5902958103587057 (-69)));
    ("rope_scaling", JNull); ("rope_theta", JInt 1000000);
    ("tie_word_embeddings", JBool false); ("torch_dtype", JStr "bfloat16");
    ("transformers_version", JStr "4.33.0.dev0"); ("use_cache", JBool true);
    ("vocab_size", JInt 32016); ("context_window_size", JInt 2048);
    ("prefill_chunk_size", JInt 2048) ].

Definition preset_codellama_13b : dict json :=
  [
    ("architectures", JArr [JStr "LlamaForCausalLM"]); ("bos_token_id", JInt 1);
    ("eos_token_id", JInt 2); ("hidden_act", JStr "silu"); ("hidden_size", JInt 5120);
    ("initializer_range", JFloat (S754_finite false 5764607523034235 (-58)));
    ("intermediate_size", JInt 13824); ("max_position_embeddings", JInt 16384);
    ("model_type", JStr "llama"); ("num_attention_heads", JInt 40);
    ("num_hidden_layers", JInt 40); ("num_key_value_heads", JInt 40);
    ("pretraining_tp", JInt 1);
    ("rms_norm_eps", JFloat (S754_finite false 5902958103587057 (-69)));
    ("rope_scaling", JNull); ("rope_theta", JInt 1000000);
    ("tie_word_embeddings", JBool false); ("torch_dtype", JStr "bfloat16");
    ("transformers_version", JStr "4.32.0.dev0"); ("use_cache", JBool true);
    ("vocab_size", JInt 32016); ("context_window_size", JInt 2048);
    ("prefill_chunk_size", JInt 2048) ].

Definition preset_codellama_34b : dict json :=
  [
    ("architectures", JArr [JStr "LlamaForCausalLM"]); ("bos_token_id", JInt 1);
    ("eos_token_id", JInt 2); ("hidden_act", JStr "silu"); ("hidden_size", JInt 8192);
    ("initializer_range", JFloat (S754_finite false 5764607523034235 (-58)));
    ("intermediate_size", JInt 22016); ("max_position_embeddings", JInt 16384);
    ("model_type", JStr "llama"); ("num_attention_heads", JInt 64);
    ("num_hidden_layers", JInt 48); ("num_key_value_heads", JInt 8);
    ("pretraining_tp", JInt 1);
    ("rms_norm_eps", JFloat (S754_finite false 5902958103587057 (-69)));
    ("rope_scaling", JNull); ("rope_theta", JInt 1000000);
    ("tie_word_embeddings", JBool false); ("torch_dtype", JStr "bfloat16");
    ("transformers_version", JStr "4.32.0.dev0"); ("use_cache", JBool true);
    ("vocab_size", JInt 32016); ("context_window_size", JInt 2048);
    ("prefill_chunk_size", JInt 2048) ].

Definition preset_tinyllama_1b_chat_v0_4 : dict json :=
  [
    ("_name_or_path", JStr "/data/tianduo/tinyllama-ft/checkpoint-3890");
    ("architectures", JArr [JStr "LlamaForCausalLM"]); ("bos_token_id", JInt 1);
    ("eos_token_id", JInt 2); ("hidden_act", JStr "silu"); ("hidden_size", JInt 2048);
    ("initializer_range", JFloat (S754_finite false 5764607523034235 (-58)));
    ("intermediate_size", JInt 5632); ("max_position_embeddings", JInt 2048);
    ("model_type", JStr "llama"); ("num_attention_heads", JInt 32);
    ("num_hidden_layers", JInt 22); ("num_key_value_heads", JInt 4);
    ("pretraining_tp", JInt 1);
    ("rms_norm_eps", JFloat (S754_finite false 5902958103587057 (-69)));
    ("rope_scaling", JNull); ("rope_theta", JFloat (S754_finite false 5497558138880000 (-39)));
    ("tie_word_embeddings", JBool false); ("torch_dtype", JStr "float32");
    ("transformers_version", JStr "4.33.1"); ("use_cache", JBool false);
    ("vocab_size", JInt 32003) ].

Definition preset_tinyllama_1b_chat_v1_0 : dict json :=
  [
    ("architectures", JArr [JStr "LlamaForCausalLM"]); ("attention_bias", JBool false);
    ("bos_token_id", JInt 1); ("eos_token_id", JInt 2); ("hidden_act", JStr "silu");
    ("hidden_size", JInt 2048);
    ("initializer_range", JFloat (S754_finite false 5764607523034235 (-58)));
    ("intermediate_size", JInt 5632); ("max_position_embeddings", JInt 2048);
    ("model_type", JStr "llama"); ("num_attention_heads", JInt 32);
    ("num_hidden_layers", JInt 22); ("num_key_value_heads", JInt 4);
    ("pretraining_tp", JInt 1);
    ("rms_norm_eps", JFloat (S754_finite false 5902958103587057 (-69)));
    ("rope_scaling", JNull); ("rope_theta", JFloat (S754_finite false 5497558138880000 (-39)));
    ("tie_word_embeddings", JBool false); ("torch_dtype", JStr "bfloat16");
    ("transformers_version", JStr "4.35.0"); ("use_cache", JBool true);
    ("vocab_size", JInt 32000) ].

Definition preset_mistral_7b : dict json :=
  [
    ("architectures", JArr [JStr "MistralForCausalLM"]); ("bos_token_id", JInt 1);
    ("eos_token_id", JInt 2); ("hidden_act", JStr "silu"); ("hidden_size", JInt 4096);
    ("initializer_range", JFloat (S754_finite false 5764607523034235 (-58)));
    ("intermediate_size", JInt 14336); ("max_position_embeddings", JInt 32768);
    ("model_type", JStr "mistral"); ("num_attention_heads", JInt 32);
    ("num_hidden_layers", JInt 32); ("num_key_value_heads", JInt 8);
    ("rms_norm_eps", JFloat (S754_finite false 5902958103587057 (-69)));
    ("rope_theta", JFloat (S754_finite false 5497558138880000 (-39)));
    ("tie_word_embeddings", JBool false); ("torch_dtype", JStr "bfloat16");
    ("transformers_version", JStr "4.34.0.dev0"); ("use_cache", JBool true);
    ("vocab_size", JInt 32000); ("sliding_window_size", JInt 4096);
    ("prefill_chunk_size", JInt 128); ("attention_sink_size", JInt 4) ].

Definition preset_mistral_7b_v03 : dict json :=
  [
    ("architectures", JArr [JStr "MistralForCausalLM"]);
    ("attention_dropout", JFloat (S754_zero false)); ("bos_token_id", JInt 1);
    ("eos_token_id", JInt 2); ("hidden_act", JStr "silu"); ("hidden_size", JInt 4096);
    ("initializer_range", JFloat (S754_finite false 5764607523034235 (-58)));
    ("intermediate_size", JInt 14336); ("max_position_embeddings", JInt 32768);
    ("model_type", JStr "mistral"); ("num_attention_heads", JInt 32);
    ("num_hidden_layers", JInt 32); ("num_key_value_heads", JInt 8);
    ("rms_norm_eps", JFloat (S754_finite false 5902958103587057 (-69)));
    ("rope_theta", JFloat (S754_finite false 8589934592000000 (-33)));
    ("sliding_window", JNull); ("tie_word_embeddings", JBool false);
    ("torch_dtype", JStr "bfloat16"); ("transformers_version", JStr "4.42.0.dev0");
    ("use_cache", JBool true); ("vocab_size", JInt 32768) ].

Definition preset_gpt2 : dict json :=
  [
    ("activation_function", JStr "gelu_new"); ("architectures", JArr [JStr "GPT2LMHeadModel"]);
    ("attn_pdrop", JFloat (S754_finite false 7205759403792794 (-56)));
    ("bos_token_id", JInt 50256);
    ("embd_pdrop", JFloat (S754_finite false 7205759403792794 (-56)));
    ("eos_token_id", JInt 50256);
    ("initializer_range", JFloat (S754_finite false 5764607523034235 (-58)));
    ("layer_norm_epsilon", JFloat (S754_finite false 5902958103587057 (-69)));
    ("model_type", JStr "gpt2"); ("n_ctx", JInt 1024); ("n_embd", JInt 768);
    ("n_head", JInt 12); ("n_layer", JInt 12); ("n_positions", JInt 1024);
    ("resid_pdrop", JFloat (S754_finite false 7205759403792794 (-56)));
    ("summary_activation", JNull);
    ("summary_first_dropout", JFloat (S754_finite false 7205759403792794 (-56)));
    ("summary_proj_to_labels", JBool true); ("summary_type", JStr "cls_index");
    ("summary_use_proj", JBool true);
    ("task_specific_params", JObj [("text-generation", JObj [("do_sample", JBool true); ("max_length", JInt 50)])]);
    ("vocab_size", JInt 50257) ].

Definition preset_gpt2_medium : dict json :=
  [
    ("activation_function", JStr "gelu_new"); ("architectures", JArr [JStr "GPT2LMHeadModel"]);
    ("attn_pdrop", JFloat (S754_finite false 7205759403792794 (-56)));
    ("bos_token_id", JInt 50256);
    ("embd_pdrop", JFloat (S754_finite false 7205759403792794 (-56)));
    ("eos_token_id", JInt 50256);
    ("initializer_range", JFloat (S754_finite false 5764607523034235 (-58)));
    ("layer_norm_epsilon", JFloat (S754_finite false 5902958103587057 (-69)));
    ("model_type", JStr "gpt2"); ("n_ctx", JInt 1024); ("n_embd", JInt 1024);
    ("n_head", JInt 16); ("n_layer", JInt 24); ("n_positions", JInt 1024);
    ("n_special", JInt 0); ("predict_special_tokens", JBool true);
    ("resid_pdrop", JFloat (S754_finite false 7205759403792794 (-56)));
    ("summary_activation", JNull);
    ("summary_first_dropout", JFloat (S754_finite false 7205759403792794 (-56)));
    ("summary_proj_to_labels", JBool true); ("summary_type", JStr "cls_index");
    ("summary_use_proj", JBool true);
    ("task_specific_params", JObj [("text-generation", JObj [("do_sample", JBool true); ("max_length", JInt 50)])]);
    ("vocab_size", JInt 50257) ].

Definition preset_gpt_bigcode : dict json :=
  [
    ("activation_function", JStr "gelu_pytorch_tanh");
    ("architectures", JArr [JStr "GPTBigCodeForCausalLM"]);
    ("attention_softmax_in_fp32", JBool true); ("multi_query", JBool true);
    ("attn_pdrop", JFloat (S754_finite false 7205759403792794 (-56)));
    ("bos_token_id", JInt 49152);
    ("embd_pdrop", JFloat (S754_finite false 7205759403792794 (-56)));
    ("eos_token_id", JInt 49152);
    ("initializer_range", JFloat (S754_finite false 5764607523034235 (-58)));
    ("layer_norm_epsilon", JFloat (S754_finite false 5902958103587057 (-69)));
    ("model_type", JStr "gpt_bigcode"); ("n_embd", JInt 2048); ("n_head", JInt 16);
    ("n_inner", JInt 8192); ("n_layer", JInt 24); ("n_positions", JInt 2048);
    ("resid_pdrop", JFloat (S754_finite false 7205759403792794 (-56)));
    ("runner_max_sequence_length", JNull); ("scale_attention_softmax_in_fp32", JBool true);
    ("scale_attn_weights", JBool true); ("summary_activation", JNull);
    ("summary_first_dropout", JFloat (S754_finite false 7205759403792794 (-56)));
    ("summary_proj_to_labels", JBool true); ("summary_type", JStr "cls_index");
    ("summary_use_proj", JBool true); ("transformers_version", JStr "4.28.0.dev0");
    ("use_cache", JBool true); ("vocab_size", JInt 49280) ].

Definition preset_Mixtral_8x7B_v0_1 : dict json :=
  [
    ("architectures", JArr [JStr "MixtralForCausalLM"]);
    ("attention_dropout", JFloat (S754_zero false)); ("bos_token_id", JInt 1);
    ("eos_token_id", JInt 2); ("hidden_act", JStr "silu"); ("hidden_size", JInt 4096);
    ("initializer_range", JFloat (S754_finite false 5764607523034235 (-58)));
    ("intermediate_size", JInt 14336); ("max_position_embeddings", JInt 32768);
    ("model_type", JStr "mixtral"); ("num_attention_heads", JInt 32);
    ("num_experts_per_tok", JInt 2); ("num_hidden_layers", JInt 32);
    ("num_key_value_heads", JInt 8); ("num_local_experts", JInt 8);
    ("output_router_logits", JBool false);
    ("rms_norm_eps", JFloat (S754_finite false 5902958103587057 (-69)));
    ("rope_theta", JFloat (S754_finite false 8589934592000000 (-33)));
    ("router_aux_loss_coef", JFloat (S754_finite false 5764607523034235 (-58)));
    ("sliding_window", JNull); ("tie_word_embeddings", JBool false);
    ("torch_dtype", JStr "bfloat16"); ("transformers_version", JStr "4.36.0.dev0");
    ("use_cache", JBool true); ("vocab_size", JInt 32000) ].

Definition preset_redpajama_3b_v1 : dict json :=
  [
    ("_name_or_path", JStr "/root/fm/models/rp_3b_800b_real_fp16");
    ("architectures", JArr [JStr "GPTNeoXForCausalLM"]); ("bos_token_id", JInt 0);
    ("eos_token_id", JInt 0); ("hidden_act", JStr "gelu"); ("hidden_size", JInt 2560);
    ("initializer_range", JFloat (S754_finite false 5764607523034235 (-58)));
    ("intermediate_size", JInt 10240);
    ("layer_norm_eps", JFloat (S754_finite false 5902958103587057 (-69)));
    ("max_position_embeddings", JInt 2048); ("model_type", JStr "gpt_neox");
    ("num_attention_heads", JInt 32); ("num_hidden_layers", JInt 32);
    ("rotary_emb_base", JInt 10000);
    ("rotary_pct", JFloat (S754_finite false 4503599627370496 (-52)));
    ("tie_word_embeddings", JBool false); ("torch_dtype", JStr "float16");
    ("transformers_version", JStr "4.28.1"); ("use_cache", JBool true);
    ("use_parallel_residual", JBool false); ("vocab_size", JInt 50432) ].

Definition preset_phi_1_5 : dict json :=
  [
    ("_name_or_path", JStr "microsoft/phi-1_5"); ("activation_function", JStr "gelu_new");
    ("architectures", JArr [JStr "PhiForCausalLM"]); ("attn_pdrop", JFloat (S754_zero false));
    ("auto_map", JObj [("AutoConfig", JStr "configuration_phi.PhiConfig"); ("AutoModelForCausalLM", JStr "modeling_phi.PhiForCausalLM")]);
    ("embd_pdrop", JFloat (S754_zero false)); ("flash_attn", JBool false);
    ("flash_rotary", JBool false); ("fused_dense", JBool false);
    ("initializer_range", JFloat (S754_finite false 5764607523034235 (-58)));
    ("layer_norm_epsilon", JFloat (S754_finite false 5902958103587057 (-69)));
    ("model_type", JStr "phi-msft"); ("n_embd", JInt 2048); ("n_head", JInt 32);
    ("n_head_kv", JNull); ("n_inner", JNull); ("n_layer", JInt 24); ("n_positions", JInt 2048);
    ("resid_pdrop", JFloat (S754_zero false)); ("rotary_dim", JInt 32);
    ("tie_word_embeddings", JBool false); ("torch_dtype", JStr "float16");
    ("transformers_version", JStr "4.34.1"); ("vocab_size", JInt 51200) ].

Definition preset_phi_2 : dict json :=
  [
    ("_name_or_path", JStr "microsoft/phi-2"); ("activation_function", JStr "gelu_new");
    ("architectures", JArr [JStr "PhiForCausalLM"]); ("attn_pdrop", JFloat (S754_zero false));
    ("auto_map", JObj [("AutoConfig", JStr "configuration_phi.PhiConfig"); ("AutoModelForCausalLM", JStr "modeling_phi.PhiForCausalLM")]);
    ("embd_pdrop", JFloat (S754_zero false)); ("flash_attn", JBool false);
    ("flash_rotary", JBool false); ("fused_dense", JBool false); ("img_processor", JNull);
    ("initializer_range", JFloat (S754_finite false 5764607523034235 (-58)));
    ("layer_norm_epsilon", JFloat (S754_finite false 5902958103587057 (-69)));
    ("model_type", JStr "phi-msft"); ("n_embd", JInt 2560); ("n_head", JInt 32);
    ("n_head_kv", JNull); ("n_inner", JNull); ("n_layer", JInt 32); ("n_positions", JInt 2048);
    ("resid_pdrop", JFloat (S754_finite false 7205759403792794 (-56)));
    ("rotary_dim", JInt 32); ("tie_word_embeddings", JBool false);
    ("torch_dtype", JStr "float16"); ("transformers_version", JStr "4.35.2");
    ("vocab_size", JInt 51200) ].

Definition preset_phi_3_5 : dict json :=
  [
    ("_name_or_path", JStr "Phi-3.5-mini-instruct");
    ("architectures", JArr [JStr "Phi3ForCausalLM"]);
    ("attention_dropout", JFloat (S754_zero false));
    ("auto_map", JObj [("AutoConfig", JStr "configuration_phi3.Phi3Config"); ("AutoModelForCausalLM", JStr "modeling_phi3.Phi3ForCausalLM")]);
    ("bos_token_id", JInt 1); ("embd_pdrop", JFloat (S754_zero false));
    ("eos_token_id", JInt 32000); ("hidden_act", JStr "silu"); ("hidden_size", JInt 3072);
    ("initializer_range", JFloat (S754_finite false 5764607523034235 (-58)));
    ("intermediate_size", JInt 8192); ("max_position_embeddings", JInt 131072);
    ("model_type", JStr "phi3"); ("num_attention_heads", JInt 32);
    ("num_hidden_layers", JInt 32); ("num_key_value_heads", JInt 32);
    ("original_max_position_embeddings", JInt 4096); ("pad_token_id", JInt 32000);
    ("resid_pdrop", JFloat (S754_zero false));
    ("rms_norm_eps", JFloat (S754_finite false 5902958103587057 (-69)));
    ("rope_scaling", JObj [("long_factor", JArr [JFloat (S754_finite false 4863887790833664 (-52)); JFloat (S754_finite false 4998995650805760 (-52)); JFloat (S754_finite false 5134103510777856 (-52)); JFloat (S754_finite false 6034823651000320 (-52)); JFloat (S754_finite false 7160723020972032 (-52)); JFloat (S754_finite false 7205759511166976 (-52)); JFloat (S754_finite false 7295831417815040 (-52)); JFloat (S754_finite false 5899715791028224 (-51)); JFloat (S754_finite false 7273313441153024 (-51)); JFloat (S754_finite false 7273313441153024 (-51)); JFloat (S754_finite false 5393060510826496 (-50)); JFloat (S754_finite false 8331659418009600 (-50)); JFloat (S754_finite false 8669429604810752 (-50)); JFloat (S754_finite false 5117215162499072 (-49)); JFloat (S754_finite false 6867989324365824 (-49)); JFloat (S754_finite false 4973662859952128 (-48)); JFloat (S754_finite false 6884878209515520 (-48)); JFloat (S754_finite false 8041740535595008 (-48)); JFloat (S754_finite false 8562469349883904 (-48)); JFloat (S754_finite false 8680688861577216 (-48)); JFloat (S754_finite false 4586635303845888 (-47)); JFloat (S754_finite false 4634486071361536 (-47)); JFloat (S754_finite false 5956011001118720 (-47)); JFloat (S754_finite false 6327557884477440 (-47)); JFloat (S754_finite false 7084725722152960 (-47)); JFloat (S754_finite false 7100206931771392 (-47)); JFloat (S754_finite false 8099442884345856 (-47)); JFloat (S754_finite false 8152923280244736 (-47)); JFloat (S754_finite false 8192329605185536 (-47)); JFloat (S754_finite false 8463953000660992 (-47)); JFloat (S754_finite false 8811574768697344 (-47)); JFloat (S754_finite false 8812981907357696 (-47)); JFloat (S754_finite false 8825648302784512 (-47)); JFloat (S754_finite false 8886165465726976 (-47)); JFloat (S754_finite false 8886165465726976 (-47)); JFloat (S754_finite false 8974830233714688 (-47)); JFloat (S754_finite false 8997348210376704 (-47)); JFloat (S754_finite false 9001570163228672 (-47)); JFloat (S754_finite false 9002977301889024 (-47)); JFloat (S754_finite false 4505710603796480 (-46)); JFloat (S754_finite false 4508525417988096 (-46)); JFloat (S754_finite false 4509229255753728 (-46)); JFloat (S754_finite false 4512044069945344 (-46)); JFloat (S754_finite false 4532451070181376 (-46)); JFloat (S754_finite false 4537376860798976 (-46)); JFloat (S754_finite false 4539487837224960 (-46)); JFloat (S754_finite false 4540894975885312 (-46)); JFloat (S754_finite false 4562709114781696 (-46))]); ("short_factor", JArr [JFloat (S754_finite false 4503599627370496 (-52)); JFloat (S754_finite false 4593671534018560 (-52)); JFloat (S754_finite false 4638707487342592 (-52)); JFloat (S754_finite false 4638707487342592 (-52)); JFloat (S754_finite false 4728779393990656 (-52)); JFloat (S754_finite false 4728779393990656 (-52)); JFloat (S754_finite false 4728779393990656 (-52)); JFloat (S754_finite false 4728779393990656 (-52)); JFloat (S754_finite false 4728779393990656 (-52)); JFloat (S754_finite false 4818851300638720 (-52)); JFloat (S754_finite false 4953959160610816 (-52)); JFloat (S754_finite false 4998995113934848 (-52)); JFloat (S754_finite false 5224174880555008 (-52)); JFloat (S754_finite false 5224174880555008 (-52)); JFloat (S754_finite false 5269210833879040 (-52)); JFloat (S754_finite false 5809642810638336 (-52)); JFloat (S754_finite false 6034822577258496 (-52)); JFloat (S754_finite false 7566046600888320 (-52)); JFloat (S754_finite false 8061442624323584 (-52)); JFloat (S754_finite false 8196550484295680 (-52)); JFloat (S754_finite false 8331658344267776 (-52)); JFloat (S754_finite false 8466766204239872 (-52)); JFloat (S754_finite false 8601874064211968 (-52)); JFloat (S754_finite false 8736981924184064 (-52)); JFloat (S754_finite false 8962161690804224 (-52)); JFloat (S754_finite false 4548635043823616 (-51)); JFloat (S754_finite false 4548635043823616 (-51)); JFloat (S754_finite false 4548635043823616 (-51)); JFloat (S754_finite false 4548635043823616 (-51)); JFloat (S754_finite false 4548635043823616 (-51)); JFloat (S754_finite false 4548635043823616 (-51)); JFloat (S754_finite false 4571153020485632 (-51)); JFloat (S754_finite false 4571153020485632 (-51)); JFloat (S754_finite false 4571153020485632 (-51)); JFloat (S754_finite false 4571153020485632 (-51)); JFloat (S754_finite false 4571153020485632 (-51)); JFloat (S754_finite false 4571153020485632 (-51)); JFloat (S754_finite false 4571153020485632 (-51)); JFloat (S754_finite false 4571153020485632 (-51)); JFloat (S754_finite false 4571153020485632 (-51)); JFloat (S754_finite false 4683742903795712 (-51)); JFloat (S754_finite false 4706260880457728 (-51)); JFloat (S754_finite false 4931440647077888 (-51)); JFloat (S754_finite false 4998994577063936 (-51)); JFloat (S754_finite false 5832160250429440 (-51)); JFloat (S754_finite false 6147412460568576 (-51)); JFloat (S754_finite false 6192448413892608 (-51)); JFloat (S754_finite false 6395110203850752 (-51))]); ("type", JStr "longrope")]);
    ("rope_theta", JFloat (S754_finite false 5497558138880000 (-39)));
    ("sliding_window", JInt 262144); ("tie_word_embeddings", JBool false);
    ("torch_dtype", JStr "bfloat16"); ("transformers_version", JStr "4.43.3");
    ("use_cache", JBool true); ("attention_bias", JBool false); ("vocab_size", JInt 32064) ].

Definition preset_phi_3_5_vision : dict json :=
  [
    ("_name_or_path", JStr "Phi-3.5-vision-instruct");
    ("architectures", JArr [JStr "Phi3VForCausalLM"]);
    ("attention_dropout", JFloat (S754_zero false));
    ("auto_map", JObj [("AutoConfig", JStr "configuration_phi3_v.Phi3VConfig"); ("AutoModelForCausalLM", JStr "modeling_phi3_v.Phi3VForCausalLM")]);
    ("bos_token_id", JInt 1);
    ("embd_layer", JObj [("embedding_cls", JStr "image"); ("hd_transform_order", JStr "sub_glb"); ("projection_cls", JStr "mlp"); ("use_hd_transform", JBool true); ("with_learnable_separator", JBool true)]);
    ("embd_pdrop", JFloat (S754_zero false)); ("eos_token_id", JInt 2);
    ("hidden_act", JStr "silu"); ("hidden_size", JInt 3072);
    ("img_processor", JObj [("image_dim_out", JInt 1024); ("model_name", JStr "openai/clip-vit-large-patch14-336"); ("name", JStr "clip_vision_model"); ("num_img_tokens", JInt 144)]);
    ("initializer_range", JFloat (S754_finite false 5764607523034235 (-58)));
    ("intermediate_size", JInt 8192); ("max_position_embeddings", JInt 131072);
    ("model_type", JStr "phi3_v"); ("num_attention_heads", JInt 32);
    ("num_hidden_layers", JInt 32); ("num_key_value_heads", JInt 32);
    ("original_max_position_embeddings", JInt 4096); ("pad_token_id", JInt 32000);
    ("resid_pdrop", JFloat (S754_zero false));
    ("rms_norm_eps", JFloat (S754_finite false 5902958103587057 (-69)));
    ("rope_scaling", JObj [("long_factor", JArr [JFloat (S754_finite false 4863887790833664 (-52)); JFloat (S754_finite false 4998995650805760 (-52)); JFloat (S754_finite false 5134103510777856 (-52)); JFloat (S754_finite false 6034823651000320 (-52)); JFloat (S754_finite false 7160723020972032 (-52)); JFloat (S754_finite false 7205759511166976 (-52)); JFloat (S754_finite false 7295831417815040 (-52)); JFloat (S754_finite false 5899715791028224 (-51)); JFloat (S754_finite false 7273313441153024 (-51)); JFloat (S754_finite false 7273313441153024 (-51)); JFloat (S754_finite false 5393060510826496 (-50)); JFloat (S754_finite false 8331659418009600 (-50)); JFloat (S754_finite false 8669429604810752 (-50)); JFloat (S754_finite false 5117215162499072 (-49)); JFloat (S754_finite false 6867989324365824 (-49)); JFloat (S754_finite false 4973662859952128 (-48)); JFloat (S754_finite false 6884878209515520 (-48)); JFloat (S754_finite false 8041740535595008 (-48)); JFloat (S754_finite false 8562469349883904 (-48)); JFloat (S754_finite false 8680688861577216 (-48)); JFloat (S754_finite false 4586635303845888 (-47)); JFloat (S754_finite false 4634486071361536 (-47)); JFloat (S754_finite false 5956011001118720 (-47)); JFloat (S754_finite false 6327557884477440 (-47)); JFloat (S754_finite false 7084725722152960 (-47)); JFloat (S754_finite false 7100206931771392 (-47)); JFloat (S754_finite false 8099442884345856 (-47)); JFloat (S754_finite false 8152923280244736 (-47)); JFloat (S754_finite false 8192329605185536 (-47)); JFloat (S754_finite false 8463953000660992 (-47)); JFloat (S754_finite false 8811574768697344 (-47)); JFloat (S754_finite false 8812981907357696 (-47)); JFloat (S754_finite false 8825648302784512 (-47)); JFloat (S754_finite false 8886165465726976 (-47)); JFloat (S754_finite false 8886165465726976 (-47)); JFloat (S754_finite false 8974830233714688 (-47)); JFloat (S754_finite false 8997348210376704 (-47)); JFloat (S754_finite false 9001570163228672 (-47)); JFloat (S754_finite false 9002977301889024 (-47)); JFloat (S754_finite false 4505710603796480 (-46)); JFloat (S754_finite false 4508525417988096 (-46)); JFloat (S754_finite false 4509229255753728 (-46)); JFloat (S754_finite false 4512044069945344 (-46)); JFloat (S754_finite false 4532451070181376 (-46)); JFloat (S754_finite false 4537376860798976 (-46)); JFloat (S754_finite false 4539487837224960 (-46)); JFloat (S754_finite false 4540894975885312 (-46)); JFloat (S754_finite false 4562709114781696 (-46))]); ("short_factor", JArr [JFloat (S754_finite false 4863887597560136 (-52)); JFloat (S754_finite false 4953959590107546 (-52)); JFloat (S754_finite false 5089067578928661 (-52)); JFloat (S754_finite false 5764607523034236 (-52)); JFloat (S754_finite false 5899715511855351 (-52)); JFloat (S754_finite false 6530219459687221 (-52)); JFloat (S754_finite false 6530219459687221 (-52)); JFloat (S754_finite false 8782019273372471 (-52)); JFloat (S754_finite false 4571153621781056 (-51)); JFloat (S754_finite false 5471873547255136 (-51)); JFloat (S754_finite false 5787125521171064 (-51)); JFloat (S754_finite false 6642809450371440 (-51)); JFloat (S754_finite false 8399213305045896 (-51)); JFloat (S754_finite false 8714465278961824 (-51)); JFloat (S754_finite false 4717520609670544 (-50)); JFloat (S754_finite false 4998995586381194 (-50)); JFloat (S754_finite false 5224175567749714 (-50)); JFloat (S754_finite false 5606981536076198 (-50)); JFloat (S754_finite false 5809643519307866 (-50)); JFloat (S754_finite false 5944751508128978 (-50)); JFloat (S754_finite false 6485183463413426 (-50)); JFloat (S754_finite false 6631550451302964 (-50)); JFloat (S754_finite false 6631550451302964 (-50)); JFloat (S754_finite false 6721622443850372 (-50)); JFloat (S754_finite false 6856730432671484 (-50)); JFloat (S754_finite false 7070651414971578 (-50)); JFloat (S754_finite false 7622342369324452 (-50)); JFloat (S754_finite false 7757450358145564 (-50)); JFloat (S754_finite false 8005148337650936 (-50)); JFloat (S754_finite false 8027666335787788 (-50)); JFloat (S754_finite false 8083961331129918 (-50)); JFloat (S754_finite false 8207810320882604 (-50)); JFloat (S754_finite false 8264105316224734 (-50)); JFloat (S754_finite false 8511803295730106 (-50)); JFloat (S754_finite false 8579357290140662 (-50)); JFloat (S754_finite false 8669429282688070 (-50)); JFloat (S754_finite false 8872091265919738 (-50)); JFloat (S754_finite false 8872091265919738 (-50)); JFloat (S754_finite false 8872091265919738 (-50)); JFloat (S754_finite false 8939645260330294 (-50)); JFloat (S754_finite false 8950904259398720 (-50)); JFloat (S754_finite false 8984681256603998 (-50)); JFloat (S754_finite false 4616189618054685 (-49)); JFloat (S754_finite false 4751297606875797 (-49)); JFloat (S754_finite false 4768186105478436 (-49)); JFloat (S754_finite false 4835740099888992 (-49)); JFloat (S754_finite false 4959589089641678 (-49)); JFloat (S754_finite false 5066549580791725 (-49))]); ("type", JStr "su")]);
    ("rope_theta", JFloat (S754_finite false 5497558138880000 (-39)));
    ("sliding_window", JInt 262144); ("tie_word_embeddings", JBool false);
    ("torch_dtype", JStr "bfloat16"); ("transformers_version", JStr "4.38.1");
    ("use_cache", JBool true); ("vocab_size", JInt 32064);
    ("_attn_implementation", JStr "flash_attention_2") ].

Definition preset_qwen : dict json :=
  [
    ("architectures", JArr [JStr "QWenLMHeadModel"]);
    ("auto_map", JObj [("AutoConfig", JStr "configuration_qwen.QWenConfig"); ("AutoModelForCausalLM", JStr "modeling_qwen.QWenLMHeadModel")]);
    ("attn_dropout_prob", JFloat (S754_zero false)); ("bf16", JBool false);
    ("emb_dropout_prob", JFloat (S754_zero false)); ("hidden_size", JInt 2048);
    ("intermediate_size", JInt 11008);
    ("initializer_range", JFloat (S754_finite false 5764607523034235 (-58)));
    ("kv_channels", JInt 128);
    ("layer_norm_epsilon", JFloat (S754_finite false 4722366482869645 (-72)));
    ("max_position_embeddings", JInt 8192); ("model_type", JStr "qwen");
    ("no_bias", JBool true); ("num_attention_heads", JInt 16); ("num_hidden_layers", JInt 24);
    ("rotary_emb_base", JInt 10000);
    ("rotary_pct", JFloat (S754_finite false 4503599627370496 (-52)));
    ("scale_attn_weights", JBool true); ("seq_length", JInt 8192);
    ("tie_word_embeddings", JBool false); ("tokenizer_class", JStr "QWenTokenizer");
    ("transformers_version", JStr "4.32.0"); ("use_cache", JBool true);
    ("use_dynamic_ntk", JBool true); ("use_flash_attn", JStr "auto");
    ("use_logn_attn", JBool true); ("vocab_size", JInt 151936) ].

Definition preset_qwen2 : dict json :=
  [
    ("_name_or_path", JStr "Qwen/Qwen1.5-1.8B-Chat");
    ("architectures", JArr [JStr "Qwen2ForCausalLM"]);
    ("attention_dropout", JFloat (S754_zero false)); ("bos_token_id", JInt 151643);
    ("eos_token_id", JInt 151645); ("hidden_act", JStr "silu"); ("hidden_size", JInt 2048);
    ("initializer_range", JFloat (S754_finite false 5764607523034235 (-58)));
    ("intermediate_size", JInt 5504); ("max_position_embeddings", JInt 4096);
    ("max_window_layers", JInt 21); ("model_type", JStr "qwen2");
    ("num_attention_heads", JInt 16); ("num_hidden_layers", JInt 24);
    ("num_key_value_heads", JInt 16);
    ("rms_norm_eps", JFloat (S754_finite false 4722366482869645 (-72)));
    ("rope_theta", JFloat (S754_finite false 8589934592000000 (-33)));
    ("sliding_window", JInt 32768); ("tie_word_embeddings", JBool true);
    ("torch_dtype", JStr "bfloat16"); ("transformers_version", JStr "4.37.2");
    ("use_cache", JBool true); ("use_sliding_window", JBool false); ("vocab_size", JInt 151936) ].

Definition preset_qwen2moe : dict json :=
  [
    ("architectures", JArr [JStr "Qwen2MoeForCausalLM"]);
    ("attention_dropout", JFloat (S754_zero false)); ("bos_token_id", JInt 151643);
    ("eos_token_id", JInt 151645); ("hidden_act", JStr "silu"); ("hidden_size", JInt 2048);
    ("initializer_range", JFloat (S754_finite false 5764607523034235 (-58)));
    ("intermediate_size", JInt 5632); ("max_position_embeddings", JInt 32768);
    ("max_window_layers", JInt 21); ("model_type", JStr "qwen2_moe");
    ("num_attention_heads", JInt 16); ("num_hidden_layers", JInt 24);
    ("num_key_value_heads", JInt 16);
    ("rms_norm_eps", JFloat (S754_finite false 4722366482869645 (-72)));
    ("rope_theta", JFloat (S754_finite false 8589934592000000 (-33)));
    ("sliding_window", JInt 32768); ("tie_word_embeddings", JBool false);
    ("torch_dtype", JStr "bfloat16"); ("transformers_version", JStr "4.39.0.dev0");
    ("use_cache", JBool true); ("use_sliding_window", JBool false);
    ("vocab_size", JInt 151936); ("decoder_sparse_step", JInt 1);
    ("moe_intermediate_size", JInt 1408); ("shared_expert_intermediate_size", JInt 5632);
    ("num_experts_per_tok", JInt 4); ("num_experts", JInt 60); ("norm_topk_prob", JBool false);
    ("output_router_logits", JBool false);
    ("router_aux_loss_coef", JFloat (S754_finite false 4611686018427388 (-62))) ].

Definition preset_deepseek_v2_lite : dict json :=
  [
    ("architectures", JArr [JStr "DeepseekV2ForCausalLM"]); ("attention_bias", JBool false);
    ("bos_token_id", JInt 100000); ("eos_token_id", JInt 100001);
    ("first_k_dense_replace", JInt 1); ("hidden_act", JStr "silu"); ("hidden_size", JInt 2048);
    ("initializer_range", JFloat (S754_finite false 5764607523034235 (-58)));
    ("intermediate_size", JInt 10944); ("kv_lora_rank", JInt 512);
    ("max_position_embeddings", JInt 163840); ("model_type", JStr "deepseek_v2");
    ("moe_intermediate_size", JInt 1408); ("moe_layer_freq", JInt 1); ("n_group", JInt 1);
    ("n_routed_experts", JInt 64); ("n_shared_experts", JInt 2);
    ("norm_topk_prob", JBool false); ("num_attention_heads", JInt 16);
    ("num_experts_per_tok", JInt 6); ("num_hidden_layers", JInt 27);
    ("num_key_value_heads", JInt 16); ("pretraining_tp", JInt 1);
    ("qk_nope_head_dim", JInt 128); ("qk_rope_head_dim", JInt 64);
    ("rms_norm_eps", JFloat (S754_finite false 4722366482869645 (-72)));
    ("rope_scaling", JObj [("beta_fast", JInt 32); ("beta_slow", JInt 1); ("factor", JInt 40); ("mscale", JFloat (S754_finite false 6368089873101881 (-53))); ("mscale_all_dim", JFloat (S754_finite false 6368089873101881 (-53))); ("original_max_position_embeddings", JInt 4096); ("type", JStr "yarn")]);
    ("rope_theta", JInt 10000);
    ("routed_scaling_factor", JFloat (S754_finite false 4503599627370496 (-52)));
    ("scoring_func", JStr "softmax"); ("topk_group", JInt 1); ("topk_method", JStr "greedy");
    ("torch_dtype", JStr "bfloat16"); ("transformers_version", JStr "4.33.1");
    ("use_cache", JBool true); ("v_head_dim", JInt 128); ("vocab_size", JInt 102400) ].

Definition preset_stablelm : dict json :=
  [
    ("architectures", JArr [JStr "StableLmForCausalLM"]); ("bos_token_id", JInt 0);
    ("eos_token_id", JInt 0); ("hidden_act", JStr "silu"); ("hidden_size", JInt 2560);
    ("initializer_range", JFloat (S754_finite false 5764607523034235 (-58)));
    ("intermediate_size", JInt 6912); ("max_position_embeddings", JInt 4096);
    ("model_type", JStr "stablelm");
    ("layer_norm_eps", JFloat (S754_finite false 5902958103587057 (-69)));
    ("num_attention_heads", JInt 32); ("num_hidden_layers", JInt 32);
    ("num_key_value_heads", JInt 32);
    ("partial_rotary_factor", JFloat (S754_finite false 4503599627370496 (-54)));
    ("rope_theta", JInt 10000); ("tie_word_embeddings", JBool false);
    ("torch_dtype", JStr "bfloat16"); ("transformers_version", JStr "4.38.0");
    ("use_cache", JBool true); ("use_qkv_bias", JBool false); ("vocab_size", JInt 50304) ].

Definition preset_baichuan : dict json :=
  [
    ("architectures", JArr [JStr "BaichuanForCausalLM"]);
    ("tokenizer_class", JStr "BaichuanTokenizer"); ("bos_token_id", JInt 1);
    ("eos_token_id", JInt 2); ("hidden_size", JInt 4096);
    ("initializer_range", JFloat (S754_finite false 5764607523034235 (-58)));
    ("intermediate_size", JInt 11008); ("max_position_embeddings", JInt 4096);
    ("model_max_length", JInt 4096); ("model_type", JStr "baichuan");
    ("num_attention_heads", JInt 32); ("num_hidden_layers", JInt 32); ("pad_token_id", JInt 0);
    ("rms_norm_eps", JFloat (S754_finite false 4722366482869645 (-72)));
    ("_from_model_config", JBool true); ("tie_word_embeddings", JBool false);
    ("torch_dtype", JStr "bfloat16"); ("transformers_version", JStr "4.29.2");
    ("use_cache", JBool true); ("vocab_size", JInt 125696) ].

Definition preset_internlm : dict json :=
  [
    ("architectures", JArr [JStr "InternLMForCausalLM"]); ("bias", JBool true);
    ("bos_token_id", JInt 1); ("eos_token_id", JInt 2); ("hidden_act", JStr "silu");
    ("hidden_size", JInt 4096);
    ("initializer_range", JFloat (S754_finite false 5764607523034235 (-58)));
    ("intermediate_size", JInt 11008); ("max_position_embeddings", JInt 2048);
    ("model_type", JStr "internlm"); ("num_attention_heads", JInt 32);
    ("num_hidden_layers", JInt 32); ("pad_token_id", JInt 2);
    ("rms_norm_eps", JFloat (S754_finite false 4722366482869645 (-72)));
    ("tie_word_embeddings", JBool false); ("torch_dtype", JStr "float16");
    ("transformers_version", JStr "4.33.2"); ("use_cache", JBool true);
    ("vocab_size", JInt 103168) ].

Definition preset_gemma2_2b : dict json :=
  [
    ("architectures", JArr [JStr "Gemma2ForCausalLM"]); ("attention_bias", JBool false);
    ("attention_dropout", JFloat (S754_zero false));
    ("attn_logit_softcapping", JFloat (S754_finite false 7036874417766400 (-47)));
    ("bos_token_id", JInt 2); ("cache_implementation", JStr "hybrid");
    ("eos_token_id", JArr [JInt 1; JInt 107]);
    ("final_logit_softcapping", JFloat (S754_finite false 8444249301319680 (-48)));
    ("head_dim", JInt 256); ("hidden_act", JStr "gelu_pytorch_tanh");
    ("hidden_activation", JStr "gelu_pytorch_tanh"); ("hidden_size", JInt 2304);
    ("initializer_range", JFloat (S754_finite false 5764607523034235 (-58)));
    ("intermediate_size", JInt 9216); ("max_position_embeddings", JInt 8192);
    ("model_type", JStr "gemma2"); ("num_attention_heads", JInt 8);
    ("num_hidden_layers", JInt 26); ("num_key_value_heads", JInt 4); ("pad_token_id", JInt 0);
    ("query_pre_attn_scalar", JInt 256);
    ("rms_norm_eps", JFloat (S754_finite false 4722366482869645 (-72)));
    ("rope_theta", JFloat (S754_finite false 5497558138880000 (-39)));
    ("sliding_window", JInt 4096); ("torch_dtype", JStr "bfloat16");
    ("transformers_version", JStr "4.42.4"); ("use_cache", JBool true);
    ("vocab_size", JInt 256000) ].

Definition preset_gemma2_9b : dict json :=
  [
    ("architectures", JArr [JStr "Gemma2ForCausalLM"]); ("attention_bias", JBool false);
    ("attention_dropout", JFloat (S754_zero false));
    ("attn_logit_softcapping", JFloat (S754_finite false 7036874417766400 (-47)));
    ("bos_token_id", JInt 2); ("cache_implementation", JStr "hybrid");
    ("eos_token_id", JInt 1);
    ("final_logit_softcapping", JFloat (S754_finite false 8444249301319680 (-48)));
    ("head_dim", JInt 256); ("hidden_act", JStr "gelu_pytorch_tanh");
    ("hidden_activation", JStr "gelu_pytorch_tanh"); ("hidden_size", JInt 3584);
    ("initializer_range", JFloat (S754_finite false 5764607523034235 (-58)));
    ("intermediate_size", JInt 14336); ("max_position_embeddings", JInt 8192);
    ("model_type", JStr "gemma2"); ("num_attention_heads", JInt 16);
    ("num_hidden_layers", JInt 42); ("num_key_value_heads", JInt 8); ("pad_token_id", JInt 0);
    ("query_pre_attn_scalar", JInt 256);
    ("rms_norm_eps", JFloat (S754_finite false 4722366482869645 (-72)));
    ("rope_theta", JFloat (S754_finite false 5497558138880000 (-39)));
    ("sliding_window", JInt 4096); ("sliding_window_size", JInt 4096);
    ("torch_dtype", JStr "bfloat16"); ("transformers_version", JStr "4.42.0.dev0");
    ("use_cache", JBool true); ("vocab_size", JInt 256000) ].

Definition preset_gemma2_27b : dict json :=
  [
    ("architectures", JArr [JStr "Gemma2ForCausalLM"]); ("attention_bias", JBool false);
    ("attention_dropout", JFloat (S754_zero false));
    ("attn_logit_softcapping", JFloat (S754_finite false 7036874417766400 (-47)));
    ("bos_token_id", JInt 2); ("cache_implementation", JStr "hybrid");
    ("eos_token_id", JInt 1);
    ("final_logit_softcapping", JFloat (S754_finite false 8444249301319680 (-48)));
    ("head_dim", JInt 128); ("hidden_act", JStr "gelu_pytorch_tanh");
    ("hidden_activation", JStr "gelu_pytorch_tanh"); ("hidden_size", JInt 4608);
    ("initializer_range", JFloat (S754_finite false 5764607523034235 (-58)));
    ("intermediate_size", JInt 36864); ("max_position_embeddings", JInt 8192);
    ("model_type", JStr "gemma2"); ("num_attention_heads", JInt 32);
    ("num_hidden_layers", JInt 46); ("num_key_value_heads", JInt 16); ("pad_token_id", JInt 0);
    ("query_pre_attn_scalar", JInt 144);
    ("rms_norm_eps", JFloat (S754_finite false 4722366482869645 (-72)));
    ("rope_theta", JFloat (S754_finite false 5497558138880000 (-39)));
    ("sliding_window", JInt 4096); ("sliding_window_size", JInt 4096);
    ("torch_dtype", JStr "bfloat16"); ("transformers_version", JStr "4.42.0.dev0");
    ("use_cache", JBool true); ("vocab_size", JInt 256000);
    ("_attn_implementation", JStr "eager") ].

Definition preset_rwkv5_3b : dict json :=
  [
    ("architectures", JArr [JStr "RwkvForCausalLM"]);
    ("auto_map", JObj [("AutoConfig", JStr "configuration_rwkv5.Rwkv5Config"); ("AutoModelForCausalLM", JStr "modeling_rwkv5.RwkvForCausalLM")]);
    ("attention_hidden_size", JInt 2560); ("bos_token_id", JInt 0);
    ("context_length", JInt 4096); ("eos_token_id", JInt 0); ("head_size", JInt 64);
    ("hidden_size", JInt 2560); ("intermediate_size", JNull);
    ("layer_norm_epsilon", JFloat (S754_finite false 5902958103587057 (-69)));
    ("model_type", JStr "rwkv5"); ("model_version", JStr "5_2");
    ("num_hidden_layers", JInt 32); ("rescale_every", JInt 6);
    ("tie_word_embeddings", JBool true); ("transformers_version", JStr "4.34.0");
    ("use_cache", JBool true); ("vocab_size", JInt 65536) ].

Definition preset_orion : dict json :=
  [
    ("architectures", JArr [JStr "OrionForCausalLM"]);
    ("auto_map", JObj [("AutoConfig", JStr "configuration_orion.OrionConfig"); ("AutoModelForCausalLM", JStr "modeling_orion.OrionForCausalLM")]);
    ("tokenizer_class", JStr "OrionTokenizer"); ("bos_token_id", JInt 1);
    ("eos_token_id", JInt 2); ("hidden_act", JStr "silu"); ("hidden_size", JInt 5120);
    ("model_type", JStr "orion");
    ("initializer_range", JFloat (S754_finite false 5764607523034235 (-58)));
    ("intermediate_size", JInt 15360); ("max_position_embeddings", JInt 4096);
    ("max_sequence_length", JInt 4096); ("num_attention_heads", JInt 40);
    ("num_hidden_layers", JInt 40); ("num_key_value_heads", JInt 40); ("pad_token_id", JInt 0);
    ("pretraining_tp", JInt 1);
    ("rms_norm_eps", JFloat (S754_finite false 5902958103587057 (-69)));
    ("rope_scaling", JNull); ("rope_theta", JFloat (S754_finite false 5497558138880000 (-39)));
    ("tie_word_embeddings", JBool false); ("torch_dtype", JStr "bfloat16");
    ("transformers_version", JStr "4.34.0"); ("use_cache", JBool true);
    ("vocab_size", JInt 84608) ].

Definition preset_llava : dict json :=
  [
    ("architectures", JArr [JStr "LlavaForConditionalGeneration"]);
    ("ignore_index", JInt (-100)); ("image_token_index", JInt 32000);
    ("model_type", JStr "llava"); ("pad_token_id", JInt 32001);
    ("projector_hidden_act", JStr "gelu");
    ("text_config", JObj [("_name_or_path", JStr "meta-llama/Llama-2-7b-hf"); ("architectures", JArr [JStr "LlamaForCausalLM"]); ("max_position_embeddings", JInt 4096); ("model_type", JStr "llama"); ("rms_norm_eps", JFloat (S754_finite false 5902958103587057 (-69))); ("torch_dtype", JStr "float16"); ("vocab_size", JInt 32064)]);
    ("tie_word_embeddings", JBool false); ("torch_dtype", JStr "float16");
    ("transformers_version", JStr "4.36.0.dev0");
    ("vision_config", JObj [("hidden_size", JInt 1024); ("image_size", JInt 336); ("intermediate_size", JInt 4096); ("model_type", JStr "clip_vision_model"); ("num_attention_heads", JInt 16); ("num_hidden_layers", JInt 24); ("patch_size", JInt 14); ("projection_dim", JInt 768); ("vocab_size", JInt 32000)]);
    ("vision_feature_layer", JInt (-2)); ("vision_feature_select_strategy", JStr "default");
    ("vocab_size", JInt 32064) ].

Definition preset_chatglm : dict json :=
  [
    ("architectures", JArr [JStr "ChatGLMModel"]); ("model_type", JStr "chatglm");
    ("add_bias_linear", JBool false); ("add_qkv_bias", JBool true);
    ("apply_query_key_layer_scaling", JBool true);
    ("apply_residual_connection_post_layernorm", JBool false);
    ("attention_dropout", JFloat (S754_zero false)); ("attention_softmax_in_fp32", JBool true);
    ("bias_dropout_fusion", JBool true); ("ffn_hidden_size", JInt 13696);
    ("fp32_residual_connection", JBool false); ("hidden_dropout", JFloat (S754_zero false));
    ("hidden_size", JInt 4096); ("kv_channels", JInt 128);
    ("layernorm_epsilon", JFloat (S754_finite false 5902958103587057 (-69)));
    ("multi_query_attention", JBool true); ("multi_query_group_num", JInt 2);
    ("num_attention_heads", JInt 32); ("num_layers", JInt 28); ("original_rope", JBool true);
    ("padded_vocab_size", JInt 65024); ("post_layer_norm", JBool true);
    ("rmsnorm", JBool true); ("seq_length", JInt 8192); ("use_cache", JBool true);
    ("torch_dtype", JStr "float16"); ("transformers_version", JStr "4.30.2");
    ("tie_word_embeddings", JBool false); ("eos_token_id", JInt 2); ("pad_token_id", JInt 0) ].

Definition preset_llama3_1_8b : dict json :=
  [
    ("architectures", JArr [JStr "LlamaForCausalLM"]); ("attention_bias", JBool false);
    ("attention_dropout", JFloat (S754_zero false)); ("bos_token_id", JInt 128000);
    ("eos_token_id", JArr [JInt 128001; JInt 128008; JInt 128009]);
    ("hidden_act", JStr "silu"); ("hidden_size", JInt 4096);
    ("initializer_range", JFloat (S754_finite false 5764607523034235 (-58)));
    ("intermediate_size", JInt 14336); ("max_position_embeddings", JInt 131072);
    ("mlp_bias", JBool false); ("model_type", JStr "llama"); ("num_attention_heads", JInt 32);
    ("num_hidden_layers", JInt 32); ("num_key_value_heads", JInt 8);
    ("pretraining_tp", JInt 1);
    ("rms_norm_eps", JFloat (S754_finite false 5902958103587057 (-69)));
    ("rope_scaling", JObj [("factor", JFloat (S754_finite false 4503599627370496 (-49))); ("low_freq_factor", JFloat (S754_finite false 4503599627370496 (-52))); ("high_freq_factor", JFloat (S754_finite false 4503599627370496 (-50))); ("original_max_position_embeddings", JInt 8192); ("rope_type", JStr "llama3")]);
    ("rope_theta", JFloat (S754_finite false 8589934592000000 (-34)));
    ("tie_word_embeddings", JBool false); ("torch_dtype", JStr "bfloat16");
    ("transformers_version", JStr "4.42.3"); ("use_cache", JBool true);
    ("vocab_size", JInt 128256) ].

Definition preset_llama3_1_70b : dict json :=
  [
    ("architectures", JArr [JStr "LlamaForCausalLM"]); ("attention_bias", JBool false);
    ("attention_dropout", JFloat (S754_zero false)); ("bos_token_id", JInt 128000);
    ("eos_token_id", JArr [JInt 128001; JInt 128008; JInt 128009]);
    ("hidden_act", JStr "silu"); ("hidden_size", JInt 8192);
    ("initializer_range", JFloat (S754_finite false 5764607523034235 (-58)));
    ("intermediate_size", JInt 28672); ("max_position_embeddings", JInt 131072);
    ("mlp_bias", JBool false); ("model_type", JStr "llama"); ("num_attention_heads", JInt 64);
    ("num_hidden_layers", JInt 80); ("num_key_value_heads", JInt 8);
    ("pretraining_tp", JInt 1);
    ("rms_norm_eps", JFloat (S754_finite false 5902958103587057 (-69)));
    ("rope_scaling", JObj [("factor", JFloat (S754_finite false 4503599627370496 (-49))); ("low_freq_factor", JFloat (S754_finite false 4503599627370496 (-52))); ("high_freq_factor", JFloat (S754_finite false 4503599627370496 (-50))); ("original_max_position_embeddings", JInt 8192); ("rope_type", JStr "llama3")]);
    ("rope_theta", JFloat (S754_finite false 8589934592000000 (-34)));
    ("tie_word_embeddings", JBool false); ("torch_dtype", JStr "bfloat16");
    ("transformers_version", JStr "4.42.3"); ("use_cache", JBool true);
    ("vocab_size", JInt 128256) ].

Definition preset_llama3_2_1b : dict json :=
  [
    ("architectures", JArr [JStr "LlamaForCausalLM"]); ("attention_bias", JBool false);
    ("attention_dropout", JFloat (S754_zero false)); ("bos_token_id", JInt 128000);
    ("eos_token_id", JArr [JInt 128001; JInt 128008; JInt 128009]); ("head_dim", JInt 64);
    ("hidden_act", JStr "silu"); ("hidden_size", JInt 2048);
    ("initializer_range", JFloat (S754_finite false 5764607523034235 (-58)));
    ("intermediate_size", JInt 8192); ("max_position_embeddings", JInt 131072);
    ("mlp_bias", JBool false); ("model_type", JStr "llama"); ("num_attention_heads", JInt 32);
    ("num_hidden_layers", JInt 16); ("num_key_value_heads", JInt 8);
    ("pretraining_tp", JInt 1);
    ("rms_norm_eps", JFloat (S754_finite false 5902958103587057 (-69)));
    ("rope_scaling", JObj [("factor", JFloat (S754_finite false 4503599627370496 (-47))); ("high_freq_factor", JFloat (S754_finite false 4503599627370496 (-50))); ("low_freq_factor", JFloat (S754_finite false 4503599627370496 (-52))); ("original_max_position_embeddings", JInt 8192); ("rope_type", JStr "llama3")]);
    ("rope_theta", JFloat (S754_finite false 8589934592000000 (-34)));
    ("tie_word_embeddings", JBool true); ("torch_dtype", JStr "bfloat16");
    ("transformers_version", JStr "4.45.0.dev0"); ("use_cache", JBool true);
    ("vocab_size", JInt 128256) ].

Definition preset_llama3_2_3b : dict json :=
  [
    ("architectures", JArr [JStr "LlamaForCausalLM"]); ("attention_bias", JBool false);
    ("attention_dropout", JFloat (S754_zero false)); ("bos_token_id", JInt 128000);
    ("eos_token_id", JArr [JInt 128001; JInt 128008; JInt 128009]); ("head_dim", JInt 128);
    ("hidden_act", JStr "silu"); ("hidden_size", JInt 3072);
    ("initializer_range", JFloat (S754_finite false 5764607523034235 (-58)));
    ("intermediate_size", JInt 8192); ("max_position_embeddings", JInt 131072);
    ("mlp_bias", JBool false); ("model_type", JStr "llama"); ("num_attention_heads", JInt 24);
    ("num_hidden_layers", JInt 28); ("num_key_value_heads", JInt 8);
    ("pretraining_tp", JInt 1);
    ("rms_norm_eps", JFloat (S754_finite false 5902958103587057 (-69)));
    ("rope_scaling", JObj [("factor", JFloat (S754_finite false 4503599627370496 (-47))); ("high_freq_factor", JFloat (S754_finite false 4503599627370496 (-50))); ("low_freq_factor", JFloat (S754_finite false 4503599627370496 (-52))); ("original_max_position_embeddings", JInt 8192); ("rope_type", JStr "llama3")]);
    ("rope_theta", JFloat (S754_finite false 8589934592000000 (-34)));
    ("tie_word_embeddings", JBool true); ("torch_dtype", JStr "bfloat16");
    ("transformers_version", JStr "4.45.0.dev0"); ("use_cache", JBool true);
    ("vocab_size", JInt 128256) ].

Definition preset_snowflake_arctic_embed_m : dict json :=
  [
    ("architectures", JArr [JStr "BertModel"]);
    ("attention_probs_dropout_prob", JFloat (S754_finite false 7205759403792794 (-56)));
    ("classifier_dropout", JNull); ("gradient_checkpointing", JBool false);
    ("hidden_act", JStr "gelu");
    ("hidden_dropout_prob", JFloat (S754_finite false 7205759403792794 (-56)));
    ("hidden_size", JInt 768);
    ("initializer_range", JFloat (S754_finite false 5764607523034235 (-58)));
    ("intermediate_size", JInt 3072);
    ("layer_norm_eps", JFloat (S754_finite false 4951760157141521 (-92)));
    ("max_position_embeddings", JInt 512); ("model_type", JStr "bert");
    ("num_attention_heads", JInt 12); ("num_hidden_layers", JInt 12); ("pad_token_id", JInt 0);
    ("position_embedding_type", JStr "absolute"); ("torch_dtype", JStr "float32");
    ("transformers_version", JStr "4.36.1"); ("type_vocab_size", JInt 2);
    ("use_cache", JBool true); ("vocab_size", JInt 30522) ].

Definition preset_stablelm_2_zephyr_1_6b : dict json :=
  [
    ("architectures", JArr [JStr "StableLmForCausalLM"]); ("bos_token_id", JInt 100257);
    ("eos_token_id", JInt 100257); ("hidden_act", JStr "silu"); ("hidden_size", JInt 2048);
    ("initializer_range", JFloat (S754_finite false 5764607523034235 (-58)));
    ("intermediate_size", JInt 5632); ("max_position_embeddings", JInt 4096);
    ("model_type", JStr "stablelm");
    ("layer_norm_eps", JFloat (S754_finite false 5902958103587057 (-69)));
    ("num_attention_heads", JInt 32); ("num_hidden_layers", JInt 24);
    ("num_key_value_heads", JInt 32);
    ("partial_rotary_factor", JFloat (S754_finite false 4503599627370496 (-54)));
    ("rope_theta", JInt 10000); ("tie_word_embeddings", JBool false);
    ("torch_dtype", JStr "float16"); ("transformers_version", JStr "4.38.0");
    ("use_cache", JBool true); ("use_qkv_bias", JBool true); ("vocab_size", JInt 100352) ].

Definition preset_qwen2_0_5b : dict json :=
  [
    ("architectures", JArr [JStr "Qwen2ForCausalLM"]);
    ("attention_dropout", JFloat (S754_zero false)); ("bos_token_id", JInt 151643);
    ("eos_token_id", JInt 151645); ("hidden_act", JStr "silu"); ("hidden_size", JInt 896);
    ("initializer_range", JFloat (S754_finite false 5764607523034235 (-58)));
    ("intermediate_size", JInt 4864); ("max_position_embeddings", JInt 32768);
    ("max_window_layers", JInt 24); ("model_type", JStr "qwen2");
    ("num_attention_heads", JInt 14); ("num_hidden_layers", JInt 24);
    ("num_key_value_heads", JInt 2);
    ("rms_norm_eps", JFloat (S754_finite false 4722366482869645 (-72)));
    ("rope_theta", JFloat (S754_finite false 8589934592000000 (-33)));
    ("sliding_window", JInt 32768); ("tie_word_embeddings", JBool true);
    ("torch_dtype", JStr "bfloat16"); ("transformers_version", JStr "4.40.1");
    ("use_cache", JBool true); ("use_sliding_window", JBool false); ("vocab_size", JInt 151936) ].

Definition preset_qwen2_1_5b : dict json :=
  [
    ("architectures", JArr [JStr "Qwen2ForCausalLM"]);
    ("attention_dropout", JFloat (S754_zero false)); ("bos_token_id", JInt 151643);
    ("eos_token_id", JInt 151645); ("hidden_act", JStr "silu"); ("hidden_size", JInt 1536);
    ("initializer_range", JFloat (S754_finite false 5764607523034235 (-58)));
    ("intermediate_size", JInt 8960); ("max_position_embeddings", JInt 32768);
    ("max_window_layers", JInt 28); ("model_type", JStr "qwen2");
    ("num_attention_heads", JInt 12); ("num_hidden_layers", JInt 28);
    ("num_key_value_heads", JInt 2);
    ("rms_norm_eps", JFloat (S754_finite false 4722366482869645 (-72)));
    ("rope_theta", JFloat (S754_finite false 8589934592000000 (-33)));
    ("sliding_window", JInt 32768); ("tie_word_embeddings", JBool true);
    ("torch_dtype", JStr "bfloat16"); ("transformers_version", JStr "4.40.1");
    ("use_cache", JBool true); ("use_sliding_window", JBool false); ("vocab_size", JInt 151936) ].

Definition preset_qwen2_5_3b : dict json :=
  [
    ("architectures", JArr [JStr "Qwen2ForCausalLM"]);
    ("attention_dropout", JFloat (S754_zero false)); ("bos_token_id", JInt 151643);
    ("eos_token_id", JInt 151645); ("hidden_act", JStr "silu"); ("hidden_size", JInt 2048);
    ("initializer_range", JFloat (S754_finite false 5764607523034235 (-58)));
    ("intermediate_size", JInt 11008); ("max_position_embeddings", JInt 32768);
    ("max_window_layers", JInt 70); ("model_type", JStr "qwen2");
    ("num_attention_heads", JInt 16); ("num_hidden_layers", JInt 36);
    ("num_key_value_heads", JInt 2);
    ("rms_norm_eps", JFloat (S754_finite false 4722366482869645 (-72)));
    ("rope_theta", JFloat (S754_finite false 8589934592000000 (-33)));
    ("sliding_window", JInt 32768); ("tie_word_embeddings", JBool true);
    ("torch_dtype", JStr "bfloat16"); ("transformers_version", JStr "4.43.1");
    ("use_cache", JBool true); ("use_sliding_window", JBool false); ("vocab_size", JInt 151936) ].

Definition preset_qwen2_7b : dict json :=
  [
    ("architectures", JArr [JStr "Qwen2ForCausalLM"]);
    ("attention_dropout", JFloat (S754_zero false)); ("bos_token_id", JInt 151643);
    ("eos_token_id", JInt 151645); ("hidden_act", JStr "silu"); ("hidden_size", JInt 3584);
    ("initializer_range", JFloat (S754_finite false 5764607523034235 (-58)));
    ("intermediate_size", JInt 18944); ("max_position_embeddings", JInt 32768);
    ("max_window_layers", JInt 28); ("model_type", JStr "qwen2");
    ("num_attention_heads", JInt 28); ("num_hidden_layers", JInt 28);
    ("num_key_value_heads", JInt 4);
    ("rms_norm_eps", JFloat (S754_finite false 4722366482869645 (-72)));
    ("rope_theta", JFloat (S754_finite false 8589934592000000 (-33)));
    ("sliding_window", JInt 131072); ("tie_word_embeddings", JBool false);
    ("torch_dtype", JStr "bfloat16"); ("transformers_version", JStr "4.41.2");
    ("use_cache", JBool true); ("use_sliding_window", JBool false); ("vocab_size", JInt 152064) ].

Definition preset_internlm2 : dict json :=
  [
    ("architectures", JArr [JStr "InternLM2ForCausalLM"]);
    ("attn_implementation", JStr "eager"); ("bias", JBool false); ("bos_token_id", JInt 1);
    ("eos_token_id", JInt 2); ("hidden_act", JStr "silu"); ("hidden_size", JInt 4096);
    ("initializer_range", JFloat (S754_finite false 5764607523034235 (-58)));
    ("intermediate_size", JInt 14336); ("max_position_embeddings", JInt 32768);
    ("model_type", JStr "internlm2"); ("num_attention_heads", JInt 32);
    ("num_hidden_layers", JInt 32); ("num_key_value_heads", JInt 8); ("pad_token_id", JInt 2);
    ("rms_norm_eps", JFloat (S754_finite false 5902958103587057 (-69)));
    ("rope_scaling", JNull); ("rope_theta", JInt 1000000);
    ("tie_word_embeddings", JBool false); ("torch_dtype", JStr "bfloat16");
    ("transformers_version", JStr "4.37.1"); ("use_cache", JBool true);
    ("vocab_size", JInt 92544) ].

Definition preset_internlm2_5_7b : dict json :=
  [
    ("architectures", JArr [JStr "InternLM2ForCausalLM"]);
    ("attn_implementation", JStr "eager"); ("bias", JBool false); ("bos_token_id", JInt 1);
    ("eos_token_id", JInt 2); ("hidden_act", JStr "silu"); ("hidden_size", JInt 4096);
    ("initializer_range", JFloat (S754_finite false 5764607523034235 (-58)));
    ("intermediate_size", JInt 14336); ("max_position_embeddings", JInt 32768);
    ("model_type", JStr "internlm2"); ("num_attention_heads", JInt 32);
    ("num_hidden_layers", JInt 32); ("num_key_value_heads", JInt 8); ("pad_token_id", JInt 2);
    ("rms_norm_eps", JFloat (S754_finite false 5902958103587057 (-69)));
    ("rope_scaling", JObj [("type", JStr "dynamic"); ("factor", JFloat (S754_finite false 4503599627370496 (-51)))]);
    ("rope_theta", JInt 1000000); ("tie_word_embeddings", JBool false);
    ("torch_dtype", JStr "bfloat16"); ("transformers_version", JStr "4.41.0");
    ("use_cache", JBool true); ("vocab_size", JInt 92544); ("pretraining_tp", JInt 1) ].

Definition preset_starcoder2 : dict json :=
  [
    ("activation_function", JStr "gelu");
    ("architectures", JArr [JStr "Starcoder2ForCausalLM"]);
    ("attention_dropout", JFloat (S754_finite false 7205759403792794 (-56)));
    ("residual_dropout", JFloat (S754_finite false 7205759403792794 (-56)));
    ("embedding_dropout", JFloat (S754_finite false 7205759403792794 (-56)));
    ("attention_softmax_in_fp32", JBool true); ("bos_token_id", JInt 0);
    ("eos_token_id", JInt 0); ("hidden_act", JStr "gelu_pytorch_tanh");
    ("hidden_size", JInt 4608);
    ("initializer_range", JFloat (S754_finite false 5200252446529183 (-58)));
    ("intermediate_size", JInt 18432);
    ("layer_norm_epsilon", JFloat (S754_finite false 5902958103587057 (-69)));
    ("max_position_embeddings", JInt 16384); ("mlp_type", JStr "default");
    ("model_type", JStr "starcoder2");
    ("norm_epsilon", JFloat (S754_finite false 5902958103587057 (-69)));
    ("norm_type", JStr "layer_norm"); ("num_attention_heads", JInt 36);
    ("num_hidden_layers", JInt 32); ("num_key_value_heads", JInt 4);
    ("rope_theta", JInt 1000000); ("scale_attention_softmax_in_fp32", JBool true);
    ("scale_attn_weights", JBool true); ("sliding_window", JInt 4096);
    ("torch_dtype", JStr "bfloat16"); ("transformers_version", JStr "4.37.0.dev0");
    ("use_bias", JBool true); ("use_cache", JBool true); ("vocab_size", JInt 49152) ].

Definition preset_smollm_1_7b : dict json :=
  [
    ("_name_or_path", JStr "HuggingFaceTB/cosmo2-1.7B-webinst-sc2");
    ("architectures", JArr [JStr "LlamaForCausalLM"]); ("attention_bias", JBool false);
    ("attention_dropout", JFloat (S754_zero false)); ("bos_token_id", JInt 1);
    ("eos_token_id", JInt 2); ("hidden_act", JStr "silu"); ("hidden_size", JInt 2048);
    ("initializer_range", JFloat (S754_finite false 5764607523034235 (-58)));
    ("intermediate_size", JInt 8192); ("max_position_embeddings", JInt 2048);
    ("mlp_bias", JBool false); ("model_type", JStr "llama"); ("num_attention_heads", JInt 32);
    ("num_hidden_layers", JInt 24); ("num_key_value_heads", JInt 32); ("pad_token_id", JInt 2);
    ("pretraining_tp", JInt 1);
    ("rms_norm_eps", JFloat (S754_finite false 5902958103587057 (-69)));
    ("rope_scaling", JNull); ("rope_theta", JFloat (S754_finite false 5497558138880000 (-39)));
    ("tie_word_embeddings", JBool true); ("torch_dtype", JStr "bfloat16");
    ("transformers_version", JStr "4.42.3"); ("use_cache", JBool true);
    ("vocab_size", JInt 49152) ].

Definition preset_smollm_360m : dict json :=
  [
    ("_name_or_path", JStr "HuggingFaceTB/cosmo2-350M-webinst-sc2");
    ("architectures", JArr [JStr "LlamaForCausalLM"]); ("attention_bias", JBool false);
    ("attention_dropout", JFloat (S754_zero false)); ("bos_token_id", JInt 1);
    ("eos_token_id", JInt 2); ("hidden_act", JStr "silu"); ("hidden_size", JInt 960);
    ("initializer_range", JFloat (S754_finite false 5764607523034235 (-58)));
    ("intermediate_size", JInt 2560); ("max_position_embeddings", JInt 2048);
    ("mlp_bias", JBool false); ("model_type", JStr "llama"); ("num_attention_heads", JInt 15);
    ("num_hidden_layers", JInt 32); ("num_key_value_heads", JInt 5); ("pad_token_id", JInt 2);
    ("pretraining_tp", JInt 1);
    ("rms_norm_eps", JFloat (S754_finite false 5902958103587057 (-69)));
    ("rope_scaling", JNull); ("rope_theta", JFloat (S754_finite false 5497558138880000 (-39)));
    ("tie_word_embeddings", JBool true); ("torch_dtype", JStr "bfloat16");
    ("transformers_version", JStr "4.42.3"); ("use_cache", JBool true);
    ("vocab_size", JInt 49152) ].

Definition preset_smollm_135m : dict json :=
  [
    ("_name_or_path", JStr "HuggingFaceTB/cosmo2-135M-webinst-sc2");
    ("architectures", JArr [JStr "LlamaForCausalLM"]); ("attention_bias", JBool false);
    ("attention_dropout", JFloat (S754_zero false)); ("bos_token_id", JInt 1);
    ("eos_token_id", JInt 2); ("hidden_act", JStr "silu"); ("hidden_size", JInt 576);
    ("initializer_range", JFloat (S754_finite false 5764607523034235 (-58)));
    ("intermediate_size", JInt 1536); ("max_position_embeddings", JInt 2048);
    ("mlp_bias", JBool false); ("model_type", JStr "llama"); ("num_attention_heads", JInt 9);
    ("num_hidden_layers", JInt 30); ("num_key_value_heads", JInt 3); ("pad_token_id", JInt 2);
    ("pretraining_tp", JInt 1);
    ("rms_norm_eps", JFloat (S754_finite false 5902958103587057 (-69)));
    ("rope_scaling", JNull); ("rope_theta", JFloat (S754_finite false 5497558138880000 (-39)));
    ("tie_word_embeddings", JBool true); ("torch_dtype", JStr "bfloat16");
    ("transformers_version", JStr "4.42.3"); ("use_cache", JBool true);
    ("vocab_size", JInt 49152) ].

Definition preset_aya_23 : dict json :=
  [
    ("architectures", JArr [JStr "CohereForCausalLM"]); ("attention_bias", JBool false);
    ("attention_dropout", JFloat (S754_zero false)); ("bos_token_id", JInt 5);
    ("eos_token_id", JInt 255001); ("hidden_act", JStr "silu"); ("hidden_size", JInt 4096);
    ("initializer_range", JFloat (S754_finite false 5764607523034235 (-58)));
    ("intermediate_size", JInt 14336);
    ("layer_norm_eps", JFloat (S754_finite false 5902958103587057 (-69)));
    ("logit_scale", JFloat (S754_finite false 4503599627370496 (-56)));
    ("max_position_embeddings", JInt 8192); ("model_type", JStr "cohere");
    ("num_attention_heads", JInt 32); ("num_hidden_layers", JInt 32);
    ("num_key_value_heads", JInt 8); ("pad_token_id", JInt 0); ("rope_theta", JInt 10000);
    ("torch_dtype", JStr "float16"); ("transformers_version", JStr "4.40.0.dev0");
    ("use_cache", JBool true); ("use_qk_norm", JBool false); ("vocab_size", JInt 256000) ].

Definition preset_minicpm_2b : dict json :=
  [
    ("architectures", JArr [JStr "MiniCPMForCausalLM"]); ("bos_token_id", JInt 1);
    ("eos_token_id", JInt 2); ("hidden_act", JStr "silu"); ("hidden_size", JInt 2304);
    ("initializer_range", JFloat (S754_finite false 7205759403792794 (-56)));
    ("intermediate_size", JInt 5760); ("max_position_embeddings", JInt 65536);
    ("max_length", JInt 131072); ("model_type", JStr "minicpm");
    ("num_attention_heads", JInt 36); ("num_hidden_layers", JInt 40);
    ("num_key_value_heads", JInt 36);
    ("rms_norm_eps", JFloat (S754_finite false 5902958103587057 (-69)));
    ("rope_scaling", JObj [("type", JStr "dynamic"); ("factor", JFloat (S754_finite false 4503599627370496 (-50)))]);
    ("torch_dtype", JStr "bfloat16"); ("transformers_version", JStr "4.36.0");
    ("use_cache", JBool true); ("vocab_size", JInt 122760); ("scale_emb", JInt 12);
    ("dim_model_base", JInt 256);
    ("scale_depth", JFloat (S754_finite false 6305039478318694 (-52)));
    ("tie_word_embeddings", JBool false);
    ("rope_theta", JFloat (S754_finite false 8589934592000000 (-33))) ].

Definition preset_minicpm_2b_sft_bf16 : dict json :=
  [
    ("architectures", JArr [JStr "MiniCPMForCausalLM"]); ("bos_token_id", JInt 1);
    ("eos_token_id", JInt 2); ("hidden_act", JStr "silu"); ("hidden_size", JInt 2304);
    ("initializer_range", JFloat (S754_finite false 7205759403792794 (-56)));
    ("intermediate_size", JInt 5760); ("max_position_embeddings", JInt 4096);
    ("model_type", JStr "minicpm"); ("num_attention_heads", JInt 36);
    ("num_hidden_layers", JInt 40); ("num_key_value_heads", JInt 36);
    ("rms_norm_eps", JFloat (S754_finite false 5902958103587057 (-69)));
    ("torch_dtype", JStr "bfloat16"); ("tie_word_embeddings", JBool true);
    ("transformers_version", JStr "4.36.0"); ("use_cache", JBool true);
    ("vocab_size", JInt 122753); ("scale_emb", JInt 12); ("dim_model_base", JInt 256);
    ("scale_depth", JFloat (S754_finite false 6305039478318694 (-52))) ].

Definition preset_minicpm_moe_8x2b : dict json :=
  [
    ("architectures", JArr [JStr "MiniCPMForCausalLM"]); ("bos_token_id", JInt 1);
    ("eos_token_id", JInt 2); ("hidden_act", JStr "silu"); ("hidden_size", JInt 2304);
    ("initializer_range", JFloat (S754_finite false 7205759403792794 (-56)));
    ("intermediate_size", JInt 5760); ("max_position_embeddings", JInt 4096);
    ("model_type", JStr "minicpm"); ("num_attention_heads", JInt 36);
    ("num_hidden_layers", JInt 40); ("num_key_value_heads", JInt 36);
    ("rms_norm_eps", JFloat (S754_finite false 5902958103587057 (-69)));
    ("rope_scaling", JNull); ("torch_dtype", JStr "bfloat16");
    ("tie_word_embeddings", JBool true); ("transformers_version", JStr "4.36.0");
    ("use_cache", JBool true); ("vocab_size", JInt 122753); ("scale_emb", JInt 12);
    ("dim_model_base", JInt 256);
    ("scale_depth", JFloat (S754_finite false 6305039478318694 (-52)));
    ("num_experts", JInt 8); ("num_experts_per_tok", JInt 2) ].

Definition preset_deepseek : dict json :=
  [
    ("architectures", JArr [JStr "DeepseekForCausalLM"]); ("attention_bias", JBool false);
    ("attention_dropout", JFloat (S754_zero false)); ("bos_token_id", JInt 100000);
    ("eos_token_id", JInt 100001); ("first_k_dense_replace", JInt 1);
    ("hidden_act", JStr "silu"); ("hidden_size", JInt 2048);
    ("initializer_range", JFloat (S754_finite false 5764607523034235 (-58)));
    ("intermediate_size", JInt 10944); ("max_position_embeddings", JInt 4096);
    ("model_type", JStr "deepseek"); ("moe_intermediate_size", JInt 1408);
    ("moe_layer_freq", JInt 1); ("n_routed_experts", JInt 64); ("n_shared_experts", JInt 2);
    ("norm_topk_prob", JBool false); ("num_attention_heads", JInt 16);
    ("num_experts_per_tok", JInt 6); ("num_hidden_layers", JInt 28);
    ("num_key_value_heads", JInt 16); ("pretraining_tp", JInt 1);
    ("rms_norm_eps", JFloat (S754_finite false 4722366482869645 (-72)));
    ("rope_scaling", JNull); ("rope_theta", JInt 10000); ("scoring_func", JStr "softmax");
    ("tie_word_embeddings", JBool false); ("torch_dtype", JStr "bfloat16");
    ("transformers_version", JStr "4.36.2"); ("use_cache", JBool true);
    ("vocab_size", JInt 102400) ].

Definition preset_gpt_j : dict json :=
  [
    ("activation_function", JStr "gelu_new"); ("architectures", JArr [JStr "GPTJForCausalLM"]);
    ("attn_pdrop", JFloat (S754_zero false)); ("bos_token_id", JInt 50256);
    ("embd_pdrop", JFloat (S754_zero false)); ("eos_token_id", JInt 50256);
    ("initializer_range", JFloat (S754_finite false 5764607523034235 (-58)));
    ("layer_norm_epsilon", JFloat (S754_finite false 5902958103587057 (-69)));
    ("model_type", JStr "gptj"); ("n_embd", JInt 4096); ("n_head", JInt 16);
    ("n_inner", JNull); ("n_layer", JInt 28); ("n_positions", JInt 2048);
    ("resid_pdrop", JFloat (S754_zero false)); ("rotary", JBool true); ("rotary_dim", JInt 64);
    ("scale_attn_weights", JBool true); ("summary_activation", JNull);
    ("summary_first_dropout", JFloat (S754_finite false 7205759403792794 (-56)));
    ("summary_proj_to_labels", JBool true); ("summary_type", JStr "cls_index");
    ("summary_use_proj", JBool true); ("rope_scaling", JObj [("rope_type", JStr "gptj")]);
    ("tie_word_embeddings", JBool false); ("tokenizer_class", JStr "GPT2Tokenizer");
    ("transformers_version", JStr "4.18.0.dev0"); ("use_cache", JBool true);
    ("vocab_size", JInt 50400) ].

Definition MODEL_PRESETS : dict (dict json) :=
  [
    ("llama2_7b", preset_llama2_7b); ("llama2_13b", preset_llama2_13b);
    ("llama2_70b", preset_llama2_70b); ("codellama_7b", preset_codellama_7b);
    ("codellama_13b", preset_codellama_13b); ("codellama_34b", preset_codellama_34b);
    ("tinyllama_1b_chat_v0.4", preset_tinyllama_1b_chat_v0_4);
    ("tinyllama_1b_chat_v1.0", preset_tinyllama_1b_chat_v1_0);
    ("mistral_7b", preset_mistral_7b); ("mistral_7b_v03", preset_mistral_7b_v03);
    ("gpt2", preset_gpt2); ("gpt2_medium", preset_gpt2_medium);
    ("gpt_bigcode", preset_gpt_bigcode); ("Mixtral-8x7B-v0.1", preset_Mixtral_8x7B_v0_1);
    ("redpajama_3b_v1", preset_redpajama_3b_v1); ("phi-1_5", preset_phi_1_5);
    ("phi-2", preset_phi_2); ("phi-3_5", preset_phi_3_5);
    ("phi-3_5-vision", preset_phi_3_5_vision); ("qwen", preset_qwen); ("qwen2", preset_qwen2);
    ("qwen2moe", preset_qwen2moe); ("deepseek_v2_lite", preset_deepseek_v2_lite);
    ("stablelm", preset_stablelm); ("baichuan", preset_baichuan);
    ("internlm", preset_internlm); ("gemma2_2b", preset_gemma2_2b);
    ("gemma2_9b", preset_gemma2_9b); ("gemma2_27b", preset_gemma2_27b);
    ("rwkv5_3b", preset_rwkv5_3b); ("orion", preset_orion); ("llava", preset_llava);
    ("chatglm", preset_chatglm); ("llama3_1_8b", preset_llama3_1_8b);
    ("llama3_1_70b", preset_llama3_1_70b); ("llama3_2_1b", preset_llama3_2_1b);
    ("llama3_2_3b", preset_llama3_2_3b);
    ("snowflake-arctic-embed-m", preset_snowflake_arctic_embed_m);
    ("stablelm-2-zephyr-1_6b", preset_stablelm_2_zephyr_1_6b);
    ("qwen2_0_5b", preset_qwen2_0_5b); ("qwen2_1_5b", preset_qwen2_1_5b);
    ("qwen2.5_3b", preset_qwen2_5_3b); ("qwen2_7b", preset_qwen2_7b);
    ("internlm2", preset_internlm2); ("internlm2_5_7b", preset_internlm2_5_7b);
    ("starcoder2", preset_starcoder2); ("smollm_1_7b", preset_smollm_1_7b);
    ("smollm_360m", preset_smollm_360m); ("smollm_135m", preset_smollm_135m);
    ("aya-23", preset_aya_23); ("minicpm_2b", preset_minicpm_2b);
    ("minicpm_2b_sft_bf16", preset_minicpm_2b_sft_bf16);
    ("minicpm-moe-8x2b", preset_minicpm_moe_8x2b); ("deepseek", preset_deepseek);
    ("gpt_j", preset_gpt_j) ].
