(* ===== verification/ModelConfigs.v ===== *)
(** * The model configurations ([model/*/*_model.py])

    The configuration dataclass of every model family: its fields with their
    defaults and its [__post_init__], in the statement forms of [ModelConfig].
    A statement that only one family has is defined here with its footprint.
    Log messages are left out.  The multimodal configurations, whose fields
    hold other configurations, come last: a nested configuration object is the
    dictionary [dataclasses.asdict] makes of it, its [kwargs] included (read
    from JSON, a nested field is never an instance already). *)

From Stdlib Require Import SpecFloat Ascii.
From stdpp Require Import base list strings.
From S2P Require Import Prelude PyStr.
From S2P Require Import PyNum ModelConfig ModelPresets.
Local Open Scope string_scope.
Local Open Scope list_scope.
Local Open Scope Z_scope.

(** ** Statements of single families *)

(** [key in v] and [v[key]] of a JSON value *)
Definition py_in (key : string) (v : json) : res bool :=
  match v with
  | JObj d => Ok (dict_has d key)
  | JArr l => Ok (existsb (fun x => py_eq x (JStr key)) l)
  | JStr s => Ok (str_contains key s)
  | _ => Raise TypeError
  end.
Definition py_getitem (v : json) (key : string) : res json :=
  match v with
  | JObj d => dict_getitem d key
  | _ => Raise TypeError
  end.

(** GLM: [vocab_size] falls back to [padded_vocab_size], if given. *)
Definition padded_vocab_size : Stmt :=
  set_when "vocab_size" is_zero
    (let! v := kwargs_pop "padded_vocab_size" in
     match v with Some v => mret' v | None => self "vocab_size" end).

(** Gemma *)
Definition hidden_activation : Stmt :=
  set_when "hidden_activation" is_null
    (let! kw := get_kwargs in mret' (opt_default JNull (dict_get kw "hidden_act"))).
Definition check_activation : Stmt :=
  check ["hidden_activation"] (fun get =>
    let? a := get "hidden_activation" in
    if py_eq a (JStr "gelu") || py_eq a (JStr "gelu_pytorch_tanh") then Ok tt
    else Raise (ValueError [Lit "Only GeLU is supported as the activation for gemma."])).
Definition check_attention_bias : Stmt :=
  check ["attention_bias"] (fun get =>
    let? b := get "attention_bias" in
    if py_truthy b
    then Raise (ValueError [Lit "Only False attention_bias is supported for gemma"])
    else Ok tt).

(** GPTBigCode: the window falls back to [n_positions]. *)
Definition positions_window : Stmt :=
  set_when "context_window_size" is_zero
    (let! n := self "n_positions" in
     let! pos := mlift (py_gt n (JInt 0)) in
     if pos then mret' n else mraise no_sequence_length).

(** Llama: only the [llama3] scaling of the rotary embedding is supported. *)
Definition llama_rope_scaling : Stmt :=
  update "rope_scaling" ["rope_scaling"] (fun _ => false) (fun get =>
    let? rs := get "rope_scaling" in
    if is_null rs then Ok None
    else
      let? has := py_in "rope_type" rs in
      if has then
        let? t := py_getitem rs "rope_type" in
        let? _ := py_assert (py_eq t (JStr "llama3")) in Ok None
      else Ok (Some JNull)).

Definition check_pipeline_stages : Stmt :=
  check ["pipeline_parallel_stages"; "num_hidden_layers"] (fun get =>
    let? p := get "pipeline_parallel_stages" in
    let bad := Raise (ValueError [Lit "Invalid pipeline_parallel_stages value "; FJson p]) in
    let? le := py_le p (JInt 0) in
    if le then bad
    else
      let? n := get "num_hidden_layers" in
      let? gt := py_gt p n in
      if gt then bad else Ok tt).

(** OLMo *)
Definition check_clip_qkv : Stmt :=
  check ["clip_qkv"] (fun get =>
    let? c := get "clip_qkv" in
    if is_null c then Ok tt
    else
      let? le := py_le c (JInt 0) in
      if le then Raise (ValueError [Lit "'clip_qkv' should be non-negative: "; FJson c]) else Ok tt).

(** Mistral: a sliding window of [None] is [-1], no window. *)
Definition mistral_sliding_window : Stmt :=
  mkStmt
    (run_all
       [ set_when "sliding_window_size" is_zero
           (let! v := kwargs_pop "sliding_window" in mret' (opt_default (JInt (-1)) v));
         set_when "sliding_window_size" is_null (mret' (JInt (-1))) ])
    ["sliding_window_size"] ["sliding_window_size"]
    (attr_test "sliding_window_size" zero_or_null).

Definition mistral_context_window : Stmt :=
  set_when "context_window_size" is_zero
    (let! w := self "sliding_window_size" in
     if py_eq w (JInt (-1))
     then context_window_value ["max_position_embeddings"; "max_sequence_length"]
     else mret' (JInt (-1))).

Definition check_sink_size : Stmt :=
  check ["attention_sink_size"] (fun get =>
    let? a := get "attention_sink_size" in
    let? ge := py_le (JInt 0) a in py_assert ge).

(** [min( *candidates, 8192)]: without candidates it is [min(8192)], a [TypeError]. *)
Definition mistral_prefill_chunk_size : Stmt :=
  set_when "prefill_chunk_size" is_zero
    (let! w := self "sliding_window_size" in
     let! c := self "context_window_size" in
     let unset := fun v => py_eq v (JInt (-1)) in
     mlift (match (if unset w then [] else [w]) ++ (if unset c then [] else [c]) with
            | [] => Raise TypeError
            | v :: vs => py_min_list v (vs ++ [JInt 8192])
            end)).

(** Nemotron: an attribute that is not a field. *)
Definition rotary_dim : Stmt :=
  assign "rotary_dim"
    (let! p := self "partial_rotary_factor" in
     let! h := self "head_dim" in
     mlift (let? x := py_mul p h in py_int x)).

(** Phi: the window falls back to [n_positions]. *)
Definition phi_context_window : Stmt :=
  set_when "context_window_size" is_zero
    (let! v := kwargs_pop_first ["max_position_embeddings"; "max_sequence_length"] in
     match v with Some v => mret' v | None => self "n_positions" end).

Definition phi_prefill_chunk_size : Stmt :=
  update "prefill_chunk_size" ["prefill_chunk_size"; "context_window_size"] prefill_pending
    (fun get =>
       let? p := get "prefill_chunk_size" in
       let? c := get "context_window_size" in
       let p := if is_zero p then c else p in
       let? v := py_min p c in Ok (Some v)).

(** Phi-3: only the [longrope] scaling (once called [su]) is supported; the
    dictionary gets the window sizes.  The message of the failing assertion
    itself looks up a key. *)
Definition phi3_scaled (rs mx om : json) : res json :=
  let? has := py_in "type" rs in
  if has then
    match rs with
    | JObj d =>
        let? t := dict_getitem d "type" in
        let d := if py_eq t (JStr "su") then dict_set d "type" (JStr "longrope") else d in
        let? t := dict_getitem d "type" in
        if py_eq t (JStr "longrope") then
          let d := dict_set d "rope_type" t in
          let d := dict_set d "max_position_embeddings" mx in
          Ok (JObj (dict_set d "original_max_position_embeddings" om))
        else let? _ := dict_getitem d "rope_type" in Raise AssertionError
    | _ => Raise TypeError
    end
  else Ok JNull.

Definition phi3_rope_scaling : Stmt :=
  update "rope_scaling"
    ["rope_scaling"; "max_position_embeddings"; "original_max_position_embeddings"]
    (fun _ => false) (fun get =>
    let? rs := get "rope_scaling" in
    if is_null rs then Ok None
    else
      let? mx := get "max_position_embeddings" in
      let? om := get "original_max_position_embeddings" in
      let? rs := phi3_scaled rs mx om in
      Ok (Some rs)).

(** DeepSeek-V2 and Qwen3: the block sizes of an fp8 checkpoint. *)
Definition block_size_of (q : json) : res json :=
  let bad := Raise (ValueError [Lit "Invalid DeepSeek model quantization config: "; FJson q]) in
  match q with
  | JObj d =>
      let given := fun k v => py_eq (opt_default (JStr "") (dict_get d k)) (JStr v) in
      if given "activation_scheme" "dynamic" && given "fmt" "e4m3" && given "quant_method" "fp8" then
        match dict_get d "weight_block_size" with
        | Some (JArr [x; y]) => Ok (JArr [x; y])
        | _ => bad
        end
      else bad
  | _ => bad
  end.

Definition quantization_config : Stmt :=
  mkStmt
    (let! kw := get_kwargs in
     match dict_get kw "quantization_config" with
     | Some q => let! v := mlift (block_size_of q) in setattr "weight_block_size" v
     | None => mret' tt
     end)
    [] ["weight_block_size"] (fun _ => false).

(** RWKV *)
Definition check_model_version (v msg : string) : Stmt :=
  check ["model_version"] (fun get =>
    let? m := get "model_version" in
    if py_eq m (JStr v) then Ok tt else Raise (ValueError [Lit msg; FJson m])).
Definition f64_3_5 : pyfloat := S754_finite false 7881299347898368 (-51).
Definition rwkv_intermediate_size : Stmt :=
  set_when "intermediate_size" (fun v => negb (py_truthy v))
    (let! h := self "hidden_size" in
     mlift (let? x := py_mul h (JFloat f64_3_5) in
            let? x := py_int x in
            let? x := py_floordiv x (JInt 32) in
            py_mul x (JInt 32))).
Definition rwkv_num_heads : Stmt := default_quotient "num_heads" "hidden_size" "head_size".
Definition check_head_size : Stmt :=
  check ["num_heads"; "head_size"; "hidden_size"] (fun get =>
    let? n := get "num_heads" in let? s := get "head_size" in let? h := get "hidden_size" in
    let? p := py_mul n s in
    if py_eq p h then Ok tt
    else Raise (ValueError [Lit "hidden_size ("; FJson h; Lit ") must be divisible by head_size (";
                            FJson s; Lit ")"])).
Definition check_single_device : Stmt :=
  check ["tensor_parallel_shards"] (fun get =>
    let? n := get "tensor_parallel_shards" in
    if py_eq n (JInt 1) then Ok tt
    else Raise (ValueError [Lit "Only support single device at this moment."])).

(** Cohere: the whole method is indented under its first [if]. *)
Definition cohere_body : list Stmt :=
  [ assign "position_embedding_base"
      (let! kw := get_kwargs in mret' (opt_default (JInt 10000) (dict_get kw "rope_theta")));
    set_when "context_window_size" is_zero
      (let! v := kwargs_pop_first ["max_position_embeddings"; "max_sequence_length"] in
       match v with Some v => mret' v | None => self "context_window_size" end);
    prefill_chunk_size (capped 8192);
    default_copy "num_key_value_heads" zero_or_null "num_attention_heads";
    default_quotient "head_dim" "hidden_size" "num_attention_heads";
    assert_product "head_dim" "num_attention_heads" "hidden_size";
    assert_divides "num_attention_heads" "num_key_value_heads" ].

(** ** The classes *)

Definition BaichuanConfig_post_init : list Stmt :=
  [ context_window ["max_position_embeddings"; "max_sequence_length"];
    default_quotient "head_dim" "hidden_size" "num_attention_heads";
    assert_product "head_dim" "num_attention_heads" "hidden_size";
    prefill_chunk_size (capped 8192) ].

Definition BaichuanConfig : ConfigClass :=
  mkClass "BaichuanConfig"
    [
     ("vocab_size", None); ("hidden_size", None); ("num_hidden_layers", None);
     ("num_attention_heads", None); ("initializer_range", None); ("intermediate_size", None);
     ("rms_norm_eps", None); ("use_cache", None); ("pad_token_id", None);
     ("bos_token_id", None); ("eos_token_id", None); ("tie_word_embeddings", None);
     ("context_window_size", Some (JInt 0)); ("prefill_chunk_size", Some (JInt 0));
     ("tensor_parallel_shards", Some (JInt 1)); ("max_batch_size", Some (JInt 1));
     ("head_dim", Some (JInt 0)) ]
    BaichuanConfig_post_init.

Definition BertConfig_post_init : list Stmt :=
  [ default_times4 "intermediate_size" null_or_minus1 "hidden_size";
    context_window ["max_position_embeddings"; "max_sequence_length"];
    default_quotient "head_dim" "hidden_size" "num_attention_heads";
    assert_product "head_dim" "num_attention_heads" "hidden_size";
    prefill_chunk_size Ok ].

Definition BertConfig : ConfigClass :=
  mkClass "BertConfig"
    [
     ("vocab_size", None); ("hidden_size", None); ("num_hidden_layers", None);
     ("num_attention_heads", None); ("intermediate_size", None); ("hidden_act", None);
     ("layer_norm_eps", None); ("context_window_size", Some (JInt 0));
     ("prefill_chunk_size", Some (JInt 0)); ("tensor_parallel_shards", Some (JInt 1));
     ("head_dim", Some (JInt 0)); ("max_batch_size", Some (JInt 1)) ]
    BertConfig_post_init.

Definition GLMConfig_post_init : list Stmt :=
  [ padded_vocab_size;
    context_window ["max_position_embeddings"; "seq_length"];
    default_quotient "head_dim" "hidden_size" "num_attention_heads";
    assert_product "head_dim" "num_attention_heads" "hidden_size";
    prefill_chunk_size (capped 8192) ].

Definition GLMConfig : ConfigClass :=
  mkClass "GLMConfig"
    [
     ("hidden_size", None); ("num_layers", None); ("kv_channels", None);
     ("num_attention_heads", None); ("ffn_hidden_size", None); ("layernorm_epsilon", None);
     ("post_layer_norm", None); ("rmsnorm", None); ("add_bias_linear", None);
     ("add_qkv_bias", None); ("apply_query_key_layer_scaling", None);
     ("multi_query_attention", None); ("multi_query_group_num", None);
     ("vocab_size", Some (JInt 0)); ("context_window_size", Some (JInt 0));
     ("prefill_chunk_size", Some (JInt 0)); ("tensor_parallel_shards", Some (JInt 1));
     ("head_dim", Some (JInt 0)); ("max_batch_size", Some (JInt 1)) ]
    GLMConfig_post_init.

Definition CohereConfig_post_init : list Stmt :=
  [ guarded "position_embedding_base" is_zero cohere_body ].

Definition CohereConfig : ConfigClass :=
  mkClass "CohereConfig"
    [
     ("model_type", None); ("hidden_size", None); ("vocab_size", None);
     ("num_hidden_layers", None); ("num_attention_heads", None); ("num_key_value_heads", None);
     ("intermediate_size", None); ("layer_norm_eps", None);
     ("position_embedding_base", Some (JInt 0)); ("context_window_size", Some (JInt 0));
     ("prefill_chunk_size", Some (JInt 0)); ("head_dim", Some (JInt 0));
     ("tensor_parallel_shards", Some (JInt 1)); ("max_batch_size", Some (JInt 1)) ]
    CohereConfig_post_init.

Definition DeepseekConfig_post_init : list Stmt :=
  [ context_window ["max_position_embeddings"; "max_sequence_length"];
    default_quotient "head_dim" "hidden_size" "num_attention_heads";
    assert_product "head_dim" "num_attention_heads" "hidden_size";
    prefill_chunk_size (capped 8192) ].

Definition DeepseekConfig : ConfigClass :=
  mkClass "DeepseekConfig"
    [
     ("vocab_size", None); ("hidden_size", None); ("intermediate_size", None);
     ("moe_intermediate_size", None); ("num_hidden_layers", None);
     ("num_attention_heads", None); ("num_key_value_heads", None); ("n_shared_experts", None);
     ("n_routed_experts", None); ("moe_layer_freq", None); ("first_k_dense_replace", None);
     ("hidden_act", None); ("norm_topk_prob", None); ("attention_bias", None);
     ("rms_norm_eps", None); ("use_cache", None); ("bos_token_id", None);
     ("eos_token_id", None); ("tie_word_embeddings", Some (JBool false));
     ("rope_theta", Some (JInt 10000)); ("context_window_size", Some (JInt 0));
     ("prefill_chunk_size", Some (JInt 0)); ("tensor_parallel_shards", Some (JInt 1));
     ("head_dim", Some (JInt 0)); ("max_batch_size", Some (JInt 1));
     ("num_experts_per_tok", Some (JInt 0)) ]
    DeepseekConfig_post_init.

Definition DeepseekV2Config_post_init : list Stmt :=
  [ quantization_config;
    context_window ["max_position_embeddings"; "max_sequence_length"];
    assert_divides "num_attention_heads" "num_key_value_heads";
    prefill_chunk_size (capped 2048) ].

Definition DeepseekV2Config : ConfigClass :=
  mkClass "DeepseekV2Config"
    [
     ("vocab_size", None); ("hidden_size", None); ("intermediate_size", None);
     ("moe_intermediate_size", None); ("num_hidden_layers", None);
     ("num_attention_heads", None); ("num_key_value_heads", None); ("n_shared_experts", None);
     ("n_routed_experts", None); ("num_experts_per_tok", None); ("norm_topk_prob", None);
     ("first_k_dense_replace", None); ("moe_layer_freq", None);
     ("routed_scaling_factor", None); ("scoring_func", None); ("topk_method", None);
     ("n_group", None); ("topk_group", None); ("attention_bias", None); ("kv_lora_rank", None);
     ("qk_rope_head_dim", None); ("v_head_dim", None); ("qk_nope_head_dim", None);
     ("rms_norm_eps", None); ("rope_theta", None); ("q_lora_rank", Some (JNull));
     ("rope_scaling", Some (JNull)); ("context_window_size", Some (JInt 0));
     ("prefill_chunk_size", Some (JInt 0)); ("tensor_parallel_shards", Some (JInt 1));
     ("dtype", Some (JStr "float32")); ("max_batch_size", Some (JInt 1));
     ("weight_block_size", Some (JNull)) ]
    DeepseekV2Config_post_init.

Definition GemmaConfig_post_init : list Stmt :=
  [ hidden_activation;
    check_activation;
    check_attention_bias;
    rope_theta;
    context_window ["max_position_embeddings"; "max_sequence_length"];
    assert_divides "num_attention_heads" "num_key_value_heads";
    prefill_chunk_size (capped 8192) ].

Definition GemmaConfig : ConfigClass :=
  mkClass "GemmaConfig"
    [
     ("hidden_size", None); ("intermediate_size", None); ("attention_bias", None);
     ("num_attention_heads", None); ("num_key_value_heads", None); ("head_dim", None);
     ("num_hidden_layers", None); ("rms_norm_eps", None); ("vocab_size", None);
     ("hidden_activation", Some (JNull)); ("position_embedding_base", Some (JInt 0));
     ("context_window_size", Some (JInt 0)); ("prefill_chunk_size", Some (JInt 0));
     ("tensor_parallel_shards", Some (JInt 1)); ("max_batch_size", Some (JInt 1)) ]
    GemmaConfig_post_init.

Definition Gemma3TextConfig_post_init : list Stmt :=
  [ hidden_activation;
    check_activation;
    check_attention_bias;
    rope_theta;
    context_window ["max_position_embeddings"; "max_sequence_length"];
    assert_divides "num_attention_heads" "num_key_value_heads";
    prefill_chunk_size (capped 8192);
    assign "context_window_size" (let! w := self "sliding_window" in mlift (py_max w (JInt 8192))) ].

Definition Gemma3TextConfig : ConfigClass :=
  mkClass "Gemma3TextConfig"
    [
     ("hidden_size", None); ("intermediate_size", None); ("num_hidden_layers", None);
     ("attention_bias", Some (JBool false)); ("num_attention_heads", Some (JInt 8));
     ("num_key_value_heads", Some (JInt 4)); ("head_dim", Some (JInt 256));
     ("rms_norm_eps", Some (JFloat (S754_finite false 4722366482869645 (-72))));
     ("hidden_activation", Some (JStr "gelu_pytorch_tanh"));
     ("position_embedding_base", Some (JInt 0)); ("context_window_size", Some (JInt 131072));
     ("prefill_chunk_size", Some (JInt 0)); ("query_pre_attn_scalar", Some (JInt 256));
     ("sliding_window", Some (JNull)) ]
    Gemma3TextConfig_post_init.

Definition GPT2Config_post_init : list Stmt :=
  [ default_times4 "n_inner" null_or_minus1 "n_embd";
    context_window ["n_positions"; "max_sequence_length"];
    default_quotient "head_dim" "n_embd" "n_head";
    assert_product "head_dim" "n_head" "n_embd";
    prefill_chunk_size (capped 8192) ].

Definition GPT2Config : ConfigClass :=
  mkClass "GPT2Config"
    [
     ("vocab_size", None); ("n_embd", None); ("n_layer", None); ("n_head", None);
     ("layer_norm_epsilon", None); ("n_inner", Some (JInt (-1)));
     ("context_window_size", Some (JInt 0)); ("prefill_chunk_size", Some (JInt 0));
     ("scale_attn_by_inverse_layer_idx", Some (JBool false));
     ("tensor_parallel_shards", Some (JInt 1)); ("head_dim", Some (JInt 0));
     ("max_batch_size", Some (JInt 1)) ]
    GPT2Config_post_init.

Definition GPTBigCodeConfig_post_init : list Stmt :=
  [ positions_window;
    prefill_chunk_size (capped 8192) ].

Definition GPTBigCodeConfig : ConfigClass :=
  mkClass "GPTBigCodeConfig"
    [
     ("n_embd", None); ("n_inner", None); ("n_head", None); ("n_layer", None);
     ("n_positions", None); ("layer_norm_epsilon", None); ("vocab_size", None);
     ("context_window_size", Some (JInt 0)); ("prefill_chunk_size", Some (JInt 0));
     ("tensor_parallel_shards", Some (JInt 1)); ("max_batch_size", Some (JInt 1)) ]
    GPTBigCodeConfig_post_init.

Definition GPTJConfig_post_init : list Stmt :=
  [ context_window ["max_position_embeddings"; "n_positions"];
    default_quotient "head_dim" "n_embd" "n_head";
    assert_product "head_dim" "n_head" "n_embd";
    prefill_chunk_size (capped 8192) ].

Definition GPTJConfig : ConfigClass :=
  mkClass "GPTJConfig"
    [
     ("vocab_size", None); ("n_embd", None); ("n_layer", None); ("n_head", None);
     ("layer_norm_epsilon", None); ("rotary_dim", None); ("activation_function", None);
     ("n_inner", Some (JInt (-1))); ("rope_scaling", Some (JNull));
     ("context_window_size", Some (JInt 0)); ("prefill_chunk_size", Some (JInt 0));
     ("tensor_parallel_shards", Some (JInt 1)); ("max_batch_size", Some (JInt 1));
     ("head_dim", Some (JInt 0)) ]
    GPTJConfig_post_init.

Definition GPTNeoXConfig_post_init : list Stmt :=
  [ context_window ["max_position_embeddings"; "max_sequence_length"];
    rope_theta;
    default_quotient "head_dim" "hidden_size" "num_attention_heads";
    assert_product "head_dim" "num_attention_heads" "hidden_size";
    prefill_chunk_size (capped 8192) ].

Definition GPTNeoXConfig : ConfigClass :=
  mkClass "GPTNeoXConfig"
    [
     ("use_parallel_residual", None); ("hidden_size", None); ("intermediate_size", None);
     ("num_attention_heads", None); ("num_hidden_layers", None); ("layer_norm_eps", None);
     ("vocab_size", None); ("rotary_pct", None); ("position_embedding_base", Some (JInt 0));
     ("context_window_size", Some (JInt 0)); ("head_dim", Some (JInt 0));
     ("prefill_chunk_size", Some (JInt 0)); ("tensor_parallel_shards", Some (JInt 1));
     ("ffn_out_dtype", Some (JStr "float32")); ("max_batch_size", Some (JInt 1)) ]
    GPTNeoXConfig_post_init.

Definition InternLMConfig_post_init : list Stmt :=
  [ context_window ["max_position_embeddings"; "max_sequence_length"];
    default_quotient "head_dim" "hidden_size" "num_attention_heads";
    assert_product "head_dim" "num_attention_heads" "hidden_size";
    prefill_chunk_size (capped 8192) ].

Definition InternLMConfig : ConfigClass :=
  mkClass "InternLMConfig"
    [
     ("vocab_size", None); ("hidden_size", None); ("num_hidden_layers", None);
     ("num_attention_heads", None); ("rms_norm_eps", None); ("intermediate_size", None);
     ("bias", None); ("use_cache", None); ("pad_token_id", None); ("bos_token_id", None);
     ("eos_token_id", None); ("context_window_size", Some (JInt 0));
     ("prefill_chunk_size", Some (JInt 0)); ("tensor_parallel_shards", Some (JInt 1));
     ("max_batch_size", Some (JInt 1)); ("head_dim", Some (JInt 0)) ]
    InternLMConfig_post_init.

Definition InternLM2Config_post_init : list Stmt :=
  [ context_window ["max_position_embeddings"; "max_sequence_length"];
    default_quotient "head_dim" "hidden_size" "num_attention_heads";
    assert_product "head_dim" "num_attention_heads" "hidden_size";
    prefill_chunk_size (capped 2048) ].

Definition InternLM2Config : ConfigClass :=
  mkClass "InternLM2Config"
    [
     ("vocab_size", None); ("hidden_size", None); ("num_hidden_layers", None);
     ("num_attention_heads", None); ("num_key_value_heads", None); ("rms_norm_eps", None);
     ("intermediate_size", None); ("bias", None); ("use_cache", None); ("rope_theta", None);
     ("pad_token_id", None); ("bos_token_id", None); ("eos_token_id", None);
     ("context_window_size", Some (JInt 0)); ("prefill_chunk_size", Some (JInt 0));
     ("tensor_parallel_shards", Some (JInt 1)); ("max_batch_size", Some (JInt 1));
     ("head_dim", Some (JInt 0)) ]
    InternLM2Config_post_init.

Definition LlamaConfig_post_init : list Stmt :=
  [ rope_theta;
    llama_rope_scaling;
    context_window ["max_position_embeddings"; "max_sequence_length"];
    check_pipeline_stages;
    default_copy "num_key_value_heads" is_zero "num_attention_heads";
    default_quotient "head_dim" "hidden_size" "num_attention_heads";
    assert_divides "num_attention_heads" "num_key_value_heads";
    prefill_chunk_size (capped 8192) ].

Definition LlamaConfig : ConfigClass :=
  mkClass "LlamaConfig"
    [
     ("hidden_size", None); ("intermediate_size", None); ("num_attention_heads", None);
     ("num_hidden_layers", None); ("rms_norm_eps", None); ("vocab_size", None);
     ("tie_word_embeddings", Some (JBool false)); ("position_embedding_base", Some (JInt 0));
     ("rope_scaling", Some (JNull)); ("context_window_size", Some (JInt 0));
     ("prefill_chunk_size", Some (JInt 0)); ("num_key_value_heads", Some (JInt 0));
     ("head_dim", Some (JInt 0)); ("tensor_parallel_shards", Some (JInt 1));
     ("pipeline_parallel_stages", Some (JInt 1)); ("max_batch_size", Some (JInt 1));
     ("disaggregation", Some (JBool false)) ]
    LlamaConfig_post_init.

Definition MedusaConfig : ConfigClass :=
  mkClass "MedusaConfig"
    [
     ("medusa_num_heads", None); ("medusa_num_layers", None); ("hidden_size", None);
     ("vocab_size", None); ("max_batch_size", Some (JInt 1));
     ("tensor_parallel_shards", Some (JInt 1)); ("prefill_chunk_size", Some (JInt (-1)));
     ("context_window_size", Some (JInt (-1))) ]
    [].

Definition MiniCPMConfig_post_init : list Stmt :=
  [ context_window ["max_position_embeddings"; "max_sequence_length"];
    default_quotient "head_dim" "hidden_size" "num_attention_heads";
    assert_product "head_dim" "num_attention_heads" "hidden_size";
    prefill_chunk_size (capped 8192) ].

Definition MiniCPMConfig : ConfigClass :=
  mkClass "MiniCPMConfig"
    [
     ("vocab_size", None); ("hidden_size", None); ("num_hidden_layers", None);
     ("num_attention_heads", None); ("num_key_value_heads", None); ("hidden_act", None);
     ("rms_norm_eps", None); ("intermediate_size", None); ("scale_emb", None);
     ("scale_depth", None); ("dim_model_base", None); ("use_cache", None);
     ("bos_token_id", None); ("eos_token_id", None);
     ("tie_word_embeddings", Some (JBool false)); ("rope_theta", Some (JInt 10000));
     ("context_window_size", Some (JInt 0)); ("prefill_chunk_size", Some (JInt 0));
     ("tensor_parallel_shards", Some (JInt 1)); ("head_dim", Some (JInt 0));
     ("max_batch_size", Some (JInt 1)); ("num_experts_per_tok", Some (JInt 0));
     ("num_experts", Some (JInt 0)) ]
    MiniCPMConfig_post_init.

Definition MistralConfig_post_init : list Stmt :=
  [ rope_theta;
    mistral_sliding_window;
    mistral_context_window;
    default_copy "num_key_value_heads" is_zero "num_attention_heads";
    default_quotient "head_dim" "hidden_size" "num_attention_heads";
    assert_divides "num_attention_heads" "num_key_value_heads";
    check_sink_size;
    mistral_prefill_chunk_size ].

Definition MistralConfig : ConfigClass :=
  mkClass "MistralConfig"
    [
     ("hidden_size", None); ("intermediate_size", None); ("num_attention_heads", None);
     ("num_hidden_layers", None); ("rms_norm_eps", None); ("vocab_size", None);
     ("position_embedding_base", Some (JInt 0)); ("num_key_value_heads", Some (JInt 0));
     ("head_dim", Some (JInt 0)); ("context_window_size", Some (JInt 0));
     ("sliding_window_size", Some (JInt 0)); ("prefill_chunk_size", Some (JInt 0));
     ("attention_sink_size", Some (JInt 4)); ("tensor_parallel_shards", Some (JInt 1));
     ("max_batch_size", Some (JInt 1)) ]
    MistralConfig_post_init.

Definition NemotronConfig_post_init : list Stmt :=
  [ default_copy "context_window_size" is_zero "max_position_embeddings";
    default_quotient "head_dim" "hidden_size" "num_attention_heads";
    assert_product "head_dim" "num_attention_heads" "hidden_size";
    rotary_dim;
    prefill_chunk_size (capped 8192) ].

Definition NemotronConfig : ConfigClass :=
  mkClass "NemotronConfig"
    [
     ("vocab_size", None); ("max_position_embeddings", None); ("hidden_size", None);
     ("intermediate_size", None); ("num_hidden_layers", None); ("num_attention_heads", None);
     ("num_key_value_heads", None); ("rope_theta", Some (JInt 10000));
     ("partial_rotary_factor", Some (JFloat (S754_finite false 4503599627370496 (-53))));
     ("rope_scaling", Some (JNull));
     ("norm_eps", Some (JFloat (S754_finite false 5902958103587057 (-69))));
     ("head_dim", Some (JInt 0)); ("tie_word_embeddings", Some (JBool false));
     ("mlp_bias", Some (JBool false)); ("context_window_size", Some (JInt 0));
     ("prefill_chunk_size", Some (JInt 0)); ("tensor_parallel_shards", Some (JInt 1));
     ("pipeline_parallel_stages", Some (JInt 1)); ("max_batch_size", Some (JInt 1));
     ("disaggregation", Some (JBool false)) ]
    NemotronConfig_post_init.

Definition OLMoConfig_post_init : list Stmt :=
  [ default_copy "num_key_value_heads" is_zero "num_attention_heads";
    default_quotient "head_dim" "hidden_size" "num_attention_heads";
    assert_divides "num_attention_heads" "num_key_value_heads";
    rope_theta;
    context_window ["max_position_embeddings"; "max_sequence_length"];
    prefill_chunk_size (capped 8192);
    check_pipeline_stages;
    check_clip_qkv ].

Definition OLMoConfig : ConfigClass :=
  mkClass "OLMoConfig"
    [
     ("vocab_size", Some (JNull)); ("hidden_size", Some (JNull));
     ("num_attention_heads", Some (JNull)); ("num_key_value_heads", Some (JInt 0));
     ("head_dim", Some (JInt 0)); ("position_embedding_base", Some (JInt 0));
     ("rope_scaling", Some (JNull)); ("intermediate_size", Some (JNull));
     ("hidden_act", Some (JNull)); ("num_hidden_layers", Some (JNull));
     ("tie_word_embeddings", Some (JBool false)); ("context_window_size", Some (JInt 0));
     ("prefill_chunk_size", Some (JInt 0)); ("tensor_parallel_shards", Some (JInt 1));
     ("pipeline_parallel_stages", Some (JInt 1)); ("max_batch_size", Some (JInt 1));
     ("clip_qkv", Some (JNull)) ]
    OLMoConfig_post_init.

Definition OrionConfig_post_init : list Stmt :=
  [ rope_theta;
    context_window ["max_position_embeddings"; "max_sequence_length"];
    default_copy "num_key_value_heads" is_zero "num_attention_heads";
    default_quotient "head_dim" "hidden_size" "num_attention_heads";
    assert_product "head_dim" "num_attention_heads" "hidden_size";
    assert_divides "num_attention_heads" "num_key_value_heads";
    prefill_chunk_size (capped 8192) ].

Definition OrionConfig : ConfigClass :=
  mkClass "OrionConfig"
    [
     ("hidden_size", None); ("intermediate_size", None); ("num_attention_heads", None);
     ("num_hidden_layers", None); ("rms_norm_eps", None); ("vocab_size", None);
     ("position_embedding_base", Some (JInt 0)); ("context_window_size", Some (JInt 0));
     ("prefill_chunk_size", Some (JInt 0)); ("num_key_value_heads", Some (JInt 0));
     ("head_dim", Some (JInt 0)); ("tensor_parallel_shards", Some (JInt 1));
     ("max_batch_size", Some (JInt 1)) ]
    OrionConfig_post_init.

Definition Phi1Config_post_init : list Stmt :=
  [ rope_theta;
    context_window ["max_position_embeddings"; "max_sequence_length"];
    prefill_chunk_size (capped 8192);
    default_copy "num_key_value_heads" zero_or_null "num_attention_heads";
    default_times4 "intermediate_size" zero_or_null "hidden_size";
    default_quotient "head_dim" "hidden_size" "num_attention_heads";
    assert_product "head_dim" "num_attention_heads" "hidden_size";
    assert_divides "num_attention_heads" "num_key_value_heads" ].

Definition Phi1Config : ConfigClass :=
  mkClass "Phi1Config"
    [
     ("vocab_size", Some (JInt 51200)); ("hidden_size", Some (JInt 2048));
     ("intermediate_size", Some (JInt 8192)); ("num_hidden_layers", Some (JInt 24));
     ("num_attention_heads", Some (JInt 32));
     ("layer_norm_eps", Some (JFloat (S754_finite false 5902958103587057 (-69))));
     ("position_embedding_base", Some (JInt 0));
     ("partial_rotary_factor", Some (JFloat (S754_finite false 4503599627370496 (-53))));
     ("num_key_value_heads", Some (JInt 0)); ("context_window_size", Some (JInt 0));
     ("prefill_chunk_size", Some (JInt 0)); ("head_dim", Some (JInt 0));
     ("tensor_parallel_shards", Some (JInt 1)); ("max_batch_size", Some (JInt 1)) ]
    Phi1Config_post_init.

Definition PhiConfig_post_init : list Stmt :=
  [ rope_theta;
    phi_context_window;
    phi_prefill_chunk_size;
    default_copy "n_head_kv" zero_or_null "n_head";
    default_times4 "n_inner" zero_or_null "n_embd";
    default_quotient "head_dim" "n_embd" "n_head";
    assert_product "head_dim" "n_head" "n_embd";
    assert_divides "n_head" "n_head_kv" ].

Definition PhiConfig : ConfigClass :=
  mkClass "PhiConfig"
    [
     ("model_type", None); ("vocab_size", Some (JInt 51200));
     ("n_positions", Some (JInt 2048)); ("n_embd", Some (JInt 2560));
     ("n_layer", Some (JInt 32)); ("n_inner", Some (JInt 0)); ("n_head", Some (JInt 32));
     ("rotary_dim", Some (JInt 32)); ("position_embedding_base", Some (JInt 0));
     ("layer_norm_epsilon", Some (JFloat (S754_finite false 5902958103587057 (-69))));
     ("context_window_size", Some (JInt 0)); ("prefill_chunk_size", Some (JInt 0));
     ("n_head_kv", Some (JInt 0)); ("head_dim", Some (JInt 0));
     ("tensor_parallel_shards", Some (JInt 1)) ]
    PhiConfig_post_init.

Definition Phi3Config_post_init : list Stmt :=
  [ rope_theta;
    phi3_rope_scaling;
    default_copy "context_window_size" is_zero "max_position_embeddings";
    prefill_chunk_size (capped 8192);
    default_copy "num_key_value_heads" zero_or_null "num_attention_heads";
    default_quotient "head_dim" "hidden_size" "num_attention_heads";
    assert_product "head_dim" "num_attention_heads" "hidden_size";
    assert_divides "num_attention_heads" "num_key_value_heads" ].

Definition Phi3Config : ConfigClass :=
  mkClass "Phi3Config"
    [
     ("model_type", None); ("hidden_size", None); ("vocab_size", None);
     ("num_hidden_layers", None); ("num_attention_heads", None); ("intermediate_size", None);
     ("rms_norm_eps", None); ("num_key_value_heads", None); ("max_position_embeddings", None);
     ("position_embedding_base", Some (JInt 0)); ("rope_scaling", Some (JNull));
     ("original_max_position_embeddings", Some (JInt 0));
     ("context_window_size", Some (JInt 0)); ("prefill_chunk_size", Some (JInt 0));
     ("head_dim", Some (JInt 0)); ("tensor_parallel_shards", Some (JInt 1));
     ("max_batch_size", Some (JInt 1)) ]
    Phi3Config_post_init.

Definition QWenConfig_post_init : list Stmt :=
  [ context_window ["max_position_embeddings"; "max_sequence_length"];
    default_quotient "head_dim" "hidden_size" "num_attention_heads";
    assert_product "head_dim" "num_attention_heads" "hidden_size";
    prefill_chunk_size (capped 8192) ].

Definition QWenConfig : ConfigClass :=
  mkClass "QWenConfig"
    [
     ("vocab_size", None); ("hidden_size", None); ("num_hidden_layers", None);
     ("num_attention_heads", None); ("layer_norm_epsilon", None); ("scale_attn_weights", None);
     ("kv_channels", None); ("rotary_emb_base", None); ("intermediate_size", None);
     ("context_window_size", Some (JInt 0)); ("prefill_chunk_size", Some (JInt 0));
     ("tensor_parallel_shards", Some (JInt 1)); ("max_batch_size", Some (JInt 1));
     ("head_dim", Some (JInt 0)) ]
    QWenConfig_post_init.

Definition QWen2Config_post_init : list Stmt :=
  [ context_window ["max_position_embeddings"; "max_sequence_length"];
    default_quotient "head_dim" "hidden_size" "num_attention_heads";
    assert_product "head_dim" "num_attention_heads" "hidden_size";
    prefill_chunk_size (capped 8192) ].

Definition QWen2Config : ConfigClass :=
  mkClass "QWen2Config"
    [
     ("hidden_act", None); ("hidden_size", None); ("intermediate_size", None);
     ("num_attention_heads", None); ("num_hidden_layers", None); ("num_key_value_heads", None);
     ("rms_norm_eps", None); ("rope_theta", None); ("vocab_size", None);
     ("tie_word_embeddings", Some (JBool false)); ("context_window_size", Some (JInt 0));
     ("prefill_chunk_size", Some (JInt 0)); ("tensor_parallel_shards", Some (JInt 1));
     ("head_dim", Some (JInt 0)); ("dtype", Some (JStr "float32"));
     ("max_batch_size", Some (JInt 1)) ]
    QWen2Config_post_init.

Definition Qwen3Config_post_init : list Stmt :=
  [ quantization_config;
    context_window ["max_position_embeddings"; "max_sequence_length"];
    prefill_chunk_size (capped 2048) ].

Definition Qwen3Config : ConfigClass :=
  mkClass "Qwen3Config"
    [
     ("hidden_act", None); ("hidden_size", None); ("intermediate_size", None);
     ("attention_bias", None); ("num_attention_heads", None); ("num_hidden_layers", None);
     ("num_key_value_heads", None); ("rms_norm_eps", None); ("rope_theta", None);
     ("vocab_size", None); ("tie_word_embeddings", Some (JBool false));
     ("context_window_size", Some (JInt 0)); ("prefill_chunk_size", Some (JInt 0));
     ("tensor_parallel_shards", Some (JInt 1)); ("head_dim", Some (JInt 0));
     ("dtype", Some (JStr "float32")); ("max_batch_size", Some (JInt 1));
     ("weight_block_size", Some (JNull)) ]
    Qwen3Config_post_init.

Definition RWKV5Config_post_init : list Stmt :=
  [ check_model_version "5_2" "Only support RWKV v5_2, got ";
    rwkv_intermediate_size;
    rwkv_num_heads;
    check_head_size;
    check_single_device ].

Definition RWKV5Config : ConfigClass :=
  mkClass "RWKV5Config"
    [
     ("hidden_size", None); ("intermediate_size", None); ("num_hidden_layers", None);
     ("vocab_size", None); ("model_version", None); ("tensor_parallel_shards", Some (JInt 1));
     ("rescale_every", Some (JInt 0)); ("head_size", Some (JInt 64));
     ("layer_norm_epsilon", Some (JFloat (S754_finite false 5902958103587057 (-69))));
     ("context_window_size", Some (JInt (-1))); ("prefill_chunk_size", Some (JInt 4096));
     ("num_heads", Some (JInt 0)); ("max_batch_size", Some (JInt 1)) ]
    RWKV5Config_post_init.

Definition RWKV6Config_post_init : list Stmt :=
  [ check_model_version "6_0" "Only support RWKV v6_0, got ";
    rwkv_intermediate_size;
    rwkv_num_heads;
    check_head_size;
    check_single_device ].

Definition RWKV6Config : ConfigClass :=
  mkClass "RWKV6Config"
    [
     ("hidden_size", None); ("intermediate_size", None); ("num_hidden_layers", None);
     ("vocab_size", None); ("model_version", Some (JStr "6_0"));
     ("tensor_parallel_shards", Some (JInt 1)); ("rescale_every", Some (JInt 0));
     ("head_size", Some (JInt 64));
     ("layer_norm_epsilon", Some (JFloat (S754_finite false 5902958103587057 (-69))));
     ("context_window_size", Some (JInt (-1))); ("prefill_chunk_size", Some (JInt 4096));
     ("num_heads", Some (JInt 0)); ("max_batch_size", Some (JInt 1)) ]
    RWKV6Config_post_init.

Definition StableLmConfig_post_init : list Stmt :=
  [ context_window ["max_position_embeddings"; "max_sequence_length"];
    default_quotient "head_dim" "hidden_size" "num_attention_heads";
    assert_product "head_dim" "num_attention_heads" "hidden_size";
    prefill_chunk_size (capped 8192) ].

Definition StableLmConfig : ConfigClass :=
  mkClass "StableLmConfig"
    [
     ("vocab_size", None); ("hidden_size", None); ("num_hidden_layers", None);
     ("num_attention_heads", None); ("num_key_value_heads", None); ("layer_norm_eps", None);
     ("partial_rotary_factor", None); ("rope_theta", None); ("intermediate_size", None);
     ("use_qkv_bias", Some (JBool false)); ("head_dim", Some (JInt 0));
     ("context_window_size", Some (JInt 0)); ("prefill_chunk_size", Some (JInt 0));
     ("tensor_parallel_shards", Some (JInt 1)); ("max_batch_size", Some (JInt 1)) ]
    StableLmConfig_post_init.

Definition Starcoder2Config_post_init : list Stmt :=
  [ context_window ["max_position_embeddings"; "max_sequence_length"];
    default_quotient "head_dim" "hidden_size" "num_attention_heads";
    assert_product "head_dim" "num_attention_heads" "hidden_size";
    prefill_chunk_size (capped 8192) ].

Definition Starcoder2Config : ConfigClass :=
  mkClass "Starcoder2Config"
    [
     ("vocab_size", None); ("hidden_size", None); ("num_hidden_layers", None);
     ("num_attention_heads", None); ("num_key_value_heads", None); ("hidden_act", None);
     ("norm_epsilon", None); ("intermediate_size", None); ("rope_theta", None);
     ("use_bias", None); ("use_cache", None); ("bos_token_id", None); ("eos_token_id", None);
     ("context_window_size", Some (JInt 0)); ("prefill_chunk_size", Some (JInt 0));
     ("tensor_parallel_shards", Some (JInt 1)); ("max_batch_size", Some (JInt 1));
     ("head_dim", Some (JInt 0)) ]
    Starcoder2Config_post_init.

Definition EagleConfig : ConfigClass :=
  mkClass "EagleConfig"
    (fields LlamaConfig ++ [
     ("bias", Some (JBool true)) ])
    LlamaConfig_post_init.

Definition Gemma2Config_post_init : list Stmt :=
  GemmaConfig_post_init ++ [assign "context_window_size" (self "sliding_window")].

Definition Gemma2Config : ConfigClass :=
  mkClass "Gemma2Config"
    (fields GemmaConfig ++ [
     ("attn_logit_softcapping", Some (JNull)); ("final_logit_softcapping", Some (JNull));
     ("query_pre_attn_scalar", Some (JNull)); ("sliding_window", Some (JNull)) ])
    Gemma2Config_post_init.

Definition MixtralConfig : ConfigClass :=
  mkClass "MixtralConfig"
    (fields LlamaConfig ++ [
     ("num_local_experts", Some (JInt 0)); ("num_experts_per_tok", Some (JInt 0)) ])
    LlamaConfig_post_init.

Definition Qwen2MoeConfig : ConfigClass :=
  mkClass "Qwen2MoeConfig"
    (fields QWen2Config ++ [
     ("moe_intermediate_size", Some (JInt 0));
     ("shared_expert_intermediate_size", Some (JInt 0));
     ("num_experts_per_tok", Some (JInt 0)); ("num_experts", Some (JInt 0));
     ("decoder_sparse_step", Some (JInt 0)); ("norm_topk_prob", Some (JBool false)) ])
    QWen2Config_post_init.

Definition Qwen3MoeConfig : ConfigClass :=
  mkClass "Qwen3MoeConfig"
    (fields Qwen3Config ++ [
     ("moe_intermediate_size", Some (JInt 0)); ("num_experts_per_tok", Some (JInt 0));
     ("num_experts", Some (JInt 0)); ("decoder_sparse_step", Some (JInt 0));
     ("norm_topk_prob", Some (JBool false)) ])
    Qwen3Config_post_init.

Definition CLIPVisionConfig : ConfigClass :=
  mkClass "CLIPVisionConfig"
    [
     ("hidden_size", None); ("image_size", None); ("intermediate_size", None);
     ("num_attention_heads", None); ("num_hidden_layers", None); ("patch_size", None);
     ("projection_dim", None); ("vocab_size", None); ("num_channels", Some (JInt 3));
     ("layer_norm_eps", Some (JFloat (S754_finite false 4722366482869645 (-72)))) ]
    [].

(** ** Configurations with nested configurations *)

(** [dataclasses.asdict] of a nested object. *)
Definition nested_asdict (cls : ConfigClass) (o : obj) : json :=
  JObj (asdict cls o ++ [("kwargs", JObj (o_kwargs o))]).

(** [dict(v)] *)
Definition as_dict (v : json) : res (dict json) :=
  match v with
  | JObj d => Ok d
  | JArr [] => Ok []
  | _ => Raise TypeError
  end.

(** [for k, v in d.pop("kwargs", {}).items(): d[k] = v] *)
Definition merge_kwargs (d : dict json) : res (dict json) :=
  match dict_get d "kwargs" with
  | None => Ok d
  | Some (JObj kw) => Ok (dict_update (dict_del d "kwargs") kw)
  | Some _ => Raise AttributeError
  end.

(** [for k in ks: if getattr(self, k) <= 0: if hasattr(nested, k): setattr(self, k, ...)] *)
Fixpoint inherit_sizes (nested : dict json) (ks : list string) : M obj unit :=
  match ks with
  | [] => mret' tt
  | k :: ks =>
      let! v := self k in
      let! le := mlift (py_le v (JInt 0)) in
      (if le then match dict_get nested k with
                  | Some w => setattr k w
                  | None => mret' tt
                  end
       else mret' tt) ;!
      inherit_sizes nested ks
  end.

Definition nested_stmt (m : M obj unit) : Stmt := mkStmt m [] [] (fun _ => true).

Definition gemma3_nested : Stmt :=
  nested_stmt
    (let! t := self "text_config" in
     (if is_null t then
        setattr "is_text_model" (JBool true) ;!
        let! kw := get_kwargs in
        let! c := mlift (from_dict Gemma3TextConfig kw) in
        setattr "text_config" (nested_asdict Gemma3TextConfig c)
      else mret' tt) ;!
     let! t := self "text_config" in
     let! d := mlift (as_dict t) in
     let! d := mlift (merge_kwargs d) in
     let! c := mlift (from_dict Gemma3TextConfig d) in
     setattr "text_config" (nested_asdict Gemma3TextConfig c) ;!
     inherit_sizes (o_attrs c) ["context_window_size"; "prefill_chunk_size"]).

Definition Gemma3Config_post_init : list Stmt :=
  [ gemma3_nested ].

Definition Gemma3Config : ConfigClass :=
  mkClass "Gemma3Config"
    [
     ("text_config", Some (JNull)); ("vocab_size", Some (JInt 262208));
     ("tensor_parallel_shards", Some (JInt 1)); ("max_batch_size", Some (JInt 1));
     ("context_window_size", Some (JInt (-1))); ("sliding_window_size", Some (JInt (-1)));
     ("prefill_chunk_size", Some (JInt (-1))); ("is_text_model", Some (JBool false)) ]
    Gemma3Config_post_init.

Definition CLIPVISION_DEFAULT_CONFIG : dict json :=
  [
    ("hidden_size", JInt 1024); ("image_size", JInt 336); ("intermediate_size", JInt 4096);
    ("num_attention_heads", JInt 16); ("num_hidden_layers", JInt 24); ("patch_size", JInt 14);
    ("projection_dim", JInt 768);
    ("layer_norm_eps", JFloat (S754_finite false 5902958103587057 (-69)));
    ("vocab_size", JNull) ].

(** Phi-3-vision replaces a vision configuration read from JSON by its default. *)
Definition phi3v_vision_config : Stmt :=
  nested_stmt
    (let! c := mlift (from_dict CLIPVisionConfig CLIPVISION_DEFAULT_CONFIG) in
     setattr "vision_config" (nested_asdict CLIPVisionConfig c)).

Definition Phi3VConfig_post_init : list Stmt :=
  [ phi3v_vision_config;
    rope_theta;
    phi3_rope_scaling;
    default_copy "context_window_size" is_zero "max_position_embeddings";
    prefill_chunk_size (capped 8192);
    default_copy "num_key_value_heads" zero_or_null "num_attention_heads";
    default_quotient "head_dim" "hidden_size" "num_attention_heads";
    assert_product "head_dim" "num_attention_heads" "hidden_size";
    assert_divides "num_attention_heads" "num_key_value_heads" ].

Definition Phi3VConfig : ConfigClass :=
  mkClass "Phi3VConfig"
    [
     ("model_type", None); ("hidden_size", None); ("vocab_size", None);
     ("num_hidden_layers", None); ("num_attention_heads", None); ("intermediate_size", None);
     ("rms_norm_eps", None); ("num_key_value_heads", None); ("max_position_embeddings", None);
     ("vision_config", Some (JNull)); ("img_processor", Some (JNull));
     ("position_embedding_base", Some (JInt 0)); ("rope_scaling", Some (JNull));
     ("original_max_position_embeddings", Some (JInt 0));
     ("context_window_size", Some (JInt 0)); ("prefill_chunk_size", Some (JInt 0));
     ("head_dim", Some (JInt 0)); ("tensor_parallel_shards", Some (JInt 1));
     ("max_batch_size", Some (JInt 1)) ]
    Phi3VConfig_post_init.

(** The configuration of a model on the Hugging Face hub; [Raise] of
    [ImportError] or [OSError] when it cannot be fetched. *)
Class AutoConfig := { from_pretrained : json -> res (dict json) }.

Definition ImportError : exn := OtherError "ImportError".
Definition OSError : exn := OtherError "OSError".

Definition hf_preset (name : string) : option string :=
  dict_get [("meta-llama/Llama-2-7b-hf", "llama2_7b"); ("meta-llama/Llama-2-13b-hf", "llama2_13b");
            ("lmsys/vicuna-7b-v1.5", "llama2_7b"); ("mistralai/Mistral-7B-v0.1", "mistral_7b")] name.

Section Llava.
Context `{AC : AutoConfig}.

Definition get_hf_config (text_config_dict : dict json) : res (dict json) :=
  let? name := dict_getitem text_config_dict "_name_or_path" in
  match from_pretrained name with
  | Ok d => Ok d
  | Raise (OtherError k) =>
      if str_mem k ["ImportError"; "OSError"] then
        match name with
        | JStr n => match hf_preset n with
                    | Some p => dict_getitem MODEL_PRESETS p
                    | None => Raise (ValueError [Lit "Unsupported text model"])
                    end
        | JArr _ | JObj _ => Raise TypeError
        | _ => Raise (ValueError [Lit "Unsupported text model"])
        end
      else Raise (OtherError k)
  | Raise e => Raise e
  end.

Definition CONFIG_MAP : dict ConfigClass :=
  [("LlamaForCausalLM", LlamaConfig); ("MistralForCausalLM", MistralConfig)].

(** [architectures = d["architectures"]; assert len(architectures) == 1; architectures[0]] *)
Definition single_architecture (d : dict json) : res json :=
  let? a := dict_getitem d "architectures" in
  match a with
  | JArr l => match l with [x] => Ok x | _ => Raise AssertionError end
  | JStr s => if Nat.eqb (length (code_points s)) 1 then Ok (JStr s) else Raise AssertionError
  | JObj [(k, v)] => Raise (KeyError "0")
  | JObj _ => Raise AssertionError
  | _ => Raise TypeError
  end.

Definition llava_nested : Stmt :=
  nested_stmt
    (let! v := self "vision_config" in
     let! d := mlift (as_dict v) in
     let! d := mlift (merge_kwargs d) in
     let! c := mlift (from_dict CLIPVisionConfig d) in
     setattr "vision_config" (nested_asdict CLIPVisionConfig c) ;!
     let! t := self "text_config" in
     let! d := mlift (as_dict t) in
     let! d :=
       (if dict_has d "_name_or_path" then
          let! hf := mlift (get_hf_config d) in
          let d := dict_update d hf in
          let! a := mlift (single_architecture d) in
          setattr "text_architecture" a ;!
          mret' d
        else mlift (merge_kwargs d)) in
     let! a := self "text_architecture" in
     let! cls := mlift (match a with
                        | JStr s => dict_getitem CONFIG_MAP s
                        | JArr _ | JObj _ => Raise TypeError
                        | _ => Raise (KeyError "")
                        end) in
     let! c := mlift (from_dict cls d) in
     setattr "text_config" (nested_asdict cls c) ;!
     inherit_sizes (o_attrs c) ["context_window_size"; "sliding_window_size"; "prefill_chunk_size"]).

Definition LlavaConfig_post_init : list Stmt :=
  [ llava_nested ].

Definition LlavaConfig : ConfigClass :=
  mkClass "LlavaConfig"
    [
     ("image_token_index", None); ("text_config", None); ("vision_config", None);
     ("vocab_size", None); ("context_window_size", Some (JInt (-1)));
     ("sliding_window_size", Some (JInt (-1))); ("prefill_chunk_size", Some (JInt (-1)));
     ("tensor_parallel_shards", Some (JInt 1)); ("max_batch_size", Some (JInt 1));
     ("text_architecture", Some (JStr "LlamaForCausalLM")) ]
    LlavaConfig_post_init.

(** ** [MODELS] *)

(** A model family: its configuration class, and the names of its weight formats
    and quantization schemes. *)
Record Model : Type := mkModel {
  model_name : string;
  config : ConfigClass;
  source : list string;
  quantize : list string;
}.

Definition MODELS : dict Model :=
  [ ("llama", mkModel "llama" LlamaConfig
       ["huggingface-torch"; "huggingface-safetensor"; "awq"]
       ["no-quant"; "group-quant"; "ft-quant"; "awq"; "per-tensor-quant"]);
    ("mistral", mkModel "mistral" MistralConfig
       ["huggingface-torch"; "huggingface-safetensor"; "awq"]
       ["group-quant"; "no-quant"; "ft-quant"]);
    ("gemma", mkModel "gemma" GemmaConfig
       ["huggingface-torch"; "huggingface-safetensor"]
       ["no-quant"; "group-quant"]);
    ("gemma2", mkModel "gemma2" Gemma2Config
       ["huggingface-torch"; "huggingface-safetensor"]
       ["no-quant"; "group-quant"]);
    ("gemma3", mkModel "gemma3" Gemma3Config
       ["huggingface-torch"; "huggingface-safetensor"]
       ["no-quant"; "group-quant"]);
    ("gemma3_text", mkModel "gemma3_text" Gemma3Config
       ["huggingface-torch"; "huggingface-safetensor"]
       ["no-quant"; "group-quant"]);
    ("gpt2", mkModel "gpt2" GPT2Config
       ["huggingface-torch"; "huggingface-safetensor"]
       ["no-quant"; "group-quant"; "ft-quant"]);
    ("mixtral", mkModel "mixtral" MixtralConfig
       ["huggingface-torch"; "huggingface-safetensor"]
       ["no-quant"; "group-quant"; "ft-quant"; "per-tensor-quant"]);
    ("gpt_neox", mkModel "gpt_neox" GPTNeoXConfig
       ["huggingface-torch"; "huggingface-safetensor"]
       ["no-quant"; "group-quant"; "ft-quant"]);
    ("gpt_bigcode", mkModel "gpt_bigcode" GPTBigCodeConfig
       ["huggingface-torch"; "huggingface-safetensor"]
       ["no-quant"; "group-quant"; "ft-quant"]);
    ("phi-msft", mkModel "phi-msft" PhiConfig
       ["huggingface-torch"; "huggingface-safetensor"]
       ["no-quant"; "group-quant"; "ft-quant"]);
    ("phi", mkModel "phi" Phi1Config
       ["huggingface-torch"; "huggingface-safetensor"]
       ["no-quant"; "group-quant"; "ft-quant"]);
    ("phi3", mkModel "phi3" Phi3Config
       ["huggingface-torch"; "huggingface-safetensor"]
       ["no-quant"; "group-quant"; "ft-quant"]);
    ("phi3_v", mkModel "phi3_v" Phi3VConfig
       ["huggingface-torch"; "huggingface-safetensor"]
       ["no-quant"; "group-quant"; "ft-quant"]);
    ("qwen", mkModel "qwen" QWenConfig
       ["huggingface-torch"; "huggingface-safetensor"]
       ["no-quant"; "group-quant"; "ft-quant"]);
    ("qwen2", mkModel "qwen2" QWen2Config
       ["huggingface-torch"; "huggingface-safetensor"]
       ["no-quant"; "group-quant"; "ft-quant"]);
    ("qwen2_moe", mkModel "qwen2_moe" Qwen2MoeConfig
       ["huggingface-torch"; "huggingface-safetensor"]
       ["no-quant"; "group-quant"; "ft-quant"]);
    ("qwen3", mkModel "qwen3" Qwen3Config
       ["huggingface-torch"; "huggingface-safetensor"]
       ["no-quant"; "group-quant"; "ft-quant"; "block-scale-quant"]);
    ("qwen3_moe", mkModel "qwen3_moe" Qwen3MoeConfig
       ["huggingface-torch"; "huggingface-safetensor"]
       ["no-quant"; "group-quant"; "ft-quant"; "block-scale-quant"]);
    ("deepseek_v2", mkModel "deepseek_v2" DeepseekV2Config
       ["huggingface-torch"; "huggingface-safetensor"]
       ["no-quant"; "group-quant"; "ft-quant"]);
    ("deepseek_v3", mkModel "deepseek_v3" DeepseekV2Config
       ["huggingface-torch"; "huggingface-safetensor"]
       ["no-quant"; "group-quant"; "ft-quant"; "block-scale-quant"]);
    ("stablelm", mkModel "stablelm" StableLmConfig
       ["huggingface-torch"; "huggingface-safetensor"]
       ["no-quant"; "group-quant"; "ft-quant"]);
    ("baichuan", mkModel "baichuan" BaichuanConfig
       ["huggingface-torch"; "huggingface-safetensor"]
       ["no-quant"; "group-quant"; "ft-quant"]);
    ("internlm", mkModel "internlm" InternLMConfig
       ["huggingface-torch"; "huggingface-safetensor"]
       ["no-quant"; "group-quant"; "ft-quant"]);
    ("internlm2", mkModel "internlm2" InternLM2Config
       ["huggingface-torch"; "huggingface-safetensor"]
       ["no-quant"; "group-quant"; "ft-quant"]);
    ("rwkv5", mkModel "rwkv5" RWKV5Config
       ["huggingface-torch"; "huggingface-safetensor"]
       ["no-quant"; "group-quant"; "ft-quant"]);
    ("orion", mkModel "orion" OrionConfig
       ["huggingface-torch"; "huggingface-safetensor"]
       ["no-quant"; "group-quant"]);
    ("llava", mkModel "llava" LlavaConfig
       ["huggingface-torch"; "huggingface-safetensor"; "awq"]
       ["group-quant"; "no-quant"; "awq"]);
    ("rwkv6", mkModel "rwkv6" RWKV6Config
       ["huggingface-torch"; "huggingface-safetensor"]
       ["no-quant"; "group-quant"]);
    ("chatglm", mkModel "chatglm" GLMConfig
       ["huggingface-torch"; "huggingface-safetensor"]
       ["no-quant"; "group-quant"]);
    ("eagle", mkModel "eagle" EagleConfig
       ["huggingface-torch"; "huggingface-safetensor"; "awq"]
       ["no-quant"; "group-quant"; "ft-quant"; "awq"]);
    ("bert", mkModel "bert" BertConfig
       ["huggingface-torch"; "huggingface-safetensor"]
       ["no-quant"; "group-quant"; "ft-quant"]);
    ("medusa", mkModel "medusa" MedusaConfig
       ["huggingface-torch"; "huggingface-safetensor"]
       ["no-quant"]);
    ("starcoder2", mkModel "starcoder2" Starcoder2Config
       ["huggingface-torch"; "huggingface-safetensor"]
       ["no-quant"; "group-quant"; "ft-quant"]);
    ("cohere", mkModel "cohere" CohereConfig
       ["huggingface-torch"; "huggingface-safetensor"]
       ["no-quant"; "group-quant"; "ft-quant"]);
    ("minicpm", mkModel "minicpm" MiniCPMConfig
       ["huggingface-torch"; "huggingface-safetensor"]
       ["no-quant"; "group-quant"; "ft-quant"]);
    ("deepseek", mkModel "deepseek" DeepseekConfig
       ["huggingface-torch"; "huggingface-safetensor"]
       ["no-quant"; "group-quant"; "ft-quant"]);
    ("gptj", mkModel "gptj" GPTJConfig
       ["huggingface-torch"; "huggingface-safetensor"]
       ["no-quant"; "group-quant"; "ft-quant"]);
    ("olmo", mkModel "olmo" OLMoConfig
       ["huggingface-torch"; "huggingface-safetensor"; "awq"]
       ["no-quant"; "group-quant"; "ft-quant"; "awq"; "per-tensor-quant"]);
    ("nemotron", mkModel "nemotron" NemotronConfig
       ["huggingface-torch"; "huggingface-safetensor"]
       ["no-quant"; "group-quant"; "ft-quant"; "awq"; "per-tensor-quant"]) ].
End Llava.

(** ** Specifications *)

(** The classes whose [__post_init__] settles: no statement assigns what an
    earlier one looks at.  Missing are [Gemma2Config] and [Gemma3TextConfig],
    which reassign the context window at the end, [NemotronConfig], which sets
    an attribute that is not a field, and the nested configurations. *)
Definition settling_classes : list ConfigClass :=
  [ BaichuanConfig; BertConfig; GLMConfig; CohereConfig; DeepseekConfig; DeepseekV2Config;
    EagleConfig; GemmaConfig; GPT2Config; GPTBigCodeConfig; GPTJConfig; GPTNeoXConfig;
    InternLMConfig; InternLM2Config; LlamaConfig; MedusaConfig; MiniCPMConfig; MistralConfig;
    MixtralConfig; OLMoConfig; OrionConfig; Phi1Config; PhiConfig; Phi3Config; QWenConfig;
    QWen2Config; Qwen2MoeConfig; Qwen3Config; Qwen3MoeConfig; RWKV5Config; RWKV6Config;
    StableLmConfig; Starcoder2Config; CLIPVisionConfig ].

(** ** Lemmas: the statements of single families are lawful *)

Ltac each := repeat first [apply List.Forall_nil | apply List.Forall_cons].
Ltac keeps := repeat (apply keeps_bind; [apply _|intros ?]); repeat case_match; apply _.

#[export] Instance rope_theta_lawful : Lawful rope_theta.
Proof. apply set_when_lawful. unfold rope_theta_value. keeps. Qed.
#[export] Instance context_window_value_keeps ns : KeepsAttrs (context_window_value ns).
Proof. unfold context_window_value. keeps. Qed.
#[export] Instance context_window_lawful ns : Lawful (context_window ns).
Proof. apply set_when_lawful, _. Qed.
#[export] Instance default_quotient_lawful f a b : Lawful (default_quotient f a b).
Proof. apply set_when_lawful. keeps. Qed.
#[export] Instance default_copy_lawful f t g : Lawful (default_copy f t g).
Proof. apply set_when_lawful, _. Qed.
#[export] Instance default_times4_lawful f t g : Lawful (default_times4 f t g).
Proof. apply set_when_lawful. keeps. Qed.
#[export] Instance assign_lawful f e : KeepsAttrs e -> Lawful (assign f e).
Proof. intros. by apply set_when_lawful. Qed.
#[export] Instance padded_vocab_size_lawful : Lawful padded_vocab_size.
Proof. apply set_when_lawful. keeps. Qed.
#[export] Instance hidden_activation_lawful : Lawful hidden_activation.
Proof. apply set_when_lawful. keeps. Qed.
#[export] Instance positions_window_lawful : Lawful positions_window.
Proof. apply set_when_lawful. keeps. Qed.
#[export] Instance mistral_context_window_lawful : Lawful mistral_context_window.
Proof. apply set_when_lawful. keeps. Qed.
#[export] Instance mistral_prefill_lawful : Lawful mistral_prefill_chunk_size.
Proof. apply set_when_lawful. keeps. Qed.
#[export] Instance phi_context_window_lawful : Lawful phi_context_window.
Proof. apply set_when_lawful. keeps. Qed.
#[export] Instance rwkv_intermediate_size_lawful : Lawful rwkv_intermediate_size.
Proof. apply set_when_lawful. keeps. Qed.
#[export] Instance rwkv_num_heads_lawful : Lawful rwkv_num_heads.
Proof. apply default_quotient_lawful. Qed.

#[export] Instance check_activation_lawful : Lawful check_activation.
Proof. apply check_lawful. solve_reads. Qed.
#[export] Instance check_attention_bias_lawful : Lawful check_attention_bias.
Proof. apply check_lawful. solve_reads. Qed.
#[export] Instance check_pipeline_stages_lawful : Lawful check_pipeline_stages.
Proof. apply check_lawful. solve_reads. Qed.
#[export] Instance check_clip_qkv_lawful : Lawful check_clip_qkv.
Proof. apply check_lawful. solve_reads. Qed.
#[export] Instance check_sink_size_lawful : Lawful check_sink_size.
Proof. apply check_lawful. solve_reads. Qed.
#[export] Instance check_model_version_lawful v m : Lawful (check_model_version v m).
Proof. apply check_lawful. solve_reads. Qed.
#[export] Instance check_head_size_lawful : Lawful check_head_size.
Proof. apply check_lawful. solve_reads. Qed.
#[export] Instance check_single_device_lawful : Lawful check_single_device.
Proof. apply check_lawful. solve_reads. Qed.

#[export] Instance cohere_lawful : Lawful (guarded "position_embedding_base" is_zero cohere_body).
Proof.
  apply guarded_lawful. unfold cohere_body. each; apply _.
Qed.

(** The two statements of Mistral's sliding window, as one. *)
#[export] Instance mistral_sliding_window_lawful : Lawful mistral_sliding_window.
Proof.
  set (body := [ set_when "sliding_window_size" is_zero
    (let! v := kwargs_pop "sliding_window" in mret' (opt_default (JInt (-1)) v));
    set_when "sliding_window_size" is_null (mret' (JInt (-1))) ]).
  assert (Forall Lawful body) as Hb.
  { unfold body. each; apply set_when_lawful; keeps. }
  apply lawful_by_test.
  - intros o r o' g H Hg. eapply run_all_frame; [exact Hb|exact H|].
    intros s [<-|[<-|[]]]; exact Hg.
  - intros o r o' H Hi. eapply run_all_names; [exact Hb|exact H|].
    intros s [<-|[<-|[]]]; exact Hi.
  - intros o v E Ht. apply orb_false_iff in Ht as [H0 Hn]. cbn [run_all body set_when run].
    unfold mbind', self. rewrite E, H0. cbn. rewrite E. by rewrite Hn.
Qed.

#[export] Instance llama_rope_scaling_lawful : Lawful llama_rope_scaling.
Proof.
  apply update_lawful; [by left|done|solve_reads|].
  intros get get' w H Hw _ _. left. rewrite Hw.
  apply rbind_Ok in H as (rs & _ & H). destruct (is_null rs); [done|].
  apply rbind_Ok in H as ([] & _ & H).
  - apply rbind_Ok in H as (t & _ & H). by apply rbind_Ok in H as ([] & _ & [=]).
  - by injection H as <-.
Qed.

#[export] Instance phi_prefill_lawful : Lawful phi_prefill_chunk_size.
Proof.
  apply update_lawful; [by left|apply prefill_pending_reads|solve_reads|].
  intros get get' w H Hw Hsame Hp. right. unfold prefill_pending in Hp. rewrite Hw in *.
  rewrite (Hsame "context_window_size") in * by done.
  apply rbind_Ok in H as (p & _ & H). apply rbind_Ok in H as (c & Hc & H).
  rewrite Hc in *. apply orb_false_iff in Hp as [Hz Hg]. cbn. rewrite Hz.
  apply rbind_Ok in H as (v & Hv & [= ->]). unfold py_min.
  destruct (py_min_not_gt _ _ _ Hv) as [[E Hl]|[E Hl]]; rewrite E in *.
  - by rewrite Hl.
  - unfold py_gt in Hg. by destruct (py_lt c c) as [[]|].
Qed.

Lemma py_eq_str v s : py_eq v (JStr s) = true -> v = JStr s.
Proof.
  destruct v; simpl; unfold prim_eq; simpl; try done. intros E. by apply String.eqb_eq in E as ->.
Qed.

(** The longrope dictionary is its own rescaling. *)
Lemma phi3_scaled_again rs mx om w :
  phi3_scaled rs mx om = Ok w -> is_null w = true \/ phi3_scaled w mx om = Ok w.
Proof.
  unfold phi3_scaled. intros H. apply rbind_Ok in H as ([] & _ & H); [right|left; by injection H as <-].
  destruct rs as [| | | | | |d]; try done.
  apply rbind_Ok in H as (t & _ & H).
  revert H. generalize (if py_eq t (JStr "su") then dict_set d "type" (JStr "longrope") else d).
  intros d1 H.
  apply rbind_Ok in H as (t' & Ht' & H). destruct (py_eq t' (JStr "longrope")) eqn:El.
  2:{ by apply rbind_Ok in H as (? & _ & [=]). }
  injection H as <-.
  set (d2 := dict_set (dict_set (dict_set d1 _ _) _ _) _ _).
  assert (forall k, dict_get d2 k
    = if String.eqb k "original_max_position_embeddings" then Some om
      else if String.eqb k "max_position_embeddings" then Some mx
      else if String.eqb k "rope_type" then Some t' else dict_get d1 k) as Hg
    by (intros k; unfold d2; by rewrite !dict_get_set).
  assert (dict_get d2 "type" = Some t') as H2.
  { rewrite Hg. cbn. unfold dict_getitem in Ht'. by destruct (dict_get d1 "type"); simplify_eq/=. }
  cbn [py_in]. unfold dict_has, dict_getitem. rewrite H2. cbn [rbind opt_res].
  apply py_eq_str in El as ->. change (py_eq (JStr "longrope") (JStr "su")) with false.
  change (py_eq (JStr "longrope") (JStr "longrope")) with true.
  cbv iota. rewrite H2. cbn [rbind opt_res]. rewrite !dict_set_same; [done|by rewrite ?dict_get_set, ?Hg..].
Qed.

#[export] Instance phi3_rope_scaling_lawful : Lawful phi3_rope_scaling.
Proof.
  apply update_lawful; [by left|done|solve_reads|].
  intros get get' w H Hw Hsame _. rewrite Hw, !Hsame by done. cbn [rbind].
  destruct (is_null w) eqn:En; [by left|right].
  apply rbind_Ok in H as (rs & _ & H). destruct (is_null rs); [done|].
  apply rbind_Ok in H as (mx & -> & H). apply rbind_Ok in H as (om & -> & H). cbn [rbind].
  apply rbind_Ok in H as (rs' & H & [= ->]).
  destruct (phi3_scaled_again _ _ _ _ H) as [E| ->]; [by rewrite En in E|done].
Qed.

#[export] Instance quantization_config_lawful : Lawful quantization_config.
Proof.
  assert (forall o r o', run quantization_config o = (r, o') ->
    o_attrs o' = o_attrs o \/ exists v, o_attrs o' = dict_set (o_attrs o) "weight_block_size" v) as Hrun.
  { intros o r o' H. cbn [run quantization_config] in H. unfold mbind' at 1, get_kwargs in H.
    destruct (dict_get _ _); [|injection H as _ <-; by left]. by eapply set_result, H; apply _. }
  split.
  - intros o r o' f H Hf. unfold attr. destruct (Hrun _ _ _ H) as [-> |[v ->]]; [done|].
    rewrite dict_get_set. destruct (String.eqb_spec f "weight_block_size") as [->|]; [|done].
    destruct Hf. by left.
  - intros o r o' H Hin. unfold attr_names. destruct (Hrun _ _ _ H) as [-> |[v ->]]; [done|].
    apply dict_set_names, Hin. by left.
  - done.
  - done.
  - done.
Qed.

(** ** The classes settle *)

Ltac settle := split; [cbn [post_init]; each; apply _|by vm_compute|by vm_compute].


Lemma settling_spec cls : In cls settling_classes -> Settling cls.
Proof.
  intros H. unfold settling_classes in H.
  repeat (destruct H as [<-|H]; [settle|]). destruct H.
Qed.

(** A settled check succeeds on the final object. *)
Lemma noop_check fs e o : noop (check fs e) o -> e (attr o) = Ok tt.
Proof. intros [_ H]. cbn [run check] in H. by injection H. Qed.

Lemma settled_stmt cls s source c :
  In cls settling_classes -> In s (post_init cls) ->
  from_dict cls source = Ok c -> resolved cls c = true -> noop s c.
Proof.
  intros Hc%settling_spec Hs H Hr. pose proof (from_dict_settles cls _ _ H Hr) as Hn.
  rewrite List.Forall_forall in Hn. by apply Hn.
Qed.

(** ** The classes that bound the prefill chunk *)

(** The prefill chunk of the object is bounded by its context window. *)
Definition prefill_bounded (o : obj) : Prop :=
  exists p w, attr o "prefill_chunk_size" = Ok p /\ attr o "context_window_size" = Ok w /\
    py_gt p w = Ok false /\ (is_zero p = true -> is_zero w = true).

Class BoundsPrefill (s : Stmt) : Prop :=
  bounds_prefill o o' : run s o = (Ok tt, o') -> prefill_bounded o'.

(** Storing the chunk [v] bounds it. *)
Lemma set_prefill_bounded o w v : attr o "context_window_size" = Ok w ->
  py_gt v w = Ok false -> (is_zero v = true -> is_zero w = true) ->
  prefill_bounded (mkObj (dict_set (o_attrs o) "prefill_chunk_size" v) (o_kwargs o)).
Proof. intros Hw Hg Hz. exists v, w. by rewrite !attr_set. Qed.

Lemma prefill_bounds k : (0 < k)%Z -> BoundsPrefill (prefill_chunk_size (capped k)).
Proof.
  intros Hk o o' H. cbn [run prefill_chunk_size update] in H.
  destruct (attr o "prefill_chunk_size") as [p|] eqn:Ep; [|done].
  destruct (attr o "context_window_size") as [w|] eqn:Ew; [|done]. cbn [rbind] in H.
  destruct (if is_zero p then Ok true else py_gt p w) as [[]|] eqn:Ec; [| |done]; cbn [rbind] in H.
  - destruct (capped k w) as [v|] eqn:Ev; [|done]. cbn [rbind] in H. injection H as <-.
    apply (set_prefill_bounded o w); [done|by apply (capped_at_most k)|].
    destruct (py_min_not_gt _ _ _ Ev) as [[-> _]|[-> _]]; [done|]. by destruct k.
  - injection H as <-. exists p, w. destruct (is_zero p); [done|]. done.
Qed.

Lemma phi_bounds : BoundsPrefill phi_prefill_chunk_size.
Proof.
  intros o o' H. cbn [run phi_prefill_chunk_size update] in H.
  destruct (attr o "prefill_chunk_size") as [p|] eqn:Ep; [|done].
  destruct (attr o "context_window_size") as [w|] eqn:Ew; [|done]. cbn [rbind] in H.
  destruct (py_min (if is_zero p then w else p) w) as [v|] eqn:Ev; [|done]. cbn [rbind] in H. injection H as <-.
  destruct (py_min_not_gt _ _ _ Ev) as [[-> Hl]|[-> Hl]]; (apply (set_prefill_bounded o w); [done| |]); try done.
  - by destruct (is_zero p) eqn:Ez; [|rewrite Ez].
  - by apply (py_lt_self _ _ _ Hl).
Qed.

(** The statements after the one that bounds the chunk do not assign to either. *)
Definition leaves_bounds (s : Stmt) : bool :=
  negb (str_mem "prefill_chunk_size" (writes s)) && negb (str_mem "context_window_size" (writes s)).

Lemma bounds_last s l o c : BoundsPrefill s -> Forall Lawful l -> forallb leaves_bounds l = true ->
  run_all (s :: l) o = (Ok tt, c) -> prefill_bounded c.
Proof.
  intros Hs Hl Hf H. cbn [run_all] in H. apply mbind_inv in H as [([] & o1 & H1 & H2)|(e & _ & [=])].
  destruct (Hs _ _ H1) as (p & w & Hp & Hw & Hb). exists p, w. rewrite <- Hp, <- Hw. rewrite forallb_forall in Hf.
  split_and!; try apply Hb; (eapply run_all_frame; [exact Hl|exact H2|]); intros s' Hs' Hin; specialize (Hf s' Hs');
    apply andb_true_iff in Hf as [Hf1 Hf2]; apply str_mem_In in Hin; by rewrite Hin in *.
Qed.

Lemma bounds_skip s l o c : (forall o, run_all l o = (Ok tt, c) -> prefill_bounded c) ->
  run_all (s :: l) o = (Ok tt, c) -> prefill_bounded c.
Proof.
  intros Hl H. cbn [run_all] in H. apply mbind_inv in H as [([] & o1 & _ & H2)|(e & _ & [=])]. by eapply Hl.
Qed.

(** The classes whose [__post_init__] bounds the chunk and then leaves the chunk
    and the window alone. *)
Definition bounding_classes : list ConfigClass :=
  [ BaichuanConfig; GLMConfig; DeepseekConfig; DeepseekV2Config; EagleConfig; GemmaConfig; GPT2Config;
    GPTBigCodeConfig; GPTJConfig; GPTNeoXConfig; InternLMConfig; InternLM2Config; LlamaConfig; MiniCPMConfig;
    MixtralConfig; NemotronConfig; OLMoConfig; OrionConfig; Phi1Config; PhiConfig; Phi3Config; Phi3VConfig;
    QWenConfig; QWen2Config; Qwen2MoeConfig; Qwen3Config; Qwen3MoeConfig; StableLmConfig; Starcoder2Config ].

(** The other classes of the registry. *)
Definition unbounded_classes : list string :=
  ["BertConfig"; "CohereConfig"; "Gemma2Config"; "Gemma3Config"; "LlavaConfig"; "MedusaConfig"; "MistralConfig";
   "RWKV5Config"; "RWKV6Config"].

Lemma registry_classes `{AutoConfig} :
  forallb (fun tm : string * Model => str_mem (cls_name (config (snd tm))) (map cls_name bounding_classes ++ unbounded_classes))
    MODELS = true.
Proof. by vm_compute. Qed.

Ltac bounds_walk :=
  match goal with
  | |- run_all ?l _ = _ -> _ => let l' := eval hnf in l in change l with l'
  end;
  first
    [ apply bounds_last; [first [apply prefill_bounds; lia|apply phi_bounds]|each; apply _|by vm_compute]
    | apply bounds_skip; intros ?; bounds_walk ].

Lemma bounding_spec cls o c : In cls bounding_classes -> run_all (post_init cls) o = (Ok tt, c) -> prefill_bounded c.
Proof.
  intros Hc. unfold bounding_classes in Hc. repeat (destruct Hc as [<-|Hc]; [cbn [post_init]; bounds_walk|]). destruct Hc.
Qed.

(** A preset, by the configuration class of its model type. *)
Definition load_preset `{AutoConfig} (d : dict json) : res (ConfigClass * obj) :=
  match dict_get d "model_type" with
  | Some (JStr t) =>
      let? m := dict_getitem MODELS t in
      let? c := from_dict (config m) d in
      Ok (config m, c)
  | _ => Raise (KeyError "model_type")
  end.

(** The configuration [from_dict] builds, when it does. *)
Definition built (cls : ConfigClass) (d : dict json) : obj :=
  match from_dict cls d with Ok c => c | Raise _ => mkObj [] [] end.

(** No connection to the hub. *)
Definition offline : AutoConfig := {| from_pretrained _ := Raise OSError |}.

Definition class_settles (cls : ConfigClass) : bool :=
  negb (str_mem (cls_name cls)
          ["Gemma2Config"; "Gemma3TextConfig"; "NemotronConfig"; "Gemma3Config"; "Phi3VConfig";
           "LlavaConfig"]).

Definition preset_fine (d : dict json) : bool :=
  match @load_preset offline d with
  | Ok (cls, c) => implb (class_settles cls) (resolved cls c)
  | Raise _ => false
  end.

Lemma all_presets_fine : forallb (fun kv => preset_fine (snd kv)) MODEL_PRESETS = true.
Proof. by vm_compute. Qed.

(** ** Theorems *)

(** C39: a configuration in which no default is left open survives the round
    trip through a dictionary.  Take a class whose statements do not undo each
    other ([settling_classes]) and a configuration that [from_dict] built from a
    JSON object, with no attribute left at the zero or null that asks for a
    default ([resolved], as all built-in configurations of these classes are):
    [from_dict] rebuilds it from its [asdict], up to [kwargs], which [asdict]
    drops.  A default that is itself zero, such as [rope_theta = 0], leaves the
    configuration open, and it is rebuilt differently ([rope_theta_zero]). *)
Theorem from_dict_asdict_roundtrip cls source c :
  In cls settling_classes -> from_dict cls source = Ok c -> resolved cls c = true ->
  from_dict cls (asdict cls c) = Ok (plain c).
Proof. intros Hc%settling_spec. by apply from_dict_asdict. Qed.

(** A Llama configuration with [rope_theta = 0]: the base stays open, and is
    10000 after the round trip. *)
Example rope_theta_zero :
  let source := dict_set preset_llama3_1_8b "rope_theta" (JInt 0) in
  exists c c', from_dict LlamaConfig source = Ok c /\ resolved LlamaConfig c = false /\
    attr c "position_embedding_base" = Ok (JInt 0) /\
    from_dict LlamaConfig (asdict LlamaConfig c) = Ok c' /\ attr c' "position_embedding_base" = Ok (JInt 10000).
Proof.
  intros source. exists (built LlamaConfig source), (built LlamaConfig (asdict LlamaConfig (built LlamaConfig source))).
  split_and!; by vm_compute.
Qed.

(** C40: the prefill chunk fits in the context window.  In the 29 classes that
    bound the prefill chunk and leave the window alone afterwards
    ([bounding_classes]), every configuration that is built at all, from any
    JSON object, also by overriding fields of another one, has a prefill chunk
    that is not greater than its context window, and that is zero only if the
    window is.  Missing are the classes of Gemma 2 and of the text part of
    Gemma 3, which replace the window afterwards ([gemma2_prefill_above_window]),
    Cohere, which checks nothing when its rotary base is set
    ([cohere_override_unchecked]), Mistral, which only fills in an unset chunk,
    RWKV, and Medusa, which do not look at it, BERT, which takes the whole window, and
    the nested configurations of Gemma 3 and LLaVA. *)
Theorem prefill_within_context cls source c :
  In cls bounding_classes -> from_dict cls source = Ok c ->
  exists p w, attr c "prefill_chunk_size" = Ok p /\ attr c "context_window_size" = Ok w /\
    py_gt p w = Ok false /\ (is_zero p = true -> is_zero w = true).
Proof.
  intros Hc H. apply from_dict_Ok in H as (given & kw & H). apply construct_runs in H as (attrs & H).
  exact (bounding_spec cls _ c Hc H).
Qed.

(** The attention heads fit.  Wherever a class asserts that two fields
    multiply to a third ([head_dim * num_attention_heads == hidden_size]) or that
    one divides another ([num_attention_heads % num_key_value_heads == 0]), the
    finished configuration satisfies it: no later statement breaks it. *)
Theorem heads_consistent cls source c a b d :
  In cls settling_classes -> from_dict cls source = Ok c -> resolved cls c = true ->
  (In (assert_product a b d) (post_init cls) ->
     exists x y z p, attr c a = Ok x /\ attr c b = Ok y /\ attr c d = Ok z /\
       py_mul x y = Ok p /\ py_eq p z = true) /\
  (In (assert_divides a b) (post_init cls) ->
     exists x y r, attr c a = Ok x /\ attr c b = Ok y /\ py_mod x y = Ok r /\ is_zero r = true).
Proof.
  intros Hc H Hr. split; intros Hs; pose proof (noop_check _ _ _ (settled_stmt _ _ _ _ Hc Hs H Hr)) as Hn.
  - apply rbind_Ok in Hn as (x & Hx & Hn). apply rbind_Ok in Hn as (y & Hy & Hn).
    apply rbind_Ok in Hn as (z & Hz & Hn). apply rbind_Ok in Hn as (p & Hp & Hn).
    exists x, y, z, p. split_and!; try done. by destruct (py_eq p z).
  - apply rbind_Ok in Hn as (x & Hx & Hn). apply rbind_Ok in Hn as (y & Hy & Hn).
    apply rbind_Ok in Hn as (r & Hm & Hn). exists x, y, r. split_and!; try done.
    by destruct (is_zero r).
Qed.

(** Overrides that touch no default.  Overriding fields of a finished
    configuration on which no statement of its class depends (such as
    [max_batch_size]) changes exactly those fields: [None] and unknown fields are
    ignored, and nothing is derived anew. *)
Theorem override_changes_only cls source c ovs :
  In cls settling_classes -> from_dict cls source = Ok c -> resolved cls c = true ->
  (forall k v, In (k, v) ovs -> is_null v = false -> unread cls k) ->
  override_apply ovs cls c = Ok (mkObj (fold_left override_one ovs (o_attrs c)) []).
Proof. intros Hc%settling_spec. by apply override_unread. Qed.

(** Every built-in model configuration loads.  Each entry of [MODEL_PRESETS]
    names a registered model type and, without a connection to the hub, is
    accepted by its configuration class, with no default left open in the
    classes that settle. *)
Theorem presets_configure name d : In (name, d) MODEL_PRESETS ->
  exists t m c, dict_get d "model_type" = Some (JStr t) /\
    dict_get (@MODELS offline) t = Some m /\ from_dict (config m) d = Ok c /\
    (class_settles (config m) = true -> resolved (config m) c = true).
Proof.
  intros H. pose proof all_presets_fine as Hall. rewrite forallb_forall in Hall.
  specialize (Hall _ H). cbn [snd] in Hall. unfold preset_fine, load_preset in Hall.
  destruct (dict_get d "model_type") as [[]|] eqn:Et; try done.
  unfold dict_getitem in Hall. destruct (dict_get MODELS s) as [m|] eqn:Em; [|done].
  cbn [opt_res rbind] in Hall. destruct (from_dict (config m) d) as [c|] eqn:Ec; [|done].
  cbn [rbind] in Hall. exists s, m, c. split_and!; try done.
  intros E. by rewrite E in Hall.
Qed.

(** Cohere's configuration does not check overrides.  The whole
    [__post_init__] is indented under the test for an unset rotary base, so
    overriding the context window of a finished configuration leaves the prefill
    chunk as it was, however small the new window is. *)
Theorem cohere_override_unchecked source c w :
  from_dict CohereConfig source = Ok c -> resolved CohereConfig c = true -> w <> JNull ->
  exists c', override_apply [("context_window_size", w)] CohereConfig c = Ok c' /\
    attr c' "context_window_size" = Ok w /\
    attr c' "prefill_chunk_size" = attr c "prefill_chunk_size".
Proof.
  intros H Hr Hw. assert (In CohereConfig settling_classes) as Hc by (unfold settling_classes; simpl; tauto).
  pose proof (settling_spec _ Hc) as Hs. eexists. split.
  - apply (override_unread _ _ _ _ H Hr). intros k v [[= <- <-]|[]] _ s Hin.
    destruct Hin as [<-|[]]. by intros [|[]].
  - apply from_dict_Ok in H as (given & kw & H). apply (construct_Ok CohereConfig) in H as (Hn & _).
    assert (In "context_window_size" (attr_names c)) as Hi by (rewrite Hn; simpl; tauto).
    apply dict_get_In in Hi as [v0 Hv0]. unfold attr. cbn [o_attrs fold_left override_one].
    unfold dict_has. rewrite Hv0. destruct w; [done|..]; cbn [is_null];
      by rewrite !dict_get_set.
Qed.

(** Gemma 2 replaces its context window by the sliding window after the
    prefill chunk was bounded by the former: the built-in 9B configuration gets
    a prefill chunk of 8192 over a window of 4096, and rebuilding it from its
    own [asdict] gives another configuration. *)
Theorem gemma2_prefill_above_window :
  exists c c', from_dict Gemma2Config preset_gemma2_9b = Ok c /\
    attr c "context_window_size" = Ok (JInt 4096) /\ attr c "prefill_chunk_size" = Ok (JInt 8192) /\
    from_dict Gemma2Config (asdict Gemma2Config c) = Ok c' /\
    attr c' "context_window_size" = Ok (JInt 4096) /\ attr c' "prefill_chunk_size" = Ok (JInt 4096).
Proof.
  exists (built Gemma2Config preset_gemma2_9b),
    (built Gemma2Config (asdict Gemma2Config (built Gemma2Config preset_gemma2_9b))).
  split_and!; by vm_compute.
Qed.

(** ** Witnesses *)

Module ConfigWitness.
Definition llama := built LlamaConfig preset_llama3_1_8b.
Definition aya := built CohereConfig preset_aya_23.

Lemma llama_settles : In LlamaConfig settling_classes.
Proof. unfold settling_classes. simpl. tauto. Qed.

Example roundtrip_witness :
  from_dict LlamaConfig (asdict LlamaConfig llama) = Ok (plain llama) /\
  attr llama "position_embedding_base" = Ok (JFloat (f64_of_Z 500000)).
Proof.
  split; [|by vm_compute].
  apply (from_dict_asdict_roundtrip LlamaConfig preset_llama3_1_8b llama llama_settles);
    by vm_compute.
Defined.

Example prefill_witness :
  exists p w, attr llama "prefill_chunk_size" = Ok p /\ attr llama "context_window_size" = Ok w /\
    py_gt p w = Ok false /\ (is_zero p = true -> is_zero w = true).
Proof.
  apply (prefill_within_context LlamaConfig preset_llama3_1_8b llama);
    [unfold bounding_classes; simpl; tauto|by vm_compute].
Defined.

Example heads_witness :
  In (assert_divides "num_attention_heads" "num_key_value_heads") (post_init LlamaConfig) /\
  exists x y r, attr llama "num_attention_heads" = Ok x /\ attr llama "num_key_value_heads" = Ok y /\
    py_mod x y = Ok r /\ is_zero r = true.
Proof.
  assert (In (assert_divides "num_attention_heads" "num_key_value_heads") (post_init LlamaConfig)) as H
    by (unfold LlamaConfig, LlamaConfig_post_init; simpl; tauto).
  split; [exact H|].
  refine (proj2 (heads_consistent LlamaConfig preset_llama3_1_8b llama "num_attention_heads"
    "num_key_value_heads" "" llama_settles _ _) H); by vm_compute.
Defined.

Definition overrides : dict json :=
  [("max_batch_size", JInt 8); ("prefill_chunk_size", JNull); ("attention_sink_size", JInt 4)].

Lemma overrides_unread k v : In (k, v) overrides -> is_null v = false -> unread LlamaConfig k.
Proof.
  intros [[= <- <-]|[[= <- <-]|[[= <- <-]|[]]]] Hv s Hs; [|done|];
    unfold LlamaConfig, LlamaConfig_post_init in Hs; simpl in Hs;
    repeat (destruct Hs as [<-|Hs]; [simpl; intuition discriminate|]); destruct Hs.
Qed.

Example override_witness :
  override_apply overrides LlamaConfig llama
  = Ok (mkObj (dict_set (o_attrs llama) "max_batch_size" (JInt 8)) []).
Proof.
  apply (override_changes_only LlamaConfig preset_llama3_1_8b llama overrides llama_settles);
    [by vm_compute|by vm_compute|exact overrides_unread].
Defined.

Example presets_witness :
  exists t m c, dict_get preset_gpt2 "model_type" = Some (JStr t) /\
    dict_get (@MODELS offline) t = Some m /\ from_dict (config m) preset_gpt2 = Ok c /\
    (class_settles (config m) = true -> resolved (config m) c = true).
Proof. apply (presets_configure "gpt2"). unfold MODEL_PRESETS. simpl. tauto. Defined.

(** A window of 1024 under the prefill chunk of 8192. *)
Example cohere_witness :
  exists c', override_apply [("context_window_size", JInt 1024)] CohereConfig aya = Ok c' /\
    attr c' "context_window_size" = Ok (JInt 1024) /\
    attr c' "prefill_chunk_size" = Ok (JInt 8192).
Proof. by apply (cohere_override_unchecked preset_aya_23 aya (JInt 1024)); vm_compute. Defined.
End ConfigWitness.
