(* ===== verification/PyArgs.v ===== *)
(** * [int(s)] and [argparse]

    The part of Python's standard library with which the program reads options
    written as text: decimal integers, and [argparse.ArgumentParser] with long
    options of one argument each, as [support/argparse.py] specialises it
    ([interface/compiler_flags.py], [serve/config.py]).  Every failure of
    [parse_args], [--help] included, leaves with [SystemExit].  Strings are
    ASCII; Python's limit of 4300 digits is not modelled. *)

From Stdlib Require Import Ascii.
From stdpp Require Import base list strings pretty.
From S2P Require Import Prelude PyStr.
Local Open Scope string_scope.
Local Open Scope list_scope.
Local Open Scope Z_scope.

(** ** [int(s)] *)

Definition digit_value (c : ascii) : option Z :=
  let n := Z.of_nat (nat_of_ascii c) in
  if (48 <=? n) && (n <=? 57) then Some (n - 48) else None.

Definition is_digit (c : ascii) : bool := negb (is_none (digit_value c)).

(** The digits behind a first one: an underscore may stand between two digits. *)
Fixpoint more_digits (acc : Z) (s : string) : option Z :=
  match s with
  | EmptyString => Some acc
  | String c s =>
      match digit_value c with
      | Some d => more_digits (10 * acc + d) s
      | None =>
          if Ascii.eqb c "_" then
            match s with
            | String c' s' =>
                match digit_value c' with
                | Some d => more_digits (10 * acc + d) s'
                | None => None
                end
            | EmptyString => None
            end
          else None
      end
  end.

Definition digits (s : string) : option Z :=
  match s with
  | String c s' => match digit_value c with Some d => more_digits d s' | None => None end
  | EmptyString => None
  end.

Definition not_an_integer : exn := ValueError [Lit "invalid literal for int() with base 10"].

Definition int_of_str (s : string) : res Z :=
  opt_res
    (match strip_by is_str_space s with
     | EmptyString => None
     | String c s' =>
         if Ascii.eqb c "-" then option_map Z.opp (digits s')
         else if Ascii.eqb c "+" then digits s'
         else digits (String c s')
     end) not_an_integer.

(** ** [parse_args] *)

Definition SystemExit : exn := OtherError "SystemExit".

(** What [argparse] takes an argument string for: an option with its explicit
    argument, if any, an unknown option, or a positional argument. *)
Inductive arg_item : Set :=
| IOption (name : string) (value : option string)
| IUnknown
| IPositional (s : string).

(** [_parse_optional], for an argument that starts with two dashes: an exact
    option name, [name=value], or an unambiguous prefix of a name. *)
Definition parse_optional (names : list string) (arg : string) : res arg_item :=
  if str_mem arg names then Ok (IOption arg None)
  else
    let '(name, value) := str_partition "=" arg in
    if str_mem name names then Ok (IOption name value)
    else
      match List.filter (startswith name) names with
      | [full] => Ok (IOption full value)
      | _ :: _ => Raise SystemExit
      | [] => if str_contains " " arg then Ok (IPositional arg) else Ok IUnknown
      end.

Section Parser.
Context {St : Type}.

(** The options of the parser, and what it does with the argument of one: the
    conversion [type], [choices], and the assignment to the namespace. *)
Variable names : list string.
Variable store : string -> string -> St -> res St.

(** An exception of a conversion, too, is reported and ends the program. *)
Definition take_action (name value : string) (st : St) : res St :=
  match store name value st with
  | Ok st => Ok st
  | Raise _ => Raise SystemExit
  end.

Fixpoint consume (items : list arg_item) (st : St) : res St :=
  match items with
  | [] => Ok st
  | IOption name value :: items =>
      if String.eqb name "--help" then Raise SystemExit
      else
        match value with
        | Some v => let? st := take_action name v st in consume items st
        | None =>
            match items with
            | IPositional v :: items => let? st := take_action name v st in consume items st
            | _ => Raise SystemExit
            end
        end
  | _ :: _ => Raise SystemExit
  end.

Definition parse_args (defaults : St) (args : list string) : res St :=
  let? items := rmap (parse_optional ("--help" :: names)) args in
  consume items defaults.

(** ** Lemmas: options given with their values *)

Lemma parse_optional_eq n v :
  In n names -> all_chars (not_char "=") n = true ->
  parse_optional ("--help" :: names) (n +:+ "=" +:+ v) = Ok (IOption n (Some v)) \/
  In (n +:+ "=" +:+ v) ("--help" :: names).
Proof.
  intros Hn Hc. unfold parse_optional.
  destruct (str_mem (n +:+ "=" +:+ v) ("--help" :: names)) eqn:E; [right; by apply str_mem_In|].
  left. change ("=" +:+ v) with (String "=" v). rewrite (str_partition_app "=" n v Hc).
  assert (str_mem n ("--help" :: names) = true) as -> by (apply str_mem_In; by right). done.
Qed.

(** No option has an equals sign in its name, nor is it the help option. *)
Definition plain_names : bool :=
  forallb (fun n => all_chars (not_char "=") n && negb (String.eqb n "--help")) names.

Lemma plain_not_eq n v : plain_names = true -> ~ In (n +:+ "=" +:+ v) ("--help" :: names).
Proof.
  intros Hp Hin.
  assert (all_chars (not_char "=") (n +:+ "=" +:+ v) = true) as Hc.
  { destruct Hin as [<-|Hin]; [done|]. unfold plain_names in Hp. rewrite forallb_forall in Hp.
    by apply Hp, andb_true_iff in Hin as [? _]. }
  rewrite all_chars_app in Hc. by apply andb_true_iff in Hc as [_ Hc].
Qed.

(** Options written [name=value] are stored one after the other. *)
Lemma parse_args_values defaults l :
  plain_names = true -> Forall (fun nv => In (fst nv) names) l ->
  parse_args defaults (map (fun nv => fst nv +:+ "=" +:+ snd nv) l)
  = fold_left (fun r nv => let? st := r in take_action (fst nv) (snd nv) st) l (Ok defaults).
Proof.
  intros Hp Hl. unfold parse_args.
  assert (forall n, In n names -> all_chars (not_char "=") n = true /\ String.eqb n "--help" = false) as Hn.
  { intros n H. unfold plain_names in Hp. rewrite forallb_forall in Hp.
    apply Hp, andb_true_iff in H as [? ?%negb_true_iff]. done. }
  assert (rmap (parse_optional ("--help" :: names)) (map (fun nv => fst nv +:+ "=" +:+ snd nv) l)
          = Ok (map (fun nv => IOption (fst nv) (Some (snd nv))) l)) as ->.
  { induction Hl as [|[n v] l H Hl IH]; [done|]. cbn [map rmap fst snd].
    destruct (parse_optional_eq n v H (proj1 (Hn _ H))) as [->|Hin]; [|by eapply plain_not_eq in Hin].
    cbn [rbind]. by rewrite IH. }
  cbn [rbind]. revert defaults. induction Hl as [|[n v] l H Hl IH]; intros st; [done|].
  cbn [map consume fold_left fst snd] in *. rewrite (proj2 (Hn _ H)). cbn [rbind].
  destruct (take_action n v st) as [st'|e] eqn:E; cbn [rbind]; [apply IH|].
  clear. induction l; [done|]. simpl. done.
Qed.
End Parser.

(** ** Lemmas: [int(str(z)) == z] *)

Lemma digit_value_pretty n : (n < 10)%N -> digit_value (pretty_N_char n) = Some (Z.of_N n).
Proof.
  intros H. enough (forall k, (k < 10)%nat -> digit_value (pretty_N_char (N.of_nat k))
    = Some (Z.of_N (N.of_nat k))) as Hk.
  { rewrite <- (N2Nat.id n). apply Hk. lia. }
  clear n H. intros k H. by do 10 (destruct k as [|k]; [reflexivity|]); lia.
Qed.

Lemma pretty_N_go_ind (P : N -> string -> string -> Prop) :
  (forall s, P 0%N s s) ->
  (forall x s r, (0 < x)%N -> P (x `div` 10)%N (String (pretty_N_char (x `mod` 10)) s) r -> P x s r) ->
  forall x s, P x s (pretty_N_go x s).
Proof.
  intros H0 HS x. induction (N.lt_wf_0 x) as [x _ IH]. intros s.
  destruct (decide (x = 0)%N) as [->|Hx]; [by rewrite pretty_N_go_0|].
  rewrite pretty_N_go_step by lia. apply HS; [lia|]. apply IH. apply N.div_lt; lia.
Qed.

(** Reading on behind the digits of [x]. *)
Lemma more_digits_pretty x s :
  more_digits 0 (pretty_N_go x s) = more_digits (Z.of_N x) s.
Proof.
  apply (pretty_N_go_ind (fun x s r => more_digits 0 r = more_digits (Z.of_N x) s)); [done|].
  clear. intros x s r Hx ->. cbn [more_digits].
  rewrite digit_value_pretty by (apply N.mod_lt; lia). f_equal.
  rewrite N2Z.inj_div, N2Z.inj_mod. pose proof (Z.div_mod (Z.of_N x) 10). lia.
Qed.

Lemma pretty_digits x s :
  all_chars is_digit s = true -> all_chars is_digit (pretty_N_go x s) = true.
Proof.
  apply (pretty_N_go_ind (fun _ s r => all_chars is_digit s = true -> all_chars is_digit r = true));
    [done|].
  clear. intros x s r Hx IH Hs. apply IH. cbn [all_chars]. unfold is_digit.
  by rewrite digit_value_pretty by (apply N.mod_lt; lia).
Qed.

Lemma pretty_nonempty x s : (0 < x)%N \/ s <> EmptyString -> pretty_N_go x s <> EmptyString.
Proof.
  apply (pretty_N_go_ind (fun x s r => (0 < x)%N \/ s <> EmptyString -> r <> EmptyString)); clear.
  - intros s [H|H]; [lia|done].
  - intros x s r Hx IH _. apply IH. by right.
Qed.

Lemma pretty_N_spec (x : N) :
  digits (pretty x) = Some (Z.of_N x) /\ all_chars is_digit (pretty x) = true /\ pretty x <> EmptyString.
Proof.
  unfold pretty, pretty_N. destruct (decide (x = 0)%N) as [->|Hx]; [done|].
  assert (all_chars is_digit (pretty_N_go x "") = true) as Hd by by apply pretty_digits.
  assert (pretty_N_go x "" <> EmptyString) as Hne by (apply pretty_nonempty; left; lia).
  split_and!; try done. pose proof (more_digits_pretty x "") as H.
  destruct (pretty_N_go x "") as [|c r]; [done|]. cbn [digits more_digits all_chars] in *.
  apply andb_true_iff in Hd as [Hd _]. unfold is_digit in Hd.
  destruct (digit_value c); [|done]. by rewrite Z.mul_0_r, Z.add_0_l in H.
Qed.

(** The characters of [str(z)]. *)
Definition is_numeral (c : ascii) : bool := is_digit c || Ascii.eqb c "-".

Lemma numeral_chars (p : ascii -> bool) :
  forallb p ["0"; "1"; "2"; "3"; "4"; "5"; "6"; "7"; "8"; "9"; "-"]%char = true ->
  forall c, is_numeral c = true -> p c = true.
Proof.
  intros Hp c Hc. rewrite forallb_forall in Hp. apply Hp. revert Hc. clear. unfold is_numeral, is_digit.
  destruct c as [[] [] [] [] [] [] [] []]; vm_compute; intros; (discriminate || tauto).
Qed.

Lemma pretty_Z_numeral (z : Z) : all_chars is_numeral (pretty z) = true.
Proof.
  assert (forall x : N, all_chars is_numeral (pretty x) = true) as H.
  { intros x. apply all_chars_impl with is_digit; [|apply pretty_N_spec].
    intros c Hc. unfold is_numeral. by rewrite Hc. }
  destruct z as [|x|x]; [done|apply (H (N.pos x))|]. apply (H (N.pos x)).
Qed.

Lemma pretty_Z_chars (p : ascii -> bool) z :
  forallb p ["0"; "1"; "2"; "3"; "4"; "5"; "6"; "7"; "8"; "9"; "-"]%char = true ->
  all_chars p (pretty (z : Z)) = true.
Proof.
  intros H. apply all_chars_impl with is_numeral; [|apply pretty_Z_numeral].
  by apply numeral_chars.
Qed.

Lemma int_of_pretty (z : Z) : int_of_str (pretty z) = Ok z.
Proof.
  unfold int_of_str. rewrite strip_by_id by by apply pretty_Z_chars.
  destruct z as [|x|x]; [done| |].
  - change (pretty (Z.pos x)) with (pretty (N.pos x)).
    destruct (pretty_N_spec (N.pos x)) as (Hd & Hc & Hne).
    destruct (pretty (N.pos x)) as [|c s]; [done|]. cbn [all_chars] in Hc.
    apply andb_true_iff in Hc as [Hc _].
    destruct (Ascii.eqb_spec c "-") as [->|_]; [done|].
    destruct (Ascii.eqb_spec c "+") as [->|_]; [done|]. by rewrite Hd.
  - change (pretty (Z.neg x)) with ("-" +:+ pretty (N.pos x)).
    cbn. by rewrite (proj1 (pretty_N_spec (N.pos x))).
Qed.

Example int_ex1 : int_of_str " -1_024 " = Ok (-1024).
Proof. by vm_compute. Qed.
Example int_ex2 : map int_of_str ["1__0"; "_1"; "1_"; "+ 1"; ""; "0x1"] = repeat (Raise not_an_integer) 6.
Proof. by vm_compute. Qed.
