(* ===== verification/CompilerFlags.v ===== *)
(** * Compiler flags and overrides ([interface/compiler_flags.py])

    The optimization flags and the overrides of a model configuration, as they
    travel through the [--opt] and [--overrides] options of the compiler:
    printed by [__repr__] (or by the just-in-time compiler) and parsed by
    [from_str].  [OPT_FLAG_PRESET] holds four mutable objects that [from_str]
    hands out without copying them and that [update] changes in place, so the
    flags are objects of a heap.  A TVM target is what the code reads of it, the
    name of its kind and its architecture; [MLC_MULTI_ARCH] is an argument. *)

From Stdlib Require Import Ascii Btauto.
From stdpp Require Import base list strings pretty.
From S2P Require Import Prelude PyStr.
From S2P Require Import PyNum PyArgs ModelConfig.
Local Open Scope string_scope.
Local Open Scope list_scope.
Local Open Scope Z_scope.

(** ** [OptimizationFlags] *)

Inductive IPCAllReduceStrategyType : Set := NONE | ONESHOT | TWOSHOT | AUTO.

#[export] Instance strategy_eq_dec : EqDecision IPCAllReduceStrategyType.
Proof. solve_decision. Defined.

Definition strategy_name (s : IPCAllReduceStrategyType) : string :=
  match s with NONE => "NONE" | ONESHOT => "ONESHOT" | TWOSHOT => "TWOSHOT" | AUTO => "AUTO" end.

Definition strategies : dict IPCAllReduceStrategyType :=
  map (fun s => (strategy_name s, s)) [NONE; ONESHOT; TWOSHOT; AUTO].

Record OptimizationFlags : Set := mkFlags {
  flashinfer : bool;
  cublas_gemm : bool;
  faster_transformer : bool;
  cudagraph : bool;
  cutlass : bool;
  ipc_allreduce_strategy : IPCAllReduceStrategyType;
}.

(** [name=value] *)
Definition assignment (nv : string * string) : string := fst nv +:+ "=" +:+ snd nv.

(** [int(b)], printed *)
Definition flag (b : bool) : string := if b then "1" else "0".

Definition flag_items (f : OptimizationFlags) : list (string * string) :=
  [("flashinfer", flag (flashinfer f)); ("cublas_gemm", flag (cublas_gemm f));
   ("faster_transformer", flag (faster_transformer f)); ("cudagraph", flag (cudagraph f));
   ("cutlass", flag (cutlass f));
   ("ipc_allreduce_strategy", strategy_name (ipc_allreduce_strategy f))].

(** [__repr__] *)
Definition flags_repr (f : OptimizationFlags) : string :=
  str_join ";" (map assignment (flag_items f)).

(** [boolean] of [from_str] *)
Definition boolean (value : string) : res bool :=
  if String.eqb value "0" then Ok false
  else if String.eqb value "1" then Ok true
  else Raise (ValueError [Lit "Invalid boolean value: "; FStr value]).

Definition flag_names : list string :=
  ["--flashinfer"; "--cublas_gemm"; "--faster_transformer"; "--cudagraph"; "--cutlass";
   "--ipc_allreduce_strategy"].

(** The options of the parser: what each does with its argument. *)
Definition store_flag (name value : string) (f : OptimizationFlags) : res OptimizationFlags :=
  let '(mkFlags fi cg ft gr cu ipc) := f in
  if String.eqb name "--flashinfer" then
    let? b := boolean value in Ok (mkFlags b cg ft gr cu ipc)
  else if String.eqb name "--cublas_gemm" then
    let? b := boolean value in Ok (mkFlags fi b ft gr cu ipc)
  else if String.eqb name "--faster_transformer" then
    let? b := boolean value in Ok (mkFlags fi cg b gr cu ipc)
  else if String.eqb name "--cudagraph" then
    let? b := boolean value in Ok (mkFlags fi cg ft b cu ipc)
  else if String.eqb name "--cutlass" then
    let? b := boolean value in Ok (mkFlags fi cg ft gr b ipc)
  else let? s := dict_getitem strategies value in Ok (mkFlags fi cg ft gr cu s).

Definition default_flags : OptimizationFlags := mkFlags true false false false false NONE.

(** [[f"--{i}" for i in source.split(";") if i]] *)
Definition option_args (source : string) : list string :=
  map (String.append "--")
    (List.filter (fun i => negb (String.eqb i "")) (str_split ";" source)).

(** [parser.parse_args] and the constructor *)
Definition parse_flags (source : string) : res OptimizationFlags :=
  parse_args flag_names store_flag default_flags (option_args source).

(** The flag objects; [OPT_FLAG_PRESET] refers to the first four. *)
Abbreviation heap := (list OptimizationFlags).

Definition OPT_FLAG_PRESET : dict nat := [("O0", 0%nat); ("O1", 1%nat); ("O2", 2%nat); ("O3", 3%nat)].

Definition initial_heap : heap :=
  [ mkFlags false false false false false NONE;
    mkFlags false true true false true NONE;
    mkFlags true true false true true NONE;
    mkFlags true true true true true AUTO ].

(** [from_str]: the object of a preset, or a new one. *)
Definition flags_from_str (source : string) : M heap nat := fun h =>
  match dict_get OPT_FLAG_PRESET source with
  | Some l => (Ok l, h)
  | None =>
      match parse_flags source with
      | Ok f => (Ok (length h), h ++ [f])
      | Raise e => (Raise e, h)
      end
  end.

(** ** [update] *)

(** [tvm.target.Target], as far as it is read *)
Record Target : Set := mkTarget { kind_name : string; arch : string }.

Section Update.
(** The environment variable [MLC_MULTI_ARCH] *)
Variable MLC_MULTI_ARCH : option string.

(** ["".join(filter(str.isdigit, s))] *)
Fixpoint filter_digits (s : string) : string :=
  match s with
  | EmptyString => EmptyString
  | String c s => if is_digit c then String c (filter_digits s) else filter_digits s
  end.

Definition convert_to_num (arch_str : string) : res Z :=
  let arch_num_str := filter_digits arch_str in
  let? _ := py_assert (negb (String.eqb arch_num_str "")) in
  int_of_str arch_num_str.

(** [detect_cuda_arch_list] of [support/auto_target.py]; the order of
    [list(set(...))] is not observed. *)
Definition detect_cuda_arch_list (target : Target) : res (list Z) :=
  let? _ := py_assert (String.eqb (kind_name target) "cuda") in
  match MLC_MULTI_ARCH with
  | Some m => let? l := rmap convert_to_num (str_split "," m) in Ok (remove_dups l)
  | None =>
      let? _ := py_assert (startswith "sm_" (arch target)) in
      let? n := convert_to_num (str_drop 3 (arch target)) in Ok [n]
  end.

Definition is_cuda (target : Target) : bool := String.eqb (kind_name target) "cuda".

Definition _flashinfer (f : OptimizationFlags) (target : Target) : res bool :=
  if negb (flashinfer f) then Ok false
  else if negb (is_cuda target) then Ok false
  else
    let? arch_list := detect_cuda_arch_list target in
    Ok (negb (existsb (fun arch => arch <? 80) arch_list)).

Definition unquantized (quantization : string) : bool :=
  str_mem quantization ["q0f16"; "q0bf16"; "q0f32"]
  || str_contains "e4m3" quantization || str_contains "e5m2" quantization.

Definition _cublas_gemm (f : OptimizationFlags) (target : Target) (quantization : string) : bool :=
  if negb (str_mem (kind_name target) ["cuda"; "rocm"]) then false
  else if negb (unquantized quantization) then false
  else cublas_gemm f.

Definition _faster_transformer (f : OptimizationFlags) (target : Target) : bool :=
  if negb (is_cuda target) then false else faster_transformer f.
Definition _cutlass (f : OptimizationFlags) (target : Target) : bool :=
  if negb (is_cuda target) then false else cutlass f.
Definition _cudagraph (f : OptimizationFlags) (target : Target) : bool :=
  if negb (is_cuda target) then false else cudagraph f.

(** The flags an [update] leaves; no flag depends on an earlier assignment. *)
Definition updated_flags (f : OptimizationFlags) (target : Target) (quantization : string)
    : res OptimizationFlags :=
  let? fi := _flashinfer f target in
  Ok (mkFlags fi (_cublas_gemm f target quantization) (_faster_transformer f target)
        (_cudagraph f target) (_cutlass f target) (ipc_allreduce_strategy f)).

(** [update] on the object at [self] *)
Definition flags_update (self : nat) (target : Target) (quantization : string) : M heap unit :=
  fun h =>
    match h !! self with
    | None => (Raise AttributeError, h)
    | Some f =>
        match updated_flags f target quantization with
        | Ok f => (Ok tt, <[self := f]> h)
        | Raise e => (Raise e, h)
        end
    end.

(** [--opt] of the compiler: [from_str], then [CompileArgs.__post_init__]. *)
Definition compile_flags (opt : string) (target : Target) (quantization : string) : M heap nat :=
  let! self := flags_from_str opt in
  flags_update self target quantization ;! mret' self.
End Update.

(** ** [ModelConfigOverride] *)

Record ModelConfigOverride : Set := mkOverride {
  context_window_size : option Z;
  sliding_window_size : option Z;
  prefill_chunk_size : option Z;
  attention_sink_size : option Z;
  max_batch_size : option Z;
  tensor_parallel_shards : option Z;
  pipeline_parallel_stages : option Z;
  disaggregation : option bool;
}.

Definition no_override : ModelConfigOverride := mkOverride None None None None None None None None.

(** [dataclasses.fields], with the values *)
Definition override_fields (o : ModelConfigOverride) : list (string * option Z) :=
  [("context_window_size", context_window_size o); ("sliding_window_size", sliding_window_size o);
   ("prefill_chunk_size", prefill_chunk_size o); ("attention_sink_size", attention_sink_size o);
   ("max_batch_size", max_batch_size o); ("tensor_parallel_shards", tensor_parallel_shards o);
   ("pipeline_parallel_stages", pipeline_parallel_stages o)].

Definition field_json {A} (inj : A -> json) (v : option A) : json :=
  match v with Some v => inj v | None => JNull end.

Definition override_dict (o : ModelConfigOverride) : dict json :=
  map (fun kv => (fst kv, field_json JInt (snd kv))) (override_fields o)
  ++ [("disaggregation", field_json JBool (disaggregation o))].

(** [apply] *)
Definition override_config (o : ModelConfigOverride) : ConfigClass -> obj -> res obj :=
  override_apply (override_dict o).

(** [str(v)] *)
Definition str_opt_int (v : option Z) : string :=
  match v with Some z => pretty z | None => "None" end.
Definition str_opt_bool (v : option bool) : string :=
  match v with Some true => "True" | Some false => "False" | None => "None" end.

Definition override_items (o : ModelConfigOverride) : list (string * string) :=
  map (fun kv => (fst kv, str_opt_int (snd kv))) (override_fields o)
  ++ [("disaggregation", str_opt_bool (disaggregation o))].

(** [__repr__] *)
Definition override_repr (o : ModelConfigOverride) : string :=
  str_join ";" (map assignment (override_items o)).

Definition override_names : list string :=
  ["--context_window_size"; "--sliding_window_size"; "--prefill_chunk_size";
   "--attention_sink_size"; "--max_batch_size"; "--tensor_parallel_shards";
   "--pipeline_parallel_stages"; "--disaggregation"].

(** [type=lambda x: str(x).lower() in ["true", "1", "yes", "True"]] *)
Definition yes (x : string) : bool := str_mem (str_lower x) ["true"; "1"; "yes"; "True"].

Definition store_override (name value : string) (o : ModelConfigOverride) : res ModelConfigOverride :=
  let '(mkOverride cw sw pc sink mb tp pp dis) := o in
  if String.eqb name "--disaggregation" then
    Ok (mkOverride cw sw pc sink mb tp pp (Some (yes value)))
  else
    let? z := int_of_str value in
    let v := Some z in
    Ok (if String.eqb name "--context_window_size" then mkOverride v sw pc sink mb tp pp dis
        else if String.eqb name "--sliding_window_size" then mkOverride cw v pc sink mb tp pp dis
        else if String.eqb name "--prefill_chunk_size" then mkOverride cw sw v sink mb tp pp dis
        else if String.eqb name "--attention_sink_size" then mkOverride cw sw pc v mb tp pp dis
        else if String.eqb name "--max_batch_size" then mkOverride cw sw pc sink v tp pp dis
        else if String.eqb name "--tensor_parallel_shards" then mkOverride cw sw pc sink mb v pp dis
        else mkOverride cw sw pc sink mb tp v dis).

(** [from_str] *)
Definition override_from_str (source : string) : res ModelConfigOverride :=
  parse_args override_names store_override no_override (option_args source).

(** ** Lemmas: the options of a joined text *)

(** Items without a semicolon, none of them empty. *)
Lemma option_args_join (l : list (string * string)) :
  Forall (fun nv => all_chars (not_char ";") (assignment nv) = true) l ->
  option_args (str_join ";" (map assignment l))
  = map (fun nv => ("--" +:+ fst nv) +:+ "=" +:+ snd nv) l.
Proof.
  intros H. unfold option_args. destruct (decide (l = [])) as [->|Hne]; [done|].
  change ";" with (String ";" ""). rewrite str_split_join.
  - rewrite filter_all.
    + rewrite map_map. apply map_ext. intros [n v]. done.
    + intros x ([n v] & <- & _)%in_map_iff. unfold assignment.
      destruct (String.eqb_spec (fst (n, v) +:+ "=" +:+ snd (n, v)) "") as [E|]; [|done].
      by apply app_empty_inv in E as [_ E].
  - by destruct l.
  - clear Hne. induction H; constructor; done.
Qed.

(** Parsing [name=value;...]: the values are stored one after the other. *)
Lemma parse_joined {St} (names : list string) (store : string -> string -> St -> res St) defaults l :
  plain_names names = true ->
  Forall (fun nv => In ("--" +:+ fst nv) names) l ->
  Forall (fun nv => all_chars (not_char ";") (assignment nv) = true) l ->
  parse_args names store defaults (option_args (str_join ";" (map assignment l)))
  = fold_left (fun r nv => let? st := r in take_action store ("--" +:+ fst nv) (snd nv) st) l (Ok defaults).
Proof.
  intros Hp Hn Hc. rewrite option_args_join by done.
  change (map (fun nv => ("--" +:+ fst nv) +:+ "=" +:+ snd nv) l)
    with (map (fun nv => (fun mv => fst mv +:+ "=" +:+ snd mv) ("--" +:+ fst nv, snd nv)) l).
  rewrite <- (map_map (fun nv => ("--" +:+ fst nv, snd nv)) (fun mv => fst mv +:+ "=" +:+ snd mv)).
  rewrite parse_args_values; [|done|by rewrite List.Forall_map].
  rewrite fold_left_map. done.
Qed.

(** ** Lemmas: single values *)

Lemma parse_flags_repr f : parse_flags (flags_repr f) = Ok f.
Proof. by destruct f as [[] [] [] [] [] []]; vm_compute. Qed.

Lemma repr_not_preset f : dict_get OPT_FLAG_PRESET (flags_repr f) = None.
Proof. done. Qed.

Lemma int_of_opt v :
  int_of_str (str_opt_int v) = match v with Some z => Ok z | None => Raise not_an_integer end.
Proof. destruct v as [z|]; [apply int_of_pretty|by vm_compute]. Qed.

Lemma yes_opt v : yes (str_opt_bool v) = opt_default false v.
Proof. by destruct v as [[]|]; vm_compute. Qed.

Lemma str_opt_int_chars v : all_chars (not_char ";") (str_opt_int v) = true.
Proof. destruct v as [z|]; [by apply pretty_Z_chars|done]. Qed.

Lemma override_items_chars o :
  Forall (fun nv => all_chars (not_char ";") (assignment nv) = true) (override_items o).
Proof.
  unfold override_items. apply Forall_app. split; [|constructor; [|done]].
  - apply List.Forall_map. unfold override_fields.
    repeat (constructor; [unfold assignment; cbn [fst snd]; rewrite !all_chars_app, str_opt_int_chars; done|]).
    constructor.
  - by destruct (disaggregation o) as [[]|].
Qed.

Lemma override_items_names o :
  Forall (fun nv => In ("--" +:+ fst nv) override_names) (override_items o).
Proof.
  assert (forallb (fun nv => str_mem ("--" +:+ fst nv) override_names) (override_items o) = true)
    as H by done.
  apply List.Forall_forall. intros nv Hin. rewrite forallb_forall in H. by apply str_mem_In, H.
Qed.

Lemma guard_and a c : (if negb a then false else c) = c && a.
Proof. by destruct a, c. Qed.

Lemma not_below_80 archs :
  negb (existsb (fun a => a <? 80) archs) = forallb (fun a => 80 <=? a) archs.
Proof. induction archs as [|a l IH]; [done|]. cbn. rewrite negb_orb, IH. f_equal. lia. Qed.

(** ** Specifications *)

(** What a target and a quantization scheme support, flag by flag. *)
Definition supported (t : Target) (q : string) (archs : list Z) : OptimizationFlags :=
  mkFlags (is_cuda t && forallb (fun a => 80 <=? a) archs)
    (str_mem (kind_name t) ["cuda"; "rocm"] && unquantized q) (is_cuda t) (is_cuda t) (is_cuda t) NONE.

Definition flags_and (f g : OptimizationFlags) : OptimizationFlags :=
  mkFlags (flashinfer f && flashinfer g) (cublas_gemm f && cublas_gemm g)
    (faster_transformer f && faster_transformer g) (cudagraph f && cudagraph g)
    (cutlass f && cutlass g) (ipc_allreduce_strategy f).

(** The architectures are looked up only for FlashInfer on CUDA. *)
Definition archs_of (m : option string) (f : OptimizationFlags) (t : Target) : res (list Z) :=
  if flashinfer f && is_cuda t then detect_cuda_arch_list m t else Ok [].

Lemma updated_flags_spec m f t q :
  updated_flags m f t q = let? archs := archs_of m f t in Ok (flags_and f (supported t q archs)).
Proof.
  unfold updated_flags, _flashinfer, archs_of, flags_and, supported, _cublas_gemm,
    _faster_transformer, _cutlass, _cudagraph. rewrite !guard_and.
  destruct (flashinfer f); cbn; [destruct (is_cuda t); cbn|].
  1: destruct (detect_cuda_arch_list m t); cbn; [rewrite not_below_80|done].
  all: rewrite <- !andb_assoc, (andb_comm (unquantized q)); done.
Qed.

Lemma flags_and_again f t q l1 l2 :
  l1 = l2 \/ flashinfer (flags_and f (supported t q l1)) = false ->
  flags_and (flags_and f (supported t q l1)) (supported t q l2) = flags_and f (supported t q l1).
Proof.
  intros H. unfold flags_and at 1 3, supported at 2 3. cbn. f_equal; try btauto.
  destruct H as [->|H]; [btauto|]. cbn in H. by rewrite H.
Qed.

Lemma updated_flags_again m f t q f' : updated_flags m f t q = Ok f' -> updated_flags m f' t q = Ok f'.
Proof.
  rewrite !updated_flags_spec. intros (archs & Ha & [= <-])%rbind_Ok. unfold archs_of in *.
  destruct (flashinfer (flags_and f (supported t q archs))) eqn:E; cbn [andb].
  - assert (flashinfer f = true /\ is_cuda t = true) as [Ef Ec].
    { cbn in E. by destruct (flashinfer f), (is_cuda t). }
    rewrite Ef, Ec in Ha. cbn in Ha. rewrite Ec, Ha. cbn [rbind]. f_equal. apply flags_and_again. by left.
  - cbn. f_equal. apply flags_and_again. by right.
Qed.

(** ** Theorems *)

(** Every field of the override that is an integer has a value. *)
Definition all_set (o : ModelConfigOverride) : bool :=
  forallb (fun kv => negb (is_none (snd kv))) (override_fields o).

Definition set_disaggregation (o : ModelConfigOverride) (b : bool) : ModelConfigOverride :=
  mkOverride (context_window_size o) (sliding_window_size o) (prefill_chunk_size o)
    (attention_sink_size o) (max_batch_size o) (tensor_parallel_shards o)
    (pipeline_parallel_stages o) (Some b).

(** The optimization flags survive being printed and parsed.  [from_str] of
    the [repr] of any flags makes a new object with exactly these flags and
    leaves the other objects, the presets among them, alone. *)
Theorem flags_roundtrip f h :
  flags_from_str (flags_repr f) h = (Ok (length h), h ++ [f]).
Proof. unfold flags_from_str. by rewrite repr_not_preset, parse_flags_repr. Qed.

(** The printed overrides parse back only when they are complete.  [repr]
    prints an unset integer as [None], which [from_str] refuses; with all
    integers set it gives the same override, an unset [disaggregation] apart,
    which comes back as [False] and so overrides the configuration. *)
Theorem override_roundtrip o :
  override_from_str (override_repr o)
  = if all_set o then Ok (set_disaggregation o (opt_default false (disaggregation o)))
    else Raise SystemExit.
Proof.
  unfold override_from_str, override_repr.
  rewrite parse_joined; [|done|apply override_items_names|apply override_items_chars].
  destruct o as [cw sw pc sink mb tp pp dis]. unfold override_items, all_set. cbn -[str_opt_int str_opt_bool].
  repeat match goal with
  | |- context [str_opt_int ?v] =>
      unfold take_action at 1; cbn -[int_of_str str_opt_int str_opt_bool yes take_action];
      rewrite int_of_opt; destruct v; cbn -[int_of_str str_opt_int str_opt_bool yes take_action]; [|done]
  end.
  unfold take_action. cbn -[str_opt_bool yes]. by rewrite yes_opt.
Qed.

(** [update] keeps exactly the flags that the target and the quantization
    scheme support.  It replaces the object by the conjunction of its flags with
    the supported ones (FlashInfer needs compute capability 8.0 on every
    architecture), and fails, changing nothing, exactly when the architectures
    cannot be determined; the strategy and all other objects are untouched, and
    a second [update] changes nothing. *)
Theorem update_spec m self f t q h :
  h !! self = Some f ->
  flags_update m self t q h
  = match archs_of m f t with
    | Ok archs => (Ok tt, <[self := flags_and f (supported t q archs)]> h)
    | Raise e => (Raise e, h)
    end /\
  (forall h', flags_update m self t q h = (Ok tt, h') -> flags_update m self t q h' = (Ok tt, h')).
Proof.
  intros Hf. assert (forall h' f', h' !! self = Some f' -> flags_update m self t q h'
    = match updated_flags m f' t q with Ok f => (Ok tt, <[self := f]> h') | Raise e => (Raise e, h') end)
    as Hrun by (intros h' f' E; unfold flags_update; by rewrite E).
  rewrite (Hrun _ _ Hf). split.
  - rewrite updated_flags_spec. by destruct (archs_of m f t).
  - intros h'. destruct (updated_flags m f t q) as [f'|] eqn:Eu; [|done]. intros [= <-].
    rewrite (Hrun _ f') by (apply list_lookup_insert_eq; by eapply lookup_lt_Some).
    rewrite (updated_flags_again _ _ _ _ _ Eu). cbn. by rewrite list_insert_insert_eq.
Qed.

(** The presets are shared.  Compiling with [--opt] naming a preset updates
    the preset itself: whoever asks for it afterwards gets the updated object,
    and after a compilation for a target other than CUDA all its CUDA flags are
    off for good. *)
Theorem preset_is_shared m opt l f t q h h' :
  dict_get OPT_FLAG_PRESET opt = Some l -> h !! l = Some f ->
  compile_flags m opt t q h = (Ok l, h') ->
  exists f', flags_from_str opt h' = (Ok l, h') /\ h' !! l = Some f' /\
    updated_flags m f t q = Ok f' /\
    (is_cuda t = false ->
       forall t' q' h'', compile_flags m opt t' q' h' = (Ok l, h'') ->
         exists f'', h'' !! l = Some f'' /\ flashinfer f'' = false /\ cudagraph f'' = false /\
           cutlass f'' = false /\ faster_transformer f'' = false).
Proof.
  intros Ho Hf. assert (forall t q h1 f1 h2, h1 !! l = Some f1 -> compile_flags m opt t q h1 = (Ok l, h2) ->
    exists archs, updated_flags m f1 t q = Ok (flags_and f1 (supported t q archs)) /\
      h2 = <[l := flags_and f1 (supported t q archs)]> h1) as Hrun.
  { clear - Ho. intros t q h1 f1 h2 Hf. unfold compile_flags, mbind', flags_from_str. rewrite Ho.
    unfold flags_update. rewrite Hf. rewrite updated_flags_spec.
    destruct (archs_of m f1 t) as [archs|]; [|done]. cbn. intros [= <-]. by exists archs. }
  assert (forall (h : heap) f f', h !! l = Some f -> <[l := f']> h !! l = Some f') as Hget.
  { intros h0 f0 f' H. apply list_lookup_insert_eq. by eapply lookup_lt_Some. }
  intros (archs & Hu & ->)%(Hrun _ _ _ f); [|done]. eexists. split_and!; [|by eapply Hget|done|].
  - unfold flags_from_str. by rewrite Ho.
  - intros Hc t' q' h'' (archs' & _ & ->)%(Hrun _ _ _ (flags_and f (supported t q archs))); [|by eapply Hget].
    eexists. split; [by eapply Hget; eapply Hget|]. unfold flags_and, supported. cbn.
    rewrite Hc. cbn. by rewrite !andb_false_r.
Qed.

(** ** Witnesses *)

Module FlagsWitness.
Definition a100 : Target := mkTarget "cuda" "sm_80".
Definition metal : Target := mkTarget "metal" "".

Example update_witness :
  flags_update (Some "70,80") 2 a100 "q4f16_1" initial_heap
  = (Ok tt, <[2%nat := mkFlags false false false true true NONE]> initial_heap).
Proof.
  refine (eq_trans (proj1 (update_spec (Some "70,80") 2 (mkFlags true true false true true NONE)
    a100 "q4f16_1" initial_heap _)) _); by vm_compute.
Defined.

(** "O2" for Metal leaves "O2" for an A100 without its CUDA flags. *)
Example preset_witness :
  exists f', flags_from_str "O2" (snd (compile_flags None "O2" metal "q4f16_1" initial_heap))
    = (Ok 2%nat, snd (compile_flags None "O2" metal "q4f16_1" initial_heap)) /\
    (snd (compile_flags None "O2" metal "q4f16_1" initial_heap)) !! 2%nat = Some f' /\
    cudagraph f' = false.
Proof.
  destruct (preset_is_shared None "O2" 2 (mkFlags true true false true true NONE) metal "q4f16_1"
    initial_heap (snd (compile_flags None "O2" metal "q4f16_1" initial_heap))) as (f' & H1 & H2 & H3 & _);
    [by vm_compute..|]. exists f'. split; [exact H1|]. split; [exact H2|].
  vm_compute in H3. by injection H3 as <-.
Defined.
End FlagsWitness.
