(* ===== verification/Jit.v ===== *)
(** * Just-in-time compilation of model libraries ([interface/jit.py])

    [jit] computes a key from the model configuration, the overrides, the
    optimization flags and the device, looks its digest up among the compiled
    libraries, and otherwise runs the compiler in a subprocess and keeps the
    library it leaves.  [MLC_JIT_POLICY] decides what is allowed.

    The state is what [jit] changes: the caller's dictionary of overrides (the
    key [opt] is popped from it), the compiled libraries by path, the commands
    run so far and the flag objects of [CompilerFlags].  The environment, the
    configuration file, the digest ([md5] of [json.dumps] with sorted keys) and
    the compiler are the class [JitEnv]; the directory [tempfile] makes is an
    argument of [jit]. *)

From Stdlib Require Import Ascii.
From stdpp Require Import base list strings pretty countable.
From S2P Require Import Prelude PyStr.
From S2P Require Import PyNum PyArgs ModelConfig ModelPresets ModelConfigs CompilerFlags.
Local Open Scope string_scope.
Local Open Scope list_scope.
Local Open Scope Z_scope.

(** ** The environment *)

Class JitEnv := {
  MLC_JIT_POLICY : string;
  MLC_DSO_SUFFIX : string;
  MLC_LLM_HOME : string;
  sys_executable : string;
  (** [json.load] of a file *)
  load_json : string -> res json;
  (** [hashlib.md5(json.dumps(key, sort_keys=True, indent=2).encode()).hexdigest()] *)
  digest : json -> string;
  (** the library a command leaves at its [--output], if it leaves one *)
  compile : list string -> option string;
  (** [str()] of floats, lists and dictionaries *)
  str_other : json -> string;
  jit_config :: AutoConfig;
}.

(** What [jit] relies on: a hexadecimal digest has no dot, and keys of equal
    digest agree on their fields that are strings (no collisions). *)
Class DigestLaws `{JitEnv} : Prop := {
  digest_no_dot j : all_chars (not_char ".") (digest j) = true;
  digest_field a b k s : digest (JObj a) = digest (JObj b) ->
    dict_get a k = Some (JStr s) -> dict_get b k = Some (JStr s);
}.

(** [tvm.runtime.Device], by the name and number of the device, or a string *)
Inductive DeviceArg : Set := Device (kind : string) (device_id : Z) | DeviceName (s : string).

Definition device2str (device : DeviceArg) : string :=
  match device with
  | Device kind device_id => kind +:+ ":" +:+ pretty device_id
  | DeviceName s => s
  end.

(** [device in ["iphone", "android"]] *)
Definition is_phone (device : DeviceArg) : bool :=
  match device with Device _ _ => false | DeviceName s => str_mem s ["iphone"; "android"] end.

Record JITResult : Set := mkResult {
  model_lib_path : string;
  system_lib_prefix : option string;
}.

Record World : Type := mkWorld {
  overrides : dict json;
  libs : dict string;
  runs : list (list string);
  flags : heap;
}.

Definition RuntimeError (m : string) : exn := OtherError ("RuntimeError: " +:+ m).

Section Jit.
Context `{JE : JitEnv}.

(** [str(v)] *)
Definition py_str (v : json) : string :=
  match v with
  | JNull => "None"
  | JBool b => if b then "True" else "False"
  | JInt z => pretty z
  | JStr s => s
  | _ => str_other v
  end.

Definition override_field_names : list string := map fst (override_dict no_override).

(** ** The parts of the key *)

(** [_get_optimization_flags] *)
Definition opt_text (opt : option json) : res string :=
  match opt with
  | None | Some JNull => Ok "O2"
  | Some (JStr s) => Ok s
  | Some (JArr _ | JObj _) => Raise TypeError
  | Some _ => Raise AttributeError
  end.

Definition pop_opt : M World (option json) := fun w =>
  match dict_get (overrides w) "opt" with
  | Some v => (Ok (Some v), mkWorld (dict_del (overrides w) "opt") (libs w) (runs w) (flags w))
  | None => (Ok None, w)
  end.

Definition repr_from_str (source : string) : M World string := fun w =>
  match flags_from_str source (flags w) with
  | (Ok self, h) =>
      (let? f := opt_res (h !! self) AttributeError in Ok (flags_repr f),
       mkWorld (overrides w) (libs w) (runs w) h)
  | (Raise e, h) => (Raise e, mkWorld (overrides w) (libs w) (runs w) h)
  end.

Definition _get_optimization_flags : M World string :=
  let! opt := pop_opt in
  let! source := mlift (opt_text opt) in
  repr_from_str source.

(** [_get_overrides] *)
Definition forbid_list : list string :=
  ["context_window_size"; "sliding_window_size"; "attention_sink_size"].

Definition override_item (overrides : dict json) (name : string) : list (string * string) :=
  match dict_get overrides name with
  | None | Some JNull => []
  | Some value =>
      if str_mem name forbid_list && py_eq value (JInt (-1)) then []
      else [(name, py_str value)]
  end.

Definition _get_overrides (overrides : dict json) : string :=
  str_join ";" (map assignment (flat_map (override_item overrides) override_field_names)).

(** [_get_model_config], of the configuration without [model_type] and
    [quantization] *)
Definition set_override (overrides : dict json) (model_config : dict json) (name : string) : dict json :=
  match dict_get overrides name with
  | None | Some JNull => model_config
  | Some value => dict_set model_config name value
  end.

Definition get_model (model_type : json) : res Model :=
  match model_type with
  | JStr t => dict_getitem MODELS t
  | JArr _ | JObj _ => Raise TypeError
  | _ => Raise (KeyError "")
  end.

Definition _get_model_config (mlc_chat_config : dict json) (overrides : dict json)
    (model_type : json) : res (dict json) :=
  let? model_config := dict_getitem mlc_chat_config "model_config" in
  match model_config with
  | JObj d =>
      let d := dict_update d (dict_del mlc_chat_config "model_config") in
      let d := fold_left (set_override overrides) override_field_names d in
      let? m := get_model model_type in
      let? c := from_dict (config m) d in
      Ok (asdict (config m) c)
  | _ => Raise AttributeError
  end.

(** ** Compilation *)

Definition compile_cmd (model_path opt overrides device dso_path : string)
    (system_lib_prefix : option string) : list string :=
  [sys_executable; "-m"; "mlc_llm"; "compile"; model_path; "--opt"; opt; "--overrides"; overrides;
   "--device"; device; "--output"; dso_path]
  ++ match system_lib_prefix with
     | Some p => if String.eqb p "" then [] else ["--system-lib-prefix"; p +:+ "_"]
     | None => []
     end.

(** [_run_jit] *)
Definition _run_jit (cmd : list string) (dst : string) : M World unit := fun w =>
  let w := mkWorld (overrides w) (libs w) (runs w ++ [cmd]) (flags w) in
  match compile cmd with
  | None => (Raise (RuntimeError "Cannot find compilation output, compilation failed"), w)
  | Some lib => (Ok tt, mkWorld (overrides w) (dict_set (libs w) dst lib) (runs w) (flags w))
  end.

Definition lib_path (hash_key : json) (lib_suffix : string) : string :=
  MLC_LLM_HOME +:+ "/model_lib/" +:+ digest hash_key +:+ "." +:+ lib_suffix.

(** [system_lib_prefix] and [hash_key], completed for phones *)
Definition complete_key (device : DeviceArg) (model_type quantization : json)
    (system_lib_prefix : option string) (hash_key : dict json) : option string * dict json :=
  if is_phone device then
    let p := match system_lib_prefix with
             | Some p => p
             | None => str_replace "-" "_"
                         (py_str model_type +:+ "_" +:+ py_str quantization +:+ "_"
                          +:+ digest (JObj hash_key))
             end in
    (Some p, dict_set hash_key "system_lib_prefix" (JStr p))
  else (system_lib_prefix, hash_key).

(** What [jit] computes before it looks for the library: the options of the
    command, the completed prefix and the path. *)
Record Plan : Type := mkPlan {
  plan_opt : string;
  plan_overrides : string;
  plan_prefix : option string;
  plan_dst : string;
}.

Definition hash_key_of (model_config : dict json) (opt overrides device : string)
    (model_type quantization : json) : dict json :=
  [("model_config", JObj model_config); ("overrides", JStr overrides); ("opt", JStr opt);
   ("device", JStr device); ("model_type", model_type); ("quantization", quantization)].

Definition pop_key (d : dict json) (k : string) : res (json * dict json) :=
  let? v := dict_getitem d k in Ok (v, dict_del d k).

(** The configuration file: [model_type], [quantization], and the rest. *)
Definition read_config (model_path : string) : res (json * json * dict json) :=
  let? loaded := load_json (model_path +:+ "/mlc-chat-config.json") in
  let? cfg := (match loaded with
               | JObj d => Ok d
               | JArr _ => Raise TypeError
               | _ => Raise AttributeError
               end) in
  let? (model_type, cfg) := pop_key cfg "model_type" in
  let? (quantization, cfg) := pop_key cfg "quantization" in
  Ok (model_type, quantization, cfg).

Definition lib_suffix (device : DeviceArg) : string :=
  if is_phone device then "tar" else MLC_DSO_SUFFIX.

Definition plan (model_path : string) (device : DeviceArg) (system_lib_prefix : option string)
    : M World Plan :=
  let! (model_type, quantization, cfg) := mlift (read_config model_path) in
  let! w := mget in
  let! model_config := mlift (_get_model_config cfg (overrides w) model_type) in
  let ovs := _get_overrides (overrides w) in
  let! opt := _get_optimization_flags in
  let key := complete_key device model_type quantization system_lib_prefix
               (hash_key_of model_config opt ovs (device2str device) model_type quantization) in
  mret' (mkPlan opt ovs (fst key) (lib_path (JObj (snd key)) (lib_suffix device))).

Definition policy_is (l : list string) : bool := str_mem MLC_JIT_POLICY l.

Definition jit (tmp_dir model_path : string) (device : DeviceArg)
    (system_lib_prefix : option string) : M World JITResult :=
  if policy_is ["OFF"] then mraise (RuntimeError "JIT is disabled by MLC_JIT_POLICY=OFF")
  else
    let! p := plan model_path device system_lib_prefix in
    let! w := mget in
    if dict_has (libs w) (plan_dst p) && policy_is ["ON"; "READONLY"] then
      mret' (mkResult (plan_dst p) (plan_prefix p))
    else if policy_is ["READONLY"] then
      mraise (RuntimeError "No cached model lib found, and JIT is disabled by MLC_JIT_POLICY=READONLY")
    else
      let cmd := compile_cmd model_path (plan_opt p) (plan_overrides p) (device2str device)
                   (tmp_dir +:+ "/lib." +:+ lib_suffix device) (plan_prefix p) in
      _run_jit cmd (plan_dst p) ;!
      mret' (mkResult (plan_dst p) (plan_prefix p)).
End Jit.

(** ** Specifications *)

Section Specs.
Context `{JE : JitEnv}.

(** The flags an option text stands for. *)
Definition flags_of (source : string) (h : heap) : res OptimizationFlags :=
  match flags_from_str source h with
  | (Ok self, h) => opt_res (h !! self) AttributeError
  | (Raise e, _) => Raise e
  end.

Definition requested_flags (w : World) : res OptimizationFlags :=
  let? source := opt_text (dict_get (overrides w) "opt") in flags_of source (flags w).

(** The key's fields that are strings. *)
Definition key_fields (key : dict json) (opt ovs device : string) : Prop :=
  dict_get key "opt" = Some (JStr opt) /\ dict_get key "overrides" = Some (JStr ovs) /\
  dict_get key "device" = Some (JStr device).

(** [lib] came out of a compilation with these options. *)
Definition compiled_with (opt ovs device : string) (lib : string) : Prop :=
  exists model_path dso_path prefix,
    compile (compile_cmd model_path opt ovs device dso_path prefix) = Some lib.

(** Every library is stored under the digest of a key, and was compiled with
    the options in that key. *)
Definition cache_sound (w : World) : Prop :=
  forall dst lib, dict_get (libs w) dst = Some lib ->
    exists key suffix opt ovs device, dst = lib_path (JObj key) suffix /\
      key_fields key opt ovs device /\ compiled_with opt ovs device lib.

(** The overrides a dictionary asks for: integers, but not [-1] for a window. *)
Definition requested_int (d : dict json) (name : string) : option Z :=
  match dict_get d name with
  | Some (JInt z) => if str_mem name forbid_list && (z =? -1) then None else Some z
  | _ => None
  end.

Definition requested (d : dict json) : ModelConfigOverride :=
  let f := requested_int d in
  mkOverride (f "context_window_size") (f "sliding_window_size") (f "prefill_chunk_size")
    (f "attention_sink_size") (f "max_batch_size") (f "tensor_parallel_shards")
    (f "pipeline_parallel_stages")
    (match dict_get d "disaggregation" with Some (JBool b) => Some b | _ => None end).

(** Integers and a boolean, or nothing. *)
Definition overrides_typed (d : dict json) : bool :=
  forallb (fun name => match dict_get d name with
                       | None | Some JNull => true
                       | Some (JInt _) => negb (String.eqb name "disaggregation")
                       | Some (JBool _) => String.eqb name "disaggregation"
                       | _ => false
                       end) override_field_names.

(** ** Lemmas: what [jit] computes first *)

Lemma flags_from_str_app source h r h' :
  flags_from_str source h = (r, h') -> exists l, h' = h ++ l.
Proof.
  unfold flags_from_str. destruct (dict_get _ source); [intros [= _ <-]; exists []; by rewrite app_nil_r|].
  destruct (parse_flags source); intros [= _ <-]; [by eexists|exists []; by rewrite app_nil_r].
Qed.

Lemma get_flags_spec w r w' : _get_optimization_flags w = (r, w') ->
  libs w' = libs w /\ runs w' = runs w /\ (exists l, flags w' = flags w ++ l) /\
  r = let? f := requested_flags w in Ok (flags_repr f).
Proof.
  unfold _get_optimization_flags, requested_flags, mbind', pop_opt, mlift.
  assert (forall w1, libs w1 = libs w -> runs w1 = runs w -> flags w1 = flags w ->
    forall source, repr_from_str source w1 = (r, w') ->
    libs w' = libs w /\ runs w' = runs w /\ (exists l, flags w' = flags w ++ l) /\
    r = let? f := flags_of source (flags w) in Ok (flags_repr f)) as Hrepr.
  { intros w1 Hl Hr Hf source. unfold repr_from_str, flags_of. rewrite Hf.
    destruct (flags_from_str source (flags w)) as [[self|e] h] eqn:E; intros [= <- <-]; cbn;
      apply flags_from_str_app in E as [l ->]; split_and!; try done; by exists l. }
  destruct (dict_get (overrides w) "opt") as [v|]; cbn -[repr_from_str].
  - destruct (match v with JNull => _ | _ => _ end) as [s|e] eqn:E; cbn -[repr_from_str].
    + apply Hrepr; by destruct w.
    + intros [= <- <-]. cbn. split_and!; try done. exists []. by rewrite app_nil_r.
  - by apply Hrepr.
Qed.

Lemma complete_key_fields device mt q pre mc opt ovs dev :
  key_fields (snd (complete_key device mt q pre (hash_key_of mc opt ovs dev mt q))) opt ovs dev.
Proof. unfold complete_key. by destruct (is_phone device). Qed.

Lemma plan_spec mp device pre w r w' : plan mp device pre w = (r, w') ->
  libs w' = libs w /\ runs w' = runs w /\ (exists l, flags w' = flags w ++ l) /\
  (forall p, r = Ok p -> exists f key suffix,
     requested_flags w = Ok f /\ plan_opt p = flags_repr f /\
     plan_overrides p = _get_overrides (overrides w) /\
     plan_dst p = lib_path (JObj key) suffix /\
     key_fields key (plan_opt p) (plan_overrides p) (device2str device)).
Proof.
  assert (libs w = libs w /\ runs w = runs w /\ (exists l, flags w = flags w ++ l)) as Hid.
  { split_and!; try done. exists []. by rewrite app_nil_r. }
  unfold plan.
  intros [([[mt q] cfg] & _ & H)|(e & _ & -> & ->)]%mbind_lift_inv; [|naive_solver].
  rewrite (mbind_Ok _ _ _ w w) in H by done.
  apply mbind_lift_inv in H as [(mc & _ & H)|(e & _ & -> & ->)]; [|naive_solver].
  apply mbind_inv in H as [(opt & w1 & H1 & H)|(e & H1 & ->)];
    apply get_flags_spec in H1 as (Hl & Hr & Hf & Hopt); [|naive_solver].
  injection H as <- <-. split_and!; try done. intros p [= <-]. cbn.
  symmetry in Hopt. apply rbind_Ok in Hopt as (f & Hq & [= <-]).
  eexists f, _, _. split_and!; try done. apply complete_key_fields.
Qed.

Lemma lib_path_inj {DL : DigestLaws} k1 s1 k2 s2 :
  lib_path (JObj k1) s1 = lib_path (JObj k2) s2 -> digest (JObj k1) = digest (JObj k2).
Proof.
  unfold lib_path. intros H. do 2 apply (inj (String.append _)) in H.
  pose proof (str_partition_app "." (digest (JObj k1)) s1 (digest_no_dot _)) as H1.
  pose proof (str_partition_app "." (digest (JObj k2)) s2 (digest_no_dot _)) as H2.
  cbn in H. rewrite H in H1. rewrite H1 in H2. by injection H2.
Qed.

Lemma key_fields_digest {DL : DigestLaws} k1 k2 o1 v1 d1 o2 v2 d2 :
  digest (JObj k1) = digest (JObj k2) -> key_fields k1 o1 v1 d1 -> key_fields k2 o2 v2 d2 ->
  o1 = o2 /\ v1 = v2 /\ d1 = d2.
Proof.
  intros E (Ho & Hv & Hd) (Ho2 & Hv2 & Hd2).
  pose proof (digest_field _ _ _ _ E Ho). pose proof (digest_field _ _ _ _ E Hv).
  pose proof (digest_field _ _ _ _ E Hd). naive_solver.
Qed.

Lemma dict_has_get {V} (d : dict V) k : dict_has d k = true -> exists v, dict_get d k = Some v.
Proof. unfold dict_has. destruct (dict_get d k); [eauto|done]. Qed.

(** The object of a text does not depend on the objects allocated behind the presets. *)
Lemma requested_flags_app w w' l :
  (4 <= length (flags w))%nat -> overrides w' = overrides w -> flags w' = flags w ++ l ->
  requested_flags w' = requested_flags w.
Proof.
  unfold requested_flags. intros Hlen -> ->. destruct (opt_text _) as [source|]; [|done]. cbn [rbind].
  unfold flags_of, flags_from_str. destruct (dict_get OPT_FLAG_PRESET source) as [i|] eqn:E.
  - rewrite lookup_app_l; [done|]. apply dict_get_pair in E.
    assert (i < 4)%nat; [|lia]. simpl in E. naive_solver lia.
  - destruct (parse_flags source) as [f'|]; [|done]. by rewrite !list_lookup_middle.
Qed.

(** The plan of a call does not depend on the libraries and the commands run. *)
Lemma plan_again mp device pre w p w1 w' l :
  plan mp device pre w = (Ok p, w1) -> (4 <= length (flags w))%nat ->
  overrides w' = overrides w -> flags w' = flags w ++ l ->
  exists w2, plan mp device pre w' = (Ok p, w2).
Proof.
  unfold plan. intros H Hlen Ho Hf.
  apply mbind_lift_inv in H as [([[mt q] cfg] & Hc & H)|(? & _ & ? & _)]; [|done].
  rewrite (mbind_lift _ _ _ _ Hc). rewrite (mbind_Ok _ _ _ w w) in H by done.
  rewrite (mbind_Ok _ _ _ w' w') by done. rewrite Ho.
  apply mbind_lift_inv in H as [(mc & Hm & H)|(? & _ & ? & _)]; [|done].
  rewrite (mbind_lift _ _ _ _ Hm).
  apply mbind_inv in H as [(opt & w2 & H1 & H)|(? & _ & ?)]; [|done]. injection H as <- _.
  apply get_flags_spec in H1 as (_ & _ & _ & H1). symmetry in H1. apply rbind_Ok in H1 as (f & Hq & [= <-]).
  destruct (_get_optimization_flags w') as [r w3] eqn:E.
  pose proof (get_flags_spec _ _ _ E) as (_ & _ & _ & ->).
  rewrite (requested_flags_app w w' l), Hq in E by done. cbn [rbind] in E.
  rewrite (mbind_Ok _ _ _ _ _ E). by eexists.
Qed.

(** A call changes at most the library it returns. *)
Lemma jit_frame tmp_dir mp device pre w r w' : jit tmp_dir mp device pre w = (r, w') ->
  (exists l, flags w' = flags w ++ l) /\
  (forall dst, dict_get (libs w') dst = dict_get (libs w) dst \/
               exists v, r = Ok v /\ dst = model_lib_path v).
Proof.
  assert ((exists l, flags w = flags w ++ l)) as Hid by (exists []; by rewrite app_nil_r).
  unfold jit. destruct (policy_is ["OFF"]); [intros [= <- <-]; split; [done|by left]|].
  intros [(p & w1 & Hp & H)|(? & Hp & ->)]%mbind_inv; apply plan_spec in Hp as (Hl & _ & Hf & _);
    [|split; [done|left; by rewrite Hl]].
  rewrite (mbind_Ok _ _ _ w1 w1) in H by done. rewrite Hl in H.
  destruct (_ && _); [injection H as <- <-; split; [done|left; by rewrite Hl]|].
  destruct (policy_is _); [injection H as <- <-; split; [done|left; by rewrite Hl]|].
  unfold _run_jit, mbind' in H. destruct (compile _); injection H as <- <-; (split; [done|]); intros dst.
  - cbn. rewrite Hl, dict_get_set. destruct (String.eqb_spec dst (plan_dst p)); [|by left].
    right. by eexists.
  - left. cbn. by rewrite Hl.
Qed.

Lemma jit_keeps_sound {DL : DigestLaws} tmp_dir mp device pre w r w' :
  cache_sound w -> jit tmp_dir mp device pre w = (Ok r, w') ->
  cache_sound w' /\
  exists f lib, requested_flags w = Ok f /\ dict_get (libs w') (model_lib_path r) = Some lib /\
    compiled_with (flags_repr f) (_get_overrides (overrides w)) (device2str device) lib.
Proof.
  intros Hs. unfold jit. destruct (policy_is ["OFF"]); [done|].
  intros [(p & w1 & Hp & H)|(? & _ & ?)]%mbind_inv; [|done].
  apply plan_spec in Hp as (Hl & Hr & _ & Hp).
  destruct (Hp p eq_refl) as (f & key & suffix & Hf & Hopt & Hov & Hdst & Hk). clear Hp.
  rewrite (mbind_Ok _ _ _ w1 w1) in H by done.
  assert (cache_sound w1) as Hs1 by (unfold cache_sound; by rewrite Hl).
  destruct (dict_has (libs w1) (plan_dst p) && policy_is ["ON"; "READONLY"]) eqn:Ec.
  - injection H as <- <-. split; [done|]. apply andb_true_iff in Ec as [Eh _].
    apply dict_has_get in Eh as [lib Hlib]. exists f, lib. split_and!; [done..|].
    destruct (Hs1 _ _ Hlib) as (key' & suffix' & o & v & d & Hd & Hk' & Hc).
    rewrite Hdst in Hd. apply lib_path_inj in Hd.
    destruct (key_fields_digest _ _ _ _ _ _ _ _ Hd Hk Hk') as (<- & <- & <-).
    by rewrite Hopt, Hov in Hc.
  - destruct (policy_is ["READONLY"]); [done|].
    apply mbind_inv in H as [([] & w2 & H1 & H)|(? & _ & ?)]; [|done]. injection H as <- <-.
    unfold _run_jit in H1. destruct (compile _) as [lib|] eqn:Ecomp; [|done]. injection H1 as <-.
    assert (compiled_with (plan_opt p) (plan_overrides p) (device2str device) lib) as Hc by by repeat eexists.
    split.
    + intros dst lib'. cbn. rewrite dict_get_set. destruct (String.eqb_spec dst (plan_dst p)) as [->|].
      * intros [= <-]. by exists key, suffix, (plan_opt p), (plan_overrides p), (device2str device).
      * apply Hs1.
    + exists f, lib. cbn. rewrite dict_get_set, String.eqb_refl. split_and!; [done..|].
      by rewrite Hopt, Hov in Hc.
Qed.

(** C24: a library handed out was compiled with the options asked for.  Whatever
    libraries are kept, as long as each was compiled with the options of the
    key it is stored under: when [jit] returns a path, the library there was
    compiled with the flags, the overrides and the device of this call, be it
    now or earlier, and what is kept is sound again. *)
Theorem jit_sound {DL : DigestLaws} tmp_dir mp device pre w r w' :
  cache_sound w -> jit tmp_dir mp device pre w = (Ok r, w') ->
  cache_sound w' /\
  exists f lib, requested_flags w = Ok f /\ dict_get (libs w') (model_lib_path r) = Some lib /\
    compiled_with (flags_repr f) (_get_overrides (overrides w)) (device2str device) lib.
Proof. apply jit_keeps_sound. Qed.

(** What the policies allow.  [OFF] fails at once; [READONLY] never runs the
    compiler and keeps the libraries as they are; [REDO] (and any other value
    but [ON]) compiles on every call that returns; [ON] compiles exactly when
    the library is not there yet. *)
Theorem jit_policies tmp_dir mp device pre w r w' :
  jit tmp_dir mp device pre w = (r, w') ->
  (MLC_JIT_POLICY = "OFF" -> is_ok r = false /\ w' = w) /\
  (MLC_JIT_POLICY = "READONLY" -> libs w' = libs w /\ runs w' = runs w) /\
  (forall v, r = Ok v ->
     exists cmds, runs w' = runs w ++ cmds /\
       length cmds = (if dict_has (libs w) (model_lib_path v) && policy_is ["ON"; "READONLY"]
                      then 0 else 1)%nat).
Proof.
  unfold jit. destruct (policy_is ["OFF"]) eqn:Eo.
  { intros [= <- <-]. split_and!; [done|done|done]. }
  assert (MLC_JIT_POLICY <> "OFF") as Hoff by (intros E; unfold policy_is in Eo; by rewrite E in Eo).
  intros [(p & w1 & Hp & H)|(? & Hp & ->)]%mbind_inv; apply plan_spec in Hp as (Hl & Hr & _ & _);
    [|by rewrite Hl, Hr].
  rewrite (mbind_Ok _ _ _ w1 w1) in H by done. rewrite Hl in H.
  destruct (dict_has (libs w) (plan_dst p) && policy_is ["ON"; "READONLY"]) eqn:Ec.
  { injection H as <- <-. rewrite Hl, Hr. split_and!; try done. intros v [= <-]. exists [].
    cbn [model_lib_path]. by rewrite Ec, app_nil_r. }
  destruct (policy_is ["READONLY"]) eqn:Er; [injection H as <- <-; by rewrite Hl, Hr|].
  assert (MLC_JIT_POLICY <> "READONLY") as Hro by (intros E; unfold policy_is in Er; by rewrite E in Er).
  split_and!; [done|done|]. intros v ->.
  apply mbind_inv in H as [([] & w2 & H1 & H)|(? & _ & ?)]; [|done]. injection H as <- <-.
  unfold _run_jit in H1. destruct (compile _) as [lib|] eqn:Ecomp; [|done]. injection H1 as <-.
  eexists [_]. cbn [model_lib_path runs]. by rewrite Hr, Ec.
Qed.

(** A model is compiled once.  Under the policy [ON], repeating a call that
    returned, with the same overrides, returns the same path, runs no compiler
    and changes no library. *)
Theorem jit_compiles_once tmp1 tmp2 mp device pre w r w1 :
  MLC_JIT_POLICY = "ON" -> (4 <= length (flags w))%nat ->
  jit tmp1 mp device pre w = (Ok r, w1) ->
  exists w2, jit tmp2 mp device pre (mkWorld (overrides w) (libs w1) (runs w1) (flags w1)) = (Ok r, w2) /\
    libs w2 = libs w1 /\ runs w2 = runs w1.
Proof.
  intros Hp Hlen. unfold jit, policy_is. rewrite Hp. cbn [str_mem existsb].
  intros [(p & w0 & H0 & H)|(? & _ & ?)]%mbind_inv; [|done].
  pose proof (plan_spec _ _ _ _ _ _ H0) as (Hl & _ & (l & Hf) & _).
  rewrite (mbind_Ok _ _ _ w0 w0) in H by done.
  assert (flags w1 = flags w0 /\ r = mkResult (plan_dst p) (plan_prefix p) /\
          dict_has (libs w1) (plan_dst p) = true) as (Hf1 & -> & Hh).
  { destruct (dict_has (libs w0) (plan_dst p)) eqn:Eh; cbn in H; [by injection H as <- <-|].
    apply mbind_inv in H as [([] & w2 & H1 & H)|(? & _ & ?)]; [|done]. injection H as <- <-.
    unfold _run_jit in H1. destruct (compile _); [|done]. injection H1 as <-. cbn.
    by rewrite dict_has_set, String.eqb_refl. }
  set (w' := mkWorld _ _ _ _).
  destruct (plan_again _ _ _ _ _ _ w' l H0 Hlen) as [w2 H2]; [done|by unfold w'; cbn; rewrite Hf1|].
  pose proof (plan_spec _ _ _ _ _ _ H2) as (Hl2 & Hr2 & _ & _).
  exists w2. change (("ON" =? "OFF")%string || false) with false. cbn [policy_is].
  rewrite (mbind_Ok _ _ _ _ _ H2), (mbind_Ok _ _ _ w2 w2) by done.
  rewrite Hl2, Hr2. cbn [libs runs w']. by rewrite Hh.
Qed.

(** ** Lemmas: the overrides of a command *)

Definition store_item (r : res ModelConfigOverride) (nv : string * string) : res ModelConfigOverride :=
  let? st := r in take_action store_override ("--" +:+ fst nv) (snd nv) st.

Definition typed (d : dict json) (name : string) : bool :=
  match dict_get d name with
  | None | Some JNull => true
  | Some (JInt _) => negb (String.eqb name "disaggregation")
  | Some (JBool _) => String.eqb name "disaggregation"
  | _ => false
  end.

(** One integer field set, if there is a value. *)
Definition set_int (name : string) (v : option Z) (o : ModelConfigOverride) : ModelConfigOverride :=
  let f := fun n old => if String.eqb name n then match v with Some _ => v | None => old end else old in
  mkOverride (f "context_window_size" (context_window_size o))
    (f "sliding_window_size" (sliding_window_size o)) (f "prefill_chunk_size" (prefill_chunk_size o))
    (f "attention_sink_size" (attention_sink_size o)) (f "max_batch_size" (max_batch_size o))
    (f "tensor_parallel_shards" (tensor_parallel_shards o))
    (f "pipeline_parallel_stages" (pipeline_parallel_stages o)) (disaggregation o).

Lemma store_int name z o : In name (map fst (override_fields no_override)) ->
  take_action store_override ("--" +:+ name) (pretty z) o = Ok (set_int name (Some z) o).
Proof.
  intros Hin. unfold take_action. destruct o.
  repeat (destruct Hin as [<-|Hin]; [cbn -[int_of_str pretty]; by rewrite int_of_pretty|]). done.
Qed.

Lemma store_int_item d name o : typed d name = true -> In name (map fst (override_fields no_override)) ->
  fold_left store_item (override_item d name) (Ok o) = Ok (set_int name (requested_int d name) o).
Proof.
  unfold typed, override_item, requested_int. intros Ht Hn.
  assert (Ok o = Ok (set_int name None o)) as Hnone.
  { unfold set_int. destruct o. cbn -[String.eqb]. do 2 f_equal; by repeat case_match. }
  assert (String.eqb name "disaggregation" = false) as Hd.
  { by repeat (destruct Hn as [<-|Hn]; [done|]). }
  destruct (dict_get d name) as [[]|]; try done; [by rewrite Hd in Ht|].
  assert (py_eq (JInt z) (JInt (-1)) = (z =? -1)) as ->.
  { cbn. unfold prim_eq, num_eqb. cbn. unfold Z.eqb. by destruct z as [|[]|[]]. }
  destruct (str_mem name forbid_list && (z =? -1)); [done|]. by apply store_int.
Qed.

Lemma store_bool_item d o : typed d "disaggregation" = true -> disaggregation o = None ->
  fold_left store_item (override_item d "disaggregation") (Ok o)
  = Ok (mkOverride (context_window_size o) (sliding_window_size o) (prefill_chunk_size o)
          (attention_sink_size o) (max_batch_size o) (tensor_parallel_shards o)
          (pipeline_parallel_stages o)
          (match dict_get d "disaggregation" with Some (JBool b) => Some b | _ => None end)).
Proof.
  destruct o as [cw sw pc sink mb tp pp dis]. intros Ht [= ->]. revert Ht. unfold typed, override_item.
  destruct (dict_get d "disaggregation") as [[|[]| | | | |]|]; intros Ht; try discriminate Ht; by vm_compute.
Qed.

Lemma item_assignment d name nv : typed d name = true -> all_chars (not_char ";") name = true ->
  In nv (override_item d name) -> fst nv = name /\ all_chars (not_char ";") (assignment nv) = true.
Proof.
  unfold typed, override_item. intros Ht Hn Hin.
  destruct (dict_get d name) as [v|]; [|done].
  assert (all_chars (not_char ";") (py_str v) = true) as Hv.
  { destruct v; try done; [by destruct b|]. by apply pretty_Z_chars. }
  destruct v; try done; destruct (_ && _); try done; destruct Hin as [<-|[]]; split; try done;
    unfold assignment; cbn [fst snd]; by rewrite !all_chars_app, Hn, Hv.
Qed.

Lemma overrides_parse d : overrides_typed d = true ->
  override_from_str (_get_overrides d) = Ok (requested d).
Proof.
  intros Ht. change (forallb (typed d) override_field_names = true) in Ht.
  assert (forall name, In name override_field_names ->
            typed d name = true /\ all_chars (not_char ";") name = true /\
            In ("--" +:+ name) override_names) as Hn.
  { intros name Hin. rewrite forallb_forall in Ht. split; [by apply Ht|].
    assert (forallb (fun n => all_chars (not_char ";") n && str_mem ("--" +:+ n) override_names)
              override_field_names = true) as H by by vm_compute.
    rewrite forallb_forall in H. apply H, andb_true_iff in Hin as [? ?%str_mem_In]. done. }
  assert (forall nv, In nv (flat_map (override_item d) override_field_names) ->
            In ("--" +:+ fst nv) override_names /\ all_chars (not_char ";") (assignment nv) = true) as Hi.
  { intros nv (name & Hin & H)%in_flat_map. destruct (Hn _ Hin) as (H1 & H2 & H3).
    by destruct (item_assignment _ _ _ H1 H2 H) as [-> ?]. }
  unfold override_from_str, _get_overrides.
  rewrite parse_joined; [|done|apply List.Forall_forall; intros nv H; by apply Hi..].
  change (fold_left store_item (flat_map (override_item d) override_field_names) (Ok no_override) = Ok (requested d)).
  cbn [forallb override_field_names override_dict override_fields no_override map app fst] in Ht.
  repeat (apply andb_true_iff in Ht as [? Ht]).
  cbn [flat_map override_field_names override_dict override_fields no_override map app fst].
  rewrite !fold_left_app. unfold requested.
  do 7 (rewrite (store_int_item d); [|assumption|apply str_mem_In; reflexivity]).
  rewrite store_bool_item; [|assumption|reflexivity]. cbn [fold_left].
  generalize (dict_get d "disaggregation"). intros dis.
  repeat match goal with |- context [requested_int d ?n] => generalize (requested_int d n); intros ? end.
  clear. vm_compute. do 2 f_equal; by case_match.
Qed.
(** The compiler reads back what was asked for.  The command that [jit] runs
    carries the flags and the overrides as text; parsing its [--opt] gives an
    object with the requested flags, and parsing its [--overrides] gives exactly
    the overrides of the dictionary, [None] and a window of [-1] meaning none. *)
Theorem jit_command_parses tmp_dir mp device pre w r w' cmd :
  overrides_typed (overrides w) = true ->
  jit tmp_dir mp device pre w = (r, w') -> runs w' = runs w ++ [cmd] ->
  exists f opt ovs, requested_flags w = Ok f /\ cmd !! 6%nat = Some opt /\ cmd !! 8%nat = Some ovs /\
    (forall h, flags_from_str opt h = (Ok (length h), h ++ [f])) /\
    override_from_str ovs = Ok (requested (overrides w)).
Proof.
  intros Ht. unfold jit.
  assert (forall l, runs w <> l -> runs w = l -> False) as Habs by done.
  assert (runs w = runs w ++ [cmd] -> False) as Hno.
  { intros H. apply (f_equal length) in H. rewrite length_app in H. simpl in H. lia. }
  destruct (policy_is ["OFF"]); [by intros [= _ <-] ?%Hno|].
  intros [(p & w1 & Hp & H)|(? & Hp & ->)]%mbind_inv Hr;
    apply plan_spec in Hp as (_ & Hr1 & _ & Hp); [|rewrite Hr1 in Hr; by apply Hno in Hr].
  destruct (Hp p eq_refl) as (f & _ & _ & Hf & Hopt & Hov & _ & _). clear Hp.
  rewrite (mbind_Ok _ _ _ w1 w1) in H by done.
  destruct (dict_has (libs w1) (plan_dst p) && policy_is ["ON"; "READONLY"]);
    [injection H as _ <-; rewrite Hr1 in Hr; by apply Hno in Hr|].
  destruct (policy_is ["READONLY"]); [injection H as _ <-; rewrite Hr1 in Hr; by apply Hno in Hr|].
  assert (cmd = compile_cmd mp (plan_opt p) (plan_overrides p) (device2str device)
                  (tmp_dir +:+ "/lib." +:+ lib_suffix device) (plan_prefix p)) as ->.
  { unfold _run_jit, mbind' in H. destruct (compile _); injection H as _ <-; cbn in Hr;
      rewrite Hr1 in Hr; apply (inj (app _)) in Hr; by injection Hr. }
  exists f, (plan_opt p), (plan_overrides p). split_and!; try done.
  - intros h. rewrite Hopt. unfold flags_from_str. by rewrite repr_not_preset, parse_flags_repr.
  - rewrite Hov. by apply overrides_parse.
Qed.
End Specs.

(** ** Witnesses: an environment with a collision-free digest *)

Module JitWitness.
Definition strings_of (a : dict json) : list (string * option string) :=
  map (fun kv => (fst kv, match snd kv with JStr s => Some s | _ => None end)) a.

Fixpoint bits (p : positive) : string :=
  match p with
  | xH => ""
  | xO p => String "0" (bits p)
  | xI p => String "1" (bits p)
  end.

Lemma bits_inj p q : bits p = bits q -> p = q.
Proof.
  revert q. induction p as [p IH|p IH|]; intros [q|q|] H; try done; injection H as H;
    by rewrite (IH _ H).
Qed.

Lemma bits_chars p : all_chars (not_char ".") (bits p) = true.
Proof. by induction p. Qed.

Definition gpt2_config : json :=
  JObj [("model_type", JStr "gpt2"); ("quantization", JStr "q0f16");
        ("model_config", JObj preset_gpt2)].

#[local] Instance test_env : JitEnv := {
  MLC_JIT_POLICY := "ON"; MLC_DSO_SUFFIX := "so"; MLC_LLM_HOME := "~/.cache/mlc_llm";
  sys_executable := "python";
  load_json path := if str_mem path ["gpt2/mlc-chat-config.json"; "draft/mlc-chat-config.json"] then Ok gpt2_config else Raise OSError;
  digest j := match j with JObj a => bits (encode (strings_of a)) | _ => "" end;
  compile cmd := Some (str_join " " cmd);
  str_other _ := "";
  jit_config := offline;
}.

#[local] Instance test_laws : DigestLaws.
Proof.
  constructor.
  - intros []; try done. apply bits_chars.
  - intros a b k s H%bits_inj%(inj encode). revert b H.
    induction a as [|[k1 v1] a IH]; intros [|[k2 v2] b] H; try done.
    injection H as -> Hv H. simpl. destruct (String.eqb k k2).
    + intros [= ->]. destruct v2; naive_solver.
    + by apply IH.
Qed.

Definition asked : dict json :=
  [("context_window_size", JInt 512); ("sliding_window_size", JInt (-1)); ("max_batch_size", JNull);
   ("opt", JStr "O1")].

Definition start : World := mkWorld asked [] [] initial_heap.
Definition device : DeviceArg := Device "cuda" 0.
Definition first_call : res JITResult * World := jit "/tmp/a" "gpt2" device None start.
Definition result : JITResult :=
  match fst first_call with Ok r => r | Raise _ => mkResult "" None end.

Lemma first_call_ok : jit "/tmp/a" "gpt2" device None start = (Ok result, snd first_call).
Proof. by vm_compute. Qed.

Lemma start_sound : cache_sound start.
Proof. done. Qed.

Example jit_sound_witness : exists lib,
  dict_get (libs (snd first_call)) (model_lib_path result) = Some lib /\
  compiled_with (flags_repr (mkFlags false true true false true NONE)) "context_window_size=512" "cuda:0" lib.
Proof.
  destruct (jit_sound "/tmp/a" "gpt2" device None start result (snd first_call) start_sound first_call_ok)
    as (_ & f & lib & Hf & Hl & Hc).
  exists lib. split; [exact Hl|]. vm_compute in Hf. injection Hf as <-. exact Hc.
Defined.

Example jit_policies_witness : exists cmds,
  runs (snd first_call) = cmds /\ length cmds = 1%nat.
Proof.
  destruct (jit_policies "/tmp/a" "gpt2" device None start (Ok result) (snd first_call) first_call_ok)
    as (_ & _ & H). destruct (H _ eq_refl) as (cmds & H1 & H2). exists cmds. by split.
Defined.

Example jit_compiles_once_witness : exists w2,
  jit "/tmp/b" "gpt2" device None
    (mkWorld asked (libs (snd first_call)) (runs (snd first_call)) (flags (snd first_call))) = (Ok result, w2) /\
  length (runs w2) = 1%nat.
Proof.
  destruct (jit_compiles_once "/tmp/a" "/tmp/b" "gpt2" device None start result (snd first_call))
    as (w2 & H & _ & Hr); [done|simpl; lia|exact first_call_ok|].
  exists w2. split; [exact H|]. by rewrite Hr.
Defined.

Example jit_command_witness : exists cmd opt ovs,
  runs (snd first_call) = [cmd] /\ cmd !! 6%nat = Some opt /\ cmd !! 8%nat = Some ovs /\
  override_from_str ovs = Ok (mkOverride (Some 512) None None None None None None None).
Proof.
  destruct (jit_command_parses "/tmp/a" "gpt2" device None start (Ok result) (snd first_call)
    (List.hd [] (runs (snd first_call)))) as (f & opt & ovs & _ & Ho & Hv & _ & Hp);
    [done|exact first_call_ok|by vm_compute|].
  eexists _, opt, ovs. split; [by vm_compute|]. split; [exact Ho|]. split; [exact Hv|exact Hp].
Defined.
End JitWitness.
