(* ===== verification/EngineSetup.v ===== *)
(** * Setting up an engine ([serve/config.py], [serve/engine_base.py])

    What happens between the constructor call of an engine and its first
    request: the checks of the engine configuration, the list of models, the
    libraries of the models (given, or compiled just in time), and the
    initialisation of the C++ engine, with its reload configuration and the
    configuration it answers with; then [terminate].  The end of the file is
    the text form of the engine metrics.

    An [EngineConfig] is the dictionary of its fields, whose types the dataclass
    does not check.  [json.dumps] and [json.loads] are inverse, so the text of a
    configuration is represented by the value it stands for.  The file system
    and the C++ engine are the class [SetupEnv]; log messages are left out. *)

From Stdlib Require Import Ascii.
From stdpp Require Import base list strings pretty.
From S2P Require Import Prelude PyStr Conversation.
From S2P Require Import PyNum PyArgs ModelConfig CompilerFlags Jit.
Local Open Scope string_scope.
Local Open Scope list_scope.
Local Open Scope Z_scope.

(** ** [EngineConfig] *)

Definition EngineConfig_fields : list (string * option json) :=
  [("model", Some JNull); ("model_lib", Some JNull); ("additional_models", Some (JArr []));
   ("mode", Some JNull); ("tensor_parallel_shards", Some JNull);
   ("pipeline_parallel_stages", Some JNull); ("opt", Some JNull);
   ("gpu_memory_utilization", Some JNull); ("kv_cache_page_size", Some (JInt 16));
   ("max_num_sequence", Some JNull); ("max_total_sequence_length", Some JNull);
   ("max_single_sequence_length", Some JNull); ("prefill_chunk_size", Some JNull);
   ("sliding_window_size", Some JNull); ("attention_sink_size", Some JNull);
   ("max_history_size", Some JNull); ("kv_state_kind", Some JNull);
   ("speculative_mode", Some (JStr "disable")); ("spec_draft_length", Some (JInt 0));
   ("spec_tree_width", Some (JInt 1)); ("prefix_cache_mode", Some (JStr "radix"));
   ("prefix_cache_max_num_recycling_seqs", Some JNull); ("prefill_mode", Some (JStr "hybrid"));
   ("verbose", Some (JBool true))].

(** A configuration has exactly these fields. *)
Definition EngineConfig : Type := dict json.

(** The generated constructor: an argument that is no field is refused. *)
Definition EngineConfig_new (given : dict json) : res EngineConfig :=
  if forallb (fun kv => str_mem (fst kv) (map fst EngineConfig_fields)) given
  then rmap (init_field given) EngineConfig_fields
  else Raise TypeError.

Definition asjson (c : EngineConfig) : json := JObj c.
Definition from_json (v : json) : res EngineConfig :=
  match v with JObj d => EngineConfig_new d | _ => Raise TypeError end.

(** [config.f] of a field *)
Definition field (c : EngineConfig) (f : string) : json := opt_default JNull (dict_get c f).

(** ** The checks and the models *)

Definition opt_json (o : option string) : json :=
  match o with Some s => JStr s | None => JNull end.

Definition conflict (name : string) (given : json) (config : EngineConfig) : bool :=
  negb (is_null (field config name)) && negb (py_eq (field config name) given).

Definition conflict_error (name : string) (given : json) (config : EngineConfig) : exn :=
  ValueError [Lit "The argument "; Lit name; Lit " of engine constructor is "; FJson given;
              Lit ", while the field in argument engine_config is "; FJson (field config name)].

Definition _check_engine_config (model : string) (model_lib : option string) (mode : string)
    (engine_config : EngineConfig) : res unit :=
  if conflict "model" (JStr model) engine_config
  then Raise (conflict_error "model" (JStr model) engine_config)
  else if negb (is_none model_lib) && conflict "model_lib" (opt_json model_lib) engine_config
  then Raise (conflict_error "model_lib" (opt_json model_lib) engine_config)
  else if conflict "mode" (JStr mode) engine_config
  then Raise (conflict_error "mode" (JStr mode) engine_config)
  else if negb (py_eq (field engine_config "kv_cache_page_size") (JInt 16))
  then Raise (ValueError [Lit "KV cache only supports page size 16, while the field is ";
                          FJson (field engine_config "kv_cache_page_size")])
  else Ok tt.

Record ModelInfo : Set := mkModelInfo { mi_model : json; mi_model_lib : json }.

(** One of [additional_models]: a string, or a pair (a list, if it was read
    from JSON). *)
Definition additional_model (v : json) : res ModelInfo :=
  match v with
  | JStr _ => Ok (mkModelInfo v JNull)
  | JArr l => let? m := list_getitem l 0 in let? lib := list_getitem l 1 in Ok (mkModelInfo m lib)
  | JObj _ => Raise (KeyError "0")
  | _ => Raise TypeError
  end.

Definition _parse_models (model : string) (model_lib : option string) (additional_models : json)
    : res (list ModelInfo) :=
  match additional_models with
  | JArr l => let? ms := rmap additional_model l in
              Ok (mkModelInfo (JStr model) (opt_json model_lib) :: ms)
  | JStr s => Ok (mkModelInfo (JStr model) (opt_json model_lib)
                  :: map (fun c => mkModelInfo (JStr (String c "")) JNull) (String.list_ascii_of_string s))
  | JObj d => Ok (mkModelInfo (JStr model) (opt_json model_lib)
                  :: map (fun kv => mkModelInfo (JStr (fst kv)) JNull) d)
  | _ => Raise TypeError
  end.

Class SetupEnv := {
  setup_jit :: JitEnv;
  (** the local directory of a model, downloaded if need be *)
  get_or_download_model : json -> res string;
  (** [MLCChatConfig.model_validate_json(file.read()).conv_template] *)
  read_conv_template : string -> res Conversation;
  is_file : string -> bool;
  (** the directory that [tempfile] makes for the compilation of a model *)
  tmp_dir_for : string -> string;
  detect_device : string -> res DeviceArg;
  (** [reload], then [get_complete_engine_config] of the C++ engine *)
  complete_engine_config : json -> json;
}.

Definition FileNotFoundError : exn := OtherError "FileNotFoundError".

Section Setup.
Context `{SE : SetupEnv}.

(** [model_compile_overrides] *)
Definition model_compile_overrides (engine_config : EngineConfig) : dict json :=
  [("context_window_size", field engine_config "max_single_sequence_length");
   ("prefill_chunk_size", field engine_config "prefill_chunk_size");
   ("sliding_window_size", field engine_config "sliding_window_size");
   ("attention_sink_size", field engine_config "attention_sink_size");
   ("tensor_parallel_shards", field engine_config "tensor_parallel_shards");
   ("pipeline_parallel_stages", field engine_config "pipeline_parallel_stages");
   ("max_batch_size", field engine_config "max_num_sequence");
   ("opt", field engine_config "opt")].

Record SetupState : Type := mkSetup {
  world : World;
  conversation : option Conversation;
  config_file_paths : list string;
}.

(** The library of a model, by its [model_lib] field. *)
Definition find_model_lib (model_path : string) (device : DeviceArg) (engine_config : EngineConfig)
    (model_lib : json) : M World string :=
  match model_lib with
  | JNull => fun w =>
      match jit (tmp_dir_for model_path) model_path device None
              (mkWorld (model_compile_overrides engine_config) (libs w) (runs w) (flags w)) with
      | (Ok r, w') => (Ok (model_lib_path r), w')
      | (Raise e, w') => (Raise e, w')
      end
  | JStr lib =>
      if startswith "mock://" lib || is_file lib then mret' lib else mraise FileNotFoundError
  | _ => mraise AttributeError
  end.

(** [_convert_model_info] *)
Definition _convert_model_info (device : DeviceArg) (engine_config : EngineConfig) (m : ModelInfo)
    : M SetupState (string * string) := fun s =>
  match get_or_download_model (mi_model m) with
  | Raise e => (Raise e, s)
  | Ok model_path =>
      let mlc_config_path := model_path +:+ "/mlc-chat-config.json" in
      let s := mkSetup (world s) (conversation s) (config_file_paths s ++ [mlc_config_path]) in
      match read_conv_template mlc_config_path with
      | Raise e => (Raise e, s)
      | Ok conv_template =>
          let conv := match conversation s with None => Some conv_template | c => c end in
          match find_model_lib model_path device engine_config (mi_model_lib m) (world s) with
          | (Ok model_lib, w) => (Ok (model_path, model_lib), mkSetup w conv (config_file_paths s))
          | (Raise e, w) => (Raise e, mkSetup w conv (config_file_paths s))
          end
      end
  end.

(** A list comprehension whose body has effects. *)
Fixpoint mmap {S A B : Type} (f : A -> M S B) (l : list A) : M S (list B) :=
  match l with
  | [] => mret' []
  | x :: l => let! y := f x in let! ys := mmap f l in mret' (y :: ys)
  end.

Definition _process_model_args (models : list ModelInfo) (device : DeviceArg)
    (engine_config : EngineConfig) : M World (list (string * string) * list string * Conversation) :=
  fun w =>
    match mmap (_convert_model_info device engine_config) models (mkSetup w None []) with
    | (Ok model_args, s) =>
        (match conversation s with
         | Some c => Ok (model_args, config_file_paths s, c)
         | None => Raise AssertionError
         end, world s)
    | (Raise e, s) => (Raise e, world s)
    end.

(** ** [MLCEngineBase] *)

(** The calls into the threaded C++ engine, in order. *)
Inductive FfiCall : Set :=
| InitThreadedEngine (device : DeviceArg)
| StartLoops
| Reload (config : json)
| ExitBackgroundLoop.

Record Engine : Type := mkEngine {
  conv_template : Conversation;
  model_config_dicts : list json;
  tokenizer_path : string;
  engine_config : EngineConfig;
  max_input_sequence_length : json;
  terminated : bool;
}.

(** The caller's configuration, completed before it is sent. *)
Definition resolve_config (c : EngineConfig) (model_args : list (string * string)) (mode : string)
    : EngineConfig :=
  let pair := fun a : string * string => JArr [JStr (fst a); JStr (snd a)] in
  let '(model, lib) := List.hd ("", "") model_args in
  let c := dict_set c "model" (JStr model) in
  let c := dict_set c "model_lib" (JStr lib) in
  let c := dict_set c "additional_models" (JArr (map pair (List.tl model_args))) in
  dict_set c "mode" (JStr mode).

Definition as_device (device : string + DeviceArg) : res DeviceArg :=
  match device with inl hint => detect_device hint | inr d => Ok d end.

(** [MLCEngineBase.__init__]; the state is the world and the C++ calls. *)
Definition MLCEngineBase_init (model : string) (device : string + DeviceArg)
    (model_lib : option string) (mode : string) (given : option EngineConfig)
    : M (World * list FfiCall) Engine := fun s =>
  let '(w, log) := s in
  match (let? config := (match given with Some c => Ok c | None => EngineConfig_new [] end) in
         let? _ := _check_engine_config model model_lib mode config in
         let? models := _parse_models model model_lib (field config "additional_models") in
         let? device := as_device device in
         Ok (config, models, device)) with
  | Raise e => (Raise e, s)
  | Ok (config, models, device) =>
      match _process_model_args models device config w with
      | (Raise e, w) => (Raise e, (w, log))
      | (Ok (model_args, paths, conv), w) =>
          match rmap load_json paths with
          | Raise e => (Raise e, (w, log))
          | Ok dicts =>
              let config := resolve_config config model_args mode in
              let log := log ++ [InitThreadedEngine device; StartLoops; Reload (asjson config)] in
              (let? complete := from_json (complete_engine_config (asjson config)) in
               let? max_input := py_min (field complete "max_single_sequence_length")
                                        (field complete "max_total_sequence_length") in
               Ok (mkEngine conv dicts (fst (List.hd ("", "") model_args)) complete max_input false),
               (w, log))
          end
      end
  end.

(** [terminate] *)
Definition terminate (e : Engine) (log : list FfiCall) : Engine * list FfiCall :=
  if terminated e then (e, log)
  else (mkEngine (conv_template e) (model_config_dicts e) (tokenizer_path e) (engine_config e)
          (max_input_sequence_length e) true, log ++ [ExitBackgroundLoop]).

(** ** [EngineMetrics.prometheus_text] *)

Definition is_number (v : json) : bool :=
  match v with JBool _ | JInt _ | JFloat _ => true | _ => false end.

(** The metrics of one scope. *)
Definition scope_lines (key_prefix : string) (d : dict json) : list string :=
  map (fun kv => key_prefix +:+ fst kv +:+ String "009" (py_str (snd kv)))
    (List.filter (fun kv => is_number (snd kv)) d).

(** [traverse]: first the metrics of the scope, then the nested scopes. *)
Fixpoint traverse (comment_scope key_prefix : string) (curr_value : json) : list string :=
  match curr_value with
  | JObj d =>
      (if String.eqb comment_scope "" then [] else [newline +:+ "# " +:+ comment_scope])
      ++ scope_lines key_prefix d
      ++ flat_map (fun kv => match snd kv with
                             | JObj (_ :: _) =>
                                 traverse (comment_scope +:+ "/" +:+ fst kv)
                                   (key_prefix +:+ fst kv +:+ "_") (snd kv)
                             | _ => []
                             end) d
  | _ => []
  end.

Definition metrics_note : list string :=
  ["# NOTE: these metrics count token in the unit of serving model's tokenization";
   "# be careful when comparing them to client-side metrics that may use";
   "# different tokenization to standardize across models." +:+ newline].

Definition prometheus_text (metrics : json) : string :=
  str_join newline (metrics_note ++ traverse "" "" metrics).
End Setup.

(** ** Lemmas: the configuration *)

Lemma field_set (c : EngineConfig) k v f :
  field (dict_set c k v) f = if String.eqb f k then v else field c f.
Proof. unfold field. rewrite dict_get_set. by destruct (String.eqb f k). Qed.

Lemma EngineConfig_new_names given c :
  EngineConfig_new given = Ok c -> map fst c = map fst EngineConfig_fields.
Proof.
  unfold EngineConfig_new. destruct (forallb _ given); [|done]. intros H%rmap_Ok.
  induction H as [|f kv fs kvs H _ IH]; [done|]. cbn [map]. rewrite IH. f_equal.
  unfold init_field in H. destruct (dict_get given (fst f)); [by injection H as <-|].
  destruct (snd f); [by injection H as <-|done].
Qed.

(** A configuration with all its fields is built from them unchanged. *)
Lemma EngineConfig_new_complete c : map fst c = map fst EngineConfig_fields -> EngineConfig_new c = Ok c.
Proof.
  intros H. unfold EngineConfig_new.
  assert (forallb (fun kv => str_mem (fst kv) (map fst EngineConfig_fields)) c = true) as ->.
  { apply forallb_forall. intros kv Hin. rewrite <- H. by apply str_mem_In, in_map. }
  apply init_complete; [|done]. rewrite H. apply (bool_decide_unpack _). by vm_compute.
Qed.

Definition proper (c : EngineConfig) : Prop := map fst c = map fst EngineConfig_fields.

Lemma proper_set c k v : proper c -> In k (map fst EngineConfig_fields) -> proper (dict_set c k v).
Proof. unfold proper. intros H Hin. rewrite dict_set_names; [done|by rewrite H]. Qed.

Lemma proper_resolve c args mode : proper c -> proper (resolve_config c args mode).
Proof.
  intros H. unfold resolve_config. destruct (List.hd _ _).
  repeat (apply proper_set; [|by apply str_mem_In]). done.
Qed.

Lemma py_eq_strs s t : py_eq (JStr s) (JStr t) = String.eqb s t.
Proof. done. Qed.

(** ** Specifications: the libraries of the models *)

Section Specs.
Context `{SE : SetupEnv} {DL : DigestLaws}.

(** The flags the engine configuration asks for; a preset is taken as it is
    before the first model is compiled. *)
Definition engine_flags (engine_config : EngineConfig) (w : World) : res OptimizationFlags :=
  requested_flags (mkWorld (model_compile_overrides engine_config) (libs w) (runs w) (flags w)).

(** The library of a model is the one given, if it exists, or one compiled with
    the options of the engine configuration. *)
Definition lib_served (device : DeviceArg) (engine_config : EngineConfig) (w0 : World)
    (model_lib : json) (lib : string) (w : World) : Prop :=
  match model_lib with
  | JNull => exists f content, engine_flags engine_config w0 = Ok f /\
      dict_get (libs w) lib = Some content /\
      compiled_with (flags_repr f) (_get_overrides (model_compile_overrides engine_config))
        (device2str device) content
  | _ => model_lib = JStr lib /\ startswith "mock://" lib || is_file lib = true
  end.

(** How far a setup has come. *)
Definition extends (w0 w : World) : Prop :=
  cache_sound w /\ exists l, flags w = flags w0 ++ l.

Context (device : DeviceArg) (config : EngineConfig) (w0 : World)
  (presets : (4 <= length (flags w0))%nat).

Lemma engine_flags_now w : extends w0 w ->
  requested_flags (mkWorld (model_compile_overrides config) (libs w) (runs w) (flags w))
  = engine_flags config w0.
Proof. intros [_ [l H]]. by eapply requested_flags_app. Qed.

Lemma lib_served_frame mlib lib w w' :
  (forall f content, engine_flags config w0 = Ok f -> dict_get (libs w) lib = Some content ->
     dict_get (libs w') lib = Some content \/
     exists content', dict_get (libs w') lib = Some content' /\
       compiled_with (flags_repr f) (_get_overrides (model_compile_overrides config)) (device2str device) content') ->
  lib_served device config w0 mlib lib w -> lib_served device config w0 mlib lib w'.
Proof.
  intros H. destruct mlib; try done. intros (f & content & Hf & Hl & Hc).
  destruct (H f content Hf Hl) as [H1|(content' & H1 & H2)]; [by exists f, content|by exists f, content'].
Qed.

Lemma find_model_lib_spec path mlib w r w' :
  extends w0 w -> find_model_lib path device config mlib w = (r, w') ->
  (forall lib, r = Ok lib -> extends w0 w' /\ lib_served device config w0 mlib lib w') /\
  (forall mlib' lib', lib_served device config w0 mlib' lib' w -> lib_served device config w0 mlib' lib' w').
Proof.
  intros Hx. unfold find_model_lib.
  destruct mlib; try (by intros [= <- <-]).
  - destruct (jit _ _ _ _ _) as [[v|e] w1] eqn:E; intros [= <- <-];
      pose proof (jit_frame _ _ _ _ _ _ _ E) as [[l Hf] Hlibs]; cbn in Hf, Hlibs.
    + pose proof (jit_keeps_sound _ _ _ _ _ _ _ (proj1 Hx : cache_sound (mkWorld _ _ _ _)) E)
        as (Hs1 & f & content & Hq & Hc & Hw).
      rewrite (engine_flags_now w Hx) in Hq. split.
      * intros lib [= <-]. split; [split; [done|]|by exists f, content].
        destruct Hx as [_ [l0 Hf0]]. exists (l0 ++ l). by rewrite Hf, Hf0, app_assoc.
      * intros mlib' lib'. apply lib_served_frame. intros f' content' Hf' Hg.
        destruct (Hlibs lib') as [Hsame|(v' & [= <-] & ->)]; [left; by rewrite Hsame|].
        right. exists content. rewrite Hq in Hf'. by injection Hf' as <-.
    + split; [done|]. intros mlib' lib'. apply lib_served_frame. intros f' content' Hf' Hg.
      destruct (Hlibs lib') as [Hsame|(v' & [=] & _)]. left. by rewrite Hsame.
  - destruct (_ || _) eqn:E; intros [= <- <-]; split; try done. intros lib [= <-]. by split.
Qed.

(** One model of the list. *)
Definition model_ready (m : ModelInfo) (a : string * string) (w : World) : Prop :=
  get_or_download_model (mi_model m) = Ok (fst a) /\
  lib_served device config w0 (mi_model_lib m) (snd a) w.

Lemma models_spec models s args s' :
  extends w0 (world s) -> mmap (_convert_model_info device config) models s = (Ok args, s') ->
  extends w0 (world s') /\ Forall2 (fun m a => model_ready m a (world s')) models args /\
  config_file_paths s' = config_file_paths s ++ map (fun a => fst a +:+ "/mlc-chat-config.json") args /\
  (forall mlib lib, lib_served device config w0 mlib lib (world s) ->
                    lib_served device config w0 mlib lib (world s')) /\
  conversation s' = match conversation s, args with
                    | None, a :: _ => match read_conv_template (fst a +:+ "/mlc-chat-config.json") with
                                      | Ok c => Some c
                                      | Raise _ => None
                                      end
                    | c, _ => c
                    end.
Proof.
  revert s args. induction models as [|m models IH]; intros s args Hx H; cbn [mmap] in H.
  { injection H as <- <-. split_and!; [done|constructor|by rewrite app_nil_r|done|by destruct (conversation s)]. }
  apply mbind_inv in H as [([path lib] & s1 & H1 & H)|(? & _ & ?)]; [|done].
  apply mbind_inv in H as [(args' & s2 & H2 & H)|(? & _ & ?)]; [|done]. injection H as <- <-.
  unfold _convert_model_info in H1. destruct (get_or_download_model _) as [path'|] eqn:Ep; [|done].
  cbn [world conversation config_file_paths] in H1.
  destruct (read_conv_template _) as [conv|] eqn:Ec; [|done].
  destruct (find_model_lib _ _ _ _ _) as [[lib'|] w1] eqn:Ef; [|done]. injection H1 as <- <- <-.
  destruct (find_model_lib_spec _ _ _ _ _ Hx Ef) as [H1 Hk]. destruct (H1 _ eq_refl) as [Hx1 Hs1].
  apply IH in H2 as (Hx2 & Hall & Hp & Hk2 & Hconv); [|exact Hx1]. cbn [world conversation config_file_paths] in *.
  split_and!; [done| | | |].
  - constructor; [|done]. split; [done|]. by apply Hk2.
  - rewrite Hp. cbn. by rewrite <- app_assoc.
  - intros mlib lib Hl. by apply Hk2, Hk.
  - rewrite Hconv. cbn [fst]. rewrite Ec. by destruct (conversation s).
Qed.

(** Setting up the models.  When the arguments of the models are processed,
    every model gets its local directory and, in the order of the models, the
    library it named, which exists, or one compiled with the flags, overrides
    and device of the engine configuration, whatever was compiled before or
    after it; the conversation template is that of the first model. *)
Theorem process_model_args_spec models w args paths conv w' :
  extends w0 w -> _process_model_args models device config w = (Ok (args, paths, conv), w') ->
  cache_sound w' /\ Forall2 (fun m a => model_ready m a w') models args /\
  paths = map (fun a => fst a +:+ "/mlc-chat-config.json") args /\
  exists path rest, paths = path :: rest /\ read_conv_template path = Ok conv.
Proof.
  unfold _process_model_args. intros Hx H.
  destruct (mmap _ _ _) as [[args'|] s] eqn:E; [|done].
  destruct (models_spec models (mkSetup w None []) args' s Hx E) as (Hx' & Hall & Hp & _ & Hc).
  destruct (conversation s) as [c|]; [|done]. injection H as <- <- <- <-.
  cbn [conversation config_file_paths app] in *. split_and!; [apply Hx'|done|done|].
  destruct args' as [|a args']; [done|]. rewrite Hp. eexists _, _. split; [done|].
  destruct (read_conv_template _); [by injection Hc as <-|done].
Qed.
End Specs.

Lemma mmap_length {S A B} (f : A -> M S B) l s ys s' :
  mmap f l s = (Ok ys, s') -> length ys = length l.
Proof.
  revert s ys. induction l as [|x l IH]; intros s ys H; cbn in H; [by injection H as <-|].
  apply mbind_inv in H as [(y & s1 & _ & H)|(? & _ & ?)]; [|done].
  apply mbind_inv in H as [(ys' & s2 & H2 & H)|(? & _ & ?)]; [|done]. injection H as <- <-.
  cbn. by rewrite (IH _ _ H2).
Qed.

Lemma parse_models_nonempty model mlib v models :
  _parse_models model mlib v = Ok models -> models <> [].
Proof.
  unfold _parse_models. destruct v; try done; [by intros [= <-]| |by intros [= <-]].
  intros (ms & _ & [= <-])%rbind_Ok. done.
Qed.

(** The fields of a completed configuration. *)
Lemma resolve_fields c m l rest mode :
  let r := resolve_config c ((m, l) :: rest) mode in
  field r "model" = JStr m /\ field r "model_lib" = JStr l /\ field r "mode" = JStr mode /\
  field r "additional_models" = JArr (map (fun a => JArr [JStr (fst a); JStr (snd a)]) rest) /\
  field r "kv_cache_page_size" = field c "kv_cache_page_size".
Proof. cbn [resolve_config List.hd List.tl]. rewrite !field_set. done. Qed.

Lemma check_resolved c m l rest mode model' lib' mode' :
  py_eq (field c "kv_cache_page_size") (JInt 16) = true ->
  _check_engine_config model' lib' mode' (resolve_config c ((m, l) :: rest) mode) = Ok tt <->
  model' = m /\ (lib' = None \/ lib' = Some l) /\ mode' = mode.
Proof.
  intros Hk. destruct (resolve_fields c m l rest mode) as (Hm & Hl & Hmode & _ & Hp).
  unfold _check_engine_config, conflict. rewrite Hm, Hl, Hmode, Hp, Hk. cbn [is_null negb andb].
  rewrite !py_eq_strs. destruct (String.eqb_spec m model') as [->|]; cbn [negb]; [|naive_solver].
  destruct lib' as [l'|]; cbn [is_none negb andb opt_json]; rewrite ?py_eq_strs.
  - destruct (String.eqb_spec l l') as [->|]; cbn [negb]; [|naive_solver].
    destruct (String.eqb_spec mode mode') as [->|]; naive_solver.
  - destruct (String.eqb_spec mode mode') as [->|]; naive_solver.
Qed.

(** ** Theorems *)

(** An engine configuration survives the text sent to the C++ engine.  What
    the constructor builds, from any arguments it accepts, is what [from_json]
    reads from its [asjson]; so is the configuration completed for the reload. *)
Theorem engine_config_roundtrip given c args mode :
  EngineConfig_new given = Ok c ->
  from_json (asjson c) = Ok c /\
  from_json (asjson (resolve_config c args mode)) = Ok (resolve_config c args mode).
Proof.
  intros H%EngineConfig_new_names.
  split; apply EngineConfig_new_complete; [done|by apply proper_resolve].
Qed.

(** A configuration that was used is tied to its engine.  The constructor
    writes the resolved model, library and mode into the caller's object; used
    again, it is accepted exactly for that model directory, that library (or
    none) and that mode. *)
Theorem config_reuse c m l rest mode model' lib' mode' :
  py_eq (field c "kv_cache_page_size") (JInt 16) = true ->
  _check_engine_config model' lib' mode' (resolve_config c ((m, l) :: rest) mode) = Ok tt <->
  model' = m /\ (lib' = None \/ lib' = Some l) /\ mode' = mode.
Proof. apply check_resolved. Qed.

(** An engine can be set up again from what it sent.  When the constructor
    returns, the C++ engine was initialised, its loops started and it was sent
    one configuration, in this order; reading that configuration back, with the
    model, library and mode it names, the checks pass and the models are
    exactly the resolved ones. *)
Theorem engine_reload_restarts `{SE : SetupEnv} model device mlib mode given w log e w' log' :
  match given with Some c => proper c | None => True end ->
  MLCEngineBase_init model device mlib mode given (w, log) = (Ok e, (w', log')) ->
  exists d sent m l rest,
    log' = log ++ [InitThreadedEngine d; StartLoops; Reload sent] /\
    exists c, from_json sent = Ok c /\ tokenizer_path e = m /\
      _check_engine_config m (Some l) mode c = Ok tt /\
      _parse_models m (Some l) (field c "additional_models")
      = Ok (map (fun a => mkModelInfo (JStr (fst a)) (JStr (snd a))) ((m, l) :: rest)).
Proof.
  intros Hg. unfold MLCEngineBase_init.
  destruct (rbind _ _) as [[[config models] d]|] eqn:Es; [|done].
  assert (proper config /\ py_eq (field config "kv_cache_page_size") (JInt 16) = true) as [Hp Hk].
  { apply rbind_Ok in Es as (c & Hc & Es). apply rbind_Ok in Es as ([] & Hchk & Es).
    apply rbind_Ok in Es as (ms & _ & Es). apply rbind_Ok in Es as (d' & _ & [= <- <- <-]). split.
    - destruct given; [by injection Hc as <-|by apply EngineConfig_new_names in Hc].
    - unfold _check_engine_config in Hchk. by repeat (case_match; [done|]); apply negb_false_iff. }
  destruct (_process_model_args models d config w) as [[[[args paths] conv]|] w1] eqn:Ea; [|done].
  destruct (rmap load_json paths) as [dicts|]; [|done].
  assert (exists m l rest, args = (m, l) :: rest) as (m & l & rest & ->).
  { apply rbind_Ok in Es as (c & _ & Es). apply rbind_Ok in Es as ([] & _ & Es).
    apply rbind_Ok in Es as (ms & Hms & Es). apply rbind_Ok in Es as (d' & _ & [= _ -> _]).
    unfold _process_model_args in Ea. destruct (mmap _ _ _) as [[args'|] s] eqn:Em; [|done].
    apply mmap_length in Em. apply parse_models_nonempty in Hms.
    destruct (conversation s); [|done]. injection Ea as <- _ _ _.
    destruct args' as [|[m l] rest]; [by destruct models|by eexists _, _, _]. }
  intros H. eexists d, _, m, l, rest. split.
  { destruct (rbind _ _); [|done]. by injection H as _ _ <-. }
  eexists. split; [by apply EngineConfig_new_complete, proper_resolve|].
  destruct (resolve_fields config m l rest mode) as (_ & _ & _ & Ha & _). split_and!.
  - destruct (rbind (from_json _) _) as [e'|] eqn:E; [|done]. injection H as -> _ _.
    apply rbind_Ok in E as (? & _ & E). by apply rbind_Ok in E as (? & _ & [= <-]).
  - apply check_resolved; [done|]. split_and!; [done|by right|done].
  - unfold _parse_models. rewrite Ha. cbn [map fst snd opt_json].
    rewrite (rmap_total _ (fun v => match additional_model v with Ok i => i | Raise _ => mkModelInfo JNull JNull end)).
    + cbn [rbind]. by rewrite map_map.
    + apply List.Forall_forall. intros v (a & <- & _)%in_map_iff. done.
Qed.

(** [terminate] is idempotent: however often it is called, the background
    loop is told to exit once. *)
Theorem terminate_once e log :
  let '(e1, log1) := terminate e log in
  terminated e1 = true /\ terminate e1 log1 = (e1, log1) /\
  (terminated e = false -> log1 = log ++ [ExitBackgroundLoop]).
Proof. unfold terminate. destruct (terminated e) eqn:E; [by rewrite E|done]. Qed.

(** The metric at a path of keys. *)
Fixpoint metric_at (path : list string) (v : json) : option json :=
  match path, v with
  | [k], JObj d => dict_get d k
  | k :: path, JObj d => match dict_get d k with Some v => metric_at path v | None => None end
  | _, _ => None
  end.

Lemma metric_in_scope `{SE : SetupEnv} path v : forall metrics scope prefix,
  metric_at path metrics = Some v -> is_number v = true ->
  In (prefix +:+ str_join "_" path +:+ String "009" (py_str v)) (traverse scope prefix metrics).
Proof.
  induction path as [|k path IH]; intros metrics scope prefix H Hv; [done|].
  destruct metrics as [| | | | | |d]; try by destruct path.
  cbn [traverse]. rewrite !in_app_iff. right.
  destruct path as [|k' path].
  - left. cbn [metric_at] in H. apply dict_get_pair in H. unfold scope_lines.
    apply (in_map (fun kv => prefix +:+ fst kv +:+ String "009" (py_str (snd kv))) _ (k, v)).
    by apply filter_In.
  - right. cbn [metric_at] in H. destruct (dict_get d k) as [w|] eqn:Ek; [|done].
    apply in_flat_map. exists (k, w). split; [by apply dict_get_pair|].
    pose proof (IH w (scope +:+ "/" +:+ k) (prefix +:+ k +:+ "_") H Hv) as Hin.
    destruct w as [| | | | | |[|kv d']]; try (by destruct path).
    cbn [fst snd]. change (str_join "_" (k :: k' :: path)) with (k +:+ "_" +:+ str_join "_" (k' :: path)).
    by rewrite !app_assoc_str in Hin |- *.
Qed.

(** No metric is lost.  Every number in the metrics, at whatever depth, has
    a line in the Prometheus text: its keys joined by underscores, a tab, and
    the number. *)
Theorem metrics_complete `{SE : SetupEnv} metrics path v :
  metric_at path metrics = Some v -> is_number v = true ->
  exists before after, prometheus_text metrics
    = str_join newline (before ++ (str_join "_" path +:+ String "009" (py_str v)) :: after).
Proof.
  intros H Hv. apply (metric_in_scope path v metrics "" "" H) in Hv.
  apply in_split in Hv as (l1 & l2 & Hl). unfold prometheus_text. cbn [String.append] in Hl.
  rewrite Hl. exists (metrics_note ++ l1), l2. by rewrite <- app_assoc.
Qed.

(** ** Witnesses *)

Module SetupWitness.
Import JitWitness.

Definition conv : Conversation :=
  mkConversation None "{system_message}" "" None true [("user", "USER")] [] [] [" "] ": " ":" [] [] "" false.

#[local] Instance setup_env : SetupEnv := {
  setup_jit := test_env;
  get_or_download_model v := match v with JStr s => Ok s | _ => Raise TypeError end;
  read_conv_template _ := Ok conv;
  is_file s := String.eqb s "draft.so";
  tmp_dir_for _ := "/tmp/a";
  detect_device _ := Ok (Device "cuda" 0);
  complete_engine_config c :=
    match c with
    | JObj d => JObj (dict_set (dict_set d "max_single_sequence_length" (JInt 512))
                        "max_total_sequence_length" (JInt 1024))
    | v => v
    end;
}.

Definition config : EngineConfig :=
  match EngineConfig_new [("additional_models", JArr [JArr [JStr "draft"; JStr "draft.so"]]);
                          ("max_num_sequence", JInt 4)] with
  | Ok c => c
  | Raise _ => []
  end.

Definition start : World := mkWorld [] [] [] initial_heap.
Definition init : res Engine * (World * list FfiCall) :=
  MLCEngineBase_init "gpt2" (inl "auto") None "local" (Some config) (start, []).
Definition engine : Engine :=
  match fst init with Ok e => e | Raise _ => mkEngine conv [] "" [] JNull true end.

Example config_roundtrip_witness : from_json (asjson config) = Ok config.
Proof.
  exact (proj1 (engine_config_roundtrip [("additional_models", JArr [JArr [JStr "draft"; JStr "draft.so"]]);
                          ("max_num_sequence", JInt 4)] config [] "local" ltac:(by vm_compute))).
Defined.

(** The second engine for the same model, which was downloaded, is refused. *)
Example config_reuse_witness :
  _check_engine_config "HF://gpt2" None "local" (resolve_config config [("~/gpt2", "gpt2.so")] "local") <> Ok tt.
Proof.
  intros H. apply (config_reuse config "~/gpt2" "gpt2.so" [] "local" "HF://gpt2" None "local" eq_refl) in H.
  by destruct H as [[=] _].
Defined.

Example reload_witness : exists sent d,
  snd (snd init) = [InitThreadedEngine d; StartLoops; Reload sent] /\
  max_input_sequence_length engine = JInt 512.
Proof.
  destruct (engine_reload_restarts "gpt2" (inl "auto") None "local" (Some config) start [] engine
    (fst (snd init)) (snd (snd init))) as (d & sent & m & l & rest & H & _); [by vm_compute..|].
  exists sent, d. split; [exact H|by vm_compute].
Defined.

Example process_model_args_witness :
  let r := _process_model_args [mkModelInfo (JStr "gpt2") JNull; mkModelInfo (JStr "draft") (JStr "draft.so")]
             (Device "cuda" 0) config start in
  exists args paths c, fst r = Ok (args, paths, c) /\
    paths = ["gpt2/mlc-chat-config.json"; "draft/mlc-chat-config.json"] /\ cache_sound (snd r).
Proof.
  cbv zeta. set (r := _process_model_args _ _ _ _).
  assert (exists args paths c, fst r = Ok (args, paths, c)) as (args & paths & c & Hr).
  { eexists _, _, _. vm_compute. reflexivity. }
  destruct (process_model_args_spec (SE := setup_env) (DL := test_laws) (Device "cuda" 0) config start ltac:(simpl; lia)
    [mkModelInfo (JStr "gpt2") JNull; mkModelInfo (JStr "draft") (JStr "draft.so")] start args paths c (snd r))
    as (H1 & _ & H2 & _).
  - split; [done|]. exists []. reflexivity.
  - rewrite <- Hr. exact (surjective_pairing r).
  - exists args, paths, c. split; [exact Hr|]. split; [|exact H1].
    vm_compute in Hr. by injection Hr as <- <- <-.
Defined.

Example metrics_witness : exists before after,
  prometheus_text (JObj [("n", JInt 3); ("sum", JObj [("prefill", JObj [("tokens", JInt 7)])])])
  = str_join newline (before ++ ("sum_prefill_tokens" +:+ String "009" "7") :: after).
Proof.
  exact (metrics_complete (JObj [("n", JInt 3); ("sum", JObj [("prefill", JObj [("tokens", JInt 7)])])])
    ["sum"; "prefill"; "tokens"] (JInt 7) eq_refl eq_refl).
Defined.
End SetupWitness.
