(* ===== verification/SyncEngine.v ===== *)
(** * The batched engine ([serve/sync_engine.py])

    [SyncMLCEngine.generate] serves a list of prompts to the end: it installs
    a callback of its own in the C++ engine, adds one request per prompt, and
    takes steps until every generation has reported its finish reason.  The
    callback is a closure over the local variables of the call: the number of
    finished generations, the texts, the log probabilities and the text
    streamers of all requests.

    A computation runs on the engine and these variables.  What the C++ engine
    sends during a call into it is an argument: [adds] gives for every
    [add_request], and [steps] for every [step], the batches of deltas with
    which the installed callback is called, in order.  The engine answers an
    [add_request] at once when the prompt is too long. *)

From stdpp Require Import base list strings pretty.
From S2P Require Import Prelude PyStr ModelPresets PyArgs CompilerFlags Jit EngineSetup.
From S2P Require Import Data Conversation OpenAI EngineUtils Streams.
Local Open Scope string_scope.
Local Open Scope list_scope.
Local Open Scope Z_scope.

(** [l[z]] of a Python list: the index as counted from the front. *)
Definition py_index {A} (l : list A) (z : Z) : res nat :=
  let len := Z.of_nat (length l) in
  if (0 <=? z) && (z <? len) then Ok (Z.to_nat z)
  else if (- len <=? z) && (z <? 0) then Ok (Z.to_nat (z + len))
  else Raise IndexError.

(** [l[r][i] = f(l[r][i])] *)
Definition nested_update {A} (l : list (list A)) (r i : nat) (f : A -> A) : res (list (list A)) :=
  let? row := list_getitem l r in
  let? x := list_getitem row i in
  let? row := list_setitem row i (f x) in
  list_setitem l r row.

(** The engine keeps one callback: none, one of the caller's, or the closure
    of the [k]-th call of [generate]. *)
Inductive Callback : Type :=
| NoCallback
| UserCallback (name : string)
| GenerateCallback (k : nat).

#[export] Instance Callback_eq_dec : EqDecision Callback.
Proof. solve_decision. Defined.

Section SyncEngine.
Context `{IB : ImageBackend} `{TS : TextStreamerOps}.

(** The calls into the C++ engine. *)
Inductive SyncCall : Type :=
| SyncCreateRequest (request_id : string) (inputs : list Data) (cfg : GenerationConfig)
| SyncAddRequest (request_id : string)
| SyncAbortRequest (request_id : string)
| SyncStep
| SyncReset.

Record SyncMLCEngine : Type := mkSync {
  sy_callback : Callback;
  sy_generates : nat;  (* how often [generate] has made a closure *)
  sy_ffi : list SyncCall;
}.

(** The variables of one call of [generate] that its callback shares. *)
Record Locals : Type := mkLocals {
  num_finished_generations : Z;
  output_texts : list (list string);
  output_logprobs_str : list (option (list (list string)));
  text_streamers : list (list streamer);
}.

Definition SM (A : Type) : Type := M (SyncMLCEngine * Locals) A.

(** ** The callback *)

(** [output_logprobs_str[rid][i] += stream_output.delta_logprob_json_strs] *)
Definition add_logprobs (rid i : nat) (stream_output : SingleRequestStreamOutput) : M Locals unit :=
  let! s := mget in
  let! row := mlift (list_getitem (output_logprobs_str s) rid) in
  match row with
  | None => mret' tt
  | Some lps =>
      match so_delta_logprob_json_strs stream_output with
      | None => mraise AssertionError
      | Some strs =>
          let! old := mlift (list_getitem lps i) in
          let! lps := mlift (list_setitem lps i (old ++ strs)) in
          let! rows := mlift (list_setitem (output_logprobs_str s) rid (Some lps)) in
          mmodify (fun s => mkLocals (num_finished_generations s) (output_texts s) rows (text_streamers s))
      end
  end.

(** The body of the loop over the generations of a request. *)
Definition one_output (rid i : nat) (stream_output : SingleRequestStreamOutput) : M Locals unit :=
  add_logprobs rid i stream_output ;!
  let! s := mget in
  let! row := mlift (list_getitem (text_streamers s) rid) in
  let! text_streamer := mlift (list_getitem row i) in
  let '(ts, delta) := delta_text stream_output text_streamer in
  let! streamers := mlift (nested_update (text_streamers s) rid i (fun _ => ts)) in
  let! texts := mlift (nested_update (output_texts s) rid i (fun old => old +:+ delta)) in
  mmodify (fun s => mkLocals
    (num_finished_generations s + match so_finish_reason stream_output with Some _ => 1 | None => 0 end)
    texts (output_logprobs_str s) streamers).

(** [for i, (stream_output, text_streamer) in enumerate(zip(...))], with [m]
    text streamers from [i] on. *)
Fixpoint each_output (rid i m : nat) (stream_outputs : list SingleRequestStreamOutput) : M Locals unit :=
  match stream_outputs, m with
  | so :: stream_outputs, S m => one_output rid i so ;! each_output rid (S i) m stream_outputs
  | _, _ => mret' tt
  end.

Definition one_delta (generation_config : list GenerationConfig) (delta_output : RequestStreamOutput)
  : M Locals unit :=
  let! (request_id, stream_outputs) := mlift (unpack delta_output) in
  let! z := mlift (int_of_str request_id) in
  let! rid := mlift (py_index generation_config z) in
  let! cfg := mlift (list_getitem generation_config rid) in
  mlift (py_assert (Z.of_nat (length stream_outputs) =? g_n cfg)) ;!
  let! s := mget in
  let! row := mlift (list_getitem (text_streamers s) rid) in
  each_output rid 0 (length row) stream_outputs.

(** [request_stream_callback] *)
Fixpoint request_stream_callback (generation_config : list GenerationConfig)
    (delta_outputs : list RequestStreamOutput) : M Locals unit :=
  match delta_outputs with
  | [] => mret' tt
  | d :: delta_outputs =>
      one_delta generation_config d ;! request_stream_callback generation_config delta_outputs
  end.

(** ** The engine *)

Definition on_locals {A} (m : M Locals A) : SM A :=
  fun '(e, s) => let '(r, s) := m s in (r, (e, s)).

Definition get_callback : SM Callback := fun '(e, s) => (Ok (sy_callback e), (e, s)).

Definition set_callback (c : Callback) : SM unit :=
  fun '(e, s) => (Ok tt, (mkSync c (sy_generates e) (sy_ffi e), s)).

(** A call into the C++ engine, during which it calls the installed callback
    with [batches]; [k] is the number of the running [generate]. *)
Definition sync_ffi (k : nat) (generation_config : list GenerationConfig) (c : SyncCall)
    (batches : list (list RequestStreamOutput)) : SM unit :=
  fun '(e, s) =>
    let e := mkSync (sy_callback e) (sy_generates e) (sy_ffi e ++ [c]) in
    if decide (sy_callback e = GenerateCallback k)
    then on_locals (request_stream_callback generation_config (concat batches)) (e, s)
    else (Ok tt, (e, s)).

(** ** [generate] *)

Definition all_data (l : list PyPrompt) : option (list Data) :=
  mapM (fun p => match p with PyData d => Some d | _ => None end) l.

(** [convert_to_data]; the tokens and the data are converted by the FFI. *)
Definition convert_to_data (prompt : PyPrompt) : res (list Data) :=
  match prompt with
  | PyStr s => Ok [TextData s]
  | PyList [] => Raise IndexError
  | PyList ((PyInt _ :: _) as l) =>
      let? zs := opt_res (all_ints l) (OtherError "TVMError") in Ok [TokenData zs]
  | PyList l => opt_res (all_data l) (OtherError "TVMError")
  | PyInt _ | PyData _ => Raise TypeError
  end.

(** The list of prompts. *)
Definition prompt_list (prompts : PyPrompt) : res (list PyPrompt) :=
  match prompts with
  | PyStr s => Ok [PyStr s]
  | PyList ((PyInt _ :: _) as l) => Ok [PyList l]
  | PyList l => Ok l
  | _ => Raise AssertionError
  end.

(** [generation_config]: one for all prompts, or a list. *)
Inductive ConfigArg : Type := OneConfig (c : GenerationConfig) | ConfigList (l : list GenerationConfig).

Definition config_list (generation_config : ConfigArg) (num_requests : nat) : res (list GenerationConfig) :=
  let l := match generation_config with OneConfig c => repeat c num_requests | ConfigList l => l end in
  py_assert (Nat.eqb (length l) num_requests) ;? Ok l.

(** One element per generation of a request, [range(n)]. *)
Definition per_generation {A} (cfg : GenerationConfig) (x : A) : list A := repeat x (Z.to_nat (g_n cfg)).

Definition init_locals (generation_config : list GenerationConfig) : Locals :=
  mkLocals 0
    (map (fun cfg => per_generation cfg "") generation_config)
    (map (fun cfg => if g_logprobs cfg then Some (per_generation cfg []) else None) generation_config)
    (map (fun cfg => per_generation cfg streamer_new) generation_config).

Definition total_generations (generation_config : list GenerationConfig) : Z :=
  fold_right (fun cfg n => g_n cfg + n) 0 generation_config.

(** [for req_id, (prompt, generation_cfg) in enumerate(zip(...))] *)
Fixpoint add_requests (k : nat) (generation_config : list GenerationConfig)
    (adds : list (list (list RequestStreamOutput))) (req_id : nat)
    (l : list (PyPrompt * GenerationConfig)) : SM unit :=
  match l with
  | [] => mret' tt
  | (prompt, generation_cfg) :: l =>
      let request_id := pretty (Z.of_nat req_id) in
      let! input_data := mlift (convert_to_data prompt) in
      sync_ffi k generation_config (SyncCreateRequest request_id input_data generation_cfg) [] ;!
      sync_ffi k generation_config (SyncAddRequest request_id) (default [] (adds !! req_id)) ;!
      add_requests k generation_config adds (S req_id) l
  end.

(** [while num_finished_generations != num_total_generations]; [false] when
    there are no more [steps] to see. *)
Fixpoint step_loop (k : nat) (generation_config : list GenerationConfig)
    (steps : list (list (list RequestStreamOutput))) : SM bool :=
  let! (_, s) := mget in
  if num_finished_generations s =? total_generations generation_config then mret' true
  else
    match steps with
    | [] => mret' false
    | batches :: steps =>
        sync_ffi k generation_config SyncStep batches ;! step_loop k generation_config steps
    end.

Definition Generated : Type := list (list string) * list (option (list (list string))).

(** [generate]; [None] when it still waits after all the steps. *)
Definition generate (adds steps : list (list (list RequestStreamOutput))) (prompts : PyPrompt)
    (generation_config : ConfigArg) (e : SyncMLCEngine) : res (option Generated) * SyncMLCEngine :=
  match prompt_list prompts with
  | Raise x => (Raise x, e)
  | Ok [] => (Ok (Some ([], [])), e)
  | Ok prompts =>
      match config_list generation_config (length prompts) with
      | Raise x => (Raise x, e)
      | Ok cfgs =>
          let k := sy_generates e in
          let body : SM (option Generated) :=
            let! original_callback := get_callback in
            set_callback (GenerateCallback k) ;!
            add_requests k cfgs adds 0 (combine prompts cfgs) ;!
            let! finished := step_loop k cfgs steps in
            if finished then
              set_callback original_callback ;!
              let! (_, s) := mget in
              mret' (Some (output_texts s, output_logprobs_str s))
            else mret' None in
          let '(r, (e, _)) := body (mkSync (sy_callback e) (S k) (sy_ffi e), init_locals cfgs) in (r, e)
      end
  end.

(** ** The other operations *)

(** [create_request]: a single input is made a list. *)
Definition sync_create_request (request_id : string) (inputs : Data + list Data) (cfg : GenerationConfig)
    (e : SyncMLCEngine) : SyncMLCEngine :=
  let inputs := match inputs with inl d => [d] | inr l => l end in
  mkSync (sy_callback e) (sy_generates e) (sy_ffi e ++ [SyncCreateRequest request_id inputs cfg]).

(** [abort_request] *)
Definition sync_abort_request (request_id : string) (e : SyncMLCEngine) : SyncMLCEngine :=
  mkSync (sy_callback e) (sy_generates e) (sy_ffi e ++ [SyncAbortRequest request_id]).

(** [reset] *)
Definition sync_reset (e : SyncMLCEngine) : SyncMLCEngine :=
  mkSync (sy_callback e) (sy_generates e) (sy_ffi e ++ [SyncReset]).

(** ** [SyncMLCEngine.__init__] *)

Section SyncInit.
Context `{SE : SetupEnv}.

(** What the constructor sends to the C++ engine and keeps; the library paths
    that it writes back into [models] are not read again. *)
Record SyncInit : Type := mkSyncInit {
  si_conv_template : Conversation;
  si_model_config_dicts : list json;
  si_config : json;
  si_device : DeviceArg;
  si_callback : Callback;
  si_tracing : bool;
  si_tokenizer_path : string;
}.

Definition SyncMLCEngine_init (model : string) (device : string + DeviceArg) (model_lib : option string)
    (mode : string) (given : option EngineConfig) (enable_tracing : bool) (callback : Callback)
    : M Jit.World (SyncInit * SyncMLCEngine) := fun w =>
  match (let? config := (match given with Some c => Ok c | None => EngineConfig_new [] end) in
         let? _ := _check_engine_config model model_lib mode config in
         let? models := _parse_models model model_lib (field config "additional_models") in
         let? device := as_device device in
         Ok (config, models, device)) with
  | Raise e => (Raise e, w)
  | Ok (config, models, device) =>
      match _process_model_args models device config w with
      | (Raise e, w) => (Raise e, w)
      | (Ok (model_args, paths, conv), w) =>
          (let? dicts := rmap load_json paths in
           Ok (mkSyncInit conv dicts (asjson (resolve_config config model_args mode)) device callback
                 enable_tracing (fst (List.hd ("", "") model_args)),
               mkSync callback 0 []), w)
      end
  end.
End SyncInit.

(** ** Specification: one request on its own *)

(** The unpacked deltas of a request. *)
Definition Deltas : Type := list (string * list SingleRequestStreamOutput).

Definition deltas_of (r : nat) (us : Deltas) : list (list SingleRequestStreamOutput) :=
  map snd (List.filter (fun u => String.eqb (fst u) (pretty (Z.of_nat r))) us).

Record Answer : Type := mkAnswer {
  an_texts : list string;
  an_logprobs : option (list (list string));
  an_streamers : list streamer;
}.

Definition answer_init (cfg : GenerationConfig) : Answer :=
  mkAnswer (per_generation cfg "") (if g_logprobs cfg then Some (per_generation cfg []) else None)
    (per_generation cfg streamer_new).

(** One delta adds its text and log probabilities to every generation. *)
Definition answer_step (a : Answer) (sos : list SingleRequestStreamOutput) : Answer :=
  let '(outs, tss) := detok sos (an_streamers a) in
  mkAnswer (zip_with (fun old o => old +:+ co_delta_text o) (an_texts a) outs)
    (option_map (fun l => zip_with (fun old o => old ++ default [] (co_delta_logprob_json_strs o)) l outs)
       (an_logprobs a))
    tss.

(** What a request is answered when it is alone in the engine. *)
Definition answer_alone (cfg : GenerationConfig) (l : list (list SingleRequestStreamOutput)) : Answer :=
  fold_left answer_step l (answer_init cfg).

Definition finishes (sos : list SingleRequestStreamOutput) : Z :=
  Z.of_nat (length (List.filter (fun so => negb (is_none (so_finish_reason so))) sos)).

Definition finished (us : Deltas) : Z := fold_right (fun u n => finishes (snd u) + n) 0 us.

(** A delta about the generations of one of the requests. *)
Definition fits (cfgs : list GenerationConfig) (u : string * list SingleRequestStreamOutput) : Prop :=
  exists r cfg, fst u = pretty (Z.of_nat r) /\ cfgs !! r = Some cfg /\
    Z.of_nat (length (snd u)) = g_n cfg /\
    (g_logprobs cfg = true -> Forall (fun so => so_delta_logprob_json_strs so <> None) (snd u)).

Definition unpack_all (ds : list RequestStreamOutput) (us : Deltas) : Prop :=
  Forall2 (fun d u => unpack d = Ok u) ds us.
End SyncEngine.

(** ** Lemmas: the callback *)

Section CallbackLemmas.
Context `{IB : ImageBackend} `{TS : TextStreamerOps}.

Lemma py_index_nat {A} (l : list A) (i : nat) : (i < length l)%nat -> py_index l (Z.of_nat i) = Ok i.
Proof.
  intros Hi. unfold py_index.
  destruct (Z.leb_spec 0 (Z.of_nat i)); [|lia]. destruct (Z.ltb_spec (Z.of_nat i) (Z.of_nat (length l))); [|lia].
  cbn. by rewrite Nat2Z.id.
Qed.

Lemma nested_update_at {A} (l : list (list A)) r pre x post f : l !! r = Some (pre ++ x :: post) ->
  nested_update l r (length pre) f = Ok (<[r := pre ++ f x :: post]> l).
Proof.
  intros Hr. unfold nested_update. rewrite (list_getitem_lookup _ _ _ Hr). cbn [rbind].
  rewrite (list_getitem_lookup _ _ _ (lookup_mid pre x post)). cbn [rbind].
  rewrite setitem_mid. cbn [rbind]. apply list_setitem_total. by apply lookup_lt_Some in Hr.
Qed.

(** The variables of request [r], as the [Answer] they hold. *)
Definition row (s : Locals) (r : nat) : option Answer :=
  match output_texts s !! r, output_logprobs_str s !! r, text_streamers s !! r with
  | Some t, Some l, Some ss => Some (mkAnswer t l ss)
  | _, _, _ => None
  end.

Definition put_row (s : Locals) (r : nat) (a : Answer) (more : Z) : Locals :=
  mkLocals (num_finished_generations s + more) (<[r := an_texts a]> (output_texts s))
    (<[r := an_logprobs a]> (output_logprobs_str s)) (<[r := an_streamers a]> (text_streamers s)).

Lemma row_Some s r a : row s r = Some a <->
  output_texts s !! r = Some (an_texts a) /\ output_logprobs_str s !! r = Some (an_logprobs a) /\
  text_streamers s !! r = Some (an_streamers a).
Proof.
  unfold row. destruct a as [t l ss].
  destruct (output_texts s !! r), (output_logprobs_str s !! r), (text_streamers s !! r); naive_solver.
Qed.

Lemma row_put_eq s r a b more : row s r = Some a -> row (put_row s r b more) r = Some b.
Proof.
  rewrite !row_Some. intros (H1 & H2 & H3). cbn.
  by rewrite !list_lookup_insert_eq by (by eapply lookup_lt_Some).
Qed.

Lemma row_put_ne s r q b more : q <> r -> row (put_row s r b more) q = row s q.
Proof. intros Hne. unfold row, put_row. cbn. by rewrite !list_lookup_insert_ne by done. Qed.

Lemma put_put_row s r a b m n : put_row (put_row s r a m) r b n = put_row s r b (m + n).
Proof. unfold put_row. cbn. rewrite !list_insert_insert_eq. f_equal. lia. Qed.

Lemma put_row_id s r a : row s r = Some a -> put_row s r a 0 = s.
Proof.
  rewrite row_Some. intros (H1 & H2 & H3). unfold put_row. rewrite !list_insert_id by done.
  destruct s. cbn. f_equal. lia.
Qed.

(** The log probabilities fit the flag of the request. *)
Definition lps_fit (lps : option (list (list string))) (so : SingleRequestStreamOutput) : Prop :=
  lps = None \/ so_delta_logprob_json_strs so <> None.

Definition add_lps (so : SingleRequestStreamOutput) (old : list string) : list string :=
  old ++ default [] (so_delta_logprob_json_strs so).

(** The variables of one request, the generations before [i] apart. *)
Lemma one_output_spec s r a tp t tl lp lx ll sp ts sl so :
  row s r = Some a ->
  an_texts a = tp ++ t :: tl -> an_streamers a = sp ++ ts :: sl ->
  length tp = length sp ->
  (an_logprobs a = None \/ an_logprobs a = Some (lp ++ lx :: ll) /\ length lp = length sp) ->
  lps_fit (an_logprobs a) so ->
  one_output r (length sp) so s =
  (Ok tt, put_row s r
    (mkAnswer (tp ++ (t +:+ snd (delta_text so ts)) :: tl)
       (option_map (fun _ => lp ++ add_lps so lx :: ll) (an_logprobs a))
       (sp ++ fst (delta_text so ts) :: sl))
    (match so_finish_reason so with Some _ => 1 | None => 0 end)).
Proof.
  intros (H1 & H2 & H3)%row_Some Ht Hs Htp Hl Hfit. rewrite Ht in H1. rewrite Hs in H3.
  assert (Hadd : add_logprobs r (length sp) so s =
    (Ok tt, mkLocals (num_finished_generations s) (output_texts s)
       (<[r := option_map (fun _ => lp ++ add_lps so lx :: ll) (an_logprobs a)]> (output_logprobs_str s))
       (text_streamers s))).
  { unfold add_logprobs, mget, mlift, mbind', mmodify. rewrite (list_getitem_lookup _ _ _ H2).
    destruct Hl as [Hl|[Hl Hlp]]; rewrite Hl in *; cbn.
    - rewrite list_insert_id by done. by destruct s.
    - destruct Hfit as [Hfit|Hfit]; [done|]. unfold add_lps.
      destruct (so_delta_logprob_json_strs so) as [strs|]; [|done]. rewrite <- Hlp.
      rewrite (list_getitem_lookup _ _ _ (lookup_mid lp lx ll)). rewrite setitem_mid.
      rewrite list_setitem_total by (by eapply lookup_lt_Some). done. }
  unfold one_output. rewrite (mbind_Ok _ _ _ _ _ Hadd). unfold mget, mlift, mbind'. cbn.
  rewrite (list_getitem_lookup _ _ _ H3). rewrite (list_getitem_lookup _ _ _ (lookup_mid sp ts sl)).
  destruct (delta_text so ts) as [ts' delta] eqn:Ed. cbn.
  rewrite (nested_update_at _ _ _ _ _ _ H3). rewrite <- Htp, (nested_update_at _ _ _ _ _ _ H1). done.
Qed.

(** The rest of an answer, from the generation on which the loop is. *)
Definition rest_texts (tl : list string) (outs : list CallbackStreamOutput) : list string :=
  zip_with (fun old o => old +:+ co_delta_text o) tl outs.

Definition rest_lps (ll : list (list string)) (outs : list CallbackStreamOutput) : list (list string) :=
  zip_with (fun old o => old ++ default [] (co_delta_logprob_json_strs o)) ll outs.

Lemma finishes_cons so sos :
  finishes (so :: sos) = match so_finish_reason so with Some _ => 1 | None => 0 end + finishes sos.
Proof. unfold finishes. cbn. destruct (so_finish_reason so); cbn; lia. Qed.

Lemma each_output_spec sos : forall s r a tp tl lp L sp sl,
  row s r = Some a ->
  an_texts a = tp ++ tl -> an_streamers a = sp ++ sl -> an_logprobs a = option_map (fun ll => lp ++ ll) L ->
  length tp = length sp -> length tl = length sos -> length sl = length sos ->
  (forall ll, L = Some ll -> length lp = length sp /\ length ll = length sos) ->
  (L <> None -> Forall (fun so => so_delta_logprob_json_strs so <> None) sos) ->
  let outs := fst (detok sos sl) in
  each_output r (length sp) (length sl) sos s =
  (Ok tt, put_row s r
    (mkAnswer (tp ++ rest_texts tl outs) (option_map (fun ll => lp ++ rest_lps ll outs) L)
       (sp ++ snd (detok sos sl))) (finishes sos)).
Proof.
  induction sos as [|so sos IH]; intros s r a tp tl lp L sp sl Ha Ht Hs Hl Htp Htl Hsl HL HF.
  - destruct tl, sl; try done. cbn. replace (finishes []) with 0 by done. rewrite <- Ht, <- Hs.
    replace (option_map _ L) with (an_logprobs a).
    + destruct a. by rewrite put_row_id.
    + rewrite Hl. destruct L as [ll|]; cbn; [|done]. by destruct (HL ll eq_refl) as [_ ->%nil_length_inv].
  - destruct tl as [|t tl], sl as [|ts sl]; try done. cbn in Htl, Hsl. cbn [length each_output].
    assert (exists lx, L = None \/
      exists ll, L = Some (lx :: ll) /\ length lp = length sp /\ length ll = length sos) as [lx HL'].
    { destruct L as [ll|]; [|exists []; by left]. destruct (HL ll eq_refl) as [H1 H2].
      destruct ll as [|x ll]; [done|]. exists x. right. exists ll. cbn in *. by repeat split; try lia. }
    rewrite (mbind_Ok _ _ _ _ _ (one_output_spec s r a tp t tl lp lx (default [] (option_map tail L)) sp ts sl so
      Ha Ht Hs Htp ltac:(rewrite Hl; destruct HL' as [->|(ll & -> & ? & ?)]; [by left|by right])
      ltac:(rewrite Hl; destruct L; [right; by destruct (proj1 (Forall_cons _ _ _) (HF ltac:(done)))|by left]))).
    cbn [detok]. destruct (delta_text so ts) as [ts' text] eqn:Ed. cbn [fst snd].
    rewrite finishes_cons. replace (S (length sp)) with (length (sp ++ [ts'])) by (rewrite length_app; cbn; lia).
    match goal with |- each_output _ _ _ _ (put_row s r ?b ?m) = _ =>
      rewrite (IH (put_row s r b m) r b (tp ++ [t +:+ text]) tl (lp ++ [add_lps so lx]) (option_map tail L)
        (sp ++ [ts']) sl) end.
    + destruct (detok sos sl) as [outs sl']. cbn. rewrite put_put_row, <- !app_assoc. f_equal. f_equal. f_equal.
      destruct HL' as [->|(ll & -> & _ & _)]; cbn; [done|]. by rewrite <- app_assoc.
    + by eapply row_put_eq.
    + cbn. by rewrite <- app_assoc.
    + cbn. by rewrite <- app_assoc.
    + cbn. rewrite Hl. destruct HL' as [->|(ll & -> & _ & _)]; cbn; [done|]. by rewrite <- app_assoc.
    + rewrite !length_app. cbn. lia.
    + lia.
    + lia.
    + intros ll' Hll'. destruct HL' as [->|(ll & -> & ? & ?)]; [done|]. cbn in Hll'. injection Hll' as <-.
      rewrite !length_app. cbn. lia.
    + intros Hne. by destruct (proj1 (Forall_cons _ _ _) (HF ltac:(by destruct L))).
Qed.

(** The shape of a request's variables. *)
Definition answer_ok (cfg : GenerationConfig) (a : Answer) : Prop :=
  Z.of_nat (length (an_texts a)) = Z.max 0 (g_n cfg) /\ length (an_streamers a) = length (an_texts a) /\
  (if g_logprobs cfg then exists l, an_logprobs a = Some l /\ length l = length (an_texts a)
   else an_logprobs a = None).

Lemma detok_length sos : forall tss, length tss = length sos ->
  length (fst (detok sos tss)) = length sos /\ length (snd (detok sos tss)) = length sos.
Proof.
  induction sos as [|so sos IH]; intros [|ts tss] Hl; try done. cbn in Hl. cbn [detok].
  destruct (delta_text so ts) as [ts' text]. destruct (IH tss ltac:(lia)) as [H1 H2].
  destruct (detok sos tss) as [outs tss']. cbn in *. lia.
Qed.

Lemma answer_step_ok cfg a sos : answer_ok cfg a -> Z.of_nat (length sos) = g_n cfg ->
  answer_ok cfg (answer_step a sos).
Proof.
  intros (H1 & H2 & H3) Hn. unfold answer_step.
  destruct (detok_length sos (an_streamers a) ltac:(lia)) as [Ho Hs].
  destruct (detok sos (an_streamers a)) as [outs tss]. cbn in *.
  split; [|split]; cbn.
  - rewrite length_zip_with. lia.
  - rewrite length_zip_with. lia.
  - destruct (g_logprobs cfg); [|by rewrite H3]. destruct H3 as (l & -> & Hl). cbn. eexists. split; [done|].
    rewrite !length_zip_with. lia.
Qed.

Lemma answer_init_ok cfg : answer_ok cfg (answer_init cfg).
Proof.
  unfold answer_ok, answer_init, per_generation. cbn. rewrite !repeat_length. split; [lia|]. split; [done|].
  destruct (g_logprobs cfg); [|done]. eexists. split; [done|]. by rewrite repeat_length.
Qed.

(** The variables of every request hold an answer of the right shape. *)
Definition locals_ok (cfgs : list GenerationConfig) (s : Locals) : Prop :=
  forall r cfg, cfgs !! r = Some cfg -> exists a, row s r = Some a /\ answer_ok cfg a.

Lemma one_delta_spec cfgs d r cfg sos s a :
  unpack d = Ok (pretty (Z.of_nat r), sos) -> cfgs !! r = Some cfg -> Z.of_nat (length sos) = g_n cfg ->
  (g_logprobs cfg = true -> Forall (fun so => so_delta_logprob_json_strs so <> None) sos) ->
  row s r = Some a -> answer_ok cfg a ->
  one_delta cfgs d s = (Ok tt, put_row s r (answer_step a sos) (finishes sos)).
Proof.
  intros Hd Hc Hn Hlp Ha (H1 & H2 & H3). unfold one_delta, mlift, mget, mbind'. rewrite Hd.
  rewrite int_of_pretty, py_index_nat by (by eapply lookup_lt_Some).
  rewrite (list_getitem_lookup _ _ _ Hc). rewrite Hn, Z.eqb_refl. cbn [py_assert].
  apply row_Some in Ha as Ha'. destruct Ha' as (Hr1 & Hr2 & Hr3).
  rewrite (list_getitem_lookup _ _ _ Hr3).
  assert (HL : an_logprobs a = option_map (fun ll => [] ++ ll) (an_logprobs a)) by (by destruct (an_logprobs a)).
  pose proof (each_output_spec sos s r a [] (an_texts a) [] (an_logprobs a) [] (an_streamers a)
    Ha eq_refl eq_refl HL eq_refl ltac:(lia) ltac:(lia)) as Hspec.
  cbn [length] in Hspec. rewrite Hspec.
  - unfold answer_step. by destruct (detok sos (an_streamers a)) as [outs tss].
  - intros ll Hll. split; [done|]. destruct (g_logprobs cfg); [|congruence].
    destruct H3 as (l & Hl & Hlen). assert (l = ll) as -> by congruence. lia.
  - intros Hne. apply Hlp. destruct (g_logprobs cfg); [done|]. by rewrite H3 in Hne.
Qed.

Lemma finished_app us us' : finished (us ++ us') = finished us + finished us'.
Proof. unfold finished. induction us as [|u us IH]; cbn; lia. Qed.

Lemma deltas_of_app r us us' : deltas_of r (us ++ us') = deltas_of r us ++ deltas_of r us'.
Proof. unfold deltas_of. by rewrite List.filter_app, map_app. Qed.

Lemma pretty_nat_inj r q : pretty (Z.of_nat r) = pretty (Z.of_nat q) -> r = q.
Proof.
  intros H. assert (Ok (Z.of_nat r) = Ok (Z.of_nat q)) as [= ?]; [|lia].
  by rewrite <- !int_of_pretty, H.
Qed.

(** The variables after the deltas [us]: every request has what it would be
    answered alone. *)
Record served (cfgs : list GenerationConfig) (us : Deltas) (s : Locals) : Prop := {
  served_count : num_finished_generations s = finished us;
  served_texts : length (output_texts s) = length cfgs;
  served_lps : length (output_logprobs_str s) = length cfgs;
  served_rows : forall r cfg, cfgs !! r = Some cfg ->
    row s r = Some (answer_alone cfg (deltas_of r us)) /\ answer_ok cfg (answer_alone cfg (deltas_of r us));
}.

Lemma served_init cfgs : served cfgs [] (init_locals cfgs).
Proof.
  split; cbn; [done|by rewrite length_map..|]. intros r cfg Hr. split; [|apply answer_init_ok].
  apply row_Some. cbn. by rewrite !list_lookup_fmap, Hr.
Qed.

Lemma served_delta cfgs us s d u : served cfgs us s -> unpack d = Ok u -> fits cfgs u ->
  exists s', one_delta cfgs d s = (Ok tt, s') /\ served cfgs (us ++ [u]) s'.
Proof.
  intros [Hn Ht Hl Hrows] Hd (r & cfg & Hu & Hc & Hlen & Hlp). destruct u as [id sos]. cbn in *. subst id.
  destruct (Hrows r cfg Hc) as [Ha Hok]. eexists. split; [by eapply one_delta_spec|].
  split; cbn; rewrite ?length_insert; [|done..|].
  - rewrite Hn, finished_app. unfold finished at 3. cbn [fold_right snd]. lia.
  - intros q cfg' Hq. rewrite deltas_of_app. unfold answer_alone. rewrite fold_left_app.
    fold (answer_alone cfg' (deltas_of q us)). unfold deltas_of at 1 4. cbn. destruct (decide (q = r)) as [->|Hne].
    + rewrite String.eqb_refl. cbn. assert (cfg' = cfg) as -> by congruence.
      split; [by eapply row_put_eq|by apply answer_step_ok].
    + replace (pretty (Z.of_nat r) =? pretty (Z.of_nat q))%string with false; cbn.
      * rewrite row_put_ne by done. by apply Hrows.
      * symmetry. apply String.eqb_neq. intros H%pretty_nat_inj. done.
Qed.

Lemma served_callback cfgs ds us' : unpack_all ds us' -> Forall (fits cfgs) us' ->
  forall us s, served cfgs us s ->
  exists s', request_stream_callback cfgs ds s = (Ok tt, s') /\ served cfgs (us ++ us') s'.
Proof.
  unfold unpack_all. intros Hds. induction Hds as [|d u ds us' Hd Hds IH]; intros Hf us s Hs.
  - exists s. by rewrite app_nil_r.
  - apply Forall_cons in Hf as [Hu Hf]. destruct (served_delta cfgs us s d u Hs Hd Hu) as (s1 & H1 & Hs1).
    destruct (IH Hf _ _ Hs1) as (s2 & H2 & Hs2). exists s2. split.
    + cbn [request_stream_callback]. by rewrite (mbind_Ok _ _ _ _ _ H1).
    + by rewrite <- app_assoc in Hs2.
Qed.
End CallbackLemmas.

(** ** Lemmas: the requests and the steps *)

Section GenerateLemmas.
Context `{IB : ImageBackend} `{TS : TextStreamerOps}.
Variables (k : nat) (cfgs : list GenerationConfig).

Definition log (e : SyncMLCEngine) (calls : list SyncCall) : SyncMLCEngine :=
  mkSync (sy_callback e) (sy_generates e) (sy_ffi e ++ calls).

(** The batches of one call, unpacked. *)
Definition calls_back (batches : list (list RequestStreamOutput)) (us : Deltas) : Prop :=
  unpack_all (concat batches) us /\ Forall (fits cfgs) us.

Lemma calls_back_nil : calls_back [] [].
Proof. split; constructor. Qed.

Lemma sync_ffi_spec c batches us' us e s : sy_callback e = GenerateCallback k -> calls_back batches us' ->
  served cfgs us s ->
  exists s', sync_ffi k cfgs c batches (e, s) = (Ok tt, (log e [c], s')) /\ served cfgs (us ++ us') s'.
Proof.
  intros He [Hu Hf] Hs. destruct (served_callback cfgs _ us' Hu Hf us s Hs) as (s' & H & Hs').
  exists s'. split; [|done]. unfold sync_ffi. cbn. rewrite He.
  destruct (decide (GenerateCallback k = GenerateCallback k)); [|done]. unfold on_locals. rewrite H.
  unfold log. by rewrite He.
Qed.

(** The calls that add request number [i]. *)
Definition add_calls (p : nat * (list Data * GenerationConfig)) : list SyncCall :=
  let '(i, (data, cfg)) := p in
  [SyncCreateRequest (pretty (Z.of_nat i)) data cfg; SyncAddRequest (pretty (Z.of_nat i))].

Lemma add_requests_spec adds uadds prompts inputs : Forall2 calls_back adds uadds ->
  Forall2 (fun p d => convert_to_data p = Ok d) prompts inputs ->
  forall i l us e s, length inputs = length l -> (i + length l = length adds)%nat ->
  sy_callback e = GenerateCallback k -> served cfgs us s ->
  exists s', add_requests k cfgs adds i (combine prompts l) (e, s) =
    (Ok tt, (log e (flat_map add_calls (combine (seq i (length l)) (combine inputs l))), s')) /\
    served cfgs (us ++ concat (drop i uadds)) s'.
Proof.
  intros Hadds Hin. induction Hin as [|p d prompts inputs Hp Hin IH]; intros i [|cfg l] us e s Hl Hi He Hs; try done.
  - exists s. cbn. unfold log. rewrite app_nil_r. split; [by destruct e|].
    rewrite drop_ge by (apply Forall2_length in Hadds; cbn in Hi; lia). by rewrite app_nil_r.
  - cbn in Hl, Hi. destruct (lookup_lt_is_Some_2 adds i ltac:(lia)) as [b Hb].
    destruct (Forall2_lookup_l _ _ _ _ _ Hadds Hb) as (ub & Hub & Hcb).
    destruct (sync_ffi_spec (SyncCreateRequest (pretty (Z.of_nat i)) d cfg) [] [] us e s He calls_back_nil Hs)
      as (s1 & H1 & Hs1). rewrite app_nil_r in Hs1.
    destruct (sync_ffi_spec (SyncAddRequest (pretty (Z.of_nat i))) b ub us (log e
      [SyncCreateRequest (pretty (Z.of_nat i)) d cfg]) s1 He Hcb Hs1) as (s2 & H2 & Hs2).
    destruct (IH (S i) l _ (log (log e [SyncCreateRequest (pretty (Z.of_nat i)) d cfg])
      [SyncAddRequest (pretty (Z.of_nat i))]) s2 ltac:(lia) ltac:(lia) He Hs2) as (s3 & H3 & Hs3).
    exists s3. split.
    + cbn [combine add_requests]. unfold mlift at 1, mbind' at 1. rewrite Hp.
      rewrite (mbind_Ok _ _ _ _ _ H1). rewrite Hb. cbn [default]. rewrite (mbind_Ok _ _ _ _ _ H2), H3.
      unfold log. cbn. by rewrite <- !app_assoc.
    + rewrite (drop_S uadds ub i Hub). cbn. by rewrite <- app_assoc in Hs3.
Qed.

(** How many steps it takes until the count is reached. *)
Fixpoint steps_needed (n : Z) (usteps : list Deltas) : option nat :=
  if n =? total_generations cfgs then Some O
  else match usteps with
       | [] => None
       | us :: usteps => option_map S (steps_needed (n + finished us) usteps)
       end.

Lemma step_loop_spec steps usteps : Forall2 calls_back steps usteps -> forall us e s,
  sy_callback e = GenerateCallback k -> served cfgs us s ->
  let K := default (length usteps) (steps_needed (finished us) usteps) in
  exists s', step_loop k cfgs steps (e, s) =
    (Ok (negb (is_none (steps_needed (finished us) usteps))), (log e (repeat SyncStep K), s')) /\
    served cfgs (us ++ concat (take K usteps)) s'.
Proof.
  induction 1 as [|b ub steps usteps Hb _ IH]; intros us e s He Hs; cbn [step_loop steps_needed];
    unfold mget at 1, mbind' at 1; rewrite (served_count _ _ _ Hs);
    destruct (finished us =? total_generations cfgs); cbn [option_map default negb is_none take repeat length].
  - exists s. unfold log. rewrite !app_nil_r. by destruct e.
  - exists s. unfold log. rewrite !app_nil_r. by destruct e.
  - exists s. unfold log. rewrite !app_nil_r. by destruct e.
  - destruct (sync_ffi_spec SyncStep b ub us e s He Hb Hs) as (s1 & H1 & Hs1).
    destruct (IH _ (log e [SyncStep]) s1 He Hs1) as (s2 & H2 & Hs2). rewrite finished_app in H2, Hs2.
    exists s2. rewrite (mbind_Ok _ _ _ _ _ H1), H2.
    destruct (steps_needed (finished us + finished ub) usteps) as [K|]; cbn in *; unfold log; cbn;
      rewrite <- !app_assoc in *; done.
Qed.

(** The count grows, so it cannot jump over a total that it reaches. *)
Lemma steps_needed_some usteps : forall n, n + finished (concat usteps) = total_generations cfgs ->
  exists K, steps_needed n usteps = Some K /\ (K <= length usteps)%nat.
Proof.
  induction usteps as [|us usteps IH]; intros n Hn; cbn in *.
  - exists O. destruct (Z.eqb_spec n (total_generations cfgs)); [done|lia].
  - destruct (n =? total_generations cfgs); [exists O; split; [done|lia]|].
    rewrite finished_app in Hn. destruct (IH (n + finished us)) as (K & HK & Hle); [lia|].
    exists (S K). rewrite HK. split; [done|]. cbn. lia.
Qed.

Lemma steps_needed_none usteps : forall n, steps_needed n usteps = None ->
  n + finished (concat usteps) <> total_generations cfgs.
Proof. intros n Hn H. destruct (steps_needed_some _ _ H) as (K & HK & _). congruence. Qed.
End GenerateLemmas.

(** ** Theorems *)

Section Theorems.
Context `{IB : ImageBackend} `{TS : TextStreamerOps}.

Lemma config_list_length arg n cfgs : config_list arg n = Ok cfgs -> length cfgs = n.
Proof.
  unfold config_list. set (l := match arg with OneConfig c => _ | ConfigList l => l end).
  destruct (Nat.eqb_spec (length l) n) as [Hl|]; cbn; [|done]. by intros [= <-].
Qed.

(** The engine when all the requests are added. *)
Definition engine_added (e : SyncMLCEngine) (inputs : list (list Data)) (cfgs : list GenerationConfig)
  : SyncMLCEngine :=
  mkSync (GenerateCallback (sy_generates e)) (S (sy_generates e))
    (sy_ffi e ++ flat_map add_calls (combine (seq 0 (length cfgs)) (combine inputs cfgs))).

(** [generate] up to the loop. *)
Lemma generate_loop adds uadds steps prompts arg ps cfgs inputs e : prompt_list prompts = Ok ps -> ps <> [] ->
  config_list arg (length ps) = Ok cfgs -> Forall2 (fun p d => convert_to_data p = Ok d) ps inputs ->
  length adds = length ps -> Forall2 (calls_back cfgs) adds uadds ->
  exists s1, served cfgs (concat uadds) s1 /\
  generate adds steps prompts arg e =
  match step_loop (sy_generates e) cfgs steps (engine_added e inputs cfgs, s1) with
  | (Ok true, (e2, s2)) =>
      (Ok (Some (output_texts s2, output_logprobs_str s2)), mkSync (sy_callback e) (sy_generates e2) (sy_ffi e2))
  | (Ok false, (e2, _)) => (Ok None, e2)
  | (Raise x, (e2, _)) => (Raise x, e2)
  end.
Proof.
  intros Hp Hne Hc Hin Hla Hadds. pose proof (config_list_length _ _ _ Hc) as Hlc.
  pose proof (Forall2_length _ _ _ Hin) as Hli.
  destruct (add_requests_spec (sy_generates e) cfgs adds uadds ps inputs Hadds Hin 0 cfgs []
    (mkSync (GenerateCallback (sy_generates e)) (S (sy_generates e)) (sy_ffi e)) (init_locals cfgs)
    ltac:(lia) ltac:(cbn; lia) eq_refl (served_init cfgs)) as (s1 & H1 & Hs1).
  rewrite drop_0 in Hs1. exists s1. split; [done|].
  unfold generate. rewrite Hp. destruct ps as [|p ps]; [done|]. rewrite Hc.
  cbv zeta. unfold mbind' at 1. cbn [get_callback]. unfold mbind' at 1. cbn [set_callback sy_generates sy_ffi].
  rewrite (mbind_Ok _ _ _ _ _ H1). unfold mbind' at 1. change (log _ _) with (engine_added e inputs cfgs).
  destruct (step_loop (sy_generates e) cfgs steps (engine_added e inputs cfgs, s1)) as [[[]|x] [e2 s2]]; done.
Qed.

(** C16: the batched engine answers every prompt as if it were alone: when the
    C++ engine reports the end of every generation once, in whatever order and
    batches the deltas of the requests come, [generate] returns for every
    request the texts and log probabilities that its own deltas give, takes no
    step after the last end, and puts the caller's callback back.  Every delta
    is assumed to be for a request of the call, to have one output per
    generation of the request, and log probabilities when it asked for them
    ([calls_back]).  The final usage of a request, which the C++ engine sends as
    a single output without log probabilities, is such a delta for a request
    with one generation and without log probabilities only;
    [generate_fails_on_usage] is about the others. *)
Theorem generate_correct adds uadds steps usteps prompts arg ps cfgs inputs e :
  prompt_list prompts = Ok ps -> ps <> [] -> config_list arg (length ps) = Ok cfgs ->
  Forall2 (fun p d => convert_to_data p = Ok d) ps inputs -> length adds = length ps ->
  Forall2 (calls_back cfgs) adds uadds -> Forall2 (calls_back cfgs) steps usteps ->
  finished (concat uadds ++ concat usteps) = total_generations cfgs ->
  exists K texts lps, (K <= length usteps)%nat /\
    generate adds steps prompts arg e =
    (Ok (Some (texts, lps)), mkSync (sy_callback e) (S (sy_generates e))
      (sy_ffi e ++ flat_map add_calls (combine (seq 0 (length ps)) (combine inputs cfgs)) ++ repeat SyncStep K)) /\
    length texts = length ps /\ length lps = length ps /\
    forall r cfg, cfgs !! r = Some cfg ->
      let a := answer_alone cfg (deltas_of r (concat uadds ++ concat (take K usteps))) in
      texts !! r = Some (an_texts a) /\ lps !! r = Some (an_logprobs a).
Proof.
  intros Hp Hne Hc Hin Hla Hadds Hsteps Hfin. pose proof (config_list_length _ _ _ Hc) as Hlc.
  destruct (generate_loop adds uadds steps prompts arg ps cfgs inputs e) as (s1 & Hs1 & ->); [done..|].
  rewrite finished_app in Hfin. destruct (steps_needed_some cfgs usteps _ Hfin) as (K & HK & Hle).
  destruct (step_loop_spec (sy_generates e) cfgs steps usteps Hsteps _ (engine_added e inputs cfgs) s1 eq_refl Hs1)
    as (s2 & -> & Hs2). rewrite HK in *. cbn in Hs2.
  exists K, (output_texts s2), (output_logprobs_str s2). split; [done|].
  unfold log. cbn. rewrite Hlc, <- app_assoc. split; [done|].
  rewrite (served_texts _ _ _ Hs2), (served_lps _ _ _ Hs2). split; [done|]. split; [done|].
  intros r cfg Hr. destruct (served_rows _ _ _ Hs2 r cfg Hr) as [Ha _]. by apply row_Some in Ha as (? & ? & _).
Qed.

(** The final usage of a request with several generations, or with log
    probabilities, fails an assertion of the callback. *)
Lemma usage_delta_raises cfgs us s d r cfg u : served cfgs us s ->
  rso_request_id d = pretty (Z.of_nat r) -> rso_request_final_usage_json_str d = Some u ->
  cfgs !! r = Some cfg -> g_n cfg <> 1 \/ g_logprobs cfg = true ->
  one_delta cfgs d s = (Raise AssertionError, s).
Proof.
  intros Hs Hid Hu Hc Hcfg. destruct (served_rows _ _ _ Hs r cfg Hc) as [Ha (H1 & H2 & H3)].
  apply row_Some in Ha as (Hr1 & Hr2 & Hr3). unfold one_delta, mlift, mget, mbind', unpack. rewrite Hu, Hid.
  rewrite int_of_pretty, py_index_nat by (by eapply lookup_lt_Some).
  rewrite (list_getitem_lookup _ _ _ Hc). cbn [length].
  destruct (Z.eqb_spec (Z.of_nat 1) (g_n cfg)) as [Hn|Hn]; cbn [py_assert]; [|done].
  destruct Hcfg as [Hcfg|Hcfg]; [lia|]. rewrite Hcfg in H3. destruct H3 as (lps & Hlps & Hll).
  rewrite (list_getitem_lookup _ _ _ Hr3). replace (length (an_streamers _)) with 1%nat by lia.
  cbn [each_output]. unfold mbind'. unfold one_output, mbind'. unfold add_logprobs, mget, mlift, mbind'.
  by rewrite (list_getitem_lookup _ _ _ Hr2), Hlps.
Qed.

Lemma callback_raises cfgs ds1 us1 d ds2 us s : served cfgs us s -> unpack_all ds1 us1 -> Forall (fits cfgs) us1 ->
  (forall us s, served cfgs us s -> exists s', one_delta cfgs d s = (Raise AssertionError, s')) ->
  exists s', request_stream_callback cfgs (ds1 ++ d :: ds2) s = (Raise AssertionError, s').
Proof.
  intros Hs Hu Hf Hd. revert Hf us s Hs. induction Hu as [|d1 u ds1 us1 H1 _ IH]; intros Hf us s Hs; cbn.
  - destruct (Hd us s Hs) as [s' Hs']. exists s'. by rewrite (mbind_Raise _ _ _ _ _ Hs').
  - apply Forall_cons in Hf as [Hf1 Hf]. destruct (served_delta cfgs us s d1 u Hs H1 Hf1) as (s1 & E1 & Hs1).
    rewrite (mbind_Ok _ _ _ _ _ E1). by apply (IH Hf _ _ Hs1).
Qed.

Lemma step_loop_app k cfgs pre post st e1 s1 : step_loop k cfgs pre st = (Ok false, (e1, s1)) ->
  step_loop k cfgs (pre ++ post) st = step_loop k cfgs post (e1, s1).
Proof.
  revert st. induction pre as [|b pre IH]; intros [e s]; cbn [app step_loop]; unfold mget, mbind'.
  - destruct (num_finished_generations s =? total_generations cfgs) eqn:E; intros [= <- <-].
    destruct post; cbn [step_loop]; unfold mget, mbind'; by rewrite E.
  - destruct (num_finished_generations s =? total_generations cfgs); [done|].
    destruct (sync_ffi k cfgs SyncStep b (e, s)) as [[|] st']; [by apply IH|done].
Qed.

(** C17: the usage that the C++ engine sends behind the end of a request makes
    the call fail: with several generations or with log probabilities the
    callback raises an [AssertionError], [generate] ends with it, and its
    closure stays installed in the engine. *)
Theorem generate_fails_on_usage adds uadds pre upre batches post prompts arg ps cfgs inputs e ds1 us1 d ds2 r cfg u :
  prompt_list prompts = Ok ps -> ps <> [] -> config_list arg (length ps) = Ok cfgs ->
  Forall2 (fun p d => convert_to_data p = Ok d) ps inputs -> length adds = length ps ->
  Forall2 (calls_back cfgs) adds uadds -> Forall2 (calls_back cfgs) pre upre ->
  steps_needed cfgs (finished (concat uadds)) upre = None ->
  concat batches = ds1 ++ d :: ds2 -> unpack_all ds1 us1 -> Forall (fits cfgs) us1 ->
  rso_request_id d = pretty (Z.of_nat r) -> rso_request_final_usage_json_str d = Some u ->
  cfgs !! r = Some cfg -> g_n cfg <> 1 \/ g_logprobs cfg = true ->
  exists e', generate adds (pre ++ batches :: post) prompts arg e = (Raise AssertionError, e') /\
    sy_callback e' = GenerateCallback (sy_generates e).
Proof.
  intros Hp Hne Hc Hin Hla Hadds Hsteps Hnone Hb Hu1 Hf1 Hid Hu Hr Hcfg.
  destruct (generate_loop adds uadds (pre ++ batches :: post) prompts arg ps cfgs inputs e) as (s1 & Hs1 & ->); [done..|].
  destruct (step_loop_spec (sy_generates e) cfgs pre upre Hsteps _ (engine_added e inputs cfgs) s1 eq_refl Hs1)
    as (s2 & H2 & Hs2). pose proof (steps_needed_none _ _ _ Hnone) as Hn. rewrite Hnone in *. cbn in H2, Hs2.
  rewrite firstn_all in Hs2. rewrite (step_loop_app _ _ _ _ _ _ _ H2).
  destruct (callback_raises cfgs ds1 us1 d ds2 _ s2 Hs2 Hu1 Hf1) as [s3 H3].
  { intros us s Hs. exists s. by eapply usage_delta_raises. }
  cbn [step_loop]. unfold mget at 1, mbind' at 1.
  rewrite (served_count _ _ _ Hs2), finished_app, (proj2 (Z.eqb_neq _ _) Hn).
  unfold mbind' at 1. unfold sync_ffi, log. cbn. rewrite Hb.
  destruct (decide (GenerateCallback (sy_generates e) = GenerateCallback (sy_generates e))); [|done].
  rewrite H3. eexists. by split.
Qed.
End Theorems.

(** ** Witnesses: two requests in the same batches *)

Module SyncEngineWitness.
Import ConversationDemo StreamsWitness.

Definition config (n : Z) (logprobs : bool) : GenerationConfig :=
  mkGenerationConfig n None None None None None logprobs 0 None 8 None None None None None.

Definition engine0 : SyncMLCEngine := mkSync (UserCallback "print") 0 [].

Definition usage (id : string) : RequestStreamOutput := mkRSO id [] None [] (Some "usage") [].
Definition tokens (id : string) (l : list (list Z)) (reasons : list (option string)) : RequestStreamOutput :=
  mkRSO id l None reasons None (map (fun _ => "") l).

(** The first prompt is too long and refused at once; the other two are
    answered together, the third one in two generations. *)
Definition prompts : PyPrompt := PyList [PyStr "long"; PyList [PyInt 5]; PyList [PyData (TextData "hi")]].
Definition configs : list GenerationConfig := [config 1 false; config 1 false; config 2 false].
Definition adds : list (list (list RequestStreamOutput)) :=
  [[[tokens "0" [[]] [Some "length"]; usage "0"]]; []; []].
Definition steps : list (list (list RequestStreamOutput)) :=
  [[[tokens "2" [[1]; [2]] [None; None]; tokens "1" [[3]] [None]]]; [];
   [[tokens "1" [[1]] [Some "stop"]; usage "1"]; [tokens "2" [[]; [1]] [Some "stop"; Some "length"]]]].

Definition unpacked (batches : list (list RequestStreamOutput)) : Deltas :=
  map (fun d => match unpack d with Ok u => u | Raise _ => ("", []) end) (concat batches).

Ltac fit r := exists r; eexists; split; [vm_compute; reflexivity|]; split; [reflexivity|];
  split; [reflexivity|]; discriminate.
Ltac fits_all := split; [repeat constructor|]; cbn; repeat (constructor; [first [fit 0%nat|fit 1%nat|fit 2%nat]|]);
  try constructor.

Lemma adds_call_back : Forall2 (calls_back configs) adds (map unpacked adds).
Proof. repeat (constructor; [fits_all|]). constructor. Qed.
Lemma steps_call_back : Forall2 (calls_back configs) steps (map unpacked steps).
Proof. repeat (constructor; [fits_all|]). constructor. Qed.

Example generated : fst (generate adds steps prompts (ConfigList configs) engine0) =
  Ok (Some ([[""]; ["...."]; ["."; "..."]], [None; None; None])).
Proof. vm_compute. reflexivity. Qed.

Lemma generate_correct_witness :
  exists K texts lps, (K <= 3)%nat /\
    generate adds steps prompts (ConfigList configs) engine0 =
    (Ok (Some (texts, lps)), mkSync (UserCallback "print") 1
      ([] ++ flat_map add_calls (combine (seq 0 3)
        (combine [[TextData "long"]; [TokenData [5]]; [TextData "hi"]] configs)) ++ repeat SyncStep K)) /\
    length texts = 3%nat /\ length lps = 3%nat /\
    forall r cfg, configs !! r = Some cfg ->
      let a := answer_alone cfg (deltas_of r (concat (map unpacked adds) ++ concat (take K (map unpacked steps)))) in
      texts !! r = Some (an_texts a) /\ lps !! r = Some (an_logprobs a).
Proof.
  apply (generate_correct adds (map unpacked adds) steps (map unpacked steps) prompts (ConfigList configs)
    [PyStr "long"; PyList [PyInt 5]; PyList [PyData (TextData "hi")]] configs
    [[TextData "long"]; [TokenData [5]]; [TextData "hi"]] engine0).
  - reflexivity.
  - discriminate.
  - reflexivity.
  - repeat constructor.
  - reflexivity.
  - apply adds_call_back.
  - apply steps_call_back.
  - vm_compute. reflexivity.
Defined.

(** With the usage of the third request the call fails. *)
Lemma generate_fails_on_usage_witness :
  exists e', generate adds ([[[tokens "1" [[3]] [None]]]] ++
      [[tokens "1" [[]] [Some "stop"]; tokens "2" [[1]; [2]] [Some "stop"; Some "stop"]; usage "2"; usage "1"]] :: [])
      prompts (ConfigList configs) engine0 = (Raise AssertionError, e') /\
    sy_callback e' = GenerateCallback 0.
Proof.
  apply (generate_fails_on_usage adds (map unpacked adds) [[[tokens "1" [[3]] [None]]]]
    (map unpacked [[[tokens "1" [[3]] [None]]]])
    [[tokens "1" [[]] [Some "stop"]; tokens "2" [[1]; [2]] [Some "stop"; Some "stop"]; usage "2"; usage "1"]] []
    prompts (ConfigList configs) [PyStr "long"; PyList [PyInt 5]; PyList [PyData (TextData "hi")]] configs
    [[TextData "long"]; [TokenData [5]]; [TextData "hi"]] engine0
    [tokens "1" [[]] [Some "stop"]; tokens "2" [[1]; [2]] [Some "stop"; Some "stop"]]
    (unpacked [[tokens "1" [[]] [Some "stop"]; tokens "2" [[1]; [2]] [Some "stop"; Some "stop"]]])
    (usage "2") [usage "1"] 2 (config 2 false) "usage").
  - reflexivity.
  - discriminate.
  - reflexivity.
  - repeat constructor.
  - reflexivity.
  - apply adds_call_back.
  - repeat (constructor; [fits_all|]). constructor.
  - vm_compute. reflexivity.
  - reflexivity.
  - repeat constructor.
  - cbn. repeat (constructor; [first [fit 0%nat|fit 1%nat|fit 2%nat]|]). constructor.
  - vm_compute. reflexivity.
  - reflexivity.
  - reflexivity.
  - left. discriminate.
Defined.
End SyncEngineWitness.
