(* ===== verification/JsonFFI.v ===== *)
(** * The JSON FFI engine ([json_ffi/engine.py])

    The engine of the mobile and web runtimes, driven from Python: requests
    and responses cross the FFI as JSON strings.  The C++ side sends every
    chunk through one callback, which puts it into [EngineState.sync_queue];
    [handle_chat_completion] is a generator that makes a fresh queue, starts
    the request and reads the queue until the chunk with the usage.

    A generator object is modelled by the point where it is suspended.  The
    world of the client holds the engine state and all the generator objects;
    its steps are a [next] on a generator, an exception thrown into it (a
    [close] throws [GeneratorExit]), and a call of the callback by the C++
    thread, in any order. *)

From stdpp Require Import base list strings.
From Stdlib Require Import Ascii.
From S2P Require Import Prelude PyStr ModelPresets PyArgs CompilerFlags Jit EngineSetup.
From S2P Require Import Data Conversation OpenAI.
Local Open Scope string_scope.
Local Open Scope list_scope.

(** The calls into the C++ engine, in order. *)
Inductive JsonCall : Type :=
| JChatCompletion (request_json_str request_id : string)
| JAbort (request_id : string)
| JStartLoops
| JInitBackgroundEngine (device : DeviceArg)
| JReload (config : json)
| JUnload
| JReset
| JExitBackgroundLoop.

(** [json.loads] of a list of chunks, and what pydantic makes of the values. *)
Class JsonDecode := {
  loads_list : string -> res (list json);
  response_validate : json -> res ChatCompletionStreamResponse;
  message_validate : json -> res ChatCompletionMessage;
  stream_options_validate : json -> res StreamOptions;
  tool_validate : json -> res ChatTool;
  response_format_validate : json -> res RequestResponseFormat;
  debug_config_validate : json -> res DebugConfig;
  request_dump : ChatCompletionRequest -> string;  (* model_dump_json(by_alias=True) *)
}.

Section JsonFFI.
Context `{JD : JsonDecode}.

(** The queue the callback puts into, and the calls made. *)
Record JsonState : Type := mkJson { sync_queue : list string; js_ffi : list JsonCall }.

Definition json_ffi (c : JsonCall) (s : JsonState) : JsonState := mkJson (sync_queue s) (js_ffi s ++ [c]).

(** [_sync_request_stream_callback] *)
Definition put_nowait (chunk : string) (s : JsonState) : JsonState :=
  mkJson (sync_queue s ++ [chunk]) (js_ffi s).

(** ** [handle_chat_completion] *)

Record ChatCall : Type := mkChatCall {
  jc_request : string; jc_include_usage : bool; jc_request_id : string }.

(** Where the generator is: not started, at the [yield] inside the loop with
    the rest of the list, at the [yield] of the usage, or finished. *)
Inductive GenState : Type :=
| NotStarted
| Reading (rest : list json)
| AtUsage
| Exhausted.

(** What a [next] gives: a response, the end, an exception, or no return as
    long as the queue is empty. *)
Inductive Observed : Type :=
| Yielded (r : ChatCompletionStreamResponse)
| Stopped
| Raised (x : exn)
| Blocked.

(** The loop over the responses of one list; [None] at its end. *)
Definition read_list (include_usage : bool) (l : list json) : option (Observed * GenState) :=
  match l with
  | [] => None
  | j :: l =>
      Some (match response_validate j with
            | Raise x => (Raised x, Exhausted)
            | Ok r =>
                if is_none (sresp_usage r) then (Yielded r, Reading l)
                else if include_usage then (Yielded r, AtUsage) else (Stopped, Exhausted)
            end)
  end.

(** [while not last_chunk_arrived], the rest of a list being [l]. *)
Fixpoint read_queue (include_usage : bool) (l : list json) (queue : list string)
  : Observed * GenState * list string :=
  match read_list include_usage l with
  | Some (o, g) => (o, g, queue)
  | None =>
      match queue with
      | [] => (Blocked, Reading [], [])
      | chunk :: queue =>
          match loads_list chunk with
          | Raise x => (Raised x, Exhausted, queue)
          | Ok l => read_queue include_usage l queue
          end
      end
  end.

(** [except Exception]: the request is aborted and the exception goes on. *)
Definition handler (request_id : string) (x : exn) (s : JsonState) : JsonState :=
  if is_Exception x then json_ffi (JAbort request_id) s else s.

(** The generator from inside the loop. *)
Definition read_on (c : ChatCall) (l : list json) (s : JsonState) : Observed * GenState * JsonState :=
  let '(o, g, queue) := read_queue (jc_include_usage c) l (sync_queue s) in
  let s := mkJson queue (js_ffi s) in
  (o, g, match o with Raised x => handler (jc_request_id c) x s | _ => s end).

(** The answer of the FFI to [chat_completion]: whether it was accepted, and
    the chunks it sends back before it returns. *)
Definition FfiAnswer : Type := res bool * list string.

(** [next] on the generator; [success] is not looked at. *)
Definition gen_next (answer : FfiAnswer) (c : ChatCall) (g : GenState) (s : JsonState)
  : Observed * GenState * JsonState :=
  match g with
  | NotStarted =>
      let s := mkJson [] (js_ffi s) in
      let s := json_ffi (JChatCompletion (jc_request c) (jc_request_id c)) s in
      let s := fold_left (fun s chunk => put_nowait chunk s) (snd answer) s in
      match fst answer with
      | Raise x => (Raised x, Exhausted, s)
      | Ok success => read_on c [] s
      end
  | Reading l => read_on c l s
  | AtUsage | Exhausted => (Stopped, Exhausted, s)
  end.

(** An exception thrown into the generator; [close] throws [GeneratorExit]. *)
Definition gen_throw (x : exn) (c : ChatCall) (g : GenState) (s : JsonState)
  : Observed * GenState * JsonState :=
  match g with
  | NotStarted | Exhausted => (Raised x, Exhausted, s)
  | Reading _ | AtUsage => (Raised x, Exhausted, handler (jc_request_id c) x s)
  end.

(** ** Several generators of one engine *)

Record Client : Type := mkClient { cl_state : JsonState; cl_generators : list (ChatCall * GenState) }.

Inductive Event : Type :=
| Next (i : nat) (answer : FfiAnswer)
| Throw (i : nat) (x : exn)
| StreamBack (chunk : string).

(** One event, and what the client observes: the generator and the outcome. *)
Definition client_step (w : Client) (e : Event) : Client * option (nat * Observed) :=
  let run i f :=
    match cl_generators w !! i with
    | None => (w, None)
    | Some (c, g) =>
        let '(o, g, s) := f c g (cl_state w) in
        (mkClient s (<[i := (c, g)]> (cl_generators w)), Some (i, o))
    end in
  match e with
  | Next i answer => run i (gen_next answer)
  | Throw i x => run i (gen_throw x)
  | StreamBack chunk => (mkClient (put_nowait chunk (cl_state w)) (cl_generators w), None)
  end.

Fixpoint client_run (w : Client) (es : list Event) : Client * list (nat * Observed) :=
  match es with
  | [] => (w, [])
  | e :: es =>
      let '(w, o) := client_step w e in
      let '(w, os) := client_run w es in
      (w, option_list o ++ os)
  end.

(** ** [Completions.create] *)

Record CreateArgs : Type := mkCreateArgs {
  ca_messages : list json; ca_model : option string;
  ca_frequency_penalty : option pyfloat; ca_presence_penalty : option pyfloat;
  ca_logprobs : bool; ca_top_logprobs : Z; ca_logit_bias : option (list (Z * pyfloat));
  ca_max_tokens : option Z; ca_n : Z; ca_seed : option Z; ca_stop : option StopArg;
  ca_stream : bool; ca_stream_options : option json; ca_temperature : option pyfloat;
  ca_top_p : option pyfloat; ca_tools : option (list json); ca_tool_choice : option ToolChoice;
  ca_user : option string; ca_response_format : option json; ca_request_id : option string;
  ca_extra_body : option (dict json);
}.

Definition optional {A B} (f : A -> res B) (o : option A) : res (option B) :=
  match o with None => Ok None | Some a => let? b := f a in Ok (Some b) end.

(** The request, its parts validated in the order of the arguments, and its
    id; [uuid] is the random id.  The code runs at the first [next]. *)
Definition create_call (uuid : string) (a : CreateArgs) : res ChatCall :=
  let request_id := match ca_request_id a with None => "chatcmpl-" +:+ uuid | Some i => i end in
  let debug_config := match ca_extra_body a with
                      | None => None
                      | Some d => match dict_get d "debug_config" with Some JNull => None | v => v end
                      end in
  if negb (ca_stream a) then Raise (ValueError [Lit "JSONFFIEngine only support stream=True"])
  else
    let? messages := rmap message_validate (ca_messages a) in
    let? stream_options := optional stream_options_validate (ca_stream_options a) in
    let? tools := optional (rmap tool_validate) (ca_tools a) in
    let? response_format := optional response_format_validate (ca_response_format a) in
    let? debug_config := optional debug_config_validate debug_config in
    let? request := ChatCompletionRequest_validate
      {| ch_messages := messages; ch_model := ca_model a;
         ch_frequency_penalty := ca_frequency_penalty a; ch_presence_penalty := ca_presence_penalty a;
         ch_logprobs := ca_logprobs a; ch_top_logprobs := ca_top_logprobs a;
         ch_logit_bias := ca_logit_bias a; ch_max_tokens := ca_max_tokens a; ch_n := ca_n a;
         ch_seed := ca_seed a; ch_stop := ca_stop a; ch_stream := ca_stream a;
         ch_stream_options := stream_options; ch_temperature := ca_temperature a;
         ch_top_p := ca_top_p a; ch_tools := tools; ch_tool_choice := ca_tool_choice a;
         ch_user := ca_user a; ch_response_format := response_format; ch_debug_config := debug_config |} in
    Ok (mkChatCall (request_dump request)
          (negb (no_include_usage (ch_stream_options request))) request_id).
End JsonFFI.

(** ** The engine object *)

Section JsonEngine.
Context `{SE : SetupEnv}.

Record JSONFFIEngine : Type := mkJSONFFIEngine {
  je_tokenizer_path : string;
  je_engine_config : EngineConfig;
  je_terminated : bool;  (* of the background loops *)
}.

(** [JSONFFIEngine.__init__]: the loops run before the engine is initialised.
    The paths written back into [models] are not read again. *)
Definition JSONFFIEngine_init (model : string) (device : string + DeviceArg)
    (model_lib : option string) (mode : string) (given : option EngineConfig)
    : M (Jit.World * list JsonCall) JSONFFIEngine := fun s =>
  let '(w, log) := s in
  match (let? config := (match given with Some c => Ok c | None => EngineConfig_new [] end) in
         let? _ := _check_engine_config model model_lib mode config in
         let? models := _parse_models model model_lib (field config "additional_models") in
         let? device := as_device device in
         Ok (config, models, device)) with
  | Raise e => (Raise e, s)
  | Ok (config, models, device) =>
      match _process_model_args models device config w with
      | (Raise e, w) => (Raise e, (w, log))
      | (Ok (model_args, _, _), w) =>
          let config := resolve_config config model_args mode in
          (Ok (mkJSONFFIEngine (fst (List.hd ("", "") model_args)) config false),
           (w, log ++ [JStartLoops; JInitBackgroundEngine device; JReload (asjson config)]))
      end
  end.

(** [BackgroundLoops.terminate] *)
Definition json_terminate (e : JSONFFIEngine) (log : list JsonCall) : JSONFFIEngine * list JsonCall :=
  if je_terminated e then (e, log)
  else (mkJSONFFIEngine (je_tokenizer_path e) (je_engine_config e) true, log ++ [JExitBackgroundLoop]).

(** [_test_reload], [_test_reset] and [_test_unload] *)
Definition _test_reload (e : JSONFFIEngine) (log : list JsonCall) : list JsonCall :=
  log ++ [JReload (asjson (je_engine_config e))].
Definition _test_reset (log : list JsonCall) : list JsonCall := log ++ [JReset].
Definition _test_unload (log : list JsonCall) : list JsonCall := log ++ [JUnload].
End JsonEngine.

(** ** Specification: one stream *)

Section Specs.
Context `{JD : JsonDecode}.

(** What the client is to see of the responses of its request. *)
Fixpoint visible (include_usage : bool) (rs : list ChatCompletionStreamResponse)
  : list ChatCompletionStreamResponse :=
  match rs with
  | [] => []
  | r :: rs =>
      if is_none (sresp_usage r) then r :: visible include_usage rs
      else if include_usage then [r] else []
  end.

Definition complete (rs : list ChatCompletionStreamResponse) : bool :=
  existsb (fun r => negb (is_none (sresp_usage r))) rs.

(** The responses in a list and in a queue of chunks. *)
Definition decodes (l : list json) (rs : list ChatCompletionStreamResponse) : Prop :=
  Forall2 (fun j r => response_validate j = Ok r) l rs.

Definition chunk_decodes (chunk : string) (rs : list ChatCompletionStreamResponse) : Prop :=
  exists l, loads_list chunk = Ok l /\ decodes l rs.

(** The events of one stream after its start: a [next] and a chunk. *)
Inductive StreamEvent : Type := SNext | SChunk (chunk : string).

Definition stream_step (c : ChatCall) (g : GenState) (s : JsonState) (e : StreamEvent)
  : option Observed * GenState * JsonState :=
  match e with
  | SNext => let '(o, g, s) := gen_next (Ok true, []) c g s in (Some o, g, s)
  | SChunk chunk => (None, g, put_nowait chunk s)
  end.

Fixpoint stream_run (c : ChatCall) (g : GenState) (s : JsonState) (es : list StreamEvent)
  : list Observed * GenState * JsonState :=
  match es with
  | [] => ([], g, s)
  | e :: es =>
      let '(o, g, s) := stream_step c g s e in
      let '(os, g, s) := stream_run c g s es in
      (option_list o ++ os, g, s)
  end.

Definition yielded (os : list Observed) : list ChatCompletionStreamResponse :=
  flat_map (fun o => match o with Yielded r => [r] | _ => [] end) os.

Definition chunks (es : list StreamEvent) : list string :=
  flat_map (fun e => match e with SNext => [] | SChunk chunk => [chunk] end) es.
End Specs.

(** ** Lemmas *)

Section Lemmas.
Context `{JD : JsonDecode}.

Lemma visible_incomplete iu rs rs' : complete rs = false -> visible iu (rs ++ rs') = rs ++ visible iu rs'.
Proof.
  induction rs as [|r rs IH]; cbn; [done|]. intros H%orb_false_iff. destruct H as [Hr Hrs].
  apply negb_false_iff in Hr. rewrite Hr. by rewrite IH.
Qed.

Lemma complete_app rs rs' : complete (rs ++ rs') = complete rs || complete rs'.
Proof. apply existsb_app. Qed.

Lemma visible_complete iu rs rs' : complete rs = true -> visible iu (rs ++ rs') = visible iu rs.
Proof.
  induction rs as [|r rs IH]; cbn; [done|]. destruct (is_none (sresp_usage r)); [|done].
  cbn. intros H. by rewrite IH.
Qed.

(** The responses that a generator in the loop has not taken yet. *)
Definition holds (l : list json) (queue : list string) (rs : list ChatCompletionStreamResponse) : Prop :=
  exists rl rq, decodes l rl /\ Forall2 chunk_decodes queue rq /\ rs = rl ++ concat rq.

Lemma holds_put l queue rs chunk rs' : holds l queue rs -> chunk_decodes chunk rs' ->
  holds l (queue ++ [chunk]) (rs ++ rs').
Proof.
  intros (rl & rq & Hl & Hq & ->) Hc. exists rl, (rq ++ [rs']). split; [done|]. split.
  - apply Forall2_app; [done|]. by repeat constructor.
  - by rewrite concat_app, <- app_assoc; cbn; rewrite app_nil_r.
Qed.

Lemma read_queue_spec iu queue : forall l rs, holds l queue rs ->
  match rs with
  | [] => read_queue iu l queue = (Blocked, Reading [], [])
  | r :: rs =>
      exists queue',
      if is_none (sresp_usage r)
      then exists l', read_queue iu l queue = (Yielded r, Reading l', queue') /\ holds l' queue' rs
      else read_queue iu l queue = (if iu then Yielded r else Stopped, if iu then AtUsage else Exhausted, queue')
  end.
Proof.
  induction queue as [|chunk queue IH]; intros l rs (rl & rq & Hl & Hq & ->).
  - apply Forall2_nil_inv_l in Hq as ->. cbn [concat]. rewrite app_nil_r.
    destruct Hl as [|j r l rl Hj Hl]; [done|]. exists []. cbn [read_queue read_list]. rewrite Hj.
    destruct (is_none (sresp_usage r)); [|by destruct iu]. exists l. split; [done|]. exists rl, []. split; [done|].
    split; [constructor|]. cbn. by rewrite app_nil_r.
  - destruct Hl as [|j r l rl Hj Hl].
    + apply Forall2_cons_inv_l in Hq as (rc & rq' & (lc & Hlc & Hdc) & Hq & ->). cbn [read_queue read_list].
      rewrite Hlc. apply IH. by exists rc, rq'.
    + exists (chunk :: queue). cbn [read_queue read_list app]. rewrite Hj.
      destruct (is_none (sresp_usage r)); [|by destruct iu]. exists l. split; [done|]. by exists rl, rq.
Qed.

(** The generator and the queue, after [seen] of all the responses [all]. *)
Definition following (iu : bool) (g : GenState) (queue : list string)
    (all seen : list ChatCompletionStreamResponse) : Prop :=
  match g with
  | NotStarted => False
  | Reading l => exists rs, holds l queue rs /\ complete seen = false /\ all = seen ++ rs
  | AtUsage | Exhausted => complete all = true /\ seen = visible iu all
  end.

Definition next_outcome (iu : bool) (all seen : list ChatCompletionStreamResponse) : Observed :=
  match drop (length seen) (visible iu all) with
  | r :: _ => Yielded r
  | [] => if complete all then Stopped else Blocked
  end.

Lemma following_prefix iu g queue all seen : following iu g queue all seen ->
  exists rest, visible iu all = seen ++ rest.
Proof.
  destruct g as [|l| |]; [done| | |]; cbn.
  - intros (rs & _ & Hs & ->). eexists. by apply visible_incomplete.
  - intros [_ ->]. exists []. by rewrite app_nil_r.
  - intros [_ ->]. exists []. by rewrite app_nil_r.
Qed.

(** A [next] gives the first response that has not been seen. *)
Lemma next_spec c g s all seen : following (jc_include_usage c) g (sync_queue s) all seen ->
  exists g' s', gen_next (Ok true, []) c g s = (next_outcome (jc_include_usage c) all seen, g', s') /\
    js_ffi s' = js_ffi s /\
    following (jc_include_usage c) g' (sync_queue s') all
      (seen ++ yielded [next_outcome (jc_include_usage c) all seen]).
Proof.
  set (iu := jc_include_usage c). unfold next_outcome. destruct g as [|l| |]; [done| | |]; cbn [following].
  - intros (rs & Hh & Hs & ->). cbn [gen_next]. unfold read_on. fold iu.
    rewrite (visible_incomplete iu seen rs Hs), drop_app_length, complete_app, Hs. cbn [orb].
    pose proof (read_queue_spec iu (sync_queue s) l rs Hh) as Hr. destruct rs as [|r rs]; cbn [visible complete existsb].
    + rewrite Hr. eexists _, _. split; [done|]. split; [done|]. cbn. rewrite app_nil_r. exists [].
      rewrite app_nil_r. split; [|done]. exists [], []. repeat constructor.
    + destruct Hr as [q' Hr]. destruct (is_none (sresp_usage r)) eqn:Eu.
      * destruct Hr as (l' & -> & Hh'). eexists _, _. split; [done|]. split; [done|]. cbn.
        exists rs. split; [done|]. rewrite complete_app, Hs. cbn. rewrite Eu. split; [done|]. by rewrite <- app_assoc.
      * rewrite Hr. cbn [negb orb]. destruct iu eqn:Ei; (eexists _, _; split; [done|]; split; [done|]); cbn [following yielded flat_map];
          rewrite (visible_incomplete _ seen (r :: rs) Hs), complete_app, Hs; cbn; rewrite Eu; cbn; by rewrite ?app_nil_r.
  - intros [Hc ->]. eexists _, _. cbn [gen_next]. rewrite drop_all, Hc. split; [done|]. split; [done|].
    cbn. by rewrite app_nil_r.
  - intros [Hc ->]. eexists _, _. cbn [gen_next]. rewrite drop_all, Hc. split; [done|]. split; [done|].
    cbn. by rewrite app_nil_r.
Qed.

Lemma chunk_spec iu g queue all seen chunk rs : following iu g queue all seen -> chunk_decodes chunk rs ->
  following iu g (queue ++ [chunk]) (all ++ rs) seen.
Proof.
  destruct g as [|l| |]; [done| | |]; cbn.
  - intros (rs0 & Hh & Hs & ->) Hc. exists (rs0 ++ rs). split; [by apply holds_put|]. by rewrite <- app_assoc.
  - intros [Hc ->] _. by rewrite complete_app, Hc, visible_complete.
  - intros [Hc ->] _. by rewrite complete_app, Hc, visible_complete.
Qed.

Lemma yielded_app os os' : yielded (os ++ os') = yielded os ++ yielded os'.
Proof. apply flat_map_app. Qed.

Lemma stream_run_spec c es : forall g s all seen rss,
  following (jc_include_usage c) g (sync_queue s) all seen -> Forall2 chunk_decodes (chunks es) rss ->
  exists os g' s', stream_run c g s es = (os, g', s') /\ js_ffi s' = js_ffi s /\
    following (jc_include_usage c) g' (sync_queue s') (all ++ concat rss) (seen ++ yielded os).
Proof.
  induction es as [|[|chunk] es IH]; intros g s all seen rss Hf Hc; cbn [chunks flat_map app] in Hc.
  - apply Forall2_nil_inv_l in Hc as ->. exists [], g, s. cbn. by rewrite !app_nil_r.
  - destruct (next_spec c g s all seen Hf) as (g1 & s1 & H1 & Hffi1 & Hf1).
    destruct (IH _ _ _ _ _ Hf1 Hc) as (os & g2 & s2 & H2 & Hffi2 & Hf2).
    eexists (_ :: os), g2, s2. cbn [stream_run stream_step]. rewrite H1, H2. split; [done|].
    split; [congruence|]. rewrite <- app_assoc, <- yielded_app in Hf2. done.
  - apply Forall2_cons_inv_l in Hc as (rs & rss' & Hrs & Hc & ->).
    pose proof (chunk_spec _ _ _ _ _ _ _ Hf Hrs) as Hf1.
    destruct (IH g (put_nowait chunk s) _ _ _ Hf1 Hc) as (os & g2 & s2 & H2 & Hffi2 & Hf2).
    exists os, g2, s2. cbn [stream_run stream_step]. rewrite H2. split; [done|]. split; [done|].
    by rewrite <- app_assoc in Hf2.
Qed.

Lemma fold_put sync s : fold_left (fun s chunk => put_nowait chunk s) sync s =
  mkJson (sync_queue s ++ sync) (js_ffi s).
Proof.
  revert s. induction sync as [|chunk sync IH]; intros s; cbn; [rewrite app_nil_r; by destruct s|].
  rewrite IH. cbn. by rewrite <- app_assoc.
Qed.

(** The first [next]: the queue of the new request holds what came at once. *)
Lemma json_start_spec c success sync rss s : Forall2 chunk_decodes sync rss ->
  exists o g s', gen_next (Ok success, sync) c NotStarted s = (o, g, s') /\
    o = next_outcome (jc_include_usage c) (concat rss) [] /\
    js_ffi s' = js_ffi s ++ [JChatCompletion (jc_request c) (jc_request_id c)] /\
    following (jc_include_usage c) g (sync_queue s') (concat rss) (yielded [o]).
Proof.
  intros Hs. cbn [gen_next snd fst]. rewrite fold_put. cbn [sync_queue js_ffi json_ffi app].
  assert (Hf : following (jc_include_usage c) (Reading []) sync (concat rss) []).
  { exists (concat rss). split; [|done]. exists [], rss. by split; [constructor|]. }
  destruct (next_spec c (Reading []) (mkJson sync (js_ffi s ++ [JChatCompletion (jc_request c) (jc_request_id c)]))
    _ _ Hf) as (g & s' & H & Hffi & Hf'). cbn [gen_next] in H. eexists _, g, s'. split; [exact H|]. done.
Qed.
End Lemmas.

Section Theorems.
Context `{JD : JsonDecode}.

(** C18: a stream of the JSON engine alone in its engine: whatever the order in
    which the C++ thread sends chunks and the client asks, the client sees a
    prefix of the visible responses, every [next] gives the first response not
    yet seen, or the end exactly when all are seen and the usage has come, and
    waits otherwise; the request is made once and not aborted. *)
Theorem json_stream_correct c success sync rsync es rss s os g s' o g0 s0 :
  Forall2 chunk_decodes sync rsync -> Forall2 chunk_decodes (chunks es) rss ->
  gen_next (Ok success, sync) c NotStarted s = (o, g0, s0) -> stream_run c g0 s0 es = (os, g, s') ->
  let all := concat rsync ++ concat rss in
  let seen := yielded (o :: os) in
  js_ffi s' = js_ffi s ++ [JChatCompletion (jc_request c) (jc_request_id c)] /\
  (exists rest, visible (jc_include_usage c) all = seen ++ rest) /\
  fst (fst (gen_next (Ok true, []) c g s')) =
    match drop (length seen) (visible (jc_include_usage c) all) with
    | r :: _ => Yielded r
    | [] => if complete all then Stopped else Blocked
    end.
Proof.
  intros Hsync Hes H0 Hrun. destruct (json_start_spec c success sync rsync s Hsync) as (o' & g' & s1 & E & _ & Hffi & Hf).
  rewrite H0 in E. injection E as <- <- <-.
  destruct (stream_run_spec c es g0 s0 _ _ _ Hf Hes) as (os' & g2 & s2 & E & Hffi2 & Hf2).
  rewrite Hrun in E. injection E as <- <- <-. rewrite <- yielded_app in Hf2.
  cbv zeta. split; [congruence|]. split; [by eapply following_prefix|].
  destruct (next_spec c g s' _ _ Hf2) as (g3 & s3 & -> & _). done.
Qed.

(** Abort calls of a request id. *)
Definition aborts_of (request_id : string) (log : list JsonCall) : nat :=
  length (List.filter (fun c => match c with JAbort r => String.eqb r request_id | _ => false end) log).

Lemma aborts_app id log log' : aborts_of id (log ++ log') = (aborts_of id log + aborts_of id log')%nat.
Proof. unfold aborts_of. by rewrite List.filter_app, length_app. Qed.

Lemma gen_next_aborts id answer c g s : g = Exhausted \/ jc_request_id c <> id ->
  aborts_of id (js_ffi (snd (gen_next answer c g s))) = aborts_of id (js_ffi s) /\
  (g = Exhausted -> snd (fst (gen_next answer c g s)) = Exhausted).
Proof.
  intros H. split; [|by intros ->].
  assert (Hread : jc_request_id c <> id -> forall l s, aborts_of id (js_ffi (snd (read_on c l s))) = aborts_of id (js_ffi s)).
  { intros Hid l s0. unfold read_on. destruct (read_queue (jc_include_usage c) l (sync_queue s0)) as [[o g'] q].
    destruct o; try done. cbn [snd]. unfold handler.
    destruct (is_Exception x); [|done]. cbn [json_ffi js_ffi]. rewrite aborts_app.
    unfold aborts_of at 2. cbn. destruct (String.eqb_spec (jc_request_id c) id); [done|cbn; lia]. }
  destruct g as [|l| |]; cbn [gen_next]; try done.
  - destruct H as [|H]; [done|]. rewrite fold_put. destruct (fst answer) as [b|x].
    + rewrite Hread by done. cbn [json_ffi js_ffi]. rewrite aborts_app. cbn. lia.
    + cbn [snd json_ffi js_ffi]. rewrite aborts_app. cbn. lia.
  - destruct H as [|H]; [done|]. by apply Hread.
Qed.

Lemma gen_throw_aborts id x c g s : g = Exhausted \/ jc_request_id c <> id ->
  aborts_of id (js_ffi (snd (gen_throw x c g s))) = aborts_of id (js_ffi s) /\
  snd (fst (gen_throw x c g s)) = Exhausted.
Proof.
  intros H. split; [|by destruct g].
  assert (jc_request_id c <> id -> aborts_of id (js_ffi (handler (jc_request_id c) x s)) = aborts_of id (js_ffi s)) as Hh.
  { intros Hid. unfold handler. destruct (is_Exception x); [|done]. cbn [json_ffi js_ffi]. rewrite aborts_app.
    unfold aborts_of at 2. cbn. destruct (String.eqb_spec (jc_request_id c) id); [done|cbn; lia]. }
  destruct g; try done; destruct H as [|H]; try done; by apply Hh.
Qed.

(** The generators with request id [id] are exhausted. *)
Definition all_closed (id : string) (w : Client) : Prop :=
  forall i c g, cl_generators w !! i = Some (c, g) -> g = Exhausted \/ jc_request_id c <> id.

Lemma client_step_aborts id w e : all_closed id w ->
  aborts_of id (js_ffi (cl_state (fst (client_step w e)))) = aborts_of id (js_ffi (cl_state w)) /\
  all_closed id (fst (client_step w e)).
Proof.
  intros Hw. destruct e as [i answer|i x|chunk]; cbn [client_step]; [| |by split].
  - destruct (cl_generators w !! i) as [[c g]|] eqn:Ei; [|done].
    destruct (gen_next_aborts id answer c g (cl_state w) (Hw i c g Ei)) as [Ha Hg].
    destruct (gen_next answer c g (cl_state w)) as [[o g'] s']. split; [done|].
    intros j c' g2. cbn. destruct (decide (i = j)) as [<-|Hne].
    + rewrite list_lookup_insert_eq by (by eapply lookup_lt_Some). intros [= <- <-].
      destruct (Hw i c g Ei) as [->|]; [left; by apply Hg|by right].
    + rewrite list_lookup_insert_ne by done. apply Hw.
  - destruct (cl_generators w !! i) as [[c g]|] eqn:Ei; [|done].
    destruct (gen_throw_aborts id x c g (cl_state w) (Hw i c g Ei)) as [Ha Hg].
    destruct (gen_throw x c g (cl_state w)) as [[o g'] s']. split; [done|].
    intros j c' g2. cbn. destruct (decide (i = j)) as [<-|Hne].
    + rewrite list_lookup_insert_eq by (by eapply lookup_lt_Some). intros [= <- <-]. by left.
    + rewrite list_lookup_insert_ne by done. apply Hw.
Qed.

Lemma client_run_aborts id es : forall w, all_closed id w ->
  aborts_of id (js_ffi (cl_state (fst (client_run w es)))) = aborts_of id (js_ffi (cl_state w)).
Proof.
  induction es as [|e es IH]; intros w Hw; cbn [client_run]; [done|].
  destruct (client_step_aborts id w e Hw) as [Ha Hw']. destruct (client_step w e) as [w1 o].
  specialize (IH w1 Hw'). destruct (client_run w1 es) as [w2 os]. cbn in *. congruence.
Qed.

(** A client that drops its stream leaves the request running: the generator
    is closed with [GeneratorExit], which [except Exception] does not catch,
    and nothing that happens later aborts the request. *)
Theorem abandoned_stream_runs_on w i c g es : cl_generators w !! i = Some (c, g) ->
  (forall j c' g', j <> i -> cl_generators w !! j = Some (c', g') -> jc_request_id c' <> jc_request_id c) ->
  aborts_of (jc_request_id c) (js_ffi (cl_state (fst (client_run w (Throw i GeneratorExit :: es))))) =
  aborts_of (jc_request_id c) (js_ffi (cl_state w)).
Proof.
  intros Hi Hother. cbn [client_run client_step]. rewrite Hi.
  assert (exists o, gen_throw GeneratorExit c g (cl_state w) = (o, Exhausted, cl_state w)) as [o ->]
    by (destruct g; by eexists).
  match goal with |- context [client_run ?w1 es] =>
    pose proof (client_run_aborts (jc_request_id c) es w1) as Hrun; destruct (client_run w1 es) as [w2 os] end.
  cbn in *. apply Hrun. intros j c' g'. cbn. destruct (decide (i = j)) as [<-|Hne].
  - rewrite list_lookup_insert_eq by (by eapply lookup_lt_Some). intros [= <- <-]. by left.
  - rewrite list_lookup_insert_ne by done. intros Hj. right. by apply (Hother j c' g').
Qed.

(** Two streams of one engine do not mix safely: a second request replaces
    the queue of the first, so the responses waiting there are lost, and the
    next response of the second request goes to whichever stream asks first. *)
Theorem second_stream_takes_over w i j ci cj success chunk r answer :
  i <> j -> cl_generators w !! i = Some (ci, Reading []) -> cl_generators w !! j = Some (cj, NotStarted) ->
  chunk_decodes chunk [r] -> sresp_usage r = None ->
  snd (client_run w [Next j (Ok success, []); StreamBack chunk; Next i answer; Next j answer]) =
  [(j, Blocked); (i, Yielded r); (j, Blocked)].
Proof.
  intros Hij Hi Hj (l & Hl & Hd) Hu.
  apply Forall2_cons_inv_r in Hd as (v & l' & Hv & Hd & ->). apply Forall2_nil_inv_r in Hd as ->.
  cbn [client_run client_step]. rewrite Hj. cbn [gen_next snd fst fold_left]. unfold read_on at 1.
  cbn [read_queue read_list sync_queue js_ffi json_ffi cl_generators cl_state].
  rewrite list_lookup_insert_ne, Hi by done. cbn [gen_next]. unfold read_on at 1.
  cbn [sync_queue put_nowait app read_queue read_list]. rewrite Hl. cbn [read_queue read_list]. rewrite Hv, Hu.
  cbn [is_none cl_generators cl_state]. rewrite list_lookup_insert_ne by done.
  rewrite list_lookup_insert_eq by (by eapply lookup_lt_Some). done.
Qed.
End Theorems.

(** ** Witnesses *)

Module JsonFFIWitness.
Definition chunk_of (s : string) : ChatCompletionStreamResponse :=
  {| sresp_id := s; sresp_choices := []; sresp_model := None; sresp_system_fingerprint := "";
     sresp_usage := if String.eqb s "usage" then Some (mkCompletionUsage 0%Z 0%Z 0%Z None) else None |}.

(** Chunks are words separated by spaces. *)
#[export] Instance words : JsonDecode :=
  {| loads_list s := Ok (map JStr (str_split " "%char s));
     response_validate j := match j with JStr s => Ok (chunk_of s) | _ => Raise ValidationError end;
     message_validate _ := Raise ValidationError; stream_options_validate _ := Raise ValidationError;
     tool_validate _ := Raise ValidationError; response_format_validate _ := Raise ValidationError;
     debug_config_validate _ := Raise ValidationError; request_dump _ := "" |}.

Definition call (id : string) : ChatCall := mkChatCall "{}" true id.

Lemma words_decode s rs : map JStr (str_split " "%char s) = map (fun r => JStr (sresp_id r)) rs ->
  Forall (fun r => chunk_of (sresp_id r) = r) rs -> chunk_decodes s rs.
Proof.
  intros Hw Hr. exists (map JStr (str_split " "%char s)). split; [done|]. rewrite Hw. clear Hw.
  induction Hr as [|r rs Hr _ IH]; cbn; constructor; [|done]. cbn. by rewrite Hr.
Qed.

Definition events : list StreamEvent := [SNext; SChunk "b c"; SNext; SNext; SNext; SChunk "usage"].
Definition start := gen_next (Ok false, ["a"]) (call "1") NotStarted (mkJson ["old"] []).
Definition ran := stream_run (call "1") (snd (fst start)) (snd start) events.

Lemma json_stream_correct_witness :
  let all := concat [[chunk_of "a"]] ++ concat [[chunk_of "b"; chunk_of "c"]; [chunk_of "usage"]] in
  let seen := yielded (fst (fst start) :: fst (fst ran)) in
  js_ffi (snd ran) = [] ++ [JChatCompletion "{}" "1"] /\
  (exists rest, visible true all = seen ++ rest) /\
  fst (fst (gen_next (Ok true, []) (call "1") (snd (fst ran)) (snd ran))) =
    match drop (length seen) (visible true all) with
    | r :: _ => Yielded r
    | [] => if complete all then Stopped else Blocked
    end.
Proof.
  apply (json_stream_correct (call "1") false ["a"] [[chunk_of "a"]] events
    [[chunk_of "b"; chunk_of "c"]; [chunk_of "usage"]] (mkJson ["old"] []) (fst (fst ran)) (snd (fst ran)) (snd ran)
    (fst (fst start)) (snd (fst start)) (snd start)).
  - repeat constructor. apply words_decode; [reflexivity|repeat constructor].
  - repeat (constructor; [apply words_decode; [reflexivity|repeat constructor]|]). constructor.
  - reflexivity.
  - reflexivity.
Defined.

Example seen_and_blocked : fst (fst ran) = [Blocked; Yielded (chunk_of "b"); Yielded (chunk_of "c"); Blocked] /\
  fst (fst (gen_next (Ok true, []) (call "1") (snd (fst ran)) (snd ran))) = Yielded (chunk_of "usage").
Proof. split; vm_compute; reflexivity. Qed.

Definition two : Client := mkClient (mkJson ["lost"] []) [(call "1", Reading []); (call "2", NotStarted)].

Lemma second_stream_takes_over_witness :
  snd (client_run two [Next 1 (Ok true, []); StreamBack "b"; Next 0 (Ok true, []); Next 1 (Ok true, [])]) =
  [(1%nat, Blocked); (0%nat, Yielded (chunk_of "b")); (1%nat, Blocked)].
Proof.
  apply (second_stream_takes_over two 0 1 (call "1") (call "2") true "b" (chunk_of "b") (Ok true, [])).
  - discriminate.
  - reflexivity.
  - reflexivity.
  - apply words_decode; [reflexivity|repeat constructor].
  - reflexivity.
Defined.

(** The stream of the first request is closed while it is served. *)
Example abandoned :
  js_ffi (cl_state (fst (client_run two [Next 1 (Ok true, []); Throw 1 GeneratorExit; StreamBack "b"]))) =
  [JChatCompletion "{}" "2"].
Proof. vm_compute. reflexivity. Qed.
End JsonFFIWitness.
