(* ===== verification/WeightMap.v ===== *)
(** * Weight maps: what the loaders of the model families have in common

    [model/*/*_loader.py] say, for every parameter of a model, from which
    tensors of the weight files it is made and how.  This file has the parts
    they share: the calls that fill an [ExternMapping], the functions that
    combine tensors, and what makes a weight map right.

    The networks are TVM modules; building one, changing its type, quantizing
    it and exporting the names and types of its parameters is the class
    [Networks].  The numpy operations are the class [Numpy]; they may raise. *)

From Stdlib Require Import SpecFloat Ascii.
From stdpp Require Import base list strings pretty.
From S2P Require Import Prelude PyStr Loader.
From S2P Require Import PyNum ModelConfig.
Local Open Scope string_scope.
Local Open Scope list_scope.
Local Open Scope Z_scope.

(** ** Arrays *)

Class Numpy `{WF : WeightFiles} := {
  np_concatenate : list array -> Z -> res array;
  np_stack : list array -> Z -> res array;
  astype : array -> json -> res array;
  np_shape : array -> list json;
  np_reshape : array -> list json -> res array;
  (** [np.split(x, sections, axis)], by a number or by indices *)
  np_split : array -> json -> Z -> res (list array);
  (** [x.transpose( *axes )]; no axes reverse all *)
  np_transpose : array -> list Z -> res array;
  np_add : array -> Z -> res array;
  np_divide : array -> json -> res array;
  np_exp : array -> res array;
  np_negative : array -> res array;
}.

(** ** Networks *)

(** A parameter of an exported network: its [dtype]. *)
Record MlcParam : Set := mkMlcParam { dtype : string }.

(** What the loaders read of a quantization scheme. *)
Record Quantization : Set := mkQuantization {
  model_dtype : string;
  is_block_scale : bool;
  weight_block_size : list Z;
}.

Class Networks := {
  network : Type;
  build : string -> obj -> res network;
  to_dtype : network -> string -> network;
  (** [quantization.quantize_model(model, QuantizeMapping({}, {}), "")] *)
  quantize_model : Quantization -> network -> res network;
  (** [awq_quant(model_config, quantization)] of the family *)
  awq_quant : string -> obj -> option Quantization -> res network;
  (** [model.export_tvm(spec=model.get_default_spec(), allow_extern=allow_extern)];
      the module, and the external modules that [allow_extern=True] adds to the
      result, are not used *)
  export_tvm : bool -> network -> res (list (string * MlcParam));
}.

Section WeightMap.
Context `{WF : WeightFiles} `{NP : !Numpy} `{NN : Networks}.

Definition MapFunc : Type := list array -> res array.

(** ** Functions on tensors *)

(** [lambda x, dtype: x.astype(dtype)] *)
Definition cast (dtype : json) : MapFunc := fun xs =>
  match xs with [x] => astype x dtype | _ => Raise TypeError end.

(** [lambda x1, ..., xn, dtype: np.concatenate([x1, ..., xn], axis=axis).astype(dtype)] *)
Definition concat_cast (n : nat) (axis : Z) (dtype : json) : MapFunc := fun xs =>
  if Nat.eqb (length xs) n
  then let? x := np_concatenate xs axis in astype x dtype
  else Raise TypeError.

(** [lambda x, dtype: (x + 1).astype(dtype)] *)
Definition add_one (dtype : json) : MapFunc := fun xs =>
  match xs with [x] => let? y := np_add x 1 in astype y dtype | _ => Raise TypeError end.

(** [lambda *hf_params, dtype: np.stack(hf_params, axis=0).astype(dtype)] *)
Definition stack_cast (dtype : json) : MapFunc := fun xs =>
  let? x := np_stack xs 0 in astype x dtype.

(** [combine_expert_gate_up]: the pairs concatenated, then stacked. *)
Fixpoint concat_pairs (xs : list array) : res (list array) :=
  match xs with
  | [] => Ok []
  | [_] => Raise IndexError
  | x :: y :: xs => let? c := np_concatenate [x; y] 0 in
                    let? cs := concat_pairs xs in Ok (c :: cs)
  end.
Definition combine_expert_gate_up (dtype : json) : MapFunc := fun xs =>
  let? stack := concat_pairs xs in
  let? x := np_stack stack 0 in astype x dtype.

(** [lambda x, dtype: x.transpose().astype(dtype)] *)
Definition transpose_cast (dtype : json) : MapFunc := fun xs =>
  match xs with [x] => let? y := np_transpose x [] in astype y dtype | _ => Raise TypeError end.

(** [lambda x, dtype, t: x.astype(dtype) / 2**t]; an integer [t] is not
    negative here, a float one is not modelled. *)
Definition pow2 (t : json) : res json :=
  match t with JInt t => Ok (JInt (2 ^ t)) | _ => Raise TypeError end.
Definition rescale (t : json) (dtype : json) : MapFunc := fun xs =>
  match xs with
  | [x] => let? y := astype x dtype in let? d := pow2 t in np_divide y d
  | _ => Raise TypeError
  end.

(** [lambda x, dtype: np.exp(-np.exp(x.astype(dtype)))] *)
Definition exp_neg_exp (dtype : json) : MapFunc := fun xs =>
  match xs with
  | [x] => let? y := astype x dtype in let? e := np_exp y in let? n := np_negative e in np_exp n
  | _ => Raise TypeError
  end.

(** ** Statements *)

(** [for x in l: body(x)] *)
Fixpoint mfor {S A} (body : A -> M S unit) (l : list A) : M S unit :=
  match l with
  | [] => mret' tt
  | x :: l => body x ;! mfor body l
  end.

(** [range(n)] of a configuration value *)
Definition as_index (n : json) : res Z :=
  match n with JInt z => Ok z | JBool b => Ok (Z.b2z b) | _ => Raise TypeError end.
Definition py_range (n : json) : res (list Z) :=
  let? z := as_index n in Ok (map Z.of_nat (seq 0 (Z.to_nat z))).

(** [model_config.f] and [model_config.f.g] *)
Definition config (c : obj) (f : string) : M ExternMapping json := mlift (attr c f).
Definition nested_config (c : obj) (f g : string) : M ExternMapping json :=
  mlift (let? v := attr c f in
         match v with JObj d => opt_res (dict_get d g) AttributeError | _ => Raise AttributeError end).

(** [named_parameters[name]] *)
Definition param (named_parameters : dict MlcParam) (name : string) : M ExternMapping MlcParam :=
  mlift (dict_getitem named_parameters name).

Definition dtype_of (p : MlcParam) : json := JStr (dtype p).

(** [mapping.add_mapping] and [mapping.add_unused] *)
Definition map_to (mlc_name : string) (names : list string) (f : MapFunc) : M ExternMapping unit :=
  mmodify (fun m => add_mapping m mlc_name names f).
Definition unused (name : string) : M ExternMapping unit := mmodify (fun m => add_unused m name).

(** [_add(mlc_name, hf_name)] *)
Definition add_cast (named_parameters : dict MlcParam) (mlc_name hf_name : string)
    : M ExternMapping unit :=
  let! mlc_param := param named_parameters mlc_name in
  map_to mlc_name [hf_name] (cast (dtype_of mlc_param)).

(** [for mlc_name, mlc_param in named_parameters.items(): if mlc_name not in mapping.param_map: ...] *)
Definition for_unmapped (named_parameters : dict MlcParam)
    (body : string -> MlcParam -> M ExternMapping unit) : M ExternMapping unit :=
  mfor (fun kv => let! mapping := mget in
                  if dict_has (param_map mapping) (fst kv) then mret' tt
                  else body (fst kv) (snd kv)) named_parameters.

(** The rest is taken as it is. *)
Definition rest_as_is (named_parameters : dict MlcParam) : M ExternMapping unit :=
  for_unmapped named_parameters (fun mlc_name mlc_param =>
    map_to mlc_name [mlc_name] (cast (dtype_of mlc_param))).

(** [add_weight_and_scale_mapping]: under block-scale quantization, a weight
    comes with its scales, made in the same way. *)
Definition is_block (quantization : option Quantization) : bool :=
  match quantization with Some q => is_block_scale q | None => false end.

Definition add_weight_and_scale_mapping (named_parameters : dict MlcParam)
    (quantization : option Quantization) (weight_mlc_name : string) (weight_hf_names : list string)
    (weight_transform_func : json -> MapFunc) : M ExternMapping unit :=
  let! mlc_param := param named_parameters weight_mlc_name in
  map_to weight_mlc_name weight_hf_names (weight_transform_func (dtype_of mlc_param)) ;!
  if is_block quantization then
    let scale_mlc_name := weight_mlc_name +:+ "_scale_inv" in
    if dict_has named_parameters scale_mlc_name then
      let scale_hf_names := map (fun name => name +:+ "_scale_inv") weight_hf_names in
      let! scale_param := param named_parameters scale_mlc_name in
      map_to scale_mlc_name scale_hf_names (weight_transform_func (dtype_of scale_param))
    else mret' tt
  else mret' tt.

(** [functools.reduce(lambda a, b: a + b, lists)] *)
Definition reduce_concat (lists : list (list string)) : M ExternMapping (list string) :=
  mlift (match lists with [] => Raise TypeError | _ => Ok (concat lists) end).

(** ** The networks a loader starts from *)

Definition named_params_of (allow_extern : bool) (model : network)
    : M ExternMapping (dict MlcParam) :=
  mlift (let? l := export_tvm allow_extern model in Ok (dict_of l)).

(** The network of a class, in the type of the quantization scheme. *)
Definition built (model_class : string) (model_config : obj) (quantization : option Quantization)
    : res network :=
  let? model := build model_class model_config in
  Ok (match quantization with Some q => to_dtype model (model_dtype q) | None => model end).

Definition named_parameters_of (allow_extern : bool) (model_class : string) (model_config : obj)
    (quantization : option Quantization) : M ExternMapping (dict MlcParam) :=
  let! model := mlift (built model_class model_config quantization) in
  named_params_of allow_extern model.

(** The AWQ network of a family *)
Definition awq_parameters_of (allow_extern : bool) (family : string) (model_config : obj)
    (quantization : option Quantization) : M ExternMapping (dict MlcParam) :=
  let! model := mlift (awq_quant family model_config quantization) in
  named_params_of allow_extern model.

(** Mistral's AWQ loader: with [allow_extern=True] the result has three parts,
    and two are unpacked. *)
Definition unbalanced_parameters_of (family : string) (model_config : obj)
    (quantization : option Quantization) : M ExternMapping (dict MlcParam) :=
  let! named_parameters := awq_parameters_of true family model_config quantization in
  mraise (ValueError [Lit "too many values to unpack (expected 2)"]).

(** A network that may be block-scale quantized, as its configuration says. *)
Definition block_scale_parameters_of (model_class : string) (model_config : obj)
    (quantization : option Quantization) (not_fp8 fp8 : string) : M ExternMapping (dict MlcParam) :=
  let! model := mlift (built model_class model_config quantization) in
  let! model :=
    match quantization with
    | Some q =>
        if is_block_scale q then
          let! model := mlift (quantize_model q model) in
          let! w := config model_config "weight_block_size" in
          if is_null w then mraise (ValueError [Lit not_fp8]) else mret' model
        else mret' model
    | None => mret' model
    end in
  let! named_parameters := named_params_of true model in
  if negb (is_block quantization) then
    let! w := config model_config "weight_block_size" in
    if negb (is_null w) then mraise (ValueError [Lit fp8]) else mret' named_parameters
  else mret' named_parameters.

(** A loader is run on an empty mapping. *)
Definition WeightLoader : Type := obj -> option Quantization -> M ExternMapping unit.

Definition run_loader (f : WeightLoader) (model_config : obj) (quantization : option Quantization)
    : res ExternMapping :=
  match f model_config quantization ExternMapping_new with
  | (Ok _, m) => Ok m
  | (Raise e, _) => Raise e
  end.

(** ** What makes a weight map right *)

(** A name of the network. *)
Class Known (named_parameters : dict MlcParam) (name : string) : Prop :=
  known : In name (dict_keys named_parameters).

(** Only names of the network are mapped, once each, with a function. *)
Definition well_mapped (named_parameters : dict MlcParam) (m : ExternMapping) : Prop :=
  incl (dict_keys (param_map m)) (dict_keys named_parameters) /\
  dict_keys (map_func m) = dict_keys (param_map m) /\ NoDup (dict_keys (param_map m)).

(** A computation that keeps the mapping so, and never removes a name. *)
Class Maps {A} (named_parameters : dict MlcParam) (c : M ExternMapping A) : Prop :=
  maps m r m' : c m = (r, m') ->
    (well_mapped named_parameters m -> well_mapped named_parameters m') /\
    incl (dict_keys (param_map m)) (dict_keys (param_map m')).

(** A computation after which every name of the network is mapped. *)
Class Completes {A} (named_parameters : dict MlcParam) (c : M ExternMapping A) : Prop :=
  completes m a m' : c m = (Ok a, m') ->
    incl (dict_keys named_parameters) (dict_keys (param_map m')).

Lemma dict_keys_same {V W} (d : dict V) (e : dict W) k v w :
  dict_keys d = dict_keys e -> dict_keys (dict_set d k v) = dict_keys (dict_set e k w).
Proof.
  revert e. unfold dict_keys. induction d as [|[k1 v1] d IH]; intros [|[k2 v2] e] H; try discriminate H; [done|].
  injection H as -> H. cbn [dict_set]. destruct (String.eqb k k2); cbn; [by f_equal|].
  f_equal. by apply IH.
Qed.

Section Maps.
Context (named : dict MlcParam).

Lemma maps_id {A} (c : M ExternMapping A) :
  (forall m r m', c m = (r, m') -> param_map m' = param_map m /\ map_func m' = map_func m) -> Maps named c.
Proof. intros H m r m' [Hp Hf]%H. unfold well_mapped. rewrite Hp, Hf. split; [done|apply incl_refl]. Qed.

#[export] Instance maps_ret {A} (a : A) : Maps named (mret' a).
Proof. apply maps_id. by intros m r m' [= _ <-]. Qed.
#[export] Instance maps_raise {A} e : Maps named (@mraise ExternMapping A e).
Proof. apply maps_id. by intros m r m' [= _ <-]. Qed.
#[export] Instance maps_lift {A} (r : res A) : Maps named (mlift r).
Proof. apply maps_id. by intros m r' m' [= _ <-]. Qed.
#[export] Instance maps_config c f : Maps named (config c f).
Proof. apply maps_lift. Qed.
#[export] Instance maps_nested c f g : Maps named (nested_config c f g).
Proof. apply maps_lift. Qed.
#[export] Instance maps_reduce l : Maps named (reduce_concat l).
Proof. apply maps_lift. Qed.
#[export] Instance maps_param n : Maps named (param named n).
Proof. apply maps_lift. Qed.
#[export] Instance maps_unused n : Maps named (unused n).
Proof. apply maps_id. by intros m r m' [= _ <-]. Qed.
#[export] Instance maps_get : Maps named mget.
Proof. apply maps_id. by intros m r m' [= _ <-]. Qed.

#[export] Instance maps_bind {A B} (c : M ExternMapping A) (k : A -> M ExternMapping B) :
  Maps named c -> (forall a, Maps named (k a)) -> Maps named (mbind' c k).
Proof.
  intros Hc Hk m r m' [(a & m1 & H1 & H2)|(e & H1 & _)]%mbind_inv.
  - destruct (Hc _ _ _ H1) as [Hw1 Hi1], (Hk a _ _ _ H2) as [Hw2 Hi2].
    split; [by intros H; apply Hw2, Hw1|by eapply incl_tran].
  - by eapply Hc.
Qed.

(** What is looked up is known from then on. *)
#[export] Instance maps_bind_param {B} n (k : MlcParam -> M ExternMapping B) :
  (forall p, Known named n -> Maps named (k p)) -> Maps named (mbind' (param named n) k) | 0.
Proof.
  intros Hk m r m' [(p & Hp & H)|(e & _ & _ & ->)]%mbind_lift_inv; [|split; [done|apply incl_refl]].
  eapply Hk; [|exact H]. apply dict_get_In. unfold dict_getitem in Hp.
  destruct (dict_get named n); [eauto|done].
Qed.

#[export] Instance maps_if {A} (b : bool) (c1 c2 : M ExternMapping A) :
  Maps named c1 -> Maps named c2 -> Maps named (if b then c1 else c2).
Proof. by destruct b. Qed.

#[export] Instance maps_for {A} (body : A -> M ExternMapping unit) l :
  (forall x, Maps named (body x)) -> Maps named (mfor body l).
Proof. intros H. induction l; simpl; apply _. Qed.

#[export] Instance maps_map_to n l f : Known named n -> Maps named (map_to n l f).
Proof.
  intros Hn m r m' [= _ <-]. split.
  - intros (Hi & Hk & Hd). split; [|split]; cbn [add_mapping param_map map_func].
    + intros x [Hx| ->]%dict_keys_set; [by apply Hi|exact Hn].
    + by apply dict_keys_same.
    + by apply dict_set_NoDup.
  - intros x Hx. cbn. apply dict_keys_set. by left.
Qed.

#[export] Instance maps_add_cast n h : Maps named (add_cast named n h).
Proof. unfold add_cast. apply _. Qed.

Lemma maps_for_In {A} (body : A -> M ExternMapping unit) l :
  (forall x, In x l -> Maps named (body x)) -> Maps named (mfor body l).
Proof.
  induction l as [|x l IH]; intros H; simpl; [apply _|].
  apply maps_bind; [apply H; by left|intros _; apply IH; intros y Hy; apply H; by right].
Qed.

#[export] Instance maps_unmapped body :
  (forall n p, Known named n -> Maps named (body n p)) -> Maps named (for_unmapped named body).
Proof.
  intros H. apply maps_for_In. intros kv Hin. pose proof (in_map fst _ _ Hin : Known named (fst kv)).
  apply _.
Qed.

#[export] Instance maps_rest : Maps named (rest_as_is named).
Proof. unfold rest_as_is. apply _. Qed.

#[export] Instance maps_scaled q n l f : Maps named (add_weight_and_scale_mapping named q n l f).
Proof. unfold add_weight_and_scale_mapping. apply _. Qed.

(** ** Every name is mapped in the end *)

#[export] Instance completes_right {A B} (c : M ExternMapping A) (k : A -> M ExternMapping B) :
  (forall a, Completes named (k a)) -> Completes named (mbind' c k) | 1.
Proof. intros Hk m b m' [(a & m1 & _ & H)|(e & _ & ?)]%mbind_inv; [by eapply Hk|done]. Qed.

#[export] Instance completes_left {A B} (c : M ExternMapping A) (k : A -> M ExternMapping B) :
  Completes named c -> (forall a, Maps named (k a)) -> Completes named (mbind' c k) | 2.
Proof.
  intros Hc Hk m b m' [(a & m1 & H1 & H2)|(e & _ & ?)]%mbind_inv; [|done].
  eapply incl_tran; [by eapply Hc|]. by eapply Hk.
Qed.

Class MapsName (n : string) (c : M ExternMapping unit) : Prop :=
  maps_name m m' : c m = (Ok tt, m') -> In n (dict_keys (param_map m')).

#[export] Instance maps_name_map_to n l f : MapsName n (map_to n l f).
Proof. intros m m' [= <-]. apply dict_keys_set. by right. Qed.

#[export] Instance maps_name_bind {A} n (c : M ExternMapping A) k :
  (forall a, MapsName n (k a)) -> MapsName n (mbind' c k).
Proof. intros Hk m m' [(a & m1 & _ & H)|(e & _ & ?)]%mbind_inv; [by eapply Hk|done]. Qed.

#[export] Instance maps_name_add_cast n h : MapsName n (add_cast named n h).
Proof. unfold add_cast. apply _. Qed.

#[export] Instance completes_unmapped body :
  (forall n p, MapsName n (body n p)) -> (forall n p, Known named n -> Maps named (body n p)) ->
  Completes named (for_unmapped named body).
Proof.
  intros Hn Hm. unfold for_unmapped.
  enough (forall l, incl l named -> forall m m',
    mfor (fun kv => let! mapping := mget in
                    if dict_has (param_map mapping) (fst kv) then mret' tt else body (fst kv) (snd kv)) l m
    = (Ok tt, m') -> incl (dict_keys l) (dict_keys (param_map m'))) as H.
  { intros m [] m' Hr. exact (H named (incl_refl _) m m' Hr). }
  induction l as [|kv l IH]; intros Hl m m' H; [intros x []|]. cbn [mfor] in H.
  apply mbind_inv in H as [([] & m1 & H1 & H)|(e & _ & ?)]; [|done].
  assert (incl l named) as Hl' by (intros x Hx; apply Hl; by right).
  intros x [Hx|Hx]; [simpl in Hx; subst x|by eapply IH].
  assert (Maps named (mfor (fun kv => let! mapping := mget in
    if dict_has (param_map mapping) (fst kv) then mret' tt else body (fst kv) (snd kv)) l)) as Hml.
  { apply maps_for_In. intros kv' Hin. pose proof (in_map fst _ _ (Hl' _ Hin) : Known named (fst kv')).
    apply _. }
  eapply Hml; [exact H|]. rewrite (mbind_Ok mget _ m m m) in H1 by done.
  destruct (dict_has (param_map m) (fst kv)) eqn:E.
  - injection H1 as <-. apply dict_get_In. unfold dict_has in E. destruct (dict_get _ _); [eauto|done].
  - by eapply Hn.
Qed.

Lemma maps_name_left {A} n (c : M ExternMapping unit) (k : unit -> M ExternMapping A) m r m' :
  MapsName n c -> (forall a, Maps named (k a)) -> mbind' c k m = (Ok r, m') ->
  In n (dict_keys (param_map m')).
Proof.
  intros Hc Hk [(u & m1 & H1 & H2)|(e & _ & ?)]%mbind_inv; [|done]. destruct u.
  eapply Hk; [exact H2|]. by eapply Hc.
Qed.

Lemma maps_name_for {A} n (body : A -> M ExternMapping unit) l x : In x l ->
  MapsName n (body x) -> (forall y, Maps named (body y)) -> MapsName n (mfor body l).
Proof.
  intros Hx Hn Hb. induction l as [|y l IH]; [done|]. destruct Hx as [->|Hx]; cbn [mfor].
  - intros m m' H. exact (maps_name_left n _ _ m tt m' Hn (fun _ => maps_for _ _ Hb) H).
  - apply maps_name_bind. intros _. by apply IH.
Qed.

#[export] Instance completes_rest : Completes named (rest_as_is named).
Proof. unfold rest_as_is. apply _. Qed.
End Maps.

(** A loader that starts from the names of a network and maps exactly these. *)
Definition covers (f : WeightLoader)
    (source : obj -> option Quantization -> M ExternMapping (dict MlcParam)) : Prop :=
  forall model_config quantization, exists body,
    f model_config quantization = mbind' (source model_config quantization) body /\
    forall named, Maps named (body named) /\ Completes named (body named).

(** Computing the names changes nothing. *)
Class Pure {A} (c : M ExternMapping A) : Prop := pure m r m' : c m = (r, m') -> m' = m.
#[export] Instance pure_lift {A} (r : res A) : Pure (mlift r).
Proof. by intros m r' m' [= _ <-]. Qed.
#[export] Instance pure_ret {A} (a : A) : Pure (mret' a).
Proof. by intros m r m' [= _ <-]. Qed.
#[export] Instance pure_raise {A} e : Pure (@mraise ExternMapping A e).
Proof. by intros m r m' [= _ <-]. Qed.
#[export] Instance pure_bind {A B} (c : M ExternMapping A) (k : A -> M ExternMapping B) :
  Pure c -> (forall a, Pure (k a)) -> Pure (mbind' c k).
Proof.
  intros Hc Hk m r m' [(a & m1 & H1 & H2)|(e & H1 & _)]%mbind_inv; [|by eapply Hc].
  by rewrite <- (Hc _ _ _ H1), (Hk a _ _ _ H2).
Qed.
#[export] Instance pure_if {A} (b : bool) (c1 c2 : M ExternMapping A) : Pure c1 -> Pure c2 ->
  Pure (if b then c1 else c2).
Proof. by destruct b. Qed.
#[export] Instance pure_config c f : Pure (config c f).
Proof. apply pure_lift. Qed.
#[export] Instance pure_named b model : Pure (named_params_of b model).
Proof. apply pure_lift. Qed.
#[export] Instance pure_source b c cfg q : Pure (named_parameters_of b c cfg q).
Proof. unfold named_parameters_of. apply _. Qed.
#[export] Instance pure_awq b c cfg q : Pure (awq_parameters_of b c cfg q).
Proof. unfold awq_parameters_of. apply _. Qed.
#[export] Instance pure_block c cfg q s t : Pure (block_scale_parameters_of c cfg q s t).
Proof. unfold block_scale_parameters_of. destruct q as [q|]; apply _. Qed.

Lemma covers_spec f source cfg q m : covers f source -> (forall cfg q, Pure (source cfg q)) ->
  run_loader f cfg q = Ok m ->
  exists named, source cfg q ExternMapping_new = (Ok named, ExternMapping_new) /\
    dict_keys (map_func m) = dict_keys (param_map m) /\ NoDup (dict_keys (param_map m)) /\
    forall n, In n (dict_keys (param_map m)) <-> In n (dict_keys named).
Proof.
  intros Hf Hp. unfold run_loader. destruct (Hf cfg q) as (body & -> & Hb).
  destruct (mbind' _ _ _) as [[[]|e] m1] eqn:E; [|done]. intros [= ->].
  apply mbind_inv in E as [(named & m1 & H1 & H2)|(e & _ & ?)]; [|done].
  pose proof (Hp _ _ _ _ _ H1) as ->. exists named. split; [done|].
  destruct (Hb named) as [Hm Hc]. destruct (Hm _ _ _ H2) as [Hw _].
  destruct Hw as (Hi & Hk & Hd); [repeat split; [intros x []|constructor]|]. do 2 (split; [done|]). intros n. split; [apply Hi|by eapply Hc].
Qed.

(** ** What every entry is made of *)

(** A property of every entry: the name, its sources and its function. *)
Definition entries (P : string -> list string -> MapFunc -> Prop) (m : ExternMapping) : Prop :=
  forall n l, dict_get (param_map m) n = Some l ->
    exists f, dict_get (map_func m) n = Some f /\ P n l f.

Class MapsAs {A} (P : string -> list string -> MapFunc -> Prop) (c : M ExternMapping A) : Prop :=
  maps_as m r m' : c m = (r, m') -> entries P m -> entries P m'.

Lemma maps_as_id {A} P (c : M ExternMapping A) :
  (forall m r m', c m = (r, m') -> param_map m' = param_map m /\ map_func m' = map_func m) ->
  MapsAs P c.
Proof. intros H m r m' [Hp Hf]%H. unfold entries. by rewrite Hp, Hf. Qed.

#[export] Instance maps_as_ret {A} P (a : A) : MapsAs P (mret' a).
Proof. apply maps_as_id. by intros m r m' [= _ <-]. Qed.
#[export] Instance maps_as_lift {A} P (r : res A) : MapsAs P (mlift r).
Proof. apply maps_as_id. by intros m r' m' [= _ <-]. Qed.
#[export] Instance maps_as_unused P n : MapsAs P (unused n).
Proof. apply maps_as_id. by intros m r m' [= _ <-]. Qed.

#[export] Instance maps_as_bind {A B} P (c : M ExternMapping A) (k : A -> M ExternMapping B) :
  MapsAs P c -> (forall a, MapsAs P (k a)) -> MapsAs P (mbind' c k).
Proof.
  intros Hc Hk m r m' [(a & m1 & H1 & H2)|(e & H1 & _)]%mbind_inv H; [|by eapply Hc].
  eapply Hk; [exact H2|]. by eapply Hc.
Qed.

Lemma maps_as_for {A} P (body : A -> M ExternMapping unit) l :
  (forall x, In x l -> MapsAs P (body x)) -> MapsAs P (mfor body l).
Proof.
  induction l as [|x l IH]; intros H; simpl; [apply _|].
  apply maps_as_bind; [apply H; by left|intros _; apply IH; intros y Hy; apply H; by right].
Qed.

Lemma maps_as_map_to (P : string -> list string -> MapFunc -> Prop) n l f : P n l f -> MapsAs P (map_to n l f).
Proof.
  intros HP m r m' [= _ <-] H n' l'. cbn [add_mapping param_map map_func]. rewrite !dict_get_set.
  destruct (String.eqb_spec n' n) as [->|Hne]; [|apply H]. intros [= <-]. by exists f.
Qed.

(** Names that are looked up exist. *)
Lemma maps_as_param {B} P named n (k : MlcParam -> M ExternMapping B) :
  (forall p, dict_get named n = Some p -> MapsAs P (k p)) -> MapsAs P (mbind' (param named n) k).
Proof.
  intros Hk m r m' [(p & Hp & H)|(e & _ & _ & ->)]%mbind_lift_inv; [|done].
  refine (Hk p _ m r m' H). unfold dict_getitem in Hp. by destruct (dict_get named n); simplify_eq/=.
Qed.

(** What is left over is taken as it is; [Q] are the names mapped before. *)
Lemma rest_entries (P : string -> list string -> MapFunc -> Prop) named m r m' : NoDup (dict_keys named) ->
  rest_as_is named m = (r, m') -> entries P m ->
  (forall n p, dict_get named n = Some p -> ~ In n (dict_keys (param_map m)) ->
     P n [n] (cast (dtype_of p))) ->
  entries P m'.
Proof.
  intros Hd. unfold rest_as_is, for_unmapped. set (body := fun kv => _).
  assert (forall kv, In kv named -> dict_get named (fst kv) = Some (snd kv)) as Hg.
  { intros [n p] H. by apply dict_get_NoDup. }
  revert Hg. generalize named at 1 3 as l. intros l. clear Hd. revert m.
  induction l as [|kv l IH]; intros m Hg H He HP; cbn [mfor] in H; [by injection H as _ <-|].
  assert (forall m1 u, body kv m = (u, m1) -> entries P m1 /\
    incl (dict_keys (param_map m)) (dict_keys (param_map m1))) as Hb.
  { intros m1 u. unfold body. rewrite (mbind_Ok mget _ m m m) by done.
    destruct (dict_has (param_map m) (fst kv)) eqn:E; intros H1.
    - injection H1 as _ <-. split; [done|apply incl_refl].
    - split.
      + eapply maps_as_map_to; [|exact H1|exact He]. apply HP; [apply Hg; by left|].
        rewrite dict_get_In. intros [v Hv]. unfold dict_has in E. by rewrite Hv in E.
      + injection H1 as _ <-. intros x Hx. apply dict_keys_set. by left. }
  apply mbind_inv in H as [([] & m1 & H1 & H)|(e & H1 & _)]; [|by eapply Hb].
  destruct (Hb _ _ H1) as [He1 Hi]. eapply IH; [|exact H|exact He1|].
  - intros kv' Hkv'. apply Hg. by right.
  - intros n p Hn Hnot. apply HP; [done|]. intros Hin. by apply Hnot, Hi.
Qed.
End WeightMap.
