(* ===== verification/WeightMaps.v ===== *)
(** * The weight maps of the model families ([model/*/*_loader.py])

    One loader per function of these files, statement by statement, in the terms
    of [WeightMap]; then the table of the loaders by model and weight format, as
    [MODELS] of [model/model.py] has it, and the theorems on all of them. *)

From Stdlib Require Import SpecFloat Ascii.
From stdpp Require Import base list strings pretty.
From S2P Require Import Prelude PyStr Loader.
From S2P Require Import PyNum ModelConfig ModelPresets ModelConfigs WeightMap.
Local Open Scope string_scope.
Local Open Scope list_scope.
Local Open Scope Z_scope.

Section WeightMaps.
Context `{WF : WeightFiles} `{NP : !Numpy} `{NN : Networks}.

(** ** Functions of single families *)

(** Phi: [_concat_add]; Phi-3-vision: [_add_vision] *)
Definition _concat_add (named_parameters : dict MlcParam) (mlc_name : string) (hf_names : list string)
    : M ExternMapping unit :=
  let! mlc_param := param named_parameters mlc_name in
  map_to mlc_name hf_names (concat_cast 3 0 (dtype_of mlc_param)).
Definition _add_vision (named_parameters : dict MlcParam) (name : string) : M ExternMapping unit :=
  add_cast named_parameters name ("model." +:+ name).

(** GPT-NeoX: the rows of Q, K and V of a head are next to each other in the
    checkpoint; they are regrouped. *)
Definition transform_qkv_layout (model_config : obj) (dtype : json) : MapFunc := fun xs =>
  match xs with
  | [w] =>
      let? num_attention_heads := attr model_config "num_attention_heads" in
      let? head_dim := attr model_config "head_dim" in
      let org_shape := np_shape w in
      let? rows := py_mul (JInt 3) head_dim in
      let? w := np_reshape w [num_attention_heads; rows; JInt (-1)] in
      let? qkv := np_split w (JInt 3) 1 in
      let? w := np_concatenate qkv 0 in
      let? w := np_reshape w org_shape in
      astype w dtype
  | _ => Raise TypeError
  end.

(** The biases of the feed-forward layers are kept in [ffn_out_dtype]. *)
Definition neox_rest (model_config : obj) (named_parameters : dict MlcParam) : M ExternMapping unit :=
  for_unmapped named_parameters (fun mlc_name mlc_param =>
    let! param_dtype :=
      (if str_contains ".dense_h_to_4h.bias" mlc_name || str_contains ".dense_4h_to_h.bias" mlc_name
       then config model_config "ffn_out_dtype"
       else mret' (dtype_of mlc_param)) in
    map_to mlc_name [mlc_name] (cast param_dtype)).

(** InternLM2: the same for grouped queries. *)
Definition last_dim (shape : list json) : res json :=
  match rev shape with d :: _ => Ok d | [] => Raise IndexError end.
Definition flatten_rows (w : array) : res array :=
  let? d := last_dim (np_shape w) in np_reshape w [JInt (-1); d].

Definition _convert_wqkv_layout (model_config : obj) (dtype : json) : MapFunc := fun xs =>
  match xs with
  | [wqkv] =>
      let? heads := attr model_config "num_attention_heads" in
      let? kv_heads := attr model_config "num_key_value_heads" in
      let? kv_groups := py_floordiv heads kv_heads in
      let? hidden_size := attr model_config "hidden_size" in
      let? head_dim := py_floordiv hidden_size heads in
      let? kv_groups := as_index kv_groups in
      let? d := last_dim (np_shape wqkv) in
      let? wqkv := np_reshape wqkv [JInt (-1); JInt (2 + kv_groups); head_dim; d] in
      let? parts := np_split wqkv (JArr [JInt kv_groups; JInt (kv_groups + 1)]) 1 in
      match parts with
      | [wq; wk; wv] =>
          let? wq := flatten_rows wq in
          let? wk := flatten_rows wk in
          let? wv := flatten_rows wv in
          let? w := np_concatenate [wq; wk; wv] 0 in
          astype w dtype
      | _ => Raise (ValueError [Lit "wrong number of values to unpack"])
      end
  | _ => Raise TypeError
  end.

(** DeepSeek-V2: the two parts of [kv_b_proj]; with [k = 0] the key part, which
    is transposed, with [k = 1] the value part. *)
Definition kv_b_dims (model_config : obj) : res (Z * Z * Z * json) :=
  let? heads := attr model_config "num_key_value_heads" in
  let? nope := attr model_config "qk_nope_head_dim" in
  let? v := attr model_config "v_head_dim" in
  let? rank := attr model_config "kv_lora_rank" in
  let? nope := as_index nope in let? v := as_index v in let? rank := as_index rank in
  Ok (nope, v, rank, heads).

Definition split_kv_b (w : array) (heads : json) (rows at_row cols : Z) (k : nat) (dtype : json) : res array :=
  let? w := np_reshape w [heads; JInt rows; JInt cols] in
  let? parts := np_split w (JArr [JInt at_row]) 1 in
  let? part := list_getitem parts k in
  let? part := (if Nat.eqb k 0 then np_transpose part [0; 2; 1] else Ok part) in
  astype part dtype.

Definition kv_b_part (model_config : obj) (k : nat) (dtype : json) : MapFunc := fun xs =>
  match xs with
  | [kv_b_proj] =>
      let? (nope, v, rank, heads) := kv_b_dims model_config in
      split_kv_b kv_b_proj heads (nope + v) nope rank k dtype
  | _ => Raise TypeError
  end.

(** The same for the scales of the blocks. *)
Definition scaled_kv_b_part (model_config : obj) (quantization : option Quantization) (k : nat)
    (dtype : json) : MapFunc := fun xs =>
  match xs, quantization with
  | [kv_b_proj], Some q =>
      let? (nope, v, rank, heads) := kv_b_dims model_config in
      let? b0 := list_getitem (weight_block_size q) 0 in
      let? b1 := list_getitem (weight_block_size q) 1 in
      if (b0 =? 0) || (b1 =? 0) then Raise ZeroDivisionError
      else split_kv_b kv_b_proj heads ((nope + v) / b0) (nope / b0) (rank / b1) k dtype
  | _, _ => Raise TypeError
  end.

(** [i >= first_k_dense_replace and i % moe_layer_freq == 0] *)
Definition is_moe_layer (model_config : obj) (i : Z) : M ExternMapping bool :=
  mlift (let? first := attr model_config "first_k_dense_replace" in
         let? ge := py_le first (JInt i) in
         if ge then
           let? freq := attr model_config "moe_layer_freq" in
           let? r := py_mod (JInt i) freq in Ok (is_zero r)
         else Ok false).

(** MiniCPM: a tied output layer is not loaded. *)
Definition minicpm_rest (model_config : obj) (named_parameters : dict MlcParam) : M ExternMapping unit :=
  mfor (fun kv =>
    let! skip := (if String.eqb (fst kv) "lm_head.weight"
                  then let! tie := config model_config "tie_word_embeddings" in mret' (py_truthy tie)
                  else mret' false) in
    if skip then mret' tt
    else
      let! mapping := mget in
      if dict_has (param_map mapping) (fst kv) then mret' tt
      else map_to (fst kv) [fst kv] (cast (dtype_of (snd kv)))) named_parameters.

(** ** The loaders *)

Definition baichuan_huggingface : WeightLoader := fun model_config quantization =>
  let! named_parameters := named_parameters_of true "BaichuanForCausalLM" model_config quantization in
  let! num_hidden_layers := config model_config "num_hidden_layers" in
  let! layers := mlift (py_range num_hidden_layers) in
  mfor (fun i =>
      let mlp := "model.layers." +:+ pretty i +:+ ".mlp" in
      let mlc_name := mlp +:+ ".gate_up_proj.weight" in
      let! mlc_param := param named_parameters mlc_name in
      map_to mlc_name
        [mlp +:+ ".gate_proj.weight"; mlp +:+ ".up_proj.weight"]
        (concat_cast 2 0 (dtype_of mlc_param))) layers ;!
  rest_as_is named_parameters.

Definition bert_huggingface : WeightLoader := fun model_config quantization =>
  let! named_parameters := named_parameters_of true "BertModel" model_config quantization in
  let! num_hidden_layers := config model_config "num_hidden_layers" in
  let! layers := mlift (py_range num_hidden_layers) in
  mfor (fun i =>
      let attn := "encoder.layer." +:+ pretty i +:+ ".attention.self" in
      let mlc_name := attn +:+ ".qkv.weight" in
      let! mlc_param := param named_parameters mlc_name in
      map_to mlc_name
        [attn +:+ ".query.weight"; attn +:+ ".key.weight"; attn +:+ ".value.weight"]
        (concat_cast 3 0 (dtype_of mlc_param)) ;!
      let mlc_name := attn +:+ ".qkv.bias" in
      let! mlc_param := param named_parameters mlc_name in
      map_to mlc_name
        [attn +:+ ".query.bias"; attn +:+ ".key.bias"; attn +:+ ".value.bias"]
        (concat_cast 3 0 (dtype_of mlc_param))) layers ;!
  rest_as_is named_parameters.

Definition chatglm3_huggingface : WeightLoader := fun model_config quantization =>
  let! named_parameters := named_parameters_of true "ChatGLMForCausalLM" model_config quantization in
  let mlc_name := "transformer.embedding.weight" in
  let! mlc_param := param named_parameters mlc_name in
  map_to mlc_name
    ["transformer.embedding.word_embeddings.weight"]
    (cast (dtype_of mlc_param)) ;!
  rest_as_is named_parameters.

Definition cohere_huggingface : WeightLoader := fun model_config quantization =>
  let! named_parameters := named_parameters_of true "CohereForCausalLM" model_config quantization in
  let! num_hidden_layers := config model_config "num_hidden_layers" in
  let! layers := mlift (py_range num_hidden_layers) in
  mfor (fun i =>
      let attn := "model.layers." +:+ pretty i +:+ ".self_attn" in
      let mlc_name := attn +:+ ".qkv_proj.weight" in
      let! mlc_param := param named_parameters mlc_name in
      add_cast named_parameters (attn +:+ ".out_proj.weight") (attn +:+ ".o_proj.weight") ;!
      map_to mlc_name
        [attn +:+ ".q_proj.weight"; attn +:+ ".k_proj.weight"; attn +:+ ".v_proj.weight"]
        (concat_cast 3 0 (dtype_of mlc_param)) ;!
      let mlp := "model.layers." +:+ pretty i +:+ ".mlp" in
      add_cast named_parameters (mlp +:+ ".up_proj.weight") (mlp +:+ ".up_proj.weight") ;!
      add_cast named_parameters (mlp +:+ ".gate_proj.weight") (mlp +:+ ".gate_proj.weight") ;!
      add_cast named_parameters (mlp +:+ ".down_proj.weight") (mlp +:+ ".down_proj.weight")) layers ;!
  rest_as_is named_parameters.

Definition cohere_awq : WeightLoader := fun model_config quantization =>
  let! named_parameters := awq_parameters_of true "cohere" model_config quantization in
  let! num_hidden_layers := config model_config "num_hidden_layers" in
  let! layers := mlift (py_range num_hidden_layers) in
  mfor (fun i =>
      let attn := "model.layers." +:+ pretty i +:+ ".self_attn" in
      mfor (fun quantize_suffix =>
          let mlc_name := attn +:+ ".qkv_proj." +:+ quantize_suffix in
          mlift (py_assert (dict_has named_parameters mlc_name)) ;!
          let! mlc_param := param named_parameters mlc_name in
          map_to mlc_name
            [attn +:+ ".q_proj." +:+ quantize_suffix; attn +:+ ".k_proj." +:+ quantize_suffix; attn +:+ ".v_proj." +:+ quantize_suffix]
            (concat_cast 3 1 (dtype_of mlc_param)) ;!
          add_cast named_parameters (attn +:+ ".out_proj." +:+ quantize_suffix) (attn +:+ ".o_proj." +:+ quantize_suffix)) ["qweight"; "qzeros"; "scales"] ;!
      let mlp := "model.layers." +:+ pretty i +:+ ".mlp" in
      mfor (fun quantize_suffix =>
          add_cast named_parameters (mlp +:+ ".up_proj." +:+ quantize_suffix) (mlp +:+ ".up_proj." +:+ quantize_suffix) ;!
          add_cast named_parameters (mlp +:+ ".gate_proj." +:+ quantize_suffix) (mlp +:+ ".gate_proj." +:+ quantize_suffix) ;!
          add_cast named_parameters (mlp +:+ ".down_proj." +:+ quantize_suffix) (mlp +:+ ".down_proj." +:+ quantize_suffix)) ["qweight"; "qzeros"; "scales"]) layers ;!
  rest_as_is named_parameters.

Definition deepseek_huggingface : WeightLoader := fun model_config quantization =>
  let! named_parameters := named_parameters_of true "DeepseekForCausalLM" model_config quantization in
  let! num_hidden_layers := config model_config "num_hidden_layers" in
  let! layers := mlift (py_range num_hidden_layers) in
  mfor (fun i =>
      let attn := "model.layers." +:+ pretty i +:+ ".self_attn" in
      mfor (fun weight_type =>
          let mlc_name := attn +:+ ".wqkv_pack." +:+ weight_type in
          let! mlc_param := param named_parameters mlc_name in
          map_to mlc_name
            [attn +:+ ".q_proj." +:+ weight_type; attn +:+ ".k_proj." +:+ weight_type; attn +:+ ".v_proj." +:+ weight_type]
            (concat_cast 3 0 (dtype_of mlc_param))) ["weight"]) layers ;!
  let! num_hidden_layers := config model_config "num_hidden_layers" in
  let! layers := mlift (py_range num_hidden_layers) in
  mfor (fun i =>
      let! is_moe := is_moe_layer model_config i in
      (if is_moe then
          let mlp := "model.layers." +:+ pretty i +:+ ".mlp" in
          let shared_expert := mlp +:+ ".shared_experts" in
          let mlc_name := shared_expert +:+ ".gate_up_proj.weight" in
          let! mlc_param := param named_parameters mlc_name in
          map_to mlc_name
            [shared_expert +:+ ".gate_proj.weight"; shared_expert +:+ ".up_proj.weight"]
            (concat_cast 2 0 (dtype_of mlc_param)) ;!
          let mlc_name := mlp +:+ ".moe_gate_up_proj.weight" in
          let! n_routed_experts := config model_config "n_routed_experts" in
          let! experts := mlift (py_range n_routed_experts) in
          let! gate_ups := reduce_concat (map (fun expert_id => [mlp +:+ ".experts." +:+ pretty expert_id +:+ ".gate_proj.weight"; mlp +:+ ".experts." +:+ pretty expert_id +:+ ".up_proj.weight"]) experts) in
          map_to mlc_name
            gate_ups
            (combine_expert_gate_up (dtype_of mlc_param)) ;!
          let mlc_name := mlp +:+ ".moe_down_proj.weight" in
          let! mlc_param := param named_parameters mlc_name in
          let! n_routed_experts := config model_config "n_routed_experts" in
          let! experts := mlift (py_range n_routed_experts) in
          map_to mlc_name
            (map (fun expert_id => mlp +:+ ".experts." +:+ pretty expert_id +:+ ".down_proj.weight") experts)
            (stack_cast (dtype_of mlc_param))
       else
          let mlp := "model.layers." +:+ pretty i +:+ ".mlp" in
          let mlc_name := mlp +:+ ".gate_up_proj.weight" in
          let! mlc_param := param named_parameters mlc_name in
          map_to mlc_name
            [mlp +:+ ".gate_proj.weight"; mlp +:+ ".up_proj.weight"]
            (concat_cast 2 0 (dtype_of mlc_param)))) layers ;!
  rest_as_is named_parameters.

Definition deepseek_v2_huggingface : WeightLoader := fun model_config quantization =>
  let! named_parameters := block_scale_parameters_of "DeepseekV2ForCausalLM" model_config quantization
    "The input DeepSeek model is not fp8 block quantized. Thus BlockScaleQuantize is not supported."
    "The input DeepSeek model is fp8 block quantized. Please use BlockScaleQuantize for the model." in
  let! num_hidden_layers := config model_config "num_hidden_layers" in
  let! layers := mlift (py_range num_hidden_layers) in
  mfor (fun i =>
      let! is_moe := is_moe_layer model_config i in
      (if is_moe then
          let mlp := "model.layers." +:+ pretty i +:+ ".mlp" in
          let shared_expert := mlp +:+ ".shared_experts" in
          add_weight_and_scale_mapping named_parameters quantization
            (shared_expert +:+ ".gate_up_proj.weight")
            [shared_expert +:+ ".gate_proj.weight"; shared_expert +:+ ".up_proj.weight"]
            (concat_cast 2 0) ;!
          let! n_routed_experts := config model_config "n_routed_experts" in
          let! experts := mlift (py_range n_routed_experts) in
          let! gate_ups := reduce_concat (map (fun expert_id => [mlp +:+ ".experts." +:+ pretty expert_id +:+ ".gate_proj.weight"; mlp +:+ ".experts." +:+ pretty expert_id +:+ ".up_proj.weight"]) experts) in
          add_weight_and_scale_mapping named_parameters quantization
            (mlp +:+ ".moe_gate_up_proj.weight")
            gate_ups
            combine_expert_gate_up ;!
          let! n_routed_experts := config model_config "n_routed_experts" in
          let! experts := mlift (py_range n_routed_experts) in
          add_weight_and_scale_mapping named_parameters quantization
            (mlp +:+ ".moe_down_proj.weight")
            (map (fun expert_id => mlp +:+ ".experts." +:+ pretty expert_id +:+ ".down_proj.weight") experts)
            stack_cast ;!
          let! topk_method := config model_config "topk_method" in
          (if py_eq topk_method (JStr "noaux_tc") then
              let mlc_name := mlp +:+ ".e_score_correction_bias" in
              let! mlc_param := param named_parameters mlc_name in
              map_to mlc_name
                [mlp +:+ ".gate.e_score_correction_bias"]
                (cast (dtype_of mlc_param))
           else
              mret' tt)
       else
          let mlp := "model.layers." +:+ pretty i +:+ ".mlp" in
          add_weight_and_scale_mapping named_parameters quantization
            (mlp +:+ ".gate_up_proj.weight")
            [mlp +:+ ".gate_proj.weight"; mlp +:+ ".up_proj.weight"]
            (concat_cast 2 0)) ;!
      let attn := "model.layers." +:+ pretty i +:+ ".self_attn" in
      let mlc_name := attn +:+ ".w_uk" in
      let! mlc_param := param named_parameters mlc_name in
      map_to mlc_name
        [attn +:+ ".kv_b_proj.weight"]
        (kv_b_part model_config 0 (dtype_of mlc_param)) ;!
      (if is_block quantization then
          let scale_mlc_name := attn +:+ ".w_uk_scale_inv" in
          let! mlc_param := param named_parameters scale_mlc_name in
          map_to scale_mlc_name
            [attn +:+ ".kv_b_proj.weight_scale_inv"]
            (scaled_kv_b_part model_config quantization 0 (dtype_of mlc_param))
       else
          mret' tt) ;!
      let mlc_name := attn +:+ ".w_uv" in
      let! mlc_param := param named_parameters mlc_name in
      map_to mlc_name
        [attn +:+ ".kv_b_proj.weight"]
        (kv_b_part model_config 1 (dtype_of mlc_param)) ;!
      (if is_block quantization then
          let scale_mlc_name := attn +:+ ".w_uv_scale_inv" in
          let! mlc_param := param named_parameters scale_mlc_name in
          map_to scale_mlc_name
            [attn +:+ ".kv_b_proj.weight_scale_inv"]
            (scaled_kv_b_part model_config quantization 1 (dtype_of mlc_param))
       else
          mret' tt)) layers ;!
  rest_as_is named_parameters.

Definition eagle_huggingface : WeightLoader := fun model_config quantization =>
  let! named_parameters := named_parameters_of true "EagleForCasualLM" model_config quantization in
  let! num_hidden_layers := config model_config "num_hidden_layers" in
  let! layers := mlift (py_range num_hidden_layers) in
  mfor (fun i =>
      let attn := "layers." +:+ pretty i +:+ ".self_attn" in
      let mlc_name := attn +:+ ".qkv_proj.weight" in
      let! mlc_param := param named_parameters mlc_name in
      map_to mlc_name
        [attn +:+ ".q_proj.weight"; attn +:+ ".k_proj.weight"; attn +:+ ".v_proj.weight"]
        (concat_cast 3 0 (dtype_of mlc_param)) ;!
      let mlp := "layers." +:+ pretty i +:+ ".mlp" in
      let mlc_name := mlp +:+ ".gate_up_proj.weight" in
      let! mlc_param := param named_parameters mlc_name in
      map_to mlc_name
        [mlp +:+ ".gate_proj.weight"; mlp +:+ ".up_proj.weight"]
        (concat_cast 2 0 (dtype_of mlc_param)) ;!
      unused (attn +:+ ".rotary_emb.inv_freq")) layers ;!
  rest_as_is named_parameters.

Definition eagle_awq : WeightLoader := fun model_config quantization =>
  let! named_parameters := awq_parameters_of true "eagle" model_config quantization in
  let! num_hidden_layers := config model_config "num_hidden_layers" in
  let! layers := mlift (py_range num_hidden_layers) in
  mfor (fun i =>
      let attn := "layers." +:+ pretty i +:+ ".self_attn" in
      mfor (fun quantize_suffix =>
          let mlc_name := attn +:+ ".qkv_proj." +:+ quantize_suffix in
          mlift (py_assert (dict_has named_parameters mlc_name)) ;!
          let! mlc_param := param named_parameters mlc_name in
          map_to mlc_name
            [attn +:+ ".q_proj." +:+ quantize_suffix; attn +:+ ".k_proj." +:+ quantize_suffix; attn +:+ ".v_proj." +:+ quantize_suffix]
            (concat_cast 3 1 (dtype_of mlc_param))) ["qweight"; "qzeros"; "scales"] ;!
      let mlp := "layers." +:+ pretty i +:+ ".mlp" in
      mfor (fun quantize_suffix =>
          let mlc_name := mlp +:+ ".gate_up_proj." +:+ quantize_suffix in
          mlift (py_assert (dict_has named_parameters mlc_name)) ;!
          let! mlc_param := param named_parameters mlc_name in
          map_to mlc_name
            [mlp +:+ ".gate_proj." +:+ quantize_suffix; mlp +:+ ".up_proj." +:+ quantize_suffix]
            (concat_cast 2 1 (dtype_of mlc_param))) ["qweight"; "qzeros"; "scales"] ;!
      unused (attn +:+ ".rotary_emb.inv_freq")) layers ;!
  rest_as_is named_parameters.

Definition gemma_huggingface : WeightLoader := fun model_config quantization =>
  let! named_parameters := named_parameters_of true "GemmaForCausalLM" model_config quantization in
  let! num_hidden_layers := config model_config "num_hidden_layers" in
  let! layers := mlift (py_range num_hidden_layers) in
  mfor (fun i =>
      let attn := "model.layers." +:+ pretty i +:+ ".self_attn" in
      let mlc_name := attn +:+ ".qkv_proj.weight" in
      let! mlc_param := param named_parameters mlc_name in
      map_to mlc_name
        [attn +:+ ".q_proj.weight"; attn +:+ ".k_proj.weight"; attn +:+ ".v_proj.weight"]
        (concat_cast 3 0 (dtype_of mlc_param)) ;!
      let mlp := "model.layers." +:+ pretty i +:+ ".mlp" in
      let mlc_name := mlp +:+ ".gate_up_proj.weight" in
      let! mlc_param := param named_parameters mlc_name in
      map_to mlc_name
        [mlp +:+ ".gate_proj.weight"; mlp +:+ ".up_proj.weight"]
        (concat_cast 2 0 (dtype_of mlc_param)) ;!
      let mlc_name := "model.layers." +:+ pretty i +:+ ".input_layernorm.weight" in
      let! mlc_param := param named_parameters mlc_name in
      let! p := param named_parameters mlc_name in
      map_to mlc_name
        [mlc_name]
        (add_one (dtype_of p)) ;!
      let mlc_name := "model.layers." +:+ pretty i +:+ ".post_attention_layernorm.weight" in
      let! mlc_param := param named_parameters mlc_name in
      let! p := param named_parameters mlc_name in
      map_to mlc_name
        [mlc_name]
        (add_one (dtype_of p))) layers ;!
  let mlc_name := "model.norm.weight" in
  let! mlc_param := param named_parameters mlc_name in
  let! p := param named_parameters mlc_name in
  map_to mlc_name
    [mlc_name]
    (add_one (dtype_of p)) ;!
  rest_as_is named_parameters.

Definition gemma2_huggingface : WeightLoader := fun model_config quantization =>
  let! named_parameters := named_parameters_of true "Gemma2ForCausalLM" model_config quantization in
  let! num_hidden_layers := config model_config "num_hidden_layers" in
  let! layers := mlift (py_range num_hidden_layers) in
  mfor (fun i =>
      let attn := "model.layers." +:+ pretty i +:+ ".self_attn" in
      let mlc_name := attn +:+ ".qkv_proj.weight" in
      let! mlc_param := param named_parameters mlc_name in
      map_to mlc_name
        [attn +:+ ".q_proj.weight"; attn +:+ ".k_proj.weight"; attn +:+ ".v_proj.weight"]
        (concat_cast 3 0 (dtype_of mlc_param)) ;!
      let mlp := "model.layers." +:+ pretty i +:+ ".mlp" in
      let mlc_name := mlp +:+ ".gate_up_proj.weight" in
      let! mlc_param := param named_parameters mlc_name in
      map_to mlc_name
        [mlp +:+ ".gate_proj.weight"; mlp +:+ ".up_proj.weight"]
        (concat_cast 2 0 (dtype_of mlc_param)) ;!
      let mlc_name := "model.layers." +:+ pretty i +:+ ".input_layernorm.weight" in
      let! mlc_param := param named_parameters mlc_name in
      let! p := param named_parameters mlc_name in
      map_to mlc_name
        [mlc_name]
        (add_one (dtype_of p)) ;!
      let mlc_name := "model.layers." +:+ pretty i +:+ ".post_attention_layernorm.weight" in
      let! mlc_param := param named_parameters mlc_name in
      let! p := param named_parameters mlc_name in
      map_to mlc_name
        [mlc_name]
        (add_one (dtype_of p)) ;!
      let mlc_name := "model.layers." +:+ pretty i +:+ ".pre_feedforward_layernorm.weight" in
      let! mlc_param := param named_parameters mlc_name in
      let! p := param named_parameters mlc_name in
      map_to mlc_name
        [mlc_name]
        (add_one (dtype_of p)) ;!
      let mlc_name := "model.layers." +:+ pretty i +:+ ".post_feedforward_layernorm.weight" in
      let! mlc_param := param named_parameters mlc_name in
      let! p := param named_parameters mlc_name in
      map_to mlc_name
        [mlc_name]
        (add_one (dtype_of p))) layers ;!
  let mlc_name := "model.norm.weight" in
  let! mlc_param := param named_parameters mlc_name in
  let! p := param named_parameters mlc_name in
  map_to mlc_name
    [mlc_name]
    (add_one (dtype_of p)) ;!
  rest_as_is named_parameters.

Definition gemma3_huggingface : WeightLoader := fun model_config quantization =>
  let! named_parameters := named_parameters_of true "Gemma3ForCausalLM" model_config quantization in
  let mlc_prefix := "language_model." in
  let! is_text_model := config model_config "is_text_model" in
  let hf_prefix := if negb (py_truthy is_text_model) then "language_model." else "" in
  let! num_hidden_layers := nested_config model_config "text_config" "num_hidden_layers" in
  let! layers := mlift (py_range num_hidden_layers) in
  mfor (fun i =>
      let mlp := "model.layers." +:+ pretty i +:+ ".mlp" in
      let mlc_name := mlc_prefix +:+ mlp +:+ ".gate_up_proj.weight" in
      let! mlc_param := param named_parameters mlc_name in
      map_to mlc_name
        [hf_prefix +:+ mlp +:+ ".gate_proj.weight"; hf_prefix +:+ mlp +:+ ".up_proj.weight"]
        (concat_cast 2 0 (dtype_of mlc_param)) ;!
      let mlc_name := "model.layers." +:+ pretty i +:+ ".input_layernorm.weight" in
      let! mlc_param := param named_parameters (mlc_prefix +:+ mlc_name) in
      let! p := param named_parameters (mlc_prefix +:+ mlc_name) in
      map_to (mlc_prefix +:+ mlc_name)
        [hf_prefix +:+ mlc_name]
        (add_one (dtype_of p)) ;!
      let mlc_name := "model.layers." +:+ pretty i +:+ ".post_attention_layernorm.weight" in
      let! mlc_param := param named_parameters (mlc_prefix +:+ mlc_name) in
      let! p := param named_parameters (mlc_prefix +:+ mlc_name) in
      map_to (mlc_prefix +:+ mlc_name)
        [hf_prefix +:+ mlc_name]
        (add_one (dtype_of p)) ;!
      let mlc_name := "model.layers." +:+ pretty i +:+ ".pre_feedforward_layernorm.weight" in
      let! mlc_param := param named_parameters (mlc_prefix +:+ mlc_name) in
      let! p := param named_parameters (mlc_prefix +:+ mlc_name) in
      map_to (mlc_prefix +:+ mlc_name)
        [hf_prefix +:+ mlc_name]
        (add_one (dtype_of p)) ;!
      let mlc_name := "model.layers." +:+ pretty i +:+ ".post_feedforward_layernorm.weight" in
      let! mlc_param := param named_parameters (mlc_prefix +:+ mlc_name) in
      let! p := param named_parameters (mlc_prefix +:+ mlc_name) in
      map_to (mlc_prefix +:+ mlc_name)
        [hf_prefix +:+ mlc_name]
        (add_one (dtype_of p)) ;!
      let mlc_name := "model.layers." +:+ pretty i +:+ ".self_attn.k_norm.weight" in
      let! mlc_param := param named_parameters (mlc_prefix +:+ mlc_name) in
      let! p := param named_parameters (mlc_prefix +:+ mlc_name) in
      map_to (mlc_prefix +:+ mlc_name)
        [hf_prefix +:+ mlc_name]
        (add_one (dtype_of p)) ;!
      let mlc_name := "model.layers." +:+ pretty i +:+ ".self_attn.q_norm.weight" in
      let! mlc_param := param named_parameters (mlc_prefix +:+ mlc_name) in
      let! p := param named_parameters (mlc_prefix +:+ mlc_name) in
      map_to (mlc_prefix +:+ mlc_name)
        [hf_prefix +:+ mlc_name]
        (add_one (dtype_of p))) layers ;!
  let mlc_name := "model.norm.weight" in
  let! mlc_param := param named_parameters (mlc_prefix +:+ mlc_name) in
  let! p := param named_parameters (mlc_prefix +:+ mlc_name) in
  map_to (mlc_prefix +:+ mlc_name)
    [hf_prefix +:+ mlc_name]
    (add_one (dtype_of p)) ;!
  for_unmapped named_parameters (fun mlc_name mlc_param =>
      map_to mlc_name
        [hf_prefix +:+ (str_drop (String.length mlc_prefix) mlc_name)]
        (cast (dtype_of mlc_param))).

Definition gpt2_huggingface : WeightLoader := fun model_config quantization =>
  let! named_parameters := named_parameters_of true "GPT2LMHeadModel" model_config quantization in
  let! p := param named_parameters "transformer.wte.weight" in
  map_to "lm_head.weight"
    ["wte.weight"]
    (cast (dtype_of p)) ;!
  let! n_layer := config model_config "n_layer" in
  let! layers := mlift (py_range n_layer) in
  mfor (fun i =>
      unused ("h." +:+ pretty i +:+ ".attn.bias") ;!
      mfor (fun conv1d_weight_name =>
          let src_name := "h." +:+ pretty i +:+ "." +:+ conv1d_weight_name +:+ ".weight" in
          let mlc_name := "transformer." +:+ src_name in
          let! p := param named_parameters mlc_name in
          map_to mlc_name
            [src_name]
            (transpose_cast (dtype_of p))) ["attn.c_attn"; "attn.c_proj"; "mlp.c_proj"; "mlp.c_fc"]) layers ;!
  for_unmapped named_parameters (fun mlc_name mlc_param =>
      let! source_name := mlift (opt_res (snd (str_partition "." mlc_name)) IndexError) in
      map_to mlc_name
        [source_name]
        (cast (dtype_of mlc_param))).

Definition gpt_bigcode_huggingface : WeightLoader := fun model_config quantization =>
  let! named_parameters := named_parameters_of true "GPTBigCodeForCausalLM" model_config quantization in
  rest_as_is named_parameters.

Definition gpt_j_huggingface : WeightLoader := fun model_config quantization =>
  let! named_parameters := named_parameters_of true "GPTJForCausalLM" model_config quantization in
  let! n_layer := config model_config "n_layer" in
  let! layers := mlift (py_range n_layer) in
  mfor (fun i =>
      let attn := "transformer.h." +:+ pretty i +:+ ".attn" in
      let mlc_name := attn +:+ ".c_attn.weight" in
      let! mlc_param := param named_parameters mlc_name in
      map_to mlc_name
        [attn +:+ ".q_proj.weight"; attn +:+ ".k_proj.weight"; attn +:+ ".v_proj.weight"]
        (concat_cast 3 0 (dtype_of mlc_param))) layers ;!
  rest_as_is named_parameters.

Definition gpt_neox_huggingface : WeightLoader := fun model_config quantization =>
  let! named_parameters := named_parameters_of true "GPTNeoXForCausalLM" model_config quantization in
  let! num_hidden_layers := config model_config "num_hidden_layers" in
  let! layers := mlift (py_range num_hidden_layers) in
  mfor (fun i =>
      let attn := "gpt_neox.layers." +:+ pretty i +:+ ".attention" in
      unused (attn +:+ ".rotary_emb.inv_freq") ;!
      unused (attn +:+ ".masked_bias") ;!
      unused (attn +:+ ".bias") ;!
      let qkv_proj := attn +:+ ".query_key_value" in
      mfor (fun param_name =>
          let mlc_name := qkv_proj +:+ "." +:+ param_name in
          let! mlc_param := param named_parameters mlc_name in
          map_to mlc_name
            [mlc_name]
            (transform_qkv_layout model_config (dtype_of mlc_param))) ["weight"; "bias"]) layers ;!
  neox_rest model_config named_parameters.

Definition internlm_huggingface : WeightLoader := fun model_config quantization =>
  let! named_parameters := named_parameters_of true "InternLMForCausalLM" model_config quantization in
  let! num_hidden_layers := config model_config "num_hidden_layers" in
  let! layers := mlift (py_range num_hidden_layers) in
  mfor (fun i =>
      let attn := "model.layers." +:+ pretty i +:+ ".self_attn" in
      let mlc_name := attn +:+ ".wqkv_pack.weight" in
      let! mlc_param := param named_parameters mlc_name in
      map_to mlc_name
        [attn +:+ ".q_proj.weight"; attn +:+ ".k_proj.weight"; attn +:+ ".v_proj.weight"]
        (concat_cast 3 0 (dtype_of mlc_param)) ;!
      let mlc_name := attn +:+ ".wqkv_pack.bias" in
      (if dict_has named_parameters mlc_name then
          let! mlc_param := param named_parameters mlc_name in
          map_to mlc_name
            [attn +:+ ".q_proj.bias"; attn +:+ ".k_proj.bias"; attn +:+ ".v_proj.bias"]
            (concat_cast 3 0 (dtype_of mlc_param))
       else
          mret' tt) ;!
      let mlp := "model.layers." +:+ pretty i +:+ ".mlp" in
      let mlc_name := mlp +:+ ".gate_up_proj.weight" in
      let! mlc_param := param named_parameters mlc_name in
      map_to mlc_name
        [mlp +:+ ".gate_proj.weight"; mlp +:+ ".up_proj.weight"]
        (concat_cast 2 0 (dtype_of mlc_param))) layers ;!
  rest_as_is named_parameters.

Definition internlm2_huggingface : WeightLoader := fun model_config quantization =>
  let! named_parameters := named_parameters_of true "InternLM2ForCausalLM" model_config quantization in
  let! num_hidden_layers := config model_config "num_hidden_layers" in
  let! layers := mlift (py_range num_hidden_layers) in
  mfor (fun i =>
      let mlp := "model.layers." +:+ pretty i +:+ ".feed_forward" in
      let mlc_name := mlp +:+ ".gate_up_proj.weight" in
      let! mlc_param := param named_parameters mlc_name in
      map_to mlc_name
        [mlp +:+ ".w1.weight"; mlp +:+ ".w3.weight"]
        (concat_cast 2 0 (dtype_of mlc_param)) ;!
      let mlc_name := "model.layers." +:+ pretty i +:+ ".attention.wqkv.weight" in
      let! mlc_param := param named_parameters mlc_name in
      map_to mlc_name
        [mlc_name]
        (_convert_wqkv_layout model_config (dtype_of mlc_param))) layers ;!
  rest_as_is named_parameters.

Definition llama_huggingface : WeightLoader := fun model_config quantization =>
  let! named_parameters := named_parameters_of true "LlamaForCausalLM" model_config quantization in
  let! num_hidden_layers := config model_config "num_hidden_layers" in
  let! layers := mlift (py_range num_hidden_layers) in
  mfor (fun i =>
      let attn := "model.layers." +:+ pretty i +:+ ".self_attn" in
      let mlc_name := attn +:+ ".qkv_proj.weight" in
      let! mlc_param := param named_parameters mlc_name in
      map_to mlc_name
        [attn +:+ ".q_proj.weight"; attn +:+ ".k_proj.weight"; attn +:+ ".v_proj.weight"]
        (concat_cast 3 0 (dtype_of mlc_param)) ;!
      let mlp := "model.layers." +:+ pretty i +:+ ".mlp" in
      let mlc_name := mlp +:+ ".gate_up_proj.weight" in
      let! mlc_param := param named_parameters mlc_name in
      map_to mlc_name
        [mlp +:+ ".gate_proj.weight"; mlp +:+ ".up_proj.weight"]
        (concat_cast 2 0 (dtype_of mlc_param)) ;!
      unused (attn +:+ ".rotary_emb.inv_freq")) layers ;!
  rest_as_is named_parameters.

Definition llama_awq : WeightLoader := fun model_config quantization =>
  let! named_parameters := awq_parameters_of true "llama" model_config quantization in
  let! num_hidden_layers := config model_config "num_hidden_layers" in
  let! layers := mlift (py_range num_hidden_layers) in
  mfor (fun i =>
      let attn := "model.layers." +:+ pretty i +:+ ".self_attn" in
      mfor (fun quantize_suffix =>
          let mlc_name := attn +:+ ".qkv_proj." +:+ quantize_suffix in
          mlift (py_assert (dict_has named_parameters mlc_name)) ;!
          let! mlc_param := param named_parameters mlc_name in
          map_to mlc_name
            [attn +:+ ".q_proj." +:+ quantize_suffix; attn +:+ ".k_proj." +:+ quantize_suffix; attn +:+ ".v_proj." +:+ quantize_suffix]
            (concat_cast 3 1 (dtype_of mlc_param))) ["qweight"; "qzeros"; "scales"] ;!
      let mlp := "model.layers." +:+ pretty i +:+ ".mlp" in
      mfor (fun quantize_suffix =>
          let mlc_name := mlp +:+ ".gate_up_proj." +:+ quantize_suffix in
          mlift (py_assert (dict_has named_parameters mlc_name)) ;!
          let! mlc_param := param named_parameters mlc_name in
          map_to mlc_name
            [mlp +:+ ".gate_proj." +:+ quantize_suffix; mlp +:+ ".up_proj." +:+ quantize_suffix]
            (concat_cast 2 1 (dtype_of mlc_param))) ["qweight"; "qzeros"; "scales"] ;!
      unused (attn +:+ ".rotary_emb.inv_freq")) layers ;!
  rest_as_is named_parameters.

Definition llava_huggingface : WeightLoader := fun model_config quantization =>
  let! named_parameters := named_parameters_of true "LlavaForCasualLM" model_config quantization in
  let! num_hidden_layers := nested_config model_config "text_config" "num_hidden_layers" in
  let! layers := mlift (py_range num_hidden_layers) in
  mfor (fun i =>
      let attn := "language_model.model.layers." +:+ pretty i +:+ ".self_attn" in
      let mlc_name := attn +:+ ".qkv_proj.weight" in
      let! mlc_param := param named_parameters mlc_name in
      map_to mlc_name
        [attn +:+ ".q_proj.weight"; attn +:+ ".k_proj.weight"; attn +:+ ".v_proj.weight"]
        (concat_cast 3 0 (dtype_of mlc_param)) ;!
      let mlp := "language_model.model.layers." +:+ pretty i +:+ ".mlp" in
      let mlc_name := mlp +:+ ".gate_up_proj.weight" in
      let! mlc_param := param named_parameters mlc_name in
      map_to mlc_name
        [mlp +:+ ".gate_proj.weight"; mlp +:+ ".up_proj.weight"]
        (concat_cast 2 0 (dtype_of mlc_param)) ;!
      unused (attn +:+ ".rotary_emb.inv_freq")) layers ;!
  rest_as_is named_parameters.

Definition llava_awq : WeightLoader := fun model_config quantization =>
  let! named_parameters := awq_parameters_of false "llava" model_config quantization in
  let! num_hidden_layers := nested_config model_config "text_config" "num_hidden_layers" in
  let! layers := mlift (py_range num_hidden_layers) in
  mfor (fun i =>
      let attn := "language_model.model.layers." +:+ pretty i +:+ ".self_attn" in
      mfor (fun quantize_suffix =>
          let mlc_name := attn +:+ ".qkv_proj." +:+ quantize_suffix in
          mlift (py_assert (dict_has named_parameters mlc_name)) ;!
          let! mlc_param := param named_parameters mlc_name in
          map_to mlc_name
            [attn +:+ ".q_proj." +:+ quantize_suffix; attn +:+ ".k_proj." +:+ quantize_suffix; attn +:+ ".v_proj." +:+ quantize_suffix]
            (concat_cast 3 0 (dtype_of mlc_param))) ["qweight"; "qzeros"; "scales"] ;!
      let mlp := "language_model.model.layers." +:+ pretty i +:+ ".mlp" in
      mfor (fun quantize_suffix =>
          let mlc_name := mlp +:+ ".gate_up_proj." +:+ quantize_suffix in
          mlift (py_assert (dict_has named_parameters mlc_name)) ;!
          let! mlc_param := param named_parameters mlc_name in
          map_to mlc_name
            [mlp +:+ ".gate_proj." +:+ quantize_suffix; mlp +:+ ".up_proj." +:+ quantize_suffix]
            (concat_cast 2 0 (dtype_of mlc_param))) ["qweight"; "qzeros"; "scales"] ;!
      unused (attn +:+ ".rotary_emb.inv_freq")) layers ;!
  rest_as_is named_parameters.

Definition medusa_huggingface : WeightLoader := fun model_config quantization =>
  let! named_parameters := named_parameters_of true "MedusaModel" model_config quantization in
  rest_as_is named_parameters.

Definition minicpm_huggingface : WeightLoader := fun model_config quantization =>
  let! named_parameters := named_parameters_of true "MiniCPMForCausalLM" model_config quantization in
  let! num_hidden_layers := config model_config "num_hidden_layers" in
  let! layers := mlift (py_range num_hidden_layers) in
  mfor (fun i =>
      let attn := "model.layers." +:+ pretty i +:+ ".self_attn" in
      mfor (fun weight_type =>
          let mlc_name := attn +:+ ".wqkv_pack." +:+ weight_type in
          let! mlc_param := param named_parameters mlc_name in
          map_to mlc_name
            [attn +:+ ".q_proj." +:+ weight_type; attn +:+ ".k_proj." +:+ weight_type; attn +:+ ".v_proj." +:+ weight_type]
            (concat_cast 3 0 (dtype_of mlc_param))) ["weight"]) layers ;!
  let! num_experts := config model_config "num_experts" in
  (if py_eq num_experts (JInt 0) then
      let! num_hidden_layers := config model_config "num_hidden_layers" in
      let! layers := mlift (py_range num_hidden_layers) in
      mfor (fun i =>
          let mlp := "model.layers." +:+ pretty i +:+ ".mlp" in
          let mlc_name := mlp +:+ ".gate_up_proj.weight" in
          let! mlc_param := param named_parameters mlc_name in
          map_to mlc_name
            [mlp +:+ ".gate_proj.weight"; mlp +:+ ".up_proj.weight"]
            (concat_cast 2 0 (dtype_of mlc_param))) layers
   else
      let! num_hidden_layers := config model_config "num_hidden_layers" in
      let! layers := mlift (py_range num_hidden_layers) in
      mfor (fun i =>
          let mlp := "model.layers." +:+ pretty i +:+ ".mlp" in
          let mlc_mlp := "model.layers." +:+ pretty i +:+ ".mlp" in
          let mlc_name := mlc_mlp +:+ ".e1_e3.weight" in
          let! mlc_param := param named_parameters mlc_name in
          let! num_experts := config model_config "num_experts" in
          let! experts := mlift (py_range num_experts) in
          let! gate_ups := reduce_concat (map (fun expert_id => [mlp +:+ ".experts." +:+ pretty expert_id +:+ ".w1.weight"; mlp +:+ ".experts." +:+ pretty expert_id +:+ ".w3.weight"]) experts) in
          map_to mlc_name
            gate_ups
            (combine_expert_gate_up (dtype_of mlc_param)) ;!
          let mlc_name := mlc_mlp +:+ ".e2.weight" in
          let! mlc_param := param named_parameters mlc_name in
          let! num_experts := config model_config "num_experts" in
          let! experts := mlift (py_range num_experts) in
          map_to mlc_name
            (map (fun expert_id => mlp +:+ ".experts." +:+ pretty expert_id +:+ ".w2.weight") experts)
            (stack_cast (dtype_of mlc_param)) ;!
          let mlc_name := mlc_mlp +:+ ".gate.weight" in
          let! mlc_param := param named_parameters mlc_name in
          map_to mlc_name
            [mlp +:+ ".gate.weight"]
            (cast (dtype_of mlc_param))) layers) ;!
  minicpm_rest model_config named_parameters.

Definition mistral_huggingface : WeightLoader := fun model_config quantization =>
  let! named_parameters := named_parameters_of true "MistralForCasualLM" model_config quantization in
  let! num_hidden_layers := config model_config "num_hidden_layers" in
  let! layers := mlift (py_range num_hidden_layers) in
  mfor (fun i =>
      let attn := "model.layers." +:+ pretty i +:+ ".self_attn" in
      let mlc_name := attn +:+ ".qkv_proj.weight" in
      let! mlc_param := param named_parameters mlc_name in
      map_to mlc_name
        [attn +:+ ".q_proj.weight"; attn +:+ ".k_proj.weight"; attn +:+ ".v_proj.weight"]
        (concat_cast 3 0 (dtype_of mlc_param)) ;!
      let mlp := "model.layers." +:+ pretty i +:+ ".mlp" in
      let mlc_name := mlp +:+ ".gate_up_proj.weight" in
      let! mlc_param := param named_parameters mlc_name in
      map_to mlc_name
        [mlp +:+ ".gate_proj.weight"; mlp +:+ ".up_proj.weight"]
        (concat_cast 2 0 (dtype_of mlc_param)) ;!
      unused (attn +:+ ".rotary_emb.inv_freq")) layers ;!
  rest_as_is named_parameters.

Definition mistral_awq : WeightLoader := fun model_config quantization =>
  let! named_parameters := unbalanced_parameters_of "mistral" model_config quantization in
  let! num_hidden_layers := config model_config "num_hidden_layers" in
  let! layers := mlift (py_range num_hidden_layers) in
  mfor (fun i =>
      let attn := "model.layers." +:+ pretty i +:+ ".self_attn" in
      mfor (fun quantize_suffix =>
          let mlc_name := attn +:+ ".qkv_proj." +:+ quantize_suffix in
          mlift (py_assert (dict_has named_parameters mlc_name)) ;!
          let! mlc_param := param named_parameters mlc_name in
          map_to mlc_name
            [attn +:+ ".q_proj." +:+ quantize_suffix; attn +:+ ".k_proj." +:+ quantize_suffix; attn +:+ ".v_proj." +:+ quantize_suffix]
            (concat_cast 3 0 (dtype_of mlc_param))) ["qweight"; "qzeros"; "scales"] ;!
      let mlp := "model.layers." +:+ pretty i +:+ ".mlp" in
      mfor (fun quantize_suffix =>
          let mlc_name := mlp +:+ ".gate_up_proj." +:+ quantize_suffix in
          mlift (py_assert (dict_has named_parameters mlc_name)) ;!
          let! mlc_param := param named_parameters mlc_name in
          map_to mlc_name
            [mlp +:+ ".gate_proj." +:+ quantize_suffix; mlp +:+ ".up_proj." +:+ quantize_suffix]
            (concat_cast 2 0 (dtype_of mlc_param))) ["qweight"; "qzeros"; "scales"] ;!
      unused (attn +:+ ".rotary_emb.inv_freq")) layers ;!
  rest_as_is named_parameters.

Definition mixtral_huggingface : WeightLoader := fun model_config quantization =>
  let! named_parameters := named_parameters_of true "MixtralForCasualLM" model_config quantization in
  let! num_hidden_layers := config model_config "num_hidden_layers" in
  let! layers := mlift (py_range num_hidden_layers) in
  mfor (fun i =>
      let attn := "model.layers." +:+ pretty i +:+ ".self_attn" in
      let mlc_name := attn +:+ ".qkv_proj.weight" in
      let! mlc_param := param named_parameters mlc_name in
      map_to mlc_name
        [attn +:+ ".q_proj.weight"; attn +:+ ".k_proj.weight"; attn +:+ ".v_proj.weight"]
        (concat_cast 3 0 (dtype_of mlc_param)) ;!
      let mlp := "model.layers." +:+ pretty i +:+ ".block_sparse_moe" in
      let mlc_mlp := "model.layers." +:+ pretty i +:+ ".moe" in
      let mlc_name := mlc_mlp +:+ ".e1_e3.weight" in
      let! mlc_param := param named_parameters mlc_name in
      let! num_local_experts := config model_config "num_local_experts" in
      let! experts := mlift (py_range num_local_experts) in
      let! gate_ups := reduce_concat (map (fun expert_id => [mlp +:+ ".experts." +:+ pretty expert_id +:+ ".w1.weight"; mlp +:+ ".experts." +:+ pretty expert_id +:+ ".w3.weight"]) experts) in
      map_to mlc_name
        gate_ups
        (combine_expert_gate_up (dtype_of mlc_param)) ;!
      let mlc_name := mlc_mlp +:+ ".e2.weight" in
      let! mlc_param := param named_parameters mlc_name in
      let! num_local_experts := config model_config "num_local_experts" in
      let! experts := mlift (py_range num_local_experts) in
      map_to mlc_name
        (map (fun expert_id => mlp +:+ ".experts." +:+ pretty expert_id +:+ ".w2.weight") experts)
        (stack_cast (dtype_of mlc_param)) ;!
      let mlc_name := mlc_mlp +:+ ".gate.weight" in
      let! mlc_param := param named_parameters mlc_name in
      map_to mlc_name
        [mlp +:+ ".gate.weight"]
        (cast (dtype_of mlc_param)) ;!
      unused (attn +:+ ".rotary_emb.inv_freq")) layers ;!
  rest_as_is named_parameters.

Definition nemotron_huggingface : WeightLoader := fun model_config quantization =>
  let! named_parameters := named_parameters_of true "NemotronForCausalLM" model_config quantization in
  let! num_hidden_layers := config model_config "num_hidden_layers" in
  let! layers := mlift (py_range num_hidden_layers) in
  mfor (fun i =>
      let attn := "model.layers." +:+ pretty i +:+ ".self_attn" in
      let mlc_name := attn +:+ ".qkv_proj.weight" in
      let! mlc_param := param named_parameters mlc_name in
      map_to mlc_name
        [attn +:+ ".q_proj.weight"; attn +:+ ".k_proj.weight"; attn +:+ ".v_proj.weight"]
        (concat_cast 3 0 (dtype_of mlc_param)) ;!
      unused (attn +:+ ".rotary_emb.inv_freq")) layers ;!
  rest_as_is named_parameters.

Definition olmo_huggingface : WeightLoader := fun model_config quantization =>
  let! named_parameters := named_parameters_of true "OLMoForCausalLM" model_config quantization in
  let! num_hidden_layers := config model_config "num_hidden_layers" in
  let! layers := mlift (py_range num_hidden_layers) in
  mfor (fun i =>
      let attn := "model.layers." +:+ pretty i +:+ ".self_attn" in
      let mlc_name := attn +:+ ".qkv_proj.weight" in
      let! mlc_param := param named_parameters mlc_name in
      map_to mlc_name
        [attn +:+ ".q_proj.weight"; attn +:+ ".k_proj.weight"; attn +:+ ".v_proj.weight"]
        (concat_cast 3 0 (dtype_of mlc_param)) ;!
      let mlp := "model.layers." +:+ pretty i +:+ ".mlp" in
      let mlc_name := mlp +:+ ".gate_up_proj.weight" in
      let! mlc_param := param named_parameters mlc_name in
      map_to mlc_name
        [mlp +:+ ".gate_proj.weight"; mlp +:+ ".up_proj.weight"]
        (concat_cast 2 0 (dtype_of mlc_param)) ;!
      unused (attn +:+ ".rotary_emb.inv_freq")) layers ;!
  rest_as_is named_parameters.

Definition olmo_awq : WeightLoader := fun model_config quantization =>
  let! named_parameters := awq_parameters_of true "olmo" model_config quantization in
  let! num_hidden_layers := config model_config "num_hidden_layers" in
  let! layers := mlift (py_range num_hidden_layers) in
  mfor (fun i =>
      let attn := "model.layers." +:+ pretty i +:+ ".self_attn" in
      mfor (fun quantize_suffix =>
          let mlc_name := attn +:+ ".qkv_proj." +:+ quantize_suffix in
          mlift (py_assert (dict_has named_parameters mlc_name)) ;!
          let! mlc_param := param named_parameters mlc_name in
          map_to mlc_name
            [attn +:+ ".q_proj." +:+ quantize_suffix; attn +:+ ".k_proj." +:+ quantize_suffix; attn +:+ ".v_proj." +:+ quantize_suffix]
            (concat_cast 3 1 (dtype_of mlc_param))) ["qweight"; "qzeros"; "scales"] ;!
      let mlp := "model.layers." +:+ pretty i +:+ ".mlp" in
      mfor (fun quantize_suffix =>
          let mlc_name := mlp +:+ ".gate_up_proj." +:+ quantize_suffix in
          mlift (py_assert (dict_has named_parameters mlc_name)) ;!
          let! mlc_param := param named_parameters mlc_name in
          map_to mlc_name
            [mlp +:+ ".gate_proj." +:+ quantize_suffix; mlp +:+ ".up_proj." +:+ quantize_suffix]
            (concat_cast 2 1 (dtype_of mlc_param))) ["qweight"; "qzeros"; "scales"] ;!
      unused (attn +:+ ".rotary_emb.inv_freq")) layers ;!
  rest_as_is named_parameters.

Definition orion_huggingface : WeightLoader := fun model_config quantization =>
  let! named_parameters := named_parameters_of true "OrionForCasualLM" model_config quantization in
  let! num_hidden_layers := config model_config "num_hidden_layers" in
  let! layers := mlift (py_range num_hidden_layers) in
  mfor (fun i =>
      let attn := "model.layers." +:+ pretty i +:+ ".self_attn" in
      let mlc_name := attn +:+ ".qkv_proj.weight" in
      let! mlc_param := param named_parameters mlc_name in
      map_to mlc_name
        [attn +:+ ".q_proj.weight"; attn +:+ ".k_proj.weight"; attn +:+ ".v_proj.weight"]
        (concat_cast 3 0 (dtype_of mlc_param)) ;!
      let mlp := "model.layers." +:+ pretty i +:+ ".mlp" in
      let mlc_name := mlp +:+ ".gate_up_proj.weight" in
      let! mlc_param := param named_parameters mlc_name in
      map_to mlc_name
        [mlp +:+ ".gate_proj.weight"; mlp +:+ ".up_proj.weight"]
        (concat_cast 2 0 (dtype_of mlc_param)) ;!
      unused (attn +:+ ".rotary_emb.inv_freq")) layers ;!
  rest_as_is named_parameters.

Definition phi_huggingface : WeightLoader := fun model_config quantization =>
  let! named_parameters := named_parameters_of false "PhiForCausalLM" model_config quantization in
  let! model_type := config model_config "model_type" in
  (if py_eq model_type (JStr "mixformer-sequential") then
      add_cast named_parameters "transformer.embd.weight" "layers.0.wte.weight" ;!
      let prefix := "transformer.h" in
      let! n_layer := config model_config "n_layer" in
      let! layers := mlift (py_range n_layer) in
      mfor (fun i =>
          add_cast named_parameters (prefix +:+ "." +:+ pretty i +:+ ".ln.weight") ("layers." +:+ pretty (i + 1) +:+ ".ln.weight") ;!
          add_cast named_parameters (prefix +:+ "." +:+ pretty i +:+ ".ln.bias") ("layers." +:+ pretty (i + 1) +:+ ".ln.bias") ;!
          add_cast named_parameters (prefix +:+ "." +:+ pretty i +:+ ".mixer.Wqkv.weight") ("layers." +:+ pretty (i + 1) +:+ ".mixer.Wqkv.weight") ;!
          add_cast named_parameters (prefix +:+ "." +:+ pretty i +:+ ".mixer.Wqkv.bias") ("layers." +:+ pretty (i + 1) +:+ ".mixer.Wqkv.bias") ;!
          add_cast named_parameters (prefix +:+ "." +:+ pretty i +:+ ".mixer.out_proj.weight") ("layers." +:+ pretty (i + 1) +:+ ".mixer.out_proj.weight") ;!
          add_cast named_parameters (prefix +:+ "." +:+ pretty i +:+ ".mixer.out_proj.bias") ("layers." +:+ pretty (i + 1) +:+ ".mixer.out_proj.bias") ;!
          add_cast named_parameters (prefix +:+ "." +:+ pretty i +:+ ".mlp.fc1.weight") ("layers." +:+ pretty (i + 1) +:+ ".mlp.fc1.weight") ;!
          add_cast named_parameters (prefix +:+ "." +:+ pretty i +:+ ".mlp.fc1.bias") ("layers." +:+ pretty (i + 1) +:+ ".mlp.fc1.bias") ;!
          add_cast named_parameters (prefix +:+ "." +:+ pretty i +:+ ".mlp.fc2.weight") ("layers." +:+ pretty (i + 1) +:+ ".mlp.fc2.weight") ;!
          add_cast named_parameters (prefix +:+ "." +:+ pretty i +:+ ".mlp.fc2.bias") ("layers." +:+ pretty (i + 1) +:+ ".mlp.fc2.bias") ;!
          unused ("layers." +:+ pretty (i + 1) +:+ ".mixer.rotary_emb.inv_freq")) layers ;!
      let! n_layer := config model_config "n_layer" in
      let! n_layer := mlift (as_index n_layer) in
      let prefix := "layers." +:+ pretty (n_layer + 1) in
      add_cast named_parameters "lm_head.ln.weight" (prefix +:+ ".ln.weight") ;!
      add_cast named_parameters "lm_head.ln.bias" (prefix +:+ ".ln.bias") ;!
      add_cast named_parameters "lm_head.linear.weight" (prefix +:+ ".linear.weight") ;!
      add_cast named_parameters "lm_head.linear.bias" (prefix +:+ ".linear.bias")
   else
      let! model_type := config model_config "model_type" in
      (if py_eq model_type (JStr "phi-msft") then
          add_cast named_parameters "transformer.embd.weight" "transformer.embd.wte.weight" ;!
          for_unmapped named_parameters (fun mlc_name _ =>
              add_cast named_parameters mlc_name mlc_name)
       else
          mret' tt)).

Definition phi1_huggingface : WeightLoader := fun model_config quantization =>
  let! named_parameters := named_parameters_of false "PhiForCausalLM" model_config quantization in
  add_cast named_parameters "lm_head.linear.weight" "lm_head.weight" ;!
  add_cast named_parameters "lm_head.linear.bias" "lm_head.bias" ;!
  add_cast named_parameters "lm_head.ln.weight" "model.final_layernorm.weight" ;!
  add_cast named_parameters "lm_head.ln.bias" "model.final_layernorm.bias" ;!
  add_cast named_parameters "transformer.embd.weight" "model.embed_tokens.weight" ;!
  let prefix := "transformer.h" in
  let hf_prefix := "model.layers" in
  let! num_hidden_layers := config model_config "num_hidden_layers" in
  let! layers := mlift (py_range num_hidden_layers) in
  mfor (fun i =>
      add_cast named_parameters (prefix +:+ "." +:+ pretty i +:+ ".ln.weight") (hf_prefix +:+ "." +:+ pretty i +:+ ".input_layernorm.weight") ;!
      add_cast named_parameters (prefix +:+ "." +:+ pretty i +:+ ".ln.bias") (hf_prefix +:+ "." +:+ pretty i +:+ ".input_layernorm.bias") ;!
      _concat_add named_parameters (prefix +:+ "." +:+ pretty i +:+ ".mixer.Wqkv.weight") [hf_prefix +:+ "." +:+ pretty i +:+ ".self_attn.q_proj.weight"; hf_prefix +:+ "." +:+ pretty i +:+ ".self_attn.k_proj.weight"; hf_prefix +:+ "." +:+ pretty i +:+ ".self_attn.v_proj.weight"] ;!
      _concat_add named_parameters (prefix +:+ "." +:+ pretty i +:+ ".mixer.Wqkv.bias") [hf_prefix +:+ "." +:+ pretty i +:+ ".self_attn.q_proj.bias"; hf_prefix +:+ "." +:+ pretty i +:+ ".self_attn.k_proj.bias"; hf_prefix +:+ "." +:+ pretty i +:+ ".self_attn.v_proj.bias"] ;!
      add_cast named_parameters (prefix +:+ "." +:+ pretty i +:+ ".mixer.out_proj.weight") (hf_prefix +:+ "." +:+ pretty i +:+ ".self_attn.dense.weight") ;!
      add_cast named_parameters (prefix +:+ "." +:+ pretty i +:+ ".mixer.out_proj.bias") (hf_prefix +:+ "." +:+ pretty i +:+ ".self_attn.dense.bias") ;!
      add_cast named_parameters (prefix +:+ "." +:+ pretty i +:+ ".mlp.fc1.weight") (hf_prefix +:+ "." +:+ pretty i +:+ ".mlp.fc1.weight") ;!
      add_cast named_parameters (prefix +:+ "." +:+ pretty i +:+ ".mlp.fc1.bias") (hf_prefix +:+ "." +:+ pretty i +:+ ".mlp.fc1.bias") ;!
      add_cast named_parameters (prefix +:+ "." +:+ pretty i +:+ ".mlp.fc2.weight") (hf_prefix +:+ "." +:+ pretty i +:+ ".mlp.fc2.weight") ;!
      add_cast named_parameters (prefix +:+ "." +:+ pretty i +:+ ".mlp.fc2.bias") (hf_prefix +:+ "." +:+ pretty i +:+ ".mlp.fc2.bias") ;!
      unused (hf_prefix +:+ "." +:+ pretty i +:+ ".mixer.rotary_emb.inv_freq")) layers.

Definition phi3_huggingface : WeightLoader := fun model_config quantization =>
  let! named_parameters := named_parameters_of false "Phi3ForCausalLM" model_config quantization in
  add_cast named_parameters "lm_head.weight" "lm_head.weight" ;!
  add_cast named_parameters "transformer.norm.weight" "model.norm.weight" ;!
  add_cast named_parameters "transformer.embd.weight" "model.embed_tokens.weight" ;!
  let prefix := "transformer.h" in
  let hf_prefix := "model.layers" in
  let! num_hidden_layers := config model_config "num_hidden_layers" in
  let! layers := mlift (py_range num_hidden_layers) in
  mfor (fun i =>
      add_cast named_parameters (prefix +:+ "." +:+ pretty i +:+ ".ln.weight") (hf_prefix +:+ "." +:+ pretty i +:+ ".input_layernorm.weight") ;!
      add_cast named_parameters (prefix +:+ "." +:+ pretty i +:+ ".mlp.down_proj.weight") (hf_prefix +:+ "." +:+ pretty i +:+ ".mlp.down_proj.weight") ;!
      add_cast named_parameters (prefix +:+ "." +:+ pretty i +:+ ".mlp.gate_up_proj.weight") (hf_prefix +:+ "." +:+ pretty i +:+ ".mlp.gate_up_proj.weight") ;!
      add_cast named_parameters (prefix +:+ "." +:+ pretty i +:+ ".post_attention_layernorm.weight") (hf_prefix +:+ "." +:+ pretty i +:+ ".post_attention_layernorm.weight") ;!
      add_cast named_parameters (prefix +:+ "." +:+ pretty i +:+ ".mixer.out_proj.weight") (hf_prefix +:+ "." +:+ pretty i +:+ ".self_attn.o_proj.weight") ;!
      add_cast named_parameters (prefix +:+ "." +:+ pretty i +:+ ".mixer.qkv_proj.weight") (hf_prefix +:+ "." +:+ pretty i +:+ ".self_attn.qkv_proj.weight")) layers.

Definition phi3v_huggingface : WeightLoader := fun model_config quantization =>
  let! named_parameters := named_parameters_of false "Phi3VForCausalLM" model_config quantization in
  add_cast named_parameters "model.embd.weight" "model.embed_tokens.weight" ;!
  let prefix := "model.h" in
  let hf_prefix := "model.layers" in
  let! num_hidden_layers := config model_config "num_hidden_layers" in
  let! layers := mlift (py_range num_hidden_layers) in
  mfor (fun i =>
      add_cast named_parameters (prefix +:+ "." +:+ pretty i +:+ ".ln.weight") (hf_prefix +:+ "." +:+ pretty i +:+ ".input_layernorm.weight") ;!
      add_cast named_parameters (prefix +:+ "." +:+ pretty i +:+ ".mlp.down_proj.weight") (hf_prefix +:+ "." +:+ pretty i +:+ ".mlp.down_proj.weight") ;!
      add_cast named_parameters (prefix +:+ "." +:+ pretty i +:+ ".mlp.gate_up_proj.weight") (hf_prefix +:+ "." +:+ pretty i +:+ ".mlp.gate_up_proj.weight") ;!
      add_cast named_parameters (prefix +:+ "." +:+ pretty i +:+ ".post_attention_layernorm.weight") (hf_prefix +:+ "." +:+ pretty i +:+ ".post_attention_layernorm.weight") ;!
      add_cast named_parameters (prefix +:+ "." +:+ pretty i +:+ ".mixer.out_proj.weight") (hf_prefix +:+ "." +:+ pretty i +:+ ".self_attn.o_proj.weight") ;!
      add_cast named_parameters (prefix +:+ "." +:+ pretty i +:+ ".mixer.qkv_proj.weight") (hf_prefix +:+ "." +:+ pretty i +:+ ".self_attn.qkv_proj.weight")) layers ;!
  let prefix := "vision_embed_tokens.img_processor.vision_model.encoder.layers" in
  let! num_hidden_layers := nested_config model_config "vision_config" "num_hidden_layers" in
  let! layers := mlift (py_range num_hidden_layers) in
  mfor (fun i =>
      _add_vision named_parameters (prefix +:+ "." +:+ pretty i +:+ ".layer_norm1.bias") ;!
      _add_vision named_parameters (prefix +:+ "." +:+ pretty i +:+ ".layer_norm1.weight") ;!
      _add_vision named_parameters (prefix +:+ "." +:+ pretty i +:+ ".layer_norm2.bias") ;!
      _add_vision named_parameters (prefix +:+ "." +:+ pretty i +:+ ".layer_norm2.weight") ;!
      _add_vision named_parameters (prefix +:+ "." +:+ pretty i +:+ ".mlp.fc1.bias") ;!
      _add_vision named_parameters (prefix +:+ "." +:+ pretty i +:+ ".mlp.fc1.weight") ;!
      _add_vision named_parameters (prefix +:+ "." +:+ pretty i +:+ ".mlp.fc2.bias") ;!
      _add_vision named_parameters (prefix +:+ "." +:+ pretty i +:+ ".mlp.fc2.weight") ;!
      _add_vision named_parameters (prefix +:+ "." +:+ pretty i +:+ ".self_attn.k_proj.bias") ;!
      _add_vision named_parameters (prefix +:+ "." +:+ pretty i +:+ ".self_attn.k_proj.weight") ;!
      _add_vision named_parameters (prefix +:+ "." +:+ pretty i +:+ ".self_attn.out_proj.bias") ;!
      _add_vision named_parameters (prefix +:+ "." +:+ pretty i +:+ ".self_attn.out_proj.weight") ;!
      _add_vision named_parameters (prefix +:+ "." +:+ pretty i +:+ ".self_attn.q_proj.bias") ;!
      _add_vision named_parameters (prefix +:+ "." +:+ pretty i +:+ ".self_attn.q_proj.weight") ;!
      _add_vision named_parameters (prefix +:+ "." +:+ pretty i +:+ ".self_attn.v_proj.bias") ;!
      _add_vision named_parameters (prefix +:+ "." +:+ pretty i +:+ ".self_attn.v_proj.weight")) layers ;!
  _add_vision named_parameters "vision_embed_tokens.sub_GN" ;!
  _add_vision named_parameters "vision_embed_tokens.glb_GN" ;!
  _add_vision named_parameters "vision_embed_tokens.img_processor.vision_model.embeddings.class_embedding" ;!
  _add_vision named_parameters "vision_embed_tokens.img_processor.vision_model.embeddings.patch_embedding.weight" ;!
  _add_vision named_parameters "vision_embed_tokens.img_processor.vision_model.embeddings.position_embedding.weight" ;!
  _add_vision named_parameters "vision_embed_tokens.img_processor.vision_model.post_layernorm.bias" ;!
  _add_vision named_parameters "vision_embed_tokens.img_processor.vision_model.post_layernorm.weight" ;!
  _add_vision named_parameters "vision_embed_tokens.img_processor.vision_model.pre_layrnorm.bias" ;!
  _add_vision named_parameters "vision_embed_tokens.img_processor.vision_model.pre_layrnorm.weight" ;!
  let prefix := "vision_embed_tokens.img_projection" in
  add_cast named_parameters (prefix +:+ ".linear_1.bias") ("model." +:+ prefix +:+ ".0.bias") ;!
  add_cast named_parameters (prefix +:+ ".linear_1.weight") ("model." +:+ prefix +:+ ".0.weight") ;!
  add_cast named_parameters (prefix +:+ ".linear_2.bias") ("model." +:+ prefix +:+ ".2.bias") ;!
  add_cast named_parameters (prefix +:+ ".linear_2.weight") ("model." +:+ prefix +:+ ".2.weight") ;!
  rest_as_is named_parameters ;!
  unused "model.embed_tokens.weight".

Definition qwen_huggingface : WeightLoader := fun model_config quantization =>
  let! named_parameters := named_parameters_of true "QWenLMHeadModel" model_config quantization in
  let! num_hidden_layers := config model_config "num_hidden_layers" in
  let! layers := mlift (py_range num_hidden_layers) in
  mfor (fun i =>
      let mlp := "transformer.h." +:+ pretty i +:+ ".mlp" in
      let mlc_name := mlp +:+ ".gate_up_proj.weight" in
      let! mlc_param := param named_parameters mlc_name in
      map_to mlc_name
        [mlp +:+ ".w1.weight"; mlp +:+ ".w2.weight"]
        (concat_cast 2 0 (dtype_of mlc_param))) layers ;!
  rest_as_is named_parameters.

Definition qwen2_huggingface : WeightLoader := fun model_config quantization =>
  let! named_parameters := named_parameters_of true "QWen2LMHeadModel" model_config quantization in
  let! num_hidden_layers := config model_config "num_hidden_layers" in
  let! layers := mlift (py_range num_hidden_layers) in
  mfor (fun i =>
      let attn := "model.layers." +:+ pretty i +:+ ".self_attn" in
      mfor (fun weight_type =>
          let mlc_name := attn +:+ ".c_attn." +:+ weight_type in
          let! mlc_param := param named_parameters mlc_name in
          map_to mlc_name
            [attn +:+ ".q_proj." +:+ weight_type; attn +:+ ".k_proj." +:+ weight_type; attn +:+ ".v_proj." +:+ weight_type]
            (concat_cast 3 0 (dtype_of mlc_param))) ["weight"; "bias"] ;!
      let mlp := "model.layers." +:+ pretty i +:+ ".mlp" in
      let mlc_name := mlp +:+ ".gate_up_proj.weight" in
      let! mlc_param := param named_parameters mlc_name in
      map_to mlc_name
        [mlp +:+ ".gate_proj.weight"; mlp +:+ ".up_proj.weight"]
        (concat_cast 2 0 (dtype_of mlc_param))) layers ;!
  rest_as_is named_parameters.

Definition qwen2_moe_huggingface : WeightLoader := fun model_config quantization =>
  let! named_parameters := named_parameters_of true "Qwen2MoeForCausalLM" model_config quantization in
  let! num_hidden_layers := config model_config "num_hidden_layers" in
  let! layers := mlift (py_range num_hidden_layers) in
  mfor (fun i =>
      let attn := "model.layers." +:+ pretty i +:+ ".self_attn" in
      mfor (fun weight_type =>
          let mlc_name := attn +:+ ".c_attn." +:+ weight_type in
          let! mlc_param := param named_parameters mlc_name in
          map_to mlc_name
            [attn +:+ ".q_proj." +:+ weight_type; attn +:+ ".k_proj." +:+ weight_type; attn +:+ ".v_proj." +:+ weight_type]
            (concat_cast 3 0 (dtype_of mlc_param))) ["weight"; "bias"] ;!
      let mlp := "model.layers." +:+ pretty i +:+ ".mlp" in
      let shared_expert := mlp +:+ ".shared_expert" in
      let mlc_name := shared_expert +:+ ".gate_up_proj.weight" in
      let! mlc_param := param named_parameters mlc_name in
      map_to mlc_name
        [shared_expert +:+ ".gate_proj.weight"; shared_expert +:+ ".up_proj.weight"]
        (concat_cast 2 0 (dtype_of mlc_param)) ;!
      let mlc_name := mlp +:+ ".moe_gate_up_proj.weight" in
      let! num_experts := config model_config "num_experts" in
      let! experts := mlift (py_range num_experts) in
      let! gate_ups := reduce_concat (map (fun expert_id => [mlp +:+ ".experts." +:+ pretty expert_id +:+ ".gate_proj.weight"; mlp +:+ ".experts." +:+ pretty expert_id +:+ ".up_proj.weight"]) experts) in
      map_to mlc_name
        gate_ups
        (combine_expert_gate_up (dtype_of mlc_param)) ;!
      let mlc_name := mlp +:+ ".moe_down_proj.weight" in
      let! mlc_param := param named_parameters mlc_name in
      let! num_experts := config model_config "num_experts" in
      let! experts := mlift (py_range num_experts) in
      map_to mlc_name
        (map (fun expert_id => mlp +:+ ".experts." +:+ pretty expert_id +:+ ".down_proj.weight") experts)
        (stack_cast (dtype_of mlc_param))) layers ;!
  rest_as_is named_parameters.

Definition qwen3_huggingface : WeightLoader := fun model_config quantization =>
  let! named_parameters := block_scale_parameters_of "Qwen3LMHeadModel" model_config quantization
    "The input Qwen3 model is not fp8 block quantized. Thus BlockScaleQuantize is not supported."
    "The input Qwen3 model is fp8 block quantized. Please use BlockScaleQuantize for the model." in
  let! num_hidden_layers := config model_config "num_hidden_layers" in
  let! layers := mlift (py_range num_hidden_layers) in
  mfor (fun i =>
      let attn := "model.layers." +:+ pretty i +:+ ".self_attn" in
      add_weight_and_scale_mapping named_parameters quantization
        (attn +:+ ".c_attn.weight")
        [attn +:+ ".q_proj.weight"; attn +:+ ".k_proj.weight"; attn +:+ ".v_proj.weight"]
        (concat_cast 3 0) ;!
      let! attention_bias := config model_config "attention_bias" in
      (if py_truthy attention_bias then
          let mlc_name := attn +:+ ".c_attn.bias" in
          let! mlc_param := param named_parameters mlc_name in
          map_to mlc_name
            [attn +:+ ".q_proj.bias"; attn +:+ ".k_proj.bias"; attn +:+ ".v_proj.bias"]
            (concat_cast 3 0 (dtype_of mlc_param))
       else
          mret' tt) ;!
      let mlp := "model.layers." +:+ pretty i +:+ ".mlp" in
      add_weight_and_scale_mapping named_parameters quantization
        (mlp +:+ ".gate_up_proj.weight")
        [mlp +:+ ".gate_proj.weight"; mlp +:+ ".up_proj.weight"]
        (concat_cast 2 0)) layers ;!
  rest_as_is named_parameters.

Definition qwen3_moe_huggingface : WeightLoader := fun model_config quantization =>
  let! named_parameters := block_scale_parameters_of "Qwen3MoeForCausalLM" model_config quantization
    "The input Qwen3 model is not fp8 block quantized. Thus BlockScaleQuantize is not supported."
    "The input Qwen3 model is fp8 block quantized. Please use BlockScaleQuantize for the model." in
  let! num_hidden_layers := config model_config "num_hidden_layers" in
  let! layers := mlift (py_range num_hidden_layers) in
  mfor (fun i =>
      let attn := "model.layers." +:+ pretty i +:+ ".self_attn" in
      add_weight_and_scale_mapping named_parameters quantization
        (attn +:+ ".c_attn.weight")
        [attn +:+ ".q_proj.weight"; attn +:+ ".k_proj.weight"; attn +:+ ".v_proj.weight"]
        (concat_cast 3 0) ;!
      let! attention_bias := config model_config "attention_bias" in
      (if py_truthy attention_bias then
          let mlc_name := attn +:+ ".c_attn.bias" in
          let! mlc_param := param named_parameters mlc_name in
          map_to mlc_name
            [attn +:+ ".q_proj.bias"; attn +:+ ".k_proj.bias"; attn +:+ ".v_proj.bias"]
            (concat_cast 3 0 (dtype_of mlc_param))
       else
          mret' tt) ;!
      let mlp := "model.layers." +:+ pretty i +:+ ".mlp" in
      let! num_experts := config model_config "num_experts" in
      let! experts := mlift (py_range num_experts) in
      let! gate_ups := reduce_concat (map (fun expert_id => [mlp +:+ ".experts." +:+ pretty expert_id +:+ ".gate_proj.weight"; mlp +:+ ".experts." +:+ pretty expert_id +:+ ".up_proj.weight"]) experts) in
      add_weight_and_scale_mapping named_parameters quantization
        (mlp +:+ ".moe_gate_up_proj.weight")
        gate_ups
        combine_expert_gate_up ;!
      let! num_experts := config model_config "num_experts" in
      let! experts := mlift (py_range num_experts) in
      add_weight_and_scale_mapping named_parameters quantization
        (mlp +:+ ".moe_down_proj.weight")
        (map (fun expert_id => mlp +:+ ".experts." +:+ pretty expert_id +:+ ".down_proj.weight") experts)
        stack_cast) layers ;!
  rest_as_is named_parameters.

Definition rwkv5_huggingface : WeightLoader := fun model_config quantization =>
  let! named_parameters := named_parameters_of false "RWKV5_ForCasualLM" model_config quantization in
  let! num_hidden_layers := config model_config "num_hidden_layers" in
  let! layers := mlift (py_range num_hidden_layers) in
  mfor (fun i =>
      let mlc_name := "model.blocks." +:+ pretty i +:+ ".attention.time_decay" in
      let hf_name := "rwkv.blocks." +:+ pretty i +:+ ".attention.time_decay" in
      let! mlc_param := param named_parameters mlc_name in
      (if negb (String.eqb (dtype mlc_param) "float32")
       then mraise (ValueError [Lit "RWKV5 time_decay should be float32, got "; FStr (dtype mlc_param)])
       else mret' tt) ;!
      map_to mlc_name
        [hf_name]
        (exp_neg_exp (dtype_of mlc_param)) ;!
      let! rescale_every := config model_config "rescale_every" in
      let! positive := mlift (py_gt rescale_every (JInt 0)) in
      (if positive then
          mfor (fun name =>
              let mlc_name := "model.blocks." +:+ pretty i +:+ "." +:+ name in
              let hf_name := "rwkv.blocks." +:+ pretty i +:+ "." +:+ name in
              let! mlc_param := param named_parameters mlc_name in
              let! rescale_every := config model_config "rescale_every" in
              let! t := mlift (py_floordiv (JInt i) rescale_every) in
              map_to mlc_name
                [hf_name]
                (rescale t (dtype_of mlc_param))) ["feed_forward.value.weight"; "attention.output.weight"]
       else
          mret' tt)) layers ;!
  for_unmapped named_parameters (fun mlc_name mlc_param =>
      let hf_name := (str_replace "model" "rwkv" mlc_name) in
      map_to mlc_name
        [hf_name]
        (cast (dtype_of mlc_param))).

Definition rwkv6_huggingface : WeightLoader := fun model_config quantization =>
  let! named_parameters := named_parameters_of false "RWKV6_ForCasualLM" model_config quantization in
  let! num_hidden_layers := config model_config "num_hidden_layers" in
  let! layers := mlift (py_range num_hidden_layers) in
  mfor (fun i =>
      let! rescale_every := config model_config "rescale_every" in
      let! positive := mlift (py_gt rescale_every (JInt 0)) in
      (if positive then
          mfor (fun name =>
              let mlc_name := "model.blocks." +:+ pretty i +:+ "." +:+ name in
              let hf_name := "rwkv.blocks." +:+ pretty i +:+ "." +:+ name in
              let! mlc_param := param named_parameters mlc_name in
              let! rescale_every := config model_config "rescale_every" in
              let! t := mlift (py_floordiv (JInt i) rescale_every) in
              map_to mlc_name
                [hf_name]
                (rescale t (dtype_of mlc_param))) ["feed_forward.value.weight"; "attention.output.weight"]
       else
          mret' tt)) layers ;!
  for_unmapped named_parameters (fun mlc_name mlc_param =>
      let hf_name := (str_replace "model" "rwkv" mlc_name) in
      map_to mlc_name
        [hf_name]
        (cast (dtype_of mlc_param))).

Definition stablelm_huggingface : WeightLoader := fun model_config quantization =>
  let! named_parameters := named_parameters_of true "StableLmForCausalLM" model_config quantization in
  let! num_hidden_layers := config model_config "num_hidden_layers" in
  let! layers := mlift (py_range num_hidden_layers) in
  mfor (fun i =>
      let attn := "model.layers." +:+ pretty i +:+ ".self_attn" in
      let mlc_name := attn +:+ ".qkv_proj.weight" in
      let! mlc_param := param named_parameters mlc_name in
      map_to mlc_name
        [attn +:+ ".q_proj.weight"; attn +:+ ".k_proj.weight"; attn +:+ ".v_proj.weight"]
        (concat_cast 3 0 (dtype_of mlc_param)) ;!
      let mlc_name := attn +:+ ".qkv_proj.bias" in
      (if dict_has named_parameters mlc_name then
          let! mlc_param := param named_parameters mlc_name in
          map_to mlc_name
            [attn +:+ ".q_proj.bias"; attn +:+ ".k_proj.bias"; attn +:+ ".v_proj.bias"]
            (concat_cast 3 0 (dtype_of mlc_param))
       else
          mret' tt) ;!
      let mlp := "model.layers." +:+ pretty i +:+ ".mlp" in
      let mlc_name := mlp +:+ ".gate_up_proj.weight" in
      let! mlc_param := param named_parameters mlc_name in
      map_to mlc_name
        [mlp +:+ ".gate_proj.weight"; mlp +:+ ".up_proj.weight"]
        (concat_cast 2 0 (dtype_of mlc_param))) layers ;!
  rest_as_is named_parameters.

Definition starcoder2_huggingface : WeightLoader := fun model_config quantization =>
  let! named_parameters := named_parameters_of true "Starcoder2ForCausalLM" model_config quantization in
  let mlc_name := "lm_head.weight" in
  let! mlc_param := param named_parameters mlc_name in
  map_to mlc_name
    ["model.embed_tokens.weight"]
    (cast (dtype_of mlc_param)) ;!
  let! num_hidden_layers := config model_config "num_hidden_layers" in
  let! layers := mlift (py_range num_hidden_layers) in
  mfor (fun i =>
      let attn := "model.layers." +:+ pretty i +:+ ".self_attn" in
      let mlc_name := attn +:+ ".wqkv_pack.weight" in
      let! mlc_param := param named_parameters mlc_name in
      map_to mlc_name
        [attn +:+ ".q_proj.weight"; attn +:+ ".k_proj.weight"; attn +:+ ".v_proj.weight"]
        (concat_cast 3 0 (dtype_of mlc_param)) ;!
      let mlc_name := attn +:+ ".wqkv_pack.bias" in
      (if dict_has named_parameters mlc_name then
          let! mlc_param := param named_parameters mlc_name in
          map_to mlc_name
            [attn +:+ ".q_proj.bias"; attn +:+ ".k_proj.bias"; attn +:+ ".v_proj.bias"]
            (concat_cast 3 0 (dtype_of mlc_param))
       else
          mret' tt)) layers ;!
  rest_as_is named_parameters.

(** The loaders of the models, as [MODELS] lists them by weight format. *)
Definition SOURCES : dict (dict WeightLoader) :=
  [ ("llama",
     [("huggingface-torch", llama_huggingface);
      ("huggingface-safetensor", llama_huggingface);
      ("awq", llama_awq)]);
    ("mistral",
     [("huggingface-torch", mistral_huggingface);
      ("huggingface-safetensor", mistral_huggingface);
      ("awq", mistral_awq)]);
    ("gemma",
     [("huggingface-torch", gemma_huggingface);
      ("huggingface-safetensor", gemma_huggingface)]);
    ("gemma2",
     [("huggingface-torch", gemma2_huggingface);
      ("huggingface-safetensor", gemma2_huggingface)]);
    ("gemma3",
     [("huggingface-torch", gemma3_huggingface);
      ("huggingface-safetensor", gemma3_huggingface)]);
    ("gemma3_text",
     [("huggingface-torch", gemma3_huggingface);
      ("huggingface-safetensor", gemma3_huggingface)]);
    ("gpt2",
     [("huggingface-torch", gpt2_huggingface);
      ("huggingface-safetensor", gpt2_huggingface)]);
    ("mixtral",
     [("huggingface-torch", mixtral_huggingface);
      ("huggingface-safetensor", mixtral_huggingface)]);
    ("gpt_neox",
     [("huggingface-torch", gpt_neox_huggingface);
      ("huggingface-safetensor", gpt_neox_huggingface)]);
    ("gpt_bigcode",
     [("huggingface-torch", gpt_bigcode_huggingface);
      ("huggingface-safetensor", gpt_bigcode_huggingface)]);
    ("phi-msft",
     [("huggingface-torch", phi_huggingface);
      ("huggingface-safetensor", phi_huggingface)]);
    ("phi",
     [("huggingface-torch", phi1_huggingface);
      ("huggingface-safetensor", phi1_huggingface)]);
    ("phi3",
     [("huggingface-torch", phi3_huggingface);
      ("huggingface-safetensor", phi3_huggingface)]);
    ("phi3_v",
     [("huggingface-torch", phi3v_huggingface);
      ("huggingface-safetensor", phi3v_huggingface)]);
    ("qwen",
     [("huggingface-torch", qwen_huggingface);
      ("huggingface-safetensor", qwen_huggingface)]);
    ("qwen2",
     [("huggingface-torch", qwen2_huggingface);
      ("huggingface-safetensor", qwen2_huggingface)]);
    ("qwen2_moe",
     [("huggingface-torch", qwen2_moe_huggingface);
      ("huggingface-safetensor", qwen2_moe_huggingface)]);
    ("qwen3",
     [("huggingface-torch", qwen3_huggingface);
      ("huggingface-safetensor", qwen3_huggingface)]);
    ("qwen3_moe",
     [("huggingface-torch", qwen3_moe_huggingface);
      ("huggingface-safetensor", qwen3_moe_huggingface)]);
    ("deepseek_v2",
     [("huggingface-torch", deepseek_v2_huggingface);
      ("huggingface-safetensor", deepseek_v2_huggingface)]);
    ("deepseek_v3",
     [("huggingface-torch", deepseek_v2_huggingface);
      ("huggingface-safetensor", deepseek_v2_huggingface)]);
    ("stablelm",
     [("huggingface-torch", stablelm_huggingface);
      ("huggingface-safetensor", stablelm_huggingface)]);
    ("baichuan",
     [("huggingface-torch", baichuan_huggingface);
      ("huggingface-safetensor", baichuan_huggingface)]);
    ("internlm",
     [("huggingface-torch", internlm_huggingface);
      ("huggingface-safetensor", internlm_huggingface)]);
    ("internlm2",
     [("huggingface-torch", internlm2_huggingface);
      ("huggingface-safetensor", internlm2_huggingface)]);
    ("rwkv5",
     [("huggingface-torch", rwkv5_huggingface);
      ("huggingface-safetensor", rwkv5_huggingface)]);
    ("orion",
     [("huggingface-torch", orion_huggingface);
      ("huggingface-safetensor", orion_huggingface)]);
    ("llava",
     [("huggingface-torch", llava_huggingface);
      ("huggingface-safetensor", llava_huggingface);
      ("awq", llava_awq)]);
    ("rwkv6",
     [("huggingface-torch", rwkv6_huggingface);
      ("huggingface-safetensor", rwkv6_huggingface)]);
    ("chatglm",
     [("huggingface-torch", chatglm3_huggingface);
      ("huggingface-safetensor", chatglm3_huggingface)]);
    ("eagle",
     [("huggingface-torch", eagle_huggingface);
      ("huggingface-safetensor", eagle_huggingface);
      ("awq", eagle_awq)]);
    ("bert",
     [("huggingface-torch", bert_huggingface);
      ("huggingface-safetensor", bert_huggingface)]);
    ("medusa",
     [("huggingface-torch", medusa_huggingface);
      ("huggingface-safetensor", medusa_huggingface)]);
    ("starcoder2",
     [("huggingface-torch", starcoder2_huggingface);
      ("huggingface-safetensor", starcoder2_huggingface)]);
    ("cohere",
     [("huggingface-torch", cohere_huggingface);
      ("huggingface-safetensor", cohere_huggingface)]);
    ("minicpm",
     [("huggingface-torch", minicpm_huggingface);
      ("huggingface-safetensor", minicpm_huggingface)]);
    ("deepseek",
     [("huggingface-torch", deepseek_huggingface);
      ("huggingface-safetensor", deepseek_huggingface)]);
    ("gptj",
     [("huggingface-torch", gpt_j_huggingface);
      ("huggingface-safetensor", gpt_j_huggingface)]);
    ("olmo",
     [("huggingface-torch", olmo_huggingface);
      ("huggingface-safetensor", olmo_huggingface);
      ("awq", olmo_awq)]);
    ("nemotron",
     [("huggingface-torch", nemotron_huggingface);
      ("huggingface-safetensor", nemotron_huggingface)]) ].

(** The loaders that map every parameter of the network and nothing else, with
    the network each starts from.  Of the others, those of Phi and Phi-3 have
    no loop over what is left, MiniCPM leaves out a tied [lm_head.weight],
    GPT-2, DeepSeek and Qwen2-MoE map one name without looking it up, and
    Mistral's AWQ loader fails. *)
Definition Source : Type := obj -> option Quantization -> M ExternMapping (dict MlcParam).
Definition EXACT : list (WeightLoader * Source) :=
  [ (baichuan_huggingface, fun model_config quantization =>
      named_parameters_of true "BaichuanForCausalLM" model_config quantization);
    (bert_huggingface, fun model_config quantization =>
      named_parameters_of true "BertModel" model_config quantization);
    (chatglm3_huggingface, fun model_config quantization =>
      named_parameters_of true "ChatGLMForCausalLM" model_config quantization);
    (cohere_huggingface, fun model_config quantization =>
      named_parameters_of true "CohereForCausalLM" model_config quantization);
    (cohere_awq, fun model_config quantization =>
      awq_parameters_of true "cohere" model_config quantization);
    (deepseek_v2_huggingface, fun model_config quantization =>
      block_scale_parameters_of "DeepseekV2ForCausalLM" model_config quantization
        "The input DeepSeek model is not fp8 block quantized. Thus BlockScaleQuantize is not supported."
        "The input DeepSeek model is fp8 block quantized. Please use BlockScaleQuantize for the model.");
    (eagle_huggingface, fun model_config quantization =>
      named_parameters_of true "EagleForCasualLM" model_config quantization);
    (eagle_awq, fun model_config quantization =>
      awq_parameters_of true "eagle" model_config quantization);
    (gemma_huggingface, fun model_config quantization =>
      named_parameters_of true "GemmaForCausalLM" model_config quantization);
    (gemma2_huggingface, fun model_config quantization =>
      named_parameters_of true "Gemma2ForCausalLM" model_config quantization);
    (gemma3_huggingface, fun model_config quantization =>
      named_parameters_of true "Gemma3ForCausalLM" model_config quantization);
    (gpt_bigcode_huggingface, fun model_config quantization =>
      named_parameters_of true "GPTBigCodeForCausalLM" model_config quantization);
    (gpt_j_huggingface, fun model_config quantization =>
      named_parameters_of true "GPTJForCausalLM" model_config quantization);
    (gpt_neox_huggingface, fun model_config quantization =>
      named_parameters_of true "GPTNeoXForCausalLM" model_config quantization);
    (internlm_huggingface, fun model_config quantization =>
      named_parameters_of true "InternLMForCausalLM" model_config quantization);
    (internlm2_huggingface, fun model_config quantization =>
      named_parameters_of true "InternLM2ForCausalLM" model_config quantization);
    (llama_huggingface, fun model_config quantization =>
      named_parameters_of true "LlamaForCausalLM" model_config quantization);
    (llama_awq, fun model_config quantization =>
      awq_parameters_of true "llama" model_config quantization);
    (llava_huggingface, fun model_config quantization =>
      named_parameters_of true "LlavaForCasualLM" model_config quantization);
    (llava_awq, fun model_config quantization =>
      awq_parameters_of false "llava" model_config quantization);
    (medusa_huggingface, fun model_config quantization =>
      named_parameters_of true "MedusaModel" model_config quantization);
    (mistral_huggingface, fun model_config quantization =>
      named_parameters_of true "MistralForCasualLM" model_config quantization);
    (mixtral_huggingface, fun model_config quantization =>
      named_parameters_of true "MixtralForCasualLM" model_config quantization);
    (nemotron_huggingface, fun model_config quantization =>
      named_parameters_of true "NemotronForCausalLM" model_config quantization);
    (olmo_huggingface, fun model_config quantization =>
      named_parameters_of true "OLMoForCausalLM" model_config quantization);
    (olmo_awq, fun model_config quantization =>
      awq_parameters_of true "olmo" model_config quantization);
    (orion_huggingface, fun model_config quantization =>
      named_parameters_of true "OrionForCasualLM" model_config quantization);
    (phi3v_huggingface, fun model_config quantization =>
      named_parameters_of false "Phi3VForCausalLM" model_config quantization);
    (qwen_huggingface, fun model_config quantization =>
      named_parameters_of true "QWenLMHeadModel" model_config quantization);
    (qwen2_huggingface, fun model_config quantization =>
      named_parameters_of true "QWen2LMHeadModel" model_config quantization);
    (qwen3_huggingface, fun model_config quantization =>
      block_scale_parameters_of "Qwen3LMHeadModel" model_config quantization
        "The input Qwen3 model is not fp8 block quantized. Thus BlockScaleQuantize is not supported."
        "The input Qwen3 model is fp8 block quantized. Please use BlockScaleQuantize for the model.");
    (qwen3_moe_huggingface, fun model_config quantization =>
      block_scale_parameters_of "Qwen3MoeForCausalLM" model_config quantization
        "The input Qwen3 model is not fp8 block quantized. Thus BlockScaleQuantize is not supported."
        "The input Qwen3 model is fp8 block quantized. Please use BlockScaleQuantize for the model.");
    (rwkv5_huggingface, fun model_config quantization =>
      named_parameters_of false "RWKV5_ForCasualLM" model_config quantization);
    (rwkv6_huggingface, fun model_config quantization =>
      named_parameters_of false "RWKV6_ForCasualLM" model_config quantization);
    (stablelm_huggingface, fun model_config quantization =>
      named_parameters_of true "StableLmForCausalLM" model_config quantization);
    (starcoder2_huggingface, fun model_config quantization =>
      named_parameters_of true "Starcoder2ForCausalLM" model_config quantization) ].

(** ** Every parameter of the network is mapped, and nothing else *)

#[export] Instance maps_if_has {A} named n (c1 c2 : M ExternMapping A) :
  (Known named n -> Maps named c1) -> Maps named c2 ->
  Maps named (if dict_has named n then c1 else c2) | 0.
Proof.
  intros H1 H2. destruct (dict_has named n) eqn:E; [|done]. apply H1, dict_get_In.
  unfold dict_has in E. destruct (dict_get named n); [eauto|done].
Qed.
#[export] Instance maps_neox c named : Maps named (neox_rest c named).
Proof. unfold neox_rest. apply _. Qed.
#[export] Instance completes_neox c named : Completes named (neox_rest c named).
Proof. unfold neox_rest. apply _. Qed.
#[export] Instance maps_vision named n : Maps named (_add_vision named n).
Proof. unfold _add_vision. apply _. Qed.
#[export] Instance maps_concat_add named n l : Maps named (_concat_add named n l).
Proof. unfold _concat_add. apply _. Qed.

Ltac solve_covers :=
  intros ? ?; eexists; split; [reflexivity|]; intros ?; cbv beta; split; apply _.

Lemma exact_covers : Forall (fun fs => covers (fst fs) (snd fs)) EXACT.
Proof. unfold EXACT. repeat (constructor; [cbn [fst snd]; solve_covers|]). constructor. Qed.

Lemma exact_pure : Forall (fun fs : WeightLoader * Source => forall c q, Pure (snd fs c q)) EXACT.
Proof. unfold EXACT. repeat (constructor; [cbn [fst snd]; intros; apply _|]). constructor. Qed.

Lemma exact_map f source model_config quantization m paths :
  In (f, source) EXACT -> run_loader f model_config quantization = Ok m ->
  check_parameter_usage m (dict_keys paths) = Ok tt ->
  exists named, source model_config quantization ExternMapping_new = (Ok named, ExternMapping_new) /\
    (forall n, In n (dict_keys named) <-> dict_has (param_map m) n = true) /\
    (forall n, dict_has (map_func m) n = dict_has (param_map m) n) /\
    NoDup (_loading_order m paths) /\
    forall n, In n (_loading_order m paths) <->
      In n (dict_keys named) /\ dict_get (param_map m) n <> Some [].
Proof.
  intros Hin Hrun Hu. pose proof exact_covers as Hc. pose proof exact_pure as Hp.
  rewrite List.Forall_forall in Hc, Hp. specialize (Hc _ Hin). specialize (Hp _ Hin). cbn in Hc, Hp.
  destruct (covers_spec f source _ _ m Hc Hp Hrun) as (named & Hs & Hk & Hd & Hn).
  destruct (order_spec m paths) as [Ho1 Ho2]. rewrite usage_Ok in Hu. exists named.
  split; [done|]. split; [intros n; by rewrite dict_has_In, Hn|].
  split; [intros n; apply eq_true_iff_eq; by rewrite !dict_has_In, Hk|]. split; [done|].
  intros n. rewrite Ho2, <- (Hn n). split.
  - intros (ts & t & H1 & H2 & _). apply (dict_get_NoDup _ Hd) in H1. split.
    + apply dict_get_In. by exists ts.
    + rewrite H1. by destruct ts.
  - intros [[ts Hts]%dict_get_In H2]. rewrite Hts in H2. destruct ts as [|t ts]; [done|].
    exists (t :: ts), t. apply dict_get_pair in Hts.
    split; [done|]. split; [by left|]. eapply Hu; [exact Hts|by left].
Qed.

(** C25: the weight maps are exact.  When one of these loaders succeeds, the
    mapping has exactly the parameters of its network, each with a function;
    and when the weight files have every source, the loading order lists,
    once each, exactly the parameters of the network that have a source. *)
Theorem weight_map_exact f source model_config quantization m paths :
  In (f, source) EXACT -> run_loader f model_config quantization = Ok m ->
  check_parameter_usage m (dict_keys paths) = Ok tt ->
  exists named, source model_config quantization ExternMapping_new = (Ok named, ExternMapping_new) /\
    (forall n, In n (dict_keys named) <-> dict_has (param_map m) n = true) /\
    (forall n, dict_has (map_func m) n = dict_has (param_map m) n) /\
    NoDup (_loading_order m paths) /\
    forall n, In n (_loading_order m paths) <->
      In n (dict_keys named) /\ dict_get (param_map m) n <> Some [].
Proof. apply exact_map. Qed.

(** The AWQ loader of Mistral never succeeds. *)
Theorem mistral_awq_fails model_config quantization :
  is_ok (run_loader mistral_awq model_config quantization) = false.
Proof.
  unfold run_loader, mistral_awq. destruct (mbind' _ _ _) as [[[]|e] m] eqn:E; [|done].
  apply mbind_inv in E as [(named & m1 & H & _)|(e & _ & ?)]; [|done].
  unfold unbalanced_parameters_of in H. apply mbind_inv in H as [(n & m2 & _ & H)|(e & _ & ?)]; done.
Qed.

(** ** Llama: the fused weights *)

Definition attn_of (i : Z) : string := "model.layers." +:+ pretty i +:+ ".self_attn".
Definition mlp_of (i : Z) : string := "model.layers." +:+ pretty i +:+ ".mlp".
Definition qkv (i : Z) : string := attn_of i +:+ ".qkv_proj.weight".
Definition gate_up (i : Z) : string := mlp_of i +:+ ".gate_up_proj.weight".

Lemma layer_inj (i j : Z) (a b : string) :
  ("model.layers." +:+ pretty i +:+ a) +:+ b = ("model.layers." +:+ pretty j +:+ a) +:+ b -> i = j.
Proof. intros H%str_tail_inj. apply String.app_inj, str_tail_inj in H. by apply pretty_Z_inj. Qed.

Lemma qkv_gate_up i j : qkv i <> gate_up j.
Proof.
  intros H. apply (f_equal str_rev) in H. unfold qkv, gate_up in H. rewrite !str_rev_app in H.
  discriminate H.
Qed.

(** A parameter of the network, how it is made. *)
Definition llama_entry (named : dict MlcParam) (L : Z) (n : string) (l : list string) (f : MapFunc) : Prop :=
  exists p, dict_get named n = Some p /\
    (forall i, 0 <= i < L -> n = qkv i ->
       l = [attn_of i +:+ ".q_proj.weight"; attn_of i +:+ ".k_proj.weight"; attn_of i +:+ ".v_proj.weight"] /\
       f = concat_cast 3 0 (dtype_of p)) /\
    (forall i, 0 <= i < L -> n = gate_up i ->
       l = [mlp_of i +:+ ".gate_proj.weight"; mlp_of i +:+ ".up_proj.weight"] /\
       f = concat_cast 2 0 (dtype_of p)) /\
    ((forall i, 0 <= i < L -> n <> qkv i /\ n <> gate_up i) -> l = [n] /\ f = cast (dtype_of p)).

(** Loading a concatenated parameter, and one taken as it is. *)
Lemma concat_spec c n l dt : dict_get (param_map (extern_param_map c)) n = Some l ->
  dict_get (map_func (extern_param_map c)) n = Some (concat_cast (length l) 0 dt) ->
  param_spec c n = let? ws := rmap (disk_value c) l in
                   let? w := np_concatenate ws 0 in let? w := astype w dt in Ok (as_ndarray w).
Proof.
  intros Hl Hf. unfold param_spec. rewrite (dict_getitem_Ok _ _ _ Hl). cbn.
  destruct (rmap (disk_value c) l) as [ws|e] eqn:E; [|done]. cbn.
  rewrite (dict_getitem_Ok _ _ _ Hf). cbn. unfold concat_cast.
  rewrite (rmap_length _ _ _ E), Nat.eqb_refl. by destruct (np_concatenate ws 0).
Qed.

Lemma cast_spec c n t dt : dict_get (param_map (extern_param_map c)) n = Some [t] ->
  dict_get (map_func (extern_param_map c)) n = Some (cast dt) ->
  param_spec c n = let? w := disk_value c t in let? w := astype w dt in Ok (as_ndarray w).
Proof.
  intros Hl Hf. unfold param_spec. rewrite (dict_getitem_Ok _ _ _ Hl). cbn.
  destruct (disk_value c t); [|done]. cbn. by rewrite (dict_getitem_Ok _ _ _ Hf).
Qed.

Lemma named_NoDup b c cfg q m named m' :
  named_parameters_of b c cfg q m = (Ok named, m') -> NoDup (dict_keys named).
Proof.
  unfold named_parameters_of, named_params_of.
  intros [(model & m1 & _ & H)|(e & _ & ?)]%mbind_inv; [|done].
  unfold mlift in H. destruct (export_tvm b model); [|done]. injection H as <- _. apply dict_of_NoDup.
Qed.

Lemma llama_entries cfg q m L : attr cfg "num_hidden_layers" = Ok (JInt L) ->
  run_loader llama_huggingface cfg q = Ok m ->
  exists named, named_parameters_of true "LlamaForCausalLM" cfg q ExternMapping_new = (Ok named, ExternMapping_new) /\
    (forall i, 0 <= i < L -> In (qkv i) (dict_keys (param_map m)) /\ In (gate_up i) (dict_keys (param_map m))) /\
    entries (llama_entry named L) m.
Proof.
  intros HL. unfold run_loader, llama_huggingface.
  destruct (mbind' _ _ _) as [[[]|e] m1] eqn:E; [|done]. intros [= ->].
  apply mbind_inv in E as [(named & m0 & H0 & E)|(e & _ & ?)]; [|done].
  assert (NoDup (dict_keys named)) as Hd by (by eapply named_NoDup).
  pose proof (pure_source _ _ _ _ _ _ _ H0) as ->. exists named. split; [done|].
  unfold config in E. rewrite HL in E.
  rewrite (mbind_Ok _ _ _ (JInt L) ExternMapping_new) in E by done.
  rewrite (mbind_Ok _ _ _ (map Z.of_nat (seq 0 (Z.to_nat L))) ExternMapping_new) in E by done.
  set (body := fun i => _) in E.
  assert (forall i, Maps named (body i)) as Hmaps by (intros i; apply _).
  apply mbind_inv in E as [(u & m1 & H1 & H2)|(e & _ & ?)]; [|done]. destruct u.
  assert (forall i, 0 <= i < L ->
    In (qkv i) (dict_keys (param_map m1)) /\ In (gate_up i) (dict_keys (param_map m1))) as Hin.
  { intros i Hi. assert (In i (map Z.of_nat (seq 0 (Z.to_nat L)))) as Hi'.
    { apply in_map_iff. exists (Z.to_nat i). rewrite in_seq. lia. }
    split.
    - refine (maps_name_for named (qkv i) body _ i Hi' _ Hmaps _ _ H1).
      apply maps_name_bind. intros p m2 m3 H.
      by refine (maps_name_left named _ _ _ _ _ _ (maps_name_map_to _ _ _) _ H).
    - refine (maps_name_for named (gate_up i) body _ i Hi' _ Hmaps _ _ H1).
      apply maps_name_bind. intros p. apply maps_name_bind. intros _. apply maps_name_bind.
      intros p' m2 m3 H.
      by refine (maps_name_left named _ _ _ _ _ _ (maps_name_map_to _ _ _) _ H). }
  split.
  { intros i Hi. destruct (Hin i Hi). split; by eapply (maps_rest named _ _ _ H2). }
  eapply (rest_entries _ named _ _ _ Hd H2).
  - eapply (maps_as_for (llama_entry named L) body); [|exact H1|done]. intros i Hi.
    assert (0 <= i < L) as Hr.
    { apply in_map_iff in Hi as (k & <- & Hk%in_seq). lia. }
    apply maps_as_param. intros p Hp. apply maps_as_bind; [apply maps_as_map_to|intros _].
    { exists p. split; [done|]. split; [|split].
      - by intros j _ <-%layer_inj.
      - by intros j _ H%qkv_gate_up.
      - intros H. by destruct (H i Hr) as [[] _]. }
    apply maps_as_param. intros p' Hp'. apply maps_as_bind; [apply maps_as_map_to|intros _; apply _].
    exists p'. split; [done|]. split; [|split].
    + intros j _ H. by destruct (qkv_gate_up j i).
    + by intros j _ <-%layer_inj.
    + intros H. by destruct (H i Hr) as [_ []].
  - intros n p Hp Hnot. exists p. split; [done|]. split; [|split; [|done]].
    + intros i Hi ->. by destruct (Hin i Hi).
    + intros i Hi ->. by destruct (Hin i Hi).
Qed.

Lemma llama_complete cfg q m named : run_loader llama_huggingface cfg q = Ok m ->
  named_parameters_of true "LlamaForCausalLM" cfg q ExternMapping_new = (Ok named, ExternMapping_new) ->
  incl (dict_keys named) (dict_keys (param_map m)).
Proof.
  intros Hrun Hs.
  assert (covers llama_huggingface (named_parameters_of true "LlamaForCausalLM")) as Hc by solve_covers.
  destruct (covers_spec _ _ _ _ _ Hc (fun _ _ => pure_source _ _ _ _) Hrun) as (named' & Hs' & _ & _ & Hn).
  rewrite Hs in Hs'. injection Hs' as <-. intros n. apply Hn.
Qed.

(** C26: the weights of Llama.  When the loader succeeds on a network of [L]
    layers, loading the fused attention weight of a layer gives the query, key
    and value weights of that layer, concatenated in this order along the rows
    and cast to the type of the parameter; the fused feed-forward weight is the
    gate weight on the up weight of the layer; and every other parameter is the
    tensor of its own name, cast. *)
Theorem llama_weights model_config quantization L c :
  attr model_config "num_hidden_layers" = Ok (JInt L) ->
  run_loader llama_huggingface model_config quantization = Ok (extern_param_map c) ->
  exists named, named_parameters_of true "LlamaForCausalLM" model_config quantization ExternMapping_new
      = (Ok named, ExternMapping_new) /\
    (forall i, 0 <= i < L -> exists p, dict_get named (qkv i) = Some p /\
       param_spec c (qkv i) =
         let? ws := rmap (disk_value c) [attn_of i +:+ ".q_proj.weight"; attn_of i +:+ ".k_proj.weight";
                                         attn_of i +:+ ".v_proj.weight"] in
         let? w := np_concatenate ws 0 in let? w := astype w (JStr (dtype p)) in Ok (as_ndarray w)) /\
    (forall i, 0 <= i < L -> exists p, dict_get named (gate_up i) = Some p /\
       param_spec c (gate_up i) =
         let? ws := rmap (disk_value c) [mlp_of i +:+ ".gate_proj.weight"; mlp_of i +:+ ".up_proj.weight"] in
         let? w := np_concatenate ws 0 in let? w := astype w (JStr (dtype p)) in Ok (as_ndarray w)) /\
    (forall n p, dict_get named n = Some p -> (forall i, 0 <= i < L -> n <> qkv i /\ n <> gate_up i) ->
       param_spec c n =
         let? w := disk_value c n in let? w := astype w (JStr (dtype p)) in Ok (as_ndarray w)).
Proof.
  intros HL Hrun. destruct (llama_entries _ _ _ _ HL Hrun) as (named & Hs & Hin & He).
  exists named. split; [done|].
  assert (forall n, In n (dict_keys (param_map (extern_param_map c))) ->
    exists l f, dict_get (param_map (extern_param_map c)) n = Some l /\
      dict_get (map_func (extern_param_map c)) n = Some f /\ llama_entry named L n l f) as Hget.
  { intros n [l Hl]%dict_get_In. destruct (He n l Hl) as (f & Hf & HP). by exists l, f. }
  split; [|split].
  - intros i Hi. destruct (Hget _ (proj1 (Hin i Hi))) as (l & f & Hl & Hf & p & Hp & Hq & _).
    destruct (Hq i Hi eq_refl) as [-> ->]. exists p. split; [done|]. by apply concat_spec.
  - intros i Hi. destruct (Hget _ (proj2 (Hin i Hi))) as (l & f & Hl & Hf & p & Hp & _ & Hg & _).
    destruct (Hg i Hi eq_refl) as [-> ->]. exists p. split; [done|]. by apply concat_spec.
  - intros n p Hp Hno.
    assert (In n (dict_keys (param_map (extern_param_map c)))) as Hn.
    { apply (llama_complete _ _ _ _ Hrun Hs). apply dict_get_In. by exists p. }
    destruct (Hget _ Hn) as (l & f & Hl & Hf & p' & Hp' & _ & _ & Ho).
    rewrite Hp in Hp'. injection Hp' as <-. destruct (Ho Hno) as [-> ->]. by apply cast_spec.
Qed.
End WeightMaps.

(** ** Witnesses *)

Module WeightMapsWitness.
(** Arrays are lists of numbers; one file, a network of one layer. *)
#[export] Instance files : WeightFiles :=
  {| array := list Z; nd_array := list Z; nbytes a := 2 * Z.of_nat (length a);
     array_size a := Z.of_nat (length a); as_ndarray a := a; is_file _ := true;
     load_safetensor_shard p :=
       Ok [("model.embed_tokens.weight", [7]); ("model.layers.0.self_attn.q_proj.weight", [1]);
           ("model.layers.0.self_attn.k_proj.weight", [2]); ("model.layers.0.self_attn.v_proj.weight", [3]);
           ("model.layers.0.mlp.gate_proj.weight", [4]); ("model.layers.0.mlp.up_proj.weight", [5]);
           ("lm_head.weight", [6])];
     load_torch_shard p := Raise (FileNotFoundError [FStr p]);
     read_weight_map _ := Ok [] |}.
#[export] Instance numpy : Numpy :=
  {| np_concatenate l _ := Ok (concat l); np_stack l _ := Ok (concat l); astype a _ := Ok a;
     np_shape a := [JInt (Z.of_nat (length a))]; np_reshape a _ := Ok a; np_split a _ _ := Ok [a];
     np_transpose a _ := Ok a; np_add a k := Ok (map (Z.add k) a); np_divide a _ := Ok a;
     np_exp a := Ok a; np_negative a := Ok (map Z.opp a) |}.
#[export] Instance networks : Networks :=
  {| network := list (string * MlcParam);
     build _ _ := Ok (map (fun n => (n, mkMlcParam "float16"))
       ["model.embed_tokens.weight"; "model.layers.0.self_attn.qkv_proj.weight";
        "model.layers.0.mlp.gate_up_proj.weight"; "lm_head.weight"]);
     to_dtype n dt := map (fun kv => (fst kv, mkMlcParam dt)) n;
     quantize_model _ n := Ok n; awq_quant _ _ _ := Ok []; export_tvm _ n := Ok n |}.

Definition model_config : obj := mkObj [("num_hidden_layers", JInt 1)] [].
Definition the_map : ExternMapping :=
  match run_loader llama_huggingface model_config None with Ok m => m | _ => ExternMapping_new end.
Definition paths : dict string :=
  map (fun n => (n, "model.safetensors"))
    ["model.embed_tokens.weight"; "model.layers.0.self_attn.q_proj.weight";
     "model.layers.0.self_attn.k_proj.weight"; "model.layers.0.self_attn.v_proj.weight";
     "model.layers.0.mlp.gate_proj.weight"; "model.layers.0.mlp.up_proj.weight"; "lm_head.weight"].
Definition loader : LoaderConfig := mkLoaderConfig the_map paths None.

Example weight_map_exact_witness :
  exists named, named_parameters_of true "LlamaForCausalLM" model_config None ExternMapping_new
      = (Ok named, ExternMapping_new) /\
    (forall n, In n (dict_keys named) <-> dict_has (param_map the_map) n = true) /\
    (forall n, dict_has (map_func the_map) n = dict_has (param_map the_map) n) /\
    NoDup (_loading_order the_map paths) /\
    forall n, In n (_loading_order the_map paths) <->
      In n (dict_keys named) /\ dict_get (param_map the_map) n <> Some [].
Proof.
  refine (weight_map_exact llama_huggingface _ model_config None the_map paths
            (nth_error_In EXACT 16 eq_refl) _ _); reflexivity.
Defined.

Example llama_weights_witness :
  param_spec loader (qkv 0) = Ok [1; 2; 3] /\ param_spec loader (gate_up 0) = Ok [4; 5] /\
  param_spec loader "lm_head.weight" = Ok [6].
Proof.
  destruct (llama_weights model_config None 1 loader) as (named & Hn & Hq & Hg & Hr);
    [reflexivity|reflexivity|]. injection Hn as <-.
  destruct (Hq 0) as (p & _ & ->); [lia|]. destruct (Hg 0) as (p' & _ & ->); [lia|].
  split; [reflexivity|]. split; [reflexivity|].
  rewrite (Hr "lm_head.weight" (mkMlcParam "float16") eq_refl); [reflexivity|].
  intros i Hi. assert (i = 0) as -> by lia. by split.
Defined.
End WeightMapsWitness.
