(* ===== verification/NnModule.v ===== *)
(** * Neural network modules

    What the quantization schemes ([quantization/*.py]) see of a network: a tree
    of [nn.Module]s with named parameters, and the traversal of [nn.Mutator].

    [nn.Module], [nn.Mutator], [nn.Parameter] and [DataType] are TVM's; what is
    relied on is stated as laws ([MutatorLaws], [ConversionLaws],
    [DataTypeLaws]).  The modules themselves, [support/tensor_parallel.py] and
    [nn/expert.py] give the data. *)

From stdpp Require Import base list strings pretty.
From S2P Require Import Prelude PyStr Loader.
Local Open Scope string_scope.
Local Open Scope list_scope.
Local Open Scope Z_scope.

(** ** Parameters *)

(** A dimension: a number, or a symbolic variable. *)
Inductive dim : Set := DInt (n : Z) | DVar (s : string).

#[global] Instance dim_eq_dec : EqDecision dim.
Proof. solve_decision. Defined.

(** A sharding strategy in [attrs["shard_strategy"]]: [ShardSingleDim], or an
    object of another class. *)
Inductive Shard : Set :=
| ShardSingleDim (name : string) (sdim : Z) (segs : option (list Z))
| OtherShard (name : string).

Definition shard_name (s : Shard) : string :=
  match s with ShardSingleDim n _ _ => n | OtherShard n => n end.

(** [nn.Parameter(shape, dtype)] and its [attrs] *)
Record Param : Set := mkParam {
  shape : list dim;
  p_dtype : string;
  shard_strategy : option Shard;
}.
Definition Parameter_new (shape : list dim) (dtype : string) : Param := mkParam shape dtype None.

(** ** Modules *)

(** What [BlockScaleQuantize] reads of a multi-head latent attention. *)
Record MLA : Set := mkMLA {
  num_heads : Z; kv_lora_rank : Z; qk_nope_head_dim : Z; v_head_dim : Z;
  block_size : list Z;
}.

(** A layer that a scheme replaces, a replacement (its class, its parameters
    that are not [None] in the order of the class), or any other module, with
    its parameters and submodules in the order of its attributes. *)
Inductive Module' : Type :=
| Linear (in_features out_features : dim) (out_dtype : option string)
    (weight : Param) (bias : option Param)
| Embedding (weight : Param)
| MixtralExperts (num_local_experts in_features out_features : dim) (tensor_parallel_shards : Z)
    (weight : Param)
| Quantized (cls : string) (params : list (string * Param))
| Block (no_quantization : bool) (mla : option MLA) (attrs : list (string * (Param + Module'))).

(** [name.key], or [key] at the root *)
Definition child_name (name key : string) : string :=
  if String.eqb name "" then key else name +:+ "." +:+ key.

Definition opt_param (name : string) (p : option Param) : list (string * Param) :=
  match p with Some p => [(name, p)] | None => [] end.

(** The parameters, by their dotted names. *)
Fixpoint named_params (name : string) (m : Module') : list (string * Param) :=
  match m with
  | Linear _ _ _ w b => (child_name name "weight", w) :: opt_param (child_name name "bias") b
  | Embedding w => [(child_name name "weight", w)]
  | MixtralExperts _ _ _ _ w => [(child_name name "weight", w)]
  | Quantized _ ps => map (fun kp => (child_name name (fst kp), snd kp)) ps
  | Block _ _ attrs =>
      flat_map (fun ka => match snd ka with
                          | inl p => [(child_name name (fst ka), p)]
                          | inr m => named_params (child_name name (fst ka)) m
                          end) attrs
  end.
Definition param_names (name : string) (m : Module') : list string := map fst (named_params name m).

(** How deep the tree is. *)
Fixpoint depth (m : Module') : nat :=
  match m with
  | Block _ _ attrs =>
      S (foldr (fun ka n => match snd ka with inl _ => n | inr m => Nat.max (depth m) n end) 0%nat attrs)
  | _ => 1%nat
  end.

(** No attribute has an empty name, and the layers, by their names, have a
    property. *)
Fixpoint all_layers (P : string -> Module' -> bool) (name : string) (m : Module') : bool :=
  match m with
  | Block _ _ attrs =>
      forallb (fun ka => negb (String.eqb (fst ka) "") &&
                         match snd ka with
                         | inl _ => true
                         | inr m => all_layers P (child_name name (fst ka)) m
                         end) attrs
  | _ => P name m
  end.

(** ** The traversal of [nn.Mutator] *)

(** [for key, value in node.__dict__.items(): ...], with [visit_param] left as
    it is *)
Section Attrs.
Context {S : Type} (visit_module : string -> Module' -> M S Module').

Fixpoint visit_attrs (name : string) (attrs : list (string * (Param + Module')))
    : M S (list (string * (Param + Module'))) :=
  match attrs with
  | [] => mret' []
  | (k, inl p) :: attrs => let! attrs := visit_attrs name attrs in mret' ((k, inl p) :: attrs)
  | (k, inr m) :: attrs =>
      let! m := visit_module (child_name name k) m in
      let! attrs := visit_attrs name attrs in mret' ((k, inr m) :: attrs)
  end.
End Attrs.

(** [visit] of a mutator, for its own [visit_module] *)
Class Mutator (S : Type) := visit : (string -> Module' -> M S Module') -> string -> Module' -> M S Module'.

(** It replaces every submodule by what [visit_module] makes of it and leaves
    the parameters alone; a layer has no submodules. *)
Class MutatorLaws (S : Type) {MU : Mutator S} : Prop := {
  visit_block vm name nq mla attrs :
    visit vm name (Block nq mla attrs)
    = let! attrs := visit_attrs vm name attrs in mret' (Block nq mla attrs);
  visit_leaf vm name m : (forall nq mla attrs, m <> Block nq mla attrs) ->
    visit vm name m = mret' m;
}.

(** [model.to(dtype)] *)
Class Conversion := module_to : Module' -> string -> Module'.

(** The module without the types of its parameters; conversion changes nothing
    else. *)
Definition erase_param (p : Param) : Param := mkParam (shape p) "" (shard_strategy p).
Fixpoint erase (m : Module') : Module' :=
  match m with
  | Linear i o d w b => Linear i o d (erase_param w) (option_map erase_param b)
  | Embedding w => Embedding (erase_param w)
  | MixtralExperts n i o t w => MixtralExperts n i o t (erase_param w)
  | Quantized c ps => Quantized c (map (fun kp => (fst kp, erase_param (snd kp))) ps)
  | Block nq mla attrs =>
      Block nq mla (map (fun ka => (fst ka, match snd ka with
                                            | inl p => inl (erase_param p)
                                            | inr m => inr (erase m)
                                            end)) attrs)
  end.
Class ConversionLaws {CV : Conversion} : Prop :=
  module_to_erase m dtype : erase (module_to m dtype) = erase m.

(** ** [DataType] *)

Inductive TypeCode : Set := INT | UINT | FLOAT | BFLOAT | Float8E4M3FN | Float8E5M2.

#[global] Instance TypeCode_eq_dec : EqDecision TypeCode.
Proof. solve_decision. Defined.

Class DataTypes := {
  DataType : string -> res (TypeCode * Z);
  (** [int(tir.max_value(dtype).value)] *)
  max_value : string -> res Z;
}.

(** The types that occur. *)
Definition known_types : list (string * (TypeCode * Z)) :=
  [("int3", (INT, 3)); ("int4", (INT, 4)); ("int8", (INT, 8)); ("uint32", (UINT, 32));
   ("float16", (FLOAT, 16)); ("float32", (FLOAT, 32)); ("bfloat16", (BFLOAT, 16));
   ("float8_e4m3fn", (Float8E4M3FN, 8)); ("float8_e5m2", (Float8E5M2, 8))].
Class DataTypeLaws {DT : DataTypes} : Prop := {
  DataType_known : Forall (fun nt => DataType (fst nt) = Ok (snd nt)) known_types;
  max_value_e4m3 : max_value "float8_e4m3fn" = Ok 448;
  max_value_e5m2 : max_value "float8_e5m2" = Ok 57344;
}.

(** ** Lemmas *)

Lemma child_name_nonempty name key : key <> "" -> child_name name key <> "".
Proof.
  intros H. unfold child_name. destruct (String.eqb_spec name ""); [done|].
  by destruct name.
Qed.

Lemma child_name_dot name key : name <> "" -> child_name name key = name +:+ "." +:+ key.
Proof. intros H. unfold child_name. by destruct (String.eqb_spec name ""). Qed.

Lemma erase_params name m :
  param_names name (erase m) = param_names name m.
Proof.
  unfold param_names. revert m name. fix IH 1. intros m name. destruct m as [i o d w b|w|n i o t w|c ps|nq mla attrs];
    cbn [erase named_params map]; try done.
  - by destruct b.
  - rewrite !map_map. done.
  - induction attrs as [|[k [p|m]] attrs IHa]; [done|..]; cbn [map flat_map fst snd].
    + cbn. by rewrite IHa.
    + by rewrite !map_app, IH, IHa.
Qed.

Lemma all_layers_erase P name m : (forall name m, P name (erase m) = P name m) ->
  all_layers P name (erase m) = all_layers P name m.
Proof.
  intros HP. revert m name. fix IH 1. intros m name. destruct m as [i o d w b|w|n i o t w|c ps|nq mla attrs];
    [exact (HP name (Linear i o d w b))|exact (HP name (Embedding w))
    |exact (HP name (MixtralExperts n i o t w))|exact (HP name (Quantized c ps))|].
  cbn [erase all_layers]. induction attrs as [|[k [p|m]] attrs IHa]; [reflexivity|..]; cbn [map forallb fst snd].
  - by rewrite IHa.
  - by rewrite IH, IHa.
Qed.
