(* ===== verification/Spmd.v ===== *)
(** * Programs of parallel workers

    With tensor parallelism every worker (GPU) runs the same program on its
    own shards of the weights; the workers meet at collective operations.  A
    program is data: a result, or a collective with the rest of the program as
    a function of what the collective returns.  [spmd] runs the programs of all
    workers side by side: it is [None] when they do not meet at the same
    collectives, the deadlock of the real programs. *)

From stdpp Require Import base list.
From S2P Require Import Prelude.

Section Prog.
Context {X : Type}.

(** [op.ccl_allreduce(t, "sum")], [op.ccl_broadcast_from_worker0(t)], and a
    result. *)
Inductive Prog (A : Type) : Type :=
| Ret (a : A)
| AllReduce (t : X) (k : X -> Prog A)
| Broadcast (t : X) (k : X -> Prog A).
Arguments Ret {A} a.
Arguments AllReduce {A} t k.
Arguments Broadcast {A} t k.

Fixpoint pbind {A B} (p : Prog A) (q : A -> Prog B) : Prog B :=
  match p with
  | Ret a => q a
  | AllReduce t k => AllReduce t (fun x => pbind (k x) q)
  | Broadcast t k => Broadcast t (fun x => pbind (k x) q)
  end.

Definition as_ret {A} (p : Prog A) : option A := match p with Ret a => Some a | _ => None end.
Definition as_allreduce {A} (p : Prog A) : option (X * (X -> Prog A)) :=
  match p with AllReduce t k => Some (t, k) | _ => None end.
Definition as_broadcast {A} (p : Prog A) : option (X * (X -> Prog A)) :=
  match p with Broadcast t k => Some (t, k) | _ => None end.

(** The sum over the workers is computed by the communication library. *)
Variable allreduce : list X -> X.

Fixpoint run {A : Type} (p : Prog A) (ps : list (Prog A)) : option (list A) :=
  match p with
  | Ret a => l ← mapM as_ret ps; Some (a :: l)
  | AllReduce t k =>
      tks ← mapM as_allreduce ps;
      let s := allreduce (t :: map fst tks) in run (k s) (map (fun tk => snd tk s) tks)
  | Broadcast t k =>
      tks ← mapM as_broadcast ps; run (k t) (map (fun tk => snd tk t) tks)
  end.

(** [n] workers, the program of worker [k] being [p k]. *)
Definition spmd {A : Type} (n : nat) (p : nat -> Prog A) : option (list A) :=
  match n with O => Some [] | S m => run (p O) (map p (seq 1 m)) end.

(** All workers finish, with results that satisfy [Q]. *)
Definition Spmd {A : Type} (n : nat) (p : nat -> Prog A) (Q : (nat -> A) -> Prop) : Prop :=
  exists res : nat -> A, spmd n p = Some (map res (seq 0 n)) /\ Q res.

(** ** Rules *)

Lemma mapM_as {B C} (f : B -> option C) (g : C -> B) (l : list B) cs :
  (forall b c, f b = Some c -> b = g c) -> mapM f l = Some cs -> l = map g cs.
Proof.
  intros Hf. revert cs. induction l as [|b l IH]; intros cs H; cbn in H; [by injection H as <-|].
  destruct (f b) as [c|] eqn:E; [|done]. cbn in H. destruct (mapM f l) as [cs'|]; [|done].
  cbn in H. injection H as <-. cbn. by rewrite <- (Hf _ _ E), <- (IH cs').
Qed.

Lemma mapM_zip {A B C D} (f : B -> option C) (g : D -> A -> B) (h : D -> A -> C) ds l :
  (forall d a, f (g d a) = Some (h d a)) -> mapM f (zip_with g ds l) = Some (zip_with h ds l).
Proof.
  intros Hf. revert l. induction ds as [|d ds IH]; intros [|a l]; cbn; try done.
  by rewrite Hf, IH.
Qed.

Lemma map_zip_with {A B C D} (f : C -> D) (g : A -> B -> C) l l' :
  map f (zip_with g l l') = zip_with (fun a b => f (g a b)) l l'.
Proof. revert l'. induction l as [|a l IH]; intros [|b l']; cbn; try done. by rewrite IH. Qed.

Lemma zip_with_fst {A B C} (f : A -> C) (l : list A) (l' : list B) : length l' = length l ->
  zip_with (fun a _ => f a) l l' = map f l.
Proof. revert l'. induction l as [|a l IH]; intros [|b l'] H; try done. cbn. rewrite IH; [done|]. by injection H. Qed.

Lemma zip_with_map_l {A B C D} (f : B -> C -> D) (g : A -> B) l l' :
  zip_with f (map g l) l' = zip_with (fun a c => f (g a) c) l l'.
Proof. revert l'. induction l as [|a l IH]; intros [|b l']; cbn; try done. by rewrite IH. Qed.

Lemma zip_with_same {A B C D} (f : B -> C -> D) (g : A -> B) (h : A -> C) l :
  zip_with f (map g l) (map h l) = map (fun a => f (g a) (h a)) l.
Proof. induction l as [|a l IH]; cbn; [done|]. by rewrite IH. Qed.

(** The second half of the programs starts when all first halves are done. *)
Lemma run_bind {A B} (P : Prog A) : forall ps a0 res (q0 : A -> Prog B) qs,
  run P ps = Some (a0 :: res) -> length qs = length ps ->
  run (pbind P q0) (zip_with pbind ps qs) = run (q0 a0) (zip_with (fun a q => q a) res qs).
Proof.
  induction P as [a|t k IH|t k IH]; intros ps a0 res q0 qs H Hl; cbn [run pbind] in *.
  - destruct (mapM as_ret ps) as [l|] eqn:E; [|done]. cbn in H. injection H as <- <-.
    apply (mapM_as _ Ret) in E; [|by intros [] ? [= ->]]. subst ps. by rewrite zip_with_map_l.
  - destruct (mapM as_allreduce ps) as [tks|] eqn:E; [|done]. cbn [mbind option_bind] in H.
    apply (mapM_as _ (fun tk => AllReduce (fst tk) (snd tk))) in E; [|by intros [] ? [= <-]]. subst ps.
    rewrite length_map in Hl. rewrite zip_with_map_l.
    rewrite (mapM_zip _ _ (fun tk q => (fst tk, fun x => pbind (snd tk x) q))) by done.
    cbn [mbind option_bind]. rewrite !map_zip_with. cbn [fst snd]. rewrite zip_with_fst by done.
    rewrite <- (zip_with_map_l pbind (fun tk => snd tk _)). apply IH; [done|]. by rewrite length_map.
  - destruct (mapM as_broadcast ps) as [tks|] eqn:E; [|done]. cbn [mbind option_bind] in H.
    apply (mapM_as _ (fun tk => Broadcast (fst tk) (snd tk))) in E; [|by intros [] ? [= <-]]. subst ps.
    rewrite length_map in Hl. rewrite zip_with_map_l.
    rewrite (mapM_zip _ _ (fun tk q => (fst tk, fun x => pbind (snd tk x) q))) by done.
    cbn [mbind option_bind]. rewrite !map_zip_with. cbn [fst snd].
    rewrite <- (zip_with_map_l pbind (fun tk => snd tk _)). apply IH; [done|]. by rewrite length_map.
Qed.

Lemma mapM_map_Some {A B C} (f : B -> option C) (g : A -> B) (h : A -> C) l :
  (forall x, f (g x) = Some (h x)) -> mapM f (map g l) = Some (map h l).
Proof. intros H. induction l as [|x l IH]; cbn; [done|]. by rewrite H, IH. Qed.

Lemma spmd_ret {A} n (a : nat -> A) (Q : (nat -> A) -> Prop) : Q a -> Spmd n (fun k => Ret (a k)) Q.
Proof.
  intros H. exists a. split; [|done]. destruct n as [|n]; cbn; [done|].
  rewrite (mapM_map_Some _ _ a) by done. done.
Qed.

Lemma spmd_bind {A B} n (p : nat -> Prog A) (q : nat -> A -> Prog B) Q R :
  Spmd n p Q -> (forall res, Q res -> Spmd n (fun k => q k (res k)) R) ->
  Spmd n (fun k => pbind (p k) (q k)) R.
Proof.
  intros (res & Hp & HQ) Hq. destruct (Hq res HQ) as (res' & Hr & HR). exists res'. split; [|done].
  rewrite <- Hr. destruct n as [|n]; [done|]. cbn [spmd seq map] in *.
  rewrite <- (zip_with_same pbind p q (seq 1 n)). rewrite (run_bind _ _ (res O) (map res (seq 1 n))); [|done|].
  - by rewrite zip_with_same.
  - by rewrite !length_map.
Qed.

Lemma spmd_allreduce n (t : nat -> X) :
  Spmd n (fun k => AllReduce (t k) Ret) (fun res => forall k, res k = allreduce (map t (seq 0 n))).
Proof.
  exists (fun _ => allreduce (map t (seq 0 n))). split; [|done]. destruct n as [|n]; [done|].
  cbn [spmd run seq map]. rewrite (mapM_map_Some _ _ (fun k => (t k, Ret))) by done.
  cbn [mbind option_bind]. rewrite !map_map. cbn [fst snd].
  rewrite (mapM_map_Some _ _ (fun _ => allreduce (t O :: map t (seq 1 n)))) by done. done.
Qed.

Lemma spmd_broadcast n (t : nat -> X) :
  Spmd n (fun k => Broadcast (t k) Ret) (fun res => forall k, res k = t O).
Proof.
  exists (fun _ => t O). split; [|done]. destruct n as [|n]; [done|].
  cbn [spmd run seq map]. rewrite (mapM_map_Some _ _ (fun k => (t k, Ret))) by done.
  cbn [mbind option_bind]. rewrite !map_map. cbn [fst snd].
  rewrite (mapM_map_Some _ _ (fun _ => t O)) by done. done.
Qed.

Lemma spmd_mono {A} n (p : nat -> Prog A) (Q R : (nat -> A) -> Prop) :
  Spmd n p Q -> (forall res, Q res -> R res) -> Spmd n p R.
Proof. intros (res & Hp & HQ) H. exists res. auto. Qed.

Lemma spmd_ext {A} n (p q : nat -> Prog A) Q : (forall k, k < n -> p k = q k) -> Spmd n q Q -> Spmd n p Q.
Proof.
  intros H (res & Hq & HQ). exists res. split; [|done]. rewrite <- Hq. destruct n as [|n]; [done|]. cbn [spmd].
  rewrite H by lia. f_equal. apply map_ext_in. intros k Hk%in_seq. apply H. lia.
Qed.
End Prog.

Arguments Prog X A : clear implicits.
Arguments Ret {X A} a.
Arguments AllReduce {X A} t k.
Arguments Broadcast {X A} t k.

Declare Scope prog_scope.
Delimit Scope prog_scope with prog.
Notation "'do' x <- p 'in' q" := (pbind p (fun x => q))
  (at level 10, x pattern, p at level 100, q at level 200) : prog_scope.
