(* ===== verification/TensorOps.v ===== *)
(** * Tensors, their operators, and shardings

    The networks of [model/] are written with the tensor operators of
    [tvm.relax.frontend.nn].  A tensor is a shape with an element at every
    index; the operators are the class [NnOps], whose laws say what the
    elements of their results are.  The arithmetic on elements is a class of
    its own: the laws of exact addition make sums over workers meaningful.

    A family of tensors, one per worker, represents one tensor of the
    unsharded network in one of three ways: replicated, as columns, or as
    summands.  The rules at the end say how the operators act on these
    representations; they are the steps of every proof about a parallel
    network. *)

From stdpp Require Import base list strings.
From S2P Require Import Prelude.
Local Open Scope nat_scope.

(** ** Elements *)

Class Elem := {
  F : Type;
  f0 : F;
  fadd : F -> F -> F;
  fmul : F -> F -> F;
  fdiv : F -> nat -> F;  (* division by a number of workers *)
}.

(** Sums in the order of the index. *)
Definition fsum `{E : Elem} (n : nat) (f : nat -> F) : F := fold_right fadd f0 (map f (seq 0 n)).

(** Exact arithmetic; the sum of [n] equal parts is the whole. *)
Class ElemLaws `{E : Elem} := {
  fadd_assoc : forall a b c, fadd a (fadd b c) = fadd (fadd a b) c;
  fadd_comm : forall a b, fadd a b = fadd b a;
  fadd_0_l : forall a, fadd f0 a = a;
  fdiv_sum : forall n a, (0 < n) -> fsum n (fun _ => fdiv a n) = a;
}.
Arguments ElemLaws E : clear implicits.

Section Sums.
Context `{EL : ElemLaws}.

Lemma fadd_0_r a : fadd a f0 = a.
Proof. rewrite fadd_comm. apply fadd_0_l. Qed.

Lemma fsum_ext n f g : (forall k, k < n -> f k = g k) -> fsum n f = fsum n g.
Proof.
  intros H. unfold fsum. f_equal. apply map_ext_in. intros k Hk%in_seq. apply H. lia.
Qed.

Lemma fold_fadd_app l l' : fold_right fadd f0 (l ++ l') = fadd (fold_right fadd f0 l) (fold_right fadd f0 l').
Proof. induction l as [|a l IH]; cbn; [by rewrite fadd_0_l|]. by rewrite IH, fadd_assoc. Qed.

Lemma fsum_app n m f : fsum (n + m) f = fadd (fsum n f) (fsum m (fun k => f (n + k))).
Proof.
  unfold fsum. rewrite seq_app, map_app, fold_fadd_app. cbn [Nat.add]. f_equal. f_equal.
  rewrite <- (Nat.add_0_r n) at 1. rewrite <- fmap_add_seq, map_map. done.
Qed.

Lemma fsum_S n f : fsum (S n) f = fadd (fsum n f) (f n).
Proof.
  rewrite <- Nat.add_1_r, fsum_app. unfold fsum at 2. cbn. by rewrite Nat.add_0_r, fadd_0_r.
Qed.

(** A sum in blocks. *)
Lemma fsum_blocks n m f : fsum (n * m) f = fsum n (fun k => fsum m (fun j => f (k * m + j))).
Proof.
  induction n as [|n IH]; [done|]. rewrite fsum_S, <- IH.
  replace (S n * m) with (n * m + m) by lia. apply fsum_app.
Qed.

Lemma fsum_plus n f g : fsum n (fun k => fadd (f k) (g k)) = fadd (fsum n f) (fsum n g).
Proof.
  induction n as [|n IH]; [unfold fsum; cbn; by rewrite fadd_0_l|]. rewrite !fsum_S, IH.
  rewrite !fadd_assoc. f_equal. rewrite <- !fadd_assoc. f_equal. apply fadd_comm.
Qed.
End Sums.

(** ** Tensors *)

Record Tensor `{E : Elem} : Type := mkTensor { shape : list nat; elem : list nat -> F }.
Arguments mkTensor {E} shape elem.

(** An index inside a shape. *)
Definition inside : list nat -> list nat -> Prop := Forall2 lt.

Fixpoint size (s : list nat) : nat := match s with [] => 1 | n :: s => n * size s end.

(** The row-major position of an index, and back. *)
Fixpoint ravel (s idx : list nat) : nat :=
  match s, idx with
  | _ :: s, i :: idx => i * size s + ravel s idx
  | _, _ => 0
  end.

Fixpoint unravel (s : list nat) (n : nat) : list nat :=
  match s with [] => [] | _ :: s => n / size s :: unravel s (n mod size s) end.

Lemma size_app s s' : size (s ++ s') = size s * size s'.
Proof. induction s as [|n s IH]; cbn; [lia|]. rewrite IH. lia. Qed.

Lemma ravel_app s s' idx idx' : length s = length idx ->
  ravel (s ++ s') (idx ++ idx') = ravel s idx * size s' + ravel s' idx'.
Proof.
  revert idx. induction s as [|n s IH]; intros [|i idx] H; try done. cbn. rewrite IH by (by injection H).
  rewrite size_app. lia.
Qed.

Lemma inside_length idx s : inside idx s -> length idx = length s.
Proof. apply Forall2_length. Qed.

Lemma inside_app idx idx' s s' : inside idx s -> inside idx' s' -> inside (idx ++ idx') (s ++ s').
Proof. apply Forall2_app. Qed.

Lemma inside_snoc_inv idx s n : inside idx (s ++ [n]) -> exists p i, idx = p ++ [i] /\ inside p s /\ i < n.
Proof.
  intros H. apply Forall2_app_inv_r in H as (p & q & Hp & Hq & ->).
  apply Forall2_cons_inv_r in Hq as (i & r & Hi & Hr & ->). apply Forall2_nil_inv_r in Hr as ->. by exists p, i.
Qed.

Lemma inside_one i n : i < n -> inside [i] [n].
Proof. intros H. by repeat constructor. Qed.

Lemma ravel_lt idx s : inside idx s -> ravel s idx < size s.
Proof. induction 1 as [|i n idx s Hi _ IH]; cbn; [lia|]. nia. Qed.

Lemma unravel_ravel idx s : inside idx s -> unravel s (ravel s idx) = idx.
Proof.
  induction 1 as [|i n idx s Hi H IH]; cbn; [done|]. pose proof (ravel_lt _ _ H) as Hr.
  rewrite Nat.div_add_l, Nat.div_small, Nat.add_0_r by lia. f_equal.
  rewrite Nat.add_comm, Nat.Div0.mod_add, Nat.mod_small by lia. done.
Qed.

(** ** Operators *)

(** The operators of the networks; weights are tensors too.  An activation and
    a normalization are named by their function, a normalization keeps its
    parameters in a list. *)
Class NnOps `{E : Elem} := {
  nn_linear : Tensor -> option Tensor -> Tensor -> Tensor;  (* weight, bias, input *)
  nn_norm : string -> pyfloat -> list Tensor -> Tensor -> Tensor;  (* kind, epsilon, parameters, input *)
  nn_embedding : Tensor -> Tensor -> Tensor;                (* weight, ids *)
  op_act : string -> Tensor -> Tensor;
  act_fn : string -> F -> F;
  op_add : Tensor -> Tensor -> Tensor;
  op_mul : Tensor -> Tensor -> Tensor;
  op_div : Tensor -> nat -> Tensor;
  op_div_float : Tensor -> pyfloat -> Tensor;
  op_scale : Tensor -> pyfloat -> Tensor;                   (* the product with a number of Python *)
  op_maximum : Tensor -> pyfloat -> Tensor;
  op_minimum : Tensor -> pyfloat -> Tensor;
  max_fn : pyfloat -> F -> F;
  min_fn : pyfloat -> F -> F;
  scale_fn : pyfloat -> F -> F;
  op_split : Tensor -> nat -> nat -> Tensor;                (* along the last axis, into [m] parts: part [q] *)
  op_reshape : Tensor -> list nat -> Tensor;
  op_take : Tensor -> Tensor -> nat -> Tensor;              (* input, positions, axis *)
  op_permute_dims : Tensor -> Tensor;                       (* of a matrix *)
  op_matmul : Tensor -> Tensor -> Tensor;
  op_pipeline_stage_boundary : Tensor -> Tensor;            (* passes the tensor to the next stage *)
  ccl_sum : list Tensor -> Tensor;                          (* the sum of an all-reduce *)
}.
Arguments NnOps E : clear implicits.

(** Equal shapes and equal elements inside. *)
Definition teq `{E : Elem} (x y : Tensor) : Prop :=
  shape x = shape y /\ forall idx, inside idx (shape x) -> elem x idx = elem y idx.

#[export] Instance teq_equiv `{E : Elem} : Equivalence teq.
Proof.
  split.
  - intros x. by split.
  - intros x y [Hs He]. split; [done|]. intros idx Hi. symmetry. apply He. by rewrite Hs.
  - intros x y z [Hs He] [Hs' He']. split; [congruence|]. intros idx Hi. rewrite He by done.
    apply He'. by rewrite <- Hs.
Qed.

Class NnLaws `{E : Elem} (N : NnOps E) := {
  linear_shape : forall w b x p n k, shape x = p ++ [k] -> shape w = [n; k] -> shape (nn_linear w b x) = p ++ [n];
  linear_elem : forall w b x p n k q i, shape x = p ++ [k] -> shape w = [n; k] -> inside q p -> i < n ->
    elem (nn_linear w b x) (q ++ [i]) =
    let s := fsum k (fun j => fmul (elem x (q ++ [j])) (elem w [i; j])) in
    match b with None => s | Some b => fadd s (elem b [i]) end;
  norm_shape : forall kind eps ws x, shape (nn_norm kind eps ws x) = shape x;
  (** a row of the result depends on the row of the input only *)
  norm_row : forall kind eps ws x y p p' q q' n, shape x = p ++ [n] -> shape y = p' ++ [n] -> inside q p -> inside q' p' ->
    (forall j, j < n -> elem x (q ++ [j]) = elem y (q' ++ [j])) ->
    forall j, j < n -> elem (nn_norm kind eps ws x) (q ++ [j]) = elem (nn_norm kind eps ws y) (q' ++ [j]);
  act_shape : forall f x, shape (op_act f x) = shape x;
  act_elem : forall f x q, inside q (shape x) -> elem (op_act f x) q = act_fn f (elem x q);
  add_shape : forall x y, shape x = shape y -> shape (op_add x y) = shape x;
  add_elem : forall x y q, shape x = shape y -> inside q (shape x) -> elem (op_add x y) q = fadd (elem x q) (elem y q);
  mul_shape : forall x y, shape x = shape y -> shape (op_mul x y) = shape x;
  mul_elem : forall x y q, shape x = shape y -> inside q (shape x) -> elem (op_mul x y) q = fmul (elem x q) (elem y q);
  (** a matrix is added to every matrix of a batch *)
  add_batch_shape : forall x y b s h, shape x = [b; s; h] -> shape y = [s; h] -> shape (op_add x y) = [b; s; h];
  add_batch_elem : forall x y b s h i j k, shape x = [b; s; h] -> shape y = [s; h] -> i < b -> j < s -> k < h ->
    elem (op_add x y) [i; j; k] = fadd (elem x [i; j; k]) (elem y [j; k]);
  div_shape : forall x n, shape (op_div x n) = shape x;
  div_elem : forall x n q, inside q (shape x) -> elem (op_div x n) q = fdiv (elem x q) n;
  scale_shape : forall x c, shape (op_scale x c) = shape x;
  scale_elem : forall x c q, inside q (shape x) -> elem (op_scale x c) q = scale_fn c (elem x q);
  maximum_shape : forall x c, shape (op_maximum x c) = shape x;
  maximum_elem : forall x c q, inside q (shape x) -> elem (op_maximum x c) q = max_fn c (elem x q);
  minimum_shape : forall x c, shape (op_minimum x c) = shape x;
  minimum_elem : forall x c q, inside q (shape x) -> elem (op_minimum x c) q = min_fn c (elem x q);
  scale_add : forall c a b, scale_fn c (fadd a b) = fadd (scale_fn c a) (scale_fn c b);
  scale_0 : forall c, scale_fn c f0 = f0;
  split_shape : forall x p m n q, shape x = p ++ [m * n] -> q < m -> shape (op_split x m q) = p ++ [n];
  split_elem : forall x p m n q r j, shape x = p ++ [m * n] -> q < m -> inside r p -> j < n ->
    elem (op_split x m q) (r ++ [j]) = elem x (r ++ [q * n + j]);
  reshape_shape : forall x s, size s = size (shape x) -> shape (op_reshape x s) = s;
  reshape_elem : forall x s q, size s = size (shape x) -> inside q s ->
    elem (op_reshape x s) q = elem x (unravel (shape x) (ravel s q));
  sum_shape : forall x xs, Forall (fun y => shape y = shape x) xs -> shape (ccl_sum (x :: xs)) = shape x;
  sum_elem : forall x xs q, Forall (fun y => shape y = shape x) xs -> inside q (shape x) ->
    elem (ccl_sum (x :: xs)) q = fold_right fadd f0 (map (fun y => elem y q) (x :: xs));
  boundary_teq : forall x, teq (op_pipeline_stage_boundary x) x;
  div_float_shape : forall x c, shape (op_div_float x c) = shape x;
  div_float_teq : forall x y c, teq x y -> teq (op_div_float x c) (op_div_float y c);
  embedding_shape : forall w x v h, shape w = [v; h] -> shape (nn_embedding w x) = shape x ++ [h];
  embedding_teq : forall w x y, teq x y -> teq (nn_embedding w x) (nn_embedding w y);
  take_teq : forall x y p p' a, teq x y -> teq p p' -> teq (op_take x p a) (op_take y p' a);
  take_shape : forall x p a, a < length (shape x) ->
    shape (op_take x p a) = take a (shape x) ++ shape p ++ drop (S a) (shape x);
  permute_shape : forall w, shape (op_permute_dims w) = rev (shape w);
  matmul_shape : forall x w p k n, shape x = p ++ [k] -> shape w = [k; n] -> shape (op_matmul x w) = p ++ [n];
  matmul_teq : forall x y w, teq x y -> teq (op_matmul x w) (op_matmul y w);
}.

(** ** Representations of a tensor by a family *)

Create HintDb sharding.

Section Sharding.
Context `{EL : ElemLaws} {N : NnOps E} {NL : NnLaws N}.
Variable n : nat.  (* the number of workers *)

(** Every worker has the tensor. *)
Definition Rep (xs : nat -> Tensor) (x : Tensor) : Prop := forall k, k < n -> teq (xs k) x.

(** Worker [k] has the columns [g k 0], ..., [g k (m - 1)] of [w]. *)
Definition Cols (g : nat -> nat -> nat) (m w : nat) (xs : nat -> Tensor) (x : Tensor) : Prop :=
  exists p, shape x = p ++ [w] /\ forall k, k < n -> shape (xs k) = p ++ [m] /\
    forall q i, inside q p -> i < m -> g k i < w /\ elem (xs k) (q ++ [i]) = elem x (q ++ [g k i]).

(** The tensors of the workers add up to the tensor. *)
Definition Sum (xs : nat -> Tensor) (x : Tensor) : Prop :=
  (forall k, k < n -> shape (xs k) = shape x) /\
  forall q, inside q (shape x) -> elem x q = fsum n (fun k => elem (xs k) q).

(** Contiguous columns. *)
Definition block (m : nat) (k i : nat) : nat := k * m + i.

(** The weights of a linear layer: rows and columns of the full weight. *)
Definition RowsOf (g : nat -> nat -> nat) (m w : nat) (ws : nat -> Tensor) (W : Tensor) : Prop :=
  exists K, shape W = [w; K] /\ forall k, k < n -> shape (ws k) = [m; K] /\
    forall i, i < m -> g k i < w /\ forall j, j < K -> elem (ws k) [i; j] = elem W [g k i; j].

Definition ColsOf (m : nat) (ws : nat -> Tensor) (W : Tensor) : Prop :=
  exists O, shape W = [O; n * m] /\ forall k, k < n -> shape (ws k) = [O; m] /\
    forall i j, i < O -> j < m -> elem (ws k) [i; j] = elem W [i; block m k j].

Definition BiasOf (g : nat -> nat -> nat) (m w : nat) (bs : nat -> option Tensor) (B : option Tensor) : Prop :=
  match B with
  | None => forall k, k < n -> bs k = None
  | Some B => shape B = [w] /\ forall k, k < n -> exists b, bs k = Some b /\ shape b = [m] /\
                forall i, i < m -> elem b [i] = elem B [g k i]
  end.

Lemma Rep_shape xs x k : Rep xs x -> k < n -> shape (xs k) = shape x.
Proof. intros H Hk. by destruct (H k Hk). Qed.

Lemma Rep_norm kind eps ws xs x p w : shape x = p ++ [w] -> Rep xs x ->
  Rep (fun k => nn_norm kind eps ws (xs k)) (nn_norm kind eps ws x).
Proof.
  intros Hx H k Hk. destruct (H k Hk) as [Hs He]. split; [by rewrite !norm_shape|].
  rewrite norm_shape, Hs, Hx. intros q (r & j & -> & Hr & Hj)%inside_snoc_inv.
  eapply norm_row; [by rewrite Hs|done|done|done| |done].
  intros i Hi. apply He. rewrite Hs, Hx. apply inside_app; [done|by apply inside_one].
Qed.

Lemma Rep_add xs ys x y : shape x = shape y -> Rep xs x -> Rep ys y ->
  Rep (fun k => op_add (xs k) (ys k)) (op_add x y).
Proof.
  intros Hxy Hx Hy k Hk. destruct (Hx k Hk) as [Hs He], (Hy k Hk) as [Hs' He'].
  split; [by rewrite !add_shape by congruence|]. intros q Hq. rewrite add_shape in Hq by congruence.
  rewrite !add_elem by congruence. f_equal; [by apply He|]. apply He'. congruence.
Qed.

Lemma Sum_add xs ys x y : shape x = shape y -> Sum xs x -> Sum ys y ->
  Sum (fun k => op_add (xs k) (ys k)) (op_add x y).
Proof.
  intros Hxy [Hs He] [Hs' He']. split.
  - intros k Hk. rewrite !add_shape; [by apply Hs|done|]. rewrite Hs, Hs' by done. done.
  - intros q Hq. rewrite add_shape in Hq by done. rewrite add_elem by done.
    rewrite He, He' by congruence. rewrite <- fsum_plus. apply fsum_ext. intros k Hk.
    rewrite add_elem; [done|rewrite Hs, Hs' by done; done|by rewrite Hs].
Qed.

(** A residual is divided among the workers before a sum. *)
Lemma Sum_div xs x : 0 < n -> Rep xs x -> Sum (fun k => op_div (xs k) n) x.
Proof.
  intros Hn H. split.
  - intros k Hk. rewrite div_shape. by apply Rep_shape.
  - intros q Hq. rewrite <- (fdiv_sum n (elem x q)) at 1 by done. apply fsum_ext. intros k Hk.
    destruct (H k Hk) as [Hs He]. rewrite div_elem by congruence. f_equal. symmetry. apply He. congruence.
Qed.

Lemma Rep_scale c xs x : Rep xs x -> Rep (fun k => op_scale (xs k) c) (op_scale x c).
Proof.
  intros H k Hk. destruct (H k Hk) as [Hs He]. split; [by rewrite !scale_shape|].
  rewrite scale_shape. intros q Hq. rewrite !scale_elem by congruence. f_equal. by apply He.
Qed.

Lemma Rep_div m xs x : Rep xs x -> Rep (fun k => op_div (xs k) m) (op_div x m).
Proof.
  intros H k Hk. destruct (H k Hk) as [Hs He]. split; [by rewrite !div_shape|].
  rewrite div_shape. intros q Hq. rewrite !div_elem by congruence. f_equal. by apply He.
Qed.

Lemma Rep_act f xs x : Rep xs x -> Rep (fun k => op_act f (xs k)) (op_act f x).
Proof.
  intros H k Hk. destruct (H k Hk) as [Hs He]. split; [by rewrite !act_shape|].
  rewrite act_shape. intros q Hq. rewrite !act_elem by congruence. f_equal. by apply He.
Qed.

(** The same matrix is added to every matrix of the batch. *)
Lemma Rep_add_batch xs ys x y b s h : shape x = [b; s; h] -> shape y = [s; h] -> Rep xs x -> Rep ys y ->
  Rep (fun k => op_add (xs k) (ys k)) (op_add x y).
Proof.
  intros Hx Hy Hxs Hys k Hk. destruct (Hxs k Hk) as [Hs He], (Hys k Hk) as [Hs' He'].
  rewrite Hx in Hs. rewrite Hy in Hs'. split; [by rewrite !(add_batch_shape _ _ b s h)|].
  rewrite (add_batch_shape _ _ b s h) by done. intros idx Hidx.
  apply Forall2_cons_inv_r in Hidx as (i & r & Hi & Hr & ->). apply Forall2_cons_inv_r in Hr as (j & r' & Hj & Hr & ->).
  apply Forall2_cons_inv_r in Hr as (l & r'' & Hl & Hr & ->). apply Forall2_nil_inv_r in Hr as ->.
  rewrite !(add_batch_elem _ _ b s h) by done. f_equal; [apply He; rewrite Hs|apply He'; rewrite Hs']; by repeat constructor.
Qed.

Lemma scale_fsum c m f : scale_fn c (fsum m f) = fsum m (fun k => scale_fn c (f k)).
Proof. induction m as [|m IH]; [apply scale_0|]. by rewrite !fsum_S, scale_add, IH. Qed.

Lemma Sum_scale c xs x : Sum xs x -> Sum (fun k => op_scale (xs k) c) (op_scale x c).
Proof.
  intros [Hs He]. split.
  - intros k Hk. rewrite !scale_shape. by apply Hs.
  - rewrite scale_shape. intros q Hq. rewrite scale_elem, He, scale_fsum by done. apply fsum_ext.
    intros k Hk. rewrite scale_elem; [done|]. by rewrite Hs.
Qed.

(** One worker has the tensor. *)
Lemma Sum_one xs x : n = 1 -> Sum xs x -> Rep xs x.
Proof.
  intros Hn [Hs He] k Hk. assert (k = 0) as -> by lia. split; [by apply Hs|]. intros q Hq.
  rewrite Hs in Hq by done. rewrite He, Hn by done. unfold fsum. cbn [seq map fold_right]. by rewrite fadd_0_r.
Qed.

Lemma Rep_sum xs x res : 0 < n -> Sum xs x -> (forall k, res k = ccl_sum (map xs (seq 0 n))) -> Rep res x.
Proof.
  intros Hn [Hs He] Hres k _. rewrite Hres. destruct n as [|m] eqn:Em; [lia|]. cbn [seq map].
  assert (Hall : Forall (fun y => shape y = shape (xs 0)) (map xs (seq 1 m))).
  { apply List.Forall_forall. intros y (j & <- & Hj)%in_map_iff. apply in_seq in Hj.
    rewrite !Hs by lia. done. }
  split.
  - rewrite sum_shape by done. apply Hs. lia.
  - intros q Hq. rewrite sum_shape in Hq by done. rewrite sum_elem by done.
    rewrite He by (rewrite <- (Hs 0) by lia; done). cbn [map fold_right].
    unfold fsum. cbn [seq map fold_right]. by rewrite map_map.
Qed.

(** An operator that works element by element. *)
Lemma Cols_map (h : Tensor -> Tensor) (fn : F -> F) g m w xs x :
  (forall y, shape (h y) = shape y) -> (forall y q, inside q (shape y) -> elem (h y) q = fn (elem y q)) ->
  Cols g m w xs x -> Cols g m w (fun k => h (xs k)) (h x).
Proof.
  intros Hshape Helem (p & Hx & H). exists p. rewrite Hshape. split; [done|]. intros k Hk.
  destruct (H k Hk) as [Hs He]. rewrite Hshape. split; [done|]. intros q i Hq Hi.
  destruct (He q i Hq Hi) as [Hg Hxe]. split; [done|].
  rewrite !Helem, Hxe; [done|rewrite Hx|rewrite Hs]; (apply inside_app; [done|by apply inside_one]).
Qed.

Lemma Cols_act f g m w xs x : Cols g m w xs x -> Cols g m w (fun k => op_act f (xs k)) (op_act f x).
Proof. apply (Cols_map (op_act f) (act_fn f)); [apply act_shape|apply act_elem]. Qed.
Lemma Cols_maximum c g m w xs x : Cols g m w xs x -> Cols g m w (fun k => op_maximum (xs k) c) (op_maximum x c).
Proof. apply (Cols_map (fun x => op_maximum x c) (max_fn c)); intros; [apply maximum_shape|by apply maximum_elem]. Qed.
Lemma Cols_minimum c g m w xs x : Cols g m w xs x -> Cols g m w (fun k => op_minimum (xs k) c) (op_minimum x c).
Proof. apply (Cols_map (fun x => op_minimum x c) (min_fn c)); intros; [apply minimum_shape|by apply minimum_elem]. Qed.

Lemma Cols_mul g m w xs ys x y : shape x = shape y -> Cols g m w xs x -> Cols g m w ys y ->
  Cols g m w (fun k => op_mul (xs k) (ys k)) (op_mul x y).
Proof.
  intros Hxy (p & Hx & H) (p' & Hy & H'). rewrite <- Hxy, Hx in Hy. apply app_inj_tail in Hy as [<- _].
  exists p. rewrite mul_shape by done. split; [done|]. intros k Hk.
  destruct (H k Hk) as [Hs He], (H' k Hk) as [Hs' He']. rewrite mul_shape by congruence. split; [done|].
  intros q i Hq Hi. destruct (He q i Hq Hi) as [Hg Hxe], (He' q i Hq Hi) as [_ Hye]. split; [done|].
  rewrite !mul_elem, Hxe, Hye; try congruence; [rewrite Hx|rewrite Hs];
    (apply inside_app; [done|by apply inside_one]).
Qed.

(** A linear layer that every worker has. *)
Lemma Rep_linear w b xs x p k O : shape x = p ++ [k] -> shape w = [O; k] -> Rep xs x ->
  Rep (fun i => nn_linear w b (xs i)) (nn_linear w b x).
Proof.
  intros Hx Hw H i Hi. destruct (H i Hi) as [Hs He]. rewrite Hx in Hs.
  split; [by rewrite !(linear_shape w b _ p O k)|].
  rewrite (linear_shape w b _ p O k) by done. intros idx (q & j & -> & Hq & Hj)%inside_snoc_inv.
  rewrite !(linear_elem w b _ p O k) by done. cbv zeta.
  assert (fsum k (fun l => fmul (elem (xs i) (q ++ [l])) (elem w [j; l])) =
          fsum k (fun l => fmul (elem x (q ++ [l])) (elem w [j; l]))) as ->; [|done].
  apply fsum_ext. intros l Hl. f_equal. apply He. rewrite Hs. apply inside_app; [done|by apply inside_one].
Qed.

(** A column-parallel linear layer: every worker computes columns. *)
Lemma Cols_linear g m w ws bs W B xs x p K : shape x = p ++ [K] -> shape W = [w; K] ->
  Rep xs x -> RowsOf g m w ws W -> BiasOf g m w bs B ->
  Cols g m w (fun k => nn_linear (ws k) (bs k) (xs k)) (nn_linear W B x).
Proof.
  intros Hx HW Hxs (K' & HW' & Hws) HB. rewrite HW in HW'. injection HW' as <-.
  exists p. split; [by eapply linear_shape|]. intros k Hk. destruct (Hxs k Hk) as [Hs He], (Hws k Hk) as [Hsw Hew].
  rewrite Hx in Hs. split; [by eapply linear_shape|]. intros q i Hq Hi. destruct (Hew i Hi) as [Hg Hwe].
  split; [done|]. rewrite (linear_elem (ws k) (bs k) (xs k) p m K), (linear_elem W B x p w K) by done. cbv zeta.
  assert (fsum K (fun j => fmul (elem (xs k) (q ++ [j])) (elem (ws k) [i; j])) =
          fsum K (fun j => fmul (elem x (q ++ [j])) (elem W [g k i; j]))) as ->.
  { apply fsum_ext. intros j Hj. rewrite Hwe by done. f_equal. apply He. rewrite Hs.
    apply inside_app; [done|by apply inside_one]. }
  destruct B as [B|]; cbn in HB.
  - destruct HB as [_ HB]. destruct (HB k Hk) as (b & -> & _ & Hb). by rewrite Hb.
  - by rewrite HB.
Qed.

(** A row-parallel linear layer: every worker computes a summand. *)
Lemma Sum_linear m ws W xs x O : shape W = [O; n * m] -> Cols (block m) m (n * m) xs x -> ColsOf m ws W ->
  0 < n -> Sum (fun k => nn_linear (ws k) None (xs k)) (nn_linear W None x).
Proof.
  intros HW (p & Hx & Hxs) (O' & HW' & Hws) Hn. rewrite HW in HW'. injection HW' as <-.
  assert (Hshape : shape (nn_linear W None x) = p ++ [O]) by (by eapply linear_shape). split.
  - intros k Hk. rewrite Hshape. destruct (Hxs k Hk) as [Hs _], (Hws k Hk) as [Hsw _]. by eapply linear_shape.
  - rewrite Hshape. intros q (r & i & -> & Hr & Hi)%inside_snoc_inv.
    rewrite (linear_elem W None x p O (n * m)) by done. cbv zeta. rewrite fsum_blocks. apply fsum_ext. intros k Hk.
    destruct (Hxs k Hk) as [Hs He], (Hws k Hk) as [Hsw Hew].
    rewrite (linear_elem (ws k) None (xs k) p O m) by done. apply fsum_ext. intros j Hj.
    destruct (He r j Hr Hj) as [_ ->]. rewrite Hew by done. done.
Qed.

(** With a bias every worker adds its part. *)
Lemma Sum_linear_bias m ws W bs B xs x O : shape W = [O; n * m] -> shape B = [O] ->
  Cols (block m) m (n * m) xs x -> ColsOf m ws W -> (forall k, k < n -> teq (bs k) (op_div B n)) ->
  0 < n -> Sum (fun k => nn_linear (ws k) (Some (bs k)) (xs k)) (nn_linear W (Some B) x).
Proof.
  intros HW HB Hx Hws Hbs Hn. pose proof (Sum_linear m ws W xs x O HW Hx Hws Hn) as [Hs He].
  destruct Hx as (p & Hx & Hxs), Hws as (O' & HW' & Hws). rewrite HW in HW'. injection HW' as <-.
  assert (Hshape : forall b, shape (nn_linear W b x) = p ++ [O]) by (intros; by eapply linear_shape).
  assert (Hshapes : forall b k, k < n -> shape (nn_linear (ws k) b (xs k)) = p ++ [O]).
  { intros b k Hk. destruct (Hxs k Hk) as [Hsx _], (Hws k Hk) as [Hsw _]. by eapply linear_shape. }
  split; [intros k Hk; by rewrite Hshapes, Hshape|]. rewrite Hshape in *.
  intros q Hq. pose proof (He q Hq) as Heq. apply inside_snoc_inv in Hq as (r & i & -> & Hr & Hi).
  rewrite (linear_elem W None x p O (n * m)) in Heq by done. cbv zeta in Heq.
  rewrite (linear_elem W (Some B) x p O (n * m)) by done. cbv zeta. rewrite Heq.
  rewrite <- (fdiv_sum n (elem B [i])) by done. rewrite <- fsum_plus. apply fsum_ext. intros k Hk.
  destruct (Hxs k Hk) as [Hsx _], (Hws k Hk) as [Hsw _]. destruct (Hbs k Hk) as [Hbs1 Hbs2].
  rewrite !(linear_elem (ws k) _ (xs k) p O m) by done. cbv zeta. f_equal.
  rewrite Hbs2; [by rewrite div_elem by (rewrite HB; by apply inside_one)|].
  rewrite Hbs1, div_shape, HB. by apply inside_one.
Qed.

(** The halves of a fused gate and up projection. *)
Lemma Cols_split g m w xs x q : q < 2 -> Cols g (2 * m) (2 * w) xs x ->
  (forall k i, k < n -> i < m -> g k (q * m + i) = q * w + block m k i) -> w = n * m ->
  Cols (block m) m w (fun k => op_split (xs k) 2 q) (op_split x 2 q).
Proof.
  intros Hq (p & Hx & H) Hg Hw. exists p. split; [by eapply split_shape|]. intros k Hk. destruct (H k Hk) as [Hs He].
  split; [by eapply split_shape|]. intros r i Hr Hi.
  assert (Hb : block m k i < w) by (unfold block; subst w; nia). split; [done|].
  rewrite (split_elem (xs k) p 2 m), (split_elem x p 2 w) by done. rewrite <- Hg by done.
  apply He; [done|]. destruct q as [|[]]; lia.
Qed.
End Sharding.

#[export] Hint Resolve Rep_norm Rep_scale Rep_div Rep_act Sum_scale Rep_add Sum_add Sum_div Cols_act Cols_maximum Cols_minimum Cols_mul : sharding.
