(* ===== verification/TensorParallel.v ===== *)
(** * Sharding of weights ([support/tensor_parallel.py])

    [ShardSingleDim.gen_tir] builds the function that cuts a full weight into
    the weights of the workers, along one dimension and segment by segment;
    [gen_shard_info] describes it to the loader.  [shard_bias] divides the bias
    of a row-parallel layer among the workers for the time of a call.

    The functions of TOPI are the class [Topi]; [te.compute] is the core of the
    tensor expression language and is a tensor given by its elements. *)

From stdpp Require Import base list strings.
From Stdlib Require Import Permutation.
From S2P Require Import Prelude TensorOps.
Local Open Scope nat_scope.

(** The weight of one worker, as far as the strategies look at it. *)
Record WeightSpec : Type := mkWeightSpec { ws_shape : list nat; ws_dtype : string }.

Record ShardSingleDim : Type := mkShardSingleDim {
  ss_name : string; ss_dim : nat; ss_segs : option (list nat) }.

Definition list_sum_nat (l : list nat) : nat := fold_right Nat.add 0 l.

Class Topi `{E : Elem} := {
  topi_reshape : Tensor -> list nat -> Tensor;
  topi_transpose : Tensor -> list nat -> Tensor;
  topi_concatenate : list Tensor -> nat -> Tensor;
}.
Arguments Topi E : clear implicits.

Class TopiLaws `{E : Elem} (TP : Topi E) := {
  topi_reshape_shape : forall x s, size s = size (shape x) -> shape (topi_reshape x s) = s;
  topi_reshape_elem : forall x s q, size s = size (shape x) -> inside q s ->
    elem (topi_reshape x s) q = elem x (unravel (shape x) (ravel s q));
  transpose_shape : forall x axes, Permutation axes (seq 0 (length (shape x))) ->
    shape (topi_transpose x axes) = map (fun a => nth a (shape x) 0) axes;
  transpose_elem : forall x axes q, Permutation axes (seq 0 (length (shape x))) -> inside q (shape x) ->
    elem (topi_transpose x axes) (map (fun a => nth a q 0) axes) = elem x q;
  concatenate_shape : forall xs p q ns, xs <> [] -> Forall2 (fun x n => shape x = p ++ [n] ++ q) xs ns ->
    shape (topi_concatenate xs (length p)) = p ++ [list_sum_nat ns] ++ q;
  concatenate_elem : forall xs x ys p q ns n ms p' q' i,
    Forall2 (fun x n => shape x = p ++ [n] ++ q) xs ns -> shape x = p ++ [n] ++ q ->
    Forall2 (fun x n => shape x = p ++ [n] ++ q) ys ms ->
    inside p' p -> i < n -> inside q' q ->
    elem (topi_concatenate (xs ++ x :: ys) (length p)) (p' ++ [list_sum_nat ns + i] ++ q') = elem x (p' ++ [i] ++ q');
}.

Section TensorParallel.
Context `{E : Elem} {TP : Topi E}.

Definition te_compute (s : list nat) (f : list nat -> F) : Tensor := mkTensor s f.

(** [_compute_in_shape] *)
Definition _compute_in_shape (s : ShardSingleDim) (shards : nat) (weight : WeightSpec) : res (list nat) :=
  let? d := list_getitem (ws_shape weight) (ss_dim s) in
  Ok (take (ss_dim s) (ws_shape weight) ++ [d * shards] ++ drop (S (ss_dim s)) (ws_shape weight)).

(** [self.segs or [shape[self.dim]]] *)
Definition segments (s : ShardSingleDim) (weight : WeightSpec) : res (list nat) :=
  match ss_segs s with
  | Some (x :: l) => Ok (x :: l)
  | _ => let? d := list_getitem (ws_shape weight) (ss_dim s) in Ok [d]
  end.

(** One segment: its part of the weight, with the workers as a dimension of
    their own in front. *)
Definition segment_tensor (dim shards : nat) (shp : list nat) (w : Tensor) (offset sub_seg : nat) : Tensor :=
  let part := te_compute (take dim shp ++ [sub_seg * shards] ++ drop (S dim) shp)
    (fun idx => elem w (take dim idx ++ [nth dim idx 0 + offset] ++ drop (S dim) idx)) in
  topi_transpose (topi_reshape part (take dim shp ++ [shards; sub_seg] ++ drop (S dim) shp))
    (dim :: seq 0 dim ++ seq (S dim) (S (length shp) - S dim)).

(** The loop over the segments. *)
Fixpoint segment_tensors (dim shards : nat) (shp : list nat) (w : Tensor) (offset : nat) (segs : list nat)
  : list Tensor :=
  match segs with
  | [] => []
  | sub_seg :: segs =>
      segment_tensor dim shards shp w offset sub_seg ::
      segment_tensors dim shards shp w (offset + sub_seg * shards) segs
  end.

(** [gen_tir]: the shape of the input and the function. *)
Definition gen_tir (s : ShardSingleDim) (shards : nat) (weight : WeightSpec)
  : res (list nat * (Tensor -> Tensor)) :=
  let? segs := segments s weight in
  let? d := list_getitem (ws_shape weight) (ss_dim s) in
  let? _ := py_assert (list_sum_nat segs =? d) in
  let? in_shape := _compute_in_shape s shards weight in
  Ok (in_shape, fun w =>
    topi_concatenate (segment_tensors (ss_dim s) shards (ws_shape weight) w 0 segs) (1 + ss_dim s)).

(** [gen_shard_info] *)
Record ShardInfo : Type := mkShardInfo {
  func_name : string; in_shape : list nat; out_shape : list nat; out_dtype : string }.

Definition gen_shard_info (s : ShardSingleDim) (shards : nat) (weight : WeightSpec) : res ShardInfo :=
  let? i := _compute_in_shape s shards weight in
  Ok (mkShardInfo (ss_name s) i (shards :: ws_shape weight) (ws_dtype weight)).

(** What worker [k] gets: the output split and squeezed along dimension 0. *)
Definition worker_shard (k : nat) (o : Tensor) : Tensor :=
  mkTensor (tail (shape o)) (fun idx => elem o (k :: idx)).
End TensorParallel.

(** [shard_bias]: [body] runs with the bias divided; the bias is put back
    behind the [yield], which an exception of the body does not reach. *)
Definition shard_bias `{NnOps} {B} (shards : nat) (body : option Tensor -> res B) (bias : option Tensor)
  : res B * option Tensor :=
  let divided :=
    if 1 <? shards then match bias with Some b => Ok (Some (op_div b shards)) | None => Raise TypeError end
    else Ok bias in
  match divided with
  | Raise x => (Raise x, bias)
  | Ok b => match body b with Ok y => (Ok y, bias) | Raise x => (Raise x, b) end
  end.

(** ** Specification *)

(** The place in the full dimension of place [i] of worker [k]. *)
Fixpoint seg_index (shards : nat) (segs : list nat) (k i : nat) : nat :=
  match segs with
  | [] => i
  | s :: segs => if i <? s then k * s + i else s * shards + seg_index shards segs k (i - s)
  end.

Section Spec.
Context `{E : Elem} {TP : Topi E} {TL : TopiLaws TP}.
Variables (shards : nat) (p q : list nat).

Lemma seg_index_lt segs k i : k < shards -> i < list_sum_nat segs ->
  seg_index shards segs k i < list_sum_nat segs * shards.
Proof.
  intros Hk. revert i. induction segs as [|s segs IH]; intros i Hi; cbn [list_sum_nat fold_right seg_index] in *; [lia|].
  fold (list_sum_nat segs) in *. assert (k * s + s <= s * shards) by nia.
  destruct (Nat.ltb_spec i s); [lia|]. specialize (IH (i - s) ltac:(lia)). lia.
Qed.

Lemma reshape_split_index (p' q' : list nat) sub k j : inside p' p -> inside q' q -> k < shards -> j < sub ->
  unravel (p ++ [sub * shards] ++ q) (ravel (p ++ [shards; sub] ++ q) (p' ++ [k; j] ++ q')) =
  p' ++ [k * sub + j] ++ q'.
Proof.
  intros Hp Hq Hk Hj.
  assert (Hin : inside (p' ++ [k * sub + j] ++ q') (p ++ [sub * shards] ++ q)).
  { apply inside_app; [done|]. apply inside_app; [|done]. apply inside_one. nia. }
  rewrite <- (unravel_ravel _ _ Hin). f_equal.
  pose proof (inside_length _ _ Hp) as Hl.
  rewrite !ravel_app by (cbn; congruence). cbn [ravel size app]. nia.
Qed.

Lemma axes_permutation (a b : nat) : Permutation (a :: seq 0 a ++ seq (S a) b) (seq 0 (a + S b)).
Proof. rewrite seq_app. cbn [Nat.add seq]. apply Permutation_middle. Qed.

Lemma map_nth_seq {A} (l : list A) d : map (fun a => nth a l d) (seq 0 (length l)) = l.
Proof.
  induction l as [|x l IH]; [done|]. cbn [length seq map nth]. f_equal. rewrite <- seq_shift, map_map. exact IH.
Qed.

Lemma map_nth_app_r {A} (l l' : list A) d :
  map (fun a => nth a (l ++ l') d) (seq (length l) (length l')) = l'.
Proof.
  rewrite <- (map_nth_seq l' d) at 2. rewrite <- (Nat.add_0_r (length l)) at 1. rewrite <- fmap_add_seq, map_map.
  apply map_ext. intros a. rewrite app_nth2 by lia. f_equal. lia.
Qed.

Lemma map_nth_app_l {A} (l l' : list A) d : map (fun a => nth a (l ++ l') d) (seq 0 (length l)) = l.
Proof.
  rewrite <- (map_nth_seq l d) at 2. apply map_ext_in. intros a Ha%in_seq. apply app_nth1. lia.
Qed.

(** The axis of the workers moved to the front. *)
Lemma map_axes {A} (l r : list A) x y d :
  map (fun a => nth a (l ++ [x; y] ++ r) d)
    (length l :: seq 0 (length l) ++ seq (S (length l)) (S (length r))) = x :: l ++ [y] ++ r.
Proof.
  cbn [map]. rewrite map_app, map_nth_app_l. f_equal.
  - rewrite app_nth2, Nat.sub_diag by lia. done.
  - f_equal. pose proof (map_nth_app_r (l ++ [x]) (y :: r) d) as H.
    rewrite length_app, Nat.add_1_r in H. cbn [length] in H. rewrite <- app_assoc in H. exact H.
Qed.

Section Segments.
Variables (d : nat) (w : Tensor).
Let shp := p ++ [d] ++ q.

Lemma take_shp : take (length p) shp = p.
Proof. apply take_app_length. Qed.
Lemma drop_shp : drop (S (length p)) shp = q.
Proof. unfold shp. replace (S (length p)) with (length (p ++ [d])) by (rewrite length_app; cbn; lia).
  rewrite app_assoc. apply drop_app_length. Qed.
Lemma rank_shp : S (length shp) - S (length p) = S (length q).
Proof. unfold shp. rewrite !length_app. cbn. lia. Qed.

Lemma segment_tensor_spec offset sub :
  shape (segment_tensor (length p) shards shp w offset sub) = shards :: p ++ [sub] ++ q /\
  forall k p' j q', k < shards -> inside p' p -> j < sub -> inside q' q ->
    elem (segment_tensor (length p) shards shp w offset sub) (k :: p' ++ [j] ++ q') =
    elem w (p' ++ [k * sub + j + offset] ++ q').
Proof.
  unfold segment_tensor. rewrite take_shp, drop_shp, rank_shp.
  set (part := te_compute _ _).
  assert (Hsize : size (p ++ [shards; sub] ++ q) = size (shape part)).
  { unfold part. cbn [te_compute shape]. rewrite !size_app. cbn [size app]. lia. }
  assert (Hperm : Permutation (length p :: seq 0 (length p) ++ seq (S (length p)) (S (length q)))
    (seq 0 (length (shape (topi_reshape part (p ++ [shards; sub] ++ q)))))).
  { rewrite topi_reshape_shape by done. rewrite !length_app. cbn [length].
    rewrite axes_permutation. by replace (length p + S (S (length q))) with (length p + (2 + length q)) by lia. }
  split.
  - rewrite transpose_shape, topi_reshape_shape by done. apply map_axes.
  - intros k p' j q' Hk Hp Hj Hq. pose proof (inside_length _ _ Hp) as Hlp. pose proof (inside_length _ _ Hq) as Hlq.
    assert (Hin : inside (p' ++ [k; j] ++ q') (p ++ [shards; sub] ++ q)).
    { apply inside_app; [done|]. repeat constructor; done. }
    rewrite <- (map_axes p' q' k j 0), Hlp, Hlq.
    rewrite transpose_elem; [|done|by rewrite topi_reshape_shape].
    rewrite topi_reshape_elem by done. change (shape part) with (p ++ [sub * shards] ++ q).
    rewrite reshape_split_index by done. unfold part. cbn [elem te_compute].
    rewrite <- Hlp, take_app_length. f_equal. f_equal. rewrite app_nth2, Nat.sub_diag by lia. cbn [nth app].
    f_equal. replace (S (length p')) with (length (p' ++ [k * sub + j])) by (rewrite length_app; cbn; lia).
    rewrite (app_assoc p' [k * sub + j] q' : p' ++ (k * sub + j) :: q' = _). apply drop_app_length.
Qed.

Lemma segment_tensors_shapes segs : forall offset,
  Forall2 (fun x n => shape x = (shards :: p) ++ [n] ++ q)
    (segment_tensors (length p) shards shp w offset segs) segs.
Proof.
  induction segs as [|s segs IH]; intros offset; cbn [segment_tensors]; constructor; [|apply IH].
  apply segment_tensor_spec.
Qed.

(** The list of segment tensors around the one that holds place [i]. *)
Lemma segment_tensors_at segs i k : k < shards -> i < list_sum_nat segs -> forall offset,
  exists s1 s s2 j, segs = s1 ++ s :: s2 /\ i = list_sum_nat s1 + j /\ j < s /\
    k * s + j + (offset + list_sum_nat s1 * shards) = offset + seg_index shards segs k i /\
    segment_tensors (length p) shards shp w offset segs =
      segment_tensors (length p) shards shp w offset s1 ++
      segment_tensor (length p) shards shp w (offset + list_sum_nat s1 * shards) s ::
      segment_tensors (length p) shards shp w (offset + list_sum_nat s1 * shards + s * shards) s2.
Proof.
  intros Hk. revert i. induction segs as [|s segs IH]; intros i Hi offset;
    cbn [list_sum_nat fold_right] in Hi; [lia|]. fold (list_sum_nat segs) in Hi.
  cbn [seg_index]. destruct (Nat.ltb_spec i s) as [Hs|Hs].
  - exists [], s, segs, i. cbn. rewrite Nat.add_0_r. repeat split; try lia.
  - destruct (IH (i - s) ltac:(lia) (offset + s * shards)) as (s1 & t & s2 & j & -> & Hj & Hjt & He & Hl).
    exists (s :: s1), t, s2, j. cbn [app list_sum_nat fold_right segment_tensors].
    fold (list_sum_nat s1) in *. rewrite Hl. split; [done|]. split; [lia|]. split; [done|]. split; [nia|].
    rewrite Nat.mul_add_distr_r, !Nat.add_assoc. done.
Qed.
End Segments.

(** The function that [gen_tir] builds takes a weight of the shape that
    [gen_shard_info] announces to the announced shape, and gives worker [k], in
    every segment, the [k]-th of the equal parts of that segment of the full
    weight. *)
Lemma gen_tir_spec s dtype d segs : ss_dim s = length p ->
  segs = match ss_segs s with Some (x :: l) => x :: l | _ => [d] end -> list_sum_nat segs = d ->
  exists f, gen_tir s shards (mkWeightSpec (p ++ [d] ++ q) dtype) = Ok (p ++ [d * shards] ++ q, f) /\
    gen_shard_info s shards (mkWeightSpec (p ++ [d] ++ q) dtype) =
      Ok (mkShardInfo (ss_name s) (p ++ [d * shards] ++ q) (shards :: p ++ [d] ++ q) dtype) /\
    forall w, shape w = p ++ [d * shards] ++ q ->
      shape (f w) = shards :: p ++ [d] ++ q /\
      forall k p' i q', k < shards -> inside p' p -> i < d -> inside q' q ->
        elem (worker_shard k (f w)) (p' ++ [i] ++ q') = elem w (p' ++ [seg_index shards segs k i] ++ q').
Proof.
  intros Hdim Hsegs Hsum. unfold gen_tir, gen_shard_info, _compute_in_shape, segments. cbn [ws_shape ws_dtype].
  rewrite Hdim, (list_getitem_lookup _ _ d) by (by apply (list_lookup_middle p q d)).
  rewrite take_shp, drop_shp. cbn [rbind].
  assert (match ss_segs s with Some (x :: l) => Ok (x :: l) | _ => Ok [d] end = Ok segs) as ->
    by (subst segs; by destruct (ss_segs s) as [[|]|]).
  cbn [rbind]. rewrite (proj2 (Nat.eqb_eq _ _) Hsum). cbn [py_assert rbind].
  eexists. split; [reflexivity|]. split; [done|]. intros w Hw.
  assert (segs <> []) as Hne by (subst segs; by destruct (ss_segs s) as [[|]|]).
  split.
  - change (1 + length p) with (length (shards :: p)).
    rewrite (concatenate_shape _ (shards :: p) q segs); [by rewrite Hsum| |apply segment_tensors_shapes].
    destruct segs; [done|]. cbn. done.
  - intros k p' i q' Hk Hp Hi Hq. rewrite <- Hsum in Hi.
    destruct (segment_tensors_at d w segs i k Hk Hi 0) as (s1 & t & s2 & j & Hs & Hij & Hj & He & Hl).
    cbn [worker_shard elem]. rewrite Hl. change (1 + length p) with (length (shards :: p)).
    subst i. change (k :: p' ++ [list_sum_nat s1 + j] ++ q') with ((k :: p') ++ [list_sum_nat s1 + j] ++ q').
    rewrite (concatenate_elem _ _ _ (shards :: p) q s1 t s2); try done.
    + destruct (segment_tensor_spec d w (0 + list_sum_nat s1 * shards) t) as [_ H].
      change ((k :: p') ++ [j] ++ q') with (k :: p' ++ [j] ++ q'). rewrite H by done.
      f_equal. f_equal. f_equal. f_equal. lia.
    + apply segment_tensors_shapes.
    + apply segment_tensor_spec.
    + apply segment_tensors_shapes.
    + by constructor.
Qed.
End Spec.

(** No place of the full dimension is lost, and none goes to two workers. *)
Lemma seg_index_onto shards segs : forall x, x < list_sum_nat segs * shards ->
  exists k i, k < shards /\ i < list_sum_nat segs /\ seg_index shards segs k i = x.
Proof.
  induction segs as [|s segs IH]; intros x Hx; cbn [list_sum_nat fold_right seg_index] in *; [lia|].
  fold (list_sum_nat segs) in *. destruct (decide (x < s * shards)) as [Hs|Hs].
  - exists (x / s), (x mod s). assert (0 < s) by nia. pose proof (Nat.mod_upper_bound x s ltac:(lia)).
    split; [apply Nat.Div0.div_lt_upper_bound; lia|]. split; [lia|].
    destruct (Nat.ltb_spec (x mod s) s); [|lia]. rewrite Nat.mul_comm. symmetry. apply Nat.div_mod_eq.
  - destruct (IH (x - s * shards) ltac:(lia)) as (k & i & Hk & Hi & He). exists k, (s + i).
    split; [done|]. split; [lia|]. destruct (Nat.ltb_spec (s + i) s); [lia|].
    replace (s + i - s) with i by lia. lia.
Qed.

Lemma seg_index_inj shards segs k k' : k < shards -> k' < shards -> forall i i',
  i < list_sum_nat segs -> i' < list_sum_nat segs ->
  seg_index shards segs k i = seg_index shards segs k' i' -> k = k' /\ i = i'.
Proof.
  intros Hk Hk'. induction segs as [|s segs IH]; intros i i' Hi Hi' H;
    cbn [list_sum_nat fold_right seg_index] in *; [lia|]. fold (list_sum_nat segs) in *.
  assert (k * s + s <= s * shards /\ k' * s + s <= s * shards) as [H1 H2] by nia.
  destruct (Nat.ltb_spec i s), (Nat.ltb_spec i' s); try lia.
  - rewrite (Nat.mul_comm k), (Nat.mul_comm k') in H. by apply Nat.div_mod_unique in H as [-> ->].
  - destruct (IH (i - s) (i' - s)); [lia..|]. lia.
Qed.

(** C3: every element of the full weight is in the shard of exactly one worker,
    at exactly one place: [gen_tir] succeeds on segments that add up to the
    dimension, its shapes are those [gen_shard_info] announces, and along the
    dimension the places of the shards of all workers are a bijection onto those
    of the weight, which keeps the elements. *)
Theorem gen_tir_partitions `{TL : TopiLaws} shards p q s dtype d segs : ss_dim s = length p ->
  segs = match ss_segs s with Some (x :: l) => x :: l | _ => [d] end -> list_sum_nat segs = d ->
  exists f, gen_tir s shards (mkWeightSpec (p ++ [d] ++ q) dtype) = Ok (p ++ [d * shards] ++ q, f) /\
    gen_shard_info s shards (mkWeightSpec (p ++ [d] ++ q) dtype) =
      Ok (mkShardInfo (ss_name s) (p ++ [d * shards] ++ q) (shards :: p ++ [d] ++ q) dtype) /\
    forall w, shape w = p ++ [d * shards] ++ q ->
      shape (f w) = shards :: p ++ [d] ++ q /\
      exists place : nat -> nat -> nat,
        (forall x, x < d * shards -> exists k i, k < shards /\ i < d /\ place k i = x) /\
        (forall k i k' i', k < shards -> k' < shards -> i < d -> i' < d -> place k i = place k' i' -> k = k' /\ i = i') /\
        forall k p' i q', k < shards -> inside p' p -> i < d -> inside q' q ->
          place k i < d * shards /\
          elem (worker_shard k (f w)) (p' ++ [i] ++ q') = elem w (p' ++ [place k i] ++ q').
Proof.
  intros Hdim Hsegs Hsum. destruct (gen_tir_spec shards p q s dtype d segs Hdim Hsegs Hsum) as (f & Hf & Hinfo & H).
  exists f. do 2 (split; [done|]). intros w Hw. destruct (H w Hw) as [Hshape Helem]. split; [done|].
  exists (seg_index shards segs). rewrite <- Hsum in *. split; [apply seg_index_onto|]. split.
  - intros. by eapply seg_index_inj.
  - intros k p' i q' Hk Hp Hi Hq. split; [by apply seg_index_lt|by apply Helem].
Qed.

(** ** The weights of the workers *)

Section Workers.
Context `{E : Elem} {TP : Topi E}.

(** The parameter [W] of a module as worker [k] has it: sharded when it has a
    strategy, whole otherwise. *)
Definition worker_weight (strategy : option ShardSingleDim) (shards : nat) (spec : WeightSpec) (k : nat)
    (W : Tensor) : Tensor :=
  match strategy with
  | None => W
  | Some s => match gen_tir s shards spec with Ok (_, f) => worker_shard k (f W) | Raise _ => W end
  end.

Context {TL : TopiLaws TP}.
Variable n : nat.

Lemma seg_index_block m k j : j < m -> seg_index n [m] k j = block m k j.
Proof. intros H. cbn [seg_index]. rewrite (proj2 (Nat.ltb_lt _ _) H). done. Qed.

Lemma rows_of name segs m K dtype W : shape W = [m * n; K] ->
  list_sum_nat (match segs with Some (x :: l) => x :: l | _ => [m] end) = m ->
  RowsOf n (seg_index n (match segs with Some (x :: l) => x :: l | _ => [m] end)) m (m * n)
    (fun k => worker_weight (Some (mkShardSingleDim name 0 segs)) n (mkWeightSpec [m; K] dtype) k W) W.
Proof.
  intros HW Hs. exists K. split; [done|]. intros k Hk.
  destruct (gen_tir_spec n [] [K] (mkShardSingleDim name 0 segs) dtype m _ eq_refl eq_refl Hs) as (f & Hf & _ & H).
  cbn [app] in Hf. cbn [worker_weight]. rewrite Hf. destruct (H W HW) as [Hshape Helem]. split.
  - cbn [worker_shard shape]. by rewrite Hshape.
  - intros i Hi. pose proof (seg_index_lt n _ k i Hk (eq_ind_r (lt i) Hi Hs)) as Hlt.
    rewrite Hs in Hlt. split; [done|]. intros j Hj.
    apply (Helem k [] i [j]); [done|constructor|done|by apply inside_one].
Qed.

Lemma cols_of name m O dtype W : shape W = [O; n * m] ->
  ColsOf n m (fun k => worker_weight (Some (mkShardSingleDim name 1 None)) n (mkWeightSpec [O; m] dtype) k W) W.
Proof.
  intros HW. exists O. split; [done|]. intros k Hk.
  destruct (gen_tir_spec n [O] [] (mkShardSingleDim name 1 None) dtype m [m] eq_refl eq_refl ltac:(cbn; lia))
    as (f & Hf & _ & H).
  cbn [app] in Hf. cbn [worker_weight]. rewrite Hf. destruct (H W) as [Hshape Helem].
  { cbn [app]. by rewrite HW, Nat.mul_comm. }
  split.
  - cbn [worker_shard shape]. by rewrite Hshape.
  - intros i j Hi Hj. rewrite <- seg_index_block by done.
    apply (Helem k [i] j []); [done|by apply inside_one|done|constructor].
Qed.

Lemma bias_of name segs m dtype B : shape B = [m * n] ->
  list_sum_nat (match segs with Some (x :: l) => x :: l | _ => [m] end) = m ->
  BiasOf n (seg_index n (match segs with Some (x :: l) => x :: l | _ => [m] end)) m (m * n)
    (fun k => Some (worker_weight (Some (mkShardSingleDim name 0 segs)) n (mkWeightSpec [m] dtype) k B)) (Some B).
Proof.
  intros HB Hs. split; [done|]. intros k Hk.
  destruct (gen_tir_spec n [] [] (mkShardSingleDim name 0 segs) dtype m _ eq_refl eq_refl Hs) as (f & Hf & _ & H).
  cbn [app] in Hf. cbn [worker_weight]. rewrite Hf. destruct (H B HB) as [Hshape Helem].
  eexists. split; [done|]. split; [cbn [worker_shard shape]; by rewrite Hshape|].
  intros i Hi. apply (Helem k [] i []); [done|constructor|done|constructor].
Qed.
End Workers.
