(* ===== verification/KvCache.v ===== *)
(** * The paged KV cache and attention by heads ([nn/kv_cache.py])

    The key-value cache and the attention on it are the runtime's: the class
    [KVCache].  Its law is that heads are independent: a cache that holds the
    KV heads of one worker, given the query, key and value heads of that
    worker, computes that worker's part of the output of the whole cache.

    [fused_attention] is what the attention modules of the networks do between
    their two projections. *)

From stdpp Require Import base list strings.
From S2P Require Import Prelude TensorOps TensorParallel.
Local Open Scope nat_scope.

(** The head of the fused query, key and value tensor of all workers that is
    head [h] of worker [k]. *)
Definition full_head (n hq hkv k h : nat) : nat :=
  if h <? hq then k * hq + h
  else if h <? hq + hkv then n * hq + (k * hkv + (h - hq))
  else n * hq + n * hkv + (k * hkv + (h - hq - hkv)).

Class KVCache `{E : Elem} := {
  Cache : Type;
  (** [attention_with_fused_qkv(layer_id, qkv, num_qo_heads, sm_scale)] *)
  attention_with_fused_qkv : Cache -> nat -> Tensor -> nat -> pyfloat -> Tensor * Cache;
  (** [get_query_positions(total_length)] *)
  get_query_positions : Cache -> nat -> Tensor;
  (** [head_dim**-0.5] and [hidden_size**0.5] *)
  rsqrt_dim : nat -> pyfloat;
  sqrt_dim : nat -> pyfloat;
  (** the part of a cache that worker [k] of [n] keeps *)
  cache_part : nat -> nat -> Cache -> Cache -> Prop;
}.
Arguments KVCache E : clear implicits.

Class KVCacheLaws `{E : Elem} (KV : KVCache E) := {
  cache_part_one : forall c, cache_part 1 0 c c;
  positions_shape : forall c m, shape (get_query_positions c m) = [m];
  positions_part : forall n k c ck m, cache_part n k c ck -> teq (get_query_positions ck m) (get_query_positions c m);
  attention_by_heads : forall n k c ck layer x xk b s d hq hkv scale, k < n -> hq mod hkv = 0 ->
    cache_part n k c ck ->
    shape x = [b; s; n * hq + n * hkv + n * hkv; d] -> shape xk = [b; s; hq + hkv + hkv; d] ->
    (forall ib it h e, inside [ib; it; h; e] (shape xk) ->
       elem xk [ib; it; h; e] = elem x [ib; it; full_head n hq hkv k h; e]) ->
    let o := attention_with_fused_qkv c layer x (n * hq) scale in
    let ok := attention_with_fused_qkv ck layer xk hq scale in
    shape (fst o) = [b; s; n * hq; d] /\ shape (fst ok) = [b; s; hq; d] /\
    (forall ib it h e, inside [ib; it; h; e] (shape (fst ok)) ->
       elem (fst ok) [ib; it; h; e] = elem (fst o) [ib; it; k * hq + h; e]) /\
    cache_part n k (snd o) (snd ok);
}.

Section Attention.
Context `{EL : ElemLaws} {N : NnOps E} {KV : KVCache E}.

(** [op.reshape(qkv, (b, s, h_q + h_kv + h_kv, d))], the attention, and
    [op.reshape(..., (b, s, h_q * d))]; [x] is the input of the module, a
    tensor of rank 3. *)
Definition fused_attention (d h_q h_kv : nat) (scale : pyfloat) (x qkv : Tensor) (c : Cache) (layer_id : nat)
  : Tensor * Cache :=
  let b := nth 0 (shape x) 0 in
  let s := nth 1 (shape x) 0 in
  let qkv := op_reshape qkv [b; s; h_q + h_kv + h_kv; d] in
  let '(output, c) := attention_with_fused_qkv c layer_id qkv h_q scale in
  (op_reshape output [b; s; h_q * d], c).

Context {NL : NnLaws N} {KL : KVCacheLaws KV}.
Variable n : nat.

(** The caches of the workers hold the heads of the whole cache. *)
Definition Caches (cs : nat -> Cache) (c : Cache) : Prop := forall k, k < n -> cache_part n k c (cs k).

Lemma unravel_split p (r : list nat) a b i j : inside r p -> i < a -> j < b ->
  unravel (p ++ [a * b]) (ravel (p ++ [a; b]) (r ++ [i; j])) = r ++ [i * b + j].
Proof.
  intros Hr Hi Hj.
  assert (Hin : inside (r ++ [i * b + j]) (p ++ [a * b])).
  { apply inside_app; [done|]. apply inside_one. nia. }
  rewrite <- (unravel_ravel _ _ Hin). f_equal. pose proof (inside_length _ _ Hr) as Hl.
  rewrite !ravel_app by congruence. cbn [ravel size]. nia.
Qed.

Lemma unravel_merge p (r : list nat) a b i j : inside r p -> i < a -> j < b ->
  unravel (p ++ [a; b]) (ravel (p ++ [a * b]) (r ++ [i * b + j])) = r ++ [i; j].
Proof.
  intros Hr Hi Hj.
  assert (Hin : inside (r ++ [i; j]) (p ++ [a; b])).
  { apply inside_app; [done|]. repeat constructor; done. }
  rewrite <- (unravel_ravel _ _ Hin). f_equal. pose proof (inside_length _ _ Hr) as Hl.
  rewrite !ravel_app by congruence. cbn [ravel size]. nia.
Qed.

Lemma split_heads x p a b r i j : shape x = p ++ [a * b] -> inside r p -> i < a -> j < b ->
  elem (op_reshape x (p ++ [a; b])) (r ++ [i; j]) = elem x (r ++ [i * b + j]).
Proof.
  intros Hx Hr Hi Hj. rewrite reshape_elem.
  - rewrite Hx. by rewrite unravel_split.
  - rewrite Hx, !size_app. cbn. lia.
  - apply inside_app; [done|]. repeat constructor; done.
Qed.

Lemma merge_heads x p a b r i j : shape x = p ++ [a; b] -> inside r p -> i < a -> j < b ->
  elem (op_reshape x (p ++ [a * b])) (r ++ [i * b + j]) = elem x (r ++ [i; j]).
Proof.
  intros Hx Hr Hi Hj. rewrite reshape_elem.
  - rewrite Hx. by rewrite unravel_merge.
  - rewrite Hx, !size_app. cbn. lia.
  - apply inside_app; [done|]. apply inside_one. nia.
Qed.

Lemma seg_index_heads hq hkv d k h e : e < d -> h < hq + hkv + hkv ->
  seg_index n [hq * d; hkv * d; hkv * d] k (h * d + e) = full_head n hq hkv k h * d + e.
Proof.
  intros He Hh. cbn [seg_index]. unfold full_head.
  destruct (Nat.ltb_spec h hq) as [H1|H1].
  - rewrite (proj2 (Nat.ltb_lt _ _)) by nia. lia.
  - rewrite (proj2 (Nat.ltb_ge _ _)) by nia.
    assert (Hs : h * d + e - hq * d = (h - hq) * d + e) by nia. rewrite Hs.
    destruct (Nat.ltb_spec h (hq + hkv)) as [H2|H2].
    + rewrite (proj2 (Nat.ltb_lt _ _)) by nia. nia.
    + rewrite (proj2 (Nat.ltb_ge _ _)) by nia.
      assert (Hs2 : (h - hq) * d + e - hkv * d = (h - hq - hkv) * d + e) by nia. rewrite Hs2.
      rewrite (proj2 (Nat.ltb_lt _ _)) by nia. nia.
Qed.

Lemma full_head_lt hq hkv k h : k < n -> h < hq + hkv + hkv -> full_head n hq hkv k h < n * hq + n * hkv + n * hkv.
Proof.
  intros Hk Hh. unfold full_head. assert (k * hq + hq <= n * hq /\ k * hkv + hkv <= n * hkv) as [H1 H2] by nia.
  destruct (Nat.ltb_spec h hq); [lia|]. destruct (Nat.ltb_spec h (hq + hkv)); lia.
Qed.

Lemma inside_heads ib it h e b s H d : inside [ib; it; h; e] [b; s; H; d] ->
  inside [ib; it] [b; s] /\ h < H /\ e < d.
Proof.
  intros Hin. apply Forall2_cons in Hin as [H1 Hin]. apply Forall2_cons in Hin as [H2 Hin].
  apply Forall2_cons in Hin as [H3 Hin]. apply Forall2_cons in Hin as [H4 _]. by repeat constructor.
Qed.

(** The attention of the workers: columns in, columns out. *)
Lemma Cols_attention d hq hkv scale xs x qkvs qkv cs c layer b s w : 0 < n -> 0 < d -> hq mod hkv = 0 ->
  shape x = [b; s; w] -> Rep n xs x -> Caches cs c ->
  shape qkv = [b; s; (n * hq + n * hkv + n * hkv) * d] ->
  Cols n (seg_index n [hq * d; hkv * d; hkv * d]) ((hq + hkv + hkv) * d) ((n * hq + n * hkv + n * hkv) * d) qkvs qkv ->
  let o := fused_attention d (n * hq) (n * hkv) scale x qkv c layer in
  let os := fun k => fused_attention d hq hkv scale (xs k) (qkvs k) (cs k) layer in
  Cols n (block (hq * d)) (hq * d) (n * (hq * d)) (fun k => fst (os k)) (fst o) /\
  Caches (fun k => snd (os k)) (snd o) /\ shape (fst o) = [b; s; n * hq * d].
Proof.
  intros Hn Hd Hg Hx Hxs Hcs Hqkv (p & Hp & Hcols) o os.
  rewrite Hqkv in Hp. assert (p = [b; s]) as ->.
  { change [b; s; (n * hq + n * hkv + n * hkv) * d] with ([b; s] ++ [(n * hq + n * hkv + n * hkv) * d]) in Hp.
    by apply app_inj_tail in Hp as [-> _]. }
  assert (Hk : forall k, k < n ->
    let ok := attention_with_fused_qkv (cs k) layer (op_reshape (qkvs k) [b; s; hq + hkv + hkv; d]) hq scale in
    let oo := attention_with_fused_qkv c layer (op_reshape qkv [b; s; n * hq + n * hkv + n * hkv; d]) (n * hq) scale in
    shape (fst oo) = [b; s; n * hq; d] /\ shape (fst ok) = [b; s; hq; d] /\
    (forall ib it h e, inside [ib; it; h; e] (shape (fst ok)) ->
       elem (fst ok) [ib; it; h; e] = elem (fst oo) [ib; it; k * hq + h; e]) /\
    cache_part n k (snd oo) (snd ok)).
  { intros k Hk. destruct (Hcols k Hk) as [Hs He]. apply (attention_by_heads n k c (cs k) layer _ _ b s d hq hkv);
      [done|done|by apply Hcs| | |].
    - apply reshape_shape. rewrite Hqkv. cbn. lia.
    - apply reshape_shape. rewrite Hs. cbn. lia.
    - rewrite reshape_shape by (rewrite Hs; cbn; lia). intros ib it h e Hin.
      apply inside_heads in Hin as (Hin & Hh & He').
      change [ib; it; h; e] with ([ib; it] ++ [h; e]). change [b; s; hq + hkv + hkv; d] with ([b; s] ++ [hq + hkv + hkv; d]).
      rewrite (split_heads (qkvs k)) by done.
      destruct (He [ib; it] (h * d + e) Hin) as [_ ->]; [nia|]. rewrite seg_index_heads by done.
      change [ib; it; full_head n hq hkv k h; e] with ([ib; it] ++ [full_head n hq hkv k h; e]).
      change [b; s; n * hq + n * hkv + n * hkv; d] with ([b; s] ++ [n * hq + n * hkv + n * hkv; d]).
      rewrite (split_heads qkv); [done|done|done|by apply full_head_lt|done]. }
  unfold o, os, fused_attention. rewrite Hx. cbn [nth].
  destruct (attention_with_fused_qkv c layer _ _ _) as [oo c'] eqn:Eo. cbn [fst snd] in *.
  assert (Hso : shape oo = [b; s; n * hq; d]) by (by destruct (Hk 0 Hn)).
  assert (Hos : forall k, k < n -> exists ok ck', fused_attention d hq hkv scale (xs k) (qkvs k) (cs k) layer =
      (op_reshape ok [b; s; hq * d], ck') /\ shape ok = [b; s; hq; d] /\
      (forall ib it h e, inside [ib; it; h; e] (shape ok) -> elem ok [ib; it; h; e] = elem oo [ib; it; k * hq + h; e]) /\
      cache_part n k c' ck').
  { intros k Hkn. destruct (Hk k Hkn) as (_ & Hs & He & Hc). unfold fused_attention.
    destruct (Hxs k Hkn) as [-> _]. rewrite Hx. cbn [nth].
    destruct (attention_with_fused_qkv (cs k) layer _ _ _) as [ok ck']. by exists ok, ck'. }
  clear Hk Eo. assert (Hro : shape (op_reshape oo [b; s; n * hq * d]) = [b; s; n * hq * d]).
  { apply reshape_shape. rewrite Hso. cbn. lia. }
  split; [|split; [|done]].
  - exists [b; s]. rewrite Hro, Nat.mul_assoc. split; [done|]. intros k Hkn.
    destruct (Hos k Hkn) as (ok & ck' & Hf & Hs & He & _). unfold fused_attention in Hf. rewrite Hf. cbn [fst].
    split; [apply reshape_shape; rewrite Hs; cbn; lia|]. intros q i Hq Hi.
    pose proof (Nat.mod_upper_bound i d ltac:(lia)) as Hm. pose proof (Nat.div_mod_eq i d) as Hdm.
    assert (Hdiv : i / d < hq) by (apply Nat.Div0.div_lt_upper_bound; lia).
    assert (Hkq : k * hq + i / d < n * hq) by nia.
    split; [unfold block; nia|].
    change [b; s; hq * d] with ([b; s] ++ [hq * d]). change [b; s; n * hq * d] with ([b; s] ++ [n * hq * d]).
    replace i with (i / d * d + i mod d) at 1 by lia.
    replace (block (hq * d) k i) with ((k * hq + i / d) * d + i mod d) by (unfold block; lia).
    rewrite (merge_heads ok [b; s] hq d q), (merge_heads oo [b; s] (n * hq) d q) by done.
    apply Forall2_cons_inv_r in Hq as (ib & q1 & Hib & Hq & ->).
    apply Forall2_cons_inv_r in Hq as (it & q2 & Hit & Hq & ->). apply Forall2_nil_inv_r in Hq as ->.
    cbn [app]. apply He. rewrite Hs. repeat constructor; done.
  - intros k Hkn. destruct (Hos k Hkn) as (ok & ck' & Hf & _ & _ & Hc). unfold fused_attention in Hf. by rewrite Hf.
Qed.
End Attention.
