(* ===== verification/TensorModel.v ===== *)
(** * A model of the tensor interfaces

    The classes [Elem], [NnOps], [Topi] and [KVCache] with their laws have a
    model: tensors of rational numbers with executable operators.  The
    theorems about networks are applied in it. *)

From Stdlib Require Import SpecFloat QArith Qcanon Permutation.
From stdpp Require Import base list strings.
From S2P Require Import Prelude TensorOps TensorParallel KvCache.
Local Close Scope Q_scope.
Local Close Scope Qc_scope.
Local Open Scope nat_scope.

(** ** Elements *)

#[export] Instance QcElem : Elem := {|
  F := Qc; f0 := 0%Qc; fadd := Qcplus; fmul := Qcmult;
  fdiv a n := (a / Q2Qc (inject_Z (Z.of_nat n)))%Qc;
|}.

Lemma Q2Qc_succ n : Q2Qc (inject_Z (Z.of_nat (S n))) = (1 + Q2Qc (inject_Z (Z.of_nat n)))%Qc.
Proof.
  apply Qc_is_canon. cbn [this Q2Qc Qcplus]. rewrite !Qred_correct.
  rewrite Nat2Z.inj_succ, <- Z.add_1_l, inject_Z_plus. reflexivity.
Qed.

Lemma fsum_const n (a : Qc) : fsum n (fun _ => a) = (Q2Qc (inject_Z (Z.of_nat n)) * a)%Qc.
Proof.
  unfold fsum. generalize 0. induction n as [|n IH]; intros i; cbn [seq map fold_right].
  - symmetry. apply Qcmult_0_l.
  - rewrite IH, Q2Qc_succ. cbn [fadd QcElem]. rewrite Qcmult_plus_distr_l, Qcmult_1_l. done.
Qed.

#[export] Instance QcElemLaws : ElemLaws QcElem.
Proof.
  split.
  - exact Qcplus_assoc.
  - exact Qcplus_comm.
  - exact Qcplus_0_l.
  - intros n a Hn. rewrite fsum_const. apply Qcmult_div_r. intros H.
    assert (Q2Qc (inject_Z (Z.of_nat n)) == 0)%Q as H' by (rewrite H; reflexivity).
    cbn [this Q2Qc] in H'. rewrite Qred_correct in H'. unfold inject_Z, Qeq in H'. cbn in H'. lia.
Qed.

(** ** Operators *)

(** The value of a float. *)
Definition f64_Qc (x : pyfloat) : Qc :=
  match x with
  | S754_finite s m e =>
      let z := if s then Z.neg m else Z.pos m in
      if (0 <=? e)%Z then Q2Qc (inject_Z (z * 2 ^ e)) else Q2Qc (z # Z.to_pos (2 ^ (- e)))
  | _ => 0%Qc
  end.

(** The index that an element denotes. *)
Definition to_index (x : F) : nat := Z.to_nat (Qnum (this x)).

Definition insideb (idx s : list nat) : bool :=
  (length idx =? length s) && forallb (fun p => fst p <? snd p) (combine idx s).

Definition Qc_max (a b : Qc) : Qc := if Qclt_le_dec a b then b else a.
Definition Qc_min (a b : Qc) : Qc := if Qclt_le_dec a b then a else b.

Definition pointwise (f : F -> F) (x : Tensor) : Tensor := mkTensor (shape x) (fun q => f (elem x q)).
Definition pointwise2 (f : F -> F -> F) (x y : Tensor) : Tensor :=
  mkTensor (shape x) (fun q => f (elem x q) (elem y q)).

(** Activations are squares, a normalization scales every column by its first
    parameter. *)
#[export] Instance QcNnOps : NnOps QcElem := {|
  nn_linear w b x := mkTensor (removelast (shape x) ++ [nth 0 (shape w) 0]) (fun idx =>
    let s := fsum (List.last (shape x) 0) (fun j => fmul (elem x (removelast idx ++ [j])) (elem w [List.last idx 0; j])) in
    match b with None => s | Some b => fadd s (elem b [List.last idx 0]) end);
  nn_norm kind eps ws x := mkTensor (shape x) (fun idx =>
    match ws with [] => elem x idx | w :: _ => fmul (elem x idx) (elem w [List.last idx 0]) end);
  nn_embedding w x := mkTensor (shape x ++ [nth 1 (shape w) 0]) (fun idx =>
    elem w [to_index (elem x (removelast idx)); List.last idx 0]);
  op_act f := pointwise (fun a => fmul a a);
  act_fn f a := fmul a a;
  op_add x y := mkTensor (shape x) (fun q => fadd (elem x q) (elem y (drop (length q - length (shape y)) q)));
  op_mul := pointwise2 fmul;
  op_div x n := pointwise (fun a => fdiv a n) x;
  op_div_float x c := pointwise (fun a => Qcdiv a (f64_Qc c)) x;
  op_scale x c := pointwise (fmul (f64_Qc c)) x;
  scale_fn c := fmul (f64_Qc c);
  op_maximum x c := pointwise (Qc_max (f64_Qc c)) x;
  op_minimum x c := pointwise (Qc_min (f64_Qc c)) x;
  max_fn c := Qc_max (f64_Qc c);
  min_fn c := Qc_min (f64_Qc c);
  op_split x m q := let n := List.last (shape x) 0 / m in
    mkTensor (removelast (shape x) ++ [n]) (fun idx => elem x (removelast idx ++ [q * n + List.last idx 0]));
  op_reshape x s := mkTensor s (fun q => elem x (unravel (shape x) (ravel s q)));
  op_take x p axis := let a := Nat.min axis (length (shape x)) in
    mkTensor (take a (shape x) ++ shape p ++ drop (S a) (shape x)) (fun idx =>
    let r := length (shape p) in
    let at_p := take r (drop a idx) in
    let q := take a idx ++ [to_index (elem p at_p)] ++ drop (a + r) idx in
    if insideb q (shape x) then elem x q else f0);
  op_permute_dims x := mkTensor (rev (shape x)) (fun idx => elem x (rev idx));
  op_matmul x w := mkTensor (removelast (shape x) ++ [List.last (shape w) 0]) (fun idx =>
    fsum (List.last (shape x) 0) (fun j => fmul (elem x (removelast idx ++ [j])) (elem w [j; List.last idx 0])));
  op_pipeline_stage_boundary x := x;
  ccl_sum xs := mkTensor (match xs with [] => [] | x :: _ => shape x end) (fun idx =>
    fold_right fadd f0 (map (fun x => elem x idx) xs));
|}.

(** ** The laws of the operators *)

Lemma last_snoc (l : list nat) a d : List.last (l ++ [a]) d = a.
Proof. apply last_last. Qed.
Lemma removelast_snoc (l : list nat) a : removelast (l ++ [a]) = l.
Proof. apply removelast_last. Qed.

Lemma insideb_spec idx s : insideb idx s = true -> inside idx s.
Proof.
  unfold insideb. intros [Hl Hf]%andb_true_iff. apply Nat.eqb_eq in Hl. revert s Hl Hf.
  induction idx as [|i idx IH]; intros [|n s] Hl Hf; try done; [constructor|].
  cbn in Hf. apply andb_true_iff in Hf as [Hi Hf]. apply Nat.ltb_lt in Hi. constructor; [done|].
  apply IH; [by injection Hl|done].
Qed.

Lemma teq_pointwise f x y : teq x y -> teq (pointwise f x) (pointwise f y).
Proof. intros [Hs He]. split; [done|]. intros idx Hi. cbn in *. f_equal. by apply He. Qed.

(** A place inside is a prefix inside and a last index. *)
Lemma inside_last idx s n : inside idx (s ++ [n]) ->
  inside (removelast idx) s /\ List.last idx 0 < n.
Proof. intros (q & i & -> & Hq & Hi)%inside_snoc_inv. by rewrite last_snoc, removelast_snoc. Qed.

Lemma shape_snoc (s : list nat) : s = [] \/ exists p n, s = p ++ [n].
Proof. destruct s as [|a l _] using rev_ind; [by left|]. right. by exists l, a. Qed.

Lemma scale_laws c : (forall a b, scale_fn c (fadd a b) = fadd (scale_fn c a) (scale_fn c b)) /\ scale_fn c f0 = f0.
Proof. split; [intros; apply Qcmult_plus_distr_r|apply Qcmult_0_r]. Qed.

Lemma QcEmbedding_teq w x y : teq x y -> teq (nn_embedding w x) (nn_embedding w y).
Proof.
  intros [Hs He]. split; [cbn; by rewrite Hs|]. intros idx Hi. cbn in Hi |- *.
  apply inside_last in Hi as [Hq _]. by rewrite He.
Qed.

Lemma QcMatmul_teq w x y : teq x y -> teq (op_matmul x w) (op_matmul y w).
Proof.
  intros [Hs He]. split; [cbn; by rewrite Hs|]. intros idx Hi. cbn in Hi |- *. rewrite <- Hs.
  apply inside_last in Hi as [Hq Hl]. apply (fsum_ext (E := QcElem)). intros j Hj. f_equal. apply He.
  destruct (shape_snoc (shape x)) as [Hn|(p & n & Hp)]; [rewrite Hn in Hj; cbn in Hj; lia|].
  rewrite Hp in *. rewrite removelast_snoc in Hq. rewrite last_snoc in Hj. apply inside_app; [done|by apply inside_one].
Qed.

Lemma QcTake_teq x y p p' a : teq x y -> teq p p' -> teq (op_take x p a) (op_take y p' a).
Proof.
  intros [Hs He] [Hs' He']. split; [cbn; by rewrite Hs, Hs'|]. intros idx Hi. cbn in Hi |- *. rewrite <- Hs, <- Hs'.
  set (b := Nat.min a (length (shape x))) in *. set (r := length (shape p)).
  assert (Hp : inside (take r (drop b idx)) (shape p)).
  { pose proof (Forall2_drop _ _ _ b Hi) as Hd. rewrite drop_app_length' in Hd by (rewrite length_take; lia).
    pose proof (Forall2_take _ _ _ r Hd) as Ht. by rewrite take_app_length' in Ht. }
  rewrite (He' _ Hp). destruct (insideb _ (shape x)) eqn:Hin; [|done]. apply insideb_spec in Hin. by apply He.
Qed.

Lemma split_size m n : 0 < m -> m * n / m = n.
Proof. intros Hm. rewrite Nat.mul_comm. apply Nat.div_mul. lia. Qed.

#[export] Instance QcNnLaws : NnLaws QcNnOps.
Proof.
  split; cbn [nn_linear nn_norm op_act act_fn op_add op_mul op_div op_div_float op_scale scale_fn op_maximum op_minimum max_fn
    min_fn op_split op_reshape op_take op_permute_dims op_matmul nn_embedding op_pipeline_stage_boundary ccl_sum QcNnOps shape elem pointwise pointwise2]; try done.
  - intros w b x p n k Hx Hw. by rewrite Hx, Hw, removelast_snoc.
  - intros w b x p n k q i Hx Hw Hq Hi. rewrite Hx, !last_snoc, removelast_snoc. done.
  - intros kind eps ws x y p p' q q' n _ _ _ _ H j Hj. rewrite H by done. destruct ws; [done|]. by rewrite !last_snoc.
  - intros x y q Hxy Hq. rewrite (inside_length _ _ Hq), Hxy, Nat.sub_diag. done.
  - intros x y b s h i j k Hx Hy _ _ _. by rewrite Hy.
  - intros c a b. apply (proj1 (scale_laws c)).
  - intros c. apply (proj2 (scale_laws c)).
  - intros x p m n q Hx Hq. rewrite Hx, last_snoc, removelast_snoc, split_size by lia. done.
  - intros x p m n q r j Hx Hq Hr Hj. rewrite Hx, !last_snoc, removelast_snoc, split_size by lia. done.
  - intros x y c Hxy. by apply (teq_pointwise (fun a => Qcdiv a (f64_Qc c))).
  - intros w x v h Hw. by rewrite Hw.
  - intros. by apply QcEmbedding_teq.
  - intros. by apply QcTake_teq.
  - intros x p a Ha. by rewrite Nat.min_l by lia.
  - intros x w p k n Hx Hw. rewrite Hx, Hw, removelast_snoc. done.
  - intros. by apply QcMatmul_teq.
Qed.

(** ** TOPI *)

(** The place of [a] in a list. *)
Fixpoint pos_of (a : nat) (l : list nat) : nat :=
  match l with [] => 0 | b :: l => if a =? b then 0 else S (pos_of a l) end.

(** The tensor of a list that holds place [i] of a concatenation, and the place
    in it. *)
Fixpoint concat_elem (xs : list Tensor) (axis : nat) (pre : list nat) (i : nat) (post : list nat) : F :=
  match xs with
  | [] => f0
  | x :: xs =>
      let n := nth axis (shape x) 0 in
      if i <? n then elem x (pre ++ [i] ++ post) else concat_elem xs axis pre (i - n) post
  end.

#[export] Instance QcTopi : Topi QcElem := {|
  topi_reshape x s := mkTensor s (fun q => elem x (unravel (shape x) (ravel s q)));
  topi_transpose x axes := mkTensor (map (fun a => nth a (shape x) 0) axes) (fun idx =>
    elem x (map (fun j => nth (pos_of j axes) idx 0) (seq 0 (length (shape x)))));
  topi_concatenate xs axis := mkTensor
    (match xs with [] => [] | x :: _ =>
       take axis (shape x) ++ [list_sum_nat (map (fun y => nth axis (shape y) 0) xs)] ++ drop (S axis) (shape x) end)
    (fun idx => concat_elem xs axis (take axis idx) (nth axis idx 0) (drop (S axis) idx));
|}.

Lemma nth_pos_of (f : nat -> nat) j axes : In j axes -> nth (pos_of j axes) (map f axes) 0 = f j.
Proof.
  induction axes as [|a axes IH]; cbn; [done|]. intros H. destruct (Nat.eqb_spec j a) as [->|Hne]; [done|].
  destruct H as [H|H]; [congruence|]. by apply IH.
Qed.

Lemma nth_mid (p q : list nat) n : nth (length p) (p ++ [n] ++ q) 0 = n.
Proof. rewrite app_nth2, Nat.sub_diag by lia. done. Qed.
Lemma drop_mid (p q : list nat) n : drop (S (length p)) (p ++ [n] ++ q) = q.
Proof.
  replace (S (length p)) with (length (p ++ [n])) by (rewrite length_app; cbn; lia).
  rewrite app_assoc. apply drop_app_length.
Qed.

Lemma concat_elem_at xs x ys p q ns n pre i post :
  Forall2 (fun x n => shape x = p ++ [n] ++ q) xs ns -> shape x = p ++ [n] ++ q -> i < n ->
  concat_elem (xs ++ x :: ys) (length p) pre (list_sum_nat ns + i) post = elem x (pre ++ [i] ++ post).
Proof.
  intros H Hx Hi. induction H as [|y m xs ns Hy H IH]; cbn [app concat_elem list_sum_nat fold_right].
  - rewrite Hx, nth_mid. cbn [Nat.add]. by rewrite (proj2 (Nat.ltb_lt _ _)).
  - fold (list_sum_nat ns). rewrite Hy, nth_mid. rewrite (proj2 (Nat.ltb_ge _ _)) by lia.
    replace (m + list_sum_nat ns + i - m) with (list_sum_nat ns + i) by lia. exact IH.
Qed.

Lemma axis_sizes xs ns p q : Forall2 (fun x n => shape x = p ++ [n] ++ q) xs ns ->
  map (fun y => nth (length p) (shape y) 0) xs = ns.
Proof. induction 1 as [|y m xs ns Hy H IH]; cbn [map]; [done|]. by rewrite Hy, nth_mid, IH. Qed.

#[export] Instance QcTopiLaws : TopiLaws QcTopi.
Proof.
  split; cbn [topi_reshape topi_transpose topi_concatenate QcTopi shape elem]; try done.
  - intros x axes q Hp Hq. f_equal. etransitivity; [|apply (map_nth_seq q 0)]. rewrite (inside_length _ _ Hq).
    apply map_ext_in. intros j Hj. rewrite (nth_pos_of (fun a => nth a q 0)); [done|].
    by apply (Permutation_in _ (Permutation_sym Hp)).
  - intros xs p q ns Hne H. destruct H as [|x n xs ns Hx H]; [done|]. rewrite Hx, take_app_length, drop_mid.
    rewrite (axis_sizes (x :: xs) (n :: ns) p q) by (by constructor). done.
  - intros xs x ys p q ns n ms p' q' i H Hx _ Hp Hi Hq. rewrite <- (inside_length _ _ Hp).
    rewrite take_app_length, nth_mid, drop_mid, (inside_length _ _ Hp). by apply (concat_elem_at xs x ys p q ns n).
Qed.

(** ** The KV cache *)

(** A head of the output is its query head scaled, plus the key and the value
    head of its group; the cache counts the calls. *)
#[export] Instance QcKVCache : KVCache QcElem := {|
  Cache := nat;
  attention_with_fused_qkv c layer x hq scale :=
    let hkv := (nth 2 (shape x) 0 - hq) / 2 in
    (mkTensor [nth 0 (shape x) 0; nth 1 (shape x) 0; hq; nth 3 (shape x) 0] (fun idx =>
       match idx with
       | [b; s; h; e] =>
           let g := h / (hq / hkv) in
           fadd (fmul (f64_Qc scale) (elem x [b; s; h; e]))
                (fadd (elem x [b; s; hq + g; e]) (elem x [b; s; hq + hkv + g; e]))
       | _ => f0
       end), S c);
  get_query_positions c m := mkTensor [m] (fun q => Q2Qc (inject_Z (Z.of_nat (List.last q 0))));
  rsqrt_dim d := f64_of_Z 1;
  sqrt_dim d := f64_of_Z (Z.of_nat d);
  cache_part n k c ck := c = ck;
|}.

#[export] Instance QcKVCacheLaws : KVCacheLaws QcKVCache.
Proof.
  split; [done|done|by intros n k c ck m ->|]. intros n k c ck layer x xk b s d hq hkv scale Hk Hg Hc Hx Hxk H o ok.
  assert (Hkv : (n * hq + n * hkv + n * hkv - n * hq) / 2 = n * hkv).
  { replace (n * hq + n * hkv + n * hkv - n * hq) with (n * hkv * 2) by lia. by rewrite Nat.div_mul. }
  assert (Hkv' : (hq + hkv + hkv - hq) / 2 = hkv).
  { replace (hq + hkv + hkv - hq) with (hkv * 2) by lia. by rewrite Nat.div_mul. }
  unfold o, ok. cbn [attention_with_fused_qkv QcKVCache fst snd shape elem cache_part].
  rewrite Hx, Hxk. cbn [nth]. rewrite Hkv, Hkv'. do 2 (split; [done|]). split; [|by rewrite Hc].
  intros ib it h e Hin. rewrite Hxk in H. cbn [elem].
  pose proof (inside_heads ib it h e b s hq d Hin) as (Hb & Hh & He).
  destruct (Nat.eq_dec hkv 0) as [->|Hkv0]; [cbn in Hg; lia|].
  rewrite (Nat.Div0.div_mul_cancel_l hq hkv n) by lia. set (g := hq / hkv).
  assert (Hgq : hq = hkv * g) by (by apply Nat.Div0.div_exact).
  assert (Hgh : h / g < hkv) by (apply Nat.Div0.div_lt_upper_bound; lia).
  assert (Hfull : (k * hq + h) / g = k * hkv + h / g).
  { replace (k * hq + h) with (k * hkv * g + h) by lia. apply Nat.div_add_l. intros Hg0. rewrite Hg0 in Hgq. lia. }
  rewrite Hfull.
  assert (Hins : forall h', h' < hq + hkv + hkv -> inside [ib; it; h'; e] [b; s; hq + hkv + hkv; d]).
  { intros h' Hh'. apply Forall2_cons in Hb as [H1 Hb]. apply Forall2_cons in Hb as [H2 _]. by repeat constructor. }
  rewrite !H by (apply Hins; lia). unfold full_head.
  rewrite (proj2 (Nat.ltb_lt h hq)) by lia.
  rewrite (proj2 (Nat.ltb_ge (hq + h / g) hq)), (proj2 (Nat.ltb_lt (hq + h / g) (hq + hkv))) by lia.
  rewrite (proj2 (Nat.ltb_ge (hq + hkv + h / g) hq)), (proj2 (Nat.ltb_ge (hq + hkv + h / g) (hq + hkv))) by lia.
  replace (hq + h / g - hq) with (h / g) by lia. replace (hq + hkv + h / g - hq - hkv) with (h / g) by lia. done.
Qed.
