(* ===== verification/Network.v ===== *)
(** * Networks on several workers

    The vocabulary of the files of [model/]: configurations, the parameters
    that the modules create with the strategies that [_set_tp] attaches to
    them, the weights of a worker, residual connections, and the loop over the
    layers.  The lemmas say when a piece of a network on [n] workers is a
    sharding of the same piece on one worker; [LayerOk] is that statement for
    a decoder layer, and [run_layers_ok] carries it to a stack of layers. *)

From Stdlib Require Import SpecFloat.
From stdpp Require Import base list strings.
From S2P Require Import Prelude PyNum ModelConfig Spmd TensorOps TensorParallel KvCache.
Local Open Scope nat_scope.

(** ** Configurations *)

(** A configuration by the names of its attributes. *)
Record Config : Type := mkConfig {
  int : string -> nat; flag : string -> bool; real : string -> pyfloat; text : string -> string;
  is_None : string -> bool }.

(** The configuration of an object of [ModelConfig.v]. *)
Definition config_of (o : obj) : Config := {|
  int f := match attr o f with Ok (JInt z) => Z.to_nat z | _ => 0 end;
  flag f := match attr o f with Ok (JBool b) => b | _ => false end;
  real f := match attr o f with Ok (JFloat x) => x | _ => f64_of_Z 0 end;
  text f := match attr o f with Ok (JStr s) => s | _ => EmptyString end;
  is_None f := match attr o f with Ok JNull => true | _ => false end;
|}.

Definition shards (c : Config) : nat := int c "tensor_parallel_shards".

(** The same model for [n] workers. *)
Definition on_workers (n : nat) (c : Config) : Config := {|
  int f := if String.eqb f "tensor_parallel_shards" then n else int c f;
  flag := flag c; real := real c; text := text c; is_None := is_None c;
|}.

Definition nat_div (a b : nat) : res nat :=
  match b with 0 => Raise ZeroDivisionError | _ => Ok (a / b) end.
Definition nat_mod (a b : nat) : res nat :=
  match b with 0 => Raise ZeroDivisionError | _ => Ok (a mod b) end.

(** [config.f // config.tensor_parallel_shards] *)
Definition per_shard (c : Config) (f : string) : res nat := nat_div (int c f) (shards c).

(** [if config.f % config.tensor_parallel_shards != 0: raise ValueError(...)] *)
Definition check_split (c : Config) (f : string) : res unit :=
  let? r := nat_mod (int c f) (shards c) in
  if r =? 0 then Ok tt else Raise (ValueError [Lit "Cannot split evenly"]).

(** [assert config.f % config.tensor_parallel_shards == 0] *)
Definition assert_split (c : Config) (f : string) : res unit :=
  let? r := nat_mod (int c f) (shards c) in py_assert (r =? 0).

(** [assert config.f >= config.tensor_parallel_shards] *)
Definition assert_at_least (c : Config) (f : string) : res unit := py_assert (shards c <=? int c f).

(** [ACT2FN] of [qwen2_model.py] and its copies: the activation by its name. *)
Definition ACT2FN : dict string :=
  [("gelu", "gelu"); ("relu", "relu"); ("silu", "silu"); ("swish", "silu"); ("gelu_new", "gelu_tanh")]%string.

(** The float [1e-5]. *)
Definition eps_1e_5 : pyfloat := S754_finite false 5902958103587057 (-69).

(** ** Parameters *)

Record NnParam : Type := mkNnParam { np_shape : list nat; np_strategy : option ShardSingleDim }.

Definition dot (p name : string) : string := (p ++ "." ++ name)%string.

(** [nn.Linear(in_features, out_features, bias)], [nn.RMSNorm(size, bias=False)],
    [nn.LayerNorm(size)] as the attribute [name] *)
Definition Linear (name : string) (in_features out_features : nat) (bias : bool) : dict NnParam :=
  (dot name "weight", mkNnParam [out_features; in_features] None) ::
  if bias then [(dot name "bias", mkNnParam [out_features] None)] else [].
Definition RMSNorm (name : string) (size : nat) : dict NnParam := [(dot name "weight", mkNnParam [size] None)].
Definition LayerNorm (name : string) (size : nat) : dict NnParam :=
  [(dot name "weight", mkNnParam [size] None); (dot name "bias", mkNnParam [size] None)].

(** The parameters of the submodule [name]. *)
Definition submodule (name : string) (m : dict NnParam) : dict NnParam :=
  map (fun kp => (dot name (fst kp), snd kp)) m.

(** [param.attrs["shard_strategy"] = hint] *)
Definition _set (name : string) (hint : ShardSingleDim) (m : dict NnParam) : res (dict NnParam) :=
  let? p := opt_res (dict_get m name) AttributeError in
  Ok (dict_set m name (mkNnParam (np_shape p) (Some hint))).

(** [_set_tp()]: a list of such statements *)
Fixpoint _set_tp (l : list (string * ShardSingleDim)) (m : dict NnParam) : res (dict NnParam) :=
  match l with
  | [] => Ok m
  | (name, hint) :: l => let? m := _set name hint m in _set_tp l m
  end.

(** The strategy that the statements leave at a parameter. *)
Fixpoint strategy_of (l : list (string * ShardSingleDim)) (name : string) (s : option ShardSingleDim)
  : option ShardSingleDim :=
  match l with
  | [] => s
  | (f, hint) :: l => strategy_of l name (if String.eqb f name then Some hint else s)
  end.

Lemma set_tp_get l name m m' : _set_tp l m = Ok m' ->
  dict_get m' name = option_map (fun p => mkNnParam (np_shape p) (strategy_of l name (np_strategy p))) (dict_get m name).
Proof.
  revert m. induction l as [|[f hint] l IH]; intros m H; cbn [_set_tp] in H; inv_ok.
  - destruct (dict_get m' name) as [[? ?]|]; done.
  - unfold _set in *. inv_ok. erewrite IH by done. rewrite dict_get_set. cbn [strategy_of].
    destruct (String.eqb_spec f name) as [->|Hne].
    + rewrite String.eqb_refl. match goal with H : opt_res (dict_get m name) _ = Ok _ |- _ =>
        destruct (dict_get m name); [injection H as ->|done] end. done.
    + rewrite (proj2 (String.eqb_neq name f)) by congruence. done.
Qed.

(** What a successful check or division says. *)
Section Checks.
Variables (n : nat) (c : Config) (f : string).
Hypothesis n_pos : 0 < n.
Hypothesis f_other : String.eqb f "tensor_parallel_shards" = false.

Lemma int_on_workers : int (on_workers n c) f = int c f.
Proof. cbn [on_workers int]. by rewrite f_other. Qed.
Lemma per_shard_inv i : per_shard (on_workers n c) f = Ok i -> i = int c f / n.
Proof.
  unfold per_shard. rewrite int_on_workers. change (shards (on_workers n c)) with n.
  unfold nat_div. destruct n; [lia|]. by intros [= <-].
Qed.
Lemma per_shard_exact i : int c f mod n = 0 -> per_shard (on_workers n c) f = Ok i -> int c f = n * i.
Proof. intros H Hi. rewrite (per_shard_inv i Hi). apply Nat.Div0.div_exact. done. Qed.
Lemma check_split_inv u : check_split (on_workers n c) f = Ok u -> int c f mod n = 0.
Proof.
  unfold check_split. rewrite int_on_workers. change (shards (on_workers n c)) with n.
  unfold nat_mod. destruct n; [lia|]. cbn [rbind]. destruct (Nat.eqb_spec (int c f mod S n0) 0); done.
Qed.
Lemma assert_split_inv u : assert_split (on_workers n c) f = Ok u -> int c f mod n = 0.
Proof.
  unfold assert_split. rewrite int_on_workers. change (shards (on_workers n c)) with n.
  unfold nat_mod. destruct n; [lia|]. cbn [rbind]. destruct (Nat.eqb_spec (int c f mod S n0) 0); done.
Qed.
End Checks.

Lemma per_shard_one c f i : String.eqb f "tensor_parallel_shards" = false ->
  per_shard (on_workers 1 c) f = Ok i -> i = int c f.
Proof. intros Hf H. rewrite (per_shard_inv 1 c f ltac:(lia) Hf i H). apply Nat.div_1_r. Qed.

(** The facts behind a successful construction of a module for one worker and
    for [n] workers: the checks, then the divisions. *)
Ltac init_facts n :=
  inv_ok;
  repeat match goal with
  | H : check_split (on_workers 1 _) _ = Ok _ |- _ => clear H
  | H : assert_split (on_workers 1 _) _ = Ok _ |- _ => clear H
  | H : py_assert _ = Ok _ |- _ => clear H
  | H : per_shard (on_workers 1 _) _ = Ok _ |- _ => apply per_shard_one in H; [subst|reflexivity]
  | H : check_split (on_workers n _) _ = Ok _ |- _ => apply check_split_inv in H; [|lia|reflexivity]
  | H : assert_split (on_workers n _) _ = Ok _ |- _ => apply assert_split_inv in H; [|lia|reflexivity]
  end;
  repeat match goal with
  | H : per_shard (on_workers n _) _ = Ok _ |- _ =>
      apply per_shard_exact in H; [rewrite H in *|lia|reflexivity|assumption]
  end.

(** A parameter of a module after [_set_tp]. *)
Ltac param_at := erewrite set_tp_get by eassumption; reflexivity.

(** ** Modules *)

(** An attention module, a feed-forward module and a decoder layer: their
    attributes and their parameters, those of a layer under the names of its
    submodules and with their strategies. *)
Record AttentionModule : Type := mkAttention {
  at_head_dim : nat; num_q_heads : nat; num_kv_heads : nat; qkv_bias : bool; o_bias : bool;
  at_params : dict NnParam }.
Record FfnModule : Type := mkFfn {
  intermediate_size : nat; act_name : string; up_bias : bool; down_bias : bool; ff_params : dict NnParam }.
Record LayerModule : Type := mkLayer {
  self_attn : AttentionModule; mlp : FfnModule; norm_eps : pyfloat; ly_shards : nat; ly_params : dict NnParam }.

Section Networks.
Context `{E : Elem} {N : NnOps E} {TP : Topi E} {KV : KVCache E}.

(** ** Weights *)

Definition Params : Type := string -> Tensor.

Definition under (name : string) (W : Params) : Params := fun f => W (dot name f).

(** The weights of worker [k] for a module whose parameters are [m]. *)
Definition worker_params (m : dict NnParam) (n k : nat) (W : Params) : Params := fun name =>
  match dict_get m name with
  | Some p => worker_weight (np_strategy p) n (mkWeightSpec (np_shape p) "") k (W name)
  | None => W name
  end.

(** The weights of a whole model have the shapes of its parameters. *)
Definition Shaped (m : dict NnParam) (W : Params) : Prop :=
  forall name p, dict_get m name = Some p -> shape (W name) = np_shape p.

Definition linear (W : Params) (name : string) (bias : bool) (x : Tensor) : Tensor :=
  nn_linear (W (dot name "weight")) (if bias then Some (W (dot name "bias")) else None) x.
Definition rms_norm (W : Params) (name : string) (eps : pyfloat) (x : Tensor) : Tensor :=
  nn_norm "rms_norm" eps [W (dot name "weight")] x.
Definition layer_norm (W : Params) (name : string) (eps : pyfloat) (x : Tensor) : Tensor :=
  nn_norm "layer_norm" eps [W (dot name "weight"); W (dot name "bias")] x.

(** [with tp.shard_bias(linear, shards):] the weights that the body sees. *)
Definition shard_bias_of (shards : nat) (name : string) (W : Params) : Params := fun f =>
  if String.eqb f (dot name "bias") && (1 <? shards) then op_div (W f) shards else W f.

(** ** Residual connections *)

Definition NetProg : Type -> Type := Prog Tensor.

(** [op.ccl_allreduce(out, "sum")] when there is more than one worker *)
Definition ccl_allreduce (n : nat) (out : Tensor) : NetProg Tensor :=
  if 1 <? n then AllReduce out Ret else Ret out.

(** [ccl_allreduce(out) + residual] *)
Definition apply_residual (n : nat) (out residual : Tensor) : NetProg Tensor :=
  if 1 <? n then (do out <- AllReduce out Ret in Ret (op_add out residual))%prog
  else Ret (op_add out residual).

(** [ccl_allreduce(out + residual / n)] *)
Definition apply_parallel_residual (n : nat) (out residual : Tensor) : NetProg Tensor :=
  if 1 <? n then AllReduce (op_add out (op_div residual n)) Ret else Ret (op_add out residual).

(** [op.ccl_broadcast_from_worker0(x)] when there is more than one worker *)
Definition ccl_broadcast (n : nat) (x : Tensor) : NetProg Tensor :=
  if 1 <? n then Broadcast x Ret else Ret x.

(** ** Layers *)

Definition Layer : Type := Tensor -> Cache -> nat -> NetProg (Tensor * Cache).

(** [for layer_id, layer in enumerate(self.layers):
       hidden_states = layer(hidden_states, paged_kv_cache, layer_id)];
    [pre] is what a model does to the hidden states before a layer. *)
Fixpoint run_layers (pre : nat -> Tensor -> Tensor) (layers : list Layer) (layer_id : nat) (x : Tensor) (c : Cache)
  : NetProg (Tensor * Cache) :=
  match layers with
  | [] => Ret (x, c)
  | layer :: layers =>
      (do (x, c) <- layer (pre layer_id x) c layer_id in run_layers pre layers (S layer_id) x c)%prog
  end.
End Networks.
Arguments Params E : clear implicits.
Arguments NetProg {E}.
Arguments Layer {E KV}.

(** The shape of a weight of the whole model. *)
Ltac shape_at :=
  match goal with H : Shaped _ ?W |- shape (?W _) = _ =>
    etransitivity; [eapply H; param_at|cbn; repeat (apply (f_equal2 cons); [lia|]); reflexivity] end.

(** ** Sharding of the pieces *)

Section Pieces.
Context `{EL : ElemLaws} {N : NnOps E} {NL : NnLaws N} {TP : Topi E} {TL : TopiLaws TP}.
Context {KV : KVCache E} {KL : KVCacheLaws KV}.
Variable n : nat.
Hypothesis n_pos : 0 < n.

Lemma nat_mod_ok a : nat_mod a n = Ok (a mod n).
Proof. unfold nat_mod. destruct n; [lia|done]. Qed.
Lemma nat_div_ok a : nat_div a n = Ok (a / n).
Proof. unfold nat_div. destruct n; [lia|done]. Qed.

Lemma worker_params_at m k W name p : dict_get m name = Some p ->
  worker_params m n k W name = worker_weight (np_strategy p) n (mkWeightSpec (np_shape p) "") k (W name).
Proof. unfold worker_params. by intros ->. Qed.

(** A parameter without a strategy is the whole one. *)
Lemma worker_params_whole m k W name s : dict_get m name = Some (mkNnParam s None) ->
  worker_params m n k W name = W name.
Proof. unfold worker_params. by intros ->. Qed.

Lemma Cols_index g g' m w xs x : (forall k i, k < n -> i < m -> g k i = g' k i) ->
  Cols n g m w xs x -> Cols n g' m w xs x.
Proof.
  intros Hg (p & Hx & H). exists p. split; [done|]. intros k Hk. destruct (H k Hk) as [Hs He].
  split; [done|]. intros q i Hq Hi. rewrite <- Hg by done. by apply He.
Qed.

Definition segs_of (m : nat) (segs : option (list nat)) : list nat :=
  match segs with Some (x :: l) => x :: l | _ => [m] end.

(** A column-parallel layer. *)
Lemma Cols_column m W name bias hint segs r H xs x p :
  shape x = p ++ [H] -> Rep n xs x -> list_sum_nat (segs_of r segs) = r ->
  dict_get m (dot name "weight") = Some (mkNnParam [r; H] (Some (mkShardSingleDim hint 0 segs))) ->
  shape (W (dot name "weight")) = [r * n; H] ->
  (bias = true -> (exists hint', dict_get m (dot name "bias") =
     Some (mkNnParam [r] (Some (mkShardSingleDim hint' 0 segs)))) /\ shape (W (dot name "bias")) = [r * n]) ->
  Cols n (seg_index n (segs_of r segs)) r (r * n)
    (fun k => linear (worker_params m n k W) name bias (xs k)) (linear W name bias x).
Proof.
  intros Hx Hxs Hsegs Hw HW Hb. unfold linear.
  apply (Cols_linear n _ r (r * n) _ _ _ _ _ _ p H); [done|done|done| |].
  - unfold worker_params. rewrite Hw. by apply rows_of.
  - destruct bias; [|done]. destruct (Hb eq_refl) as [[hint' Hm] HB]. unfold worker_params. rewrite Hm.
    by apply bias_of.
Qed.

(** A row-parallel layer without a bias. *)
Lemma Sum_row m W name hint r O xs x : Cols n (block r) r (n * r) xs x ->
  dict_get m (dot name "weight") = Some (mkNnParam [O; r] (Some (mkShardSingleDim hint 1 None))) ->
  shape (W (dot name "weight")) = [O; n * r] ->
  Sum n (fun k => linear (worker_params m n k W) name false (xs k)) (linear W name false x).
Proof.
  intros Hx Hw HW. unfold linear. apply (Sum_linear n r _ _ _ _ O); [done|done| |done].
  unfold worker_params. rewrite Hw. by apply cols_of.
Qed.

(** A row-parallel layer whose bias is divided. *)
Lemma Sum_row_bias m W name hint r O xs x : Cols n (block r) r (n * r) xs x ->
  dict_get m (dot name "weight") = Some (mkNnParam [O; r] (Some (mkShardSingleDim hint 1 None))) ->
  shape (W (dot name "weight")) = [O; n * r] ->
  dict_get m (dot name "bias") = Some (mkNnParam [O] None) -> shape (W (dot name "bias")) = [O] ->
  Sum n (fun k => linear (shard_bias_of n name (worker_params m n k W)) name true (xs k)) (linear W name true x).
Proof.
  intros Hx Hw HW Hb HB. unfold linear, shard_bias_of.
  assert (String.eqb (dot name "weight") (dot name "bias") = false) as ->.
  { apply String.eqb_neq. intros He. unfold dot in He. by simplify_eq. }
  rewrite String.eqb_refl. cbn [andb].
  assert (forall k, worker_params m n k W (dot name "bias") = W (dot name "bias")) as Hwhole
    by (intros; by apply (worker_params_whole _ _ _ _ [O])).
  destruct (Nat.ltb_spec 1 n) as [Hn|Hn].
  - apply (Sum_linear_bias n r _ _ (fun k => op_div (worker_params m n k W (dot name "bias")) n) _ _ _ O); try done.
    + unfold worker_params. rewrite Hw. by apply cols_of.
    + intros k Hk. by rewrite Hwhole.
  - assert (n = 1) as Hn1 by lia.
    apply (Sum_linear_bias n r _ _ (fun k => worker_params m n k W (dot name "bias")) _ _ _ O); try done.
    + unfold worker_params. rewrite Hw. by apply cols_of.
    + intros k Hk. rewrite Hwhole. split; [by rewrite div_shape|]. intros q Hq. rewrite div_elem, Hn1 by done.
      pose proof (fdiv_sum 1 (elem (W (dot name "bias")) q) ltac:(lia)) as Hd. unfold fsum in Hd. cbn in Hd.
      by rewrite fadd_0_r in Hd.
Qed.

(** The halves of a fused projection. *)
Lemma Cols_half q i xs x : q < 2 ->
  Cols n (seg_index n [i; i]) (2 * i) (2 * i * n) xs x ->
  Cols n (block i) i (n * i) (fun k => op_split (xs k) 2 q) (op_split x 2 q).
Proof.
  intros Hq H. apply (Cols_split n (seg_index n [i; i]) i (n * i)); [done| | |done].
  - by replace (2 * (n * i)) with (2 * i * n) by lia.
  - intros k j Hk Hj. cbn [seg_index]. unfold block. destruct q as [|[|]]; [| |lia].
    + rewrite (proj2 (Nat.ltb_lt _ _)) by lia. lia.
    + rewrite (proj2 (Nat.ltb_ge _ _)), (proj2 (Nat.ltb_lt _ _)) by lia. lia.
Qed.

Lemma Cols_whole i xs x : Cols n (seg_index n [i]) i (i * n) xs x -> Cols n (block i) i (n * i) xs x.
Proof. rewrite (Nat.mul_comm i). apply Cols_index. intros k j _ Hj. by apply seg_index_block. Qed.

(** ** Residual connections *)

Lemma allreduce_ok outs out : Sum n outs out ->
  Spmd ccl_sum n (fun k => ccl_allreduce n (outs k)) (fun r => Rep n r out).
Proof.
  intros H. unfold ccl_allreduce. destruct (Nat.ltb_spec 1 n) as [Hn|Hn].
  - eapply spmd_mono; [apply spmd_allreduce|]. intros r Hr. by apply (Rep_sum n outs).
  - apply spmd_ret. apply Sum_one; [lia|done].
Qed.

Lemma residual_ok outs out rs r : Sum n outs out -> Rep n rs r -> shape out = shape r ->
  Spmd ccl_sum n (fun k => apply_residual n (outs k) (rs k)) (fun y => Rep n y (op_add out r)).
Proof.
  intros Ho Hr Hs. unfold apply_residual. destruct (Nat.ltb_spec 1 n) as [Hn|Hn].
  - eapply spmd_bind; [apply spmd_allreduce|]. intros s Hs'. apply spmd_ret.
    apply Rep_add; [done| |done]. by apply (Rep_sum n outs).
  - apply spmd_ret. apply Rep_add; [done| |done]. apply Sum_one; [lia|done].
Qed.

Lemma scaled_residual_ok c outs out rs r : Sum n outs out -> Rep n rs r -> shape out = shape r ->
  Spmd ccl_sum n (fun k => apply_residual n (op_scale (outs k) c) (rs k))
    (fun y => Rep n y (op_add (op_scale out c) r)).
Proof.
  intros Ho Hr Hs. apply residual_ok; [by apply Sum_scale|done|by rewrite scale_shape].
Qed.

Lemma parallel_residual_ok outs out rs r : Sum n outs out -> Rep n rs r -> shape out = shape r ->
  Spmd ccl_sum n (fun k => apply_parallel_residual n (outs k) (rs k)) (fun y => Rep n y (op_add out r)).
Proof.
  intros Ho Hr Hs. unfold apply_parallel_residual. destruct (Nat.ltb_spec 1 n) as [Hn|Hn].
  - eapply spmd_mono; [apply spmd_allreduce|]. intros s Hs'.
    apply (Rep_sum n (fun k => op_add (outs k) (op_div (rs k) n))); [done| |done].
    destruct (Sum_div n rs r n_pos Hr) as [Hd He]. destruct Ho as [Hos Hoe].
    split.
    + intros k Hk. rewrite !add_shape; [by apply Hos|done|].
      rewrite Hos, div_shape by done. rewrite (Rep_shape n rs r) by done. done.
    + intros q Hq. rewrite add_shape in Hq by done. rewrite add_elem by done.
      rewrite Hoe by done. rewrite <- (fdiv_sum n (elem r q)) by done. rewrite <- fsum_plus. apply fsum_ext.
      intros k Hk. rewrite add_elem.
      * f_equal. destruct (Hr k Hk) as [Hks Hke]. rewrite div_elem by (rewrite Hks; congruence).
        f_equal. symmetry. apply Hke. rewrite Hks. congruence.
      * rewrite Hos, div_shape by done. by rewrite (Rep_shape n rs r).
      * by rewrite Hos.
  - apply spmd_ret. apply Rep_add; [done| |done]. apply Sum_one; [lia|done].
Qed.

Lemma broadcast_ok xs x : Rep n xs x ->
  Spmd ccl_sum n (fun k => ccl_broadcast n (xs k)) (fun r => Rep n r x).
Proof.
  intros H. unfold ccl_broadcast. destruct (1 <? n); [|by apply spmd_ret].
  eapply spmd_mono; [apply spmd_broadcast|]. intros r Hr k _. rewrite Hr. by apply H.
Qed.

(** ** Layers *)

(** The state of the computation: hidden states of the shape [b; s; H], and
    the caches, on the workers and on a single worker. *)
Definition Hidden (b s H : nat) (st : nat -> Tensor * Cache) (st1 : Tensor * Cache) : Prop :=
  shape (fst st1) = [b; s; H] /\
  Rep n (fun k => fst (st k)) (fst st1) /\ Caches n (fun k => snd (st k)) (snd st1).

(** The layer of [n] workers computes what the layer of one worker computes. *)
Definition LayerOk (H : nat) (layers : nat -> Layer) (layer : Layer) : Prop :=
  forall b s st st1 layer_id, Hidden b s H st st1 ->
  exists y, layer (fst st1) (snd st1) layer_id = Ret y /\
    Spmd ccl_sum n (fun k => layers k (fst (st k)) (snd (st k)) layer_id) (fun st' => Hidden b s H st' y).

Lemma run_layers_ok b s H pre (layers : nat -> list Layer) layers1 :
  (forall i xs x, Rep n xs x -> Rep n (fun k => pre i (xs k)) (pre i x) /\ shape (pre i x) = shape x) ->
  (forall k, length (layers k) = length layers1) ->
  (forall i layer, layers1 !! i = Some layer ->
     exists ls, (forall k, layers k !! i = Some (ls k)) /\ LayerOk H ls layer) ->
  forall i st st1, Hidden b s H st st1 ->
  exists y, run_layers pre layers1 i (fst st1) (snd st1) = Ret y /\
    Spmd ccl_sum n (fun k => run_layers pre (layers k) i (fst (st k)) (snd (st k))) (fun st' => Hidden b s H st' y).
Proof.
  intros Hpre. revert layers. induction layers1 as [|layer layers1 IH]; intros layers Hl Hok i st st1 Hst.
  - exists st1. cbn [run_layers]. split; [by destruct st1|].
    apply (spmd_ext _ _ _ (fun k => Ret (st k))); [|by apply spmd_ret].
    intros k _. specialize (Hl k). destruct (layers k); [|done]. cbn [run_layers]. by destruct (st k).
  - destruct (Hok 0 layer eq_refl) as (ls & Hls & Hlayer).
    assert (Hst' : Hidden b s H (fun k => (pre i (fst (st k)), snd (st k))) (pre i (fst st1), snd st1)).
    { destruct Hst as (Hs & Hr & Hc). destruct (Hpre i _ _ Hr) as [Hr' Hs'].
      split; [|by split]. cbn [fst]. congruence. }
    destruct (Hlayer _ _ _ _ i Hst') as (y & Hy & Hspmd). cbn [fst snd] in Hy, Hspmd.
    assert (Htail : forall k, layers k = ls k :: tail (layers k)).
    { intros k. specialize (Hls k). destruct (layers k); [done|]. by injection Hls as ->. }
    specialize (IH (fun k => tail (layers k))).
    destruct Hspmd as (res & Hres & Hhid).
    destruct IH with (i := S i) (st := res) (st1 := y) as (z & Hz & Hrest); [| |done|].
    { intros k. specialize (Hl k). rewrite Htail in Hl. by injection Hl. }
    { intros j l Hj. destruct (Hok (S j) l Hj) as (ls' & Hls' & Hl'). exists ls'. split; [|done].
      intros k. specialize (Hls' k). by rewrite Htail in Hls'. }
    exists z. split; [cbn [run_layers]; rewrite Hy; by destruct y|].
    apply (spmd_ext _ _ _ (fun k => pbind (ls k (pre i (fst (st k))) (snd (st k)) i)
      (fun '(x, c) => run_layers pre (tail (layers k)) (S i) x c))).
    { intros k _. by rewrite Htail. }
    apply (spmd_bind _ _ _ _ (fun st' => st' = res)); [by exists res|]. intros res' ->.
    eapply spmd_ext; [|exact Hrest]. intros k _. cbv beta. by destruct (res k).
Qed.

(** ** Sublayers *)

(** Attention, feed-forward network and normalization of the workers. *)
Definition AttentionOk (H : nat) (As : nat -> Tensor -> Cache -> nat -> Tensor * Cache)
    (A : Tensor -> Cache -> nat -> Tensor * Cache) : Prop :=
  forall b s st st1 layer_id, Hidden b s H st st1 ->
  let os := fun k => As k (fst (st k)) (snd (st k)) layer_id in
  let o := A (fst st1) (snd st1) layer_id in
  Sum n (fun k => fst (os k)) (fst o) /\ shape (fst o) = shape (fst st1) /\ Caches n (fun k => snd (os k)) (snd o).

Definition FfnOk (H : nat) (Fs : nat -> Tensor -> Tensor) (f : Tensor -> Tensor) : Prop :=
  forall xs x b s, shape x = [b; s; H] -> Rep n xs x ->
  Sum n (fun k => Fs k (xs k)) (f x) /\ shape (f x) = shape x.

Definition NormOk (H : nat) (Ns : nat -> Tensor -> Tensor) (f : Tensor -> Tensor) : Prop :=
  forall xs x b s, shape x = [b; s; H] -> Rep n xs x -> Rep n (fun k => Ns k (xs k)) (f x) /\ shape (f x) = shape x.

Lemma rms_norm_ok H m W name eps s : dict_get m (dot name "weight") = Some (mkNnParam s None) ->
  NormOk H (fun k => rms_norm (worker_params m n k W) name eps) (rms_norm W name eps).
Proof.
  intros Hm xs x b t Hx Hxs. unfold rms_norm. split; [|apply norm_shape].
  assert (forall k, worker_params m n k W (dot name "weight") = W (dot name "weight")) as Hw
    by (intros; by eapply worker_params_whole).
  intros k Hk. rewrite Hw. exact (Rep_norm n _ _ _ xs x [b; t] H Hx Hxs k Hk).
Qed.

Lemma layer_norm_ok H m W name eps s s' : dict_get m (dot name "weight") = Some (mkNnParam s None) ->
  dict_get m (dot name "bias") = Some (mkNnParam s' None) ->
  NormOk H (fun k => layer_norm (worker_params m n k W) name eps) (layer_norm W name eps).
Proof.
  intros Hm Hb xs x b t Hx Hxs. unfold layer_norm. split; [|apply norm_shape].
  intros k Hk. rewrite (worker_params_whole _ _ _ _ _ Hm), (worker_params_whole _ _ _ _ _ Hb).
  exact (Rep_norm n _ _ _ xs x [b; t] H Hx Hxs k Hk).
Qed.

Lemma Hidden_norm b s H Ns f st st1 : NormOk H Ns f -> Hidden b s H st st1 ->
  Hidden b s H (fun k => (Ns k (fst (st k)), snd (st k))) (f (fst st1), snd st1).
Proof.
  intros Hn (Hs & Hr & Hc). destruct (Hn _ _ b s Hs Hr) as [Hr' Hs'].
  split; [|done]. cbn [fst]. congruence.
Qed.

(** The two sublayers in sequence, each with a residual connection, which may
    apply [g] to the output of the sublayer first. *)
Lemma sequential_ok (g : Tensor -> Tensor) (residual : nat -> Tensor -> Tensor -> NetProg Tensor)
    H As A Fs f N1s N1 N2s N2 :
  (forall outs out rs r, Sum n outs out -> Rep n rs r -> shape out = shape r ->
     Spmd ccl_sum n (fun k => residual n (outs k) (rs k)) (fun y => Rep n y (op_add (g out) r))) ->
  (forall out r, residual 1 out r = Ret (op_add (g out) r)) -> (forall x, shape (g x) = shape x) ->
  AttentionOk H As A -> FfnOk H Fs f -> NormOk H N1s N1 -> NormOk H N2s N2 ->
  LayerOk H (fun k x c id =>
      let '(out, c) := As k (N1s k x) c id in
      (do x <- residual n out x in do x <- residual n (Fs k (N2s k x)) x in Ret (x, c))%prog)
    (fun x c id =>
      let '(out, c) := A (N1 x) c id in
      (do x <- residual 1 out x in do x <- residual 1 (f (N2 x)) x in Ret (x, c))%prog).
Proof.
  intros Hres Hone Hg HA HF HN1 HN2 b s st st1 id Hst.
  pose proof (HA _ _ _ _ id (Hidden_norm b s H N1s N1 st st1 HN1 Hst)) as Ho. cbn [fst snd] in Ho.
  destruct Ho as (Hsum & Hshape & Hcache). destruct Hst as (Hs & Hr & Hc).
  destruct (HN1 _ _ b s Hs Hr) as [_ Hs1].
  destruct (A (N1 (fst st1)) (snd st1) id) as [out c'] eqn:EA. cbn [fst snd] in *.
  assert (Hgs : shape (g out) = shape (fst st1)) by (rewrite Hg; congruence).
  assert (Hs2 : shape (op_add (g out) (fst st1)) = [b; s; H]) by (rewrite add_shape by done; congruence).
  rewrite Hone. cbn [pbind]. rewrite Hone. cbn [pbind]. eexists. split; [reflexivity|].
  apply (spmd_ext _ _ _ (fun k => pbind (residual n (fst (As k (N1s k (fst (st k))) (snd (st k)) id)) (fst (st k)))
    (fun x => pbind (residual n (Fs k (N2s k x)) x) (fun x =>
       Ret (x, snd (As k (N1s k (fst (st k))) (snd (st k)) id)))))).
  { intros k _. by destruct (As k _ _ id). }
  eapply spmd_bind; [apply Hres; [exact Hsum|exact Hr|congruence]|]. intros xs Hxs. cbv beta in Hxs.
  destruct (HN2 _ _ b s Hs2 Hxs) as [Hxs2 Hs3].
  destruct (HF _ _ b s (eq_trans Hs3 Hs2) Hxs2) as [Hsum2 Hs4].
  eapply spmd_bind; [apply Hres; [exact Hsum2|exact Hxs|congruence]|]. intros ys Hys. apply spmd_ret.
  split; [|split; [exact Hys|exact Hcache]]. cbn [fst]. rewrite add_shape; [|]; rewrite Hg; congruence.
Qed.

(** ** Projections *)

(** A projection whose output is split over the workers. *)
Definition ColumnOk (H : nat) (segs : list nat) (r : nat) (cols : nat -> Tensor -> Tensor) (col : Tensor -> Tensor)
  : Prop :=
  forall xs x p, shape x = p ++ [H] -> Rep n xs x ->
  Cols n (seg_index n segs) r (r * n) (fun k => cols k (xs k)) (col x) /\ shape (col x) = p ++ [r * n].

(** A projection whose input is split over the workers. *)
Definition RowOk (r O : nat) (rows : nat -> Tensor -> Tensor) (row : Tensor -> Tensor) : Prop :=
  forall xs x p, shape x = p ++ [n * r] -> Cols n (block r) r (n * r) xs x ->
  Sum n (fun k => rows k (xs k)) (row x) /\ shape (row x) = p ++ [O].

Lemma column_linear_ok m W name bias hint segs r H : list_sum_nat (segs_of r segs) = r ->
  dict_get m (dot name "weight") = Some (mkNnParam [r; H] (Some (mkShardSingleDim hint 0 segs))) ->
  shape (W (dot name "weight")) = [r * n; H] ->
  (bias = true -> (exists hint', dict_get m (dot name "bias") =
     Some (mkNnParam [r] (Some (mkShardSingleDim hint' 0 segs)))) /\ shape (W (dot name "bias")) = [r * n]) ->
  ColumnOk H (segs_of r segs) r (fun k => linear (worker_params m n k W) name bias) (linear W name bias).
Proof.
  intros Hs Hw HW Hb xs x p Hx Hxs. split; [by eapply Cols_column|]. unfold linear. by eapply linear_shape.
Qed.

Lemma row_linear_ok m W name hint r O :
  dict_get m (dot name "weight") = Some (mkNnParam [O; r] (Some (mkShardSingleDim hint 1 None))) ->
  shape (W (dot name "weight")) = [O; n * r] ->
  RowOk r O (fun k => linear (worker_params m n k W) name false) (linear W name false).
Proof.
  intros Hw HW xs x p Hx Hxs. split; [by eapply Sum_row|]. unfold linear. by eapply linear_shape.
Qed.

Lemma row_linear_bias_ok m W name hint r O :
  dict_get m (dot name "weight") = Some (mkNnParam [O; r] (Some (mkShardSingleDim hint 1 None))) ->
  shape (W (dot name "weight")) = [O; n * r] ->
  dict_get m (dot name "bias") = Some (mkNnParam [O] None) -> shape (W (dot name "bias")) = [O] ->
  RowOk r O (fun k => linear (shard_bias_of n name (worker_params m n k W)) name true) (linear W name true).
Proof.
  intros Hw HW Hb HB xs x p Hx Hxs. split; [by eapply Sum_row_bias|]. unfold linear. by eapply linear_shape.
Qed.

(** Attention between its projections. *)
Lemma attention_ok d hq hkv (scale : nat -> pyfloat) r H cols col rows row :
  0 < d -> hq mod hkv = 0 -> r = (hq + hkv + hkv) * d -> ColumnOk H [hq * d; hkv * d; hkv * d] r cols col ->
  RowOk (hq * d) H rows row ->
  AttentionOk H
    (fun k x c id => let '(o, c) := fused_attention d hq hkv (scale id) x (cols k x) c id in (rows k o, c))
    (fun x c id => let '(o, c) := fused_attention d (n * hq) (n * hkv) (scale id) x (col x) c id in (row o, c)).
Proof.
  intros Hd Hg -> Hcol Hrow b s st st1 id (Hs & Hr & Hc). cbv zeta.
  destruct (Hcol _ _ [b; s] Hs Hr) as [Hcols Hsh]. cbn [app] in Hsh.
  destruct (Cols_attention n d hq hkv (scale id) (fun k => fst (st k)) (fst st1)
    (fun k => cols k (fst (st k))) (col (fst st1)) (fun k => snd (st k)) (snd st1) id b s H n_pos Hd Hg Hs Hr Hc)
    as (H1 & H2 & H3).
  - rewrite Hsh. do 2 f_equal. f_equal. lia.
  - by replace ((n * hq + n * hkv + n * hkv) * d) with ((hq + hkv + hkv) * d * n) by lia.
  - destruct (fused_attention d (n * hq) (n * hkv) (scale id) (fst st1) (col (fst st1)) (snd st1) id) as [o c'] eqn:Eo.
    cbn [fst snd] in *. assert (Hrow' := Hrow _ _ [b; s] ltac:(rewrite H3; cbn; do 3 f_equal; lia) H1).
    destruct Hrow' as [Hsum Hsh2].
    assert (Hext : forall k, (let '(o, c) := fused_attention d hq hkv (scale id) (fst (st k)) (cols k (fst (st k))) (snd (st k)) id
        in (rows k o, c)) = (rows k (fst (fused_attention d hq hkv (scale id) (fst (st k)) (cols k (fst (st k))) (snd (st k)) id)),
          snd (fused_attention d hq hkv (scale id) (fst (st k)) (cols k (fst (st k))) (snd (st k)) id))).
    { intros k. by destruct (fused_attention d hq hkv (scale id) (fst (st k)) (cols k (fst (st k))) (snd (st k)) id). }
    split; [|split].
    + destruct Hsum as [Hss Hse]. split.
      * intros k Hk. rewrite Hext. by apply Hss.
      * intros q Hq. rewrite Hse by done. apply fsum_ext. intros k Hk. by rewrite Hext.
    + rewrite Hsh2, Hs. done.
    + intros k Hk. rewrite Hext. by apply H2.
Qed.

(** Feed-forward networks: a fused gate and up projection, or one projection. *)
Lemma gated_ffn_ok (combine : Tensor -> Tensor -> Tensor) i H cols col rows row :
  (forall p xs ys x y, shape x = p ++ [n * i] -> shape y = p ++ [n * i] ->
     Cols n (block i) i (n * i) xs x -> Cols n (block i) i (n * i) ys y ->
     Cols n (block i) i (n * i) (fun k => combine (xs k) (ys k)) (combine x y) /\ shape (combine x y) = p ++ [n * i]) ->
  ColumnOk H [i; i] (2 * i) cols col -> RowOk i H rows row ->
  FfnOk H (fun k x => let g := cols k x in rows k (combine (op_split g 2 0) (op_split g 2 1)))
    (fun x => let g := col x in row (combine (op_split g 2 0) (op_split g 2 1))).
Proof.
  intros Hcomb Hcol Hrow xs x b s Hx Hxs. cbv zeta. destruct (Hcol xs x [b; s] Hx Hxs) as [Hg Hsh].
  assert (Hsplit : forall q, q < 2 -> shape (op_split (col x) 2 q) = [b; s] ++ [n * i]).
  { intros q Hq. apply split_shape; [|done]. rewrite Hsh. do 2 f_equal. lia. }
  destruct (Hcomb [b; s] (fun k => op_split (cols k (xs k)) 2 0) (fun k => op_split (cols k (xs k)) 2 1)
    (op_split (col x) 2 0) (op_split (col x) 2 1)) as [Hc Hcs];
    [apply Hsplit; lia|apply Hsplit; lia|by apply Cols_half; [lia|]|by apply Cols_half; [lia|]|].
  destruct (Hrow _ _ _ Hcs Hc) as [Hsum Hshape]. split; [exact Hsum|]. by rewrite Hshape, Hx.
Qed.

Lemma ffn_ok (act : Tensor -> Tensor) i H cols col rows row :
  (forall p xs x, shape x = p ++ [n * i] -> Cols n (block i) i (n * i) xs x ->
     Cols n (block i) i (n * i) (fun k => act (xs k)) (act x) /\ shape (act x) = p ++ [n * i]) ->
  ColumnOk H [i] i cols col -> RowOk i H rows row ->
  FfnOk H (fun k x => rows k (act (cols k x))) (fun x => row (act (col x))).
Proof.
  intros Hact Hcol Hrow xs x b s Hx Hxs. destruct (Hcol xs x [b; s] Hx Hxs) as [Hg Hsh].
  destruct (Hact [b; s] (fun k => cols k (xs k)) (col x)) as [Ha Has];
    [rewrite Hsh; do 2 f_equal; lia|by apply Cols_whole|].
  destruct (Hrow _ _ _ Has Ha) as [Hsum Hshape]. split; [exact Hsum|]. by rewrite Hshape, Hx.
Qed.

Lemma act_mul_ok (f : string) i p xs ys x y : shape x = p ++ [n * i] -> shape y = p ++ [n * i] ->
  Cols n (block i) i (n * i) xs x -> Cols n (block i) i (n * i) ys y ->
  Cols n (block i) i (n * i) (fun k => op_mul (op_act f (xs k)) (ys k)) (op_mul (op_act f x) y) /\
  shape (op_mul (op_act f x) y) = p ++ [n * i].
Proof.
  intros Hx Hy Hxs Hys. split; [|rewrite mul_shape, act_shape by (rewrite act_shape; congruence); done].
  apply Cols_mul; [rewrite act_shape; congruence|by apply Cols_act|done].
Qed.
(** Element by element functions between the projections. *)
Definition Elementwise (h : Tensor -> Tensor) : Prop :=
  (forall y, shape (h y) = shape y) /\
  forall g m w xs x, Cols n g m w xs x -> Cols n g m w (fun k => h (xs k)) (h x).

Lemma Elementwise_id : Elementwise (fun x => x).
Proof. done. Qed.
Lemma Elementwise_act f : Elementwise (op_act f).
Proof. split; [apply act_shape|]. intros. by apply Cols_act. Qed.
Lemma Elementwise_clamp lo hi : Elementwise (fun x => op_minimum (op_maximum x lo) hi).
Proof.
  split; [intros; by rewrite minimum_shape, maximum_shape|]. intros. apply Cols_minimum. by apply Cols_maximum.
Qed.

Lemma column_map h H segs r cols col : Elementwise h -> ColumnOk H segs r cols col ->
  ColumnOk H segs r (fun k x => h (cols k x)) (fun x => h (col x)).
Proof.
  intros [Hs Hh] Hcol xs x p Hx Hxs. destruct (Hcol xs x p Hx Hxs) as [Hc Hsh].
  split; [by apply Hh|]. by rewrite Hs.
Qed.

Lemma elementwise_ffn h : Elementwise h -> forall i p xs x, shape x = p ++ [n * i] -> Cols n (block i) i (n * i) xs x ->
  Cols n (block i) i (n * i) (fun k => h (xs k)) (h x) /\ shape (h x) = p ++ [n * i].
Proof. intros [Hs Hh] i p xs x Hx Hxs. split; [by apply Hh|by rewrite Hs]. Qed.

Lemma mul_act_ok (f : string) i p xs ys x y : shape x = p ++ [n * i] -> shape y = p ++ [n * i] ->
  Cols n (block i) i (n * i) xs x -> Cols n (block i) i (n * i) ys y ->
  Cols n (block i) i (n * i) (fun k => op_mul (ys k) (op_act f (xs k))) (op_mul y (op_act f x)) /\
  shape (op_mul y (op_act f x)) = p ++ [n * i].
Proof.
  intros Hx Hy Hxs Hys. split; [|rewrite mul_shape by (rewrite act_shape; congruence); done].
  apply Cols_mul; [rewrite act_shape; congruence|done|by apply Cols_act].
Qed.

Lemma layer_norm_plain_ok H eps : NormOk H (fun _ => nn_norm "layer_norm" eps []) (nn_norm "layer_norm" eps []).
Proof. intros xs x b t Hx Hxs. split; [by apply (Rep_norm n _ _ _ xs x [b; t] H)|apply norm_shape]. Qed.

Lemma id_norm_ok H : NormOk H (fun _ x => x) (fun x => x).
Proof. intros xs x b t Hx Hxs. by split. Qed.

(** A normalization in front of a whole layer. *)
Lemma prenorm_ok H Ns f layers layer : NormOk H Ns f -> LayerOk H layers layer ->
  LayerOk H (fun k x => layers k (Ns k x)) (fun x => layer (f x)).
Proof.
  intros Hn Hl b s st st1 id Hst. exact (Hl _ _ _ _ id (Hidden_norm b s H Ns f st st1 Hn Hst)).
Qed.

(** Both sublayers on the same input, summed with the residual at once. *)
Lemma parallel_ok (residual : nat -> Tensor -> Tensor -> Tensor -> NetProg Tensor) H As A Fs f N1s N1 :
  (forall outs out os o rs r, shape out = shape r -> shape o = shape r ->
     Sum n outs out -> Sum n os o -> Rep n rs r ->
     Spmd ccl_sum n (fun k => residual n (outs k) (os k) (rs k)) (fun y => Rep n y (op_add (op_add out o) r))) ->
  (forall out o r, residual 1 out o r = Ret (op_add (op_add out o) r)) ->
  AttentionOk H As A -> FfnOk H Fs f -> NormOk H N1s N1 ->
  LayerOk H (fun k x c id =>
      let '(out, c) := As k (N1s k x) c id in
      (do y <- residual n out (Fs k (N1s k x)) x in Ret (y, c))%prog)
    (fun x c id =>
      let '(out, c) := A (N1 x) c id in
      (do y <- residual 1 out (f (N1 x)) x in Ret (y, c))%prog).
Proof.
  intros Hres Hone HA HF HN b s st st1 id Hst.
  pose proof (HA _ _ _ _ id (Hidden_norm b s H N1s N1 st st1 HN Hst)) as Ho. cbn [fst snd] in Ho.
  destruct Ho as (Hsum & Hshape & Hcache). destruct Hst as (Hs & Hr & Hc).
  destruct (HN _ _ b s Hs Hr) as [Hr1 Hs1].
  destruct (HF _ _ b s (eq_trans Hs1 Hs) Hr1) as [Hsum2 Hs2].
  destruct (A (N1 (fst st1)) (snd st1) id) as [out c'] eqn:EA. cbn [fst snd] in *.
  rewrite Hone. cbn [pbind]. eexists. split; [reflexivity|].
  apply (spmd_ext _ _ _ (fun k => pbind (residual n (fst (As k (N1s k (fst (st k))) (snd (st k)) id))
      (Fs k (N1s k (fst (st k)))) (fst (st k)))
    (fun y => Ret (y, snd (As k (N1s k (fst (st k))) (snd (st k)) id))))).
  { intros k _. by destruct (As k _ _ id). }
  eapply spmd_bind; [apply Hres; [| |exact Hsum|exact Hsum2|exact Hr]; congruence|].
  intros xs Hxs. apply spmd_ret. split; [|split; [exact Hxs|exact Hcache]].
  cbn [fst]. rewrite !add_shape by (rewrite ?add_shape by congruence; congruence). congruence.
Qed.

(** The sums of the sublayers are normalized before the residual is added. *)
Lemma postnorm_ok H As A Fs f N1s N1 N2s N2 N3s N3 N4s N4 :
  AttentionOk H As A -> FfnOk H Fs f -> NormOk H N1s N1 -> NormOk H N2s N2 -> NormOk H N3s N3 -> NormOk H N4s N4 ->
  LayerOk H (fun k x c id =>
      let '(out, c) := As k (N1s k x) c id in
      (do out <- ccl_allreduce n out in
       let x := op_add (N2s k out) x in
       do out <- ccl_allreduce n (Fs k (N3s k x)) in
       let x := op_add (N4s k out) x in Ret (x, c))%prog)
    (fun x c id =>
      let '(out, c) := A (N1 x) c id in
      (do out <- ccl_allreduce 1 out in
       let x := op_add (N2 out) x in
       do out <- ccl_allreduce 1 (f (N3 x)) in
       let x := op_add (N4 out) x in Ret (x, c))%prog).
Proof.
  intros HA HF HN1 HN2 HN3 HN4 b s st st1 id Hst.
  pose proof (HA _ _ _ _ id (Hidden_norm b s H N1s N1 st st1 HN1 Hst)) as Ho. cbn [fst snd] in Ho.
  destruct Ho as (Hsum & Hshape & Hcache). destruct Hst as (Hs & Hr & Hc).
  destruct (HN1 _ _ b s Hs Hr) as [_ Hs1].
  destruct (A (N1 (fst st1)) (snd st1) id) as [out c'] eqn:EA. cbn [fst snd] in *.
  unfold ccl_allreduce at 3 4. cbn [Nat.ltb Nat.leb pbind]. cbv zeta. eexists. split; [reflexivity|].
  apply (spmd_ext _ _ _ (fun k => pbind (ccl_allreduce n (fst (As k (N1s k (fst (st k))) (snd (st k)) id)))
    (fun out => pbind (ccl_allreduce n (Fs k (N3s k (op_add (N2s k out) (fst (st k))))))
      (fun out' => Ret (op_add (N4s k out') (op_add (N2s k out) (fst (st k))),
         snd (As k (N1s k (fst (st k))) (snd (st k)) id)))))).
  { intros k _. by destruct (As k _ _ id). }
  eapply spmd_bind; [by apply allreduce_ok|]. intros outs Houts. cbv beta in Houts.
  destruct (HN2 outs out b s ltac:(congruence) Houts) as [Hr2 Hs2].
  assert (Hsx : shape (N2 out) = shape (fst st1)) by congruence.
  pose proof (Rep_add n _ _ _ _ Hsx Hr2 Hr) as Hr3. cbv beta in Hr3.
  assert (Hs3 : shape (op_add (N2 out) (fst st1)) = [b; s; H]) by (rewrite add_shape by done; congruence).
  destruct (HN3 _ _ b s Hs3 Hr3) as [Hr4 Hs4]. destruct (HF _ _ b s (eq_trans Hs4 Hs3) Hr4) as [Hsum2 Hs5].
  eapply spmd_bind; [by apply allreduce_ok|]. intros outs2 Houts2. cbv beta in Houts2.
  destruct (HN4 outs2 _ b s (eq_trans Hs5 (eq_trans Hs4 Hs3)) Houts2) as [Hr6 Hs6]. apply spmd_ret.
  assert (Hs7 : shape (N4 (f (N3 (op_add (N2 out) (fst st1))))) = shape (op_add (N2 out) (fst st1))) by congruence.
  split; [|split; [|exact Hcache]]; cbn [fst].
  - rewrite add_shape by congruence. congruence.
  - exact (Rep_add n _ _ _ _ Hs7 Hr6 Hr3).
Qed.
End Pieces.

(** A projection of a module after [_set_tp]. *)
Ltac column_at segs :=
  eapply (column_linear_ok _ _ _ _ _ _ segs);
  [cbn; lia|param_at|shape_at|first [done | intros _; split; [eexists; param_at|shape_at]]].
Ltac row_at := eapply row_linear_ok; [lia|param_at|shape_at].
Ltac row_bias_at := eapply row_linear_bias_ok; [lia|param_at|shape_at|param_at|shape_at].
