(* ===== verification/ModelSpecs.v ===== *)
(** * What the engine calls ([create_paged_kv_cache] and [get_default_spec] of [model/*/*_model.py])

    For every model: the arguments of its KV cache, and the specification of
    the functions that are compiled for the engine.  The attributes of a module
    are written as its constructor computes them from the configuration; an
    attribute of a nested configuration has a dotted name. *)

From stdpp Require Import base list strings.
From S2P Require Import Prelude PyNum Network.
Local Open Scope string_scope.
Local Open Scope list_scope.
Local Open Scope nat_scope.

(** An argument of [PagedKVCache.create_generic]: a string, a variable of the
    compiled function, a number, an attribute of the configuration as it is,
    [int(a * b)] of a number and a float, the partition of the layers into
    stages, the element type of the model. *)
Inductive KVArg : Type :=
| KStr (s : string) | KVar (s : string) | KInt (z : Z) | KNat (n : nat) | KConf (s : string)
| KTrunc (a : nat) (b : pyfloat) | KLayers (l : list nat) | KDtype | KNone.

(** A dimension, an element type, and the specification of an argument and of a
    function. *)
Inductive SpecDim : Type := DNat (n : nat) | DVar (s : string).
Inductive SpecType : Type := TLit (s : string) | TSelf.
Inductive ArgSpec : Type := STensor (dims : list SpecDim) (ty : SpecType) | SObject (ty : string) | SInt.
Record FunctionSpec : Type := mkFunctionSpec { fs_args : dict ArgSpec; param_mode : string; effect_mode : string }.

(** [model/baichuan/baichuan_model.py] *)
Definition BaichuanForCausalLM_create_paged_kv_cache (c : Config) : res (dict KVArg) :=
  let? d1 := nat_div (int c "num_attention_heads") (shards c) in
  let? d2 := nat_div (int c "num_attention_heads") (shards c) in
  Ok [
    ("attn_kind", KStr "mha");
    ("max_batch_size", KVar "max_batch_size");
    ("max_total_seq_len", KVar "max_total_seq_len");
    ("prefill_chunk_size", KVar "prefill_chunk_size");
    ("page_size", KVar "page_size");
    ("support_sliding_window", KVar "support_sliding_window");
    ("num_hidden_layers", KNat (int c "num_hidden_layers"));
    ("num_attention_heads", KNat d1);
    ("num_key_value_heads", KNat d2);
    ("qk_head_dim", KNat (int c "head_dim"));
    ("v_head_dim", KNat (int c "head_dim"));
    ("rope_mode", KStr "NORMAL");
    ("rope_scale", KInt 1);
    ("rope_theta", KInt 10000);
    ("dtype", KDtype)].

Definition BaichuanForCausalLM_get_default_spec (c : Config) : dict FunctionSpec := [
    ("embed", mkFunctionSpec [("input_ids", STensor [DVar "seq_len"] (TLit "int32"))] "packed" "none");
    ("prefill", mkFunctionSpec [("input_embed", STensor [DNat 1; DVar "seq_len"; DNat (int c "hidden_size")] TSelf);
      ("paged_kv_cache", SObject "PagedKVCache")] "packed" "none");
    ("decode", mkFunctionSpec [("input_embed", STensor [DNat 1; DNat 1; DNat (int c "hidden_size")] TSelf);
      ("paged_kv_cache", SObject "PagedKVCache")] "packed" "none");
    ("batch_prefill", mkFunctionSpec [("input_embeds", STensor [DNat 1; DVar "seq_len"; DNat (int c "hidden_size")] TSelf);
      ("logit_positions", STensor [DVar "batch_size"] (TLit "int32"));
      ("paged_kv_cache", SObject "PagedKVCache")] "packed" "none");
    ("batch_decode", mkFunctionSpec [("input_embeds", STensor [DVar "batch_size"; DNat 1; DNat (int c "hidden_size")] TSelf);
      ("paged_kv_cache", SObject "PagedKVCache")] "packed" "none");
    ("batch_verify", mkFunctionSpec [("input_embeds", STensor [DNat 1; DVar "seq_len"; DNat (int c "hidden_size")] TSelf);
      ("paged_kv_cache", SObject "PagedKVCache")] "packed" "none");
    ("create_paged_kv_cache", mkFunctionSpec [("max_batch_size", SInt);
      ("max_total_seq_len", SInt);
      ("prefill_chunk_size", SInt);
      ("page_size", SInt);
      ("support_sliding_window", SInt)] "none" "none")].

(** [model/bert/bert_model.py] *)
Definition BertModel_get_default_spec (c : Config) : dict FunctionSpec := [
    ("prefill", mkFunctionSpec [("inputs", STensor [DVar "batch_size"; DVar "seq_len"] (TLit "int32"));
      ("attention_mask", STensor [DVar "batch_size"; DVar "seq_len"] (TLit "int32"))] "packed" "none")].

(** [model/chatglm3/chatglm3_model.py] *)
Definition ChatGLMForCausalLM_create_paged_kv_cache (c : Config) : res (dict KVArg) :=
  let? d1 := nat_div (int c "num_attention_heads") (shards c) in
  let? d2 := nat_div (if flag c "multi_query_attention" then int c "multi_query_group_num" else int c "num_attention_heads") (shards c) in
  Ok [
    ("attn_kind", KStr "mha");
    ("max_batch_size", KVar "max_batch_size");
    ("max_total_seq_len", KVar "max_total_seq_len");
    ("prefill_chunk_size", KVar "prefill_chunk_size");
    ("page_size", KVar "page_size");
    ("support_sliding_window", KVar "support_sliding_window");
    ("num_hidden_layers", KNat (int c "num_layers"));
    ("num_attention_heads", KNat d1);
    ("num_key_value_heads", KNat d2);
    ("qk_head_dim", KNat (int c "head_dim"));
    ("v_head_dim", KNat (int c "head_dim"));
    ("rope_mode", KStr "NORMAL");
    ("rope_scale", KInt 1);
    ("rope_theta", KInt 10000);
    ("dtype", KDtype)].

Definition ChatGLMForCausalLM_get_default_spec (c : Config) : dict FunctionSpec := [
    ("embed", mkFunctionSpec [("input_ids", STensor [DVar "seq_len"] (TLit "int32"))] "packed" "none");
    ("prefill", mkFunctionSpec [("input_embed", STensor [DNat 1; DVar "seq_len"; DNat (int c "hidden_size")] TSelf);
      ("paged_kv_cache", SObject "PagedKVCache")] "packed" "none");
    ("decode", mkFunctionSpec [("input_embed", STensor [DNat 1; DNat 1; DNat (int c "hidden_size")] TSelf);
      ("paged_kv_cache", SObject "PagedKVCache")] "packed" "none");
    ("batch_prefill", mkFunctionSpec [("input_embeds", STensor [DNat 1; DVar "seq_len"; DNat (int c "hidden_size")] TSelf);
      ("logit_positions", STensor [DVar "batch_size"] (TLit "int32"));
      ("paged_kv_cache", SObject "PagedKVCache")] "packed" "none");
    ("batch_decode", mkFunctionSpec [("input_embeds", STensor [DVar "batch_size"; DNat 1; DNat (int c "hidden_size")] TSelf);
      ("paged_kv_cache", SObject "PagedKVCache")] "packed" "none");
    ("batch_verify", mkFunctionSpec [("input_embeds", STensor [DNat 1; DVar "seq_len"; DNat (int c "hidden_size")] TSelf);
      ("paged_kv_cache", SObject "PagedKVCache")] "packed" "none");
    ("create_paged_kv_cache", mkFunctionSpec [("max_batch_size", SInt);
      ("max_total_seq_len", SInt);
      ("prefill_chunk_size", SInt);
      ("page_size", SInt);
      ("support_sliding_window", SInt)] "none" "none")].

(** [model/cohere/cohere_model.py] *)
Definition CohereForCausalLM_create_paged_kv_cache (c : Config) : res (dict KVArg) :=
  let? d1 := nat_div (int c "num_attention_heads") (shards c) in
  let? d2 := nat_div (int c "num_key_value_heads") (shards c) in
  Ok [
    ("attn_kind", KStr "mha");
    ("max_batch_size", KVar "max_batch_size");
    ("max_total_seq_len", KVar "max_total_seq_len");
    ("prefill_chunk_size", KVar "prefill_chunk_size");
    ("page_size", KVar "page_size");
    ("support_sliding_window", KVar "support_sliding_window");
    ("num_hidden_layers", KNat (int c "num_hidden_layers"));
    ("num_attention_heads", KNat d1);
    ("num_key_value_heads", KNat d2);
    ("qk_head_dim", KNat (int c "head_dim"));
    ("v_head_dim", KNat (int c "head_dim"));
    ("rope_mode", KStr "NORMAL");
    ("rope_scale", KInt 1);
    ("rope_theta", KConf "position_embedding_base");
    ("dtype", KDtype)].

Definition CohereForCausalLM_get_default_spec (c : Config) : dict FunctionSpec := [
    ("embed", mkFunctionSpec [("input_ids", STensor [DVar "seq_len"] (TLit "int32"))] "packed" "none");
    ("prefill", mkFunctionSpec [("input_embed", STensor [DNat 1; DVar "seq_len"; DNat (int c "hidden_size")] TSelf);
      ("paged_kv_cache", SObject "PagedKVCache")] "packed" "none");
    ("decode", mkFunctionSpec [("input_embed", STensor [DNat 1; DNat 1; DNat (int c "hidden_size")] TSelf);
      ("paged_kv_cache", SObject "PagedKVCache")] "packed" "none");
    ("batch_prefill", mkFunctionSpec [("input_embeds", STensor [DNat 1; DVar "seq_len"; DNat (int c "hidden_size")] TSelf);
      ("logit_positions", STensor [DVar "batch_size"] (TLit "int32"));
      ("paged_kv_cache", SObject "PagedKVCache")] "packed" "none");
    ("batch_decode", mkFunctionSpec [("input_embeds", STensor [DVar "batch_size"; DNat 1; DNat (int c "hidden_size")] TSelf);
      ("paged_kv_cache", SObject "PagedKVCache")] "packed" "none");
    ("batch_verify", mkFunctionSpec [("input_embeds", STensor [DNat 1; DVar "seq_len"; DNat (int c "hidden_size")] TSelf);
      ("paged_kv_cache", SObject "PagedKVCache")] "packed" "none");
    ("create_paged_kv_cache", mkFunctionSpec [("max_batch_size", SInt);
      ("max_total_seq_len", SInt);
      ("prefill_chunk_size", SInt);
      ("page_size", SInt);
      ("support_sliding_window", SInt)] "none" "none")].

(** [model/deepseek/deepseek_model.py] *)
Definition DeepseekForCausalLM_create_paged_kv_cache (c : Config) : res (dict KVArg) :=
  let? d1 := nat_div (int c "num_attention_heads") (shards c) in
  let? d2 := nat_div (int c "num_key_value_heads") (shards c) in
  Ok [
    ("attn_kind", KStr "mha");
    ("max_batch_size", KVar "max_batch_size");
    ("max_total_seq_len", KVar "max_total_seq_len");
    ("prefill_chunk_size", KVar "prefill_chunk_size");
    ("page_size", KVar "page_size");
    ("support_sliding_window", KVar "support_sliding_window");
    ("num_hidden_layers", KNat (int c "num_hidden_layers"));
    ("num_attention_heads", KNat d1);
    ("num_key_value_heads", KNat d2);
    ("qk_head_dim", KNat (int c "head_dim"));
    ("v_head_dim", KNat (int c "head_dim"));
    ("rope_mode", KStr "NORMAL");
    ("rope_scale", KInt 1);
    ("rope_theta", KConf "rope_theta");
    ("dtype", KDtype)].

Definition DeepseekForCausalLM_get_default_spec (c : Config) : dict FunctionSpec := [
    ("embed", mkFunctionSpec [("input_ids", STensor [DVar "seq_len"] (TLit "int32"))] "packed" "none");
    ("prefill", mkFunctionSpec [("input_embed", STensor [DNat 1; DVar "seq_len"; DNat (int c "hidden_size")] TSelf);
      ("paged_kv_cache", SObject "PagedKVCache")] "packed" "none");
    ("decode", mkFunctionSpec [("input_embed", STensor [DNat 1; DNat 1; DNat (int c "hidden_size")] TSelf);
      ("paged_kv_cache", SObject "PagedKVCache")] "packed" "none");
    ("batch_prefill", mkFunctionSpec [("input_embeds", STensor [DNat 1; DVar "seq_len"; DNat (int c "hidden_size")] TSelf);
      ("logit_positions", STensor [DVar "batch_size"] (TLit "int32"));
      ("paged_kv_cache", SObject "PagedKVCache")] "packed" "none");
    ("batch_decode", mkFunctionSpec [("input_embeds", STensor [DVar "batch_size"; DNat 1; DNat (int c "hidden_size")] TSelf);
      ("paged_kv_cache", SObject "PagedKVCache")] "packed" "none");
    ("batch_verify", mkFunctionSpec [("input_embeds", STensor [DNat 1; DVar "seq_len"; DNat (int c "hidden_size")] TSelf);
      ("paged_kv_cache", SObject "PagedKVCache")] "packed" "none");
    ("create_paged_kv_cache", mkFunctionSpec [("max_batch_size", SInt);
      ("max_total_seq_len", SInt);
      ("prefill_chunk_size", SInt);
      ("page_size", SInt);
      ("support_sliding_window", SInt)] "none" "none")].

(** [model/deepseek_v2/deepseek_v2_model.py] *)
Definition DeepseekV2ForCausalLM_create_paged_kv_cache (c : Config) : res (dict KVArg) :=
  let? d1 := nat_div (int c "num_attention_heads") (shards c) in
  Ok [
    ("attn_kind", KStr "mla");
    ("max_batch_size", KVar "max_batch_size");
    ("max_total_seq_len", KVar "max_total_seq_len");
    ("prefill_chunk_size", KVar "prefill_chunk_size");
    ("page_size", KVar "page_size");
    ("support_sliding_window", KVar "support_sliding_window");
    ("num_hidden_layers", KNat (int c "num_hidden_layers"));
    ("num_attention_heads", KNat d1);
    ("num_key_value_heads", KInt 1);
    ("qk_head_dim", KNat (int c "kv_lora_rank" + int c "qk_rope_head_dim"));
    ("v_head_dim", KNat (int c "kv_lora_rank"));
    ("mla_original_qk_head_dim", KNat (int c "qk_nope_head_dim" + int c "qk_rope_head_dim"));
    ("mla_original_v_head_dim", KNat (int c "v_head_dim"));
    ("rope_mode", KStr "NONE");
    ("rope_scale", KInt 1);
    ("rope_theta", KConf "rope_theta");
    ("dtype", KDtype)].

Definition DeepseekV2ForCausalLM_get_default_spec (c : Config) : dict FunctionSpec := [
    ("embed", mkFunctionSpec [("input_ids", STensor [DVar "seq_len"] (TLit "int32"))] "packed" "none");
    ("prefill", mkFunctionSpec [("input_embed", STensor [DNat 1; DVar "seq_len"; DNat (int c "hidden_size")] TSelf);
      ("paged_kv_cache", SObject "PagedKVCache")] "packed" "none");
    ("extend", mkFunctionSpec [("input_embed", STensor [DNat 1; DVar "seq_len"; DNat (int c "hidden_size")] TSelf);
      ("paged_kv_cache", SObject "PagedKVCache")] "packed" "none");
    ("decode", mkFunctionSpec [("input_embed", STensor [DNat 1; DNat 1; DNat (int c "hidden_size")] TSelf);
      ("paged_kv_cache", SObject "PagedKVCache")] "packed" "none");
    ("batch_prefill", mkFunctionSpec [("input_embeds", STensor [DNat 1; DVar "seq_len"; DNat (int c "hidden_size")] TSelf);
      ("logit_positions", STensor [DVar "batch_size"] (TLit "int32"));
      ("paged_kv_cache", SObject "PagedKVCache")] "packed" "none");
    ("batch_extend", mkFunctionSpec [("input_embeds", STensor [DNat 1; DVar "seq_len"; DNat (int c "hidden_size")] TSelf);
      ("logit_positions", STensor [DVar "batch_size"] (TLit "int32"));
      ("paged_kv_cache", SObject "PagedKVCache")] "packed" "none");
    ("batch_decode", mkFunctionSpec [("input_embeds", STensor [DVar "batch_size"; DNat 1; DNat (int c "hidden_size")] TSelf);
      ("paged_kv_cache", SObject "PagedKVCache")] "packed" "none");
    ("batch_verify", mkFunctionSpec [("input_embeds", STensor [DNat 1; DVar "seq_len"; DNat (int c "hidden_size")] TSelf);
      ("paged_kv_cache", SObject "PagedKVCache")] "packed" "none");
    ("create_paged_kv_cache", mkFunctionSpec [("max_batch_size", SInt);
      ("max_total_seq_len", SInt);
      ("prefill_chunk_size", SInt);
      ("page_size", SInt);
      ("support_sliding_window", SInt)] "none" "none")].

(** [model/eagle/eagle_model.py] *)
Definition EagleForCasualLM_create_paged_kv_cache (c : Config) : res (dict KVArg) :=
  let? d1 := nat_div (int c "num_attention_heads") (shards c) in
  let? d2 := nat_div (int c "num_key_value_heads") (shards c) in
  Ok [
    ("attn_kind", KStr "mha");
    ("max_batch_size", KVar "max_batch_size");
    ("max_total_seq_len", KVar "max_total_seq_len");
    ("prefill_chunk_size", KVar "prefill_chunk_size");
    ("page_size", KVar "page_size");
    ("support_sliding_window", KVar "support_sliding_window");
    ("num_hidden_layers", KNat (int c "num_hidden_layers"));
    ("num_attention_heads", KNat d1);
    ("num_key_value_heads", KNat d2);
    ("qk_head_dim", KNat (int c "head_dim"));
    ("v_head_dim", KNat (int c "head_dim"));
    ("rope_mode", KStr "NORMAL");
    ("rope_scale", KInt 1);
    ("rope_theta", KConf "position_embedding_base");
    ("dtype", KDtype)].

Definition EagleForCasualLM_get_default_spec (c : Config) : dict FunctionSpec := [
    ("embed", mkFunctionSpec [("input_ids", STensor [DVar "seq_len"] (TLit "int32"))] "packed" "none");
    ("fuse_embed_hidden_states", mkFunctionSpec [("input_embed", STensor [DVar "seq_len"; DNat (int c "hidden_size")] TSelf);
      ("hidden_states", STensor [DVar "seq_len"; DNat (int c "hidden_size")] TSelf)] "packed" "none");
    ("prefill_to_last_hidden_states", mkFunctionSpec [("hidden_states", STensor [DNat 1; DVar "seq_len"; DNat (int c "hidden_size")] TSelf);
      ("paged_kv_cache", SObject "PagedKVCache")] "packed" "none");
    ("decode_to_last_hidden_states", mkFunctionSpec [("hidden_states", STensor [DNat 1; DNat 1; DNat (int c "hidden_size")] TSelf);
      ("paged_kv_cache", SObject "PagedKVCache")] "packed" "none");
    ("batch_prefill_to_last_hidden_states", mkFunctionSpec [("hidden_states", STensor [DNat 1; DVar "seq_len"; DNat (int c "hidden_size")] TSelf);
      ("paged_kv_cache", SObject "PagedKVCache")] "packed" "none");
    ("batch_decode_to_last_hidden_states", mkFunctionSpec [("hidden_states", STensor [DVar "batch_size"; DNat 1; DNat (int c "hidden_size")] TSelf);
      ("paged_kv_cache", SObject "PagedKVCache")] "packed" "none");
    ("create_paged_kv_cache", mkFunctionSpec [("max_batch_size", SInt);
      ("max_total_seq_len", SInt);
      ("prefill_chunk_size", SInt);
      ("page_size", SInt);
      ("support_sliding_window", SInt)] "none" "none")].

(** [model/gemma/gemma_model.py] *)
Definition GemmaForCausalLM_create_paged_kv_cache (c : Config) : res (dict KVArg) :=
  let? d1 := nat_div (int c "num_attention_heads") (shards c) in
  let? d2 := nat_div (int c "num_key_value_heads") (shards c) in
  Ok [
    ("attn_kind", KStr "mha");
    ("max_batch_size", KVar "max_batch_size");
    ("max_total_seq_len", KVar "max_total_seq_len");
    ("prefill_chunk_size", KVar "prefill_chunk_size");
    ("page_size", KVar "page_size");
    ("support_sliding_window", KVar "support_sliding_window");
    ("num_hidden_layers", KNat (int c "num_hidden_layers"));
    ("num_attention_heads", KNat d1);
    ("num_key_value_heads", KNat d2);
    ("qk_head_dim", KNat (int c "head_dim"));
    ("v_head_dim", KNat (int c "head_dim"));
    ("rope_mode", KStr "NORMAL");
    ("rope_scale", KInt 1);
    ("rope_theta", KConf "position_embedding_base");
    ("dtype", KDtype)].

Definition GemmaForCausalLM_get_default_spec (c : Config) : dict FunctionSpec := [
    ("embed", mkFunctionSpec [("input_ids", STensor [DVar "seq_len"] (TLit "int32"))] "packed" "none");
    ("prefill", mkFunctionSpec [("input_embed", STensor [DNat 1; DVar "seq_len"; DNat (int c "hidden_size")] TSelf);
      ("paged_kv_cache", SObject "PagedKVCache")] "packed" "none");
    ("decode", mkFunctionSpec [("input_embed", STensor [DNat 1; DNat 1; DNat (int c "hidden_size")] TSelf);
      ("paged_kv_cache", SObject "PagedKVCache")] "packed" "none");
    ("batch_prefill", mkFunctionSpec [("input_embeds", STensor [DNat 1; DVar "seq_len"; DNat (int c "hidden_size")] TSelf);
      ("logit_positions", STensor [DVar "batch_size"] (TLit "int32"));
      ("paged_kv_cache", SObject "PagedKVCache")] "packed" "none");
    ("batch_decode", mkFunctionSpec [("input_embeds", STensor [DVar "batch_size"; DNat 1; DNat (int c "hidden_size")] TSelf);
      ("paged_kv_cache", SObject "PagedKVCache")] "packed" "none");
    ("batch_verify", mkFunctionSpec [("input_embeds", STensor [DNat 1; DVar "seq_len"; DNat (int c "hidden_size")] TSelf);
      ("paged_kv_cache", SObject "PagedKVCache")] "packed" "none");
    ("create_paged_kv_cache", mkFunctionSpec [("max_batch_size", SInt);
      ("max_total_seq_len", SInt);
      ("prefill_chunk_size", SInt);
      ("page_size", SInt);
      ("support_sliding_window", SInt)] "none" "none")].

(** [model/gemma3/gemma3_model.py] *)
Definition Gemma3LanguageModel_create_paged_kv_cache (c : Config) : res (dict KVArg) :=
  let? d1 := nat_div (int c "text_config.num_attention_heads") (shards c) in
  let? d2 := nat_div (int c "text_config.num_key_value_heads") (shards c) in
  Ok [
    ("attn_kind", KStr "mha");
    ("max_batch_size", KVar "max_batch_size");
    ("max_total_seq_len", KVar "max_total_seq_len");
    ("prefill_chunk_size", KVar "prefill_chunk_size");
    ("page_size", KVar "page_size");
    ("support_sliding_window", KVar "support_sliding_window");
    ("num_hidden_layers", KNat (int c "text_config.num_hidden_layers"));
    ("num_attention_heads", KNat d1);
    ("num_key_value_heads", KNat d2);
    ("qk_head_dim", KNat (int c "text_config.head_dim"));
    ("v_head_dim", KNat (int c "text_config.head_dim"));
    ("rope_mode", KStr "NORMAL");
    ("rope_scale", KInt 1);
    ("rope_theta", KConf "text_config.position_embedding_base");
    ("dtype", KDtype)].

Definition Gemma3LanguageModel_get_default_spec (c : Config) : dict FunctionSpec := [
    ("embed", mkFunctionSpec [("input_ids", STensor [DVar "seq_len"] (TLit "int32"))] "packed" "none");
    ("prefill", mkFunctionSpec [("input_embed", STensor [DNat 1; DVar "seq_len"; DNat (int c "text_config.hidden_size")] TSelf);
      ("paged_kv_cache", SObject "PagedKVCache")] "packed" "none");
    ("decode", mkFunctionSpec [("input_embed", STensor [DNat 1; DNat 1; DNat (int c "text_config.hidden_size")] TSelf);
      ("paged_kv_cache", SObject "PagedKVCache")] "packed" "none");
    ("batch_prefill", mkFunctionSpec [("input_embeds", STensor [DNat 1; DVar "seq_len"; DNat (int c "text_config.hidden_size")] TSelf);
      ("logit_positions", STensor [DVar "batch_size"] (TLit "int32"));
      ("paged_kv_cache", SObject "PagedKVCache")] "packed" "none");
    ("batch_decode", mkFunctionSpec [("input_embeds", STensor [DVar "batch_size"; DNat 1; DNat (int c "text_config.hidden_size")] TSelf);
      ("paged_kv_cache", SObject "PagedKVCache")] "packed" "none");
    ("batch_verify", mkFunctionSpec [("input_embeds", STensor [DNat 1; DVar "seq_len"; DNat (int c "text_config.hidden_size")] TSelf);
      ("paged_kv_cache", SObject "PagedKVCache")] "packed" "none");
    ("create_paged_kv_cache", mkFunctionSpec [("max_batch_size", SInt);
      ("max_total_seq_len", SInt);
      ("prefill_chunk_size", SInt);
      ("page_size", SInt);
      ("support_sliding_window", SInt)] "none" "none")].

(** [model/gemma3/gemma3_model.py] *)
Definition Gemma3ForCausalLM_create_paged_kv_cache (c : Config) : res (dict KVArg) :=
  let? d1 := nat_div (int c "text_config.num_attention_heads") (shards c) in
  let? d2 := nat_div (int c "text_config.num_key_value_heads") (shards c) in
  Ok [
    ("attn_kind", KStr "mha");
    ("max_batch_size", KVar "max_batch_size");
    ("max_total_seq_len", KVar "max_total_seq_len");
    ("prefill_chunk_size", KVar "prefill_chunk_size");
    ("page_size", KVar "page_size");
    ("support_sliding_window", KVar "support_sliding_window");
    ("num_hidden_layers", KNat (int c "text_config.num_hidden_layers"));
    ("num_attention_heads", KNat d1);
    ("num_key_value_heads", KNat d2);
    ("qk_head_dim", KNat (int c "text_config.head_dim"));
    ("v_head_dim", KNat (int c "text_config.head_dim"));
    ("rope_mode", KStr "NORMAL");
    ("rope_scale", KInt 1);
    ("rope_theta", KConf "text_config.position_embedding_base");
    ("dtype", KDtype)].

Definition Gemma3ForCausalLM_get_default_spec (c : Config) : dict FunctionSpec := [
    ("embed", mkFunctionSpec [("input_ids", STensor [DVar "seq_len"] (TLit "int32"))] "packed" "none");
    ("prefill", mkFunctionSpec [("input_embed", STensor [DNat 1; DVar "seq_len"; DNat (int c "text_config.hidden_size")] TSelf);
      ("paged_kv_cache", SObject "PagedKVCache")] "packed" "none");
    ("decode", mkFunctionSpec [("input_embed", STensor [DNat 1; DNat 1; DNat (int c "text_config.hidden_size")] TSelf);
      ("paged_kv_cache", SObject "PagedKVCache")] "packed" "none");
    ("batch_prefill", mkFunctionSpec [("input_embeds", STensor [DNat 1; DVar "seq_len"; DNat (int c "text_config.hidden_size")] TSelf);
      ("logit_positions", STensor [DVar "batch_size"] (TLit "int32"));
      ("paged_kv_cache", SObject "PagedKVCache")] "packed" "none");
    ("batch_decode", mkFunctionSpec [("input_embeds", STensor [DVar "batch_size"; DNat 1; DNat (int c "text_config.hidden_size")] TSelf);
      ("paged_kv_cache", SObject "PagedKVCache")] "packed" "none");
    ("batch_verify", mkFunctionSpec [("input_embeds", STensor [DNat 1; DVar "seq_len"; DNat (int c "text_config.hidden_size")] TSelf);
      ("paged_kv_cache", SObject "PagedKVCache")] "packed" "none");
    ("create_paged_kv_cache", mkFunctionSpec [("max_batch_size", SInt);
      ("max_total_seq_len", SInt);
      ("prefill_chunk_size", SInt);
      ("page_size", SInt);
      ("support_sliding_window", SInt)] "none" "none")].

(** [model/gpt2/gpt2_model.py] *)
Definition GPT2LMHeadModel_create_paged_kv_cache (c : Config) : res (dict KVArg) :=
  let? d1 := nat_div (int c "n_head") (shards c) in
  let? d2 := nat_div (int c "n_head") (shards c) in
  Ok [
    ("attn_kind", KStr "mha");
    ("max_batch_size", KVar "max_batch_size");
    ("max_total_seq_len", KVar "max_total_seq_len");
    ("prefill_chunk_size", KVar "prefill_chunk_size");
    ("page_size", KVar "page_size");
    ("support_sliding_window", KVar "support_sliding_window");
    ("num_hidden_layers", KNat (int c "n_layer"));
    ("num_attention_heads", KNat d1);
    ("num_key_value_heads", KNat d2);
    ("qk_head_dim", KNat (int c "head_dim"));
    ("v_head_dim", KNat (int c "head_dim"));
    ("rope_mode", KStr "NONE");
    ("rope_scale", KInt (-1));
    ("rope_theta", KInt (-1));
    ("dtype", KDtype)].

Definition GPT2LMHeadModel_get_default_spec (c : Config) : dict FunctionSpec := [
    ("embed", mkFunctionSpec [("input_ids", STensor [DVar "seq_len"] (TLit "int32"))] "packed" "none");
    ("prefill", mkFunctionSpec [("input_embed", STensor [DNat 1; DVar "seq_len"; DNat (int c "n_embd")] TSelf);
      ("paged_kv_cache", SObject "PagedKVCache")] "packed" "none");
    ("decode", mkFunctionSpec [("input_embed", STensor [DNat 1; DNat 1; DNat (int c "n_embd")] TSelf);
      ("paged_kv_cache", SObject "PagedKVCache")] "packed" "none");
    ("batch_prefill", mkFunctionSpec [("input_embeds", STensor [DNat 1; DVar "seq_len"; DNat (int c "n_embd")] TSelf);
      ("logit_positions", STensor [DVar "batch_size"] (TLit "int32"));
      ("paged_kv_cache", SObject "PagedKVCache")] "packed" "none");
    ("batch_decode", mkFunctionSpec [("input_embeds", STensor [DVar "batch_size"; DNat 1; DNat (int c "n_embd")] TSelf);
      ("paged_kv_cache", SObject "PagedKVCache")] "packed" "none");
    ("batch_verify", mkFunctionSpec [("input_embeds", STensor [DNat 1; DVar "seq_len"; DNat (int c "n_embd")] TSelf);
      ("paged_kv_cache", SObject "PagedKVCache")] "packed" "none");
    ("create_paged_kv_cache", mkFunctionSpec [("max_batch_size", SInt);
      ("max_total_seq_len", SInt);
      ("prefill_chunk_size", SInt);
      ("page_size", SInt);
      ("support_sliding_window", SInt)] "none" "none")].

(** [model/gpt_bigcode/gpt_bigcode_model.py] *)
Definition GPTBigCodeForCausalLM_create_paged_kv_cache (c : Config) : res (dict KVArg) :=
  let? d1 := nat_div (int c "n_head") (shards c) in
  let? d2 := nat_div d1 (shards c) in
  let? d3 := nat_div 1 (shards c) in
  let? d4 := nat_div (int c "n_embd") (int c "n_head") in
  let? d5 := nat_div (int c "n_embd") (int c "n_head") in
  Ok [
    ("attn_kind", KStr "mha");
    ("max_batch_size", KVar "max_batch_size");
    ("max_total_seq_len", KVar "max_total_seq_len");
    ("prefill_chunk_size", KVar "prefill_chunk_size");
    ("page_size", KVar "page_size");
    ("support_sliding_window", KVar "support_sliding_window");
    ("num_hidden_layers", KNat (int c "n_layer"));
    ("num_attention_heads", KNat d2);
    ("num_key_value_heads", KNat d3);
    ("qk_head_dim", KNat d4);
    ("v_head_dim", KNat d5);
    ("rope_mode", KStr "NONE");
    ("rope_scale", KInt (-1));
    ("rope_theta", KInt (-1));
    ("dtype", KDtype)].

Definition GPTBigCodeForCausalLM_get_default_spec (c : Config) : dict FunctionSpec := [
    ("embed", mkFunctionSpec [("input_ids", STensor [DVar "seq_len"] (TLit "int32"))] "packed" "none");
    ("prefill", mkFunctionSpec [("input_embed", STensor [DNat 1; DVar "seq_len"; DNat (int c "n_embd")] TSelf);
      ("paged_kv_cache", SObject "PagedKVCache")] "packed" "none");
    ("decode", mkFunctionSpec [("input_embed", STensor [DNat 1; DNat 1; DNat (int c "n_embd")] TSelf);
      ("paged_kv_cache", SObject "PagedKVCache")] "packed" "none");
    ("batch_prefill", mkFunctionSpec [("input_embeds", STensor [DNat 1; DVar "seq_len"; DNat (int c "n_embd")] TSelf);
      ("logit_positions", STensor [DVar "batch_size"] (TLit "int32"));
      ("paged_kv_cache", SObject "PagedKVCache")] "packed" "none");
    ("batch_decode", mkFunctionSpec [("input_embeds", STensor [DVar "batch_size"; DNat 1; DNat (int c "n_embd")] TSelf);
      ("paged_kv_cache", SObject "PagedKVCache")] "packed" "none");
    ("batch_verify", mkFunctionSpec [("input_embeds", STensor [DNat 1; DVar "seq_len"; DNat (int c "n_embd")] TSelf);
      ("paged_kv_cache", SObject "PagedKVCache")] "packed" "none");
    ("create_paged_kv_cache", mkFunctionSpec [("max_batch_size", SInt);
      ("max_total_seq_len", SInt);
      ("prefill_chunk_size", SInt);
      ("page_size", SInt);
      ("support_sliding_window", SInt)] "none" "none")].

(** [model/gpt_j/gpt_j_model.py] *)
Definition GPTJForCausalLM_create_paged_kv_cache (c : Config) : res (dict KVArg) :=
  let? d1 := nat_div (int c "n_head") (shards c) in
  let? d2 := nat_div (int c "n_head") (shards c) in
  let? d3 := nat_div (int c "n_embd") (int c "n_head") in
  let? d4 := nat_div (int c "n_embd") (int c "n_head") in
  Ok [
    ("attn_kind", KStr "mha");
    ("max_batch_size", KVar "max_batch_size");
    ("max_total_seq_len", KVar "max_total_seq_len");
    ("prefill_chunk_size", KVar "prefill_chunk_size");
    ("page_size", KVar "page_size");
    ("support_sliding_window", KVar "support_sliding_window");
    ("num_hidden_layers", KNat (int c "n_layer"));
    ("num_attention_heads", KNat d1);
    ("num_key_value_heads", KNat d2);
    ("qk_head_dim", KNat d3);
    ("v_head_dim", KNat d4);
    ("rope_mode", KStr "NORMAL");
    ("rope_scale", KInt 1);
    ("rope_theta", KInt 10000);
    ("rotary_dim", KConf "rotary_dim");
    ("rope_scaling", KConf "rope_scaling");
    ("dtype", KDtype)].

Definition GPTJForCausalLM_get_default_spec (c : Config) : dict FunctionSpec := [
    ("embed", mkFunctionSpec [("input_ids", STensor [DVar "seq_len"] (TLit "int32"))] "packed" "none");
    ("prefill", mkFunctionSpec [("input_embed", STensor [DNat 1; DVar "seq_len"; DNat (int c "n_embd")] TSelf);
      ("paged_kv_cache", SObject "PagedKVCache")] "packed" "none");
    ("decode", mkFunctionSpec [("input_embed", STensor [DNat 1; DNat 1; DNat (int c "n_embd")] TSelf);
      ("paged_kv_cache", SObject "PagedKVCache")] "packed" "none");
    ("batch_prefill", mkFunctionSpec [("input_embeds", STensor [DNat 1; DVar "seq_len"; DNat (int c "n_embd")] TSelf);
      ("logit_positions", STensor [DVar "batch_size"] (TLit "int32"));
      ("paged_kv_cache", SObject "PagedKVCache")] "packed" "none");
    ("batch_decode", mkFunctionSpec [("input_embeds", STensor [DVar "batch_size"; DNat 1; DNat (int c "n_embd")] TSelf);
      ("paged_kv_cache", SObject "PagedKVCache")] "packed" "none");
    ("batch_verify", mkFunctionSpec [("input_embeds", STensor [DNat 1; DVar "seq_len"; DNat (int c "n_embd")] TSelf);
      ("paged_kv_cache", SObject "PagedKVCache")] "packed" "none");
    ("create_paged_kv_cache", mkFunctionSpec [("max_batch_size", SInt);
      ("max_total_seq_len", SInt);
      ("prefill_chunk_size", SInt);
      ("page_size", SInt);
      ("support_sliding_window", SInt)] "none" "none")].

(** [model/gpt_neox/gpt_neox_model.py] *)
Definition GPTNeoXForCausalLM_create_paged_kv_cache (c : Config) : res (dict KVArg) :=
  let? d1 := nat_div (int c "num_attention_heads") (shards c) in
  let? d2 := nat_div (int c "num_attention_heads") (shards c) in
  Ok [
    ("attn_kind", KStr "mha");
    ("max_batch_size", KVar "max_batch_size");
    ("max_total_seq_len", KVar "max_total_seq_len");
    ("prefill_chunk_size", KVar "prefill_chunk_size");
    ("page_size", KVar "page_size");
    ("support_sliding_window", KVar "support_sliding_window");
    ("num_hidden_layers", KNat (int c "num_hidden_layers"));
    ("num_attention_heads", KNat d1);
    ("num_key_value_heads", KNat d2);
    ("qk_head_dim", KNat (int c "head_dim"));
    ("v_head_dim", KNat (int c "head_dim"));
    ("rope_mode", KStr "NORMAL");
    ("rope_scale", KInt 1);
    ("rope_theta", KConf "position_embedding_base");
    ("dtype", KDtype);
    ("rotary_dim", KTrunc (int c "head_dim") (real c "rotary_pct"))].

Definition GPTNeoXForCausalLM_get_default_spec (c : Config) : dict FunctionSpec := [
    ("embed", mkFunctionSpec [("input_ids", STensor [DVar "seq_len"] (TLit "int32"))] "packed" "none");
    ("prefill", mkFunctionSpec [("input_embed", STensor [DNat 1; DVar "seq_len"; DNat (int c "hidden_size")] TSelf);
      ("paged_kv_cache", SObject "PagedKVCache")] "packed" "none");
    ("decode", mkFunctionSpec [("input_embed", STensor [DNat 1; DNat 1; DNat (int c "hidden_size")] TSelf);
      ("paged_kv_cache", SObject "PagedKVCache")] "packed" "none");
    ("batch_prefill", mkFunctionSpec [("input_embeds", STensor [DNat 1; DVar "seq_len"; DNat (int c "hidden_size")] TSelf);
      ("logit_positions", STensor [DVar "batch_size"] (TLit "int32"));
      ("paged_kv_cache", SObject "PagedKVCache")] "packed" "none");
    ("batch_decode", mkFunctionSpec [("input_embeds", STensor [DVar "batch_size"; DNat 1; DNat (int c "hidden_size")] TSelf);
      ("paged_kv_cache", SObject "PagedKVCache")] "packed" "none");
    ("batch_verify", mkFunctionSpec [("input_embeds", STensor [DNat 1; DVar "seq_len"; DNat (int c "hidden_size")] TSelf);
      ("paged_kv_cache", SObject "PagedKVCache")] "packed" "none");
    ("create_paged_kv_cache", mkFunctionSpec [("max_batch_size", SInt);
      ("max_total_seq_len", SInt);
      ("prefill_chunk_size", SInt);
      ("page_size", SInt);
      ("support_sliding_window", SInt)] "none" "none")].

(** [model/internlm/internlm_model.py] *)
Definition InternLMForCausalLM_create_paged_kv_cache (c : Config) : res (dict KVArg) :=
  let? d1 := nat_div (int c "num_attention_heads") (shards c) in
  let? d2 := nat_div (int c "num_attention_heads") (shards c) in
  Ok [
    ("attn_kind", KStr "mha");
    ("max_batch_size", KVar "max_batch_size");
    ("max_total_seq_len", KVar "max_total_seq_len");
    ("prefill_chunk_size", KVar "prefill_chunk_size");
    ("page_size", KVar "page_size");
    ("support_sliding_window", KVar "support_sliding_window");
    ("num_hidden_layers", KNat (int c "num_hidden_layers"));
    ("num_attention_heads", KNat d1);
    ("num_key_value_heads", KNat d2);
    ("qk_head_dim", KNat (int c "head_dim"));
    ("v_head_dim", KNat (int c "head_dim"));
    ("rope_mode", KStr "NORMAL");
    ("rope_scale", KInt 1);
    ("rope_theta", KInt 10000);
    ("dtype", KDtype)].

Definition InternLMForCausalLM_get_default_spec (c : Config) : dict FunctionSpec := [
    ("embed", mkFunctionSpec [("input_ids", STensor [DVar "seq_len"] (TLit "int32"))] "packed" "none");
    ("prefill", mkFunctionSpec [("input_embed", STensor [DNat 1; DVar "seq_len"; DNat (int c "hidden_size")] TSelf);
      ("paged_kv_cache", SObject "PagedKVCache")] "packed" "none");
    ("decode", mkFunctionSpec [("input_embed", STensor [DNat 1; DNat 1; DNat (int c "hidden_size")] TSelf);
      ("paged_kv_cache", SObject "PagedKVCache")] "packed" "none");
    ("batch_prefill", mkFunctionSpec [("input_embeds", STensor [DNat 1; DVar "seq_len"; DNat (int c "hidden_size")] TSelf);
      ("logit_positions", STensor [DVar "batch_size"] (TLit "int32"));
      ("paged_kv_cache", SObject "PagedKVCache")] "packed" "none");
    ("batch_decode", mkFunctionSpec [("input_embeds", STensor [DVar "batch_size"; DNat 1; DNat (int c "hidden_size")] TSelf);
      ("paged_kv_cache", SObject "PagedKVCache")] "packed" "none");
    ("batch_verify", mkFunctionSpec [("input_embeds", STensor [DNat 1; DVar "seq_len"; DNat (int c "hidden_size")] TSelf);
      ("paged_kv_cache", SObject "PagedKVCache")] "packed" "none");
    ("create_paged_kv_cache", mkFunctionSpec [("max_batch_size", SInt);
      ("max_total_seq_len", SInt);
      ("prefill_chunk_size", SInt);
      ("page_size", SInt);
      ("support_sliding_window", SInt)] "none" "none")].

(** [model/internlm2/internlm2_model.py] *)
Definition InternLM2ForCausalLM_create_paged_kv_cache (c : Config) : res (dict KVArg) :=
  let? d1 := nat_div (int c "num_attention_heads") (shards c) in
  let? d2 := nat_div (int c "num_key_value_heads") (shards c) in
  Ok [
    ("attn_kind", KStr "mha");
    ("max_batch_size", KVar "max_batch_size");
    ("max_total_seq_len", KVar "max_total_seq_len");
    ("prefill_chunk_size", KVar "prefill_chunk_size");
    ("page_size", KVar "page_size");
    ("support_sliding_window", KVar "support_sliding_window");
    ("num_hidden_layers", KNat (int c "num_hidden_layers"));
    ("num_attention_heads", KNat d1);
    ("num_key_value_heads", KNat d2);
    ("qk_head_dim", KNat (int c "head_dim"));
    ("v_head_dim", KNat (int c "head_dim"));
    ("rope_mode", KStr "NORMAL");
    ("rope_scale", KInt 1);
    ("rope_theta", KConf "rope_theta");
    ("dtype", KDtype)].

Definition InternLM2ForCausalLM_get_default_spec (c : Config) : dict FunctionSpec := [
    ("embed", mkFunctionSpec [("input_ids", STensor [DVar "seq_len"] (TLit "int32"))] "packed" "none");
    ("prefill", mkFunctionSpec [("input_embed", STensor [DNat 1; DVar "seq_len"; DNat (int c "hidden_size")] TSelf);
      ("paged_kv_cache", SObject "PagedKVCache")] "packed" "none");
    ("decode", mkFunctionSpec [("input_embed", STensor [DNat 1; DNat 1; DNat (int c "hidden_size")] TSelf);
      ("paged_kv_cache", SObject "PagedKVCache")] "packed" "none");
    ("batch_prefill", mkFunctionSpec [("input_embeds", STensor [DNat 1; DVar "seq_len"; DNat (int c "hidden_size")] TSelf);
      ("logit_positions", STensor [DVar "batch_size"] (TLit "int32"));
      ("paged_kv_cache", SObject "PagedKVCache")] "packed" "none");
    ("batch_decode", mkFunctionSpec [("input_embeds", STensor [DVar "batch_size"; DNat 1; DNat (int c "hidden_size")] TSelf);
      ("paged_kv_cache", SObject "PagedKVCache")] "packed" "none");
    ("batch_verify", mkFunctionSpec [("input_embeds", STensor [DNat 1; DVar "seq_len"; DNat (int c "hidden_size")] TSelf);
      ("paged_kv_cache", SObject "PagedKVCache")] "packed" "none");
    ("create_paged_kv_cache", mkFunctionSpec [("max_batch_size", SInt);
      ("max_total_seq_len", SInt);
      ("prefill_chunk_size", SInt);
      ("page_size", SInt);
      ("support_sliding_window", SInt)] "none" "none")].

(** [model/llama/llama_model.py] *)
Definition LlamaForCausalLM_create_paged_kv_cache (c : Config) (layer_partition : list nat) : res (dict KVArg) :=
  let? d1 := nat_div (int c "num_attention_heads") (shards c) in
  let? d2 := nat_div (int c "num_key_value_heads") (shards c) in
  Ok [
    ("attn_kind", KStr "mha");
    ("max_batch_size", KVar "max_batch_size");
    ("max_total_seq_len", KVar "max_total_seq_len");
    ("prefill_chunk_size", KVar "prefill_chunk_size");
    ("page_size", KVar "page_size");
    ("support_sliding_window", KVar "support_sliding_window");
    ("num_hidden_layers", KNat (int c "num_hidden_layers"));
    ("num_attention_heads", KNat d1);
    ("num_key_value_heads", KNat d2);
    ("qk_head_dim", KNat (int c "head_dim"));
    ("v_head_dim", KNat (int c "head_dim"));
    ("rope_mode", KStr "NORMAL");
    ("rope_scale", KInt 1);
    ("rope_theta", KConf "position_embedding_base");
    ("rope_scaling", KConf "rope_scaling");
    ("layer_partition", KLayers layer_partition);
    ("enable_disaggregation", KConf "disaggregation");
    ("dtype", KDtype)].

Definition LlamaForCausalLM_get_default_spec (c : Config) : dict FunctionSpec := [
    ("embed", mkFunctionSpec [("input_ids", STensor [DVar "seq_len"] (TLit "int32"))] "packed" "none");
    ("get_logits", mkFunctionSpec [("hidden_states", STensor [DVar "seq_len"; DNat (int c "hidden_size")] TSelf)] "packed" "none");
    ("batch_select_last_hidden_states", mkFunctionSpec [("hidden_states", STensor [DVar "seq_len"; DNat (int c "hidden_size")] TSelf);
      ("logit_positions", STensor [DVar "batch_size"] (TLit "int32"))] "none" "none");
    ("prefill", mkFunctionSpec [("input_embed", STensor [DNat 1; DVar "seq_len"; DNat (int c "hidden_size")] TSelf);
      ("paged_kv_cache", SObject "PagedKVCache")] "packed" "none");
    ("decode", mkFunctionSpec [("input_embed", STensor [DNat 1; DNat 1; DNat (int c "hidden_size")] TSelf);
      ("paged_kv_cache", SObject "PagedKVCache")] "packed" "none");
    ("prefill_to_last_hidden_states", mkFunctionSpec [("input_embed", STensor [DNat 1; DVar "seq_len"; DNat (int c "hidden_size")] TSelf);
      ("paged_kv_cache", SObject "PagedKVCache")] "packed" "none");
    ("decode_to_last_hidden_states", mkFunctionSpec [("input_embed", STensor [DNat 1; DNat 1; DNat (int c "hidden_size")] TSelf);
      ("paged_kv_cache", SObject "PagedKVCache")] "packed" "none");
    ("batch_prefill", mkFunctionSpec [("input_embeds", STensor [DNat 1; DVar "seq_len"; DNat (int c "hidden_size")] TSelf);
      ("logit_positions", STensor [DVar "batch_size"] (TLit "int32"));
      ("paged_kv_cache", SObject "PagedKVCache")] "packed" "none");
    ("batch_decode", mkFunctionSpec [("input_embeds", STensor [DVar "batch_size"; DNat 1; DNat (int c "hidden_size")] TSelf);
      ("paged_kv_cache", SObject "PagedKVCache")] "packed" "none");
    ("batch_verify", mkFunctionSpec [("input_embeds", STensor [DNat 1; DVar "seq_len"; DNat (int c "hidden_size")] TSelf);
      ("paged_kv_cache", SObject "PagedKVCache")] "packed" "none");
    ("batch_prefill_to_last_hidden_states", mkFunctionSpec [("input_embeds", STensor [DNat 1; DVar "seq_len"; DNat (int c "hidden_size")] TSelf);
      ("paged_kv_cache", SObject "PagedKVCache")] "packed" "none");
    ("batch_decode_to_last_hidden_states", mkFunctionSpec [("input_embeds", STensor [DVar "batch_size"; DNat 1; DNat (int c "hidden_size")] TSelf);
      ("paged_kv_cache", SObject "PagedKVCache")] "packed" "none");
    ("batch_verify_to_last_hidden_states", mkFunctionSpec [("input_embeds", STensor [DNat 1; DVar "seq_len"; DNat (int c "hidden_size")] TSelf);
      ("paged_kv_cache", SObject "PagedKVCache")] "packed" "none");
    ("create_paged_kv_cache", mkFunctionSpec [("max_batch_size", SInt);
      ("max_total_seq_len", SInt);
      ("prefill_chunk_size", SInt);
      ("page_size", SInt);
      ("support_sliding_window", SInt)] "none" "none")].

(** [model/llava/llava_model.py] *)
Definition LlavaForCasualLM_get_default_spec (c : Config) : dict FunctionSpec := [
    ("embed", mkFunctionSpec [("input_ids", STensor [DVar "seq_len"] (TLit "int32"))] "packed" "none");
    ("image_embed", mkFunctionSpec [("pixel_values", STensor [DNat 1; DVar "image_height"; DVar "image_width"; DNat 3] (TLit "uint8"))] "packed" "none");
    ("prefill", mkFunctionSpec [("input_embed", STensor [DNat 1; DVar "seq_len"; DNat (int c "text_config.hidden_size")] TSelf);
      ("paged_kv_cache", SObject "PagedKVCache")] "packed" "none");
    ("decode", mkFunctionSpec [("input_embed", STensor [DNat 1; DNat 1; DNat (int c "text_config.hidden_size")] TSelf);
      ("paged_kv_cache", SObject "PagedKVCache")] "packed" "none");
    ("batch_prefill", mkFunctionSpec [("input_embeds", STensor [DNat 1; DVar "seq_len"; DNat (int c "text_config.hidden_size")] TSelf);
      ("logit_positions", STensor [DVar "batch_size"] (TLit "int32"));
      ("paged_kv_cache", SObject "PagedKVCache")] "packed" "none");
    ("batch_decode", mkFunctionSpec [("input_embeds", STensor [DVar "batch_size"; DNat 1; DNat (int c "text_config.hidden_size")] TSelf);
      ("paged_kv_cache", SObject "PagedKVCache")] "packed" "none");
    ("batch_verify", mkFunctionSpec [("input_embeds", STensor [DNat 1; DVar "seq_len"; DNat (int c "text_config.hidden_size")] TSelf);
      ("paged_kv_cache", SObject "PagedKVCache")] "packed" "none");
    ("create_paged_kv_cache", mkFunctionSpec [("max_batch_size", SInt);
      ("max_total_seq_len", SInt);
      ("prefill_chunk_size", SInt);
      ("page_size", SInt);
      ("support_sliding_window", SInt)] "none" "none")].

(** [model/medusa/medusa_model.py] *)
Definition MedusaModel_get_default_spec (c : Config) : dict FunctionSpec := [
    ("get_logits", mkFunctionSpec [("hidden_states", STensor [DVar "batch_size"; DNat (int c "hidden_size")] TSelf)] "packed" "none")].

(** [model/minicpm/minicpm_model.py] *)
Definition MiniCPMForCausalLM_create_paged_kv_cache (c : Config) : res (dict KVArg) :=
  let? d1 := nat_div (int c "num_attention_heads") (shards c) in
  let? d2 := nat_div (int c "num_key_value_heads") (shards c) in
  let? d3 := nat_div (int c "hidden_size") (int c "num_attention_heads") in
  let? d4 := nat_div (int c "hidden_size") (int c "num_attention_heads") in
  Ok [
    ("attn_kind", KStr "mha");
    ("max_batch_size", KVar "max_batch_size");
    ("max_total_seq_len", KVar "max_total_seq_len");
    ("prefill_chunk_size", KVar "prefill_chunk_size");
    ("page_size", KVar "page_size");
    ("support_sliding_window", KVar "support_sliding_window");
    ("num_hidden_layers", KNat (int c "num_hidden_layers"));
    ("num_attention_heads", KNat d1);
    ("num_key_value_heads", KNat d2);
    ("qk_head_dim", KNat d3);
    ("v_head_dim", KNat d4);
    ("rope_mode", KStr "NORMAL");
    ("rope_scale", KInt 1);
    ("rope_theta", KConf "rope_theta");
    ("dtype", KDtype)].

Definition MiniCPMForCausalLM_get_default_spec (c : Config) : dict FunctionSpec := [
    ("embed", mkFunctionSpec [("input_ids", STensor [DVar "seq_len"] (TLit "int32"))] "packed" "none");
    ("prefill", mkFunctionSpec [("input_embed", STensor [DNat 1; DVar "seq_len"; DNat (int c "hidden_size")] TSelf);
      ("paged_kv_cache", SObject "PagedKVCache")] "packed" "none");
    ("decode", mkFunctionSpec [("input_embed", STensor [DNat 1; DNat 1; DNat (int c "hidden_size")] TSelf);
      ("paged_kv_cache", SObject "PagedKVCache")] "packed" "none");
    ("batch_prefill", mkFunctionSpec [("input_embeds", STensor [DNat 1; DVar "seq_len"; DNat (int c "hidden_size")] TSelf);
      ("logit_positions", STensor [DVar "batch_size"] (TLit "int32"));
      ("paged_kv_cache", SObject "PagedKVCache")] "packed" "none");
    ("batch_decode", mkFunctionSpec [("input_embeds", STensor [DVar "batch_size"; DNat 1; DNat (int c "hidden_size")] TSelf);
      ("paged_kv_cache", SObject "PagedKVCache")] "packed" "none");
    ("batch_verify", mkFunctionSpec [("input_embeds", STensor [DNat 1; DVar "seq_len"; DNat (int c "hidden_size")] TSelf);
      ("paged_kv_cache", SObject "PagedKVCache")] "packed" "none");
    ("create_paged_kv_cache", mkFunctionSpec [("max_batch_size", SInt);
      ("max_total_seq_len", SInt);
      ("prefill_chunk_size", SInt);
      ("page_size", SInt);
      ("support_sliding_window", SInt)] "none" "none")].

(** [model/mistral/mistral_model.py] *)
Definition MistralForCasualLM_create_paged_kv_cache (c : Config) : res (dict KVArg) :=
  let? d1 := nat_div (int c "num_attention_heads") (shards c) in
  let? d2 := nat_div (int c "num_key_value_heads") (shards c) in
  Ok [
    ("attn_kind", KStr "mha");
    ("max_batch_size", KVar "max_batch_size");
    ("max_total_seq_len", KVar "max_total_seq_len");
    ("prefill_chunk_size", KVar "prefill_chunk_size");
    ("page_size", KVar "page_size");
    ("support_sliding_window", KVar "support_sliding_window");
    ("num_hidden_layers", KNat (int c "num_hidden_layers"));
    ("num_attention_heads", KNat d1);
    ("num_key_value_heads", KNat d2);
    ("qk_head_dim", KNat (int c "head_dim"));
    ("v_head_dim", KNat (int c "head_dim"));
    ("rope_mode", KStr "NORMAL");
    ("rope_scale", KInt 1);
    ("rope_theta", KConf "position_embedding_base");
    ("dtype", KDtype)].

Definition MistralForCasualLM_get_default_spec (c : Config) : dict FunctionSpec := [
    ("embed", mkFunctionSpec [("input_ids", STensor [DVar "seq_len"] (TLit "int32"))] "packed" "none");
    ("prefill", mkFunctionSpec [("input_embed", STensor [DNat 1; DVar "seq_len"; DNat (int c "hidden_size")] TSelf);
      ("paged_kv_cache", SObject "PagedKVCache")] "packed" "none");
    ("decode", mkFunctionSpec [("input_embed", STensor [DNat 1; DNat 1; DNat (int c "hidden_size")] TSelf);
      ("paged_kv_cache", SObject "PagedKVCache")] "packed" "none");
    ("batch_prefill", mkFunctionSpec [("input_embeds", STensor [DNat 1; DVar "seq_len"; DNat (int c "hidden_size")] TSelf);
      ("logit_positions", STensor [DVar "batch_size"] (TLit "int32"));
      ("paged_kv_cache", SObject "PagedKVCache")] "packed" "none");
    ("batch_decode", mkFunctionSpec [("input_embeds", STensor [DVar "batch_size"; DNat 1; DNat (int c "hidden_size")] TSelf);
      ("paged_kv_cache", SObject "PagedKVCache")] "packed" "none");
    ("batch_verify", mkFunctionSpec [("input_embeds", STensor [DNat 1; DVar "seq_len"; DNat (int c "hidden_size")] TSelf);
      ("paged_kv_cache", SObject "PagedKVCache")] "packed" "none");
    ("create_paged_kv_cache", mkFunctionSpec [("max_batch_size", SInt);
      ("max_total_seq_len", SInt);
      ("prefill_chunk_size", SInt);
      ("page_size", SInt);
      ("support_sliding_window", SInt)] "none" "none")].

(** [model/nemotron/nemotron_model.py] *)
Definition NemotronForCausalLM_create_paged_kv_cache (c : Config) (layer_partition : list nat) : res (dict KVArg) :=
  let? d1 := nat_div (int c "num_attention_heads") (shards c) in
  let? d2 := nat_div (int c "num_key_value_heads") (shards c) in
  Ok [
    ("attn_kind", KStr "mha");
    ("max_batch_size", KVar "max_batch_size");
    ("max_total_seq_len", KVar "max_total_seq_len");
    ("prefill_chunk_size", KVar "prefill_chunk_size");
    ("page_size", KVar "page_size");
    ("support_sliding_window", KVar "support_sliding_window");
    ("num_hidden_layers", KNat (int c "num_hidden_layers"));
    ("num_attention_heads", KNat d1);
    ("num_key_value_heads", KNat d2);
    ("qk_head_dim", KNat (int c "head_dim"));
    ("v_head_dim", KNat (int c "head_dim"));
    ("rope_mode", KStr "NORMAL");
    ("rope_scale", KInt 1);
    ("rope_theta", KConf "rope_theta");
    ("rope_scaling", KConf "rope_scaling");
    ("rotary_dim", KConf "rotary_dim");
    ("layer_partition", KLayers layer_partition);
    ("enable_disaggregation", KConf "disaggregation");
    ("dtype", KDtype)].

Definition NemotronForCausalLM_get_default_spec (c : Config) : dict FunctionSpec := [
    ("embed", mkFunctionSpec [("input_ids", STensor [DVar "seq_len"] (TLit "int32"))] "packed" "none");
    ("get_logits", mkFunctionSpec [("hidden_states", STensor [DVar "seq_len"; DNat (int c "hidden_size")] TSelf)] "packed" "none");
    ("batch_select_last_hidden_states", mkFunctionSpec [("hidden_states", STensor [DVar "seq_len"; DNat (int c "hidden_size")] TSelf);
      ("logit_positions", STensor [DVar "batch_size"] (TLit "int32"))] "none" "none");
    ("prefill", mkFunctionSpec [("input_embed", STensor [DNat 1; DVar "seq_len"; DNat (int c "hidden_size")] TSelf);
      ("paged_kv_cache", SObject "PagedKVCache")] "packed" "none");
    ("decode", mkFunctionSpec [("input_embed", STensor [DNat 1; DNat 1; DNat (int c "hidden_size")] TSelf);
      ("paged_kv_cache", SObject "PagedKVCache")] "packed" "none");
    ("prefill_to_last_hidden_states", mkFunctionSpec [("input_embed", STensor [DNat 1; DVar "seq_len"; DNat (int c "hidden_size")] TSelf);
      ("paged_kv_cache", SObject "PagedKVCache")] "packed" "none");
    ("decode_to_last_hidden_states", mkFunctionSpec [("input_embed", STensor [DNat 1; DNat 1; DNat (int c "hidden_size")] TSelf);
      ("paged_kv_cache", SObject "PagedKVCache")] "packed" "none");
    ("batch_prefill", mkFunctionSpec [("input_embeds", STensor [DNat 1; DVar "seq_len"; DNat (int c "hidden_size")] TSelf);
      ("logit_positions", STensor [DVar "batch_size"] (TLit "int32"));
      ("paged_kv_cache", SObject "PagedKVCache")] "packed" "none");
    ("batch_decode", mkFunctionSpec [("input_embeds", STensor [DVar "batch_size"; DNat 1; DNat (int c "hidden_size")] TSelf);
      ("paged_kv_cache", SObject "PagedKVCache")] "packed" "none");
    ("batch_verify", mkFunctionSpec [("input_embeds", STensor [DNat 1; DVar "seq_len"; DNat (int c "hidden_size")] TSelf);
      ("paged_kv_cache", SObject "PagedKVCache")] "packed" "none");
    ("batch_prefill_to_last_hidden_states", mkFunctionSpec [("input_embeds", STensor [DNat 1; DVar "seq_len"; DNat (int c "hidden_size")] TSelf);
      ("paged_kv_cache", SObject "PagedKVCache")] "packed" "none");
    ("batch_decode_to_last_hidden_states", mkFunctionSpec [("input_embeds", STensor [DVar "batch_size"; DNat 1; DNat (int c "hidden_size")] TSelf);
      ("paged_kv_cache", SObject "PagedKVCache")] "packed" "none");
    ("batch_verify_to_last_hidden_states", mkFunctionSpec [("input_embeds", STensor [DNat 1; DVar "seq_len"; DNat (int c "hidden_size")] TSelf);
      ("paged_kv_cache", SObject "PagedKVCache")] "packed" "none");
    ("create_paged_kv_cache", mkFunctionSpec [("max_batch_size", SInt);
      ("max_total_seq_len", SInt);
      ("prefill_chunk_size", SInt);
      ("page_size", SInt);
      ("support_sliding_window", SInt)] "none" "none")].

(** [model/olmo/olmo_model.py] *)
Definition OLMoForCausalLM_create_paged_kv_cache (c : Config) (layer_partition : list nat) : res (dict KVArg) :=
  let? d1 := nat_div (int c "num_attention_heads") (shards c) in
  let? d2 := nat_div (int c "num_key_value_heads") (shards c) in
  Ok [
    ("attn_kind", KStr "mha");
    ("max_batch_size", KVar "max_batch_size");
    ("max_total_seq_len", KVar "max_total_seq_len");
    ("prefill_chunk_size", KVar "prefill_chunk_size");
    ("page_size", KVar "page_size");
    ("support_sliding_window", KVar "support_sliding_window");
    ("num_hidden_layers", KNat (int c "num_hidden_layers"));
    ("num_attention_heads", KNat d1);
    ("num_key_value_heads", KNat d2);
    ("qk_head_dim", KNat (int c "head_dim"));
    ("v_head_dim", KNat (int c "head_dim"));
    ("rope_mode", KStr "NORMAL");
    ("rope_scale", KInt 1);
    ("rope_theta", KConf "position_embedding_base");
    ("rope_scaling", KConf "rope_scaling");
    ("layer_partition", KLayers layer_partition);
    ("dtype", KDtype)].

Definition OLMoForCausalLM_get_default_spec (c : Config) : dict FunctionSpec := [
    ("embed", mkFunctionSpec [("input_ids", STensor [DVar "seq_len"] (TLit "int32"))] "packed" "none");
    ("get_logits", mkFunctionSpec [("hidden_states", STensor [DVar "seq_len"; DNat (int c "hidden_size")] TSelf)] "packed" "none");
    ("batch_select_last_hidden_states", mkFunctionSpec [("hidden_states", STensor [DVar "seq_len"; DNat (int c "hidden_size")] TSelf);
      ("logit_positions", STensor [DVar "batch_size"] (TLit "int32"))] "none" "none");
    ("prefill", mkFunctionSpec [("input_embed", STensor [DNat 1; DVar "seq_len"; DNat (int c "hidden_size")] TSelf);
      ("paged_kv_cache", SObject "PagedKVCache")] "packed" "none");
    ("decode", mkFunctionSpec [("input_embed", STensor [DNat 1; DNat 1; DNat (int c "hidden_size")] TSelf);
      ("paged_kv_cache", SObject "PagedKVCache")] "packed" "none");
    ("prefill_to_last_hidden_states", mkFunctionSpec [("input_embed", STensor [DNat 1; DVar "seq_len"; DNat (int c "hidden_size")] TSelf);
      ("paged_kv_cache", SObject "PagedKVCache")] "packed" "none");
    ("decode_to_last_hidden_states", mkFunctionSpec [("input_embed", STensor [DNat 1; DNat 1; DNat (int c "hidden_size")] TSelf);
      ("paged_kv_cache", SObject "PagedKVCache")] "packed" "none");
    ("batch_prefill", mkFunctionSpec [("input_embeds", STensor [DNat 1; DVar "seq_len"; DNat (int c "hidden_size")] TSelf);
      ("logit_positions", STensor [DVar "batch_size"] (TLit "int32"));
      ("paged_kv_cache", SObject "PagedKVCache")] "packed" "none");
    ("batch_decode", mkFunctionSpec [("input_embeds", STensor [DVar "batch_size"; DNat 1; DNat (int c "hidden_size")] TSelf);
      ("paged_kv_cache", SObject "PagedKVCache")] "packed" "none");
    ("batch_verify", mkFunctionSpec [("input_embeds", STensor [DNat 1; DVar "seq_len"; DNat (int c "hidden_size")] TSelf);
      ("paged_kv_cache", SObject "PagedKVCache")] "packed" "none");
    ("batch_prefill_to_last_hidden_states", mkFunctionSpec [("input_embeds", STensor [DNat 1; DVar "seq_len"; DNat (int c "hidden_size")] TSelf);
      ("paged_kv_cache", SObject "PagedKVCache")] "packed" "none");
    ("batch_decode_to_last_hidden_states", mkFunctionSpec [("input_embeds", STensor [DVar "batch_size"; DNat 1; DNat (int c "hidden_size")] TSelf);
      ("paged_kv_cache", SObject "PagedKVCache")] "packed" "none");
    ("batch_verify_to_last_hidden_states", mkFunctionSpec [("input_embeds", STensor [DNat 1; DVar "seq_len"; DNat (int c "hidden_size")] TSelf);
      ("paged_kv_cache", SObject "PagedKVCache")] "packed" "none");
    ("create_paged_kv_cache", mkFunctionSpec [("max_batch_size", SInt);
      ("max_total_seq_len", SInt);
      ("prefill_chunk_size", SInt);
      ("page_size", SInt);
      ("support_sliding_window", SInt)] "none" "none")].

(** [model/orion/orion_model.py] *)
Definition OrionForCasualLM_create_paged_kv_cache (c : Config) : res (dict KVArg) :=
  let? d1 := nat_div (int c "num_attention_heads") (shards c) in
  let? d2 := nat_div (int c "num_key_value_heads") (shards c) in
  Ok [
    ("attn_kind", KStr "mha");
    ("max_batch_size", KVar "max_batch_size");
    ("max_total_seq_len", KVar "max_total_seq_len");
    ("prefill_chunk_size", KVar "prefill_chunk_size");
    ("page_size", KVar "page_size");
    ("support_sliding_window", KVar "support_sliding_window");
    ("num_hidden_layers", KNat (int c "num_hidden_layers"));
    ("num_attention_heads", KNat d1);
    ("num_key_value_heads", KNat d2);
    ("qk_head_dim", KNat (int c "head_dim"));
    ("v_head_dim", KNat (int c "head_dim"));
    ("rope_mode", KStr "NORMAL");
    ("rope_scale", KInt 1);
    ("rope_theta", KConf "position_embedding_base");
    ("dtype", KDtype)].

Definition OrionForCasualLM_get_default_spec (c : Config) : dict FunctionSpec := [
    ("embed", mkFunctionSpec [("input_ids", STensor [DVar "seq_len"] (TLit "int32"))] "packed" "none");
    ("prefill", mkFunctionSpec [("input_embed", STensor [DNat 1; DVar "seq_len"; DNat (int c "hidden_size")] TSelf);
      ("paged_kv_cache", SObject "PagedKVCache")] "packed" "none");
    ("decode", mkFunctionSpec [("input_embed", STensor [DNat 1; DNat 1; DNat (int c "hidden_size")] TSelf);
      ("paged_kv_cache", SObject "PagedKVCache")] "packed" "none");
    ("batch_prefill", mkFunctionSpec [("input_embeds", STensor [DNat 1; DVar "seq_len"; DNat (int c "hidden_size")] TSelf);
      ("logit_positions", STensor [DVar "batch_size"] (TLit "int32"));
      ("paged_kv_cache", SObject "PagedKVCache")] "packed" "none");
    ("batch_decode", mkFunctionSpec [("input_embeds", STensor [DVar "batch_size"; DNat 1; DNat (int c "hidden_size")] TSelf);
      ("paged_kv_cache", SObject "PagedKVCache")] "packed" "none");
    ("batch_verify", mkFunctionSpec [("input_embeds", STensor [DNat 1; DVar "seq_len"; DNat (int c "hidden_size")] TSelf);
      ("paged_kv_cache", SObject "PagedKVCache")] "packed" "none");
    ("create_paged_kv_cache", mkFunctionSpec [("max_batch_size", SInt);
      ("max_total_seq_len", SInt);
      ("prefill_chunk_size", SInt);
      ("page_size", SInt);
      ("support_sliding_window", SInt)] "none" "none")].

(** [model/phi/phi_model.py] *)
Definition PhiForCausalLM_create_paged_kv_cache (c : Config) : res (dict KVArg) :=
  let? d1 := nat_div (int c "n_head") (shards c) in
  let? d2 := nat_div (int c "n_head_kv") (shards c) in
  Ok [
    ("attn_kind", KStr "mha");
    ("max_batch_size", KVar "max_batch_size");
    ("max_total_seq_len", KVar "max_total_seq_len");
    ("prefill_chunk_size", KVar "prefill_chunk_size");
    ("page_size", KVar "page_size");
    ("support_sliding_window", KVar "support_sliding_window");
    ("num_hidden_layers", KNat (int c "n_layer"));
    ("num_attention_heads", KNat d1);
    ("num_key_value_heads", KNat d2);
    ("qk_head_dim", KNat (int c "head_dim"));
    ("v_head_dim", KNat (int c "head_dim"));
    ("rope_mode", KStr "NORMAL");
    ("rope_scale", KInt 1);
    ("rope_theta", KConf "position_embedding_base");
    ("rotary_dim", KConf "rotary_dim");
    ("dtype", KDtype)].

Definition PhiForCausalLM_get_default_spec (c : Config) : dict FunctionSpec := [
    ("embed", mkFunctionSpec [("input_ids", STensor [DVar "seq_len"] (TLit "int32"))] "packed" "none");
    ("prefill", mkFunctionSpec [("input_embed", STensor [DNat 1; DVar "seq_len"; DNat (int c "n_embd")] TSelf);
      ("paged_kv_cache", SObject "PagedKVCache")] "packed" "none");
    ("decode", mkFunctionSpec [("input_embed", STensor [DNat 1; DNat 1; DNat (int c "n_embd")] TSelf);
      ("paged_kv_cache", SObject "PagedKVCache")] "packed" "none");
    ("batch_prefill", mkFunctionSpec [("input_embeds", STensor [DNat 1; DVar "seq_len"; DNat (int c "n_embd")] TSelf);
      ("logit_positions", STensor [DVar "batch_size"] (TLit "int32"));
      ("paged_kv_cache", SObject "PagedKVCache")] "packed" "none");
    ("batch_decode", mkFunctionSpec [("input_embeds", STensor [DVar "batch_size"; DNat 1; DNat (int c "n_embd")] TSelf);
      ("paged_kv_cache", SObject "PagedKVCache")] "packed" "none");
    ("batch_verify", mkFunctionSpec [("input_embeds", STensor [DNat 1; DVar "seq_len"; DNat (int c "n_embd")] TSelf);
      ("paged_kv_cache", SObject "PagedKVCache")] "packed" "none");
    ("create_paged_kv_cache", mkFunctionSpec [("max_batch_size", SInt);
      ("max_total_seq_len", SInt);
      ("prefill_chunk_size", SInt);
      ("page_size", SInt);
      ("support_sliding_window", SInt)] "none" "none")].

(** [model/phi3/phi3_model.py] *)
Definition Phi3ForCausalLM_create_paged_kv_cache (c : Config) : res (dict KVArg) :=
  let? d1 := nat_div (int c "num_attention_heads") (shards c) in
  let? d2 := nat_div (int c "num_key_value_heads") (shards c) in
  Ok [
    ("attn_kind", KStr "mha");
    ("max_batch_size", KVar "max_batch_size");
    ("max_total_seq_len", KVar "max_total_seq_len");
    ("prefill_chunk_size", KVar "prefill_chunk_size");
    ("page_size", KVar "page_size");
    ("support_sliding_window", KVar "support_sliding_window");
    ("num_hidden_layers", KNat (int c "num_hidden_layers"));
    ("num_attention_heads", KNat d1);
    ("num_key_value_heads", KNat d2);
    ("qk_head_dim", KNat (int c "head_dim"));
    ("v_head_dim", KNat (int c "head_dim"));
    ("rope_mode", KStr "NORMAL");
    ("rope_scaling", KConf "rope_scaling");
    ("rope_scale", KInt 1);
    ("rope_theta", KConf "position_embedding_base");
    ("rope_ext_factors", if is_None c "rope_scaling" then KNone else KConf "rope_scaling.long_factor");
    ("dtype", KDtype)].

Definition Phi3ForCausalLM_get_default_spec (c : Config) : dict FunctionSpec := [
    ("embed", mkFunctionSpec [("input_ids", STensor [DVar "seq_len"] (TLit "int32"))] "packed" "none");
    ("prefill", mkFunctionSpec [("input_embed", STensor [DNat 1; DVar "seq_len"; DNat (int c "hidden_size")] TSelf);
      ("paged_kv_cache", SObject "PagedKVCache")] "packed" "none");
    ("decode", mkFunctionSpec [("input_embed", STensor [DNat 1; DNat 1; DNat (int c "hidden_size")] TSelf);
      ("paged_kv_cache", SObject "PagedKVCache")] "packed" "none");
    ("batch_prefill", mkFunctionSpec [("input_embeds", STensor [DNat 1; DVar "seq_len"; DNat (int c "hidden_size")] TSelf);
      ("logit_positions", STensor [DVar "batch_size"] (TLit "int32"));
      ("paged_kv_cache", SObject "PagedKVCache")] "packed" "none");
    ("batch_decode", mkFunctionSpec [("input_embeds", STensor [DVar "batch_size"; DNat 1; DNat (int c "hidden_size")] TSelf);
      ("paged_kv_cache", SObject "PagedKVCache")] "packed" "none");
    ("batch_verify", mkFunctionSpec [("input_embeds", STensor [DNat 1; DVar "seq_len"; DNat (int c "hidden_size")] TSelf);
      ("paged_kv_cache", SObject "PagedKVCache")] "packed" "none");
    ("create_paged_kv_cache", mkFunctionSpec [("max_batch_size", SInt);
      ("max_total_seq_len", SInt);
      ("prefill_chunk_size", SInt);
      ("page_size", SInt);
      ("support_sliding_window", SInt)] "none" "none")].

(** [model/phi3v/phi3v_model.py] *)
Definition Phi3VForCausalLM_create_paged_kv_cache (c : Config) : res (dict KVArg) :=
  let? d1 := nat_div (int c "num_attention_heads") (shards c) in
  let? d2 := nat_div (int c "num_key_value_heads") (shards c) in
  Ok [
    ("attn_kind", KStr "mha");
    ("max_batch_size", KVar "max_batch_size");
    ("max_total_seq_len", KVar "max_total_seq_len");
    ("prefill_chunk_size", KVar "prefill_chunk_size");
    ("page_size", KVar "page_size");
    ("support_sliding_window", KVar "support_sliding_window");
    ("num_hidden_layers", KNat (int c "num_hidden_layers"));
    ("num_attention_heads", KNat d1);
    ("num_key_value_heads", KNat d2);
    ("qk_head_dim", KNat (int c "head_dim"));
    ("v_head_dim", KNat (int c "head_dim"));
    ("rope_mode", KStr "NORMAL");
    ("rope_scaling", KConf "rope_scaling");
    ("rope_scale", KInt 1);
    ("rope_theta", KConf "position_embedding_base");
    ("rope_ext_factors", if is_None c "rope_scaling" then KNone else KConf "rope_scaling.long_factor");
    ("dtype", KDtype)].

Definition Phi3VForCausalLM_get_default_spec (c : Config) : dict FunctionSpec := [
    ("embed", mkFunctionSpec [("input_ids", STensor [DVar "seq_len"] (TLit "int32"))] "packed" "none");
    ("image_embed", mkFunctionSpec [("pixel_values", STensor [DNat 1; DVar "image_height"; DVar "image_width"; DNat 3] (TLit "uint8"));
      ("resized_height", SInt);
      ("resized_width", SInt);
      ("crop_height", SInt);
      ("crop_width", SInt)] "packed" "none");
    ("prefill", mkFunctionSpec [("input_embed", STensor [DNat 1; DVar "seq_len"; DNat (int c "hidden_size")] TSelf);
      ("paged_kv_cache", SObject "PagedKVCache")] "packed" "none");
    ("decode", mkFunctionSpec [("input_embed", STensor [DNat 1; DNat 1; DNat (int c "hidden_size")] TSelf);
      ("paged_kv_cache", SObject "PagedKVCache")] "packed" "none");
    ("batch_prefill", mkFunctionSpec [("input_embeds", STensor [DNat 1; DVar "seq_len"; DNat (int c "hidden_size")] TSelf);
      ("logit_positions", STensor [DVar "batch_size"] (TLit "int32"));
      ("paged_kv_cache", SObject "PagedKVCache")] "packed" "none");
    ("batch_decode", mkFunctionSpec [("input_embeds", STensor [DVar "batch_size"; DNat 1; DNat (int c "hidden_size")] TSelf);
      ("paged_kv_cache", SObject "PagedKVCache")] "packed" "none");
    ("batch_verify", mkFunctionSpec [("input_embeds", STensor [DNat 1; DVar "seq_len"; DNat (int c "hidden_size")] TSelf);
      ("paged_kv_cache", SObject "PagedKVCache")] "packed" "none");
    ("create_paged_kv_cache", mkFunctionSpec [("max_batch_size", SInt);
      ("max_total_seq_len", SInt);
      ("prefill_chunk_size", SInt);
      ("page_size", SInt);
      ("support_sliding_window", SInt)] "none" "none")].

(** [model/qwen/qwen_model.py] *)
Definition QWenLMHeadModel_create_paged_kv_cache (c : Config) : res (dict KVArg) :=
  let? d1 := nat_div (int c "num_attention_heads") (shards c) in
  let? d2 := nat_div (int c "num_attention_heads") (shards c) in
  Ok [
    ("attn_kind", KStr "mha");
    ("max_batch_size", KVar "max_batch_size");
    ("max_total_seq_len", KVar "max_total_seq_len");
    ("prefill_chunk_size", KVar "prefill_chunk_size");
    ("page_size", KVar "page_size");
    ("support_sliding_window", KVar "support_sliding_window");
    ("num_hidden_layers", KNat (int c "num_hidden_layers"));
    ("num_attention_heads", KNat d1);
    ("num_key_value_heads", KNat d2);
    ("qk_head_dim", KNat (int c "head_dim"));
    ("v_head_dim", KNat (int c "head_dim"));
    ("rope_mode", KStr "NORMAL");
    ("rope_scale", KInt 1);
    ("rope_theta", KConf "rotary_emb_base");
    ("dtype", KDtype)].

Definition QWenLMHeadModel_get_default_spec (c : Config) : dict FunctionSpec := [
    ("embed", mkFunctionSpec [("input_ids", STensor [DVar "seq_len"] (TLit "int32"))] "packed" "none");
    ("prefill", mkFunctionSpec [("inputs", STensor [DNat 1; DVar "seq_len"; DNat (int c "hidden_size")] TSelf);
      ("paged_kv_cache", SObject "PagedKVCache")] "packed" "none");
    ("decode", mkFunctionSpec [("inputs", STensor [DNat 1; DNat 1; DNat (int c "hidden_size")] TSelf);
      ("paged_kv_cache", SObject "PagedKVCache")] "packed" "none");
    ("batch_prefill", mkFunctionSpec [("inputs", STensor [DNat 1; DVar "seq_len"; DNat (int c "hidden_size")] TSelf);
      ("logit_positions", STensor [DVar "batch_size"] (TLit "int32"));
      ("paged_kv_cache", SObject "PagedKVCache")] "packed" "none");
    ("batch_decode", mkFunctionSpec [("inputs", STensor [DVar "batch_size"; DNat 1; DNat (int c "hidden_size")] TSelf);
      ("paged_kv_cache", SObject "PagedKVCache")] "packed" "none");
    ("batch_verify", mkFunctionSpec [("inputs", STensor [DNat 1; DVar "seq_len"; DNat (int c "hidden_size")] TSelf);
      ("paged_kv_cache", SObject "PagedKVCache")] "packed" "none");
    ("create_paged_kv_cache", mkFunctionSpec [("max_batch_size", SInt);
      ("max_total_seq_len", SInt);
      ("prefill_chunk_size", SInt);
      ("page_size", SInt);
      ("support_sliding_window", SInt)] "none" "none")].

(** [model/qwen2/qwen2_model.py] *)
Definition QWen2LMHeadModel_create_paged_kv_cache (c : Config) : res (dict KVArg) :=
  let? d1 := nat_div (int c "num_attention_heads") (shards c) in
  let? d2 := nat_div (int c "num_key_value_heads") (shards c) in
  Ok [
    ("attn_kind", KStr "mha");
    ("max_batch_size", KVar "max_batch_size");
    ("max_total_seq_len", KVar "max_total_seq_len");
    ("prefill_chunk_size", KVar "prefill_chunk_size");
    ("page_size", KVar "page_size");
    ("support_sliding_window", KVar "support_sliding_window");
    ("num_hidden_layers", KNat (int c "num_hidden_layers"));
    ("num_attention_heads", KNat d1);
    ("num_key_value_heads", KNat d2);
    ("qk_head_dim", KNat (int c "head_dim"));
    ("v_head_dim", KNat (int c "head_dim"));
    ("rope_mode", KStr "NORMAL");
    ("rope_scale", KInt 1);
    ("rope_theta", KConf "rope_theta");
    ("dtype", KDtype)].

Definition QWen2LMHeadModel_get_default_spec (c : Config) : dict FunctionSpec := [
    ("embed", mkFunctionSpec [("input_ids", STensor [DVar "seq_len"] (TLit "int32"))] "packed" "none");
    ("prefill", mkFunctionSpec [("input_embed", STensor [DNat 1; DVar "seq_len"; DNat (int c "hidden_size")] TSelf);
      ("paged_kv_cache", SObject "PagedKVCache")] "packed" "none");
    ("decode", mkFunctionSpec [("input_embed", STensor [DNat 1; DNat 1; DNat (int c "hidden_size")] TSelf);
      ("paged_kv_cache", SObject "PagedKVCache")] "packed" "none");
    ("batch_prefill", mkFunctionSpec [("input_embeds", STensor [DNat 1; DVar "seq_len"; DNat (int c "hidden_size")] TSelf);
      ("logit_positions", STensor [DVar "batch_size"] (TLit "int32"));
      ("paged_kv_cache", SObject "PagedKVCache")] "packed" "none");
    ("batch_decode", mkFunctionSpec [("input_embeds", STensor [DVar "batch_size"; DNat 1; DNat (int c "hidden_size")] TSelf);
      ("paged_kv_cache", SObject "PagedKVCache")] "packed" "none");
    ("batch_verify", mkFunctionSpec [("input_embeds", STensor [DNat 1; DVar "seq_len"; DNat (int c "hidden_size")] TSelf);
      ("paged_kv_cache", SObject "PagedKVCache")] "packed" "none");
    ("create_paged_kv_cache", mkFunctionSpec [("max_batch_size", SInt);
      ("max_total_seq_len", SInt);
      ("prefill_chunk_size", SInt);
      ("page_size", SInt);
      ("support_sliding_window", SInt)] "none" "none")].

(** [model/qwen2_moe/qwen2_moe_model.py] *)
Definition Qwen2MoeForCausalLM_create_paged_kv_cache (c : Config) : res (dict KVArg) :=
  let? d1 := nat_div (int c "num_attention_heads") (shards c) in
  let? d2 := nat_div (int c "num_key_value_heads") (shards c) in
  Ok [
    ("attn_kind", KStr "mha");
    ("max_batch_size", KVar "max_batch_size");
    ("max_total_seq_len", KVar "max_total_seq_len");
    ("prefill_chunk_size", KVar "prefill_chunk_size");
    ("page_size", KVar "page_size");
    ("support_sliding_window", KVar "support_sliding_window");
    ("num_hidden_layers", KNat (int c "num_hidden_layers"));
    ("num_attention_heads", KNat d1);
    ("num_key_value_heads", KNat d2);
    ("qk_head_dim", KNat (int c "head_dim"));
    ("v_head_dim", KNat (int c "head_dim"));
    ("rope_mode", KStr "NORMAL");
    ("rope_scale", KInt 1);
    ("rope_theta", KConf "rope_theta");
    ("dtype", KDtype)].

Definition Qwen2MoeForCausalLM_get_default_spec (c : Config) : dict FunctionSpec := [
    ("embed", mkFunctionSpec [("input_ids", STensor [DVar "seq_len"] (TLit "int32"))] "packed" "none");
    ("prefill", mkFunctionSpec [("input_embed", STensor [DNat 1; DVar "seq_len"; DNat (int c "hidden_size")] TSelf);
      ("paged_kv_cache", SObject "PagedKVCache")] "packed" "none");
    ("decode", mkFunctionSpec [("input_embed", STensor [DNat 1; DNat 1; DNat (int c "hidden_size")] TSelf);
      ("paged_kv_cache", SObject "PagedKVCache")] "packed" "none");
    ("batch_prefill", mkFunctionSpec [("input_embeds", STensor [DNat 1; DVar "seq_len"; DNat (int c "hidden_size")] TSelf);
      ("logit_positions", STensor [DVar "batch_size"] (TLit "int32"));
      ("paged_kv_cache", SObject "PagedKVCache")] "packed" "none");
    ("batch_decode", mkFunctionSpec [("input_embeds", STensor [DVar "batch_size"; DNat 1; DNat (int c "hidden_size")] TSelf);
      ("paged_kv_cache", SObject "PagedKVCache")] "packed" "none");
    ("batch_verify", mkFunctionSpec [("input_embeds", STensor [DNat 1; DVar "seq_len"; DNat (int c "hidden_size")] TSelf);
      ("paged_kv_cache", SObject "PagedKVCache")] "packed" "none");
    ("create_paged_kv_cache", mkFunctionSpec [("max_batch_size", SInt);
      ("max_total_seq_len", SInt);
      ("prefill_chunk_size", SInt);
      ("page_size", SInt);
      ("support_sliding_window", SInt)] "none" "none")].

(** [model/qwen3/qwen3_model.py] *)
Definition Qwen3LMHeadModel_create_paged_kv_cache (c : Config) : res (dict KVArg) :=
  let? d1 := nat_div (int c "num_attention_heads") (shards c) in
  let? d2 := nat_div (int c "num_key_value_heads") (shards c) in
  Ok [
    ("attn_kind", KStr "mha");
    ("max_batch_size", KVar "max_batch_size");
    ("max_total_seq_len", KVar "max_total_seq_len");
    ("prefill_chunk_size", KVar "prefill_chunk_size");
    ("page_size", KVar "page_size");
    ("support_sliding_window", KVar "support_sliding_window");
    ("num_hidden_layers", KNat (int c "num_hidden_layers"));
    ("num_attention_heads", KNat d1);
    ("num_key_value_heads", KNat d2);
    ("qk_head_dim", KNat (int c "head_dim"));
    ("v_head_dim", KNat (int c "head_dim"));
    ("rope_mode", KStr "NORMAL");
    ("rope_scale", KInt 1);
    ("rope_theta", KConf "rope_theta");
    ("dtype", KDtype)].

Definition Qwen3LMHeadModel_get_default_spec (c : Config) : dict FunctionSpec := [
    ("embed", mkFunctionSpec [("input_ids", STensor [DVar "seq_len"] (TLit "int32"))] "packed" "none");
    ("prefill", mkFunctionSpec [("input_embed", STensor [DNat 1; DVar "seq_len"; DNat (int c "hidden_size")] TSelf);
      ("paged_kv_cache", SObject "PagedKVCache")] "packed" "none");
    ("decode", mkFunctionSpec [("input_embed", STensor [DNat 1; DNat 1; DNat (int c "hidden_size")] TSelf);
      ("paged_kv_cache", SObject "PagedKVCache")] "packed" "none");
    ("batch_prefill", mkFunctionSpec [("input_embeds", STensor [DNat 1; DVar "seq_len"; DNat (int c "hidden_size")] TSelf);
      ("logit_positions", STensor [DVar "batch_size"] (TLit "int32"));
      ("paged_kv_cache", SObject "PagedKVCache")] "packed" "none");
    ("batch_decode", mkFunctionSpec [("input_embeds", STensor [DVar "batch_size"; DNat 1; DNat (int c "hidden_size")] TSelf);
      ("paged_kv_cache", SObject "PagedKVCache")] "packed" "none");
    ("batch_verify", mkFunctionSpec [("input_embeds", STensor [DNat 1; DVar "seq_len"; DNat (int c "hidden_size")] TSelf);
      ("paged_kv_cache", SObject "PagedKVCache")] "packed" "none");
    ("create_paged_kv_cache", mkFunctionSpec [("max_batch_size", SInt);
      ("max_total_seq_len", SInt);
      ("prefill_chunk_size", SInt);
      ("page_size", SInt);
      ("support_sliding_window", SInt)] "none" "none")].

(** [model/qwen3_moe/qwen3_moe_model.py] *)
Definition Qwen3MoeForCausalLM_create_paged_kv_cache (c : Config) : res (dict KVArg) :=
  let? d1 := nat_div (int c "num_attention_heads") (shards c) in
  let? d2 := nat_div (int c "num_key_value_heads") (shards c) in
  Ok [
    ("attn_kind", KStr "mha");
    ("max_batch_size", KVar "max_batch_size");
    ("max_total_seq_len", KVar "max_total_seq_len");
    ("prefill_chunk_size", KVar "prefill_chunk_size");
    ("page_size", KVar "page_size");
    ("support_sliding_window", KVar "support_sliding_window");
    ("num_hidden_layers", KNat (int c "num_hidden_layers"));
    ("num_attention_heads", KNat d1);
    ("num_key_value_heads", KNat d2);
    ("qk_head_dim", KNat (int c "head_dim"));
    ("v_head_dim", KNat (int c "head_dim"));
    ("rope_mode", KStr "NORMAL");
    ("rope_scale", KInt 1);
    ("rope_theta", KConf "rope_theta");
    ("dtype", KDtype)].

Definition Qwen3MoeForCausalLM_get_default_spec (c : Config) : dict FunctionSpec := [
    ("embed", mkFunctionSpec [("input_ids", STensor [DVar "seq_len"] (TLit "int32"))] "packed" "none");
    ("prefill", mkFunctionSpec [("input_embed", STensor [DNat 1; DVar "seq_len"; DNat (int c "hidden_size")] TSelf);
      ("paged_kv_cache", SObject "PagedKVCache")] "packed" "none");
    ("decode", mkFunctionSpec [("input_embed", STensor [DNat 1; DNat 1; DNat (int c "hidden_size")] TSelf);
      ("paged_kv_cache", SObject "PagedKVCache")] "packed" "none");
    ("batch_prefill", mkFunctionSpec [("input_embeds", STensor [DNat 1; DVar "seq_len"; DNat (int c "hidden_size")] TSelf);
      ("logit_positions", STensor [DVar "batch_size"] (TLit "int32"));
      ("paged_kv_cache", SObject "PagedKVCache")] "packed" "none");
    ("batch_decode", mkFunctionSpec [("input_embeds", STensor [DVar "batch_size"; DNat 1; DNat (int c "hidden_size")] TSelf);
      ("paged_kv_cache", SObject "PagedKVCache")] "packed" "none");
    ("batch_verify", mkFunctionSpec [("input_embeds", STensor [DNat 1; DVar "seq_len"; DNat (int c "hidden_size")] TSelf);
      ("paged_kv_cache", SObject "PagedKVCache")] "packed" "none");
    ("create_paged_kv_cache", mkFunctionSpec [("max_batch_size", SInt);
      ("max_total_seq_len", SInt);
      ("prefill_chunk_size", SInt);
      ("page_size", SInt);
      ("support_sliding_window", SInt)] "none" "none")].

(** [model/rwkv5/rwkv5_model.py] *)
Definition RWKV5_ForCasualLM_get_default_spec (c : Config) : dict FunctionSpec := [
    ("embed", mkFunctionSpec [("input_ids", STensor [DVar "seq_len"] (TLit "int32"))] "packed" "none");
    ("prefill", mkFunctionSpec [("input_embed", STensor [DNat 1; DVar "seq_len"; DNat (int c "hidden_size")] TSelf);
      ("state", SObject "RNNState")] "packed" "none");
    ("decode", mkFunctionSpec [("input_embed", STensor [DNat 1; DNat 1; DNat (int c "hidden_size")] TSelf);
      ("state", SObject "RNNState")] "packed" "none");
    ("batch_prefill", mkFunctionSpec [("input_embeds", STensor [DNat 1; DVar "seq_len"; DNat (int c "hidden_size")] TSelf);
      ("logit_positions", STensor [DVar "batch_size"] (TLit "int32"));
      ("state", SObject "RNNState")] "packed" "none");
    ("batch_decode", mkFunctionSpec [("input_embeds", STensor [DVar "batch_size"; DNat 1; DNat (int c "hidden_size")] TSelf);
      ("state", SObject "RNNState")] "packed" "none");
    ("batch_verify", mkFunctionSpec [("input_embeds", STensor [DNat 1; DVar "seq_len"; DNat (int c "hidden_size")] TSelf);
      ("state", SObject "RNNState")] "packed" "none");
    ("create_rnn_state", mkFunctionSpec [("max_batch_size", SInt);
      ("max_history", SInt)] "none" "none")].

(** [model/rwkv6/rwkv6_model.py] *)
Definition RWKV6_ForCasualLM_get_default_spec (c : Config) : dict FunctionSpec := [
    ("embed", mkFunctionSpec [("input_ids", STensor [DVar "seq_len"] (TLit "int32"))] "packed" "none");
    ("prefill", mkFunctionSpec [("input_embed", STensor [DNat 1; DVar "seq_len"; DNat (int c "hidden_size")] TSelf);
      ("state", SObject "RNNState")] "packed" "none");
    ("decode", mkFunctionSpec [("input_embed", STensor [DNat 1; DNat 1; DNat (int c "hidden_size")] TSelf);
      ("state", SObject "RNNState")] "packed" "none");
    ("batch_prefill", mkFunctionSpec [("input_embeds", STensor [DNat 1; DVar "seq_len"; DNat (int c "hidden_size")] TSelf);
      ("logit_positions", STensor [DVar "batch_size"] (TLit "int32"));
      ("state", SObject "RNNState")] "packed" "none");
    ("batch_decode", mkFunctionSpec [("input_embeds", STensor [DVar "batch_size"; DNat 1; DNat (int c "hidden_size")] TSelf);
      ("state", SObject "RNNState")] "packed" "none");
    ("batch_verify", mkFunctionSpec [("input_embeds", STensor [DNat 1; DVar "seq_len"; DNat (int c "hidden_size")] TSelf);
      ("state", SObject "RNNState")] "packed" "none");
    ("create_rnn_state", mkFunctionSpec [("max_batch_size", SInt);
      ("max_history", SInt)] "none" "none")].

(** [model/stable_lm/stablelm_model.py] *)
Definition StableLmForCausalLM_create_paged_kv_cache (c : Config) : res (dict KVArg) :=
  let? d1 := nat_div (int c "num_attention_heads") (shards c) in
  let? d2 := nat_div (int c "num_key_value_heads") (shards c) in
  Ok [
    ("attn_kind", KStr "mha");
    ("max_batch_size", KVar "max_batch_size");
    ("max_total_seq_len", KVar "max_total_seq_len");
    ("prefill_chunk_size", KVar "prefill_chunk_size");
    ("page_size", KVar "page_size");
    ("support_sliding_window", KVar "support_sliding_window");
    ("num_hidden_layers", KNat (int c "num_hidden_layers"));
    ("num_attention_heads", KNat d1);
    ("num_key_value_heads", KNat d2);
    ("qk_head_dim", KNat (int c "head_dim"));
    ("v_head_dim", KNat (int c "head_dim"));
    ("rope_mode", KStr "NORMAL");
    ("rope_scale", KInt 1);
    ("rope_theta", KConf "rope_theta");
    ("dtype", KDtype);
    ("rotary_dim", KTrunc (int c "head_dim") (real c "partial_rotary_factor"))].

Definition StableLmForCausalLM_get_default_spec (c : Config) : dict FunctionSpec := [
    ("embed", mkFunctionSpec [("input_ids", STensor [DVar "seq_len"] (TLit "int32"))] "packed" "none");
    ("prefill", mkFunctionSpec [("input_embed", STensor [DNat 1; DVar "seq_len"; DNat (int c "hidden_size")] TSelf);
      ("paged_kv_cache", SObject "PagedKVCache")] "packed" "none");
    ("decode", mkFunctionSpec [("input_embed", STensor [DNat 1; DNat 1; DNat (int c "hidden_size")] TSelf);
      ("paged_kv_cache", SObject "PagedKVCache")] "packed" "none");
    ("batch_prefill", mkFunctionSpec [("input_embeds", STensor [DNat 1; DVar "seq_len"; DNat (int c "hidden_size")] TSelf);
      ("logit_positions", STensor [DVar "batch_size"] (TLit "int32"));
      ("paged_kv_cache", SObject "PagedKVCache")] "packed" "none");
    ("batch_decode", mkFunctionSpec [("input_embeds", STensor [DVar "batch_size"; DNat 1; DNat (int c "hidden_size")] TSelf);
      ("paged_kv_cache", SObject "PagedKVCache")] "packed" "none");
    ("batch_verify", mkFunctionSpec [("input_embeds", STensor [DNat 1; DVar "seq_len"; DNat (int c "hidden_size")] TSelf);
      ("paged_kv_cache", SObject "PagedKVCache")] "packed" "none");
    ("create_paged_kv_cache", mkFunctionSpec [("max_batch_size", SInt);
      ("max_total_seq_len", SInt);
      ("prefill_chunk_size", SInt);
      ("page_size", SInt);
      ("support_sliding_window", SInt)] "none" "none")].

(** [model/starcoder2/starcoder2_model.py] *)
Definition Starcoder2ForCausalLM_create_paged_kv_cache (c : Config) : res (dict KVArg) :=
  let? d1 := nat_div (int c "num_attention_heads") (shards c) in
  let? d2 := nat_div (int c "num_key_value_heads") (shards c) in
  Ok [
    ("attn_kind", KStr "mha");
    ("max_batch_size", KVar "max_batch_size");
    ("max_total_seq_len", KVar "max_total_seq_len");
    ("prefill_chunk_size", KVar "prefill_chunk_size");
    ("page_size", KVar "page_size");
    ("support_sliding_window", KVar "support_sliding_window");
    ("num_hidden_layers", KNat (int c "num_hidden_layers"));
    ("num_attention_heads", KNat d1);
    ("num_key_value_heads", KNat d2);
    ("qk_head_dim", KNat (int c "head_dim"));
    ("v_head_dim", KNat (int c "head_dim"));
    ("rope_mode", KStr "NORMAL");
    ("rope_scale", KInt 1);
    ("rope_theta", KConf "rope_theta");
    ("dtype", KDtype)].

Definition Starcoder2ForCausalLM_get_default_spec (c : Config) : dict FunctionSpec := [
    ("embed", mkFunctionSpec [("input_ids", STensor [DVar "seq_len"] (TLit "int32"))] "packed" "none");
    ("prefill", mkFunctionSpec [("input_embed", STensor [DNat 1; DVar "seq_len"; DNat (int c "hidden_size")] TSelf);
      ("paged_kv_cache", SObject "PagedKVCache")] "packed" "none");
    ("decode", mkFunctionSpec [("input_embed", STensor [DNat 1; DNat 1; DNat (int c "hidden_size")] TSelf);
      ("paged_kv_cache", SObject "PagedKVCache")] "packed" "none");
    ("batch_prefill", mkFunctionSpec [("input_embeds", STensor [DNat 1; DVar "seq_len"; DNat (int c "hidden_size")] TSelf);
      ("logit_positions", STensor [DVar "batch_size"] (TLit "int32"));
      ("paged_kv_cache", SObject "PagedKVCache")] "packed" "none");
    ("batch_decode", mkFunctionSpec [("input_embeds", STensor [DVar "batch_size"; DNat 1; DNat (int c "hidden_size")] TSelf);
      ("paged_kv_cache", SObject "PagedKVCache")] "packed" "none");
    ("batch_verify", mkFunctionSpec [("input_embeds", STensor [DNat 1; DVar "seq_len"; DNat (int c "hidden_size")] TSelf);
      ("paged_kv_cache", SObject "PagedKVCache")] "packed" "none");
    ("create_paged_kv_cache", mkFunctionSpec [("max_batch_size", SInt);
      ("max_total_seq_len", SInt);
      ("prefill_chunk_size", SInt);
      ("page_size", SInt);
      ("support_sliding_window", SInt)] "none" "none")].
