(* ===== verification/LlamaModel.v ===== *)
(** * Llama ([model/llama/llama_model.py])

    The feed-forward network, the attention, the decoder layer with its sharding
    strategies, the model with its pipeline stages, and the functions of
    [LlamaForCausalLM] that are compiled for the engine.

    The weights of a model are given by module: [w_layers i] are those of
    [model.layers[i]], [w_own] the others by their full names.  Element types
    are not modelled, so that the conversion of the logits to [float32] is the
    identity. *)

From stdpp Require Import base list strings.
From S2P Require Import Prelude PyNum ModelConfig Spmd TensorOps TensorParallel KvCache Network.
Local Open Scope nat_scope.

Definition LlamaFFN_init (c : Config) : res FfnModule :=
  let? _ := check_split c "intermediate_size" in
  let? i := per_shard c "intermediate_size" in
  Ok (mkFfn i "silu" false false
    (Linear "gate_up_proj" (int c "hidden_size") (2 * i) false ++
     Linear "down_proj" i (int c "hidden_size") false)).

Definition LlamaAttention_init (c : Config) : res AttentionModule :=
  let head_dim := int c "head_dim" in
  let? num_q_heads := per_shard c "num_attention_heads" in
  let? _ := assert_split c "num_key_value_heads" in
  let? _ := assert_at_least c "num_key_value_heads" in
  let? num_kv_heads := per_shard c "num_key_value_heads" in
  Ok (mkAttention head_dim num_q_heads num_kv_heads false false
    (Linear "qkv_proj" (int c "hidden_size") ((num_q_heads + 2 * num_kv_heads) * head_dim) false ++
     Linear "o_proj" (num_q_heads * head_dim) (int c "hidden_size") false)).

Definition LlamaDecoderLayer_init (c : Config) : res LayerModule :=
  let? self_attn := LlamaAttention_init c in
  let? mlp := LlamaFFN_init c in
  let params := submodule "self_attn" (at_params self_attn) ++ submodule "mlp" (ff_params mlp) ++
    RMSNorm "input_layernorm" (int c "hidden_size") ++ RMSNorm "post_attention_layernorm" (int c "hidden_size") in
  let hd := int c "head_dim" in
  let q := num_q_heads self_attn * hd in
  let k := num_kv_heads self_attn * hd in
  let v := num_kv_heads self_attn * hd in
  let i := intermediate_size mlp in
  let? params := _set_tp [
    ("self_attn.qkv_proj.weight"%string, mkShardSingleDim "_shard_qkv" 0 (Some [q; k; v]));
    ("self_attn.o_proj.weight"%string, mkShardSingleDim "_shard_o" 1 None);
    ("mlp.gate_up_proj.weight"%string, mkShardSingleDim "_shard_mlp_up" 0 (Some [i; i]));
    ("mlp.down_proj.weight"%string, mkShardSingleDim "_shard_mlp_down" 1 None)] params in
  Ok (mkLayer self_attn mlp (real c "rms_norm_eps") (shards c) params).

(** [LlamaModel.__init__] *)
Record ModelModule : Type := mkModel {
  md_layers : list LayerModule; layer_partition : list nat; md_norm_eps : pyfloat }.

Definition LlamaModel_init (c : Config) : res ModelModule :=
  let? r := nat_mod (int c "hidden_size") (int c "num_attention_heads") in
  let? _ := py_assert (r =? 0) in
  let? layers := rmap (fun _ => LlamaDecoderLayer_init c) (seq 0 (int c "num_hidden_layers")) in
  let stages := int c "pipeline_parallel_stages" in
  let? layers_per_stage := nat_div (int c "num_hidden_layers" + stages - 1) stages in
  Ok (mkModel layers (map (fun i => i * layers_per_stage) (seq 0 stages) ++ [int c "num_hidden_layers"])
    (real c "rms_norm_eps")).

(** [nn.Embedding(num, dim)] as the attribute [name] *)
Definition Embedding (name : string) (num dim : nat) : dict NnParam := [(dot name "weight", mkNnParam [num; dim] None)].

(** [LlamaForCausalLM.__init__]: the attributes, the parameters outside the
    layers, and the [pipeline_stages] that [_set_pp] attaches to the parameters
    of the layers, to the last norm, and to the embedding table and the head. *)
Record CausalLM : Type := mkCausalLM {
  lm_model : ModelModule; tie_word_embeddings : bool; lm_shards : nat; lm_config : Config; lm_own : dict NnParam;
  layer_stages : list (list nat); norm_stages : list nat; embed_stages : list nat }.

Definition _set_pp (c : Config) : res (list (list nat) * list nat * list nat) :=
  let stages := int c "pipeline_parallel_stages" in
  let? layers := rmap (fun layer_id =>
      let? per_stage := nat_div (int c "num_hidden_layers") stages in
      let? stage := nat_div layer_id per_stage in Ok [stage]) (seq 0 (int c "num_hidden_layers")) in
  Ok (layers, [stages - 1], seq 0 stages).

Definition LlamaForCausalLM_init (c : Config) : res CausalLM :=
  let? model := LlamaModel_init c in
  let? pp := _set_pp c in
  let '(layers, last_stage, all_stages) := pp in
  let own := Embedding "model.embed_tokens" (int c "vocab_size") (int c "hidden_size") ++
    RMSNorm "model.norm" (int c "hidden_size") ++
    (if flag c "tie_word_embeddings" then [] else Linear "lm_head" (int c "hidden_size") (int c "vocab_size") false) in
  Ok (mkCausalLM model (flag c "tie_word_embeddings") (shards c) c own layers last_stage all_stages).

(** [layer_id != 0 and layer_id in self.layer_partition] *)
Definition is_boundary (layer_partition : list nat) (layer_id : nat) : bool :=
  negb (layer_id =? 0) && existsb (Nat.eqb layer_id) layer_partition.

Section Forward.
Context `{E : Elem} {N : NnOps E} {KV : KVCache E}.

Definition LlamaFFN_forward (m : FfnModule) (W : Params E) (x : Tensor) : Tensor :=
  let concat_x1_x2 := linear W "gate_up_proj" (up_bias m) x in
  let x1 := op_split concat_x1_x2 2 0 in
  let x2 := op_split concat_x1_x2 2 1 in
  linear W "down_proj" (down_bias m) (op_mul (op_act "silu" x1) x2).

Definition LlamaAttention_forward (m : AttentionModule) (W : Params E) (hidden_states : Tensor) (c : Cache)
    (layer_id : nat) : Tensor * Cache :=
  let qkv := linear W "qkv_proj" (qkv_bias m) hidden_states in
  let '(output, c) := fused_attention (at_head_dim m) (num_q_heads m) (num_kv_heads m) (rsqrt_dim (at_head_dim m))
    hidden_states qkv c layer_id in
  (linear W "o_proj" (o_bias m) output, c).

Definition LlamaDecoderLayer_forward (m : LayerModule) (W : Params E) : Layer := fun hidden_states c layer_id =>
  let '(out, c) := LlamaAttention_forward (self_attn m) (under "self_attn" W)
    (rms_norm W "input_layernorm" (norm_eps m) hidden_states) c layer_id in
  (do hidden_states <- apply_residual (ly_shards m) out hidden_states in
   let out := LlamaFFN_forward (mlp m) (under "mlp" W)
     (rms_norm W "post_attention_layernorm" (norm_eps m) hidden_states) in
   do hidden_states <- apply_residual (ly_shards m) out hidden_states in
   Ret (hidden_states, c))%prog.

Record ModelWeights : Type := mkModelWeights { w_layers : nat -> Params E; w_own : Params E }.

(** [op_ext.pipeline_stage_boundary] before the first layer of a stage *)
Definition stage_boundary (partition : list nat) (layer_id : nat) (x : Tensor) : Tensor :=
  if is_boundary partition layer_id then op_pipeline_stage_boundary x else x.

Definition LlamaModel_forward (m : ModelModule) (W : ModelWeights) (input_embed : Tensor) (c : Cache)
  : NetProg (Tensor * Cache) :=
  (do (hidden_states, c) <- run_layers (stage_boundary (layer_partition m))
     (imap (fun i l => LlamaDecoderLayer_forward l (w_layers W i)) (md_layers m)) 0 input_embed c in
   Ret (rms_norm (w_own W) "model.norm" (md_norm_eps m) hidden_states, c))%prog.

(** [LlamaEmbedding.lm_head_forward] *)
Definition LlamaEmbedding_lm_head_forward (weight x : Tensor) : Tensor :=
  op_matmul x (op_permute_dims weight).

Section CausalLM.
Variables (m : CausalLM) (W : ModelWeights).

Definition LlamaForCausalLM_get_logits (hidden_states : Tensor) : Tensor :=
  if tie_word_embeddings m then
    LlamaEmbedding_lm_head_forward (w_own W "model.embed_tokens.weight"%string) hidden_states
  else linear (w_own W) "lm_head" false hidden_states.

Definition LlamaForCausalLM_embed (input_ids : Tensor) : NetProg Tensor :=
  (do input_ids <- ccl_broadcast (lm_shards m) input_ids in
   Ret (nn_embedding (w_own W "model.embed_tokens.weight"%string) input_ids))%prog.

Definition LlamaForCausalLM_batch_forward (input_embeds : Tensor) (c : Cache) (logit_positions : option Tensor)
  : NetProg (Tensor * Cache) :=
  (do (hidden_states, c) <- LlamaModel_forward (lm_model m) W input_embeds c in
   match logit_positions with
   | Some logit_positions =>
       do logit_positions <- ccl_broadcast (lm_shards m) logit_positions in
       Ret (LlamaForCausalLM_get_logits (op_take hidden_states logit_positions 1), c)
   | None => Ret (LlamaForCausalLM_get_logits hidden_states, c)
   end)%prog.

Definition LlamaForCausalLM_batch_forward_to_last_hidden_states (input_embeds : Tensor) (c : Cache)
  : NetProg (Tensor * Cache) := LlamaModel_forward (lm_model m) W input_embeds c.

Definition LlamaForCausalLM_batch_select_last_hidden_states (hidden_states logit_positions : Tensor)
  : NetProg Tensor :=
  (do logit_positions <- ccl_broadcast (lm_shards m) logit_positions in
   Ret (op_take hidden_states logit_positions 0))%prog.

(** [_index] of [prefill]: the last position *)
Definition index_last (x : Tensor) : Tensor :=
  let b := nth 0 (shape x) 0 in let s := nth 1 (shape x) 0 in let d := nth 2 (shape x) 0 in
  te_compute [b; 1; d] (fun idx => elem x [nth 0 idx 0; s - 1; nth 2 idx 0]).

Definition LlamaForCausalLM_prefill (input_embed : Tensor) (c : Cache) : NetProg (Tensor * Cache) :=
  (do (hidden_states, c) <- LlamaModel_forward (lm_model m) W input_embed c in
   Ret (LlamaForCausalLM_get_logits (index_last hidden_states), c))%prog.

Definition LlamaForCausalLM_decode (input_embed : Tensor) (c : Cache) : NetProg (Tensor * Cache) :=
  (do (hidden_states, c) <- LlamaModel_forward (lm_model m) W input_embed c in
   Ret (LlamaForCausalLM_get_logits hidden_states, c))%prog.

Definition LlamaForCausalLM_prefill_to_last_hidden_states (input_embed : Tensor) (c : Cache)
  : NetProg (Tensor * Cache) := LlamaModel_forward (lm_model m) W input_embed c.
Definition LlamaForCausalLM_decode_to_last_hidden_states (input_embed : Tensor) (c : Cache)
  : NetProg (Tensor * Cache) := LlamaModel_forward (lm_model m) W input_embed c.

Definition LlamaForCausalLM_batch_prefill (input_embeds logit_positions : Tensor) (c : Cache)
  : NetProg (Tensor * Cache) := LlamaForCausalLM_batch_forward input_embeds c (Some logit_positions).
Definition LlamaForCausalLM_batch_decode (input_embeds : Tensor) (c : Cache)
  : NetProg (Tensor * Cache) := LlamaForCausalLM_batch_forward input_embeds c None.
Definition LlamaForCausalLM_batch_verify (input_embeds : Tensor) (c : Cache)
  : NetProg (Tensor * Cache) := LlamaForCausalLM_batch_forward input_embeds c None.

Definition LlamaForCausalLM_batch_prefill_to_last_hidden_states (input_embeds : Tensor) (c : Cache)
  : NetProg (Tensor * Cache) := LlamaForCausalLM_batch_forward_to_last_hidden_states input_embeds c.
Definition LlamaForCausalLM_batch_decode_to_last_hidden_states (input_embeds : Tensor) (c : Cache)
  : NetProg (Tensor * Cache) := LlamaForCausalLM_batch_forward_to_last_hidden_states input_embeds c.
Definition LlamaForCausalLM_batch_verify_to_last_hidden_states (input_embeds : Tensor) (c : Cache)
  : NetProg (Tensor * Cache) := LlamaForCausalLM_batch_forward_to_last_hidden_states input_embeds c.
End CausalLM.

End Forward.
Arguments ModelWeights E : clear implicits.

