(* ===== verification/CausalModel.v ===== *)
(** * Language models on several workers

    What the language models of [model/] have in common: the functions that are
    compiled for the engine, the weights of a worker for a whole model, and the
    lemmas that carry the parallel decoder layers of [ParallelDecoders.v]
    through the embedding, the last normalization and the head. *)

From stdpp Require Import base list strings.
From S2P Require Import Prelude PyNum Spmd TensorOps TensorParallel KvCache Network LlamaModel ModelSpecs.
Local Open Scope nat_scope.

(** A language model: its decoder layers, the parameters outside them, and the
    configuration, from which its other attributes are copied. *)
Record CausalModel : Type := mkCausal {
  cm_layers : list LayerModule; cm_own : dict NnParam; cm_config : Config }.

Section Compiled.
Context `{E : Elem} {N : NnOps E} {TP : Topi E} {KV : KVCache E}.

(** The functions that are compiled for the engine. *)
Record Compiled : Type := mkCompiled {
  f_embed : Tensor -> NetProg Tensor;
  f_prefill : Tensor -> Cache -> NetProg (Tensor * Cache);
  f_decode : Tensor -> Cache -> NetProg (Tensor * Cache);
  f_batch_prefill : Tensor -> Tensor -> Cache -> NetProg (Tensor * Cache);
  f_batch_decode : Tensor -> Cache -> NetProg (Tensor * Cache);
  f_batch_verify : Tensor -> Cache -> NetProg (Tensor * Cache) }.

(** A model with its parameters and its functions on given weights. *)
Record Built : Type := mkBuilt {
  b_layers : list LayerModule; b_own : dict NnParam; b_functions : ModelWeights E -> Compiled }.

(** The weights of worker [k]. *)
Definition worker_weights (b : Built) (n k : nat) (W : ModelWeights E) : ModelWeights E :=
  mkModelWeights
    (fun i => match b_layers b !! i with
              | Some l => worker_params (ly_params l) n k (w_layers W i)
              | None => w_layers W i
              end)
    (worker_params (b_own b) n k (w_own W)).

(** The weights of the whole model have the shapes of its parameters. *)
Definition WeightsShaped (b : Built) (W : ModelWeights E) : Prop :=
  (forall i l, b_layers b !! i = Some l -> Shaped (ly_params l) (w_layers W i)) /\ Shaped (b_own b) (w_own W).

(** What every forward function of a model does: [start] to its input, the
    layers, and [norm] at the end. *)
Definition model_forward (start : Tensor -> Cache -> Tensor) (pre : nat -> Tensor -> Tensor) (layers : list Layer)
    (norm : Tensor -> Tensor) (x : Tensor) (c : Cache) : NetProg (Tensor * Cache) :=
  (do (h, c) <- run_layers pre layers 0 (start x c) c in Ret (norm h, c))%prog.

(** The positions of the logits are taken, when there are any. *)
Definition take_positions (h : Tensor) (logit_positions : option Tensor) : Tensor :=
  match logit_positions with Some p => op_take h p 1 | None => h end.
End Compiled.
Arguments Compiled E {KV}.
Arguments Built E {KV}.

Section Lemmas.
Context `{EL : ElemLaws} {N : NnOps E} {NL : NnLaws N} {TP : Topi E} {TL : TopiLaws TP}.
Context {KV : KVCache E} {KL : KVCacheLaws KV}.
Variables (n H : nat).
Hypothesis n_pos : 0 < n.

(** ** Shared notions *)

(** A function on hidden states whose output has width [V]. *)
Definition HeadOk (V : nat) (heads : nat -> Tensor -> Tensor) (head : Tensor -> Tensor) : Prop :=
  forall xs x b s, shape x = [b; s; H] -> Rep n xs x ->
  Rep n (fun k => heads k (xs k)) (head x) /\ shape (head x) = [b; s; V].

Definition StartOk (starts : nat -> Tensor -> Cache -> Tensor) (start : Tensor -> Cache -> Tensor) : Prop :=
  forall b s st st1, Hidden n b s H st st1 ->
  Rep n (fun k => starts k (fst (st k)) (snd (st k))) (start (fst st1) (snd st1)) /\
  shape (start (fst st1) (snd st1)) = shape (fst st1).

(** A program on hidden states and caches. *)
Definition ForwardOk (fs : nat -> Tensor -> Cache -> NetProg (Tensor * Cache))
    (f : Tensor -> Cache -> NetProg (Tensor * Cache)) : Prop :=
  forall b s st st1, Hidden n b s H st st1 ->
  exists y, f (fst st1) (snd st1) = Ret y /\
    Spmd ccl_sum n (fun k => fs k (fst (st k)) (snd (st k))) (fun st' => Hidden n b s H st' y).

(** The results: logits that every worker has, and caches. *)
Definition Logits (res : nat -> Tensor * Cache) (r1 : Tensor * Cache) : Prop :=
  Rep n (fun k => fst (res k)) (fst r1) /\ Caches n (fun k => snd (res k)) (snd r1).

(** The programs of the workers return what the program of one worker
    returns, logits of the shape [s]. *)
Definition Returns (s : list nat) (fs : nat -> NetProg (Tensor * Cache)) (f : NetProg (Tensor * Cache)) : Prop :=
  exists y, f = Ret y /\ shape (fst y) = s /\ Spmd ccl_sum n fs (fun res => Logits res y).

(** ** The pieces *)

Lemma start_id : StartOk (fun _ x _ => x) (fun x _ => x).
Proof. intros b s st st1 (_ & Hr & _). by split. Qed.

Lemma start_scale c : StartOk (fun _ x _ => op_scale x c) (fun x _ => op_scale x c).
Proof. intros b s st st1 (_ & Hr & _). split; [by apply Rep_scale|apply scale_shape]. Qed.

(** Embeddings of the positions of the cache. *)
Lemma start_positions (w : nat -> Tensor) w1 v : shape w1 = [v; H] -> (forall k, w k = w1) ->
  StartOk (fun k x c => op_add x (nn_embedding (w k) (get_query_positions c (nth 1 (shape x) 0))))
    (fun x c => op_add x (nn_embedding w1 (get_query_positions c (nth 1 (shape x) 0)))).
Proof.
  intros Hw Hsame b s st st1 (Hs & Hr & Hc).
  assert (Hp : shape (nn_embedding w1 (get_query_positions (snd st1) s)) = [s; H])
    by (by rewrite (embedding_shape _ _ v H), positions_shape).
  rewrite Hs. cbn [nth]. split.
  - apply (Rep_add_batch n _ _ _ _ b s H); [done|done|done|]. intros k Hk.
    rewrite (Rep_shape n _ _ k Hr Hk), Hs, Hsame. cbn [nth]. apply embedding_teq.
    by apply (positions_part n k), Hc.
  - by apply (add_batch_shape _ _ b s H).
Qed.

Lemma model_ok starts start pre (layers : nat -> list Layer) layers1 norms norm :
  StartOk starts start -> NormOk n H norms norm ->
  (forall i xs x, Rep n xs x -> Rep n (fun k => pre i (xs k)) (pre i x) /\ shape (pre i x) = shape x) ->
  (forall k, length (layers k) = length layers1) ->
  (forall i layer, layers1 !! i = Some layer ->
     exists ls, (forall k, layers k !! i = Some (ls k)) /\ LayerOk n H ls layer) ->
  ForwardOk (fun k => model_forward (starts k) pre (layers k) (norms k)) (model_forward start pre layers1 norm).
Proof.
  intros Hstart Hnorm Hpre Hlen Hlayers b s st st1 Hst. destruct (Hstart b s st st1 Hst) as [Hr Hs].
  destruct Hst as (Hs1 & _ & Hc). unfold model_forward.
  destruct (run_layers_ok n b s H pre layers layers1 Hpre Hlen Hlayers 0
    (fun k => (starts k (fst (st k)) (snd (st k)), snd (st k))) (start (fst st1) (snd st1), snd st1))
    as ([y cy] & Hy & Hspmd); [by split; [cbn [fst]; congruence|split]|]. cbn [fst snd] in Hy, Hspmd.
  rewrite Hy. cbn [pbind]. eexists. split; [reflexivity|]. eapply spmd_bind; [exact Hspmd|]. intros res Hres.
  apply (spmd_ext _ _ _ (fun k => Ret (norms k (fst (res k)), snd (res k)))); [intros k _; by destruct (res k)|].
  apply spmd_ret. exact (Hidden_norm n b s H norms norm res (y, cy) Hnorm Hres).
Qed.

Lemma layers_pre_id i xs x : Rep n xs x -> Rep n (fun k => (fun (_ : nat) (x : Tensor) => x) i (xs k)) x /\ shape x = shape x.
Proof. by split. Qed.

Lemma rep_take xs x ps p a : Rep n xs x -> Rep n ps p -> Rep n (fun k => op_take (xs k) (ps k) a) (op_take x p a).
Proof. intros Hx Hp k Hk. apply take_teq; [by apply Hx|by apply Hp]. Qed.

(** A head whose weight every worker has. *)
Lemma head_linear (w : nat -> Tensor) (b : nat -> option Tensor) w1 b1 V : (forall k, w k = w1) -> (forall k, b k = b1) ->
  shape w1 = [V; H] -> HeadOk V (fun k => nn_linear (w k) (b k)) (nn_linear w1 b1).
Proof.
  intros Hw Hb Hs xs x c t Hx Hxs. split; [|by apply (linear_shape _ _ x [c; t] V H)].
  intros k Hk. rewrite Hw, Hb. exact (Rep_linear n w1 b1 xs x [c; t] H V Hx Hs Hxs k Hk).
Qed.

(** The embedding table used as the head. *)
Lemma head_tied (w : nat -> Tensor) w1 V : (forall k, w k = w1) -> shape w1 = [V; H] ->
  HeadOk V (fun k => LlamaEmbedding_lm_head_forward (w k)) (LlamaEmbedding_lm_head_forward w1).
Proof.
  intros Hw Hs xs x c t Hx Hxs. unfold LlamaEmbedding_lm_head_forward. split.
  - intros k Hk. rewrite Hw. apply matmul_teq. by apply Hxs.
  - apply (matmul_shape x _ [c; t] H V Hx). by rewrite permute_shape, Hs.
Qed.

Lemma head_norm V norms norm heads head : NormOk n H norms norm -> HeadOk V heads head ->
  HeadOk V (fun k x => heads k (norms k x)) (fun x => head (norm x)).
Proof.
  intros Hn Hh xs x c t Hx Hxs. destruct (Hn xs x c t Hx Hxs) as [Hr Hs]. apply (Hh _ _ c t); [congruence|done].
Qed.

Lemma norm_div m : NormOk n H (fun _ x => op_div x m) (fun x => op_div x m).
Proof. intros xs x c t Hx Hxs. split; [by apply Rep_div|apply div_shape]. Qed.

(** The last position of every sequence. *)
Lemma index_last_ok xs x b s : shape x = [b; s; H] -> 0 < s -> Rep n xs x ->
  Rep n (fun k => index_last (xs k)) (index_last x) /\ shape (index_last x) = [b; 1; H].
Proof.
  intros Hx Hpos Hxs. unfold index_last. rewrite Hx. cbn [nth]. split; [|done].
  intros k Hk. destruct (Hxs k Hk) as [Hs He]. rewrite Hs, Hx. cbn [nth te_compute]. split; [done|].
  intros idx Hidx. cbn [shape elem] in *.
  apply Forall2_cons_inv_r in Hidx as (i & r & Hi & Hr & ->). apply Forall2_cons_inv_r in Hr as (j & r' & Hj & Hr & ->).
  apply Forall2_cons_inv_r in Hr as (l & r'' & Hl & Hr & ->). apply Forall2_nil_inv_r in Hr as ->.
  cbn [nth]. apply He. rewrite Hs, Hx.
  unfold inside. cbn [nth]. apply Forall2_cons; split; [lia|].
  apply Forall2_cons; split; [lia|].
  apply Forall2_cons; split; [lia|]. by apply Forall2_nil.
Qed.

(** ** The functions *)

(** The broadcast gives every worker the tensor of worker 0. *)
Lemma broadcast_0 s (xs : nat -> Tensor) x : s = n -> teq (xs 0) x ->
  Spmd ccl_sum n (fun k => ccl_broadcast s (xs k)) (fun r => Rep n r x).
Proof.
  intros -> Hx. unfold ccl_broadcast. destruct (Nat.ltb_spec 1 n) as [Hn|Hn].
  - eapply spmd_mono; [apply spmd_broadcast|]. intros r Hr k _. by rewrite Hr.
  - apply spmd_ret. intros k Hk. by assert (k = 0) as -> by lia.
Qed.

Lemma embed_ok (w : nat -> Tensor) w1 (g : Tensor -> Tensor) (ids : nat -> Tensor) V : (forall k, w k = w1) ->
  shape w1 = [V; H] ->
  (forall xs x, Rep n xs x -> Rep n (fun k => g (xs k)) (g x)) -> (forall x, shape (g x) = shape x) ->
  exists y, (do ids <- ccl_broadcast 1 (ids 0) in Ret (g (nn_embedding w1 ids)))%prog = Ret y /\
    shape y = shape (ids 0) ++ [H] /\
    Spmd ccl_sum n (fun k => do ids <- ccl_broadcast n (ids k) in Ret (g (nn_embedding (w k) ids)))%prog
      (fun res => Rep n res y).
Proof.
  intros Hw Hs Hg Hgs. unfold ccl_broadcast at 1. cbn [Nat.ltb Nat.leb pbind]. eexists. split; [reflexivity|].
  split; [rewrite Hgs; by apply (embedding_shape _ _ V)|].
  eapply spmd_bind; [by apply (broadcast_0 n ids (ids 0))|]. intros xs Hxs. apply spmd_ret. apply Hg.
  intros k Hk. rewrite Hw. apply embedding_teq. by apply Hxs.
Qed.

(** The forward function, then a function [g] of the hidden states, the
    positions and the head. *)
Lemma batch_forward_ok fs f gs g V heads head b s st st1 (positions : option ((nat -> Tensor) * Tensor)) :
  ForwardOk fs f -> NormOk n H gs g -> HeadOk V heads head -> Hidden n b s H st st1 ->
  (forall ps p, positions = Some (ps, p) -> Rep n ps p /\ length (shape p) = 1) ->
  Returns (match positions with Some (_, p) => [b; nth 0 (shape p) 0; V] | None => [b; s; V] end)
    (fun k => do (h, c) <- fs k (fst (st k)) (snd (st k)) in
       Ret (heads k (take_positions (gs k h) (option_map (fun p => fst p k) positions)), c))%prog
    (do (h, c) <- f (fst st1) (snd st1) in Ret (head (take_positions (g h) (option_map snd positions)), c))%prog.
Proof.
  intros Hf Hg Hh Hst Hpos. destruct (Hf b s st st1 Hst) as ([y cy] & Hy & Hspmd). unfold Returns. rewrite Hy. cbn [pbind].
  assert (Hres : forall res, Hidden n b s H res (y, cy) ->
    Rep n (fun k => heads k (take_positions (gs k (fst (res k))) (option_map (fun p => fst p k) positions)))
      (head (take_positions (g y) (option_map snd positions))) /\
    shape (head (take_positions (g y) (option_map snd positions))) =
      match positions with Some (_, p) => [b; nth 0 (shape p) 0; V] | None => [b; s; V] end).
  { intros res (Hs & Hr & _). cbn [fst] in Hs, Hr. destruct (Hg _ _ b s Hs Hr) as [Hr' Hs'].
    destruct positions as [[ps p]|]; cbn [option_map fst snd take_positions].
    - destruct (Hpos _ _ eq_refl) as [Hp Hl]. destruct (shape p) as [|m [|]] eqn:Ep; try done. cbn [nth].
      apply (Hh _ _ b m); [|by apply rep_take]. rewrite take_shape by (rewrite Hs', Hs; cbn; lia).
      by rewrite Hs', Hs, Ep.
    - apply (Hh _ _ b s); [congruence|done]. }
  eexists. split; [reflexivity|]. destruct Hspmd as (res & Hrun & Hhid). split; [by apply (Hres res)|].
  apply (spmd_bind ccl_sum n _ _ (fun st' => Hidden n b s H st' (y, cy))); [by exists res|]. intros res' Hres'.
  apply (spmd_ext _ _ _ (fun k => Ret (heads k (take_positions (gs k (fst (res' k)))
    (option_map (fun p => fst p k) positions)), snd (res' k)))); [intros k _; by destruct (res' k)|].
  apply spmd_ret. split; [apply (Hres res' Hres')|]. by destruct Hres' as (_ & _ & Hc).
Qed.

(** ... with the last positions *)
Lemma prefill_ok fs f gs g V heads head b s st st1 :
  ForwardOk fs f -> NormOk n H gs g -> HeadOk V heads head -> 0 < s -> Hidden n b s H st st1 ->
  Returns [b; 1; V]
    (fun k => do (h, c) <- fs k (fst (st k)) (snd (st k)) in Ret (heads k (index_last (gs k h)), c))%prog
    (do (h, c) <- f (fst st1) (snd st1) in Ret (head (index_last (g h)), c))%prog.
Proof.
  intros Hf Hg Hh Hpos Hst. destruct (Hf b s st st1 Hst) as ([y cy] & Hy & Hspmd). unfold Returns. rewrite Hy. cbn [pbind].
  assert (Hres : forall res, Hidden n b s H res (y, cy) ->
    Rep n (fun k => heads k (index_last (gs k (fst (res k))))) (head (index_last (g y))) /\
    shape (head (index_last (g y))) = [b; 1; V]).
  { intros res (Hs & Hr & _). cbn [fst] in Hs, Hr. destruct (Hg _ _ b s Hs Hr) as [Hr' Hs'].
    destruct (index_last_ok _ _ b s (eq_trans Hs' Hs) Hpos Hr') as [Hi Hsi]. by apply (Hh _ _ b 1). }
  eexists. split; [reflexivity|]. destruct Hspmd as (res & Hrun & Hhid). split; [by apply (Hres res)|].
  apply (spmd_bind ccl_sum n _ _ (fun st' => Hidden n b s H st' (y, cy))); [by exists res|]. intros res' Hres'.
  apply (spmd_ext _ _ _ (fun k => Ret (heads k (index_last (gs k (fst (res' k)))), snd (res' k))));
    [intros k _; by destruct (res' k)|].
  apply spmd_ret. split; [apply (Hres res' Hres')|]. by destruct Hres' as (_ & _ & Hc).
Qed.

(** The positions are broadcast before the forward function runs. *)
Lemma batch_prefill_ok fs f gs g V heads head b s st st1 (ps : nat -> Tensor) p m :
  ForwardOk fs f -> NormOk n H gs g -> HeadOk V heads head -> Hidden n b s H st st1 ->
  teq (ps 0) p -> shape p = [m] ->
  Returns [b; m; V]
    (fun k => do p <- ccl_broadcast n (ps k) in
       do (h, c) <- fs k (fst (st k)) (snd (st k)) in Ret (heads k (take_positions (gs k h) (Some p)), c))%prog
    (do p <- ccl_broadcast 1 p in
     do (h, c) <- f (fst st1) (snd st1) in Ret (head (take_positions (g h) (Some p)), c))%prog.
Proof.
  intros Hf Hg Hh Hst Hp Hm. unfold ccl_broadcast at 2. cbn [Nat.ltb Nat.leb pbind].
  assert (Hall : forall qs, Rep n qs p -> Returns [b; m; V]
    (fun k => do (h, c) <- fs k (fst (st k)) (snd (st k)) in Ret (heads k (take_positions (gs k h) (Some (qs k))), c))%prog
    (do (h, c) <- f (fst st1) (snd st1) in Ret (head (take_positions (g h) (Some p)), c))%prog).
  { intros qs Hqs. pose proof (batch_forward_ok fs f gs g V heads head b s st st1 (Some (qs, p)) Hf Hg Hh Hst) as Hb.
    cbn [option_map fst snd] in Hb. rewrite Hm in Hb. apply Hb. intros ps' p' [= <- <-]. by rewrite Hm. }
  destruct (Hall (fun _ => p)) as (y & Hy & Hs & _); [done|]. exists y. split; [done|]. split; [done|].
  eapply spmd_bind; [by apply (broadcast_0 n ps p)|]. intros qs Hqs. cbv beta in Hqs.
  destruct (Hall qs Hqs) as (y' & Hy' & _ & Hspmd). by assert (y' = y) as -> by congruence.
Qed.

(** The same with the broadcast behind the forward function. *)
Lemma late_prefill_ok fs f V heads head b s st st1 (ps : nat -> Tensor) p m :
  ForwardOk fs f -> HeadOk V heads head -> Hidden n b s H st st1 -> teq (ps 0) p -> shape p = [m] ->
  Returns [b; m; V]
    (fun k => do (h, c) <- fs k (fst (st k)) (snd (st k)) in
       do p <- ccl_broadcast n (ps k) in Ret (heads k (op_take h p 1), c))%prog
    (do (h, c) <- f (fst st1) (snd st1) in do p <- ccl_broadcast 1 p in Ret (head (op_take h p 1), c))%prog.
Proof.
  intros Hf Hh Hst Hp Hm. destruct (Hf b s st st1 Hst) as ([y cy] & Hy & Hspmd). unfold Returns. rewrite Hy.
  unfold ccl_broadcast at 2. cbn [Nat.ltb Nat.leb pbind].
  assert (Hres : forall res qs, Hidden n b s H res (y, cy) -> Rep n qs p ->
    Rep n (fun k => heads k (op_take (fst (res k)) (qs k) 1)) (head (op_take y p 1)) /\
    shape (head (op_take y p 1)) = [b; m; V]).
  { intros res qs (Hs & Hr & _) Hqs. cbn [fst] in Hs, Hr. apply (Hh _ _ b m); [|by apply rep_take].
    rewrite take_shape by (rewrite Hs; cbn; lia). by rewrite Hs, Hm. }
  eexists. split; [reflexivity|]. destruct Hspmd as (res & Hrun & Hhid).
  split; [by apply (Hres res (fun _ => p))|].
  apply (spmd_bind ccl_sum n _ _ (fun st' => Hidden n b s H st' (y, cy))); [by exists res|]. intros res' Hres'.
  apply (spmd_ext _ _ _ (fun k => pbind (ccl_broadcast n (ps k)) (fun p =>
    Ret (heads k (op_take (fst (res' k)) p 1), snd (res' k))))); [intros k _; by destruct (res' k)|].
  eapply spmd_bind; [by apply (broadcast_0 n ps p)|]. intros qs Hqs. cbv beta in Hqs. apply spmd_ret.
  split; [by apply (Hres res' qs)|]. by destruct Hres' as (_ & _ & Hc).
Qed.

(** ** Compiled functions *)

(** On [n] workers the functions return on every worker what they return on
    one worker, and the caches stay parts of the whole cache: the embeddings
    of the tokens of worker 0, and logits over [V] tokens for the last
    position, for every position, or for the positions given to worker 0. *)
Definition Correct (V : nat) (Fs : nat -> Compiled E) (F1 : Compiled E) : Prop :=
  (forall ids : nat -> Tensor,
     exists y, f_embed F1 (ids 0) = Ret y /\ shape y = shape (ids 0) ++ [H] /\
       Spmd ccl_sum n (fun k => f_embed (Fs k) (ids k)) (fun res => Rep n res y)) /\
  (forall b s st st1, Hidden n b s H st st1 ->
     (0 < s -> Returns [b; 1; V] (fun k => f_prefill (Fs k) (fst (st k)) (snd (st k)))
        (f_prefill F1 (fst st1) (snd st1))) /\
     Returns [b; s; V] (fun k => f_decode (Fs k) (fst (st k)) (snd (st k))) (f_decode F1 (fst st1) (snd st1)) /\
     Returns [b; s; V] (fun k => f_batch_decode (Fs k) (fst (st k)) (snd (st k)))
       (f_batch_decode F1 (fst st1) (snd st1)) /\
     Returns [b; s; V] (fun k => f_batch_verify (Fs k) (fst (st k)) (snd (st k)))
       (f_batch_verify F1 (fst st1) (snd st1)) /\
     forall (ps : nat -> Tensor) m, shape (ps 0) = [m] ->
       Returns [b; m; V] (fun k => f_batch_prefill (Fs k) (fst (st k)) (ps k) (snd (st k)))
         (f_batch_prefill F1 (fst st1) (ps 0) (snd st1))).

(** The functions of a model by its pieces. *)
Definition compiled_of (shards : nat) (w : Tensor) (scale g head : Tensor -> Tensor)
    (f : Tensor -> Cache -> NetProg (Tensor * Cache)) : Compiled E :=
  let forward (p : option Tensor) x c :=
    (do (h, c) <- f x c in Ret (head (take_positions (g h) p), c))%prog in
  mkCompiled (fun ids => do ids <- ccl_broadcast shards ids in Ret (scale (nn_embedding w ids)))%prog
    (fun x c => do (h, c) <- f x c in Ret (head (index_last (g h)), c))%prog
    (forward None) (fun x p c => do p <- ccl_broadcast shards p in forward (Some p) x c)%prog
    (forward None) (forward None).

Lemma compiled_correct V (w : nat -> Tensor) w1 scale gs g heads head fs f :
  (forall k, w k = w1) -> shape w1 = [V; H] ->
  (forall xs x, Rep n xs x -> Rep n (fun k => scale (xs k)) (scale x)) -> (forall x, shape (scale x) = shape x) ->
  ForwardOk fs f -> NormOk n H gs g -> HeadOk V heads head ->
  Correct V (fun k => compiled_of n (w k) scale (gs k) (heads k) (fs k)) (compiled_of 1 w1 scale g head f).
Proof.
  intros Hw Hs Hscale Hss Hf Hg Hh. split; [intros ids; by apply (embed_ok w w1 scale ids V)|].
  intros b s st st1 Hst.
  pose proof (batch_forward_ok fs f gs g V heads head b s st st1 None Hf Hg Hh Hst ltac:(done)) as Hb.
  split; [intros Hpos; by apply (prefill_ok fs f gs g V heads head b s st st1)|].
  do 3 (split; [exact Hb|]). intros ps m Hm.
  by apply (batch_prefill_ok fs f gs g V heads head b s st st1 ps (ps 0) m).
Qed.

(** ... when [batch_forward] broadcasts the positions *)
Definition compiled_late (shards : nat) (w : Tensor) (head : Tensor -> Tensor)
    (f : Tensor -> Cache -> NetProg (Tensor * Cache)) : Compiled E :=
  let forward x c := (do (h, c) <- f x c in Ret (head h, c))%prog in
  mkCompiled (fun ids => do ids <- ccl_broadcast shards ids in Ret (nn_embedding w ids))%prog
    (fun x c => do (h, c) <- f x c in Ret (head (index_last h), c))%prog
    forward
    (fun x p c => do (h, c) <- f x c in do p <- ccl_broadcast shards p in Ret (head (op_take h p 1), c))%prog
    forward forward.

Lemma compiled_late_correct V (w : nat -> Tensor) w1 heads head fs f :
  (forall k, w k = w1) -> shape w1 = [V; H] -> ForwardOk fs f -> HeadOk V heads head ->
  Correct V (fun k => compiled_late n (w k) (heads k) (fs k)) (compiled_late 1 w1 head f).
Proof.
  intros Hw Hs Hf Hh. split; [intros ids; by apply (embed_ok w w1 (fun x => x) ids V)|].
  intros b s st st1 Hst.
  pose proof (batch_forward_ok fs f (fun _ x => x) (fun x => x) V heads head b s st st1 None Hf (id_norm_ok n H) Hh Hst
    ltac:(done)) as Hb.
  split; [intros Hpos; by apply (prefill_ok fs f (fun _ x => x) (fun x => x) V heads head b s st st1);
    [..|apply id_norm_ok| | |]|].
  do 3 (split; [exact Hb|]). intros ps m Hm. by apply (late_prefill_ok fs f V heads head b s st st1 ps (ps 0) m).
Qed.
End Lemmas.
