(* ===== verification/Decoders.v ===== *)
(** * Decoder layers ([model/*/*_model.py])

    The attention, feed-forward and decoder-layer modules of the architectures
    that are built like Llama's: their constructors, with the checks on the
    number of workers and the sharding strategies of [_set_tp], and their
    forward functions.  The values that a forward function reads from its
    module are the fields of the module records of [Network.v]; where the
    source copies an attribute of the configuration into the module, the
    forward function takes the configuration. *)

From Stdlib Require Import SpecFloat.
From stdpp Require Import base list strings.
From S2P Require Import Prelude PyNum Spmd TensorOps TensorParallel KvCache Network LlamaModel.
Local Open Scope string_scope.
Local Open Scope list_scope.
Local Open Scope nat_scope.


(** ** Constructors *)

(** [model/mistral/mistral_model.py] *)
Definition MistralMLP_init (c : Config) : res FfnModule :=
  let? _ := check_split c "intermediate_size" in
  let? i := per_shard c "intermediate_size" in
  Ok (mkFfn i "silu" false false
    (Linear "gate_up_proj" (int c "hidden_size") (2 * i) false ++
     Linear "down_proj" i (int c "hidden_size") false)).

Definition MistralAttention_init (c : Config) : res AttentionModule :=
  let head_dim := int c "head_dim" in
  let? _ := check_split c "num_key_value_heads" in
  let? num_q_heads := per_shard c "num_attention_heads" in
  let? num_kv_heads := per_shard c "num_key_value_heads" in
  Ok (mkAttention head_dim num_q_heads num_kv_heads false false
    (Linear "qkv_proj" (int c "hidden_size") ((num_q_heads + 2 * num_kv_heads) * head_dim) false ++
     Linear "o_proj" (num_q_heads * head_dim) (int c "hidden_size") false)).

Definition MistralDecoderLayer_init (c : Config) : res LayerModule :=
  let? self_attn := MistralAttention_init c in
  let? mlp := MistralMLP_init c in
  let params := submodule "self_attn" (at_params self_attn) ++ submodule "mlp" (ff_params mlp) ++
    RMSNorm "input_layernorm" (int c "hidden_size") ++ RMSNorm "post_attention_layernorm" (int c "hidden_size") in
  let hd := int c "head_dim" in
  let q := num_q_heads self_attn * hd in
  let k := num_kv_heads self_attn * hd in
  let v := num_kv_heads self_attn * hd in
  let i := intermediate_size mlp in
  let? params := _set_tp (
    [("self_attn.qkv_proj.weight", mkShardSingleDim "_shard_qkv" 0 (Some [q; k; v]));
     ("self_attn.o_proj.weight", mkShardSingleDim "_shard_o" 1 None);
     ("mlp.gate_up_proj.weight", mkShardSingleDim "_shard_mlp_up" 0 (Some [i; i]));
     ("mlp.down_proj.weight", mkShardSingleDim "_shard_mlp_down" 1 None)]) params in
  Ok (mkLayer self_attn mlp (real c "rms_norm_eps") (shards c) params).

(** [model/gemma/gemma_model.py] *)
Definition GemmaMLP_init (c : Config) : res FfnModule :=
  let? _ := check_split c "intermediate_size" in
  let? i := per_shard c "intermediate_size" in
  Ok (mkFfn i "gelu_tanh" false false
    (Linear "gate_up_proj" (int c "hidden_size") (2 * i) false ++
     Linear "down_proj" i (int c "hidden_size") false)).

Definition GemmaAttention_init (c : Config) : res AttentionModule :=
  let head_dim := int c "head_dim" in
  let? num_q_heads := per_shard c "num_attention_heads" in
  let? _ := assert_split c "num_key_value_heads" in
  let? _ := assert_at_least c "num_key_value_heads" in
  let? num_kv_heads := per_shard c "num_key_value_heads" in
  Ok (mkAttention head_dim num_q_heads num_kv_heads (flag c "attention_bias") (flag c "attention_bias")
    (Linear "qkv_proj" (int c "hidden_size") ((num_q_heads + 2 * num_kv_heads) * head_dim) (flag c "attention_bias") ++
     Linear "o_proj" (num_q_heads * head_dim) (int c "hidden_size") (flag c "attention_bias"))).

Definition GemmaDecoderLayer_init (c : Config) : res LayerModule :=
  let? self_attn := GemmaAttention_init c in
  let? mlp := GemmaMLP_init c in
  let params := submodule "self_attn" (at_params self_attn) ++ submodule "mlp" (ff_params mlp) ++
    RMSNorm "input_layernorm" (int c "hidden_size") ++ RMSNorm "post_attention_layernorm" (int c "hidden_size") in
  let hd := int c "head_dim" in
  let q := num_q_heads self_attn * hd in
  let k := num_kv_heads self_attn * hd in
  let v := num_kv_heads self_attn * hd in
  let i := intermediate_size mlp in
  let? params := _set_tp (
    [("self_attn.qkv_proj.weight", mkShardSingleDim "_shard_qkv" 0 (Some [q; k; v]));
     ("self_attn.o_proj.weight", mkShardSingleDim "_shard_o" 1 None);
     ("mlp.gate_up_proj.weight", mkShardSingleDim "_shard_mlp_up" 0 (Some [i; i]));
     ("mlp.down_proj.weight", mkShardSingleDim "_shard_mlp_down" 1 None)]) params in
  Ok (mkLayer self_attn mlp (real c "rms_norm_eps") (shards c) params).

(** [model/baichuan/baichuan_model.py] *)
Definition BaichuanMLP_init (c : Config) : res FfnModule :=
  let? _ := check_split c "intermediate_size" in
  let? i := per_shard c "intermediate_size" in
  Ok (mkFfn i "silu" false false
    (Linear "gate_up_proj" (int c "hidden_size") (2 * i) false ++
     Linear "down_proj" i (int c "hidden_size") false)).

Definition BaichuanAttention_init (c : Config) : res AttentionModule :=
  let head_dim := int c "head_dim" in
  let? _ := check_split c "num_attention_heads" in
  let? num_q_heads := per_shard c "num_attention_heads" in
  Ok (mkAttention head_dim num_q_heads num_q_heads false false
    (Linear "W_pack" (int c "hidden_size") (3 * num_q_heads * head_dim) false ++
     Linear "o_proj" (num_q_heads * head_dim) (int c "hidden_size") false)).

Definition BaichuanDecoderLayer_init (c : Config) : res LayerModule :=
  let? self_attn := BaichuanAttention_init c in
  let? mlp := BaichuanMLP_init c in
  let params := submodule "self_attn" (at_params self_attn) ++ submodule "mlp" (ff_params mlp) ++
    RMSNorm "input_layernorm" (int c "hidden_size") ++ RMSNorm "post_attention_layernorm" (int c "hidden_size") in
  let hd := int c "head_dim" in
  let q := num_q_heads self_attn * hd in
  let k := num_q_heads self_attn * hd in
  let v := num_q_heads self_attn * hd in
  let i := intermediate_size mlp in
  let? params := _set_tp (
    [("self_attn.W_pack.weight", mkShardSingleDim "_shard_qkv_weight" 0 (Some [q; k; v]));
     ("self_attn.o_proj.weight", mkShardSingleDim "_shard_o" 1 None);
     ("mlp.gate_up_proj.weight", mkShardSingleDim "_shard_mlp_gate_up" 0 (Some [i; i]));
     ("mlp.down_proj.weight", mkShardSingleDim "_shard_mlp_down_proj" 1 None)]) params in
  Ok (mkLayer self_attn mlp (real c "rms_norm_eps") (shards c) params).

(** [model/orion/orion_model.py] *)
Definition OrionFFN_init (c : Config) : res FfnModule :=
  let? _ := check_split c "intermediate_size" in
  let? i := per_shard c "intermediate_size" in
  Ok (mkFfn i "silu" false false
    (Linear "gate_up_proj" (int c "hidden_size") (2 * i) false ++
     Linear "down_proj" i (int c "hidden_size") false)).

Definition OrionAttention_init (c : Config) : res AttentionModule :=
  let head_dim := int c "head_dim" in
  let? num_q_heads := per_shard c "num_attention_heads" in
  let? _ := assert_split c "num_key_value_heads" in
  let? _ := assert_at_least c "num_key_value_heads" in
  let? num_kv_heads := per_shard c "num_key_value_heads" in
  Ok (mkAttention head_dim num_q_heads num_kv_heads false false
    (Linear "qkv_proj" (int c "hidden_size") ((num_q_heads + 2 * num_kv_heads) * head_dim) false ++
     Linear "o_proj" (num_q_heads * head_dim) (int c "hidden_size") false)).

Definition OrionDecoderLayer_init (c : Config) : res LayerModule :=
  let? self_attn := OrionAttention_init c in
  let? mlp := OrionFFN_init c in
  let params := submodule "self_attn" (at_params self_attn) ++ submodule "mlp" (ff_params mlp) ++
    LayerNorm "input_layernorm" (int c "hidden_size") ++ LayerNorm "post_attention_layernorm" (int c "hidden_size") in
  let hd := int c "head_dim" in
  let q := num_q_heads self_attn * hd in
  let k := num_kv_heads self_attn * hd in
  let v := num_kv_heads self_attn * hd in
  let i := intermediate_size mlp in
  let? params := _set_tp (
    [("self_attn.qkv_proj.weight", mkShardSingleDim "_shard_qkv" 0 (Some [q; k; v]));
     ("self_attn.o_proj.weight", mkShardSingleDim "_shard_o" 1 None);
     ("mlp.gate_up_proj.weight", mkShardSingleDim "_shard_mlp_up" 0 (Some [i; i]));
     ("mlp.down_proj.weight", mkShardSingleDim "_shard_mlp_down" 1 None)]) params in
  Ok (mkLayer self_attn mlp (real c "rms_norm_eps") (shards c) params).

(** [model/stable_lm/stablelm_model.py] *)
Definition StableLmMLP_init (c : Config) : res FfnModule :=
  let? _ := check_split c "intermediate_size" in
  let? i := per_shard c "intermediate_size" in
  Ok (mkFfn i "silu" false false
    (Linear "gate_up_proj" (int c "hidden_size") (2 * i) false ++
     Linear "down_proj" i (int c "hidden_size") false)).

Definition StableLmAttention_init (c : Config) : res AttentionModule :=
  let head_dim := int c "head_dim" in
  let? _ := check_split c "num_key_value_heads" in
  let? num_q_heads := per_shard c "num_attention_heads" in
  let? num_kv_heads := per_shard c "num_key_value_heads" in
  let? _ := nat_div num_q_heads num_kv_heads in
  Ok (mkAttention head_dim num_q_heads num_kv_heads (flag c "use_qkv_bias") false
    (Linear "qkv_proj" (int c "hidden_size") ((num_q_heads + 2 * num_kv_heads) * head_dim) (flag c "use_qkv_bias") ++
     Linear "o_proj" (num_q_heads * head_dim) (int c "hidden_size") false)).

Definition StableLmDecoderLayer_init (c : Config) : res LayerModule :=
  let? self_attn := StableLmAttention_init c in
  let? mlp := StableLmMLP_init c in
  let params := submodule "self_attn" (at_params self_attn) ++ submodule "mlp" (ff_params mlp) ++
    LayerNorm "input_layernorm" (int c "hidden_size") ++ LayerNorm "post_attention_layernorm" (int c "hidden_size") in
  let hd := int c "head_dim" in
  let q := num_q_heads self_attn * hd in
  let k := num_kv_heads self_attn * hd in
  let v := num_kv_heads self_attn * hd in
  let i := intermediate_size mlp in
  let? params := _set_tp (
    [("self_attn.qkv_proj.weight", mkShardSingleDim "_shard_qkv_weight" 0 (Some [q; k; v]))] ++
    (if flag c "use_qkv_bias" then [("self_attn.qkv_proj.bias", mkShardSingleDim "_shard_qkv_bias" 0 (Some [q; k; v]))] else []) ++
    [("self_attn.o_proj.weight", mkShardSingleDim "_shard_o" 1 None);
     ("mlp.gate_up_proj.weight", mkShardSingleDim "_shard_mlp_up" 0 (Some [i; i]));
     ("mlp.down_proj.weight", mkShardSingleDim "_shard_mlp_down" 1 None)]) params in
  Ok (mkLayer self_attn mlp (real c "layer_norm_eps") (shards c) params).

(** [model/internlm/internlm_model.py] *)
Definition InternLMMLP_init (c : Config) : res FfnModule :=
  let? _ := check_split c "intermediate_size" in
  let? i := per_shard c "intermediate_size" in
  Ok (mkFfn i "silu" false false
    (Linear "gate_up_proj" (int c "hidden_size") (2 * i) false ++
     Linear "down_proj" i (int c "hidden_size") false)).

Definition InternLMAttention_init (c : Config) : res AttentionModule :=
  let head_dim := int c "head_dim" in
  let? _ := check_split c "num_attention_heads" in
  let? num_q_heads := per_shard c "num_attention_heads" in
  Ok (mkAttention head_dim num_q_heads num_q_heads (flag c "bias") (flag c "bias")
    (Linear "wqkv_pack" (int c "hidden_size") (3 * num_q_heads * head_dim) (flag c "bias") ++
     Linear "o_proj" (num_q_heads * head_dim) (int c "hidden_size") (flag c "bias"))).

Definition InternLMDecoderLayer_init (c : Config) : res LayerModule :=
  let? self_attn := InternLMAttention_init c in
  let? mlp := InternLMMLP_init c in
  let params := submodule "self_attn" (at_params self_attn) ++ submodule "mlp" (ff_params mlp) ++
    RMSNorm "input_layernorm" (int c "hidden_size") ++ RMSNorm "post_attention_layernorm" (int c "hidden_size") in
  let hd := int c "head_dim" in
  let q := num_q_heads self_attn * hd in
  let k := num_q_heads self_attn * hd in
  let v := num_q_heads self_attn * hd in
  let i := intermediate_size mlp in
  let? params := _set_tp (
    [("self_attn.wqkv_pack.weight", mkShardSingleDim "_shard_qkv_weight" 0 (Some [q; k; v]))] ++
    (if flag c "bias" then [("self_attn.wqkv_pack.bias", mkShardSingleDim "_shard_qkv_bias" 0 (Some [q; k; v]))] else []) ++
    [("self_attn.o_proj.weight", mkShardSingleDim "_shard_o_weight" 1 None)] ++
    (if flag c "bias" then [("self_attn.o_proj.bias", mkShardSingleDim "_shard_o_bias" 0 None)] else []) ++
    [("mlp.gate_up_proj.weight", mkShardSingleDim "_shard_mlp_gate_up" 0 (Some [i; i]));
     ("mlp.down_proj.weight", mkShardSingleDim "_shard_mlp_down_proj" 1 None)]) params in
  Ok (mkLayer self_attn mlp (real c "rms_norm_eps") (shards c) params).

(** [model/internlm2/internlm2_model.py] *)
Definition InternLM2MLP_init (c : Config) : res FfnModule :=
  let? _ := check_split c "intermediate_size" in
  let? i := per_shard c "intermediate_size" in
  Ok (mkFfn i "silu" false false
    (Linear "gate_up_proj" (int c "hidden_size") (2 * i) false ++
     Linear "w2" i (int c "hidden_size") false)).

Definition InternLM2Attention_init (c : Config) : res AttentionModule :=
  let head_dim := int c "head_dim" in
  let? _ := check_split c "num_attention_heads" in
  let? num_q_heads := per_shard c "num_attention_heads" in
  let? num_kv_heads := per_shard c "num_key_value_heads" in
  Ok (mkAttention head_dim num_q_heads num_kv_heads (flag c "bias") (flag c "bias")
    (Linear "wqkv" (int c "hidden_size") ((num_q_heads + 2 * num_kv_heads) * head_dim) (flag c "bias") ++
     Linear "wo" (num_q_heads * head_dim) (int c "hidden_size") (flag c "bias"))).

Definition InternLM2DecoderLayer_init (c : Config) : res LayerModule :=
  let? self_attn := InternLM2Attention_init c in
  let? mlp := InternLM2MLP_init c in
  let params := submodule "attention" (at_params self_attn) ++ submodule "feed_forward" (ff_params mlp) ++
    RMSNorm "attention_norm" (int c "hidden_size") ++ RMSNorm "ffn_norm" (int c "hidden_size") in
  let hd := int c "head_dim" in
  let q := num_q_heads self_attn * hd in
  let k := num_kv_heads self_attn * hd in
  let v := num_kv_heads self_attn * hd in
  let i := intermediate_size mlp in
  let? params := _set_tp (
    [("attention.wqkv.weight", mkShardSingleDim "_shard_qkv_weight" 0 (Some [q; k; v]))] ++
    (if flag c "bias" then [("attention.wqkv.bias", mkShardSingleDim "_shard_qkv_bias" 0 (Some [q; k; v]))] else []) ++
    [("attention.wo.weight", mkShardSingleDim "_shard_o" 1 None);
     ("feed_forward.gate_up_proj.weight", mkShardSingleDim "_shard_mlp_up" 0 (Some [i; i]));
     ("feed_forward.w2.weight", mkShardSingleDim "_shard_mlp_down" 1 None)]) params in
  Ok (mkLayer self_attn mlp (real c "rms_norm_eps") (shards c) params).

(** [model/qwen/qwen_model.py] *)
Definition QWenMLP_init (c : Config) : res FfnModule :=
  let? _ := check_split c "intermediate_size" in
  let? i := per_shard c "intermediate_size" in
  Ok (mkFfn i "silu" false false
    (Linear "gate_up_proj" (int c "hidden_size") i false ++
     Linear "c_proj" (i / 2) (int c "hidden_size") false)).

Definition QWenAttention_init (c : Config) : res AttentionModule :=
  let head_dim := int c "head_dim" in
  let? _ := check_split c "num_attention_heads" in
  let? num_q_heads := per_shard c "num_attention_heads" in
  Ok (mkAttention head_dim num_q_heads num_q_heads true false
    (Linear "c_attn" (int c "hidden_size") (3 * num_q_heads * head_dim) true ++
     Linear "c_proj" (num_q_heads * head_dim) (int c "hidden_size") false)).

Definition QWenBlock_init (c : Config) : res LayerModule :=
  let? self_attn := QWenAttention_init c in
  let? mlp := QWenMLP_init c in
  let params := submodule "attn" (at_params self_attn) ++ submodule "mlp" (ff_params mlp) ++
    RMSNorm "ln_1" (int c "hidden_size") ++ RMSNorm "ln_2" (int c "hidden_size") in
  let hd := int c "head_dim" in
  let q := num_q_heads self_attn * hd in
  let k := num_q_heads self_attn * hd in
  let v := num_q_heads self_attn * hd in
  let i := intermediate_size mlp / 2 in
  let? params := _set_tp (
    [("attn.c_attn.weight", mkShardSingleDim "_shard_qkv_weight" 0 (Some [q; k; v]));
     ("attn.c_attn.bias", mkShardSingleDim "_shard_qkv_bias" 0 (Some [q; k; v]));
     ("attn.c_proj.weight", mkShardSingleDim "_shard_attn_c_proj" 1 None);
     ("mlp.gate_up_proj.weight", mkShardSingleDim "_shard_mlp_gate_up_proj" 0 (Some [i; i]));
     ("mlp.c_proj.weight", mkShardSingleDim "_shard_mlp_c_proj" 1 None)]) params in
  Ok (mkLayer self_attn mlp (real c "layer_norm_epsilon") (shards c) params).

(** [model/qwen2/qwen2_model.py] *)
Definition QWen2MLP_init (c : Config) : res FfnModule :=
  let? _ := check_split c "intermediate_size" in
  let? i := per_shard c "intermediate_size" in
  let? act := dict_getitem ACT2FN (text c "hidden_act") in
  Ok (mkFfn i act false false
    (Linear "gate_up_proj" (int c "hidden_size") (2 * i) false ++
     Linear "down_proj" i (int c "hidden_size") false)).

Definition QWen2Attention_init (c : Config) : res AttentionModule :=
  let head_dim := int c "head_dim" in
  let? _ := check_split c "num_key_value_heads" in
  let? num_q_heads := per_shard c "num_attention_heads" in
  let? num_kv_heads := per_shard c "num_key_value_heads" in
  Ok (mkAttention head_dim num_q_heads num_kv_heads true false
    (Linear "c_attn" (int c "hidden_size") ((num_q_heads + 2 * num_kv_heads) * head_dim) true ++
     Linear "o_proj" (num_q_heads * head_dim) (int c "hidden_size") false)).

Definition QWen2DecoderLayer_init (c : Config) : res LayerModule :=
  let? self_attn := QWen2Attention_init c in
  let? mlp := QWen2MLP_init c in
  let params := submodule "self_attn" (at_params self_attn) ++ submodule "mlp" (ff_params mlp) ++
    RMSNorm "input_layernorm" (int c "hidden_size") ++ RMSNorm "post_attention_layernorm" (int c "hidden_size") in
  let hd := int c "head_dim" in
  let q := num_q_heads self_attn * hd in
  let k := num_kv_heads self_attn * hd in
  let v := num_kv_heads self_attn * hd in
  let i := intermediate_size mlp in
  let? params := _set_tp (
    [("self_attn.c_attn.weight", mkShardSingleDim "_shard_qkv_weight" 0 (Some [q; k; v]));
     ("self_attn.c_attn.bias", mkShardSingleDim "_shard_qkv_bias" 0 (Some [q; k; v]));
     ("self_attn.o_proj.weight", mkShardSingleDim "_shard_o" 1 None);
     ("mlp.gate_up_proj.weight", mkShardSingleDim "_shard_mlp_up" 0 (Some [i; i]));
     ("mlp.down_proj.weight", mkShardSingleDim "_shard_mlp_down" 1 None)]) params in
  Ok (mkLayer self_attn mlp (real c "rms_norm_eps") (shards c) params).

(** [model/olmo/olmo_model.py] *)
Definition OLMoFFN_init (c : Config) : res FfnModule :=
  let? _ := check_split c "intermediate_size" in
  let? i := per_shard c "intermediate_size" in
  let? act := dict_getitem ACT2FN (text c "hidden_act") in
  Ok (mkFfn i act false false
    (Linear "gate_up_proj" (int c "hidden_size") (2 * i) false ++
     Linear "down_proj" i (int c "hidden_size") false)).

Definition OLMoAttention_init (c : Config) : res AttentionModule :=
  let head_dim := int c "head_dim" in
  let? num_q_heads := per_shard c "num_attention_heads" in
  let? _ := assert_at_least c "num_key_value_heads" in
  let? _ := assert_split c "num_key_value_heads" in
  let? num_kv_heads := per_shard c "num_key_value_heads" in
  Ok (mkAttention head_dim num_q_heads num_kv_heads false false
    (Linear "qkv_proj" (int c "hidden_size") ((num_q_heads + 2 * num_kv_heads) * head_dim) false ++
     Linear "o_proj" (num_q_heads * head_dim) (int c "hidden_size") false)).

Definition OLMoDecoderLayer_init (c : Config) : res LayerModule :=
  let? self_attn := OLMoAttention_init c in
  let? mlp := OLMoFFN_init c in
  let params := submodule "self_attn" (at_params self_attn) ++ submodule "mlp" (ff_params mlp) in
  let hd := int c "head_dim" in
  let q := num_q_heads self_attn * hd in
  let k := num_kv_heads self_attn * hd in
  let v := num_kv_heads self_attn * hd in
  let i := intermediate_size mlp in
  let? params := _set_tp (
    [("self_attn.qkv_proj.weight", mkShardSingleDim "_shard_qkv" 0 (Some [q; k; v]));
     ("self_attn.o_proj.weight", mkShardSingleDim "_shard_o" 1 None);
     ("mlp.gate_up_proj.weight", mkShardSingleDim "_shard_mlp_up" 0 (Some [i; i]));
     ("mlp.down_proj.weight", mkShardSingleDim "_shard_mlp_down" 1 None)]) params in
  Ok (mkLayer self_attn mlp eps_1e_5 (shards c) params).

(** [model/minicpm/minicpm_model.py] *)
Definition MiniCPMMLP_init (c : Config) : res FfnModule :=
  let? _ := check_split c "intermediate_size" in
  let? i := per_shard c "intermediate_size" in
  let? act := dict_getitem ACT2FN (text c "hidden_act") in
  Ok (mkFfn i act false false
    (Linear "gate_up_proj" (int c "hidden_size") (2 * i) false ++
     Linear "down_proj" i (int c "hidden_size") false)).

Definition MiniCPMAttention_init (c : Config) : res AttentionModule :=
  let head_dim := int c "head_dim" in
  let? _ := check_split c "num_attention_heads" in
  let? num_q_heads := per_shard c "num_attention_heads" in
  let? num_kv_heads := per_shard c "num_key_value_heads" in
  let? _ := nat_div num_q_heads num_kv_heads in
  Ok (mkAttention head_dim num_q_heads num_kv_heads false false
    (Linear "wqkv_pack" (int c "hidden_size") ((num_q_heads + 2 * num_kv_heads) * head_dim) false ++
     Linear "o_proj" (num_q_heads * head_dim) (int c "hidden_size") false)).

Definition MiniCPMDecoderLayer_init (c : Config) : res LayerModule :=
  let? self_attn := MiniCPMAttention_init c in
  let? mlp := MiniCPMMLP_init c in
  let params := submodule "self_attn" (at_params self_attn) ++ submodule "mlp" (ff_params mlp) ++
    RMSNorm "input_layernorm" (int c "hidden_size") ++ RMSNorm "post_attention_layernorm" (int c "hidden_size") in
  let hd := int c "head_dim" in
  let q := num_q_heads self_attn * hd in
  let k := num_kv_heads self_attn * hd in
  let v := num_kv_heads self_attn * hd in
  let i := intermediate_size mlp in
  let? params := _set_tp (
    [("self_attn.wqkv_pack.weight", mkShardSingleDim "_shard_qkv_weight" 0 (Some [q; k; v]));
     ("self_attn.o_proj.weight", mkShardSingleDim "_shard_o" 1 None);
     ("mlp.gate_up_proj.weight", mkShardSingleDim "_shard_mlp_up" 0 (Some [i; i]));
     ("mlp.down_proj.weight", mkShardSingleDim "_shard_mlp_down" 1 None)]) params in
  Ok (mkLayer self_attn mlp (real c "rms_norm_eps") (shards c) params).

(** [model/phi3/phi3_model.py] *)
Definition Phi3MLP_init (c : Config) : res FfnModule :=
  let? _ := check_split c "intermediate_size" in
  let? i := per_shard c "intermediate_size" in
  Ok (mkFfn i "silu" false false
    (Linear "gate_up_proj" (int c "hidden_size") (2 * i) false ++
     Linear "down_proj" i (int c "hidden_size") false)).

Definition Phi3MHA_init (c : Config) : res AttentionModule :=
  let head_dim := int c "head_dim" in
  let? num_q_heads := per_shard c "num_attention_heads" in
  let? _ := assert_split c "num_attention_heads" in
  let? num_kv_heads := per_shard c "num_key_value_heads" in
  let? _ := assert_split c "num_key_value_heads" in
  Ok (mkAttention head_dim num_q_heads num_kv_heads false false
    (Linear "qkv_proj" (int c "hidden_size") ((num_q_heads + 2 * num_kv_heads) * head_dim) false ++
     Linear "out_proj" (num_q_heads * head_dim) (int c "hidden_size") false)).

Definition Phi3ParallelBlock_init (c : Config) : res LayerModule :=
  let? self_attn := Phi3MHA_init c in
  let? mlp := Phi3MLP_init c in
  let params := submodule "mixer" (at_params self_attn) ++ submodule "mlp" (ff_params mlp) ++
    RMSNorm "ln" (int c "hidden_size") ++ RMSNorm "post_attention_layernorm" (int c "hidden_size") in
  let hd := int c "head_dim" in
  let q := num_q_heads self_attn * hd in
  let k := num_kv_heads self_attn * hd in
  let v := num_kv_heads self_attn * hd in
  let i := intermediate_size mlp in
  let? params := _set_tp (
    [("mixer.qkv_proj.weight", mkShardSingleDim "_shard_qkv" 0 (Some [q; k; v]));
     ("mixer.out_proj.weight", mkShardSingleDim "_shard_o" 1 None);
     ("mlp.gate_up_proj.weight", mkShardSingleDim "_shard_mlp_up" 0 (Some [i; i]));
     ("mlp.down_proj.weight", mkShardSingleDim "_shard_mlp_down" 1 None)]) params in
  Ok (mkLayer self_attn mlp (real c "rms_norm_eps") (shards c) params).

(** [model/starcoder2/starcoder2_model.py] *)
Definition Starcoder2MLP_init (c : Config) : res FfnModule :=
  let? _ := check_split c "intermediate_size" in
  let? i := per_shard c "intermediate_size" in
  Ok (mkFfn i "gelu_tanh" (flag c "use_bias") (flag c "use_bias")
    (Linear "c_fc" (int c "hidden_size") i (flag c "use_bias") ++
     Linear "c_proj" i (int c "hidden_size") (flag c "use_bias"))).

Definition Starcoder2Attention_init (c : Config) : res AttentionModule :=
  let head_dim := int c "head_dim" in
  let? _ := check_split c "num_attention_heads" in
  let? num_q_heads := per_shard c "num_attention_heads" in
  let? num_kv_heads := per_shard c "num_key_value_heads" in
  let? _ := nat_div num_q_heads num_kv_heads in
  Ok (mkAttention head_dim num_q_heads num_kv_heads (flag c "use_bias") (flag c "use_bias")
    (Linear "wqkv_pack" (int c "hidden_size") ((num_q_heads + 2 * num_kv_heads) * head_dim) (flag c "use_bias") ++
     Linear "o_proj" (num_q_heads * head_dim) (int c "hidden_size") (flag c "use_bias"))).

Definition Starcoder2DecoderLayer_init (c : Config) : res LayerModule :=
  let? self_attn := Starcoder2Attention_init c in
  let? mlp := Starcoder2MLP_init c in
  let params := submodule "self_attn" (at_params self_attn) ++ submodule "mlp" (ff_params mlp) ++
    LayerNorm "input_layernorm" (int c "hidden_size") ++ LayerNorm "post_attention_layernorm" (int c "hidden_size") in
  let hd := int c "head_dim" in
  let q := num_q_heads self_attn * hd in
  let k := num_kv_heads self_attn * hd in
  let v := num_kv_heads self_attn * hd in
  let? params := _set_tp (
    [("self_attn.wqkv_pack.weight", mkShardSingleDim "_shard_qkv_weight" 0 (Some [q; k; v]))] ++
    (if flag c "use_bias" then [("self_attn.wqkv_pack.bias", mkShardSingleDim "_shard_qkv_bias" 0 (Some [q; k; v]))] else []) ++
    [("self_attn.o_proj.weight", mkShardSingleDim "_shard_o" 1 None);
     ("mlp.c_fc.weight", mkShardSingleDim "_shard_c_fc_weight" 0 None)] ++
    (if flag c "use_bias" then [("mlp.c_fc.bias", mkShardSingleDim "_shard_c_fc_bias" 0 None)] else []) ++
    [("mlp.c_proj.weight", mkShardSingleDim "_shard_mlp_c_proj" 1 None)] ++
    (if flag c "use_bias" then [("mlp.c_proj.bias", mkShardSingleDim "_shard_mlp_c_proj_bias" 0 None)] else [])) params in
  Ok (mkLayer self_attn mlp (real c "norm_epsilon") (shards c) params).

(** [model/gpt2/gpt2_model.py] *)
Definition GPT2MLP_init (c : Config) : res FfnModule :=
  let? _ := check_split c "n_inner" in
  let? i := per_shard c "n_inner" in
  Ok (mkFfn i "gelu_tanh" true true
    (Linear "c_fc" (int c "n_embd") i true ++
     Linear "c_proj" i (int c "n_embd") true)).

Definition GPT2Attention_init (c : Config) : res AttentionModule :=
  let head_dim := int c "head_dim" in
  let? _ := check_split c "n_head" in
  let? num_q_heads := per_shard c "n_head" in
  Ok (mkAttention head_dim num_q_heads num_q_heads true true
    (Linear "c_attn" (int c "n_embd") (3 * num_q_heads * head_dim) true ++
     Linear "c_proj" (num_q_heads * head_dim) (int c "n_embd") true)).

Definition GPT2Block_init (c : Config) : res LayerModule :=
  let? self_attn := GPT2Attention_init c in
  let? mlp := GPT2MLP_init c in
  let params := submodule "attn" (at_params self_attn) ++ submodule "mlp" (ff_params mlp) ++
    LayerNorm "ln_1" (int c "n_embd") ++ LayerNorm "ln_2" (int c "n_embd") in
  let hd := int c "head_dim" in
  let q := num_q_heads self_attn * hd in
  let k := num_q_heads self_attn * hd in
  let v := num_q_heads self_attn * hd in
  let? params := _set_tp (
    [("attn.c_attn.weight", mkShardSingleDim "_shard_qkv_weight" 0 (Some [q; k; v]));
     ("attn.c_attn.bias", mkShardSingleDim "_shard_qkv_bias" 0 (Some [q; k; v]));
     ("attn.c_proj.weight", mkShardSingleDim "_shard_attn_c_proj" 1 None);
     ("mlp.c_fc.weight", mkShardSingleDim "_shard_c_fc_weight" 0 None);
     ("mlp.c_fc.bias", mkShardSingleDim "_shard_c_fc_bias" 0 None);
     ("mlp.c_proj.weight", mkShardSingleDim "_shard_mlp_c_proj" 1 None)]) params in
  Ok (mkLayer self_attn mlp (real c "layer_norm_epsilon") (shards c) params).

(** [model/gpt_neox/gpt_neox_model.py] *)
Definition GPTNeoXMLP_init (c : Config) : res FfnModule :=
  let? _ := check_split c "intermediate_size" in
  let? i := per_shard c "intermediate_size" in
  Ok (mkFfn i "gelu" true true
    (Linear "dense_h_to_4h" (int c "hidden_size") i true ++
     Linear "dense_4h_to_h" i (int c "hidden_size") true)).

Definition GPTNeoXAttention_init (c : Config) : res AttentionModule :=
  let head_dim := int c "head_dim" in
  let? _ := check_split c "num_attention_heads" in
  let? num_q_heads := per_shard c "num_attention_heads" in
  Ok (mkAttention head_dim num_q_heads num_q_heads true true
    (Linear "query_key_value" (int c "hidden_size") (3 * num_q_heads * head_dim) true ++
     Linear "dense" (num_q_heads * head_dim) (int c "hidden_size") true)).

Definition GPTNeoXLayer_init (c : Config) : res LayerModule :=
  let? self_attn := GPTNeoXAttention_init c in
  let? mlp := GPTNeoXMLP_init c in
  let params := submodule "attention" (at_params self_attn) ++ submodule "mlp" (ff_params mlp) ++
    LayerNorm "input_layernorm" (int c "hidden_size") ++ LayerNorm "post_attention_layernorm" (int c "hidden_size") in
  let hd := int c "head_dim" in
  let q := num_q_heads self_attn * hd in
  let k := num_q_heads self_attn * hd in
  let v := num_q_heads self_attn * hd in
  let? params := _set_tp (
    [("attention.query_key_value.weight", mkShardSingleDim "_shard_qkv_weight" 0 (Some [q; k; v]));
     ("attention.query_key_value.bias", mkShardSingleDim "_shard_qkv_bias" 0 (Some [q; k; v]));
     ("attention.dense.weight", mkShardSingleDim "_shard_dense" 1 None);
     ("mlp.dense_h_to_4h.weight", mkShardSingleDim "_shard_dense_h_to_4h_weight" 0 None);
     ("mlp.dense_h_to_4h.bias", mkShardSingleDim "_shard_dense_h_to_4h_bias" 0 None);
     ("mlp.dense_4h_to_h.weight", mkShardSingleDim "_shard_dense_4h_to_h" 1 None)]) params in
  Ok (mkLayer self_attn mlp (real c "layer_norm_eps") (shards c) params).

(** [model/phi/phi_model.py] *)
Definition PhiMLP_init (c : Config) : res FfnModule :=
  let? _ := check_split c "n_inner" in
  let? i := per_shard c "n_inner" in
  Ok (mkFfn i "gelu_tanh" true true
    (Linear "fc1" (int c "n_embd") i true ++
     Linear "fc2" i (int c "n_embd") true)).

Definition PhiMHA_init (c : Config) : res AttentionModule :=
  let head_dim := int c "head_dim" in
  let? num_q_heads := per_shard c "n_head" in
  let? _ := assert_split c "n_head" in
  let? num_kv_heads := per_shard c "n_head_kv" in
  let? _ := assert_split c "n_head_kv" in
  Ok (mkAttention head_dim num_q_heads num_kv_heads true true
    (Linear "Wqkv" (int c "n_embd") ((num_q_heads + 2 * num_kv_heads) * head_dim) true ++
     Linear "out_proj" (num_q_heads * head_dim) (int c "n_embd") true)).

Definition PhiParallelBlock_init (c : Config) : res LayerModule :=
  let? self_attn := PhiMHA_init c in
  let? mlp := PhiMLP_init c in
  let params := submodule "mixer" (at_params self_attn) ++ submodule "mlp" (ff_params mlp) ++
    LayerNorm "ln" (int c "n_embd") in
  let hd := int c "head_dim" in
  let q := num_q_heads self_attn * hd in
  let k := num_kv_heads self_attn * hd in
  let v := num_kv_heads self_attn * hd in
  let? params := _set_tp (
    [("mixer.Wqkv.weight", mkShardSingleDim "_shard_qkv_weight" 0 (Some [q; k; v]));
     ("mixer.Wqkv.bias", mkShardSingleDim "_shard_qkv_bias" 0 (Some [q; k; v]));
     ("mixer.out_proj.weight", mkShardSingleDim "_shard_o_weight" 1 None);
     ("mlp.fc1.weight", mkShardSingleDim "_shard_mlp_fc1_weight" 0 None);
     ("mlp.fc1.bias", mkShardSingleDim "_shard_mlp_fc1_bias" 0 None);
     ("mlp.fc2.weight", mkShardSingleDim "_shard_mlp_fc2_weight" 1 None)]) params in
  Ok (mkLayer self_attn mlp (real c "layer_norm_epsilon") (shards c) params).

(** [model/gemma2/gemma2_model.py] *)
Definition Gemma2Attention_init : Config -> res AttentionModule := GemmaAttention_init.

Definition Gemma2DecoderLayer_init (c : Config) : res LayerModule :=
  let? self_attn := Gemma2Attention_init c in
  let? mlp := GemmaMLP_init c in
  let params := submodule "self_attn" (at_params self_attn) ++ submodule "mlp" (ff_params mlp) ++
    RMSNorm "input_layernorm" (int c "hidden_size") ++ RMSNorm "post_attention_layernorm" (int c "hidden_size") ++ RMSNorm "pre_feedforward_layernorm" (int c "hidden_size") ++ RMSNorm "post_feedforward_layernorm" (int c "hidden_size") in
  let hd := int c "head_dim" in
  let q := num_q_heads self_attn * hd in
  let k := num_kv_heads self_attn * hd in
  let v := num_kv_heads self_attn * hd in
  let i := intermediate_size mlp in
  let? params := _set_tp (
    [("self_attn.qkv_proj.weight", mkShardSingleDim "_shard_qkv" 0 (Some [q; k; v]));
     ("self_attn.o_proj.weight", mkShardSingleDim "_shard_o" 1 None);
     ("mlp.gate_up_proj.weight", mkShardSingleDim "_shard_mlp_up" 0 (Some [i; i]));
     ("mlp.down_proj.weight", mkShardSingleDim "_shard_mlp_down" 1 None)]) params in
  Ok (mkLayer self_attn mlp (real c "rms_norm_eps") (shards c) params).

(** [model/eagle/eagle_model.py] *)
Definition EagleDecoderLayer_init (c : Config) (index : nat) : res LayerModule :=
  let? self_attn := LlamaAttention_init c in
  let? mlp := LlamaFFN_init c in
  let params := submodule "self_attn" (at_params self_attn) ++ submodule "mlp" (ff_params mlp) ++
    (if index =? 0 then [] else RMSNorm "input_layernorm" (int c "hidden_size")) ++ RMSNorm "post_attention_layernorm" (int c "hidden_size") in
  let hd := int c "head_dim" in
  let q := num_q_heads self_attn * hd in
  let k := num_kv_heads self_attn * hd in
  let v := num_kv_heads self_attn * hd in
  let i := intermediate_size mlp in
  let? params := _set_tp (
    [("self_attn.qkv_proj.weight", mkShardSingleDim "_shard_qkv" 0 (Some [q; k; v]));
     ("self_attn.o_proj.weight", mkShardSingleDim "_shard_o" 1 None);
     ("mlp.gate_up_proj.weight", mkShardSingleDim "_shard_mlp_up" 0 (Some [i; i]));
     ("mlp.down_proj.weight", mkShardSingleDim "_shard_mlp_down" 1 None)]) params in
  Ok (mkLayer self_attn mlp (real c "rms_norm_eps") (shards c) params).

Section Forward.
Context `{E : Elem} {N : NnOps E} {KV : KVCache E}.

(** [nn.LayerNorm(..., elementwise_affine=False)] *)
Definition layer_norm_plain (eps : pyfloat) (x : Tensor) : Tensor := nn_norm "layer_norm" eps [] x.

(** ** Mistral *)

Definition MistralMLP_forward (m : FfnModule) (W : Params E) (x : Tensor) : Tensor :=
  let concat_x1_x2 := linear W "gate_up_proj" (up_bias m) x in
  let x1 := op_split concat_x1_x2 2 0 in
  let x2 := op_split concat_x1_x2 2 1 in
  linear W "down_proj" (down_bias m) (op_mul (op_act "silu" x1) x2).

Definition MistralAttention_forward (m : AttentionModule) (W : Params E) (hidden_states : Tensor)
    (cache : Cache) (layer_id : nat) : Tensor * Cache :=
  let qkv := linear W "qkv_proj" (qkv_bias m) hidden_states in
  let '(output, cache) := fused_attention (at_head_dim m) (num_q_heads m) (num_kv_heads m)
    (rsqrt_dim (at_head_dim m)) hidden_states qkv cache layer_id in
  (linear W "o_proj" (o_bias m) output, cache).

Definition MistralDecoderLayer_forward (m : LayerModule) (W : Params E) : Layer := fun hidden_states cache layer_id =>
  let '(out, cache) := MistralAttention_forward (self_attn m) (under "self_attn" W)
    (rms_norm W "input_layernorm" (norm_eps m) hidden_states) cache layer_id in
  (do hidden_states <- apply_residual (ly_shards m) out hidden_states in
   let out := MistralMLP_forward (mlp m) (under "mlp" W)
     (rms_norm W "post_attention_layernorm" (norm_eps m) hidden_states) in
   do hidden_states <- apply_residual (ly_shards m) out hidden_states in
   Ret (hidden_states, cache))%prog.

(** ** Gemma *)

Definition GemmaMLP_forward (m : FfnModule) (W : Params E) (x : Tensor) : Tensor :=
  let concat_x1_x2 := linear W "gate_up_proj" (up_bias m) x in
  let x1 := op_split concat_x1_x2 2 0 in
  let x2 := op_split concat_x1_x2 2 1 in
  linear W "down_proj" (down_bias m) (op_mul (op_act "gelu_tanh" x1) x2).

Definition GemmaAttention_forward (m : AttentionModule) (W : Params E) (hidden_states : Tensor)
    (cache : Cache) (layer_id : nat) : Tensor * Cache :=
  let qkv := linear W "qkv_proj" (qkv_bias m) hidden_states in
  let '(output, cache) := fused_attention (at_head_dim m) (num_q_heads m) (num_kv_heads m)
    (rsqrt_dim (at_head_dim m)) hidden_states qkv cache layer_id in
  (linear W "o_proj" (o_bias m) output, cache).

Definition GemmaDecoderLayer_forward (m : LayerModule) (W : Params E) : Layer := fun hidden_states cache layer_id =>
  let '(out, cache) := GemmaAttention_forward (self_attn m) (under "self_attn" W)
    (rms_norm W "input_layernorm" (norm_eps m) hidden_states) cache layer_id in
  (do hidden_states <- apply_residual (ly_shards m) out hidden_states in
   let out := GemmaMLP_forward (mlp m) (under "mlp" W)
     (rms_norm W "post_attention_layernorm" (norm_eps m) hidden_states) in
   do hidden_states <- apply_residual (ly_shards m) out hidden_states in
   Ret (hidden_states, cache))%prog.

(** ** Baichuan *)

Definition BaichuanMLP_forward (m : FfnModule) (W : Params E) (x : Tensor) : Tensor :=
  let concat_x1_x2 := linear W "gate_up_proj" (up_bias m) x in
  let x1 := op_split concat_x1_x2 2 0 in
  let x2 := op_split concat_x1_x2 2 1 in
  linear W "down_proj" (down_bias m) (op_mul (op_act "silu" x1) x2).

Definition BaichuanAttention_forward (m : AttentionModule) (W : Params E) (hidden_states : Tensor)
    (cache : Cache) (layer_id : nat) : Tensor * Cache :=
  let qkv := linear W "W_pack" (qkv_bias m) hidden_states in
  let '(output, cache) := fused_attention (at_head_dim m) (num_q_heads m) (num_kv_heads m)
    (rsqrt_dim (at_head_dim m)) hidden_states qkv cache layer_id in
  (linear W "o_proj" (o_bias m) output, cache).

Definition BaichuanDecoderLayer_forward (m : LayerModule) (W : Params E) : Layer := fun hidden_states cache layer_id =>
  let '(out, cache) := BaichuanAttention_forward (self_attn m) (under "self_attn" W)
    (rms_norm W "input_layernorm" (norm_eps m) hidden_states) cache layer_id in
  (do hidden_states <- apply_residual (ly_shards m) out hidden_states in
   let out := BaichuanMLP_forward (mlp m) (under "mlp" W)
     (rms_norm W "post_attention_layernorm" (norm_eps m) hidden_states) in
   do hidden_states <- apply_residual (ly_shards m) out hidden_states in
   Ret (hidden_states, cache))%prog.

(** ** Orion *)

Definition OrionFFN_forward (m : FfnModule) (W : Params E) (x : Tensor) : Tensor :=
  let concat_x1_x2 := linear W "gate_up_proj" (up_bias m) x in
  let x1 := op_split concat_x1_x2 2 0 in
  let x2 := op_split concat_x1_x2 2 1 in
  linear W "down_proj" (down_bias m) (op_mul (op_act "silu" x1) x2).

Definition OrionAttention_forward (m : AttentionModule) (W : Params E) (hidden_states : Tensor)
    (cache : Cache) (layer_id : nat) : Tensor * Cache :=
  let qkv := linear W "qkv_proj" (qkv_bias m) hidden_states in
  let '(output, cache) := fused_attention (at_head_dim m) (num_q_heads m) (num_kv_heads m)
    (rsqrt_dim (at_head_dim m)) hidden_states qkv cache layer_id in
  (linear W "o_proj" (o_bias m) output, cache).

Definition OrionDecoderLayer_forward (m : LayerModule) (W : Params E) : Layer := fun hidden_states cache layer_id =>
  let '(out, cache) := OrionAttention_forward (self_attn m) (under "self_attn" W)
    (layer_norm W "input_layernorm" (norm_eps m) hidden_states) cache layer_id in
  (do hidden_states <- apply_residual (ly_shards m) out hidden_states in
   let out := OrionFFN_forward (mlp m) (under "mlp" W)
     (layer_norm W "post_attention_layernorm" (norm_eps m) hidden_states) in
   do hidden_states <- apply_residual (ly_shards m) out hidden_states in
   Ret (hidden_states, cache))%prog.

(** ** StableLM *)

Definition StableLmMLP_forward (m : FfnModule) (W : Params E) (x : Tensor) : Tensor :=
  let concat_x1_x2 := linear W "gate_up_proj" (up_bias m) x in
  let x1 := op_split concat_x1_x2 2 0 in
  let x2 := op_split concat_x1_x2 2 1 in
  linear W "down_proj" (down_bias m) (op_mul (op_act "silu" x1) x2).

Definition StableLmAttention_forward (m : AttentionModule) (W : Params E) (hidden_states : Tensor)
    (cache : Cache) (layer_id : nat) : Tensor * Cache :=
  let qkv := linear W "qkv_proj" (qkv_bias m) hidden_states in
  let '(output, cache) := fused_attention (at_head_dim m) (num_q_heads m) (num_kv_heads m)
    (rsqrt_dim (at_head_dim m)) hidden_states qkv cache layer_id in
  (linear W "o_proj" (o_bias m) output, cache).

Definition StableLmDecoderLayer_forward (m : LayerModule) (W : Params E) : Layer := fun hidden_states cache layer_id =>
  let '(out, cache) := StableLmAttention_forward (self_attn m) (under "self_attn" W)
    (layer_norm W "input_layernorm" (norm_eps m) hidden_states) cache layer_id in
  (do hidden_states <- apply_residual (ly_shards m) out hidden_states in
   let out := StableLmMLP_forward (mlp m) (under "mlp" W)
     (layer_norm W "post_attention_layernorm" (norm_eps m) hidden_states) in
   do hidden_states <- apply_residual (ly_shards m) out hidden_states in
   Ret (hidden_states, cache))%prog.

(** ** InternLM *)

Definition InternLMMLP_forward (m : FfnModule) (W : Params E) (x : Tensor) : Tensor :=
  let concat_x1_x2 := linear W "gate_up_proj" (up_bias m) x in
  let x1 := op_split concat_x1_x2 2 0 in
  let x2 := op_split concat_x1_x2 2 1 in
  linear W "down_proj" (down_bias m) (op_mul (op_act "silu" x1) x2).

Definition InternLMAttention_forward (m : AttentionModule) (W : Params E) (hidden_states : Tensor)
    (cache : Cache) (layer_id : nat) : Tensor * Cache :=
  let qkv := linear W "wqkv_pack" (qkv_bias m) hidden_states in
  let '(output, cache) := fused_attention (at_head_dim m) (num_q_heads m) (num_kv_heads m)
    (rsqrt_dim (at_head_dim m)) hidden_states qkv cache layer_id in
  (linear W "o_proj" (o_bias m) output, cache).

Definition InternLMDecoderLayer_forward (m : LayerModule) (W : Params E) : Layer := fun hidden_states cache layer_id =>
  let '(out, cache) := InternLMAttention_forward (self_attn m) (under "self_attn" W)
    (rms_norm W "input_layernorm" (norm_eps m) hidden_states) cache layer_id in
  (do hidden_states <- apply_residual (ly_shards m) out hidden_states in
   let out := InternLMMLP_forward (mlp m) (under "mlp" W)
     (rms_norm W "post_attention_layernorm" (norm_eps m) hidden_states) in
   do hidden_states <- apply_residual (ly_shards m) out hidden_states in
   Ret (hidden_states, cache))%prog.

(** ** InternLM2 *)

Definition InternLM2MLP_forward (m : FfnModule) (W : Params E) (x : Tensor) : Tensor :=
  let concat_x1_x2 := linear W "gate_up_proj" (up_bias m) x in
  let x1 := op_split concat_x1_x2 2 0 in
  let x2 := op_split concat_x1_x2 2 1 in
  linear W "w2" (down_bias m) (op_mul (op_act "silu" x1) x2).

Definition InternLM2Attention_forward (m : AttentionModule) (W : Params E) (hidden_states : Tensor)
    (cache : Cache) (layer_id : nat) : Tensor * Cache :=
  let qkv := linear W "wqkv" (qkv_bias m) hidden_states in
  let '(output, cache) := fused_attention (at_head_dim m) (num_q_heads m) (num_kv_heads m)
    (rsqrt_dim (at_head_dim m)) hidden_states qkv cache layer_id in
  (linear W "wo" (o_bias m) output, cache).

Definition InternLM2DecoderLayer_forward (m : LayerModule) (W : Params E) : Layer := fun hidden_states cache layer_id =>
  let '(out, cache) := InternLM2Attention_forward (self_attn m) (under "attention" W)
    (rms_norm W "attention_norm" (norm_eps m) hidden_states) cache layer_id in
  (do hidden_states <- apply_residual (ly_shards m) out hidden_states in
   let out := InternLM2MLP_forward (mlp m) (under "feed_forward" W)
     (rms_norm W "ffn_norm" (norm_eps m) hidden_states) in
   do hidden_states <- apply_residual (ly_shards m) out hidden_states in
   Ret (hidden_states, cache))%prog.

(** ** Qwen *)

Definition QWenMLP_forward (m : FfnModule) (W : Params E) (x : Tensor) : Tensor :=
  let concat_x1_x2 := linear W "gate_up_proj" (up_bias m) x in
  let x1 := op_split concat_x1_x2 2 0 in
  let x2 := op_split concat_x1_x2 2 1 in
  linear W "c_proj" (down_bias m) (op_mul x1 (op_act "silu" x2)).

Definition QWenAttention_forward (m : AttentionModule) (W : Params E) (hidden_states : Tensor)
    (cache : Cache) (layer_id : nat) : Tensor * Cache :=
  let qkv := linear W "c_attn" (qkv_bias m) hidden_states in
  let '(output, cache) := fused_attention (at_head_dim m) (num_q_heads m) (num_kv_heads m)
    (rsqrt_dim (at_head_dim m)) hidden_states qkv cache layer_id in
  (linear W "c_proj" (o_bias m) output, cache).

Definition QWenBlock_forward (m : LayerModule) (W : Params E) : Layer := fun hidden_states cache layer_id =>
  let '(out, cache) := QWenAttention_forward (self_attn m) (under "attn" W)
    (rms_norm W "ln_1" (norm_eps m) hidden_states) cache layer_id in
  (do hidden_states <- apply_residual (ly_shards m) out hidden_states in
   let out := QWenMLP_forward (mlp m) (under "mlp" W)
     (rms_norm W "ln_2" (norm_eps m) hidden_states) in
   do hidden_states <- apply_residual (ly_shards m) out hidden_states in
   Ret (hidden_states, cache))%prog.

(** ** Qwen2 *)

Definition QWen2MLP_forward (m : FfnModule) (W : Params E) (x : Tensor) : Tensor :=
  let concat_x1_x2 := linear W "gate_up_proj" (up_bias m) x in
  let x1 := op_split concat_x1_x2 2 0 in
  let x2 := op_split concat_x1_x2 2 1 in
  linear W "down_proj" (down_bias m) (op_mul (op_act (act_name m) x1) x2).

Definition QWen2Attention_forward (m : AttentionModule) (W : Params E) (hidden_states : Tensor)
    (cache : Cache) (layer_id : nat) : Tensor * Cache :=
  let qkv := linear W "c_attn" (qkv_bias m) hidden_states in
  let '(output, cache) := fused_attention (at_head_dim m) (num_q_heads m) (num_kv_heads m)
    (rsqrt_dim (at_head_dim m)) hidden_states qkv cache layer_id in
  (linear W "o_proj" (o_bias m) output, cache).

Definition QWen2DecoderLayer_forward (m : LayerModule) (W : Params E) : Layer := fun hidden_states cache layer_id =>
  let '(out, cache) := QWen2Attention_forward (self_attn m) (under "self_attn" W)
    (rms_norm W "input_layernorm" (norm_eps m) hidden_states) cache layer_id in
  (do hidden_states <- apply_residual (ly_shards m) out hidden_states in
   let out := QWen2MLP_forward (mlp m) (under "mlp" W)
     (rms_norm W "post_attention_layernorm" (norm_eps m) hidden_states) in
   do hidden_states <- apply_residual (ly_shards m) out hidden_states in
   Ret (hidden_states, cache))%prog.

(** ** OLMo *)

Definition OLMoFFN_forward (m : FfnModule) (W : Params E) (x : Tensor) : Tensor :=
  let concat_x1_x2 := linear W "gate_up_proj" (up_bias m) x in
  let x1 := op_split concat_x1_x2 2 0 in
  let x2 := op_split concat_x1_x2 2 1 in
  linear W "down_proj" (down_bias m) (op_mul (op_act (act_name m) x1) x2).

Definition OLMoAttention_forward (c : Config) (m : AttentionModule) (W : Params E) (hidden_states : Tensor)
    (cache : Cache) (layer_id : nat) : Tensor * Cache :=
  let qkv := linear W "qkv_proj" (qkv_bias m) hidden_states in
  let qkv :=
    if is_None c "clip_qkv" then qkv
    else op_minimum (op_maximum qkv (SFopp (real c "clip_qkv"))) (real c "clip_qkv") in
  let '(output, cache) := fused_attention (at_head_dim m) (num_q_heads m) (num_kv_heads m)
    (rsqrt_dim (at_head_dim m)) hidden_states qkv cache layer_id in
  (linear W "o_proj" (o_bias m) output, cache).

Definition OLMoDecoderLayer_forward (c : Config) (m : LayerModule) (W : Params E) : Layer := fun hidden_states cache layer_id =>
  let '(out, cache) := OLMoAttention_forward c (self_attn m) (under "self_attn" W)
    (layer_norm_plain (norm_eps m) hidden_states) cache layer_id in
  (do hidden_states <- apply_residual (ly_shards m) out hidden_states in
   let out := OLMoFFN_forward (mlp m) (under "mlp" W)
     (layer_norm_plain (norm_eps m) hidden_states) in
   do hidden_states <- apply_residual (ly_shards m) out hidden_states in
   Ret (hidden_states, cache))%prog.

(** ** MiniCPM *)

Definition MiniCPMMLP_forward (m : FfnModule) (W : Params E) (x : Tensor) : Tensor :=
  let concat_x1_x2 := linear W "gate_up_proj" (up_bias m) x in
  let x1 := op_split concat_x1_x2 2 0 in
  let x2 := op_split concat_x1_x2 2 1 in
  linear W "down_proj" (down_bias m) (op_mul (op_act "silu" x1) x2).

Definition MiniCPMAttention_forward (m : AttentionModule) (W : Params E) (hidden_states : Tensor)
    (cache : Cache) (layer_id : nat) : Tensor * Cache :=
  let qkv := linear W "wqkv_pack" (qkv_bias m) hidden_states in
  let '(output, cache) := fused_attention (at_head_dim m) (num_q_heads m) (num_kv_heads m)
    (rsqrt_dim (at_head_dim m)) hidden_states qkv cache layer_id in
  (linear W "o_proj" (o_bias m) output, cache).

Definition MiniCPMDecoderLayer_forward (c : Config) (m : LayerModule) (W : Params E) : Layer := fun hidden_states cache layer_id =>
  let scale := SFdiv 53 1024 (real c "scale_depth") (SFsqrt 53 1024 (f64_of_Z (Z.of_nat (int c "num_hidden_layers")))) in
  let '(out, cache) := MiniCPMAttention_forward (self_attn m) (under "self_attn" W)
    (rms_norm W "input_layernorm" (norm_eps m) hidden_states) cache layer_id in
  (do hidden_states <- apply_residual (ly_shards m) (op_scale out scale) hidden_states in
   let out := MiniCPMMLP_forward (mlp m) (under "mlp" W)
     (rms_norm W "post_attention_layernorm" (norm_eps m) hidden_states) in
   do hidden_states <- apply_residual (ly_shards m) (op_scale out scale) hidden_states in
   Ret (hidden_states, cache))%prog.

(** ** Phi-3 *)

Definition Phi3MLP_forward (m : FfnModule) (W : Params E) (x : Tensor) : Tensor :=
  let concat_x1_x2 := linear W "gate_up_proj" (up_bias m) x in
  let x1 := op_split concat_x1_x2 2 0 in
  let x2 := op_split concat_x1_x2 2 1 in
  linear W "down_proj" (down_bias m) (op_mul x2 (op_act "silu" x1)).

Definition Phi3MHA_forward (m : AttentionModule) (W : Params E) (hidden_states : Tensor)
    (cache : Cache) (layer_id : nat) : Tensor * Cache :=
  let qkv := linear W "qkv_proj" (qkv_bias m) hidden_states in
  let '(output, cache) := fused_attention (at_head_dim m) (num_q_heads m) (num_kv_heads m)
    (rsqrt_dim (at_head_dim m)) hidden_states qkv cache layer_id in
  (linear W "out_proj" (o_bias m) output, cache).

Definition Phi3ParallelBlock_forward (m : LayerModule) (W : Params E) : Layer := fun hidden_states cache layer_id =>
  let '(out, cache) := Phi3MHA_forward (self_attn m) (under "mixer" W)
    (rms_norm W "ln" (norm_eps m) hidden_states) cache layer_id in
  (do hidden_states <- apply_parallel_residual (ly_shards m) out hidden_states in
   let out := Phi3MLP_forward (mlp m) (under "mlp" W)
     (rms_norm W "post_attention_layernorm" (norm_eps m) hidden_states) in
   do hidden_states <- apply_parallel_residual (ly_shards m) out hidden_states in
   Ret (hidden_states, cache))%prog.

(** ** StarCoder2 *)

Definition Starcoder2MLP_forward (m : FfnModule) (W : Params E) (x : Tensor) : Tensor :=
  linear W "c_proj" (down_bias m) (op_act "gelu_tanh" (linear W "c_fc" (up_bias m) x)).

Definition Starcoder2Attention_forward (m : AttentionModule) (W : Params E) (hidden_states : Tensor)
    (cache : Cache) (layer_id : nat) : Tensor * Cache :=
  let qkv := linear W "wqkv_pack" (qkv_bias m) hidden_states in
  let '(output, cache) := fused_attention (at_head_dim m) (num_q_heads m) (num_kv_heads m)
    (rsqrt_dim (at_head_dim m)) hidden_states qkv cache layer_id in
  (linear W "o_proj" (o_bias m) output, cache).

Definition Starcoder2DecoderLayer_forward (m : LayerModule) (W : Params E) : Layer := fun hidden_states cache layer_id =>
  let '(out, cache) := Starcoder2Attention_forward (self_attn m) (under "self_attn" W)
    (layer_norm W "input_layernorm" (norm_eps m) hidden_states) cache layer_id in
  (do hidden_states <- apply_residual (ly_shards m) out hidden_states in
   let out := Starcoder2MLP_forward (mlp m) (under "mlp" W)
     (layer_norm W "post_attention_layernorm" (norm_eps m) hidden_states) in
   do hidden_states <- apply_residual (ly_shards m) out hidden_states in
   Ret (hidden_states, cache))%prog.

(** ** GPT-2 *)

Definition GPT2MLP_forward (m : FfnModule) (W : Params E) (x : Tensor) : Tensor :=
  linear W "c_proj" (down_bias m) (op_act "gelu_tanh" (linear W "c_fc" (up_bias m) x)).

Definition GPT2Attention_forward (c : Config) (m : AttentionModule) (W : Params E) (hidden_states : Tensor)
    (cache : Cache) (layer_id : nat) : Tensor * Cache :=
  let qkv := linear W "c_attn" (qkv_bias m) hidden_states in
  let attn_score_scaling_factor :=
    if flag c "scale_attn_by_inverse_layer_idx" then SFdiv 53 1024 (f64_of_Z 1) (f64_of_Z (Z.of_nat (layer_id + 1)))
    else f64_of_Z 1 in
  let '(output, cache) := fused_attention (at_head_dim m) (num_q_heads m) (num_kv_heads m)
    (SFmul 53 1024 attn_score_scaling_factor (rsqrt_dim (at_head_dim m))) hidden_states qkv cache layer_id in
  (linear W "c_proj" (o_bias m) output, cache).

Definition GPT2Block_forward (c : Config) (m : LayerModule) (W : Params E) : Layer := fun hidden_states cache layer_id =>
  let W := shard_bias_of (ly_shards m) "mlp.c_proj" (shard_bias_of (ly_shards m) "attn.c_proj" W) in
  let '(out, cache) := GPT2Attention_forward c (self_attn m) (under "attn" W)
    (layer_norm W "ln_1" (norm_eps m) hidden_states) cache layer_id in
  (do hidden_states <- apply_parallel_residual (ly_shards m) out hidden_states in
   let out := GPT2MLP_forward (mlp m) (under "mlp" W)
     (layer_norm W "ln_2" (norm_eps m) hidden_states) in
   do hidden_states <- apply_parallel_residual (ly_shards m) out hidden_states in
   Ret (hidden_states, cache))%prog.

(** ** GPT-NeoX *)

Definition GPTNeoXMLP_forward (m : FfnModule) (W : Params E) (x : Tensor) : Tensor :=
  linear W "dense_4h_to_h" (down_bias m) (op_act "gelu" (linear W "dense_h_to_4h" (up_bias m) x)).

Definition GPTNeoXAttention_forward (m : AttentionModule) (W : Params E) (hidden_states : Tensor)
    (cache : Cache) (layer_id : nat) : Tensor * Cache :=
  let qkv := linear W "query_key_value" (qkv_bias m) hidden_states in
  let '(output, cache) := fused_attention (at_head_dim m) (num_q_heads m) (num_kv_heads m)
    (rsqrt_dim (at_head_dim m)) hidden_states qkv cache layer_id in
  (linear W "dense" (o_bias m) output, cache).

Definition GPTNeoXLayer_forward (c : Config) (m : LayerModule) (W : Params E) : Layer := fun hidden_states cache layer_id =>
  let '(attn_output, cache) := GPTNeoXAttention_forward (self_attn m)
    (under "attention" (shard_bias_of (ly_shards m) "attention.dense" W))
    (layer_norm W "input_layernorm" (norm_eps m) hidden_states) cache layer_id in
  if flag c "use_parallel_residual" then
    let mlp_input := layer_norm W "post_attention_layernorm" (norm_eps m) hidden_states in
    let mlp_output := GPTNeoXMLP_forward (mlp m) (under "mlp" W) mlp_input in
    Ret (op_add (op_add mlp_output attn_output) hidden_states, cache)
  else
   (do attn_output <- apply_parallel_residual (ly_shards m) attn_output hidden_states in
    let mlp_input := layer_norm W "post_attention_layernorm" (norm_eps m) attn_output in
    let mlp_output := GPTNeoXMLP_forward (mlp m)
      (under "mlp" (shard_bias_of (ly_shards m) "mlp.dense_4h_to_h" W)) mlp_input in
    do hidden_states <- apply_parallel_residual (ly_shards m) mlp_output attn_output in
    Ret (hidden_states, cache))%prog.

(** ** Phi *)

Definition PhiMLP_forward (m : FfnModule) (W : Params E) (x : Tensor) : Tensor :=
  linear W "fc2" (down_bias m) (op_act "gelu_tanh" (linear W "fc1" (up_bias m) x)).

Definition PhiMHA_forward (m : AttentionModule) (W : Params E) (hidden_states : Tensor)
    (cache : Cache) (layer_id : nat) : Tensor * Cache :=
  let qkv := linear W "Wqkv" (qkv_bias m) hidden_states in
  let '(output, cache) := fused_attention (at_head_dim m) (num_q_heads m) (num_kv_heads m)
    (rsqrt_dim (at_head_dim m)) hidden_states qkv cache layer_id in
  (linear W "out_proj" (o_bias m) output, cache).

Definition PhiParallelBlock_apply_parallel_residual (shards : nat) (attn_out mlp_out residual : Tensor)
  : NetProg Tensor :=
  if 1 <? shards then AllReduce (op_add (op_add attn_out mlp_out) (op_div residual shards)) Ret
  else Ret (op_add (op_add attn_out mlp_out) residual).

Definition PhiParallelBlock_forward (m : LayerModule) (W : Params E) : Layer := fun hidden_states cache layer_id =>
  let residual := hidden_states in
  let hidden_states := layer_norm W "ln" (norm_eps m) hidden_states in
  let W := shard_bias_of (ly_shards m) "mlp.fc2" (shard_bias_of (ly_shards m) "mixer.out_proj" W) in
  let '(attn_outputs, cache) := PhiMHA_forward (self_attn m) (under "mixer" W)
    hidden_states cache layer_id in
  let feed_forward_hidden_states := PhiMLP_forward (mlp m) (under "mlp" W) hidden_states in
  (do hidden_states <- PhiParallelBlock_apply_parallel_residual (ly_shards m) attn_outputs
     feed_forward_hidden_states residual in
   Ret (hidden_states, cache))%prog.

(** ** Gemma 2 *)

(** [self.scaling_factor] is set, and not read by the inherited [forward]. *)
Definition Gemma2Attention_forward : AttentionModule -> Params E -> Tensor -> Cache -> nat -> Tensor * Cache :=
  GemmaAttention_forward.

Definition Gemma2DecoderLayer_forward (m : LayerModule) (W : Params E) : Layer := fun hidden_states cache layer_id =>
  let '(out, cache) := Gemma2Attention_forward (self_attn m) (under "self_attn" W)
    (rms_norm W "input_layernorm" (norm_eps m) hidden_states) cache layer_id in
  (do out <- ccl_allreduce (ly_shards m) out in
   let hidden_states := op_add (rms_norm W "post_attention_layernorm" (norm_eps m) out) hidden_states in
   let out := GemmaMLP_forward (mlp m) (under "mlp" W)
     (rms_norm W "pre_feedforward_layernorm" (norm_eps m) hidden_states) in
   do out <- ccl_allreduce (ly_shards m) out in
   let hidden_states := op_add (rms_norm W "post_feedforward_layernorm" (norm_eps m) out) hidden_states in
   Ret (hidden_states, cache))%prog.

(** ** EAGLE *)

Definition EagleDecoderLayer_forward (index : nat) (m : LayerModule) (W : Params E) : Layer := fun hidden_states cache layer_id =>
  let hidden_states := if index =? 0 then hidden_states
    else rms_norm W "input_layernorm" (norm_eps m) hidden_states in
  let '(out, cache) := LlamaAttention_forward (self_attn m) (under "self_attn" W) hidden_states cache layer_id in
  (do hidden_states <- apply_residual (ly_shards m) out hidden_states in
   let out := LlamaFFN_forward (mlp m) (under "mlp" W)
     (rms_norm W "post_attention_layernorm" (norm_eps m) hidden_states) in
   do hidden_states <- apply_residual (ly_shards m) out hidden_states in
   Ret (hidden_states, cache))%prog.

(** ** The architectures *)

(** A decoder layer of an architecture: the attributes of the configuration
    that give its width, its numbers of heads and its head dimension, its
    constructor, its forward function, and the conditions under which it can be
    run on several workers. *)
Record Arch : Type := mkArch {
  arch_name : string; arch_hidden : string; arch_heads : string; arch_kv_heads : string;
  arch_init : Config -> res LayerModule;
  arch_forward : Config -> LayerModule -> Params E -> Layer;
  arch_needs : Config -> nat -> bool }.


Definition llama_arch : Arch := mkArch "llama" "hidden_size" "num_attention_heads" "num_key_value_heads"
  LlamaDecoderLayer_init (fun _ => LlamaDecoderLayer_forward) (fun _ _ => true).
Definition mistral_arch : Arch := mkArch "mistral" "hidden_size" "num_attention_heads" "num_key_value_heads"
  MistralDecoderLayer_init (fun _ => MistralDecoderLayer_forward) (fun _ _ => true).
Definition gemma_arch : Arch := mkArch "gemma" "hidden_size" "num_attention_heads" "num_key_value_heads"
  GemmaDecoderLayer_init (fun _ => GemmaDecoderLayer_forward) (fun c _ => negb (flag c "attention_bias")).
Definition baichuan_arch : Arch := mkArch "baichuan" "hidden_size" "num_attention_heads" "num_attention_heads"
  BaichuanDecoderLayer_init (fun _ => BaichuanDecoderLayer_forward) (fun _ _ => true).
Definition orion_arch : Arch := mkArch "orion" "hidden_size" "num_attention_heads" "num_key_value_heads"
  OrionDecoderLayer_init (fun _ => OrionDecoderLayer_forward) (fun _ _ => true).
Definition stablelm_arch : Arch := mkArch "stablelm" "hidden_size" "num_attention_heads" "num_key_value_heads"
  StableLmDecoderLayer_init (fun _ => StableLmDecoderLayer_forward) (fun _ _ => true).
Definition internlm_arch : Arch := mkArch "internlm" "hidden_size" "num_attention_heads" "num_attention_heads"
  InternLMDecoderLayer_init (fun _ => InternLMDecoderLayer_forward) (fun c _ => negb (flag c "bias")).
Definition internlm2_arch : Arch := mkArch "internlm2" "hidden_size" "num_attention_heads" "num_key_value_heads"
  InternLM2DecoderLayer_init (fun _ => InternLM2DecoderLayer_forward) (fun c _ => negb (flag c "bias")).
Definition qwen_arch : Arch := mkArch "qwen" "hidden_size" "num_attention_heads" "num_attention_heads"
  QWenBlock_init (fun _ => QWenBlock_forward) (fun c n => int c "intermediate_size" mod (2 * n) =? 0).
Definition qwen2_arch : Arch := mkArch "qwen2" "hidden_size" "num_attention_heads" "num_key_value_heads"
  QWen2DecoderLayer_init (fun _ => QWen2DecoderLayer_forward) (fun _ _ => true).
Definition olmo_arch : Arch := mkArch "olmo" "hidden_size" "num_attention_heads" "num_key_value_heads"
  OLMoDecoderLayer_init OLMoDecoderLayer_forward (fun _ _ => true).
Definition minicpm_arch : Arch := mkArch "minicpm" "hidden_size" "num_attention_heads" "num_key_value_heads"
  MiniCPMDecoderLayer_init MiniCPMDecoderLayer_forward (fun c _ => int c "num_experts" =? 0).
Definition phi3_arch : Arch := mkArch "phi3" "hidden_size" "num_attention_heads" "num_key_value_heads"
  Phi3ParallelBlock_init (fun _ => Phi3ParallelBlock_forward) (fun _ _ => true).
Definition starcoder2_arch : Arch := mkArch "starcoder2" "hidden_size" "num_attention_heads" "num_key_value_heads"
  Starcoder2DecoderLayer_init (fun _ => Starcoder2DecoderLayer_forward) (fun c _ => negb (flag c "use_bias")).
Definition gpt2_arch : Arch := mkArch "gpt2" "n_embd" "n_head" "n_head"
  GPT2Block_init GPT2Block_forward (fun _ _ => true).
Definition gpt_neox_arch : Arch := mkArch "gpt_neox" "hidden_size" "num_attention_heads" "num_attention_heads"
  GPTNeoXLayer_init GPTNeoXLayer_forward (fun c _ => negb (flag c "use_parallel_residual")).
Definition phi_arch : Arch := mkArch "phi" "n_embd" "n_head" "n_head_kv"
  PhiParallelBlock_init (fun _ => PhiParallelBlock_forward) (fun _ _ => true).
Definition gemma2_arch : Arch := mkArch "gemma2" "hidden_size" "num_attention_heads" "num_key_value_heads"
  Gemma2DecoderLayer_init (fun _ => Gemma2DecoderLayer_forward) (fun c _ => negb (flag c "attention_bias")).
Definition eagle_0_arch : Arch := mkArch "eagle, layer 0" "hidden_size" "num_attention_heads" "num_key_value_heads"
  (fun c => EagleDecoderLayer_init c 0) (fun _ => EagleDecoderLayer_forward 0) (fun _ _ => true).
Definition eagle_1_arch : Arch := mkArch "eagle, layer 1" "hidden_size" "num_attention_heads" "num_key_value_heads"
  (fun c => EagleDecoderLayer_init c 1) (fun _ => EagleDecoderLayer_forward 1) (fun _ _ => true).

Definition architectures : list Arch :=
  [llama_arch; mistral_arch; gemma_arch; baichuan_arch; orion_arch; stablelm_arch; internlm_arch; internlm2_arch;
   qwen_arch; qwen2_arch; olmo_arch; minicpm_arch; phi3_arch; starcoder2_arch; gpt2_arch; gpt_neox_arch;
   phi_arch; gemma2_arch; eagle_0_arch; eagle_1_arch].
End Forward.
Arguments Arch E {KV}.
