(* ===== verification/ParallelDecoders.v ===== *)
(** * The decoder layers on several workers

    For every decoder layer of [LlamaModel.v] and [Decoders.v]: on [n] workers
    with the weights that the sharding strategies give them, the layer computes
    what it computes on one worker with the whole weights, and the KV caches of
    the workers stay parts of the whole cache.  The conditions under which this
    holds are those of the lemma of the architecture. *)

From Stdlib Require Import SpecFloat.
From stdpp Require Import base list strings.
From S2P Require Import Prelude PyNum Spmd TensorOps TensorParallel KvCache Network LlamaModel Decoders.
Local Open Scope nat_scope.

Section Sharded.
Context `{EL : ElemLaws} {N : NnOps E} {NL : NnLaws N} {TP : Topi E} {TL : TopiLaws TP}.
Context {KV : KVCache E} {KL : KVCacheLaws KV}.
Variables (n : nat) (c : Config).
Hypothesis n_pos : 0 < n.

(** The weights of the goal: of the workers, and of the whole model. *)
Ltac column_proof id name bias r segs :=
  match goal with |- LayerOk ?n ?H (fun k => ?f (worker_params ?pn ?n k ?W)) _ =>
    assert (id : ColumnOk n H (segs_of r segs) r (fun k => linear (worker_params pn n k W) name bias)
                   (linear W name bias)) by column_at segs end.
Ltac row_proof id name r :=
  match goal with |- LayerOk ?n ?H (fun k => ?f (worker_params ?pn ?n k ?W)) _ =>
    assert (id : RowOk n r H (fun k => linear (worker_params pn n k W) name false) (linear W name false)) by row_at end.
Ltac row_bias_proof id name r :=
  match goal with |- LayerOk ?n ?H (fun k => ?f (worker_params ?pn ?n k ?W)) _ =>
    assert (id : RowOk n r H (fun k => linear (shard_bias_of n name (worker_params pn n k W)) name true)
                   (linear W name true)) by row_bias_at end.
Ltac rms_proof id name eps :=
  match goal with |- LayerOk ?n ?H (fun k => ?f (worker_params ?pn ?n k ?W)) _ =>
    assert (id : NormOk n H (fun k => rms_norm (worker_params pn n k W) name eps) (rms_norm W name eps))
      by (eapply rms_norm_ok; param_at) end.
Ltac layer_norm_proof id name eps :=
  match goal with |- LayerOk ?n ?H (fun k => ?f (worker_params ?pn ?n k ?W)) _ =>
    assert (id : NormOk n H (fun k => layer_norm (worker_params pn n k W) name eps) (layer_norm W name eps))
      by (eapply layer_norm_ok; param_at) end.

(** The group size of the whole model and of a worker. *)
Ltac groups :=
  match goal with
  | |- ?q mod ?q = 0 => apply Nat.Div0.mod_same
  | H : (?n * ?q) mod (?n * ?kv) = 0 |- ?q mod ?kv = 0 => rewrite Nat.Div0.mul_mod_distr_l in H; nia
  end.

(** The projections of the attention and of the feed-forward network, and the
    attention itself. *)
Ltac attention_proof q kv d r scale qkv qb o Hd :=
  let Hqkv := fresh "Hqkv" in let Ho := fresh "Ho" in
  column_proof Hqkv qkv qb r (Some [q * d; kv * d; kv * d]); row_proof Ho o (q * d);
  match goal with |- LayerOk ?n ?H _ _ =>
    pose proof (attention_ok n n_pos d q kv scale r H _ _ _ _ Hd ltac:(groups) ltac:(lia) Hqkv Ho) as HA end.
Ltac attention_bias_proof q kv d r scale qkv o Hd :=
  let Hqkv := fresh "Hqkv" in let Ho := fresh "Ho" in
  column_proof Hqkv qkv true r (Some [q * d; kv * d; kv * d]); row_bias_proof Ho o (q * d);
  match goal with |- LayerOk ?n ?H _ _ =>
    pose proof (attention_ok n n_pos d q kv scale r H _ _ _ _ Hd ltac:(groups) ltac:(lia) Hqkv Ho) as HA end.
Ltac gated_proof i combine up down :=
  let Hup := fresh "Hup" in let Hdown := fresh "Hdown" in
  column_proof Hup up false (2 * i) (Some [i; i]); row_proof Hdown down i;
  match goal with |- LayerOk ?n ?H _ _ =>
    pose proof (gated_ffn_ok n n_pos _ i H _ _ _ _ combine Hup Hdown) as HF end.
Ltac ffn_proof i act up ub down :=
  let Hup := fresh "Hup" in let Hdown := fresh "Hdown" in
  column_proof Hup up ub i (@None (list nat));
  lazymatch ub with true => row_bias_proof Hdown down i | false => row_proof Hdown down i end;
  match goal with |- LayerOk ?n ?H _ _ =>
    pose proof (ffn_ok n n_pos (op_act act) i H _ _ _ _ (elementwise_ffn n _ (Elementwise_act n act) i) Hup Hdown)
      as HF end.

(** The shares of a worker by name. *)
Ltac share c f x := match goal with H : int c f = n * ?a |- _ => rename a into x end.
Ltac flags_of c := change (flag (on_workers 1 c)) with (flag c) in *; change (flag (on_workers n c)) with (flag c) in *.


Lemma phi_residual_ok outs out os o rs r : shape out = shape r -> shape o = shape r ->
  Sum n outs out -> Sum n os o -> Rep n rs r ->
  Spmd ccl_sum n (fun k => PhiParallelBlock_apply_parallel_residual n (outs k) (os k) (rs k))
    (fun y => Rep n y (op_add (op_add out o) r)).
Proof.
  intros H1 H2 Ho Hm Hr.
  apply (parallel_residual_ok n n_pos (fun k => op_add (outs k) (os k)) (op_add out o) rs r); [|done|].
  - apply Sum_add; [congruence|done|done].
  - rewrite add_shape; congruence.
Qed.

(** The two halves of an even share. *)
Ltac half_size n i Hneed :=
  let j := fresh "j" in
  assert (exists j, i = 2 * j) as [j ->] by (apply Nat.Div0.mod_divides in Hneed as [j Hj]; exists j; nia);
  assert (Hj1 : 2 * j / 2 = j) by (rewrite Nat.mul_comm, Nat.div_mul; lia);
  assert (Hj2 : n * (2 * j) / 2 = n * j) by (replace (n * (2 * j)) with (n * j * 2) by lia; rewrite Nat.div_mul; lia);
  change (fst (Nat.divmod (2 * j) 1 0 1)) with (2 * j / 2) in *;
  change (fst (Nat.divmod (n * (2 * j)) 1 0 1)) with (n * (2 * j) / 2) in *;
  rewrite Hj1, Hj2 in *; clear Hj1 Hj2;
  rename j into i.

Lemma mul_act_ok_r (f : string) i p xs ys x y : shape x = p ++ [n * i] -> shape y = p ++ [n * i] ->
  Cols n (block i) i (n * i) xs x -> Cols n (block i) i (n * i) ys y ->
  Cols n (block i) i (n * i) (fun k => op_mul (xs k) (op_act f (ys k))) (op_mul x (op_act f y)) /\
  shape (op_mul x (op_act f y)) = p ++ [n * i].
Proof. intros Hx Hy Hxs Hys. exact (mul_act_ok n f i p ys xs y x Hy Hx Hys Hxs). Qed.

(** Llama *)
Lemma LlamaDecoderLayer_ok l1 ln W :
  LlamaDecoderLayer_init (on_workers 1 c) = Ok l1 -> LlamaDecoderLayer_init (on_workers n c) = Ok ln ->
  int c "num_attention_heads" mod n = 0 -> int c "num_key_value_heads" mod n = 0 -> int c "num_attention_heads" mod int c "num_key_value_heads" = 0 -> 0 < int c "head_dim" ->
  Shaped (ly_params l1) W ->
  LayerOk n (int c "hidden_size") (fun k => LlamaDecoderLayer_forward ln (worker_params (ly_params ln) n k W))
    (LlamaDecoderLayer_forward l1 W).
Proof.
  intros H1 Hn Hq Hkv Hg Hd HW.
  unfold LlamaDecoderLayer_init, LlamaAttention_init, LlamaFFN_init in *.
  init_facts n. cbn [ly_params norm_eps intermediate_size] in *. share c "num_attention_heads" q. share c "num_key_value_heads" kv. share c "intermediate_size" i.
  attention_proof q kv (int c "head_dim") ((q + 2 * kv) * int c "head_dim")
    (fun _ : nat => rsqrt_dim (int c "head_dim")) "self_attn.qkv_proj"%string false "self_attn.o_proj"%string Hd.
  gated_proof i (act_mul_ok n "silu" i) "mlp.gate_up_proj"%string "mlp.down_proj"%string.
  rms_proof HN1 "input_layernorm"%string (real c "rms_norm_eps").
  rms_proof HN2 "post_attention_layernorm"%string (real c "rms_norm_eps").
  exact (sequential_ok n (fun x => x) apply_residual (int c "hidden_size") _ _ _ _ _ _ _ _ (residual_ok n n_pos) (fun _ _ => eq_refl) (fun _ => eq_refl)
    HA HF HN1 HN2).
Qed.

(** Mistral *)
Lemma MistralDecoderLayer_ok l1 ln W :
  MistralDecoderLayer_init (on_workers 1 c) = Ok l1 -> MistralDecoderLayer_init (on_workers n c) = Ok ln ->
  int c "num_attention_heads" mod n = 0 -> int c "num_key_value_heads" mod n = 0 -> int c "num_attention_heads" mod int c "num_key_value_heads" = 0 -> 0 < int c "head_dim" ->
  Shaped (ly_params l1) W ->
  LayerOk n (int c "hidden_size") (fun k => MistralDecoderLayer_forward ln (worker_params (ly_params ln) n k W))
    (MistralDecoderLayer_forward l1 W).
Proof.
  intros H1 Hn Hq Hkv Hg Hd HW.
  unfold MistralDecoderLayer_init, MistralAttention_init, MistralMLP_init in *.
  init_facts n. cbn [ly_params norm_eps intermediate_size] in *. share c "num_attention_heads" q. share c "num_key_value_heads" kv. share c "intermediate_size" i.
  attention_proof q kv (int c "head_dim") ((q + 2 * kv) * int c "head_dim")
    (fun _ : nat => rsqrt_dim (int c "head_dim")) "self_attn.qkv_proj"%string false "self_attn.o_proj"%string Hd.
  gated_proof i (act_mul_ok n "silu" i) "mlp.gate_up_proj"%string "mlp.down_proj"%string.
  rms_proof HN1 "input_layernorm"%string (real c "rms_norm_eps").
  rms_proof HN2 "post_attention_layernorm"%string (real c "rms_norm_eps").
  exact (sequential_ok n (fun x => x) apply_residual (int c "hidden_size") _ _ _ _ _ _ _ _ (residual_ok n n_pos) (fun _ _ => eq_refl) (fun _ => eq_refl)
    HA HF HN1 HN2).
Qed.

(** Gemma *)
Lemma GemmaDecoderLayer_ok l1 ln W :
  GemmaDecoderLayer_init (on_workers 1 c) = Ok l1 -> GemmaDecoderLayer_init (on_workers n c) = Ok ln ->
  int c "num_attention_heads" mod n = 0 -> int c "num_key_value_heads" mod n = 0 -> int c "num_attention_heads" mod int c "num_key_value_heads" = 0 -> 0 < int c "head_dim" -> flag c "attention_bias" = false ->
  Shaped (ly_params l1) W ->
  LayerOk n (int c "hidden_size") (fun k => GemmaDecoderLayer_forward ln (worker_params (ly_params ln) n k W))
    (GemmaDecoderLayer_forward l1 W).
Proof.
  intros H1 Hn Hq Hkv Hg Hd Hneed HW.
  unfold GemmaDecoderLayer_init, GemmaAttention_init, GemmaMLP_init in *.
  flags_of c.
  rewrite Hneed in *.
  init_facts n. cbn [ly_params norm_eps intermediate_size] in *. share c "num_attention_heads" q. share c "num_key_value_heads" kv. share c "intermediate_size" i.
  attention_proof q kv (int c "head_dim") ((q + 2 * kv) * int c "head_dim")
    (fun _ : nat => rsqrt_dim (int c "head_dim")) "self_attn.qkv_proj"%string false "self_attn.o_proj"%string Hd.
  gated_proof i (act_mul_ok n "gelu_tanh" i) "mlp.gate_up_proj"%string "mlp.down_proj"%string.
  rms_proof HN1 "input_layernorm"%string (real c "rms_norm_eps").
  rms_proof HN2 "post_attention_layernorm"%string (real c "rms_norm_eps").
  exact (sequential_ok n (fun x => x) apply_residual (int c "hidden_size") _ _ _ _ _ _ _ _ (residual_ok n n_pos) (fun _ _ => eq_refl) (fun _ => eq_refl)
    HA HF HN1 HN2).
Qed.

(** Baichuan *)
Lemma BaichuanDecoderLayer_ok l1 ln W :
  BaichuanDecoderLayer_init (on_workers 1 c) = Ok l1 -> BaichuanDecoderLayer_init (on_workers n c) = Ok ln ->
  int c "num_attention_heads" mod n = 0 -> 0 < int c "head_dim" ->
  Shaped (ly_params l1) W ->
  LayerOk n (int c "hidden_size") (fun k => BaichuanDecoderLayer_forward ln (worker_params (ly_params ln) n k W))
    (BaichuanDecoderLayer_forward l1 W).
Proof.
  intros H1 Hn Hq Hd HW.
  unfold BaichuanDecoderLayer_init, BaichuanAttention_init, BaichuanMLP_init in *.
  init_facts n. cbn [ly_params norm_eps intermediate_size] in *. share c "num_attention_heads" q. share c "intermediate_size" i.
  attention_proof q q (int c "head_dim") (3 * q * int c "head_dim")
    (fun _ : nat => rsqrt_dim (int c "head_dim")) "self_attn.W_pack"%string false "self_attn.o_proj"%string Hd.
  gated_proof i (act_mul_ok n "silu" i) "mlp.gate_up_proj"%string "mlp.down_proj"%string.
  rms_proof HN1 "input_layernorm"%string (real c "rms_norm_eps").
  rms_proof HN2 "post_attention_layernorm"%string (real c "rms_norm_eps").
  exact (sequential_ok n (fun x => x) apply_residual (int c "hidden_size") _ _ _ _ _ _ _ _ (residual_ok n n_pos) (fun _ _ => eq_refl) (fun _ => eq_refl)
    HA HF HN1 HN2).
Qed.

(** Orion *)
Lemma OrionDecoderLayer_ok l1 ln W :
  OrionDecoderLayer_init (on_workers 1 c) = Ok l1 -> OrionDecoderLayer_init (on_workers n c) = Ok ln ->
  int c "num_attention_heads" mod n = 0 -> int c "num_key_value_heads" mod n = 0 -> int c "num_attention_heads" mod int c "num_key_value_heads" = 0 -> 0 < int c "head_dim" ->
  Shaped (ly_params l1) W ->
  LayerOk n (int c "hidden_size") (fun k => OrionDecoderLayer_forward ln (worker_params (ly_params ln) n k W))
    (OrionDecoderLayer_forward l1 W).
Proof.
  intros H1 Hn Hq Hkv Hg Hd HW.
  unfold OrionDecoderLayer_init, OrionAttention_init, OrionFFN_init in *.
  init_facts n. cbn [ly_params norm_eps intermediate_size] in *. share c "num_attention_heads" q. share c "num_key_value_heads" kv. share c "intermediate_size" i.
  attention_proof q kv (int c "head_dim") ((q + 2 * kv) * int c "head_dim")
    (fun _ : nat => rsqrt_dim (int c "head_dim")) "self_attn.qkv_proj"%string false "self_attn.o_proj"%string Hd.
  gated_proof i (act_mul_ok n "silu" i) "mlp.gate_up_proj"%string "mlp.down_proj"%string.
  layer_norm_proof HN1 "input_layernorm"%string (real c "rms_norm_eps").
  layer_norm_proof HN2 "post_attention_layernorm"%string (real c "rms_norm_eps").
  exact (sequential_ok n (fun x => x) apply_residual (int c "hidden_size") _ _ _ _ _ _ _ _ (residual_ok n n_pos) (fun _ _ => eq_refl) (fun _ => eq_refl)
    HA HF HN1 HN2).
Qed.

(** StableLM *)
Lemma StableLmDecoderLayer_ok l1 ln W :
  StableLmDecoderLayer_init (on_workers 1 c) = Ok l1 -> StableLmDecoderLayer_init (on_workers n c) = Ok ln ->
  int c "num_attention_heads" mod n = 0 -> int c "num_key_value_heads" mod n = 0 -> int c "num_attention_heads" mod int c "num_key_value_heads" = 0 -> 0 < int c "head_dim" ->
  Shaped (ly_params l1) W ->
  LayerOk n (int c "hidden_size") (fun k => StableLmDecoderLayer_forward ln (worker_params (ly_params ln) n k W))
    (StableLmDecoderLayer_forward l1 W).
Proof.
  intros H1 Hn Hq Hkv Hg Hd HW.
  unfold StableLmDecoderLayer_init, StableLmAttention_init, StableLmMLP_init in *.
  flags_of c.
  destruct (flag c "use_qkv_bias").
  - init_facts n. cbn [ly_params norm_eps intermediate_size] in *. share c "num_attention_heads" q. share c "num_key_value_heads" kv. share c "intermediate_size" i.
    attention_proof q kv (int c "head_dim") ((q + 2 * kv) * int c "head_dim")
      (fun _ : nat => rsqrt_dim (int c "head_dim")) "self_attn.qkv_proj"%string true "self_attn.o_proj"%string Hd.
    gated_proof i (act_mul_ok n "silu" i) "mlp.gate_up_proj"%string "mlp.down_proj"%string.
    layer_norm_proof HN1 "input_layernorm"%string (real c "layer_norm_eps").
    layer_norm_proof HN2 "post_attention_layernorm"%string (real c "layer_norm_eps").
    exact (sequential_ok n (fun x => x) apply_residual (int c "hidden_size") _ _ _ _ _ _ _ _ (residual_ok n n_pos) (fun _ _ => eq_refl) (fun _ => eq_refl)
      HA HF HN1 HN2).
  - init_facts n. cbn [ly_params norm_eps intermediate_size] in *. share c "num_attention_heads" q. share c "num_key_value_heads" kv. share c "intermediate_size" i.
    attention_proof q kv (int c "head_dim") ((q + 2 * kv) * int c "head_dim")
      (fun _ : nat => rsqrt_dim (int c "head_dim")) "self_attn.qkv_proj"%string false "self_attn.o_proj"%string Hd.
    gated_proof i (act_mul_ok n "silu" i) "mlp.gate_up_proj"%string "mlp.down_proj"%string.
    layer_norm_proof HN1 "input_layernorm"%string (real c "layer_norm_eps").
    layer_norm_proof HN2 "post_attention_layernorm"%string (real c "layer_norm_eps").
    exact (sequential_ok n (fun x => x) apply_residual (int c "hidden_size") _ _ _ _ _ _ _ _ (residual_ok n n_pos) (fun _ _ => eq_refl) (fun _ => eq_refl)
      HA HF HN1 HN2).
Qed.

(** InternLM *)
Lemma InternLMDecoderLayer_ok l1 ln W :
  InternLMDecoderLayer_init (on_workers 1 c) = Ok l1 -> InternLMDecoderLayer_init (on_workers n c) = Ok ln ->
  int c "num_attention_heads" mod n = 0 -> 0 < int c "head_dim" -> flag c "bias" = false ->
  Shaped (ly_params l1) W ->
  LayerOk n (int c "hidden_size") (fun k => InternLMDecoderLayer_forward ln (worker_params (ly_params ln) n k W))
    (InternLMDecoderLayer_forward l1 W).
Proof.
  intros H1 Hn Hq Hd Hneed HW.
  unfold InternLMDecoderLayer_init, InternLMAttention_init, InternLMMLP_init in *.
  flags_of c.
  rewrite Hneed in *.
  init_facts n. cbn [ly_params norm_eps intermediate_size] in *. share c "num_attention_heads" q. share c "intermediate_size" i.
  attention_proof q q (int c "head_dim") (3 * q * int c "head_dim")
    (fun _ : nat => rsqrt_dim (int c "head_dim")) "self_attn.wqkv_pack"%string false "self_attn.o_proj"%string Hd.
  gated_proof i (act_mul_ok n "silu" i) "mlp.gate_up_proj"%string "mlp.down_proj"%string.
  rms_proof HN1 "input_layernorm"%string (real c "rms_norm_eps").
  rms_proof HN2 "post_attention_layernorm"%string (real c "rms_norm_eps").
  exact (sequential_ok n (fun x => x) apply_residual (int c "hidden_size") _ _ _ _ _ _ _ _ (residual_ok n n_pos) (fun _ _ => eq_refl) (fun _ => eq_refl)
    HA HF HN1 HN2).
Qed.

(** InternLM2 *)
Lemma InternLM2DecoderLayer_ok l1 ln W :
  InternLM2DecoderLayer_init (on_workers 1 c) = Ok l1 -> InternLM2DecoderLayer_init (on_workers n c) = Ok ln ->
  int c "num_attention_heads" mod n = 0 -> int c "num_key_value_heads" mod n = 0 -> int c "num_attention_heads" mod int c "num_key_value_heads" = 0 -> 0 < int c "head_dim" -> flag c "bias" = false ->
  Shaped (ly_params l1) W ->
  LayerOk n (int c "hidden_size") (fun k => InternLM2DecoderLayer_forward ln (worker_params (ly_params ln) n k W))
    (InternLM2DecoderLayer_forward l1 W).
Proof.
  intros H1 Hn Hq Hkv Hg Hd Hneed HW.
  unfold InternLM2DecoderLayer_init, InternLM2Attention_init, InternLM2MLP_init in *.
  flags_of c.
  rewrite Hneed in *.
  init_facts n. cbn [ly_params norm_eps intermediate_size] in *. share c "num_attention_heads" q. share c "num_key_value_heads" kv. share c "intermediate_size" i.
  attention_proof q kv (int c "head_dim") ((q + 2 * kv) * int c "head_dim")
    (fun _ : nat => rsqrt_dim (int c "head_dim")) "attention.wqkv"%string false "attention.wo"%string Hd.
  gated_proof i (act_mul_ok n "silu" i) "feed_forward.gate_up_proj"%string "feed_forward.w2"%string.
  rms_proof HN1 "attention_norm"%string (real c "rms_norm_eps").
  rms_proof HN2 "ffn_norm"%string (real c "rms_norm_eps").
  exact (sequential_ok n (fun x => x) apply_residual (int c "hidden_size") _ _ _ _ _ _ _ _ (residual_ok n n_pos) (fun _ _ => eq_refl) (fun _ => eq_refl)
    HA HF HN1 HN2).
Qed.

(** Qwen *)
Lemma QWenBlock_ok l1 ln W :
  QWenBlock_init (on_workers 1 c) = Ok l1 -> QWenBlock_init (on_workers n c) = Ok ln ->
  int c "num_attention_heads" mod n = 0 -> 0 < int c "head_dim" -> int c "intermediate_size" mod (2 * n) = 0 ->
  Shaped (ly_params l1) W ->
  LayerOk n (int c "hidden_size") (fun k => QWenBlock_forward ln (worker_params (ly_params ln) n k W))
    (QWenBlock_forward l1 W).
Proof.
  intros H1 Hn Hq Hd Hneed HW.
  unfold QWenBlock_init, QWenAttention_init, QWenMLP_init in *.
  init_facts n. cbn [ly_params norm_eps intermediate_size] in *. share c "num_attention_heads" q. share c "intermediate_size" i.
  half_size n i Hneed.
  attention_proof q q (int c "head_dim") (3 * q * int c "head_dim")
    (fun _ : nat => rsqrt_dim (int c "head_dim")) "attn.c_attn"%string true "attn.c_proj"%string Hd.
  gated_proof i (mul_act_ok_r "silu" i) "mlp.gate_up_proj"%string "mlp.c_proj"%string.
  rms_proof HN1 "ln_1"%string (real c "layer_norm_epsilon").
  rms_proof HN2 "ln_2"%string (real c "layer_norm_epsilon").
  exact (sequential_ok n (fun x => x) apply_residual (int c "hidden_size") _ _ _ _ _ _ _ _ (residual_ok n n_pos) (fun _ _ => eq_refl) (fun _ => eq_refl)
    HA HF HN1 HN2).
Qed.

(** Qwen2 *)
Lemma QWen2DecoderLayer_ok l1 ln W :
  QWen2DecoderLayer_init (on_workers 1 c) = Ok l1 -> QWen2DecoderLayer_init (on_workers n c) = Ok ln ->
  int c "num_attention_heads" mod n = 0 -> int c "num_key_value_heads" mod n = 0 -> int c "num_attention_heads" mod int c "num_key_value_heads" = 0 -> 0 < int c "head_dim" ->
  Shaped (ly_params l1) W ->
  LayerOk n (int c "hidden_size") (fun k => QWen2DecoderLayer_forward ln (worker_params (ly_params ln) n k W))
    (QWen2DecoderLayer_forward l1 W).
Proof.
  intros H1 Hn Hq Hkv Hg Hd HW.
  unfold QWen2DecoderLayer_init, QWen2Attention_init, QWen2MLP_init in *.
  init_facts n. cbn [ly_params norm_eps intermediate_size] in *. share c "num_attention_heads" q. share c "num_key_value_heads" kv. share c "intermediate_size" i.
  attention_proof q kv (int c "head_dim") ((q + 2 * kv) * int c "head_dim")
    (fun _ : nat => rsqrt_dim (int c "head_dim")) "self_attn.c_attn"%string true "self_attn.o_proj"%string Hd.
  match goal with H : dict_getitem ACT2FN _ = Ok ?a, H2 : dict_getitem ACT2FN _ = Ok ?b |- _ =>
    pose proof (eq_trans (eq_sym H) H2 : Ok a = Ok b) as Hact; injection Hact as Hact; subst a; rename b into act end.
  gated_proof i (act_mul_ok n act i) "mlp.gate_up_proj"%string "mlp.down_proj"%string.
  rms_proof HN1 "input_layernorm"%string (real c "rms_norm_eps").
  rms_proof HN2 "post_attention_layernorm"%string (real c "rms_norm_eps").
  exact (sequential_ok n (fun x => x) apply_residual (int c "hidden_size") _ _ _ _ _ _ _ _ (residual_ok n n_pos) (fun _ _ => eq_refl) (fun _ => eq_refl)
    HA HF HN1 HN2).
Qed.

(** OLMo *)
Lemma OLMoDecoderLayer_ok l1 ln W :
  OLMoDecoderLayer_init (on_workers 1 c) = Ok l1 -> OLMoDecoderLayer_init (on_workers n c) = Ok ln ->
  int c "num_attention_heads" mod n = 0 -> int c "num_key_value_heads" mod n = 0 -> int c "num_attention_heads" mod int c "num_key_value_heads" = 0 -> 0 < int c "head_dim" ->
  Shaped (ly_params l1) W ->
  LayerOk n (int c "hidden_size") (fun k => OLMoDecoderLayer_forward (on_workers n c) ln (worker_params (ly_params ln) n k W))
    (OLMoDecoderLayer_forward (on_workers 1 c) l1 W).
Proof.
  intros H1 Hn Hq Hkv Hg Hd HW.
  unfold OLMoDecoderLayer_init, OLMoAttention_init, OLMoFFN_init in *.
  init_facts n. cbn [ly_params norm_eps intermediate_size] in *. share c "num_attention_heads" q. share c "num_key_value_heads" kv. share c "intermediate_size" i.
  column_proof Hqkv "self_attn.qkv_proj"%string false ((q + 2 * kv) * int c "head_dim") (Some [q * int c "head_dim"; kv * int c "head_dim"; kv * int c "head_dim"]).
  row_proof Ho "self_attn.o_proj"%string (q * int c "head_dim").
  assert (Hclip : Elementwise n (fun x => if is_None c "clip_qkv" then x
    else op_minimum (op_maximum x (SFopp (real c "clip_qkv"))) (real c "clip_qkv"))).
  { destruct (is_None c "clip_qkv"); [apply Elementwise_id|apply Elementwise_clamp]. }
  pose proof (attention_ok n n_pos (int c "head_dim") q kv (fun _ : nat => rsqrt_dim (int c "head_dim")) ((q + 2 * kv) * int c "head_dim") (int c "hidden_size") _ _ _ _ Hd ltac:(groups) ltac:(lia)
    (column_map n _ _ _ _ _ _ Hclip Hqkv) Ho) as HA.
  match goal with H : dict_getitem ACT2FN _ = Ok ?a, H2 : dict_getitem ACT2FN _ = Ok ?b |- _ =>
    pose proof (eq_trans (eq_sym H) H2 : Ok a = Ok b) as Hact; injection Hact as Hact; subst a; rename b into act end.
  gated_proof i (act_mul_ok n act i) "mlp.gate_up_proj"%string "mlp.down_proj"%string.
  pose proof (layer_norm_plain_ok n (int c "hidden_size") eps_1e_5) as HN1.
  pose proof (layer_norm_plain_ok n (int c "hidden_size") eps_1e_5) as HN2.
  exact (sequential_ok n (fun x => x) apply_residual (int c "hidden_size") _ _ _ _ _ _ _ _ (residual_ok n n_pos) (fun _ _ => eq_refl) (fun _ => eq_refl)
    HA HF HN1 HN2).
Qed.

(** MiniCPM *)
Lemma MiniCPMDecoderLayer_ok l1 ln W :
  MiniCPMDecoderLayer_init (on_workers 1 c) = Ok l1 -> MiniCPMDecoderLayer_init (on_workers n c) = Ok ln ->
  int c "num_attention_heads" mod n = 0 -> int c "num_key_value_heads" mod n = 0 -> int c "num_attention_heads" mod int c "num_key_value_heads" = 0 -> 0 < int c "head_dim" -> int c "num_experts" = 0 ->
  Shaped (ly_params l1) W ->
  LayerOk n (int c "hidden_size") (fun k => MiniCPMDecoderLayer_forward (on_workers n c) ln (worker_params (ly_params ln) n k W))
    (MiniCPMDecoderLayer_forward (on_workers 1 c) l1 W).
Proof.
  intros H1 Hn Hq Hkv Hg Hd Hneed HW.
  unfold MiniCPMDecoderLayer_init, MiniCPMAttention_init, MiniCPMMLP_init in *.
  init_facts n. cbn [ly_params norm_eps intermediate_size] in *. share c "num_attention_heads" q. share c "num_key_value_heads" kv. share c "intermediate_size" i.
  attention_proof q kv (int c "head_dim") ((q + 2 * kv) * int c "head_dim")
    (fun _ : nat => rsqrt_dim (int c "head_dim")) "self_attn.wqkv_pack"%string false "self_attn.o_proj"%string Hd.
  gated_proof i (act_mul_ok n "silu" i) "mlp.gate_up_proj"%string "mlp.down_proj"%string.
  rms_proof HN1 "input_layernorm"%string (real c "rms_norm_eps").
  rms_proof HN2 "post_attention_layernorm"%string (real c "rms_norm_eps").
  set (scale := SFdiv 53 1024 (real c "scale_depth") (SFsqrt 53 1024 (f64_of_Z (Z.of_nat (int c "num_hidden_layers"))))).
  exact (sequential_ok n (fun x => op_scale x scale) (fun m out r => apply_residual m (op_scale out scale) r) (int c "hidden_size")
    _ _ _ _ _ _ _ _ (scaled_residual_ok n n_pos scale) (fun _ _ => eq_refl) (fun x => scale_shape x scale) HA HF HN1 HN2).
Qed.

(** Phi-3 *)
Lemma Phi3ParallelBlock_ok l1 ln W :
  Phi3ParallelBlock_init (on_workers 1 c) = Ok l1 -> Phi3ParallelBlock_init (on_workers n c) = Ok ln ->
  int c "num_attention_heads" mod n = 0 -> int c "num_key_value_heads" mod n = 0 -> int c "num_attention_heads" mod int c "num_key_value_heads" = 0 -> 0 < int c "head_dim" ->
  Shaped (ly_params l1) W ->
  LayerOk n (int c "hidden_size") (fun k => Phi3ParallelBlock_forward ln (worker_params (ly_params ln) n k W))
    (Phi3ParallelBlock_forward l1 W).
Proof.
  intros H1 Hn Hq Hkv Hg Hd HW.
  unfold Phi3ParallelBlock_init, Phi3MHA_init, Phi3MLP_init in *.
  init_facts n. cbn [ly_params norm_eps intermediate_size] in *. share c "num_attention_heads" q. share c "num_key_value_heads" kv. share c "intermediate_size" i.
  attention_proof q kv (int c "head_dim") ((q + 2 * kv) * int c "head_dim")
    (fun _ : nat => rsqrt_dim (int c "head_dim")) "mixer.qkv_proj"%string false "mixer.out_proj"%string Hd.
  gated_proof i (mul_act_ok n "silu" i) "mlp.gate_up_proj"%string "mlp.down_proj"%string.
  rms_proof HN1 "ln"%string (real c "rms_norm_eps").
  rms_proof HN2 "post_attention_layernorm"%string (real c "rms_norm_eps").
  exact (sequential_ok n (fun x => x) apply_parallel_residual (int c "hidden_size") _ _ _ _ _ _ _ _ (parallel_residual_ok n n_pos) (fun _ _ => eq_refl) (fun _ => eq_refl)
    HA HF HN1 HN2).
Qed.

(** StarCoder2 *)
Lemma Starcoder2DecoderLayer_ok l1 ln W :
  Starcoder2DecoderLayer_init (on_workers 1 c) = Ok l1 -> Starcoder2DecoderLayer_init (on_workers n c) = Ok ln ->
  int c "num_attention_heads" mod n = 0 -> int c "num_key_value_heads" mod n = 0 -> int c "num_attention_heads" mod int c "num_key_value_heads" = 0 -> 0 < int c "head_dim" -> flag c "use_bias" = false ->
  Shaped (ly_params l1) W ->
  LayerOk n (int c "hidden_size") (fun k => Starcoder2DecoderLayer_forward ln (worker_params (ly_params ln) n k W))
    (Starcoder2DecoderLayer_forward l1 W).
Proof.
  intros H1 Hn Hq Hkv Hg Hd Hneed HW.
  unfold Starcoder2DecoderLayer_init, Starcoder2Attention_init, Starcoder2MLP_init in *.
  flags_of c.
  rewrite Hneed in *.
  init_facts n. cbn [ly_params norm_eps intermediate_size] in *. share c "num_attention_heads" q. share c "num_key_value_heads" kv. share c "intermediate_size" i.
  attention_proof q kv (int c "head_dim") ((q + 2 * kv) * int c "head_dim")
    (fun _ : nat => rsqrt_dim (int c "head_dim")) "self_attn.wqkv_pack"%string false "self_attn.o_proj"%string Hd.
  ffn_proof i "gelu_tanh"%string "mlp.c_fc"%string false "mlp.c_proj"%string.
  layer_norm_proof HN1 "input_layernorm"%string (real c "norm_epsilon").
  layer_norm_proof HN2 "post_attention_layernorm"%string (real c "norm_epsilon").
  exact (sequential_ok n (fun x => x) apply_residual (int c "hidden_size") _ _ _ _ _ _ _ _ (residual_ok n n_pos) (fun _ _ => eq_refl) (fun _ => eq_refl)
    HA HF HN1 HN2).
Qed.

(** GPT-2 *)
Lemma GPT2Block_ok l1 ln W :
  GPT2Block_init (on_workers 1 c) = Ok l1 -> GPT2Block_init (on_workers n c) = Ok ln ->
  int c "n_head" mod n = 0 -> 0 < int c "head_dim" ->
  Shaped (ly_params l1) W ->
  LayerOk n (int c "n_embd") (fun k => GPT2Block_forward (on_workers n c) ln (worker_params (ly_params ln) n k W))
    (GPT2Block_forward (on_workers 1 c) l1 W).
Proof.
  intros H1 Hn Hq Hd HW.
  unfold GPT2Block_init, GPT2Attention_init, GPT2MLP_init in *.
  init_facts n. cbn [ly_params norm_eps intermediate_size] in *. share c "n_head" q. share c "n_inner" i.
  attention_bias_proof q q (int c "head_dim") (3 * q * int c "head_dim")
    (fun id : nat => SFmul 53 1024 (if flag c "scale_attn_by_inverse_layer_idx" then SFdiv 53 1024 (f64_of_Z 1) (f64_of_Z (Z.of_nat (id + 1))) else f64_of_Z 1) (rsqrt_dim (int c "head_dim"))) "attn.c_attn"%string "attn.c_proj"%string Hd.
  ffn_proof i "gelu_tanh"%string "mlp.c_fc"%string true "mlp.c_proj"%string.
  layer_norm_proof HN1 "ln_1"%string (real c "layer_norm_epsilon").
  layer_norm_proof HN2 "ln_2"%string (real c "layer_norm_epsilon").
  exact (sequential_ok n (fun x => x) apply_parallel_residual (int c "n_embd") _ _ _ _ _ _ _ _ (parallel_residual_ok n n_pos) (fun _ _ => eq_refl) (fun _ => eq_refl)
    HA HF HN1 HN2).
Qed.

(** GPT-NeoX *)
Lemma GPTNeoXLayer_ok l1 ln W :
  GPTNeoXLayer_init (on_workers 1 c) = Ok l1 -> GPTNeoXLayer_init (on_workers n c) = Ok ln ->
  int c "num_attention_heads" mod n = 0 -> 0 < int c "head_dim" -> flag c "use_parallel_residual" = false ->
  Shaped (ly_params l1) W ->
  LayerOk n (int c "hidden_size") (fun k => GPTNeoXLayer_forward (on_workers n c) ln (worker_params (ly_params ln) n k W))
    (GPTNeoXLayer_forward (on_workers 1 c) l1 W).
Proof.
  intros H1 Hn Hq Hd Hneed HW.
  unfold GPTNeoXLayer_init, GPTNeoXAttention_init, GPTNeoXMLP_init in *.
  init_facts n. cbn [ly_params norm_eps intermediate_size] in *. share c "num_attention_heads" q. share c "intermediate_size" i.
  attention_bias_proof q q (int c "head_dim") (3 * q * int c "head_dim")
    (fun _ : nat => rsqrt_dim (int c "head_dim")) "attention.query_key_value"%string "attention.dense"%string Hd.
  ffn_proof i "gelu"%string "mlp.dense_h_to_4h"%string true "mlp.dense_4h_to_h"%string.
  layer_norm_proof HN1 "input_layernorm"%string (real c "layer_norm_eps").
  layer_norm_proof HN2 "post_attention_layernorm"%string (real c "layer_norm_eps").
  unfold GPTNeoXLayer_forward. flags_of c. rewrite Hneed.
  exact (sequential_ok n (fun x => x) apply_parallel_residual (int c "hidden_size") _ _ _ _ _ _ _ _ (parallel_residual_ok n n_pos) (fun _ _ => eq_refl) (fun _ => eq_refl)
    HA HF HN1 HN2).
Qed.

(** Phi *)
Lemma PhiParallelBlock_ok l1 ln W :
  PhiParallelBlock_init (on_workers 1 c) = Ok l1 -> PhiParallelBlock_init (on_workers n c) = Ok ln ->
  int c "n_head" mod n = 0 -> int c "n_head_kv" mod n = 0 -> int c "n_head" mod int c "n_head_kv" = 0 -> 0 < int c "head_dim" ->
  Shaped (ly_params l1) W ->
  LayerOk n (int c "n_embd") (fun k => PhiParallelBlock_forward ln (worker_params (ly_params ln) n k W))
    (PhiParallelBlock_forward l1 W).
Proof.
  intros H1 Hn Hq Hkv Hg Hd HW.
  unfold PhiParallelBlock_init, PhiMHA_init, PhiMLP_init in *.
  init_facts n. cbn [ly_params norm_eps intermediate_size] in *. share c "n_head" q. share c "n_head_kv" kv. share c "n_inner" i.
  attention_bias_proof q kv (int c "head_dim") ((q + 2 * kv) * int c "head_dim")
    (fun _ : nat => rsqrt_dim (int c "head_dim")) "mixer.Wqkv"%string "mixer.out_proj"%string Hd.
  ffn_proof i "gelu_tanh"%string "mlp.fc1"%string true "mlp.fc2"%string.
  layer_norm_proof HN1 "ln"%string (real c "layer_norm_epsilon").
  exact (parallel_ok n PhiParallelBlock_apply_parallel_residual (int c "n_embd") _ _ _ _ _ _ phi_residual_ok (fun _ _ _ => eq_refl) HA HF HN1).
Qed.

(** Gemma 2 *)
Lemma Gemma2DecoderLayer_ok l1 ln W :
  Gemma2DecoderLayer_init (on_workers 1 c) = Ok l1 -> Gemma2DecoderLayer_init (on_workers n c) = Ok ln ->
  int c "num_attention_heads" mod n = 0 -> int c "num_key_value_heads" mod n = 0 -> int c "num_attention_heads" mod int c "num_key_value_heads" = 0 -> 0 < int c "head_dim" -> flag c "attention_bias" = false ->
  Shaped (ly_params l1) W ->
  LayerOk n (int c "hidden_size") (fun k => Gemma2DecoderLayer_forward ln (worker_params (ly_params ln) n k W))
    (Gemma2DecoderLayer_forward l1 W).
Proof.
  intros H1 Hn Hq Hkv Hg Hd Hneed HW.
  unfold Gemma2DecoderLayer_init, Gemma2Attention_init, GemmaMLP_init, GemmaAttention_init in *.
  flags_of c.
  rewrite Hneed in *.
  init_facts n. cbn [ly_params norm_eps intermediate_size] in *. share c "num_attention_heads" q. share c "num_key_value_heads" kv. share c "intermediate_size" i.
  attention_proof q kv (int c "head_dim") ((q + 2 * kv) * int c "head_dim")
    (fun _ : nat => rsqrt_dim (int c "head_dim")) "self_attn.qkv_proj"%string false "self_attn.o_proj"%string Hd.
  gated_proof i (act_mul_ok n "gelu_tanh" i) "mlp.gate_up_proj"%string "mlp.down_proj"%string.
  rms_proof HN1 "input_layernorm"%string (real c "rms_norm_eps").
  rms_proof HN2 "post_attention_layernorm"%string (real c "rms_norm_eps").
  rms_proof HN3 "pre_feedforward_layernorm"%string (real c "rms_norm_eps").
  rms_proof HN4 "post_feedforward_layernorm"%string (real c "rms_norm_eps").
  exact (postnorm_ok n n_pos (int c "hidden_size") _ _ _ _ _ _ _ _ _ _ _ _ HA HF HN1 HN2 HN3 HN4).
Qed.

(** EAGLE *)
Lemma EagleDecoderLayer_ok index l1 ln W :
  EagleDecoderLayer_init (on_workers 1 c) index = Ok l1 -> EagleDecoderLayer_init (on_workers n c) index = Ok ln ->
  int c "num_attention_heads" mod n = 0 -> int c "num_key_value_heads" mod n = 0 -> int c "num_attention_heads" mod int c "num_key_value_heads" = 0 -> 0 < int c "head_dim" ->
  Shaped (ly_params l1) W ->
  LayerOk n (int c "hidden_size") (fun k => EagleDecoderLayer_forward index ln (worker_params (ly_params ln) n k W))
    (EagleDecoderLayer_forward index l1 W).
Proof.
  intros H1 Hn Hq Hkv Hg Hd HW.
  unfold EagleDecoderLayer_init, LlamaAttention_init, LlamaFFN_init in *.
  destruct (Nat.eqb_spec index 0) as [->|Hindex].
  - init_facts n. cbn [ly_params norm_eps intermediate_size] in *. share c "num_attention_heads" q. share c "num_key_value_heads" kv. share c "intermediate_size" i.
    attention_proof q kv (int c "head_dim") ((q + 2 * kv) * int c "head_dim")
      (fun _ : nat => rsqrt_dim (int c "head_dim")) "self_attn.qkv_proj"%string false "self_attn.o_proj"%string Hd.
    gated_proof i (act_mul_ok n "silu" i) "mlp.gate_up_proj"%string "mlp.down_proj"%string.
    rms_proof HN1 "post_attention_layernorm"%string (real c "rms_norm_eps").
    pose proof (sequential_ok n (fun x => x) apply_residual (int c "hidden_size") _ _ _ _ _ _ _ _ (residual_ok n n_pos) (fun _ _ => eq_refl) (fun _ => eq_refl)
      HA HF (id_norm_ok n (int c "hidden_size")) HN1) as HL.
    exact HL.
  - init_facts n. cbn [ly_params norm_eps intermediate_size] in *. share c "num_attention_heads" q. share c "num_key_value_heads" kv. share c "intermediate_size" i.
    attention_proof q kv (int c "head_dim") ((q + 2 * kv) * int c "head_dim")
      (fun _ : nat => rsqrt_dim (int c "head_dim")) "self_attn.qkv_proj"%string false "self_attn.o_proj"%string Hd.
    gated_proof i (act_mul_ok n "silu" i) "mlp.gate_up_proj"%string "mlp.down_proj"%string.
    rms_proof HN1 "post_attention_layernorm"%string (real c "rms_norm_eps").
    pose proof (sequential_ok n (fun x => x) apply_residual (int c "hidden_size") _ _ _ _ _ _ _ _ (residual_ok n n_pos) (fun _ _ => eq_refl) (fun _ => eq_refl)
      HA HF (id_norm_ok n (int c "hidden_size")) HN1) as HL.
    rms_proof HN0 "input_layernorm"%string (real c "rms_norm_eps"). 
    unfold EagleDecoderLayer_forward. rewrite (proj2 (Nat.eqb_neq index 0) Hindex).
    exact (prenorm_ok n (int c "hidden_size") _ _ _ _ HN0 HL).
Qed.

(** ** All architectures *)

(** The conditions on a configuration: the workers divide the numbers of heads,
    the key and value heads divide the query heads. *)
Definition fits (A : Arch E) : Prop :=
  int c (arch_heads A) mod n = 0 /\ int c (arch_kv_heads A) mod n = 0 /\
  int c (arch_heads A) mod int c (arch_kv_heads A) = 0 /\ 0 < int c "head_dim" /\ arch_needs A c n = true.

Ltac arch_conditions :=
  repeat match goal with
  | H : negb _ = true |- _ => apply negb_true_iff in H
  | H : (_ =? _) = true |- _ => apply Nat.eqb_eq in H
  end; assumption.

Lemma architectures_ok : Forall (fun A => forall l1 ln W,
  arch_init A (on_workers 1 c) = Ok l1 -> arch_init A (on_workers n c) = Ok ln -> fits A ->
  Shaped (ly_params l1) W ->
  LayerOk n (int c (arch_hidden A))
    (fun k => arch_forward A (on_workers n c) ln (worker_params (ly_params ln) n k W))
    (arch_forward A (on_workers 1 c) l1 W)) architectures.
Proof.
  unfold fits, architectures. repeat constructor; unfold llama_arch, mistral_arch, gemma_arch, baichuan_arch, orion_arch, stablelm_arch, internlm_arch, internlm2_arch, qwen_arch, qwen2_arch, olmo_arch, minicpm_arch, phi3_arch, starcoder2_arch, gpt2_arch, gpt_neox_arch, phi_arch, gemma2_arch, eagle_0_arch, eagle_1_arch; cbn [arch_init arch_forward arch_hidden arch_heads arch_kv_heads arch_needs];
    intros l1 ln W H1 Hn (Hq & Hkv & Hg & Hd & Hneed) HW.
  - apply (LlamaDecoderLayer_ok l1 ln W); arch_conditions.
  - apply (MistralDecoderLayer_ok l1 ln W); arch_conditions.
  - apply (GemmaDecoderLayer_ok l1 ln W); arch_conditions.
  - apply (BaichuanDecoderLayer_ok l1 ln W); arch_conditions.
  - apply (OrionDecoderLayer_ok l1 ln W); arch_conditions.
  - apply (StableLmDecoderLayer_ok l1 ln W); arch_conditions.
  - apply (InternLMDecoderLayer_ok l1 ln W); arch_conditions.
  - apply (InternLM2DecoderLayer_ok l1 ln W); arch_conditions.
  - apply (QWenBlock_ok l1 ln W); arch_conditions.
  - apply (QWen2DecoderLayer_ok l1 ln W); arch_conditions.
  - apply (OLMoDecoderLayer_ok l1 ln W); arch_conditions.
  - apply (MiniCPMDecoderLayer_ok l1 ln W); arch_conditions.
  - apply (Phi3ParallelBlock_ok l1 ln W); arch_conditions.
  - apply (Starcoder2DecoderLayer_ok l1 ln W); arch_conditions.
  - apply (GPT2Block_ok l1 ln W); arch_conditions.
  - apply (GPTNeoXLayer_ok l1 ln W); arch_conditions.
  - apply (PhiParallelBlock_ok l1 ln W); arch_conditions.
  - apply (Gemma2DecoderLayer_ok l1 ln W); arch_conditions.
  - apply (EagleDecoderLayer_ok 0 l1 ln W); arch_conditions.
  - apply (EagleDecoderLayer_ok 1 l1 ln W); arch_conditions.
Qed.

(** A stack of decoder layers of any of the architectures on [n] workers:
    all workers meet at the same collectives and finish, and every worker ends
    with the hidden states that one worker with the whole weights computes and
    with its part of the KV cache. *)
Theorem decoder_stack A l1 ln (Ws : list (Params E)) i b s st st1 : In A architectures ->
  arch_init A (on_workers 1 c) = Ok l1 -> arch_init A (on_workers n c) = Ok ln -> fits A ->
  Forall (Shaped (ly_params l1)) Ws -> Hidden n b s (int c (arch_hidden A)) st st1 ->
  exists y,
    run_layers (fun _ x => x) (map (arch_forward A (on_workers 1 c) l1) Ws) i (fst st1) (snd st1) = Ret y /\
    Spmd ccl_sum n (fun k => run_layers (fun _ x => x)
        (map (fun W => arch_forward A (on_workers n c) ln (worker_params (ly_params ln) n k W)) Ws)
        i (fst (st k)) (snd (st k)))
      (fun st' => Hidden n b s (int c (arch_hidden A)) st' y).
Proof.
  intros HA H1 Hn Hfits HWs Hst.
  apply (run_layers_ok n b s (int c (arch_hidden A))); [by intros; split| | |done].
  - intros k. by rewrite !length_map.
  - intros j layer Hj. rewrite list_lookup_fmap in Hj. destruct (Ws !! j) as [W|] eqn:HW; [|done].
    injection Hj as <-. eexists (fun k => _). split.
    + intros k. by rewrite list_lookup_fmap, HW.
    + pose proof architectures_ok as Hok. rewrite List.Forall_forall in Hok. apply Hok; [done..|].
      rewrite Forall_lookup in HWs. by eapply HWs.
Qed.

End Sharded.
