(* ===== verification/CausalModels.v ===== *)
(** * Language models ([model/*/*_model.py])

    The models whose decoder layers are those of [LlamaModel.v] and
    [Decoders.v]: their constructors, the parameters outside the layers, the
    forward function, and the functions that are compiled for the engine.
    Where a module copies an attribute of the configuration, its functions read
    the configuration that [CausalModel] keeps.  Element types are not modelled,
    so that [astype] is the identity; the symbolic ["vocab_size"] of a
    parameter is the attribute of the configuration. *)

From Stdlib Require Import SpecFloat.
From stdpp Require Import base list strings.
From S2P Require Import Prelude PyNum Spmd TensorOps TensorParallel KvCache Network ModelSpecs LlamaModel CausalModel Decoders.
Local Open Scope string_scope.
Local Open Scope list_scope.
Local Open Scope nat_scope.

(** ** Constructors *)

(** [model/mistral/mistral_model.py] *)
Definition MistralModel_init (c : Config) : res (list LayerModule) :=
  let? r := nat_mod (int c "hidden_size") (int c "num_attention_heads") in
  let? _ := py_assert (r =? 0) in
  rmap (fun _ => MistralDecoderLayer_init c) (seq 0 (int c "num_hidden_layers")).
Definition MistralForCasualLM_init (c : Config) : res CausalModel :=
  let? layers := MistralModel_init c in
  Ok (mkCausal layers (Embedding "model.embed_tokens" (int c "vocab_size") (int c "hidden_size") ++
    RMSNorm "model.norm" (int c "hidden_size") ++
    Linear "lm_head" (int c "hidden_size") (int c "vocab_size") false) c).

(** [model/gemma/gemma_model.py] *)
Definition GemmaModel_init (c : Config) : res (list LayerModule) :=
  let? r := nat_mod (int c "hidden_size") (int c "num_attention_heads") in
  let? _ := py_assert (r =? 0) in
  rmap (fun _ => GemmaDecoderLayer_init c) (seq 0 (int c "num_hidden_layers")).
Definition GemmaForCausalLM_init (c : Config) : res CausalModel :=
  let? layers := GemmaModel_init c in
  Ok (mkCausal layers (Embedding "model.embed_tokens" (int c "vocab_size") (int c "hidden_size") ++
    RMSNorm "model.norm" (int c "hidden_size")) c).

(** [model/gemma2/gemma2_model.py]: the constructors of the base classes run
    first, and build the layers of Gemma. *)
Definition Gemma2Model_init (c : Config) : res (list LayerModule) :=
  let? _ := GemmaModel_init c in
  rmap (fun _ => Gemma2DecoderLayer_init c) (seq 0 (int c "num_hidden_layers")).
Definition Gemma2ForCausalLM_init (c : Config) : res CausalModel :=
  let? m := GemmaForCausalLM_init c in
  let? layers := Gemma2Model_init c in
  Ok (mkCausal layers (cm_own m) c).

(** [model/baichuan/baichuan_model.py] *)
Definition BaichuanModel_init (c : Config) : res (list LayerModule) :=
  let? r := nat_mod (int c "hidden_size") (int c "num_attention_heads") in
  let? _ := py_assert (r =? 0) in
  rmap (fun _ => BaichuanDecoderLayer_init c) (seq 0 (int c "num_hidden_layers")).
Definition BaichuanForCausalLM_init (c : Config) : res CausalModel :=
  let? layers := BaichuanModel_init c in
  Ok (mkCausal layers (Embedding "model.embed_tokens" (int c "vocab_size") (int c "hidden_size") ++
    RMSNorm "model.norm" (int c "hidden_size") ++
    Linear "lm_head" (int c "hidden_size") (int c "vocab_size") false) c).

(** [model/orion/orion_model.py] *)
Definition OrionModel_init (c : Config) : res (list LayerModule) :=
  let? r := nat_mod (int c "hidden_size") (int c "num_attention_heads") in
  let? _ := py_assert (r =? 0) in
  rmap (fun _ => OrionDecoderLayer_init c) (seq 0 (int c "num_hidden_layers")).
Definition OrionForCasualLM_init (c : Config) : res CausalModel :=
  let? layers := OrionModel_init c in
  Ok (mkCausal layers (Embedding "model.embed_tokens" (int c "vocab_size") (int c "hidden_size") ++
    LayerNorm "model.norm" (int c "hidden_size") ++
    Linear "lm_head" (int c "hidden_size") (int c "vocab_size") false) c).

(** [model/stable_lm/stablelm_model.py] *)
Definition StableLmModel_init (c : Config) : res (list LayerModule) :=
  let? r := nat_mod (int c "hidden_size") (int c "num_attention_heads") in
  let? _ := py_assert (r =? 0) in
  rmap (fun _ => StableLmDecoderLayer_init c) (seq 0 (int c "num_hidden_layers")).
Definition StableLmForCausalLM_init (c : Config) : res CausalModel :=
  let? layers := StableLmModel_init c in
  Ok (mkCausal layers (Embedding "model.embed_tokens" (int c "vocab_size") (int c "hidden_size") ++
    LayerNorm "model.norm" (int c "hidden_size") ++
    Linear "lm_head" (int c "hidden_size") (int c "vocab_size") false) c).

(** [model/internlm/internlm_model.py] *)
Definition InternLMModel_init (c : Config) : res (list LayerModule) :=
  rmap (fun _ => InternLMDecoderLayer_init c) (seq 0 (int c "num_hidden_layers")).
Definition InternLMForCausalLM_init (c : Config) : res CausalModel :=
  let? layers := InternLMModel_init c in
  Ok (mkCausal layers (Embedding "model.embed_tokens" (int c "vocab_size") (int c "hidden_size") ++
    RMSNorm "model.norm" (int c "hidden_size") ++
    Linear "lm_head" (int c "hidden_size") (int c "vocab_size") false) c).

(** [model/internlm2/internlm2_model.py] *)
Definition InternLM2Model_init (c : Config) : res (list LayerModule) :=
  rmap (fun _ => InternLM2DecoderLayer_init c) (seq 0 (int c "num_hidden_layers")).
Definition InternLM2ForCausalLM_init (c : Config) : res CausalModel :=
  let? layers := InternLM2Model_init c in
  Ok (mkCausal layers (Embedding "model.tok_embeddings" (int c "vocab_size") (int c "hidden_size") ++
    RMSNorm "model.norm" (int c "hidden_size") ++
    Linear "output" (int c "hidden_size") (int c "vocab_size") false) c).

(** [model/qwen/qwen_model.py] *)
Definition QWenModel_init (c : Config) : res (list LayerModule) :=
  let? r := nat_mod (int c "hidden_size") (int c "num_attention_heads") in
  let? _ := py_assert (r =? 0) in
  rmap (fun _ => QWenBlock_init c) (seq 0 (int c "num_hidden_layers")).
Definition QWenLMHeadModel_init (c : Config) : res CausalModel :=
  let? layers := QWenModel_init c in
  Ok (mkCausal layers (Embedding "transformer.wte" (int c "vocab_size") (int c "hidden_size") ++
    RMSNorm "transformer.ln_f" (int c "hidden_size") ++
    Linear "lm_head" (int c "hidden_size") (int c "vocab_size") false) c).

(** [model/qwen2/qwen2_model.py] *)
Definition QWen2Model_init (c : Config) : res (list LayerModule) :=
  rmap (fun _ => QWen2DecoderLayer_init c) (seq 0 (int c "num_hidden_layers")).
Definition QWen2LMHeadModel_init (c : Config) : res CausalModel :=
  let? layers := QWen2Model_init c in
  Ok (mkCausal layers (Embedding "model.embed_tokens" (int c "vocab_size") (int c "hidden_size") ++
    RMSNorm "model.norm" (int c "hidden_size") ++
    (if flag c "tie_word_embeddings" then [] else Linear "lm_head" (int c "hidden_size") (int c "vocab_size") false)) c).

(** [self.scale_width] *)
Definition MiniCPMForCausalLM_scale_width (c : Config) : nat := int c "hidden_size" / int c "dim_model_base".

(** [model/minicpm/minicpm_model.py] *)
Definition MiniCPMModel_init (c : Config) : res (list LayerModule) :=
  let? r := nat_mod (int c "hidden_size") (int c "num_attention_heads") in
  let? _ := py_assert (r =? 0) in
  rmap (fun _ => MiniCPMDecoderLayer_init c) (seq 0 (int c "num_hidden_layers")).
Definition MiniCPMForCausalLM_init (c : Config) : res CausalModel :=
  let? layers := MiniCPMModel_init c in
  let? _ := nat_div (int c "hidden_size") (int c "dim_model_base") in
  Ok (mkCausal layers (Embedding "model.embed_tokens" (int c "vocab_size") (int c "hidden_size") ++
    RMSNorm "model.norm" (int c "hidden_size") ++
    (if flag c "tie_word_embeddings" then [] else Linear "lm_head" (int c "hidden_size") (int c "vocab_size") false)) c).

(** [model/phi3/phi3_model.py] *)
Definition Phi3Model_init (c : Config) : res (list LayerModule) :=
  rmap (fun _ => Phi3ParallelBlock_init c) (seq 0 (int c "num_hidden_layers")).
Definition Phi3ForCausalLM_init (c : Config) : res CausalModel :=
  let? layers := Phi3Model_init c in
  Ok (mkCausal layers (Embedding "transformer.embd" (int c "vocab_size") (int c "hidden_size") ++
    RMSNorm "transformer.norm" (int c "hidden_size") ++
    Linear "lm_head" (int c "hidden_size") (int c "vocab_size") false) c).

(** [model/starcoder2/starcoder2_model.py] *)
Definition Starcoder2Model_init (c : Config) : res (list LayerModule) :=
  let? r := nat_mod (int c "hidden_size") (int c "num_attention_heads") in
  let? _ := py_assert (r =? 0) in
  rmap (fun _ => Starcoder2DecoderLayer_init c) (seq 0 (int c "num_hidden_layers")).
Definition Starcoder2ForCausalLM_init (c : Config) : res CausalModel :=
  let? layers := Starcoder2Model_init c in
  Ok (mkCausal layers (Embedding "model.embed_tokens" (int c "vocab_size") (int c "hidden_size") ++
    LayerNorm "model.norm" (int c "hidden_size") ++
    Linear "lm_head" (int c "hidden_size") (int c "vocab_size") false) c).

(** [model/gpt2/gpt2_model.py] *)
Definition GPT2Model_init (c : Config) : res (list LayerModule) :=
  let? r := nat_mod (int c "n_embd") (int c "n_head") in
  let? _ := py_assert (r =? 0) in
  rmap (fun _ => GPT2Block_init c) (seq 0 (int c "n_layer")).
Definition GPT2LMHeadModel_init (c : Config) : res CausalModel :=
  let? layers := GPT2Model_init c in
  Ok (mkCausal layers (Embedding "transformer.wte" (int c "vocab_size") (int c "n_embd") ++
    Embedding "transformer.wpe" (int c "context_window_size") (int c "n_embd") ++
    LayerNorm "transformer.ln_f" (int c "n_embd") ++
    Linear "lm_head" (int c "n_embd") (int c "vocab_size") false) c).

(** [model/gpt_neox/gpt_neox_model.py] *)
Definition GPTNeoXModel_init (c : Config) : res (list LayerModule) :=
  rmap (fun _ => GPTNeoXLayer_init c) (seq 0 (int c "num_hidden_layers")).
Definition GPTNeoXForCausalLM_init (c : Config) : res CausalModel :=
  let? layers := GPTNeoXModel_init c in
  Ok (mkCausal layers (Embedding "gpt_neox.embed_in" (int c "vocab_size") (int c "hidden_size") ++
    LayerNorm "gpt_neox.final_layer_norm" (int c "hidden_size") ++
    Linear "embed_out" (int c "hidden_size") (int c "vocab_size") false) c).

(** [model/phi/phi_model.py] *)
Definition PhiModel_init (c : Config) : res (list LayerModule) :=
  rmap (fun _ => PhiParallelBlock_init c) (seq 0 (int c "n_layer")).
Definition PhiForCausalLM_init (c : Config) : res CausalModel :=
  let? layers := PhiModel_init c in
  Ok (mkCausal layers (Embedding "transformer.embd" (int c "vocab_size") (int c "n_embd") ++
    LayerNorm "lm_head.ln" (int c "n_embd") ++
    Linear "lm_head.linear" (int c "n_embd") (int c "vocab_size") true) c).

(** [model/olmo/olmo_model.py] *)
Definition OLMoModel_init (c : Config) : res ModelModule :=
  let? r := nat_mod (int c "hidden_size") (int c "num_attention_heads") in
  let? _ := py_assert (r =? 0) in
  let? layers := rmap (fun _ => OLMoDecoderLayer_init c) (seq 0 (int c "num_hidden_layers")) in
  let stages := int c "pipeline_parallel_stages" in
  let? layers_per_stage := nat_div (int c "num_hidden_layers" + stages - 1) stages in
  Ok (mkModel layers (map (fun i => i * layers_per_stage) (seq 0 stages) ++ [int c "num_hidden_layers"]) eps_1e_5).

Definition OLMoForCausalLM_set_pp (c : Config) : res (list (list nat) * list nat) :=
  let stages := int c "pipeline_parallel_stages" in
  let? layers := rmap (fun layer_id =>
      let? per_stage := nat_div (int c "num_hidden_layers") stages in
      let? stage := nat_div layer_id per_stage in Ok [stage]) (seq 0 (int c "num_hidden_layers")) in
  Ok (layers, seq 0 stages).

(** The last norm has no parameters, and no stages. *)
Definition OLMoForCausalLM_init (c : Config) : res CausalLM :=
  let? model := OLMoModel_init c in
  let? pp := OLMoForCausalLM_set_pp c in
  let '(layers, all_stages) := pp in
  let own := Embedding "model.embed_tokens" (int c "vocab_size") (int c "hidden_size") ++
    (if flag c "tie_word_embeddings" then [] else Linear "lm_head" (int c "hidden_size") (int c "vocab_size") false) in
  Ok (mkCausalLM model (flag c "tie_word_embeddings") (shards c) c own layers [] all_stages).

Section Forward.
Context `{E : Elem} {N : NnOps E} {TP : Topi E} {KV : KVCache E}.

(** ** Llama *)

Definition LlamaForCausalLM_build (c : Config) : res (Built E) :=
  let? m := LlamaForCausalLM_init c in
  Ok (mkBuilt (md_layers (lm_model m)) (lm_own m) (fun W =>
    mkCompiled (LlamaForCausalLM_embed m W) (LlamaForCausalLM_prefill m W) (LlamaForCausalLM_decode m W) (LlamaForCausalLM_batch_prefill m W) (LlamaForCausalLM_batch_decode m W) (LlamaForCausalLM_batch_verify m W))).

(** ** Mistral *)

Definition MistralModel_forward (m : CausalModel) (W : ModelWeights E) (input_embed : Tensor) (cache : Cache)
  : NetProg (Tensor * Cache) :=
  (let hidden_states := input_embed in
   do (hidden_states, cache) <- run_layers (fun _ x => x)
     (imap (fun i l => MistralDecoderLayer_forward l (w_layers W i)) (cm_layers m)) 0 hidden_states cache in
   Ret (rms_norm (w_own W) "model.norm" (real (cm_config m) "rms_norm_eps") hidden_states, cache))%prog.

Definition MistralForCasualLM_embed (m : CausalModel) (W : ModelWeights E) (input_ids : Tensor) : NetProg Tensor :=
  (do input_ids <- ccl_broadcast (shards (cm_config m)) input_ids in
   Ret (nn_embedding (w_own W "model.embed_tokens.weight"%string) input_ids))%prog.
Definition MistralForCasualLM_batch_forward (m : CausalModel) (W : ModelWeights E) (input_embeds : Tensor) (cache : Cache)
    (logit_positions : option Tensor) : NetProg (Tensor * Cache) :=
  (do (hidden_states, cache) <- MistralModel_forward m W input_embeds cache in
   let hidden_states :=
     match logit_positions with Some p => op_take hidden_states p 1 | None => hidden_states end in
   Ret (linear (w_own W) "lm_head" false hidden_states, cache))%prog.
Definition MistralForCasualLM_prefill (m : CausalModel) (W : ModelWeights E) (input_embed : Tensor) (cache : Cache) : NetProg (Tensor * Cache) :=
  (do (hidden_states, cache) <- MistralModel_forward m W input_embed cache in
   let hidden_states := index_last hidden_states in
   Ret (linear (w_own W) "lm_head" false hidden_states, cache))%prog.
Definition MistralForCasualLM_decode (m : CausalModel) (W : ModelWeights E) (input_embed : Tensor) (cache : Cache) : NetProg (Tensor * Cache) :=
  (do (hidden_states, cache) <- MistralModel_forward m W input_embed cache in
   Ret (linear (w_own W) "lm_head" false hidden_states, cache))%prog.
Definition MistralForCasualLM_batch_prefill (m : CausalModel) (W : ModelWeights E) (input_embeds logit_positions : Tensor) (cache : Cache)
  : NetProg (Tensor * Cache) :=
  (do logit_positions <- ccl_broadcast (shards (cm_config m)) logit_positions in
   MistralForCasualLM_batch_forward m W input_embeds cache (Some logit_positions))%prog.
Definition MistralForCasualLM_batch_decode (m : CausalModel) (W : ModelWeights E) (input_embeds : Tensor) (cache : Cache) : NetProg (Tensor * Cache) :=
  MistralForCasualLM_batch_forward m W input_embeds cache None.
Definition MistralForCasualLM_batch_verify (m : CausalModel) (W : ModelWeights E) (input_embeds : Tensor) (cache : Cache) : NetProg (Tensor * Cache) :=
  MistralForCasualLM_batch_forward m W input_embeds cache None.
Definition MistralForCasualLM_build (c : Config) : res (Built E) :=
  let? m := MistralForCasualLM_init c in
  Ok (mkBuilt (cm_layers m) (cm_own m) (fun W =>
    mkCompiled (MistralForCasualLM_embed m W) (MistralForCasualLM_prefill m W) (MistralForCasualLM_decode m W) (MistralForCasualLM_batch_prefill m W) (MistralForCasualLM_batch_decode m W) (MistralForCasualLM_batch_verify m W))).

(** ** Gemma

    The functions take what [Gemma2ForCausalLM] overrides: the forward function
    of [self.model], and [self.get_logits]. *)

Definition GemmaEmbedding_lm_head_forward (weight x : Tensor) : Tensor := op_matmul x (op_permute_dims weight).

(** [layer] is the forward function of the elements of [self.layers]. *)
Definition GemmaModel_forward (layer : LayerModule -> Params E -> Layer) (m : CausalModel) (W : ModelWeights E)
    (input_embed : Tensor) (cache : Cache) : NetProg (Tensor * Cache) :=
  (let hidden_states := op_scale input_embed (sqrt_dim (int (cm_config m) "hidden_size")) in
   do (hidden_states, cache) <- run_layers (fun _ x => x)
     (imap (fun i l => layer l (w_layers W i)) (cm_layers m)) 0 hidden_states cache in
   Ret (rms_norm (w_own W) "model.norm" (real (cm_config m) "rms_norm_eps") hidden_states, cache))%prog.

Definition GemmaForCausalLM_get_logits (W : ModelWeights E) (hidden_states : Tensor) : Tensor :=
  GemmaEmbedding_lm_head_forward (w_own W "model.embed_tokens.weight"%string) hidden_states.

Section GemmaForCausalLM.
Variables (m : CausalModel) (W : ModelWeights E).
Variables (model : Tensor -> Cache -> NetProg (Tensor * Cache)) (get_logits : Tensor -> Tensor).

Definition GemmaForCausalLM_embed (input_ids : Tensor) : NetProg Tensor :=
  (do input_ids <- ccl_broadcast (shards (cm_config m)) input_ids in
   Ret (nn_embedding (w_own W "model.embed_tokens.weight"%string) input_ids))%prog.
Definition GemmaForCausalLM_batch_forward (input_embeds : Tensor) (cache : Cache) (logit_positions : option Tensor)
  : NetProg (Tensor * Cache) :=
  (do (hidden_states, cache) <- model input_embeds cache in
   let hidden_states :=
     match logit_positions with Some p => op_take hidden_states p 1 | None => hidden_states end in
   Ret (get_logits hidden_states, cache))%prog.
Definition GemmaForCausalLM_prefill (input_embed : Tensor) (cache : Cache) : NetProg (Tensor * Cache) :=
  (do (hidden_states, cache) <- model input_embed cache in
   let hidden_states := index_last hidden_states in
   Ret (get_logits hidden_states, cache))%prog.
Definition GemmaForCausalLM_decode (input_embed : Tensor) (cache : Cache) : NetProg (Tensor * Cache) :=
  (do (hidden_states, cache) <- model input_embed cache in
   Ret (get_logits hidden_states, cache))%prog.
Definition GemmaForCausalLM_batch_prefill (input_embeds logit_positions : Tensor) (cache : Cache)
  : NetProg (Tensor * Cache) :=
  (do logit_positions <- ccl_broadcast (shards (cm_config m)) logit_positions in
   GemmaForCausalLM_batch_forward input_embeds cache (Some logit_positions))%prog.
Definition GemmaForCausalLM_batch_decode (input_embeds : Tensor) (cache : Cache) : NetProg (Tensor * Cache) :=
  GemmaForCausalLM_batch_forward input_embeds cache None.
Definition GemmaForCausalLM_batch_verify (input_embeds : Tensor) (cache : Cache) : NetProg (Tensor * Cache) :=
  GemmaForCausalLM_batch_forward input_embeds cache None.
End GemmaForCausalLM.

(** The compiled functions of an object whose class overrides [model] and
    [get_logits]. *)
Definition GemmaForCausalLM_functions (m : CausalModel) (W : ModelWeights E)
    (model : Tensor -> Cache -> NetProg (Tensor * Cache)) (get_logits : Tensor -> Tensor) : Compiled E :=
  mkCompiled (GemmaForCausalLM_embed m W) (GemmaForCausalLM_prefill model get_logits)
    (GemmaForCausalLM_decode model get_logits) (GemmaForCausalLM_batch_prefill m model get_logits)
    (GemmaForCausalLM_batch_decode model get_logits) (GemmaForCausalLM_batch_verify model get_logits).

Definition GemmaForCausalLM_build (c : Config) : res (Built E) :=
  let? m := GemmaForCausalLM_init c in
  Ok (mkBuilt (cm_layers m) (cm_own m) (fun W =>
    GemmaForCausalLM_functions m W (GemmaModel_forward GemmaDecoderLayer_forward m W) (GemmaForCausalLM_get_logits W))).

(** ** Gemma 2 *)

Definition Gemma2ForCausalLM_get_logits (m : CausalModel) (W : ModelWeights E) (hidden_states : Tensor) : Tensor :=
  let logits := GemmaForCausalLM_get_logits W hidden_states in
  if is_None (cm_config m) "final_logit_softcapping" then logits
  else op_scale (op_act "tanh" (op_div_float logits (real (cm_config m) "final_logit_softcapping")))
         (real (cm_config m) "final_logit_softcapping").

Definition Gemma2ForCausalLM_build (c : Config) : res (Built E) :=
  let? m := Gemma2ForCausalLM_init c in
  Ok (mkBuilt (cm_layers m) (cm_own m) (fun W =>
    GemmaForCausalLM_functions m W (GemmaModel_forward Gemma2DecoderLayer_forward m W)
      (Gemma2ForCausalLM_get_logits m W))).

(** ** Baichuan *)

Definition BaichuanModel_forward (m : CausalModel) (W : ModelWeights E) (inputs : Tensor) (cache : Cache)
  : NetProg (Tensor * Cache) :=
  (let hidden_states := inputs in
   do (hidden_states, cache) <- run_layers (fun _ x => x)
     (imap (fun i l => BaichuanDecoderLayer_forward l (w_layers W i)) (cm_layers m)) 0 hidden_states cache in
   Ret (rms_norm (w_own W) "model.norm" (real (cm_config m) "rms_norm_eps") hidden_states, cache))%prog.

Definition BaichuanForCausalLM_embed (m : CausalModel) (W : ModelWeights E) (input_ids : Tensor) : NetProg Tensor :=
  (do input_ids <- ccl_broadcast (shards (cm_config m)) input_ids in
   Ret (nn_embedding (w_own W "model.embed_tokens.weight"%string) input_ids))%prog.
Definition BaichuanForCausalLM_batch_forward (m : CausalModel) (W : ModelWeights E) (input_embeds : Tensor) (cache : Cache)
    (logit_positions : option Tensor) : NetProg (Tensor * Cache) :=
  (do (hidden_states, cache) <- BaichuanModel_forward m W input_embeds cache in
   let hidden_states :=
     match logit_positions with Some p => op_take hidden_states p 1 | None => hidden_states end in
   Ret (linear (w_own W) "lm_head" false hidden_states, cache))%prog.
Definition BaichuanForCausalLM_prefill (m : CausalModel) (W : ModelWeights E) (input_embed : Tensor) (cache : Cache) : NetProg (Tensor * Cache) :=
  (do (hidden_states, cache) <- BaichuanModel_forward m W input_embed cache in
   let hidden_states := index_last hidden_states in
   Ret (linear (w_own W) "lm_head" false hidden_states, cache))%prog.
Definition BaichuanForCausalLM_decode (m : CausalModel) (W : ModelWeights E) (input_embed : Tensor) (cache : Cache) : NetProg (Tensor * Cache) :=
  (do (hidden_states, cache) <- BaichuanModel_forward m W input_embed cache in
   Ret (linear (w_own W) "lm_head" false hidden_states, cache))%prog.
Definition BaichuanForCausalLM_batch_prefill (m : CausalModel) (W : ModelWeights E) (input_embeds logit_positions : Tensor) (cache : Cache)
  : NetProg (Tensor * Cache) :=
  (do logit_positions <- ccl_broadcast (shards (cm_config m)) logit_positions in
   BaichuanForCausalLM_batch_forward m W input_embeds cache (Some logit_positions))%prog.
Definition BaichuanForCausalLM_batch_decode (m : CausalModel) (W : ModelWeights E) (input_embeds : Tensor) (cache : Cache) : NetProg (Tensor * Cache) :=
  BaichuanForCausalLM_batch_forward m W input_embeds cache None.
Definition BaichuanForCausalLM_batch_verify (m : CausalModel) (W : ModelWeights E) (input_embeds : Tensor) (cache : Cache) : NetProg (Tensor * Cache) :=
  BaichuanForCausalLM_batch_forward m W input_embeds cache None.
Definition BaichuanForCausalLM_build (c : Config) : res (Built E) :=
  let? m := BaichuanForCausalLM_init c in
  Ok (mkBuilt (cm_layers m) (cm_own m) (fun W =>
    mkCompiled (BaichuanForCausalLM_embed m W) (BaichuanForCausalLM_prefill m W) (BaichuanForCausalLM_decode m W) (BaichuanForCausalLM_batch_prefill m W) (BaichuanForCausalLM_batch_decode m W) (BaichuanForCausalLM_batch_verify m W))).

(** ** Orion *)

Definition OrionModel_forward (m : CausalModel) (W : ModelWeights E) (input_embed : Tensor) (cache : Cache)
  : NetProg (Tensor * Cache) :=
  (let hidden_states := input_embed in
   do (hidden_states, cache) <- run_layers (fun _ x => x)
     (imap (fun i l => OrionDecoderLayer_forward l (w_layers W i)) (cm_layers m)) 0 hidden_states cache in
   Ret (layer_norm (w_own W) "model.norm" (real (cm_config m) "rms_norm_eps") hidden_states, cache))%prog.

Definition OrionForCasualLM_embed (m : CausalModel) (W : ModelWeights E) (input_ids : Tensor) : NetProg Tensor :=
  (do input_ids <- ccl_broadcast (shards (cm_config m)) input_ids in
   Ret (nn_embedding (w_own W "model.embed_tokens.weight"%string) input_ids))%prog.
Definition OrionForCasualLM_batch_forward (m : CausalModel) (W : ModelWeights E) (input_embeds : Tensor) (cache : Cache)
    (logit_positions : option Tensor) : NetProg (Tensor * Cache) :=
  (do (hidden_states, cache) <- OrionModel_forward m W input_embeds cache in
   let hidden_states :=
     match logit_positions with Some p => op_take hidden_states p 1 | None => hidden_states end in
   Ret (linear (w_own W) "lm_head" false hidden_states, cache))%prog.
Definition OrionForCasualLM_prefill (m : CausalModel) (W : ModelWeights E) (input_embed : Tensor) (cache : Cache) : NetProg (Tensor * Cache) :=
  (do (hidden_states, cache) <- OrionModel_forward m W input_embed cache in
   let hidden_states := index_last hidden_states in
   Ret (linear (w_own W) "lm_head" false hidden_states, cache))%prog.
Definition OrionForCasualLM_decode (m : CausalModel) (W : ModelWeights E) (input_embed : Tensor) (cache : Cache) : NetProg (Tensor * Cache) :=
  (do (hidden_states, cache) <- OrionModel_forward m W input_embed cache in
   Ret (linear (w_own W) "lm_head" false hidden_states, cache))%prog.
Definition OrionForCasualLM_batch_prefill (m : CausalModel) (W : ModelWeights E) (input_embeds logit_positions : Tensor) (cache : Cache)
  : NetProg (Tensor * Cache) :=
  (do logit_positions <- ccl_broadcast (shards (cm_config m)) logit_positions in
   OrionForCasualLM_batch_forward m W input_embeds cache (Some logit_positions))%prog.
Definition OrionForCasualLM_batch_decode (m : CausalModel) (W : ModelWeights E) (input_embeds : Tensor) (cache : Cache) : NetProg (Tensor * Cache) :=
  OrionForCasualLM_batch_forward m W input_embeds cache None.
Definition OrionForCasualLM_batch_verify (m : CausalModel) (W : ModelWeights E) (input_embeds : Tensor) (cache : Cache) : NetProg (Tensor * Cache) :=
  OrionForCasualLM_batch_forward m W input_embeds cache None.
Definition OrionForCasualLM_build (c : Config) : res (Built E) :=
  let? m := OrionForCasualLM_init c in
  Ok (mkBuilt (cm_layers m) (cm_own m) (fun W =>
    mkCompiled (OrionForCasualLM_embed m W) (OrionForCasualLM_prefill m W) (OrionForCasualLM_decode m W) (OrionForCasualLM_batch_prefill m W) (OrionForCasualLM_batch_decode m W) (OrionForCasualLM_batch_verify m W))).

(** ** StableLM *)

Definition StableLmModel_forward (m : CausalModel) (W : ModelWeights E) (inputs : Tensor) (cache : Cache)
  : NetProg (Tensor * Cache) :=
  (let hidden_states := inputs in
   do (hidden_states, cache) <- run_layers (fun _ x => x)
     (imap (fun i l => StableLmDecoderLayer_forward l (w_layers W i)) (cm_layers m)) 0 hidden_states cache in
   Ret (layer_norm (w_own W) "model.norm" (real (cm_config m) "layer_norm_eps") hidden_states, cache))%prog.

Definition StableLmForCausalLM_embed (m : CausalModel) (W : ModelWeights E) (input_ids : Tensor) : NetProg Tensor :=
  (do input_ids <- ccl_broadcast (shards (cm_config m)) input_ids in
   Ret (nn_embedding (w_own W "model.embed_tokens.weight"%string) input_ids))%prog.
Definition StableLmForCausalLM_batch_forward (m : CausalModel) (W : ModelWeights E) (input_embeds : Tensor) (cache : Cache)
    (logit_positions : option Tensor) : NetProg (Tensor * Cache) :=
  (do (hidden_states, cache) <- StableLmModel_forward m W input_embeds cache in
   let hidden_states :=
     match logit_positions with Some p => op_take hidden_states p 1 | None => hidden_states end in
   Ret (linear (w_own W) "lm_head" false hidden_states, cache))%prog.
Definition StableLmForCausalLM_prefill (m : CausalModel) (W : ModelWeights E) (input_embed : Tensor) (cache : Cache) : NetProg (Tensor * Cache) :=
  (do (hidden_states, cache) <- StableLmModel_forward m W input_embed cache in
   let hidden_states := index_last hidden_states in
   Ret (linear (w_own W) "lm_head" false hidden_states, cache))%prog.
Definition StableLmForCausalLM_decode (m : CausalModel) (W : ModelWeights E) (input_embed : Tensor) (cache : Cache) : NetProg (Tensor * Cache) :=
  (do (hidden_states, cache) <- StableLmModel_forward m W input_embed cache in
   Ret (linear (w_own W) "lm_head" false hidden_states, cache))%prog.
Definition StableLmForCausalLM_batch_prefill (m : CausalModel) (W : ModelWeights E) (input_embeds logit_positions : Tensor) (cache : Cache)
  : NetProg (Tensor * Cache) :=
  (do logit_positions <- ccl_broadcast (shards (cm_config m)) logit_positions in
   StableLmForCausalLM_batch_forward m W input_embeds cache (Some logit_positions))%prog.
Definition StableLmForCausalLM_batch_decode (m : CausalModel) (W : ModelWeights E) (input_embeds : Tensor) (cache : Cache) : NetProg (Tensor * Cache) :=
  StableLmForCausalLM_batch_forward m W input_embeds cache None.
Definition StableLmForCausalLM_batch_verify (m : CausalModel) (W : ModelWeights E) (input_embeds : Tensor) (cache : Cache) : NetProg (Tensor * Cache) :=
  StableLmForCausalLM_batch_forward m W input_embeds cache None.
Definition StableLmForCausalLM_build (c : Config) : res (Built E) :=
  let? m := StableLmForCausalLM_init c in
  Ok (mkBuilt (cm_layers m) (cm_own m) (fun W =>
    mkCompiled (StableLmForCausalLM_embed m W) (StableLmForCausalLM_prefill m W) (StableLmForCausalLM_decode m W) (StableLmForCausalLM_batch_prefill m W) (StableLmForCausalLM_batch_decode m W) (StableLmForCausalLM_batch_verify m W))).

(** ** InternLM *)

Definition InternLMModel_forward (m : CausalModel) (W : ModelWeights E) (inputs : Tensor) (cache : Cache)
  : NetProg (Tensor * Cache) :=
  (let hidden_states := inputs in
   do (hidden_states, cache) <- run_layers (fun _ x => x)
     (imap (fun i l => InternLMDecoderLayer_forward l (w_layers W i)) (cm_layers m)) 0 hidden_states cache in
   Ret (rms_norm (w_own W) "model.norm" (real (cm_config m) "rms_norm_eps") hidden_states, cache))%prog.

Definition InternLMForCausalLM_embed (m : CausalModel) (W : ModelWeights E) (input_ids : Tensor) : NetProg Tensor :=
  (do input_ids <- ccl_broadcast (shards (cm_config m)) input_ids in
   Ret (nn_embedding (w_own W "model.embed_tokens.weight"%string) input_ids))%prog.
Definition InternLMForCausalLM_batch_forward (m : CausalModel) (W : ModelWeights E) (input_embeds : Tensor) (cache : Cache)
    (logit_positions : option Tensor) : NetProg (Tensor * Cache) :=
  (do (hidden_states, cache) <- InternLMModel_forward m W input_embeds cache in
   let hidden_states :=
     match logit_positions with Some p => op_take hidden_states p 1 | None => hidden_states end in
   Ret (linear (w_own W) "lm_head" false hidden_states, cache))%prog.
Definition InternLMForCausalLM_prefill (m : CausalModel) (W : ModelWeights E) (input_embed : Tensor) (cache : Cache) : NetProg (Tensor * Cache) :=
  (do (hidden_states, cache) <- InternLMModel_forward m W input_embed cache in
   let hidden_states := index_last hidden_states in
   Ret (linear (w_own W) "lm_head" false hidden_states, cache))%prog.
Definition InternLMForCausalLM_decode (m : CausalModel) (W : ModelWeights E) (input_embed : Tensor) (cache : Cache) : NetProg (Tensor * Cache) :=
  (do (hidden_states, cache) <- InternLMModel_forward m W input_embed cache in
   Ret (linear (w_own W) "lm_head" false hidden_states, cache))%prog.
Definition InternLMForCausalLM_batch_prefill (m : CausalModel) (W : ModelWeights E) (input_embeds logit_positions : Tensor) (cache : Cache)
  : NetProg (Tensor * Cache) :=
  (do logit_positions <- ccl_broadcast (shards (cm_config m)) logit_positions in
   InternLMForCausalLM_batch_forward m W input_embeds cache (Some logit_positions))%prog.
Definition InternLMForCausalLM_batch_decode (m : CausalModel) (W : ModelWeights E) (input_embeds : Tensor) (cache : Cache) : NetProg (Tensor * Cache) :=
  InternLMForCausalLM_batch_forward m W input_embeds cache None.
Definition InternLMForCausalLM_batch_verify (m : CausalModel) (W : ModelWeights E) (input_embeds : Tensor) (cache : Cache) : NetProg (Tensor * Cache) :=
  InternLMForCausalLM_batch_forward m W input_embeds cache None.
Definition InternLMForCausalLM_build (c : Config) : res (Built E) :=
  let? m := InternLMForCausalLM_init c in
  Ok (mkBuilt (cm_layers m) (cm_own m) (fun W =>
    mkCompiled (InternLMForCausalLM_embed m W) (InternLMForCausalLM_prefill m W) (InternLMForCausalLM_decode m W) (InternLMForCausalLM_batch_prefill m W) (InternLMForCausalLM_batch_decode m W) (InternLMForCausalLM_batch_verify m W))).

(** ** InternLM2 *)

Definition InternLM2Model_forward (m : CausalModel) (W : ModelWeights E) (inputs : Tensor) (cache : Cache)
  : NetProg (Tensor * Cache) :=
  (let hidden_states := inputs in
   do (hidden_states, cache) <- run_layers (fun _ x => x)
     (imap (fun i l => InternLM2DecoderLayer_forward l (w_layers W i)) (cm_layers m)) 0 hidden_states cache in
   Ret (rms_norm (w_own W) "model.norm" (real (cm_config m) "rms_norm_eps") hidden_states, cache))%prog.

Definition InternLM2ForCausalLM_embed (m : CausalModel) (W : ModelWeights E) (input_ids : Tensor) : NetProg Tensor :=
  (do input_ids <- ccl_broadcast (shards (cm_config m)) input_ids in
   Ret (nn_embedding (w_own W "model.tok_embeddings.weight"%string) input_ids))%prog.
Definition InternLM2ForCausalLM_batch_forward (m : CausalModel) (W : ModelWeights E) (input_embeds : Tensor) (cache : Cache)
    (logit_positions : option Tensor) : NetProg (Tensor * Cache) :=
  (do (hidden_states, cache) <- InternLM2Model_forward m W input_embeds cache in
   let hidden_states :=
     match logit_positions with Some p => op_take hidden_states p 1 | None => hidden_states end in
   Ret (linear (w_own W) "output" false hidden_states, cache))%prog.
Definition InternLM2ForCausalLM_prefill (m : CausalModel) (W : ModelWeights E) (input_embed : Tensor) (cache : Cache) : NetProg (Tensor * Cache) :=
  (do (hidden_states, cache) <- InternLM2Model_forward m W input_embed cache in
   let hidden_states := index_last hidden_states in
   Ret (linear (w_own W) "output" false hidden_states, cache))%prog.
Definition InternLM2ForCausalLM_decode (m : CausalModel) (W : ModelWeights E) (input_embed : Tensor) (cache : Cache) : NetProg (Tensor * Cache) :=
  (do (hidden_states, cache) <- InternLM2Model_forward m W input_embed cache in
   Ret (linear (w_own W) "output" false hidden_states, cache))%prog.
Definition InternLM2ForCausalLM_batch_prefill (m : CausalModel) (W : ModelWeights E) (input_embeds logit_positions : Tensor) (cache : Cache)
  : NetProg (Tensor * Cache) :=
  (do logit_positions <- ccl_broadcast (shards (cm_config m)) logit_positions in
   InternLM2ForCausalLM_batch_forward m W input_embeds cache (Some logit_positions))%prog.
Definition InternLM2ForCausalLM_batch_decode (m : CausalModel) (W : ModelWeights E) (input_embeds : Tensor) (cache : Cache) : NetProg (Tensor * Cache) :=
  InternLM2ForCausalLM_batch_forward m W input_embeds cache None.
Definition InternLM2ForCausalLM_batch_verify (m : CausalModel) (W : ModelWeights E) (input_embeds : Tensor) (cache : Cache) : NetProg (Tensor * Cache) :=
  InternLM2ForCausalLM_batch_forward m W input_embeds cache None.
Definition InternLM2ForCausalLM_build (c : Config) : res (Built E) :=
  let? m := InternLM2ForCausalLM_init c in
  Ok (mkBuilt (cm_layers m) (cm_own m) (fun W =>
    mkCompiled (InternLM2ForCausalLM_embed m W) (InternLM2ForCausalLM_prefill m W) (InternLM2ForCausalLM_decode m W) (InternLM2ForCausalLM_batch_prefill m W) (InternLM2ForCausalLM_batch_decode m W) (InternLM2ForCausalLM_batch_verify m W))).

(** ** Qwen *)

Definition QWenModel_forward (m : CausalModel) (W : ModelWeights E) (inputs : Tensor) (cache : Cache)
  : NetProg (Tensor * Cache) :=
  (let hidden_states := inputs in
   do (hidden_states, cache) <- run_layers (fun _ x => x)
     (imap (fun i l => QWenBlock_forward l (w_layers W i)) (cm_layers m)) 0 hidden_states cache in
   Ret (rms_norm (w_own W) "transformer.ln_f" (real (cm_config m) "layer_norm_epsilon") hidden_states, cache))%prog.

Definition QWenLMHeadModel_embed (m : CausalModel) (W : ModelWeights E) (input_ids : Tensor) : NetProg Tensor :=
  (do input_ids <- ccl_broadcast (shards (cm_config m)) input_ids in
   Ret (nn_embedding (w_own W "transformer.wte.weight"%string) input_ids))%prog.
Definition QWenLMHeadModel_batch_forward (m : CausalModel) (W : ModelWeights E) (inputs : Tensor) (cache : Cache)
    (logit_positions : option Tensor) : NetProg (Tensor * Cache) :=
  (do (hidden_states, cache) <- QWenModel_forward m W inputs cache in
   let hidden_states :=
     match logit_positions with Some p => op_take hidden_states p 1 | None => hidden_states end in
   Ret (linear (w_own W) "lm_head" false hidden_states, cache))%prog.
Definition QWenLMHeadModel_prefill (m : CausalModel) (W : ModelWeights E) (inputs : Tensor) (cache : Cache) : NetProg (Tensor * Cache) :=
  (do (hidden_states, cache) <- QWenModel_forward m W inputs cache in
   let hidden_states := index_last hidden_states in
   Ret (linear (w_own W) "lm_head" false hidden_states, cache))%prog.
Definition QWenLMHeadModel_decode (m : CausalModel) (W : ModelWeights E) (inputs : Tensor) (cache : Cache) : NetProg (Tensor * Cache) :=
  (do (hidden_states, cache) <- QWenModel_forward m W inputs cache in
   Ret (linear (w_own W) "lm_head" false hidden_states, cache))%prog.
Definition QWenLMHeadModel_batch_prefill (m : CausalModel) (W : ModelWeights E) (inputs logit_positions : Tensor) (cache : Cache)
  : NetProg (Tensor * Cache) :=
  (do logit_positions <- ccl_broadcast (shards (cm_config m)) logit_positions in
   QWenLMHeadModel_batch_forward m W inputs cache (Some logit_positions))%prog.
Definition QWenLMHeadModel_batch_decode (m : CausalModel) (W : ModelWeights E) (inputs : Tensor) (cache : Cache) : NetProg (Tensor * Cache) :=
  QWenLMHeadModel_batch_forward m W inputs cache None.
Definition QWenLMHeadModel_batch_verify (m : CausalModel) (W : ModelWeights E) (inputs : Tensor) (cache : Cache) : NetProg (Tensor * Cache) :=
  QWenLMHeadModel_batch_forward m W inputs cache None.
Definition QWenLMHeadModel_build (c : Config) : res (Built E) :=
  let? m := QWenLMHeadModel_init c in
  Ok (mkBuilt (cm_layers m) (cm_own m) (fun W =>
    mkCompiled (QWenLMHeadModel_embed m W) (QWenLMHeadModel_prefill m W) (QWenLMHeadModel_decode m W) (QWenLMHeadModel_batch_prefill m W) (QWenLMHeadModel_batch_decode m W) (QWenLMHeadModel_batch_verify m W))).

(** ** Qwen2 *)

Definition Qwen2Embedding_lm_head_forward (weight x : Tensor) : Tensor := op_matmul x (op_permute_dims weight).

Definition QWen2Model_forward (m : CausalModel) (W : ModelWeights E) (inputs : Tensor) (cache : Cache)
  : NetProg (Tensor * Cache) :=
  (let hidden_states := inputs in
   do (hidden_states, cache) <- run_layers (fun _ x => x)
     (imap (fun i l => QWen2DecoderLayer_forward l (w_layers W i)) (cm_layers m)) 0 hidden_states cache in
   Ret (rms_norm (w_own W) "model.norm" (real (cm_config m) "rms_norm_eps") hidden_states, cache))%prog.

Definition QWen2LMHeadModel_embed (m : CausalModel) (W : ModelWeights E) (input_ids : Tensor) : NetProg Tensor :=
  (do input_ids <- ccl_broadcast (shards (cm_config m)) input_ids in
   Ret (nn_embedding (w_own W "model.embed_tokens.weight"%string) input_ids))%prog.
Definition QWen2LMHeadModel_batch_forward (m : CausalModel) (W : ModelWeights E) (input_embeds : Tensor) (cache : Cache)
    (logit_positions : option Tensor) : NetProg (Tensor * Cache) :=
  (do (hidden_states, cache) <- QWen2Model_forward m W input_embeds cache in
   let hidden_states :=
     match logit_positions with Some p => op_take hidden_states p 1 | None => hidden_states end in
   Ret (if flag (cm_config m) "tie_word_embeddings"
     then Qwen2Embedding_lm_head_forward (w_own W "model.embed_tokens.weight"%string) hidden_states
     else linear (w_own W) "lm_head" false hidden_states, cache))%prog.
Definition QWen2LMHeadModel_prefill (m : CausalModel) (W : ModelWeights E) (input_embed : Tensor) (cache : Cache) : NetProg (Tensor * Cache) :=
  (do (hidden_states, cache) <- QWen2Model_forward m W input_embed cache in
   let hidden_states := index_last hidden_states in
   Ret (if flag (cm_config m) "tie_word_embeddings"
     then Qwen2Embedding_lm_head_forward (w_own W "model.embed_tokens.weight"%string) hidden_states
     else linear (w_own W) "lm_head" false hidden_states, cache))%prog.
Definition QWen2LMHeadModel_decode (m : CausalModel) (W : ModelWeights E) (input_embed : Tensor) (cache : Cache) : NetProg (Tensor * Cache) :=
  (do (hidden_states, cache) <- QWen2Model_forward m W input_embed cache in
   Ret (if flag (cm_config m) "tie_word_embeddings"
     then Qwen2Embedding_lm_head_forward (w_own W "model.embed_tokens.weight"%string) hidden_states
     else linear (w_own W) "lm_head" false hidden_states, cache))%prog.
Definition QWen2LMHeadModel_batch_prefill (m : CausalModel) (W : ModelWeights E) (input_embeds logit_positions : Tensor) (cache : Cache)
  : NetProg (Tensor * Cache) :=
  (do logit_positions <- ccl_broadcast (shards (cm_config m)) logit_positions in
   QWen2LMHeadModel_batch_forward m W input_embeds cache (Some logit_positions))%prog.
Definition QWen2LMHeadModel_batch_decode (m : CausalModel) (W : ModelWeights E) (input_embeds : Tensor) (cache : Cache) : NetProg (Tensor * Cache) :=
  QWen2LMHeadModel_batch_forward m W input_embeds cache None.
Definition QWen2LMHeadModel_batch_verify (m : CausalModel) (W : ModelWeights E) (input_embeds : Tensor) (cache : Cache) : NetProg (Tensor * Cache) :=
  QWen2LMHeadModel_batch_forward m W input_embeds cache None.
Definition QWen2LMHeadModel_build (c : Config) : res (Built E) :=
  let? m := QWen2LMHeadModel_init c in
  Ok (mkBuilt (cm_layers m) (cm_own m) (fun W =>
    mkCompiled (QWen2LMHeadModel_embed m W) (QWen2LMHeadModel_prefill m W) (QWen2LMHeadModel_decode m W) (QWen2LMHeadModel_batch_prefill m W) (QWen2LMHeadModel_batch_decode m W) (QWen2LMHeadModel_batch_verify m W))).

(** ** MiniCPM *)

Definition MiniCPMEmbedding_lm_head_forward (weight x : Tensor) : Tensor := op_matmul x (op_permute_dims weight).

Definition MiniCPMModel_forward (m : CausalModel) (W : ModelWeights E) (inputs : Tensor) (cache : Cache)
  : NetProg (Tensor * Cache) :=
  (let hidden_states := inputs in
   do (hidden_states, cache) <- run_layers (fun _ x => x)
     (imap (fun i l => MiniCPMDecoderLayer_forward (cm_config m) l (w_layers W i)) (cm_layers m)) 0 hidden_states cache in
   Ret (rms_norm (w_own W) "model.norm" (real (cm_config m) "rms_norm_eps") hidden_states, cache))%prog.

Definition MiniCPMForCausalLM_embed (m : CausalModel) (W : ModelWeights E) (input_ids : Tensor) : NetProg Tensor :=
  (do input_ids <- ccl_broadcast (shards (cm_config m)) input_ids in
   Ret (op_scale (nn_embedding (w_own W "model.embed_tokens.weight"%string) input_ids) (f64_of_Z (Z.of_nat (int (cm_config m) "scale_emb")))))%prog.
Definition MiniCPMForCausalLM_batch_forward (m : CausalModel) (W : ModelWeights E) (input_embeds : Tensor) (cache : Cache)
    (logit_positions : option Tensor) : NetProg (Tensor * Cache) :=
  (do (hidden_states, cache) <- MiniCPMModel_forward m W input_embeds cache in
   let hidden_states := op_div hidden_states (MiniCPMForCausalLM_scale_width (cm_config m)) in
   let hidden_states :=
     match logit_positions with Some p => op_take hidden_states p 1 | None => hidden_states end in
   Ret (if flag (cm_config m) "tie_word_embeddings"
     then MiniCPMEmbedding_lm_head_forward (w_own W "model.embed_tokens.weight"%string) hidden_states
     else linear (w_own W) "lm_head" false hidden_states, cache))%prog.
Definition MiniCPMForCausalLM_prefill (m : CausalModel) (W : ModelWeights E) (input_embed : Tensor) (cache : Cache) : NetProg (Tensor * Cache) :=
  (do (hidden_states, cache) <- MiniCPMModel_forward m W input_embed cache in
   let hidden_states := op_div hidden_states (MiniCPMForCausalLM_scale_width (cm_config m)) in
   let hidden_states := index_last hidden_states in
   Ret (if flag (cm_config m) "tie_word_embeddings"
     then MiniCPMEmbedding_lm_head_forward (w_own W "model.embed_tokens.weight"%string) hidden_states
     else linear (w_own W) "lm_head" false hidden_states, cache))%prog.
Definition MiniCPMForCausalLM_decode (m : CausalModel) (W : ModelWeights E) (input_embed : Tensor) (cache : Cache) : NetProg (Tensor * Cache) :=
  (do (hidden_states, cache) <- MiniCPMModel_forward m W input_embed cache in
   let hidden_states := op_div hidden_states (MiniCPMForCausalLM_scale_width (cm_config m)) in
   Ret (if flag (cm_config m) "tie_word_embeddings"
     then MiniCPMEmbedding_lm_head_forward (w_own W "model.embed_tokens.weight"%string) hidden_states
     else linear (w_own W) "lm_head" false hidden_states, cache))%prog.
Definition MiniCPMForCausalLM_batch_prefill (m : CausalModel) (W : ModelWeights E) (input_embeds logit_positions : Tensor) (cache : Cache)
  : NetProg (Tensor * Cache) :=
  (do logit_positions <- ccl_broadcast (shards (cm_config m)) logit_positions in
   MiniCPMForCausalLM_batch_forward m W input_embeds cache (Some logit_positions))%prog.
Definition MiniCPMForCausalLM_batch_decode (m : CausalModel) (W : ModelWeights E) (input_embeds : Tensor) (cache : Cache) : NetProg (Tensor * Cache) :=
  MiniCPMForCausalLM_batch_forward m W input_embeds cache None.
Definition MiniCPMForCausalLM_batch_verify (m : CausalModel) (W : ModelWeights E) (input_embeds : Tensor) (cache : Cache) : NetProg (Tensor * Cache) :=
  MiniCPMForCausalLM_batch_forward m W input_embeds cache None.
Definition MiniCPMForCausalLM_build (c : Config) : res (Built E) :=
  let? m := MiniCPMForCausalLM_init c in
  Ok (mkBuilt (cm_layers m) (cm_own m) (fun W =>
    mkCompiled (MiniCPMForCausalLM_embed m W) (MiniCPMForCausalLM_prefill m W) (MiniCPMForCausalLM_decode m W) (MiniCPMForCausalLM_batch_prefill m W) (MiniCPMForCausalLM_batch_decode m W) (MiniCPMForCausalLM_batch_verify m W))).

(** ** Phi-3 *)

Definition Phi3Model_forward (m : CausalModel) (W : ModelWeights E) (input_embed : Tensor) (cache : Cache)
  : NetProg (Tensor * Cache) :=
  (let hidden_states := input_embed in
   do (hidden_states, cache) <- run_layers (fun _ x => x)
     (imap (fun i l => Phi3ParallelBlock_forward l (w_layers W i)) (cm_layers m)) 0 hidden_states cache in
   Ret (rms_norm (w_own W) "transformer.norm" (real (cm_config m) "rms_norm_eps") hidden_states, cache))%prog.

Definition Phi3ForCausalLM_embed (m : CausalModel) (W : ModelWeights E) (input_ids : Tensor) : NetProg Tensor :=
  (do input_ids <- ccl_broadcast (shards (cm_config m)) input_ids in
   Ret (nn_embedding (w_own W "transformer.embd.weight"%string) input_ids))%prog.
Definition Phi3ForCausalLM_batch_forward (m : CausalModel) (W : ModelWeights E) (input_embeds : Tensor) (cache : Cache)
    (logit_positions : option Tensor) : NetProg (Tensor * Cache) :=
  (do (hidden_states, cache) <- Phi3Model_forward m W input_embeds cache in
   let hidden_states :=
     match logit_positions with Some p => op_take hidden_states p 1 | None => hidden_states end in
   Ret (linear (w_own W) "lm_head" false hidden_states, cache))%prog.
Definition Phi3ForCausalLM_prefill (m : CausalModel) (W : ModelWeights E) (input_embed : Tensor) (cache : Cache) : NetProg (Tensor * Cache) :=
  (do (hidden_states, cache) <- Phi3Model_forward m W input_embed cache in
   let hidden_states := index_last hidden_states in
   Ret (linear (w_own W) "lm_head" false hidden_states, cache))%prog.
Definition Phi3ForCausalLM_decode (m : CausalModel) (W : ModelWeights E) (input_embed : Tensor) (cache : Cache) : NetProg (Tensor * Cache) :=
  (do (hidden_states, cache) <- Phi3Model_forward m W input_embed cache in
   Ret (linear (w_own W) "lm_head" false hidden_states, cache))%prog.
Definition Phi3ForCausalLM_batch_prefill (m : CausalModel) (W : ModelWeights E) (input_embeds logit_positions : Tensor) (cache : Cache)
  : NetProg (Tensor * Cache) :=
  (do logit_positions <- ccl_broadcast (shards (cm_config m)) logit_positions in
   Phi3ForCausalLM_batch_forward m W input_embeds cache (Some logit_positions))%prog.
Definition Phi3ForCausalLM_batch_decode (m : CausalModel) (W : ModelWeights E) (input_embeds : Tensor) (cache : Cache) : NetProg (Tensor * Cache) :=
  Phi3ForCausalLM_batch_forward m W input_embeds cache None.
Definition Phi3ForCausalLM_batch_verify (m : CausalModel) (W : ModelWeights E) (input_embeds : Tensor) (cache : Cache) : NetProg (Tensor * Cache) :=
  Phi3ForCausalLM_batch_forward m W input_embeds cache None.
Definition Phi3ForCausalLM_build (c : Config) : res (Built E) :=
  let? m := Phi3ForCausalLM_init c in
  Ok (mkBuilt (cm_layers m) (cm_own m) (fun W =>
    mkCompiled (Phi3ForCausalLM_embed m W) (Phi3ForCausalLM_prefill m W) (Phi3ForCausalLM_decode m W) (Phi3ForCausalLM_batch_prefill m W) (Phi3ForCausalLM_batch_decode m W) (Phi3ForCausalLM_batch_verify m W))).

(** ** StarCoder2 *)

Definition Starcoder2Model_forward (m : CausalModel) (W : ModelWeights E) (inputs : Tensor) (cache : Cache)
  : NetProg (Tensor * Cache) :=
  (let hidden_states := inputs in
   do (hidden_states, cache) <- run_layers (fun _ x => x)
     (imap (fun i l => Starcoder2DecoderLayer_forward l (w_layers W i)) (cm_layers m)) 0 hidden_states cache in
   Ret (layer_norm (w_own W) "model.norm" (real (cm_config m) "norm_epsilon") hidden_states, cache))%prog.

Definition Starcoder2ForCausalLM_embed (m : CausalModel) (W : ModelWeights E) (input_ids : Tensor) : NetProg Tensor :=
  (do input_ids <- ccl_broadcast (shards (cm_config m)) input_ids in
   Ret (nn_embedding (w_own W "model.embed_tokens.weight"%string) input_ids))%prog.
Definition Starcoder2ForCausalLM_batch_forward (m : CausalModel) (W : ModelWeights E) (input_embeds : Tensor) (cache : Cache)
    (logit_positions : option Tensor) : NetProg (Tensor * Cache) :=
  (do (hidden_states, cache) <- Starcoder2Model_forward m W input_embeds cache in
   let hidden_states :=
     match logit_positions with Some p => op_take hidden_states p 1 | None => hidden_states end in
   Ret (linear (w_own W) "lm_head" false hidden_states, cache))%prog.
Definition Starcoder2ForCausalLM_prefill (m : CausalModel) (W : ModelWeights E) (input_embed : Tensor) (cache : Cache) : NetProg (Tensor * Cache) :=
  (do (hidden_states, cache) <- Starcoder2Model_forward m W input_embed cache in
   let hidden_states := index_last hidden_states in
   Ret (linear (w_own W) "lm_head" false hidden_states, cache))%prog.
Definition Starcoder2ForCausalLM_decode (m : CausalModel) (W : ModelWeights E) (input_embed : Tensor) (cache : Cache) : NetProg (Tensor * Cache) :=
  (do (hidden_states, cache) <- Starcoder2Model_forward m W input_embed cache in
   Ret (linear (w_own W) "lm_head" false hidden_states, cache))%prog.
Definition Starcoder2ForCausalLM_batch_prefill (m : CausalModel) (W : ModelWeights E) (input_embeds logit_positions : Tensor) (cache : Cache)
  : NetProg (Tensor * Cache) :=
  (do logit_positions <- ccl_broadcast (shards (cm_config m)) logit_positions in
   Starcoder2ForCausalLM_batch_forward m W input_embeds cache (Some logit_positions))%prog.
Definition Starcoder2ForCausalLM_batch_decode (m : CausalModel) (W : ModelWeights E) (input_embeds : Tensor) (cache : Cache) : NetProg (Tensor * Cache) :=
  Starcoder2ForCausalLM_batch_forward m W input_embeds cache None.
Definition Starcoder2ForCausalLM_batch_verify (m : CausalModel) (W : ModelWeights E) (input_embeds : Tensor) (cache : Cache) : NetProg (Tensor * Cache) :=
  Starcoder2ForCausalLM_batch_forward m W input_embeds cache None.
Definition Starcoder2ForCausalLM_build (c : Config) : res (Built E) :=
  let? m := Starcoder2ForCausalLM_init c in
  Ok (mkBuilt (cm_layers m) (cm_own m) (fun W =>
    mkCompiled (Starcoder2ForCausalLM_embed m W) (Starcoder2ForCausalLM_prefill m W) (Starcoder2ForCausalLM_decode m W) (Starcoder2ForCausalLM_batch_prefill m W) (Starcoder2ForCausalLM_batch_decode m W) (Starcoder2ForCausalLM_batch_verify m W))).

(** ** GPT-2 *)

Definition GPT2Model_forward (m : CausalModel) (W : ModelWeights E) (inputs : Tensor) (cache : Cache)
  : NetProg (Tensor * Cache) :=
  (let hidden_states := op_add inputs (nn_embedding (w_own W "transformer.wpe.weight"%string) (get_query_positions cache (nth 1 (shape inputs) 0))) in
   do (hidden_states, cache) <- run_layers (fun _ x => x)
     (imap (fun i l => GPT2Block_forward (cm_config m) l (w_layers W i)) (cm_layers m)) 0 hidden_states cache in
   Ret (layer_norm (w_own W) "transformer.ln_f" (real (cm_config m) "layer_norm_epsilon") hidden_states, cache))%prog.

Definition GPT2LMHeadModel_embed (m : CausalModel) (W : ModelWeights E) (input_ids : Tensor) : NetProg Tensor :=
  (do input_ids <- ccl_broadcast (shards (cm_config m)) input_ids in
   Ret (nn_embedding (w_own W "transformer.wte.weight"%string) input_ids))%prog.
Definition GPT2LMHeadModel_batch_forward (m : CausalModel) (W : ModelWeights E) (input_embeds : Tensor) (cache : Cache)
    (logit_positions : option Tensor) : NetProg (Tensor * Cache) :=
  (do (hidden_states, cache) <- GPT2Model_forward m W input_embeds cache in
   let hidden_states :=
     match logit_positions with Some p => op_take hidden_states p 1 | None => hidden_states end in
   Ret (linear (w_own W) "lm_head" false hidden_states, cache))%prog.
Definition GPT2LMHeadModel_prefill (m : CausalModel) (W : ModelWeights E) (input_embed : Tensor) (cache : Cache) : NetProg (Tensor * Cache) :=
  (do (hidden_states, cache) <- GPT2Model_forward m W input_embed cache in
   let hidden_states := index_last hidden_states in
   Ret (linear (w_own W) "lm_head" false hidden_states, cache))%prog.
Definition GPT2LMHeadModel_decode (m : CausalModel) (W : ModelWeights E) (input_embed : Tensor) (cache : Cache) : NetProg (Tensor * Cache) :=
  (do (hidden_states, cache) <- GPT2Model_forward m W input_embed cache in
   Ret (linear (w_own W) "lm_head" false hidden_states, cache))%prog.
Definition GPT2LMHeadModel_batch_prefill (m : CausalModel) (W : ModelWeights E) (input_embeds logit_positions : Tensor) (cache : Cache)
  : NetProg (Tensor * Cache) :=
  (do logit_positions <- ccl_broadcast (shards (cm_config m)) logit_positions in
   GPT2LMHeadModel_batch_forward m W input_embeds cache (Some logit_positions))%prog.
Definition GPT2LMHeadModel_batch_decode (m : CausalModel) (W : ModelWeights E) (input_embeds : Tensor) (cache : Cache) : NetProg (Tensor * Cache) :=
  GPT2LMHeadModel_batch_forward m W input_embeds cache None.
Definition GPT2LMHeadModel_batch_verify (m : CausalModel) (W : ModelWeights E) (input_embeds : Tensor) (cache : Cache) : NetProg (Tensor * Cache) :=
  GPT2LMHeadModel_batch_forward m W input_embeds cache None.
Definition GPT2LMHeadModel_build (c : Config) : res (Built E) :=
  let? m := GPT2LMHeadModel_init c in
  Ok (mkBuilt (cm_layers m) (cm_own m) (fun W =>
    mkCompiled (GPT2LMHeadModel_embed m W) (GPT2LMHeadModel_prefill m W) (GPT2LMHeadModel_decode m W) (GPT2LMHeadModel_batch_prefill m W) (GPT2LMHeadModel_batch_decode m W) (GPT2LMHeadModel_batch_verify m W))).

(** ** GPT-NeoX *)

Definition GPTNeoXModel_forward (m : CausalModel) (W : ModelWeights E) (inputs : Tensor) (cache : Cache)
  : NetProg (Tensor * Cache) :=
  (let hidden_states := inputs in
   do (hidden_states, cache) <- run_layers (fun _ x => x)
     (imap (fun i l => GPTNeoXLayer_forward (cm_config m) l (w_layers W i)) (cm_layers m)) 0 hidden_states cache in
   Ret (layer_norm (w_own W) "gpt_neox.final_layer_norm" (real (cm_config m) "layer_norm_eps") hidden_states, cache))%prog.

Definition GPTNeoXForCausalLM_embed (m : CausalModel) (W : ModelWeights E) (input_ids : Tensor) : NetProg Tensor :=
  (do input_ids <- ccl_broadcast (shards (cm_config m)) input_ids in
   Ret (nn_embedding (w_own W "gpt_neox.embed_in.weight"%string) input_ids))%prog.
Definition GPTNeoXForCausalLM_batch_forward (m : CausalModel) (W : ModelWeights E) (input_embeds : Tensor) (cache : Cache)
    (logit_positions : option Tensor) : NetProg (Tensor * Cache) :=
  (do (hidden_states, cache) <- GPTNeoXModel_forward m W input_embeds cache in
   let hidden_states :=
     match logit_positions with Some p => op_take hidden_states p 1 | None => hidden_states end in
   Ret (linear (w_own W) "embed_out" false hidden_states, cache))%prog.
Definition GPTNeoXForCausalLM_prefill (m : CausalModel) (W : ModelWeights E) (input_embed : Tensor) (cache : Cache) : NetProg (Tensor * Cache) :=
  (do (hidden_states, cache) <- GPTNeoXModel_forward m W input_embed cache in
   let hidden_states := index_last hidden_states in
   Ret (linear (w_own W) "embed_out" false hidden_states, cache))%prog.
Definition GPTNeoXForCausalLM_decode (m : CausalModel) (W : ModelWeights E) (input_embed : Tensor) (cache : Cache) : NetProg (Tensor * Cache) :=
  (do (hidden_states, cache) <- GPTNeoXModel_forward m W input_embed cache in
   Ret (linear (w_own W) "embed_out" false hidden_states, cache))%prog.
Definition GPTNeoXForCausalLM_batch_prefill (m : CausalModel) (W : ModelWeights E) (input_embeds logit_positions : Tensor) (cache : Cache)
  : NetProg (Tensor * Cache) :=
  (do logit_positions <- ccl_broadcast (shards (cm_config m)) logit_positions in
   GPTNeoXForCausalLM_batch_forward m W input_embeds cache (Some logit_positions))%prog.
Definition GPTNeoXForCausalLM_batch_decode (m : CausalModel) (W : ModelWeights E) (input_embeds : Tensor) (cache : Cache) : NetProg (Tensor * Cache) :=
  GPTNeoXForCausalLM_batch_forward m W input_embeds cache None.
Definition GPTNeoXForCausalLM_batch_verify (m : CausalModel) (W : ModelWeights E) (input_embeds : Tensor) (cache : Cache) : NetProg (Tensor * Cache) :=
  GPTNeoXForCausalLM_batch_forward m W input_embeds cache None.
Definition GPTNeoXForCausalLM_build (c : Config) : res (Built E) :=
  let? m := GPTNeoXForCausalLM_init c in
  Ok (mkBuilt (cm_layers m) (cm_own m) (fun W =>
    mkCompiled (GPTNeoXForCausalLM_embed m W) (GPTNeoXForCausalLM_prefill m W) (GPTNeoXForCausalLM_decode m W) (GPTNeoXForCausalLM_batch_prefill m W) (GPTNeoXForCausalLM_batch_decode m W) (GPTNeoXForCausalLM_batch_verify m W))).

(** ** Phi *)

Definition PhiCausalLMHead_forward (c : Config) (W : Params E) (hidden_states : Tensor) : Tensor :=
  let hidden_states := layer_norm W "ln" (real c "layer_norm_epsilon") hidden_states in
  linear W "linear" true hidden_states.

Definition PhiModel_forward (m : CausalModel) (W : ModelWeights E) (input_embed : Tensor) (cache : Cache)
  : NetProg (Tensor * Cache) :=
  (let hidden_states := input_embed in
   do (hidden_states, cache) <- run_layers (fun _ x => x)
     (imap (fun i l => PhiParallelBlock_forward l (w_layers W i)) (cm_layers m)) 0 hidden_states cache in
   Ret (hidden_states, cache))%prog.

Definition PhiForCausalLM_embed (m : CausalModel) (W : ModelWeights E) (input_ids : Tensor) : NetProg Tensor :=
  (do input_ids <- ccl_broadcast (shards (cm_config m)) input_ids in
   Ret (nn_embedding (w_own W "transformer.embd.weight"%string) input_ids))%prog.
Definition PhiForCausalLM_batch_forward (m : CausalModel) (W : ModelWeights E) (input_embeds : Tensor) (cache : Cache)
    (logit_positions : option Tensor) : NetProg (Tensor * Cache) :=
  (do (hidden_states, cache) <- PhiModel_forward m W input_embeds cache in
   let hidden_states :=
     match logit_positions with Some p => op_take hidden_states p 1 | None => hidden_states end in
   Ret (PhiCausalLMHead_forward (cm_config m) (under "lm_head" (w_own W)) hidden_states, cache))%prog.
Definition PhiForCausalLM_prefill (m : CausalModel) (W : ModelWeights E) (input_embed : Tensor) (cache : Cache) : NetProg (Tensor * Cache) :=
  (do (hidden_states, cache) <- PhiModel_forward m W input_embed cache in
   let hidden_states := index_last hidden_states in
   Ret (PhiCausalLMHead_forward (cm_config m) (under "lm_head" (w_own W)) hidden_states, cache))%prog.
Definition PhiForCausalLM_decode (m : CausalModel) (W : ModelWeights E) (input_embed : Tensor) (cache : Cache) : NetProg (Tensor * Cache) :=
  (do (hidden_states, cache) <- PhiModel_forward m W input_embed cache in
   Ret (PhiCausalLMHead_forward (cm_config m) (under "lm_head" (w_own W)) hidden_states, cache))%prog.
Definition PhiForCausalLM_batch_prefill (m : CausalModel) (W : ModelWeights E) (input_embeds logit_positions : Tensor) (cache : Cache)
  : NetProg (Tensor * Cache) :=
  (do logit_positions <- ccl_broadcast (shards (cm_config m)) logit_positions in
   PhiForCausalLM_batch_forward m W input_embeds cache (Some logit_positions))%prog.
Definition PhiForCausalLM_batch_decode (m : CausalModel) (W : ModelWeights E) (input_embeds : Tensor) (cache : Cache) : NetProg (Tensor * Cache) :=
  PhiForCausalLM_batch_forward m W input_embeds cache None.
Definition PhiForCausalLM_batch_verify (m : CausalModel) (W : ModelWeights E) (input_embeds : Tensor) (cache : Cache) : NetProg (Tensor * Cache) :=
  PhiForCausalLM_batch_forward m W input_embeds cache None.
Definition PhiForCausalLM_build (c : Config) : res (Built E) :=
  let? m := PhiForCausalLM_init c in
  Ok (mkBuilt (cm_layers m) (cm_own m) (fun W =>
    mkCompiled (PhiForCausalLM_embed m W) (PhiForCausalLM_prefill m W) (PhiForCausalLM_decode m W) (PhiForCausalLM_batch_prefill m W) (PhiForCausalLM_batch_decode m W) (PhiForCausalLM_batch_verify m W))).

(** ** OLMo *)

Definition OLMoModel_forward (c : Config) (m : ModelModule) (W : ModelWeights E) (inputs : Tensor) (cache : Cache)
  : NetProg (Tensor * Cache) :=
  (do (hidden_states, cache) <- run_layers (stage_boundary (layer_partition m))
     (imap (fun i l => OLMoDecoderLayer_forward c l (w_layers W i)) (md_layers m)) 0 inputs cache in
   Ret (layer_norm_plain (md_norm_eps m) hidden_states, cache))%prog.

Definition OLMoEmbedding_lm_head_forward (weight x : Tensor) : Tensor := op_matmul x (op_permute_dims weight).

Section OLMo.
Variables (m : CausalLM) (W : ModelWeights E).

Definition OLMoForCausalLM_get_logits (hidden_states : Tensor) : Tensor :=
  if tie_word_embeddings m then
    OLMoEmbedding_lm_head_forward (w_own W "model.embed_tokens.weight"%string) hidden_states
  else linear (w_own W) "lm_head" false hidden_states.

Definition OLMoForCausalLM_embed (input_ids : Tensor) : NetProg Tensor :=
  (do input_ids <- ccl_broadcast (lm_shards m) input_ids in
   Ret (nn_embedding (w_own W "model.embed_tokens.weight"%string) input_ids))%prog.

Definition OLMoForCausalLM_batch_forward (input_embeds : Tensor) (c : Cache) (logit_positions : option Tensor)
  : NetProg (Tensor * Cache) :=
  (do (hidden_states, c) <- OLMoModel_forward (lm_config m) (lm_model m) W input_embeds c in
   match logit_positions with
   | Some logit_positions =>
       do logit_positions <- ccl_broadcast (lm_shards m) logit_positions in
       Ret (OLMoForCausalLM_get_logits (op_take hidden_states logit_positions 1), c)
   | None => Ret (OLMoForCausalLM_get_logits hidden_states, c)
   end)%prog.

Definition OLMoForCausalLM_batch_forward_to_last_hidden_states (input_embeds : Tensor) (c : Cache)
  : NetProg (Tensor * Cache) := OLMoModel_forward (lm_config m) (lm_model m) W input_embeds c.

Definition OLMoForCausalLM_batch_select_last_hidden_states (hidden_states logit_positions : Tensor)
  : NetProg Tensor :=
  (do logit_positions <- ccl_broadcast (lm_shards m) logit_positions in
   Ret (op_take hidden_states logit_positions 0))%prog.

Definition OLMoForCausalLM_prefill (input_embed : Tensor) (c : Cache) : NetProg (Tensor * Cache) :=
  (do (hidden_states, c) <- OLMoModel_forward (lm_config m) (lm_model m) W input_embed c in
   Ret (OLMoForCausalLM_get_logits (index_last hidden_states), c))%prog.

Definition OLMoForCausalLM_decode (input_embed : Tensor) (c : Cache) : NetProg (Tensor * Cache) :=
  (do (hidden_states, c) <- OLMoModel_forward (lm_config m) (lm_model m) W input_embed c in
   Ret (OLMoForCausalLM_get_logits hidden_states, c))%prog.

Definition OLMoForCausalLM_prefill_to_last_hidden_states (input_embed : Tensor) (c : Cache)
  : NetProg (Tensor * Cache) := OLMoModel_forward (lm_config m) (lm_model m) W input_embed c.
Definition OLMoForCausalLM_decode_to_last_hidden_states (input_embed : Tensor) (c : Cache)
  : NetProg (Tensor * Cache) := OLMoModel_forward (lm_config m) (lm_model m) W input_embed c.

Definition OLMoForCausalLM_batch_prefill (input_embeds logit_positions : Tensor) (c : Cache)
  : NetProg (Tensor * Cache) := OLMoForCausalLM_batch_forward input_embeds c (Some logit_positions).
Definition OLMoForCausalLM_batch_decode (input_embeds : Tensor) (c : Cache)
  : NetProg (Tensor * Cache) := OLMoForCausalLM_batch_forward input_embeds c None.
Definition OLMoForCausalLM_batch_verify (input_embeds : Tensor) (c : Cache)
  : NetProg (Tensor * Cache) := OLMoForCausalLM_batch_forward input_embeds c None.

Definition OLMoForCausalLM_batch_prefill_to_last_hidden_states (input_embeds : Tensor) (c : Cache)
  : NetProg (Tensor * Cache) := OLMoForCausalLM_batch_forward_to_last_hidden_states input_embeds c.
Definition OLMoForCausalLM_batch_decode_to_last_hidden_states (input_embeds : Tensor) (c : Cache)
  : NetProg (Tensor * Cache) := OLMoForCausalLM_batch_forward_to_last_hidden_states input_embeds c.
Definition OLMoForCausalLM_batch_verify_to_last_hidden_states (input_embeds : Tensor) (c : Cache)
  : NetProg (Tensor * Cache) := OLMoForCausalLM_batch_forward_to_last_hidden_states input_embeds c.
End OLMo.

Definition OLMoForCausalLM_build (c : Config) : res (Built E) :=
  let? m := OLMoForCausalLM_init c in
  Ok (mkBuilt (md_layers (lm_model m)) (lm_own m) (fun W =>
    mkCompiled (OLMoForCausalLM_embed m W) (OLMoForCausalLM_prefill m W) (OLMoForCausalLM_decode m W) (OLMoForCausalLM_batch_prefill m W) (OLMoForCausalLM_batch_decode m W) (OLMoForCausalLM_batch_verify m W))).

(** ** The language models *)

(** A decoder layer, the model that is made of it, and the arguments of its KV
    cache, given the partition of the layers into stages. *)
Record LanguageModel : Type := mkLanguageModel {
  lang_arch : Arch E; lang_build : Config -> res (Built E); lang_cache : Config -> list nat -> res (dict KVArg) }.

Definition language_models : list LanguageModel :=
  [mkLanguageModel llama_arch LlamaForCausalLM_build LlamaForCausalLM_create_paged_kv_cache;
   mkLanguageModel mistral_arch MistralForCasualLM_build (fun c _ => MistralForCasualLM_create_paged_kv_cache c);
   mkLanguageModel gemma_arch GemmaForCausalLM_build (fun c _ => GemmaForCausalLM_create_paged_kv_cache c);
   mkLanguageModel baichuan_arch BaichuanForCausalLM_build (fun c _ => BaichuanForCausalLM_create_paged_kv_cache c);
   mkLanguageModel orion_arch OrionForCasualLM_build (fun c _ => OrionForCasualLM_create_paged_kv_cache c);
   mkLanguageModel stablelm_arch StableLmForCausalLM_build (fun c _ => StableLmForCausalLM_create_paged_kv_cache c);
   mkLanguageModel internlm_arch InternLMForCausalLM_build (fun c _ => InternLMForCausalLM_create_paged_kv_cache c);
   mkLanguageModel internlm2_arch InternLM2ForCausalLM_build (fun c _ => InternLM2ForCausalLM_create_paged_kv_cache c);
   mkLanguageModel qwen_arch QWenLMHeadModel_build (fun c _ => QWenLMHeadModel_create_paged_kv_cache c);
   mkLanguageModel qwen2_arch QWen2LMHeadModel_build (fun c _ => QWen2LMHeadModel_create_paged_kv_cache c);
   mkLanguageModel minicpm_arch MiniCPMForCausalLM_build (fun c _ => MiniCPMForCausalLM_create_paged_kv_cache c);
   mkLanguageModel phi3_arch Phi3ForCausalLM_build (fun c _ => Phi3ForCausalLM_create_paged_kv_cache c);
   mkLanguageModel starcoder2_arch Starcoder2ForCausalLM_build (fun c _ => Starcoder2ForCausalLM_create_paged_kv_cache c);
   mkLanguageModel gpt2_arch GPT2LMHeadModel_build (fun c _ => GPT2LMHeadModel_create_paged_kv_cache c);
   mkLanguageModel gpt_neox_arch GPTNeoXForCausalLM_build (fun c _ => GPTNeoXForCausalLM_create_paged_kv_cache c);
   mkLanguageModel phi_arch PhiForCausalLM_build (fun c _ => PhiForCausalLM_create_paged_kv_cache c);
   mkLanguageModel gemma2_arch Gemma2ForCausalLM_build (fun c _ => GemmaForCausalLM_create_paged_kv_cache c);
   mkLanguageModel olmo_arch OLMoForCausalLM_build OLMoForCausalLM_create_paged_kv_cache].
End Forward.
Arguments LanguageModel E {KV}.
