(* ===== verification/ParallelModels.v ===== *)
(** * The language models on several workers

    For every model of [CausalModels.v]: with [n] workers, each with its shards
    of the weights, the compiled functions return on every worker what they
    return on one worker with the whole weights. *)

From Stdlib Require Import SpecFloat.
From stdpp Require Import base list strings.
From S2P Require Import Prelude PyNum Spmd TensorOps TensorParallel KvCache Network ModelSpecs LlamaModel CausalModel Decoders ParallelDecoders CausalModels.
Local Open Scope nat_scope.

Lemma rmap_same {A B} (r : res B) (l : list A) ls : rmap (fun _ => r) l = Ok ls ->
  length ls = length l /\ forall i b, ls !! i = Some b -> r = Ok b.
Proof.
  revert ls. induction l as [|a l IH]; intros ls H; cbn in H; inv_ok; [by split|].
  match goal with H : rmap _ l = Ok _ |- _ => destruct (IH _ H) as [Hl Hi] end.
  split; [cbn; congruence|]. intros [|i] b Hb; [by injection Hb as <-|]. by eapply Hi.
Qed.

Section Models.
Context `{EL : ElemLaws} {N : NnOps E} {NL : NnLaws N} {TP : Topi E} {TL : TopiLaws TP}.
Context {KV : KVCache E} {KL : KVCacheLaws KV}.
Variables (n : nat) (c : Config).
Hypothesis n_pos : 0 < n.

(** ** The pieces of a model *)

(** The stack of layers of an architecture. *)
Lemma stack_ok A (b1 bn : Built E) (l l' : list nat) W pre starts start norms norm : In A architectures ->
  rmap (fun _ => arch_init A (on_workers 1 c)) l = Ok (b_layers b1) ->
  rmap (fun _ => arch_init A (on_workers n c)) l' = Ok (b_layers bn) -> length l = length l' -> fits n c A ->
  (forall i m, b_layers b1 !! i = Some m -> Shaped (ly_params m) (w_layers W i)) ->
  (forall i xs x, Rep n xs x -> Rep n (fun k => pre i (xs k)) (pre i x) /\ shape (pre i x) = shape x) ->
  StartOk n (int c (arch_hidden A)) starts start -> NormOk n (int c (arch_hidden A)) norms norm ->
  ForwardOk n (int c (arch_hidden A))
    (fun k => model_forward (starts k) pre
       (imap (fun i m => arch_forward A (on_workers n c) m (w_layers (worker_weights bn n k W) i)) (b_layers bn))
       (norms k))
    (model_forward start pre
       (imap (fun i m => arch_forward A (on_workers 1 c) m (w_layers W i)) (b_layers b1)) norm).
Proof.
  intros HA [Hl1 Hi1]%rmap_same [Hln Hin]%rmap_same Hll Hfits HW Hpre Hstart Hnorm.
  apply model_ok; [done..| |].
  - intros k. rewrite !length_imap. congruence.
  - intros i layer Hlayer. rewrite list_lookup_imap in Hlayer.
    destruct (b_layers b1 !! i) as [l1|] eqn:E1; [|done]. injection Hlayer as <-.
    destruct (lookup_lt_is_Some_2 (b_layers bn) i) as [ln En].
    { apply lookup_lt_Some in E1. congruence. }
    eexists (fun k => _). split; [intros k; rewrite list_lookup_imap, En; reflexivity|].
    cbn [worker_weights w_layers]. rewrite En.
    pose proof (architectures_ok n c n_pos) as Hok. rewrite List.Forall_forall in Hok.
    exact (Hok A HA l1 ln (w_layers W i) (Hi1 _ _ E1) (Hin _ _ En) Hfits (HW _ _ E1)).
Qed.

(** A parameter outside the layers: every worker has the whole one. *)
Lemma own_whole b W name s : dict_get (b_own b) name = Some (mkNnParam s None) ->
  forall k, w_own (worker_weights b n k W) name = w_own W name.
Proof. intros H k. exact (worker_params_whole n _ k (w_own W) name s H). Qed.

Lemma own_shape (b : Built E) W name s : WeightsShaped b W -> dict_get (b_own b) name = Some (mkNnParam s None) ->
  shape (w_own W name) = s.
Proof. intros [_ H] Hn. by rewrite (H name _ Hn). Qed.

(** The softcapping of Gemma 2. *)
Lemma head_map H V (h : Tensor -> Tensor) heads head :
  (forall xs x, Rep n xs x -> Rep n (fun k => h (xs k)) (h x) /\ shape (h x) = shape x) ->
  HeadOk n H V heads head -> HeadOk n H V (fun k x => h (heads k x)) (fun x => h (head x)).
Proof.
  intros Hh Hd xs x b s Hx Hxs. destruct (Hd xs x b s Hx Hxs) as [Hr Hs]. destruct (Hh _ _ Hr) as [Hr' Hs'].
  split; [done|congruence].
Qed.

Lemma stage_boundary_ok p i xs x : Rep n xs x ->
  Rep n (fun k => stage_boundary p i (xs k)) (stage_boundary p i x) /\ shape (stage_boundary p i x) = shape x.
Proof.
  intros H. unfold stage_boundary. destruct (is_boundary _ _); [|by split]. split; [|apply (boundary_teq x)].
  intros k Hk. rewrite (boundary_teq (xs k)), (boundary_teq x). by apply H.
Qed.

Lemma softcap_ok cap none xs x : Rep n xs x ->
  let h := fun x => if none : bool then x else op_scale (op_act "tanh" (op_div_float x cap)) cap in
  Rep n (fun k => h (xs k)) (h x) /\ shape (h x) = shape x.
Proof.
  intros Hx h. subst h. destruct none; [by split|]. split.
  - apply Rep_scale, Rep_act. intros k Hk. apply div_float_teq. by apply Hx.
  - by rewrite scale_shape, act_shape, div_float_shape.
Qed.

Section Own.
Variables (b1 bn : Built E) (W : ModelWeights E) (H : nat).
Hypothesis W_shaped : WeightsShaped b1 W.

(** The heads of the models. *)
Lemma own_head_linear V name : dict_get (b_own b1) (dot name "weight") = Some (mkNnParam [V; H] None) ->
  dict_get (b_own bn) (dot name "weight") = Some (mkNnParam [V; H] None) ->
  HeadOk n H V (fun k => linear (w_own (worker_weights bn n k W)) name false) (linear (w_own W) name false).
Proof.
  intros H1 Hn. exact (head_linear n H (fun k => w_own (worker_weights bn n k W) (dot name "weight")) (fun _ => None)
    _ None V (own_whole bn W _ _ Hn) (fun _ => eq_refl) (own_shape b1 W _ _ W_shaped H1)).
Qed.
Lemma own_head_bias V name : dict_get (b_own b1) (dot name "weight") = Some (mkNnParam [V; H] None) ->
  dict_get (b_own bn) (dot name "weight") = Some (mkNnParam [V; H] None) ->
  dict_get (b_own bn) (dot name "bias") = Some (mkNnParam [V] None) ->
  HeadOk n H V (fun k => linear (w_own (worker_weights bn n k W)) name true) (linear (w_own W) name true).
Proof.
  intros H1 Hn Hb. exact (head_linear n H (fun k => w_own (worker_weights bn n k W) (dot name "weight"))
    (fun k => Some (w_own (worker_weights bn n k W) (dot name "bias"))) _ (Some (w_own W (dot name "bias"))) V
    (own_whole bn W _ _ Hn) (fun k => f_equal Some (own_whole bn W _ _ Hb k)) (own_shape b1 W _ _ W_shaped H1)).
Qed.
Lemma own_head_tied V name : dict_get (b_own b1) name = Some (mkNnParam [V; H] None) ->
  dict_get (b_own bn) name = Some (mkNnParam [V; H] None) ->
  HeadOk n H V (fun k => LlamaEmbedding_lm_head_forward (w_own (worker_weights bn n k W) name))
    (LlamaEmbedding_lm_head_forward (w_own W name)).
Proof.
  intros H1 Hn. exact (head_tied n H (fun k => w_own (worker_weights bn n k W) name) _ V (own_whole bn W _ _ Hn)
    (own_shape b1 W _ _ W_shaped H1)).
Qed.
Lemma own_head_choice V name head (tie : bool) : dict_get (b_own b1) name = Some (mkNnParam [V; H] None) ->
  dict_get (b_own bn) name = Some (mkNnParam [V; H] None) ->
  (tie = false -> dict_get (b_own b1) (dot head "weight") = Some (mkNnParam [V; H] None)) ->
  (tie = false -> dict_get (b_own bn) (dot head "weight") = Some (mkNnParam [V; H] None)) ->
  HeadOk n H V
    (fun k x => if tie then LlamaEmbedding_lm_head_forward (w_own (worker_weights bn n k W) name) x
                else linear (w_own (worker_weights bn n k W)) head false x)
    (fun x => if tie then LlamaEmbedding_lm_head_forward (w_own W name) x else linear (w_own W) head false x).
Proof.
  intros He1 Hen H1 Hn. destruct tie; [by apply own_head_tied|]. by apply own_head_linear; auto.
Qed.
Lemma own_rms name eps s : dict_get (b_own bn) (dot name "weight") = Some (mkNnParam s None) ->
  NormOk n H (fun k => rms_norm (w_own (worker_weights bn n k W)) name eps) (rms_norm (w_own W) name eps).
Proof. exact (rms_norm_ok n H (b_own bn) (w_own W) name eps s). Qed.
Lemma own_layer_norm name eps s s' : dict_get (b_own bn) (dot name "weight") = Some (mkNnParam s None) ->
  dict_get (b_own bn) (dot name "bias") = Some (mkNnParam s' None) ->
  NormOk n H (fun k => layer_norm (w_own (worker_weights bn n k W)) name eps) (layer_norm (w_own W) name eps).
Proof. exact (layer_norm_ok n H (b_own bn) (w_own W) name eps s s'). Qed.
Lemma own_positions name v : dict_get (b_own b1) name = Some (mkNnParam [v; H] None) ->
  dict_get (b_own bn) name = Some (mkNnParam [v; H] None) ->
  StartOk n H (fun k x c => op_add x (nn_embedding (w_own (worker_weights bn n k W) name)
      (get_query_positions c (nth 1 (shape x) 0))))
    (fun x c => op_add x (nn_embedding (w_own W name) (get_query_positions c (nth 1 (shape x) 0)))).
Proof.
  intros H1 Hn. exact (start_positions n H (fun k => w_own (worker_weights bn n k W) name) _ v
    (own_shape b1 W _ _ W_shaped H1) (own_whole bn W _ _ Hn)).
Qed.
End Own.

(** A model by its pieces: the table of the embeddings, what happens to the
    embeddings and before the layers, the last normalization, what happens to
    the hidden states, and the head. *)
Lemma causal_ok A b1 bn W (l l' : list nat) emb V scale starts start norms norm gs g heads head : In A architectures ->
  rmap (fun _ => arch_init A (on_workers 1 c)) l = Ok (b_layers b1) ->
  rmap (fun _ => arch_init A (on_workers n c)) l' = Ok (b_layers bn) -> length l = length l' ->
  fits n c A -> WeightsShaped b1 W ->
  dict_get (b_own b1) emb = Some (mkNnParam [V; int c (arch_hidden A)] None) ->
  dict_get (b_own bn) emb = Some (mkNnParam [V; int c (arch_hidden A)] None) ->
  (forall xs x, Rep n xs x -> Rep n (fun k => scale (xs k)) (scale x)) -> (forall x, shape (scale x) = shape x) ->
  StartOk n (int c (arch_hidden A)) starts start -> NormOk n (int c (arch_hidden A)) norms norm ->
  NormOk n (int c (arch_hidden A)) gs g -> HeadOk n (int c (arch_hidden A)) V heads head ->
  Correct n (int c (arch_hidden A)) V
    (fun k => compiled_of n (w_own (worker_weights bn n k W) emb) scale (gs k) (heads k)
       (model_forward (starts k) (fun _ x => x)
          (imap (fun i m => arch_forward A (on_workers n c) m (w_layers (worker_weights bn n k W) i)) (b_layers bn))
          (norms k)))
    (compiled_of 1 (w_own W emb) scale g head
       (model_forward start (fun _ x => x)
          (imap (fun i m => arch_forward A (on_workers 1 c) m (w_layers W i)) (b_layers b1)) norm)).
Proof.
  intros HA L1 Ln Hll Hfits HW He1 Hen Hscale Hss Hstart Hnorm Hg Hh.
  exact (compiled_correct n _ n_pos V (fun k => w_own (worker_weights bn n k W) emb) _ scale gs g heads head _ _
    (own_whole bn W _ _ Hen) (own_shape b1 W _ _ HW He1) Hscale Hss
    (stack_ok A b1 bn l l' W _ _ _ _ _ HA L1 Ln Hll Hfits (proj1 HW) (layers_pre_id n) Hstart Hnorm) Hg Hh).
Qed.

(** ... with stages, and the positions broadcast late *)
Lemma staged_ok A b1 bn W (l l' : list nat) emb V partition norms norm heads head : In A architectures ->
  rmap (fun _ => arch_init A (on_workers 1 c)) l = Ok (b_layers b1) ->
  rmap (fun _ => arch_init A (on_workers n c)) l' = Ok (b_layers bn) -> length l = length l' ->
  fits n c A -> WeightsShaped b1 W ->
  dict_get (b_own b1) emb = Some (mkNnParam [V; int c (arch_hidden A)] None) ->
  dict_get (b_own bn) emb = Some (mkNnParam [V; int c (arch_hidden A)] None) ->
  NormOk n (int c (arch_hidden A)) norms norm -> HeadOk n (int c (arch_hidden A)) V heads head ->
  Correct n (int c (arch_hidden A)) V
    (fun k => compiled_late n (w_own (worker_weights bn n k W) emb) (heads k)
       (model_forward (fun x _ => x) (stage_boundary partition)
          (imap (fun i m => arch_forward A (on_workers n c) m (w_layers (worker_weights bn n k W) i)) (b_layers bn))
          (norms k)))
    (compiled_late 1 (w_own W emb) head
       (model_forward (fun x _ => x) (stage_boundary partition)
          (imap (fun i m => arch_forward A (on_workers 1 c) m (w_layers W i)) (b_layers b1)) norm)).
Proof.
  intros HA L1 Ln Hll Hfits HW He1 Hen Hnorm Hh.
  exact (compiled_late_correct n _ n_pos V (fun k => w_own (worker_weights bn n k W) emb) _ heads head _ _
    (own_whole bn W _ _ Hen) (own_shape b1 W _ _ HW He1)
    (stack_ok A b1 bn l l' W _ _ _ _ _ HA L1 Ln Hll Hfits (proj1 HW) (stage_boundary_ok partition) (start_id n _) Hnorm) Hh).
Qed.

(** ** The models *)

(** What is to be shown of a model. *)
Definition ModelOk (A : Arch E) (build : Config -> res (Built E)) : Prop := forall b1 bn W,
  build (on_workers 1 c) = Ok b1 -> build (on_workers n c) = Ok bn -> fits n c A -> WeightsShaped b1 W ->
  Correct n (int c (arch_hidden A)) (int c "vocab_size")
    (fun k => b_functions bn (worker_weights bn n k W)) (b_functions b1 W).


(** The two builds by name: [b1] for one worker, [bn] for [n]. *)
Ltac the_models b1 bn :=
  cbn [b_layers] in *;
  match goal with |- Correct _ _ _ (fun k => b_functions ?b _) (b_functions ?a _) => set (b1 := a) in *; set (bn := b) in * end.
(** The head of a model that may use the table of the embeddings. *)
Ltac untied := intros Htie; subst; cbn; rewrite Htie; reflexivity.
(** The stages of a constructed model. *)
Ltac stages_out :=
  repeat match goal with
  | H : (let '(_, _) := ?a in _) = Ok _ |- _ => first [destruct a as [[? ?] ?]|destruct a as [? ?]]
  end; inv_ok; cbn [lm_model md_layers layer_partition md_norm_eps tie_word_embeddings lm_shards lm_config lm_own] in *;
  match goal with H : nat_div _ _ = Ok ?p, H' : nat_div _ _ = Ok ?q |- _ =>
    pose proof (eq_trans (eq_sym H) H' : Ok p = Ok q) as Hper; injection Hper as <- end.

Lemma MistralForCasualLM_ok : ModelOk mistral_arch MistralForCasualLM_build.
Proof.
  intros b1 bn W H1 Hn Hfits HW. unfold MistralForCasualLM_build, MistralForCasualLM_init, MistralModel_init in H1, Hn. inv_ok.
  the_models b1 bn.
  refine (causal_ok mistral_arch b1 bn W _ _ "model.embed_tokens.weight" (int c "vocab_size") (fun x => x)
    (fun _ x _ => x) (fun x _ => x) _ _ (fun _ x => x) (fun x => x) _ _
    ltac:(cbn [In architectures]; tauto) ltac:(eassumption) ltac:(eassumption) eq_refl Hfits HW eq_refl eq_refl
    (fun _ _ H => H) (fun _ => eq_refl) (start_id n _) (own_rms bn W _ "model.norm" _ _ eq_refl) (id_norm_ok n _)
    (own_head_linear b1 bn W _ HW _ "lm_head" eq_refl eq_refl)).
Qed.

Lemma GemmaForCausalLM_ok : ModelOk gemma_arch GemmaForCausalLM_build.
Proof.
  intros b1 bn W H1 Hn Hfits HW. unfold GemmaForCausalLM_build, GemmaForCausalLM_init, GemmaModel_init in H1, Hn. inv_ok.
  the_models b1 bn.
  refine (causal_ok gemma_arch b1 bn W _ _ "model.embed_tokens.weight" (int c "vocab_size") (fun x => x)
    (fun _ x _ => op_scale x (sqrt_dim (int c "hidden_size"))) (fun x _ => op_scale x (sqrt_dim (int c "hidden_size"))) _ _ (fun _ x => x) (fun x => x) _ _
    ltac:(cbn [In architectures]; tauto) ltac:(eassumption) ltac:(eassumption) eq_refl Hfits HW eq_refl eq_refl
    (fun _ _ H => H) (fun _ => eq_refl) (start_scale n _ _) (own_rms bn W _ "model.norm" _ _ eq_refl) (id_norm_ok n _)
    (own_head_tied b1 bn W _ HW _ "model.embed_tokens.weight" eq_refl eq_refl)).
Qed.

Lemma BaichuanForCausalLM_ok : ModelOk baichuan_arch BaichuanForCausalLM_build.
Proof.
  intros b1 bn W H1 Hn Hfits HW. unfold BaichuanForCausalLM_build, BaichuanForCausalLM_init, BaichuanModel_init in H1, Hn. inv_ok.
  the_models b1 bn.
  refine (causal_ok baichuan_arch b1 bn W _ _ "model.embed_tokens.weight" (int c "vocab_size") (fun x => x)
    (fun _ x _ => x) (fun x _ => x) _ _ (fun _ x => x) (fun x => x) _ _
    ltac:(cbn [In architectures]; tauto) ltac:(eassumption) ltac:(eassumption) eq_refl Hfits HW eq_refl eq_refl
    (fun _ _ H => H) (fun _ => eq_refl) (start_id n _) (own_rms bn W _ "model.norm" _ _ eq_refl) (id_norm_ok n _)
    (own_head_linear b1 bn W _ HW _ "lm_head" eq_refl eq_refl)).
Qed.

Lemma OrionForCasualLM_ok : ModelOk orion_arch OrionForCasualLM_build.
Proof.
  intros b1 bn W H1 Hn Hfits HW. unfold OrionForCasualLM_build, OrionForCasualLM_init, OrionModel_init in H1, Hn. inv_ok.
  the_models b1 bn.
  refine (causal_ok orion_arch b1 bn W _ _ "model.embed_tokens.weight" (int c "vocab_size") (fun x => x)
    (fun _ x _ => x) (fun x _ => x) _ _ (fun _ x => x) (fun x => x) _ _
    ltac:(cbn [In architectures]; tauto) ltac:(eassumption) ltac:(eassumption) eq_refl Hfits HW eq_refl eq_refl
    (fun _ _ H => H) (fun _ => eq_refl) (start_id n _) (own_layer_norm bn W _ "model.norm" _ _ _ eq_refl eq_refl) (id_norm_ok n _)
    (own_head_linear b1 bn W _ HW _ "lm_head" eq_refl eq_refl)).
Qed.

Lemma StableLmForCausalLM_ok : ModelOk stablelm_arch StableLmForCausalLM_build.
Proof.
  intros b1 bn W H1 Hn Hfits HW. unfold StableLmForCausalLM_build, StableLmForCausalLM_init, StableLmModel_init in H1, Hn. inv_ok.
  the_models b1 bn.
  refine (causal_ok stablelm_arch b1 bn W _ _ "model.embed_tokens.weight" (int c "vocab_size") (fun x => x)
    (fun _ x _ => x) (fun x _ => x) _ _ (fun _ x => x) (fun x => x) _ _
    ltac:(cbn [In architectures]; tauto) ltac:(eassumption) ltac:(eassumption) eq_refl Hfits HW eq_refl eq_refl
    (fun _ _ H => H) (fun _ => eq_refl) (start_id n _) (own_layer_norm bn W _ "model.norm" _ _ _ eq_refl eq_refl) (id_norm_ok n _)
    (own_head_linear b1 bn W _ HW _ "lm_head" eq_refl eq_refl)).
Qed.

Lemma InternLMForCausalLM_ok : ModelOk internlm_arch InternLMForCausalLM_build.
Proof.
  intros b1 bn W H1 Hn Hfits HW. unfold InternLMForCausalLM_build, InternLMForCausalLM_init, InternLMModel_init in H1, Hn. inv_ok.
  the_models b1 bn.
  refine (causal_ok internlm_arch b1 bn W _ _ "model.embed_tokens.weight" (int c "vocab_size") (fun x => x)
    (fun _ x _ => x) (fun x _ => x) _ _ (fun _ x => x) (fun x => x) _ _
    ltac:(cbn [In architectures]; tauto) ltac:(eassumption) ltac:(eassumption) eq_refl Hfits HW eq_refl eq_refl
    (fun _ _ H => H) (fun _ => eq_refl) (start_id n _) (own_rms bn W _ "model.norm" _ _ eq_refl) (id_norm_ok n _)
    (own_head_linear b1 bn W _ HW _ "lm_head" eq_refl eq_refl)).
Qed.

Lemma InternLM2ForCausalLM_ok : ModelOk internlm2_arch InternLM2ForCausalLM_build.
Proof.
  intros b1 bn W H1 Hn Hfits HW. unfold InternLM2ForCausalLM_build, InternLM2ForCausalLM_init, InternLM2Model_init in H1, Hn. inv_ok.
  the_models b1 bn.
  refine (causal_ok internlm2_arch b1 bn W _ _ "model.tok_embeddings.weight" (int c "vocab_size") (fun x => x)
    (fun _ x _ => x) (fun x _ => x) _ _ (fun _ x => x) (fun x => x) _ _
    ltac:(cbn [In architectures]; tauto) ltac:(eassumption) ltac:(eassumption) eq_refl Hfits HW eq_refl eq_refl
    (fun _ _ H => H) (fun _ => eq_refl) (start_id n _) (own_rms bn W _ "model.norm" _ _ eq_refl) (id_norm_ok n _)
    (own_head_linear b1 bn W _ HW _ "output" eq_refl eq_refl)).
Qed.

Lemma QWenLMHeadModel_ok : ModelOk qwen_arch QWenLMHeadModel_build.
Proof.
  intros b1 bn W H1 Hn Hfits HW. unfold QWenLMHeadModel_build, QWenLMHeadModel_init, QWenModel_init in H1, Hn. inv_ok.
  the_models b1 bn.
  refine (causal_ok qwen_arch b1 bn W _ _ "transformer.wte.weight" (int c "vocab_size") (fun x => x)
    (fun _ x _ => x) (fun x _ => x) _ _ (fun _ x => x) (fun x => x) _ _
    ltac:(cbn [In architectures]; tauto) ltac:(eassumption) ltac:(eassumption) eq_refl Hfits HW eq_refl eq_refl
    (fun _ _ H => H) (fun _ => eq_refl) (start_id n _) (own_rms bn W _ "transformer.ln_f" _ _ eq_refl) (id_norm_ok n _)
    (own_head_linear b1 bn W _ HW _ "lm_head" eq_refl eq_refl)).
Qed.

Lemma QWen2LMHeadModel_ok : ModelOk qwen2_arch QWen2LMHeadModel_build.
Proof.
  intros b1 bn W H1 Hn Hfits HW. unfold QWen2LMHeadModel_build, QWen2LMHeadModel_init, QWen2Model_init in H1, Hn. inv_ok.
  the_models b1 bn.
  refine (causal_ok qwen2_arch b1 bn W _ _ "model.embed_tokens.weight" (int c "vocab_size") (fun x => x)
    (fun _ x _ => x) (fun x _ => x) _ _ (fun _ x => x) (fun x => x) _ _
    ltac:(cbn [In architectures]; tauto) ltac:(eassumption) ltac:(eassumption) eq_refl Hfits HW eq_refl eq_refl
    (fun _ _ H => H) (fun _ => eq_refl) (start_id n _) (own_rms bn W _ "model.norm" _ _ eq_refl) (id_norm_ok n _)
    (own_head_choice b1 bn W _ HW _ "model.embed_tokens.weight" "lm_head" (flag c "tie_word_embeddings") eq_refl eq_refl ltac:(untied) ltac:(untied))).
Qed.

Lemma MiniCPMForCausalLM_ok : ModelOk minicpm_arch MiniCPMForCausalLM_build.
Proof.
  intros b1 bn W H1 Hn Hfits HW. unfold MiniCPMForCausalLM_build, MiniCPMForCausalLM_init, MiniCPMModel_init in H1, Hn. inv_ok.
  the_models b1 bn.
  refine (causal_ok minicpm_arch b1 bn W _ _ "model.embed_tokens.weight" (int c "vocab_size") (fun x => op_scale x (f64_of_Z (Z.of_nat (int c "scale_emb"))))
    (fun _ x _ => x) (fun x _ => x) _ _ (fun _ x => op_div x (MiniCPMForCausalLM_scale_width c)) (fun x => op_div x (MiniCPMForCausalLM_scale_width c)) _ _
    ltac:(cbn [In architectures]; tauto) ltac:(eassumption) ltac:(eassumption) eq_refl Hfits HW eq_refl eq_refl
    (fun xs x H => Rep_scale n _ xs x H) (fun x => scale_shape x _) (start_id n _) (own_rms bn W _ "model.norm" _ _ eq_refl) (norm_div n _ _)
    (own_head_choice b1 bn W _ HW _ "model.embed_tokens.weight" "lm_head" (flag c "tie_word_embeddings") eq_refl eq_refl ltac:(untied) ltac:(untied))).
Qed.

Lemma Phi3ForCausalLM_ok : ModelOk phi3_arch Phi3ForCausalLM_build.
Proof.
  intros b1 bn W H1 Hn Hfits HW. unfold Phi3ForCausalLM_build, Phi3ForCausalLM_init, Phi3Model_init in H1, Hn. inv_ok.
  the_models b1 bn.
  refine (causal_ok phi3_arch b1 bn W _ _ "transformer.embd.weight" (int c "vocab_size") (fun x => x)
    (fun _ x _ => x) (fun x _ => x) _ _ (fun _ x => x) (fun x => x) _ _
    ltac:(cbn [In architectures]; tauto) ltac:(eassumption) ltac:(eassumption) eq_refl Hfits HW eq_refl eq_refl
    (fun _ _ H => H) (fun _ => eq_refl) (start_id n _) (own_rms bn W _ "transformer.norm" _ _ eq_refl) (id_norm_ok n _)
    (own_head_linear b1 bn W _ HW _ "lm_head" eq_refl eq_refl)).
Qed.

Lemma Starcoder2ForCausalLM_ok : ModelOk starcoder2_arch Starcoder2ForCausalLM_build.
Proof.
  intros b1 bn W H1 Hn Hfits HW. unfold Starcoder2ForCausalLM_build, Starcoder2ForCausalLM_init, Starcoder2Model_init in H1, Hn. inv_ok.
  the_models b1 bn.
  refine (causal_ok starcoder2_arch b1 bn W _ _ "model.embed_tokens.weight" (int c "vocab_size") (fun x => x)
    (fun _ x _ => x) (fun x _ => x) _ _ (fun _ x => x) (fun x => x) _ _
    ltac:(cbn [In architectures]; tauto) ltac:(eassumption) ltac:(eassumption) eq_refl Hfits HW eq_refl eq_refl
    (fun _ _ H => H) (fun _ => eq_refl) (start_id n _) (own_layer_norm bn W _ "model.norm" _ _ _ eq_refl eq_refl) (id_norm_ok n _)
    (own_head_linear b1 bn W _ HW _ "lm_head" eq_refl eq_refl)).
Qed.

Lemma GPT2LMHeadModel_ok : ModelOk gpt2_arch GPT2LMHeadModel_build.
Proof.
  intros b1 bn W H1 Hn Hfits HW. unfold GPT2LMHeadModel_build, GPT2LMHeadModel_init, GPT2Model_init in H1, Hn. inv_ok.
  the_models b1 bn.
  refine (causal_ok gpt2_arch b1 bn W _ _ "transformer.wte.weight" (int c "vocab_size") (fun x => x)
    _ _ _ _ (fun _ x => x) (fun x => x) _ _
    ltac:(cbn [In architectures]; tauto) ltac:(eassumption) ltac:(eassumption) eq_refl Hfits HW eq_refl eq_refl
    (fun _ _ H => H) (fun _ => eq_refl) (own_positions b1 bn W _ HW "transformer.wpe.weight" _ eq_refl eq_refl) (own_layer_norm bn W _ "transformer.ln_f" _ _ _ eq_refl eq_refl) (id_norm_ok n _)
    (own_head_linear b1 bn W _ HW _ "lm_head" eq_refl eq_refl)).
Qed.

Lemma GPTNeoXForCausalLM_ok : ModelOk gpt_neox_arch GPTNeoXForCausalLM_build.
Proof.
  intros b1 bn W H1 Hn Hfits HW. unfold GPTNeoXForCausalLM_build, GPTNeoXForCausalLM_init, GPTNeoXModel_init in H1, Hn. inv_ok.
  the_models b1 bn.
  refine (causal_ok gpt_neox_arch b1 bn W _ _ "gpt_neox.embed_in.weight" (int c "vocab_size") (fun x => x)
    (fun _ x _ => x) (fun x _ => x) _ _ (fun _ x => x) (fun x => x) _ _
    ltac:(cbn [In architectures]; tauto) ltac:(eassumption) ltac:(eassumption) eq_refl Hfits HW eq_refl eq_refl
    (fun _ _ H => H) (fun _ => eq_refl) (start_id n _) (own_layer_norm bn W _ "gpt_neox.final_layer_norm" _ _ _ eq_refl eq_refl) (id_norm_ok n _)
    (own_head_linear b1 bn W _ HW _ "embed_out" eq_refl eq_refl)).
Qed.

Lemma PhiForCausalLM_ok : ModelOk phi_arch PhiForCausalLM_build.
Proof.
  intros b1 bn W H1 Hn Hfits HW. unfold PhiForCausalLM_build, PhiForCausalLM_init, PhiModel_init in H1, Hn. inv_ok.
  the_models b1 bn.
  refine (causal_ok phi_arch b1 bn W _ _ "transformer.embd.weight" (int c "vocab_size") (fun x => x)
    (fun _ x _ => x) (fun x _ => x) _ _ (fun _ x => x) (fun x => x) _ _
    ltac:(cbn [In architectures]; tauto) ltac:(eassumption) ltac:(eassumption) eq_refl Hfits HW eq_refl eq_refl
    (fun _ _ H => H) (fun _ => eq_refl) (start_id n _) (id_norm_ok n _) (id_norm_ok n _)
    (head_norm n _ _ _ _ _ _ (own_layer_norm bn W _ "lm_head.ln" (real c "layer_norm_epsilon") _ _ eq_refl eq_refl)
       (own_head_bias b1 bn W _ HW _ "lm_head.linear" eq_refl eq_refl eq_refl))).
Qed.

Lemma Gemma2ForCausalLM_ok : ModelOk gemma2_arch Gemma2ForCausalLM_build.
Proof.
  intros b1 bn W H1 Hn Hfits HW. unfold Gemma2ForCausalLM_build, Gemma2ForCausalLM_init, GemmaForCausalLM_init, Gemma2Model_init, GemmaModel_init in H1, Hn. inv_ok.
  the_models b1 bn.
  refine (causal_ok gemma2_arch b1 bn W _ _ "model.embed_tokens.weight" (int c "vocab_size") (fun x => x)
    (fun _ x _ => op_scale x (sqrt_dim (int c "hidden_size"))) (fun x _ => op_scale x (sqrt_dim (int c "hidden_size"))) _ _ (fun _ x => x) (fun x => x) _ _
    ltac:(cbn [In architectures]; tauto) ltac:(eassumption) ltac:(eassumption) eq_refl Hfits HW eq_refl eq_refl
    (fun _ _ H => H) (fun _ => eq_refl) (start_scale n _ _) (own_rms bn W _ "model.norm" _ _ eq_refl) (id_norm_ok n _)
    (head_map _ _ _ _ _ (fun xs x => softcap_ok (real c "final_logit_softcapping") (is_None c "final_logit_softcapping") xs x)
       (own_head_tied b1 bn W _ HW _ "model.embed_tokens.weight" eq_refl eq_refl))).
Qed.

Lemma LlamaForCausalLM_ok : ModelOk llama_arch LlamaForCausalLM_build.
Proof.
  intros b1 bn W H1 Hn Hfits HW. unfold LlamaForCausalLM_build, LlamaForCausalLM_init, LlamaModel_init in H1, Hn. inv_ok. stages_out.
  the_models b1 bn.
  refine (staged_ok llama_arch b1 bn W _ _ "model.embed_tokens.weight" (int c "vocab_size") _ _ _ _ _
    ltac:(cbn [In architectures]; tauto) ltac:(eassumption) ltac:(eassumption) eq_refl Hfits HW eq_refl eq_refl
    (own_rms bn W _ "model.norm" (real c "rms_norm_eps") _ eq_refl)
    (own_head_choice b1 bn W _ HW _ "model.embed_tokens.weight" "lm_head" (flag c "tie_word_embeddings") eq_refl eq_refl
       ltac:(untied) ltac:(untied))).
Qed.

Lemma OLMoForCausalLM_ok : ModelOk olmo_arch OLMoForCausalLM_build.
Proof.
  intros b1 bn W H1 Hn Hfits HW. unfold OLMoForCausalLM_build, OLMoForCausalLM_init, OLMoModel_init in H1, Hn. inv_ok. stages_out.
  the_models b1 bn.
  refine (staged_ok olmo_arch b1 bn W _ _ "model.embed_tokens.weight" (int c "vocab_size") _ _ _ _ _
    ltac:(cbn [In architectures]; tauto) ltac:(eassumption) ltac:(eassumption) eq_refl Hfits HW eq_refl eq_refl
    (layer_norm_plain_ok n _ eps_1e_5)
    (own_head_choice b1 bn W _ HW _ "model.embed_tokens.weight" "lm_head" (flag c "tie_word_embeddings") eq_refl eq_refl
       ltac:(untied) ltac:(untied))).
Qed.

(** ** All models *)

Lemma language_models_ok : Forall (fun M => ModelOk (lang_arch M) (lang_build M)) language_models.
Proof.
  apply List.Forall_cons; [exact LlamaForCausalLM_ok|].
  apply List.Forall_cons; [exact MistralForCasualLM_ok|].
  apply List.Forall_cons; [exact GemmaForCausalLM_ok|].
  apply List.Forall_cons; [exact BaichuanForCausalLM_ok|].
  apply List.Forall_cons; [exact OrionForCasualLM_ok|].
  apply List.Forall_cons; [exact StableLmForCausalLM_ok|].
  apply List.Forall_cons; [exact InternLMForCausalLM_ok|].
  apply List.Forall_cons; [exact InternLM2ForCausalLM_ok|].
  apply List.Forall_cons; [exact QWenLMHeadModel_ok|].
  apply List.Forall_cons; [exact QWen2LMHeadModel_ok|].
  apply List.Forall_cons; [exact MiniCPMForCausalLM_ok|].
  apply List.Forall_cons; [exact Phi3ForCausalLM_ok|].
  apply List.Forall_cons; [exact Starcoder2ForCausalLM_ok|].
  apply List.Forall_cons; [exact GPT2LMHeadModel_ok|].
  apply List.Forall_cons; [exact GPTNeoXForCausalLM_ok|].
  apply List.Forall_cons; [exact PhiForCausalLM_ok|].
  apply List.Forall_cons; [exact Gemma2ForCausalLM_ok|].
  apply List.Forall_cons; [exact OLMoForCausalLM_ok|].
  apply List.Forall_nil.
Qed.

(** C1: a language model on [n] workers, each with its shards of the weights: in
    every function that the engine calls all workers meet at the same
    collectives and finish, every worker returns what one worker with the
    whole weights returns, and the KV caches of the workers stay parts of the
    whole cache.  The token ids and the positions of the logits are those of
    worker 0, what the others are given does not matter.  This holds for the
    configurations that both numbers of workers accept and that fit ([fits]):
    [n] divides the heads and the key and value heads, and the key and value
    heads divide the heads; and, by architecture ([arch_needs]), no parallel
    residual in GPT-NeoX, no bias in the output projections of Gemma, Gemma 2,
    InternLM, InternLM2 and StarCoder2, no experts in MiniCPM, and in Qwen an
    intermediate size that [2 * n] divides.  Outside of these conditions the
    programs add a bias or a residual once per worker, so the claim fails (see
    the findings of the manifest). *)
Theorem language_models_parallel M b1 bn W : In M language_models ->
  lang_build M (on_workers 1 c) = Ok b1 -> lang_build M (on_workers n c) = Ok bn ->
  fits n c (lang_arch M) -> WeightsShaped b1 W ->
  Correct n (int c (arch_hidden (lang_arch M))) (int c "vocab_size")
    (fun k => b_functions bn (worker_weights bn n k W)) (b_functions b1 W).
Proof.
  intros HM. pose proof language_models_ok as H. rewrite List.Forall_forall in H. apply (H M HM).
Qed.

(** ** The KV caches *)

Create HintDb layer_inits.
Create HintDb model_inits.
#[local] Hint Unfold llama_arch mistral_arch gemma_arch baichuan_arch orion_arch stablelm_arch internlm_arch internlm2_arch
  qwen_arch qwen2_arch olmo_arch minicpm_arch phi3_arch starcoder2_arch gpt2_arch gpt_neox_arch phi_arch
  gemma2_arch eagle_0_arch eagle_1_arch LlamaDecoderLayer_init LlamaAttention_init LlamaFFN_init
  MistralDecoderLayer_init MistralAttention_init MistralMLP_init GemmaDecoderLayer_init GemmaAttention_init
  GemmaMLP_init BaichuanDecoderLayer_init BaichuanAttention_init BaichuanMLP_init OrionDecoderLayer_init
  OrionAttention_init OrionFFN_init StableLmDecoderLayer_init StableLmAttention_init StableLmMLP_init
  InternLMDecoderLayer_init InternLMAttention_init InternLMMLP_init InternLM2DecoderLayer_init
  InternLM2Attention_init InternLM2MLP_init QWenBlock_init QWenAttention_init QWenMLP_init
  QWen2DecoderLayer_init QWen2Attention_init QWen2MLP_init OLMoDecoderLayer_init OLMoAttention_init
  OLMoFFN_init MiniCPMDecoderLayer_init MiniCPMAttention_init MiniCPMMLP_init Phi3ParallelBlock_init
  Phi3MHA_init Phi3MLP_init PhiMHA_init Starcoder2DecoderLayer_init Starcoder2Attention_init
  Starcoder2MLP_init GPT2Block_init GPT2Attention_init GPT2MLP_init GPTNeoXLayer_init GPTNeoXAttention_init
  GPTNeoXMLP_init PhiParallelBlock_init PhiMLP_init Gemma2DecoderLayer_init Gemma2Attention_init
  EagleDecoderLayer_init : layer_inits.

(** The heads of the attention of a layer. *)
Lemma architecture_heads m : Forall (fun A => forall l, arch_init A m = Ok l ->
  per_shard m (arch_heads A) = Ok (num_q_heads (self_attn l)) /\
  per_shard m (arch_kv_heads A) = Ok (num_kv_heads (self_attn l)) /\
  at_head_dim (self_attn l) = int m "head_dim") architectures.
Proof.
  repeat apply List.Forall_cons; [..|apply List.Forall_nil]; intros l H; autounfold with layer_inits in *;
  cbn [arch_init arch_heads arch_kv_heads] in *; autounfold with layer_inits in H; inv_ok;
  cbn [self_attn num_q_heads num_kv_heads at_head_dim]; by repeat split.
Qed.

#[local] Hint Unfold LlamaForCausalLM_build LlamaForCausalLM_init LlamaModel_init LlamaForCausalLM_create_paged_kv_cache
  MistralForCasualLM_build MistralForCasualLM_init MistralModel_init MistralForCasualLM_create_paged_kv_cache
  GemmaForCausalLM_build GemmaForCausalLM_init GemmaModel_init GemmaForCausalLM_create_paged_kv_cache
  BaichuanForCausalLM_build BaichuanForCausalLM_init BaichuanModel_init
  BaichuanForCausalLM_create_paged_kv_cache OrionForCasualLM_build OrionForCasualLM_init OrionModel_init
  OrionForCasualLM_create_paged_kv_cache StableLmForCausalLM_build StableLmForCausalLM_init StableLmModel_init
  StableLmForCausalLM_create_paged_kv_cache InternLMForCausalLM_build InternLMForCausalLM_init
  InternLMModel_init InternLMForCausalLM_create_paged_kv_cache InternLM2ForCausalLM_build
  InternLM2ForCausalLM_init InternLM2Model_init InternLM2ForCausalLM_create_paged_kv_cache
  QWenLMHeadModel_build QWenLMHeadModel_init QWenModel_init QWenLMHeadModel_create_paged_kv_cache
  QWen2LMHeadModel_build QWen2LMHeadModel_init QWen2Model_init QWen2LMHeadModel_create_paged_kv_cache
  MiniCPMForCausalLM_build MiniCPMForCausalLM_init MiniCPMModel_init MiniCPMForCausalLM_create_paged_kv_cache
  Phi3ForCausalLM_build Phi3ForCausalLM_init Phi3Model_init Phi3ForCausalLM_create_paged_kv_cache
  Starcoder2ForCausalLM_build Starcoder2ForCausalLM_init Starcoder2Model_init
  Starcoder2ForCausalLM_create_paged_kv_cache GPT2LMHeadModel_build GPT2LMHeadModel_init GPT2Model_init
  GPT2LMHeadModel_create_paged_kv_cache GPTNeoXForCausalLM_build GPTNeoXForCausalLM_init GPTNeoXModel_init
  GPTNeoXForCausalLM_create_paged_kv_cache PhiForCausalLM_build PhiForCausalLM_init PhiModel_init
  PhiForCausalLM_create_paged_kv_cache Gemma2ForCausalLM_build Gemma2ForCausalLM_init Gemma2Model_init
  OLMoForCausalLM_build OLMoForCausalLM_init OLMoModel_init OLMoForCausalLM_create_paged_kv_cache : model_inits.

(** The cache of a model has the layers, the heads and the head dimensions of
    its attention modules. *)
Definition CacheOk (M : LanguageModel E) : Prop := forall m b partition args,
  lang_build M m = Ok b -> lang_cache M m partition = Ok args ->
  (arch_name (lang_arch M) = "minicpm"%string ->
     int m "hidden_size" / int m "num_attention_heads" = int m "head_dim") ->
  dict_get args "num_hidden_layers" = Some (KNat (length (b_layers b))) /\
  Forall (fun l =>
    dict_get args "num_attention_heads" = Some (KNat (num_q_heads (self_attn l))) /\
    dict_get args "num_key_value_heads" = Some (KNat (num_kv_heads (self_attn l))) /\
    dict_get args "qk_head_dim" = Some (KNat (at_head_dim (self_attn l))) /\
    dict_get args "v_head_dim" = Some (KNat (at_head_dim (self_attn l)))) (b_layers b).

Lemma cache_args_ok A m count (layers : list LayerModule) args q kv d : In A architectures ->
  dict_get args "num_hidden_layers" = Some (KNat count) -> dict_get args "num_attention_heads" = Some (KNat q) ->
  dict_get args "num_key_value_heads" = Some (KNat kv) -> dict_get args "qk_head_dim" = Some (KNat d) ->
  dict_get args "v_head_dim" = Some (KNat d) ->
  rmap (fun _ => arch_init A m) (seq 0 count) = Ok layers ->
  per_shard m (arch_heads A) = Ok q -> per_shard m (arch_kv_heads A) = Ok kv -> d = int m "head_dim" ->
  dict_get args "num_hidden_layers" = Some (KNat (length layers)) /\
  Forall (fun l =>
    dict_get args "num_attention_heads" = Some (KNat (num_q_heads (self_attn l))) /\
    dict_get args "num_key_value_heads" = Some (KNat (num_kv_heads (self_attn l))) /\
    dict_get args "qk_head_dim" = Some (KNat (at_head_dim (self_attn l))) /\
    dict_get args "v_head_dim" = Some (KNat (at_head_dim (self_attn l)))) layers.
Proof.
  intros HA H1 H2 H3 H4 H5 [Hl Hi]%rmap_same Hq Hkv ->. rewrite length_seq in Hl. split; [by rewrite Hl|].
  apply Forall_lookup. intros i l Hil. specialize (Hi _ _ Hil).
  pose proof (architecture_heads m) as Hh. rewrite List.Forall_forall in Hh.
  destruct (Hh A HA l Hi) as (Hq' & Hkv' & Hd). rewrite Hd.
  assert (q = num_q_heads (self_attn l)) as <- by congruence.
  by assert (kv = num_kv_heads (self_attn l)) as <- by congruence.
Qed.

Lemma nat_div_inv a b d : nat_div a b = Ok d -> d = a / b.
Proof. unfold nat_div. destruct b; [done|]. by intros [= <-]. Qed.

(** One model: its layers and the arguments of its cache. *)
Ltac cache_case A :=
  intros m b partition args Hb Ha Hmini; cbn [lang_build lang_cache lang_arch arch_name] in *;
  autounfold with model_inits in Hb, Ha; inv_ok; cbn [b_layers cm_layers];
  repeat match goal with
  | H : (let '(_, _) := ?a in _) = Ok _ |- _ => first [destruct a as [[? ?] ?]|destruct a as [? ?]]; inv_ok
  end; cbn [b_layers cm_layers lm_model md_layers];
  repeat match goal with H : nat_div _ (int m "num_attention_heads") = Ok _ |- _ =>
    apply nat_div_inv in H; rewrite (Hmini eq_refl) in H; subst end;
  eapply (cache_args_ok A);
    [cbn [In architectures]; tauto|reflexivity..|eassumption|eassumption|eassumption|reflexivity].

Lemma language_models_caches : Forall CacheOk language_models.
Proof.
  apply List.Forall_cons; [cache_case llama_arch|].
  apply List.Forall_cons; [cache_case mistral_arch|].
  apply List.Forall_cons; [cache_case gemma_arch|].
  apply List.Forall_cons; [cache_case baichuan_arch|].
  apply List.Forall_cons; [cache_case orion_arch|].
  apply List.Forall_cons; [cache_case stablelm_arch|].
  apply List.Forall_cons; [cache_case internlm_arch|].
  apply List.Forall_cons; [cache_case internlm2_arch|].
  apply List.Forall_cons; [cache_case qwen_arch|].
  apply List.Forall_cons; [cache_case qwen2_arch|].
  apply List.Forall_cons; [cache_case minicpm_arch|].
  apply List.Forall_cons; [cache_case phi3_arch|].
  apply List.Forall_cons; [cache_case starcoder2_arch|].
  apply List.Forall_cons; [cache_case gpt2_arch|].
  apply List.Forall_cons; [cache_case gpt_neox_arch|].
  apply List.Forall_cons; [cache_case phi_arch|].
  apply List.Forall_cons; [cache_case gemma2_arch|].
  apply List.Forall_cons; [cache_case olmo_arch|].
  apply List.Forall_nil.
Qed.

(** C2: The KV cache that a model creates fits its layers: as many layers, and
    the numbers of heads and the head dimensions with which every attention
    module of the worker uses the cache.  [MiniCPMForCausalLM] computes the
    head dimension of the cache from the width, its layers take the one of the
    configuration. *)
Theorem model_cache_matches M m b partition args : In M language_models ->
  lang_build M m = Ok b -> lang_cache M m partition = Ok args ->
  (arch_name (lang_arch M) = "minicpm"%string ->
     int m "hidden_size" / int m "num_attention_heads" = int m "head_dim") ->
  dict_get args "num_hidden_layers" = Some (KNat (length (b_layers b))) /\
  Forall (fun l =>
    dict_get args "num_attention_heads" = Some (KNat (num_q_heads (self_attn l))) /\
    dict_get args "num_key_value_heads" = Some (KNat (num_kv_heads (self_attn l))) /\
    dict_get args "qk_head_dim" = Some (KNat (at_head_dim (self_attn l))) /\
    dict_get args "v_head_dim" = Some (KNat (at_head_dim (self_attn l)))) (b_layers b).
Proof.
  intros HM. pose proof language_models_caches as H. rewrite List.Forall_forall in H. exact (H M HM m b partition args).
Qed.
End Models.
