(* ===== verification/PipelineStages.v ===== *)
(** * Pipeline stages

    [LlamaModel] and [OLMoModel] pass a stage boundary before the first layer of
    every stage, [_set_pp] of the models attaches to the parameters of a layer
    the stage that needs them.  The two agree when the number of stages divides
    the number of layers. *)

From stdpp Require Import base list strings.
From S2P Require Import Prelude PyNum Spmd TensorOps TensorParallel KvCache Network LlamaModel CausalModel Decoders CausalModels.
Local Open Scope nat_scope.

(** The stage that runs layer [i]: the number of boundaries that the loop of
    [LlamaModel_forward] ([stage_boundary]) passes up to it. *)
Definition stage_of (partition : list nat) (i : nat) : nat :=
  length (List.filter (is_boundary partition) (seq 0 (S i))).

Lemma div_succ a p : 0 < p -> S a / p = a / p + (if S a mod p =? 0 then 1 else 0).
Proof.
  intros Hp. pose proof (Nat.div_mod_eq (S a) p) as H. pose proof (Nat.div_mod_eq a p) as H'.
  pose proof (Nat.mod_upper_bound (S a) p ltac:(lia)) as Hb. pose proof (Nat.mod_upper_bound a p ltac:(lia)) as Hb'.
  destruct (Nat.eqb_spec (S a mod p) 0) as [E|E]; nia.
Qed.

Section Stages.
Variables (stages per : nat).
Hypothesis per_pos : 0 < per.
Let partition : list nat := map (fun i => i * per) (seq 0 stages) ++ [stages * per].

Lemma boundary_iff i : i < stages * per -> is_boundary partition i = negb (i =? 0) && (i mod per =? 0).
Proof.
  intros Hi. unfold is_boundary. f_equal. apply Bool.eq_iff_eq_true. rewrite existsb_exists, Nat.eqb_eq. split.
  - intros (j & Hj & ->%Nat.eqb_eq). apply in_app_iff in Hj as [(k & <- & _)%in_map_iff|[<-|[]]]; [|lia].
    apply Nat.Div0.mod_mul.
  - intros (k & ->)%Nat.Div0.mod_divides. exists (per * k). split; [|apply Nat.eqb_refl]. apply in_app_iff. left.
    apply in_map_iff. exists k. split; [lia|]. apply in_seq. nia.
Qed.

Lemma stage_of_div i : i < stages * per -> stage_of partition i = i / per.
Proof.
  unfold stage_of. induction i as [|i IH]; intros Hi.
  - cbn. rewrite Nat.Div0.div_0_l. done.
  - rewrite (seq_S (S i)), List.filter_app, length_app, IH by lia. cbn [Nat.add List.filter].
    rewrite boundary_iff by done. cbn [Nat.eqb negb andb]. rewrite div_succ by done.
    by destruct (S i mod per =? 0).
Qed.
End Stages.

(** The stages of [_set_pp] for [L] layers in [s] stages, and the partition. *)
Lemma set_pp_stages L s per ls i :
  nat_div (L + s - 1) s = Ok per ->
  rmap (fun layer_id => let? per_stage := nat_div L s in let? stage := nat_div layer_id per_stage in Ok [stage])
    (seq 0 L) = Ok ls ->
  L mod s = 0 -> i < L ->
  let partition := map (fun i => i * per) (seq 0 s) ++ [L] in
  ls !! i = Some [stage_of partition i] /\ stage_of partition i < s.
Proof.
  intros Hper Hpp%rmap_Ok Hdiv Hi. cbv zeta. unfold nat_div in Hper.
  destruct (Nat.eq_dec s 0) as [Hs0|Hs0]; [by rewrite Hs0 in Hper|].
  apply Nat.Div0.mod_divides in Hdiv as [q Hq].
  assert (Hqs : q = per).
  { destruct s as [|s']; [done|]. assert (per = (L + S s' - 1) / S s') as -> by congruence. rewrite Hq.
    replace (S s' * q + S s' - 1) with (s' + q * S s') by lia. rewrite Nat.div_add by lia.
    by rewrite Nat.div_small by lia. }
  subst q. rewrite Hq in *. assert (Hpos : 0 < per) by nia. rewrite stage_of_div by done.
  assert (Hlt : i / per < s) by (apply Nat.Div0.div_lt_upper_bound; lia). split; [|done].
  destruct (Forall2_lookup_l _ _ _ i i Hpp) as (st & -> & Hst); [by apply lookup_seq_lt|].
  unfold nat_div in Hst. destruct s as [|s']; [done|]. cbn [rbind] in Hst.
  rewrite (Nat.mul_comm (S s')), Nat.div_mul in Hst by lia. destruct per as [|per']; [lia|]. cbn [rbind] in Hst.
  congruence.
Qed.

(** C4: When the number of stages divides the number of layers, the stage that
    [_set_pp] of Llama and of OLMo gives to the parameters of a layer is the
    stage that runs the layer, and it is one of the stages. *)
Theorem stages_agree c m i : LlamaForCausalLM_init c = Ok m \/ OLMoForCausalLM_init c = Ok m ->
  int c "num_hidden_layers" mod int c "pipeline_parallel_stages" = 0 -> i < int c "num_hidden_layers" ->
  layer_stages m !! i = Some [stage_of (layer_partition (lm_model m)) i] /\
  stage_of (layer_partition (lm_model m)) i < int c "pipeline_parallel_stages".
Proof.
  intros [H|H] Hdiv Hi;
    [unfold LlamaForCausalLM_init, LlamaModel_init, _set_pp in H
    |unfold OLMoForCausalLM_init, OLMoModel_init, OLMoForCausalLM_set_pp in H];
    inv_ok; cbn [layer_stages lm_model layer_partition]; by apply set_pp_stages.
Qed.
