(* ===== verification/ParallelExample.v ===== *)
(** * The parallel networks on examples

    A small Llama with two layers, on one worker and on two, over the rational
    numbers: the theorems on parallel networks apply to it.  And a
    configuration whose layers the stages do not divide. *)

From Stdlib Require Import SpecFloat QArith Qcanon.
From stdpp Require Import base list strings.
From S2P Require Import Prelude PyNum ModelConfig Spmd TensorOps TensorParallel KvCache TensorModel Network ModelSpecs LlamaModel CausalModel Decoders ParallelDecoders CausalModels ParallelModels PipelineStages.
Local Close Scope Q_scope.
Local Close Scope Qc_scope.
Local Open Scope nat_scope.

(** [layers] layers in [stages] stages, two heads of two dimensions. *)
Definition ex_config (layers stages : nat) : Config := {|
  int f := match f with
           | "hidden_size" | "intermediate_size" => 4
           | "num_attention_heads" | "num_key_value_heads" | "head_dim" => 2
           | "num_hidden_layers" => layers
           | "vocab_size" => 7
           | "pipeline_parallel_stages" => stages
           | _ => 1
           end%string;
  flag _ := false; real _ := eps_1e_5; text _ := ""%string; is_None _ := false |}.

(** A tensor whose elements are their positions. *)
Definition ex_tensor (s : list nat) : Tensor (E := QcElem) :=
  mkTensor s (fun q => Q2Qc (inject_Z (Z.of_nat (ravel s q)))).

(** Weights of the shapes of the parameters. *)
Definition ex_params (m : dict NnParam) : Params QcElem := fun name =>
  ex_tensor (match dict_get m name with Some p => np_shape p | None => [] end).

Lemma ex_params_shaped m : Shaped m (ex_params m).
Proof. intros name p H. unfold ex_params. by rewrite H. Qed.

Definition ex_weights (b : Built QcElem) : ModelWeights QcElem :=
  mkModelWeights (fun i => match b_layers b !! i with Some l => ex_params (ly_params l) | None => ex_params [] end)
    (ex_params (b_own b)).

Lemma ex_weights_shaped b : WeightsShaped b (ex_weights b).
Proof. split; [|apply ex_params_shaped]. intros i l H. unfold ex_weights. cbn [w_layers]. rewrite H. apply ex_params_shaped. Qed.

(** The hidden states of three positions and an empty cache on every worker. *)
Definition ex_state : Tensor (E := QcElem) * Cache (KVCache := QcKVCache) := (ex_tensor [1; 3; 4], 0).

Lemma ex_hidden : Hidden 2 1 3 4 (fun _ => ex_state) ex_state.
Proof. split; [done|]. split; [intros k _; reflexivity|]. intros k _. reflexivity. Qed.

Lemma gen_tir_partitions_witness :
  exists f, gen_tir (E := QcElem) (mkShardSingleDim "_shard_qkv" 0 (Some [1; 3])) 2 (mkWeightSpec [4; 5] "float16") =
      Ok ([8; 5], f) /\
    exists place : nat -> nat -> nat,
      (forall x, x < 8 -> exists k i, k < 2 /\ i < 4 /\ place k i = x) /\
      forall k i j, k < 2 -> i < 4 -> j < 5 ->
        elem (worker_shard k (f (ex_tensor [8; 5]))) [i; j] = elem (ex_tensor [8; 5]) [place k i; j].
Proof.
  destruct (gen_tir_partitions (E := QcElem) 2 [] [5] (mkShardSingleDim "_shard_qkv" 0 (Some [1; 3])) "float16" 4 [1; 3]
    eq_refl eq_refl eq_refl) as (f & Hf & _ & H).
  exists f. split; [exact Hf|]. destruct (H (ex_tensor [8; 5]) eq_refl) as (_ & place & Honto & _ & He).
  exists place. split; [exact Honto|]. intros k i j Hk Hi Hj.
  exact (proj2 (He k [] i [j] Hk ltac:(constructor) Hi (inside_one j 5 Hj))).
Defined.

Lemma decoder_stack_example :
  exists l1 ln, LlamaDecoderLayer_init (on_workers 1 (ex_config 2 1)) = Ok l1 /\
    LlamaDecoderLayer_init (on_workers 2 (ex_config 2 1)) = Ok ln /\
    let W := ex_params (ly_params l1) in
    exists y,
      run_layers (fun _ x => x) [LlamaDecoderLayer_forward l1 W; LlamaDecoderLayer_forward l1 W] 0
        (fst ex_state) (snd ex_state) = Ret y /\
      Spmd ccl_sum 2 (fun k => run_layers (fun _ x => x)
          [LlamaDecoderLayer_forward ln (worker_params (ly_params ln) 2 k W);
           LlamaDecoderLayer_forward ln (worker_params (ly_params ln) 2 k W)] 0 (fst ex_state) (snd ex_state))
        (fun st' => Hidden 2 1 3 4 st' y).
Proof.
  do 2 eexists. split; [reflexivity|]. split; [reflexivity|]. cbv zeta.
  match goal with |- context [ex_params ?m] => set (W := ex_params m) end.
  refine (decoder_stack 2 (ex_config 2 1) ltac:(lia) llama_arch _ _ [W; W] 0 1 3 (fun _ => ex_state) ex_state
    _ eq_refl eq_refl _ _ ex_hidden).
  - left. reflexivity.
  - repeat split. apply Nat.lt_0_succ.
  - repeat constructor; apply ex_params_shaped.
Defined.

(** Llama. *)
Definition ex_model : LanguageModel QcElem :=
  mkLanguageModel llama_arch LlamaForCausalLM_build LlamaForCausalLM_create_paged_kv_cache.

Lemma ex_model_listed : In ex_model language_models.
Proof. left. reflexivity. Qed.

Lemma ex_model_builds n : n = 1 \/ n = 2 -> exists b, lang_build ex_model (on_workers n (ex_config 2 2)) = Ok b.
Proof.
  intros Hn. assert (H : match lang_build ex_model (on_workers n (ex_config 2 2)) with Ok _ => true | _ => false end = true)
    by (by destruct Hn as [->| ->]; vm_compute).
  destruct (lang_build _ _) as [b|]; [by exists b|done].
Qed.

Lemma language_models_parallel_witness :
  exists b1 bn, lang_build ex_model (on_workers 1 (ex_config 2 2)) = Ok b1 /\
    lang_build ex_model (on_workers 2 (ex_config 2 2)) = Ok bn /\
    let W := ex_weights b1 in
    Correct 2 4 7 (fun k => b_functions bn (worker_weights bn 2 k W)) (b_functions b1 W).
Proof.
  destruct (ex_model_builds 1 (or_introl eq_refl)) as [b1 H1].
  destruct (ex_model_builds 2 (or_intror eq_refl)) as [bn Hn].
  exists b1, bn. split; [exact H1|]. split; [exact Hn|].
  refine (language_models_parallel 2 (ex_config 2 2) ltac:(lia) ex_model b1 bn (ex_weights b1) ex_model_listed H1 Hn _
    (ex_weights_shaped b1)).
  repeat split. apply Nat.lt_0_succ.
Defined.

Lemma model_cache_matches_witness :
  exists b args, lang_build ex_model (on_workers 2 (ex_config 2 2)) = Ok b /\
    lang_cache ex_model (on_workers 2 (ex_config 2 2)) [0; 1; 2] = Ok args /\
    dict_get args "num_hidden_layers" = Some (KNat (length (b_layers b))).
Proof.
  destruct (ex_model_builds 2 (or_intror eq_refl)) as [b Hb]. exists b. eexists. split; [exact Hb|]. split; [reflexivity|].
  refine (proj1 (model_cache_matches ex_model (on_workers 2 (ex_config 2 2)) b [0; 1; 2] _ ex_model_listed Hb eq_refl _)).
  intros H. discriminate H.
Defined.

Lemma stages_agree_witness :
  exists m, LlamaForCausalLM_init (ex_config 4 2) = Ok m /\
    layer_stages m !! 2 = Some [stage_of (layer_partition (lm_model m)) 2] /\
    stage_of (layer_partition (lm_model m)) 2 < 2.
Proof.
  eexists. split; [reflexivity|].
  exact (stages_agree (ex_config 4 2) _ 2 (or_introl eq_refl) eq_refl ltac:(cbn; lia)).
Defined.

(** Five layers in two stages: [LlamaModel] runs layer 2 on stage 0 and layer 4
    on stage 1, [_set_pp] puts their weights on stage 1 and on stage 2. *)
Example llama_stages_differ :
  exists m, LlamaForCausalLM_init (ex_config 5 2) = Ok m /\
    layer_stages m = [[0]; [0]; [1]; [1]; [2]] /\ layer_partition (lm_model m) = [0; 3; 5] /\
    map (stage_of (layer_partition (lm_model m))) [0; 1; 2; 3; 4] = [0; 0; 0; 1; 1].
Proof. eexists. split; [reflexivity|]. vm_compute. by repeat split. Qed.

