(* ===== verification/TirBuffer.v ===== *)
(** * Buffers and thread grids of TIR kernels

    The operators of [op/] are kernels in TVM's TensorIR: loops that load from
    and store to buffers, some of them bound to GPU blocks and threads.  A
    buffer is the list of its elements (a two-dimensional one the list of its
    rows).  A load or a store outside a buffer is [None]: a kernel that
    returns [Some] made no such access.  The threads of a grid run in an
    arbitrary order, which is an argument. *)

From stdpp Require Import base list sets.
From S2P Require Import Prelude.
Local Open Scope Z_scope.

(** ** int32 and int64 *)

Definition i32 (z : Z) : Z := (z + 2 ^ 31) mod 2 ^ 32 - 2 ^ 31.

Definition i64 (z : Z) : Z := (z + 2 ^ 63) mod 2 ^ 64 - 2 ^ 63.

Lemma i64_small z : - 2 ^ 63 <= z < 2 ^ 63 -> i64 z = z.
Proof. intros H. unfold i64. rewrite Z.mod_small; lia. Qed.

Lemma i32_small z : - 2 ^ 31 <= z < 2 ^ 31 -> i32 z = z.
Proof. intros H. unfold i32. rewrite Z.mod_small; lia. Qed.

(** ** Loads and stores *)

Definition load1 {A} (b : list A) (i : Z) : option A :=
  if 0 <=? i then b !! Z.to_nat i else None.

Definition store {A} (b : list A) (i : Z) (v : A) : option (list A) :=
  if (0 <=? i) && (i <? Z.of_nat (length b)) then Some (<[Z.to_nat i := v]> b) else None.

Definition load2 {A} (b : list (list A)) (i j : Z) : option A :=
  r ← load1 b i; load1 r j.

Definition store2 {A} (b : list (list A)) (i j : Z) (v : A) : option (list (list A)) :=
  r ← load1 b i; r' ← store r j v; store b i r'.

(** A store that nothing checks: outside the buffer it leaves it as it is. *)
Definition stray_store {A} (b : list A) (i : Z) (v : A) : list A :=
  default b (store b i v).

(** ** Loops *)

Fixpoint ofold {X S : Type} (f : X -> S -> option S) (l : list X) (s : S) : option S :=
  match l with
  | [] => Some s
  | x :: l => s' ← f x s; ofold f l s'
  end.

(** [te.compute((n, m), f)]; also the buffer that a spatial block fills. *)
Definition te_compute2 {A} (n m : nat) (f : nat -> nat -> option A) : option (list (list A)) :=
  mapM (fun i => mapM (f i) (seq 0 m)) (seq 0 n).

(** The threads of [blocks] blocks of [TX] threads. *)
Definition grid (blocks TX : nat) : list (nat * nat) :=
  flat_map (fun bo => map (pair bo) (seq 0 TX)) (seq 0 blocks).

Definition nat_ceildiv (a b : nat) : nat := ((a + b - 1) / b)%nat.

(** ** Lemmas *)

Lemma load_lookup {A} (b : list A) (i : nat) : load1 b (Z.of_nat i) = b !! i.
Proof. unfold load1. rewrite (proj2 (Z.leb_le _ _)) by lia. by rewrite Nat2Z.id. Qed.

Lemma load_Some {A} (b : list A) i v : load1 b i = Some v <-> 0 <= i /\ b !! Z.to_nat i = Some v.
Proof. unfold load1. destruct (Z.leb_spec 0 i); naive_solver lia. Qed.

Lemma store_lt {A} (b : list A) (i : nat) v : (i < length b)%nat ->
  store b (Z.of_nat i) v = Some (<[i := v]> b).
Proof.
  intros H. unfold store. rewrite (proj2 (Z.leb_le _ _)), (proj2 (Z.ltb_lt _ _)) by lia.
  simpl. by rewrite Nat2Z.id.
Qed.

Lemma store_range {A} (b : list A) i v : 0 <= i < Z.of_nat (length b) ->
  store b i v = Some (<[Z.to_nat i := v]> b).
Proof. intros H. rewrite <- (Z2Nat.id i) at 1 by lia. apply store_lt. lia. Qed.

Lemma store_length {A} (b : list A) i v b' : store b i v = Some b' -> length b' = length b.
Proof. unfold store. destruct (_ && _); [|done]. intros [= <-]. apply length_insert. Qed.

Lemma load2_lookup {A} (b : list (list A)) (i j : nat) r : b !! i = Some r ->
  load2 b (Z.of_nat i) (Z.of_nat j) = r !! j.
Proof. intros H. unfold load2. rewrite load_lookup, H. apply load_lookup. Qed.

Lemma store2_lt {A} (b : list (list A)) (i j : nat) r v : b !! i = Some r -> (j < length r)%nat ->
  store2 b (Z.of_nat i) (Z.of_nat j) v = Some (<[i := <[j := v]> r]> b).
Proof.
  intros H Hj. unfold store2. rewrite load_lookup, H. cbn. rewrite store_lt by done. cbn.
  apply store_lt. by eapply lookup_lt_Some.
Qed.

Lemma ofold_app {X S} (f : X -> S -> option S) l l' s :
  ofold f (l ++ l') s = (s' ← ofold f l s; ofold f l' s').
Proof. revert s. induction l as [|x l IH]; intros s; cbn; [done|]. destruct (f x s); cbn; auto. Qed.

Lemma ofold_ext {X S} (f g : X -> S -> option S) l s :
  (forall x s, In x l -> f x s = g x s) -> ofold f l s = ofold g l s.
Proof.
  revert s. induction l as [|x l IH]; intros s H; cbn; [done|].
  rewrite H by (by left). destruct (g x s); cbn; [|done]. apply IH. intros; apply H; by right.
Qed.

(** A total loop is a fold. *)
Lemma ofold_total {X S} (f : X -> S -> option S) (g : S -> X -> S) (I : S -> Prop) l s :
  I s -> (forall x s, In x l -> I s -> f x s = Some (g s x) /\ I (g s x)) ->
  ofold f l s = Some (fold_left g l s) /\ I (fold_left g l s).
Proof.
  revert s. induction l as [|x l IH]; intros s Hs H; cbn; [done|].
  destruct (H x s) as [-> Hx]; [by left|done|]. cbn. apply IH; [done|]. intros; apply H; [by right|done].
Qed.

(** Iterations that do nothing can be left out. *)
Lemma ofold_filter {X S} (f : X -> S -> option S) (p : X -> bool) l s :
  (forall x s, In x l -> p x = false -> f x s = Some s) ->
  ofold f l s = ofold f (List.filter p l) s.
Proof.
  revert s. induction l as [|x l IH]; intros s H; cbn; [done|].
  assert (IH' : forall s, ofold f l s = ofold f (List.filter p l) s)
    by (intros s'; apply IH; intros; apply H; [by right|done]).
  destruct (p x) eqn:E; cbn; [destruct (f x s); cbn; auto|].
  rewrite (H x s) by (done || by left). apply IH'.
Qed.

Lemma ofold_map {X Y S} (f : X -> S -> option S) (g : Y -> X) l s :
  ofold f (map g l) s = ofold (fun y => f (g y)) l s.
Proof. revert s. induction l as [|y l IH]; intros s; cbn; [done|]. destruct (f (g y) s); cbn; auto. Qed.

(** Two loops over separate states run side by side. *)
Lemma ofold_pair {X S T} (f : X -> S -> option S) (g : X -> T -> option T) l s t :
  ofold (fun x st => s' ← f x st.1; t' ← g x st.2; Some (s', t')) l (s, t) =
  (s' ← ofold f l s; t' ← ofold g l t; Some (s', t')).
Proof.
  revert s t. induction l as [|x l IH]; intros s t; cbn; [done|].
  destruct (f x s) as [s1|]; cbn; [|done]. destruct (g x t) as [t1|]; cbn; [apply IH|].
  by destruct (ofold f l s1).
Qed.

(** *** A grid of threads that each write one cell

    The stores are a list of positions and values; when the positions are
    distinct and inside the buffer every cell holds what its thread wrote,
    whatever the order. *)

Definition write_all {A} (ws : list (Z * A)) (b : list A) : option (list A) :=
  ofold (fun w b => store b w.1 w.2) ws b.

Lemma write_all_spec {A} (ws : list (Z * A)) b :
  NoDup (map fst ws) -> Forall (fun w => 0 <= w.1 < Z.of_nat (length b)) ws ->
  exists b', write_all ws b = Some b' /\ length b' = length b /\
    (forall p v, In (p, v) ws -> b' !! Z.to_nat p = Some v) /\
    (forall i, ~ In (Z.of_nat i) (map fst ws) -> b' !! i = b !! i).
Proof.
  unfold write_all. revert b. induction ws as [|[p v] ws IH]; intros b Hnd Hin; cbn.
  - by exists b.
  - cbn in Hnd. apply NoDup_cons in Hnd as [Hp Hnd]. apply Forall_cons in Hin as [Hpb Hin]. cbn in Hpb.
    rewrite list_elem_of_In in Hp. rewrite store_range by done. cbn.
    destruct (IH (<[Z.to_nat p:=v]> b) Hnd) as (b' & Hb & Hlen & H1 & H2).
    { eapply Forall_impl; [exact Hin|]. cbn. intros w. by rewrite length_insert. }
    exists b'. rewrite length_insert in Hlen. split; [done|]. split; [done|]. split.
    + intros q u [[= <- <-]|Hq]; [|by apply H1].
      rewrite H2 by (by rewrite Z2Nat.id by lia). apply list_lookup_insert_eq. lia.
    + intros i Hi. rewrite H2 by (intros Hx; apply Hi; by right).
      apply list_lookup_insert_ne. intros <-. apply Hi. left. lia.
Qed.

(** Writes that cover the buffer determine it. *)
Lemma write_all_covers {A} (ws : list (Z * A)) b (out : list A) :
  length out = length b -> NoDup (map fst ws) ->
  Forall (fun w => 0 <= w.1 < Z.of_nat (length b) /\ out !! Z.to_nat w.1 = Some w.2) ws ->
  (forall i, (i < length b)%nat -> In (Z.of_nat i) (map fst ws)) ->
  write_all ws b = Some out.
Proof.
  intros Hlen Hnd Hws Hcov.
  destruct (write_all_spec ws b Hnd) as (b' & -> & Hb & H1 & _).
  { eapply Forall_impl; [exact Hws|]. by intros w [H _]. }
  f_equal. apply list_eq. intros i. destruct (decide (i < length b)%nat) as [Hi|Hi].
  - specialize (Hcov i Hi). apply in_map_iff in Hcov as ([p v] & Hp & Hin). cbn in Hp.
    rewrite Forall_forall in Hws. destruct (Hws (p, v)) as [_ Ho]; [by apply list_elem_of_In|].
    cbn in Ho. rewrite <- (Nat2Z.id i), <- Hp, Ho. by apply H1.
  - rewrite !lookup_ge_None_2 by lia. done.
Qed.

(** *** Thread numbers *)

Lemma grid_In blocks TX t : In t (grid blocks TX) <-> (t.1 < blocks /\ t.2 < TX)%nat.
Proof.
  destruct t as [bo bi]. unfold grid. rewrite in_flat_map. cbn. split.
  - intros (b & Hb & H). apply in_map_iff in H as (i & [= -> ->] & Hi).
    apply in_seq in Hb, Hi. lia.
  - intros [H1 H2]. exists bo. split; [apply in_seq; lia|]. apply in_map_iff.
    exists bi. split; [done|]. apply in_seq. lia.
Qed.

(** The number of a thread, [bo * TX + bi], numbers the threads without gaps. *)
Lemma grid_numbers blocks TX :
  map (fun t => t.1 * TX + t.2)%nat (grid blocks TX) = seq 0 (blocks * TX).
Proof.
  unfold grid. enough (H : forall k, map (fun t => t.1 * TX + t.2)%nat
    (flat_map (fun bo => map (pair bo) (seq 0 TX)) (seq k blocks)) = seq (k * TX) (blocks * TX)).
  { apply (H O). }
  induction blocks as [|n IH]; intros k; cbn [seq flat_map Nat.mul]; [done|].
  rewrite map_app, IH, map_map. cbn [fst snd].
  rewrite seq_app. f_equal.
  - etransitivity; [apply (fmap_add_seq (k * TX) 0 TX)|]. f_equal. lia.
  - f_equal. lia.
Qed.

Lemma grid_length blocks TX : length (grid blocks TX) = (blocks * TX)%nat.
Proof. by rewrite <- (length_map (fun t => t.1 * TX + t.2)%nat), grid_numbers, length_seq. Qed.

Lemma grid_lookup blocks TX bo bi : (bo < blocks)%nat -> (bi < TX)%nat ->
  grid blocks TX !! (bo * TX + bi)%nat = Some (bo, bi).
Proof.
  intros Hbo Hbi. destruct (lookup_lt_is_Some_2 (grid blocks TX) (bo * TX + bi)) as [[bo' bi'] Hc].
  { rewrite grid_length. nia. }
  assert (Hin := list_elem_of_lookup_2 _ _ _ Hc). apply list_elem_of_In, grid_In in Hin as [_ Hbi'].
  assert (Hn : map (fun t => t.1 * TX + t.2)%nat (grid blocks TX) !! (bo * TX + bi)%nat =
               Some (bo' * TX + bi')%nat) by (by rewrite list_lookup_fmap, Hc).
  rewrite grid_numbers, lookup_seq_lt in Hn by nia. injection Hn as Hn. cbn in Hbi', Hn.
  rewrite Hc. destruct (Nat.lt_trichotomy bo bo') as [|[->|]]; [nia| |nia]. do 2 f_equal. lia.
Qed.

Lemma grid_take n m TX : (n <= m)%nat -> take (n * TX) (grid m TX) = grid n TX.
Proof.
  intros Hn. unfold grid. replace m with (n + (m - n))%nat by lia. rewrite seq_app, flat_map_app.
  rewrite take_app_le by (fold (grid n TX); by rewrite grid_length).
  fold (grid n TX). by rewrite <- grid_length, firstn_all.
Qed.

Lemma grid_NoDup blocks TX : NoDup (grid blocks TX).
Proof.
  apply (NoDup_fmap_1 (fun t => t.1 * TX + t.2)%nat).
  change (NoDup (map (fun t => t.1 * TX + t.2)%nat (grid blocks TX))).
  rewrite grid_numbers. apply NoDup_seq.
Qed.

Lemma filter_NoDup {A} (p : A -> bool) l : NoDup l -> NoDup (List.filter p l).
Proof.
  intros Hl. apply NoDup_ListNoDup, List.NoDup_filter. by apply NoDup_ListNoDup.
Qed.

Lemma filter_Permutation {A} (p : A -> bool) l l' :
  Permutation l l' -> Permutation (List.filter p l) (List.filter p l').
Proof.
  induction 1 as [|x l l' _ IH|x y l|l1 l2 l3 _ IH1 _ IH2]; cbn.
  - done.
  - destruct (p x); by try apply Permutation_skip.
  - destruct (p x), (p y); try done. constructor.
  - by etransitivity.
Qed.

Lemma filter_seq_ltb n m : (n <= m)%nat -> List.filter (fun t => Nat.ltb t n) (seq 0 m) = seq 0 n.
Proof.
  intros H. replace m with (n + (m - n))%nat by lia. rewrite seq_app, List.filter_app. cbn [Nat.add].
  assert (H1 : forall k, (k <= n)%nat ->
    List.filter (fun t => Nat.ltb t n) (seq (n - k) k) = seq (n - k) k).
  { induction k as [|k IH]; intros Hk; cbn [seq List.filter]; [done|].
    rewrite (proj2 (Nat.ltb_lt _ _)) by lia. replace (S (n - S k)) with (n - k)%nat by lia.
    f_equal. apply IH. lia. }
  specialize (H1 n (le_n n)). rewrite Nat.sub_diag in H1. rewrite H1.
  rewrite <- (app_nil_r (seq 0 n)) at 2. f_equal.
  enough (H2 : forall l, Forall (fun t => n <= t)%nat l -> List.filter (fun t => Nat.ltb t n) l = []).
  { apply H2, Forall_forall. intros t Ht. apply list_elem_of_In, in_seq in Ht. lia. }
  induction 1 as [|t l Ht _ IH]; cbn [List.filter]; [done|]. by rewrite (proj2 (Nat.ltb_ge _ _)).
Qed.

(** The launch of a kernel: thread [(bo, bi)] runs the body at its number when
    the guard lets it. *)
Definition launch {S : Type} (TX n : nat) (body : nat -> S -> option S) (order : list (nat * nat)) (s : S)
    : option S :=
  ofold (fun t s => let v := (t.1 * TX + t.2)%nat in if Nat.ltb v n then body v s else Some s) order s.

(** A launch runs the body once for each number below the bound, in some order. *)
Lemma launch_numbers {S} TX n (body : nat -> S -> option S) order s blocks :
  Permutation order (grid blocks TX) -> (n <= blocks * TX)%nat ->
  exists ids, Permutation ids (seq 0 n) /\ launch TX n body order s = ofold body ids s.
Proof.
  intros Ho Hn. set (num := fun t : nat * nat => (t.1 * TX + t.2)%nat).
  exists (List.filter (fun v => Nat.ltb v n) (map num order)). split.
  - rewrite <- (filter_seq_ltb n (blocks * TX)) by done. rewrite <- grid_numbers.
    apply filter_Permutation, Permutation_map, Ho.
  - unfold launch. rewrite <- (ofold_map (fun v s => if Nat.ltb v n then body v s else Some s) num).
    rewrite (ofold_filter _ (fun v => Nat.ltb v n)) by (intros x s' _ ->; done).
    apply ofold_ext. intros x s' Hx. apply filter_In in Hx as [_ ->]. done.
Qed.

Lemma nat_ceildiv_covers a b : (0 < b)%nat -> (a <= nat_ceildiv a b * b)%nat.
Proof.
  intros Hb. unfold nat_ceildiv. pose proof (Nat.div_mod_eq (a + b - 1) b).
  pose proof (Nat.mod_upper_bound (a + b - 1) b). nia.
Qed.

(** *** Loops that fill a buffer, in any order *)

Lemma fold_insert_seq {A} (f : nat -> A) ids n (b : list A) :
  Permutation ids (seq 0 n) -> length b = n ->
  fold_left (fun b t => <[t := f t]> b) ids b = map f (seq 0 n).
Proof.
  intros Hp Hl.
  assert (Hg : forall ids b, length (fold_left (fun b t => <[t := f t]> b) ids b) = length b /\
    forall i, fold_left (fun b t => <[t := f t]> b) ids b !! i =
      if decide (i ∈ ids) then (if decide (i < length b)%nat then Some (f i) else None) else b !! i).
  { clear. induction ids as [|t ids IH]; intros b; cbn [fold_left]; [by split|].
    destruct (IH (<[t := f t]> b)) as [H1 H2]. rewrite length_insert in H1, H2. split; [done|].
    intros i. rewrite H2. destruct (decide (i ∈ ids)) as [Hi|Hi].
    - rewrite (decide_True (P := i ∈ _ :: _)) by set_solver. done.
    - destruct (decide (t = i)) as [->|Hne].
      + rewrite (decide_True (P := i ∈ _ :: _)) by set_solver. destruct (decide (i < length b)%nat).
        * by apply list_lookup_insert_eq.
        * apply lookup_ge_None_2. rewrite length_insert. lia.
      + rewrite (decide_False (P := i ∈ _ :: _)) by set_solver. by apply list_lookup_insert_ne. }
  destruct (Hg ids b) as [H1 H2]. apply list_eq. intros i. rewrite H2.
  destruct (decide (i < n)%nat) as [Hi|Hi].
  - rewrite decide_True by (rewrite Hp, list_elem_of_In; apply in_seq; lia). rewrite decide_True by lia.
    rewrite list_lookup_fmap, lookup_seq_lt by done. done.
  - rewrite decide_False by (rewrite Hp, list_elem_of_In, in_seq; lia). rewrite !lookup_ge_None_2; [done| |lia].
    rewrite length_map, length_seq. lia.
Qed.

Lemma ofold_fill {A} (f : nat -> A) ids n (b : list A) :
  Permutation ids (seq 0 n) -> length b = n ->
  ofold (fun t b => store b (Z.of_nat t) (f t)) ids b = Some (map f (seq 0 n)).
Proof.
  intros Hp Hl. rewrite <- (fold_insert_seq f ids n b) by done.
  apply (ofold_total _ _ (fun b => length b = n)); [done|].
  intros t b' Ht Hb'. rewrite Hp, in_seq in Ht. rewrite store_lt by lia. split; [done|].
  by rewrite length_insert.
Qed.

(** A loop over the rows of two matrices that writes one row of each. *)
Lemma ofold_rows {A B} (body : nat -> list (list A) * list (list B) -> option (list (list A) * list (list B)))
    (f : nat -> list A) (g : nat -> list B) k ids n o1 o2 :
  Permutation ids (seq 0 n) -> length o1 = n -> length o2 = n ->
  Forall (fun r => length r = k) o1 -> Forall (fun r => length r = k) o2 ->
  (forall t, (t < n)%nat -> length (f t) = k /\ length (g t) = k) ->
  (forall t o1 o2, (t < n)%nat -> length o1 = n -> length o2 = n ->
     Forall (fun r => length r = k) o1 -> Forall (fun r => length r = k) o2 ->
     body t (o1, o2) = Some (<[t := f t]> o1, <[t := g t]> o2)) ->
  ofold body ids (o1, o2) = Some (map f (seq 0 n), map g (seq 0 n)).
Proof.
  intros Hp Hn1 Hn2 Hr1 Hr2 Hfg Hb.
  rewrite <- (fold_insert_seq f ids n o1), <- (fold_insert_seq g ids n o2) by done.
  assert (Hids : Forall (fun t => t < n)%nat ids).
  { apply Forall_forall. intros t Ht. rewrite list_elem_of_In, Hp in Ht. apply in_seq in Ht. lia. }
  clear Hp. revert o1 o2 Hn1 Hn2 Hr1 Hr2. induction Hids as [|t ids Ht _ IH]; intros; cbn; [done|].
  rewrite Hb by done. cbn. destruct (Hfg t Ht).
  apply IH; rewrite ?length_insert; try done; by apply Forall_insert.
Qed.

Lemma ofold_row {A} (f : nat -> A) vi (o : list (list A)) r l : o !! vi = Some r ->
  ofold (fun vj o => store2 o (Z.of_nat vi) (Z.of_nat vj) (f vj)) l o =
  (r' ← ofold (fun vj r => store r (Z.of_nat vj) (f vj)) l r; Some (<[vi := r']> o)).
Proof.
  revert o r. induction l as [|vj l IH]; intros o r Hr; cbn.
  - by rewrite list_insert_id.
  - unfold store2 at 2. rewrite load_lookup, Hr. cbn.
    destruct (store r (Z.of_nat vj) (f vj)) as [r'|] eqn:E; cbn; [|done].
    assert (Hvi : (vi < length o)%nat) by (by eapply lookup_lt_Some).
    rewrite store_lt by done. cbn. rewrite (IH _ r') by (by apply list_lookup_insert_eq).
    destruct (ofold _ l r'); cbn; [|done]. by rewrite list_insert_insert_eq.
Qed.

Lemma ofold_row_fill {A} (f : nat -> A) vi k (o : list (list A)) r : o !! vi = Some r -> length r = k ->
  ofold (fun vj o => store2 o (Z.of_nat vi) (Z.of_nat vj) (f vj)) (seq 0 k) o =
  Some (<[vi := map f (seq 0 k)]> o).
Proof. intros Hr Hk. rewrite (ofold_row f _ _ r), (ofold_fill f _ k) by done. done. Qed.

Lemma lookup_map_Some {A B} (f : A -> B) l i v : l !! i = Some v -> map f l !! i = Some (f v).
Proof. intros Hv. rewrite list_lookup_fmap, Hv. done. Qed.

Lemma lookup_map_seq {A} (l : list A) : map (fun i => l !! i) (seq 0 (length l)) = map Some l.
Proof.
  apply list_eq. intros i. rewrite !list_lookup_fmap.
  destruct (decide (i < length l)%nat) as [Hi|Hi].
  - rewrite lookup_seq_lt by done. cbn. destruct (lookup_lt_is_Some_2 l i Hi) as [x ->]. done.
  - rewrite (lookup_ge_None_2 l) by lia. rewrite lookup_ge_None_2; [done|]. rewrite length_seq. lia.
Qed.

Lemma map_lookup_seq {A} (d : A) (l : list A) : map (fun i => default d (l !! i)) (seq 0 (length l)) = l.
Proof.
  rewrite <- (map_map (fun i => l !! i) (default d)), lookup_map_seq, map_map. apply map_id.
Qed.

(** *** Matrices *)

Definition matrix {A} (n k : nat) (o : list (list A)) : Prop :=
  length o = n /\ Forall (fun r => length r = k) o.

Definition at2 {A} (o : list (list A)) (i e : nat) : option A := r ← o !! i; r !! e.

Lemma matrix_row {A} n k (o : list (list A)) t : matrix n k o -> (t < n)%nat ->
  exists r, o !! t = Some r /\ length r = k.
Proof.
  intros [Hn Hk] Ht. destruct (lookup_lt_is_Some_2 o t) as [r Hr]; [lia|]. exists r.
  split; [done|]. exact (Forall_lookup_1 _ _ _ _ Hk Hr).
Qed.

Lemma matrix_insert {A} n k (o : list (list A)) t r : matrix n k o -> length r = k -> matrix n k (<[t := r]> o).
Proof. intros [Hn Hk] Hr. split; [by rewrite length_insert|]. by apply Forall_insert. Qed.

Lemma matrix_at2 {A} n k (o : list (list A)) i e : matrix n k o -> (i < n)%nat -> (e < k)%nat ->
  exists v, at2 o i e = Some v.
Proof.
  intros Ho Hi He. destruct (matrix_row n k o i Ho Hi) as (r & Hr & Hl). unfold at2. rewrite Hr. cbn.
  apply lookup_lt_is_Some_2. lia.
Qed.

Lemma load2_at2 {A} (o : list (list A)) (i e : nat) : load2 o (Z.of_nat i) (Z.of_nat e) = at2 o i e.
Proof. unfold load2, at2. rewrite load_lookup. destruct (o !! i); cbn; [|done]. apply load_lookup. Qed.

(** Copying some cells of one matrix to another. *)
Lemma copy_loop {A X} (pos : X -> nat * nat) n c (src : list (list A)) l o :
  matrix n c src -> matrix n c o -> Forall (fun x => (pos x).1 < n /\ (pos x).2 < c)%nat l ->
  exists o', ofold (fun x o => v ← load2 src (Z.of_nat (pos x).1) (Z.of_nat (pos x).2);
                               store2 o (Z.of_nat (pos x).1) (Z.of_nat (pos x).2) v) l o = Some o' /\
    matrix n c o' /\
    forall i e, at2 o' i e = if decide ((i, e) ∈ map pos l) then at2 src i e else at2 o i e.
Proof.
  intros Hs Ho Hl. revert o Ho. induction Hl as [|x l [Hi He] _ IH]; intros o Ho; cbn [ofold].
  - exists o. split; [done|]. split; [done|]. intros i e. by rewrite decide_False by set_solver.
  - rewrite load2_at2. destruct (matrix_at2 n c src _ _ Hs Hi He) as [v Hv]. rewrite Hv. cbn [mbind option_bind].
    destruct (matrix_row n c o _ Ho Hi) as (r & Hr & Hrl).
    rewrite (store2_lt _ _ _ r) by (done || lia). cbn [mbind option_bind].
    destruct (IH (<[(pos x).1 := <[(pos x).2 := v]> r]> o)) as (o' & -> & Ho' & Hat).
    { apply matrix_insert; [done|by rewrite length_insert]. }
    exists o'. split; [done|]. split; [done|]. intros i e. rewrite Hat. cbn [map].
    destruct (decide ((i, e) ∈ map pos l)) as [Hin|Hin]; [by rewrite decide_True by set_solver|].
    destruct (decide ((i, e) = pos x)) as [E|E].
    + rewrite decide_True by set_solver. unfold at2 at 1.
      replace (pos x).1 with i by (by rewrite <- E). replace (pos x).2 with e by (by rewrite <- E).
      destruct Ho as [Hn _]. rewrite <- E in *. cbn [fst snd] in *.
      rewrite list_lookup_insert_eq by lia. cbn. rewrite list_lookup_insert_eq by lia. done.
    + rewrite decide_False by set_solver. unfold at2.
      destruct (decide (i = (pos x).1)) as [->|Hne].
      * destruct Ho as [Hn _]. rewrite list_lookup_insert_eq by lia. cbn. rewrite Hr. cbn.
        apply list_lookup_insert_ne. intros <-. apply E. by destruct (pos x).
      * by rewrite list_lookup_insert_ne by done.
Qed.

Lemma matrix_ext {A} n k (o o' : list (list A)) : matrix n k o -> matrix n k o' ->
  (forall i e, (i < n)%nat -> (e < k)%nat -> at2 o i e = at2 o' i e) -> o = o'.
Proof.
  intros Ho Ho' He. apply list_eq. intros i. destruct (decide (i < n)%nat) as [Hi|Hi].
  - destruct (matrix_row n k o i Ho Hi) as (r & Hr & Hl), (matrix_row n k o' i Ho' Hi) as (r' & Hr' & Hl').
    rewrite Hr, Hr'. f_equal. apply list_eq. intros e. destruct (decide (e < k)%nat) as [Hek|Hek].
    + specialize (He i e Hi Hek). unfold at2 in He. by rewrite Hr, Hr' in He.
    + by rewrite !lookup_ge_None_2 by lia.
  - destruct Ho, Ho'. by rewrite !lookup_ge_None_2 by lia.
Qed.

(** *** Reshaping *)

(** [x.reshape(n, c)]: the elements in row-major order. *)
Definition chunks {A} (c n : nat) (l : list A) : list (list A) :=
  map (fun i => take c (drop (i * c) l)) (seq 0 n).
Definition reshape {A} (n c : nat) (l : list A) : option (list (list A)) :=
  if Nat.eqb (length l) (n * c) then Some (chunks c n l) else None.

Lemma concat_length {A} n c (m : list (list A)) : matrix n c m -> length (concat m) = (n * c)%nat.
Proof.
  intros [<- Hm]. induction Hm as [|r m Hr _ IH]; cbn; [done|]. rewrite length_app. lia.
Qed.

Lemma chunks_concat {A} n c (m : list (list A)) : matrix n c m -> chunks c n (concat m) = m.
Proof.
  unfold chunks. intros [<- Hm]. induction Hm as [|r m Hr _ IH]; [done|].
  cbn [length seq map concat]. f_equal.
  - cbn [Nat.mul]. rewrite drop_0, take_app_le by lia. apply firstn_all2. lia.
  - rewrite <- IH at 2. rewrite <- seq_shift, map_map. apply map_ext. intros i.
    replace (S i * c)%nat with (length r + i * c)%nat by lia.
    by rewrite <- drop_drop, drop_app_length.
Qed.

Lemma reshape_concat {A} n c (m : list (list A)) : matrix n c m -> reshape n c (concat m) = Some m.
Proof.
  intros Hm. unfold reshape. rewrite (concat_length n c), Nat.eqb_refl by done. by rewrite chunks_concat.
Qed.

Lemma chunks_matrix {A} n c (l : list A) : length l = (n * c)%nat -> matrix n c (chunks c n l).
Proof.
  intros Hl. unfold chunks. split; [by rewrite length_map, length_seq|].
  apply Forall_map, Forall_forall. intros i Hi. rewrite list_elem_of_In in Hi. apply in_seq in Hi.
  rewrite length_take, length_drop, Hl. nia.
Qed.

Lemma concat_chunks {A} n c (l : list A) : length l = (n * c)%nat -> concat (chunks c n l) = l.
Proof.
  unfold chunks. revert l. induction n as [|n IH]; intros l Hl.
  - by destruct l.
  - cbn [seq map concat]. cbn [Nat.mul]. rewrite drop_0, <- seq_shift, map_map.
    etransitivity; [|apply (take_drop c)]. f_equal.
    etransitivity; [|apply (IH (drop c l)); rewrite length_drop; lia]. f_equal. apply map_ext.
    intros i. by rewrite drop_drop.
Qed.

(** Stores that all write what a function gives for their cell, and together
    reach every cell, fill a matrix with it, in any order. *)
Lemma store_cells {R W} (pos : W -> nat * nat) (val : W -> R) (G : nat -> nat -> R) n k (ws : list W) O :
  matrix n k O ->
  Forall (fun w => (pos w).1 < n /\ (pos w).2 < k /\ val w = G (pos w).1 (pos w).2)%nat ws ->
  (forall i e, (i < n)%nat -> (e < k)%nat -> (i, e) ∈ map pos ws) ->
  ofold (fun w O => store2 O (Z.of_nat (pos w).1) (Z.of_nat (pos w).2) (val w)) ws O =
  Some (map (fun i => map (G i) (seq 0 k)) (seq 0 n)).
Proof.
  intros HO Hws Hcov. set (T := map (fun i => map (G i) (seq 0 k)) (seq 0 n)).
  assert (HT : matrix n k T).
  { split; [unfold T; by rewrite length_map, length_seq|]. apply Forall_map, Forall_forall. intros i _.
    by rewrite length_map, length_seq. }
  assert (Hat : forall i e, (i < n)%nat -> (e < k)%nat -> at2 T i e = Some (G i e)).
  { intros i e Hi He. unfold at2, T. rewrite list_lookup_fmap, lookup_seq_lt by done. cbn.
    rewrite list_lookup_fmap, lookup_seq_lt by done. done. }
  destruct (copy_loop pos n k T ws O HT HO) as (O' & HO' & Hm & HatO).
  { eapply Forall_impl; [exact Hws|]. intros w (Hw1 & Hw2 & _); done. }
  transitivity (Some O'); [rewrite <- HO'|f_equal].
  - apply ofold_ext. intros w o Hw. rewrite Forall_forall in Hws.
    destruct (Hws w) as (Hi & He & Hv); [by apply list_elem_of_In|].
    rewrite load2_at2, Hat by done. cbn. by rewrite Hv.
  - apply (matrix_ext n k); [done|done|]. intros i e Hi He. rewrite HatO. by rewrite decide_True by auto.
Qed.

(** *** Tables *)

Lemma mapM_Some' {A B} (f : A -> option B) (g : A -> B) l :
  (forall x, In x l -> f x = Some (g x)) -> mapM f l = Some (map g l).
Proof.
  induction l as [|x l IH]; intros Hf; cbn; [done|]. rewrite Hf by (by left). cbn.
  rewrite IH by (intros; apply Hf; by right). done.
Qed.

(** The table of a function. *)
Definition table {A} (n m : nat) (g : nat -> nat -> A) : list (list A) :=
  map (fun i => map (g i) (seq 0 m)) (seq 0 n).

Lemma table_matrix {A} n m (g : nat -> nat -> A) : matrix n m (table n m g).
Proof.
  split; [unfold table; by rewrite length_map, length_seq|]. apply Forall_map, Forall_forall. intros i _.
  by rewrite length_map, length_seq.
Qed.

Lemma at2_table {A} n m (g : nat -> nat -> A) i j : (i < n)%nat -> (j < m)%nat -> at2 (table n m g) i j = Some (g i j).
Proof.
  intros Hi Hj. unfold at2, table. rewrite (lookup_map_Some _ _ i i) by (by apply lookup_seq). cbn.
  by rewrite (lookup_map_Some _ _ j j) by (by apply lookup_seq).
Qed.

Lemma te_compute2_table {A} n m (f : nat -> nat -> option A) g :
  (forall i j, (i < n)%nat -> (j < m)%nat -> f i j = Some (g i j)) -> te_compute2 n m f = Some (table n m g).
Proof.
  intros Hf. apply mapM_Some'. intros i [_ Hi]%in_seq. apply mapM_Some'. intros j [_ Hj]%in_seq. by apply Hf.
Qed.

(** A loop that folds values into an accumulator. *)
Lemma ofold_fold {X S E} (f : X -> S -> option S) (op : S -> E -> S) (g : X -> E) l a :
  (forall x s, In x l -> f x s = Some (op s (g x))) -> ofold f l a = Some (fold_left op (map g l) a).
Proof.
  revert a. induction l as [|x l IH]; intros a Hf; cbn [ofold map fold_left]; [done|].
  rewrite Hf by (by left). cbn [mbind option_bind]. apply IH. intros z s Hz. apply Hf. by right.
Qed.

Lemma load1_map_seq {A} (f : nat -> A) n i : (i < n)%nat -> load1 (map f (seq 0 n)) (Z.of_nat i) = Some (f i).
Proof. intros Hi. rewrite load_lookup. apply lookup_map_Some. by apply lookup_seq. Qed.
