(* ===== verification/SpecVerify.v ===== *)
(** * Verifying speculative tokens

    The kernel of [op/batch_spec_verify.py]: it walks down the tree of draft
    tokens, accepts a child when the model agrees enough with the draft, and
    otherwise replaces the model's distribution by the normalised excess over
    the draft's before it tries the next sibling.  The blocks of
    the batch run concurrently, an iteration of a block at a time.  The
    arithmetic is a parameter; [Q_probs] is exact rational arithmetic. *)

From Stdlib Require Import QArith.
From stdpp Require Import base list sets.
From S2P Require Import Prelude TirBuffer.
Local Open Scope Z_scope.

Class ProbOps (F : Type) := {
  p_zero : F;
  p_eps : F;                       (* [1e-7] *)
  p_add : F -> F -> F;
  p_sub : F -> F -> F;
  p_mul : F -> F -> F;
  p_div : F -> F -> F;
  p_max : F -> F -> F;
  p_ge : F -> F -> bool;
  p_lt : F -> F -> bool;
  allreduce : list F -> F;         (* [T.tvm_thread_allreduce] with [x + y] *)
}.

Section Kernel.
Context {F : Type} `{ProbOps F}.

Definition TX : nat := 1024.

Variable vocab_size : nat.
Variables (draft_probs : list (list F)) (draft_tokens : list Z).
Variables (token_tree_first_child token_tree_next_sibling : list Z) (uniform_samples : list F).

(** ** The kernel *)

(** [p_child >= uniform_sample * q_child] *)
Definition accept_child (model_probs : list (list F)) (parent_ptr child_ptr : Z) : option bool :=
  child_token ← load1 draft_tokens child_ptr;
  p_child ← load2 model_probs parent_ptr child_token;
  q_child ← load2 draft_probs child_ptr child_token;
  uniform_sample ← load1 uniform_samples child_ptr;
  Some (p_ge p_child (p_mul uniform_sample q_child)).

(** [T.max(model_prob - draft_prob, 0)] *)
Definition excess (model_probs : list (list F)) (parent_ptr child_ptr : Z) (k : nat) : option F :=
  p ← load2 model_probs parent_ptr (Z.of_nat k);
  q ← load2 draft_probs child_ptr (Z.of_nat k);
  Some (p_max (p_sub p q) p_zero).

(** The partial sum of one thread. *)
Definition psum (model_probs : list (list F)) (parent_ptr child_ptr : Z) (tx : nat) : option F :=
  ofold (fun i psum =>
           let k := (i * TX + tx)%nat in
           if Nat.ltb k vocab_size
           then v ← excess model_probs parent_ptr child_ptr k; Some (p_add psum v)
           else Some psum)
    (seq 0 (nat_ceildiv vocab_size TX)) p_zero.

Definition reduced (model_probs : list (list F)) (parent_ptr child_ptr : Z) : option F :=
  sums ← mapM (psum model_probs parent_ptr child_ptr) (seq 0 TX); Some (allreduce sums).

(** The threads write their entries in the order [order]. *)
Definition renormalize (order : list (nat * nat)) (t0 : F) (parent_ptr child_ptr : Z)
    (model_probs : list (list F)) : option (list (list F)) :=
  launch TX vocab_size
    (fun k probs => v ← excess probs parent_ptr child_ptr k;
                    store2 probs parent_ptr (Z.of_nat k) (p_div v t0)) order model_probs.

(** The body of [while T.Not(done[0])] when there is a child: the next parent,
    the next child and the distributions. *)
Definition verify_child (order : list (nat * nat)) (parent_ptr child_ptr : Z) (model_probs : list (list F))
    : option (Z * Z * list (list F)) :=
  pred ← accept_child model_probs parent_ptr child_ptr;
  if (pred : bool) then
    child ← load1 token_tree_first_child child_ptr;
    Some (child_ptr, child, model_probs)
  else
    t0 ← reduced model_probs parent_ptr child_ptr;
    if p_lt t0 p_eps then
      child ← load1 token_tree_first_child child_ptr;
      Some (child_ptr, child, model_probs)
    else
      model_probs ← renormalize order t0 parent_ptr child_ptr model_probs;
      child ← load1 token_tree_next_sibling child_ptr;
      Some (parent_ptr, child, model_probs).

(** A block between two iterations: its [parent_ptr] and [child_ptr], or [None]
    when it has written its result. *)
Abbreviation BlockState := (option (Z * Z)).

(** The state of the grid: the blocks and the buffers that are written. *)
Record GridState : Type := mkGrid {
  gr_blocks : list BlockState; gr_parent_ptr : list Z; gr_probs : list (list F) }.

(** Before the loop of block [b] *)
Definition block_start (token_tree_parent_ptr : list Z) (b : nat) : option BlockState :=
  parent ← load1 token_tree_parent_ptr (Z.of_nat b);
  child ← load1 token_tree_first_child parent;
  Some (Some (parent, child)).

(** The next iteration of block [b]: the last one writes the result. *)
Definition block_step (order : list (nat * nat)) (b : nat) (s : GridState) : option GridState :=
  blk ← gr_blocks s !! b;
  match blk with
  | None => Some s
  | Some (parent_ptr, child_ptr) =>
      if child_ptr =? -1 then
        token_tree_parent_ptr ← store (gr_parent_ptr s) (Z.of_nat b) parent_ptr;
        Some (mkGrid (<[b := None]> (gr_blocks s)) token_tree_parent_ptr (gr_probs s))
      else
        r ← verify_child order parent_ptr child_ptr (gr_probs s);
        Some (mkGrid (<[b := Some r.1]> (gr_blocks s)) (gr_parent_ptr s) r.2)
  end.

(** The kernel: the blocks run concurrently, [schedule] says which block makes
    the next iteration of its loop; [None] when a block has not finished. *)
Definition batch_spec_verify (order : list (nat * nat)) (schedule : list nat) (nbatch : nat)
    (token_tree_parent_ptr : list Z) (model_probs : list (list F)) : option (list Z * list (list F)) :=
  blocks ← mapM (block_start token_tree_parent_ptr) (seq 0 nbatch);
  s ← ofold (block_step order) schedule (mkGrid blocks token_tree_parent_ptr model_probs);
  if forallb is_none (gr_blocks s) then Some (gr_parent_ptr s, gr_probs s) else None.

(** ** Specification: a walk down a tree *)

Inductive tree := Node (id : nat) (children : list tree).
Definition node_id (t : tree) : nat := let (i, _) := t in i.

(** The arrays hold the trees [ts], linked from [ptr]. *)
Inductive linked (n : nat) : Z -> list tree -> Prop :=
| linked_end : linked n (-1) []
| linked_node id c s ts ts' :
    (id < n)%nat ->
    token_tree_first_child !! id = Some c -> linked n c ts ->
    token_tree_next_sibling !! id = Some s -> linked n s ts' ->
    linked n (Z.of_nat id) (Node id ts :: ts').

Fixpoint tree_size (t : tree) : nat :=
  match t with Node _ ts => S (list_sum (map tree_size ts)) end.

Fixpoint nodes (t : tree) : list nat :=
  match t with Node i ts => i :: flat_map nodes ts end.

(** The entry of a matrix. *)
Definition entry (o : list (list F)) (i k : nat) : F := default p_zero (at2 o i k).

Definition accepted (probs : list (list F)) (parent child : nat) : bool :=
  let token := Z.to_nat (default 0 (draft_tokens !! child)) in
  p_ge (entry probs parent token)
    (p_mul (default p_zero (uniform_samples !! child)) (entry draft_probs child token)).

Definition excess_at (p q : nat -> F) (k : nat) : F := p_max (p_sub (p k) (q k)) p_zero.

(** The mass of the excess, in the order of the threads' sums. *)
Definition mass (p q : nat -> F) : F :=
  allreduce (map (fun tx =>
    fold_left (fun acc i => let k := (i * TX + tx)%nat in
                            if Nat.ltb k vocab_size then p_add acc (excess_at p q k) else acc)
      (seq 0 (nat_ceildiv vocab_size TX)) p_zero) (seq 0 TX)).

Definition residual (p q : nat -> F) : nat -> F := fun k => p_div (excess_at p q k) (mass p q).

Definition set_row (probs : list (list F)) (parent : nat) (p : nat -> F) : list (list F) :=
  <[parent := map p (seq 0 vocab_size)]> probs.

(** The last accepted node and the distributions: a child is accepted by its
    test or when the excess is negligible; otherwise the parent's distribution
    becomes the residual and the next child is tried. *)
Fixpoint descend (t : tree) (probs : list (list F)) : nat * list (list F) :=
  match t with
  | Node id ts =>
      (fix try_children ts probs :=
         match ts with
         | [] => (id, probs)
         | t :: ts =>
             let p := entry probs id in
             let q := entry draft_probs (node_id t) in
             if accepted probs id (node_id t) then descend t probs
             else if p_lt (mass p q) p_eps then descend t probs
             else try_children ts (set_row probs id (residual p q))
         end) ts probs
  end.

(** The inner loop of [descend]. *)
Fixpoint try_children (id : nat) (ts : list tree) (probs : list (list F)) : nat * list (list F) :=
  match ts with
  | [] => (id, probs)
  | t :: ts =>
      let p := entry probs id in
      let q := entry draft_probs (node_id t) in
      if accepted probs id (node_id t) then descend t probs
      else if p_lt (mass p q) p_eps then descend t probs
      else try_children id ts (set_row probs id (residual p q))
  end.

Lemma descend_children id ts probs : descend (Node id ts) probs = try_children id ts probs.
Proof. cbn. revert probs. induction ts as [|t ts IH]; intros probs; cbn; [done|]. by rewrite IH. Qed.

(** ** Lemmas *)

Variable n : nat.
Hypothesis draft_shape : matrix n vocab_size draft_probs.
Hypothesis tokens_length : length draft_tokens = n.
Hypothesis tokens_range : Forall (fun t => 0 <= t < Z.of_nat vocab_size) draft_tokens.
Hypothesis samples_length : length uniform_samples = n.

Lemma load2_entry o i k : matrix n vocab_size o -> (i < n)%nat -> (k < vocab_size)%nat ->
  load2 o (Z.of_nat i) (Z.of_nat k) = Some (entry o i k).
Proof.
  intros Ho Hi Hk. rewrite load2_at2. unfold entry. by destruct (matrix_at2 n _ o i k Ho Hi Hk) as [v ->].
Qed.

Lemma accept_spec probs parent child : matrix n vocab_size probs -> (parent < n)%nat -> (child < n)%nat ->
  accept_child probs (Z.of_nat parent) (Z.of_nat child) = Some (accepted probs parent child).
Proof.
  intros Hp Hpar Hch. unfold accept_child, accepted. rewrite (load_lookup draft_tokens).
  destruct (lookup_lt_is_Some_2 draft_tokens child) as [t Ht]; [lia|].
  assert (Htr := Forall_lookup_1 _ _ _ _ tokens_range Ht). cbn in Htr.
  rewrite Ht. cbn [mbind option_bind default from_option id].
  assert (Hz : t = Z.of_nat (Z.to_nat t)) by lia. rewrite Hz, Nat2Z.id.
  rewrite !load2_entry by (done || lia). cbn [mbind option_bind].
  rewrite load_lookup. destruct (lookup_lt_is_Some_2 uniform_samples child) as [u Hu]; [lia|].
  rewrite Hu. done.
Qed.

Lemma excess_spec probs parent child k : matrix n vocab_size probs -> (parent < n)%nat -> (child < n)%nat ->
  (k < vocab_size)%nat -> excess probs (Z.of_nat parent) (Z.of_nat child) k =
  Some (excess_at (entry probs parent) (entry draft_probs child) k).
Proof. intros Hp Hpar Hch Hk. unfold excess. by rewrite !load2_entry by done. Qed.

Lemma mapM_map {Y W} (f : Y -> option W) (g : Y -> W) l : (forall y, In y l -> f y = Some (g y)) ->
  mapM f l = Some (map g l).
Proof.
  induction l as [|y l IH]; intros Hf; cbn; [done|]. rewrite Hf by (by left). cbn.
  rewrite IH by (intros; apply Hf; by right). done.
Qed.

Lemma reduced_spec probs parent child : matrix n vocab_size probs -> (parent < n)%nat -> (child < n)%nat ->
  reduced probs (Z.of_nat parent) (Z.of_nat child) =
  Some (mass (entry probs parent) (entry draft_probs child)).
Proof using draft_shape.
  clear tokens_length samples_length.
  intros Hp Hpar Hch. unfold reduced, mass. rewrite (mapM_map _ (fun tx =>
    fold_left (fun acc i => let k := (i * TX + tx)%nat in if Nat.ltb k vocab_size
      then p_add acc (excess_at (entry probs parent) (entry draft_probs child) k) else acc)
      (seq 0 (nat_ceildiv vocab_size TX)) p_zero)); [done|].
  intros tx _. unfold psum.
  apply (ofold_total _ (fun acc i => let k := (i * TX + tx)%nat in if Nat.ltb k vocab_size
      then p_add acc (excess_at (entry probs parent) (entry draft_probs child) k) else acc) (fun _ => True)); [done|].
  intros i acc _ _. split; [|done]. cbv zeta. destruct (Nat.ltb_spec (i * TX + tx) vocab_size); [|done].
  by rewrite excess_spec by done.
Qed.

Lemma set_row_matrix probs parent p : matrix n vocab_size probs -> matrix n vocab_size (set_row probs parent p).
Proof. intros Hp. apply matrix_insert; [done|]. by rewrite length_map, length_seq. Qed.

(** The threads of [renormalize] each replace one entry of the row. *)
Lemma renormalize_ids t0 probs parent child (p0 : nat -> F) ids r :
  (parent < n)%nat -> (child < n)%nat -> matrix n vocab_size probs -> probs !! parent = Some r ->
  NoDup ids -> (forall k, In k ids -> (k < vocab_size)%nat /\ r !! k = Some (p0 k)) ->
  ofold (fun k probs => v ← excess probs (Z.of_nat parent) (Z.of_nat child) k;
                        store2 probs (Z.of_nat parent) (Z.of_nat k) (p_div v t0)) ids probs =
  Some (<[parent := fold_left (fun r k => <[k := p_div (excess_at p0 (entry draft_probs child) k) t0]> r) ids r]> probs).
Proof using draft_shape.
  clear tokens_length samples_length.
  intros Hpar Hch. revert probs r. induction ids as [|k ids IH]; intros probs r Hm Hr Hnd Hin; cbn [ofold fold_left].
  - by rewrite list_insert_id.
  - apply NoDup_cons in Hnd as [Hk Hnd]. destruct (Hin k) as [Hkv Hrk]; [by left|].
    rewrite excess_spec by done. cbn [mbind option_bind].
    assert (He : entry probs parent k = p0 k) by (unfold entry, at2; rewrite Hr; cbn; by rewrite Hrk).
    unfold excess_at at 1. rewrite He. fold (excess_at p0 (entry draft_probs child) k).
    rewrite (store2_lt _ _ _ r) by (done || by eapply lookup_lt_Some). cbn [mbind option_bind].
    assert (Hlen : (parent < length probs)%nat) by (by eapply lookup_lt_Some).
    rewrite (IH _ (<[k := p_div (excess_at p0 (entry draft_probs child) k) t0]> r)).
    + by rewrite list_insert_insert_eq.
    + apply matrix_insert; [done|]. rewrite length_insert. destruct Hm as [_ Hm].
      exact (Forall_lookup_1 _ _ _ _ Hm Hr).
    + by apply list_lookup_insert_eq.
    + done.
    + intros j Hj. destruct (Hin j) as [Hjv Hrj]; [by right|]. split; [done|].
      rewrite list_lookup_insert_ne; [done|]. intros ->. by apply Hk, list_elem_of_In.
Qed.

Lemma renormalize_spec order t0 probs parent child :
  Permutation order (grid (nat_ceildiv vocab_size TX) TX) ->
  matrix n vocab_size probs -> (parent < n)%nat -> (child < n)%nat ->
  renormalize order t0 (Z.of_nat parent) (Z.of_nat child) probs =
  Some (set_row probs parent (fun k => p_div (excess_at (entry probs parent) (entry draft_probs child) k) t0)).
Proof using draft_shape.
  clear tokens_length samples_length.
  intros Ho Hm Hpar Hch. unfold renormalize.
  destruct (launch_numbers TX vocab_size (fun k probs =>
    v ← excess probs (Z.of_nat parent) (Z.of_nat child) k;
    store2 probs (Z.of_nat parent) (Z.of_nat k) (p_div v t0)) order probs _ Ho) as (ids & Hids & ->).
  { apply nat_ceildiv_covers. unfold TX. lia. }
  destruct (matrix_row n _ probs parent Hm Hpar) as (r & Hr & Hl).
  rewrite (renormalize_ids t0 probs parent child (entry probs parent) ids r); [|done..| |].
  - unfold set_row. f_equal. f_equal.
    by rewrite (fold_insert_seq (fun k => p_div (excess_at (entry probs parent) (entry draft_probs child) k) t0)
      ids vocab_size r).
  - rewrite Hids. apply NoDup_seq.
  - intros k Hk. rewrite Hids, in_seq in Hk. split; [lia|]. unfold entry, at2. rewrite Hr. cbn.
    by destruct (lookup_lt_is_Some_2 r k) as [v ->]; [lia|].
Qed.

(** *** The walk *)

Definition forest_size (ts : list tree) : nat := list_sum (map tree_size ts).
Definition forest_nodes (ts : list tree) : list nat := flat_map nodes ts.

Lemma forest_size_cons id ts ts' : forest_size (Node id ts :: ts') = S (forest_size ts + forest_size ts').
Proof using. clear draft_shape tokens_length tokens_range samples_length. done. Qed.
Lemma forest_nodes_cons id ts ts' : forest_nodes (Node id ts :: ts') = id :: forest_nodes ts ++ forest_nodes ts'.
Proof using. clear draft_shape tokens_length tokens_range samples_length. done. Qed.

(** An iteration makes one step of the walk. *)
Lemma verify_child_spec order parent ptr ts probs :
  Permutation order (grid (nat_ceildiv vocab_size TX) TX) ->
  linked n ptr ts -> ptr <> -1 -> (parent < n)%nat -> matrix n vocab_size probs ->
  exists parent' ptr' us probs',
    verify_child order (Z.of_nat parent) ptr probs = Some (Z.of_nat parent', ptr', probs') /\
    linked n ptr' us /\ (parent' < n)%nat /\ matrix n vocab_size probs' /\
    try_children parent' us probs' = try_children parent ts probs /\
    (forest_size us < forest_size ts)%nat /\
    incl (parent' :: forest_nodes us) (parent :: forest_nodes ts) /\
    (forall i, i <> parent -> probs' !! i = probs !! i).
Proof.
  intros Ho Hl Hptr Hpar Hm. destruct Hl as [|id c s ts ts' Hid Hc Hlc Hs Hls]; [done|].
  unfold verify_child. rewrite accept_spec by done. cbn [mbind option_bind try_children node_id].
  rewrite forest_size_cons, forest_nodes_cons.
  assert (Hdown : exists parent' ptr' us probs',
    (child ← load1 token_tree_first_child (Z.of_nat id); Some (Z.of_nat id, child, probs)) =
      Some (Z.of_nat parent', ptr', probs') /\
    linked n ptr' us /\ (parent' < n)%nat /\ matrix n vocab_size probs' /\
    try_children parent' us probs' = descend (Node id ts) probs /\
    (forest_size us < S (forest_size ts + forest_size ts'))%nat /\
    incl (parent' :: forest_nodes us) (parent :: id :: forest_nodes ts ++ forest_nodes ts') /\
    (forall i, i <> parent -> probs' !! i = probs !! i)).
  { exists id, c, ts, probs. rewrite load_lookup, Hc. split_and!; try done; [by rewrite descend_children|lia|].
    intros i [<-|Hi]; [right; by left|]. right. right. apply in_app_iff. by left. }
  destruct (accepted probs parent id); [exact Hdown|].
  rewrite reduced_spec by done. cbn [mbind option_bind].
  destruct (p_lt _ p_eps); [exact Hdown|].
  rewrite renormalize_spec by done. cbn [mbind option_bind]. rewrite load_lookup, Hs. cbn [mbind option_bind].
  do 4 eexists. split; [reflexivity|]. split_and!; try done; [by apply set_row_matrix|lia| |].
  - intros i [<-|Hi]; [by left|]. right. right. apply in_app_iff. by right.
  - intros i Hi. unfold set_row. by rewrite list_lookup_insert_ne.
Qed.

(** *** The walk stays in its tree *)

Lemma entry_row o o' i : o !! i = o' !! i -> entry o i = entry o' i.
Proof using. clear draft_shape tokens_length tokens_range samples_length. unfold entry, at2. by intros ->. Qed.

(** The rows [l] of two matrices are the same. *)
Definition agree_on (l : list nat) (o o' : list (list F)) : Prop := forall i, In i l -> o !! i = o' !! i.

Lemma agree_incl l l' o o' : agree_on l o o' -> incl l' l -> agree_on l' o o'.
Proof using. clear draft_shape tokens_length tokens_range samples_length. intros Ha Hi i Hin. by apply Ha, Hi. Qed.

Lemma agree_set_row l o o' i f : agree_on l o o' -> agree_on l (set_row o i f) (set_row o' i f).
Proof using. clear draft_shape tokens_length tokens_range samples_length.
  intros Ha j Hj. unfold set_row. rewrite !list_lookup_insert. specialize (Ha j Hj).
  assert (Hlt : (j < length o)%nat <-> (j < length o')%nat).
  { rewrite <- !lookup_lt_is_Some. by rewrite Ha. }
  repeat case_decide; try done; exfalso; naive_solver.
Qed.

(** What the walk from [parent] over the children [ts] reads and writes. *)
Lemma try_children_frame k : forall parent ts probs, (forest_size ts < k)%nat ->
  let r := try_children parent ts probs in
  In r.1 (parent :: forest_nodes ts) /\
  (forall i, ~ In i (parent :: forest_nodes ts) -> r.2 !! i = probs !! i) /\
  (forall probs', agree_on (parent :: forest_nodes ts) probs probs' ->
     let r' := try_children parent ts probs' in
     r'.1 = r.1 /\ agree_on (parent :: forest_nodes ts) r.2 r'.2).
Proof using. clear draft_shape tokens_length tokens_range samples_length.
  induction k as [|k IH]; intros parent ts probs Hk; [lia|].
  destruct ts as [|[id ts] ts']; cbn [try_children node_id].
  { split_and!; [by left|done|]. intros probs' Ha. by split. }
  rewrite forest_size_cons in Hk. rewrite forest_nodes_cons.
  assert (Hin : incl (id :: forest_nodes ts) (parent :: id :: forest_nodes ts ++ forest_nodes ts')).
  { intros i [<-|Hi]; [right; by left|]. right. right. apply in_app_iff. by left. }
  assert (Hin' : incl (parent :: forest_nodes ts') (parent :: id :: forest_nodes ts ++ forest_nodes ts')).
  { intros i [<-|Hi]; [by left|]. right. right. apply in_app_iff. by right. }
  assert (Hrow : forall probs', agree_on (parent :: id :: forest_nodes ts ++ forest_nodes ts') probs probs' ->
    entry probs parent = entry probs' parent) by (intros probs' Ha; apply entry_row, Ha; by left).
  assert (Hstay : forall probs', agree_on (parent :: id :: forest_nodes ts ++ forest_nodes ts') probs probs' ->
    accepted probs parent id = accepted probs' parent id) by (intros probs' Ha; unfold accepted; by rewrite (Hrow probs' Ha)).
  rewrite !descend_children.
  (* a walk into a part of the nodes, from rows that agree *)
  assert (Hpart : forall par us o,
    (forest_size us < k)%nat -> incl (par :: forest_nodes us) (parent :: id :: forest_nodes ts ++ forest_nodes ts') ->
    (forall i, ~ In i (parent :: id :: forest_nodes ts ++ forest_nodes ts') -> o !! i = probs !! i) ->
    let r := try_children par us o in
    In r.1 (parent :: id :: forest_nodes ts ++ forest_nodes ts') /\
    (forall i, ~ In i (parent :: id :: forest_nodes ts ++ forest_nodes ts') -> r.2 !! i = probs !! i) /\
    (forall o', agree_on (parent :: id :: forest_nodes ts ++ forest_nodes ts') o o' ->
       (try_children par us o').1 = r.1 /\
       agree_on (parent :: id :: forest_nodes ts ++ forest_nodes ts') r.2 (try_children par us o').2)).
  { intros par us o Hus Hi Ho. destruct (IH par us o Hus) as (H1 & H2 & H3). split_and!.
    - by apply Hi.
    - intros i Hni. rewrite H2 by (by intros Hx; apply Hni, Hi). by apply Ho.
    - intros o' Ha. destruct (H3 o' (agree_incl _ _ _ _ Ha Hi)) as [E1 E2]. split; [done|]. intros i Hx.
      destruct (in_dec Nat.eq_dec i (par :: forest_nodes us)) as [Hy|Hn]; [by apply E2|].
      destruct (IH par us o' Hus) as (_ & H2' & _). rewrite H2, H2' by done. by apply Ha. }
  destruct (accepted probs parent id) eqn:Eacc.
  { destruct (Hpart id ts probs) as (H1 & H2 & H3); [lia|done|done|]. split_and!; [done|done|].
    intros probs' Ha. rewrite descend_children. rewrite <- (Hstay probs' Ha). by apply H3. }
  destruct (p_lt (mass (entry probs parent) (entry draft_probs id)) p_eps) eqn:Elt.
  { destruct (Hpart id ts probs) as (H1 & H2 & H3); [lia|done|done|]. split_and!; [done|done|].
    intros probs' Ha. rewrite descend_children. rewrite <- (Hstay probs' Ha), <- (Hrow probs' Ha), Elt. by apply H3. }
  destruct (Hpart parent ts' (set_row probs parent (residual (entry probs parent) (entry draft_probs id))))
    as (H1 & H2 & H3); [lia|done| |].
  { intros i Hi. unfold set_row. apply list_lookup_insert_ne. intros <-. apply Hi. by left. }
  split_and!; [done|done|]. intros probs' Ha. rewrite <- (Hstay probs' Ha), <- (Hrow probs' Ha), Elt.
  by apply H3, agree_set_row.
Qed.

Lemma try_children_agree l parent ts probs probs' :
  incl (parent :: forest_nodes ts) l -> agree_on l probs probs' ->
  (try_children parent ts probs').1 = (try_children parent ts probs).1 /\
  agree_on l (try_children parent ts probs).2 (try_children parent ts probs').2.
Proof using. clear draft_shape tokens_length tokens_range samples_length.
  intros Hi Ha. destruct (try_children_frame (S (forest_size ts)) parent ts probs) as (_ & H2 & H3); [lia|].
  destruct (H3 probs' (agree_incl _ _ _ _ Ha Hi)) as [E1 E2]. split; [done|]. intros i Hx.
  destruct (in_dec Nat.eq_dec i (parent :: forest_nodes ts)) as [Hy|Hn]; [by apply E2|].
  destruct (try_children_frame (S (forest_size ts)) parent ts probs') as (_ & H2' & _); [lia|].
  rewrite H2, H2' by done. by apply Ha.
Qed.

Lemma descend_frame t probs i : ~ In i (nodes t) -> (descend t probs).2 !! i = probs !! i.
Proof using. clear draft_shape tokens_length tokens_range samples_length.
  destruct t as [id ts]. rewrite descend_children.
  destruct (try_children_frame (S (forest_size ts)) id ts probs) as (_ & Hf & _); [lia|]. apply Hf.
Qed.

Lemma descend_agree t probs probs' : agree_on (nodes t) probs probs' ->
  (descend t probs').1 = (descend t probs).1 /\ agree_on (nodes t) (descend t probs).2 (descend t probs').2.
Proof using. clear draft_shape tokens_length tokens_range samples_length. destruct t as [id ts]. rewrite !descend_children. apply try_children_agree, incl_refl. Qed.

Lemma descend_inside t probs : In (descend t probs).1 (nodes t).
Proof using. clear draft_shape tokens_length tokens_range samples_length.
  destruct t as [id ts]. rewrite descend_children.
  destruct (try_children_frame (S (forest_size ts)) id ts probs) as (Hi & _); [lia|]. exact Hi.
Qed.

(** *** The batch *)

(** A root with its children. *)
Definition rooted (t : tree) : Prop :=
  let (id, ts) := t in
  (id < n)%nat /\ exists c, token_tree_first_child !! id = Some c /\ linked n c ts.

Fixpoint descend_all (ts : list tree) (probs : list (list F)) : list nat * list (list F) :=
  match ts with
  | [] => ([], probs)
  | t :: ts => let r := descend t probs in let rs := descend_all ts r.2 in (r.1 :: rs.1, rs.2)
  end.

Lemma descend_all_length ts probs : length (descend_all ts probs).1 = length ts.
Proof using. clear draft_shape tokens_length tokens_range samples_length. revert probs. induction ts as [|t ts IH]; intros probs; cbn; [done|]. by rewrite IH. Qed.

Lemma descend_all_outside ts probs i : ~ In i (forest_nodes ts) -> (descend_all ts probs).2 !! i = probs !! i.
Proof using. clear draft_shape tokens_length tokens_range samples_length.
  revert probs. induction ts as [|t ts IH]; intros probs Hi; cbn; [done|].
  unfold forest_nodes in Hi. cbn in Hi. rewrite in_app_iff in Hi. rewrite IH by tauto. apply descend_frame. tauto.
Qed.

Lemma forest_disjoint ts b b' t t' i : NoDup (forest_nodes ts) -> ts !! b = Some t -> ts !! b' = Some t' ->
  In i (nodes t) -> In i (nodes t') -> b = b'.
Proof using. clear draft_shape tokens_length tokens_range samples_length.
  unfold forest_nodes. revert b b'. induction ts as [|t0 ts IH]; intros b b' Hnd Hb Hb' Hi Hi'; [done|].
  cbn in Hnd. apply NoDup_app in Hnd as (_ & Hd & Hnd).
  assert (Hx : forall b t, ts !! b = Some t -> In i (nodes t) -> In i (nodes t0) -> False).
  { intros c u Hc Hu H0. apply (Hd i); apply list_elem_of_In; [done|]. apply in_flat_map. exists u. split; [|done].
    apply list_elem_of_In. by eapply list_elem_of_lookup_2. }
  destruct b as [|b], b' as [|b']; cbn in Hb, Hb'.
  - done.
  - exfalso. injection Hb as ->. by eapply Hx.
  - exfalso. injection Hb' as ->. by eapply Hx.
  - f_equal. by apply IH.
Qed.

Lemma forest_NoDup ts b t : NoDup (forest_nodes ts) -> ts !! b = Some t -> NoDup (nodes t).
Proof.
  unfold forest_nodes. revert b. induction ts as [|t0 ts IH]; intros b Hnd Hb; [done|].
  cbn in Hnd. apply NoDup_app in Hnd as (H0 & _ & Hnd). destruct b as [|b]; cbn in Hb; [by injection Hb as <-|by eapply IH].
Qed.

(** Walks down disjoint trees do not meet. *)
Lemma descend_all_disjoint ts probs b t : NoDup (forest_nodes ts) -> ts !! b = Some t ->
  (descend_all ts probs).1 !! b = Some (descend t probs).1 /\
  agree_on (nodes t) (descend t probs).2 (descend_all ts probs).2.
Proof using. clear draft_shape tokens_length tokens_range samples_length.
  revert b probs. induction ts as [|t0 ts IH]; intros b probs Hnd Hb; [done|].
  unfold forest_nodes in Hnd. cbn in Hnd. apply NoDup_app in Hnd as (_ & Hd & Hnd).
  destruct b as [|b]; cbn in Hb |- *.
  - injection Hb as ->. split; [done|]. intros i Hi. rewrite descend_all_outside; [done|].
    intros Hx. apply (Hd i); by apply list_elem_of_In.
  - assert (Ha : agree_on (nodes t) probs (descend t0 probs).2).
    { intros i Hi. symmetry. apply descend_frame. intros Hx. apply (Hd i); apply list_elem_of_In; [done|].
      apply in_flat_map. exists t. split; [|done]. apply list_elem_of_In. by eapply list_elem_of_lookup_2. }
    destruct (IH b (descend t0 probs).2 Hnd Hb) as [E1 E2]. destruct (descend_agree t _ _ Ha) as [F1 F2].
    split; [etransitivity; [exact E1|by rewrite F1]|]. intros i Hi. rewrite <- E2 by done. by apply F2.
Qed.

(** *** The blocks *)

Definition children (t : tree) : list tree := let (_, ts) := t in ts.

(** The block of a tree has started. *)
Definition started (t : tree) (blk : BlockState) : Prop :=
  exists c, blk = Some (Z.of_nat (node_id t), c) /\ linked n c (children t) /\ (node_id t < n)%nat.

Lemma blocks_start pre ts : Forall rooted ts ->
  exists blocks, mapM (block_start (pre ++ map (fun t => Z.of_nat (node_id t)) ts)) (seq (length pre) (length ts)) = Some blocks /\
    Forall2 started ts blocks.
Proof using. clear draft_shape tokens_length tokens_range samples_length.
  intros Hts. revert pre. induction Hts as [|[id us] ts [Hid (c & Hc & Hl)] _ IH]; intros pre.
  - exists []. split; [done|constructor].
  - destruct (IH (pre ++ [Z.of_nat id])) as (blocks & Hb & Hs).
    rewrite length_app, Nat.add_1_r, <- app_assoc in Hb. cbn [app] in Hb.
    exists (Some (Z.of_nat id, c) :: blocks). split; [|constructor; [by exists c|done]].
    assert (Hst : forall l, block_start (pre ++ Z.of_nat id :: l) (length pre) = Some (Some (Z.of_nat id, c))).
    { intros l. unfold block_start. rewrite load_lookup, lookup_app_r, Nat.sub_diag by lia. cbn.
      by rewrite load_lookup, Hc. }
    cbn [map length seq mapM node_id]. rewrite Hst. cbn [mbind option_bind]. by rewrite Hb.
Qed.

Lemma step_finished order b s : gr_blocks s !! b = Some None -> block_step order b s = Some s.
Proof using. clear draft_shape tokens_length tokens_range samples_length. unfold block_step. by intros ->. Qed.

Lemma step_last order b s parent : gr_blocks s !! b = Some (Some (parent, -1)) -> (b < length (gr_parent_ptr s))%nat ->
  block_step order b s = Some (mkGrid (<[b := None]> (gr_blocks s)) (<[b := parent]> (gr_parent_ptr s)) (gr_probs s)).
Proof using. clear draft_shape tokens_length tokens_range samples_length. unfold block_step. intros -> Hb. cbn. by rewrite store_lt. Qed.

Lemma step_child order b s parent ptr r : gr_blocks s !! b = Some (Some (parent, ptr)) -> ptr <> -1 ->
  verify_child order parent ptr (gr_probs s) = Some r ->
  block_step order b s = Some (mkGrid (<[b := Some r.1]> (gr_blocks s)) (gr_parent_ptr s) r.2).
Proof using. clear draft_shape tokens_length tokens_range samples_length. unfold block_step. intros -> Hp Hr. cbn. rewrite (proj2 (Z.eqb_neq _ _)) by done. by rewrite Hr. Qed.

Lemma finished_stays order b k s : gr_blocks s !! b = Some None -> ofold (block_step order) (repeat b k) s = Some s.
Proof using. clear draft_shape tokens_length tokens_range samples_length. intros Hb. induction k as [|k IH]; cbn [repeat ofold]; [done|]. by rewrite step_finished by done. Qed.

(** A block by itself. *)
Lemma block_alone order fuel b : Permutation order (grid (nat_ceildiv vocab_size TX) TX) ->
  forall parent ptr ts s, gr_blocks s !! b = Some (Some (Z.of_nat parent, ptr)) -> linked n ptr ts -> (parent < n)%nat ->
  matrix n vocab_size (gr_probs s) -> (forest_size ts < fuel)%nat -> (b < length (gr_parent_ptr s))%nat ->
  let r := try_children parent ts (gr_probs s) in
  ofold (block_step order) (repeat b fuel) s =
    Some (mkGrid (<[b := None]> (gr_blocks s)) (<[b := Z.of_nat r.1]> (gr_parent_ptr s)) r.2) /\
  matrix n vocab_size r.2.
Proof.
  intros Ho. induction fuel as [|fuel IH]; intros parent ptr ts s Hb Hl Hpar Hm Hf Hlen; [lia|].
  cbn [repeat ofold]. destruct (Z.eq_dec ptr (-1)) as [->|Hp].
  - assert (ts = []) as -> by (inversion Hl; [done|lia]). rewrite (step_last order b s _ Hb) by done.
    cbn [mbind option_bind]. rewrite finished_stays; [done|]. cbn. apply list_lookup_insert_eq. by eapply lookup_lt_Some.
  - destruct (verify_child_spec order parent ptr ts (gr_probs s) Ho Hl Hp Hpar Hm)
      as (parent' & ptr' & us & probs' & Hv & Hl' & Hpar' & Hm' & Heq & Hsz & _).
    rewrite (step_child order b s _ _ _ Hb Hp Hv). cbn [mbind option_bind fst snd].
    destruct (IH parent' ptr' us (mkGrid (<[b := Some (Z.of_nat parent', ptr')]> (gr_blocks s)) (gr_parent_ptr s) probs'))
      as [E Em]; cbn; [|done|done|done|lia|done|].
    { apply list_lookup_insert_eq. by eapply lookup_lt_Some. }
    rewrite <- Heq. split; [|done]. rewrite E. cbn. by rewrite list_insert_insert_eq.
Qed.

(** The blocks one after the other. *)
Lemma blocks_in_turn order fuel ts blocks : Permutation order (grid (nat_ceildiv vocab_size TX) TX) ->
  Forall2 started ts blocks -> Forall (fun t => tree_size t <= fuel)%nat ts -> forall pre pre' probs,
  length pre = length pre' -> matrix n vocab_size probs ->
  ofold (block_step order) (flat_map (fun b => repeat b fuel) (seq (length pre) (length ts)))
    (mkGrid (pre ++ blocks) (pre' ++ map (fun t => Z.of_nat (node_id t)) ts) probs) =
  Some (mkGrid (pre ++ map (fun _ => None) ts) (pre' ++ map Z.of_nat (descend_all ts probs).1) (descend_all ts probs).2).
Proof.
  intros Ho Hs Hf. induction Hs as [|t blk ts blocks (c & -> & Hl & Hid) _ IH]; intros pre pre' probs Hlen Hm; [done|].
  apply Forall_cons in Hf as [Ht Hf]. cbn [length seq flat_map map descend_all]. rewrite ofold_app.
  destruct t as [id us]. cbn [children node_id] in *.
  destruct (block_alone order fuel (length pre) Ho id c us
    (mkGrid (pre ++ Some (Z.of_nat id, c) :: blocks) (pre' ++ Z.of_nat id :: map (fun t => Z.of_nat (node_id t)) ts) probs))
    as [E Em]; cbn [gr_blocks gr_parent_ptr gr_probs]; try done.
  { rewrite lookup_app_r by done. by rewrite Nat.sub_diag. }
  { rewrite length_app. cbn. lia. }
  rewrite E. cbn [mbind option_bind gr_blocks gr_parent_ptr gr_probs] in *. rewrite <- descend_children in *.
  rewrite insert_app_r_alt, Nat.sub_diag by lia. rewrite Hlen, insert_app_r_alt, Nat.sub_diag by lia. cbn [insert list_insert].
  specialize (IH Hf (pre ++ [None]) (pre' ++ [Z.of_nat (descend (Node id us) probs).1]) (descend (Node id us) probs).2).
  rewrite !length_app, !Nat.add_1_r, <- !app_assoc in IH. cbn [app] in IH. rewrite <- Hlen. apply IH; [lia|done].
Qed.

(** *** The blocks side by side *)

(** Block [b], with at most [turns] iterations left, is on its way to what the
    walk down [t] gives. *)
Definition on_course (probs0 : list (list F)) (t : tree) (b turns : nat) (s : GridState) : Prop :=
  let d := descend t probs0 in
  (gr_blocks s !! b = Some None /\ gr_parent_ptr s !! b = Some (Z.of_nat d.1) /\ agree_on (nodes t) (gr_probs s) d.2) \/
  exists parent ptr us, gr_blocks s !! b = Some (Some (Z.of_nat parent, ptr)) /\ linked n ptr us /\
    (parent < n)%nat /\ incl (parent :: forest_nodes us) (nodes t) /\ (forest_size us < turns)%nat /\
    (try_children parent us (gr_probs s)).1 = d.1 /\ agree_on (nodes t) (try_children parent us (gr_probs s)).2 d.2.

(** An iteration of another block, with rows of its own. *)
Lemma on_course_other probs0 t b b' turns s blk ptrs probs : b' <> b ->
  (forall i, In i (nodes t) -> probs !! i = gr_probs s !! i) -> (forall i, i <> b' -> ptrs !! i = gr_parent_ptr s !! i) ->
  on_course probs0 t b turns s -> on_course probs0 t b turns (mkGrid (<[b' := blk]> (gr_blocks s)) ptrs probs).
Proof using. clear draft_shape tokens_length tokens_range samples_length.
  intros Hb Hrows Hptrs [(H1 & H2 & H3)|(parent & ptr & us & H1 & H2 & H3 & H4 & H5 & H6 & H7)]; cbn [on_course].
  - left. cbn. rewrite list_lookup_insert_ne by done. rewrite Hptrs by done. split_and!; [done|done|].
    intros i Hi. by rewrite Hrows, H3.
  - right. exists parent, ptr, us. cbn. rewrite list_lookup_insert_ne by done.
    destruct (try_children_agree (nodes t) parent us (gr_probs s) probs) as [E1 E2]; [done|by intros i Hi; rewrite Hrows|].
    split_and!; try done; [by rewrite E1|]. intros i Hi. by rewrite <- E2, H7.
Qed.

(** An iteration of the block itself. *)
Lemma on_course_step order probs0 t b turns s : Permutation order (grid (nat_ceildiv vocab_size TX) TX) ->
  matrix n vocab_size (gr_probs s) -> (b < length (gr_parent_ptr s))%nat ->
  on_course probs0 t b (S turns) s ->
  exists blk ptrs probs,
    block_step order b s = Some (mkGrid (<[b := blk]> (gr_blocks s)) ptrs probs) /\
    matrix n vocab_size probs /\ length ptrs = length (gr_parent_ptr s) /\
    (forall i, ~ In i (nodes t) -> probs !! i = gr_probs s !! i) /\
    (forall i, i <> b -> ptrs !! i = gr_parent_ptr s !! i) /\
    on_course probs0 t b turns (mkGrid (<[b := blk]> (gr_blocks s)) ptrs probs).
Proof.
  intros Ho Hm Hlen [(H1 & H2 & H3)|(parent & ptr & us & H1 & H2 & H3 & H4 & H5 & H6 & H7)].
  - exists None, (gr_parent_ptr s), (gr_probs s). rewrite step_finished by done. rewrite list_insert_id by done.
    split_and!; try done; [by destruct s|]. by left.
  - destruct (Z.eq_dec ptr (-1)) as [->|Hp].
    + assert (us = []) as -> by (inversion H2; [done|lia]). cbn [try_children fst snd] in *.
      exists None, (<[b := Z.of_nat parent]> (gr_parent_ptr s)), (gr_probs s). rewrite (step_last order b s _ H1) by done.
      split_and!; try done; [by rewrite length_insert|by intros i Hi; rewrite list_lookup_insert_ne|].
      left. cbn. rewrite !list_lookup_insert_eq by (done || by eapply lookup_lt_Some). by rewrite H6.
    + destruct (verify_child_spec order parent ptr us (gr_probs s) Ho H2 Hp H3 Hm)
        as (parent' & ptr' & us' & probs' & Hv & Hl' & Hpar' & Hm' & Heq & Hsz & Hi' & Hrow).
      exists (Some (Z.of_nat parent', ptr')), (gr_parent_ptr s), probs'. rewrite (step_child order b s _ _ _ H1 Hp Hv).
      split_and!; try done.
      * intros i Hi. apply Hrow. intros ->. apply Hi, H4. by left.
      * right. exists parent', ptr', us'. cbn. rewrite list_lookup_insert_eq by (by eapply lookup_lt_Some).
        rewrite Heq. split_and!; try done; [|lia]. by eapply incl_tran.
Qed.

(** The blocks of disjoint trees, whatever their order. *)
Lemma blocks_concurrent order probs0 ts schedule : Permutation order (grid (nat_ceildiv vocab_size TX) TX) ->
  NoDup (forest_nodes ts) -> forall s,
  Forall (fun b => b < length ts)%nat schedule -> length (gr_parent_ptr s) = length ts ->
  matrix n vocab_size (gr_probs s) ->
  (forall i, ~ In i (forest_nodes ts) -> gr_probs s !! i = probs0 !! i) ->
  (forall b t, ts !! b = Some t -> on_course probs0 t b (count_occ Nat.eq_dec schedule b) s) ->
  exists s', ofold (block_step order) schedule s = Some s' /\ length (gr_blocks s') = length (gr_blocks s) /\
    length (gr_parent_ptr s') = length ts /\ matrix n vocab_size (gr_probs s') /\
    (forall i, ~ In i (forest_nodes ts) -> gr_probs s' !! i = probs0 !! i) /\
    (forall b t, ts !! b = Some t -> on_course probs0 t b 0 s').
Proof.
  intros Ho Hnd. induction schedule as [|b schedule IH]; intros s Hin Hlen Hm Hout Hc.
  { exists s. split_and!; done. }
  apply Forall_cons in Hin as [Hb Hin]. destruct (lookup_lt_is_Some_2 ts b Hb) as [t Ht].
  pose proof (Hc b t Ht) as Hcb. rewrite count_occ_cons_eq in Hcb by done.
  destruct (on_course_step order probs0 t b _ s Ho Hm ltac:(lia) Hcb)
    as (blk & ptrs & probs & Hs & Hm' & Hl' & Hrow & Hptr & Hcb'). cbn [ofold]. rewrite Hs. cbn [mbind option_bind].
  destruct (IH (mkGrid (<[b := blk]> (gr_blocks s)) ptrs probs)) as (s' & E & Hlb & Hrest); cbn [gr_blocks gr_parent_ptr gr_probs].
  - done.
  - by rewrite Hl'.
  - done.
  - intros i Hi. rewrite Hrow; [by apply Hout|]. intros Hx. apply Hi, in_flat_map. exists t. split; [|done].
    apply list_elem_of_In. by eapply list_elem_of_lookup_2.
  - intros b' t' Ht'. destruct (decide (b' = b)) as [->|Hne]; [by rewrite Ht in Ht'; injection Ht' as <-|].
    specialize (Hc b' t' Ht'). rewrite count_occ_cons_neq in Hc by done.
    apply on_course_other; [done| |done|done]. intros i Hi. apply Hrow. intros Hx. apply Hne.
    exact (forest_disjoint ts b' b t' t i Hnd Ht' Ht Hi Hx).
  - exists s'. split_and!; try apply Hrest; [done|]. rewrite Hlb. cbn. by rewrite length_insert.
Qed.
End Kernel.

(** The iterations of the blocks: every block gets at least one per node of its
    tree, and the trees have no node in common, or the blocks run one after the
    other. *)
Definition schedule_of (ts : list tree) (schedule : list nat) : Prop :=
  (NoDup (forest_nodes ts) /\ Forall (fun b => b < length ts)%nat schedule /\
   forall b t, ts !! b = Some t -> (tree_size t <= count_occ Nat.eq_dec schedule b)%nat) \/
  exists fuel, Forall (fun t => tree_size t <= fuel)%nat ts /\
    schedule = flat_map (fun b => repeat b fuel) (seq 0 (length ts)).

Section Batch.
Context {F : Type} `{ProbOps F} (V n : nat) (draft_probs : list (list F)) (draft_tokens : list Z).
Context (first_child next_sibling : list Z) (samples : list F) (order : list (nat * nat)) (ts : list tree).
Hypothesis draft_shape : matrix n V draft_probs.
Hypothesis tokens_length : length draft_tokens = n.
Hypothesis tokens_range : Forall (fun t => 0 <= t < Z.of_nat V) draft_tokens.
Hypothesis samples_length : length samples = n.
Hypothesis Horder : Permutation order (grid (nat_ceildiv V TX) TX).
Hypothesis Hrooted : Forall (rooted first_child next_sibling n) ts.

Let walk := descend V draft_probs draft_tokens samples.
Let walks := descend_all V draft_probs draft_tokens samples ts.

(** All blocks have finished: the buffers are those of the walks. *)
Lemma batch_finished probs s : NoDup (forest_nodes ts) -> length (gr_blocks s) = length ts ->
  length (gr_parent_ptr s) = length ts -> matrix n V probs -> matrix n V (gr_probs s) ->
  (forall i, ~ In i (forest_nodes ts) -> gr_probs s !! i = probs !! i) ->
  (forall b t, ts !! b = Some t -> on_course V draft_probs draft_tokens first_child next_sibling samples n probs t b 0 s) ->
  forallb is_none (gr_blocks s) = true /\ gr_parent_ptr s = map Z.of_nat (walks probs).1 /\ gr_probs s = (walks probs).2.
Proof using All.
  intros Hnd Hlb Hlp Hm0 Hm Hout Hc.
  assert (Hdone : forall b t, ts !! b = Some t -> gr_blocks s !! b = Some None /\
    gr_parent_ptr s !! b = Some (Z.of_nat (walk t probs).1) /\ agree_on (nodes t) (gr_probs s) (walk t probs).2).
  { intros b t Hb. destruct (Hc b t Hb) as [Hd|(? & ? & ? & _ & _ & _ & _ & Hlt & _)]; [done|lia]. }
  split_and!.
  - apply forallb_forall. intros blk Hin. apply list_elem_of_In, list_elem_of_lookup in Hin as [b Hb].
    destruct (lookup_lt_is_Some_2 ts b) as [t Ht]; [rewrite <- Hlb; by eapply lookup_lt_Some|].
    destruct (Hdone b t Ht) as [Hn _]. rewrite Hb in Hn. by injection Hn as ->.
  - apply list_eq. intros b. rewrite list_lookup_fmap. destruct (ts !! b) as [t|] eqn:Ht.
    + destruct (Hdone b t Ht) as (_ & -> & _). unfold walks.
      by rewrite (proj1 (descend_all_disjoint V draft_probs draft_tokens samples ts probs b t Hnd Ht)).
    + apply lookup_ge_None in Ht. rewrite !lookup_ge_None_2; [done| |lia]. unfold walks. by rewrite descend_all_length.
  - apply list_eq. intros i. destruct (in_dec Nat.eq_dec i (forest_nodes ts)) as [Hi|Hi].
    + apply in_flat_map in Hi as (t & Ht & Hi). apply list_elem_of_In, list_elem_of_lookup in Ht as [b Ht].
      destruct (Hdone b t Ht) as (_ & _ & Ha). rewrite Ha by done. unfold walks.
      by apply (descend_all_disjoint V draft_probs draft_tokens samples ts probs b t Hnd Ht).
    + rewrite Hout by done. unfold walks. by rewrite descend_all_outside.
Qed.

Lemma batch_refines schedule probs : schedule_of ts schedule -> matrix n V probs ->
  batch_spec_verify V draft_probs draft_tokens first_child next_sibling samples order schedule (length ts)
    (map (fun t => Z.of_nat (node_id t)) ts) probs = Some (map Z.of_nat (walks probs).1, (walks probs).2).
Proof using All.
  intros Hsch Hm. unfold batch_spec_verify.
  destruct (blocks_start first_child next_sibling n [] ts Hrooted) as (blocks & Hb & Hs). cbn [app length] in Hb.
  rewrite Hb. cbn [mbind option_bind]. pose proof (Forall2_length _ _ _ Hs) as Hlen.
  destruct Hsch as [(Hnd & Hin & Hcount)|(fuel & Hf & ->)].
  - destruct (blocks_concurrent V draft_probs draft_tokens first_child next_sibling samples n draft_shape
      tokens_length tokens_range samples_length order probs ts schedule Horder Hnd
      (mkGrid blocks (map (fun t => Z.of_nat (node_id t)) ts) probs)) as (s' & -> & Hlb & Hlp & Hm' & Hout & Hc);
      cbn [gr_blocks gr_parent_ptr gr_probs]; try done; [by rewrite length_map| |].
    + intros b t Ht. right. destruct (Forall2_lookup_l _ _ _ _ _ Hs Ht) as (blk & Hblk & c & -> & Hl & Hid).
      destruct t as [id us]. cbn [node_id children] in *. exists id, c, us. cbn [gr_blocks gr_probs].
      rewrite descend_children. split_and!; try done; [apply incl_refl|exact (Hcount b _ Ht)].
    + cbn [mbind option_bind]. cbn in Hlb.
      destruct (batch_finished probs s' Hnd ltac:(lia) Hlp Hm Hm' Hout Hc) as (-> & -> & ->). done.
  - pose proof (blocks_in_turn V draft_probs draft_tokens first_child next_sibling samples n draft_shape
      tokens_length tokens_range samples_length order fuel ts blocks Horder Hs Hf [] [] probs eq_refl Hm) as E.
    cbn [app length] in E. rewrite E. cbn [mbind option_bind gr_blocks gr_parent_ptr gr_probs].
    replace (forallb is_none (map (fun _ : tree => None) ts)) with true; [done|].
    clear. induction ts as [|t ts' IH]; cbn; done.
Qed.
End Batch.

(** C6: the kernel terminates without an access outside its buffers (as many
    iterations of a block as its tree has nodes are enough) and leaves, for
    every element of the batch, the last accepted node of the walk down its
    tree and the distributions of the walk, whatever the order of the threads
    and, when the trees have no node in common, the interleaving of the blocks
    (trees that share nodes: when the blocks run one after the other). *)
Theorem batch_spec_verify_walks {F} `{ProbOps F} V n draft_probs draft_tokens first_child next_sibling
    samples order schedule ts probs :
  matrix n V draft_probs -> length draft_tokens = n ->
  Forall (fun t => 0 <= t < Z.of_nat V) draft_tokens -> length samples = n ->
  Permutation order (grid (nat_ceildiv V TX) TX) ->
  Forall (rooted first_child next_sibling n) ts -> schedule_of ts schedule -> matrix n V probs ->
  let r := descend_all V draft_probs draft_tokens samples ts probs in
  batch_spec_verify V draft_probs draft_tokens first_child next_sibling samples order schedule (length ts)
    (map (fun t => Z.of_nat (node_id t)) ts) probs = Some (map Z.of_nat r.1, r.2).
Proof. intros Hd Hl Ht Hs Ho Hts Hsch Hm. by apply (batch_refines V n). Qed.

(** ** Exact arithmetic *)

#[export] Instance Q_probs : ProbOps Q := {
  p_zero := 0%Q;
  p_eps := 1 # 10000000;
  p_add := Qplus; p_sub := Qminus; p_mul := Qmult; p_div := Qdiv;
  p_max a b := if Qle_bool a b then b else a;
  p_ge a b := Qle_bool b a;
  p_lt a b := negb (Qle_bool b a);
  allreduce l := fold_left Qplus l 0%Q;
}.

(** ** Concrete data: two tokens; a root with two children and a grandchild,
    and a root with one child *)

Module SpecVerifyExample.
Local Open Scope Q_scope.
Definition draft_probs : list (list Q) := [[1; 0]; [1; 0]; [1 # 4; 3 # 4]; [0; 1]; [1; 0]; [1 # 2; 1 # 2]].
Definition model_probs : list (list Q) :=
  [[1 # 2; 1 # 2]; [1; 0]; [0; 1]; [1 # 2; 1 # 2]; [1 # 3; 2 # 3]; [1; 0]].
Definition draft_tokens : list Z := [0; 0; 1; 1; 0; 0]%Z.
Definition first_child : list Z := [1; -1; 3; -1; 5; -1]%Z.
Definition next_sibling : list Z := [-1; 2; -1; -1; -1; -1]%Z.
Definition samples : list Q := [0; 3 # 4; 1 # 2; 1 # 3; 0; 1 # 4].
Definition root : tree := Node 0 [Node 1 []; Node 2 [Node 3 []]].
Definition root' : tree := Node 4 [Node 5 []].
Definition schedule : list nat := [0; 1; 1; 0; 0; 1; 0; 1; 0]%nat.

Lemma rooted_trees : Forall (rooted first_child next_sibling 6) [root; root'].
Proof.
  apply Forall_cons; split; [|apply Forall_cons; split; [|apply Forall_nil; done]];
    (split; [lia|]); [exists 1%Z|exists 5%Z]; (split; [done|]).
  - apply (linked_node _ _ _ 1%nat (-1) 2); [lia|done|constructor|done|].
    apply (linked_node _ _ _ 2%nat 3 (-1)); [lia|done| |done|constructor].
    apply (linked_node _ _ _ 3%nat (-1) (-1)); [lia|done|constructor|done|constructor].
  - apply (linked_node _ _ _ 5%nat (-1) (-1)); [lia|done|constructor|done|constructor].
Qed.

Lemma trees_disjoint : NoDup (forest_nodes [root; root']).
Proof. apply (bool_decide_unpack _). by vm_compute. Qed.

Lemma fair_schedule : schedule_of [root; root'] schedule.
Proof.
  left. split; [apply trees_disjoint|]. split; [unfold schedule; repeat constructor|].
  intros [|[|b]] t Hb; [| |done]; injection Hb as <-; vm_compute; lia.
Qed.

Lemma draft_matrix : matrix 6 2 draft_probs.
Proof. split; [done|]. repeat constructor. Qed.
Lemma model_matrix : matrix 6 2 model_probs.
Proof. split; [done|]. repeat constructor. Qed.

(** The blocks interleaved. *)
Lemma batch_spec_verify_walks_witness :
  let r := descend_all 2 draft_probs draft_tokens samples [root; root'] model_probs in
  batch_spec_verify 2 draft_probs draft_tokens first_child next_sibling samples (rev (grid 1 TX)) schedule 2 [0%Z; 4%Z]
    model_probs = Some (map Z.of_nat r.1, r.2).
Proof.
  apply (batch_spec_verify_walks 2 6 draft_probs draft_tokens first_child next_sibling samples
    (rev (grid 1 TX)) schedule [root; root'] model_probs).
  - apply draft_matrix.
  - done.
  - repeat constructor; lia.
  - done.
  - symmetry. apply Permutation_rev.
  - apply rooted_trees.
  - apply fair_schedule.
  - apply model_matrix.
Defined.

(** The first child is rejected, the second and its child are accepted. *)
Example last_nodes : (descend_all 2 draft_probs draft_tokens samples [root; root'] model_probs).1 = [3; 5]%nat.
Proof. vm_compute. reflexivity. Qed.
End SpecVerifyExample.
