(* ===== verification/SpecDistribution.v ===== *)
(** * Speculative decoding keeps the distribution of the model

    In exact arithmetic, when the draft tokens of the children of a node are
    drawn from their draft distributions and the samples are uniform, the token
    that follows the node after the kernel of [op/batch_spec_verify.py] has the
    distribution that the model gives it. *)

From Stdlib Require Import QArith Lqa.
From stdpp Require Import base list sets.
From S2P Require Import Prelude TirBuffer SpecVerify.
Local Open Scope Z_scope.
Local Open Scope Q_scope.

(** The sum of [f] over a list. *)
Definition qsum {X} (f : X -> Q) (l : list X) : Q := fold_right (fun x a => f x + a) 0 l.

Lemma qsum_nil {X} (f : X -> Q) : qsum f [] = 0.
Proof. done. Qed.
Lemma qsum_cons {X} (f : X -> Q) x l : qsum f (x :: l) = f x + qsum f l.
Proof. done. Qed.
#[local] Hint Rewrite @qsum_nil @qsum_cons : py.

Ltac qsum_induction l :=
  induction l as [|x l IH]; intros; cbn [app map flat_map List.filter fold_left]; autorewrite with py.

Lemma qsum_ext {X} (f g : X -> Q) l : (forall x, In x l -> f x == g x) -> qsum f l == qsum g l.
Proof.
  qsum_induction l; [reflexivity|]. rewrite IH by (intros y Hy; apply H; by right).
  by rewrite (H x) by (by left).
Qed.

Lemma qsum_app {X} (f : X -> Q) l l' : qsum f (l ++ l') == qsum f l + qsum f l'.
Proof. qsum_induction l; [|rewrite IH]; lra. Qed.

Lemma qsum_plus {X} (f g : X -> Q) l : qsum (fun x => f x + g x) l == qsum f l + qsum g l.
Proof. qsum_induction l; [|rewrite IH]; lra. Qed.

Lemma qsum_scale {X} (f : X -> Q) c l : qsum (fun x => f x / c) l == qsum f l / c.
Proof. qsum_induction l; [|rewrite IH]; unfold Qdiv; ring. Qed.

Lemma qsum_constant {X} (f : X -> Q) k l : qsum (fun x => f x * k) l == qsum f l * k.
Proof. qsum_induction l; [|rewrite IH]; ring. Qed.

Lemma qsum_zero {X} (l : list X) : qsum (fun _ => 0) l == 0.
Proof. qsum_induction l; [|rewrite IH]; reflexivity. Qed.

Lemma qsum_le {X} (f g : X -> Q) l : (forall x, In x l -> f x <= g x) -> qsum f l <= qsum g l.
Proof.
  qsum_induction l; [lra|]. pose proof (H x (or_introl eq_refl)).
  assert (qsum f l <= qsum g l) by (apply IH; intros y Hy; apply H; by right). lra.
Qed.

Lemma qsum_nonneg {X} (f : X -> Q) l : (forall x, In x l -> 0 <= f x) -> 0 <= qsum f l.
Proof.
  qsum_induction l; [lra|]. pose proof (H x (or_introl eq_refl)).
  assert (0 <= qsum f l) by (apply IH; intros y Hy; apply H; by right). lra.
Qed.

Lemma qsum_member {X} (f : X -> Q) l y : (forall x, In x l -> 0 <= f x) -> In y l -> f y <= qsum f l.
Proof.
  qsum_induction l; [done|]. pose proof (H x (or_introl eq_refl)).
  assert (0 <= qsum f l) by (apply qsum_nonneg; intros z Hz; apply H; by right).
  destruct H0 as [->|Hin]; [lra|].
  assert (f y <= qsum f l) by (apply IH; [intros z Hz; apply H; by right|done]). lra.
Qed.

Lemma qsum_Permutation {X} (f : X -> Q) l l' : Permutation l l' -> qsum f l == qsum f l'.
Proof.
  induction 1 as [|x l l' _ IH|x y l|l1 l2 l3 _ IH1 _ IH2]; autorewrite with py; [lra|lra|lra|].
  by rewrite IH1.
Qed.

Lemma qsum_filter {X} (f : X -> Q) (b : X -> bool) l :
  qsum f (List.filter b l) == qsum (fun x => if b x then f x else 0) l.
Proof. qsum_induction l; [lra|]. destruct (b x); autorewrite with py; rewrite IH; lra. Qed.

Lemma qsum_flat_map {X Y} (f : Y -> Q) (g : X -> list Y) l :
  qsum f (flat_map g l) == qsum (fun x => qsum f (g x)) l.
Proof. qsum_induction l; [lra|]. rewrite qsum_app, IH. lra. Qed.

Lemma qsum_map {X Y} (f : Y -> Q) (g : X -> Y) l : qsum f (map g l) = qsum (fun x => f (g x)) l.
Proof. qsum_induction l; [done|]. by rewrite IH. Qed.

Lemma fold_left_qsum {X} (f : X -> Q) l a : fold_left (fun acc x => acc + f x) l a == a + qsum f l.
Proof. revert a. qsum_induction l; [lra|]. rewrite IH. lra. Qed.

Lemma fold_left_if {X Y} (f : Y -> Q) (b : Y -> bool) (g : X -> Y) l a :
  fold_left (fun acc x => if b (g x) then acc + f (g x) else acc) l a ==
  a + qsum (fun x => if b (g x) then f (g x) else 0) l.
Proof. revert a. qsum_induction l; [lra|]. rewrite IH. destruct (b (g x)); lra. Qed.

(** *** The mass of the excess *)

Section Exact.
Variable vocab_size : nat.

Lemma p_max_spec a : (p_max a p_zero == a /\ 0 <= a) \/ (p_max a p_zero == 0 /\ a <= 0).
Proof.
  cbn. destruct (Qle_bool a 0) eqn:E.
  - right. apply Qle_bool_iff in E. by split.
  - left. split; [reflexivity|]. apply Qnot_lt_le. intros Hlt. apply Qlt_le_weak, Qle_bool_iff in Hlt. congruence.
Qed.

(** The numbers [i * TX + tx], thread by thread. *)
Lemma thread_numbers blocks : Permutation
  (flat_map (fun tx => map (fun i => i * TX + tx)%nat (seq 0 blocks)) (seq 0 TX)) (seq 0 (blocks * TX)).
Proof.
  apply NoDup_Permutation.
  - assert (Hg : forall l, NoDup l -> Forall (fun tx => tx < TX)%nat l ->
      NoDup (flat_map (fun tx => map (fun i => i * TX + tx)%nat (seq 0 blocks)) l)).
    { induction 1 as [|tx l Hx Hnd IH]; intros Hl; cbn; [constructor|]. apply Forall_cons in Hl as [Htx Hl].
      apply NoDup_app. split; [|split; [|by apply IH]].
      - apply NoDup_fmap_2; [|apply NoDup_seq]. intros i j Hij. unfold TX in *. lia.
      - intros k Hk Hin. rewrite list_elem_of_In in Hk, Hin. apply in_map_iff in Hk as (i & <- & _).
        apply in_flat_map in Hin as (tx' & Htx' & Hin). apply in_map_iff in Hin as (j & Hj & _).
        rewrite <- list_elem_of_In in Htx'. rewrite Forall_forall in Hl. pose proof (Hl tx' Htx') as Hlt.
        apply Hx. replace tx with tx'; [done|]. clear IH Hl Hnd Hx Htx'. unfold TX in *. lia. }
    apply Hg; [apply NoDup_seq|]. apply Forall_forall. intros tx Htx. apply list_elem_of_In, in_seq in Htx. lia.
  - apply NoDup_seq.
  - intros k. rewrite !list_elem_of_In, in_flat_map, in_seq. split.
    + intros (tx & Htx & Hk). apply in_map_iff in Hk as (i & <- & Hi). apply in_seq in Htx, Hi. nia.
    + intros Hk. exists (k mod TX)%nat. split; [apply in_seq; split; [lia|]; apply Nat.mod_upper_bound; by unfold TX|].
      apply in_map_iff. exists (k / TX)%nat. split.
      * rewrite (Nat.div_mod_eq k TX) at 3. lia.
      * apply in_seq. split; [lia|]. apply Nat.Div0.div_lt_upper_bound. lia.
Qed.

Lemma mass_sum p q : mass vocab_size p q == qsum (excess_at p q) (seq 0 vocab_size).
Proof.
  unfold mass. change (allreduce ?l) with (fold_left Qplus l 0).
  pose proof (nat_ceildiv_covers vocab_size TX ltac:(unfold TX; lia)) as Hc.
  set (blocks := nat_ceildiv vocab_size TX) in *.
  transitivity (qsum (fun x => x) (map (fun tx =>
    fold_left (fun acc i => let k := (i * TX + tx)%nat in
                            if Nat.ltb k vocab_size then p_add acc (excess_at p q k) else acc)
      (seq 0 blocks) p_zero) (seq 0 TX))).
  { rewrite (fold_left_qsum (fun x => x)). apply Qplus_0_l. }
  rewrite qsum_map.
  transitivity (qsum (fun tx => qsum (fun k => if Nat.ltb k vocab_size then excess_at p q k else 0)
    (map (fun i => (i * TX + tx)%nat) (seq 0 blocks))) (seq 0 TX)).
  - apply qsum_ext. intros tx _. rewrite qsum_map. cbv zeta.
    rewrite (fold_left_if (excess_at p q) (fun k => Nat.ltb k vocab_size) (fun i => (i * TX + tx)%nat)).
    apply Qplus_0_l.
  - rewrite <- (qsum_flat_map (fun k => if Nat.ltb k vocab_size then excess_at p q k else 0)).
    rewrite (qsum_Permutation _ _ _ (thread_numbers blocks)). rewrite <- qsum_filter.
    by rewrite filter_seq_ltb by done.
Qed.

(** *** The distribution of the outcome *)

(** The part of the uniform samples in [0, 1] that accept a token. *)
Definition accept_prob (p q : Q) : Q := if Qle_bool q p then 1 else p / q.

(** A parent with distribution [p] and children whose tokens are drawn from
    the distributions [qs]: the probability that the next token is [y], the
    token of the child that is accepted or, after the last child, a token drawn
    from the distribution that is left. *)
Fixpoint outcome (p : nat -> Q) (qs : list (nat -> Q)) (y : nat) : Q :=
  match qs with
  | [] => p y
  | q :: qs =>
      if p_lt (mass vocab_size p q) p_eps then q y
      else q y * accept_prob (p y) (q y) +
           qsum (fun x => q x * (1 - accept_prob (p x) (q x))) (seq 0 vocab_size) *
           outcome (residual vocab_size p q) qs y
  end.

Definition distribution (p : nat -> Q) : Prop :=
  (forall k, 0 <= p k) /\ qsum p (seq 0 vocab_size) == 1.

(** Every excess that is met is at least the threshold. *)
Fixpoint never_negligible (p : nat -> Q) (qs : list (nat -> Q)) : Prop :=
  match qs with
  | [] => True
  | q :: qs => p_lt (mass vocab_size p q) p_eps = false /\ never_negligible (residual vocab_size p q) qs
  end.

Lemma accept_prob_test p q u : 0 <= p -> 0 <= q -> 0 <= u -> u <= 1 ->
  p_ge p (p_mul u q) = true <-> u <= accept_prob p q.
Proof.
  intros Hp Hq Hu0 Hu1. unfold accept_prob. cbn [p_ge p_mul Q_probs]. rewrite Qle_bool_iff.
  destruct (Qle_bool q p) eqn:E.
  - apply Qle_bool_iff in E. split; intros _; [done|].
    pose proof (Qmult_le_compat_r u 1 q Hu1 Hq). lra.
  - assert (Hlt : p < q) by (apply Qnot_le_lt; intros Hle%Qle_bool_iff; congruence).
    assert (Hq0 : 0 < q) by lra. split; intros H1.
    + apply Qle_shift_div_l; done.
    + apply (Qmult_le_compat_r _ _ q) in H1; [|done]. unfold Qdiv in H1.
      rewrite <- Qmult_assoc, (Qmult_comm (/ q)), Qmult_inv_r, Qmult_1_r in H1 by lra. done.
Qed.

Lemma accepted_part p q : 0 <= p -> 0 <= q ->
  q * accept_prob p q == q - p_max (p_sub q p) p_zero /\
  q - p_max (p_sub q p) p_zero == p - p_max (p_sub p q) p_zero /\
  q * (1 - accept_prob p q) == p_max (p_sub q p) p_zero.
Proof.
  intros Hp Hq. assert (H1 : q * accept_prob p q == q - p_max (p_sub q p) p_zero).
  { unfold accept_prob. pose proof (p_max_spec (p_sub q p)) as Hm. cbn [p_sub Q_probs] in *.
    destruct (Qle_bool q p) eqn:E.
    - apply Qle_bool_iff in E. destruct Hm as [[Hm1 Hm2]|[Hm1 Hm2]]; rewrite Hm1; lra.
    - assert (Hlt : p < q) by (apply Qnot_le_lt; intros Hle%Qle_bool_iff; congruence).
      destruct Hm as [[Hm1 Hm2]|[Hm1 Hm2]]; rewrite Hm1; [|lra].
      rewrite Qmult_div_r by lra. lra. }
  split; [done|]. split.
  - pose proof (p_max_spec (p_sub q p)) as Hm1. pose proof (p_max_spec (p_sub p q)) as Hm2.
    cbn [p_sub Q_probs] in *.
    destruct Hm1 as [[-> Ha]|[-> Ha]], Hm2 as [[-> Hb]|[-> Hb]]; lra.
  - transitivity (q - q * accept_prob p q); [ring|]. rewrite H1. ring.
Qed.

Lemma excess_nonneg p q k : 0 <= excess_at p q k.
Proof. unfold excess_at. destruct (p_max_spec (p_sub (p k) (q k))) as [[-> Ha]|[-> Ha]]; lra. Qed.

Lemma excess_diff p q k : p k - q k == excess_at p q k - excess_at q p k.
Proof.
  unfold excess_at. pose proof (p_max_spec (p_sub (q k) (p k))) as Hm1.
  pose proof (p_max_spec (p_sub (p k) (q k))) as Hm2. cbn [p_sub Q_probs] in *.
  destruct Hm1 as [[-> Ha]|[-> Ha]], Hm2 as [[-> Hb]|[-> Hb]]; lra.
Qed.

(** Two distributions exceed each other by the same mass. *)
Lemma mass_sym p q : distribution p -> distribution q -> mass vocab_size p q == mass vocab_size q p.
Proof.
  intros [_ Hp] [_ Hq]. rewrite !mass_sum.
  assert (E : qsum (fun k => excess_at p q k + q k) (seq 0 vocab_size) ==
              qsum (fun k => excess_at q p k + p k) (seq 0 vocab_size)).
  { apply qsum_ext. intros k _. pose proof (excess_diff p q k). lra. }
  rewrite !qsum_plus, Hp, Hq in E. lra.
Qed.

Lemma mass_range p q : distribution p -> distribution q -> 0 <= mass vocab_size p q /\ mass vocab_size p q <= 1.
Proof.
  intros Hp Hq. rewrite mass_sum. split; [apply qsum_nonneg; intros; apply excess_nonneg|].
  destruct Hp as [Hp0 <-], Hq as [Hq0 _]. apply qsum_le. intros k _. unfold excess_at.
  pose proof (Hp0 k). pose proof (Hq0 k).
  pose proof (p_max_spec (p_sub (p k) (q k))) as Hm. cbn [p_sub Q_probs] in *. destruct Hm as [[-> ?]|[-> ?]]; lra.
Qed.

Lemma p_lt_false a : p_lt a p_eps = false -> 0 < a.
Proof.
  cbn [p_lt p_eps Q_probs]. rewrite negb_false_iff, Qle_bool_iff. intros Hle.
  eapply Qlt_le_trans; [|exact Hle]. reflexivity.
Qed.

Lemma p_lt_true a : p_lt a p_eps = true -> a < p_eps.
Proof.
  intros Hlt. apply Qnot_le_lt. intros Hle%Qle_bool_iff. cbn [p_lt p_eps Q_probs] in *.
  rewrite Hle in Hlt. discriminate Hlt.
Qed.

Lemma not_negligible p q : p_lt (mass vocab_size p q) p_eps = false -> 0 < mass vocab_size p q.
Proof. apply p_lt_false. Qed.

(** Both excesses of a token are below the mass. *)
Lemma close_bound (a b x y m e : Q) : x - y == a - b -> 0 <= a -> 0 <= b -> a <= m -> b <= m -> m < e ->
  - e <= y - x /\ y - x <= e.
Proof. intros. lra. Qed.

Lemma residual_distribution p q : distribution p -> distribution q ->
  p_lt (mass vocab_size p q) p_eps = false -> distribution (residual vocab_size p q).
Proof.
  intros Hp Hq Hm%not_negligible. split.
  - intros k. unfold residual. cbn [p_div Q_probs]. apply Qle_shift_div_l; [done|].
    rewrite Qmult_0_l. apply excess_nonneg.
  - unfold residual. cbn [p_div Q_probs]. rewrite qsum_scale, <- mass_sum. apply Qmult_inv_r. lra.
Qed.

(** The probability of a rejection is the mass of the excess. *)
Lemma rejected p q : distribution p -> distribution q ->
  qsum (fun x => q x * (1 - accept_prob (p x) (q x))) (seq 0 vocab_size) == mass vocab_size p q.
Proof.
  intros Hp Hq. rewrite mass_sym, mass_sum by done. apply qsum_ext. intros k _.
  destruct (accepted_part (p k) (q k)) as (_ & _ & E); [apply Hp|apply Hq|]. exact E.
Qed.

Lemma one_round p q y r : distribution p -> distribution q ->
  p_lt (mass vocab_size p q) p_eps = false ->
  q y * accept_prob (p y) (q y) +
  qsum (fun x => q x * (1 - accept_prob (p x) (q x))) (seq 0 vocab_size) * r ==
  p y + mass vocab_size p q * (r - residual vocab_size p q y).
Proof.
  intros Hp Hq Hm%not_negligible. rewrite rejected by done.
  destruct (accepted_part (p y) (q y)) as (E1 & E2 & _); [apply Hp|apply Hq|]. rewrite E1, E2.
  assert (E3 : mass vocab_size p q * residual vocab_size p q y == excess_at p q y).
  { apply Qmult_div_r. lra. }
  unfold excess_at in E3. lra.
Qed.

Lemma scaled_bound m d e : 0 <= m -> m <= 1 -> - e <= d -> d <= e -> - e <= m * d /\ m * d <= e.
Proof.
  intros H0 H1 H2 H3.
  assert (E1 : m * d <= m * e) by (rewrite !(Qmult_comm m); by apply Qmult_le_compat_r).
  assert (E2 : m * (- e) <= m * d) by (rewrite !(Qmult_comm m); by apply Qmult_le_compat_r).
  assert (E3 : m * e <= 1 * e) by (apply Qmult_le_compat_r; [done|lra]).
  assert (E4 : m * (- e) == - (m * e)) by ring. lra.
Qed.

Lemma cancel_bound (a m r : Q) : a + m * (r - r) == a.
Proof. ring. Qed.

Lemma negligible_close p q y : (y < vocab_size)%nat -> distribution p -> distribution q ->
  p_lt (mass vocab_size p q) p_eps = true -> - p_eps <= q y - p y /\ q y - p y <= p_eps.
Proof.
  intros Hy Hp Hq Hlt.
  assert (Hm := p_lt_true _ Hlt). assert (Hin : In y (seq 0 vocab_size)) by (apply in_seq; lia).
  pose proof (qsum_member (excess_at p q) _ y (fun k _ => excess_nonneg p q k) Hin) as Hm1.
  pose proof (qsum_member (excess_at q p) _ y (fun k _ => excess_nonneg q p k) Hin) as Hm2.
  rewrite <- mass_sum in Hm1. rewrite <- mass_sum, mass_sym in Hm2 by done.
  exact (close_bound _ _ _ _ _ _ (excess_diff p q y) (excess_nonneg p q y) (excess_nonneg q p y) Hm1 Hm2 Hm).
Qed.
End Exact.

Lemma outcome_bound V p qs y : (y < V)%nat -> distribution V p -> Forall (distribution V) qs ->
  (outcome V p qs y - p y <= p_eps /\ - p_eps <= outcome V p qs y - p y) /\
  (never_negligible V p qs -> outcome V p qs y == p y).
Proof.
  intros Hy Hp Hqs. split.
  - revert p Hp. induction Hqs as [|q qs Hq _ IH]; intros p Hp; cbn [outcome].
    + assert (E : p y - p y == 0) by ring. rewrite E. by split.
    + destruct (p_lt (mass V p q) p_eps) eqn:E.
      * destruct (negligible_close V p q y Hy Hp Hq E) as [Hlo Hhi]. by split.
      * rewrite one_round by done. destruct (IH _ (residual_distribution V p q Hp Hq E)) as [Hhi Hlo].
        destruct (mass_range V p q Hp Hq) as [Hm0 Hm1].
        destruct (scaled_bound _ _ p_eps Hm0 Hm1 Hlo Hhi) as [Hs1 Hs2]. split; lra.
  - revert p Hp. induction Hqs as [|q qs Hq _ IH]; intros p Hp; cbn [outcome never_negligible]; [reflexivity|].
    intros [E Hn]. rewrite E, one_round by done. rewrite (IH _ (residual_distribution V p q Hp Hq E) Hn).
    apply cancel_bound.
Qed.

(** *** Random draws *)

(** [v] is the mean of what [value] gives for a sample that is uniform in
    [0, 1]: one value up to a point and one after it. *)
Definition uniform_mean (value : Q -> Q -> Prop) (v : Q) : Prop :=
  exists a v1 v2, 0 <= a /\ a <= 1 /\ (forall u, 0 <= u -> u <= a -> value u v1) /\
    (forall u, a < u -> u <= 1 -> value u v2) /\ v == a * v1 + (1 - a) * v2.

(** [v] is the expectation of what [value] gives for the draft tokens and the
    uniform samples of the kernel, when the token of every child in [cs] is
    drawn from its draft distribution and its sample is uniform; the others are
    given. *)
Fixpoint expectation (V : nat) (draft_probs : list (list Q)) (cs : list nat) (draft_tokens : list Z)
    (uniform_samples : list Q) (value : list Z -> list Q -> Q -> Prop) (v : Q) : Prop :=
  match cs with
  | [] => value draft_tokens uniform_samples v
  | c :: cs =>
      exists w : nat -> Q,
        (forall x, (x < V)%nat -> uniform_mean (fun u =>
           expectation V draft_probs cs (<[c := Z.of_nat x]> draft_tokens) (<[c := u]> uniform_samples) value) (w x)) /\
        v == qsum (fun x => entry draft_probs c x * w x) (seq 0 V)
  end.

(** The child of the root that is above the node [i] or is [i]. *)
Definition child_above (ts : list tree) (i : nat) : option nat :=
  option_map node_id (List.find (fun t => existsb (Nat.eqb i) (nodes t)) ts).

(** What follows the root of the tree [t], the element [b] of the batch, after
    the kernel has left [r]: the token of the child that was accepted, or a
    token drawn from the distribution that is left.  The probability of [y]. *)
Definition next_token (b : nat) (t : tree) (draft_tokens : list Z) (y : nat) (r : list Z * list (list Q)) : Q :=
  let last := Z.to_nat (default (-1)%Z (r.1 !! b)) in
  if (last =? node_id t)%nat then entry r.2 (node_id t) y
  else match child_above (children t) last with
       | Some c => if bool_decide (draft_tokens !! c = Some (Z.of_nat y)) then 1 else 0
       | None => 0
       end.

Lemma uniform_mean_unique value v v' : (forall u w w', value u w -> value u w' -> w == w') ->
  uniform_mean value v -> uniform_mean value v' -> v == v'.
Proof.
  intros Hf (a & v1 & v2 & Ha0 & Ha1 & H1 & H2 & ->) (a' & v1' & v2' & Ha0' & Ha1' & H1' & H2' & ->).
  assert (E1 : v1 == v1') by (apply (Hf 0); [apply H1|apply H1']; lra).
  assert (E2 : a < 1 -> a' < 1 -> v2 == v2') by (intros; apply (Hf 1); [apply H2|apply H2']; lra).
  destruct (Q_dec a a') as [[Hlt|Hgt]|Heq].
  - assert (E3 : v2 == v1') by (apply (Hf a'); [apply H2|apply H1']; lra).
    destruct (Qlt_le_dec a' 1) as [Hl|Hl].
    + rewrite <- E2, E3, E1 by lra. ring.
    + assert (Ea : a' == 1) by lra. rewrite E3, E1, Ea. ring.
  - assert (E3 : v2' == v1) by (apply (Hf a); [apply H2'|apply H1]; lra).
    destruct (Qlt_le_dec a 1) as [Hl|Hl].
    + rewrite E2, E3, E1 by lra. ring.
    + assert (Ea : a == 1) by lra. rewrite E3, E1, Ea. ring.
  - destruct (Qlt_le_dec a 1) as [Hl|Hl].
    + rewrite E1, E2, Heq by lra. ring.
    + assert (Ea : a == 1) by lra. rewrite E1, <- Heq, Ea. ring.
Qed.

Lemma uniform_mean_mono (R R' : Q -> Q -> Prop) v : (forall u w, R u w -> R' u w) ->
  uniform_mean R v -> uniform_mean R' v.
Proof. intros H (a & v1 & v2 & H1 & H2 & H3 & H4 & H5). exists a, v1, v2. split_and!; auto. Qed.

Section Draws.
Variables (V n : nat) (draft_probs : list (list Q)).

Lemma expectation_unique cs value : (forall tokens samples v v', value tokens samples v -> value tokens samples v' -> v == v') ->
  forall tokens samples v v', expectation V draft_probs cs tokens samples value v ->
  expectation V draft_probs cs tokens samples value v' -> v == v'.
Proof.
  intros Hf. induction cs as [|c cs IH]; intros tokens samples v v'; cbn [expectation]; [apply Hf|].
  intros (w & Hw & ->) (w' & Hw' & ->). apply qsum_ext. intros x Hx%in_seq.
  assert (E : w x == w' x); [|by rewrite E].
  eapply uniform_mean_unique; [|apply Hw; lia|apply Hw'; lia]. intros u w1 w2. apply IH.
Qed.

(** The draws the kernel can read: one token of the vocabulary and one sample
    per node. *)
Definition drawn (tokens : list Z) (samples : list Q) : Prop :=
  length tokens = n /\ Forall (fun t => 0 <= t < Z.of_nat V)%Z tokens /\ length samples = n.

Lemma drawn_insert tokens samples c x u : (x < V)%nat -> drawn tokens samples ->
  drawn (<[c := Z.of_nat x]> tokens) (<[c := u]> samples).
Proof. intros Hx (H1 & H2 & H3). split_and!; rewrite ?length_insert; try done. apply Forall_insert; [done|]. lia. Qed.

(** The expectation depends on the draws of the children only. *)
Lemma expectation_mono cs (value value' : list Z -> list Q -> Q -> Prop) : forall tokens samples v,
  (forall tokens' samples' w, drawn tokens' samples' ->
     (forall c, c ∉ cs -> tokens' !! c = tokens !! c /\ samples' !! c = samples !! c) ->
     value tokens' samples' w -> value' tokens' samples' w) ->
  drawn tokens samples ->
  expectation V draft_probs cs tokens samples value v -> expectation V draft_probs cs tokens samples value' v.
Proof.
  induction cs as [|c cs IH]; intros tokens samples v Hv Hd; cbn [expectation]; [by apply Hv|].
  intros (w & Hw & Hsum). exists w. split; [|done]. intros x Hx. eapply uniform_mean_mono; [|by apply Hw].
  intros u w' He. eapply IH; [|by apply drawn_insert|exact He].
  intros tokens' samples' w'' Hd' Hsame. apply Hv; [done|]. intros c' Hc'. apply not_elem_of_cons in Hc' as [Hne Hc'].
  destruct (Hsame c' Hc') as [-> ->]. by rewrite !list_lookup_insert_ne by done.
Qed.

Lemma expectation_constant cs (value : list Z -> list Q -> Q -> Prop) k : forall tokens samples,
  Forall (fun c => distribution V (entry draft_probs c)) cs ->
  (forall tokens' samples' v, drawn tokens' samples' ->
     (forall c, c ∉ cs -> tokens' !! c = tokens !! c /\ samples' !! c = samples !! c) ->
     v == k -> value tokens' samples' v) ->
  drawn tokens samples -> forall v, v == k -> expectation V draft_probs cs tokens samples value v.
Proof.
  induction cs as [|c cs IH]; intros tokens samples Hq Hv Hd v Hvk; cbn [expectation]; [by apply Hv|].
  apply Forall_cons in Hq as [[_ Hq] Hqs]. exists (fun _ => k). split.
  - intros x Hx. assert (He : forall u, expectation V draft_probs cs (<[c:=Z.of_nat x]> tokens) (<[c:=u]> samples) value k).
    { intros u. apply IH; [done| |by apply drawn_insert|reflexivity].
      intros tokens' samples' v' Hd' Hsame. apply Hv; [done|]. intros c' Hc'. apply not_elem_of_cons in Hc' as [Hne Hc'].
      destruct (Hsame c' Hc') as [-> ->]. by rewrite !list_lookup_insert_ne by done. }
    exists 1, k, k. split_and!; [lra|lra|by intros|by intros|ring].
  - rewrite Hvk. transitivity (qsum (entry draft_probs c) (seq 0 V) * k); [rewrite Hq; ring|].
    symmetry. apply qsum_constant.
Qed.

Lemma fold_left_ext {X Y} (f g : Y -> X -> Y) l a : (forall a x, In x l -> f a x = g a x) ->
  fold_left f l a = fold_left g l a.
Proof.
  revert a. induction l as [|x l IH]; intros a Hf; cbn; [done|]. rewrite Hf by (by left).
  apply IH. intros; apply Hf; by right.
Qed.

Lemma mass_ext (p p' q : nat -> Q) : (forall k, (k < V)%nat -> p k = p' k) -> mass V p q = mass V p' q.
Proof.
  intros Hp. unfold mass. f_equal. apply map_ext. intros tx. apply fold_left_ext. intros a i _. cbv zeta.
  destruct (Nat.ltb_spec (i * TX + tx) V); [|done]. unfold excess_at. by rewrite Hp.
Qed.

Lemma outcome_ext qs p p' y : (y < V)%nat -> (forall k, (k < V)%nat -> p k = p' k) ->
  outcome V p qs y = outcome V p' qs y.
Proof.
  intros Hy. revert p p'. induction qs as [|q qs IH]; intros p p' Hp; cbn [outcome]; [by apply Hp|].
  rewrite (mass_ext p p' q Hp). destruct (p_lt _ _); [done|]. rewrite (Hp y Hy). f_equal. f_equal.
  - unfold qsum. generalize (eq_refl (seq 0 V)). generalize (seq 0 V) at 1 3 4. intros l Hl.
    assert (Hin : forall x, In x l -> (x < V)%nat) by (intros x; rewrite Hl, in_seq; lia). clear Hl.
    induction l as [|x l IHl]; cbn; [done|]. rewrite (Hp x) by (apply Hin; by left).
    f_equal. apply IHl. intros; apply Hin; by right.
  - apply IH. intros k Hk. unfold residual, excess_at. by rewrite (mass_ext p p' q Hp), (Hp k Hk).
Qed.

(** *** The children of a node *)

Variables (id y : nat) (above : nat -> option nat).
Hypothesis y_range : (y < V)%nat.

Lemma entry_set_row probs f k : (id < length probs)%nat ->
  entry (set_row V probs id f) id k = if (k <? V)%nat then f k else 0.
Proof.
  intros Hid. unfold entry at 1, at2, set_row. rewrite list_lookup_insert_eq by done. cbn [mbind option_bind].
  rewrite list_lookup_fmap. destruct (Nat.ltb_spec k V); [by rewrite lookup_seq_lt by done|].
  by rewrite lookup_seq_ge by done.
Qed.

Lemma accept_prob_range p q : 0 <= p -> 0 <= q -> 0 <= accept_prob p q /\ accept_prob p q <= 1.
Proof.
  intros Hp Hq. unfold accept_prob. destruct (Qle_bool q p) eqn:E; [lra|].
  assert (Hlt : p < q) by (apply Qnot_le_lt; intros Hle%Qle_bool_iff; congruence).
  split; [apply Qle_shift_div_l; lra|apply Qle_shift_div_r; lra].
Qed.

Lemma qsum_indicator (f : nat -> Q) l : NoDup l -> In y l ->
  qsum (fun x => f x * (if (x =? y)%nat then 1 else 0)) l == f y.
Proof.
  induction l as [|x l IH]; intros Hnd Hin; [done|]. apply NoDup_cons in Hnd as [Hx Hnd]. autorewrite with py.
  destruct (Nat.eqb_spec x y) as [->|Hne].
  - assert (E : qsum (fun x => f x * (if (x =? y)%nat then 1 else 0)) l == qsum (fun _ => 0) l).
    { apply qsum_ext. intros z Hz. destruct (Nat.eqb_spec z y) as [->|]; [|ring].
      exfalso. by apply Hx, list_elem_of_In. }
    rewrite E, qsum_zero. ring.
  - rewrite IH; [ring|done|]. by destruct Hin.
Qed.

(** The probability that [y] follows the node, given where the walk ended. *)
Definition follows (tokens : list Z) (r : nat * list (list Q)) : Q :=
  if (r.1 =? id)%nat then entry r.2 id y
  else match above r.1 with
       | Some c => if bool_decide (tokens !! c = Some (Z.of_nat y)) then 1 else 0
       | None => 0
       end.

(** A child that was accepted. *)
Lemma follows_child tokens samples t probs x :
  (forall i, In i (nodes t) -> above i = Some (node_id t) /\ i <> id) ->
  tokens !! node_id t = Some (Z.of_nat x) ->
  follows tokens (descend V draft_probs tokens samples t probs) = if (x =? y)%nat then 1 else 0.
Proof.
  intros Ha Ht. unfold follows. destruct (Ha _ (descend_inside V draft_probs tokens samples t probs)) as [-> Hne].
  rewrite (proj2 (Nat.eqb_neq _ _)) by done. rewrite Ht.
  destruct (Nat.eqb_spec x y) as [->|Hxy]; [by rewrite bool_decide_eq_true_2|].
  rewrite bool_decide_eq_false_2; [done|]. intros [= E]. lia.
Qed.

Lemma expectation_children ts (value : list Z -> list Q -> Q -> Prop) : forall probs tokens samples,
  drawn tokens samples -> (id < length probs)%nat -> (forall k, 0 <= entry probs id k) ->
  Forall (fun t => node_id t < n)%nat ts -> NoDup (map node_id ts) ->
  Forall (fun t => distribution V (entry draft_probs (node_id t))) ts ->
  (forall t i, In t ts -> In i (nodes t) -> above i = Some (node_id t) /\ i <> id) ->
  (forall tokens' samples' v, drawn tokens' samples' ->
     (forall c, c ∉ map node_id ts -> tokens' !! c = tokens !! c /\ samples' !! c = samples !! c) ->
     v == follows tokens' (try_children V draft_probs tokens' samples' id ts probs) -> value tokens' samples' v) ->
  expectation V draft_probs (map node_id ts) tokens samples value
    (outcome V (entry probs id) (map (fun t => entry draft_probs (node_id t)) ts) y).
Proof using y_range.
  induction ts as [|t ts IH]; intros probs tokens samples Hd Hid Hp Hn Hnd Hq Ha Hv; cbn [map expectation outcome].
  { apply Hv; [done|done|]. cbn. unfold follows. cbn [fst snd]. by rewrite Nat.eqb_refl. }
  apply Forall_cons in Hn as [Hc Hn]. apply Forall_cons in Hq as [Hqc Hq]. apply NoDup_cons in Hnd as [Hnew Hnd].
  set (c := node_id t) in *. set (p := entry probs id) in *. set (q := entry draft_probs c) in *.
  assert (Hqs : Forall (fun c => distribution V (entry draft_probs c)) (map node_id ts)) by (by apply Forall_map).
  assert (Hat : forall i, In i (nodes t) -> above i = Some c /\ i <> id) by (intros i; apply Ha; by left).
  (* the draws of this child stay *)
  assert (Hkeep : forall x u (tokens' : list Z) (samples' : list Q), (x < V)%nat ->
    (forall c', c' ∉ map node_id ts -> tokens' !! c' = <[c:=Z.of_nat x]> tokens !! c' /\ samples' !! c' = <[c:=u]> samples !! c') ->
    tokens' !! c = Some (Z.of_nat x) /\ samples' !! c = Some u /\
    forall c', c' ∉ c :: map node_id ts -> tokens' !! c' = tokens !! c' /\ samples' !! c' = samples !! c').
  { intros x u tokens' samples' Hx Hsame. destruct Hd as (Hl1 & _ & Hl2). destruct (Hsame c Hnew) as [-> ->].
    rewrite !list_lookup_insert_eq by lia. split_and!; [done..|]. intros c' Hc'. apply not_elem_of_cons in Hc' as [Hne Hc'].
    destruct (Hsame c' Hc') as [-> ->]. by rewrite !list_lookup_insert_ne by done. }
  (* the child is taken: its token follows *)
  assert (Htake : forall x u, (x < V)%nat ->
    (forall (tokens' : list Z) (samples' : list Q), tokens' !! c = Some (Z.of_nat x) -> samples' !! c = Some u ->
       try_children V draft_probs tokens' samples' id (t :: ts) probs = descend V draft_probs tokens' samples' t probs) ->
    expectation V draft_probs (map node_id ts) (<[c:=Z.of_nat x]> tokens) (<[c:=u]> samples) value
      (if (x =? y)%nat then 1 else 0)).
  { intros x u Hx Htry. eapply expectation_constant; [done| |by apply drawn_insert|reflexivity].
    intros tokens' samples' v Hd' Hsame Hvx. destruct (Hkeep x u tokens' samples' Hx Hsame) as (H1 & H2 & H3).
    apply Hv; [done|done|]. rewrite Htry by done. by rewrite (follows_child tokens' samples' t probs x). }
  destruct (p_lt (mass V p q) p_eps) eqn:Elt.
  - exists (fun x => if (x =? y)%nat then 1 else 0). split.
    + intros x Hx. exists 1, (if (x =? y)%nat then 1 else 0), (if (x =? y)%nat then 1 else 0).
      split_and!; [lra|lra|intros u Hu0 Hu1|intros u Hu0 Hu1|ring]; (apply Htake; [done|]);
        intros tokens' samples' _ _; cbn [try_children]; fold c p q; rewrite Elt; by destruct (accepted _ _ _ _ _ _).
    + symmetry. apply (qsum_indicator q); [apply NoDup_seq|apply in_seq; lia].
  - set (rest := outcome V (residual V p q) (map (fun t => entry draft_probs (node_id t)) ts) y).
    assert (Hacc : forall x u (tokens' : list Z) (samples' : list Q), (x < V)%nat -> tokens' !! c = Some (Z.of_nat x) -> samples' !! c = Some u ->
      accepted draft_probs tokens' samples' probs id c = p_ge (p x) (p_mul u (q x))).
    { intros x u tokens' samples' Hx H1 H2. unfold accepted. rewrite H1, H2. cbn. by rewrite Nat2Z.id. }
    assert (Hq0 : forall x, 0 <= q x) by apply Hqc.
    exists (fun x => accept_prob (p x) (q x) * (if (x =? y)%nat then 1 else 0) + (1 - accept_prob (p x) (q x)) * rest). split.
    + intros x Hx. destruct (accept_prob_range (p x) (q x) (Hp x) (Hq0 x)) as [Ha0 Ha1].
      exists (accept_prob (p x) (q x)), (if (x =? y)%nat then 1 else 0), rest. split_and!; [done|done| | |reflexivity].
      * intros u Hu0 Hu1. apply Htake; [done|]. intros tokens' samples' H1 H2. cbn [try_children]. fold c.
        rewrite (Hacc x u tokens' samples' Hx H1 H2).
        by rewrite (proj2 (accept_prob_test (p x) (q x) u (Hp x) (Hq0 x) Hu0 ltac:(lra)) Hu1).
      * intros u Hu0 Hu1. set (probs' := set_row V probs id (residual V p q)).
        assert (E : outcome V (entry probs' id) (map (fun t => entry draft_probs (node_id t)) ts) y = rest).
        { apply outcome_ext; [done|]. intros k Hk. unfold probs'. rewrite entry_set_row by done.
          by rewrite (proj2 (Nat.ltb_lt k V)) by done. }
        rewrite <- E. apply IH; [by apply drawn_insert|unfold probs', set_row; by rewrite length_insert| | | | | | ].
        -- intros k. unfold probs'. rewrite entry_set_row by done. destruct (k <? V)%nat; [|lra].
           unfold residual. cbn [p_div Q_probs]. apply Qle_shift_div_l; [by apply not_negligible|].
           rewrite Qmult_0_l. apply excess_nonneg.
        -- assumption.
        -- assumption.
        -- assumption.
        -- intros t' i Ht'. apply Ha. by right.
        -- intros tokens' samples' v Hd' Hsame Hvf. destruct (Hkeep x u tokens' samples' Hx Hsame) as (H1 & H2 & H3).
           apply Hv; [done|done|]. rewrite Hvf. cbn [try_children]. fold c p q.
           rewrite (Hacc x u tokens' samples' Hx H1 H2), Elt.
           destruct (p_ge (p x) (p_mul u (q x))) eqn:Ege; [|reflexivity]. exfalso.
           apply (accept_prob_test (p x) (q x) u (Hp x) (Hq0 x) ltac:(lra) Hu1) in Ege. lra.
    + transitivity (qsum (fun x => q x * accept_prob (p x) (q x) * (if (x =? y)%nat then 1 else 0) +
        q x * (1 - accept_prob (p x) (q x)) * rest) (seq 0 V)); [|apply qsum_ext; intros; ring].
      rewrite qsum_plus, qsum_constant.
      rewrite (qsum_indicator (fun x => q x * accept_prob (p x) (q x))); [reflexivity|apply NoDup_seq|apply in_seq; lia].
Qed.
End Draws.

Lemma child_above_node ts t i : NoDup (forest_nodes ts) -> In t ts -> In i (nodes t) -> child_above ts i = Some (node_id t).
Proof.
  unfold child_above, forest_nodes. induction ts as [|t0 ts IH]; intros Hnd Hin Hi; [done|].
  cbn in Hnd. apply NoDup_app in Hnd as (_ & Hd & Hnd). cbn [List.find].
  destruct (existsb (Nat.eqb i) (nodes t0)) eqn:E.
  - destruct Hin as [->|Hin]; [done|]. exfalso. apply existsb_exists in E as (j & Hj & <-%Nat.eqb_eq).
    apply (Hd i); apply list_elem_of_In; [done|]. apply in_flat_map. by exists t.
  - destruct Hin as [->|Hin]; [|by apply IH]. exfalso. apply not_true_iff_false in E. apply E, existsb_exists.
    exists i. split; [done|]. apply Nat.eqb_refl.
Qed.

Lemma linked_range first_child next_sibling n ptr ts : linked first_child next_sibling n ptr ts ->
  Forall (fun t => node_id t < n)%nat ts.
Proof. induction 1 as [|id c s ts ts' Hid _ _ _ _ _ IH]; constructor; [done|exact IH]. Qed.

Lemma children_incl ts : incl (map node_id ts) (forest_nodes ts).
Proof.
  intros i (t & <- & Hin)%in_map_iff. apply in_flat_map. exists t. split; [done|]. destruct t. by left.
Qed.

Lemma children_NoDup ts : NoDup (forest_nodes ts) -> NoDup (map node_id ts).
Proof.
  unfold forest_nodes. induction ts as [|t ts IH]; intros Hnd; cbn; constructor; cbn in Hnd;
    apply NoDup_app in Hnd as (_ & Hd & Hnd); [|by apply IH].
  intros Hin. apply list_elem_of_In, children_incl in Hin. apply (Hd (node_id t)); apply list_elem_of_In; [|done].
  destruct t. by left.
Qed.

(** What the kernel leaves for the tree [Node id us] of the batch. *)
Lemma next_token_follows V n draft_probs tokens first_child next_sibling samples order schedule ts b id us probs y :
  matrix n V draft_probs -> drawn V n tokens samples -> Permutation order (grid (nat_ceildiv V TX) TX) ->
  Forall (rooted first_child next_sibling n) ts -> NoDup (forest_nodes ts) -> schedule_of ts schedule ->
  matrix n V probs -> ts !! b = Some (Node id us) ->
  exists r, batch_spec_verify V draft_probs tokens first_child next_sibling samples order schedule (length ts)
      (map (fun t => Z.of_nat (node_id t)) ts) probs = Some r /\
    next_token b (Node id us) tokens y r =
    follows id y (child_above us) tokens (try_children V draft_probs tokens samples id us probs).
Proof.
  intros Hd (Hl & Ht & Hs) Ho Hr Hnd Hsch Hm Hb. eexists. split; [by apply (batch_refines V n)|].
  destruct (descend_all_disjoint V draft_probs tokens samples ts probs b _ Hnd Hb) as [E1 E2].
  rewrite <- descend_children. set (d := descend V draft_probs tokens samples (Node id us) probs) in *.
  unfold next_token, follows. cbn [fst snd node_id children]. rewrite list_lookup_fmap, E1.
  change (default (-1)%Z (Z.of_nat <$> Some d.1)) with (Z.of_nat d.1). rewrite Nat2Z.id.
  by rewrite <- (entry_row _ _ id (E2 id ltac:(by left))).
Qed.

(** C5: in exact arithmetic the verification is fair.  Take any element of a
    batch of trees that share no node, whose root has a distribution of the
    model and whose root's children have draft distributions, and let the kernel
    run with the draft token of every child of the root drawn from the child's
    draft distribution and its sample uniform in [0, 1].  Every token follows
    the root with a well-defined probability, which is the one that the model
    gives it, up to the threshold 1e-7, and exactly when no excess met on the
    way is below the threshold. *)
Theorem speculative_distribution V n draft_probs draft_tokens first_child next_sibling samples order schedule ts b
    id us probs y :
  matrix n V draft_probs -> drawn V n draft_tokens samples -> Permutation order (grid (nat_ceildiv V TX) TX) ->
  Forall (rooted first_child next_sibling n) ts -> NoDup (forest_nodes ts) -> schedule_of ts schedule ->
  matrix n V probs -> ts !! b = Some (Node id us) -> (y < V)%nat ->
  distribution V (entry probs id) -> Forall (fun t => distribution V (entry draft_probs (node_id t))) us ->
  let probability := expectation V draft_probs (map node_id us) draft_tokens samples (fun tokens samples v =>
    exists r, batch_spec_verify V draft_probs tokens first_child next_sibling samples order schedule (length ts)
        (map (fun t => Z.of_nat (node_id t)) ts) probs = Some r /\
      v == next_token b (Node id us) tokens y r) in
  (forall v v', probability v -> probability v' -> v == v') /\
  exists v, probability v /\ v - entry probs id y <= p_eps /\ - p_eps <= v - entry probs id y /\
    (never_negligible V (entry probs id) (map (fun t => entry draft_probs (node_id t)) us) -> v == entry probs id y).
Proof.
  intros Hd Hdr Ho Hr Hnd Hsch Hm Hb Hy Hp Hqs probability. split.
  { apply expectation_unique. intros tokens samples' v v' (r & Hr1 & ->) (r' & Hr2 & ->).
    rewrite Hr1 in Hr2. by injection Hr2 as ->. }
  pose proof (Forall_lookup_1 _ _ _ _ Hr Hb) as (Hid & c & _ & Hl).
  assert (Hnd' : NoDup (id :: forest_nodes us)).
  { apply (forest_NoDup ts b _ Hnd Hb). }
  apply NoDup_cons in Hnd' as [Hroot Hus].
  exists (outcome V (entry probs id) (map (fun t => entry draft_probs (node_id t)) us) y). split.
  - apply (expectation_children V n draft_probs id y (child_above us) Hy us).
    + done.
    + destruct Hm as [-> _]. done.
    + apply Hp.
    + by eapply linked_range.
    + by apply children_NoDup.
    + done.
    + intros t i Ht Hi. split; [by apply child_above_node|]. intros ->. apply Hroot, list_elem_of_In, in_flat_map. by exists t.
    + intros tokens' samples' v Hd' _ Hv.
      destruct (next_token_follows V n draft_probs tokens' first_child next_sibling samples' order schedule ts b id us probs y)
        as (r & Hrun & Hnext); try done. exists r. split; [done|]. by rewrite Hnext.
  - destruct (outcome_bound V (entry probs id) (map (fun t => entry draft_probs (node_id t)) us) y Hy Hp) as [[H1 H2] H3].
    { by apply Forall_map. }
    done.
Qed.

(** ** Concrete data: the trees of SpecVerify.v *)

Module SpecDistributionExample.
Import SpecVerifyExample.

Lemma row_distribution (o : list (list Q)) r : matrix 6 2 o -> (r < 6)%nat ->
  forallb (Qle_bool 0) (default [] (o !! r)) = true ->
  Qeq_bool (qsum (entry o r) (seq 0 2)) 1 = true -> distribution 2 (entry o r).
Proof.
  intros Hm Hr H0 H1. split; [|by apply Qeq_bool_iff]. intros k. unfold entry, at2.
  destruct (matrix_row 6 2 o r Hm Hr) as (row & Hrow & _). rewrite Hrow in *. cbn in *.
  destruct (row !! k) as [v|] eqn:Hv; cbn; [|done]. rewrite forallb_forall in H0.
  apply Qle_bool_iff, H0, list_elem_of_In. by eapply list_elem_of_lookup_2.
Qed.

(** The second token after the root of the first tree. *)
Lemma speculative_distribution_witness :
  let probability := expectation 2 draft_probs [1; 2]%nat draft_tokens samples (fun tokens samples v =>
    exists r, batch_spec_verify 2 draft_probs tokens first_child next_sibling samples (rev (grid 1 TX)) schedule 2
        [0; 4]%Z model_probs = Some r /\
      v == next_token 0 root tokens 1 r) in
  (forall v v', probability v -> probability v' -> v == v') /\
  exists v, probability v /\ v - entry model_probs 0 1 <= p_eps /\ - p_eps <= v - entry model_probs 0 1 /\
    (never_negligible 2 (entry model_probs 0) [entry draft_probs 1; entry draft_probs 2] -> v == entry model_probs 0 1).
Proof.
  apply (speculative_distribution 2 6 draft_probs draft_tokens first_child next_sibling samples (rev (grid 1 TX)) schedule
    [root; root'] 0 0 [Node 1 []; Node 2 [Node 3 []]] model_probs 1).
  - apply draft_matrix.
  - split; [done|]. split; [repeat constructor; lia|done].
  - symmetry. apply Permutation_rev.
  - apply rooted_trees.
  - apply trees_disjoint.
  - apply fair_schedule.
  - apply model_matrix.
  - done.
  - lia.
  - by apply row_distribution; [apply model_matrix|lia|..].
  - apply Forall_cons; split; [|apply Forall_cons; split; [|by apply Forall_nil]];
      by apply row_distribution; [apply draft_matrix|cbn; lia|..].
Defined.
End SpecDistributionExample.
