(* ===== verification/KernelArith.v ===== *)
(** * The arithmetic of the sampling kernels

    The kernels between the logits and the next token compute with [float32]
    values.  The operations are a class, so that the kernels are the same for
    every arithmetic; [R_kernel] is exact arithmetic on the real numbers, in
    which the kernels are compared with what they mean to compute.  The
    reductions over the threads of a block ([T.tvm_thread_allreduce]) are
    operations of the class too: their order is the hardware's. *)

From Stdlib Require Import Reals Lra.
From stdpp Require Import base list.
From S2P Require Import Prelude.
Local Open Scope R_scope.

Class KernelOps (F : Type) := {
  k_of_Z : Z -> F;
  k_dec : Z -> nat -> F;            (* the literal [m * 10 ^ -e] *)
  k_min_value : F;                  (* [T.min_value("float32")] *)
  k_max_value : F;                  (* [T.max_value("float32")] *)
  k_add : F -> F -> F;
  k_sub : F -> F -> F;
  k_mul : F -> F -> F;
  k_div : F -> F -> F;
  k_exp : F -> F;
  k_log : F -> F;
  k_max : F -> F -> F;
  k_lt : F -> F -> bool;
  k_eq : F -> F -> bool;
  all_sum : list F -> F;            (* [T.tvm_thread_allreduce] with [x + y] *)
  all_min : list F -> F;            (* [T.tvm_thread_allreduce] with [T.min(x, y)] *)
}.

Definition k_zero {F} `{KernelOps F} : F := k_of_Z 0.
Definition k_one {F} `{KernelOps F} : F := k_of_Z 1.
Definition k_le {F} `{KernelOps F} (x y : F) : bool := k_lt x y || k_eq x y.

(** ** Exact arithmetic *)

Definition Rltb (x y : R) : bool := if Rlt_dec x y then true else false.
Definition Reqb (x y : R) : bool := if Req_dec_T x y then true else false.
Definition Rsum (l : list R) : R := fold_right Rplus 0 l.
Definition Rleast (l : list R) : R :=
  match l with [] => 0 | x :: l => fold_right Rmin x l end.

#[export] Instance R_kernel : KernelOps R := {
  k_of_Z := IZR; k_dec m e := IZR m / 10 ^ e;
  k_min_value := - IZR (2 ^ 128 - 2 ^ 104); k_max_value := IZR (2 ^ 128 - 2 ^ 104);
  k_add := Rplus; k_sub := Rminus; k_mul := Rmult; k_div := Rdiv; k_exp := exp; k_log := ln;
  k_max := Rmax; k_lt := Rltb; k_eq := Reqb; all_sum := Rsum; all_min := Rleast }.

Lemma Rltb_spec x y : reflect (x < y) (Rltb x y).
Proof. unfold Rltb. destruct (Rlt_dec x y); by constructor. Qed.
Lemma Reqb_spec x y : reflect (x = y) (Reqb x y).
Proof. unfold Reqb. destruct (Req_dec_T x y); by constructor. Qed.
Lemma Rleb_spec x y : reflect (x <= y) (k_le x y).
Proof.
  unfold k_le. cbn [k_lt k_eq R_kernel]. destruct (Rltb_spec x y); [constructor; lra|].
  destruct (Reqb_spec x y); constructor; lra.
Qed.

(** ** Sums *)

Lemma Rsum_app l l' : Rsum (l ++ l') = Rsum l + Rsum l'.
Proof. unfold Rsum. induction l as [|x l IH]; cbn; [|rewrite IH]; lra. Qed.

Lemma Rsum_concat ls : Rsum (concat ls) = Rsum (map Rsum ls).
Proof. induction ls as [|l ls IH]; cbn [concat map]; [done|]. rewrite Rsum_app, IH. done. Qed.

Lemma Rsum_ext {A} (f g : A -> R) l : (forall x, In x l -> f x = g x) -> Rsum (map f l) = Rsum (map g l).
Proof. intros H. f_equal. by apply map_ext_in. Qed.

Lemma Rsum_scale {A} c (f : A -> R) l : Rsum (map (fun x => c * f x) l) = c * Rsum (map f l).
Proof. unfold Rsum. induction l as [|x l IH]; cbn; [|rewrite IH]; lra. Qed.

Lemma Rsum_plus {A} (f g : A -> R) l : Rsum (map (fun x => f x + g x) l) = Rsum (map f l) + Rsum (map g l).
Proof. unfold Rsum. induction l as [|x l IH]; cbn; [|rewrite IH]; lra. Qed.

Lemma Rsum_zero {A} (f : A -> R) l : (forall x, In x l -> f x = 0) -> Rsum (map f l) = 0.
Proof.
  intros H. unfold Rsum. induction l as [|x l IH]; cbn; [done|].
  rewrite H by (by left). rewrite IH; [lra|]. intros y Hy. apply H. by right.
Qed.

Lemma Rsum_nonneg {A} (f : A -> R) l : (forall x, In x l -> 0 <= f x) -> 0 <= Rsum (map f l).
Proof.
  intros H. unfold Rsum. induction l as [|x l IH]; cbn; [lra|].
  pose proof (H x (or_introl eq_refl)). enough (0 <= fold_right Rplus 0 (map f l)) by lra.
  apply IH. intros y Hy. apply H. by right.
Qed.

Lemma Rsum_le {A} (f g : A -> R) l : (forall x, In x l -> f x <= g x) -> Rsum (map f l) <= Rsum (map g l).
Proof.
  intros H. unfold Rsum. induction l as [|x l IH]; cbn; [lra|].
  pose proof (H x (or_introl eq_refl)). enough (fold_right Rplus 0 (map f l) <= fold_right Rplus 0 (map g l)) by lra.
  apply IH. intros y Hy. apply H. by right.
Qed.

Lemma Rsum_pos {A} (f : A -> R) l x : (forall x, In x l -> 0 <= f x) -> In x l -> 0 < f x -> 0 < Rsum (map f l).
Proof.
  intros H Hin Hx. apply in_split in Hin as (l1 & l2 & ->). rewrite map_app, Rsum_app. cbn.
  pose proof (Rsum_nonneg f l1 (fun y Hy => H y (in_or_app _ _ _ (or_introl Hy)))).
  pose proof (Rsum_nonneg f l2 (fun y Hy => H y (in_or_app l1 (x :: l2) y (or_intror (in_cons x y l2 Hy))))).
  unfold Rsum in *. lra.
Qed.

Lemma Rsum_perm l l' : Permutation l l' -> Rsum l = Rsum l'.
Proof. unfold Rsum. induction 1; cbn; lra. Qed.

(** The number of elements, as a sum of ones. *)
Lemma Rsum_ones {A} (p : A -> bool) l :
  Rsum (map (fun x => if p x then 1 else 0) l) = INR (length (List.filter p l)).
Proof.
  unfold Rsum. induction l as [|x l IH]; cbn [map fold_right List.filter]; [done|]. rewrite IH.
  destruct (p x); [|lra]. cbn [length]. rewrite S_INR. lra.
Qed.

(** ** Minima *)

Lemma fold_Rmin_le l x : fold_right Rmin x l <= x /\ forall y, In y l -> fold_right Rmin x l <= y.
Proof.
  induction l as [|z l [IH1 IH2]]; cbn; [split; [lra|done]|]. split.
  - eapply Rle_trans; [apply Rmin_r|done].
  - intros y [<-|Hy]; [apply Rmin_l|]. eapply Rle_trans; [apply Rmin_r|by apply IH2].
Qed.

Lemma Rleast_le l y : In y l -> Rleast l <= y.
Proof.
  destruct l as [|x l]; [done|]. cbn [Rleast]. pose proof (fold_Rmin_le l x) as [H1 H2].
  intros [<-|Hy]; [done|by apply H2].
Qed.

Lemma Rleast_in l : l <> [] -> In (Rleast l) l.
Proof.
  destruct l as [|x l]; [done|]. intros _. cbn [Rleast]. induction l as [|z l IH]; cbn [fold_right]; [by left|].
  set (w := fold_right Rmin x l) in *.
  destruct (Rle_dec z w) as [Hz|Hz]; [rewrite Rmin_left by done; right; by left|rewrite Rmin_right by lra].
  destruct IH as [IH|IH]; [by left|right; by right].
Qed.

(** ** Maxima *)

Definition Rgreatest (l : list R) : R := fold_left Rmax l k_min_value.

Lemma fold_Rmax_ge l a : a <= fold_left Rmax l a /\ forall y, In y l -> y <= fold_left Rmax l a.
Proof.
  revert a. induction l as [|x l IH]; intros a; cbn [fold_left]; [split; [lra|done]|].
  destruct (IH (Rmax a x)) as [H1 H2]. pose proof (Rmax_l a x). pose proof (Rmax_r a x).
  split; [lra|]. intros y [<-|Hy]; [lra|by apply H2].
Qed.

Lemma fold_Rmax_in l a : fold_left Rmax l a = a \/ In (fold_left Rmax l a) l.
Proof.
  revert a. induction l as [|x l IH]; intros a; cbn [fold_left]; [by left|].
  destruct (IH (Rmax a x)) as [H1|H1]; [|right; by right]. rewrite H1. unfold Rmax.
  destruct (Rle_dec a x); [right; by left|by left].
Qed.

(** The greatest of numbers that are not below the least [float32] is one of
    them, if there is one. *)
Lemma Rgreatest_ge l y : In y l -> y <= Rgreatest l.
Proof. intros Hy. by apply fold_Rmax_ge. Qed.

Lemma Rgreatest_le l b : k_min_value <= b -> (forall y, In y l -> y <= b) -> Rgreatest l <= b.
Proof.
  intros Hb Hl. unfold Rgreatest. destruct (fold_Rmax_in l k_min_value) as [->|Hin]; [done|by apply Hl].
Qed.

Lemma Rgreatest_in l : l <> [] -> (forall y, In y l -> k_min_value <= y) -> In (Rgreatest l) l.
Proof.
  intros Hne Hl. unfold Rgreatest. destruct (fold_Rmax_in l k_min_value) as [E|Hin]; [|done].
  destruct l as [|x l]; [done|]. pose proof (Hl x (or_introl eq_refl)).
  pose proof (Rgreatest_ge (x :: l) x (or_introl eq_refl)) as Hg. unfold Rgreatest in Hg. rewrite E in *.
  left. lra.
Qed.

(** ** Loops *)

Lemma fold_Rplus l a : fold_left Rplus l a = a + Rsum l.
Proof. unfold Rsum. revert a. induction l as [|x l IH]; intros a; cbn; [lra|]. rewrite IH. lra. Qed.

Lemma Rsum_flat_map {A} (f : A -> list R) l : Rsum (flat_map f l) = Rsum (map (fun x => Rsum (f x)) l).
Proof. rewrite flat_map_concat_map, Rsum_concat, map_map. done. Qed.
