(* ===== verification/Interleave.v ===== *)
(** * Threads that are interleaved

    The threads of a kernel that update a matrix in place load from it and store
    to it one access at a time, in any interleaving: [logits[i, j] += b] is a
    load and, later, a store.  A thread is the sequence of its accesses, a
    schedule says which thread makes the next one.  Threads that keep to
    cells of their own compute what they compute alone ([interleaved]). *)

From stdpp Require Import base list.
From S2P Require Import Prelude TirBuffer.
Local Open Scope Z_scope.

(** A thread: what it does next with the cell of the given row and column. *)
Inductive Thread (A : Type) : Type :=
| Done : Thread A
| Load : Z -> Z -> (A -> Thread A) -> Thread A
| Store : Z -> Z -> A -> Thread A -> Thread A.
Arguments Done {A}.
Arguments Load {A}.
Arguments Store {A}.

Section Threads.
Context {A : Type}.

(** One access of one thread. *)
Definition advance (t : Thread A) (m : list (list A)) : option (Thread A * list (list A)) :=
  match t with
  | Done => Some (Done, m)
  | Load i j k => v ← load2 m i j; Some (k v, m)
  | Store i j v t => m ← store2 m i j v; Some (t, m)
  end.

(** The threads [ts], advanced in the order of [schedule]. *)
Definition exec (schedule : list nat) (ts : list (Thread A)) (m : list (list A))
    : option (list (Thread A) * list (list A)) :=
  ofold (fun i s => t ← s.1 !! i; r ← advance t s.2; Some (<[i := r.1]> s.1, r.2)) schedule (ts, m).

(** A thread by itself, to its end. *)
Fixpoint run_alone (t : Thread A) (m : list (list A)) : option (list (list A)) :=
  match t with
  | Done => Some m
  | Load i j k => v ← load2 m i j; run_alone (k v) m
  | Store i j v t => m ← store2 m i j v; run_alone t m
  end.

(** The threads one after the other. *)
Definition run_all (ts : list (Thread A)) (m : list (list A)) : option (list (list A)) := ofold run_alone ts m.

(** ** Threads with a cell of their own *)

(** All accesses are to the cell [c]. *)
Fixpoint own (c : nat * nat) (t : Thread A) : Prop :=
  match t with
  | Done => True
  | Load i j k => i = Z.of_nat c.1 /\ j = Z.of_nat c.2 /\ forall v, own c (k v)
  | Store i j _ t => i = Z.of_nat c.1 /\ j = Z.of_nat c.2 /\ own c t
  end.

(** What the thread leaves in its cell, and the number of its accesses, when
    the cell holds [v]. *)
Fixpoint final (t : Thread A) (v : A) : A :=
  match t with Done => v | Load _ _ k => final (k v) v | Store _ _ w t => final t w end.
Fixpoint accesses (t : Thread A) (v : A) : nat :=
  match t with Done => O | Load _ _ k => S (accesses (k v) v) | Store _ _ w t => S (accesses t w) end.

Lemma at2_lt n k (m : list (list A)) i j v : matrix n k m -> at2 m i j = Some v -> (i < n /\ j < k)%nat.
Proof.
  intros [<- Hk] H. unfold at2 in H. destruct (m !! i) as [r|] eqn:Hr; [|done]. cbn in H.
  split; [by eapply lookup_lt_Some|]. rewrite <- (Forall_lookup_1 _ _ _ _ Hk Hr). by eapply lookup_lt_Some.
Qed.

(** A store changes one cell. *)
Lemma store2_at n k (m : list (list A)) i j v w : matrix n k m -> at2 m i j = Some v ->
  exists m', store2 m (Z.of_nat i) (Z.of_nat j) w = Some m' /\ matrix n k m' /\
    forall i' j', at2 m' i' j' = if decide ((i', j') = (i, j)) then Some w else at2 m i' j'.
Proof.
  intros Hm Hv. destruct (at2_lt n k m i j v Hm Hv) as [Hi Hj]. destruct (matrix_row n k m i Hm Hi) as (r & Hr & Hl).
  rewrite (store2_lt m i j r w) by (done || lia). eexists. split; [done|].
  split; [by apply matrix_insert; [|rewrite length_insert]|]. intros i' j'. unfold at2 at 1.
  destruct Hm as [Hn _]. destruct (decide (i' = i)) as [->|Hne].
  - rewrite list_lookup_insert_eq by lia. cbn. destruct (decide (j' = j)) as [->|Hj'].
    + rewrite decide_True by done. apply list_lookup_insert_eq. lia.
    + rewrite decide_False by congruence. rewrite list_lookup_insert_ne by done. unfold at2. by rewrite Hr.
  - rewrite list_lookup_insert_ne by done. rewrite decide_False by congruence. done.
Qed.

(** An access of a thread with a cell of its own. *)
Lemma advance_own n k c t m v : matrix n k m -> own c t -> at2 m c.1 c.2 = Some v ->
  exists t' m' v', advance t m = Some (t', m') /\ matrix n k m' /\ own c t' /\
    final t' v' = final t v /\ accesses t' v' = pred (accesses t v) /\
    forall i j, at2 m' i j = if decide ((i, j) = c) then Some v' else at2 m i j.
Proof.
  intros Hm Ho Hv. destruct c as [ci cj]. cbn [fst snd] in *.
  destruct t as [|i j f|i j w t]; cbn [advance own final accesses pred fst snd] in *.
  - exists Done, m, v. repeat (split; [done|]). intros i j. destruct (decide _) as [[= -> ->]|]; done.
  - destruct Ho as (-> & -> & Ho). rewrite load2_at2, Hv. cbn. exists (f v), m, v. repeat (split; [done|]).
    intros i j. destruct (decide _) as [[= -> ->]|]; done.
  - destruct Ho as (-> & -> & Ho). destruct (store2_at n k m ci cj v w Hm Hv) as (m' & -> & Hm' & Hat). cbn.
    exists t, m', w. by repeat (split; [done|]).
Qed.

(** The threads before and after some accesses. *)
Definition related (n k : nat) (cells : list (nat * nat)) (m : list (list A)) (schedule : list nat)
    (ts ts' : list (Thread A)) (m' : list (list A)) : Prop :=
  matrix n k m' /\ length ts' = length ts /\
  (forall i c t, cells !! i = Some c -> ts !! i = Some t ->
     exists t' v v', ts' !! i = Some t' /\ own c t' /\ at2 m c.1 c.2 = Some v /\ at2 m' c.1 c.2 = Some v' /\
       final t' v' = final t v /\ (accesses t' v' = accesses t v - count_occ Nat.eq_dec schedule i)%nat) /\
  forall i j, ~ In (i, j) cells -> at2 m' i j = at2 m i j.

Lemma exec_related n k cells ts m schedule :
  matrix n k m -> NoDup cells -> length cells = length ts ->
  Forall (fun c => c.1 < n /\ c.2 < k)%nat cells ->
  (forall i c t, cells !! i = Some c -> ts !! i = Some t -> own c t) ->
  Forall (fun i => i < length ts)%nat schedule ->
  exists ts' m', exec schedule ts m = Some (ts', m') /\ related n k cells m schedule ts ts' m'.
Proof.
  intros Hm Hnd Hlen Hin Hown Hs. unfold exec. induction schedule as [|i schedule IH] using rev_ind.
  - exists ts, m. split; [done|]. split; [done|]. split; [done|]. split; [|done].
    intros i c t Hc Ht. rewrite Forall_lookup in Hin. destruct (Hin i c Hc) as [H1 H2].
    destruct (matrix_at2 n k m c.1 c.2 Hm H1 H2) as [v Hv]. exists t, v, v. split; [done|]. split; [by eapply Hown|].
    split; [done|]. split; [done|]. split; [done|]. cbn. lia.
  - apply Forall_app in Hs as [Hs [Hi _]%Forall_cons].
    destruct IH as (ts' & m' & He & Hm' & Hl & Hrel & Hother); [done|]. rewrite ofold_app, He. cbn [mbind option_bind ofold fst snd].
    destruct (lookup_lt_is_Some_2 ts i Hi) as [t Ht]. destruct (lookup_lt_is_Some_2 cells i) as [c Hc]; [lia|].
    destruct (Hrel i c t Hc Ht) as (t' & v & v' & Ht' & Ho & Hv & Hv' & Hf & Ha). rewrite Ht'. cbn [mbind option_bind].
    destruct (advance_own n k c t' m' v' Hm' Ho Hv') as (t2 & m2 & v2 & -> & Hm2 & Ho2 & Hf2 & Ha2 & Hat).
    cbn [mbind option_bind fst snd]. exists (<[i := t2]> ts'), m2. split; [done|]. split; [done|].
    split; [by rewrite length_insert|]. split.
    + intros i' c' t0 Hc' Ht0. rewrite count_occ_app. cbn [count_occ]. destruct (decide (i' = i)) as [->|Hne].
      * rewrite Hc in Hc'. injection Hc' as <-. rewrite Ht in Ht0. injection Ht0 as <-.
        exists t2, v, v2. rewrite list_lookup_insert_eq by lia. split; [done|]. split; [done|]. split; [done|].
        destruct (Nat.eq_dec i i) as [_|]; [|done]. rewrite Hat, decide_True by (by destruct c).
        split; [done|]. split; [congruence|lia].
      * destruct (Hrel i' c' t0 Hc' Ht0) as (t3 & v3 & v3' & Ht3 & Ho3 & Hv3 & Hv3' & Hf3 & Ha3).
        exists t3, v3, v3'. rewrite list_lookup_insert_ne by done. split; [done|]. split; [done|]. split; [done|].
        destruct (Nat.eq_dec i i') as [|_]; [congruence|]. rewrite Hat, decide_False.
        { split; [done|]. split; [done|lia]. }
        intros E. apply Hne. apply (NoDup_lookup cells i' i c Hnd); [|done]. rewrite Hc'. f_equal. by destruct c'.
    + intros i' j' Hn. rewrite Hat, decide_False; [by apply Hother|]. intros <-. apply Hn.
      rewrite <- list_elem_of_In. by eapply list_elem_of_lookup_2.
Qed.

(** Every cell of a thread holds what the thread leaves there alone, the
    others what they held. *)
Definition updated (n k : nat) (cells : list (nat * nat)) (ts : list (Thread A)) (m m' : list (list A)) : Prop :=
  matrix n k m' /\
  (forall i c t, cells !! i = Some c -> ts !! i = Some t -> at2 m' c.1 c.2 = final t <$> at2 m c.1 c.2) /\
  forall i j, ~ In (i, j) cells -> at2 m' i j = at2 m i j.

(** Every schedule that gives each thread enough turns ends with all threads
    done and every cell as its thread leaves it alone; no access is outside the
    matrix. *)
Lemma interleaved n k cells ts m schedule :
  matrix n k m -> NoDup cells -> length cells = length ts ->
  Forall (fun c => c.1 < n /\ c.2 < k)%nat cells ->
  (forall i c t, cells !! i = Some c -> ts !! i = Some t -> own c t) ->
  Forall (fun i => i < length ts)%nat schedule ->
  (forall i t v, ts !! i = Some t -> accesses t v <= count_occ Nat.eq_dec schedule i)%nat ->
  exists ts' m', exec schedule ts m = Some (ts', m') /\ Forall (fun t => t = Done) ts' /\
    updated n k cells ts m m'.
Proof.
  intros Hm Hnd Hlen Hin Hown Hs Henough.
  destruct (exec_related n k cells ts m schedule Hm Hnd Hlen Hin Hown Hs) as (ts' & m' & He & Hm' & Hl & Hrel & Hother).
  assert (Hdone : forall i c t, cells !! i = Some c -> ts !! i = Some t ->
    ts' !! i = Some Done /\ at2 m' c.1 c.2 = final t <$> at2 m c.1 c.2).
  { intros i c t Hc Ht. destruct (Hrel i c t Hc Ht) as (t' & v & v' & Ht' & _ & Hv & Hv' & Hf & Ha).
    specialize (Henough i t v Ht). destruct t'; cbn [accesses] in Ha; try lia. cbn [final] in Hf.
    split; [done|]. by rewrite Hv, Hv', Hf. }
  exists ts', m'. split; [done|]. split; [|split; [done|split; [|done]]].
  - apply Forall_lookup. intros i t' Ht'. destruct (lookup_lt_is_Some_2 ts i) as [t Ht].
    { rewrite <- Hl. by eapply lookup_lt_Some. }
    destruct (lookup_lt_is_Some_2 cells i) as [c Hc]; [rewrite Hlen; by eapply lookup_lt_Some|].
    destruct (Hdone i c t Hc Ht) as [Hd _]. congruence.
  - intros i c t Hc Ht. by apply (Hdone i c t).
Qed.

(** One after the other, the threads do the same. *)
Lemma run_alone_own n k c t m v : matrix n k m -> own c t -> at2 m c.1 c.2 = Some v ->
  exists m', run_alone t m = Some m' /\ matrix n k m' /\
    forall i j, at2 m' i j = if decide ((i, j) = c) then Some (final t v) else at2 m i j.
Proof.
  destruct c as [ci cj]. cbn [fst snd]. revert m v. induction t as [|i j f IH|i j w t IH]; intros m v Hm Ho Hv;
    cbn [run_alone own final fst snd] in *.
  - exists m. repeat (split; [done|]). intros i j. destruct (decide _) as [[= -> ->]|]; done.
  - destruct Ho as (-> & -> & Ho). rewrite load2_at2, Hv. cbn. by apply IH.
  - destruct Ho as (-> & -> & Ho). destruct (store2_at n k m ci cj v w Hm Hv) as (m' & -> & Hm' & Hat). cbn.
    destruct (IH m' w Hm' Ho) as (m2 & He & Hm2 & Hat2); [by rewrite Hat, decide_True|].
    exists m2. split; [done|]. split; [done|]. intros i j. rewrite Hat2, Hat. by destruct (decide _).
Qed.

Lemma run_all_own n k cells ts m :
  matrix n k m -> NoDup cells -> length cells = length ts ->
  Forall (fun c => c.1 < n /\ c.2 < k)%nat cells ->
  (forall i c t, cells !! i = Some c -> ts !! i = Some t -> own c t) ->
  exists m', run_all ts m = Some m' /\ updated n k cells ts m m'.
Proof.
  unfold run_all. revert cells m. induction ts as [|t ts IH]; intros [|c cells] m Hm Hnd Hlen Hin Hown; cbn [length ofold] in *;
    try discriminate.
  - exists m. split; [done|]. split; [done|]. by split.
  - apply NoDup_cons in Hnd as [Hc Hnd]. apply Forall_cons in Hin as [[H1 H2] Hin].
    destruct (matrix_at2 n k m c.1 c.2 Hm H1 H2) as [v Hv].
    destruct (run_alone_own n k c t m v Hm (Hown O c t eq_refl eq_refl) Hv) as (m1 & -> & Hm1 & Hat). cbn [mbind option_bind].
    destruct (IH cells m1 Hm1 Hnd) as (m' & -> & Hm' & Hcells & Hother); [lia|done| |].
    { intros i c' t' Hc' Ht'. exact (Hown (S i) c' t' Hc' Ht'). }
    exists m'. split; [done|]. split; [done|]. rewrite list_elem_of_In in Hc. split.
    + intros [|i] c' t' Hc' Ht'; cbn in Hc', Ht'.
      * injection Hc' as <-. injection Ht' as <-. rewrite Hother by (by destruct c).
        rewrite Hat, decide_True by (by destruct c). by rewrite Hv.
      * rewrite (Hcells i c' t' Hc' Ht'), Hat, decide_False; [done|]. intros E. apply Hc.
        rewrite <- E, <- list_elem_of_In. destruct c'. by eapply list_elem_of_lookup_2.
    + intros i j Hn. rewrite Hother by (intros Hin'; apply Hn; by right). rewrite Hat, decide_False; [done|].
      intros <-. apply Hn. by left.
Qed.
End Threads.
