(* ===== verification/LogitProcessors.v ===== *)
(** * Logit processing ([compiler_pass/attach_logit_processor.py])

    The kernels that the engine applies to the logits of a batch before it
    samples: the logit bias, the penalties of the tokens that have appeared, and
    the bit mask of the tokens that a grammar allows.  They work in place.  On a
    CPU they are loops; elsewhere every entry has a thread of its own, and the
    loads and stores of the threads are interleaved in any order.  Indices are
    taken to fit into [int32]. *)

From Stdlib Require Import Reals.
From stdpp Require Import base list strings.
From S2P Require Import Prelude TirBuffer KernelArith Interleave.
Local Open Scope Z_scope.

(** What the code reads of a TVM target. *)
Record Target : Type := mkTarget {
  target_kind : string; max_num_threads : nat; max_threads_per_block : option nat }.

(** [support/max_thread_check.py] *)
Definition get_max_num_threads_per_block (target : Target) : nat :=
  match max_threads_per_block target with
  | None => max_num_threads target
  | Some m => Nat.max (max_num_threads target) m
  end.

Definition check_thread_limits (target : Target) (bdx bdy bdz gdz : nat) : res unit :=
  let? _ := py_assert (bdx * bdy * bdz <=? get_max_num_threads_per_block target)%nat in
  if String.eqb (target_kind target) "webgpu" then
    let? _ := py_assert (bdz <=? 64)%nat in py_assert (gdz =? 1)%nat
  else Ok tt.

(** The number of threads of a block: [tx]. *)
Definition block_threads (target : Target) : res nat :=
  let tx := Nat.min 1024 (get_max_num_threads_per_block target) in
  let? _ := check_thread_limits target tx 1 1 1 in Ok tx.

Section Kernels.
Context {F : Type} `{KernelOps F}.

Definition finished (t : Thread F) : bool := match t with Done => true | _ => false end.

(** A serial loop over [n] entries. *)
Definition serial (n : nat) (body : nat -> option (Thread F)) (m : list (list F)) : option (list (list F)) :=
  ts ← mapM body (seq 0 n); run_all ts m.

(** Blocks of [tx] threads, one thread per entry; the others do nothing.  A
    kernel is over when all threads are. *)
Definition parallel (tx n : nat) (body : nat -> option (Thread F)) (schedule : list nat) (m : list (list F))
    : option (list (list F)) :=
  ts ← mapM body (List.filter (fun v => v <? n)%nat
    (map (fun p => p.1 * tx + p.2)%nat (grid (nat_ceildiv n tx) tx)));
  r ← exec schedule ts m;
  if forallb finished r.1 then Some r.2 else None.

(** [logits[pos2seq_id[vp], token_ids[vp]] += logit_bias[vp]] *)
Definition logit_bias_entry (pos2seq_id token_ids : list Z) (logit_bias : list F) (vp : nat) : option (Thread F) :=
  s ← load1 pos2seq_id (Z.of_nat vp);
  t ← load1 token_ids (Z.of_nat vp);
  b ← load1 logit_bias (Z.of_nat vp);
  Some (Load s t (fun x => Store s t (k_add x b) Done)).

(** The penalties: presence, frequency and repetition. *)
Definition penalty_entry (seq_ids pos2seq_id token_ids token_cnt : list Z) (penalties : list (list F)) (vp : nat)
    : option (Thread F) :=
  p ← load1 pos2seq_id (Z.of_nat vp);
  s ← load1 seq_ids p;
  t ← load1 token_ids (Z.of_nat vp);
  cnt ← load1 token_cnt (Z.of_nat vp);
  presence ← load2 penalties p 0;
  frequency ← load2 penalties p 1;
  repetition ← load2 penalties p 2;
  Some (Load s t (fun x => Store s t (k_sub x (k_add presence (k_mul (k_of_Z cnt) frequency)))
    (Load s t (fun y =>
       if k_lt y k_zero then Load s t (fun z => Store s t (k_mul z repetition) Done)
       else Load s t (fun z => Store s t (k_div z repetition) Done))))).

(** [(bitmask[seq, vv // 32] >> (vv % 32)) & 1 == 1] *)
Definition bit_set (word : Z) (vv : nat) : bool := Z.land (Z.shiftr word (Z.of_nat (vv mod 32))) 1 =? 1.

Definition bitmask_entry (seq_ids : list Z) (bitmask : list (list Z)) (vocab_size i : nat) : option (Thread F) :=
  let vs := (i / vocab_size)%nat in let vv := (i mod vocab_size)%nat in
  s ← load1 seq_ids (Z.of_nat vs);
  word ← load2 bitmask s (Z.of_nat (vv / 32));
  Some (if bit_set word vv then Load s (Z.of_nat vv) (fun x => Store s (Z.of_nat vv) x Done)
        else Store s (Z.of_nat vv) k_min_value Done).

(** The three kernels of a module; the last argument but one is the order in
    which the threads make their accesses. *)
Record LogitKernels : Type := mkLogitKernels {
  apply_logit_bias_inplace : list Z -> list Z -> list F -> list nat -> list (list F) -> option (list (list F));
  apply_penalty_inplace : list Z -> list Z -> list Z -> list Z -> list (list F) -> list nat ->
    list (list F) -> option (list (list F));
  apply_bitmask_inplace : list Z -> list (list Z) -> nat -> list nat -> list (list F) -> option (list (list F)) }.

Definition logit_kernels (run : nat -> (nat -> option (Thread F)) -> list nat -> list (list F) -> option (list (list F)))
    : LogitKernels := {|
  apply_logit_bias_inplace pos2seq_id token_ids logit_bias :=
    run (length pos2seq_id) (logit_bias_entry pos2seq_id token_ids logit_bias);
  apply_penalty_inplace seq_ids pos2seq_id token_ids token_cnt penalties :=
    run (length pos2seq_id) (penalty_entry seq_ids pos2seq_id token_ids token_cnt penalties);
  apply_bitmask_inplace seq_ids bitmask vocab_size :=
    run (length seq_ids * vocab_size)%nat (bitmask_entry seq_ids bitmask vocab_size) |}.

(** [AttachLogitProcessFunc.transform_module] *)
Definition attach_logit_processors (target : Target) : res LogitKernels :=
  if String.eqb (target_kind target) "llvm" then Ok (logit_kernels (fun n body _ => serial n body))
  else let? tx := block_threads target in Ok (logit_kernels (parallel tx)).

(** ** Specifications *)

(** The entry [i] of the cells changes the value of its cell by [f i]. *)
Definition apply_at (cells : list (nat * nat)) (f : nat -> F -> F) (c : nat * nat) (x : F) : F :=
  match list_find (fun c' => c' = c) cells with Some (i, _) => f i x | None => x end.

(** Every thread of [n] gets at least five turns, more than it can use. *)
Definition fair (n : nat) (schedule : list nat) : Prop :=
  Forall (fun i => i < n)%nat schedule /\ forall i, (i < n)%nat -> (5 <= count_occ Nat.eq_dec schedule i)%nat.

(** A way to run a kernel: on entries that keep to different cells it leaves
    in every cell what its entry leaves there. *)
Definition Runs (run : nat -> (nat -> option (Thread F)) -> list nat -> list (list F) -> option (list (list F))) : Prop :=
  forall n body (f : nat -> F -> F) cells schedule B V m,
  matrix B V m -> length cells = n -> NoDup cells -> Forall (fun c => c.1 < B /\ c.2 < V)%nat cells -> fair n schedule ->
  (forall i c, cells !! i = Some c -> exists t, body i = Some t /\ own c t /\ (forall v, accesses t v <= 5)%nat /\
     forall v, final t v = f i v) ->
  exists m', run n body schedule m = Some m' /\ matrix B V m' /\
    forall i j, at2 m' i j = apply_at cells f (i, j) <$> at2 m i j.

Lemma updated_apply_at B V cells ts (f : nat -> F -> F) m m' : updated B V cells ts m m' ->
  length cells = length ts -> NoDup cells ->
  (forall i t v, ts !! i = Some t -> final t v = f i v) ->
  forall i j, at2 m' i j = apply_at cells f (i, j) <$> at2 m i j.
Proof.
  intros (_ & Hcells & Hother) Hlen Hnd Hf i j. unfold apply_at.
  destruct (list_find (fun c' => c' = (i, j)) cells) as [[k c]|] eqn:E.
  - apply list_find_Some in E as (Hk & -> & _). destruct (lookup_lt_is_Some_2 ts k) as [t Ht].
    { rewrite <- Hlen. by eapply lookup_lt_Some. }
    pose proof (Hcells k (i, j) t Hk Ht) as Hc. cbn [fst snd] in Hc. rewrite Hc.
    destruct (at2 m i j); cbn; [|done]. by rewrite (Hf k t).
  - rewrite Hother; [by destruct (at2 m i j)|]. intros Hin. apply list_find_None in E.
    rewrite Forall_forall in E. apply (E (i, j)); [by apply list_elem_of_In|done].
Qed.

(** The threads of a kernel whose entries are given by cells. *)
Lemma threads_of n body (f : nat -> F -> F) cells : length cells = n ->
  (forall i c, cells !! i = Some c -> exists t, body i = Some t /\ own c t /\ (forall v, accesses t v <= 5)%nat /\
     forall v, final t v = f i v) ->
  exists ts, mapM body (seq 0 n) = Some ts /\ length ts = n /\
    (forall i c t, cells !! i = Some c -> ts !! i = Some t -> own c t) /\
    (forall i t v, ts !! i = Some t -> accesses t v <= 5)%nat /\
    (forall i t v, ts !! i = Some t -> final t v = f i v).
Proof.
  intros Hlen Hbody.
  assert (Hall : exists ts, mapM body (seq 0 n) = Some ts).
  { apply mapM_is_Some_2, Forall_forall. intros i Hi. apply elem_of_seq in Hi.
    destruct (lookup_lt_is_Some_2 cells i) as [c Hc]; [lia|]. destruct (Hbody i c Hc) as (t & Ht & _). by exists t. }
  destruct Hall as [ts Hts]. exists ts. split; [done|]. apply mapM_Some_1 in Hts.
  assert (Hl : length ts = n) by (rewrite <- (Forall2_length _ _ _ Hts); apply length_seq). split; [done|].
  assert (Hat : forall i t, ts !! i = Some t -> exists c, cells !! i = Some c /\ own c t /\
     (forall v, accesses t v <= 5)%nat /\ forall v, final t v = f i v).
  { intros i t Ht. pose proof (lookup_lt_Some _ _ _ Ht) as Hi.
    destruct (lookup_lt_is_Some_2 cells i) as [c Hc]; [lia|].
    destruct (Forall2_lookup_r _ _ _ i t Hts Ht) as (j & Hj & Hb). apply lookup_seq in Hj as [-> _]. cbn in Hb.
    destruct (Hbody i c Hc) as (t' & Hb' & Hx). assert (t' = t) as -> by congruence. by exists c. }
  split; [|split].
  - intros i c t Hc Ht. destruct (Hat i t Ht) as (c' & Hc' & Ho & _). by assert (c' = c) as -> by congruence.
  - intros i t v Ht. by destruct (Hat i t Ht) as (_ & _ & _ & Ha & _).
  - intros i t v Ht. by destruct (Hat i t Ht) as (_ & _ & _ & _ & Hf).
Qed.

Lemma serial_runs : Runs (fun n body _ => serial n body).
Proof.
  intros n body f cells schedule B V m Hm Hlen Hnd Hin _ Hbody.
  destruct (threads_of n body f cells Hlen Hbody) as (ts & Hts & Hl & Hown & _ & Hf). unfold serial. rewrite Hts. cbn [mbind option_bind].
  destruct (run_all_own B V cells ts m Hm Hnd ltac:(lia) Hin Hown) as (m' & Hr & Hu). exists m'. split; [done|].
  split; [apply Hu|]. apply (updated_apply_at B V cells ts f m m' Hu); [lia|done|done].
Qed.

Lemma parallel_runs tx : (0 < tx)%nat -> Runs (parallel tx).
Proof.
  intros Htx n body f cells schedule B V m Hm Hlen Hnd Hin [Hs Hfair] Hbody.
  destruct (threads_of n body f cells Hlen Hbody) as (ts & Hts & Hl & Hown & Ha & Hf). unfold parallel.
  rewrite grid_numbers, filter_seq_ltb by (by apply nat_ceildiv_covers). rewrite Hts. cbn [mbind option_bind].
  destruct (interleaved B V cells ts m schedule Hm Hnd) as (ts' & m' & He & Hdone & Hu); [lia|done|done| | |].
  { by rewrite Hl. }
  { intros i t v Ht. etransitivity; [by eapply Ha|]. apply Hfair. rewrite <- Hl. by eapply lookup_lt_Some. }
  rewrite He. cbn [mbind option_bind fst snd]. exists m'.
  assert (forallb finished ts' = true) as ->.
  { apply forallb_forall. intros t Ht. rewrite Forall_forall in Hdone. by rewrite (Hdone t) by (by apply list_elem_of_In). }
  split; [done|]. split; [apply Hu|]. apply (updated_apply_at B V cells ts f m m' Hu); [lia|done|done].
Qed.

Lemma block_threads_pos target tx : block_threads target = Ok tx -> (0 < max_num_threads target)%nat -> (0 < tx)%nat.
Proof.
  unfold block_threads. intros Hk Hpos. destruct (check_thread_limits _ _ _ _ _) as [[]|]; [|discriminate].
  cbv beta iota delta [rbind] in Hk. assert (tx = Nat.min 1024 (get_max_num_threads_per_block target)) as -> by congruence.
  apply Nat.min_glb_lt; [apply Nat.lt_0_succ|]. unfold get_max_num_threads_per_block.
  destruct (max_threads_per_block target); lia.
Qed.

(** What the pass attaches can be run. *)
Lemma attached_runs target k : attach_logit_processors target = Ok k -> (0 < max_num_threads target)%nat ->
  exists run, k = logit_kernels run /\ Runs run.
Proof.
  unfold attach_logit_processors. intros Hk Hpos.
  destruct (String.eqb _ _); [injection Hk as <-; eexists; split; [done|apply serial_runs]|].
  destruct (block_threads target) as [tx|] eqn:Htx; [|discriminate]. injection Hk as <-.
  eexists. split; [done|]. by eapply parallel_runs, block_threads_pos.
Qed.

(** ** What the kernels compute *)

(** The first entry of an association list of cells. *)
Definition at_cell {E} (cell : E -> option (nat * nat)) (f : E -> F -> F) (es : list E) (i j : nat) (x : F) : F :=
  match List.find (fun e => bool_decide (cell e = Some (i, j))) es with Some e => f e x | None => x end.

(** An entry of the bias: the row, the token, the bias. *)
Definition biased (es : list (nat * nat * F)) : nat -> nat -> F -> F :=
  at_cell (fun e => Some e.1) (fun e x => k_add x e.2) es.

(** The penalties of a sequence: presence, frequency, repetition. *)
Definition penalty (p : F * F * F) (cnt : Z) (x : F) : F :=
  let '(presence, frequency, repetition) := p in
  let y := k_sub x (k_add presence (k_mul (k_of_Z cnt) frequency)) in
  if k_lt y k_zero then k_mul y repetition else k_div y repetition.

(** An entry of the penalties: the position of the sequence, the token and the
    number of its occurrences. *)
Definition penalty_cell (seqs : list nat) (e : nat * nat * Z) : option (nat * nat) :=
  (fun s => (s, e.1.2)) <$> seqs !! e.1.1.
Definition penalized (seqs : list nat) (ps : list (F * F * F)) (es : list (nat * nat * Z)) : nat -> nat -> F -> F :=
  at_cell (penalty_cell seqs) (fun e x => match ps !! e.1.1 with Some p => penalty p e.2 x | None => x end) es.

(** The tokens that the bits of their row do not allow. *)
Definition masked (seqs : list nat) (bitmask : list (list Z)) (i j : nat) (x : F) : F :=
  if bool_decide (i ∈ seqs) then
    match at2 bitmask i (j / 32) with
    | Some w => if Z.testbit w (Z.of_nat (j mod 32)) then x else k_min_value
    | None => x
    end
  else x.

Lemma apply_at_cell {E} (cell : E -> option (nat * nat)) (f : E -> F -> F) (g : nat -> F -> F) es cells i j x :
  map cell es = map Some cells ->
  (forall k e y, es !! k = Some e -> g k y = f e y) ->
  apply_at cells g (i, j) x = at_cell cell f es i j x.
Proof.
  revert g cells. induction es as [|e es IH]; intros g [|c cells] Hc Hg; try discriminate; [done|].
  injection Hc as Hc1 Hc2. unfold apply_at, at_cell. cbn [list_find List.find]. rewrite Hc1.
  destruct (decide (c = (i, j))) as [->|Hne].
  - rewrite bool_decide_true by done. by apply Hg.
  - rewrite bool_decide_false by congruence. fold (at_cell cell f es i j x).
    rewrite <- (IH (fun k => g (S k)) cells Hc2 (fun k => Hg (S k))). unfold apply_at.
    by destruct (list_find _ cells) as [[k c']|].
Qed.

Section Run.
Context (run : nat -> (nat -> option (Thread F)) -> list nat -> list (list F) -> option (list (list F))) (HR : Runs run).
Context (B V : nat).

Lemma bias_runs es schedule m : matrix B V m ->
  NoDup (map fst es) -> Forall (fun e => e.1.1 < B /\ e.1.2 < V)%nat es -> fair (length es) schedule ->
  exists m', apply_logit_bias_inplace (logit_kernels run) (map (fun e => Z.of_nat e.1.1) es)
      (map (fun e => Z.of_nat e.1.2) es) (map snd es) schedule m = Some m' /\ matrix B V m' /\
    forall i j, at2 m' i j = biased es i j <$> at2 m i j.
Proof.
  intros Hm Hnd Hin Hfair. cbn [apply_logit_bias_inplace logit_kernels]. rewrite length_map.
  destruct (HR (length es) (logit_bias_entry (map (fun e => Z.of_nat e.1.1) es) (map (fun e => Z.of_nat e.1.2) es) (map snd es))
    (fun k x => match es !! k with Some e => k_add x e.2 | None => x end) (map fst es) schedule B V m)
    as (m' & Hr & Hm' & Hat); [done|by rewrite length_map|done|by apply Forall_map|done| |].
  - intros k c Hc. destruct (es !! k) as [e|] eqn:He.
    2:{ apply lookup_lt_Some in Hc. rewrite length_map in Hc. apply lookup_ge_None in He. lia. }
    rewrite (lookup_map_Some fst es k e He) in Hc. injection Hc as <-.
    unfold logit_bias_entry. rewrite !load_lookup, !(lookup_map_Some _ _ _ _ He). cbn [mbind option_bind].
    eexists. split; [done|]. split; [by repeat split|]. split; [|done]. cbn [accesses]. lia.
  - exists m'. split; [done|]. split; [done|]. intros i j. rewrite Hat. destruct (at2 m i j) as [x|]; [|done]. cbn. f_equal.
    apply apply_at_cell; [by rewrite map_map|]. by intros k e y ->.
Qed.

(** The entries of the penalties keep to different cells inside the matrix. *)
Definition penalty_entries (seqs : list nat) (ps : list (F * F * F)) (es : list (nat * nat * Z)) : Prop :=
  length ps = length seqs /\ Forall (fun s => s < B)%nat seqs /\ NoDup (map (penalty_cell seqs) es) /\
  Forall (fun e => e.1.1 < length seqs /\ e.1.2 < V)%nat es.

Lemma penalty_runs seqs ps es schedule m : matrix B V m -> penalty_entries seqs ps es -> fair (length es) schedule ->
  exists m', apply_penalty_inplace (logit_kernels run) (map Z.of_nat seqs) (map (fun e => Z.of_nat e.1.1) es)
      (map (fun e => Z.of_nat e.1.2) es) (map snd es) (map (fun p => [p.1.1; p.1.2; p.2]) ps) schedule m = Some m' /\
    matrix B V m' /\ forall i j, at2 m' i j = penalized seqs ps es i j <$> at2 m i j.
Proof.
  intros Hm (Hps & Hseqs & Hnd & Hin) Hfair. cbn [apply_penalty_inplace logit_kernels]. rewrite length_map.
  assert (Hcells : map (penalty_cell seqs) es = map Some (map (fun e => (default O (seqs !! e.1.1), e.1.2)) es)).
  { rewrite map_map. apply map_ext_in. intros e He. rewrite Forall_forall in Hin.
    destruct (Hin e) as [He1 _]; [by apply list_elem_of_In|]. unfold penalty_cell.
    by destruct (lookup_lt_is_Some_2 seqs e.1.1 He1) as [s ->]. }
  rewrite Hcells in Hnd. apply NoDup_fmap_1 in Hnd.
  assert (Hentry : forall k e, es !! k = Some e -> exists s p, seqs !! e.1.1 = Some s /\ ps !! e.1.1 = Some p /\ (s < B)%nat /\ (e.1.2 < V)%nat).
  { intros k e He. rewrite Forall_lookup in Hin. destruct (Hin k e He) as [H1 H2].
    destruct (lookup_lt_is_Some_2 seqs e.1.1 H1) as [s Hs]. destruct (lookup_lt_is_Some_2 ps e.1.1) as [p Hp]; [lia|].
    exists s, p. repeat (split; [done|]). split; [|done]. by apply (Forall_lookup_1 _ _ _ _ Hseqs Hs). }
  destruct (HR (length es)
      (penalty_entry (map Z.of_nat seqs) (map (fun e => Z.of_nat e.1.1) es) (map (fun e => Z.of_nat e.1.2) es) (map snd es)
        (map (fun p => [p.1.1; p.1.2; p.2]) ps))
      (fun k x => match es !! k with
                  | Some e => match ps !! e.1.1 with Some p => penalty p e.2 x | None => x end | None => x end)
      (map (fun e => (default O (seqs !! e.1.1), e.1.2)) es) schedule B V m)
    as (m' & Hr & Hm' & Hat); [exact Hm|by rewrite length_map|exact Hnd| |exact Hfair| |].
  - apply Forall_map, Forall_lookup. intros k e He. destruct (Hentry k e He) as (s & p & Hs & _ & HB & HV). cbn.
    by rewrite Hs.
  - intros k c Hc. destruct (es !! k) as [e|] eqn:He.
    2:{ apply lookup_lt_Some in Hc. rewrite length_map in Hc. apply lookup_ge_None in He. lia. }
    rewrite (lookup_map_Some _ es k e He) in Hc. injection Hc as <-.
    destruct (Hentry k e He) as (s & [[a b] r] & Hs & Hp & HB & HV). rewrite Hp, Hs.
    unfold penalty_entry. rewrite !load_lookup, !(lookup_map_Some _ _ _ _ He). cbn [mbind option_bind].
    rewrite load_lookup, (lookup_map_Some _ _ _ _ Hs). cbn [mbind option_bind]. unfold load2.
    rewrite load_lookup, (lookup_map_Some _ _ _ _ Hp). cbn.
    eexists. split; [done|]. unfold penalty, default. cbn [own accesses final fst snd id].
    split; [|split].
    + repeat (first [split; [done|] | intros ?]). destruct (k_lt _ _); by repeat split.
    + intros v. destruct (k_lt _ _); cbn [accesses]; lia.
    + intros v. by destruct (k_lt _ _).
  - exists m'. split; [exact Hr|]. split; [done|]. intros i j. rewrite Hat. destruct (at2 m i j) as [x|]; [|done]. cbn. f_equal.
    apply apply_at_cell; [done|]. by intros k e y ->.
Qed.

(** The entries of the bit mask, in the order of their numbers. *)
Definition bitmask_cell (seqs : list nat) (e : nat) : option (nat * nat) :=
  (fun s => (s, e mod V)%nat) <$> seqs !! (e / V)%nat.

Lemma bitmask_cells seqs : (0 < V)%nat -> NoDup seqs ->
  exists cells, map (bitmask_cell seqs) (seq 0 (length seqs * V)) = map Some cells /\ NoDup cells /\
    length cells = (length seqs * V)%nat /\
    forall e c, cells !! e = Some c -> (e < length seqs * V)%nat /\ bitmask_cell seqs e = Some c.
Proof.
  intros HV Hnd.
  exists (map (fun e => (default O (seqs !! (e / V)%nat), e mod V)%nat) (seq 0 (length seqs * V))).
  assert (Hin : forall e, (e < length seqs * V)%nat -> exists s, seqs !! (e / V)%nat = Some s).
  { intros e He. apply lookup_lt_is_Some_2, Nat.Div0.div_lt_upper_bound. lia. }
  split; [|split; [|split]].
  - rewrite map_map. apply map_ext_in. intros e [_ He]%in_seq. destruct (Hin e He) as [s Hs]. unfold bitmask_cell.
    by rewrite Hs.
  - apply NoDup_fmap_2_strong; [|apply NoDup_seq].
    intros e1 e2 [_ H1]%elem_of_seq [_ H2]%elem_of_seq [= Hs Hm]. destruct (Hin e1 H1) as [s1 Hs1]. destruct (Hin e2 H2) as [s2 Hs2].
    rewrite Hs1, Hs2 in Hs. cbn in Hs. subst s2.
    assert (e1 / V = e2 / V)%nat by by eapply (NoDup_lookup seqs).
    rewrite (Nat.div_mod e1 V), (Nat.div_mod e2 V) by lia. congruence.
  - by rewrite length_map, length_seq.
  - intros e c Hc. pose proof (lookup_lt_Some _ _ _ Hc) as He. rewrite length_map, length_seq in He. split; [done|].
    rewrite (lookup_map_Some _ _ e e) in Hc by (by apply lookup_seq). injection Hc as <-.
    destruct (Hin e He) as [s Hs]. unfold bitmask_cell. by rewrite Hs.
Qed.

Lemma bit_set_testbit w vv : bit_set w vv = Z.testbit w (Z.of_nat (vv mod 32)).
Proof.
  unfold bit_set. rewrite Z.land_ones with (n := 1) by lia. rewrite Z.shiftr_div_pow2, <- Z.testbit_spec' by lia.
  by destruct (Z.testbit _ _).
Qed.

Lemma bitmask_runs seqs bitmask schedule m : matrix B V m -> matrix B (nat_ceildiv V 32) bitmask -> (0 < V)%nat ->
  NoDup seqs -> Forall (fun s => s < B)%nat seqs -> fair (length seqs * V) schedule ->
  exists m', apply_bitmask_inplace (logit_kernels run) (map Z.of_nat seqs) bitmask V schedule m = Some m' /\
    matrix B V m' /\ forall i j, at2 m' i j = masked seqs bitmask i j <$> at2 m i j.
Proof.
  intros Hm Hb HV Hnd Hin Hfair. cbn [apply_bitmask_inplace logit_kernels]. rewrite length_map.
  destruct (bitmask_cells seqs HV Hnd) as (cells & Hcells & Hnd' & Hlen & Hcell).
  destruct (HR (length seqs * V)%nat (bitmask_entry (map Z.of_nat seqs) bitmask V)
      (fun e x => match bitmask_cell seqs e with Some c => masked seqs bitmask c.1 c.2 x | None => x end)
      cells schedule B V m) as (m' & Hr & Hm' & Hat); [done..| |done| |].
  - apply Forall_lookup. intros e c Hc. destruct (Hcell e c Hc) as [He Hs]. unfold bitmask_cell in Hs.
    destruct (seqs !! (e / V)%nat) as [s|] eqn:E; [|done]. injection Hs as <-. cbn [fst snd].
    split; [by apply (Forall_lookup_1 _ _ _ _ Hin E)|apply Nat.mod_upper_bound; lia].
  - intros e c Hc. destruct (Hcell e c Hc) as [He Hs]. rewrite Hs. unfold bitmask_cell in Hs.
    destruct (seqs !! (e / V)%nat) as [s|] eqn:E; [|done]. injection Hs as <-. cbn [fst snd].
    unfold bitmask_entry. rewrite load_lookup, (lookup_map_Some _ _ _ _ E). cbn [mbind option_bind].
    assert (Hv : (e mod V < V)%nat) by (apply Nat.mod_upper_bound; lia).
    destruct (matrix_at2 B (nat_ceildiv V 32) bitmask s (e mod V / 32) Hb) as [w Hw].
    { by apply (Forall_lookup_1 _ _ _ _ Hin E). }
    { pose proof (nat_ceildiv_covers V 32). apply Nat.Div0.div_lt_upper_bound. lia. }
    rewrite load2_at2, Hw. cbn [mbind option_bind]. eexists. split; [done|]. rewrite bit_set_testbit. unfold masked.
    rewrite bool_decide_true by (by eapply list_elem_of_lookup_2). rewrite Hw.
    destruct (Z.testbit _ _); (split; [by repeat split|split; [cbn [accesses]; lia|done]]).
  - exists m'. split; [done|]. split; [done|]. intros i j. rewrite Hat. destruct (at2 m i j) as [x|] eqn:Hx; [|done].
    cbn. f_equal. destruct (at2_lt B V m i j x Hm Hx) as [Hi Hj].
    rewrite (apply_at_cell (bitmask_cell seqs) (fun e x => match bitmask_cell seqs e with
      Some c => masked seqs bitmask c.1 c.2 x | None => x end) _ (seq 0 (length seqs * V)) cells) by
      (done || intros k e y [-> _]%lookup_seq; done).
    unfold at_cell. destruct (List.find _ _) as [e|] eqn:Hf.
    + apply find_some in Hf as [_ He]. apply bool_decide_eq_true in He. by rewrite He.
    + unfold masked. rewrite bool_decide_false; [done|]. intros Hi'. apply list_elem_of_lookup in Hi' as [p Hp].
      pose proof (lookup_lt_Some _ _ _ Hp) as Hp'.
      assert (Hd : ((p * V + j) / V = p)%nat).
      { rewrite Nat.div_add_l by lia. rewrite Nat.div_small by done. lia. }
      assert (Hmod : ((p * V + j) mod V = j)%nat).
      { rewrite Nat.add_comm, Nat.Div0.mod_add. by apply Nat.mod_small. }
      pose proof (find_none _ _ Hf (p * V + j)%nat) as Hn. rewrite bool_decide_eq_false in Hn. apply Hn.
      * apply in_seq. nia.
      * unfold bitmask_cell. rewrite Hd, Hmod, Hp. done.
Qed.
End Run.

(** C7: the three kernels that [AttachLogitProcessFunc] puts into a module, run
    one after the other on the logits of a batch, leave at every entry its
    logit with the bias added, the penalties of its sequence and token applied and, where
    the bit mask of its row forbids the token, the least value instead.  This
    holds for the loops on a CPU and, elsewhere, for every interleaving of
    the loads and stores of the threads, as long as the entries of a kernel
    concern different logits; no access is outside of its buffer and every
    schedule that gives each thread five turns is enough. *)
Theorem logits_processed target k B V logits bias s1 seqs penalties es s2 mseqs bitmask s3 :
  attach_logit_processors target = Ok k -> (0 < max_num_threads target)%nat ->
  matrix B V logits -> (0 < V)%nat ->
  NoDup (map fst bias) -> Forall (fun e => e.1.1 < B /\ e.1.2 < V)%nat bias -> fair (length bias) s1 ->
  penalty_entries B V seqs penalties es -> fair (length es) s2 ->
  matrix B (nat_ceildiv V 32) bitmask -> NoDup mseqs -> Forall (fun s => s < B)%nat mseqs ->
  fair (length mseqs * V) s3 ->
  exists l1 l2 l3,
    apply_logit_bias_inplace k (map (fun e => Z.of_nat e.1.1) bias) (map (fun e => Z.of_nat e.1.2) bias)
      (map snd bias) s1 logits = Some l1 /\
    apply_penalty_inplace k (map Z.of_nat seqs) (map (fun e => Z.of_nat e.1.1) es) (map (fun e => Z.of_nat e.1.2) es)
      (map snd es) (map (fun p => [p.1.1; p.1.2; p.2]) penalties) s2 l1 = Some l2 /\
    apply_bitmask_inplace k (map Z.of_nat mseqs) bitmask V s3 l2 = Some l3 /\ matrix B V l3 /\
    forall i j, at2 l3 i j =
      (fun x => masked mseqs bitmask i j (penalized seqs penalties es i j (biased bias i j x))) <$> at2 logits i j.
Proof.
  intros Hk Hpos Hm HV Hb1 Hb2 Hs1 Hp Hs2 Hmask Hn1 Hn2 Hs3. destruct (attached_runs target k Hk Hpos) as (run & -> & HR).
  destruct (bias_runs run HR B V bias s1 logits Hm Hb1 Hb2 Hs1) as (l1 & H1 & Hm1 & E1).
  destruct (penalty_runs run HR B V seqs penalties es s2 l1 Hm1 Hp Hs2) as (l2 & H2 & Hm2 & E2).
  destruct (bitmask_runs run HR B V mseqs bitmask s3 l2 Hm2 Hmask HV Hn1 Hn2 Hs3) as (l3 & H3 & Hm3 & E3).
  exists l1, l2, l3. repeat (split; [done|]). intros i j. rewrite E3, E2, E1. by destruct (at2 logits i j).
Qed.
End Kernels.

(** The hypotheses hold on a GPU with two sequences: a bias for one token, penalties
    for one that has appeared twice, a grammar that allows one token of two. *)
Lemma logits_processed_witness : exists k : LogitKernels (F := R),
  attach_logit_processors (mkTarget "cuda" 64 (Some 1024%nat)) = Ok k /\
  exists l1 l2 l3,
    apply_logit_bias_inplace k [0] [1] [5%R] (repeat 0%nat 5) [[1%R; 2%R]; [3%R; 4%R]] = Some l1 /\
    apply_penalty_inplace k [1] [0] [0] [2] [[1%R; 2%R; 3%R]] (repeat 0%nat 5) l1 = Some l2 /\
    apply_bitmask_inplace k [0] [[2]; [0]] 2 (repeat 0%nat 5 ++ repeat 1%nat 5) l2 = Some l3 /\
    matrix 2 2 l3 /\
    forall i j, at2 l3 i j =
      (fun x => masked [0%nat] [[2]; [0]] i j
        (penalized [1%nat] [(1, 2, 3)%R] [(0%nat, 0%nat, 2)] i j (biased [(0%nat, 1%nat, 5%R)] i j x)))
      <$> at2 [[1%R; 2%R]; [3%R; 4%R]] i j.
Proof.
  eexists. split; [reflexivity|].
  apply (logits_processed (mkTarget "cuda" 64 (Some 1024%nat)) _ 2 2 [[1%R; 2%R]; [3%R; 4%R]]
    [(0%nat, 1%nat, 5%R)] (repeat 0%nat 5) [1%nat] [(1, 2, 3)%R] [(0%nat, 0%nat, 2)] (repeat 0%nat 5)
    [0%nat] [[2]; [0]] (repeat 0%nat 5 ++ repeat 1%nat 5)); try reflexivity; try lia.
  - by cbn; lia.
  - by repeat constructor.
  - cbn. apply NoDup_singleton.
  - by repeat constructor; cbn; lia.
  - split; [repeat constructor|]. intros [|i] Hi; cbn in *; lia.
  - split; [done|]. split; [repeat constructor|]. split; [apply NoDup_singleton|]. repeat constructor; cbn; lia.
  - split; [repeat constructor|]. intros [|i] Hi; cbn in *; lia.
  - by repeat constructor.
  - apply NoDup_singleton.
  - repeat constructor.
  - split; [repeat constructor|]. intros [|[|i]] Hi; cbn in *; lia.
Defined.

(** Two biases for one logit: both are added on a CPU; elsewhere one of them
    can be lost, when the second thread loads before the first one stores. *)
Example bias_lost (x a b : R) :
  apply_logit_bias_inplace (logit_kernels (fun n body _ => serial n body)) [0; 0] [0; 0] [a; b] [] [[x]] =
    Some [[(x + a + b)%R]] /\
  apply_logit_bias_inplace (logit_kernels (parallel 2)) [0; 0] [0; 0] [a; b] [0; 0; 1; 1]%nat [[x]] =
    Some [[(x + a + b)%R]] /\
  apply_logit_bias_inplace (logit_kernels (parallel 2)) [0; 0] [0; 0] [a; b] [0; 1; 0; 1]%nat [[x]] =
    Some [[(x + b)%R]].
Proof. done. Qed.
