(* ===== verification/SoftmaxTemperature.v ===== *)
(** * Softmax with temperature ([compiler_pass/attach_softmax_with_temperature.py])

    The softmax of the logits of a batch, in two kernels: the first one reduces
    every chunk of a row to its maximum and the logarithm of its sum of
    exponentials, the second one merges the chunks and writes the
    probabilities.  A temperature of at most [1e-5] stands for zero: the
    probability is shared among the greatest logits.  A buffer that a block
    fills is a table; the order in which the last block, which is bound to GPU
    threads, stores the probabilities is arbitrary. *)

From Stdlib Require Import Reals Lra.
From stdpp Require Import base list.
From S2P Require Import Prelude TirBuffer KernelArith.
Local Open Scope Z_scope.

Definition load3 {A} (b : list (list (list A))) (i j k : Z) : option A := r ← load2 b i j; load1 r k.

Section Softmax.
Context {F : Type} `{KernelOps F}.

(** [temperature[v0] > T.float32(1e-5)] *)
Definition is_hot (t : F) : bool := k_lt (k_dec 1 5) t.
Definition cast_bool (b : bool) : F := if b then k_one else k_zero.

Section Kernels.
Context (batch_size vocab_size chunk_size num_chunks : nat).

Notation "# n" := (Z.of_nat n) (at level 1).

(** The block [pad] *)
Definition pad_at (A : list (list F)) (temperature : list F) (v0 v1 v2 : nat) : option F :=
  let i := (v1 * chunk_size + v2)%nat in
  if (i <? vocab_size)%nat then
    t ← load1 temperature #v0;
    a ← load2 A #v0 #i;
    Some (if is_hot t then k_div a t else a)
  else Some k_min_value.

(** The block [max] of the first kernel *)
Definition chunk_max_at (A_pad : list (list (list F))) (v0 v1 : nat) : option F :=
  ofold (fun v2 m => x ← load3 A_pad #v0 #v1 #v2; Some (k_max m x)) (seq 0 chunk_size) k_min_value.

(** The block [sum_exp] of the first kernel *)
Definition chunk_sum_exp_at (temperature : list F) (A_pad : list (list (list F))) (temp_max : list (list F))
    (v0 v1 : nat) : option F :=
  ofold (fun v2 s =>
    e ← (if (v1 * chunk_size + v2 <? vocab_size)%nat then
           t ← load1 temperature #v0;
           x ← load3 A_pad #v0 #v1 #v2;
           m ← load2 temp_max #v0 #v1;
           Some (if is_hot t then k_exp (k_sub x m) else cast_bool (k_eq x m))
         else Some k_zero);
    Some (k_add s e)) (seq 0 chunk_size) k_zero.

(** The block [log] *)
Definition chunk_log_at (temperature : list F) (temp_sum : list (list F)) (v0 v1 : nat) : option F :=
  t ← load1 temperature #v0;
  s ← load2 temp_sum #v0 #v1;
  Some (if is_hot t then k_log s else s).

(** The first kernel: [chunked_sum] and [chunked_max]. *)
Definition chunk_lse (A : list (list F)) (temperature : list F) : option (list (list F) * list (list F)) :=
  A_pad ← te_compute2 batch_size num_chunks (fun v0 v1 => mapM (pad_at A temperature v0 v1) (seq 0 chunk_size));
  temp_max ← te_compute2 batch_size num_chunks (chunk_max_at A_pad);
  temp_sum ← te_compute2 batch_size num_chunks (chunk_sum_exp_at temperature A_pad temp_max);
  chunked_sum ← te_compute2 batch_size num_chunks (chunk_log_at temperature temp_sum);
  chunked_max ← te_compute2 batch_size num_chunks (fun v0 v1 => load2 temp_max #v0 #v1);
  Some (chunked_sum, chunked_max).

(** The blocks [max] and [sum_exp] of the second kernel *)
Definition merge_max_at (chunked_max : list (list F)) (v0 : nat) : option F :=
  ofold (fun v1 m => x ← load2 chunked_max #v0 #v1; Some (k_max m x)) (seq 0 num_chunks) k_min_value.

Definition merge_sum_exp_at (temperature : list F) (chunked_sum chunked_max : list (list F)) (temp_max : list F)
    (v0 : nat) : option F :=
  ofold (fun v1 s =>
    t ← load1 temperature #v0;
    l ← load2 chunked_sum #v0 #v1;
    m ← load2 chunked_max #v0 #v1;
    tm ← load1 temp_max #v0;
    Some (k_add s (if is_hot t then k_exp (k_sub (k_add l m) tm) else k_mul (cast_bool (k_eq m tm)) l)))
    (seq 0 num_chunks) k_zero.

(** The block [log_pad]: the iteration [(v0, v1, v2)] *)
Definition log_pad (A : list (list F)) (temperature temp_sum temp_max : list F) (v : nat * (nat * nat))
    (softmax : list (list F)) : option (list (list F)) :=
  let v0 := v.1 in let i := (v.2.1 * chunk_size + v.2.2)%nat in
  if (i <? vocab_size)%nat then
    t ← load1 temperature #v0;
    a ← load2 A #v0 #i;
    ts ← load1 temp_sum #v0;
    tm ← load1 temp_max #v0;
    store2 softmax #v0 #i
      (if is_hot t then k_exp (k_sub (k_div a t) (k_add (k_log ts) tm)) else k_div (cast_bool (k_eq a tm)) ts)
  else Some softmax.

(** [T.grid(batch_size, num_chunks, chunk_size)] *)
Definition softmax_grid : list (nat * (nat * nat)) :=
  flat_map (fun v0 => map (pair v0) (grid num_chunks chunk_size)) (seq 0 batch_size).

(** The second kernel, which makes its stores in the given order *)
Definition softmax_with_chunked_sum (order : list (nat * (nat * nat))) (A : list (list F)) (temperature : list F)
    (chunked_sum chunked_max softmax : list (list F)) : option (list (list F)) :=
  temp_max ← mapM (merge_max_at chunked_max) (seq 0 batch_size);
  temp_sum ← mapM (merge_sum_exp_at temperature chunked_sum chunked_max temp_max) (seq 0 batch_size);
  ofold (log_pad A temperature temp_sum temp_max) order softmax.
End Kernels.

(** [_Rewriter.chunk_size] *)
Definition rewriter_chunk_size : nat := Z.to_nat 4096.

(** [_Rewriter.transform]: the function [softmax_with_temperature], for logits of
    the shape [(batch_size, 1, vocab_size)] and a fresh output buffer. *)
Definition softmax_with_temperature (chunk_size batch_size vocab_size : nat) (order : list (nat * (nat * nat)))
    (output : list (list F)) (logits : list (list (list F))) (temperature : list F)
    : option (list (list (list F))) :=
  let num_chunks := nat_ceildiv vocab_size chunk_size in
  A ← reshape batch_size vocab_size (concat (map (@concat F) logits));
  chunked_results ← chunk_lse batch_size vocab_size chunk_size num_chunks A temperature;
  softmax ← softmax_with_chunked_sum batch_size vocab_size chunk_size num_chunks order A temperature
    chunked_results.1 chunked_results.2 output;
  Some (chunks 1 batch_size softmax).
End Softmax.

(** ** The probabilities of a row *)

Local Open Scope R_scope.

(** The softmax of the row [x] at a positive temperature; at temperature
    zero the greatest logits share the probability. *)
Definition greatest_of (row : list R) (a : R) : bool := forallb (fun b => k_le b a) row.
Definition softmax_of (t : R) (row : list R) (a : R) : R :=
  if is_hot t then exp (a / t) / Rsum (map (fun b => exp (b / t)) row)
  else if greatest_of row a then / INR (length (List.filter (greatest_of row) row)) else 0.

(** Sums over the elements of the chunks *)
Lemma chunked_sums V cs C (h : nat -> R) : (V <= C * cs)%nat ->
  Rsum (map (fun c => Rsum (map (fun j => if (c * cs + j <? V)%nat then h (c * cs + j)%nat else 0) (seq 0 cs))) (seq 0 C)) =
  Rsum (map h (seq 0 V)).
Proof.
  intros HV. set (g := fun n => if (n <? V)%nat then h n else 0).
  transitivity (Rsum (map g (map (fun p => p.1 * cs + p.2)%nat (grid C cs)))).
  - unfold grid. rewrite map_map, flat_map_concat_map, concat_map, map_map, Rsum_concat, map_map.
    apply Rsum_ext. intros c _. by rewrite map_map.
  - rewrite grid_numbers. replace (C * cs)%nat with (V + (C * cs - V))%nat by lia.
    rewrite seq_app, map_app, Rsum_app. rewrite (Rsum_zero g (seq (0 + V) _)); [rewrite Rplus_0_r; apply Rsum_ext|].
    + intros i [_ Hi]%in_seq. unfold g. by rewrite (proj2 (Nat.ltb_lt _ _)).
    + intros i [Hi _]%in_seq. unfold g. by rewrite (proj2 (Nat.ltb_ge _ _)).
Qed.

Lemma chunk_nonempty V cs c : (0 < cs)%nat -> (c < nat_ceildiv V cs)%nat -> (c * cs < V)%nat.
Proof.
  unfold nat_ceildiv. intros Hcs Hc. pose proof (Nat.div_mod_eq (V + cs - 1) cs). nia.
Qed.

Section Row.
Context (V cs : nat) (Hcs : (0 < cs)%nat) (HV : (0 < V)%nat) (y : nat -> R).
Let C := nat_ceildiv V cs.

Lemma covers : (V <= C * cs)%nat.
Proof. by apply nat_ceildiv_covers. Qed.

(** Positive temperature: the sum of the exponentials, whatever the maxima are. *)
Definition chunk_exps (m : R) (c : nat) : R :=
  Rsum (map (fun j => if (c * cs + j <? V)%nat then exp (y (c * cs + j)%nat - m) else 0) (seq 0 cs)).

Lemma chunk_exps_pos m c : (c < C)%nat -> 0 < chunk_exps m c.
Proof.
  intros Hc. pose proof (chunk_nonempty V cs c Hcs Hc). unfold chunk_exps.
  apply (Rsum_pos _ _ O).
  - intros j _. destruct (_ <? _)%nat; [|lra]. left. apply exp_pos.
  - apply in_seq. lia.
  - rewrite Nat.add_0_r, (proj2 (Nat.ltb_lt _ _)) by done. apply exp_pos.
Qed.

Lemma merged_exps (cm : nat -> R) M :
  Rsum (map (fun c => exp (ln (chunk_exps (cm c) c) + cm c - M)) (seq 0 C)) =
  exp (- M) * Rsum (map (fun i => exp (y i)) (seq 0 V)).
Proof.
  rewrite <- Rsum_scale, <- (chunked_sums V cs C) by apply covers. apply Rsum_ext. intros c [_ Hc]%in_seq.
  rewrite <- Rplus_minus_assoc, exp_plus, exp_ln by (by apply chunk_exps_pos). rewrite Rmult_comm. unfold chunk_exps.
  rewrite <- Rsum_scale. apply Rsum_ext. intros j _. destruct (_ <? _)%nat; [|lra].
  rewrite <- !exp_plus. f_equal. lra.
Qed.

Lemma hot_probability (cm : nat -> R) M a :
  exp (a - (ln (Rsum (map (fun c => exp (ln (chunk_exps (cm c) c) + cm c - M)) (seq 0 C))) + M)) =
  exp a / Rsum (map (fun i => exp (y i)) (seq 0 V)).
Proof.
  rewrite merged_exps. assert (Hpos : 0 < Rsum (map (fun i => exp (y i)) (seq 0 V))).
  { apply (Rsum_pos _ _ O); [intros; left; apply exp_pos|apply in_seq; lia|apply exp_pos]. }
  rewrite ln_mult, ln_exp by (done || apply exp_pos).
  set (S := Rsum _) in *. replace (a - (- M + ln S + M)) with (a + - ln S) by lra.
  rewrite exp_plus, exp_Ropp, exp_ln by done. done.
Qed.

(** Temperature zero: the greatest logit and how often it occurs. *)
Context (Hmin : forall i, (i < V)%nat -> k_min_value <= y i).

Definition chunk_greatest (c : nat) : R :=
  Rgreatest (map (fun j => if (c * cs + j <? V)%nat then y (c * cs + j)%nat else k_min_value) (seq 0 cs)).
Definition row_greatest : R := Rgreatest (map chunk_greatest (seq 0 C)).

Lemma row_greatest_ge i : (i < V)%nat -> y i <= chunk_greatest (i / cs) <= row_greatest.
Proof.
  intros Hi. assert (Hd : (i / cs < C)%nat).
  { apply Nat.Div0.div_lt_upper_bound. pose proof covers. lia. }
  split.
  - apply Rgreatest_ge, in_map_iff. exists (i mod cs)%nat.
    replace (i / cs * cs + i mod cs)%nat with i by (pose proof (Nat.div_mod_eq i cs); lia).
    rewrite (proj2 (Nat.ltb_lt _ _)) by done. split; [done|]. apply in_seq.
    pose proof (Nat.mod_upper_bound i cs). lia.
  - apply Rgreatest_ge, in_map, in_seq. lia.
Qed.

Lemma row_greatest_le b : k_min_value <= b -> (forall i, (i < V)%nat -> y i <= b) -> row_greatest <= b.
Proof.
  intros Hb Hall. apply Rgreatest_le; [done|]. intros m (c & <- & _)%in_map_iff. apply Rgreatest_le; [done|].
  intros z (j & <- & _)%in_map_iff. destruct (Nat.ltb_spec (c * cs + j) V); [by apply Hall|done].
Qed.

Lemma greatest_of_spec i : (i < V)%nat -> greatest_of (map y (seq 0 V)) (y i) = Reqb (y i) row_greatest.
Proof.
  intros Hi. apply eq_true_iff_eq. unfold greatest_of. rewrite forallb_forall.
  destruct (Reqb_spec (y i) row_greatest) as [E|E]; split; intros H; try done.
  - intros z (k & <- & [_ Hk]%in_seq)%in_map_iff. destruct (Rleb_spec (y k) (y i)) as [|Hn]; [done|].
    pose proof (row_greatest_ge k Hk). lra.
  - destruct E. apply Rle_antisym; [pose proof (row_greatest_ge i Hi); lra|].
    apply row_greatest_le; [by apply Hmin|]. intros k Hk. specialize (H (y k)).
    destruct (Rleb_spec (y k) (y i)) as [|Hn]; [done|]. discriminate H. apply in_map, in_seq. lia.
Qed.

Lemma merged_counts :
  Rsum (map (fun c => cast_bool (Reqb (chunk_greatest c) row_greatest) *
     Rsum (map (fun j => if (c * cs + j <? V)%nat then cast_bool (Reqb (y (c * cs + j)%nat) (chunk_greatest c)) else 0)
       (seq 0 cs))) (seq 0 C)) =
  INR (length (List.filter (greatest_of (map y (seq 0 V))) (map y (seq 0 V)))).
Proof.
  rewrite <- Rsum_ones, map_map, <- (chunked_sums V cs C) by apply covers. apply Rsum_ext. intros c [_ Hc]%in_seq.
  rewrite <- Rsum_scale. apply Rsum_ext. intros j [_ Hj]%in_seq. destruct (Nat.ltb_spec (c * cs + j) V) as [Hi|]; [|lra].
  rewrite greatest_of_spec by done. cbn [Nat.add] in Hj. pose proof (row_greatest_ge (c * cs + j) Hi) as Hg.
  replace ((c * cs + j) / cs)%nat with c in Hg by (rewrite Nat.div_add_l, Nat.div_small by lia; lia).
  unfold cast_bool, k_one, k_zero. cbn [k_of_Z R_kernel].
  destruct (Reqb_spec (chunk_greatest c) row_greatest), (Reqb_spec (y (c * cs + j)%nat) (chunk_greatest c)),
    (Reqb_spec (y (c * cs + j)%nat) row_greatest); lra.
Qed.
End Row.

(** ** The kernels compute the probabilities *)

Section Exact.
Context (B V cs : nat) (Hcs : (0 < cs)%nat) (HV : (0 < V)%nat) (A : list (list R)) (temperature : list R).
Hypothesis HA : matrix B V A.
Hypothesis Ht : length temperature = B.
Let C := nat_ceildiv V cs.

Definition t_at (v0 : nat) : R := default 0 (temperature !! v0).
Definition x_at (v0 i : nat) : R := default 0 (at2 A v0 i).
Definition y_at (v0 i : nat) : R := if is_hot (t_at v0) then x_at v0 i / t_at v0 else x_at v0 i.
Definition e_at (v0 : nat) (m : R) (i : nat) : R :=
  if is_hot (t_at v0) then exp (y_at v0 i - m) else cast_bool (Reqb (y_at v0 i) m).
Definition m_at (v0 v1 : nat) : R := chunk_greatest V cs (y_at v0) v1.
Definition s_at (v0 v1 : nat) : R :=
  Rsum (map (fun j => if (v1 * cs + j <? V)%nat then e_at v0 (m_at v0 v1) (v1 * cs + j) else 0) (seq 0 cs)).
Definition l_at (v0 v1 : nat) : R := if is_hot (t_at v0) then ln (s_at v0 v1) else s_at v0 v1.

Lemma load_t v0 : (v0 < B)%nat -> load1 temperature (Z.of_nat v0) = Some (t_at v0).
Proof.
  intros Hv. rewrite load_lookup. unfold t_at. destruct (lookup_lt_is_Some_2 temperature v0) as [t E]; [lia|]. by rewrite E.
Qed.

Lemma load_x v0 i : (v0 < B)%nat -> (i < V)%nat -> load2 A (Z.of_nat v0) (Z.of_nat i) = Some (x_at v0 i).
Proof.
  intros Hv Hi. rewrite load2_at2. unfold x_at. by destruct (matrix_at2 B V A v0 i HA Hv Hi) as [x ->].
Qed.

Lemma load_table (g : nat -> nat -> R) n m i j : (i < n)%nat -> (j < m)%nat ->
  load2 (table n m g) (Z.of_nat i) (Z.of_nat j) = Some (g i j).
Proof. intros Hi Hj. rewrite load2_at2. by apply at2_table. Qed.

Definition padded : list (list (list R)) :=
  table B C (fun v0 v1 => map (fun v2 => if (v1 * cs + v2 <? V)%nat then y_at v0 (v1 * cs + v2) else k_min_value) (seq 0 cs)).

Lemma load_padded v0 v1 v2 : (v0 < B)%nat -> (v1 < C)%nat -> (v2 < cs)%nat ->
  load3 padded (Z.of_nat v0) (Z.of_nat v1) (Z.of_nat v2) =
  Some (if (v1 * cs + v2 <? V)%nat then y_at v0 (v1 * cs + v2) else k_min_value).
Proof.
  intros H0 H1 H2. unfold load3, padded. rewrite load2_at2, at2_table by done. cbn [mbind option_bind].
  by rewrite load1_map_seq.
Qed.

Lemma chunk_lse_exact :
  chunk_lse B V cs C A temperature = Some (table B C l_at, table B C m_at).
Proof.
  unfold chunk_lse. rewrite (te_compute2_table _ _ _ (fun v0 v1 => map (fun v2 =>
    if (v1 * cs + v2 <? V)%nat then y_at v0 (v1 * cs + v2) else k_min_value) (seq 0 cs))).
  2:{ intros v0 v1 H0 H1. apply mapM_Some'. intros v2 [_ H2]%in_seq. unfold pad_at.
      destruct (Nat.ltb_spec (v1 * cs + v2) V); [|done]. by rewrite load_t, load_x by done. }
  fold padded. cbn [mbind option_bind]. rewrite (te_compute2_table _ _ _ m_at).
  2:{ intros v0 v1 H0 H1. apply (ofold_fold _ Rmax). intros v2 s [_ H2]%in_seq. by rewrite load_padded. }
  cbn [mbind option_bind]. rewrite (te_compute2_table _ _ (chunk_sum_exp_at V cs temperature padded (table B C m_at)) s_at).
  2:{ intros v0 v1 H0 H1. unfold chunk_sum_exp_at.
      rewrite (ofold_fold _ Rplus (fun j => if (v1 * cs + j <? V)%nat then e_at v0 (m_at v0 v1) (v1 * cs + j) else 0)).
      - f_equal. rewrite fold_Rplus. unfold k_zero. cbn. apply Rplus_0_l.
      - intros v2 s [_ H2]%in_seq. pose proof (load_padded v0 v1 v2 H0 H1 H2) as Hp.
        destruct (Nat.ltb_spec (v1 * cs + v2) V); [|done].
        by rewrite load_t, Hp, load_table by done. }
  cbn [mbind option_bind]. rewrite (te_compute2_table _ _ (chunk_log_at temperature (table B C s_at)) l_at).
  2:{ intros v0 v1 H0 H1. unfold chunk_log_at. by rewrite load_t, load_table by done. }
  cbn [mbind option_bind]. rewrite (te_compute2_table _ _ _ m_at) by (intros v0 v1 H0 H1; by apply load_table). done.
Qed.

Definition M_at (v0 : nat) : R := row_greatest V cs (y_at v0).
Definition S_at (v0 : nat) : R :=
  Rsum (map (fun v1 => if is_hot (t_at v0) then exp (l_at v0 v1 + m_at v0 v1 - M_at v0)
                       else cast_bool (Reqb (m_at v0 v1) (M_at v0)) * l_at v0 v1) (seq 0 C)).
Definition p_at (v0 i : nat) : R :=
  if is_hot (t_at v0) then exp (x_at v0 i / t_at v0 - (ln (S_at v0) + M_at v0))
  else cast_bool (Reqb (x_at v0 i) (M_at v0)) / S_at v0.

Lemma softmax_grid_In v : In v (softmax_grid B cs C) <-> (v.1 < B /\ v.2.1 < C /\ v.2.2 < cs)%nat.
Proof.
  destruct v as [v0 v1]. unfold softmax_grid. rewrite in_flat_map. cbn [fst snd]. split.
  - intros (b & Hb%in_seq & (p & [= -> ->] & Hp%grid_In)%in_map_iff). lia.
  - intros (H0 & H1). exists v0. split; [apply in_seq; lia|]. apply in_map. by apply grid_In.
Qed.

Lemma softmax_with_chunked_sum_exact order output : Permutation order (softmax_grid B cs C) -> matrix B V output ->
  softmax_with_chunked_sum B V cs C order A temperature (table B C l_at) (table B C m_at) output =
  Some (table B V p_at).
Proof.
  intros Ho Hout. unfold softmax_with_chunked_sum. rewrite (mapM_Some' _ M_at).
  2:{ intros v0 [_ H0]%in_seq. apply (ofold_fold _ Rmax). intros v1 s [_ H1]%in_seq. by rewrite load_table. }
  cbn [mbind option_bind]. rewrite (mapM_Some' _ S_at).
  2:{ intros v0 [_ H0]%in_seq. unfold merge_sum_exp_at.
      rewrite (ofold_fold _ Rplus (fun v1 => if is_hot (t_at v0) then exp (l_at v0 v1 + m_at v0 v1 - M_at v0)
        else cast_bool (Reqb (m_at v0 v1) (M_at v0)) * l_at v0 v1)).
      - f_equal. rewrite fold_Rplus. unfold k_zero. cbn. apply Rplus_0_l.
      - intros v1 s [_ H1]%in_seq. by rewrite load_t, !load_table, load1_map_seq by done. }
  cbn [mbind option_bind].
  set (step := fun (v : nat * (nat * nat)) O => store2 O (Z.of_nat v.1) (Z.of_nat (v.2.1 * cs + v.2.2)) (p_at v.1 (v.2.1 * cs + v.2.2))).
  rewrite (ofold_filter _ (fun v => v.2.1 * cs + v.2.2 <? V)%nat).
  2:{ intros v s _ Hv. unfold log_pad. by rewrite Hv. }
  rewrite (ofold_ext _ step).
  - apply (store_cells (fun v => (v.1, v.2.1 * cs + v.2.2)%nat) (fun v => p_at v.1 (v.2.1 * cs + v.2.2)) p_at B V); [done| |].
    + apply Forall_forall. intros v [Hv Hlt]%list_elem_of_In%filter_In. cbn [fst snd].
      rewrite Ho in Hv. apply softmax_grid_In in Hv as (H0 & _ & _). by apply Nat.ltb_lt in Hlt.
    + intros i e Hi He. apply list_elem_of_In, in_map_iff. exists (i, (e / cs, e mod cs))%nat. cbn [fst snd].
      assert (E : (e / cs * cs + e mod cs = e)%nat) by (pose proof (Nat.div_mod_eq e cs); lia).
      rewrite E. split; [done|]. apply filter_In. cbn [fst snd]. rewrite E. split; [|by apply Nat.ltb_lt].
      rewrite Ho. apply softmax_grid_In. cbn [fst snd]. split; [done|]. split; [|apply Nat.mod_upper_bound; lia].
      apply Nat.Div0.div_lt_upper_bound. pose proof (nat_ceildiv_covers V cs Hcs). unfold C. lia.
  - intros v s [Hv Hlt]%filter_In. rewrite Ho in Hv. apply softmax_grid_In in Hv as (H0 & H1 & H2).
    unfold log_pad, step, p_at. rewrite Hlt. apply Nat.ltb_lt in Hlt.
    by rewrite load_t, load_x, !load1_map_seq by done.
Qed.

Lemma p_at_softmax v0 i : (v0 < B)%nat -> (i < V)%nat ->
  (is_hot (t_at v0) = false -> forall j, (j < V)%nat -> k_min_value <= x_at v0 j) ->
  p_at v0 i = softmax_of (t_at v0) (map (x_at v0) (seq 0 V)) (x_at v0 i).
Proof.
  intros H0 Hi Hmin. unfold p_at, softmax_of, S_at, l_at, s_at, e_at, y_at in *. destruct (is_hot (t_at v0)) eqn:Hhot.
  - set (y := fun j => x_at v0 j / t_at v0). pose proof (hot_probability V cs Hcs HV y (m_at v0) (M_at v0) (y i)) as Hp.
    unfold chunk_exps in Hp. rewrite map_map. exact Hp.
  - specialize (Hmin eq_refl).
    assert (Em : forall v1, m_at v0 v1 = chunk_greatest V cs (x_at v0) v1).
    { intros v1. unfold m_at, y_at. by rewrite Hhot. }
    assert (EM : M_at v0 = row_greatest V cs (x_at v0)) by (unfold M_at, y_at; by rewrite Hhot).
    rewrite EM. pose proof (merged_counts V cs Hcs HV (x_at v0) Hmin) as Hc.
    rewrite (Rsum_ext _ (fun c => cast_bool (Reqb (chunk_greatest V cs (x_at v0) c) (row_greatest V cs (x_at v0))) *
      Rsum (map (fun j => if (c * cs + j <? V)%nat then cast_bool (Reqb (x_at v0 (c * cs + j)) (chunk_greatest V cs (x_at v0) c)) else 0)
        (seq 0 cs)))) by (intros c _; by rewrite Em).
    unfold C. rewrite Hc, (greatest_of_spec V cs) by done. unfold cast_bool, k_one, k_zero. cbn [k_of_Z R_kernel].
    destruct (Reqb _ _); unfold Rdiv; lra.
Qed.

Lemma row_at v0 row : A !! v0 = Some row -> map (x_at v0) (seq 0 V) = row.
Proof.
  intros E. unfold x_at, at2. rewrite E. cbn [mbind option_bind]. destruct HA as [_ HA'].
  rewrite <- (Forall_lookup_1 _ _ _ _ HA' E). apply map_lookup_seq.
Qed.

Lemma softmax_table :
  (forall t row, In (t, row) (combine temperature A) -> is_hot t = false -> Forall (fun a => k_min_value <= a) row) ->
  table B V p_at = map (fun tr => map (softmax_of tr.1 tr.2) tr.2) (combine temperature A).
Proof.
  intros Hmin. apply list_eq. intros v0. destruct (decide (v0 < B)%nat) as [H0|H0].
  - destruct (lookup_lt_is_Some_2 temperature v0) as [t Et]; [lia|].
    destruct (matrix_row B V A v0 HA H0) as (row & Er & Hl).
    assert (Ec : combine temperature A !! v0 = Some (t, row)).
    { apply lookup_zip_with_Some. by exists t, row. }
    rewrite (lookup_map_Some _ _ v0 (t, row)) by done. unfold table. rewrite (lookup_map_Some _ _ v0 v0) by (by apply lookup_seq).
    f_equal. cbn [fst snd]. rewrite <- (row_at v0 row Er) at 2. rewrite map_map.
    assert (Ht' : t_at v0 = t) by (unfold t_at; by rewrite Et). apply map_ext_in. intros i [_ Hi]%in_seq.
    rewrite p_at_softmax, Ht', (row_at v0 row Er); [done|done|done|]. rewrite Ht'. intros Hhot j Hj.
    assert (Hin : In (t, row) (combine temperature A)) by (by eapply list_elem_of_In, list_elem_of_lookup_2).
    pose proof (Hmin t row Hin Hhot) as Hall. rewrite List.Forall_forall in Hall. apply Hall.
    rewrite <- (row_at v0 row Er). apply in_map, in_seq. lia.
  - destruct (table_matrix B V p_at) as [Hl _]. rewrite !lookup_ge_None_2; [done| |lia].
    rewrite length_map, length_combine. destruct HA. lia.
Qed.
End Exact.

(** The entries of a softmax are a distribution. *)
Lemma greatest_exists row : row <> [] -> exists a, In a row /\ greatest_of row a = true.
Proof.
  destruct row as [|x l]; [done|]. intros _. exists (fold_left Rmax l x). split.
  - destruct (fold_Rmax_in l x) as [->|]; [by left|by right].
  - apply forallb_forall. intros b Hb. destruct (Rleb_spec b (fold_left Rmax l x)) as [|Hn]; [done|].
    destruct (fold_Rmax_ge l x) as [H1 H2]. destruct Hb as [<-|Hb]; [lra|]. specialize (H2 b Hb). lra.
Qed.

Lemma softmax_distribution t row : row <> [] ->
  Forall (fun p => 0 <= p) (map (softmax_of t row) row) /\ Rsum (map (softmax_of t row) row) = 1.
Proof.
  intros Hne. unfold softmax_of. destruct (is_hot t).
  - assert (Hpos : 0 < Rsum (map (fun b => exp (b / t)) row)).
    { destruct row as [|x l]; [done|]. apply (Rsum_pos _ _ x); [intros; left; apply exp_pos|by left|apply exp_pos]. }
    split; [apply Forall_map, Forall_forall; intros a _; left; apply Rdiv_lt_0_compat; [apply exp_pos|done]|].
    rewrite (Rsum_ext _ (fun a => / Rsum (map (fun b => exp (b / t)) row) * exp (a / t))) by (intros; unfold Rdiv; lra).
    rewrite Rsum_scale. apply Rinv_l. lra.
  - set (g := greatest_of row). set (n := length (List.filter g row)).
    assert (Hn : INR n <> 0).
    { destruct (greatest_exists row Hne) as (a & Ha & Hg). assert (Hin : In a (List.filter g row)) by (by apply filter_In).
      apply not_0_INR. unfold n. by destruct (List.filter g row). }
    assert (0 <= / INR n) by (left; apply Rinv_0_lt_compat; pose proof (pos_INR n); lra).
    split; [apply Forall_map, Forall_forall; intros a _; by destruct (g a); [|lra]|].
    rewrite (Rsum_ext _ (fun a => / INR n * if g a then 1 else 0)) by (intros a _; destruct (g a); lra).
    rewrite Rsum_scale, Rsum_ones. by apply Rinv_l.
Qed.

(** C8: in exact arithmetic the function that
    [AttachSoftmaxWithTemperature] adds to a module computes the softmax of every
    row of the logits: at a temperature above [1e-5] the exponentials of the scaled
    logits over their sum, otherwise the uniform distribution on the greatest logits, provided
    these are not below the least [float32]; in both cases a probability distribution.  The
    result depends neither on the size of the chunks nor on the order in which
    the threads store the probabilities nor on what the output buffer holds. *)
Theorem softmax_with_temperature_exact cs B V order output rows temperature :
  (0 < cs)%nat -> (0 < V)%nat -> matrix B V rows -> length temperature = B -> matrix B V output ->
  Permutation order (softmax_grid B cs (nat_ceildiv V cs)) ->
  (forall t row, In (t, row) (combine temperature rows) -> is_hot t = false -> Forall (fun a => k_min_value <= a) row) ->
  softmax_with_temperature cs B V order output (map (fun row => [row]) rows) temperature =
    Some (map (fun tr => [map (softmax_of tr.1 tr.2) tr.2]) (combine temperature rows)) /\
  Forall (fun tr => Forall (fun p => 0 <= p) (map (softmax_of tr.1 tr.2) tr.2) /\
                    Rsum (map (softmax_of tr.1 tr.2) tr.2) = 1) (combine temperature rows).
Proof.
  intros Hcs HV HA Ht Hout Ho Hmin. split.
  - unfold softmax_with_temperature.
    assert (Hrows : map (@concat R) (map (fun row => [row]) rows) = rows).
    { rewrite map_map. etransitivity; [|apply map_id]. apply map_ext. intros row. apply app_nil_r. }
    rewrite Hrows.
    rewrite (reshape_concat B V rows HA). cbn [mbind option_bind].
    rewrite chunk_lse_exact by done. cbn [mbind option_bind fst snd].
    rewrite softmax_with_chunked_sum_exact by done. cbn [mbind option_bind].
    rewrite softmax_table by done. f_equal.
    set (l := combine temperature rows). transitivity (map (fun row => [row]) (map (fun tr => map (softmax_of tr.1 tr.2) tr.2) l)).
    2:{ by rewrite map_map. }
    assert (Hl : length (map (fun tr => map (softmax_of tr.1 tr.2) tr.2) l) = B).
    { unfold l. rewrite length_map, length_combine. destruct HA. lia. }
    rewrite <- Hl. generalize (map (fun tr => map (softmax_of tr.1 tr.2) tr.2) l). clear. intros l. induction l as [|r l IH]; [done|].
    unfold chunks in *. cbn [length seq map]. f_equal. rewrite <- seq_shift, map_map, <- IH. apply map_ext. intros i.
    cbn [Nat.mul Nat.add drop]. done.
  - apply List.Forall_forall. intros [t row] Hin. cbn [fst snd]. apply softmax_distribution.
    apply in_combine_r in Hin. destruct HA as [_ HA']. rewrite List.Forall_forall in HA'. specialize (HA' row Hin).
    destruct row; [cbn in HA'; lia|done].
Qed.

(** The hypotheses hold for two sequences, one at temperature one and one at
    temperature zero, with chunks that the vocabulary does not fill. *)
Lemma softmax_with_temperature_exact_witness :
  softmax_with_temperature 2 2 3 (softmax_grid 2 2 2) [[0; 0; 0]; [0; 0; 0]] [[[1; 2; 3]]; [[5; 1; 5]]] [1; 0] =
    Some (map (fun tr => [map (softmax_of tr.1 tr.2) tr.2]) (combine [1; 0] [[1; 2; 3]; [5; 1; 5]])) /\
  Forall (fun tr => Forall (fun p => 0 <= p) (map (softmax_of tr.1 tr.2) tr.2) /\
                    Rsum (map (softmax_of tr.1 tr.2) tr.2) = 1) (combine [1; 0] [[1; 2; 3]; [5; 1; 5]]).
Proof.
  apply (softmax_with_temperature_exact 2 2 3 (softmax_grid 2 2 2) [[0; 0; 0]; [0; 0; 0]] [[1; 2; 3]; [5; 1; 5]] [1; 0]);
    try lia; try reflexivity.
  - by repeat constructor.
  - by repeat constructor.
  - intros t row [E|[E|[]]]; injection E as <- <-.
    + unfold is_hot. cbn. destruct (Rltb_spec (1 / (10 * (10 * (10 * (10 * (10 * 1)))))) 1) as [|Hn]; [done|]. lra.
    + intros _. assert (Hz : k_min_value <= 0) by (cbn [k_min_value R_kernel]; pose proof (IZR_le 0 (2 ^ 128 - 2 ^ 104) ltac:(lia)); lra).
      repeat first [apply List.Forall_nil | apply List.Forall_cons; [lra|]].
Defined.
