(* ===== verification/TopP.v ===== *)
(** * The top-p cut-off on a GPU ([op/top_p_pivot.py])

    [top_p_pivot] searches for every row of probabilities a pivot: the
    probabilities that are not below it have a sum of at least [top_p], and less
    than that without the least of them.  A block of threads tallies, for a few
    pivots at a time, the sum, the least value and its number of occurrences; its
    leader narrows a bracket until a pivot is valid or the bracket is too small.
    [top_p_renorm] keeps the probabilities that are not below the pivot, divided
    by their sum.  The threads of a block are in step at its barriers; what they
    hold between two barriers is a list with an entry per thread.  This
    file has the kernels and what the block tallies, [TopPSearch.v] the search. *)

From Stdlib Require Import Reals Lra.
From stdpp Require Import base list.
From S2P Require Import Prelude TirBuffer KernelArith.
Local Open Scope Z_scope.

Section Kernels.
Context {F : Type} `{KernelOps F}.

(** [lsum], [lmin] and [cmin] of one pivot *)
Definition Tally : Type := F * F * Z.
Definition tally_init : Tally := (k_zero, k_max_value, 0).

(** The probability [q] is counted when it is not below the pivot. *)
Definition visit (q pivot : F) (a : Tally) : Tally :=
  let '(lsum, lmin, cmin) := a in
  if k_le pivot q then
    let lsum := k_add lsum q in
    if k_lt q lmin then (lsum, q, 1)
    else if k_eq lmin q then (lsum, lmin, cmin + 1)
    else (lsum, lmin, cmin)
  else a.

(** The local variables of a thread: [total_sum] and the tallies of the pivots. *)
Definition Lane : Type := F * list Tally.
Definition lane_init (pN : nat) : Lane := (k_zero, repeat tally_init pN).

(** An iteration of the scan, in all threads. *)
Definition scan_step (prob pivot : list F) (TX it : nat) (lanes : list Lane) : option (list Lane) :=
  mapM (fun e =>
    let idx := (it * TX + e.1)%nat in
    q ← (if (idx <? length prob)%nat then load1 prob (Z.of_nat idx) else Some k_zero);
    Some (k_add e.2.1 q, zip_with (visit q) pivot e.2.2)) (combine (seq 0 TX) lanes).

(** The scan of a row: [n] iterations from [it] on; after every [K] of them the leader
    checks whether what is left can be ignored. *)
Definition K : nat := 32.
Fixpoint scan (prob pivot : list F) (TX n it : nat) (lanes : list Lane) : option (list Lane) :=
  match n with
  | O => Some lanes
  | S n =>
      lanes ← scan_step prob pivot TX it lanes;
      if (S it mod K =? 0)%nat then
        smallest ← load1 pivot (Z.of_nat (length pivot) - 1);
        if k_lt (k_sub k_one (all_sum (map fst lanes))) smallest then Some lanes
        else scan prob pivot TX n (S it) lanes
      else scan prob pivot TX n (S it) lanes
  end.

(** The reductions over the threads, for one pivot. *)
Definition reduce (lanes : list Lane) (pidx : nat) : option Tally :=
  ts ← mapM (fun lane : Lane => lane.2 !! pidx) lanes;
  let lsum := all_sum (map (fun t : Tally => t.1.1) ts) in
  let lmin := all_min (map (fun t : Tally => t.1.2) ts) in
  let cmin := foldr Z.add 0 (map (fun t : Tally => if k_lt lmin t.1.2 then 0 else t.2) ts) in
  Some (lsum, lmin, cmin).

(** The tallies that the leader has after a scan. *)
Definition tallies (prob pivot : list F) (TX : nat) : option (list Tally) :=
  lanes ← scan prob pivot TX (nat_ceildiv (length prob) TX) 0 (repeat (lane_init (length pivot)) TX);
  mapM (reduce lanes) (seq 0 (length pivot)).

(** The shared variables of a block, the pivots and the [lsum] of the leader. *)
Record Search : Type := mkSearch {
  bracket_L : F; bracket_R : F; find_pivot : bool; pivots : list F; leader_lsum : list F;
  final_pivot : option F; final_lsum : option F }.

Definition eps_LR : F := k_dec 1 7.

Definition valid (lsum lmin : F) (cmin : Z) (top_p : F) : bool :=
  k_le top_p lsum && k_lt (k_sub lsum (k_mul (k_of_Z cmin) lmin)) top_p.

(** The leader looks at one pivot. *)
Definition check_pivot (top_p : F) (e : F * Tally) (s : Search) : Search :=
  let '(pivot, (lsum, lmin, cmin)) := e in
  if valid lsum lmin cmin top_p then
    mkSearch (bracket_L s) (bracket_R s) true (pivots s) (leader_lsum s) (Some pivot) (Some lsum)
  else if k_le top_p (k_sub lsum (k_mul lmin (k_of_Z cmin))) then
    mkSearch (bracket_L s) pivot (find_pivot s) (pivots s) (leader_lsum s) (final_pivot s) (Some lsum)
  else if k_lt lsum top_p then
    mkSearch pivot (bracket_R s) (find_pivot s) (pivots s) (leader_lsum s) (final_pivot s) (final_lsum s)
  else s.

Fixpoint check_pivots (top_p : F) (es : list (F * Tally)) (s : Search) : Search :=
  match es with
  | [] => s
  | e :: es => if find_pivot s then s else check_pivots top_p es (check_pivot top_p e s)
  end.

(** The pivots of the next iteration: evenly spaced in the bracket. *)
Definition new_pivots (pN : nat) (L R : F) : list F :=
  map (fun pidx => k_sub L (k_div (k_mul (k_of_Z (Z.of_nat pidx + 1)) (k_sub L R)) (k_of_Z (Z.of_nat pN + 1))))
    (seq 0 pN).

Definition search_step (prob : list F) (top_p : F) (TX : nat) (s : Search) : option Search :=
  ts ← tallies prob (pivots s) TX;
  let s := check_pivots top_p (combine (pivots s) ts)
    (mkSearch (bracket_L s) (bracket_R s) (find_pivot s) (pivots s) (map (fun t : Tally => t.1.1) ts)
       (final_pivot s) (final_lsum s)) in
  Some (mkSearch (bracket_L s) (bracket_R s) (find_pivot s)
    (new_pivots (length (pivots s)) (bracket_L s) (bracket_R s)) (leader_lsum s) (final_pivot s) (final_lsum s)).

(** The bracket is too small. *)
Definition narrow (L R : F) : bool := k_le (k_sub L R) eps_LR.

(** The loop of a block, for at most [fuel] iterations. *)
Fixpoint search (prob : list F) (top_p : F) (TX fuel : nat) (s : Search) : option Search :=
  if k_lt eps_LR (k_sub (bracket_L s) (bracket_R s)) && negb (find_pivot s) then
    match fuel with
    | O => None
    | S fuel => s ← search_step prob top_p TX s; search prob top_p TX fuel s
    end
  else Some s.

(** A block: what it writes into [final_pivot] and [final_lsum]. *)
Definition pivot_block (TX fuel : nat) (prob : list F) (top_p : F) (init_pivots : list F) : option (F * F) :=
  let L := k_sub k_one top_p in let R := eps_LR in
  let small := narrow L R in
  let s := mkSearch L R small init_pivots [] (if small then Some k_zero else None) (if small then Some k_one else None) in
  s ← search prob top_p TX fuel s;
  if find_pivot s then
    p ← final_pivot s; l ← final_lsum s; Some (p, l)
  else
    l ← (if k_eq (bracket_R s) eps_LR then load1 (leader_lsum s) (Z.of_nat (length init_pivots) - 1) else final_lsum s);
    Some (bracket_R s, l).

(** The kernel: a block for every row. *)
Definition top_p_pivot (TX fuel : nat) (prob : list (list F)) (top_p_arr : list F) (init_pivots : list (list F))
    : option (list F * list F) :=
  rs ← mapM (fun b =>
         row ← prob !! b; top_p ← top_p_arr !! b; pivots ← init_pivots !! b;
         pivot_block TX fuel row top_p pivots) (seq 0 (length prob));
  Some (map fst rs, map snd rs).

(** [top_p_renorm]: the threads of [BX] blocks for every row; iteration [i] of
    the loop of thread [tx] of block [bx] of row [by] is [(by, (bx, tx, i))]. *)
Definition renorm_iteration (BX TX : nat) (prob : list (list F)) (final_pivot final_lsum : list F)
    (w : nat * (nat * nat * nat)) (renorm : list (list F)) : option (list (list F)) :=
  let '(b, (bx, tx, i)) := w in
  pivot ← load1 final_pivot (Z.of_nat b);
  lsum ← load1 final_lsum (Z.of_nat b);
  row ← load1 prob (Z.of_nat b);
  let idx := (i * BX * TX + bx * TX + tx)%nat in
  if (idx <? length row)%nat then
    p ← load1 row (Z.of_nat idx);
    store2 renorm (Z.of_nat b) (Z.of_nat idx) (if k_le pivot p then k_div p lsum else k_zero)
  else Some renorm.

(** Every iteration of every thread. *)
Definition renorm_grid (B BX TX N : nat) : list (nat * (nat * nat * nat)) :=
  flat_map (fun b => map (pair b) (flat_map (fun t => map (pair t) (seq 0 (nat_ceildiv N (BX * TX)))) (grid BX TX))) (seq 0 B).

Definition top_p_renorm (BX TX : nat) (order : list (nat * (nat * nat * nat))) (prob : list (list F))
    (final_pivot final_lsum : list F) (renorm : list (list F)) : option (list (list F)) :=
  ofold (renorm_iteration BX TX prob final_pivot final_lsum) order renorm.

(** [T.ceildiv(CTA_COUNT, B)] *)
Definition renorm_blocks (B : nat) : nat := nat_ceildiv 512 B.

(** [_attach_renormalize_by_top_p]: the two kernels *)
Definition renormalize_by_top_p (TX fuel : nat) (order : list (nat * (nat * nat * nat))) (output probs : list (list F))
    (top_p : list F) (init_pivots : list (list F)) : option (list (list F)) :=
  cutoff_output ← top_p_pivot TX fuel probs top_p init_pivots;
  top_p_renorm (renorm_blocks (length probs)) TX order probs cutoff_output.1 cutoff_output.2 output.
End Kernels.
Arguments Search F : clear implicits.

(** ** What a block tallies *)

Local Open Scope R_scope.

(** The values that are not below the pivot, and their tally. *)
Definition kept (q : R) (l : list R) : list R := List.filter (fun x => k_le q x) l.
Definition least (l : list R) : R := fold_right Rmin k_max_value l.
Definition times (m : R) (l : list R) : Z := Z.of_nat (length (List.filter (fun x => Reqb x m) l)).
Definition tally (l : list R) : Tally (F := R) := (Rsum l, least l, times (least l) l).

Definition small (l : list R) : Prop := Forall (fun x => x < k_max_value) l.

Lemma fold_Rmin_in l x : fold_right Rmin x l = x \/ In (fold_right Rmin x l) l.
Proof.
  induction l as [|y l IH]; cbn [fold_right]; [by left|].
  destruct (Rle_dec y (fold_right Rmin x l)); [rewrite Rmin_left by done; right; by left|rewrite Rmin_right by lra].
  destruct IH; [by left|right; by right].
Qed.

Lemma least_le l : least l <= k_max_value /\ forall x, In x l -> least l <= x.
Proof. apply fold_Rmin_le. Qed.

Lemma least_in l : small l -> l <> [] -> In (least l) l.
Proof.
  unfold least. intros Hs Hne. destruct Hs as [|x l Hx Hs]; [done|]. clear Hne. revert x Hx.
  induction Hs as [|y l Hy _ IH]; intros x Hx; cbn [fold_right].
  - left. rewrite Rmin_left by lra. done.
  - specialize (IH y Hy). cbn [fold_right] in IH. destruct (Rle_dec x (Rmin y (fold_right Rmin k_max_value l))).
    + rewrite Rmin_left by done. by left.
    + rewrite Rmin_right by lra. by right.
Qed.

Lemma least_perm l l' : Permutation l l' -> least l = least l'.
Proof.
  unfold least. induction 1 as [|x l l' _ IH|x y l|l1 l2 l3 _ IH1 _ IH2]; cbn [fold_right]; [done|by rewrite IH| |congruence].
  rewrite !Rmin_assoc. f_equal. apply Rmin_comm.
Qed.

Lemma least_app l l' : least (l ++ l') = Rmin (least l) (least l').
Proof.
  unfold least. induction l as [|x l IH]; cbn [app fold_right].
  - pose proof (least_le l') as [H _]. unfold least in H. by rewrite Rmin_right.
  - by rewrite IH, Rmin_assoc.
Qed.

Lemma filter_nothing {A} (p : A -> bool) l : (forall x, In x l -> p x = false) -> List.filter p l = [].
Proof.
  intros H. induction l as [|x l IH]; cbn [List.filter]; [done|]. rewrite H by (by left).
  apply IH. intros y Hy. apply H. by right.
Qed.

Lemma times_app m l l' : times m (l ++ l') = (times m l + times m l')%Z.
Proof. unfold times. rewrite List.filter_app, length_app. lia. Qed.

Lemma times_below m l : m < least l -> times m l = 0%Z.
Proof.
  intros Hm. unfold times. rewrite filter_nothing; [done|]. intros x Hx.
  destruct (Reqb_spec x m) as [->|]; [|done]. pose proof (proj2 (least_le l) m Hx). lra.
Qed.

Lemma tally_perm l l' : Permutation l l' -> tally l = tally l'.
Proof.
  intros Hp. unfold tally, times. by rewrite (Rsum_perm l l' Hp), (least_perm l l' Hp), (filter_Permutation _ l l' Hp).
Qed.

(** One more value *)
Lemma visit_tally q pivot l : small l -> q < k_max_value ->
  visit q pivot (tally (kept pivot l)) = tally (kept pivot (l ++ [q])).
Proof.
  intros Hs Hq. unfold kept. rewrite List.filter_app. cbn [List.filter]. unfold visit, tally at 1.
  destruct (k_le pivot q) eqn:Hk; [|by rewrite app_nil_r].
  set (k := List.filter (fun x => k_le pivot x) l). unfold tally.
  rewrite Rsum_app, least_app, times_app. replace (Rsum [q]) with q by (unfold Rsum; cbn; lra).
  replace (least [q]) with q by (symmetry; apply Rmin_left; lra). cbn [k_lt k_eq k_add R_kernel].
  destruct (Rltb_spec q (least k)) as [Hlt|Hge].
  - rewrite Rmin_right by lra. rewrite (times_below q k) by done. unfold times. cbn.
    destruct (Reqb_spec q q); [done|lra].
  - rewrite Rmin_left by lra. change (times (least k) [q]) with (Z.of_nat (length (if Reqb q (least k) then [q] else []))).
    destruct (Reqb_spec (least k) q) as [E|E], (Reqb_spec q (least k)) as [E'|E']; cbn [length]; try lra; [done|].
    by rewrite Z.add_0_r.
Qed.

Lemma kept_small q l : small l -> small (kept q l).
Proof.
  intros Hs. apply Forall_forall. intros x Hx. apply list_elem_of_In, filter_In in Hx as [Hx _].
  unfold small in Hs. rewrite List.Forall_forall in Hs. by apply Hs.
Qed.

(** *** The scan *)

Section Scan.
Context (row pivot : list R) (TX : nat) (HTX : (0 < TX)%nat).
Hypothesis row_small : small row.
Hypothesis pivot_pos : Forall (fun q => 0 < q) pivot.

(** The row, continued with zeros. *)
Definition padded (idx : nat) : R := default 0 (row !! idx).

(** What thread [tx] has seen after [n] iterations. *)
Definition seen (n tx : nat) : list R := map (fun it => padded (it * TX + tx)) (seq 0 n).
Definition lane_of (n tx : nat) : Lane := (Rsum (seen n tx), map (fun q => tally (kept q (seen n tx))) pivot).
Definition lanes_of (n : nat) : list Lane := map (lane_of n) (seq 0 TX).

Lemma padded_small idx : padded idx < k_max_value.
Proof.
  unfold padded. destruct (row !! idx) as [x|] eqn:E; cbn [default].
  - by apply (Forall_lookup_1 _ _ _ _ row_small E).
  - cbn [k_max_value R_kernel]. apply (IZR_lt 0). lia.
Qed.

Lemma seen_small n tx : small (seen n tx).
Proof. apply Forall_map, Forall_forall. intros it _. apply padded_small. Qed.

Lemma seen_S n tx : seen (S n) tx = seen n tx ++ [padded (n * TX + tx)].
Proof. unfold seen. by rewrite seq_S, map_app. Qed.

Lemma lanes_0 : repeat (lane_init (length pivot)) TX = lanes_of 0.
Proof.
  unfold lanes_of, lane_of, lane_init. cbn [seen seq map]. change (map (fun q => tally (kept q [])) pivot) with (map (fun _ => tally (kept 0 [])) pivot).
  assert (Hr : forall (X Y : Type) (c : Y) (l : list X), map (fun _ => c) l = repeat c (length l)).
  { intros X Y c l. induction l as [|x l IH]; cbn; [done|by rewrite IH]. }
  by rewrite !Hr, length_seq.
Qed.

Lemma scan_step_lanes n : scan_step row pivot TX n (lanes_of n) = Some (lanes_of (S n)).
Proof.
  unfold scan_step, lanes_of.
  assert (Hc : combine (seq 0 TX) (map (lane_of n) (seq 0 TX)) = map (fun tx => (tx, lane_of n tx)) (seq 0 TX)).
  { generalize (seq 0 TX). intros l. induction l as [|x l IH]; cbn; [done|by rewrite IH]. }
  rewrite Hc, (mapM_Some' _ (fun e => lane_of (S n) e.1)), map_map; [done|].
  intros e (tx & <- & _)%in_map_iff. cbn [fst snd]. 
  assert (Hq : (if (n * TX + tx <? length row)%nat then load1 row (Z.of_nat (n * TX + tx)) else Some k_zero) = Some (padded (n * TX + tx))).
  { unfold padded. destruct (Nat.ltb_spec (n * TX + tx) (length row)) as [Hlt|Hge].
    - rewrite load_lookup. by destruct (lookup_lt_is_Some_2 row _ Hlt) as [x ->].
    - by rewrite lookup_ge_None_2. }
  rewrite Hq. cbn [mbind option_bind]. unfold lane_of. cbn [fst snd]. rewrite seen_S. do 2 f_equal.
  - rewrite Rsum_app. unfold Rsum at 3. cbn. lra.
  - assert (Hz : forall l, zip_with (visit (padded (n * TX + tx))) l (map (fun q => tally (kept q (seen n tx))) l) =
      map (fun q => tally (kept q (seen n tx ++ [padded (n * TX + tx)]))) l).
    { induction l as [|q l IH]; cbn [map zip_with]; [done|].
      rewrite visit_tally, IH; [done|apply seen_small|apply padded_small]. }
    apply Hz.
Qed.

(** All that the threads have seen, and what a reduction makes of it. *)
Definition all_seen (n : nat) : list R := concat (map (seen n) (seq 0 TX)).

Lemma all_seen_perm n : Permutation (all_seen n) (map padded (seq 0 (n * TX))).
Proof.
  induction n as [|n IH].
  - unfold all_seen. cbn. induction (seq 0 TX) as [|x l IHl]; [done|]. cbn. done.
  - transitivity (all_seen n ++ map (fun tx => padded (n * TX + tx)) (seq 0 TX)).
    + unfold all_seen. generalize (seq 0 TX). intros l. induction l as [|x l IHl]; [done|]. cbn [map concat].
      rewrite seen_S, IHl. rewrite <- !app_assoc. apply Permutation_app_head.
      cbn [app]. apply Permutation_middle.
    + rewrite IH. replace (S n * TX)%nat with (n * TX + TX)%nat by lia. rewrite seq_app, map_app. apply Permutation_app_head.
      pose proof (fmap_add_seq (n * TX) 0 TX) as E. rewrite Nat.add_0_r in E. cbn [Nat.add]. rewrite <- E.
      change (fmap (Nat.add (n * TX)) (seq 0 TX)) with (map (Nat.add (n * TX)) (seq 0 TX)). by rewrite map_map.
Qed.

Lemma reduce_tallies (ls : list (list R)) : ls <> [] ->
  (all_sum (map (fun t : Tally => t.1.1) (map tally ls)),
   all_min (map (fun t : Tally => t.1.2) (map tally ls)),
   foldr Z.add 0%Z (map (fun t : Tally => if k_lt (all_min (map (fun t : Tally => t.1.2) (map tally ls))) t.1.2 then 0%Z else t.2)
     (map tally ls))) = tally (concat ls).
Proof.
  intros Hne. rewrite !map_map. cbn [fst snd tally].
  assert (Hmin : all_min (map least ls) = least (concat ls)).
  { cbn [all_min R_kernel]. destruct ls as [|l ls]; [done|]. cbn [map Rleast concat]. clear Hne. revert l.
    induction ls as [|l' ls IH]; intros l; cbn [map fold_right concat]; [by rewrite app_nil_r|].
    rewrite (least_app l), least_app. specialize (IH l). rewrite least_app in IH.
    rewrite IH, !Rmin_assoc, (Rmin_comm (least l)). done. }
  unfold tally. cbn [all_sum all_min R_kernel] in *. change (fun x : list R => least x) with least in *. change (fun x : list R => Rsum x) with Rsum. rewrite Hmin, Rsum_concat. do 2 f_equal.
  pose proof (least_le (concat ls)) as [Hmax Hle]. set (m := least (concat ls)) in *. clearbody m. clear Hmin Hne.
  induction ls as [|l ls IH]; cbn [map foldr concat]; [done|]. rewrite times_app. cbn [concat] in Hle.
  f_equal; [|apply IH; intros x Hx; apply Hle, in_or_app; by right].
  cbn [k_lt R_kernel]. destruct (Rltb_spec m (least l)) as [Hlt|Hge]; [by rewrite times_below|]. f_equal.
  destruct (fold_Rmin_in l k_max_value) as [E|Hin]; fold (least l) in *; [lra|].
  specialize (Hle (least l) (in_or_app _ _ _ (or_introl Hin))). lra.
Qed.

(** The early stop leaves out nothing that counts. *)
Hypothesis row_nonneg : Forall (fun x => 0 <= x) row.
Hypothesis row_sum : Rsum row = 1.
Context (smallest : R) (Hsmallest : load1 pivot (Z.of_nat (length pivot) - 1) = Some smallest).
Hypothesis pivot_desc : Forall (fun q => smallest <= q) pivot.

Lemma map_padded : map padded (seq 0 (length row)) = row.
Proof. apply map_lookup_seq. Qed.

Lemma padded_nonneg idx : 0 <= padded idx.
Proof.
  unfold padded. destruct (row !! idx) as [x|] eqn:E; cbn [default]; [|lra]. by apply (Forall_lookup_1 _ _ _ _ row_nonneg E).
Qed.

Lemma lanes_total n : all_sum (map fst (lanes_of n)) = Rsum (map padded (seq 0 (n * TX))).
Proof.
  unfold lanes_of. rewrite map_map. cbn [fst lane_of all_sum R_kernel].
  rewrite <- (Rsum_perm _ _ (all_seen_perm n)). unfold all_seen. by rewrite Rsum_concat, map_map.
Qed.

(** What has not been seen is below every pivot. *)
Definition rest_below (n : nat) : Prop :=
  forall idx, (n * TX <= idx < length row)%nat -> padded idx < smallest.

Lemma early_stop n : k_lt (k_sub k_one (all_sum (map fst (lanes_of n)))) smallest = true -> rest_below n.
Proof.
  rewrite lanes_total. cbn [k_lt k_sub R_kernel]. intros Hlt idx [H1 H2].
  destruct (Rltb_spec (k_one - Rsum (map padded (seq 0 (n * TX)))) smallest) as [Hs|]; [|done]. clear Hlt.
  apply Rle_lt_trans with (2 := Hs). unfold k_one. cbn [k_of_Z R_kernel]. rewrite <- row_sum, <- map_padded.
  replace (length row) with (n * TX + (length row - n * TX))%nat at 1 by lia. rewrite seq_app, map_app, Rsum_app.
  cbn [Nat.add]. enough (padded idx <= Rsum (map padded (seq (n * TX) (length row - n * TX)))) by lra.
  replace (length row - n * TX)%nat with ((idx - n * TX) + S (length row - idx - 1))%nat by lia.
  rewrite seq_app, map_app, Rsum_app. replace (n * TX + (idx - n * TX))%nat with idx by lia.
  cbn [seq map]. change (Rsum (padded idx :: ?l)) with (padded idx + Rsum l). 
  pose proof (Rsum_nonneg padded (seq (n * TX) (idx - n * TX)) (fun x _ => padded_nonneg x)).
  pose proof (Rsum_nonneg padded (seq (S idx) (length row - idx - 1)) (fun x _ => padded_nonneg x)). unfold Rsum in *. cbn. lra.
Qed.

Lemma scan_lanes n it : (length row <= (n + it) * TX)%nat ->
  exists n', scan row pivot TX n it (lanes_of it) = Some (lanes_of n') /\ rest_below n'.
Proof.
  revert it. induction n as [|n IH]; intros it Hc; cbn [scan].
  - exists it. split; [done|]. intros idx Hidx. cbn [Nat.add] in Hc. lia.
  - rewrite scan_step_lanes. cbn [mbind option_bind]. specialize (IH (S it)).
    rewrite Nat.add_succ_r in IH. specialize (IH Hc). destruct (_ =? 0)%nat; [|done].
    rewrite Hsmallest. cbn [mbind option_bind]. destruct (k_lt _ _) eqn:Hes; [|done].
    exists (S it). split; [done|by apply early_stop].
Qed.

Lemma kept_seen q n : rest_below n -> smallest <= q -> 0 < q ->
  kept q (map padded (seq 0 (n * TX))) = kept q row.
Proof.
  intros Hrest Hq Hpos. unfold kept. destruct (Nat.le_gt_cases (length row) (n * TX)) as [Hge|Hlt].
  - replace (n * TX)%nat with (length row + (n * TX - length row))%nat by lia.
    rewrite seq_app, map_app, List.filter_app, map_padded. rewrite (filter_nothing _ (map _ (seq (0 + _) _))); [apply app_nil_r|].
    intros x (idx & <- & [Hi _]%in_seq)%in_map_iff. unfold padded. rewrite lookup_ge_None_2 by lia. cbn [default].
    destruct (Rleb_spec q 0); [lra|done].
  - rewrite <- map_padded. replace (length row) with (n * TX + (length row - n * TX))%nat at 1 by lia.
    rewrite seq_app, map_app, List.filter_app. rewrite (filter_nothing _ (map _ (seq (0 + _) _))); [symmetry; apply app_nil_r|].
    intros x (idx & <- & Hi%in_seq)%in_map_iff. pose proof (Hrest idx ltac:(lia)).
    destruct (Rleb_spec q (padded idx)); [lra|done].
Qed.

Lemma reduce_lanes n pidx q : rest_below n -> pivot !! pidx = Some q ->
  reduce (lanes_of n) pidx = Some (tally (kept q row)).
Proof.
  intros Hrest Hq. unfold reduce, lanes_of.
  assert (Hts : mapM (fun lane : Lane => lane.2 !! pidx) (map (lane_of n) (seq 0 TX)) =
    Some (map tally (map (fun tx => kept q (seen n tx)) (seq 0 TX)))).
  { generalize (seq 0 TX). intros l. induction l as [|tx l IH]; [done|]. cbn [map mapM].
    assert ((lane_of n tx).2 !! pidx = Some (tally (kept q (seen n tx)))) as ->.
    { exact (lookup_map_Some (fun q => tally (kept q (seen n tx))) pivot pidx q Hq). }
    cbn [mbind option_bind]. by rewrite IH. }
  rewrite Hts. cbn [mbind option_bind].
  rewrite (reduce_tallies (map (fun tx => kept q (seen n tx)) (seq 0 TX))) by (by destruct TX; [lia|]). f_equal.
  rewrite <- (kept_seen q n); [|done| |].
  - rewrite (tally_perm _ (kept q (all_seen n))); [apply tally_perm; apply filter_Permutation, all_seen_perm|].
    unfold all_seen, kept. generalize (seq 0 TX). intros l. induction l as [|tx l IH]; [done|]. cbn [map concat].
    by rewrite List.filter_app, IH.
  - by apply (Forall_lookup_1 _ _ _ _ pivot_desc Hq).
  - by apply (Forall_lookup_1 _ _ _ _ pivot_pos Hq).
Qed.

(** A block tallies what is kept of the whole row. *)
Lemma tallies_exact : tallies row pivot TX = Some (map (fun q => tally (kept q row)) pivot).
Proof.
  unfold tallies. rewrite lanes_0. destruct (scan_lanes (nat_ceildiv (length row) TX) 0) as (n & Hn & Hrest).
  { rewrite Nat.add_0_r. by apply nat_ceildiv_covers. }
  rewrite Hn. cbn [mbind option_bind].
  rewrite (mapM_Some' _ (fun i => tally (kept (default 0 (pivot !! i)) row))).
  - f_equal. rewrite <- (map_lookup_seq 0 pivot) at 2. by rewrite map_map.
  - intros i [_ Hi]%in_seq. destruct (lookup_lt_is_Some_2 pivot i Hi) as [q E]. rewrite E. by apply reduce_lanes.
Qed.
End Scan.
