(* ===== verification/TopPSearch.v ===== *)
(** * The search for the top-p pivot

    In exact arithmetic the search of [top_p_pivot] (TopP.v) ends: the bracket
    shrinks by a constant factor in every iteration after the first.  The pivot
    cuts off at [top_p], exactly or up to the width [1e-7] of the last bracket, and
    [top_p_renorm] makes a distribution of what is kept. *)

From Stdlib Require Import Reals Lra Sorting.Sorted.
From stdpp Require Import base list.
From S2P Require Import Prelude TirBuffer KernelArith TopP.
Local Open Scope R_scope.

(** ** Cut-offs *)

(** The sum of the probabilities that are not below [q]. *)
Definition mass (row : list R) (q : R) : R := Rsum (kept q row).

(** The last element of a list, or what there was before it. *)
Definition last_or {A} (l : list A) (d : A) : A := fold_left (fun _ x => x) l d.

Lemma last_or_In {A} (l : list A) d : last_or l d = d \/ In (last_or l d) l.
Proof.
  unfold last_or. revert d. induction l as [|x l IH]; intros d; cbn; [by left|]. right.
  destruct (IH x) as [->|]; [by left|by right].
Qed.

Lemma last_or_cons_In {A} (l : list A) x d : In (last_or (x :: l) d) (x :: l).
Proof. change (last_or (x :: l) d) with (last_or l x). destruct (last_or_In l x) as [->|]; [by left|by right]. Qed.

Lemma last_or_snoc {A} (l : list A) x d : last_or (l ++ [x]) d = x.
Proof. unfold last_or. by rewrite fold_left_app. Qed.

(** The sum is at least [top_p], and no cut-off that drops one of the
    probabilities above [q] reaches it. *)
Definition nucleus (row : list R) (top_p q : R) : Prop :=
  top_p <= mass row q /\ forall q', (exists x, In x row /\ q <= x < q') -> mass row q' < top_p.

Lemma Rsum_filter_le (p p' : R -> bool) l : Forall (fun x => 0 <= x) l -> (forall x, In x l -> p x = true -> p' x = true) ->
  Rsum (List.filter p l) <= Rsum (List.filter p' l).
Proof.
  intros Hl Hp. unfold Rsum. induction Hl as [|x l Hx _ IH]; cbn [List.filter]; [lra|].
  specialize (IH (fun y Hy => Hp y (or_intror Hy))). specialize (Hp x (or_introl eq_refl)).
  destruct (p x) eqn:E; [rewrite Hp by done; cbn [fold_right]; lra|]. destruct (p' x); cbn [fold_right]; lra.
Qed.

Lemma in_kept x q row : In x (kept q row) <-> In x row /\ q <= x.
Proof. unfold kept. rewrite filter_In. destruct (Rleb_spec q x); split; intros [? ?]; by split. Qed.

(** The values above the least one *)
Definition over (l : list R) : R := Rsum (List.filter (fun x => Rltb (least l) x) l).

Lemma without_least m l : (forall x, In x l -> m <= x) ->
  Rsum l - IZR (times m l) * m = Rsum (List.filter (fun x => Rltb m x) l).
Proof.
  unfold times, Rsum. induction l as [|x l IH]; intros Hl; cbn [List.filter length fold_right]; [change (Z.of_nat 0) with 0%Z; lra|].
  specialize (IH (fun y Hy => Hl y (or_intror Hy))). specialize (Hl x (or_introl eq_refl)).
  destruct (Reqb_spec x m) as [E|Hne], (Rltb_spec m x); cbn [length fold_right]; try lra.
  rewrite Nat2Z.inj_succ, succ_IZR. lra.
Qed.

Section Cut.
Context (row : list R) (top_p : R).
Hypothesis row_nonneg : Forall (fun x => 0 <= x) row.

Lemma kept_nonneg q : Forall (fun x => 0 <= x) (kept q row).
Proof.
  apply List.Forall_forall. intros x [Hx _]%in_kept. rewrite List.Forall_forall in row_nonneg. by apply row_nonneg.
Qed.

Lemma mass_antitone q q' : q' <= q -> mass row q <= mass row q'.
Proof.
  intros Hq. apply Rsum_filter_le; [done|]. intros x _. destruct (Rleb_spec q x), (Rleb_spec q' x); (done || lra).
Qed.

Lemma over_mass q : over (kept q row) <= mass row q.
Proof.
  unfold over, mass. transitivity (Rsum (List.filter (fun _ => true) (kept q row))).
  - by apply Rsum_filter_le; [apply kept_nonneg|].
  - right. f_equal. induction (kept q row) as [|x l IH]; cbn; [done|by rewrite IH].
Qed.

(** [over] as a sum over the row *)
Lemma over_row q : over (kept q row) = Rsum (List.filter (fun x => k_le q x && Rltb (least (kept q row)) x) row).
Proof.
  unfold over. f_equal. generalize (least (kept q row)). intros m. unfold kept. clear row_nonneg.
  induction row as [|x l IH]; cbn [List.filter]; [done|]. destruct (k_le q x); cbn [List.filter andb]; by rewrite IH.
Qed.

Lemma over_antitone q q' : q' <= q -> over (kept q row) <= over (kept q' row).
Proof.
  intros Hq. rewrite !over_row. apply Rsum_filter_le; [done|]. intros x Hx [H1 H2]%andb_prop.
  destruct (Rleb_spec q x) as [Hqx|]; [|done]. destruct (Rltb_spec (least (kept q row)) x) as [Hlt|]; [|done].
  apply andb_true_intro. split; [by destruct (Rleb_spec q' x); [|lra]|].
  assert (Hl : least (kept q' row) <= least (kept q row)).
  { destruct (fold_Rmin_in (kept q row) k_max_value) as [E|Hin]; fold (least (kept q row)) in *.
    - rewrite E. apply (proj1 (least_le _)).
    - apply (proj2 (least_le _)), in_kept. apply in_kept in Hin as [Hin Hge]. split; [done|lra]. }
  destruct (Rltb_spec (least (kept q' row)) x); [done|lra].
Qed.

(** A valid pivot cuts off exactly. *)
Lemma valid_nucleus q : top_p <= mass row q -> over (kept q row) < top_p -> nucleus row top_p q.
Proof.
  intros Hm Ho. split; [done|]. intros q' (x & Hx & Hqx & Hxq'). apply Rle_lt_trans with (2 := Ho).
  rewrite over_row. apply Rsum_filter_le; [done|]. intros y Hy Hq'y. destruct (Rleb_spec q' y) as [Hle|]; [|done].
  assert (Hl : least (kept q row) <= x) by (by apply (proj2 (least_le _)), in_kept).
  destruct (Rleb_spec q y); [|lra]. by destruct (Rltb_spec (least (kept q row)) y); [|lra].
Qed.

(** ** One iteration of the leader *)

Definition entry (q : R) : R * Tally := (q, tally (kept q row)).

Lemma check_pivot_cases q s : 
  (nucleus row top_p q /\ check_pivot top_p (entry q) s =
     mkSearch (bracket_L s) (bracket_R s) true (pivots s) (leader_lsum s) (Some q) (Some (mass row q))) \/
  (top_p <= over (kept q row) /\ check_pivot top_p (entry q) s =
     mkSearch (bracket_L s) q (find_pivot s) (pivots s) (leader_lsum s) (final_pivot s) (Some (mass row q))) \/
  (mass row q < top_p /\ check_pivot top_p (entry q) s =
     mkSearch q (bracket_R s) (find_pivot s) (pivots s) (leader_lsum s) (final_pivot s) (final_lsum s)).
Proof.
  pose proof (without_least (least (kept q row)) (kept q row) (proj2 (least_le _))) as Ho. fold (over (kept q row)) in Ho.
  unfold check_pivot, entry, tally, valid. cbn [k_sub k_mul k_of_Z k_lt R_kernel].
  rewrite (Rmult_comm (least _)), Ho. fold (mass row q).
  destruct (Rleb_spec top_p (mass row q)) as [Hm|Hm], (Rltb_spec (over (kept q row)) top_p) as [Hlt|Hlt]; cbn [andb].
  - left. split; [by apply valid_nucleus|done].
  - right; left. destruct (Rleb_spec top_p (over (kept q row))); [|lra]. split; [lra|done].
  - right; right. destruct (Rleb_spec top_p (over (kept q row))); [lra|].
    destruct (Rltb_spec (mass row q) top_p); [done|lra].
  - pose proof (over_mass q). lra.
Qed.

Definition descending : list R -> Prop := StronglySorted (fun a b => b <= a).

Definition found (s : Search R) : Prop :=
  find_pivot s = true /\
  exists q, final_pivot s = Some q /\ final_lsum s = Some (mass row q) /\ nucleus row top_p q /\ k_lt eps_LR q = true.

(** Without a valid pivot, the first pivots are too high, the others too low. *)
Record undecided (ps : list R) (s s' : Search R) (lows highs : list R) : Prop := {
  still_searching : find_pivot s' = false;
  pivots_split : ps = lows ++ highs;
  lows_low : Forall (fun q => mass row q < top_p) lows;
  highs_high : Forall (fun q => top_p <= over (kept q row)) highs;
  new_L : bracket_L s' = last_or lows (bracket_L s);
  new_R : bracket_R s' = last_or highs (bracket_R s);
  new_lsum : final_lsum s' = match highs with [] => final_lsum s | _ => Some (mass row (last_or highs (bracket_R s))) end }.

Lemma check_pivots_found es s : find_pivot s = true -> check_pivots top_p es s = s.
Proof. intros Hs. destruct es as [|e es]; cbn; [done|by rewrite Hs]. Qed.

Lemma check_pivots_cases ps s : find_pivot s = false -> descending ps -> Forall (fun q => eps_LR < q) ps ->
  let s' := check_pivots top_p (map entry ps) s in
  leader_lsum s' = leader_lsum s /\ pivots s' = pivots s /\
  (found s' \/ exists lows highs, undecided ps s s' lows highs).
Proof.
  intros Hf Hd He. revert s Hf. induction ps as [|q ps IH]; intros s Hf; cbn [map check_pivots].
  { split; [done|]. split; [done|]. right. by exists [], []. }
  inversion_clear Hd as [|? ? Hd' Hq]. apply List.Forall_cons_iff in He as [Hqe He]. rewrite Hf.
  destruct (check_pivot_cases q s) as [[Hn ->]|[[Hh ->]|[Hl ->]]].
  - rewrite check_pivots_found by done. cbn [leader_lsum pivots]. split; [done|]. split; [done|]. left. split; [done|].
    exists q. repeat (split; [done|]). cbn [k_lt R_kernel]. by destruct (Rltb_spec eps_LR q).
  - match goal with |- context [check_pivots _ _ ?s0] => destruct (IH Hd' He s0 Hf) as (E1 & E2 & [Hfound|Hno]) end;
      cbn [leader_lsum pivots] in E1, E2; (split; [done|]); (split; [done|]); [by left|right].
    destruct Hno as (lows & highs & [Hf' -> Hlows Hhighs EL ER El]).
    assert (lows = []) as ->.
    { destruct lows as [|q' lows]; [done|]. exfalso. inversion_clear Hlows as [|? ? Hlow _]. inversion_clear Hq as [|? ? Hle _].
      pose proof (over_antitone q q' Hle). pose proof (over_mass q'). lra. }
    exists [], (q :: highs). constructor; [done|done|done|by constructor|exact EL|exact ER|by destruct highs].
  - match goal with |- context [check_pivots _ _ ?s0] => destruct (IH Hd' He s0 Hf) as (E1 & E2 & [Hfound|Hno]) end;
      cbn [leader_lsum pivots] in E1, E2; (split; [done|]); (split; [done|]); [by left|right].
    destruct Hno as (lows & highs & [Hf' -> Hlows Hhighs EL ER El]).
    exists (q :: lows), highs. constructor; [done|done|by constructor|done|exact EL|exact ER|exact El].
Qed.

(** ** The loop of a block *)

Context (TX pN : nat) (HTX : (0 < TX)%nat) (HpN : (0 < pN)%nat).
Hypothesis row_small : small row.
Hypothesis row_sum : Rsum row = 1.
Hypothesis top_p_pos : 0 < top_p.

(** What holds between two iterations without a valid pivot. *)
Record searching (s : Search R) : Prop := {
  not_found : find_pivot s = false;
  R_kept : bracket_R s = eps_LR \/
    eps_LR < bracket_R s /\ final_lsum s = Some (mass row (bracket_R s)) /\ top_p <= mass row (bracket_R s);
  L_dropped : bracket_L s <= 1 - top_p /\ (bracket_L s = 1 - top_p \/ mass row (bracket_L s) < top_p);
  L_lsum : bracket_R s = eps_LR ->
    bracket_L s = 1 - top_p \/ load1 (leader_lsum s) (Z.of_nat pN - 1) = Some (mass row (bracket_L s)) /\ eps_LR < bracket_L s;
  pivots_number : length (pivots s) = pN;
  pivots_bracket : eps_LR < bracket_L s - bracket_R s ->
    descending (pivots s) /\ Forall (fun q => bracket_R s < q <= bracket_L s) (pivots s) }.

Definition spaced (s : Search R) : Prop := pivots s = new_pivots pN (bracket_L s) (bracket_R s).

Definition shrink : R := INR pN / (INR pN + 1).

Lemma eps_pos : 0 < eps_LR.
Proof. unfold eps_LR. cbn [k_dec R_kernel]. lra. Qed.

(** The spacing of the pivots *)
Definition spacing (hi lo : R) : R := (hi - lo) / (INR pN + 1).

Lemma new_pivots_spacing hi lo : new_pivots pN hi lo = map (fun i => hi - INR (S i) * spacing hi lo) (seq 0 pN).
Proof.
  unfold new_pivots, spacing. apply map_ext. intros i. cbn [k_sub k_div k_mul k_of_Z R_kernel].
  rewrite !plus_IZR, <- !INR_IZR_INZ, S_INR. unfold Rdiv. lra.
Qed.

Lemma spacing_pos hi lo : lo < hi -> 0 < spacing hi lo.
Proof. intros H. unfold spacing. apply Rdiv_lt_0_compat; [lra|]. pose proof (pos_INR pN). lra. Qed.

Lemma spacing_all hi lo : (INR pN + 1) * spacing hi lo = hi - lo.
Proof. unfold spacing. field. pose proof (pos_INR pN). lra. Qed.

Lemma shrink_spacing hi lo : shrink * (hi - lo) = INR pN * spacing hi lo.
Proof. unfold shrink, spacing. field. pose proof (pos_INR pN). lra. Qed.

Lemma descending_map (f : nat -> R) k n : (forall i j, (i <= j)%nat -> f j <= f i) -> descending (map f (seq k n)).
Proof.
  intros Hf. revert k. induction n as [|n IH]; intros k; cbn [seq map]; [constructor|]. constructor; [apply IH|].
  apply Forall_map, Forall_forall. intros i Hi. apply list_elem_of_In, in_seq in Hi. apply Hf. lia.
Qed.

Lemma new_pivots_bracket hi lo : lo < hi ->
  descending (new_pivots pN hi lo) /\ Forall (fun q => lo < q <= hi) (new_pivots pN hi lo).
Proof.
  intros Hlo. rewrite new_pivots_spacing. pose proof (spacing_pos hi lo Hlo) as Hs. pose proof (spacing_all hi lo) as Ha. split.
  - apply descending_map. intros i j Hij. assert (INR (S i) <= INR (S j)) by (apply le_INR; lia). nra.
  - apply Forall_map, Forall_forall. intros i Hi. apply list_elem_of_In, in_seq in Hi as [_ Hi].
    pose proof (lt_INR i pN Hi) as Hlt. pose proof (pos_INR i). rewrite S_INR.
    assert (INR i + 1 <= INR pN) by (rewrite <- S_INR; apply le_INR; lia). split; nra.
Qed.

Lemma new_pivots_last hi lo d : last_or (new_pivots pN hi lo) d = hi - shrink * (hi - lo).
Proof.
  rewrite new_pivots_spacing, shrink_spacing. destruct pN as [|n] eqn:E; [lia|].
  rewrite seq_S, map_app. apply last_or_snoc.
Qed.

(** The tallies of descending pivots *)
Lemma tallies_of ps : ps <> [] -> descending ps -> Forall (fun q => 0 < q) ps ->
  tallies row ps TX = Some (map (fun q => tally (kept q row)) ps).
Proof.
  intros Hne Hd Hpos. destruct (exists_last Hne) as (l & q & ->).
  apply (tallies_exact row _ TX HTX row_small Hpos row_nonneg row_sum q).
  - rewrite length_app. cbn [length]. replace (Z.of_nat (length l + 1) - 1)%Z with (Z.of_nat (length l)) by lia.
    rewrite load_lookup. by rewrite lookup_app_r, Nat.sub_diag by lia.
  - clear -Hd. induction l as [|x l IH]; cbn [app] in *; [repeat constructor; lra|].
    inversion_clear Hd as [|? ? Hd' Hx]. constructor; [|by apply IH].
    rewrite List.Forall_forall in Hx. apply Hx, in_or_app. right. by left.
Qed.

Lemma combine_entry ps : combine ps (map (fun q => tally (kept q row)) ps) = map entry ps.
Proof. induction ps as [|q ps IH]; cbn; [done|by rewrite IH]. Qed.

(** The ends of the bracket after an iteration without a valid pivot *)
Section After.
Context (s s1 : Search R) (lows highs : list R).
Hypothesis Hs : searching s.
Hypothesis Hw : eps_LR < bracket_L s - bracket_R s.
Hypothesis Hu : undecided (pivots s) s s1 lows highs.

Lemma old_R : eps_LR <= bracket_R s.
Proof. destruct (R_kept s Hs) as [->|[H _]]; lra. Qed.

Lemma L_after : bracket_L s1 = bracket_L s /\ lows = [] \/
  bracket_R s < bracket_L s1 <= bracket_L s /\ mass row (bracket_L s1) < top_p.
Proof.
  destruct (pivots_bracket s Hs Hw) as [_ Hb]. pose proof Hu as [_ E Hl _ EL _ _]. rewrite E in Hb. clear Hu.
  apply List.Forall_app in Hb as [Hb _]. rewrite List.Forall_forall in Hb, Hl.
  destruct lows as [|x l]; [by left|right]. pose proof (last_or_cons_In l x (bracket_L s)) as Hin. rewrite <- EL in Hin.
  split; [by apply Hb|by apply Hl].
Qed.

Lemma R_after : bracket_R s1 = bracket_R s /\ highs = [] \/
  bracket_R s < bracket_R s1 /\ top_p <= mass row (bracket_R s1) /\ final_lsum s1 = Some (mass row (bracket_R s1)).
Proof.
  destruct (pivots_bracket s Hs Hw) as [_ Hb]. pose proof Hu as [_ E _ Hh _ ER El]. rewrite E in Hb. clear Hu.
  apply List.Forall_app in Hb as [_ Hb]. rewrite List.Forall_forall in Hb, Hh.
  destruct highs as [|x l]; [by left|right]. pose proof (last_or_cons_In l x (bracket_R s)) as Hin. rewrite <- ER in Hin.
  split; [by apply Hb|]. split; [|by rewrite ER]. pose proof (Hh _ Hin). pose proof (over_mass (bracket_R s1)). lra.
Qed.

Lemma bracket_below : bracket_L s1 - bracket_R s1 <= 1.
Proof.
  pose proof eps_pos. pose proof old_R. destruct (L_dropped s Hs) as [H1 _].
  destruct L_after as [[-> _]|[H2 _]], R_after as [[-> _]|[H3 _]]; lra.
Qed.

Lemma bracket_shrinks : spaced s -> bracket_L s1 - bracket_R s1 <= shrink * (bracket_L s - bracket_R s).
Proof.
  unfold spaced. intros Hsp. pose proof Hu as [_ E _ _ EL ER _]. pose proof (pivots_number s Hs) as Hn.
  pose proof (new_pivots_last (bracket_L s) (bracket_R s) 0) as Hlast. rewrite <- Hsp, E in Hlast.
  pose proof (shrink_spacing (bracket_L s) (bracket_R s)) as Hss. pose proof (spacing_all (bracket_L s) (bracket_R s)) as Ha.
  pose proof (spacing_pos (bracket_L s) (bracket_R s) ltac:(pose proof eps_pos; lra)) as Hpos.
  assert (1 <= INR pN) by (apply (le_INR 1); lia). pose proof L_after as HL. clear Hu Hs Hw. destruct highs as [|x l].
  - rewrite app_nil_r in Hlast, E. destruct lows as [|y k]; [rewrite E in Hn; cbn in Hn; lia|].
    change (last_or (y :: k) 0) with (last_or (y :: k) (bracket_L s)) in Hlast. rewrite EL, ER, Hlast.
    change (last_or [] (bracket_R s)) with (bracket_R s). nra.
  - assert (El' : last_or (lows ++ x :: l) 0 = last_or (x :: l) (bracket_R s)) by (unfold last_or; by rewrite fold_left_app).
    rewrite El' in Hlast. rewrite ER, Hlast. destruct HL as [[-> _]|[H1 _]]; lra.
Qed.

(** When every pivot is too high, the last one is the upper end. *)
Lemma lsum_after : leader_lsum s1 = map (mass row) (pivots s) -> bracket_R s1 = eps_LR ->
  load1 (leader_lsum s1) (Z.of_nat pN - 1) = Some (mass row (bracket_L s1)) /\ eps_LR < bracket_L s1.
Proof.
  intros Els ERe. pose proof old_R. pose proof (pivots_number s Hs) as Hn. pose proof L_after as HL.
  destruct R_after as [[_ ->]|[H1 _]]; [|lra].
  pose proof Hu as [_ E _ _ EL _ _]. rewrite app_nil_r in E. rewrite E in Hn. 
  destruct HL as [[_ ->]|[[H2 _] _]]; [cbn in Hn; lia|]. split; [|lra]. rewrite Els, E, EL.
  destruct (exists_last (l := lows)) as (l & q & ->); [by intros ->; cbn in Hn; lia|].
  rewrite last_or_snoc, map_app. rewrite length_app in Hn. cbn [length] in Hn.
  replace (Z.of_nat pN - 1)%Z with (Z.of_nat (length (map (mass row) l))) by (rewrite length_map; lia).
  rewrite load_lookup, lookup_app_r by lia. by rewrite Nat.sub_diag.
Qed.
End After.

(** An iteration finds a valid pivot or leaves a bracket that is smaller, by a
    constant factor when the pivots are spaced. *)
Lemma search_step_ok s : searching s -> eps_LR < bracket_L s - bracket_R s ->
  exists s', search_step row top_p TX s = Some s' /\
    (found s' \/ searching s' /\ spaced s' /\ bracket_L s' - bracket_R s' <= 1 /\
      (spaced s -> bracket_L s' - bracket_R s' <= shrink * (bracket_L s - bracket_R s))).
Proof.
  intros Hs Hw. destruct (pivots_bracket s Hs Hw) as [Hd Hb]. pose proof (pivots_number s Hs) as Hn. pose proof eps_pos as Heps.
  pose proof (old_R s Hs) as HR. assert (Hne : pivots s <> []) by (intros E; rewrite E in Hn; cbn in Hn; lia).
  unfold search_step. rewrite tallies_of; [|done|done|eapply Forall_impl; [exact Hb|]; intros q [H _]; lra].
  cbn [mbind option_bind]. rewrite map_map, combine_entry. cbn [fst tally].
  match goal with |- context [check_pivots top_p _ ?s0] =>
    destruct (check_pivots_cases (pivots s) s0 (not_found s Hs) Hd) as (El & Ep & Hc) end.
  { eapply Forall_impl; [exact Hb|]. intros q [H _]. lra. }
  match type of Hc with found ?x \/ _ => set (s1 := x) in * end. clearbody s1. eexists. split; [reflexivity|].
  destruct Hc as [Hfound|(lows & highs & Hu0)]; [by left|right]. cbn [leader_lsum pivots] in El, Ep.
  assert (Hu : undecided (pivots s) s s1 lows highs) by (by destruct Hu0).
  unfold spaced. cbn [bracket_L bracket_R pivots]. rewrite Ep, Hn.
  split; [|split; [done|split; [by eapply bracket_below|by eapply bracket_shrinks]]].
  destruct (L_dropped s Hs) as [HLt HLd].
  constructor; cbn [find_pivot bracket_L bracket_R final_lsum leader_lsum pivots].
  - by destruct Hu.
  - destruct (R_after s s1 lows highs Hs Hw Hu) as [[ER Hh]|(H1 & H2 & H3)]; [|right; split; [lra|done]].
    destruct Hu as [_ _ _ _ _ _ E]. rewrite Hh in E. rewrite E, ER. apply (R_kept s Hs).
  - destruct (L_after s s1 lows highs Hs Hw Hu) as [[-> _]|[H1 H2]]; [by split|split; [lra|by right]].
  - intros ERe. right. by eapply lsum_after.
  - unfold new_pivots. by rewrite length_map, length_seq.
  - intros Hw'. apply new_pivots_bracket. lra.
Qed.

Lemma search_ok n s fuel : searching s -> spaced s -> shrink ^ n * (bracket_L s - bracket_R s) <= eps_LR -> (n <= fuel)%nat ->
  exists s', search row top_p TX fuel s = Some s' /\ (found s' \/ searching s' /\ bracket_L s' - bracket_R s' <= eps_LR).
Proof.
  revert s fuel. induction n as [|n IH]; intros s fuel Hs Hsp Hn Hf.
  - exists s. cbn [pow] in Hn. split; [|right; split; [done|lra]].
    destruct fuel; cbn [search k_lt k_sub R_kernel]; by (destruct (Rltb_spec eps_LR (bracket_L s - bracket_R s)); [lra|]).
  - destruct fuel as [|fuel]; [lia|]. cbn [search k_lt k_sub R_kernel].
    destruct (Rltb_spec eps_LR (bracket_L s - bracket_R s)) as [Hw|Hw]; [|exists s; split; [done|right; split; [done|lra]]].
    rewrite (not_found s Hs). cbn [andb negb].
    destruct (search_step_ok s Hs Hw) as (s1 & -> & [Hfound|(Hs1 & Hsp1 & _ & Hsh)]); cbn [mbind option_bind].
    + exists s1. split; [|by left]. destruct Hfound as [Hfp _]. by destruct fuel; cbn [search]; rewrite Hfp, andb_false_r.
    + apply IH; [done|done| |lia]. specialize (Hsh Hsp). cbn [pow] in Hn.
      assert (0 <= shrink ^ n).
      { apply pow_le. unfold shrink. pose proof (pos_INR pN). left. apply Rdiv_lt_0_compat; [apply (lt_INR 0); lia|lra]. }
      nra.
Qed.

(** What a block may answer: an exact cut-off, or one up to [1e-7]; nothing is cut
    off when [top_p] is within [2e-7] of one; only what is below [1e-7] is cut off
    when nothing up to [2e-7] may be dropped. *)
Inductive cutoff : R -> R -> Prop :=
| exact_cutoff q : eps_LR < q -> nucleus row top_p q -> cutoff q (mass row q)
| close_cutoff q : eps_LR < q -> top_p <= mass row q ->
    (forall q', q + eps_LR <= q' < 1 - top_p -> mass row q' < top_p) -> cutoff q (mass row q)
| no_cutoff : 1 - top_p <= 2 * eps_LR -> cutoff 0 1
| least_cutoff hi : eps_LR < hi <= 2 * eps_LR -> mass row hi < top_p -> cutoff eps_LR (mass row hi).

Hypothesis top_p_one : top_p <= 1.

(** The first pivots, needed when the search starts *)
Definition good_pivots (init_pivots : list R) : Prop :=
  length init_pivots = pN /\ descending init_pivots /\
  (2 * eps_LR < 1 - top_p -> Forall (fun q => eps_LR < q <= 1 - top_p) init_pivots).

Definition initial (init_pivots : list R) : Search R :=
  mkSearch (1 - top_p) eps_LR false init_pivots [] None None.

Lemma initial_searching init_pivots : good_pivots init_pivots -> 2 * eps_LR < 1 - top_p -> searching (initial init_pivots).
Proof.
  intros (Hn & Hd & Hp) Hw. constructor; cbn [initial find_pivot bracket_L bracket_R pivots]; try done.
  - by left.
  - split; [lra|by left].
  - intros _. by left.
  - intros _. split; [done|by apply Hp].
Qed.

Lemma search_initial n fuel init_pivots : good_pivots init_pivots -> 2 * eps_LR < 1 - top_p ->
  shrink ^ n <= eps_LR -> (n < fuel)%nat ->
  exists s', search row top_p TX fuel (initial init_pivots) = Some s' /\
    (found s' \/ searching s' /\ bracket_L s' - bracket_R s' <= eps_LR).
Proof.
  intros Hg Hw Hn Hf. pose proof (initial_searching init_pivots Hg Hw) as Hs. pose proof eps_pos.
  destruct fuel as [|fuel]; [lia|]. cbn [search].
  assert (Hw' : eps_LR < bracket_L (initial init_pivots) - bracket_R (initial init_pivots)) by (cbn [initial bracket_L bracket_R]; lra).
  cbn [k_lt k_sub R_kernel]. destruct (Rltb_spec eps_LR (bracket_L (initial init_pivots) - bracket_R (initial init_pivots))); [|lra].
  cbn [andb negb initial find_pivot].
  destruct (search_step_ok _ Hs Hw') as (s1 & Hstep & [Hfound|(Hs1 & Hsp1 & H1 & _)]); fold (initial init_pivots); rewrite Hstep;
    cbn [mbind option_bind].
  - exists s1. split; [|by left]. destruct Hfound as [Hfp _]. by destruct fuel; cbn [search]; rewrite Hfp, andb_false_r.
  - apply (search_ok n); [done|done| |lia]. assert (0 <= shrink ^ n).
    { apply pow_le. unfold shrink. pose proof (pos_INR pN). left. apply Rdiv_lt_0_compat; [apply (lt_INR 0); lia|lra]. }
    nra.
Qed.

(** A block terminates and answers with a cut-off. *)
Lemma pivot_block_ok n fuel init_pivots : good_pivots init_pivots -> shrink ^ n <= eps_LR -> (n < fuel)%nat ->
  exists q l, pivot_block TX fuel row top_p init_pivots = Some (q, l) /\ cutoff q l.
Proof.
  intros Hg Hn Hf. pose proof eps_pos as Heps. unfold pivot_block, narrow, k_one. cbn [k_sub k_of_Z k_eq R_kernel].
  destruct (Rleb_spec (1 - top_p - eps_LR) eps_LR) as [Hw|Hw].
  - exists 0, 1. split; [|apply no_cutoff; lra]. by destruct fuel; cbn [search find_pivot negb]; rewrite andb_false_r.
  - fold (initial init_pivots).
    destruct (search_initial n fuel init_pivots Hg ltac:(lra) Hn Hf) as (s & -> & [Hfound|[Hs Hw']]); cbn [mbind option_bind].
    + destruct Hfound as (-> & q & -> & -> & Hq & He). exists q, (mass row q). split; [done|].
      apply exact_cutoff; [|done]. cbn [k_lt R_kernel] in He. by destruct (Rltb_spec eps_LR q).
    + rewrite (not_found s Hs). destruct Hg as (-> & _). destruct (L_dropped s Hs) as [HL1 HL2].
      destruct (Reqb_spec (bracket_R s) eps_LR) as [ER|NR].
      * destruct (L_lsum s Hs ER) as [EL|[-> Hlt]]; [lra|]. cbn [mbind option_bind].
        destruct HL2 as [EL|HL2]; [lra|]. exists eps_LR, (mass row (bracket_L s)). rewrite ER in *. split; [done|].
        apply least_cutoff; [lra|done].
      * destruct (R_kept s Hs) as [|(H1 & -> & H3)]; [done|]. cbn [mbind option_bind].
        exists (bracket_R s), (mass row (bracket_R s)). split; [done|]. apply close_cutoff; [done|done|].
        intros q' Hq'. destruct HL2 as [EL|HL2]; [lra|]. pose proof (mass_antitone q' (bracket_L s) ltac:(lra)). lra.
Qed.
End Cut.

(** ** Renormalisation *)

(** What is kept of a row, divided by [lsum]. *)
Definition renormed (row : list R) (c : R * R) : list R := map (fun p => if k_le c.1 p then p / c.2 else 0) row.

Lemma renormed_sum row q l : Rsum (renormed row (q, l)) = mass row q / l.
Proof.
  unfold renormed, mass, kept, Rsum. cbn [fst snd]. induction row as [|p row IH]; cbn [map fold_right List.filter]; [lra|].
  destruct (k_le q p); cbn [fold_right]; rewrite IH; lra.
Qed.

Lemma mass_all row q : (forall x, In x row -> q <= x) -> mass row q = Rsum row.
Proof.
  intros Hq. unfold mass, kept. f_equal. induction row as [|x l IH]; cbn [List.filter]; [done|].
  destruct (Rleb_spec q x) as [|Hn]; [|specialize (Hq x (or_introl eq_refl)); lra]. f_equal. apply IH.
  intros y Hy. apply Hq. by right.
Qed.

(** A cut-off above [1e-7] leaves a distribution. *)
Lemma renormed_distribution row top_p q l : Forall (fun x => 0 <= x) row -> Rsum row = 1 -> 0 < top_p ->
  cutoff row top_p q l -> q <> eps_LR ->
  Forall (fun p => 0 <= p) (renormed row (q, l)) /\ Rsum (renormed row (q, l)) = 1.
Proof.
  intros Hn Hsum Htop Hc Hq. assert (Hl : 0 < l /\ l = mass row q).
  { destruct Hc as [q _ [H _]|q _ H _|_|]; [split; [lra|done]|split; [lra|done]| |done].
    split; [lra|]. rewrite mass_all; [done|]. intros x Hx. rewrite List.Forall_forall in Hn. by apply Hn. }
  destruct Hl as [Hl E]. split; [|rewrite renormed_sum, <- E; apply Rinv_r; lra].
  apply Forall_map. eapply Forall_impl; [exact Hn|]. intros p Hp. cbn [fst snd].
  destruct (k_le q p); [|lra]. apply Rle_mult_inv_pos; lra.
Qed.

Lemma renorm_grid_In B BX TX N b bx tx i : In (b, (bx, tx, i)) (renorm_grid B BX TX N) <->
  (b < B /\ bx < BX /\ tx < TX /\ i < nat_ceildiv N (BX * TX))%nat.
Proof.
  unfold renorm_grid. rewrite in_flat_map. split.
  - intros (b' & Hb%in_seq & (w & [= -> ->] & Hw)%in_map_iff).
    apply in_flat_map in Hw as ([bx' tx'] & Ht%grid_In & (i' & [= -> -> ->] & Hi%in_seq)%in_map_iff). cbn [fst snd] in Ht. lia.
  - intros (Hb & Hbx & Htx & Hi). exists b. split; [apply in_seq; lia|]. apply in_map, in_flat_map.
    exists (bx, tx). split; [by apply grid_In|]. apply in_map, in_seq. lia.
Qed.

(** Every element of a row has an iteration of a thread. *)
Lemma renorm_index BX TX N idx : (0 < BX)%nat -> (0 < TX)%nat -> (idx < N)%nat ->
  exists bx tx i, (bx < BX /\ tx < TX /\ i < nat_ceildiv N (BX * TX))%nat /\ (i * BX * TX + bx * TX + tx = idx)%nat.
Proof.
  intros HBX HTX Hidx. set (W := (BX * TX)%nat). assert (0 < W)%nat by (unfold W; lia).
  exists (idx mod W / TX)%nat, (idx mod TX)%nat, (idx / W)%nat.
  pose proof (Nat.mod_upper_bound idx W). pose proof (Nat.mod_upper_bound idx TX). pose proof (Nat.div_mod_eq idx W).
  assert (Hm : (idx mod W mod TX = idx mod TX)%nat).
  { unfold W. rewrite (Nat.mul_comm BX), Nat.Div0.mod_mul_r, Nat.mul_comm, Nat.Div0.mod_add. apply Nat.Div0.mod_mod. }
  pose proof (Nat.div_mod_eq (idx mod W) TX) as Hd. rewrite Hm in Hd. split; [split; [|split]|].
  - apply Nat.Div0.div_lt_upper_bound. rewrite Nat.mul_comm. fold W. lia.
  - lia.
  - apply Nat.Div0.div_lt_upper_bound. pose proof (nat_ceildiv_covers N W). lia.
  - unfold W in *. nia.
Qed.

Lemma renorm_exact B N BX TX order (prob : list (list R)) cuts output :
  (0 < BX)%nat -> (0 < TX)%nat -> matrix B N prob -> matrix B N output -> length cuts = B ->
  Permutation order (renorm_grid B BX TX N) ->
  top_p_renorm BX TX order prob (map fst cuts) (map snd cuts) output =
  Some (map (fun rc => renormed rc.1 rc.2) (combine prob cuts)).
Proof.
  intros HBX HTX Hp Ho Hc Hord. set (row b := default [] (prob !! b)). set (cut b := default (0, 0) (cuts !! b)).
  set (G b idx := if k_le (cut b).1 (default 0 (row b !! idx)) then default 0 (row b !! idx) / (cut b).2 else 0).
  set (pos := fun w : nat * (nat * nat * nat) => (w.1, (w.2.2 * BX * TX + w.2.1.1 * TX + w.2.1.2)%nat)).
  assert (Hin : forall w, In w order -> (w.1 < B)%nat /\ exists r c, prob !! w.1 = Some r /\ cuts !! w.1 = Some c /\ length r = N).
  { intros [b [[bx tx] i]] Hw. rewrite Hord in Hw. apply renorm_grid_In in Hw as (Hb & _). cbn [fst]. split; [done|].
    destruct (matrix_row B N prob b Hp Hb) as (r & Hr & Hl). destruct (lookup_lt_is_Some_2 cuts b) as [c Hcb]; [lia|]. by exists r, c. }
  transitivity (Some (table B N G)).
  - unfold top_p_renorm. rewrite (ofold_filter _ (fun w => (pos w).2 <? N)%nat).
    2:{ intros [b [[bx tx] i]] s Hw Hlt. destruct (Hin _ Hw) as (Hb & r & c & Hr & Hcb & Hl). cbn [fst] in *. unfold renorm_iteration.
        rewrite !load_lookup, !(lookup_map_Some _ _ _ _ Hcb), Hr. cbn [mbind option_bind]. cbn [pos fst snd] in Hlt. by rewrite Hl, Hlt. }
    rewrite (ofold_ext _ (fun w O => store2 O (Z.of_nat (pos w).1) (Z.of_nat (pos w).2) (G (pos w).1 (pos w).2))).
    + apply (store_cells pos (fun w => G (pos w).1 (pos w).2) G B N); [done| |].
      * apply List.Forall_forall. intros w [Hw Hlt%Nat.ltb_lt]%filter_In. destruct (Hin w Hw) as [Hb _]. done.
      * intros b idx Hb Hidx. destruct (renorm_index BX TX N idx HBX HTX Hidx) as (bx & tx & i & Hr & E).
        apply list_elem_of_In, in_map_iff. exists (b, (bx, tx, i)). split; [unfold pos; cbn [fst snd]; by rewrite E|].
        apply filter_In. split; [|unfold pos; cbn [fst snd]; rewrite E; by apply Nat.ltb_lt].
        rewrite Hord. apply renorm_grid_In. tauto.
    + intros [b [[bx tx] i]] s [Hw Hlt]%filter_In. destruct (Hin _ Hw) as (Hb & r & c & Hr & Hcb & Hl). cbn [fst] in *.
      unfold renorm_iteration, G, row, cut. cbn [pos fst snd] in *. rewrite !load_lookup, !(lookup_map_Some _ _ _ _ Hcb), Hr, Hcb.
      cbn [mbind option_bind default Datatypes.id]. rewrite Hl, Hlt. apply Nat.ltb_lt in Hlt. rewrite load_lookup.
      destruct (lookup_lt_is_Some_2 r (i * BX * TX + bx * TX + tx)) as [p Hpr]; [lia|]. by rewrite Hpr.
  - f_equal. apply list_eq. intros b. destruct (decide (b < B)%nat) as [Hb|Hb].
    + destruct (matrix_row B N prob b Hp Hb) as (r & Hr & Hl). destruct (lookup_lt_is_Some_2 cuts b) as [c Hcb]; [lia|].
      unfold table. rewrite (lookup_map_Some _ _ b b) by (by apply lookup_seq).
      rewrite (lookup_map_Some _ _ b (r, c)) by (apply lookup_zip_with_Some; by exists r, c). f_equal.
      unfold G, row, cut, renormed. rewrite Hr, Hcb. cbn [default Datatypes.id fst snd].
      rewrite <- (map_map (fun i => default 0 (r !! i)) (fun p => if k_le c.1 p then p / c.2 else 0)).
      by rewrite <- Hl, map_lookup_seq.
    + destruct (table_matrix B N G) as [Hl _]. rewrite !lookup_ge_None_2; [done| |lia].
      rewrite length_map, length_combine. destruct Hp. lia.
Qed.

(** ** The engine's three pivots *)

(** 57 halvings by three quarters reach [1e-7]. *)
Lemma shrink_three : shrink 3 ^ 57 <= eps_LR.
Proof.
  assert (E : shrink 3 = 3 / 4) by (unfold shrink; cbn; lra). rewrite E. unfold Rdiv. rewrite Rpow_mult_distr, pow_inv.
  rewrite !pow_IZR. unfold eps_LR. cbn [k_dec R_kernel]. rewrite pow_IZR. cbn [Z.of_nat Pos.of_succ_nat Pos.succ].
  apply Rmult_le_reg_r with (IZR (4 ^ 57)); [apply (IZR_lt 0); lia|]. rewrite Rmult_assoc, Rinv_l, Rmult_1_r by (apply not_0_IZR; lia).
  unfold Rdiv. rewrite Rmult_1_l. apply Rmult_le_reg_l with (IZR (10 ^ 7)); [apply (IZR_lt 0); lia|].
  rewrite <- Rmult_assoc, Rinv_r, Rmult_1_l, <- mult_IZR by (apply not_0_IZR; lia). apply IZR_le. lia.
Qed.

Lemma distribution_small row : Forall (fun x => 0 <= x) row -> Rsum row = 1 -> small row.
Proof.
  intros Hn Hsum. apply List.Forall_forall. intros x Hx. apply in_split in Hx as (l1 & l2 & ->).
  rewrite Rsum_app in Hsum. change (Rsum (x :: l2)) with (x + Rsum l2) in Hsum.
  apply List.Forall_app in Hn as [H1 [_ H2]%List.Forall_cons_iff].
  assert (Hr : forall l, Forall (fun x => 0 <= x) l -> 0 <= Rsum l).
  { intros l Hl. rewrite <- (map_id l). apply Rsum_nonneg. intros y Hy. rewrite List.Forall_forall in Hl. by apply Hl. }
  apply Hr in H1, H2. apply Rle_lt_trans with 1; [lra|]. cbn [k_max_value R_kernel]. apply (IZR_lt 1). lia.
Qed.

(** A row of the input of the kernels *)
Definition good_row (row : list R) (top_p : R) (init_pivots : list R) : Prop :=
  Forall (fun x => 0 <= x) row /\ Rsum row = 1 /\ 0 < top_p <= 1 /\ good_pivots top_p 3 init_pivots.

Lemma pivot_block_three TX fuel row top_p init_pivots : (0 < TX)%nat -> (57 < fuel)%nat -> good_row row top_p init_pivots ->
  exists c, pivot_block TX fuel row top_p init_pivots = Some c /\ cutoff row top_p c.1 c.2.
Proof.
  intros HTX Hf (Hn & Hsum & Htop & Hg).
  destruct (pivot_block_ok row top_p Hn TX 3 HTX ltac:(lia) (distribution_small row Hn Hsum) Hsum ltac:(lra) ltac:(lra)
    57 fuel init_pivots Hg shrink_three Hf) as (q & l & H & Hc). by exists (q, l).
Qed.

Lemma top_p_pivot_exact TX fuel probs top_p init_pivots :
  (0 < TX)%nat -> (57 < fuel)%nat -> length top_p = length probs -> length init_pivots = length probs ->
  (forall b row t ps, probs !! b = Some row -> top_p !! b = Some t -> init_pivots !! b = Some ps -> good_row row t ps) ->
  exists cuts, top_p_pivot TX fuel probs top_p init_pivots = Some (map fst cuts, map snd cuts) /\
    length cuts = length probs /\
    forall b row t c, probs !! b = Some row -> top_p !! b = Some t -> cuts !! b = Some c -> cutoff row t c.1 c.2.
Proof.
  intros HTX Hf Ht Hi Hgood. unfold top_p_pivot.
  assert (Hblock : forall b, (b < length probs)%nat -> exists row t ps c,
    probs !! b = Some row /\ top_p !! b = Some t /\ init_pivots !! b = Some ps /\
    pivot_block TX fuel row t ps = Some c /\ cutoff row t c.1 c.2).
  { intros b Hb. destruct (lookup_lt_is_Some_2 probs b Hb) as [row Hr]. destruct (lookup_lt_is_Some_2 top_p b) as [t Htb]; [lia|].
    destruct (lookup_lt_is_Some_2 init_pivots b) as [ps Hps]; [lia|].
    destruct (pivot_block_three TX fuel row t ps HTX Hf (Hgood b row t ps Hr Htb Hps)) as (c & Hc & Hcut). by exists row, t, ps, c. }
  match goal with |- context [mapM ?f _] => assert (Hall : exists cuts, mapM f (seq 0 (length probs)) = Some cuts) end.
  { apply mapM_is_Some_2, Forall_forall. intros b Hb. apply elem_of_seq in Hb.
    destruct (Hblock b) as (row & t & ps & c & E1 & E2 & E3 & Hc & _); [lia|]. unfold compose. rewrite E1, E2, E3. by exists c. }
  destruct Hall as [cuts Hcuts]. rewrite Hcuts. exists cuts. split; [done|]. apply mapM_Some_1 in Hcuts.
  assert (Hl : length cuts = length probs) by (rewrite <- (Forall2_length _ _ _ Hcuts); apply length_seq). split; [done|].
  intros b row t c Hr Htb Hcb. pose proof (lookup_lt_Some _ _ _ Hr) as Hb.
  destruct (Forall2_lookup_r _ _ _ b c Hcuts Hcb) as (b' & Hb' & He). apply lookup_seq in Hb' as [-> _]. cbn in He.
  destruct (Hblock b Hb) as (row' & t' & ps & c' & E1 & E2 & E3 & E4 & Hcut). rewrite E1, E2, E3 in He. cbn in He. congruence.
Qed.

(** C9: for every row of probabilities, every [top_p] above 0 and at most 1, and
    three initial pivots that decrease from at most [1 - top_p] to above [1e-7]
    ([good_row]), the function [renormalize_by_top_p] that [AttachGPUSamplingFunc] adds finds, in at most 58
    iterations, a pivot and keeps the probabilities that are not below it, divided
    by the sum that the search has found with it.  In exact arithmetic the pivot cuts off exactly at
    [top_p], or up to [1e-7] ([cutoff]), and the row stays a probability distribution
    unless the pivot is [1e-7] itself; neither the number of threads nor the order of
    their stores matters, and the early stop of the scan loses nothing. *)
Theorem renormalize_by_top_p_exact TX fuel order output probs top_p init_pivots N :
  (0 < TX)%nat -> (57 < fuel)%nat -> (0 < length probs)%nat ->
  matrix (length probs) N probs -> matrix (length probs) N output ->
  length top_p = length probs -> length init_pivots = length probs ->
  Permutation order (renorm_grid (length probs) (renorm_blocks (length probs)) TX N) ->
  (forall b row t ps, probs !! b = Some row -> top_p !! b = Some t -> init_pivots !! b = Some ps -> good_row row t ps) ->
  exists cuts, length cuts = length probs /\
    renormalize_by_top_p TX fuel order output probs top_p init_pivots =
      Some (map (fun rc => renormed rc.1 rc.2) (combine probs cuts)) /\
    forall b row t c, probs !! b = Some row -> top_p !! b = Some t -> cuts !! b = Some c ->
      cutoff row t c.1 c.2 /\
      (c.1 <> eps_LR -> Forall (fun p => 0 <= p) (renormed row c) /\ Rsum (renormed row c) = 1).
Proof.
  intros HTX Hf HB Hm Hout Ht Hi Ho Hgood.
  destruct (top_p_pivot_exact TX fuel probs top_p init_pivots HTX Hf Ht Hi Hgood) as (cuts & Hcuts & Hl & Hc).
  exists cuts. split; [done|]. split.
  - unfold renormalize_by_top_p. rewrite Hcuts. cbn [mbind option_bind fst snd].
    apply (renorm_exact (length probs) N); try done.
    pose proof (nat_ceildiv_covers 512 (length probs) HB). fold (renorm_blocks (length probs)) in *. nia.
  - intros b row t c Hr Htb Hcb. specialize (Hc b row t c Hr Htb Hcb). split; [done|]. intros Hne.
    destruct (lookup_lt_is_Some_2 init_pivots b) as [ps Hps]; [rewrite Hi; by eapply lookup_lt_Some|].
    destruct (Hgood b row t ps Hr Htb Hps) as (Hn & Hsum & Htop & _). destruct c as [q l].
    by apply (renormed_distribution row t); [| |lra| |].
Qed.

(** The hypotheses hold for the first pivots that the engine chooses for [top_p = 1 / 2]. *)
Lemma renormalize_by_top_p_exact_witness : exists cuts, length cuts = 1%nat /\
  renormalize_by_top_p 1 58 (renorm_grid 1 (renorm_blocks 1) 1 3) [[0; 0; 0]] [[1 / 2; 1 / 4; 1 / 4]] [1 / 2]
    [[1 / 2; 1 / 50; 1 / 100]] = Some (map (fun rc => renormed rc.1 rc.2) (combine [[1 / 2; 1 / 4; 1 / 4]] cuts)) /\
  forall b row t c, [[1 / 2; 1 / 4; 1 / 4]] !! b = Some row -> [1 / 2] !! b = Some t -> cuts !! b = Some c ->
    cutoff row t c.1 c.2 /\
    (c.1 <> eps_LR -> Forall (fun p => 0 <= p) (renormed row c) /\ Rsum (renormed row c) = 1).
Proof.
  apply (renormalize_by_top_p_exact 1 58 (renorm_grid 1 (renorm_blocks 1) 1 3) [[0; 0; 0]] [[1 / 2; 1 / 4; 1 / 4]] [1 / 2]
    [[1 / 2; 1 / 50; 1 / 100]] 3); try (cbn; lia); try reflexivity.
  - by repeat constructor.
  - by repeat constructor.
  - intros [|b] row t ps; [|destruct b; discriminate]. intros [= <-] [= <-] [= <-].
    split; [repeat constructor; lra|]. split; [unfold Rsum; cbn; lra|]. split; [lra|].
    split; [done|]. split; [repeat constructor; lra|]. intros _. unfold eps_LR. cbn [k_dec R_kernel].
    repeat apply List.Forall_cons; [lra..|apply List.Forall_nil].
Defined.
