(* ===== verification/Sampler.v ===== *)
(** * The probabilities of sampled tokens ([compiler_pass/attach_sampler.py])

    The functions of [AttachGPUSamplingFunc] that look up probabilities:
    [argsort_probs] sorts every row, [sampler_take_probs] takes the probabilities of the
    sampled tokens and of the most probable ones.  [relax.op.argsort] is a
    parameter.  The renormalisation is in TopP.v, the verification of draft tokens in
    SpecVerify.v; multinomial sampling and top-p/top-k sampling are operators of
    [tvm.relax.frontend.nn]. *)

From stdpp Require Import base list sorting.
From S2P Require Import Prelude TirBuffer.
Local Open Scope Z_scope.

Section TakeProbs.
Context {A : Type} (argsort : list (list A) -> list (list Z)).

(** [take_sorted_probs] *)
Definition take_sorted_probs (batch_size vocab_size : nat) (unsorted_probs : list (list A))
    (sorted_indices : list (list Z)) : option (list (list A)) :=
  te_compute2 batch_size vocab_size (fun i j =>
    s ← load2 sorted_indices (Z.of_nat i) (Z.of_nat j); load2 unsorted_probs (Z.of_nat i) s).

(** [argsort_probs] *)
Definition argsort_probs (batch_size vocab_size : nat) (probs : list (list A)) : option (list (list A) * list (list Z)) :=
  let sorted_indices := argsort probs in
  sorted_values ← take_sorted_probs batch_size vocab_size probs sorted_indices;
  Some (sorted_values, sorted_indices).

(** The body of [sampler_take_probs_tir], on [sampled_values], [top_prob_probs] and
    [top_prob_indices] *)
Definition take_probs_body (unsorted_probs : list (list A)) (sorted_indices : list (list Z))
    (sample_indices sampling_results top_prob_offsets : list Z) (vocab_size : Z) (vi : nat)
    (out : list A * list A * list Z) : option (list A * list A * list Z) :=
  let '(sampled_values, top_prob_probs, top_prob_indices) := out in
  let num_positions := length top_prob_offsets in
  if (vi <? num_positions)%nat then
    o ← load1 top_prob_offsets (Z.of_nat vi);
    let row := o / vocab_size in
    let col := o mod vocab_size in
    s ← load2 sorted_indices row col;
    top_prob_indices ← store top_prob_indices (Z.of_nat vi) s;
    p ← load2 unsorted_probs row s;
    top_prob_probs ← store top_prob_probs (Z.of_nat vi) p;
    Some (sampled_values, top_prob_probs, top_prob_indices)
  else
    let vj := Z.of_nat vi - Z.of_nat num_positions in
    i ← load1 sample_indices vj;
    r ← load1 sampling_results vj;
    p ← load2 unsorted_probs i r;
    sampled_values ← store sampled_values vj p;
    Some (sampled_values, top_prob_probs, top_prob_indices).

Definition sampler_take_probs (unsorted_probs : list (list A)) (sorted_indices : list (list Z))
    (sample_indices sampling_results top_prob_offsets : list Z) (vocab_size : Z) (out : list A * list A * list Z)
    : option (list A * list A * list Z) :=
  ofold (take_probs_body unsorted_probs sorted_indices sample_indices sampling_results top_prob_offsets vocab_size)
    (seq 0 (length top_prob_offsets + length sample_indices)) out.

(** ** What is taken *)

Section Exact.
Context (B V : nat) (probs : list (list A)) (sorted : list (list Z)).
Context (samples : list (nat * nat)) (positions : list (nat * nat)).
Hypothesis HV : (0 < V)%nat.
Hypothesis Hprobs : matrix B V probs.
Hypothesis Hsorted : matrix B V sorted.
Hypothesis sorted_range : Forall (Forall (fun s => 0 <= s < Z.of_nat V)) sorted.
Hypothesis samples_range : Forall (fun s => s.1 < B /\ s.2 < V)%nat samples.
Hypothesis positions_range : Forall (fun p => p.1 < B /\ p.2 < V)%nat positions.
Context (d : A).

Definition index_at (p : nat * nat) : Z := default 0 (at2 sorted p.1 p.2).
Definition prob_at (b : nat) (s : Z) : A := default d (load2 probs (Z.of_nat b) s).

Lemma load_index p : (p.1 < B /\ p.2 < V)%nat -> load2 sorted (Z.of_nat p.1) (Z.of_nat p.2) = Some (index_at p) /\
  0 <= index_at p < Z.of_nat V.
Proof.
  intros [H1 H2]. unfold index_at. rewrite load2_at2. destruct (matrix_row B V sorted p.1 Hsorted H1) as (r & Hr & Hl).
  unfold at2. rewrite Hr. cbn [mbind option_bind]. destruct (lookup_lt_is_Some_2 r p.2) as [s Hs]; [lia|]. rewrite Hs. cbn.
  split; [done|]. pose proof (Forall_lookup_1 _ _ _ _ sorted_range Hr) as Hrange. by apply (Forall_lookup_1 _ _ _ _ Hrange Hs).
Qed.

Lemma load_prob b s : (b < B)%nat -> 0 <= s < Z.of_nat V -> load2 probs (Z.of_nat b) s = Some (prob_at b s).
Proof.
  intros Hb Hs. unfold prob_at. destruct (matrix_at2 B V probs b (Z.to_nat s) Hprobs Hb ltac:(lia)) as [p Hp].
  rewrite <- (Z2Nat.id s) by lia. by rewrite load2_at2, Hp.
Qed.

Definition offset_of (p : nat * nat) : Z := Z.of_nat (p.1 * V + p.2).

Lemma offset_row_col p : (p.2 < V)%nat ->
  offset_of p / Z.of_nat V = Z.of_nat p.1 /\ offset_of p mod Z.of_nat V = Z.of_nat p.2.
Proof.
  intros H. unfold offset_of. rewrite <- Nat2Z.inj_div, <- Nat2Z.inj_mod.
  rewrite Nat.div_add_l, (Nat.div_small p.2 V) by lia. rewrite (Nat.add_comm (p.1 * V)), Nat.Div0.mod_add, Nat.mod_small by done. lia.
Qed.

(** A buffer after the first [k] stores *)
Definition filled {X} (f : nat -> X) (k : nat) (b : list X) : list X := map f (seq 0 k) ++ drop k b.

Lemma store_filled {X} (f : nat -> X) k (b : list X) : (k < length b)%nat ->
  store (filled f k b) (Z.of_nat k) (f k) = Some (filled f (S k) b).
Proof.
  intros Hk. assert (Hl : length (map f (seq 0 k)) = k) by (by rewrite length_map, length_seq). unfold filled.
  rewrite store_lt by (rewrite length_app, Hl, length_drop; lia). f_equal.
  rewrite insert_app_r_alt, Hl, Nat.sub_diag by lia. destruct (lookup_lt_is_Some_2 b k Hk) as [x Hx].
  rewrite (drop_S b x k Hx). cbn [insert list_insert]. rewrite seq_S, map_app, <- app_assoc. done.
Qed.

Lemma filled_all {X Y} (f : Y -> X) (l : list Y) (b : list X) (dx : X) : length b = length l ->
  filled (fun n => default dx (f <$> l !! n)) (length l) b = map f l.
Proof.
  intros Hl. unfold filled. rewrite drop_ge, app_nil_r by lia.
  rewrite <- (map_lookup_seq dx (map f l)), length_map. apply map_ext. intros n. by rewrite list_lookup_fmap.
Qed.

Let fp n := default d ((fun p => prob_at p.1 (index_at p)) <$> positions !! n).
Let fi n := default 0 (index_at <$> positions !! n).
Let fs n := default d ((fun s => prob_at s.1 (Z.of_nat s.2)) <$> samples !! n).
Let body := take_probs_body probs sorted (map (fun s => Z.of_nat s.1) samples) (map (fun s => Z.of_nat s.2) samples)
      (map offset_of positions) (Z.of_nat V).

Lemma positions_loop k v p i : (k <= length positions)%nat -> length p = length positions -> length i = length positions ->
  ofold body (seq 0 k) (v, p, i) = Some (v, filled fp k p, filled fi k i).
Proof.
  intros Hk Hp Hi. induction k as [|k IH]; [done|]. rewrite seq_S, ofold_app, IH by lia. cbn [mbind option_bind ofold Nat.add].
  unfold body, take_probs_body. rewrite length_map, (proj2 (Nat.ltb_lt _ _)) by lia.
  destruct (lookup_lt_is_Some_2 positions k Hk) as [q Hq]. rewrite load_lookup, (lookup_map_Some _ _ _ _ Hq). cbn [mbind option_bind].
  pose proof (Forall_lookup_1 _ _ _ _ positions_range Hq) as Hr. destruct (offset_row_col q (proj2 Hr)) as [-> ->].
  destruct (load_index q Hr) as [-> Hs]. cbn [mbind option_bind].
  assert (Ei : index_at q = fi k) by (unfold fi; by rewrite Hq). rewrite Ei at 1. rewrite store_filled by lia. cbn [mbind option_bind].
  rewrite load_prob by (done || apply Hr). cbn [mbind option_bind].
  assert (Ep : prob_at q.1 (index_at q) = fp k) by (unfold fp; by rewrite Hq). rewrite Ep, store_filled by lia. done.
Qed.

Lemma samples_loop k v p i : (k <= length samples)%nat -> length v = length samples ->
  ofold body (seq (length positions) k) (v, p, i) = Some (filled fs k v, p, i).
Proof.
  intros Hk Hv. induction k as [|k IH]; [done|]. rewrite seq_S, ofold_app, IH by lia. cbn [mbind option_bind ofold].
  unfold body, take_probs_body. rewrite length_map, (proj2 (Nat.ltb_ge _ _)) by lia.
  destruct (lookup_lt_is_Some_2 samples k Hk) as [q Hq].
  replace (Z.of_nat (length positions + k) - Z.of_nat (length positions)) with (Z.of_nat k) by lia.
  rewrite !load_lookup, !(lookup_map_Some _ _ _ _ Hq). cbn [mbind option_bind].
  pose proof (Forall_lookup_1 _ _ _ _ samples_range Hq) as [Hr1 Hr2]. rewrite load_prob by (done || lia). cbn [mbind option_bind].
  assert (Es : prob_at q.1 (Z.of_nat q.2) = fs k) by (unfold fs; by rewrite Hq). rewrite Es, store_filled by lia. done.
Qed.

(** The sampled values are the probabilities of the sampled tokens; for an offset
    [row * vocab_size + k] the other outputs are the token at place [k] of the sorted row
    and its probability. *)
Lemma sampler_take_probs_exact v p i :
  length v = length samples -> length p = length positions -> length i = length positions ->
  sampler_take_probs probs sorted (map (fun s => Z.of_nat s.1) samples) (map (fun s => Z.of_nat s.2) samples)
    (map offset_of positions) (Z.of_nat V) (v, p, i) =
  Some (map (fun s => prob_at s.1 (Z.of_nat s.2)) samples, map (fun p => prob_at p.1 (index_at p)) positions,
        map index_at positions).
Proof.
  intros Hv Hp Hi. unfold sampler_take_probs. rewrite !length_map, seq_app, ofold_app. fold body.
  rewrite positions_loop by done. cbn [mbind option_bind Nat.add]. rewrite samples_loop by done.
  unfold fp, fi, fs. by rewrite !filled_all.
Qed.

(** With [sorted_values] of [argsort_probs] the probabilities are those of the sorted rows. *)
Lemma take_sorted_probs_exact : take_sorted_probs B V probs sorted = Some (table B V (fun i j => prob_at i (index_at (i, j)))).
Proof.
  apply te_compute2_table. intros i j Hi Hj. destruct (load_index (i, j)) as [E Hs]; [done|]. cbn [fst snd] in E. rewrite E.
  cbn [mbind option_bind]. by apply load_prob.
Qed.
End Exact.
End TakeProbs.
