(* ===== verification/Rope.v ===== *)
(** * Rotary position embeddings ([op/position_embedding.py])

    The frequency functions of the RoPE variants, their choice by the
    [rope_scaling] of a configuration, and the kernels that rotate the queries and
    keys of a fused [qkv] tensor by the positions of their tokens.  The
    iterations of a kernel are spatial: every element of the outputs is
    written once, so an output is a table.  RopeRelative.v has the theorems. *)

From stdpp Require Import base list gmap strings.
From S2P Require Import Prelude TirBuffer KernelArith.
Local Open Scope Z_scope.

(** The functions on [float] values that only the embeddings use; [to_f32] and
    [to_dtype] are the casts of the kernels. *)
Class TrigOps (F : Type) := {
  t_cos : F -> F; t_sin : F -> F; t_power : F -> F -> F; t_sqrt : F -> F;
  t_floor : F -> F; t_ceil : F -> F; t_min : F -> F -> F; t_neg : F -> F; t_pi : F;
  to_f32 : F -> F; to_dtype : F -> F }.

(** [config.rope_scaling]: its ["rope_type"] and its numbers. *)
Record RopeScaling (F : Type) : Type := mkRopeScaling { rope_type : option string; rope_params : gmap string F }.
Arguments mkRopeScaling {F}.
Arguments rope_type {F}.
Arguments rope_params {F}.

(** A tensor of three dimensions *)
Notation Tensor3 F := (list (list (list F))).

Section Rope.
Context {F : Type} `{KernelOps F} `{TrigOps F}.

Definition of_nat (n : nat) : F := k_of_Z (Z.of_nat n).

(** [tir.power(theta, d * 2 % d_range / tir.const(d_range, "float32"))] *)
Definition inv_base (theta : F) (d d_range : nat) : F :=
  t_power theta (k_div (of_nat (d * 2 mod d_range)) (of_nat d_range)).

(** The cosine and the sine of a frequency, as the given type *)
Definition cos_sin (cast : F -> F) (freq : F) : F * F := (cast (t_cos freq), cast (t_sin freq)).

Definition rope_freq_default (s : F) (d d_range : nat) (theta : F) (cast : F -> F) : F * F :=
  cos_sin cast (k_div s (inv_base theta d d_range)).

Definition rope_freq_gptj (s : F) (d d_range : nat) (theta : F) (cast : F -> F) : F * F :=
  cos_sin cast (k_div s (t_power theta (k_div (of_nat (2 * (d / 2) mod d_range)) (of_nat d_range)))).

Definition rope_freq_llama3 (factor low_freq_factor high_freq_factor original_max_position_embeddings : F)
    (s : F) (d d_range : nat) (theta : F) (cast : F -> F) : F * F :=
  let orig_freq := k_div k_one (inv_base theta d d_range) in
  let inv_diff_freq_factor := k_div k_one (k_sub high_freq_factor low_freq_factor) in
  let llama3_inv_scaling_factor := k_div k_one factor in
  let llama3_alpha := k_mul (k_div original_max_position_embeddings (k_mul (k_of_Z 2) t_pi)) inv_diff_freq_factor in
  let llama3_beta := k_mul low_freq_factor inv_diff_freq_factor in
  let smooth := k_max k_zero (t_min k_one (k_sub (k_mul llama3_alpha orig_freq) llama3_beta)) in
  let smoothed_freq := k_mul s (k_add (k_mul (k_mul (k_sub k_one smooth) orig_freq) llama3_inv_scaling_factor)
                                      (k_mul smooth orig_freq)) in
  cos_sin cast smoothed_freq.

Definition rope_freq_longrope (max_position_embeddings original_max_position_embeddings : F)
    (s : F) (d d_range : nat) (theta : F) (cast : F -> F) (ext_factors : option (list F)) : option (F * F) :=
  let scale := k_div max_position_embeddings original_max_position_embeddings in
  let scaling_factor :=
    if k_lt k_one scale then t_sqrt (k_add k_one (k_div (k_log scale) (k_log original_max_position_embeddings)))
    else k_one in
  let divisor := inv_base theta d d_range in
  divisor ← match ext_factors with
            | Some ext => e ← load1 ext (Z.of_nat (d mod (d_range / 2))); Some (k_mul e divisor)
            | None => Some divisor
            end;
  let freq := k_div s divisor in
  Some (cast (k_mul (t_cos freq) scaling_factor), cast (k_mul (t_sin freq) scaling_factor)).

Definition yarn_find_correction_dim (num_rotations : F) (d : nat) (theta max_position_embeddings : F) : F :=
  k_div (k_mul (of_nat d) (k_log (k_div max_position_embeddings (k_mul (k_mul num_rotations (k_of_Z 2)) t_pi))))
        (k_mul (k_of_Z 2) (k_log theta)).

Definition yarn_find_correction_range (low_rot high_rot : F) (d : nat) (theta max_position_embeddings : F) : F * F :=
  let low := t_floor (yarn_find_correction_dim low_rot d theta max_position_embeddings) in
  let high := t_ceil (yarn_find_correction_dim high_rot d theta max_position_embeddings) in
  (k_max low k_zero, t_min high (k_of_Z (Z.of_nat d - 1))).

(** [inv_freq_mask] *)
Definition yarn_inv_freq_mask (original_max_position_embeddings beta_fast beta_slow : F) (d : nat) (theta : F) : F :=
  let '(low, high) := yarn_find_correction_range beta_fast beta_slow d theta original_max_position_embeddings in
  let high := if k_eq low high then k_add high (k_dec 1 3) else high in
  k_sub k_one (to_f32 (k_max (t_min (k_div (k_sub (of_nat d) low) (k_sub high low)) k_one) k_zero)).

Definition rope_freq_yarn (original_max_position_embeddings scaling_factor beta_fast beta_slow : F)
    (s : F) (d d_range : nat) (theta : F) (cast : F -> F) : F * F :=
  let freq_extra := k_div k_one (inv_base theta d d_range) in
  let freq_inter := k_div k_one (inv_base (k_mul scaling_factor theta) d d_range) in
  let inv_freq_mask := yarn_inv_freq_mask original_max_position_embeddings beta_fast beta_slow d theta in
  let inv_freq := k_add (k_mul freq_inter (k_sub k_one inv_freq_mask)) (k_mul freq_extra inv_freq_mask) in
  cos_sin cast (k_mul s inv_freq).

(** What [switch_rope_freq_func] returns: only the function for longrope has the
    parameter [ext_factors]. *)
Definition FreqFunc : Type := F -> nat -> nat -> F -> (F -> F) -> option (list F) -> option (F * F).
Definition without_ext (f : F -> nat -> nat -> F -> (F -> F) -> F * F) : FreqFunc :=
  fun s d d_range theta cast ext => match ext with None => Some (f s d d_range theta cast) | Some _ => None end.

Definition param (rope_scaling : RopeScaling F) (k : string) : res F :=
  opt_res (rope_params rope_scaling !! k) (KeyError k).

Definition switch_rope_freq_func (rope_scaling : RopeScaling F) : res FreqFunc :=
  match rope_type rope_scaling with
  | None => Ok (without_ext rope_freq_default)
  | Some t =>
      if String.eqb t "gptj" then Ok (without_ext rope_freq_gptj)
      else if String.eqb t "llama3" then
        let? factor := param rope_scaling "factor" in
        let? low := param rope_scaling "low_freq_factor" in
        let? high := param rope_scaling "high_freq_factor" in
        let? orig := param rope_scaling "original_max_position_embeddings" in
        Ok (without_ext (rope_freq_llama3 factor low high orig))
      else if String.eqb t "longrope" then
        let? m := param rope_scaling "max_position_embeddings" in
        let? orig := param rope_scaling "original_max_position_embeddings" in
        Ok (rope_freq_longrope m orig)
      else if String.eqb t "yarn" then
        let? orig := param rope_scaling "original_max_position_embeddings" in
        let? factor := param rope_scaling "factor" in
        let? fast := param rope_scaling "beta_fast" in
        let? slow := param rope_scaling "beta_slow" in
        Ok (without_ext (rope_freq_yarn orig factor fast slow))
      else Raise (ValueError [Lit "Unsupported RoPE scaling type: "; FStr t])
  end.

(** ** The kernels *)

Definition at3 (x : Tensor3 F) (s h d : nat) : option F := m ← x !! s; r ← m !! h; r !! d.
Definition te_compute3 {A} (n m k : nat) (f : nat -> nat -> nat -> option A) : option (list (list (list A))) :=
  te_compute2 n m (fun i j => mapM (f i j) (seq 0 k)).

(** The element that the sine is multiplied with *)
Definition rotate_partner (gptj : bool) (rotary_dim : nat) (x : nat -> option F) (d : nat) : option F :=
  if gptj then (if (d mod 2 =? 0)%nat then y ← x (d + 1)%nat; Some (t_neg y) else x (d - 1)%nat)
  else (if (d <? rotary_dim / 2)%nat then y ← x (d + rotary_dim / 2)%nat; Some (t_neg y)
        else x (d - rotary_dim / 2)%nat).

(** [_rope] of [llama_rope_with_position_map], for the values [x] of a head at position [pos] *)
Definition rope_at (freq : FreqFunc) (gptj : bool) (theta scale : F) (rotary_dim : nat) (ext_factors : option (list F))
    (x : nat -> option F) (pos : Z) (d : nat) : option F :=
  '(cos_freq, sin_freq) ← freq (k_mul (k_of_Z pos) scale) d rotary_dim theta to_f32 ext_factors;
  a ← x d;
  b ← rotate_partner gptj rotary_dim x d;
  Some (to_dtype (k_add (k_mul cos_freq (to_f32 a)) (k_mul sin_freq (to_f32 b)))).

Section Kernel.
Context (theta scale : F) (head_dim num_q_heads num_kv_heads rotary_dim : nat).

(** The head [h] of [qkv] at the token [s], rotated or copied *)
Definition rope_head (freq : FreqFunc) (gptj rotate : bool) (ext_factors : option (list F)) (qkv : Tensor3 F)
    (position_map : list Z) (s h d : nat) : option F :=
  if rotate && (d <? rotary_dim)%nat then
    pos ← load1 position_map (Z.of_nat s);
    rope_at freq gptj theta scale rotary_dim ext_factors (at3 qkv s h) pos d
  else at3 qkv s h d.

(** [fused_rope]: the tables [q], [k] and [v] *)
Definition fused_rope (freq : FreqFunc) (gptj rotate : bool) (ext_factors : option (list F)) (qkv : Tensor3 F)
    (position_map : list Z) : option (Tensor3 F * Tensor3 F * Tensor3 F) :=
  let seq_len := length qkv in
  let head := rope_head freq gptj rotate ext_factors qkv position_map in
  q ← te_compute3 seq_len num_q_heads head_dim (fun s h d => head s h d);
  k ← te_compute3 seq_len num_kv_heads head_dim (fun s h d => head s (num_q_heads + h)%nat d);
  v ← te_compute3 seq_len num_kv_heads head_dim (fun s h d => at3 qkv s (num_q_heads + num_kv_heads + h)%nat d);
  Some (q, k, v).
End Kernel.

(** The kernel that is returned takes [apply_rope], for longrope [ext_factors]. *)
Inductive RopeKernel : Type :=
| PlainRope : (Tensor3 F -> list Z -> Z -> option (Tensor3 F * Tensor3 F * Tensor3 F)) -> RopeKernel
| LongRope : (Tensor3 F -> list Z -> list F -> option (Tensor3 F * Tensor3 F * Tensor3 F)) -> RopeKernel.

Definition llama_rope_with_position_map (theta scale : F) (head_dim num_q_heads num_kv_heads : nat)
    (rope_scaling : RopeScaling F) (rotary_dim : option nat) : res RopeKernel :=
  let rotary_dim := default head_dim rotary_dim in
  let scale := to_f32 scale in
  let? freq := switch_rope_freq_func rope_scaling in
  let type_is t := bool_decide (rope_type rope_scaling = Some t) in
  let kernel rotate ext := fused_rope theta scale head_dim num_q_heads num_kv_heads rotary_dim freq (type_is "gptj") rotate ext in
  Ok (if type_is "longrope" then LongRope (fun qkv position_map ext_factors => kernel true (Some ext_factors) qkv position_map)
      else PlainRope (fun qkv position_map apply_rope => kernel (0 <? apply_rope) None qkv position_map)).

(** [llama_rope] on one sequence of the batch: the positions follow those of the cache.  Its
    [_rope] reads [rope_scaling["rope_type"]] without a test; the value of the
    type of [qkv] that [dtype] stands for is cast to by [to_dtype]. *)
Definition rope_at_dtype (freq : FreqFunc) (gptj : bool) (theta scale : F) (rotary_dim : nat)
    (x : nat -> option F) (pos : Z) (d : nat) : option F :=
  '(cos_freq, sin_freq) ← freq (k_mul (k_of_Z pos) scale) d rotary_dim theta to_dtype None;
  a ← x d;
  b ← rotate_partner gptj rotary_dim x d;
  Some (k_add (k_mul cos_freq a) (k_mul sin_freq b)).

Definition llama_rope (theta scale : F) (num_q_heads num_kv_heads : nat) (rope_scaling : RopeScaling F)
    (rotary_dim : option nat) (fused_heads head_dim : nat)
    : res (Z -> list (Tensor3 F) -> option (list (Tensor3 F * Tensor3 F * Tensor3 F))) :=
  let? _ := py_assert (fused_heads =? num_q_heads + num_kv_heads * 2)%nat in
  let rotary_dim := default head_dim rotary_dim in
  let scale := to_dtype scale in
  let? freq := switch_rope_freq_func rope_scaling in
  let? t := opt_res (rope_type rope_scaling) (KeyError "rope_type") in
  Ok (fun total_seq_len qkv => mapM (fun x : Tensor3 F =>
    let head s h d :=
      if (d <? rotary_dim)%nat then
        rope_at_dtype freq (String.eqb t "gptj") theta scale rotary_dim (at3 x s h)
          (Z.of_nat s + (total_seq_len - Z.of_nat (length x))) d
      else at3 x s h d in
    q ← te_compute3 (length x) num_q_heads head_dim (fun s h d => head s h d);
    k ← te_compute3 (length x) num_kv_heads head_dim (fun s h d => head s (num_q_heads + h)%nat d);
    v ← te_compute3 (length x) num_kv_heads head_dim (fun s h d => at3 x s (num_q_heads + num_kv_heads + h)%nat d);
    Some (q, k, v)) qkv).

(** Without a ["rope_type"], the default variant, [llama_rope] raises. *)
Lemma llama_rope_default_raises theta scale nq nkv rope_scaling rotary_dim head_dim :
  rope_type rope_scaling = None ->
  llama_rope theta scale nq nkv rope_scaling rotary_dim (nq + nkv * 2) head_dim = Raise (KeyError "rope_type").
Proof.
  intros Ht. unfold llama_rope, switch_rope_freq_func. rewrite Ht, Nat.eqb_refl. done.
Qed.
End Rope.
