(* ===== verification/RopeRelative.v ===== *)
(** * Rotary embeddings are relative

    In exact arithmetic every frequency function is a rotation, by an angle that is
    proportional to the position and the same for the two elements that it mixes; so
    the score of a query and a key does not change when both positions are shifted.
    With the mask of YaRN, which is always one side of its ramp, this holds
    too, but because that variant is the default one for another base. *)

From Stdlib Require Import Reals Lra.
From stdpp Require Import base list gmap strings.
From S2P Require Import Prelude TirBuffer KernelArith Rope.
Local Open Scope R_scope.

#[export] Instance R_trig : TrigOps R := {
  t_cos := cos; t_sin := sin; t_power := Rpower; t_sqrt := sqrt;
  t_floor x := IZR (Int_part x); t_ceil x := - IZR (Int_part (- x)); t_min := Rmin; t_neg := Ropp; t_pi := PI;
  to_f32 x := x; to_dtype x := x }.

(** ** The YaRN frequencies *)

(** The two ends of the correction range, per dimension *)
Definition correction (rotations theta max_pos : R) : R := ln (max_pos / (rotations * 2 * PI)) / (2 * ln theta).

Lemma floor_spec x : t_floor x <= x < t_floor x + 1.
Proof. cbn [t_floor R_trig]. destruct (base_Int_part x). lra. Qed.

Lemma ceil_spec x : t_ceil x - 1 < x <= t_ceil x.
Proof. cbn [t_ceil R_trig]. destruct (base_Int_part (- x)). lra. Qed.

Lemma ln_le x y : 0 < x -> x <= y -> ln x <= ln y.
Proof. intros Hx [Hxy| ->]; [left; by apply ln_increasing|lra]. Qed.

Lemma div_ge_1 a b : 0 < b -> b <= a -> 1 <= a / b.
Proof. intros Hb Hab. apply Rmult_le_reg_r with b; [done|]. unfold Rdiv. rewrite Rmult_assoc, Rinv_l by lra. lra. Qed.

(** When the range of a rotary dimension begins before it, the ramp has ended. *)
Lemma ramp_ended d c1 c2 : (0 < d)%nat -> c1 < 1 -> 0 <= c2 -> c1 <= c2 ->
  let low := Rmax (t_floor (INR d * c1)) 0 in
  let high := Rmin (t_ceil (INR d * c2)) (INR d - 1) in
  let high := if Reqb low high then high + 1 / 10 ^ 3 else high in
  Rmax (Rmin ((INR d - low) / (high - low)) 1) 0 = 1.
Proof.
  intros Hd H1 H0 H12 low high. pose proof (lt_0_INR d Hd) as Hd0.
  assert (Hd1 : 1 <= INR d) by (apply (le_INR 1); lia).
  pose proof (floor_spec (INR d * c1)) as [Hf1 Hf2]. pose proof (ceil_spec (INR d * c2)) as [Hc1 Hc2].
  assert (Hlow : t_floor (INR d * c1) <= INR d - 1).
  { cbn [t_floor R_trig] in *. assert (Hlt : IZR (Int_part (INR d * c1)) < INR d) by nra.
    rewrite INR_IZR_INZ in Hlt |- *. apply lt_IZR in Hlt. rewrite <- minus_IZR. apply IZR_le. lia. }
  assert (Hlh : low <= high).
  { unfold low, high. apply Rmax_lub; apply Rmin_glb; try lra; nra. }
  assert (Hl1 : low <= INR d - 1) by (unfold low; apply Rmax_lub; lra).
  assert (Hh : high <= INR d - 1) by apply Rmin_r.
  cbv zeta. enough (Hge : 1 <= (INR d - low) / ((if Reqb low high then high + 1 / 10 ^ 3 else high) - low)).
  { rewrite Rmin_right by done. apply Rmax_left. lra. }
  destruct (Reqb_spec low high) as [E|E].
  - apply div_ge_1; lra.
  - assert (0 < high - low) by lra. apply div_ge_1; lra.
Qed.

(** The parameters of a sensible YaRN scaling *)
Definition yarn_params (theta max_pos factor beta_fast beta_slow : R) : Prop :=
  1 < theta /\ 0 < factor /\ 0 < beta_slow <= beta_fast /\ beta_slow * 2 * PI <= max_pos /\
  max_pos < beta_fast * 2 * PI * theta ^ 2.

Lemma correction_bounds theta max_pos factor beta_fast beta_slow : yarn_params theta max_pos factor beta_fast beta_slow ->
  correction beta_fast theta max_pos < 1 /\ 0 <= correction beta_slow theta max_pos /\
  correction beta_fast theta max_pos <= correction beta_slow theta max_pos.
Proof.
  intros (Ht & Hf & [Hs Hsf] & H1 & H2). pose proof PI_RGT_0 as Hpi. assert (Hln : 0 < ln theta) by (rewrite <- ln_1; apply ln_increasing; lra).
  assert (Hslow : 0 < beta_slow * 2 * PI) by nra. assert (Hfast : 0 < beta_fast * 2 * PI) by nra. assert (Hmax : 0 < max_pos) by lra.
  assert (Hinv : 0 < / (2 * ln theta)) by (apply Rinv_0_lt_compat; lra). unfold correction, Rdiv.
  split; [|split].
  - apply Rmult_lt_reg_r with (2 * ln theta); [lra|]. rewrite Rmult_assoc, Rinv_l, Rmult_1_r, Rmult_1_l by lra.
    replace (2 * ln theta) with (ln (theta ^ 2)) by (rewrite ln_pow by lra; cbn; lra). apply ln_increasing.
    + apply Rmult_lt_0_compat; [done|by apply Rinv_0_lt_compat].
    + apply Rmult_lt_reg_r with (beta_fast * 2 * PI); [done|]. rewrite Rmult_assoc, Rinv_l by lra. lra.
  - apply Rmult_le_pos; [|lra]. rewrite <- ln_1. apply ln_le; [lra|]. by apply (div_ge_1 max_pos (beta_slow * 2 * PI)).
  - apply Rmult_le_compat_r; [lra|]. apply ln_le.
    + apply Rmult_lt_0_compat; [done|by apply Rinv_0_lt_compat].
    + apply Rmult_le_compat_l; [lra|]. apply Rinv_le_contravar; [done|]. nra.
Qed.

Lemma of_nat_INR n : of_nat n = INR n.
Proof. unfold of_nat. cbn [k_of_Z R_kernel]. by rewrite INR_IZR_INZ. Qed.

Lemma inv_base_0 theta D : inv_base theta 0 D = 1.
Proof.
  unfold inv_base. cbn [t_power R_trig k_div R_kernel]. rewrite !of_nat_INR, Nat.mul_0_l, Nat.Div0.mod_0_l.
  cbn [INR]. unfold Rdiv. rewrite Rmult_0_l. unfold Rpower. rewrite Rmult_0_l. apply exp_0.
Qed.

(** Past the first dimension nothing is left of the unscaled frequencies. *)
Lemma mask_zero theta max_pos factor beta_fast beta_slow d : yarn_params theta max_pos factor beta_fast beta_slow ->
  (0 < d)%nat -> yarn_inv_freq_mask max_pos beta_fast beta_slow d theta = 0.
Proof.
  intros Hp Hd. destruct (correction_bounds _ _ _ _ _ Hp) as (H1 & H0 & H12).
  pose proof (ramp_ended d _ _ Hd H1 H0 H12) as Hr. cbv zeta in Hr.
  unfold yarn_inv_freq_mask, yarn_find_correction_range, yarn_find_correction_dim, k_one, k_zero.
  cbn [k_sub k_max k_mul k_div k_eq k_dec k_add k_of_Z k_log R_kernel to_f32 t_min t_pi R_trig]. rewrite !of_nat_INR.
  rewrite minus_IZR, <- INR_IZR_INZ. unfold correction, Rdiv in Hr |- *. rewrite <- !Rmult_assoc in Hr. rewrite Hr. lra.
Qed.

Lemma yarn_default theta max_pos factor beta_fast beta_slow s d D cast :
  yarn_params theta max_pos factor beta_fast beta_slow ->
  rope_freq_yarn max_pos factor beta_fast beta_slow s d D theta cast =
  rope_freq_default s d D (factor * theta) cast.
Proof.
  intros Hp. unfold rope_freq_yarn, rope_freq_default. f_equal. cbn [k_mul k_div k_add k_sub R_kernel].
  set (p := inv_base (factor * theta) d D). unfold k_one. cbn [k_of_Z R_kernel].
  destruct (Nat.eq_0_gt_0_cases d) as [->|Hd].
  - unfold p. rewrite !inv_base_0. field.
  - rewrite (mask_zero theta max_pos factor) by done. unfold Rdiv. ring.
Qed.

(** In exact arithmetic the YaRN variant of the frequencies is the default
    variant for the base [factor * theta], for every position and dimension: the
    correction range of a dimension is computed from the dimension itself, so the ramp
    between the two kinds of frequencies is over before it begins. *)
Theorem yarn_is_default theta max_pos factor beta_fast beta_slow s d D cast :
  yarn_params theta max_pos factor beta_fast beta_slow ->
  rope_freq_yarn max_pos factor beta_fast beta_slow s d D theta cast =
  rope_freq_default s d D (factor * theta) cast.
Proof. apply yarn_default. Qed.

(** The hypotheses hold for the parameters of DeepSeek-V2. *)
Lemma yarn_is_default_witness :
  rope_freq_yarn 4096 40 32 1 7 5 64 10000 (fun x => x) = rope_freq_default 7 5 64 (40 * 10000) (fun x => x).
Proof.
  apply (yarn_is_default 10000 4096 40 32 1 7 5 64 (fun x => x)).
  pose proof PI_RGT_0. pose proof PI_4. pose proof PI2_3_2. unfold yarn_params. repeat split; lra.
Defined.

(** ** Rotations *)

(** A frequency function rotates dimension [d] of the position [s] by [s * w d],
    and scales it by [c]. *)
Definition rotates (freq : FreqFunc) (D : nat) (theta : R) (ext : option (list R)) (c : R) (w : nat -> R) : Prop :=
  forall s d, (d < D)%nat -> freq s d D theta to_f32 ext = Some (c * cos (s * w d), c * sin (s * w d)).

(** The dimension that a dimension is mixed with *)
Definition partner (gptj : bool) (D d : nat) : nat :=
  if gptj then (if d mod 2 =? 0 then d + 1 else d - 1)%nat else (if d <? D / 2 then d + D / 2 else d - D / 2)%nat.
Definition is_first (gptj : bool) (D d : nat) : bool := if gptj then (d mod 2 =? 0)%nat else (d <? D / 2)%nat.

Definition paired (gptj : bool) (D : nat) (w : nat -> R) : Prop := forall d, (d < D)%nat -> w (partner gptj D d) = w d.

(** The first dimension of pair [i] of [m] *)
Definition first_of (gptj : bool) (i : nat) : nat := if gptj then (2 * i)%nat else i.

Lemma first_of_pair gptj m i : (i < m)%nat ->
  is_first gptj (2 * m) (first_of gptj i) = true /\
  is_first gptj (2 * m) (partner gptj (2 * m) (first_of gptj i)) = false /\
  partner gptj (2 * m) (partner gptj (2 * m) (first_of gptj i)) = first_of gptj i /\
  (first_of gptj i < 2 * m)%nat /\ (partner gptj (2 * m) (first_of gptj i) < 2 * m)%nat.
Proof.
  intros Hi. unfold is_first, partner, first_of. destruct gptj.
  - assert (E1 : ((2 * i) mod 2 = 0)%nat) by (rewrite Nat.mul_comm; apply Nat.Div0.mod_mul).
    assert (E2 : ((2 * i + 1) mod 2 = 1)%nat) by (rewrite Nat.add_comm, Nat.mul_comm, Nat.Div0.mod_add; done).
    rewrite E1. cbn [Nat.eqb]. rewrite E2. cbn [Nat.eqb]. repeat split; lia.
  - rewrite (Nat.mul_comm 2 m), Nat.div_mul by lia. rewrite (proj2 (Nat.ltb_lt i m)) by done.
    rewrite (proj2 (Nat.ltb_ge (i + m) m)) by lia. repeat split; lia.
Qed.

(** A sum over the dimensions, pair by pair *)
Lemma sum_pairs gptj m (g : nat -> R) :
  Rsum (map g (seq 0 (2 * m))) =
  Rsum (map (fun i => g (first_of gptj i) + g (partner gptj (2 * m) (first_of gptj i))) (seq 0 m)).
Proof.
  destruct gptj.
  - induction m as [|m IH]; [done|]. replace (2 * S m)%nat with (2 * m + 2)%nat by lia. rewrite seq_app, map_app, Rsum_app, IH.
    rewrite (seq_S m 0), map_app, Rsum_app. apply (f_equal2 Rplus).
    + apply Rsum_ext. intros i _. unfold partner, first_of. done.
    + cbn [seq map Nat.add]. unfold partner, first_of, Rsum. cbn [fold_right].
      replace ((2 * m) mod 2)%nat with O by (rewrite Nat.mul_comm; symmetry; apply Nat.Div0.mod_mul). cbn [Nat.eqb].
      replace (2 * m + 1)%nat with (S (2 * m)) by lia. lra.
  - rewrite Rsum_plus. replace (2 * m)%nat with (m + m)%nat at 1 by lia. rewrite seq_app, map_app, Rsum_app. apply (f_equal2 Rplus); [done|].
    rewrite <- (Nat.add_0_r (0 + m)), <- fmap_add_seq. 
    change (map g (Nat.add (0 + m) <$> seq 0 m)) with (map g (map (Nat.add m) (seq 0 m))). rewrite map_map.
    apply Rsum_ext. intros i [_ Hi]%in_seq. unfold partner, first_of. rewrite (Nat.mul_comm 2 m), Nat.div_mul by lia.
    rewrite (proj2 (Nat.ltb_lt _ _)) by lia. f_equal. lia.
Qed.

(** A head [x] at the (scaled) position [p], rotated *)
Definition rotated (gptj : bool) (D : nat) (c : R) (w : nat -> R) (x : nat -> R) (p : R) (d : nat) : R :=
  c * cos (p * w d) * x d +
  c * sin (p * w d) * (if is_first gptj D d then - x (partner gptj D d) else x (partner gptj D d)).

(** What the score of two heads depends on *)
Definition pair_score (gptj : bool) (D : nat) (c : R) (w x y : nat -> R) (delta : R) (d : nat) : R :=
  let d' := partner gptj D d in
  c * c * (cos (delta * w d) * (x d * y d + x d' * y d') + sin (delta * w d) * (x d * y d' - x d' * y d)).

Lemma rotated_pair gptj m c w x y p q i : paired gptj (2 * m) w -> (i < m)%nat ->
  let d := first_of gptj i in let d' := partner gptj (2 * m) d in
  rotated gptj (2 * m) c w x p d * rotated gptj (2 * m) c w y q d +
  rotated gptj (2 * m) c w x p d' * rotated gptj (2 * m) c w y q d' =
  pair_score gptj (2 * m) c w x y (p - q) d.
Proof.
  intros Hw Hi d d'. destruct (first_of_pair gptj m i Hi) as (H1 & H2 & H3 & H4 & H5). fold d in H1, H2, H3, H4, H5. fold d' in H2, H3, H5.
  pose proof (Hw d H4) as Hwd. fold d' in Hwd. unfold rotated, pair_score. fold d'. rewrite H1, H2, H3, Hwd.
  rewrite Rmult_minus_distr_r, cos_minus, sin_minus. ring.
Qed.

(** The score of two rotated heads depends on the difference of their positions. *)
Lemma rotated_score gptj m c w x y p q : paired gptj (2 * m) w ->
  Rsum (map (fun d => rotated gptj (2 * m) c w x p d * rotated gptj (2 * m) c w y q d) (seq 0 (2 * m))) =
  Rsum (map (fun i => pair_score gptj (2 * m) c w x y (p - q) (first_of gptj i)) (seq 0 m)).
Proof.
  intros Hw. rewrite (sum_pairs gptj). apply Rsum_ext. intros i [_ Hi]%in_seq. by apply rotated_pair.
Qed.

(** ** The frequency functions rotate *)

Lemma double_mod m d : (d < m)%nat -> ((d + m) * 2 mod (2 * m) = d * 2 mod (2 * m))%nat.
Proof. intros Hd. replace ((d + m) * 2)%nat with (d * 2 + 1 * (2 * m))%nat by lia. apply Nat.Div0.mod_add. Qed.

(** What depends on [d] through [d * 2 % d_range] is the same for a pair. *)
Lemma paired_mod m (w : nat -> R) : paired false (2 * m) (fun d => w (d * 2 mod (2 * m))%nat).
Proof.
  intros d Hd. unfold partner. rewrite (Nat.mul_comm 2 m), Nat.div_mul by lia. rewrite (Nat.mul_comm m 2).
  destruct (Nat.ltb_spec d m).
  - by rewrite double_mod.
  - rewrite <- (double_mod m (d - m)) by lia. do 3 f_equal. lia.
Qed.

Definition inverse_base (theta : R) (m k : nat) : R := / Rpower theta (INR k / INR (2 * m)).

Lemma inv_base_inverse theta m d : / inv_base theta d (2 * m) = inverse_base theta m (d * 2 mod (2 * m)).
Proof. unfold inv_base, inverse_base. cbn [t_power R_trig k_div R_kernel]. by rewrite !of_nat_INR. Qed.

Lemma default_rotates theta m : rotates (without_ext rope_freq_default) (2 * m) theta None 1
  (fun d => inverse_base theta m (d * 2 mod (2 * m))).
Proof.
  intros s d _. unfold without_ext, rope_freq_default, cos_sin. cbn [k_div R_kernel t_cos t_sin to_f32 R_trig].
  unfold Rdiv. by rewrite inv_base_inverse, !Rmult_1_l.
Qed.

Lemma gptj_rotates theta m : rotates (without_ext rope_freq_gptj) (2 * m) theta None 1
  (fun d => inverse_base theta m (2 * (d / 2) mod (2 * m))).
Proof.
  intros s d _. unfold without_ext, rope_freq_gptj, cos_sin. cbn [k_div R_kernel t_cos t_sin t_power to_f32 R_trig].
  rewrite !of_nat_INR, !Rmult_1_l. done.
Qed.

Lemma paired_gptj m (w : nat -> R) : paired true (2 * m) (fun d => w (2 * (d / 2) mod (2 * m))%nat).
Proof.
  intros d Hd. unfold partner. f_equal. f_equal. f_equal. pose proof (Nat.div_mod_eq d 2) as E. pose proof (Nat.mod_upper_bound d 2).
  destruct (Nat.eqb_spec (d mod 2) 0) as [E0|E0].
  - rewrite E, E0, Nat.add_0_r, Nat.mul_comm, Nat.div_add_l, Nat.div_mul by lia. cbn. lia.
  - assert (d mod 2 = 1)%nat as E1 by lia. rewrite E, E1 at 1. rewrite Nat.add_sub, Nat.mul_comm, Nat.div_mul by lia. done.
Qed.

Lemma llama3_rotates factor low high orig theta m :
  exists w, rotates (without_ext (rope_freq_llama3 factor low high orig)) (2 * m) theta None 1 w /\ paired false (2 * m) w.
Proof.
  set (W := fun o : R =>
    let inv_diff := 1 / (high - low) in
    let smooth := Rmax 0 (Rmin 1 (orig / (2 * PI) * inv_diff * o - low * inv_diff)) in
    (1 - smooth) * o * (1 / factor) + smooth * o).
  exists (fun d => W (inverse_base theta m (d * 2 mod (2 * m)))). split; [|apply (paired_mod m (fun k => W (inverse_base theta m k)))].
  intros s d _. rewrite <- inv_base_inverse, !Rmult_1_l.
  replace (/ inv_base theta d (2 * m)) with (k_div k_one (inv_base theta d (2 * m))); [done|].
  unfold k_one. cbn [k_div k_of_Z R_kernel]. apply Rmult_1_l.
Qed.

Lemma longrope_rotates max_pos orig theta m ext : (m <= length ext)%nat ->
  exists c w, rotates (rope_freq_longrope max_pos orig) (2 * m) theta (Some ext) c w /\ paired false (2 * m) w.
Proof.
  intros Hext.
  set (c := if k_lt k_one (max_pos / orig) then sqrt (1 + ln (max_pos / orig) / ln orig) else 1).
  set (w := fun d => / (default 0 (ext !! (d mod m)%nat) * / inverse_base theta m (d * 2 mod (2 * m)))).
  exists c, w. split.
  - intros s d Hd. unfold rope_freq_longrope. rewrite (Nat.mul_comm 2 m), Nat.div_mul, (Nat.mul_comm m 2) by lia.
    destruct (lookup_lt_is_Some_2 ext (d mod m)) as [e He]; [pose proof (Nat.mod_upper_bound d m); lia|].
    rewrite load_lookup, He. cbn [mbind option_bind k_div k_mul k_sub k_add k_log R_kernel t_cos t_sin t_sqrt to_f32 R_trig].
    assert (Ew : s * w d = s / (e * inv_base theta d (2 * m))).
    { unfold w. rewrite He, <- inv_base_inverse, Rinv_inv. done. }
    rewrite Ew. unfold c. do 2 f_equal; apply Rmult_comm.
  - intros d Hd. unfold w. f_equal. f_equal; [|f_equal; exact (paired_mod m (inverse_base theta m) d Hd)].
    do 2 f_equal. unfold partner. rewrite (Nat.mul_comm 2 m), Nat.div_mul by lia. destruct (Nat.ltb_spec d m).
    + replace (d + m)%nat with (d + 1 * m)%nat by lia. apply Nat.Div0.mod_add.
    + replace d with (d - m + 1 * m)%nat at 2 by lia. symmetry. apply Nat.Div0.mod_add.
Qed.

Lemma yarn_rotates max_pos factor beta_fast beta_slow theta m : yarn_params theta max_pos factor beta_fast beta_slow ->
  rotates (without_ext (rope_freq_yarn max_pos factor beta_fast beta_slow)) (2 * m) theta None 1
    (fun d => inverse_base (factor * theta) m (d * 2 mod (2 * m))).
Proof.
  intros Hp s d Hd. pose proof (default_rotates (factor * theta) m s d Hd) as Hr. unfold without_ext in *.
  by rewrite yarn_default.
Qed.

(** What a scaling needs: sensible numbers for YaRN, enough factors for longrope *)
Definition good_scaling (rope_scaling : RopeScaling R) (theta : R) (m : nat) (ext : option (list R)) : Prop :=
  match rope_type rope_scaling with
  | Some "longrope" => exists e, ext = Some e /\ (m <= length e)%nat
  | Some "yarn" => ext = None /\ forall max_pos factor fast slow,
      rope_params rope_scaling !! "original_max_position_embeddings" = Some max_pos ->
      rope_params rope_scaling !! "factor" = Some factor ->
      rope_params rope_scaling !! "beta_fast" = Some fast -> rope_params rope_scaling !! "beta_slow" = Some slow ->
      yarn_params theta max_pos factor fast slow
  | _ => ext = None
  end%string.

Definition is_gptj (rope_scaling : RopeScaling R) : bool := bool_decide (rope_type rope_scaling = Some "gptj"%string).

Lemma param_ok (sc : RopeScaling R) k v : param sc k = Ok v -> rope_params sc !! k = Some v.
Proof. unfold param, opt_res. destruct (_ !! _); [by intros [= ->]|done]. Qed.

(** Every function that is chosen rotates. *)
Lemma switch_rotates sc freq theta m ext : switch_rope_freq_func sc = Ok freq -> good_scaling sc theta m ext ->
  exists c w, rotates freq (2 * m) theta ext c w /\ paired (is_gptj sc) (2 * m) w.
Proof.
  unfold switch_rope_freq_func, good_scaling, is_gptj. destruct (rope_type sc) as [t|].
  2:{ intros [= <-] ->. exists 1. eexists. split; [apply default_rotates|apply (paired_mod m (inverse_base theta m))]. }
  destruct (String.eqb_spec t "gptj") as [->|Hg].
  { intros [= <-] ->. exists 1. eexists. split; [apply gptj_rotates|apply (paired_gptj m (inverse_base theta m))]. }
  rewrite bool_decide_false by congruence.
  destruct (String.eqb_spec t "llama3") as [->|Hl].
  { intros Hs ->. inv_ok. exists 1. apply llama3_rotates. }
  destruct (String.eqb_spec t "longrope") as [->|Hr].
  { intros Hs (e & -> & He). inv_ok. by apply longrope_rotates. }
  destruct (String.eqb_spec t "yarn") as [->|Hy]; [|done].
  intros Hs [-> Hp]. inv_ok. exists 1. eexists. split; [apply yarn_rotates, Hp; by apply param_ok|].
  match goal with |- context [inverse_base ?b m] => apply (paired_mod m (inverse_base b m)) end.
Qed.

(** ** The kernels rotate *)

Section Kernel.
Context (freq : FreqFunc (F := R)) (gptj : bool) (theta scale : R) (m head_dim num_q_heads num_kv_heads : nat).
Context (ext : option (list R)) (c : R) (w : nat -> R).
Hypothesis Hrot : rotates freq (2 * m) theta ext c w.
Hypothesis Hpair : paired gptj (2 * m) w.
Hypothesis Hdim : (2 * m <= head_dim)%nat.

(** [qkv] has the shape [(seq_len, fused_heads, head_dim)]. *)
Definition qkv_shape (qkv : Tensor3 R) : Prop :=
  Forall (matrix (num_q_heads + num_kv_heads * 2) head_dim) qkv.

Definition x_at (qkv : Tensor3 R) (s h d : nat) : R := default 0 (at3 qkv s h d).
Definition pos_at (position_map : list Z) (s : nat) : R := IZR (default 0%Z (position_map !! s)).

(** The head [h] of the token [s] after the kernel *)
Definition head_after (rotate : bool) (qkv : Tensor3 R) (position_map : list Z) (s h d : nat) : R :=
  if rotate && (d <? 2 * m)%nat then rotated gptj (2 * m) c w (x_at qkv s h) (pos_at position_map s * scale) d
  else x_at qkv s h d.

Definition table3 (n k l : nat) (g : nat -> nat -> nat -> R) : Tensor3 R := table n k (fun i j => map (g i j) (seq 0 l)).

Lemma te_compute3_table n k l (f : nat -> nat -> nat -> option R) g :
  (forall i j d, (i < n)%nat -> (j < k)%nat -> (d < l)%nat -> f i j d = Some (g i j d)) ->
  te_compute3 n k l f = Some (table3 n k l g).
Proof.
  intros Hf. apply te_compute2_table. intros i j Hi Hj. apply mapM_Some'. intros d [_ Hd]%in_seq. by apply Hf.
Qed.

Lemma at3_table3 n k l g i j d : (i < n)%nat -> (j < k)%nat -> (d < l)%nat -> at3 (table3 n k l g) i j d = Some (g i j d).
Proof.
  intros Hi Hj Hd. assert (E : at3 (table3 n k l g) i j d = r ← at2 (table3 n k l g) i j; r !! d).
  { unfold at3, at2. by destruct (table3 n k l g !! i). }
  rewrite E. unfold table3. rewrite at2_table by done. cbn [mbind option_bind]. apply lookup_map_Some. by apply lookup_seq.
Qed.

Lemma at3_x qkv s h d : qkv_shape qkv -> (s < length qkv)%nat -> (h < num_q_heads + num_kv_heads * 2)%nat -> (d < head_dim)%nat ->
  at3 qkv s h d = Some (x_at qkv s h d).
Proof.
  intros Hq Hs Hh Hd. unfold x_at, at3. destruct (lookup_lt_is_Some_2 qkv s Hs) as [x Hx]. rewrite Hx. cbn [mbind option_bind].
  pose proof (Forall_lookup_1 _ _ _ _ Hq Hx) as Hm. destruct (matrix_row _ _ x h Hm Hh) as (r & Hr & Hl). rewrite Hr. cbn [mbind option_bind].
  by destruct (lookup_lt_is_Some_2 r d) as [v ->]; [lia|].
Qed.

Lemma partner_bound d : (d < 2 * m)%nat -> (partner gptj (2 * m) d < 2 * m)%nat.
Proof.
  intros Hd. unfold partner. rewrite (Nat.mul_comm 2 m), Nat.div_mul by lia. destruct gptj.
  - destruct (Nat.eqb_spec (d mod 2) 0) as [E|E]; [|lia]. pose proof (Nat.div_mod_eq d 2). lia.
  - destruct (Nat.ltb_spec d m); lia.
Qed.

Lemma rope_head_exact rotate qkv position_map s h d : qkv_shape qkv -> length position_map = length qkv ->
  (s < length qkv)%nat -> (h < num_q_heads + num_kv_heads * 2)%nat -> (d < head_dim)%nat ->
  rope_head theta scale (2 * m) freq gptj rotate ext qkv position_map s h d = Some (head_after rotate qkv position_map s h d).
Proof.
  intros Hq Hp Hs Hh Hd. unfold rope_head, head_after. destruct rotate; cbn [andb]; [|by apply at3_x].
  destruct (Nat.ltb_spec d (2 * m)) as [Hdm|]; [|by apply at3_x].
  rewrite load_lookup. unfold pos_at. destruct (lookup_lt_is_Some_2 position_map s) as [p Hpos]; [lia|]. rewrite Hpos.
  cbn [mbind option_bind default Datatypes.id]. unfold rope_at. rewrite Hrot by done. cbn [mbind option_bind].
  rewrite at3_x by done. cbn [mbind option_bind].
  assert (Hpart : rotate_partner gptj (2 * m) (at3 qkv s h) d =
    Some (if is_first gptj (2 * m) d then - x_at qkv s h (partner gptj (2 * m) d) else x_at qkv s h (partner gptj (2 * m) d))).
  { pose proof (partner_bound d Hdm). unfold rotate_partner, is_first, partner in *. destruct gptj.
    - destruct (_ =? 0)%nat; rewrite at3_x by (done || lia); done.
    - destruct (_ <? _)%nat; rewrite at3_x by (done || lia); done. }
  by rewrite Hpart.
Qed.

Lemma fused_rope_exact rotate qkv position_map : qkv_shape qkv -> length position_map = length qkv ->
  fused_rope theta scale head_dim num_q_heads num_kv_heads (2 * m) freq gptj rotate ext qkv position_map =
  Some (table3 (length qkv) num_q_heads head_dim (fun s h d => head_after rotate qkv position_map s h d),
        table3 (length qkv) num_kv_heads head_dim (fun s h d => head_after rotate qkv position_map s (num_q_heads + h) d),
        table3 (length qkv) num_kv_heads head_dim (fun s h d => x_at qkv s (num_q_heads + num_kv_heads + h) d)).
Proof.
  intros Hq Hp. unfold fused_rope.
  set (head := rope_head theta scale (2 * m) freq gptj rotate ext qkv position_map).
  assert (Hhead : forall s h d, (s < length qkv)%nat -> (h < num_q_heads + num_kv_heads * 2)%nat -> (d < head_dim)%nat ->
    head s h d = Some (head_after rotate qkv position_map s h d)) by (intros; by apply rope_head_exact).
  rewrite (te_compute3_table _ num_q_heads _ (fun s h d => head s h d) (fun s h d => head_after rotate qkv position_map s h d))
    by (intros; apply Hhead; lia). cbn [mbind option_bind].
  rewrite (te_compute3_table _ num_kv_heads _ (fun s h d => head s (num_q_heads + h)%nat d)
    (fun s h d => head_after rotate qkv position_map s (num_q_heads + h) d)) by (intros; apply Hhead; lia). cbn [mbind option_bind].
  rewrite (te_compute3_table _ num_kv_heads _ _ (fun s h d => x_at qkv s (num_q_heads + num_kv_heads + h) d))
    by (intros; apply at3_x; (done || lia)). done.
Qed.

(** The score of head [h1] of the queries at token [s1] and head [h2] of the keys at token [s2] *)
Definition score (q k : Tensor3 R) (s1 h1 s2 h2 : nat) : R :=
  Rsum (map (fun d => default 0 (at3 q s1 h1 d) * default 0 (at3 k s2 h2 d)) (seq 0 head_dim)).

(** The scores after the kernel *)
Definition head_score (rotate : bool) (qkv : Tensor3 R) (position_map : list Z) (s1 h1 s2 h2 : nat) : R :=
  Rsum (map (fun d => head_after rotate qkv position_map s1 h1 d * head_after rotate qkv position_map s2 h2 d) (seq 0 head_dim)).

Lemma head_score_shift rotate qkv position_map t s1 h1 s2 h2 : length position_map = length qkv ->
  (s1 < length qkv)%nat -> (s2 < length qkv)%nat ->
  head_score rotate qkv (map (Z.add t) position_map) s1 h1 s2 h2 = head_score rotate qkv position_map s1 h1 s2 h2.
Proof.
  intros Hp H1 H2. unfold head_score. replace head_dim with (2 * m + (head_dim - 2 * m))%nat by lia.
  rewrite seq_app, !map_app, !Rsum_app. apply (f_equal2 Rplus).
  2:{ apply Rsum_ext. intros d [Hd _]%in_seq. unfold head_after. rewrite (proj2 (Nat.ltb_ge _ _)) by lia. by rewrite !andb_false_r. }
  destruct rotate; [|by apply Rsum_ext].
  assert (Hpos : forall s, (s < length qkv)%nat -> pos_at (map (Z.add t) position_map) s = IZR t + pos_at position_map s).
  { intros s Hs. unfold pos_at. destruct (lookup_lt_is_Some_2 position_map s) as [p E]; [lia|].
    rewrite (lookup_map_Some _ _ _ _ E), E. cbn [default Datatypes.id]. apply plus_IZR. }
  assert (Hsum : forall pm, Rsum (map (fun d => head_after true qkv pm s1 h1 d * head_after true qkv pm s2 h2 d) (seq 0 (2 * m))) =
    Rsum (map (fun i => pair_score gptj (2 * m) c w (x_at qkv s1 h1) (x_at qkv s2 h2)
      (pos_at pm s1 * scale - pos_at pm s2 * scale) (first_of gptj i)) (seq 0 m))).
  { intros pm. rewrite <- rotated_score by done. apply Rsum_ext. intros d [_ Hd]%in_seq. unfold head_after.
    by rewrite (proj2 (Nat.ltb_lt _ _)) by lia. }
  rewrite !Hsum, !Hpos by done. apply Rsum_ext. intros i _. f_equal. lra.
Qed.
End Kernel.

(** A kernel with the arguments that it takes *)
Definition run_rope (kernel : RopeKernel (F := R)) (apply_rope : Z) (ext_factors : list R) (qkv : Tensor3 R) (position_map : list Z)
    : option (Tensor3 R * Tensor3 R * Tensor3 R) :=
  match kernel with
  | PlainRope f => f qkv position_map apply_rope
  | LongRope f => f qkv position_map ext_factors
  end.

Definition ext_of (rope_scaling : RopeScaling R) (ext_factors : list R) : option (list R) :=
  if bool_decide (rope_type rope_scaling = Some "longrope"%string) then Some ext_factors else None.

Lemma kernel_is theta scale head_dim nq nkv sc rotary kernel : 
  llama_rope_with_position_map theta scale head_dim nq nkv sc rotary = Ok kernel ->
  exists freq, switch_rope_freq_func sc = Ok freq /\
    forall apply_rope ext, exists rotate, forall qkv pm, run_rope kernel apply_rope ext qkv pm =
      fused_rope theta scale head_dim nq nkv (default head_dim rotary) freq (is_gptj sc) rotate (ext_of sc ext) qkv pm.
Proof.
  unfold llama_rope_with_position_map. intros Hk. inv_ok. eexists. split; [done|]. intros apply_rope ext. unfold ext_of, is_gptj.
  case_bool_decide; [by exists true|by exists (0 <? apply_rope)%Z].
Qed.

(** C10: in exact arithmetic the kernels of [llama_rope_with_position_map] are
    relative: for every scaling that [switch_rope_freq_func] accepts, with sensible numbers
    ([good_scaling]) and an even rotary dimension within the head,
    shifting the positions of all tokens leaves the values as they are and every score
    of a rotated query with a rotated key, of any two tokens and heads. *)
Theorem rope_scores_relative theta scale head_dim num_q_heads num_kv_heads rope_scaling rotary_dim m kernel
    apply_rope ext_factors qkv position_map t :
  llama_rope_with_position_map theta scale head_dim num_q_heads num_kv_heads rope_scaling rotary_dim = Ok kernel ->
  default head_dim rotary_dim = (2 * m)%nat -> (2 * m <= head_dim)%nat ->
  good_scaling rope_scaling theta m (ext_of rope_scaling ext_factors) ->
  qkv_shape head_dim num_q_heads num_kv_heads qkv -> length position_map = length qkv ->
  exists q k v q' k',
    run_rope kernel apply_rope ext_factors qkv position_map = Some (q, k, v) /\
    run_rope kernel apply_rope ext_factors qkv (map (Z.add t) position_map) = Some (q', k', v) /\
    forall s1 h1 s2 h2, (s1 < length qkv)%nat -> (h1 < num_q_heads)%nat -> (s2 < length qkv)%nat -> (h2 < num_kv_heads)%nat ->
      score head_dim q' k' s1 h1 s2 h2 = score head_dim q k s1 h1 s2 h2.
Proof.
  intros Hk Hd Hle Hgood Hq Hp. destruct (kernel_is _ _ _ _ _ _ _ _ Hk) as (freq & Hf & Hrun).
  destruct (switch_rotates rope_scaling freq theta m _ Hf Hgood) as (c & w & Hrot & Hpair).
  destruct (Hrun apply_rope ext_factors) as [rotate Hr]. rewrite !Hr, Hd.
  rewrite !(fused_rope_exact freq (is_gptj rope_scaling) theta scale m head_dim num_q_heads num_kv_heads _ c w)
    by (done || by rewrite length_map).
  do 5 eexists. split; [done|]. split; [done|]. intros s1 h1 s2 h2 H1 Hh1 H2 Hh2.
  pose proof (head_score_shift (is_gptj rope_scaling) scale m head_dim c w Hpair Hle rotate qkv position_map t s1 h1 s2
    (num_q_heads + h2) Hp H1 H2) as Hs.
  unfold score, head_score in *. etransitivity; [|etransitivity; [exact Hs|symmetry]];
    apply Rsum_ext; intros d [_ Hdd]%in_seq; by rewrite !at3_table3 by (done || lia).
Qed.

(** The hypotheses hold for one query and one key head and two tokens, with YaRN scaling. *)
Definition yarn_scaling : RopeScaling R := mkRopeScaling (Some "yarn"%string)
  (<["original_max_position_embeddings"%string := 4096]> (<["factor"%string := 40]>
    (<["beta_fast"%string := 32]> (<["beta_slow"%string := 1]> ∅)))).

Lemma rope_scores_relative_witness : exists kernel,
  llama_rope_with_position_map 10000 1 2 1 1 yarn_scaling None = Ok kernel /\
  exists q k v q' k',
    run_rope kernel 1 [] [[[1; 2]; [3; 4]; [5; 6]]; [[1; 0]; [0; 1]; [7; 8]]] [0; 5]%Z = Some (q, k, v) /\
    run_rope kernel 1 [] [[[1; 2]; [3; 4]; [5; 6]]; [[1; 0]; [0; 1]; [7; 8]]] (map (Z.add 100) [0; 5]%Z) = Some (q', k', v) /\
    forall s1 h1 s2 h2, (s1 < 2)%nat -> (h1 < 1)%nat -> (s2 < 2)%nat -> (h2 < 1)%nat ->
      score 2 q' k' s1 h1 s2 h2 = score 2 q k s1 h1 s2 h2.
Proof.
  eexists. split; [reflexivity|].
  apply (rope_scores_relative 10000 1 2 1 1 yarn_scaling None 1 _ 1 []
    [[[1; 2]; [3; 4]; [5; 6]]; [[1; 0]; [0; 1]; [7; 8]]] [0; 5]%Z 100); try reflexivity; try lia.
  - split; [done|]. intros max_pos factor fast slow H1 H2 H3 H4. vm_compute in H1, H2, H3, H4.
    injection H1 as <-. injection H2 as <-. injection H3 as <-. injection H4 as <-.
    pose proof PI_RGT_0. pose proof PI_4. pose proof PI2_3_2. unfold yarn_params. repeat split; lra.
  - by repeat constructor.
Defined.
