(* ===== verification/MoeGating.v ===== *)
(** * Choosing the experts of a token

    The gating kernels of [op/moe_misc.py]: the top-k kernel and its softmax
    variant, the group-limited selection and the weighted sum over the chosen
    experts.  The scores are of a type whose comparison is a parameter with
    the laws of a float comparison ([ScoreLaws]); [binary_scores] is the
    instance for IEEE floats. *)

From Stdlib Require Import SpecFloat Sorting.Sorted.
From stdpp Require Import base list sorting.
From S2P Require Import Prelude TirBuffer.
Local Open Scope Z_scope.

(** ** Scores *)

Class ScoreOps (V : Type) := {
  score_gt : V -> V -> bool;      (* [a > b] *)
  score_min : V;                  (* [T.min_value(dtype)] *)
}.

(** A NaN compares false with everything; the scores above the minimum are
    weakly ordered. *)
Class ScoreLaws (V : Type) `{ScoreOps V} := {
  gt_irrefl : forall a, score_gt a a = false;
  gt_trans : forall a b c, score_gt a b = true -> score_gt b c = true -> score_gt a c = true;
  gt_cotrans : forall a b c, score_gt a b = true -> score_gt c score_min = true ->
    score_gt a c = true \/ score_gt c b = true;
}.

Section Gating.
Context {V : Type} `{ScoreLaws V}.

(** ** The top-k kernel *)

(** The buffers of one thread. *)
Record Local := MkLocal { local_top_k : list V; local_top_k_index : list Z }.

(** The second loop stores at index -1, outside the buffer. *)
Definition gating_topk_init (k_val : nat) (s : Local) : option Local :=
  top ← ofold (fun t b => store b (Z.of_nat t) score_min) (seq 0 k_val) (local_top_k s);
  Some (MkLocal top
          (fold_left (fun b t => stray_store b (-1) (Z.of_nat t)) (seq 0 k_val) (local_top_k_index s))).

(** [b[j] = b[j - 1]] *)
Definition move_up {A} (j : nat) (b : list A) : option (list A) :=
  v ← load1 b (Z.of_nat j - 1); store b (Z.of_nat j) v.

(** The chain of [if x > local_top_k[i]: ... else: ...]. *)
Fixpoint gating_topk_process_value (k_val : nat) (x : V) (vk : nat) (slots : list nat) (s : Local)
    : option Local :=
  match slots with
  | [] => Some s
  | i :: slots =>
      top_i ← load1 (local_top_k s) (Z.of_nat i);
      if score_gt x top_i then
        s ← ofold (fun j s => top ← move_up j (local_top_k s);
                              index ← move_up j (local_top_k_index s);
                              Some (MkLocal top index))
                  (rev (seq (S i) (k_val - S i))) s;
        top ← store (local_top_k s) (Z.of_nat i) x;
        index ← store (local_top_k_index s) (Z.of_nat i) (Z.of_nat vk);
        Some (MkLocal top index)
      else gating_topk_process_value k_val x vk slots s
  end.

(** The local buffers of a thread after the scan of its row. *)
Definition topk_scan (k_val num_local_experts : nat) (x : list (list V)) (vi : nat) (alloc : Local)
    : option Local :=
  s ← gating_topk_init k_val alloc;
  ofold (fun vk s => v ← load2 x (Z.of_nat vi) (Z.of_nat vk);
                     gating_topk_process_value k_val v vk (seq 0 k_val) s)
        (seq 0 num_local_experts) s.

Definition Outs : Type := list (list V) * list (list Z).

(** One thread; [out_of] is what the output block computes from the local
    scores. *)
Definition topk_thread (out_of : list V -> nat -> option V) (k_val num_local_experts : nat)
    (x : list (list V)) (alloc : nat -> Local) (vi : nat) (o : Outs) : option Outs :=
  s ← topk_scan k_val num_local_experts x vi (alloc vi);
  ofold (fun vj o =>
           v ← out_of (local_top_k s) vj;
           out ← store2 o.1 (Z.of_nat vi) (Z.of_nat vj) v;
           i ← load1 (local_top_k_index s) (Z.of_nat vj);
           out_index ← store2 o.2 (Z.of_nat vi) (Z.of_nat vj) i;
           Some (out, out_index)) (seq 0 k_val) o.

Definition TX : nat := 1024.

(** [topk_func]: [alloc] is what the threads find in their local buffers,
    [order] the order in which the threads run, [o] the output buffers. *)
Definition topk_func (k_val num_local_experts : nat) (x : list (list V)) (alloc : nat -> Local)
    (order : list (nat * nat)) (o : Outs) : option Outs :=
  launch TX (length x)
    (topk_thread (fun top vj => load1 top (Z.of_nat vj)) k_val num_local_experts x alloc) order o.

(** What one run of a kernel finds: the local buffers as allocated, the order
    in which the threads run, and the output buffers. *)
Record Run := MkRun { alloc : nat -> Local; order : list (nat * nat); outs : Outs }.

(** [gating_topk]: the weights and the indices. *)
Definition gating_topk (scores : list (list V)) (num_local_experts k : nat) (run : Run) : option Outs :=
  topk_func k num_local_experts scores (alloc run) (order run) (outs run).

(** ** The softmax kernel *)

Class SoftmaxOps (F : Type) := {
  cast_f32 : V -> F;            (* [T.cast(_, "float32")] *)
  cast_dtype : F -> V;          (* [T.cast(_, dtype)] *)
  f32_max : F -> F -> F;
  f32_sub : F -> F -> F;
  f32_add : F -> F -> F;
  f32_div : F -> F -> F;
  f32_exp : F -> F;
  softmax_scores : list V -> list V;   (* [op.softmax(x.astype("float32"), axis=-1).astype(dtype)] *)
}.

Section Softmax.
Context {F : Type} `{SoftmaxOps F}.

Definition nested_max (k_val : nat) (local_top_k_f32 : list F) : option F :=
  expr ← load1 local_top_k_f32 0;
  ofold (fun i expr => v ← load1 local_top_k_f32 (Z.of_nat i); Some (f32_max expr v)) (seq 1 (k_val - 1)) expr.

Definition nested_sum (k_val : nat) (local_top_k_f32 : list F) (local_top_k_max : F) : option F :=
  v ← load1 local_top_k_f32 0;
  ofold (fun i expr => v ← load1 local_top_k_f32 (Z.of_nat i);
                       Some (f32_add expr (f32_exp (f32_sub v local_top_k_max))))
    (seq 1 (k_val - 1)) (f32_exp (f32_sub v local_top_k_max)).

(** The cast, max and output blocks. *)
Definition softmax_out (k_val : nat) (local_top_k : list V) (vj : nat) : option V :=
  let local_top_k_f32 := map cast_f32 local_top_k in
  local_top_k_max ← nested_max k_val local_top_k_f32;
  sum ← nested_sum k_val local_top_k_f32 local_top_k_max;
  v ← load1 local_top_k_f32 (Z.of_nat vj);
  Some (cast_dtype (f32_div (f32_exp (f32_sub v local_top_k_max)) sum)).

Definition topk_softmax_norm_func (k_val num_local_experts : nat) (x : list (list V)) (run : Run) : option Outs :=
  launch TX (length x) (topk_thread (softmax_out k_val) k_val num_local_experts x (alloc run))
    (order run) (outs run).

Definition gating_softmax_topk (x : list (list V)) (num_local_experts k : nat) (norm_topk_prob : bool)
    (run : Run) : option Outs :=
  if norm_topk_prob then topk_softmax_norm_func k num_local_experts x run
  else gating_topk (map softmax_scores x) num_local_experts k run.
End Softmax.

(** ** Group-limited selection *)

Inductive TopkMethod := group_limited_greedy | noaux_tc.

Class ScoreArith := {
  score_add : V -> V -> V;
  row_sum : list V -> V;       (* [op.sum(_, axis=-1)] *)
  row_max : list V -> V;       (* [op.max(_, axis=-1)] *)
}.

Section GroupLimited.
Context `{ScoreArith}.

(** The rows with the bias, which is broadcast over the tokens. *)
Definition add_bias (scores : list (list V)) (bias : list V) : list (list V) :=
  map (fun r => zip_with score_add r bias) scores.

(** The loops of [group_limited_mask_scores] and [gather_scores]. *)
Definition grid2 (n m : nat) : list (nat * nat) := grid n m.
Definition grid3 (n m l : nat) : list (nat * nat * nat) :=
  flat_map (fun ij => map (pair ij) (seq 0 l)) (grid n m).

Definition group_limited_mask_scores (num_tokens topk_group group_size : nat) (scores : list (list V))
    (group_idx : list (list Z)) (output : list (list V)) : option (list (list V)) :=
  ofold (fun '(vi, vj, vk) output =>
           g ← load2 group_idx (Z.of_nat vi) (Z.of_nat vj);
           v ← load2 scores (Z.of_nat vi) (g * Z.of_nat group_size + Z.of_nat vk);
           store2 output (Z.of_nat vi) (g * Z.of_nat group_size + Z.of_nat vk) v)
    (grid3 num_tokens topk_group group_size) output.

Definition gather_scores (num_tokens top_k : nat) (scores : list (list V)) (expert_indices : list (list Z))
    (output : list (list V)) : option (list (list V)) :=
  ofold (fun '(vi, vj) output =>
           e ← load2 expert_indices (Z.of_nat vi) (Z.of_nat vj);
           v ← load2 scores (Z.of_nat vi) e;
           store2 output (Z.of_nat vi) (Z.of_nat vj) v)
    (grid2 num_tokens top_k) output.

(** [op.full(shape, finfo("float32").min)] *)
Definition full_min (n c : nat) : list (list V) := replicate n (replicate c score_min).

(** The score of each group: the sum of its two best scores, or the best. *)
Definition group_scores_of (topk_method : TopkMethod) (scores_for_choice : list (list V))
    (num_tokens n_group group_size : nat) (run : Run) : option (list (list V)) :=
  rows ← reshape (num_tokens * n_group) group_size (concat scores_for_choice);
  match topk_method with
  | noaux_tc =>
      best ← gating_topk rows group_size 2 run;
      reshape num_tokens n_group (map row_sum best.1)
  | group_limited_greedy => reshape num_tokens n_group (map row_max rows)
  end.

(** The scores that are compared: a missing bias is an assertion error. *)
Definition scores_for_choice_of (topk_method : TopkMethod) (scores : list (list V))
    (e_score_correction_bias : option (list V)) : option (list (list V)) :=
  match topk_method with
  | noaux_tc => bias ← e_score_correction_bias; Some (add_bias scores bias)
  | group_limited_greedy => Some scores
  end.

(** [run1] is the run on the groups' scores, [run2] on the group scores,
    [run3] on the masked scores; [buf] is the output buffer of
    [gather_scores]. *)
Definition group_limited_greedy_topk (scores : list (list V)) (top_k num_routed_experts n_group topk_group : nat)
    (topk_method : TopkMethod) (num_tokens : nat) (e_score_correction_bias : option (list V))
    (run1 run2 run3 : Run) (buf : list (list V)) : option Outs :=
  scores_for_choice ← scores_for_choice_of topk_method scores e_score_correction_bias;
  let group_size := (num_routed_experts / n_group)%nat in
  group_scores ← group_scores_of topk_method scores_for_choice num_tokens n_group group_size run1;
  chosen ← gating_topk group_scores n_group topk_group run2;
  tmp_scores ← group_limited_mask_scores num_tokens topk_group group_size scores_for_choice chosen.2
                 (full_min num_tokens num_routed_experts);
  experts ← gating_topk tmp_scores num_routed_experts top_k run3;
  match topk_method with
  | noaux_tc =>
      expert_weights ← gather_scores num_tokens top_k scores experts.2 buf;
      Some (expert_weights, experts.2)
  | group_limited_greedy => Some experts
  end.
End GroupLimited.

(** ** Specification: the stable descending order *)

(** A score and the number of its expert, after the entries it does not
    exceed. *)
Fixpoint rank_insert (p : V * Z) (l : list (V * Z)) : list (V * Z) :=
  match l with
  | [] => [p]
  | q :: l' => if score_gt p.1 q.1 then p :: l else q :: rank_insert p l'
  end.

(** The experts whose score is above the minimum, from the highest score to
    the lowest, equal scores by expert number. *)
Definition ranking (xs : list V) : list (V * Z) :=
  fold_left (fun l p => if score_gt p.2 score_min then rank_insert (p.2, Z.of_nat p.1) l else l)
    (enumerate xs) [].

(** The order of the ranking. *)
Definition ranks_before (p q : V * Z) : Prop :=
  score_gt q.1 p.1 = false /\ (score_gt p.1 q.1 = false -> p.2 < q.2).

(** What one thread leaves in its buffers: the first entries of the ranking,
    then the minimum with whatever the index buffer held. *)
Definition topk_entries (k_val : nat) (xs : list V) (garbage : list Z) : list (V * Z) :=
  take k_val (ranking xs ++ combine (repeat score_min k_val) garbage).

(** ** Lemmas: the scan refines the ranking *)

Lemma rank_insert_length p l : length (rank_insert p l) = S (length l).
Proof. induction l as [|q l IH]; cbn; [done|]. destruct (score_gt p.1 q.1); cbn; congruence. Qed.

Lemma rank_insert_Permutation p l : Permutation (rank_insert p l) (p :: l).
Proof.
  induction l as [|q l IH]; cbn; [done|]. destruct (score_gt p.1 q.1); [done|].
  rewrite IH. apply perm_swap.
Qed.

Lemma take_rank_insert p k l : take k (rank_insert p (take k l)) = take k (rank_insert p l).
Proof.
  revert l. induction k as [|k IH]; intros l; [done|]. destruct l as [|q l]; [done|].
  cbn. destruct (score_gt p.1 q.1); cbn; [|by rewrite IH].
  f_equal. destruct k as [|k]; cbn; [done|]. by rewrite take_take, Nat.min_l by lia.
Qed.

(** Inserting before a tail of entries at the minimum. *)
Lemma rank_insert_app p c pads : Forall (fun q => q.1 = score_min) pads ->
  score_gt p.1 score_min = true -> rank_insert p (c ++ pads) = rank_insert p c ++ pads.
Proof.
  intros Hp Hg. induction c as [|q c IH]; cbn.
  - destruct pads as [|q pads]; [done|]. apply Forall_cons in Hp as [Hq _].
    cbn. by rewrite Hq, Hg.
  - destruct (score_gt p.1 q.1); [done|]. by rewrite IH.
Qed.

(** A score that is not above the minimum ends up last. *)
Lemma rank_insert_low p c pads : Forall (fun q => score_gt q.1 score_min = true) c ->
  Forall (fun q => q.1 = score_min) pads -> score_gt p.1 score_min = false ->
  rank_insert p (c ++ pads) = (c ++ pads) ++ [p].
Proof.
  intros Hc Hp Hg.
  assert (Hall : Forall (fun q => score_gt p.1 q.1 = false) (c ++ pads)).
  { apply Forall_app. split.
    - eapply Forall_impl; [exact Hc|]. cbn. intros q Hq. apply not_true_is_false. intros Hpq.
      by rewrite (gt_trans _ _ _ Hpq Hq) in Hg.
    - eapply Forall_impl; [exact Hp|]. cbn. by intros q ->. }
  induction Hall as [|q l Hq _ IH]; cbn; [done|]. by rewrite Hq, IH.
Qed.

Lemma ranking_above xs : Forall (fun q => score_gt q.1 score_min = true) (ranking xs).
Proof.
  unfold ranking. enough (Hg : forall ps l, Forall (fun q : V * Z => score_gt q.1 score_min = true) l ->
    Forall (fun q => score_gt q.1 score_min = true)
      (fold_left (fun l (p : nat * V) => if score_gt p.2 score_min then rank_insert (p.2, Z.of_nat p.1) l
                                          else l) ps l)) by (apply Hg; constructor).
  induction ps as [|p ps IH]; intros l Hl; cbn; [done|]. apply IH.
  destruct (score_gt p.2 score_min) eqn:E; [|done].
  rewrite rank_insert_Permutation. by constructor.
Qed.

(** *** The local buffers as one list of entries *)

Definition entries (s : Local) : list (V * Z) := combine (local_top_k s) (local_top_k_index s).
Definition sized (k : nat) (s : Local) : Prop :=
  length (local_top_k s) = k /\ length (local_top_k_index s) = k.

Lemma entries_length k s : sized k s -> length (entries s) = k.
Proof. intros [H1 H2]. unfold entries. rewrite length_combine. lia. Qed.

Lemma combine_lookup {A B} (l : list A) (m : list B) i :
  combine l m !! i = (a ← l !! i; b ← m !! i; Some (a, b)).
Proof.
  revert m i. induction l as [|a l IH]; intros [|b m] [|i]; cbn; try done.
  by destruct (l !! i).
Qed.

Lemma move_up_lt {A} j (b : list A) v : b !! (j - 1)%nat = Some v -> (0 < j < length b)%nat ->
  move_up j b = Some (<[j := v]> b).
Proof.
  intros Hv Hj. unfold move_up. replace (Z.of_nat j - 1) with (Z.of_nat (j - 1)) by lia.
  rewrite load_lookup, Hv. cbn. apply store_lt. lia.
Qed.

(** The entries [i+1 .. i+n] after the shift. *)
Definition shifted {A} (i n : nat) (b b' : list A) : Prop :=
  length b' = length b /\
  forall j, b' !! j = if bool_decide (i < j <= i + n)%nat then b !! (j - 1)%nat else b !! j.

Lemma shifted_step {A} i n (b b' : list A) v : b !! (i + n)%nat = Some v -> (i + S n < length b)%nat ->
  shifted i n (<[(i + S n)%nat := v]> b) b' -> shifted i (S n) b b'.
Proof.
  intros Hv Hlen [Hl Hs]. rewrite length_insert in Hl. split; [done|]. intros j. rewrite Hs.
  repeat case_bool_decide; try lia.
  - rewrite list_lookup_insert_ne by lia. done.
  - replace j with (i + S n)%nat by lia. rewrite list_lookup_insert_eq by done.
    by replace (i + S n - 1)%nat with (i + n)%nat by lia.
  - rewrite list_lookup_insert_ne by lia. done.
Qed.

Lemma shift_loop k i n s : sized k s -> (i + n < k)%nat ->
  exists s', ofold (fun j s => top ← move_up j (local_top_k s);
                               index ← move_up j (local_top_k_index s);
                               Some (MkLocal top index)) (rev (seq (S i) n)) s = Some s' /\
    shifted i n (local_top_k s) (local_top_k s') /\
    shifted i n (local_top_k_index s) (local_top_k_index s').
Proof.
  revert s. induction n as [|n IH]; intros s [H1 H2] Hn.
  - exists s. split; [done|]. split; (split; [done|]); intros j; case_bool_decide; (lia || done).
  - rewrite seq_S, rev_app_distr. cbn [rev app ofold].
    destruct (lookup_lt_is_Some_2 (local_top_k s) (i + n)) as [v Hv]; [lia|].
    destruct (lookup_lt_is_Some_2 (local_top_k_index s) (i + n)) as [w Hw]; [lia|].
    replace (S i + n)%nat with (i + S n)%nat by lia.
    assert (Hj : (i + S n - 1 = i + n)%nat) by lia.
    rewrite (move_up_lt (i + S n) (local_top_k s) v), (move_up_lt (i + S n) (local_top_k_index s) w)
      by first [lia | by rewrite Hj].
    cbn [mbind option_bind].
    destruct (IH (MkLocal (<[(i + S n)%nat := v]> (local_top_k s))
                          (<[(i + S n)%nat := w]> (local_top_k_index s)))) as (s' & -> & Ht & Hi).
    { split; cbn; by rewrite length_insert. } { lia. }
    exists s'. split; [done|]. split; (eapply shifted_step; [eassumption|lia|done]).
Qed.

Lemma shifted_insert {A} i k (b b' : list A) x : shifted i (k - S i) b b' -> length b = k -> (i < k)%nat ->
  <[i := x]> b' = take i b ++ take (k - i) (x :: drop i b).
Proof.
  intros [Hl Hs] Hk Hi. replace (k - i)%nat with (S (k - S i)) by lia. cbn [take].
  apply list_eq. intros j. destruct (Nat.lt_total j i) as [Hj|[->|Hj]].
  - rewrite list_lookup_insert_ne by lia. rewrite Hs, bool_decide_false by lia.
    rewrite lookup_app_l by (rewrite length_take; lia). by rewrite lookup_take_lt.
  - rewrite list_lookup_insert_eq by lia.
    rewrite lookup_app_r by (rewrite length_take; lia).
    by rewrite length_take, Nat.min_l, Nat.sub_diag by lia.
  - rewrite list_lookup_insert_ne by lia. rewrite Hs.
    rewrite lookup_app_r by (rewrite length_take; lia). rewrite length_take, Nat.min_l by lia.
    rewrite lookup_cons_ne_0 by lia.
    case_bool_decide as Hb.
    + rewrite lookup_take_lt, lookup_drop by lia. f_equal. lia.
    + rewrite !lookup_ge_None_2; [done|rewrite length_take, length_drop; lia|lia].
Qed.

Lemma combine_app' {A B} (l1 l2 : list A) (m1 m2 : list B) : length l1 = length m1 ->
  combine (l1 ++ l2) (m1 ++ m2) = combine l1 m1 ++ combine l2 m2.
Proof. revert m1. induction l1 as [|a l1 IH]; intros [|b m1] Hl; cbn in *; try done. by rewrite IH by lia. Qed.

Lemma combine_take {A B} n (l : list A) (m : list B) : combine (take n l) (take n m) = take n (combine l m).
Proof. revert l m. induction n as [|n IH]; intros [|a l] [|b m]; cbn; try done. by rewrite IH. Qed.

Lemma combine_drop {A B} n (l : list A) (m : list B) : length l = length m ->
  combine (drop n l) (drop n m) = drop n (combine l m).
Proof. revert l m. induction n as [|n IH]; intros [|a l] [|b m] Hl; cbn in *; try done. by rewrite IH by lia. Qed.

(** *** One score of the scan *)

Lemma rank_insert_at k i p l q : (i < k)%nat -> l !! i = Some q -> score_gt p.1 q.1 = true ->
  Forall (fun q => score_gt p.1 q.1 = false) (take i l) ->
  take i l ++ take (k - i) (p :: drop i l) = take k (rank_insert p l).
Proof.
  revert k l. induction i as [|i IH]; intros k l Hi Hq Hp Hl.
  - destruct l as [|q' l]; [done|]. injection Hq as ->. cbn [take drop app rank_insert].
    by rewrite Hp, Nat.sub_0_r.
  - destruct l as [|q' l]; [done|]. destruct k as [|k]; [lia|]. cbn in Hl |- *.
    apply Forall_cons in Hl as [Hq' Hl]. rewrite Hq'. cbn [take]. f_equal. apply IH; [lia|done..].
Qed.

Lemma process_value_spec k x vk i s : sized k s -> (i <= k)%nat ->
  Forall (fun q => score_gt x q.1 = false) (take i (entries s)) ->
  exists s', gating_topk_process_value k x vk (seq i (k - i)) s = Some s' /\ sized k s' /\
    entries s' = take k (rank_insert (x, Z.of_nat vk) (entries s)).
Proof.
  intros Hs Hi Hlow. remember (k - i)%nat as n eqn:Hn. revert i Hi Hlow Hn.
  induction n as [|n IH]; intros i Hi Hlow Hn; cbn [seq gating_topk_process_value].
  - exists s. split; [done|]. split; [done|].
    rewrite firstn_all2 in Hlow by (rewrite (entries_length k); [lia|done]).
    pose proof (entries_length k s Hs) as Hl. revert Hl. generalize (entries s) Hlow. clear.
    intros l Hlow Hl. enough (E : rank_insert (x, Z.of_nat vk) l = l ++ [(x, Z.of_nat vk)]).
    { rewrite E, <- Hl. by rewrite take_app_length. }
    clear Hl. induction Hlow as [|q l Hq _ IH]; cbn; [done|]. by rewrite Hq, IH.
  - destruct Hs as [H1 H2].
    destruct (lookup_lt_is_Some_2 (local_top_k s) i) as [v Hv]; [lia|].
    destruct (lookup_lt_is_Some_2 (local_top_k_index s) i) as [w Hw]; [lia|].
    rewrite load_lookup, Hv. cbn [mbind option_bind].
    assert (Hq : entries s !! i = Some (v, w)) by (unfold entries; by rewrite combine_lookup, Hv, Hw).
    destruct (score_gt x v) eqn:Hgt.
    + destruct (shift_loop k i (k - S i) s) as (s1 & -> & Ht & Hx); [done|lia|].
      cbn [mbind option_bind]. destruct Ht as [Ht Ht'], Hx as [Hx Hx'].
      rewrite !store_lt by lia. cbn [mbind option_bind].
      eexists. split; [done|].
      assert (Htop : <[i:=x]> (local_top_k s1) = take i (local_top_k s) ++ take (k - i) (x :: drop i (local_top_k s)))
        by (by apply shifted_insert; [| |lia]).
      assert (Hidx : <[i:=Z.of_nat vk]> (local_top_k_index s1) =
        take i (local_top_k_index s) ++ take (k - i) (Z.of_nat vk :: drop i (local_top_k_index s)))
        by (by apply shifted_insert; [| |lia]).
      split; [split; cbn; rewrite length_insert; lia|].
      unfold entries at 1. cbn [local_top_k local_top_k_index]. rewrite Htop, Hidx.
      rewrite combine_app' by (rewrite !length_take; lia).
      rewrite combine_take. change (x :: drop i (local_top_k s)) with ([x] ++ drop i (local_top_k s)).
      change (Z.of_nat vk :: drop i (local_top_k_index s)) with ([Z.of_nat vk] ++ drop i (local_top_k_index s)).
      rewrite combine_take, combine_app', combine_drop by (done || lia).
      fold (entries s). cbn [combine app]. apply (rank_insert_at k _ _ _ (v, w)); [lia|done..].
    + apply IH; [lia| |lia]. rewrite (take_S_r _ _ _ Hq). apply Forall_app. split; [done|]. by constructor.
Qed.

(** *** The scan of a row *)

Lemma gating_topk_init_spec k alloc : sized k alloc ->
  exists s, gating_topk_init k alloc = Some s /\ sized k s /\
    entries s = combine (repeat score_min k) (local_top_k_index alloc).
Proof.
  intros [H1 H2]. unfold gating_topk_init.
  rewrite (ofold_fill (fun _ => score_min) _ k) by done. cbn [mbind option_bind].
  assert (E : fold_left (fun b t => stray_store b (-1) (Z.of_nat t)) (seq 0 k) (local_top_k_index alloc) =
    local_top_k_index alloc).
  { generalize (local_top_k_index alloc). induction (seq 0 k) as [|t l IH]; intros b; cbn; [done|]. apply IH. }
  rewrite E. eexists. split; [done|]. split.
  - split; cbn; [|done]. by rewrite length_map, length_seq.
  - unfold entries. cbn. f_equal. clear. generalize O.
    induction k as [|k IH]; intros; cbn; [done|]. f_equal. apply IH.
Qed.

Lemma enumerate_snoc {A} (l : list A) x : enumerate (l ++ [x]) = enumerate l ++ [(length l, x)].
Proof.
  unfold enumerate. rewrite length_app. cbn. rewrite seq_app, combine_app' by (by rewrite length_seq).
  done.
Qed.

Lemma ranking_snoc xs x : ranking (xs ++ [x]) =
  if score_gt x score_min then rank_insert (x, Z.of_nat (length xs)) (ranking xs) else ranking xs.
Proof. unfold ranking. by rewrite enumerate_snoc, fold_left_app. Qed.

(** One more score. *)
Lemma topk_entries_snoc k xs x garbage : length garbage = k ->
  topk_entries k (xs ++ [x]) garbage =
  take k (rank_insert (x, Z.of_nat (length xs)) (topk_entries k xs garbage)).
Proof.
  intros Hg. unfold topk_entries. rewrite take_rank_insert, ranking_snoc.
  assert (Hp : Forall (fun q => q.1 = score_min) (combine (repeat (score_min (V := V)) k) garbage)).
  { apply Forall_forall. intros [v z] Hin. rewrite list_elem_of_In in Hin.
    apply in_combine_l, repeat_spec in Hin. done. }
  destruct (score_gt x score_min) eqn:E.
  - by rewrite rank_insert_app.
  - rewrite (rank_insert_low (x, _) _ _ (ranking_above xs) Hp E).
    rewrite (take_app_le (_ ++ _)); [done|]. rewrite length_app, length_combine, repeat_length. lia.
Qed.

Lemma topk_scan_spec k x vi xs alloc : x !! vi = Some xs -> sized k alloc ->
  exists s, topk_scan k (length xs) x vi alloc = Some s /\ sized k s /\
    entries s = topk_entries k xs (local_top_k_index alloc).
Proof.
  intros Hx Ha. unfold topk_scan.
  destruct (gating_topk_init_spec k alloc Ha) as (s0 & -> & Hs0 & He0). cbn [mbind option_bind].
  enough (Hg : forall n, (n <= length xs)%nat ->
    exists s, ofold (fun vk s => v ← load2 x (Z.of_nat vi) (Z.of_nat vk);
                       gating_topk_process_value k v vk (seq 0 k) s) (seq 0 n) s0 = Some s /\
      sized k s /\ entries s = topk_entries k (take n xs) (local_top_k_index alloc)).
  { specialize (Hg (length xs) (le_n _)). by rewrite firstn_all in Hg. }
  induction n as [|n IH]; intros Hn.
  - exists s0. split; [done|]. split; [done|]. rewrite He0. unfold topk_entries.
    change (ranking (take 0 xs)) with (@nil (V * Z)). cbn [app].
    rewrite (firstn_all2 (combine _ _)); [done|]. rewrite length_combine, repeat_length. lia.
  - destruct IH as (s & Hr & Hs & He); [lia|].
    rewrite seq_S, ofold_app, Hr. cbn [mbind option_bind ofold Nat.add].
    destruct (lookup_lt_is_Some_2 xs n) as [v Hv]; [lia|].
    rewrite (load2_lookup _ _ _ xs), Hv by done. cbn [mbind option_bind].
    destruct (process_value_spec k v n 0 s Hs) as (s' & Hp & Hs' & He'); [lia|constructor|].
    rewrite Nat.sub_0_r in Hp. rewrite Hp. exists s'. split; [done|]. split; [done|].
    rewrite He', He, (take_S_r _ _ _ Hv).
    destruct Ha as [_ Ha]. rewrite topk_entries_snoc by done.
    by rewrite length_take, Nat.min_l by lia.
Qed.

(** *** The threads of the kernel *)

Lemma map_combine {A B} (l : list A) (m : list B) : length l = length m ->
  map fst (combine l m) = l /\ map snd (combine l m) = m.
Proof.
  revert m. induction l as [|a l IH]; intros [|b m] Hl; cbn in *; try done.
  destruct (IH m) as [-> ->]; [lia|done].
Qed.

Lemma topk_thread_spec out_of (w : list V -> nat -> V) k (x : list (list V)) xs alloc vi (o : Outs) r1 r2 :
  (forall top vj, length top = k -> (vj < k)%nat -> out_of top vj = Some (w top vj)) ->
  x !! vi = Some xs -> sized k (alloc vi) ->
  o.1 !! vi = Some r1 -> length r1 = k -> o.2 !! vi = Some r2 -> length r2 = k ->
  let e := topk_entries k xs (local_top_k_index (alloc vi)) in
  topk_thread out_of k (length xs) x alloc vi o =
  Some (<[vi := map (w (map fst e)) (seq 0 k)]> o.1, <[vi := map snd e]> o.2).
Proof.
  intros Hw Hx Ha Hr1 Hk1 Hr2 Hk2 e. unfold topk_thread.
  destruct (topk_scan_spec k x vi xs (alloc vi) Hx Ha) as (s & -> & [Hs1 Hs2] & He). cbn [mbind option_bind].
  fold e in He. unfold entries in He.
  destruct (map_combine (local_top_k s) (local_top_k_index s)) as [E1 E2]; [lia|].
  rewrite He in E1, E2. rewrite <- E1, <- E2 in *. clear E1 E2.
  transitivity (ofold (fun vj o =>
    s' ← store2 o.1 (Z.of_nat vi) (Z.of_nat vj) (w (map fst e) vj);
    t' ← store2 o.2 (Z.of_nat vi) (Z.of_nat vj) (default 0 (map snd e !! vj)); Some (s', t'))
    (seq 0 k) o).
  - apply ofold_ext. intros vj o' Hvj. apply in_seq in Hvj. rewrite Hw by lia. cbn [mbind option_bind].
    destruct (store2 o'.1 _ _ _); cbn [mbind option_bind]; [|done].
    rewrite load_lookup. destruct (lookup_lt_is_Some_2 (map snd e) vj) as [z ->]; [lia|]. done.
  - destruct o as [o1 o2]. cbn [fst snd] in *.
    rewrite (ofold_pair (fun vj o => store2 o (Z.of_nat vi) (Z.of_nat vj) (w (map fst e) vj))
      (fun vj o => store2 o (Z.of_nat vi) (Z.of_nat vj) (default 0 (map snd e !! vj)))).
    rewrite (ofold_row_fill _ _ k _ r1), (ofold_row_fill _ _ k _ r2) by done. cbn [mbind option_bind].
    by rewrite <- Hs2, map_lookup_seq.
Qed.

Lemma topk_launch out_of (w : list V -> nat -> V) k ne x alloc blocks order (o : Outs) :
  (forall top vj, length top = k -> (vj < k)%nat -> out_of top vj = Some (w top vj)) ->
  matrix (length x) ne x -> (forall vi, sized k (alloc vi)) ->
  matrix (length x) k o.1 -> matrix (length x) k o.2 ->
  Permutation order (grid blocks TX) -> (length x <= blocks * TX)%nat ->
  let e vi := topk_entries k (default [] (x !! vi)) (local_top_k_index (alloc vi)) in
  launch TX (length x) (topk_thread out_of k ne x alloc) order o =
  Some (map (fun vi => map (w (map fst (e vi))) (seq 0 k)) (seq 0 (length x)),
        map (fun vi => map snd (e vi)) (seq 0 (length x))).
Proof.
  intros Hw [_ Hx] Ha [Ho1 Ho1'] [Ho2 Ho2'] Hord Hb e.
  destruct (launch_numbers TX (length x) (topk_thread out_of k ne x alloc) order o blocks Hord Hb)
    as (ids & Hids & ->).
  destruct o as [o1 o2]. cbn [fst snd] in *.
  assert (Hrow : forall t, (t < length x)%nat -> exists xs, x !! t = Some xs /\ length xs = ne).
  { intros t Ht. destruct (lookup_lt_is_Some_2 x t Ht) as [xs Hxs]. exists xs. split; [done|].
    exact (Forall_lookup_1 _ _ _ _ Hx Hxs). }
  apply (ofold_rows _ _ _ k); try done.
  - intros t Ht. rewrite !length_map, length_seq. split; [done|]. unfold e, topk_entries.
    rewrite length_take, length_app, length_combine, repeat_length. destruct (Ha t) as [_ ->]. lia.
  - intros t p1 p2 Ht Hp1 Hp2 Hq1 Hq2. destruct (Hrow t Ht) as (xs & Hxs & <-).
    destruct (lookup_lt_is_Some_2 p1 t) as [r1 Hr1]; [lia|].
    destruct (lookup_lt_is_Some_2 p2 t) as [r2 Hr2]; [lia|].
    rewrite (topk_thread_spec out_of w k x xs alloc t (p1, p2) r1 r2); try done.
    + unfold e. by rewrite Hxs.
    + exact (Forall_lookup_1 _ _ _ _ Hq1 Hr1).
    + exact (Forall_lookup_1 _ _ _ _ Hq2 Hr2).
Qed.

(** *** The ranking is the stable descending order *)

Lemma rank_insert_sorted p l : StronglySorted ranks_before l ->
  Forall (fun q => score_gt q.1 score_min = true /\ q.2 < p.2) l ->
  StronglySorted ranks_before (rank_insert p l).
Proof.
  induction 1 as [|q l Hl IH Hq]; intros Hp; cbn; [repeat constructor|].
  apply Forall_cons in Hp as [[Hqm Hqp] Hp]. destruct (score_gt p.1 q.1) eqn:E.
  - constructor; [by constructor|]. constructor.
    + split; [|by rewrite E]. apply not_true_is_false. intros E'.
      pose proof (gt_irrefl p.1) as Hirr. by rewrite (gt_trans _ _ _ E E') in Hirr.
    + apply Forall_forall. intros r Hr. rewrite Forall_forall in Hq, Hp.
      destruct (Hq r Hr) as [Hrq _], (Hp r Hr) as [Hrm _]. split.
      * apply not_true_is_false. intros E'. by rewrite (gt_trans _ _ _ E' E) in Hrq.
      * destruct (gt_cotrans _ _ r.1 E Hrm); congruence.
  - constructor; [by apply IH|]. rewrite rank_insert_Permutation. constructor; [by split|done].
Qed.

Lemma ranking_In xs v z : In (v, z) (ranking xs) <->
  exists i, z = Z.of_nat i /\ xs !! i = Some v /\ score_gt v score_min = true.
Proof.
  induction xs as [|x xs IH] using rev_ind.
  - cbn. split; [done|]. by intros (i & _ & Hi & _).
  - rewrite ranking_snoc.
    assert (Hsnoc : (exists i, z = Z.of_nat i /\ (xs ++ [x]) !! i = Some v /\ score_gt v score_min = true) <->
      (v = x /\ z = Z.of_nat (length xs) /\ score_gt x score_min = true) \/ In (v, z) (ranking xs)).
    { rewrite IH. split.
      - intros (i & -> & Hi & Hv). apply lookup_app_Some in Hi as [Hi|[Hle Hi]].
        + right. by exists i.
        + destruct (i - length xs)%nat eqn:E; [|done]. injection Hi as <-. left.
          split; [done|]. split; [f_equal; lia|done].
      - intros [(-> & -> & Hx)|(i & -> & Hi & Hv)].
        + exists (length xs). split; [done|]. by rewrite lookup_app_r, Nat.sub_diag by lia.
        + exists i. split; [done|]. split; [|done]. by apply lookup_app_l_Some. }
    rewrite Hsnoc. destruct (score_gt x score_min) eqn:E.
    + rewrite rank_insert_Permutation. cbn. naive_solver.
    + naive_solver.
Qed.

Lemma ranking_sorted xs : StronglySorted ranks_before (ranking xs).
Proof.
  induction xs as [|x xs IH] using rev_ind; [constructor|]. rewrite ranking_snoc.
  destruct (score_gt x score_min); [|done]. apply rank_insert_sorted; [done|].
  apply Forall_forall. intros [v z] Hin. apply list_elem_of_In, ranking_In in Hin as (i & -> & Hi & Hv).
  apply lookup_lt_Some in Hi. cbn. split; [done|lia].
Qed.

Lemma ranking_NoDup xs : NoDup (map snd (ranking xs)).
Proof.
  induction xs as [|x xs IH] using rev_ind; [constructor|]. rewrite ranking_snoc.
  destruct (score_gt x score_min); [|done]. rewrite rank_insert_Permutation. cbn.
  apply NoDup_cons. split; [|done]. rewrite list_elem_of_In, in_map_iff.
  intros ([v z] & Hz & Hin). cbn in Hz. subst z.
  apply ranking_In in Hin as (i & Hi & Hv & _). apply lookup_lt_Some in Hv. lia.
Qed.

Lemma ranking_length xs : length (ranking xs) = length (List.filter (fun v => score_gt v score_min) xs).
Proof.
  induction xs as [|x xs IH] using rev_ind; [done|]. rewrite ranking_snoc, List.filter_app, length_app. cbn.
  destruct (score_gt x score_min); cbn; [rewrite rank_insert_length|]; lia.
Qed.

(** ** Specification of a top-k choice *)

(** [w] and [i] are the [k] highest scores of [row] and their distinct
    experts, highest first, equal scores by expert number. *)
Record is_topk (k : nat) (row w : list V) (i : list Z) : Prop := {
  topk_length : length w = k /\ length i = k;
  topk_distinct : NoDup i;
  topk_scores : forall v e, In (v, e) (combine w i) ->
    0 <= e /\ row !! Z.to_nat e = Some v /\ score_gt v score_min = true;
  topk_sorted : StronglySorted ranks_before (combine w i);
  topk_highest : forall e v, row !! e = Some v -> ~ In (Z.of_nat e) i ->
    forall v' e', In (v', e') (combine w i) -> score_gt v v' = false /\
      (score_gt v score_min = true -> score_gt v' v = false -> e' < Z.of_nat e);
}.

Lemma In_take {A} (p : A) k l : In p (take k l) -> In p l.
Proof. intros Hp. rewrite <- (take_drop k). apply in_app_iff. by left. Qed.

Lemma ranking_is_topk k row : (k <= length (ranking row))%nat ->
  is_topk k row (map fst (take k (ranking row))) (map snd (take k (ranking row))).
Proof.
  intros Hk.
  assert (Hc : forall l : list (V * Z), combine (map fst l) (map snd l) = l).
  { induction l as [|[a b] l IH]; cbn; [done|]. by rewrite IH. }
  pose proof (ranking_sorted row) as Hs. rewrite <- (take_drop k (ranking row)) in Hs.
  pose proof (fun p => In_take p k (ranking row)) as Hin.
  constructor; rewrite ?Hc.
  - rewrite !length_map, length_take. lia.
  - pose proof (ranking_NoDup row) as Hnd. rewrite <- (take_drop k (ranking row)), map_app in Hnd.
    by apply NoDup_app in Hnd as [Hnd _].
  - intros v e [i (-> & Hi & Hv)]%Hin%ranking_In. rewrite Nat2Z.id. split; [lia|done].
  - by apply StronglySorted_app_1_l in Hs.
  - intros e v He Hnot v' e' Hv'. destruct (score_gt v score_min) eqn:Hv.
    + assert (Hd : In (v, Z.of_nat e) (drop k (ranking row))).
      { assert (Hr : In (v, Z.of_nat e) (ranking row)) by (apply ranking_In; by exists e).
        rewrite <- (take_drop k) in Hr. apply in_app_iff in Hr as [Hr|Hr]; [|done].
        exfalso. apply Hnot. change (Z.of_nat e) with (snd (v, Z.of_nat e)). by apply in_map. }
      eapply StronglySorted_app_1_elem_of in Hs; [|by apply list_elem_of_In|by apply list_elem_of_In].
      destruct Hs as [H1 H2]. split; [done|]. intros _. apply H2.
    + split; [|done]. apply not_true_is_false. intros E.
      apply Hin, ranking_In in Hv' as (i & _ & _ & Hm). by rewrite (gt_trans _ _ _ E Hm) in Hv.
Qed.

(** A row with enough scores above the minimum leaves nothing of the
    initial buffers. *)
Lemma topk_entries_full k row garbage : (k <= length (ranking row))%nat ->
  topk_entries k row garbage = take k (ranking row).
Proof. intros Hk. unfold topk_entries. by rewrite take_app_le. Qed.

(** ** The operators *)

(** A run of a kernel on [n] rows with [k] outputs each: buffers of the right
    size, every thread once, in any order. *)
Definition valid_run (k n : nat) (r : Run) : Prop :=
  (forall vi, sized k (alloc r vi)) /\ matrix n k (outs r).1 /\ matrix n k (outs r).2 /\
  Permutation (order r) (grid (nat_ceildiv n TX) TX).

(** The number of scores above the minimum. *)
Definition above (row : list V) : nat := length (List.filter (fun v => score_gt v score_min) row).

Lemma above_all row : Forall (fun v => score_gt v score_min = true) row -> above row = length row.
Proof.
  unfold above. induction 1 as [|v l Hv _ IH]; cbn; [done|]. rewrite Hv. cbn. by rewrite IH.
Qed.

Lemma map_seq_rows {A B} (f : A -> B) (d : A) (x : list A) :
  map (fun vi => f (default d (x !! vi))) (seq 0 (length x)) = map f x.
Proof. rewrite <- (map_map (fun vi => default d (x !! vi)) f). by rewrite map_lookup_seq. Qed.

Lemma run_launch out_of (w : list V -> nat -> V) k ne x run :
  (forall top vj, length top = k -> (vj < k)%nat -> out_of top vj = Some (w top vj)) ->
  matrix (length x) ne x -> valid_run k (length x) run ->
  let e vi := topk_entries k (default [] (x !! vi)) (local_top_k_index (alloc run vi)) in
  launch TX (length x) (topk_thread out_of k ne x (alloc run)) (order run) (outs run) =
  Some (map (fun vi => map (w (map fst (e vi))) (seq 0 k)) (seq 0 (length x)),
        map (fun vi => map snd (e vi)) (seq 0 (length x))).
Proof.
  intros Hw Hx (Ha & Ho1 & Ho2 & Hord). eapply topk_launch; [done..|].
  apply nat_ceildiv_covers. unfold TX. lia.
Qed.

Lemma topk_entries_length k row (a : Local) : sized k a ->
  length (topk_entries k row (local_top_k_index a)) = k.
Proof.
  intros [_ Ha]. unfold topk_entries. rewrite length_take, length_app, length_combine, repeat_length. lia.
Qed.

Lemma gating_topk_run k ne x run : matrix (length x) ne x -> valid_run k (length x) run ->
  let e vi := topk_entries k (default [] (x !! vi)) (local_top_k_index (alloc run vi)) in
  gating_topk x ne k run =
  Some (map (fun vi => map fst (e vi)) (seq 0 (length x)), map (fun vi => map snd (e vi)) (seq 0 (length x))).
Proof.
  intros Hx Hr e. unfold gating_topk, topk_func.
  rewrite (run_launch _ (fun top vj => default score_min (top !! vj))); [|intros top vj Hl Hvj|done|done].
  - f_equal. f_equal. apply map_ext_in. intros vi _. fold e.
    etransitivity; [|apply (map_lookup_seq score_min)]. f_equal.
    rewrite length_map. unfold e. by rewrite topk_entries_length by apply Hr.
  - rewrite load_lookup. destruct (lookup_lt_is_Some_2 top vj) as [v ->]; [lia|]. done.
Qed.

(** Enough candidates in every row: the result is the top of each ranking. *)
Lemma gating_topk_ranking k ne x run : matrix (length x) ne x -> valid_run k (length x) run ->
  Forall (fun row => k <= above row)%nat x ->
  gating_topk x ne k run =
  Some (map (fun row => map fst (take k (ranking row))) x, map (fun row => map snd (take k (ranking row))) x).
Proof.
  intros Hx Hr Hk. rewrite gating_topk_run by done.
  assert (E : forall vi, In vi (seq 0 (length x)) ->
    topk_entries k (default [] (x !! vi)) (local_top_k_index (alloc run vi)) =
    take k (ranking (default [] (x !! vi)))).
  { intros vi Hvi. apply in_seq in Hvi. apply topk_entries_full.
    destruct (lookup_lt_is_Some_2 x vi) as [row Hrow]; [lia|]. rewrite Hrow.
    change (default [] (Some row)) with row. rewrite ranking_length. exact (Forall_lookup_1 _ _ _ _ Hk Hrow). }
  rewrite <- (map_seq_rows (fun row => map fst (take k (ranking row))) []).
  rewrite <- (map_seq_rows (fun row => map snd (take k (ranking row))) []).
  f_equal. f_equal; apply map_ext_in; intros vi Hvi; by rewrite E.
Qed.

Lemma gating_topk_rows k ne x run : matrix (length x) ne x -> valid_run k (length x) run ->
  Forall (fun row => k <= above row)%nat x ->
  exists ws is', gating_topk x ne k run = Some (ws, is') /\ Forall3 (is_topk k) x ws is'.
Proof.
  intros Hx Hr Hk. eexists _, _. split; [by apply gating_topk_ranking|].
  clear Hx Hr. induction Hk as [|row x Hrow _ IH]; cbn; constructor; [|done].
  apply ranking_is_topk. by rewrite ranking_length.
Qed.

(** C13: the top-k kernel, on rows with at least [k] scores above the minimum
    value of the type, makes no access outside its buffers and returns for
    every token the [k] highest scores with their distinct experts, highest
    first and equal scores by expert number, whatever the order of the
    threads and whatever the local buffers held. *)
Theorem gating_topk_selects k ne x run : matrix (length x) ne x -> valid_run k (length x) run ->
  Forall (fun row => k <= above row)%nat x ->
  exists ws is', gating_topk x ne k run = Some (ws, is') /\ Forall3 (is_topk k) x ws is'.
Proof. apply gating_topk_rows. Qed.

(** *** Softmax over the chosen scores *)

Section SoftmaxSpec.
Context {F : Type} `{SoftmaxOps F}.

Definition softmax_weights (top : list V) : list V :=
  match map cast_f32 top with
  | [] => []
  | f :: fs =>
      let m := fold_left f32_max fs f in
      let s := fold_left (fun e v => f32_add e (f32_exp (f32_sub v m))) fs (f32_exp (f32_sub f m)) in
      map (fun v => cast_dtype (f32_div (f32_exp (f32_sub v m)) s)) (f :: fs)
  end.

Lemma ofold_loads {E} (g : E -> F -> E) (l : list F) n e : (S n <= length l)%nat ->
  ofold (fun i e => v ← load1 l (Z.of_nat i); Some (g e v)) (seq 1 n) e =
  Some (fold_left g (take n (drop 1 l)) e).
Proof.
  intros Hn. destruct l as [|f l]; [cbn in Hn; lia|].
  change (drop 1 (f :: l)) with l. cbn in Hn.
  induction n as [|n IH]; [by rewrite take_0|]. rewrite seq_S, ofold_app, IH by lia.
  cbn [mbind option_bind ofold Nat.add]. rewrite load_lookup. change ((f :: l) !! S n) with (l !! n).
  destruct (lookup_lt_is_Some_2 l n) as [v Hv]; [lia|]. rewrite Hv. cbn [mbind option_bind].
  by rewrite (take_S_r _ _ _ Hv), fold_left_app.
Qed.

Lemma softmax_out_spec k top vj : length top = k -> (vj < k)%nat ->
  softmax_out k top vj = softmax_weights top !! vj.
Proof.
  intros Hl Hvj. unfold softmax_out, softmax_weights, nested_max, nested_sum.
  destruct top as [|v top]; [cbn in Hl; lia|]. cbn in Hl. subst k.
  cbn [map]. assert (Hz : forall (a : F) l, load1 (a :: l) 0 = Some a) by done.
  rewrite !Hz. cbn [mbind option_bind].
  replace (S (length top) - 1)%nat with (length top) by lia.
  rewrite (ofold_loads f32_max) by (cbn; rewrite length_map; lia). cbn [mbind option_bind].
  change (drop 1 (cast_f32 v :: map cast_f32 top)) with (map cast_f32 top).
  rewrite (firstn_all2 (map _ _)) by (rewrite length_map; lia).
  set (m := fold_left f32_max _ _).
  rewrite (ofold_loads (fun e v => f32_add e (f32_exp (f32_sub v m)))) by (cbn; rewrite length_map; lia).
  cbn [mbind option_bind]. change (drop 1 (cast_f32 v :: map cast_f32 top)) with (map cast_f32 top).
  rewrite (firstn_all2 (map _ _)) by (rewrite length_map; lia).
  rewrite load_lookup.
  destruct (lookup_lt_is_Some_2 (cast_f32 v :: map cast_f32 top) vj) as [f Hf]; [cbn; rewrite length_map; lia|].
  rewrite Hf. cbn [mbind option_bind]. symmetry.
  set (s := fold_left _ _ (f32_exp _)).
  exact (lookup_map_Some (fun u => cast_dtype (f32_div (f32_exp (f32_sub u m)) s)) _ _ _ Hf).
Qed.

Lemma softmax_weights_length top : length (softmax_weights top) = length top.
Proof. destruct top; cbn; [done|]. by rewrite !length_map. Qed.

Lemma softmax_topk_run k ne x run : matrix (length x) ne x -> valid_run k (length x) run ->
  exists ws is', gating_topk x ne k run = Some (ws, is') /\
    gating_softmax_topk x ne k true run = Some (map softmax_weights ws, is').
Proof.
  intros Hx Hr. eexists _, _. split; [by apply gating_topk_run|].
  unfold gating_softmax_topk, topk_softmax_norm_func.
  rewrite (run_launch _ (fun top vj => default score_min (softmax_weights top !! vj))); [|intros top vj Hl Hvj|done|done].
  - f_equal. f_equal. rewrite map_map. apply map_ext_in. intros vi _.
    etransitivity; [|apply (map_lookup_seq score_min)]. f_equal. rewrite softmax_weights_length, length_map.
    by rewrite topk_entries_length by apply Hr.
  - rewrite softmax_out_spec by done.
    destruct (lookup_lt_is_Some_2 (softmax_weights top) vj) as [v ->]; [|done].
    rewrite softmax_weights_length. lia.
Qed.
(** The softmax kernel chooses the experts that the top-k kernel chooses
    on the raw scores and returns the softmax over the chosen scores alone. *)
Theorem softmax_same_experts k ne x run : matrix (length x) ne x -> valid_run k (length x) run ->
  exists ws is', gating_topk x ne k run = Some (ws, is') /\
    gating_softmax_topk x ne k true run = Some (map softmax_weights ws, is').
Proof. apply softmax_topk_run. Qed.
End SoftmaxSpec.

(** *** The group-limited selection *)

Section GroupLimitedSpec.
Context `{ScoreArith}.
Variable topk_method : TopkMethod.

(** The score of a group of experts. *)
Definition group_score (part : list V) : V :=
  match topk_method with
  | group_limited_greedy => row_max part
  | noaux_tc => row_sum (map fst (take 2 (ranking part)))
  end.

Definition group_row (n_group group_size : nat) (row : list V) : list V :=
  map group_score (chunks group_size n_group row).

(** The row with the experts outside the chosen groups at the minimum. *)
Definition masked (group_size : nat) (groups : list Z) (row : list V) : list V :=
  imap (fun e v => if decide (Z.of_nat (e / group_size) ∈ groups) then v else score_min) row.

Lemma masked_lookup gs groups row e v : row !! e = Some v ->
  masked gs groups row !! e = Some (if decide (Z.of_nat (e / gs) ∈ groups) then v else score_min).
Proof. intros Hv. unfold masked. by rewrite list_lookup_imap, Hv. Qed.

Lemma grid3_In n m l x : In x (grid3 n m l) <-> (x.1.1 < n /\ x.1.2 < m /\ x.2 < l)%nat.
Proof.
  destruct x as [[i j] k]. unfold grid3. rewrite in_flat_map. cbn. split.
  - intros (ij & Hij & Hk). apply in_map_iff in Hk as (k' & [= -> ->] & Hk).
    apply grid_In in Hij. apply in_seq in Hk. cbn in Hij. lia.
  - intros (Hi & Hj & Hk). exists (i, j). split; [by apply grid_In|]. apply in_map_iff.
    exists k. split; [done|]. apply in_seq. lia.
Qed.

Lemma mask_spec n tg ng gs scores gidx : (0 < gs)%nat ->
  matrix n (ng * gs) scores -> matrix n tg gidx ->
  Forall (Forall (fun g => 0 <= g < Z.of_nat ng)) gidx ->
  group_limited_mask_scores n tg gs scores gidx (full_min n (ng * gs)) =
  Some (zip_with (masked gs) gidx scores).
Proof.
  intros Hgs Hs Hg Hrange. unfold group_limited_mask_scores.
  set (pos := fun x : nat * nat * nat =>
    (x.1.1, (Z.to_nat (default 0%Z (at2 gidx x.1.1 x.1.2)) * gs + x.2)%nat)).
  assert (Hgo : forall vi vj, (vi < n)%nat -> (vj < tg)%nat ->
    exists g, at2 gidx vi vj = Some g /\ 0 <= g < Z.of_nat ng).
  { intros vi vj Hi Hj. destruct (matrix_row n tg gidx vi Hg Hi) as (r & Hr & Hl).
    destruct (lookup_lt_is_Some_2 r vj) as [g Hgv]; [lia|]. exists g. unfold at2. rewrite Hr. split; [done|].
    exact (Forall_lookup_1 _ _ _ _ (Forall_lookup_1 _ _ _ _ Hrange Hr) Hgv). }
  assert (Hfull : matrix n (ng * gs) (full_min n (ng * gs))).
  { unfold full_min. split; [by rewrite length_replicate|]. apply Forall_replicate. by rewrite length_replicate. }
  destruct (copy_loop pos n (ng * gs) scores (grid3 n tg gs) (full_min n (ng * gs)) Hs Hfull) as (o' & Ho' & Hm & Hat).
  { apply Forall_forall. intros x Hx. apply list_elem_of_In, grid3_In in Hx as (Hi & Hj & Hk).
    destruct (Hgo _ _ Hi Hj) as (g & Hg1 & Hg2). unfold pos. rewrite Hg1. cbn. split; [done|].
    nia. }
  transitivity (Some o'); [rewrite <- Ho'|f_equal].
  - apply ofold_ext. intros [[vi vj] vk] o Hx. apply grid3_In in Hx as (Hi & Hj & Hk). cbn in Hi, Hj, Hk.
    destruct (Hgo _ _ Hi Hj) as (g & Hg1 & Hg2). unfold pos. cbn [fst snd]. rewrite load2_at2, Hg1.
    cbn [mbind option_bind default from_option id].
    replace (g * Z.of_nat gs + Z.of_nat vk) with (Z.of_nat (Z.to_nat g * gs + vk)) by lia. done.
  - assert (Hz : matrix n (ng * gs) (zip_with (masked gs) gidx scores)).
    { destruct Hs as [Hs1 Hs2], Hg as [Hg1 _]. split; [rewrite length_zip_with; lia|].
      apply Forall_zip_with_snd with (P := fun r => length r = (ng * gs)%nat); [|done].
      apply Forall_forall. intros g _ r Hr. unfold masked. by rewrite length_imap. }
    apply (matrix_ext n (ng * gs)); [done|done|]. intros i e Hi He. rewrite Hat.
    destruct (matrix_row n _ scores i Hs Hi) as (row & Hrow & Hrl).
    destruct (matrix_row n _ gidx i Hg Hi) as (groups & Hgr & Hgl).
    destruct (lookup_lt_is_Some_2 row e) as [v Hv]; [lia|].
    assert (Hzi : at2 (zip_with (masked gs) gidx scores) i e =
      Some (if decide (Z.of_nat (e / gs) ∈ groups) then v else score_min)).
    { unfold at2. rewrite lookup_zip_with, Hgr, Hrow. cbn. by apply masked_lookup. }
    rewrite Hzi.
    assert (Hiff : (i, e) ∈ map pos (grid3 n tg gs) <-> Z.of_nat (e / gs) ∈ groups).
    { rewrite list_elem_of_In, in_map_iff. split.
      - intros ([[vi vj] vk] & [= <- <-] & Hx). apply grid3_In in Hx as (_ & Hj & Hk). cbn in Hj, Hk |- *.
        destruct (Hgo _ _ Hi Hj) as (g & Hg1 & Hg2). rewrite Hg1. cbn.
        rewrite Nat.div_add_l, Nat.div_small, Nat.add_0_r, Z2Nat.id by lia.
        unfold at2 in Hg1. rewrite Hgr in Hg1. cbn in Hg1. by eapply list_elem_of_lookup_2.
      - intros Hin. apply list_elem_of_lookup in Hin as [vj Hvj].
        exists ((i, vj), (e mod gs)%nat). split.
        + unfold pos, at2. cbn. rewrite Hgr. cbn. rewrite Hvj. cbn. rewrite Nat2Z.id.
          f_equal. pose proof (Nat.div_mod_eq e gs). lia.
        + apply grid3_In. cbn. split; [done|]. apply lookup_lt_Some in Hvj.
          split; [lia|]. apply Nat.mod_upper_bound. lia. }
    destruct (decide ((i, e) ∈ _)) as [Hin|Hin], (decide (Z.of_nat (e / gs) ∈ groups)) as [Hin'|Hin'];
      try tauto.
    + unfold at2. by rewrite Hrow.
    + unfold at2, full_min. rewrite lookup_replicate_2 by done. cbn. by apply lookup_replicate_2.
Qed.

Lemma concat_concat {A} (m : list (list (list A))) : concat (concat m) = concat (map (@concat A) m).
Proof. induction m as [|r m IH]; cbn; [done|]. by rewrite concat_app, IH. Qed.

Lemma chunked_rows n ng gs (m : list (list V)) : matrix n (ng * gs) m ->
  reshape (n * ng) gs (concat m) = Some (concat (map (chunks gs ng) m)) /\
  matrix (n * ng) gs (concat (map (chunks gs ng) m)).
Proof.
  intros [Hn Hm].
  assert (Hc : map (@concat V) (map (chunks gs ng) m) = m).
  { clear Hn. induction Hm as [|r m Hr _ IH]; cbn [map]; [done|]. by rewrite IH, concat_chunks. }
  assert (Hx : matrix (n * ng) gs (concat (map (chunks gs ng) m))).
  { split.
    - apply concat_length. split; [by rewrite length_map|]. apply Forall_map.
      eapply Forall_impl; [exact Hm|]. intros r Hr. by apply (chunks_matrix ng gs r Hr).
    - apply Forall_concat, Forall_map. eapply Forall_impl; [exact Hm|].
      intros r Hr. by apply (chunks_matrix ng gs r Hr). }
  split; [|done]. rewrite <- (reshape_concat (n * ng) gs _ Hx). by rewrite concat_concat, Hc.
Qed.

Lemma reshape_rows {A B} (f : A -> B) n c (m : list (list A)) : matrix n c m ->
  reshape n c (map f (concat m)) = Some (map (map f) m).
Proof.
  intros [Hn Hm]. rewrite concat_map. apply reshape_concat. split; [by rewrite length_map|].
  apply Forall_map. eapply Forall_impl; [exact Hm|]. intros r Hr. cbn. by rewrite length_map.
Qed.

Lemma group_scores_spec n ng gs choice run : matrix n (ng * gs) choice ->
  (topk_method = noaux_tc -> valid_run 2 (n * ng) run /\ (2 <= gs)%nat /\
     Forall (Forall (fun v => score_gt v score_min = true)) choice) ->
  group_scores_of topk_method choice n ng gs run = Some (map (group_row ng gs) choice).
Proof.
  intros Hm Hno. unfold group_scores_of.
  destruct (chunked_rows n ng gs choice Hm) as [-> Hrows]. cbn [mbind option_bind].
  assert (Hch : matrix n ng (map (chunks gs ng) choice)).
  { destruct Hm as [Hn Hm]. split; [by rewrite length_map|]. apply Forall_map.
    eapply Forall_impl; [exact Hm|]. intros r Hr. by apply (chunks_matrix ng gs r Hr). }
  destruct topk_method eqn:E.
  - rewrite (reshape_rows row_max n ng) by done. rewrite map_map. f_equal. apply map_ext.
    intros row. unfold group_row, group_score. by rewrite E.
  - destruct Hno as (Hv & Hgs & Habove); [done|].
    rewrite gating_topk_ranking.
    + cbn [mbind option_bind fst]. rewrite map_map.
      rewrite (reshape_rows (fun part => row_sum (map fst (take 2 (ranking part)))) n ng) by done.
      rewrite map_map. f_equal. apply map_ext. intros row. unfold group_row, group_score. by rewrite E.
    + by rewrite (proj1 Hrows).
    + by rewrite (proj1 Hrows).
    + apply Forall_concat, Forall_map, Forall_forall. intros row Hrow.
      rewrite Forall_forall in Habove. specialize (Habove row Hrow).
      destruct Hm as [_ Hm]. rewrite Forall_forall in Hm. specialize (Hm row Hrow).
      destruct (chunks_matrix ng gs row Hm) as [_ Hp].
      rewrite <- (concat_chunks ng gs row Hm) in Habove. apply Forall_concat in Habove.
      apply Forall_forall. intros part Hpart. rewrite Forall_forall in Hp, Habove.
      specialize (Hp part Hpart). specialize (Habove part Hpart).
      rewrite above_all by done. lia.
Qed.

(** Choosing [tg] groups leaves [tg * gs] experts above the minimum. *)
Lemma masked_above gs ng groups row : NoDup groups ->
  Forall (fun g => 0 <= g < Z.of_nat ng) groups -> (0 < gs)%nat -> length row = (ng * gs)%nat ->
  Forall (fun v => score_gt v score_min = true) row ->
  (length groups * gs <= above (masked gs groups row))%nat.
Proof.
  intros Hnd Hr Hgs Hl Hrow. unfold above. rewrite <- ranking_length.
  set (cells := fun gs' : list Z => flat_map (fun g => map Z.of_nat (seq (Z.to_nat g * gs) gs)) gs').
  assert (Hlen : forall l, length (cells l) = (length l * gs)%nat).
  { induction l as [|g l IH]; cbn; [done|]. rewrite length_app, length_map, length_seq. fold (cells l). lia. }
  assert (Hcell : forall e l, In e (cells l) <-> exists g, In g l /\ (Z.to_nat e / gs)%nat = Z.to_nat g /\ 0 <= e).
  { intros e l. unfold cells. rewrite in_flat_map. split.
    - intros (g & Hg & He). apply in_map_iff in He as (i & <- & Hi). apply in_seq in Hi.
      exists g. split; [done|]. split; [|lia]. rewrite Nat2Z.id.
      symmetry. apply Nat.div_unique with (i - Z.to_nat g * gs)%nat; lia.
    - intros (g & Hg & He & He0). exists g. split; [done|]. apply in_map_iff.
      exists (Z.to_nat e). split; [lia|]. apply in_seq.
      pose proof (Nat.div_mod_eq (Z.to_nat e) gs). pose proof (Nat.mod_upper_bound (Z.to_nat e) gs). nia. }
  assert (Hcnd : NoDup (cells groups)).
  { clear Hlen. induction Hnd as [|g l Hg Hnd IH]; cbn; [constructor|]. apply Forall_cons in Hr as [Hg' Hr].
    apply NoDup_app. split; [|split; [|by apply IH]].
    - apply NoDup_fmap_2; [by intros ? ? ?%Nat2Z.inj|apply NoDup_seq].
    - intros e He Hin. rewrite list_elem_of_In in He, Hin. apply in_map_iff in He as (i & <- & Hi).
      apply in_seq in Hi. apply Hcell in Hin as (g2 & Hg2 & Hd & _). rewrite Nat2Z.id in Hd.
      assert (Hdiv : (i / gs)%nat = Z.to_nat g)
        by (symmetry; apply Nat.div_unique with (i - Z.to_nat g * gs)%nat; lia).
      apply Hg. rewrite list_elem_of_In. rewrite Forall_forall in Hr.
      assert (Hg2r := Hr g2 (proj2 (list_elem_of_In _ _) Hg2)). cbn in Hg2r. by replace g with g2 by lia. }
  rewrite <- Hlen, <- (length_map snd (ranking _)).
  apply NoDup_incl_length; [by apply NoDup_ListNoDup|].
  intros e He. apply Hcell in He as (g & Hg & Hd & He). apply in_map_iff.
  rewrite Forall_forall in Hr. assert (Hgr := Hr g (proj2 (list_elem_of_In _ _) Hg)). cbn in Hgr.
  destruct (lookup_lt_is_Some_2 row (Z.to_nat e)) as [v Hv].
  { rewrite Hl. pose proof (Nat.div_mod_eq (Z.to_nat e) gs).
    pose proof (Nat.mod_upper_bound (Z.to_nat e) gs). nia. }
  exists (v, e). split; [done|]. apply ranking_In. exists (Z.to_nat e). split; [lia|].
  rewrite (masked_lookup _ _ _ _ v), decide_True; [|by rewrite Hd, Z2Nat.id, list_elem_of_In by lia|done].
  split; [done|]. exact (Forall_lookup_1 _ _ _ _ Hrow Hv).
Qed.

Lemma gather_scores_spec n k ne scores is' buf : matrix n ne scores -> matrix n k is' -> matrix n k buf ->
  Forall (Forall (fun e => 0 <= e < Z.of_nat ne)) is' ->
  gather_scores n k scores is' buf =
  Some (zip_with (fun row i => map (fun e => default score_min (row !! Z.to_nat e)) i) scores is').
Proof.
  intros Hs Hi Hb Hr.
  set (src := zip_with (fun row i => map (fun e => default score_min (row !! Z.to_nat e)) i) scores is').
  assert (Hsrc : matrix n k src).
  { destruct Hs as [Hs _], Hi as [Hi1 Hi2]. split; [unfold src; rewrite length_zip_with; lia|].
    apply Forall_zip_with_fst with (P := fun _ => True); [by apply Forall_true|].
    eapply Forall_impl; [exact Hi2|]. intros i Hl x _. by rewrite length_map. }
  destruct (copy_loop id n k src (grid2 n k) buf Hsrc Hb) as (o' & Ho' & Hm & Hat).
  { apply Forall_forall. intros [vi vj] Hx. apply list_elem_of_In, grid_In in Hx. done. }
  transitivity (Some o'); [rewrite <- Ho'|f_equal].
  - apply ofold_ext. intros [vi vj] o Hx. apply grid_In in Hx as [Hvi Hvj]. cbn in Hvi, Hvj.
    unfold id. cbn [fst snd]. rewrite !load2_at2. unfold at2, src. rewrite lookup_zip_with.
    destruct (matrix_row n ne scores vi Hs Hvi) as (row & Hrow & Hrl).
    destruct (matrix_row n k is' vi Hi Hvi) as (i & Hiv & Hil).
    rewrite Hrow, Hiv. cbn [mbind option_bind].
    destruct (lookup_lt_is_Some_2 i vj) as [e He]; [lia|]. rewrite He. cbn [mbind option_bind].
    assert (Her := Forall_lookup_1 _ _ _ _ (Forall_lookup_1 _ _ _ _ Hr Hiv) He). cbn in Her.
    rewrite <- (Z2Nat.id e) at 1 by lia. rewrite (load2_lookup _ _ _ row) by done.
    erewrite (lookup_map_Some (fun e => default score_min (row !! Z.to_nat e)) i) by exact He.
    destruct (lookup_lt_is_Some_2 row (Z.to_nat e)) as [v Hv]; [lia|]. rewrite Hv. done.
  - apply (matrix_ext n k); [done|done|]. intros i e Hin He. rewrite Hat, decide_True; [done|].
    rewrite map_id. apply list_elem_of_In, grid_In. done.
Qed.

Lemma masked_length gs groups row : length (masked gs groups row) = length row.
Proof. apply length_imap. Qed.

(** The experts of a choice on masked scores are in the chosen groups. *)
Lemma masked_choice gs groups k row w i : is_topk k (masked gs groups row) w i ->
  Forall (fun e => 0 <= e < Z.of_nat (length row) /\ e / Z.of_nat gs ∈ groups) i.
Proof.
  intros Hi. destruct (topk_length _ _ _ _ Hi) as [Hw Hl]. apply Forall_lookup. intros j e He.
  destruct (lookup_lt_is_Some_2 w j) as [v Hv]; [apply lookup_lt_Some in He; lia|].
  destruct (topk_scores _ _ _ _ Hi v e) as (He0 & Hm & Hab).
  { apply list_elem_of_In, (list_elem_of_lookup_2 _ j). by rewrite combine_lookup, Hv, He. }
  destruct (lookup_lt_is_Some_2 row (Z.to_nat e)) as [v' Hv'].
  { apply lookup_lt_Some in Hm. by rewrite masked_length in Hm. }
  pose proof (lookup_lt_Some _ _ _ Hv'). split; [lia|].
  rewrite (masked_lookup _ _ _ _ v' Hv') in Hm. injection Hm as Hm.
  destruct (decide (Z.of_nat (Z.to_nat e / gs) ∈ groups)) as [Hin|Hin].
  - by rewrite Nat2Z.inj_div, Z2Nat.id in Hin by lia.
  - subst v. by rewrite gt_irrefl in Hab.
Qed.

(** What the selection promises for one token: the best groups, then the best
    experts of these groups. *)
Definition group_limited_choice (k tg ng gs : nat) (choice : list V) (w : list V) (i : list Z) : Prop :=
  exists gw groups, is_topk tg (group_row ng gs choice) gw groups /\
    is_topk k (masked gs groups choice) w i /\
    Forall (fun e => 0 <= e < Z.of_nat (ng * gs) /\ e / Z.of_nat gs ∈ groups) i.

Lemma group_limited_row k tg ng gs row : (0 < gs)%nat -> (k <= tg * gs)%nat -> (tg <= ng)%nat ->
  length row = (ng * gs)%nat -> Forall (fun v => score_gt v score_min = true) row ->
  Forall (fun v => score_gt v score_min = true) (group_row ng gs row) ->
  let groups := map snd (take tg (ranking (group_row ng gs row))) in
  let r := ranking (masked gs groups row) in
  length groups = tg /\ Forall (fun g => 0 <= g < Z.of_nat ng) groups /\
  (k <= above (masked gs groups row))%nat /\
  group_limited_choice k tg ng gs row (map fst (take k r)) (map snd (take k r)).
Proof.
  intros Hgs Hk Htg Hl Hrow Hgr groups r.
  assert (Hgl : length (group_row ng gs row) = ng) by (unfold group_row, chunks; by rewrite !length_map, length_seq).
  assert (Hg : is_topk tg (group_row ng gs row) (map fst (take tg (ranking (group_row ng gs row)))) groups).
  { apply ranking_is_topk. rewrite ranking_length. fold (above (group_row ng gs row)).
    rewrite above_all by done. lia. }
  assert (Hrange : Forall (fun g => 0 <= g < Z.of_nat ng) groups).
  { apply Forall_forall. intros g Hin. apply list_elem_of_In, in_map_iff in Hin as ([v g'] & <- & Hin).
    cbn. apply In_take, ranking_In in Hin as (i & -> & Hi & _).
    apply lookup_lt_Some in Hi. lia. }
  assert (Hgroups : length groups = tg) by apply Hg.
  assert (Hab : (k <= above (masked gs groups row))%nat).
  { etransitivity; [exact Hk|]. rewrite <- Hgroups at 1. eapply masked_above; try done. apply Hg. }
  split; [done|]. split; [done|]. split; [done|].
  exists (map fst (take tg (ranking (group_row ng gs row)))), groups. split; [done|].
  assert (Hm : is_topk k (masked gs groups row) (map fst (take k r)) (map snd (take k r))).
  { apply ranking_is_topk. by rewrite ranking_length. }
  split; [done|]. rewrite <- Hl. by eapply masked_choice.
Qed.

Lemma zip_with_map_same {A B C} (f : B -> A -> C) (g : A -> B) l :
  zip_with f (map g l) l = map (fun x => f (g x) x) l.
Proof. induction l as [|x l IH]; cbn; [done|]. by rewrite IH. Qed.

(** The masked scores and the choice among them. *)
Lemma masked_experts n k tg ng gs choice run2 run3 : (0 < gs)%nat -> (tg <= ng)%nat ->
  matrix n (ng * gs) choice ->
  Forall (fun row => Forall (fun v => score_gt v score_min = true) (group_row ng gs row)) choice ->
  valid_run tg n run2 -> valid_run k n run3 ->
  let idx row := map snd (take tg (ranking (group_row ng gs row))) in
  (forall row, row ∈ choice -> length (idx row) = tg /\
     Forall (fun g => 0 <= g < Z.of_nat ng) (idx row) /\ (k <= above (masked gs (idx row) row))%nat) ->
  let r row := take k (ranking (masked gs (idx row) row)) in
  (chosen ← gating_topk (map (group_row ng gs) choice) ng tg run2;
   tmp ← group_limited_mask_scores n tg gs choice chosen.2 (full_min n (ng * gs));
   gating_topk tmp (ng * gs) k run3) =
  Some (map (fun row => map fst (r row)) choice, map (fun row => map snd (r row)) choice).
Proof.
  intros Hgs Htg [Hcn Hcl] Hgroups Hr2 Hr3 idx Hrow r.
  assert (Hgl : forall row, length (group_row ng gs row) = ng)
    by (intros; unfold group_row, chunks; by rewrite !length_map, length_seq).
  rewrite (gating_topk_ranking tg ng); [| |by rewrite length_map, Hcn|].
  2: { split; [done|]. apply Forall_map, Forall_forall. auto. }
  2: { apply Forall_map. eapply Forall_impl; [exact Hgroups|]. intros row Hrow'. cbn.
       rewrite above_all by done. by rewrite Hgl. }
  cbn [mbind option_bind snd]. rewrite map_map. fold idx.
  rewrite (mask_spec n tg ng); [|done|by split| |].
  2: { split; [by rewrite length_map|]. apply Forall_map, Forall_forall. intros row Hin. by apply Hrow. }
  2: { apply Forall_map, Forall_forall. intros row Hin. by apply Hrow. }
  cbn [mbind option_bind]. rewrite zip_with_map_same.
  rewrite (gating_topk_ranking k (ng * gs)); [by rewrite !map_map| |by rewrite length_map, Hcn|].
  - split; [done|]. apply Forall_map. eapply Forall_impl; [exact Hcl|]. intros row Hl. cbn.
    by rewrite masked_length.
  - apply Forall_map, Forall_forall. intros row Hin. cbn. by apply Hrow.
Qed.

(** C15: the group-limited selection: when the scores and the group scores
    are above the minimum and the chosen groups hold enough experts, the
    operator chooses for every token the best experts among those of its best
    groups, and its weights are the scores of these experts (for [noaux_tc]
    the scores without the bias that the choice was made with). *)
Theorem group_limited_selects n k tg ng gs scores bias choice run1 run2 run3 buf :
  (0 < gs)%nat -> (k <= tg * gs)%nat -> (tg <= ng)%nat -> (0 < ng)%nat ->
  scores_for_choice_of topk_method scores bias = Some choice ->
  matrix n (ng * gs) scores -> matrix n (ng * gs) choice -> matrix n k buf ->
  Forall (Forall (fun v => score_gt v score_min = true)) choice ->
  Forall (fun row => Forall (fun v => score_gt v score_min = true) (group_row ng gs row)) choice ->
  (topk_method = noaux_tc -> valid_run 2 (n * ng) run1 /\ (2 <= gs)%nat) ->
  valid_run tg n run2 -> valid_run k n run3 ->
  exists ws is',
    group_limited_greedy_topk scores k (ng * gs) ng tg topk_method n bias run1 run2 run3 buf = Some (ws, is') /\
    length is' = n /\ length ws = n /\
    forall t row i, choice !! t = Some row -> is' !! t = Some i ->
      exists w, group_limited_choice k tg ng gs row w i /\
        ws !! t = Some (match topk_method with
                        | group_limited_greedy => w
                        | noaux_tc => map (fun e => default score_min
                                                      (r ← scores !! t; r !! Z.to_nat e)) i
                        end).
Proof.
  intros Hgs Hk Htg Hng Hchoice Hs Hc Hbuf Habove Hgroups Hno Hr2 Hr3.
  unfold group_limited_greedy_topk. rewrite Hchoice. cbn [mbind option_bind].
  rewrite Nat.mul_comm, Nat.div_mul, Nat.mul_comm by lia.
  rewrite group_scores_spec by (try done; intros E; destruct (Hno E); done). cbn [mbind option_bind].
  set (idx := fun row => map snd (take tg (ranking (group_row ng gs row)))).
  assert (Hrow : forall row, row ∈ choice -> length (idx row) = tg /\
    Forall (fun g => 0 <= g < Z.of_nat ng) (idx row) /\ (k <= above (masked gs (idx row) row))%nat /\
    group_limited_choice k tg ng gs row (map fst (take k (ranking (masked gs (idx row) row))))
      (map snd (take k (ranking (masked gs (idx row) row))))).
  { intros row Hin. destruct Hc as [_ Hc]. rewrite Forall_forall in Hc, Habove, Hgroups.
    apply group_limited_row; auto. }
  pose proof (masked_experts n k tg ng gs choice run2 run3 Hgs Htg Hc Hgroups Hr2 Hr3) as He.
  cbv zeta in He. fold idx in He.
  set (r := fun row => take k (ranking (masked gs (idx row) row))) in *.
  assert (Hws : forall t row i, choice !! t = Some row -> map (fun row => map snd (r row)) choice !! t = Some i ->
    i = map snd (r row)).
  { intros t row i Ht Hi. erewrite (lookup_map_Some _ choice) in Hi by exact Ht. by injection Hi as <-. }
  assert (Hout : forall K : Outs -> option Outs,
    (chosen ← gating_topk (map (group_row ng gs) choice) ng tg run2;
     tmp ← group_limited_mask_scores n tg gs choice chosen.2 (full_min n (ng * gs));
     experts ← gating_topk tmp (ng * gs) k run3; K experts) =
    K (map (fun row => map fst (r row)) choice, map (fun row => map snd (r row)) choice)).
  { intros K. transitivity (o ← (chosen ← gating_topk (map (group_row ng gs) choice) ng tg run2;
      tmp ← group_limited_mask_scores n tg gs choice chosen.2 (full_min n (ng * gs));
      gating_topk tmp (ng * gs) k run3); K o); [|rewrite He; [done|]].
    - destruct (gating_topk _ ng tg run2) as [c|]; cbn [mbind option_bind]; [|done].
      by destruct (group_limited_mask_scores _ _ _ _ _ _).
    - intros row Hin. destruct (Hrow row Hin) as (? & ? & ? & _). done. }
  rewrite Hout. clear Hout He. destruct Hc as [Hcn Hcl].
  assert (Hch : forall t row, choice !! t = Some row ->
    group_limited_choice k tg ng gs row (map fst (r row)) (map snd (r row)))
    by (intros t row Ht; apply Hrow; by eapply list_elem_of_lookup_2).
  destruct topk_method.
  - eexists _, _. split; [done|]. rewrite !length_map. split; [done|]. split; [done|].
    intros t row i Ht Hi. rewrite (Hws _ _ _ Ht Hi). exists (map fst (r row)).
    split; [by eapply Hch|]. by apply (lookup_map_Some (fun row => map fst (r row))).
  - cbn [snd]. rewrite (gather_scores_spec n k (ng * gs)); [|done| |done|].
    + cbn [mbind option_bind]. eexists _, _. split; [done|]. rewrite length_zip_with, !length_map.
      rewrite (proj1 Hs), Hcn. split; [done|]. split; [lia|].
      intros t row i Ht Hi. pose proof (Hws _ _ _ Ht Hi) as Ei. exists (map fst (r row)).
      split; [rewrite Ei; by eapply Hch|]. rewrite lookup_zip_with, Hi.
      destruct (matrix_row n _ scores t Hs) as (srow & Hsrow & _); [rewrite <- Hcn; by eapply lookup_lt_Some|].
      by rewrite Hsrow.
    + split; [by rewrite length_map|]. apply Forall_map, Forall_forall. intros row Hin.
      destruct (Hrow row Hin) as (_ & _ & _ & gw & groups & _ & Hi & _). apply Hi.
    + apply Forall_map, Forall_forall. intros row Hin.
      destruct (Hrow row Hin) as (_ & _ & _ & gw & groups & _ & _ & Hi).
      eapply Forall_impl; [exact Hi|]. by intros e [He _].
Qed.
End GroupLimitedSpec.
End Gating.

(** ** IEEE scores *)

(** Floats in the order of their sign, exponent and mantissa. *)
Definition float_key (f : pyfloat) : option (Z * Z * Z) :=
  match f with
  | S754_nan => None
  | S754_infinity true => Some (-2, 0, 0)
  | S754_finite true m e => Some (-1, - e, Z.neg m)
  | S754_zero _ => Some (0, 0, 0)
  | S754_finite false m e => Some (1, e, Z.pos m)
  | S754_infinity false => Some (2, 0, 0)
  end.

Definition key_lt (a b : Z * Z * Z) : Prop :=
  a.1.1 < b.1.1 \/ a.1.1 = b.1.1 /\ (a.1.2 < b.1.2 \/ a.1.2 = b.1.2 /\ a.2 < b.2).

Lemma SFltb_key a b : SFltb a b = true <->
  exists x y, float_key a = Some x /\ float_key b = Some y /\ key_lt x y.
Proof.
  unfold SFltb, key_lt.
  destruct a as [s1|[]| |[] m1 e1], b as [s2|[]| |[] m2 e2]; cbn; split;
    try (by intros (? & ? & ? & ? & ?); simplify_eq);
    try (intros _; eexists _, _; split; [done|split; [done|cbn; lia]]);
    try (intros (? & ? & ? & ? & ?); simplify_eq/=; lia); try done.
  - intros H. eexists _, _. split; [done|]. split; [done|]. cbn.
    destruct (Z.compare_spec e1 e2) as [->| |]; try done; [|lia].
    change (Pos.compare_cont Eq m1 m2) with (Pos.compare m1 m2) in H. destruct (Pos.compare_spec m1 m2); try done. lia.
  - intros (? & ? & ? & ? & ?); simplify_eq/=.
    destruct (Z.compare_spec e1 e2) as [->| |]; try done; [|lia].
    change (Pos.compare_cont Eq m1 m2) with (Pos.compare m1 m2). destruct (Pos.compare_spec m1 m2); try done; lia.
  - intros H. eexists _, _. split; [done|]. split; [done|]. cbn.
    destruct (Z.compare_spec e1 e2) as [->| |]; try done; [|lia].
    change (Pos.compare_cont Eq m1 m2) with (Pos.compare m1 m2) in H. destruct (Pos.compare_spec m1 m2); try done. lia.
  - intros (? & ? & ? & ? & ?); simplify_eq/=.
    destruct (Z.compare_spec e1 e2) as [->| |]; try done; [|lia].
    change (Pos.compare_cont Eq m1 m2) with (Pos.compare m1 m2). destruct (Pos.compare_spec m1 m2); try done; lia.
Qed.

(** float32 scores: the minimum is the lowest finite value. *)
#[export] Instance float32_scores : ScoreOps pyfloat := {
  score_gt a b := SFltb b a;
  score_min := S754_finite true 16777215 104;
}.

#[export] Instance float32_laws : ScoreLaws pyfloat.
Proof.
  split; cbn [score_gt score_min float32_scores].
  - intros a. apply not_true_is_false. intros (x & y & Hx & Hy & Hlt)%SFltb_key.
    unfold key_lt in Hlt. simplify_eq. lia.
  - intros a b c (x & y & Hx & Hy & H1)%SFltb_key (z & x' & Hz & Hx' & H2)%SFltb_key.
    simplify_eq. apply SFltb_key. exists z, y. split; [done|]. split; [done|]. unfold key_lt in *. lia.
  - intros a b c (x & y & Hx & Hy & H1)%SFltb_key (z & w & Hz & Hw & _)%SFltb_key.
    destruct (SFltb c a) eqn:E; [by left|]. right. apply SFltb_key. exists x, w.
    split; [done|]. split; [done|].
    assert (Hn : ~ key_lt w y).
    { intros Hlt. assert (E' : SFltb c a = true) by (apply SFltb_key; by exists w, y). congruence. }
    unfold key_lt in *. lia.
Qed.

(** ** Concrete data *)

Module MoeGatingExample.
Definition f (z : Z) : pyfloat := f64_of_Z z.
Definition x : list (list pyfloat) := [[f 3; f 9; f (-4); f 9]; [f 0; f (-1); f (-7); f (-1)]].

(** Buffers full of other numbers, threads in reverse order. *)
Definition run (k n : nat) : Run (V := pyfloat) :=
  MkRun (fun _ => MkLocal (repeat (f 77) k) (repeat 55 k)) (rev (grid (nat_ceildiv n TX) TX))
    (replicate n (replicate k (f 5)), replicate n (replicate k 6)).

Lemma run_valid k n : valid_run k n (run k n).
Proof.
  split; [|split; [|split]].
  - intros vi. split; apply repeat_length.
  - split; [apply length_replicate|]. apply Forall_replicate, length_replicate.
  - split; [apply length_replicate|]. apply Forall_replicate, length_replicate.
  - symmetry. apply Permutation_rev.
Qed.

(** The second scores of the rows are ties: the lower expert number wins. *)
Example gating_topk_result : gating_topk x 4 2 (run 2 2) =
  Some ([[f 9; f 9]; [f 0; f (-1)]], [[1; 3]; [0; 1]]).
Proof. vm_compute. reflexivity. Qed.

Lemma x_matrix : matrix (length x) 4 x.
Proof. split; [done|]. repeat constructor. Qed.

Lemma gating_topk_selects_witness :
  exists ws is', gating_topk x 4 2 (run 2 2) = Some (ws, is') /\ Forall3 (is_topk 2) x ws is'.
Proof.
  apply gating_topk_selects; [apply x_matrix|apply run_valid|].
  repeat constructor; vm_compute; lia.
Defined.

(** A softmax in which the exponential doubles: enough to run the kernel. *)
#[local] Instance softmax : SoftmaxOps (V := pyfloat) pyfloat := {
  cast_f32 v := v; cast_dtype v := v;
  f32_max a b := if SFltb a b then b else a;
  f32_sub := SFsub 53 1024; f32_add := SFadd 53 1024; f32_div := SFdiv 53 1024;
  f32_exp v := SFadd 53 1024 v (f 16);
  softmax_scores row := row;
}.

Lemma softmax_same_experts_witness :
  exists ws is', gating_topk x 4 2 (run 2 2) = Some (ws, is') /\
    gating_softmax_topk x 4 2 true (run 2 2) = Some (map softmax_weights ws, is').
Proof. apply softmax_same_experts; [apply x_matrix|apply run_valid]. Defined.

#[local] Instance arith : ScoreArith (V := pyfloat) := {
  score_add := SFadd 53 1024;
  row_sum row := fold_left (SFadd 53 1024) row (f 0);
  row_max row := fold_left (fun a b => if SFltb a b then b else a) row (f (-100));
}.

Definition bias : list pyfloat := [f 0; f 1; f 20; f 0].

(** The bias makes the second group win for both tokens; the weights are the
    scores without it. *)
Lemma group_limited_selects_witness : exists ws is',
  group_limited_greedy_topk x 1 4 2 1 noaux_tc 2 (Some bias) (run 2 4) (run 1 2) (run 1 2) [[f 5]; [f 5]] =
    Some (ws, is') /\ length is' = 2%nat /\ length ws = 2%nat /\
  forall t row i, add_bias x bias !! t = Some row -> is' !! t = Some i ->
    exists w, group_limited_choice noaux_tc 1 1 2 2 row w i /\
      ws !! t = Some (map (fun e => default score_min (r ← x !! t; r !! Z.to_nat e)) i).
Proof.
  apply (group_limited_selects noaux_tc 2 1 1 2 2 x (Some bias) (add_bias x bias));
    try lia; try (split; [done|repeat constructor]); try apply run_valid.
  - done.
  - apply Forall_forall. intros row Hrow. apply Forall_forall. intros v Hv.
    repeat (apply elem_of_cons in Hrow as [->|Hrow]; [repeat (apply elem_of_cons in Hv as [->|Hv]; [done|]); by apply elem_of_nil in Hv|]).
    by apply elem_of_nil in Hrow.
  - repeat constructor.
  - intros _. split; [apply run_valid|lia].
Defined.

(** Nothing above the minimum: the kernel returns the indices that the local
    buffer held. *)
Example stray_index : gating_topk [[S754_nan; S754_nan]] 2 1 (run 1 1) = Some ([[score_min]], [[55]]).
Proof. vm_compute. reflexivity. Qed.
End MoeGatingExample.
