(* ===== verification/MoeRouting.v ===== *)
(** * Routing the tokens to their experts

    The shuffling plan of [op/moe_misc.py]: [moe_cumsum], [get_indices],
    [get_indptr], [scatter_output] and [moe_sum].  The plan lists the pairs of
    an expert and a token by expert, then by token; the indices are the
    positions in this list. *)

From stdpp Require Import base list sets.
From S2P Require Import Prelude TirBuffer.
Local Open Scope Z_scope.

(** ** The operators *)

(** [reduce(tir.Or, [...])] of an empty list raises. *)
Definition reduce_or (l : list bool) : option bool :=
  match l with
  | [] => None
  | b :: l => Some (fold_left orb l b)
  end.

Definition expert_mask_at (experts_per_tok : nat) (expert_indices : list (list Z)) (i j : nat) : option Z :=
  hits ← mapM (M := option) (fun k => e ← load2 expert_indices (Z.of_nat i) (Z.of_nat k); Some (e =? Z.of_nat j))
           (seq 0 experts_per_tok);
  b ← reduce_or hits;
  Some (Z.b2z b).

(** [x.permute_dims(1, 0)] of a matrix with [m] columns *)
Definition permute_dims10 {A} (m : nat) (x : list (list A)) : option (list (list A)) :=
  mapM (fun j => mapM (fun row => row !! j) x) (seq 0 m).

(** [op.cumsum(_, exclusive=False, dtype="int32")] *)
Fixpoint cumsum_from (acc : Z) (l : list Z) : list Z :=
  match l with
  | [] => []
  | x :: l => let acc := i32 (acc + x) in acc :: cumsum_from acc l
  end.

Definition moe_cumsum (batch_size experts_per_tok num_local_experts : nat) (expert_indices : list (list Z))
    : option (list Z) :=
  expert_mask ← te_compute2 batch_size num_local_experts (expert_mask_at experts_per_tok expert_indices);
  transposed ← permute_dims10 num_local_experts expert_mask;
  Some (cumsum_from 0 (concat transposed)).

Definition TX : nat := 1024.

(** One thread of [get_indices]. *)
Definition get_indices_thread (batch_size experts_per_tok : nat) (cumsum : list Z)
    (expert_indices : list (list Z)) (v : nat) (o : list Z * list Z) : option (list Z * list Z) :=
  let b := (v / experts_per_tok)%nat in
  let j := (v mod experts_per_tok)%nat in
  e ← load2 expert_indices (Z.of_nat b) (Z.of_nat j);
  c ← load1 cumsum (i32 (e * Z.of_nat batch_size + Z.of_nat b));
  reverse_indices ← store o.1 (c - 1) (i32 (Z.of_nat b * Z.of_nat experts_per_tok + Z.of_nat j));
  token_indices ← store o.2 (c - 1) (Z.of_nat b);
  Some (reverse_indices, token_indices).

Definition get_indices (batch_size experts_per_tok : nat) (cumsum : list Z) (expert_indices : list (list Z))
    (order : list (nat * nat)) (o : list Z * list Z) : option (list Z * list Z) :=
  launch TX (batch_size * experts_per_tok)
    (get_indices_thread batch_size experts_per_tok cumsum expert_indices) order o.

(** The value of the [Select] in [_func_exclusive]: the load counts only where
    its value is taken. *)
Definition get_indptr (cumsum : list Z) (num_local_experts batch_size : nat) (inclusive : bool)
    (indptr : list Z) : option (list Z) :=
  let len := if inclusive then num_local_experts else S num_local_experts in
  ofold (fun i indptr =>
           v ← (if inclusive then load1 cumsum ((Z.of_nat i + 1) * Z.of_nat batch_size - 1)
                else if Nat.ltb 0 i then load1 cumsum (Z.of_nat i * Z.of_nat batch_size - 1) else Some 0);
           store indptr (Z.of_nat i) v) (seq 0 len) indptr.

Section Rows.
Context {F : Type}.

Definition scatter_output (hidden_size : nat) (x : list (list F)) (indices : list Z) (out : list (list F))
    : option (list (list F)) :=
  ofold (fun i out =>
           ofold (fun j out =>
                    r ← load1 indices (Z.of_nat i);
                    v ← load2 x (Z.of_nat i) (Z.of_nat j);
                    store2 out r (Z.of_nat j) v) (seq 0 hidden_size) out)
    (seq 0 (length x)) out.

(** [op.take(x, token_indices, axis=0)] *)
Definition take_rows (x : list (list F)) (indices : list Z) : option (list (list F)) :=
  mapM (load1 x) indices.
End Rows.

(** ** Specification: the shuffling plan *)

Section Plan.
Variables (batch_size experts_per_tok num_local_experts : nat) (expert_indices : list (list Z)).

Definition experts_of (b : nat) : list Z := default [] (expert_indices !! b).

(** Whether token [b] goes to expert [e]. *)
Definition routed (c : nat * nat) : bool := existsb (Z.eqb (Z.of_nat c.1)) (experts_of c.2).

(** The pairs of an expert and a token that goes to it, by expert, then by
    token. *)
Definition shuffle_plan : list (nat * nat) := List.filter routed (grid num_local_experts batch_size).

Fixpoint index_of (e : Z) (l : list Z) : nat :=
  match l with
  | [] => 0
  | x :: l => if Z.eqb e x then 0 else S (index_of e l)
  end.

(** The place of a pair in the output, [b * experts_per_tok + j]. *)
Definition slot (c : nat * nat) : nat :=
  (c.2 * experts_per_tok + index_of (Z.of_nat c.1) (experts_of c.2))%nat.

(** The first position of expert [e] in the plan. *)
Definition plan_start (e : nat) : nat :=
  length (List.filter routed (grid e batch_size)).

(** Every token has [experts_per_tok] distinct experts; the sizes fit in
    int32. *)
Record valid_routing : Prop := {
  vr_shape : matrix batch_size experts_per_tok expert_indices;
  vr_range : Forall (Forall (fun e => 0 <= e < Z.of_nat num_local_experts)) expert_indices;
  vr_distinct : Forall NoDup expert_indices;
  vr_experts : (0 < experts_per_tok)%nat;
  vr_tokens : (0 < batch_size)%nat;
  vr_bound : Z.of_nat (num_local_experts * batch_size) < 2 ^ 31;
}.
Hypothesis valid : valid_routing.

(** ** Lemmas *)

Lemma experts_row b : (b < batch_size)%nat ->
  expert_indices !! b = Some (experts_of b) /\ length (experts_of b) = experts_per_tok /\
  NoDup (experts_of b) /\ Forall (fun e => 0 <= e < Z.of_nat num_local_experts) (experts_of b).
Proof.
  intros Hb. destruct (matrix_row _ _ _ b (vr_shape valid) Hb) as (r & Hr & Hl).
  unfold experts_of. rewrite Hr. cbn. split; [done|]. split; [done|].
  split; [exact (Forall_lookup_1 _ _ _ _ (vr_distinct valid) Hr)|].
  exact (Forall_lookup_1 _ _ _ _ (vr_range valid) Hr).
Qed.

Lemma fold_orb l b : fold_left orb l b = (b || existsb id l)%bool.
Proof.
  revert b. induction l as [|x l IH]; intros b; cbn; [by rewrite orb_false_r|].
  by rewrite IH, orb_assoc.
Qed.

Lemma expert_mask_spec i j : (i < batch_size)%nat ->
  expert_mask_at experts_per_tok expert_indices i j = Some (Z.b2z (routed (j, i))).
Proof.
  intros Hi. destruct (experts_row i Hi) as (Hr & Hl & _). unfold expert_mask_at.
  rewrite (mapM_Some' _ (fun k => default 0 (experts_of i !! k) =? Z.of_nat j)).
  - rewrite <- (map_map (fun k => default 0 (experts_of i !! k)) (fun e => e =? Z.of_nat j)).
    rewrite <- Hl, map_lookup_seq. cbn [mbind option_bind]. unfold routed. cbn [fst snd].
    assert (E : reduce_or (map (fun e => e =? Z.of_nat j) (experts_of i)) =
                Some (existsb (Z.eqb (Z.of_nat j)) (experts_of i))).
    { pose proof (vr_experts valid). destruct (experts_of i) as [|x l]; [cbn in Hl; lia|].
      cbn [map reduce_or existsb]. f_equal. rewrite fold_orb, (Z.eqb_sym x). f_equal. clear.
      induction l as [|y l IH]; cbn; [done|]. by rewrite IH, (Z.eqb_sym y). }
    rewrite E. done.
  - intros k Hk. apply in_seq in Hk. rewrite (load2_lookup _ _ _ _ Hr).
    destruct (lookup_lt_is_Some_2 (experts_of i) k) as [e He]; [lia|]. by rewrite He.
Qed.

(** The flattened mask is the indicator of the plan on the grid. *)
Lemma flat_mask : exists mask, te_compute2 batch_size num_local_experts
      (expert_mask_at experts_per_tok expert_indices) = Some mask /\
    exists m, permute_dims10 num_local_experts mask = Some m /\
      concat m = map (fun c => Z.b2z (routed c)) (grid num_local_experts batch_size).
Proof.
  set (ind := fun c => Z.b2z (routed c)).
  exists (map (fun i => map (fun j => ind (j, i)) (seq 0 num_local_experts)) (seq 0 batch_size)). split.
  - apply mapM_Some'. intros i Hi. apply in_seq in Hi. apply mapM_Some'. intros j _.
    apply expert_mask_spec. lia.
  - exists (map (fun j => map (fun i => ind (j, i)) (seq 0 batch_size)) (seq 0 num_local_experts)). split.
    + apply mapM_Some'. intros j Hj. apply in_seq in Hj.
      rewrite (mapM_Some' _ (fun row => default 0 (row !! j))).
      * f_equal. rewrite map_map. apply map_ext. intros i.
        rewrite list_lookup_fmap, lookup_seq_lt by lia. done.
      * intros row Hrow. apply in_map_iff in Hrow as (i & <- & _).
        rewrite list_lookup_fmap, lookup_seq_lt by lia. done.
    + unfold grid. rewrite flat_map_concat_map, concat_map. f_equal. rewrite map_map.
      apply map_ext. intros j. by rewrite map_map.
Qed.

(** The prefix sums count the plan. *)
Lemma cumsum_count (f : nat * nat -> bool) l acc p : Z.of_nat acc + Z.of_nat (length l) < 2 ^ 31 ->
  (p < length l)%nat ->
  cumsum_from (Z.of_nat acc) (map (fun c => Z.b2z (f c)) l) !! p =
  Some (Z.of_nat (acc + length (List.filter f (take (S p) l)))).
Proof.
  revert acc p. induction l as [|c l IH]; intros acc p Hb Hp; cbn in Hp; [lia|].
  cbn [map cumsum_from take List.filter]. rewrite i32_small by (destruct (f c); cbn in *; lia).
  replace (Z.of_nat acc + Z.b2z (f c)) with (Z.of_nat (if f c then S acc else acc))
    by (destruct (f c); cbn; lia).
  destruct p as [|p].
  - cbn [Nat.add List.filter take length]. change (Some (Z.of_nat (if f c then S acc else acc)) =
      Some (Z.of_nat (acc + length (if f c then [c] else [])))). destruct (f c); cbn; do 2 f_equal; lia.
  - change (cumsum_from (Z.of_nat (if f c then S acc else acc)) (map (fun c => Z.b2z (f c)) l) !! p =
      Some (Z.of_nat (acc + length (if f c then c :: List.filter f (take (S p) l)
                                    else List.filter f (take (S p) l))))).
    rewrite IH by (destruct (f c); cbn in *; lia). destruct (f c); cbn [length]; do 2 f_equal; lia.
Qed.

Lemma filter_position {A} (f : A -> bool) l p x : l !! p = Some x -> f x = true ->
  List.filter f l !! length (List.filter f (take p l)) = Some x /\
  length (List.filter f (take (S p) l)) = S (length (List.filter f (take p l))).
Proof.
  intros Hp Hx. split.
  - pose proof (List.filter_app f (take p l) (x :: drop (S p) l)) as E.
    rewrite (take_drop_middle _ _ _ Hp) in E. rewrite E. rewrite lookup_app_r, Nat.sub_diag by lia. cbn. by rewrite Hx.
  - rewrite (take_S_r _ _ _ Hp), List.filter_app, length_app. cbn. rewrite Hx. cbn. lia.
Qed.
(** *** The plan and the pairs of the output *)

(** The pair that is computed for place [v] of the output. *)
Definition cell (v : nat) : nat * nat :=
  (Z.to_nat (default 0 (experts_of (v / experts_per_tok) !! (v mod experts_per_tok)%nat)),
   (v / experts_per_tok)%nat).

Lemma index_of_lookup e l j : NoDup l -> l !! j = Some e -> index_of e l = j.
Proof.
  intros Hl. revert j. induction Hl as [|x l Hx _ IH]; intros [|j] Hj; cbn in *; [done|done|..].
  - injection Hj as ->. by rewrite Z.eqb_refl.
  - destruct (Z.eqb_spec e x) as [->|]; [|by rewrite (IH j)].
    destruct Hx. by eapply list_elem_of_lookup_2.
Qed.

Lemma index_of_In e l : In e l -> l !! index_of e l = Some e.
Proof.
  induction l as [|x l IH]; cbn; [done|]. intros [->|Hin]; [by rewrite Z.eqb_refl|].
  destruct (Z.eqb_spec e x) as [->|]; [done|]. by apply IH.
Qed.

Lemma routed_In c : routed c = true <-> In (Z.of_nat c.1) (experts_of c.2).
Proof.
  unfold routed. rewrite existsb_exists. split.
  - by intros (x & Hx & <-%Z.eqb_eq).
  - intros Hin. exists (Z.of_nat c.1). by rewrite Z.eqb_refl.
Qed.

Lemma cell_token v : (v < batch_size * experts_per_tok)%nat -> (v / experts_per_tok < batch_size)%nat /\
  exists e, experts_of (v / experts_per_tok) !! (v mod experts_per_tok)%nat = Some e /\
    0 <= e < Z.of_nat num_local_experts /\ cell v = (Z.to_nat e, (v / experts_per_tok)%nat) /\
    In (cell v) shuffle_plan /\ slot (cell v) = v.
Proof.
  intros Hv. pose proof (vr_experts valid) as Hept.
  assert (Hb : (v / experts_per_tok < batch_size)%nat) by (apply Nat.Div0.div_lt_upper_bound; lia).
  split; [done|]. destruct (experts_row _ Hb) as (Hr & Hl & Hnd & Hrange).
  destruct (lookup_lt_is_Some_2 (experts_of (v / experts_per_tok)) (v mod experts_per_tok)) as [e He].
  { rewrite Hl. apply Nat.mod_upper_bound. lia. }
  assert (Her := Forall_lookup_1 _ _ _ _ Hrange He). cbn in Her. exists e. split; [done|]. split; [done|].
  assert (Ec : cell v = (Z.to_nat e, (v / experts_per_tok)%nat)) by (unfold cell; by rewrite He).
  split; [done|]. split.
  - apply filter_In. rewrite Ec. split; [apply grid_In; cbn; lia|]. apply routed_In. cbn.
    rewrite Z2Nat.id by lia. apply list_elem_of_In. by eapply list_elem_of_lookup_2.
  - rewrite Ec. unfold slot. cbn [fst snd]. rewrite Z2Nat.id by lia.
    rewrite (index_of_lookup e _ (v mod experts_per_tok)) by done.
    pose proof (Nat.div_mod_eq v experts_per_tok). lia.
Qed.

Lemma slot_cell c : In c shuffle_plan -> (slot c < batch_size * experts_per_tok)%nat /\ cell (slot c) = c.
Proof.
  intros [Hg Hr]%filter_In. apply grid_In in Hg as [He Hb]. apply routed_In in Hr.
  destruct (experts_row _ Hb) as (_ & Hl & _). destruct c as [e b]. cbn [fst snd] in *.
  pose proof (index_of_In _ _ Hr) as Hj. pose proof (lookup_lt_Some _ _ _ Hj).
  unfold slot. cbn [fst snd]. split; [nia|].
  assert (Hd : ((b * experts_per_tok + index_of (Z.of_nat e) (experts_of b)) / experts_per_tok = b)%nat)
    by (rewrite Nat.div_add_l, Nat.div_small; lia).
  unfold cell. rewrite Hd, Nat.add_comm, Nat.Div0.mod_add, Nat.mod_small by lia.
  rewrite Hj. cbn. by rewrite Nat2Z.id.
Qed.

Lemma plan_NoDup : NoDup shuffle_plan.
Proof. apply filter_NoDup, grid_NoDup. Qed.

(** The plan has every pair of the output once. *)
Lemma plan_slots : Permutation (map slot shuffle_plan) (seq 0 (batch_size * experts_per_tok)).
Proof.
  apply NoDup_Permutation.
  - assert (Hm : map cell (map slot shuffle_plan) = shuffle_plan).
    { rewrite map_map. rewrite <- map_id. apply map_ext_in. intros c Hc. by apply slot_cell. }
    apply (NoDup_fmap_1 cell). change (NoDup (map cell (map slot shuffle_plan))). rewrite Hm. apply plan_NoDup.
  - apply NoDup_seq.
  - intros v. rewrite !list_elem_of_In, in_map_iff, in_seq. split.
    + intros (c & <- & Hc). apply slot_cell in Hc. lia.
    + intros Hv. destruct (cell_token v) as (_ & e & _ & _ & _ & Hin & Hs); [lia|]. by exists (cell v).
Qed.

Lemma plan_length : length shuffle_plan = (batch_size * experts_per_tok)%nat.
Proof. by rewrite <- (length_map slot), plan_slots, length_seq. Qed.

(** The position of a pair in the plan. *)
Definition position (c : nat * nat) : nat :=
  length (List.filter routed (take (c.1 * batch_size + c.2) (grid num_local_experts batch_size))).

Lemma plan_position c : In c shuffle_plan -> shuffle_plan !! position c = Some c /\
  length (List.filter routed (take (S (c.1 * batch_size + c.2)) (grid num_local_experts batch_size))) =
  S (position c).
Proof.
  intros [Hg Hr]%filter_In. apply grid_In in Hg as [He Hb].
  apply filter_position; [|done]. destruct c as [e b]. by apply grid_lookup.
Qed.

(** *** The operators on the plan *)

Lemma moe_cumsum_spec : exists c,
  moe_cumsum batch_size experts_per_tok num_local_experts expert_indices = Some c /\
  forall p, (p < num_local_experts * batch_size)%nat ->
    c !! p = Some (Z.of_nat (length (List.filter routed (take (S p) (grid num_local_experts batch_size))))).
Proof.
  destruct flat_mask as (mask & Hm & m & Hp & Hc). unfold moe_cumsum. rewrite Hm. cbn [mbind option_bind].
  rewrite Hp. cbn [mbind option_bind]. rewrite Hc. eexists. split; [done|]. intros p Hlt.
  apply (cumsum_count routed _ 0); rewrite grid_length; [|done]. pose proof (vr_bound valid). lia.
Qed.

Lemma plan_bound : Z.of_nat (batch_size * experts_per_tok) < 2 ^ 31.
Proof.
  rewrite <- plan_length. pose proof (vr_bound valid).
  pose proof (List.filter_length_le routed (grid num_local_experts batch_size)) as Hf.
  rewrite grid_length in Hf. unfold shuffle_plan. lia.
Qed.

Variable c : list Z.
Hypothesis c_spec : forall p, (p < num_local_experts * batch_size)%nat ->
  c !! p = Some (Z.of_nat (length (List.filter routed (take (S p) (grid num_local_experts batch_size))))).

Lemma get_indices_thread_spec v o : (v < batch_size * experts_per_tok)%nat ->
  get_indices_thread batch_size experts_per_tok c expert_indices v o =
  (r ← store o.1 (Z.of_nat (position (cell v))) (Z.of_nat v);
   t ← store o.2 (Z.of_nat (position (cell v))) (Z.of_nat (cell v).2); Some (r, t)).
Proof.
  intros Hv. destruct (cell_token v Hv) as (Hb & e & He & Her & Ec & Hin & _).
  destruct (experts_row _ Hb) as (Hr & _). unfold get_indices_thread.
  rewrite (load2_lookup _ _ _ _ Hr), He. cbn [mbind option_bind].
  destruct (plan_position _ Hin) as [_ Hpos]. pose proof (vr_bound valid). pose proof plan_bound.
  replace (e * Z.of_nat batch_size + Z.of_nat (v / experts_per_tok))
    with (Z.of_nat ((cell v).1 * batch_size + (cell v).2))
    by (rewrite Ec; cbn [fst snd]; rewrite Nat2Z.inj_add, Nat2Z.inj_mul, Z2Nat.id by lia; done).
  assert (Hp : ((cell v).1 * batch_size + (cell v).2 < num_local_experts * batch_size)%nat)
    by (rewrite Ec; cbn [fst snd]; nia).
  replace (Z.of_nat (v / experts_per_tok) * Z.of_nat experts_per_tok + Z.of_nat (v mod experts_per_tok))
    with (Z.of_nat v) by (rewrite (Nat.div_mod_eq v experts_per_tok) at 1; lia).
  rewrite (i32_small (Z.of_nat v)) by lia.
  rewrite i32_small, load_lookup, c_spec, Hpos by lia. cbn [mbind option_bind].
  replace (Z.of_nat (S (position (cell v))) - 1) with (Z.of_nat (position (cell v))) by lia.
  by rewrite Ec.
Qed.

(** The writes of all threads fill a buffer with the plan. *)
Lemma plan_writes {A} (f : nat * nat -> A) ids (o : list A) :
  Permutation ids (seq 0 (batch_size * experts_per_tok)) -> length o = (batch_size * experts_per_tok)%nat ->
  ofold (fun v o => store o (Z.of_nat (position (cell v))) (f (cell v))) ids o = Some (map f shuffle_plan).
Proof.
  intros Hids Ho.
  rewrite <- (ofold_map (fun w o => store o w.1 w.2)
    (fun v => (Z.of_nat (position (cell v)), f (cell v)))).
  assert (Hin : forall v, In v ids -> In (cell v) shuffle_plan /\ shuffle_plan !! position (cell v) = Some (cell v) /\
    slot (cell v) = v).
  { intros v Hv. rewrite Hids, in_seq in Hv. destruct (cell_token v) as (_ & e & _ & _ & _ & Hp & Hs); [lia|].
    split; [done|]. split; [by apply plan_position|done]. }
  apply write_all_covers.
  - by rewrite length_map, plan_length.
  - rewrite map_map. cbn [fst]. apply NoDup_ListNoDup. apply List.NoDup_map_NoDup_ForallPairs.
    + intros v w Hv Hw E%Nat2Z.inj. destruct (Hin v Hv) as (_ & Hpv & Hsv), (Hin w Hw) as (_ & Hpw & Hsw).
      rewrite <- Hsv, <- Hsw. rewrite E, Hpw in Hpv. congruence.
    + apply NoDup_ListNoDup. rewrite Hids. apply NoDup_seq.
  - apply Forall_map, Forall_forall. intros v Hv. cbn [fst snd]. rewrite list_elem_of_In in Hv.
    destruct (Hin v Hv) as (Hp & Hpos & _). rewrite Nat2Z.id, list_lookup_fmap, Hpos. split; [|done].
    apply lookup_lt_Some in Hpos. rewrite plan_length in Hpos. lia.
  - intros i Hi. rewrite map_map. cbn [fst]. apply in_map_iff. rewrite Ho, <- plan_length in Hi.
    destruct (lookup_lt_is_Some_2 shuffle_plan i Hi) as [x Hx].
    assert (Hxin : In x shuffle_plan) by (apply list_elem_of_In; by eapply list_elem_of_lookup_2).
    destruct (slot_cell x Hxin) as [Hs1 Hs2]. exists (slot x). rewrite Hs2. split.
    + f_equal. destruct (plan_position x Hxin) as [Hp _].
      exact (proj1 (NoDup_alt shuffle_plan) plan_NoDup _ _ _ Hp Hx).
    + rewrite Hids. apply in_seq. lia.
Qed.

Lemma get_indices_spec order o :
  Permutation order (grid (nat_ceildiv (batch_size * experts_per_tok) TX) TX) ->
  length o.1 = (batch_size * experts_per_tok)%nat -> length o.2 = (batch_size * experts_per_tok)%nat ->
  get_indices batch_size experts_per_tok c expert_indices order o =
  Some (map (fun x => Z.of_nat (slot x)) shuffle_plan, map (fun x => Z.of_nat x.2) shuffle_plan).
Proof.
  intros Hord H1 H2. unfold get_indices.
  destruct (launch_numbers TX (batch_size * experts_per_tok)
    (get_indices_thread batch_size experts_per_tok c expert_indices) order o _ Hord) as (ids & Hids & ->).
  { apply nat_ceildiv_covers. unfold TX. lia. }
  destruct o as [o1 o2]. cbn [fst snd] in H1, H2.
  transitivity (ofold (fun v o =>
    r ← store o.1 (Z.of_nat (position (cell v))) (Z.of_nat (slot (cell v)));
    t ← store o.2 (Z.of_nat (position (cell v))) (Z.of_nat (cell v).2); Some (r, t)) ids (o1, o2)).
  - apply ofold_ext. intros v o Hv. rewrite Hids, in_seq in Hv.
    rewrite get_indices_thread_spec by lia. destruct (cell_token v) as (_ & e & _ & _ & _ & _ & ->); [lia|done].
  - rewrite (ofold_pair (fun v o => store o (Z.of_nat (position (cell v))) (Z.of_nat (slot (cell v))))
      (fun v o => store o (Z.of_nat (position (cell v))) (Z.of_nat (cell v).2))).
    rewrite (plan_writes (fun x => Z.of_nat (slot x)) ids o1 Hids H1),
      (plan_writes (fun x => Z.of_nat x.2) ids o2 Hids H2). done.
Qed.

(** The last cumulative count before expert [e]. *)
Lemma cumsum_start e : (0 < e <= num_local_experts)%nat ->
  load1 c (Z.of_nat e * Z.of_nat batch_size - 1) = Some (Z.of_nat (plan_start e)).
Proof.
  intros He. pose proof (vr_tokens valid).
  replace (Z.of_nat e * Z.of_nat batch_size - 1) with (Z.of_nat (e * batch_size - 1)) by nia.
  rewrite load_lookup, c_spec by nia. replace (S (e * batch_size - 1)) with (e * batch_size)%nat by nia.
  by rewrite grid_take by lia.
Qed.

Lemma get_indptr_spec (inclusive : bool) indptr :
  length indptr = (if inclusive then num_local_experts else S num_local_experts) ->
  get_indptr c num_local_experts batch_size inclusive indptr =
  Some (map (fun e => Z.of_nat (plan_start e))
         (if inclusive then seq 1 num_local_experts else seq 0 (S num_local_experts))).
Proof.
  intros Hl. unfold get_indptr. destruct inclusive.
  - rewrite <- seq_shift, map_map. rewrite <- (ofold_fill _ (seq 0 num_local_experts) _ indptr) by done.
    apply ofold_ext. intros i b Hi. apply in_seq in Hi.
    replace (Z.of_nat i + 1) with (Z.of_nat (S i)) by lia. by rewrite cumsum_start by lia.
  - rewrite <- (ofold_fill _ (seq 0 (S num_local_experts)) _ indptr) by done.
    apply ofold_ext. intros i b Hi. apply in_seq in Hi.
    destruct (Nat.ltb_spec 0 i) as [Hlt|Hge].
    + by rewrite cumsum_start by lia.
    + by replace i with 0%nat by lia.
Qed.

Lemma filter_take_le {A} (f : A -> bool) l m n : (m <= n)%nat ->
  (length (List.filter f (take m l)) <= length (List.filter f (take n l)))%nat.
Proof.
  intros Hmn. replace (take n l) with (take m l ++ take (n - m) (drop m l)).
  - rewrite List.filter_app, length_app. lia.
  - replace n with (m + (n - m))%nat at 2 by lia. by rewrite take_take_drop.
Qed.

(** The pairs of expert [e] lie between its start and the next one. *)
Lemma position_range x : In x shuffle_plan -> (plan_start x.1 <= position x < plan_start (S x.1))%nat.
Proof.
  intros Hx. destruct (plan_position x Hx) as [_ Hs]. apply filter_In in Hx as [Hg _].
  apply grid_In in Hg as [He Hb]. unfold plan_start, position in *.
  rewrite <- (grid_take x.1 num_local_experts), <- (grid_take (S x.1) num_local_experts) by lia. split.
  - apply filter_take_le. lia.
  - rewrite <- Nat.le_succ_l, <- Hs. apply filter_take_le. lia.
Qed.

Lemma plan_range i x : shuffle_plan !! i = Some x -> (plan_start x.1 <= i < plan_start (S x.1))%nat.
Proof.
  intros Hi. assert (Hin : In x shuffle_plan) by (apply list_elem_of_In; by eapply list_elem_of_lookup_2).
  destruct (plan_position x Hin) as [Hp _]. rewrite <- (proj1 (NoDup_alt shuffle_plan) plan_NoDup _ _ _ Hp Hi).
  by apply position_range.
Qed.
End Plan.

(** ** Scattering *)

Section Scatter.
Context {F : Type}.

Lemma scatter_spec n h (f : nat -> list F) (slots : list nat) x out :
  Permutation slots (seq 0 n) -> length x = n -> (forall v, (v < n)%nat -> length (f v) = h) ->
  (forall i v, slots !! i = Some v -> x !! i = Some (f v)) -> matrix n h out ->
  scatter_output h x (map Z.of_nat slots) out = Some (map f (seq 0 n)).
Proof.
  intros Hp Hx Hf Hxf Hout. unfold scatter_output. rewrite Hx.
  assert (Hlen : length slots = n) by (by rewrite Hp, length_seq).
  assert (Hslot : forall i, (i < n)%nat -> exists v, slots !! i = Some v /\ (v < n)%nat).
  { intros i Hi. destruct (lookup_lt_is_Some_2 slots i) as [v Hv]; [lia|]. exists v. split; [done|].
    assert (Hin : v ∈ slots) by (by eapply list_elem_of_lookup_2).
    rewrite Hp, list_elem_of_In, in_seq in Hin. lia. }
  set (g := fun (out : list (list F)) i => <[default 0%nat (slots !! i) := f (default 0%nat (slots !! i))]> out).
  destruct (ofold_total
    (fun i out => ofold (fun j out => r ← load1 (map Z.of_nat slots) (Z.of_nat i);
                                      v ← load2 x (Z.of_nat i) (Z.of_nat j);
                                      store2 out r (Z.of_nat j) v) (seq 0 h) out)
    g (matrix n h) (seq 0 n) out) as [-> _]; [done| |].
  - intros i o Hi Ho. apply in_seq in Hi. destruct (Hslot i) as (v & Hv & Hvn); [lia|].
    assert (Hg : g o i = <[v := f v]> o) by (unfold g; by rewrite Hv). rewrite Hg.
    split; [|by apply matrix_insert; [|apply Hf]].
    destruct (matrix_row n h o v Ho Hvn) as (r & Hr & Hrl).
    pose proof (Hf v Hvn) as Hfl. pose proof (Hxf i v Hv) as Hxi. destruct (f v) as [|d l] eqn:Efv.
    + cbn in Hfl. subst h. cbn [seq ofold]. destruct r; [|done]. by rewrite list_insert_id by done.
    + rewrite <- (map_lookup_seq d (d :: l)), Hfl. rewrite <- (ofold_row_fill _ v h o r Hr Hrl).
      apply ofold_ext. intros j o' Hj. apply in_seq in Hj.
      rewrite load_lookup, list_lookup_fmap, Hv. cbn [fmap option_fmap option_map mbind option_bind].
      rewrite (load2_lookup _ _ _ _ Hxi).
      destruct (lookup_lt_is_Some_2 (d :: l) j) as [y ->]; [lia|]. done.
  - f_equal. rewrite <- (fold_insert_seq f slots n out) by (done || apply Hout).
    transitivity (fold_left (fun b t => <[t := f t]> b) (map (fun i => default 0%nat (slots !! i)) (seq 0 n)) out).
    { by rewrite fold_left_map. } f_equal. by rewrite <- Hlen, map_lookup_seq.
Qed.
End Scatter.

(** C14: the shuffling plan of a valid routing: whatever the order of the
    threads, [reverse_indices] is a permutation of the places of the output,
    and the position of every token's choice holds the token and lies in the
    range that [indptr] gives to its expert. *)
Theorem routing_plan B ept ne ei order o indptr : valid_routing B ept ne ei ->
  Permutation order (grid (nat_ceildiv (B * ept) TX) TX) ->
  length o.1 = (B * ept)%nat -> length o.2 = (B * ept)%nat -> length indptr = S ne ->
  exists cumsum reverse_indices token_indices ptr,
    moe_cumsum B ept ne ei = Some cumsum /\
    get_indices B ept cumsum ei order o = Some (reverse_indices, token_indices) /\
    get_indptr cumsum ne B false indptr = Some ptr /\
    Permutation reverse_indices (map Z.of_nat (seq 0 (B * ept))) /\
    forall b j e, (b < B)%nat -> (j < ept)%nat -> at2 ei b j = Some e ->
      exists i lo hi, reverse_indices !! i = Some (Z.of_nat (b * ept + j)) /\
        token_indices !! i = Some (Z.of_nat b) /\
        ptr !! Z.to_nat e = Some lo /\ ptr !! S (Z.to_nat e) = Some hi /\ lo <= Z.of_nat i < hi.
Proof.
  intros Hv Hord H1 H2 Hp. destruct (moe_cumsum_spec B ept ne ei Hv) as (c & Hc & Hspec).
  exists c. do 3 eexists. split; [done|]. split; [by apply (get_indices_spec B ept ne ei Hv)|].
  split; [by apply (get_indptr_spec B ept ne ei Hv c Hspec false)|]. split.
  - rewrite <- (map_map (slot ept ei) Z.of_nat). apply Permutation_map, plan_slots, Hv.
  - intros b j e Hb Hj He. destruct (cell_token B ept ne ei Hv (b * ept + j)) as (Hb' & e' & He' & Hr & Ec & Hin & Hs); [nia|].
    assert (Hd : ((b * ept + j) / ept = b)%nat) by (rewrite Nat.div_add_l, Nat.div_small; lia).
    assert (Hm : ((b * ept + j) mod ept = j)%nat) by (rewrite Nat.add_comm, Nat.Div0.mod_add, Nat.mod_small; lia).
    rewrite Hd, Hm in He'. rewrite Hd in Ec.
    assert (e' = e) as -> by (unfold at2, experts_of in *; destruct (ei !! b); cbn in *; congruence).
    destruct (plan_position B ne ei _ Hin) as [Hpos _]. pose proof (position_range B ne ei _ Hin) as Hrange.
    rewrite Ec in Hpos, Hrange, Hs. cbn [fst] in Hrange.
    eexists _, _, _. split; [rewrite list_lookup_fmap, Hpos; cbn [fmap option_fmap option_map]; by rewrite Hs|].
    split; [by rewrite list_lookup_fmap, Hpos|].
    rewrite !list_lookup_fmap, !lookup_seq_lt by lia. cbn [fmap option_fmap option_map].
    split; [done|]. split; [done|]. rewrite !Nat.add_0_l in *. lia.
Qed.

(** ** The example of [moe_cumsum]'s documentation *)

Module MoeRoutingExample.
Definition expert_indices : list (list Z) := [[0; 1]; [1; 2]; [3; 4]; [2; 5]].

Example documented_cumsum : moe_cumsum 4 2 6 expert_indices = Some
  [1; 1; 1; 1;  2; 3; 3; 3;  3; 4; 4; 5;  5; 5; 6; 6;  6; 6; 7; 7;  7; 7; 7; 8].
Proof. reflexivity. Qed.

Lemma routing_valid : valid_routing 4 2 6 expert_indices.
Proof.
  constructor; try lia.
  - split; [done|]. repeat constructor.
  - repeat constructor; lia.
  - repeat constructor; set_solver.
Qed.

Lemma routing_plan_witness : exists cumsum reverse_indices token_indices ptr,
  moe_cumsum 4 2 6 expert_indices = Some cumsum /\
  get_indices 4 2 cumsum expert_indices (rev (grid 1 TX)) (replicate 8 (-1), replicate 8 (-1)) =
    Some (reverse_indices, token_indices) /\
  get_indptr cumsum 6 4 false (replicate 7 (-1)) = Some ptr /\
  Permutation reverse_indices (map Z.of_nat (seq 0 8)) /\
  forall b j e, (b < 4)%nat -> (j < 2)%nat -> at2 expert_indices b j = Some e ->
    exists i lo hi, reverse_indices !! i = Some (Z.of_nat (b * 2 + j)) /\
      token_indices !! i = Some (Z.of_nat b) /\
      ptr !! Z.to_nat e = Some lo /\ ptr !! S (Z.to_nat e) = Some hi /\ lo <= Z.of_nat i < hi.
Proof.
  apply (routing_plan 4 2 6 expert_indices); [apply routing_valid| |done|done|done].
  symmetry. apply Permutation_rev.
Defined.

Example documented_indices : get_indices 4 2
  [1; 1; 1; 1;  2; 3; 3; 3;  3; 4; 4; 5;  5; 5; 6; 6;  6; 6; 7; 7;  7; 7; 7; 8] expert_indices
  (grid 1 TX) (replicate 8 (-1), replicate 8 (-1)) =
  Some ([0; 1; 2; 3; 6; 4; 5; 7], [0; 0; 1; 1; 3; 2; 2; 3]).
Proof. vm_compute. reflexivity. Qed.
End MoeRoutingExample.
