(* ===== verification/Quantization.v ===== *)
(** * Quantization schemes ([quantization/*.py])

    The configuration of each scheme with its [__post_init__], the registry
    [QUANTIZATION], and the packing of small integers into storage words
    ([quantization/utils.py]): what is packed is unpacked again. *)

From stdpp Require Import base list strings.
From S2P Require Import Prelude PyStr Loader.
From S2P Require Import PyNum NnModule.
Local Open Scope string_scope.
Local Open Scope list_scope.
Local Open Scope Z_scope.

(** ** The configurations *)

Record GroupQuantize : Set := mkGroupQuantize {
  gq_name : string; gq_kind : string; group_size : Z;
  quantize_dtype : string; storage_dtype : string; gq_model_dtype : string;
  linear_weight_layout : string;
  gq_quantize_embedding : bool; gq_quantize_final_fc : bool;
  num_elem_per_storage : Z; num_storage_per_group : Z; max_int_value : Z;
  gq_tensor_parallel_shards : Z;
  linear_quant_axis : Z;
}.

Record AWQQuantize : Set := mkAWQQuantize {
  awq_name : string; awq_kind : string; awq_group_size : Z;
  awq_quantize_dtype : string; awq_storage_dtype : string; awq_model_dtype : string;
  awq_num_elem_per_storage : Z; awq_num_storage_per_group : Z; awq_max_int_value : Z;
}.

Record FTQuantize : Set := mkFTQuantize {
  ft_name : string; ft_kind : string; ft_quantize_dtype : string; ft_storage_dtype : string;
  ft_model_dtype : string; ft_group_size : option Z;
  ft_num_elem_per_storage : Z; ft_max_int_value : Z;
}.

Record PerTensorQuantize : Set := mkPerTensorQuantize {
  pt_name : string; pt_kind : string; activation_dtype : string; weight_dtype : string;
  pt_storage_dtype : string; pt_model_dtype : string;
  pt_quantize_embedding : bool; pt_quantize_final_fc : bool; quantize_linear : bool;
  use_scale : bool; calibration_mode : string;
  pt_num_elem_per_storage : Z; pt_max_int_value : Z; pt_tensor_parallel_shards : Z;
}.

Record BlockScaleQuantize : Set := mkBlockScaleQuantize {
  bs_name : string; bs_kind : string; bs_weight_dtype : string; bs_model_dtype : string;
  bs_quantize_linear : bool; bs_weight_block_size : option (list Z);
}.

Record NoQuantize : Set := mkNoQuantize { nq_name : string; nq_kind : string; nq_model_dtype : string }.

Section Configurations.
Context {DT : DataTypes}.

(** What [__post_init__] of two schemes has in common: the elements of a
    storage word, the words of a group, and the largest value. *)
Definition too_small : exn := ValueError [Lit "Storage unit should be greater or equal to quantized element"].

Definition packing_of (group_size : Z) (quantize_dtype storage_dtype : TypeCode * Z) : res (Z * Z * Z) :=
  if snd storage_dtype <? snd quantize_dtype then Raise too_small
  else
    if snd quantize_dtype =? 0 then Raise ZeroDivisionError
    else
      let num_elem_per_storage := snd storage_dtype / snd quantize_dtype in
      if negb (group_size mod num_elem_per_storage =? 0)
      then Raise (ValueError [Lit "Group size should be divisible by numbers of elements per storage"])
      else Ok (num_elem_per_storage, group_size / num_elem_per_storage,
               2 ^ (snd quantize_dtype - 1) - 1).

Definition is_code (l : list TypeCode) (t : TypeCode * Z) : bool := bool_decide (fst t ∈ l).

(** [GroupQuantize(...)] *)
Definition GroupQuantize_new (name kind : string) (group_size : Z)
    (quantize_dtype storage_dtype model_dtype linear_weight_layout : string)
    (quantize_embedding quantize_final_fc : bool) : res GroupQuantize :=
  let? _ := py_assert (String.eqb kind "group-quant") in
  let? q := DataType quantize_dtype in
  let? s := DataType storage_dtype in
  let? m := DataType model_dtype in
  let? _ := py_assert (is_code [INT] q) in
  let? _ := py_assert (is_code [UINT] s) in
  let? _ := py_assert (is_code [FLOAT; BFLOAT] m) in
  let? (num_elem, num_storage, max_int) := packing_of group_size q s in
  Ok (mkGroupQuantize name kind group_size quantize_dtype storage_dtype model_dtype
        linear_weight_layout quantize_embedding quantize_final_fc
        num_elem num_storage max_int 0
        (if String.eqb linear_weight_layout "KN" then 0 else 1)).

(** [AWQQuantize(...)] *)
Definition AWQQuantize_new (name kind : string) (group_size : Z)
    (quantize_dtype storage_dtype model_dtype : string) : res AWQQuantize :=
  let? _ := py_assert (String.eqb kind "awq") in
  let? q := DataType quantize_dtype in
  let? s := DataType storage_dtype in
  let? m := DataType model_dtype in
  let? _ := py_assert (is_code [INT] q) in
  let? _ := py_assert (is_code [UINT] s) in
  let? _ := py_assert (is_code [FLOAT] m) in
  let? (num_elem, num_storage, max_int) := packing_of group_size q s in
  Ok (mkAWQQuantize name kind group_size quantize_dtype storage_dtype model_dtype
        num_elem num_storage max_int).

(** [FTQuantize(...)] *)
Definition FTQuantize_new (name kind quantize_dtype storage_dtype model_dtype : string)
    (group_size : option Z) : res FTQuantize :=
  let? _ := py_assert (String.eqb kind "ft-quant") in
  let? q := DataType quantize_dtype in
  let? s := DataType storage_dtype in
  let? _ := py_assert (str_mem quantize_dtype ["int4"; "int8"]) in
  let? _ := py_assert (is_code [INT] s) in
  let? _ := py_assert (String.eqb model_dtype "float16") in
  let? _ := py_assert (match group_size with None => true | Some g => (g =? 64) || (g =? 128) end) in
  if snd s <? snd q then Raise too_small
  else
    if snd q =? 0 then Raise ZeroDivisionError
    else Ok (mkFTQuantize name kind quantize_dtype storage_dtype model_dtype group_size
               (snd s / snd q) (2 ^ (snd q - 1) - 1)).

(** [fallback_group_quantize] *)
Definition fallback_group_quantize (c : FTQuantize) : res GroupQuantize :=
  GroupQuantize_new (ft_name c) "group-quant" 32 (ft_quantize_dtype c) "uint32" (ft_model_dtype c)
    "NK" true true.

(** [PerTensorQuantize(...)] *)
Definition PerTensorQuantize_new (name kind activation_dtype weight_dtype storage_dtype model_dtype : string)
    (quantize_embedding quantize_final_fc quantize_linear use_scale : bool) (calibration_mode : string)
    : res PerTensorQuantize :=
  let? _ := py_assert (String.eqb kind "per-tensor-quant") in
  let? s := DataType storage_dtype in
  let? w := DataType weight_dtype in
  if snd w =? 0 then Raise ZeroDivisionError
  else
    let? max_int := max_value weight_dtype in
    Ok (mkPerTensorQuantize name kind activation_dtype weight_dtype storage_dtype model_dtype
          quantize_embedding quantize_final_fc quantize_linear use_scale calibration_mode
          (snd s / snd w) max_int 1).

(** [BlockScaleQuantize(...)] *)
Definition BlockScaleQuantize_new (name kind weight_dtype model_dtype : string) (quantize_linear : bool)
    (weight_block_size : option (list Z)) : res BlockScaleQuantize :=
  let? _ := py_assert (String.eqb kind "block-scale-quant") in
  let? w := DataType weight_dtype in
  let? m := DataType model_dtype in
  let? _ := py_assert (is_code [Float8E4M3FN; Float8E5M2] w) in
  let? _ := py_assert (is_code [FLOAT; BFLOAT] m) in
  Ok (mkBlockScaleQuantize name kind weight_dtype model_dtype quantize_linear weight_block_size).

(** [NoQuantize(...)] *)
Definition NoQuantize_new (name kind model_dtype : string) : res NoQuantize :=
  let? _ := py_assert (String.eqb kind "no-quant") in
  Ok (mkNoQuantize name kind model_dtype).

(** ** [QUANTIZATION] *)

Inductive Scheme : Set :=
| SNo (c : NoQuantize) | SGroup (c : GroupQuantize) | SAWQ (c : AWQQuantize) | SFT (c : FTQuantize)
| SPerTensor (c : PerTensorQuantize) | SBlockScale (c : BlockScaleQuantize).

Definition scheme_name (s : Scheme) : string :=
  match s with
  | SNo c => nq_name c | SGroup c => gq_name c | SAWQ c => awq_name c | SFT c => ft_name c
  | SPerTensor c => pt_name c | SBlockScale c => bs_name c
  end.
Definition scheme_kind (s : Scheme) : string :=
  match s with
  | SNo c => nq_kind c | SGroup c => gq_kind c | SAWQ c => awq_kind c | SFT c => ft_kind c
  | SPerTensor c => pt_kind c | SBlockScale c => bs_kind c
  end.
Definition scheme_model_dtype (s : Scheme) : string :=
  match s with
  | SNo c => nq_model_dtype c | SGroup c => gq_model_dtype c | SAWQ c => awq_model_dtype c
  | SFT c => ft_model_dtype c | SPerTensor c => pt_model_dtype c | SBlockScale c => bs_model_dtype c
  end.

Definition no (name model_dtype : string) : res Scheme :=
  let? c := NoQuantize_new name "no-quant" model_dtype in Ok (SNo c).
Definition group (name : string) (group_size : Z) (quantize_dtype model_dtype layout : string)
    (quantize_embedding quantize_final_fc : bool) : res Scheme :=
  let? c := GroupQuantize_new name "group-quant" group_size quantize_dtype "uint32" model_dtype layout
              quantize_embedding quantize_final_fc in Ok (SGroup c).
Definition per_tensor (name dtype : string) (use_scale : bool) (calibration_mode : string) : res Scheme :=
  let? c := PerTensorQuantize_new name "per-tensor-quant" dtype dtype dtype "float16"
              false false true use_scale calibration_mode in Ok (SPerTensor c).

Definition QUANTIZATION_entries : list (res Scheme) :=
  [no "q0f16" "float16"; no "q0bf16" "bfloat16"; no "q0f32" "float32";
   group "q3f16_0" 40 "int3" "float16" "KN" true true;
   group "q3f16_1" 40 "int3" "float16" "NK" true true;
   group "q4f16_0" 32 "int4" "float16" "KN" true true;
   group "q4f16_1" 32 "int4" "float16" "NK" true true;
   group "q4bf16_0" 32 "int4" "bfloat16" "KN" true true;
   group "q4bf16_1" 32 "int4" "bfloat16" "NK" true true;
   group "q4f32_1" 32 "int4" "float32" "NK" true true;
   group "q4f16_2" 32 "int4" "float16" "NK" false false;
   (let? c := AWQQuantize_new "q4f16_autoawq" "awq" 128 "int4" "uint32" "float16" in Ok (SAWQ c));
   (let? c := FTQuantize_new "q4f16_ft" "ft-quant" "int4" "int8" "float16" None in Ok (SFT c));
   per_tensor "e5m2_e5m2_f16" "float8_e5m2" false "inference";
   per_tensor "e4m3_e4m3_f16" "float8_e4m3fn" true "inference";
   per_tensor "e4m3_e4m3_f16_max_calibrate" "float8_e4m3fn" true "max";
   (let? c := BlockScaleQuantize_new "fp8_e4m3fn_bf16_block_scale" "block-scale-quant" "float8_e4m3fn"
                "bfloat16" true None in Ok (SBlockScale c))].

(** The dictionary, built when the module is imported. *)
Definition QUANTIZATION : res (dict Scheme) :=
  let? l := rmap (fun x => x) QUANTIZATION_entries in
  Ok (dict_of (map (fun s => (scheme_name s, s)) l)).
End Configurations.

(** ** Packing ([quantization/utils.py])

    Along the packed axis a tensor is a function of the index; the other indices
    do not change. *)

(** [tir.ceildiv] *)
Definition ceildiv (a b : Z) : Z := (a + b - 1) / b.

(** [tir.sum] over a reduction axis of length [n], in words of [width] bits *)
Fixpoint word_sum (width : Z) (f : Z -> Z) (n : nat) : Z :=
  match n with
  | O => 0
  | S n => (word_sum width f n + f (Z.of_nat n)) mod 2 ^ width
  end.

(** [pack_weight]: word [i] of the packed tensor *)
Definition pack_weight (bits num_elem_per_storage width : Z) (weight : Z -> Z) (k : Z) (i : Z) : Z :=
  word_sum width
    (fun r => if i * num_elem_per_storage + r <? k
              then Z.shiftl (weight (i * num_elem_per_storage + r)) (r * bits) mod 2 ^ width
              else 0)
    (Z.to_nat num_elem_per_storage).

(** [convert_uint_to_float]: element [j], before it becomes a float *)
Definition elem_shift (ft_reorder : bool) (bits num_elem_per_storage j : Z) : Z :=
  (if ft_reorder
   then (j mod num_elem_per_storage) mod 2 * 4 + (j mod num_elem_per_storage) / 2
   else j mod num_elem_per_storage) * bits.
Definition convert_uint (ft_reorder : bool) (bits num_elem_per_storage : Z) (weight : Z -> Z) (j : Z) : Z :=
  Z.land (Z.shiftr (weight (j / num_elem_per_storage)) (elem_shift ft_reorder bits num_elem_per_storage j))
    (Z.shiftl 1 bits - 1).

(** [GroupQuantize._quantize]: the rounded quotient is clamped
    ([tir.min(tir.max(tir.round(...), 0), max_int * 2)]); [_dequantize]: the
    level that the scale is multiplied with.  The rounded quotient is an integer
    here: the rounding of the division itself is not represented, and neither
    is the group whose weights are all zero, where the scale is 0 and the
    quotient not a number. *)
Definition scaled_weight (max_int rounded : Z) : Z := Z.min (Z.max rounded 0) (max_int * 2).
Definition dequantized_level (max_int q : Z) : Z := q - max_int.

(** [FTQuantize._quantize]: the rounded quotient is clamped, and the low bits of
    the storage word are kept *)
Definition ft_scaled_weight (bits max_int rounded : Z) : Z :=
  Z.land (Z.min (Z.max rounded (- max_int - 1)) max_int) (Z.shiftl 1 bits - 1).

(** *** Lemmas *)

Lemma ceildiv_spec a b : 0 < b -> 0 <= a -> a <= ceildiv a b * b < a + b.
Proof. intros Hb Ha. unfold ceildiv. pose proof (Z.div_mod (a + b - 1) b). pose proof (Z.mod_pos_bound (a + b - 1) b). nia. Qed.

Lemma land_mask a bits : 0 <= bits -> Z.land a (Z.shiftl 1 bits - 1) = a mod 2 ^ bits.
Proof. intros H. rewrite Z.shiftl_mul_pow2, Z.mul_1_l, <- Z.land_ones, Z.ones_equiv by done. by rewrite Z.sub_1_r. Qed.

Section Packing.
Context (bits n width : Z) (Hb : 0 < bits) (Hn : 0 < n) (Hw : n * bits <= width).

(** The digits of a word: a number in base [2 ^ bits]. *)
Fixpoint digits_value (d : Z -> Z) (m : nat) : Z :=
  match m with
  | O => 0
  | S m => digits_value d m + d (Z.of_nat m) * 2 ^ (Z.of_nat m * bits)
  end.

Lemma digits_bound d m : (forall r, 0 <= r < Z.of_nat m -> 0 <= d r < 2 ^ bits) ->
  0 <= digits_value d m < 2 ^ (Z.of_nat m * bits).
Proof.
  induction m as [|m IH]; intros Hd; cbn [digits_value]; [by rewrite Z.mul_0_l|].
  assert (0 <= digits_value d m < 2 ^ (Z.of_nat m * bits)) as Hm by (apply IH; intros; apply Hd; lia).
  pose proof (Hd (Z.of_nat m) ltac:(lia)).
  replace (Z.of_nat (S m) * bits) with (Z.of_nat m * bits + bits) by lia.
  rewrite Z.pow_add_r by lia. nia.
Qed.

Lemma digits_nth d m r : (forall r, 0 <= r < Z.of_nat m -> 0 <= d r < 2 ^ bits) ->
  0 <= r < Z.of_nat m -> digits_value d m / 2 ^ (r * bits) mod 2 ^ bits = d r.
Proof.
  induction m as [|m IH]; intros Hd Hr; [lia|]. cbn [digits_value].
  assert (forall r, 0 <= r < Z.of_nat m -> 0 <= d r < 2 ^ bits) as Hd' by (intros; apply Hd; lia).
  pose proof (Hd r Hr) as Hdr. assert (0 < 2 ^ (r * bits)) by (apply Z.pow_pos_nonneg; lia).
  destruct (decide (r = Z.of_nat m)) as [->|Hne].
  - rewrite Z.div_add by lia. rewrite Z.div_small by (apply digits_bound; done).
    by rewrite Z.add_0_l, Z.mod_small.
  - rewrite <- (IH Hd' ltac:(lia)).
    replace (Z.of_nat m * bits) with ((Z.of_nat m - r - 1) * bits + bits + r * bits) by lia.
    rewrite !Z.pow_add_r, !Z.mul_assoc, Z.div_add by nia. by rewrite Z.mod_add by lia.
Qed.

Lemma word_sum_digits d m : (forall r, 0 <= r < Z.of_nat m -> 0 <= d r < 2 ^ bits) ->
  Z.of_nat m <= n ->
  word_sum width (fun r => Z.shiftl (d r) (r * bits) mod 2 ^ width) m = digits_value d m.
Proof.
  intros Hd Hm. induction m as [|m IH]; [done|]. cbn [word_sum digits_value].
  rewrite IH by (intros; try apply Hd; lia). rewrite Z.shiftl_mul_pow2 by lia.
  rewrite Zplus_mod_idemp_r. apply Z.mod_small.
  pose proof (digits_bound d (S m) Hd) as H. cbn [digits_value] in H.
  assert (2 ^ (Z.of_nat (S m) * bits) <= 2 ^ width) by (apply Z.pow_le_mono_r; nia). lia.
Qed.

Lemma word_sum_ext f g m : (forall r, 0 <= r < Z.of_nat m -> f r = g r) ->
  word_sum width f m = word_sum width g m.
Proof. induction m as [|m IH]; intros H; [done|]. cbn. rewrite IH, H by (intros; try apply H; lia). done. Qed.

(** The word is the number whose digits are the elements, padded with zeros. *)
Lemma pack_weight_digits weight k i : (forall j, 0 <= j < k -> 0 <= weight j < 2 ^ bits) -> 0 <= i ->
  let d := fun r => if i * n + r <? k then weight (i * n + r) else 0 in
  pack_weight bits n width weight k i = digits_value d (Z.to_nat n) /\
  forall r, 0 <= r < n -> 0 <= d r < 2 ^ bits.
Proof.
  intros Hk Hi d. assert (forall r, 0 <= r < n -> 0 <= d r < 2 ^ bits) as Hd.
  { intros r Hr. unfold d. destruct (Z.ltb_spec (i * n + r) k); [apply Hk; nia|].
    pose proof (Z.pow_pos_nonneg 2 bits). lia. }
  split; [|done]. rewrite <- word_sum_digits by (intros; try apply Hd; lia).
  apply word_sum_ext. intros r Hr. unfold d. destruct (i * n + r <? k); [done|].
  by rewrite Z.shiftl_0_l, Z.mod_0_l by lia.
Qed.

Lemma unpacked ft_reorder weight k j r : (forall j, 0 <= j < k -> 0 <= weight j < 2 ^ bits) ->
  0 <= j -> 0 <= r < n -> elem_shift ft_reorder bits n j = r * bits ->
  convert_uint ft_reorder bits n (pack_weight bits n width weight k) j
  = if j / n * n + r <? k then weight (j / n * n + r) else 0.
Proof.
  intros Hk Hj Hr Hs. unfold convert_uint. rewrite Hs, land_mask, Z.shiftr_div_pow2 by nia.
  assert (0 <= j / n) as Hi by (apply Z.div_pos; lia).
  destruct (pack_weight_digits weight k (j / n) Hk Hi) as [-> Hd].
  rewrite digits_nth; [done|intros; apply Hd; lia|lia].
Qed.

(** The elements come back in place; past the end there are zeros. *)
Lemma pack_unpack weight k j : (forall j, 0 <= j < k -> 0 <= weight j < 2 ^ bits) -> 0 <= j ->
  convert_uint false bits n (pack_weight bits n width weight k) j = if j <? k then weight j else 0.
Proof.
  intros Hk Hj. rewrite (unpacked false weight k j (j mod n)); [|done..| |done].
  - replace (j / n * n + j mod n) with j; [done|]. pose proof (Z.div_mod j n). lia.
  - apply Z.mod_pos_bound. lia.
Qed.
End Packing.

(** ** Theorems *)

Lemma packing_of_spec gs q s a b m : packing_of gs q s = Ok (a, b, m) -> 0 < snd q ->
  0 < a /\ a * snd q <= snd s /\ gs = a * b /\ m = 2 ^ (snd q - 1) - 1.
Proof.
  unfold packing_of. intros H Hq. destruct (Z.ltb_spec (snd s) (snd q)); [done|].
  destruct (Z.eqb_spec (snd q) 0); [done|]. destruct (Z.eqb_spec (gs mod (snd s / snd q)) 0) as [Hm|]; [|done].
  injection H as <- <- <-. assert (0 < snd s / snd q) by (apply Z.div_str_pos; lia).
  split_and!; [done| |by apply Z.div_exact; lia|done].
  rewrite Z.mul_comm. apply Z.mul_div_le. done.
Qed.

Lemma scaled_range max_int bits v : 0 < bits -> max_int = 2 ^ (bits - 1) - 1 ->
  0 <= scaled_weight max_int v <= max_int * 2 /\ max_int * 2 < 2 ^ bits.
Proof.
  intros Hb ->. assert (2 ^ bits = 2 * 2 ^ (bits - 1)) as ->.
  { rewrite <- Z.pow_succ_r by lia. f_equal. lia. }
  assert (0 < 2 ^ (bits - 1)) by (apply Z.pow_pos_nonneg; lia). unfold scaled_weight. lia.
Qed.

Section Theorems.
Context {DT : DataTypes}.

Lemma GroupQuantize_new_spec name kind gs q s m layout e f c :
  GroupQuantize_new name kind gs q s m layout e f = Ok c ->
  exists tq ts, DataType (quantize_dtype c) = Ok tq /\ DataType (storage_dtype c) = Ok ts /\
    packing_of (group_size c) tq ts
    = Ok (num_elem_per_storage c, num_storage_per_group c, max_int_value c).
Proof.
  unfold GroupQuantize_new. intros H.
  apply rbind_Ok in H as (? & _ & H). apply rbind_Ok in H as (tq & Hq & H).
  apply rbind_Ok in H as (ts & Hs & H). apply rbind_Ok in H as (tm & _ & H).
  do 3 (apply rbind_Ok in H as (? & _ & H)). apply rbind_Ok in H as ([[a b] mx] & Hp & H).
  injection H as <-. by exists tq, ts.
Qed.

(** C28: group quantization loses nothing but precision.  In every accepted
    configuration whose elements have some bits: a quantized element fits into
    its bits; packing a row of [k] elements and unpacking it gives every
    element back; its word and its scale are in the tensors of the layer; and
    the level that the scale is multiplied with is within the largest value,
    and undoes the shift of the rounded quotient unless it was clamped. *)
Theorem group_packing_lossless name kind gs q s m layout e f c code bits scode width k rounded j :
  GroupQuantize_new name kind gs q s m layout e f = Ok c ->
  DataType (quantize_dtype c) = Ok (code, bits) -> DataType (storage_dtype c) = Ok (scode, width) ->
  0 < bits -> 0 < group_size c -> 0 <= j < k ->
  let element := fun j => scaled_weight (max_int_value c) (rounded j) in
  let words := pack_weight bits (num_elem_per_storage c) width element k in
  let num_group := ceildiv k (group_size c) in
  convert_uint false bits (num_elem_per_storage c) words j = element j /\
  element j < 2 ^ bits /\
  j / num_elem_per_storage c < num_storage_per_group c * num_group /\
  j / group_size c < num_group /\
  - max_int_value c <= dequantized_level (max_int_value c) (element j) <= max_int_value c /\
  (0 <= rounded j <= 2 * max_int_value c ->
     dequantized_level (max_int_value c) (element j) = rounded j - max_int_value c).
Proof.
  intros Hc Hq Hs Hb Hg Hj element words num_group.
  apply GroupQuantize_new_spec in Hc as (tq & ts & Hq' & Hs' & Hp). rewrite Hq in Hq'. rewrite Hs in Hs'.
  injection Hq' as <-. injection Hs' as <-. apply packing_of_spec in Hp as (Hn & Hw & Hgs & Hm); [|done].
  cbn [snd] in *. assert (forall v, 0 <= scaled_weight (max_int_value c) v <= max_int_value c * 2 /\
    max_int_value c * 2 < 2 ^ bits) as Hr by (intros v; by apply scaled_range).
  pose proof (ceildiv_spec k (group_size c) Hg ltac:(lia)) as Hceil. fold num_group in Hceil.
  assert (forall i, 0 <= element i < 2 ^ bits) as He by (intros i; unfold element; pose proof (Hr (rounded i)); lia).
  split; [|split; [apply He|split; [apply Z.div_lt_upper_bound; [done|nia]
    |split; [apply Z.div_lt_upper_bound; nia|split]]]].
  - unfold words. rewrite pack_unpack by (try done; try lia; intros; apply He).
    by destruct (Z.ltb_spec j k); [|lia].
  - unfold dequantized_level, element. pose proof (Hr (rounded j)). lia.
  - intros H. unfold dequantized_level, element, scaled_weight. lia.
Qed.

(** AWQ's order of the elements of a word: unpacking in it reads the elements
    0, 4, 1, 5, 2, 6, 3, 7 of each word. *)
Definition awq_order (r : Z) : Z := r mod 2 * 4 + r / 2.

Lemma awq_order_permutes : map awq_order [0; 1; 2; 3; 4; 5; 6; 7] = [0; 4; 1; 5; 2; 6; 3; 7].
Proof. reflexivity. Qed.

Lemma awq_unpack weight k j : (forall j, 0 <= j < k -> 0 <= weight j < 2 ^ 4) -> 0 <= j ->
  let i := j / 8 * 8 + awq_order (j mod 8) in
  convert_uint true 4 8 (pack_weight 4 8 32 weight k) j = if i <? k then weight i else 0.
Proof.
  intros Hk Hj i. apply (unpacked 4 8 32); try done; unfold awq_order.
  pose proof (Z.mod_pos_bound j 8 ltac:(lia)). pose proof (Z.mod_pos_bound (j mod 8) 2 ltac:(lia)).
  pose proof (Z.div_mod (j mod 8) 2 ltac:(lia)). lia.
Qed.

(** FasterTransformer: the low bits of a signed value; they are packed and
    unpacked without loss, and the value is what they stand for. *)
Lemma ft_packing_lossless weight k j : (forall j, 0 <= j < k -> 0 <= weight j < 2 ^ 4) -> 0 <= j < k ->
  convert_uint false 4 2 (pack_weight 4 2 8 weight k) j = weight j.
Proof.
  intros Hk Hj. rewrite (pack_unpack 4 2 8) by (done || lia). by destruct (Z.ltb_spec j k); [|lia].
Qed.

Lemma ft_scaled_spec bits max_int v : 0 < bits -> max_int = 2 ^ (bits - 1) - 1 ->
  let level := Z.min (Z.max v (- max_int - 1)) max_int in
  0 <= ft_scaled_weight bits max_int v < 2 ^ bits /\
  level = ft_scaled_weight bits max_int v
          - (if ft_scaled_weight bits max_int v <? 2 ^ (bits - 1) then 0 else 2 ^ bits).
Proof.
  intros Hb -> level. unfold ft_scaled_weight. rewrite land_mask by lia. fold level.
  assert (0 < 2 ^ (bits - 1)) as Hp by (apply Z.pow_pos_nonneg; lia).
  assert (2 ^ bits = 2 * 2 ^ (bits - 1)) as E.
  { rewrite <- Z.pow_succ_r by lia. f_equal. lia. }
  split; [apply Z.mod_pos_bound; lia|]. assert (- 2 ^ (bits - 1) <= level < 2 ^ (bits - 1)) as Hl by lia.
  destruct (Z.leb_spec 0 level).
  - rewrite Z.mod_small by lia. destruct (Z.ltb_spec level (2 ^ (bits - 1))); lia.
  - assert (level mod 2 ^ bits = level + 2 ^ bits) as ->.
    { symmetry. apply (Z.mod_unique_pos _ _ (-1)); lia. }
    destruct (Z.ltb_spec (level + 2 ^ bits) (2 ^ (bits - 1))); lia.
Qed.

(** The registry is built when the module is imported, and has every scheme by
    its name; the groups of its group-quantized schemes are whole words. *)
Theorem registry_loads {DL : DataTypeLaws} : exists d, QUANTIZATION = Ok d /\
  dict_keys d = ["q0f16"; "q0bf16"; "q0f32"; "q3f16_0"; "q3f16_1"; "q4f16_0"; "q4f16_1"; "q4bf16_0";
    "q4bf16_1"; "q4f32_1"; "q4f16_2"; "q4f16_autoawq"; "q4f16_ft"; "e5m2_e5m2_f16"; "e4m3_e4m3_f16";
    "e4m3_e4m3_f16_max_calibrate"; "fp8_e4m3fn_bf16_block_scale"] /\
  Forall (fun kv => scheme_name (snd kv) = fst kv /\
            match snd kv with
            | SGroup c => num_elem_per_storage c * num_storage_per_group c = group_size c /\
                          max_int_value c = (if String.eqb (quantize_dtype c) "int3" then 3 else 7)
            | _ => True
            end) d.
Proof.
  pose proof DataType_known as H. unfold known_types in H.
  repeat (apply Forall_cons in H as [? H]). cbn [fst snd] in *.
  eexists. split.
  - unfold QUANTIZATION, QUANTIZATION_entries, no, group, per_tensor, NoQuantize_new, GroupQuantize_new,
      AWQQuantize_new, FTQuantize_new, PerTensorQuantize_new, BlockScaleQuantize_new.
    repeat match goal with E : DataType _ = Ok _ |- _ => rewrite !E; clear E end.
    rewrite max_value_e4m3, max_value_e5m2. reflexivity.
  - split; [reflexivity|]. repeat constructor.
Qed.
End Theorems.

(** ** Witnesses *)

Module QuantizationWitness.
#[export] Instance data_types : DataTypes :=
  {| DataType n := opt_res (dict_get known_types n) TypeError;
     max_value n := if String.eqb n "float8_e4m3fn" then Ok 448 else Ok 57344 |}.
#[export] Instance data_type_laws : DataTypeLaws.
Proof. split; [|done..]. repeat constructor. Qed.

Definition q4f16_1 : res GroupQuantize :=
  GroupQuantize_new "q4f16_1" "group-quant" 32 "int4" "uint32" "float16" "NK" true true.

(** The fourth of five elements, which was clamped. *)
Example group_packing_witness :
  exists c, q4f16_1 = Ok c /\
    let words := pack_weight 4 8 32 (fun j => scaled_weight 7 (j * 5)) 5 in
    convert_uint false 4 8 words 3 = 14 /\ words 0 = 977488.
Proof.
  eexists. split; [reflexivity|]. split; [|reflexivity].
  apply (group_packing_lossless "q4f16_1" "group-quant" 32 "int4" "uint32" "float16" "NK" true true
           (mkGroupQuantize "q4f16_1" "group-quant" 32 "int4" "uint32" "float16" "NK" true true 8 4 7 0 1)
           INT 4 UINT 32 5 (fun j => j * 5) 3); by (reflexivity || lia).
Defined.
End QuantizationWitness.
