(* ===== verification/MoeMatmul.v ===== *)
(** * Matrix products of the experts

    The kernels of [op/moe_matmul.py]: the matrix-vector products of the
    experts of one token ([gemv] and its dequantizing variants) and the grouped
    matrix product of many tokens ([group_gemm], [dequantize_group_gemm]),
    whose blocks walk over the tiles of all experts.  The element types are
    parameters. *)

From stdpp Require Import base list sets.
From S2P Require Import Prelude TirBuffer Quantization.
Local Open Scope Z_scope.

(** ** Element types

    [F] is the model's type, [A] the type of the accumulator; the results are
    of type [R]. *)
Class MatOps (F A : Type) := {
  elem_mul : F -> F -> F;
  elem_zero : F;
  acc_zero : A;
  acc_add : A -> F -> A;      (* [acc + x], with the cast of [x] *)
}.

(** Dequantization: casts, the arithmetic of the model's type and the
    reinterpretation of bits. *)
Class DequantOps (F S : Type) := {
  cast_int : Z -> F;                (* [astype(model_dtype)] of an integer *)
  elem_sub : F -> F -> F;
  scale_mul : F -> S -> F;
  cast_float8 : Z -> F;             (* [tir.reinterpret(quantize_dtype, _).astype(model_dtype)] *)
}.

Definition load3 {A} (b : list (list (list A))) (e i j : Z) : option A :=
  m ← load1 b e; load2 m i j.

Section Kernels.
Context {F A : Type} `{MatOps F A}.

(** ** Matrix-vector products *)

(** [x[0, j] if x_leading_dim == 1 else x[e, j]] *)
Definition access_x (x : list (list F)) (e j : nat) : option F :=
  if Nat.eqb (length x) 1 then load2 x 0 (Z.of_nat j) else load2 x (Z.of_nat e) (Z.of_nat j).

(** One block of [_func]: [weight e i j] is the weight, dequantized where the
    kernel does so; the reduction starts from zero at its first step. *)
Definition gemv_block (weight : Z -> nat -> nat -> option F) (out_features in_features : nat)
    (x : list (list F)) (indptr : list (list Z)) (e : nat) (o : list (list A)) : option (list (list A)) :=
  eid ← load2 indptr 0 (Z.of_nat e);
  ofold (fun ij o =>
           let i := ij.1 in let j := ij.2 in
           o ← (if Nat.eqb j 0 then store2 o (Z.of_nat e) (Z.of_nat i) acc_zero else Some o);
           acc ← load2 o (Z.of_nat e) (Z.of_nat i);
           a ← access_x x e j;
           w ← weight eid i j;
           store2 o (Z.of_nat e) (Z.of_nat i) (acc_add acc (elem_mul a w)))
    (grid out_features in_features) o.

(** The blocks run in the order [order]. *)
Definition gemv_func (weight : Z -> nat -> nat -> option F) (out_features in_features : nat)
    (x : list (list F)) (indptr : list (list Z)) (order : list nat) (o : list (list A)) : option (list (list A)) :=
  ofold (gemv_block weight out_features in_features x indptr) order o.

(** ** The weights *)

Definition plain_weight (w : list (list (list F))) (e : Z) (i j : nat) : option F :=
  load3 w e (Z.of_nat i) (Z.of_nat j).

Section Dequantize.
Context {S : Type} `{DequantOps F S}.

(** [_dequantize] of integers packed in words *)
Definition dequantize (quantize_dtype_bits num_elem_per_storage group_size : Z)
    (w : list (list (list Z))) (s : list (list (list S))) (e : Z) (i j : nat) : option F :=
  let j := Z.of_nat j in
  let tir_bin_mask := 2 ^ quantize_dtype_bits - 1 in
  let tir_max_int := 2 ^ (quantize_dtype_bits - 1) - 1 in
  word ← load3 w e (Z.of_nat i) (j / num_elem_per_storage);
  scale ← load3 s e (Z.of_nat i) (j / group_size);
  let shift := j mod num_elem_per_storage * quantize_dtype_bits in
  Some (scale_mul (elem_sub (cast_int (Z.land (Z.shiftr word shift) tir_bin_mask)) (cast_int tir_max_int)) scale).

(** [_dequantize] of 8-bit floats, each a storage element or packed in words *)
Definition dequantize_float8 (quantize_dtype_bits num_elem_per_storage : Z)
    (w : list (list (list Z))) (s : option (list S)) (e : Z) (i j : nat) : option F :=
  let j := Z.of_nat j in
  bits ← (if num_elem_per_storage =? 1 then load3 w e (Z.of_nat i) j
          else word ← load3 w e (Z.of_nat i) (j / num_elem_per_storage);
               Some (Z.land (Z.shiftr word (j mod num_elem_per_storage * quantize_dtype_bits))
                       (2 ^ quantize_dtype_bits - 1)));
  let v := cast_float8 bits in
  match s with
  | Some s => scale ← load1 s 0; Some (scale_mul v scale)
  | None => Some v
  end.

(** [_dequantize] with a scale for each block of the matrix *)
Definition dequantize_block_scale (block_size : nat * nat) (w : list (list (list Z)))
    (s : list (list (list S))) (e : Z) (i j : nat) : option F :=
  v ← load3 w e (Z.of_nat i) (Z.of_nat j);
  scale ← load3 s e (Z.of_nat (i / block_size.1)) (Z.of_nat (j / block_size.2));
  Some (scale_mul (cast_float8 v) scale).
End Dequantize.

(** ** The grouped product *)

Definition BLK_M : nat := 8.
Definition BLK_N : nat := 128.
Definition CTA_COUNT : nat := 1024.

(** The local buffers [sum], [row], [cur_e] and [tile_id] of a block. *)
Record Cta := MkCta { sum0 : Z; sum1 : Z; row0 : Z; row1 : Z; cur_e : Z; tile_id : Z }.

Section GroupGemm.
Variable wrap : Z -> Z.                         (* the arithmetic of the buffers' integer type *)
Variables (Ne N K : nat) (indptr : list Z).
Variable weight : Z -> nat -> nat -> option F.  (* [W[e, i, j]], dequantized where the kernel does so *)
Variable X : list (list F).

Definition tiles_per_row : Z := (Z.of_nat N + Z.of_nat BLK_N - 1) / Z.of_nat BLK_N.

(** [T.ceildiv(delta, BLK_M) * tiles_per_row] *)
Definition group_tiles (delta : Z) : Z := ceildiv delta (Z.of_nat BLK_M) * tiles_per_row.

Definition cta_init (bx : nat) : option Cta :=
  p0 ← load1 indptr 0;
  p1 ← load1 indptr 1;
  Some (MkCta 0 (wrap (group_tiles (p1 - p0))) 0 (wrap (p1 - p0)) 0 (Z.of_nat bx)).

(** [while sum[1] <= tile_id[0] and cur_e[0] < Ne] *)
Fixpoint next_group (fuel : nat) (s : Cta) : option Cta :=
  if (sum1 s <=? tile_id s) && (cur_e s <? Z.of_nat Ne) then
    match fuel with
    | O => None
    | S fuel =>
        let e := cur_e s + 1 in
        if e <? Z.of_nat Ne then
          p0 ← load1 indptr e;
          p1 ← load1 indptr (e + 1);
          let delta := p1 - p0 in
          next_group fuel (MkCta (sum1 s) (wrap (sum1 s + group_tiles delta)) (row1 s) (wrap (row1 s + delta))
                             e (tile_id s))
        else next_group fuel (MkCta (sum0 s) (sum1 s) (row0 s) (row1 s) e (tile_id s))
    end
  else Some s.

(** [O_tile[i, j]]: the product of a row of [X_tile] and a row of [W_tile],
    which are zero outside the matrices. *)
Definition O_tile (s : Cta) (m_offset n_offset : Z) (i j : nat) : option A :=
  ofold (fun k acc =>
           x ← (if m_offset + Z.of_nat i <? row1 s then load2 X (m_offset + Z.of_nat i) (Z.of_nat k)
                else Some elem_zero);
           w ← (if n_offset + Z.of_nat j <? Z.of_nat N
                then weight (cur_e s) (Z.to_nat (n_offset + Z.of_nat j)) k else Some elem_zero);
           Some (acc_add acc (elem_mul x w)))
    (seq 0 K) acc_zero.

(** The stores of one tile: the cells of [O] and the values. *)
Definition tile_stores (s : Cta) : option (list (Z * Z * A)) :=
  let num_tiles := tile_id s - sum0 s in
  let m_offset := wrap (Z.of_nat BLK_M * (num_tiles / tiles_per_row) + row0 s) in
  let n_offset := wrap (Z.of_nat BLK_N * (num_tiles mod tiles_per_row)) in
  tile ← mapM (fun ij => v ← O_tile s m_offset n_offset ij.1 ij.2; Some (ij, v)) (grid BLK_M BLK_N);
  Some (map (fun t => (m_offset + Z.of_nat t.1.1, n_offset + Z.of_nat t.1.2, t.2))
          (List.filter (fun t => (m_offset + Z.of_nat t.1.1 <? row1 s) &&
                                 (n_offset + Z.of_nat t.1.2 <? Z.of_nat N)) tile)).

(** The outer loop of a block: the stores it makes, in order. *)
Fixpoint cta_loop (fuel : nat) (s : Cta) : option (list (Z * Z * A)) :=
  if cur_e s <? Z.of_nat Ne then
    match fuel with
    | O => None
    | S fuel =>
        s ← next_group (S Ne) s;
        stores ← (if cur_e s <? Z.of_nat Ne then tile_stores s else Some []);
        rest ← cta_loop fuel (MkCta (sum0 s) (sum1 s) (row0 s) (row1 s) (cur_e s)
                                (wrap (tile_id s + Z.of_nat CTA_COUNT)));
        Some (stores ++ rest)
    end
  else Some [].

Definition cta (fuel bx : nat) : option (list (Z * Z * A)) :=
  s ← cta_init bx; cta_loop fuel s.

(** The stores of all blocks, and their effect on [O] in some interleaving. *)
Definition all_stores (fuel : nat) : option (list (list (Z * Z * A))) := mapM (cta fuel) (seq 0 CTA_COUNT).

Definition run_stores {R} (out : A -> R) (ws : list (Z * Z * A)) (O : list (list R)) : option (list (list R)) :=
  ofold (fun w O => store2 O w.1.1 w.1.2 (out w.2)) ws O.
End GroupGemm.

(** ** The operators *)

Definition gemv (out_features in_features : nat) (x : list (list F)) (w : list (list (list F)))
    (indptr : list (list Z)) : list nat -> list (list A) -> option (list (list A)) :=
  gemv_func (plain_weight w) out_features in_features x indptr.

Definition group_gemm (Ne N K : nat) (x : list (list F)) (w : list (list (list F))) (indptr : list Z)
    (fuel : nat) : option (list (list (Z * Z * A))) :=
  all_stores i32 Ne N K indptr (plain_weight w) x fuel.

Section DequantizeOperators.
Context {S : Type} `{DequantOps F S}.

Definition dequantize_gemv (out_features in_features : nat) (x : list (list F)) (w : list (list (list Z)))
    (scale : list (list (list S))) (indptr : list (list Z)) (quantize_dtype_bits storage_bits group_size : Z)
    : list nat -> list (list A) -> option (list (list A)) :=
  gemv_func (dequantize quantize_dtype_bits (storage_bits / quantize_dtype_bits) group_size w scale)
    out_features in_features x indptr.

Definition dequantize_float8_gemv (out_features in_features : nat) (x : list (list F)) (w : list (list (list Z)))
    (scale : option (list S)) (indptr : list (list Z)) (quantize_dtype_bits storage_bits : Z)
    : list nat -> list (list A) -> option (list (list A)) :=
  gemv_func (dequantize_float8 quantize_dtype_bits (storage_bits / quantize_dtype_bits) w scale)
    out_features in_features x indptr.

(** The block sizes must divide the shape of the weight. *)
Definition dequantize_block_scale_float8_gemv (out_features k : nat) (x : list (list F))
    (w : list (list (list Z))) (w_scale : list (list (list S))) (expert_indices : list (list Z))
    (block_size : nat * nat) (order : list nat) (o : list (list A)) : option (list (list A)) :=
  if Nat.eqb (out_features mod block_size.1) 0 && Nat.eqb (k mod block_size.2) 0
  then gemv_func (dequantize_block_scale block_size w w_scale) out_features k x expert_indices order o
  else None.

(** [indptr] of type int64 comes without its first entry. *)
Definition dequantize_group_gemm (Ne N K : nat) (x : list (list F)) (w : list (list (list Z)))
    (scale : list (list (list S))) (indptr : list Z) (quantize_dtype_bits storage_bits group_size : Z)
    (int64 : bool) (fuel : nat) : option (list (list (Z * Z * A))) :=
  let indptr := if int64 then 0 :: indptr else indptr in
  all_stores (if int64 then i64 else i32) Ne N K indptr
    (dequantize quantize_dtype_bits (storage_bits / quantize_dtype_bits) group_size w scale) x fuel.
End DequantizeOperators.

(** ** Specification: the product of a row of [x] and a row of the weight *)

Definition dot (K : nat) (x w : nat -> F) : A :=
  fold_left (fun acc k => acc_add acc (elem_mul (x k) (w k))) (seq 0 K) acc_zero.

(** [x] and [weight] hold [xv] and [wv] inside their shapes. *)
Definition holds_x (B K : nat) (x : list (list F)) (xv : nat -> nat -> F) : Prop :=
  forall r k, (r < B)%nat -> (k < K)%nat -> at2 x r k = Some (xv r k).
Definition holds_w (Ne N K : nat) (weight : Z -> nat -> nat -> option F) (wv : nat -> nat -> nat -> F) : Prop :=
  forall e i k, (e < Ne)%nat -> (i < N)%nat -> (k < K)%nat -> weight (Z.of_nat e) i k = Some (wv e i k).

(** ** Lemmas *)

(** *** Reductions *)

Lemma ofold_dot K (x w : nat -> option F) (xv wv : nat -> F) acc :
  (forall k, (k < K)%nat -> x k = Some (xv k)) -> (forall k, (k < K)%nat -> w k = Some (wv k)) ->
  ofold (fun k acc => a ← x k; b ← w k; Some (acc_add acc (elem_mul a b))) (seq 0 K) acc =
  Some (fold_left (fun acc k => acc_add acc (elem_mul (xv k) (wv k))) (seq 0 K) acc).
Proof.
  intros Hx Hw.
  apply (ofold_total _ (fun acc k => acc_add acc (elem_mul (xv k) (wv k))) (fun _ => True)); [done|].
  intros k a Hk _. apply in_seq in Hk. rewrite Hx, Hw by lia. done.
Qed.

(** The steps of one output: all but the first see the sum so far. *)
Lemma gemv_steps (weight : Z -> nat -> nat -> option F) x eid e o r (xv wv : nat -> F) i n :
  o !! e = Some r -> (i < length r)%nat ->
  (forall k, (k <= n)%nat -> access_x x e k = Some (xv k)) ->
  (forall k, (k <= n)%nat -> weight eid i k = Some (wv k)) ->
  ofold (fun j o =>
           o ← (if Nat.eqb j 0 then store2 o (Z.of_nat e) (Z.of_nat i) acc_zero else Some o);
           acc ← load2 o (Z.of_nat e) (Z.of_nat i);
           a ← access_x x e j; w ← weight eid i j;
           store2 o (Z.of_nat e) (Z.of_nat i) (acc_add acc (elem_mul a w))) (seq 0 (S n)) o =
  Some (<[e := <[i := dot (S n) xv wv]> r]> o).
Proof.
  intros Hr Hi Hx Hw. assert (He : (e < length o)%nat) by (by eapply lookup_lt_Some).
  induction n as [|n IH].
  - cbn [seq ofold Nat.eqb]. rewrite (store2_lt _ _ _ r) by done. cbn [mbind option_bind].
    rewrite load2_at2. unfold at2. rewrite list_lookup_insert_eq by done. cbn [mbind option_bind].
    rewrite list_lookup_insert_eq by done. cbn [mbind option_bind].
    rewrite Hx, Hw by lia. cbn [mbind option_bind].
    rewrite (store2_lt _ _ _ (<[i := acc_zero]> r)) by (rewrite ?length_insert, ?list_lookup_insert_eq; done).
    cbn [mbind option_bind]. by rewrite !list_insert_insert_eq.
  - rewrite seq_S, ofold_app, IH by (intros; (apply Hx || apply Hw); lia).
    cbn [mbind option_bind ofold Nat.add Nat.eqb].
    rewrite load2_at2. unfold at2. rewrite list_lookup_insert_eq by done. cbn [mbind option_bind].
    rewrite list_lookup_insert_eq by done. cbn [mbind option_bind].
    rewrite Hx, Hw by lia. cbn [mbind option_bind].
    rewrite (store2_lt _ _ _ (<[i := dot (S n) xv wv]> r)) by (rewrite ?length_insert, ?list_lookup_insert_eq; done).
    cbn [mbind option_bind]. rewrite !list_insert_insert_eq. do 4 f_equal.
    unfold dot. by rewrite (seq_S (S n)), fold_left_app.
Qed.

Lemma ofold_grid {S} (f : nat * nat -> S -> option S) n m s :
  ofold f (grid n m) s = ofold (fun i s => ofold (fun j s => f (i, j) s) (seq 0 m) s) (seq 0 n) s.
Proof.
  unfold grid. revert s. induction (seq 0 n) as [|i l IH]; intros s; cbn [flat_map ofold]; [done|].
  rewrite ofold_app, ofold_map. destruct (ofold _ (seq 0 m) s); cbn [mbind option_bind]; [apply IH|done].
Qed.

Lemma gemv_block_spec weight N K x indptr e ee o r (xv : nat -> F) (wv : nat -> nat -> F) :
  (0 < K)%nat -> load2 indptr 0 (Z.of_nat e) = Some ee -> o !! e = Some r -> length r = N ->
  (forall k, (k < K)%nat -> access_x x e k = Some (xv k)) ->
  (forall i k, (i < N)%nat -> (k < K)%nat -> weight ee i k = Some (wv i k)) ->
  gemv_block weight N K x indptr e o = Some (<[e := map (fun i => dot K xv (wv i)) (seq 0 N)]> o).
Proof.
  intros HK Hee Hr Hl Hx Hw. unfold gemv_block. rewrite Hee. cbn [mbind option_bind].
  rewrite ofold_grid. cbn [fst snd].
  destruct (ofold_total
    (fun i o => ofold (fun j o =>
           o ← (if Nat.eqb j 0 then store2 o (Z.of_nat e) (Z.of_nat i) acc_zero else Some o);
           acc ← load2 o (Z.of_nat e) (Z.of_nat i);
           a ← access_x x e j; w ← weight ee i j;
           store2 o (Z.of_nat e) (Z.of_nat i) (acc_add acc (elem_mul a w))) (seq 0 K) o)
    (fun o i => <[e := <[i := dot K xv (wv i)]> (default [] (o !! e))]> o)
    (fun o => exists r, o !! e = Some r /\ length r = N) (seq 0 N) o) as [-> _].
  - by exists r.
  - intros i o' Hi (r' & Hr' & Hl'). apply in_seq in Hi. destruct K as [|K]; [lia|].
    rewrite (gemv_steps weight x ee e o' r' xv (wv i)) by (first [done|lia|intros; apply Hx; lia|intros; apply Hw; lia]).
    rewrite Hr'. split; [done|]. exists (<[i := dot (S K) xv (wv i)]> r').
    rewrite length_insert. split; [|done]. apply list_lookup_insert_eq. by eapply lookup_lt_Some.
  - f_equal. rewrite <- (fold_insert_seq (fun i => dot K xv (wv i)) (seq 0 N) N r) by done.
    clear Hx Hw. assert (He : (e < length o)%nat) by (by eapply lookup_lt_Some). clear Hl.
    generalize (seq 0 N). intros l. revert o r Hr He.
    induction l as [|i l IH]; intros o r Hr He; cbn [fold_left].
    + by rewrite list_insert_id.
    + rewrite Hr. cbn [default from_option]. rewrite (IH _ (<[i := dot K xv (wv i)]> r)).
      * by rewrite list_insert_insert_eq.
      * by apply list_lookup_insert_eq.
      * by rewrite length_insert.
Qed.

(** *** The tiles of the groups *)

Section Tiles.
Variable wrap : Z -> Z.
Variables (B Ne N K : nat) (indptr : list Z) (weight : Z -> nat -> nat -> option F) (X : list (list F)).
Variables (xv : nat -> nat -> F) (wv : nat -> nat -> nat -> F).

Definition ptr (e : nat) : Z := default 0 (indptr !! e).

(** The number of the first tile of group [e]. *)
Fixpoint start (e : nat) : Z :=
  match e with
  | O => 0
  | S e => start e + group_tiles N (ptr (S e) - ptr e)
  end.

(** [indptr] cuts the rows of [X] into the experts' groups, and the numbers of
    tiles and rows fit in the type of the counters. *)
Record valid_groups : Prop := {
  vg_length : length indptr = S Ne;
  vg_first : ptr 0 = 0;
  vg_mono : forall e, (e < Ne)%nat -> ptr e <= ptr (S e);
  vg_last : ptr Ne = Z.of_nat B;
  vg_pos : (0 < Ne)%nat /\ (0 < N)%nat;
  vg_bound : Z.of_nat B * tiles_per_row N + Z.of_nat CTA_COUNT < 2 ^ 31;
  vg_cols : Z.of_nat N + Z.of_nat BLK_N < 2 ^ 31;
  vg_wrap : forall z, 0 <= z < 2 ^ 31 -> wrap z = z;
  vg_x : holds_x B K X xv;
  vg_w : holds_w Ne N K weight wv;
}.
Hypothesis valid : valid_groups.

Lemma tpr_spec : 0 < tiles_per_row N /\ Z.of_nat N <= Z.of_nat BLK_N * tiles_per_row N.
Proof.
  pose proof (proj2 (vg_pos valid)) as HN. unfold tiles_per_row, BLK_N in *.
  pose proof (Z.div_mod (Z.of_nat N + Z.of_nat 128 - 1) (Z.of_nat 128)).
  pose proof (Z.mod_pos_bound (Z.of_nat N + Z.of_nat 128 - 1) (Z.of_nat 128)). lia.
Qed.

Lemma group_tiles_spec d : 0 <= d -> 0 <= group_tiles N d <= d * tiles_per_row N /\
  exists q, group_tiles N d = q * tiles_per_row N /\ d <= Z.of_nat BLK_M * q < d + Z.of_nat BLK_M.
Proof.
  intros Hd. pose proof tpr_spec as [Ht _]. unfold group_tiles, BLK_M.
  pose proof (ceildiv_spec d (Z.of_nat 8) eq_refl Hd) as Hc. assert (0 <= ceildiv d (Z.of_nat 8) <= d) by lia.
  split; [nia|].
  exists (ceildiv d (Z.of_nat 8)). split; [done|]. lia.
Qed.

Lemma ptr_le e e' : (e <= e' <= Ne)%nat -> ptr e <= ptr e'.
Proof.
  intros [He He']. induction He as [|e' He IH]; [lia|]. etransitivity; [apply IH; lia|].
  apply (vg_mono valid). lia.
Qed.

Lemma ptr_range e : (e <= Ne)%nat -> 0 <= ptr e <= Z.of_nat B.
Proof. intros He. rewrite <- (vg_first valid), <- (vg_last valid). split; apply ptr_le; lia. Qed.

Lemma start_range e : (e <= Ne)%nat -> 0 <= start e <= ptr e * tiles_per_row N.
Proof.
  induction e as [|e IH]; intros He; [rewrite (vg_first valid); cbn; lia|]. cbn [start].
  destruct (group_tiles_spec (ptr (S e) - ptr e)) as [Hg _]; [|nia].
  pose proof (vg_mono valid e). lia.
Qed.

Lemma start_le e e' : (e <= e' <= Ne)%nat -> start e <= start e'.
Proof.
  intros [He He']. induction He as [|e' He IH]; [lia|]. etransitivity; [apply IH; lia|]. cbn [start].
  destruct (group_tiles_spec (ptr (S e') - ptr e')) as [Hg _]; [|lia].
  pose proof (vg_mono valid e'). lia.
Qed.

Lemma start_bound e : (e <= Ne)%nat -> 0 <= start e <= start Ne /\ start e + Z.of_nat CTA_COUNT < 2 ^ 31.
Proof.
  intros He. pose proof (start_range e He). pose proof (start_le e Ne). pose proof (start_range Ne).
  pose proof (vg_bound valid). pose proof (ptr_range Ne). pose proof tpr_spec. split; nia.
Qed.

Lemma load_ptr e : (e <= Ne)%nat -> load1 indptr (Z.of_nat e) = Some (ptr e).
Proof.
  intros He. rewrite load_lookup. unfold ptr.
  destruct (lookup_lt_is_Some_2 indptr e) as [v ->]; [rewrite (vg_length valid); lia|done].
Qed.

(** The counters of a block that stands at group [e]. *)
Definition at_group (s : Cta) (e : nat) : Prop :=
  (e < Ne)%nat /\ cur_e s = Z.of_nat e /\ sum0 s = start e /\ sum1 s = start (S e) /\
  row0 s = ptr e /\ row1 s = ptr (S e).

Lemma wrap_ptr e : (e <= Ne)%nat -> wrap (ptr e) = ptr e.
Proof.
  intros He. apply (vg_wrap valid). pose proof (ptr_range e He). pose proof tpr_spec.
  pose proof (vg_bound valid). unfold CTA_COUNT in *. nia.
Qed.

Lemma cta_init_spec bx : exists s, cta_init wrap N indptr bx = Some s /\ at_group s 0 /\ tile_id s = Z.of_nat bx.
Proof.
  unfold cta_init. pose proof (vg_pos valid) as [HNe _].
  change (load1 indptr 0) with (load1 indptr (Z.of_nat 0)). change (load1 indptr 1) with (load1 indptr (Z.of_nat 1)).
  rewrite !load_ptr by lia. cbn [mbind option_bind]. eexists. split; [done|]. split; [|done].
  pose proof (start_bound 1). unfold at_group. cbn [sum0 sum1 row0 row1 cur_e start].
  rewrite (vg_first valid), Z.sub_0_r, wrap_ptr by lia. split; [done|]. repeat (split; [done|]).
  split; [|split; [done|done]].
  cbn [start] in *. rewrite (vg_first valid), Z.sub_0_r in *. rewrite (vg_wrap valid); lia.
Qed.

Lemma next_group_spec fuel s e : at_group s e -> start e <= tile_id s -> (Ne - e <= fuel)%nat ->
  exists s', next_group wrap Ne N indptr fuel s = Some s' /\ tile_id s' = tile_id s /\
    ((exists e', at_group s' e' /\ start e' <= tile_id s < start (S e')) \/
     (cur_e s' = Z.of_nat Ne /\ start Ne <= tile_id s)).
Proof.
  revert s e. induction fuel as [|fuel IH]; intros s e Hs Ht Hf.
  { destruct Hs as [He _]. lia. }
  pose proof Hs as (He & Hc & Hs0 & Hs1 & Hr0 & Hr1). cbn [next_group].
  rewrite Hc, Hs1. rewrite (proj2 (Z.ltb_lt _ _)), andb_true_r by lia.
  destruct (Z.leb_spec (start (S e)) (tile_id s)) as [Hle|Hgt].
  2: { exists s. split; [done|]. split; [done|]. left. by exists e. }
  replace (Z.of_nat e + 1) with (Z.of_nat (S e)) by lia.
  destruct (Z.ltb_spec (Z.of_nat (S e)) (Z.of_nat Ne)) as [Hlt|Hge].
  - replace (Z.of_nat (S e) + 1) with (Z.of_nat (S (S e))) by lia.
    rewrite !load_ptr by lia. cbn [mbind option_bind].
    destruct (IH (MkCta (start (S e)) (wrap (start (S e) + group_tiles N (ptr (S (S e)) - ptr (S e)))) (row1 s)
                   (wrap (row1 s + (ptr (S (S e)) - ptr (S e)))) (Z.of_nat (S e)) (tile_id s)) (S e))
      as (s' & -> & Htid & Hcase); [|done|lia|].
    + unfold at_group. cbn [sum0 sum1 row0 row1 cur_e]. rewrite Hr1.
      replace (ptr (S e) + (ptr (S (S e)) - ptr (S e))) with (ptr (S (S e))) by lia.
      rewrite wrap_ptr by lia. fold (start (S (S e))).
      change (start (S e) + group_tiles N (ptr (S (S e)) - ptr (S e))) with (start (S (S e))).
      pose proof (start_bound (S (S e))). rewrite (vg_wrap valid) by lia. repeat split; lia.
    + exists s'. split; [done|]. split; done.
  - assert (Heq : Ne = S e) by lia.
    destruct fuel as [|fuel]; cbn [next_group sum0 sum1 cur_e tile_id];
      rewrite (proj2 (Z.ltb_ge (Z.of_nat (S e)) _)), andb_false_r by lia;
      (eexists; split; [done|]; split; [done|]; right; rewrite Heq; done).
Qed.

(** *** One tile *)

(** The value of a cell of group [e]. *)
Definition cell_value (e r c : nat) : A := dot K (xv r) (wv e c).

(** The cells of tile [q] of group [e]. *)
Definition in_tile (e : nat) (q : Z) (r c : nat) : Prop :=
  let m := Z.of_nat BLK_M * (q / tiles_per_row N) + ptr e in
  let n := Z.of_nat BLK_N * (q mod tiles_per_row N) in
  m <= Z.of_nat r < m + Z.of_nat BLK_M /\ Z.of_nat r < ptr (S e) /\
  n <= Z.of_nat c < n + Z.of_nat BLK_N /\ (c < N)%nat.

Lemma load2_holds r k : (r < B)%nat -> (k < K)%nat -> load2 X (Z.of_nat r) (Z.of_nat k) = Some (xv r k).
Proof. intros Hr Hk. rewrite load2_at2. by apply (vg_x valid). Qed.

(** A tile inside its group: the offsets do not wrap, and every entry of
    [O_tile] is computed. *)
Lemma tile_offsets s e : at_group s e -> start e <= tile_id s < start (S e) ->
  let q := tile_id s - start e in
  let m := Z.of_nat BLK_M * (q / tiles_per_row N) + ptr e in
  let n := Z.of_nat BLK_N * (q mod tiles_per_row N) in
  wrap m = m /\ wrap n = n /\ ptr e <= m < ptr (S e) /\ 0 <= n.
Proof.
  intros (He & _) Ht q m n. pose proof tpr_spec as [Htpr HN]. cbn [start] in Ht.
  destruct (group_tiles_spec (ptr (S e) - ptr e)) as (_ & g & Hg & Hd).
  { pose proof (vg_mono valid e He). lia. }
  pose proof (Z.div_mod q (tiles_per_row N)) as Hdm. pose proof (Z.mod_pos_bound q (tiles_per_row N) Htpr) as Hmod.
  assert (Hq : 0 <= q / tiles_per_row N < g).
  { split; [apply Z.div_pos; unfold q; lia|]. apply Z.div_lt_upper_bound; unfold q; lia. }
  assert (Hm : ptr e <= m < ptr (S e)) by (unfold m, BLK_M in *; lia).
  pose proof (ptr_range (S e)). pose proof (ptr_range e). pose proof (vg_bound valid). pose proof (vg_cols valid).
  assert (Hn : 0 <= n < Z.of_nat N + Z.of_nat BLK_N).
  { unfold n, BLK_N in *. split; [lia|]. unfold tiles_per_row, BLK_N in Hmod |- *.
    pose proof (Z.div_mod (Z.of_nat N + Z.of_nat 128 - 1) (Z.of_nat 128)). 
    pose proof (Z.mod_pos_bound (Z.of_nat N + Z.of_nat 128 - 1) (Z.of_nat 128)). lia. }
  split; [apply (vg_wrap valid); nia|]. split; [apply (vg_wrap valid); lia|]. split; [done|lia].
Qed.

Lemma O_tile_spec s e m n i j : at_group s e -> 0 <= m -> 0 <= n ->
  exists v, O_tile N K weight X s m n i j = Some v /\
    ((m + Z.of_nat i < row1 s) -> (n + Z.of_nat j < Z.of_nat N) ->
     v = cell_value e (Z.to_nat (m + Z.of_nat i)) (Z.to_nat (n + Z.of_nat j))).
Proof.
  intros (He & Hc & _ & _ & _ & Hr1) Hm Hn. unfold O_tile.
  rewrite (ofold_dot K _ _
    (fun k => if m + Z.of_nat i <? row1 s then xv (Z.to_nat (m + Z.of_nat i)) k else elem_zero)
    (fun k => if n + Z.of_nat j <? Z.of_nat N then wv e (Z.to_nat (n + Z.of_nat j)) k else elem_zero)).
  - eexists. split; [done|]. intros H1 H2. apply Z.ltb_lt in H1, H2. by rewrite H1, H2.
  - intros k Hk. destruct (Z.ltb_spec (m + Z.of_nat i) (row1 s)) as [Hlt|]; [|done].
    rewrite Hr1 in Hlt. pose proof (ptr_range (S e)).
    rewrite <- (Z2Nat.id (m + Z.of_nat i)) at 1 by lia. apply load2_holds; lia.
  - intros k Hk. destruct (Z.ltb_spec (n + Z.of_nat j) (Z.of_nat N)) as [Hlt|]; [|done].
    rewrite Hc. apply (vg_w valid); lia.
Qed.

Lemma mapM_total {Y Z'} (f : Y -> option Z') (P : Y -> Z' -> Prop) l :
  (forall y, exists z, f y = Some z /\ P y z) -> exists zs, mapM f l = Some zs /\ Forall2 P l zs.
Proof.
  intros Hf. induction l as [|y l (zs & IH & Hzs)]; [by exists []|].
  destruct (Hf y) as (z & Hz & Hp). exists (z :: zs). cbn. rewrite Hz. cbn. rewrite IH. cbn.
  split; [done|by constructor].
Qed.

Lemma tile_stores_spec s e : at_group s e -> start e <= tile_id s < start (S e) ->
  exists ws, tile_stores wrap N K weight X s = Some ws /\
    forall w, In w ws <-> exists r c, in_tile e (tile_id s - start e) r c /\
      w = (Z.of_nat r, Z.of_nat c, cell_value e r c).
Proof.
  intros Hs Ht. pose proof (tile_offsets s e Hs Ht) as Ho. cbv zeta in Ho.
  destruct Ho as (Hwm & Hwn & Hm & Hn). pose proof Hs as (He & Hc & Hs0 & _ & Hr0 & Hr1).
  pose proof (ptr_range e). unfold tile_stores. rewrite Hs0, Hr0, Hwm, Hwn.
  set (m := Z.of_nat BLK_M * ((tile_id s - start e) / tiles_per_row N) + ptr e) in *.
  set (n := Z.of_nat BLK_N * ((tile_id s - start e) mod tiles_per_row N)) in *.
  destruct (mapM_total (fun ij => v ← O_tile N K weight X s m n ij.1 ij.2; Some (ij, v))
    (fun ij t => t.1 = ij /\ ((m + Z.of_nat ij.1 < row1 s) -> (n + Z.of_nat ij.2 < Z.of_nat N) ->
       t.2 = cell_value e (Z.to_nat (m + Z.of_nat ij.1)) (Z.to_nat (n + Z.of_nat ij.2)))) (grid BLK_M BLK_N))
    as (tile & -> & Htile).
  { intros [i j]. destruct (O_tile_spec s e m n i j Hs) as (v & Hv & Hval); [lia|lia|].
    cbn [fst snd]. rewrite Hv. cbn [mbind option_bind]. eexists. split; [done|]. by split. }
  cbn [mbind option_bind]. eexists. split; [done|]. intros w. rewrite in_map_iff. split.
  - intros (t & <- & Hin). apply filter_In in Hin as [Hin Hg].
    apply andb_true_iff in Hg as [Hg1%Z.ltb_lt Hg2%Z.ltb_lt].
    apply list_elem_of_In, list_elem_of_lookup in Hin as [p Hp].
    destruct (Forall2_lookup_r _ _ _ _ _ Htile Hp) as ([i j] & Hij & Heq & Hval).
    assert (Hin : In (i, j) (grid BLK_M BLK_N)) by (apply list_elem_of_In; by eapply list_elem_of_lookup_2).
    apply grid_In in Hin as [Hi Hj]. rewrite Heq in *. cbn [fst snd] in *. rewrite Hval by done.
    exists (Z.to_nat (m + Z.of_nat i)), (Z.to_nat (n + Z.of_nat j)). split.
    + unfold in_tile. fold m n. lia.
    + by rewrite !Z2Nat.id by lia.
  - intros (r & c & (Hrm & Hr & Hcn & HcN) & ->). fold m in Hrm. fold n in Hcn.
    assert (Hin : (Z.to_nat (Z.of_nat r - m), Z.to_nat (Z.of_nat c - n)) ∈ grid BLK_M BLK_N).
    { apply list_elem_of_In, grid_In. cbn. lia. }
    apply list_elem_of_lookup in Hin as [p Hp].
    destruct (Forall2_lookup_l _ _ _ _ _ Htile Hp) as (t & Ht' & Heq & Hval). cbn [fst snd] in Hval.
    exists t. rewrite Heq. cbn [fst snd].
    replace (m + Z.of_nat (Z.to_nat (Z.of_nat r - m))) with (Z.of_nat r) in * by lia.
    replace (n + Z.of_nat (Z.to_nat (Z.of_nat c - n))) with (Z.of_nat c) in * by lia.
    rewrite !Nat2Z.id in Hval. rewrite Hval by lia. split; [done|]. apply filter_In.
    split; [apply list_elem_of_In; by eapply list_elem_of_lookup_2|]. rewrite Heq. cbn [fst snd].
    replace (m + Z.of_nat (Z.to_nat (Z.of_nat r - m))) with (Z.of_nat r) by lia.
    replace (n + Z.of_nat (Z.to_nat (Z.of_nat c - n))) with (Z.of_nat c) by lia.
    apply andb_true_iff. split; apply Z.ltb_lt; lia.
Qed.

(** *** The walk of one block *)

(** The stores of the tiles that a block meets from tile number [t] on. *)
Definition met (t : Z) (w : Z * Z * A) : Prop :=
  exists k e r c, 0 <= k /\ (e < Ne)%nat /\
    let t := t + k * Z.of_nat CTA_COUNT in
    start e <= t < start (S e) /\ in_tile e (t - start e) r c /\
    w = (Z.of_nat r, Z.of_nat c, cell_value e r c).

Lemma met_step t w e : start e <= t < start (S e) -> (e < Ne)%nat -> 
  met t w <-> (exists r c, in_tile e (t - start e) r c /\ w = (Z.of_nat r, Z.of_nat c, cell_value e r c)) \/
              met (t + Z.of_nat CTA_COUNT) w.
Proof.
  intros Ht He. unfold met. split.
  - intros (k & e' & r & c & Hk & He' & Ht' & Hin & ->). destruct (decide (k = 0)) as [->|Hne].
    + left. rewrite Z.add_0_r in *. exists r, c.
      assert (e' = e) as ->; [|done]. destruct (Nat.lt_total e' e) as [Hlt|[Heq|Hlt]]; [|done|].
      * pose proof (start_le (S e') e). lia.
      * pose proof (start_le (S e) e'). lia.
    + right. exists (k - 1), e', r, c. cbv zeta in *.
      replace (t + Z.of_nat CTA_COUNT + (k - 1) * Z.of_nat CTA_COUNT) with (t + k * Z.of_nat CTA_COUNT) by lia.
      repeat (split; [done || lia|]). done.
  - intros [(r & c & Hin & ->)|(k & e' & r & c & Hk & He' & Ht' & Hin & ->)].
    + exists 0, e, r, c. cbv zeta. rewrite Z.mul_0_l, Z.add_0_r. repeat (split; [done || lia|]). done.
    + exists (k + 1), e', r, c. cbv zeta in *.
      replace (t + (k + 1) * Z.of_nat CTA_COUNT) with (t + Z.of_nat CTA_COUNT + k * Z.of_nat CTA_COUNT) by lia.
      repeat (split; [done || lia|]). done.
Qed.

Lemma met_end t w : start Ne <= t -> ~ met t w.
Proof.
  intros Ht (k & e & r & c & Hk & He & [_ Hlt] & _). pose proof (start_le (S e) Ne). unfold CTA_COUNT in *. lia.
Qed.

Lemma cta_loop_spec fuel s : (Z.to_nat (start Ne - tile_id s) < fuel)%nat -> 0 <= tile_id s ->
  tile_id s < start Ne + Z.of_nat CTA_COUNT ->
  (exists e, at_group s e /\ start e <= tile_id s) ->
  exists ws, cta_loop wrap Ne N K indptr weight X fuel s = Some ws /\ forall w, In w ws <-> met (tile_id s) w.
Proof.
  revert s. induction fuel as [|fuel IH]; intros s Hf H0 Hlt (e & Hs & He); [lia|].
  pose proof Hs as (HeNe & Hc & _). cbn [cta_loop]. rewrite Hc, (proj2 (Z.ltb_lt _ _)) by lia.
  destruct (next_group_spec (S Ne) s e Hs He) as (s' & -> & Htid & Hcase); [lia|]. cbn [mbind option_bind].
  assert (Hend : forall s, cur_e s = Z.of_nat Ne ->
    cta_loop wrap Ne N K indptr weight X fuel s = Some []).
  { intros s0 Hs0. destruct fuel; cbn [cta_loop]; by rewrite Hs0, Z.ltb_irrefl. }
  destruct Hcase as [(e' & Hs' & Ht')|[Hend' Ht']].
  - pose proof Hs' as (He'Ne & Hc' & _). rewrite Hc', (proj2 (Z.ltb_lt _ _)) by lia.
    destruct (tile_stores_spec s' e' Hs') as (ws & -> & Hws); [by rewrite Htid|]. cbn [mbind option_bind].
    pose proof (start_bound Ne (le_n _)) as [_ Hb]. pose proof (start_le (S e') Ne) as Hle.
    set (s2 := MkCta (sum0 s') (sum1 s') (row0 s') (row1 s') (Z.of_nat e') (wrap (tile_id s' + Z.of_nat CTA_COUNT))).
    assert (Ht2 : tile_id s2 = tile_id s + Z.of_nat CTA_COUNT)
      by (cbn; rewrite Htid; apply (vg_wrap valid); unfold CTA_COUNT in *; lia).
    assert (Hat : at_group s2 e').
    { destruct Hs' as (? & ? & ? & ? & ? & ?). by repeat split. }
    fold s2.
    destruct (IH s2) as (rest & -> & Hrest); [unfold CTA_COUNT in *; lia..| |].
    + exists e'. split; [done|]. unfold CTA_COUNT in *. lia.
    + cbn [mbind option_bind]. eexists. split; [done|]. intros w.
      rewrite in_app_iff, Hws, Hrest, Ht2, Htid. by rewrite (met_step (tile_id s) w e') by done.
  - rewrite Hend', Z.ltb_irrefl. cbn [mbind option_bind]. rewrite Hend by done. cbn [mbind option_bind app].
    eexists. split; [done|]. intros w. split; [done|]. intros Hm. by apply met_end in Hm.
Qed.

(** *** All blocks *)

(** Enough fuel for every block: one round per tile and one to see the end. *)
Definition enough (fuel : nat) : Prop := (Z.to_nat (start Ne) < fuel)%nat.

Lemma cta_spec fuel bx : enough fuel -> (bx < CTA_COUNT)%nat ->
  exists ws, cta wrap Ne N K indptr weight X fuel bx = Some ws /\ forall w, In w ws <-> met (Z.of_nat bx) w.
Proof.
  intros Hf Hbx. unfold cta. destruct (cta_init_spec bx) as (s & -> & Hs & Ht). cbn [mbind option_bind].
  rewrite <- Ht. pose proof (start_bound Ne (le_n _)). apply cta_loop_spec; unfold enough in Hf; [lia..|].
  exists 0%nat. split; [done|]. cbn. lia.
Qed.

(** Every cell of the result is in a tile of its expert's group. *)
Lemma cell_met r c e : (e < Ne)%nat -> ptr e <= Z.of_nat r < ptr (S e) -> (c < N)%nat ->
  exists bx, (bx < CTA_COUNT)%nat /\ met (Z.of_nat bx) (Z.of_nat r, Z.of_nat c, cell_value e r c).
Proof.
  intros He Hr Hc. pose proof tpr_spec as [Htpr HN].
  destruct (group_tiles_spec (ptr (S e) - ptr e)) as (_ & g & Hg & Hd); [lia|].
  set (qr := (Z.of_nat r - ptr e) / Z.of_nat BLK_M). set (qc := Z.of_nat c / Z.of_nat BLK_N).
  pose proof (Z.div_mod (Z.of_nat r - ptr e) (Z.of_nat BLK_M)) as Hr1.
  pose proof (Z.mod_pos_bound (Z.of_nat r - ptr e) (Z.of_nat BLK_M)) as Hr2.
  pose proof (Z.div_mod (Z.of_nat c) (Z.of_nat BLK_N)) as Hc1.
  pose proof (Z.mod_pos_bound (Z.of_nat c) (Z.of_nat BLK_N)) as Hc2. fold qr in Hr1. fold qc in Hc1.
  unfold BLK_M, BLK_N in *.
  assert (Hqr : 0 <= qr < g) by lia. assert (Hqc : 0 <= qc < tiles_per_row N) by lia.
  set (t := start e + (qr * tiles_per_row N + qc)).
  assert (Ht : start e <= t < start (S e)) by (cbn [start]; unfold t; rewrite Hg; nia).
  pose proof (start_range e) as Hse.
  pose proof (Z.div_mod t (Z.of_nat CTA_COUNT)) as Ht1. pose proof (Z.mod_pos_bound t (Z.of_nat CTA_COUNT)) as Ht2.
  exists (Z.to_nat (t mod Z.of_nat CTA_COUNT)). unfold CTA_COUNT in *. split; [lia|].
  exists (t / Z.of_nat 1024), e, r, c. rewrite Z2Nat.id by lia.
  replace (t mod Z.of_nat 1024 + t / Z.of_nat 1024 * Z.of_nat CTA_COUNT) with t by (unfold CTA_COUNT; lia).
  split; [apply Z.div_pos; lia|]. split; [done|]. split; [done|]. split; [|done].
  unfold in_tile, t. replace (start e + (qr * tiles_per_row N + qc) - start e) with (qr * tiles_per_row N + qc) by lia.
  rewrite Z.div_add_l, (Z.div_small qc), Z.add_0_r by lia.
  rewrite (Z.add_comm (qr * _) qc), Z_mod_plus_full, Z.mod_small by lia. unfold BLK_M, BLK_N. lia.
Qed.

(** The expert of a row. *)
Lemma row_expert r : (r < B)%nat -> exists e, (e < Ne)%nat /\ ptr e <= Z.of_nat r < ptr (S e).
Proof.
  intros Hr.
  assert (Hg : forall e, (e <= Ne)%nat -> Z.of_nat r < ptr e -> exists e, (e < Ne)%nat /\ ptr e <= Z.of_nat r < ptr (S e)).
  { induction e as [|e IH]; intros He Hlt; [rewrite (vg_first valid) in Hlt; lia|].
    destruct (Z.le_gt_cases (ptr e) (Z.of_nat r)) as [Hle|Hgt]; [by exists e|]. apply IH; lia. }
  apply (Hg Ne); [done|]. rewrite (vg_last valid). lia.
Qed.

Lemma met_cell t w : met t w -> exists e r c, (e < Ne)%nat /\ ptr e <= Z.of_nat r < ptr (S e) /\
  (r < B)%nat /\ (c < N)%nat /\ w = (Z.of_nat r, Z.of_nat c, cell_value e r c).
Proof.
  intros (k & e & r & c & _ & He & Ht & (Hr1 & Hr2 & _ & Hc) & ->). exists e, r, c.
  pose proof tpr_spec as [Htpr _]. pose proof (ptr_range (S e)). pose proof (ptr_range e).
  assert (0 <= (t + k * Z.of_nat CTA_COUNT - start e) / tiles_per_row N) by (apply Z.div_pos; lia).
  unfold BLK_M in *. repeat (split; [done || lia|]). done.
Qed.

(** The expert whose group has row [r]. *)
Definition expert_of (r : nat) : nat :=
  default 0%nat (List.find (fun e => Z.of_nat r <? ptr (S e)) (seq 0 Ne)).

Lemma find_seq (p : nat -> bool) a n e : (a <= e < a + n)%nat -> p e = true ->
  (forall i, (a <= i < e)%nat -> p i = false) -> List.find p (seq a n) = Some e.
Proof.
  revert a. induction n as [|n IH]; intros a He Hp Hlow; [lia|]. cbn.
  destruct (decide (a = e)) as [->|Hne]; [by rewrite Hp|].
  rewrite Hlow by lia. apply IH; [lia|done|]. intros; apply Hlow; lia.
Qed.

Lemma expert_of_spec r e : (e < Ne)%nat -> ptr e <= Z.of_nat r < ptr (S e) -> expert_of r = e.
Proof.
  intros He Hr. unfold expert_of. rewrite (find_seq _ 0 Ne e); [done|lia|apply Z.ltb_lt; lia|].
  intros i Hi. apply Z.ltb_ge. pose proof (ptr_le (S i) e). lia.
Qed.

(** The grouped product: row [r] of the result is row [r] of [X] times the
    weight of the expert of the row. *)
Definition group_product {R} (out : A -> R) : list (list R) :=
  map (fun r => map (fun c => out (cell_value (expert_of r) r c)) (seq 0 N)) (seq 0 B).

Lemma group_gemm_run {R} (out : A -> R) fuel (O : list (list R)) : enough fuel -> matrix B N O ->
  exists stores, all_stores wrap Ne N K indptr weight X fuel = Some stores /\
    forall ws, Permutation ws (concat stores) -> run_stores out ws O = Some (group_product out).
Proof.
  intros Hf HO. unfold all_stores.
  assert (Hall : exists stores, mapM (cta wrap Ne N K indptr weight X fuel) (seq 0 CTA_COUNT) = Some stores /\
    Forall2 (fun bx ws => forall w, In w ws <-> met (Z.of_nat bx) w) (seq 0 CTA_COUNT) stores).
  { assert (Hlt : Forall (fun bx => bx < CTA_COUNT)%nat (seq 0 CTA_COUNT)).
    { apply Forall_forall. intros bx Hbx. apply list_elem_of_In, in_seq in Hbx. lia. }
    revert Hlt. generalize (seq 0 CTA_COUNT). intros l.
    induction 1 as [|bx l Hbx _ (stores & IH & Hst)]; [by exists []|].
    destruct (cta_spec fuel bx Hf Hbx) as (ws & Hws & Hmet). exists (ws :: stores). cbn [mapM].
    rewrite Hws. cbn [mbind option_bind]. rewrite IH. split; [done|by constructor]. }
  destruct Hall as (stores & Hst & Hmet). exists stores. split; [done|]. intros ws Hws.
  assert (Hin : forall w, In w ws <-> exists bx, (bx < CTA_COUNT)%nat /\ met (Z.of_nat bx) w).
  { intros w. rewrite Hws, in_concat. split.
    - intros (l & Hl & Hw). apply list_elem_of_In, list_elem_of_lookup in Hl as [p Hp].
      destruct (Forall2_lookup_r _ _ _ _ _ Hmet Hp) as (bx & Hbx & Hm). apply lookup_seq in Hbx as [-> Hlt].
      exists p. split; [lia|]. by apply Hm.
    - intros (bx & Hbx & Hw).
      destruct (Forall2_lookup_l _ _ _ bx bx Hmet) as (l & Hl & Hm); [by apply lookup_seq|].
      exists l. split; [|by apply Hm]. apply list_elem_of_In. by eapply list_elem_of_lookup_2. }
  unfold run_stores.
  rewrite (ofold_ext _ (fun w O => store2 O (Z.of_nat (Z.to_nat w.1.1)) (Z.of_nat (Z.to_nat w.1.2)) (out w.2))).
  2: { intros w O' Hw. apply Hin in Hw as (bx & _ & Hw). apply met_cell in Hw as (e & r & c & _ & _ & _ & _ & ->).
       cbn [fst snd]. by rewrite !Z2Nat.id by lia. }
  apply (store_cells (fun w => (Z.to_nat w.1.1, Z.to_nat w.1.2)) (fun w => out w.2)
    (fun r c => out (cell_value (expert_of r) r c))); [done| |].
  - apply Forall_forall. intros w Hw. apply list_elem_of_In, Hin in Hw as (bx & _ & Hw).
    apply met_cell in Hw as (e & r & c & He & Hr & HB & HN & ->). cbn [fst snd].
    rewrite !Nat2Z.id. by rewrite (expert_of_spec r e).
  - intros r c Hr Hc. destruct (row_expert r Hr) as (e & He & Hre).
    destruct (cell_met r c e He Hre Hc) as (bx & Hbx & Hm). rewrite list_elem_of_In. apply in_map_iff.
    exists (Z.of_nat r, Z.of_nat c, cell_value e r c). cbn [fst snd]. rewrite !Nat2Z.id.
    split; [done|]. apply Hin. by exists bx.
Qed.
End Tiles.

(** ** Theorems *)

(** C12: the grouped product: the blocks walk over all tiles without an access
    outside the matrices, and in every interleaving of their stores row [r] of
    the result is row [r] of [X] times the weight of the expert whose range
    in [indptr] has [r]. *)
Theorem group_gemm_correct {R} (out : A -> R) wrap B Ne N K indptr weight X xv wv fuel (O : list (list R)) :
  valid_groups wrap B Ne N K indptr weight X xv wv -> enough Ne N indptr fuel -> matrix B N O ->
  exists stores, all_stores wrap Ne N K indptr weight X fuel = Some stores /\
    forall ws, Permutation ws (concat stores) -> exists O', run_stores out ws O = Some O' /\
      forall e r c, (e < Ne)%nat -> ptr indptr e <= Z.of_nat r < ptr indptr (S e) -> (c < N)%nat ->
        at2 O' r c = Some (out (dot K (xv r) (wv e c))).
Proof.
  intros Hv Hf HO. destruct (group_gemm_run _ _ _ _ _ _ _ _ _ _ Hv out fuel O Hf HO) as (stores & Hst & Hrun).
  exists stores. split; [done|]. intros ws Hws. eexists. split; [by apply Hrun|].
  intros e r c He Hr Hc. pose proof (ptr_range _ _ _ _ _ _ _ _ _ _ Hv (S e)). unfold at2, group_product.
  rewrite list_lookup_fmap, lookup_seq_lt by lia. cbn [fmap option_fmap option_map mbind option_bind].
  rewrite list_lookup_fmap, lookup_seq_lt by lia. cbn [fmap option_fmap option_map Nat.add].
  by rewrite (expert_of_spec _ _ _ _ _ _ _ _ _ _ Hv r e).
Qed.

Lemma gemv_run weight B N K x indptr (xv : nat -> nat -> F) (wv : nat -> nat -> nat -> F) (ev : nat -> nat)
    order o : (0 < K)%nat -> Permutation order (seq 0 B) -> matrix B N o ->
  (forall e, (e < B)%nat -> load2 indptr 0 (Z.of_nat e) = Some (Z.of_nat (ev e))) ->
  (forall e k, (e < B)%nat -> (k < K)%nat -> access_x x e k = Some (xv e k)) ->
  (forall e i k, (e < B)%nat -> (i < N)%nat -> (k < K)%nat -> weight (Z.of_nat (ev e)) i k = Some (wv (ev e) i k)) ->
  gemv_func weight N K x indptr order o =
  Some (map (fun e => map (fun i => dot K (xv e) (wv (ev e) i)) (seq 0 N)) (seq 0 B)).
Proof.
  intros HK Hord HO Hev Hx Hw. unfold gemv_func.
  rewrite <- (fold_insert_seq (fun e => map (fun i => dot K (xv e) (wv (ev e) i)) (seq 0 N)) order B o)
    by (done || apply HO).
  apply (ofold_total _ (fun o e => <[e := map (fun i => dot K (xv e) (wv (ev e) i)) (seq 0 N)]> o) (matrix B N));
    [done|].
  intros e o' He Ho'. rewrite Hord, in_seq in He. destruct (matrix_row B N o' e Ho') as (r & Hr & Hl); [lia|].
  rewrite (gemv_block_spec weight N K x indptr e (Z.of_nat (ev e)) o' r (xv e) (wv (ev e))).
  - split; [done|]. apply matrix_insert; [done|]. by rewrite length_map, length_seq.
  - done.
  - apply Hev. lia.
  - done.
  - done.
  - intros k Hk. apply Hx; lia.
  - intros i k Hi Hk. apply Hw; lia.
Qed.
End Kernels.

(** *** Packed weights *)

(** The weight that the kernels see for a matrix packed by [pack_weight]. *)
Lemma dequantize_packed {F S} `{DequantOps F S} bits n width gs level K words s e i j sc :
  0 < bits -> 0 < n -> n * bits <= width ->
  (forall k, 0 <= k < K -> 0 <= level k < 2 ^ bits) -> Z.of_nat j < K ->
  load3 words e (Z.of_nat i) (Z.of_nat j / n) = Some (pack_weight bits n width level K (Z.of_nat j / n)) ->
  load3 s e (Z.of_nat i) (Z.of_nat j / gs) = Some sc ->
  dequantize bits n gs words s e i j =
  Some (scale_mul (elem_sub (cast_int (level (Z.of_nat j))) (cast_int (2 ^ (bits - 1) - 1))) sc).
Proof.
  intros Hb Hn Hw Hl Hj Hword Hs. unfold dequantize. rewrite Hword, Hs. cbn [mbind option_bind].
  do 4 f_equal. pose proof (pack_unpack bits n width) as Hp.
  unfold convert_uint, elem_shift in Hp. rewrite Z.shiftl_1_l in Hp.
  rewrite Hp by (done || lia). by rewrite (proj2 (Z.ltb_lt _ _)).
Qed.

(** ** Concrete data *)

Module MoeMatmulExample.
#[local] Instance ints : MatOps Z Z := {
  elem_mul := Z.mul; elem_zero := 0; acc_zero := 0; acc_add := Z.add;
}.

(** Three rows for two experts: the first row for expert 0, two for expert 1. *)
Definition X : list (list Z) := [[1; 2]; [3; 4]; [5; 6]].
Definition W : list (list (list Z)) := [[[1; 0]; [0; 1]; [1; 1]]; [[2; 0]; [0; 2]; [2; 2]]].
Definition indptr : list Z := [0; 1; 3].
Definition xv (r k : nat) : Z := default 0 (at2 X r k).
Definition wv (e i k : nat) : Z := default 0 (m ← W !! e; at2 m i k).

Lemma groups_valid : valid_groups i32 3 2 3 2 indptr (plain_weight W) X xv wv.
Proof.
  constructor; try done.
  - intros [|[|e]] He; cbn; lia.
  - lia.
  - intros z Hz. apply i32_small. lia.
  - intros [|[|[|r]]] [|[|k]] Hr Hk; done || lia.
  - intros [|[|e]] [|[|[|i]]] [|[|k]] He Hi Hk; done || lia.
Qed.

Lemma group_gemm_correct_witness :
  exists stores, all_stores i32 2 3 2 indptr (plain_weight W) X 3 = Some stores /\
    forall ws, Permutation ws (concat stores) -> exists O',
      run_stores (fun v => v) ws (replicate 3 (replicate 3 (-1))) = Some O' /\
      forall e r c, (e < 2)%nat -> ptr indptr e <= Z.of_nat r < ptr indptr (S e) -> (c < 3)%nat ->
        at2 O' r c = Some (dot 2 (xv r) (wv e c)).
Proof.
  apply (group_gemm_correct (fun v => v) i32 3 2 3 2 indptr (plain_weight W) X xv wv 3); [apply groups_valid| |].
  - unfold enough. vm_compute. lia.
  - split; [done|]. repeat constructor.
Defined.

Example grouped : (stores ← group_gemm 2 3 2 X W indptr 3;
    run_stores (fun v => v) (concat stores) (replicate 3 (replicate 3 (-1)))) =
  Some [[1; 2; 3]; [6; 8; 14]; [10; 12; 22]].
Proof. vm_compute. reflexivity. Qed.

Example vectors : gemv 3 2 [[1; 2]] W [[1; 0]] [0; 1]%nat (replicate 2 (replicate 3 (-1))) =
  Some [[2; 4; 6]; [1; 2; 3]].
Proof. reflexivity. Qed.
End MoeMatmulExample.
