(* ===== verification/MoeForward.v ===== *)
(** * The mixture-of-experts layer

    [MixtralExperts.forward] ([nn/expert.py]) and [MixtralMoE.forward]
    ([model/mixtral/mixtral_model.py]): gating, shuffling, the grouped
    products, scattering and the weighted sum, composed from the kernels of
    [MoeGating], [MoeRouting] and [MoeMatmul].  The gate, the activation and
    the arithmetic are parameters.  The paths through the CUTLASS and
    FasterTransformer kernels, which are libraries, are not modelled. *)

From stdpp Require Import base list sets.
From S2P Require Import Prelude TirBuffer Quantization MoeGating MoeRouting MoeMatmul.
Local Open Scope Z_scope.

Section Forward.
Context {F : Type} `{MatOps F F} `{ScoreLaws F} {E : Type} `{!SoftmaxOps (V := F) E}.

(** ** The operators *)

(** [indptr.ndim] tells the two ways to call the experts apart. *)
Inductive Indptr :=
| PerToken (indptr : list (list Z))    (* ndim 2: the experts of one token *)
| Grouped (indptr : list Z).           (* ndim 1: the ranges of the experts *)

(** What one call of a kernel finds: fuel for the blocks, an interleaving of
    the stores, the order of the blocks and the output buffer. *)
Record Call := MkCall {
  c_fuel : nat;
  c_interleave : list (list (Z * Z * F)) -> list (Z * Z * F);
  c_order : list nat;
  c_out : list (list F);
}.

(** [MixtralExperts.forward] *)
Definition experts_forward (num_local_experts in_features out_features : nat) (weight : list (list (list F)))
    (x : list (list F)) (indptr : Indptr) (call : Call) : option (list (list F)) :=
  match indptr with
  | PerToken indptr =>
      if Nat.eqb (length indptr) 1
      then gemv out_features in_features x weight indptr (c_order call) (c_out call) else None
  | Grouped indptr =>
      stores ← group_gemm num_local_experts out_features in_features x weight indptr (c_fuel call);
      run_stores (fun v => v) (c_interleave call stores) (c_out call)
  end.

Class MoeOps := {
  silu : F -> F;
  gate : list F -> list F;                     (* [self.gate], one row *)
  sum_rows : list (list F) -> list F;          (* [op.sum(x, axis=1)], one token *)
  row_add : F -> F -> F;
}.
Context `{MoeOps}.

(** [op.split(x, 2, axis=-1)] of a row, then [silu(x1) * x3] *)
Definition glu (row : list F) : list F :=
  let half := (length row / 2)%nat in
  zip_with elem_mul (map silu (take half row)) (drop half row).

(** [moe_sum(x, dim=1)]: two experts are added directly. *)
Definition moe_sum (x : list (list (list F))) : list (list F) :=
  map (fun rows => match rows with
                   | [r0; r1] => zip_with row_add r0 r1
                   | _ => sum_rows rows
                   end) x.

Record MoE := MkMoE {
  num_experts_per_tok : nat;
  num_local_experts : nat;
  intermediate_size : nat;
  hidden_size : nat;
  e1_e3 : list (list (list F));
  e2 : list (list (list F));
}.

(** The calls of the kernels in one run of the layer. *)
Record Env := MkEnv {
  v_gating : Run (V := F);
  v_order : list (nat * nat);
  v_indices : list Z * list Z;
  v_indptr : list Z;
  v_up : Call;
  v_down : Call;
  v_scatter : list (list F);
}.

Definition expert_forward (m : MoE) (env : Env) (x : list (list F)) (indptr : Indptr) : option (list (list F)) :=
  x1_x3 ← experts_forward (num_local_experts m) (hidden_size m) (2 * intermediate_size m) (e1_e3 m) x indptr (v_up env);
  experts_forward (num_local_experts m) (intermediate_size m) (hidden_size m) (e2 m) (map glu x1_x3) indptr (v_down env).

(** [MixtralMoE.forward] on [num_tokens] rows *)
Definition moe_forward (m : MoE) (env : Env) (x : list (list F)) : option (list (list F)) :=
  let num_tokens := length x in
  let experts_per_tok := num_experts_per_tok m in
  chosen ← gating_softmax_topk (map gate x) (num_local_experts m) experts_per_tok true (v_gating env);
  let expert_weights := chosen.1 in
  let expert_indices := chosen.2 in
  y ← (if Nat.eqb num_tokens 1 then expert_forward m env x (PerToken expert_indices)
       else
         cumsum ← moe_cumsum num_tokens experts_per_tok (num_local_experts m) expert_indices;
         indices ← get_indices num_tokens experts_per_tok cumsum expert_indices (v_order env) (v_indices env);
         indptr ← get_indptr cumsum (num_local_experts m) num_tokens false (v_indptr env);
         x ← take_rows x indices.2;
         x ← expert_forward m env x (Grouped indptr);
         scatter_output (hidden_size m) x indices.1 (v_scatter env));
  y ← reshape num_tokens experts_per_tok y;
  Some (moe_sum (zip_with (zip_with (fun w r => map (fun v => elem_mul v w) r)) expert_weights y)).

(** ** Specification *)

(** The product of a row with a matrix. *)
Definition mat_row (N K : nat) (w : list (list F)) (x : list F) : list F :=
  map (fun i => dot K (fun k => default elem_zero (x !! k)) (fun k => default elem_zero (at2 w i k))) (seq 0 N).

(** The network of one expert. *)
Definition expert_mlp (m : MoE) (e : nat) (x : list F) : list F :=
  mat_row (hidden_size m) (intermediate_size m) (default [] (e2 m !! e))
    (glu (mat_row (2 * intermediate_size m) (hidden_size m) (default [] (e1_e3 m !! e)) x)).

(** The layer: for every token the weighted sum of the networks of its
    experts. *)
Definition moe_reference (m : MoE) (weights : list (list F)) (indices : list (list Z)) (x : list (list F))
    : list (list F) :=
  moe_sum (zip_with (fun wi x => map (fun we => map (fun v => elem_mul v we.1) (expert_mlp m (Z.to_nat we.2) x))
                                   (combine wi.1 wi.2))
             (combine weights indices) x).

(** A stack of [Ne] matrices. *)
Definition tensor3 {A} (Ne n k : nat) (w : list (list (list A))) : Prop :=
  length w = Ne /\ Forall (matrix n k) w.

Record valid_moe (m : MoE) (num_tokens : nat) : Prop := {
  vm_up : tensor3 (num_local_experts m) (2 * intermediate_size m) (hidden_size m) (e1_e3 m);
  vm_down : tensor3 (num_local_experts m) (hidden_size m) (intermediate_size m) (e2 m);
  vm_pos : (0 < hidden_size m)%nat /\ (0 < intermediate_size m)%nat;
  vm_size : let B := (num_tokens * num_experts_per_tok m)%nat in
    Z.of_nat B * tiles_per_row (2 * intermediate_size m) + Z.of_nat CTA_COUNT < 2 ^ 31 /\
    Z.of_nat B * tiles_per_row (hidden_size m) + Z.of_nat CTA_COUNT < 2 ^ 31;
  vm_cols : Z.of_nat (2 * intermediate_size m) + Z.of_nat BLK_N < 2 ^ 31 /\
            Z.of_nat (hidden_size m) + Z.of_nat BLK_N < 2 ^ 31;
}.

Definition valid_call (B Ne N : nat) (c : Call) : Prop :=
  (forall l, Permutation (c_interleave c l) (concat l)) /\ Permutation (c_order c) (seq 0 B) /\
  matrix B N (c_out c) /\ (B * Z.to_nat (tiles_per_row N) < c_fuel c)%nat.

Record valid_env (m : MoE) (num_tokens : nat) (env : Env) : Prop := {
  ve_gating : valid_run (num_experts_per_tok m) num_tokens (v_gating env);
  ve_order : Permutation (v_order env) (grid (nat_ceildiv (num_tokens * num_experts_per_tok m) MoeRouting.TX) MoeRouting.TX);
  ve_indices : length (v_indices env).1 = (num_tokens * num_experts_per_tok m)%nat /\
               length (v_indices env).2 = (num_tokens * num_experts_per_tok m)%nat;
  ve_indptr : length (v_indptr env) = S (num_local_experts m);
  ve_up : valid_call (num_tokens * num_experts_per_tok m) (num_local_experts m) (2 * intermediate_size m) (v_up env);
  ve_down : valid_call (num_tokens * num_experts_per_tok m) (num_local_experts m) (hidden_size m) (v_down env);
  ve_scatter : matrix (num_tokens * num_experts_per_tok m) (hidden_size m) (v_scatter env);
}.

(** ** Lemmas *)

Definition at3 (w : list (list (list F))) (e i k : nat) : F :=
  default elem_zero (at2 (default [] (w !! e)) i k).

Lemma plain_weight_holds Ne N K w : tensor3 Ne N K w -> holds_w Ne N K (plain_weight w) (at3 w).
Proof.
  intros [Hl Hw] e i k He Hi Hk. unfold plain_weight, load3, at3. rewrite load_lookup.
  destruct (lookup_lt_is_Some_2 w e) as [mx Hm]; [lia|]. rewrite Hm. cbn [mbind option_bind default from_option].
  rewrite load2_at2. assert (Hmx := Forall_lookup_1 _ _ _ _ Hw Hm).
  destruct (matrix_at2 N K mx i k Hmx Hi Hk) as [v Hv]. unfold id. by rewrite Hv.
Qed.

Definition row_at (x : list (list F)) (r k : nat) : F := default elem_zero (at2 x r k).

Lemma matrix_holds B K x : matrix B K x -> holds_x B K x (row_at x).
Proof. intros Hx r k Hr Hk. unfold row_at. by destruct (matrix_at2 B K x r k Hx Hr Hk) as [v ->]. Qed.

Lemma mat_row_length N K w x : length (mat_row N K w x) = N.
Proof. unfold mat_row. by rewrite length_map, length_seq. Qed.

Lemma dot_ext K (x x' w w' : nat -> F) : (forall k, (k < K)%nat -> x k = x' k) ->
  (forall k, (k < K)%nat -> w k = w' k) -> dot K x w = dot K x' w'.
Proof.
  intros Hx Hw. unfold dot. generalize (acc_zero : F). assert (Hl : forall k, k ∈ seq 0 K -> (k < K)%nat).
  { intros k Hk. apply list_elem_of_In, in_seq in Hk. lia. }
  revert Hl. induction (seq 0 K) as [|k l IH]; intros Hl a; cbn; [done|].
  rewrite Hx, Hw by (apply Hl; by left). apply IH. intros j Hj. apply Hl. by right.
Qed.

Lemma row_at_lookup x r row k : x !! r = Some row -> row_at x r k = default elem_zero (row !! k).
Proof. intros Hr. unfold row_at, at2. by rewrite Hr. Qed.

(** The ranges of the experts over [B] rows. *)
Record cuts (B Ne : nat) (indptr : list Z) : Prop := {
  cut_length : length indptr = S Ne;
  cut_first : ptr indptr 0 = 0;
  cut_mono : forall e, (e < Ne)%nat -> ptr indptr e <= ptr indptr (S e);
  cut_last : ptr indptr Ne = Z.of_nat B;
  cut_pos : (0 < Ne)%nat;
}.

Definition matrix_at (w : list (list (list F))) (e : nat) : list (list F) := default [] (w !! e).

Lemma grouped_spec B Ne K N w x indptr call : cuts B Ne indptr -> tensor3 Ne N K w -> matrix B K x ->
  (0 < N)%nat -> Z.of_nat B * tiles_per_row N + Z.of_nat CTA_COUNT < 2 ^ 31 ->
  Z.of_nat N + Z.of_nat BLK_N < 2 ^ 31 -> valid_call B Ne N call ->
  experts_forward Ne K N w x (Grouped indptr) call =
  Some (map (fun r => mat_row N K (matrix_at w (expert_of Ne indptr r)) (default [] (x !! r))) (seq 0 B)).
Proof.
  intros [] Hw Hx HN Hb Hc (Hi & _ & Hout & Hf). unfold experts_forward, group_gemm.
  assert (Hv : valid_groups i32 B Ne N K indptr (plain_weight w) x (row_at x) (at3 w)).
  { constructor; try done.
    - intros z Hz. apply i32_small. lia.
    - by apply matrix_holds.
    - by apply plain_weight_holds. }
  destruct (group_gemm_run _ _ _ _ _ _ _ _ _ _ Hv (fun v => v) (c_fuel call) (c_out call)) as (stores & -> & Hrun).
  - unfold enough. pose proof (start_range _ _ _ _ _ _ _ _ _ _ Hv Ne (le_n _)).
    pose proof (tpr_spec _ _ _ _ _ _ _ _ _ _ Hv). rewrite cut_last0 in *. nia.
  - done.
  - cbn [mbind option_bind]. rewrite Hrun by apply Hi. unfold group_product. f_equal.
    apply map_ext_in. intros r Hr. apply in_seq in Hr. unfold mat_row. apply map_ext_in. intros c Hcc.
    apply in_seq in Hcc. destruct (matrix_row B K x r Hx) as (row & Hrow & Hrl); [lia|].
    unfold cell_value. rewrite Hrow. apply dot_ext; intros k Hk; [by apply row_at_lookup|done].
Qed.

Lemma per_token_spec ept Ne K N w x ids call : tensor3 Ne N K w -> (0 < K)%nat -> (0 < ept)%nat ->
  matrix (length x) K x -> (length x = 1%nat \/ length x = ept) -> length ids = ept ->
  Forall (fun e => 0 <= e < Z.of_nat Ne) ids -> valid_call ept Ne N call ->
  experts_forward Ne K N w x (PerToken [ids]) call =
  Some (map (fun j => mat_row N K (matrix_at w (Z.to_nat (default 0 (ids !! j))))
                        (default [] (x !! (if Nat.eqb (length x) 1 then 0 else j)%nat))) (seq 0 ept)).
Proof.
  intros Hw HK Hept Hx Hlen His Hr (_ & Ho & Hout & _). unfold experts_forward, gemv. cbn [length Nat.eqb].
  pose proof (plain_weight_holds Ne N K w Hw) as Hwv.
  set (ev := fun j => Z.to_nat (default 0 (ids !! j))).
  set (src := fun j => (if Nat.eqb (length x) 1 then 0 else j)%nat).
  assert (Hev : forall j, (j < ept)%nat -> ids !! j = Some (Z.of_nat (ev j)) /\ (ev j < Ne)%nat).
  { intros j Hj. destruct (lookup_lt_is_Some_2 ids j) as [e He]; [lia|].
    assert (Her := Forall_lookup_1 _ _ _ _ Hr He). cbn in Her. unfold ev. rewrite He. cbn. split; [f_equal|]; lia. }
  assert (Hsrc : forall j, (j < ept)%nat -> (src j < length x)%nat).
  { intros j Hj. unfold src. destruct (Nat.eqb_spec (length x) 1); lia. }
  rewrite (gemv_run (plain_weight w) ept N K x [ids] (fun j => row_at x (src j)) (at3 w) ev); try done.
  - f_equal. apply map_ext_in. intros j Hj. apply in_seq in Hj. unfold mat_row. apply map_ext_in. intros i Hi.
    destruct (matrix_row _ K x (src j) Hx) as (row & Hrow & _); [apply Hsrc; lia|].
    fold (src j). rewrite Hrow. apply dot_ext; intros k Hk; [by apply row_at_lookup|done].
  - intros e He. unfold load2. cbn [load1 Z.leb Z.compare Z.to_nat lookup list_lookup mbind option_bind].
    change (load1 ids (Z.of_nat e) = Some (Z.of_nat (ev e))). rewrite load_lookup. by apply Hev.
  - intros e k He Hk. unfold access_x, src. pose proof (Hsrc e He) as Hs. unfold src in Hs.
    destruct (Nat.eqb (length x) 1).
    + change 0 with (Z.of_nat 0). rewrite load2_at2. by apply (matrix_holds _ K x Hx).
    + rewrite load2_at2. by apply (matrix_holds _ K x Hx).
  - intros e i k He Hi Hk. apply Hwv; [by apply Hev|done|done].
Qed.

(** *** Both ways through the experts compute the same rows *)

Lemma glu_length row n : length row = (2 * n)%nat -> length (glu row) = n.
Proof.
  intros Hl. unfold glu. rewrite length_zip_with, length_map, length_take, length_drop, Hl.
  replace (2 * n / 2)%nat with n by (rewrite Nat.mul_comm, Nat.div_mul; lia). lia.
Qed.

Lemma map_seq_lookup {Y} (f : nat -> Y) n r : (r < n)%nat -> map f (seq 0 n) !! r = Some (f r).
Proof. intros Hr. rewrite list_lookup_fmap, lookup_seq_lt by done. done. Qed.

Lemma map_seq_matrix {Y} (f : nat -> list Y) n k : (forall r, (r < n)%nat -> length (f r) = k) ->
  matrix n k (map f (seq 0 n)).
Proof.
  intros Hf. split; [by rewrite length_map, length_seq|]. apply Forall_map, Forall_forall.
  intros r Hr. apply list_elem_of_In, in_seq in Hr. apply Hf. lia.
Qed.

Section Layer.
Variables (m : MoE) (n : nat) (env : Env) (x : list (list F)).
Let ept := num_experts_per_tok m.
Let ne := num_local_experts m.
Let B := (n * ept)%nat.
Hypothesis Hm : valid_moe m n.
Hypothesis Henv : valid_env m n env.

Lemma expert_forward_grouped y indptr : cuts B ne indptr -> matrix B (hidden_size m) y ->
  expert_forward m env y (Grouped indptr) =
  Some (map (fun r => expert_mlp m (expert_of ne indptr r) (default [] (y !! r))) (seq 0 B)).
Proof.
  intros Hc Hy. unfold expert_forward. destruct Hm as [Hup Hdown Hpos [Hs1 Hs2] [Hc1 Hc2]].
  rewrite (grouped_spec B); [|done|done|done|lia|done|done|apply Henv]. cbn [mbind option_bind].
  rewrite map_map. rewrite (grouped_spec B); [|done|done| |lia|done|done|apply Henv].
  - f_equal. apply map_ext_in. intros r Hr. apply in_seq in Hr. rewrite map_seq_lookup by lia. done.
  - apply map_seq_matrix. intros r Hr. apply glu_length, mat_row_length.
Qed.

Lemma expert_forward_token row ids : n = 1%nat -> (0 < ept)%nat -> length row = hidden_size m ->
  length ids = ept -> Forall (fun e => 0 <= e < Z.of_nat ne) ids ->
  expert_forward m env [row] (PerToken [ids]) =
  Some (map (fun j => expert_mlp m (Z.to_nat (default 0 (ids !! j))) row) (seq 0 ept)).
Proof.
  intros Hn He Hrow Hids Hr. unfold expert_forward. destruct Hm as [Hup Hdown Hpos _ _].
  assert (HB : (n * num_experts_per_tok m = ept)%nat) by (unfold ept; lia).
  pose proof (ve_up _ _ _ Henv) as Hcu. pose proof (ve_down _ _ _ Henv) as Hcd. rewrite HB in Hcu, Hcd.
  rewrite (per_token_spec ept); [|done|lia|done| |by left|done|done|done].
  2: { split; [done|]. by repeat constructor. }
  cbn [mbind option_bind length Nat.eqb lookup list_lookup]. rewrite map_map.
  rewrite (per_token_spec ept); [|done|lia|done| | |done|done|done].
  - f_equal. apply map_ext_in. intros j Hj. apply in_seq in Hj. rewrite length_map, length_seq.
    unfold expert_mlp, matrix_at. f_equal. destruct (Nat.eqb_spec ept 1) as [Eq|Eq].
    + replace j with 0%nat by lia. by rewrite map_seq_lookup by lia.
    + by rewrite map_seq_lookup by lia.
  - rewrite length_map, length_seq. apply map_seq_matrix. intros r _. apply glu_length, mat_row_length.
  - right. by rewrite length_map, length_seq.
Qed.

(** *** The routed rows *)

Section Routed.
Variable ids : list (list Z).
Hypothesis Hr : valid_routing n ept ne ids.
Hypothesis Hx : matrix n (hidden_size m) x.

(** Place [v] of the output. *)
Definition place (v : nat) : list F :=
  let c := cell ept ids v in expert_mlp m c.1 (default [] (x !! c.2)).

Lemma take_rows_spec p : take_rows x (map (fun c => Z.of_nat c.2) p) = mapM (fun c : nat * nat => x !! c.2) p.
Proof.
  unfold take_rows. induction p as [|c p IH]; cbn; [done|]. rewrite load_lookup.
  destruct (x !! c.2); cbn; [|done]. by rewrite IH.
Qed.

Lemma taken : take_rows x (map (fun c => Z.of_nat c.2) (shuffle_plan n ne ids)) =
  Some (map (fun c => default [] (x !! c.2)) (shuffle_plan n ne ids)) /\
  matrix B (hidden_size m) (map (fun c => default [] (x !! c.2)) (shuffle_plan n ne ids)).
Proof.
  assert (Hin : forall c, In c (shuffle_plan n ne ids) -> exists r, x !! c.2 = Some r /\ length r = hidden_size m).
  { intros c [Hg _]%filter_In. apply grid_In in Hg as [_ Hb]. by apply (matrix_row n). }
  split.
  - rewrite take_rows_spec. apply mapM_Some'. intros c Hc. by destruct (Hin c Hc) as (r & -> & _).
  - split; [rewrite length_map; by apply plan_length|]. apply Forall_map, Forall_forall. intros c Hc.
    apply list_elem_of_In in Hc. by destruct (Hin c Hc) as (r & -> & ?).
Qed.

Lemma plan_start_mono e : plan_start n ids 0 = 0%nat /\ (plan_start n ids e <= plan_start n ids (S e))%nat.
Proof.
  split; [done|]. unfold plan_start.
  assert (Hle := filter_take_le (routed ids) (grid (S e) n) (e * n) (S e * n) ltac:(nia)).
  by rewrite !grid_take in Hle by lia.
Qed.

Lemma plan_cuts : cuts B ne (map (fun e => Z.of_nat (plan_start n ids e)) (seq 0 (S ne))).
Proof.
  assert (Hp : forall e, (e <= ne)%nat ->
    ptr (map (fun e => Z.of_nat (plan_start n ids e)) (seq 0 (S ne))) e = Z.of_nat (plan_start n ids e)).
  { intros e He. unfold ptr. by rewrite map_seq_lookup by lia. }
  constructor.
  - by rewrite length_map, length_seq.
  - rewrite Hp by lia. done.
  - intros e He. rewrite !Hp by lia. apply inj_le, plan_start_mono.
  - rewrite Hp by lia. unfold plan_start. fold (shuffle_plan n ne ids). f_equal. by apply plan_length.
  - pose proof (vr_experts _ _ _ _ Hr). pose proof (vr_tokens _ _ _ _ Hr).
    destruct (cell_token n ept ne ids Hr 0) as (_ & e & _ & He & _); [nia|lia].
Qed.

Lemma plan_expert r c : shuffle_plan n ne ids !! r = Some c ->
  expert_of ne (map (fun e => Z.of_nat (plan_start n ids e)) (seq 0 (S ne))) r = c.1.
Proof.
  intros Hc. assert (Hg : In c (shuffle_plan n ne ids)) by (apply list_elem_of_In; by eapply list_elem_of_lookup_2).
  apply filter_In in Hg as [Hg _]. apply grid_In in Hg as [He _].
  pose proof (plan_range n ne ids r c Hc) as Hrange. unfold expert_of.
  rewrite (find_seq _ 0 ne c.1); [done|lia| |].
  - unfold ptr. rewrite map_seq_lookup by lia. apply Z.ltb_lt. cbn [default from_option id]. lia.
  - intros i Hi. unfold ptr. rewrite map_seq_lookup by lia. apply Z.ltb_ge. cbn [default from_option id].
    assert (Hle : (plan_start n ids (S i) <= plan_start n ids c.1)%nat); [|lia].
    assert (Hi2 : (S i <= c.1)%nat) by lia. clear Hc He Hrange Hi. induction Hi2 as [|e _ IH]; [done|].
    etransitivity; [exact IH|]. apply plan_start_mono.
Qed.

(** Shuffling, computing and scattering gives every place its row. *)
Lemma shuffled o : v_scatter env = o ->
  (y ← take_rows x (map (fun c => Z.of_nat c.2) (shuffle_plan n ne ids));
   y ← expert_forward m env y (Grouped (map (fun e => Z.of_nat (plan_start n ids e)) (seq 0 (S ne))));
   scatter_output (hidden_size m) y (map (fun c => Z.of_nat (slot ept ids c)) (shuffle_plan n ne ids)) o) =
  Some (map place (seq 0 B)).
Proof.
  intros <-. destruct taken as [-> Hy]. cbn [mbind option_bind].
  rewrite expert_forward_grouped by (apply plan_cuts || done). cbn [mbind option_bind].
  rewrite <- (map_map (slot ept ids) Z.of_nat). apply scatter_spec.
  - by apply plan_slots.
  - by rewrite length_map, length_seq.
  - intros v _. unfold place, expert_mlp. apply mat_row_length.
  - intros i v Hv. rewrite list_lookup_fmap in Hv. destruct (shuffle_plan n ne ids !! i) as [c|] eqn:Hc; [|done].
    injection Hv as <-.
    assert (Hi : (i < B)%nat) by (apply lookup_lt_Some in Hc; by rewrite (plan_length n ept ne ids Hr) in Hc).
    rewrite map_seq_lookup by done. rewrite (plan_expert i c Hc).
    rewrite (lookup_map_Some _ _ _ _ Hc). cbn [default from_option id].
    assert (Hin : In c (shuffle_plan n ne ids)) by (apply list_elem_of_In; by eapply list_elem_of_lookup_2).
    destruct (slot_cell n ept ne ids Hr c Hin) as [_ Hs]. unfold place. by rewrite Hs.
  - apply Henv.
Qed.

(** *** The weighted sum *)

Lemma chunks_places : reshape n ept (map place (seq 0 B)) =
  Some (map (fun t => map (fun j => place (t * ept + j)) (seq 0 ept)) (seq 0 n)).
Proof.
  rewrite <- (reshape_concat n ept).
  - f_equal. unfold B. rewrite <- grid_numbers. unfold grid. rewrite flat_map_concat_map, !concat_map.
    f_equal. rewrite !map_map. apply map_ext. intros t. by rewrite !map_map.
  - apply map_seq_matrix. intros t _. by rewrite length_map, length_seq.
Qed.

Lemma place_expert t j : (t < n)%nat -> (j < ept)%nat ->
  place (t * ept + j) = expert_mlp m (Z.to_nat (default 0 (default [] (ids !! t) !! j))) (default [] (x !! t)).
Proof.
  intros Ht Hj. unfold place, cell. cbn [fst snd].
  rewrite Nat.div_add_l, Nat.div_small, Nat.add_0_r by lia.
  rewrite Nat.add_comm, Nat.Div0.mod_add, Nat.mod_small by lia. done.
Qed.

Lemma weighted ws : matrix n ept ws ->
  zip_with (zip_with (fun w r => map (fun v => elem_mul v w) r)) ws
    (map (fun t => map (fun j => place (t * ept + j)) (seq 0 ept)) (seq 0 n)) =
  zip_with (fun wi x => map (fun we => map (fun v => elem_mul v we.1) (expert_mlp m (Z.to_nat we.2) x))
                          (combine wi.1 wi.2)) (combine ws ids) x.
Proof.
  intros Hws. apply list_eq. intros t. rewrite !lookup_zip_with.
  destruct (decide (t < n)%nat) as [Ht|Ht].
  - destruct (matrix_row n ept ws t Hws Ht) as (w & Hw & Hwl).
    destruct (matrix_row n ept ids t (vr_shape _ _ _ _ Hr) Ht) as (i & Hi & Hil).
    destruct (matrix_row n _ x t Hx Ht) as (row & Hrow & _).
    rewrite combine_lookup, Hw, Hi, Hrow, map_seq_lookup by done. cbn [mbind option_bind fst snd]. f_equal.
    apply list_eq. intros j. rewrite lookup_zip_with. etransitivity; [|symmetry; apply list_lookup_fmap].
    rewrite combine_lookup.
    destruct (decide (j < ept)%nat) as [Hj|Hj].
    + destruct (lookup_lt_is_Some_2 w j) as [wj Hwj]; [lia|].
      destruct (lookup_lt_is_Some_2 i j) as [ij Hij]; [lia|].
      rewrite Hwj, Hij, map_seq_lookup by done. cbn [mbind option_bind fmap option_fmap option_map fst snd].
      rewrite place_expert by done. by rewrite Hi, Hrow; cbn [default from_option id]; rewrite Hij.
    + rewrite (lookup_ge_None_2 w) by lia. done.
  - destruct Hws as [Hws _]. rewrite combine_lookup, (lookup_ge_None_2 ws) by lia. done.
Qed.
End Routed.

(** *** Routings that come from the gating *)

Lemma gated_routing rows ws ids : Forall3 (is_topk ept) rows ws ids -> length rows = n ->
  Forall (fun r => length r = ne) rows -> (0 < ept)%nat -> (0 < n)%nat -> Z.of_nat (ne * n) < 2 ^ 31 ->
  valid_routing n ept ne ids /\ matrix n ept ws.
Proof.
  intros Hk Hl Hrows He Hn Hb.
  assert (Hall : Forall (fun i => length i = ept /\ Forall (fun e => 0 <= e < Z.of_nat ne) i /\ NoDup i) ids /\
    Forall (fun w => length w = ept) ws /\ length ws = length rows /\ length ids = length rows).
  { clear Hl Hn Hb. induction Hk as [|row w i rows ws ids Hi _ IH]; [done|].
    apply Forall_cons in Hrows as [Hrow Hrows]. destruct (IH Hrows) as (H3 & H4 & H5 & H6).
    destruct Hi as [[Hwl Hil] Hnd Hsc _ _]. cbn [length]. split; [|split; [by constructor|lia]].
    constructor; [|done]. split; [done|]. split; [|done]. apply Forall_lookup. intros j e Hej.
    destruct (lookup_lt_is_Some_2 w j) as [v Hv]; [apply lookup_lt_Some in Hej; lia|].
    destruct (Hsc v e) as (He0 & Hev & _).
    { apply list_elem_of_In, (list_elem_of_lookup_2 _ j). by rewrite combine_lookup, Hv, Hej. }
    apply lookup_lt_Some in Hev. lia. }
  destruct Hall as (Hids & Hws & Hwl & Hil). split; [|by split; [lia|]].
  constructor; [split; [lia|]|..]; try done; (eapply Forall_impl; [exact Hids|]); by intros i (? & ? & ?).
Qed.
End Layer.

(** C11: the layer: when every token has enough experts above the minimum
    score, the composition of gating, shuffling, grouped products (or, for a
    single token, matrix-vector products), scattering and summing is, for every
    token, the sum of the networks of its best experts weighted with the
    softmax of their scores, whatever the schedules of the kernels. *)
Theorem moe_forward_correct m env x :
  valid_moe m (length x) -> valid_env m (length x) env -> matrix (length x) (hidden_size m) x ->
  (0 < length x)%nat -> (0 < num_experts_per_tok m)%nat ->
  Z.of_nat (num_local_experts m * length x) < 2 ^ 31 ->
  Forall (fun row => length (gate row) = num_local_experts m /\
                     (num_experts_per_tok m <= above (gate row))%nat) x ->
  exists ws ids, Forall3 (is_topk (num_experts_per_tok m)) (map gate x) ws ids /\
    moe_forward m env x = Some (moe_reference m (map softmax_weights ws) ids x).
Proof.
  intros Hm Henv Hx Hn He Hb Hgate.
  assert (Hgm : matrix (length (map gate x)) (num_local_experts m) (map gate x)).
  { split; [done|]. apply Forall_map. eapply Forall_impl; [exact Hgate|]. by intros r [Hr _]. }
  assert (Hrun : valid_run (num_experts_per_tok m) (length (map gate x)) (v_gating env)).
  { rewrite length_map. apply Henv. }
  destruct (gating_topk_rows _ _ _ _ Hgm Hrun) as (ws & ids & Hg & Hk).
  { apply Forall_map. eapply Forall_impl; [exact Hgate|]. by intros r [_ Hr]. }
  destruct (softmax_topk_run _ _ _ _ Hgm Hrun) as (ws' & ids' & Hg' & Hsm). rewrite Hg in Hg'. simplify_eq.
  exists ws', ids'. split; [done|]. unfold moe_forward. rewrite Hsm. cbn [mbind option_bind fst snd].
  destruct (gated_routing m (length x) (map gate x) ws' ids' Hk) as [Hr Hws]; try done.
  { apply length_map. } { apply Hgm. }
  assert (Hsws : matrix (length x) (num_experts_per_tok m) (map softmax_weights ws')).
  { destruct Hws as [Hw1 Hw2]. split; [by rewrite length_map|]. apply Forall_map.
    eapply Forall_impl; [exact Hw2|]. intros w Hw. cbn. by rewrite softmax_weights_length. }
  enough (Hy : (if Nat.eqb (length x) 1 then expert_forward m env x (PerToken ids')
       else
         cumsum ← moe_cumsum (length x) (num_experts_per_tok m) (num_local_experts m) ids';
         indices ← get_indices (length x) (num_experts_per_tok m) cumsum ids' (v_order env) (v_indices env);
         indptr ← get_indptr cumsum (num_local_experts m) (length x) false (v_indptr env);
         x ← take_rows x indices.2;
         x ← expert_forward m env x (Grouped indptr);
         scatter_output (hidden_size m) x indices.1 (v_scatter env)) =
    Some (map (place m x ids') (seq 0 (length x * num_experts_per_tok m)))).
  { rewrite Hy. cbn [mbind option_bind]. rewrite chunks_places. cbn [mbind option_bind]. f_equal.
    unfold moe_reference. f_equal. by apply (weighted m (length x)). }
  destruct (Nat.eqb_spec (length x) 1) as [Eq|Hne].
  - destruct x as [|row [|]]; try done. destruct (vr_shape _ _ _ _ Hr) as [Hi1 Hi2].
    destruct ids' as [|i [|]]; try done. apply Forall_cons in Hi2 as [Hi2 _].
    pose proof (vr_range _ _ _ _ Hr) as Hrange. apply Forall_cons in Hrange as [Hrange _].
    destruct Hx as [_ Hx]. apply Forall_cons in Hx as [Hx _].
    rewrite (expert_forward_token m 1 env Hm Henv row i) by done. cbn [length]. rewrite Nat.mul_1_l. f_equal.
    apply map_ext_in. intros j Hj. apply in_seq in Hj.
    rewrite <- (place_expert m 1 [row] [i] 0 j) at 1 by lia. done.
  - destruct (moe_cumsum_spec _ _ _ _ Hr) as (c & -> & Hc). cbn [mbind option_bind].
    rewrite (get_indices_spec _ _ _ _ Hr c Hc) by apply Henv. cbn [mbind option_bind fst snd].
    rewrite (get_indptr_spec _ _ _ _ Hr c Hc false) by apply Henv. cbn [mbind option_bind].
    by apply (shuffled m (length x) env x Hm Henv ids' Hr Hx).
Qed.
End Forward.

(** ** Concrete data: three experts over rows of two integers *)

Module MoeForwardExample.
#[local] Instance ints : MatOps Z Z := {
  elem_mul := Z.mul; elem_zero := 0; acc_zero := 0; acc_add := Z.add;
}.
#[local] Instance scores : ScoreOps Z := { score_gt := Z.gtb; score_min := -1000 }.
#[local] Instance score_laws : ScoreLaws Z.
Proof.
  split; cbn [score_gt score_min scores].
  - intros a. rewrite Z.gtb_ltb. apply Z.ltb_irrefl.
  - intros a b c. rewrite !Z.gtb_ltb, !Z.ltb_lt. lia.
  - intros a b c. rewrite !Z.gtb_ltb, !Z.ltb_lt. lia.
Qed.
#[local] Instance softmax : SoftmaxOps (V := Z) Z := {
  cast_f32 v := v; cast_dtype v := v; f32_max := Z.max; f32_sub := Z.sub; f32_add := Z.add;
  f32_div a b := 100 * a / b; f32_exp v := 2 ^ (10 + v); softmax_scores row := row;
}.
#[local] Instance moe_ops : MoeOps := {
  silu v := v;
  gate row := match row with [a; b] => [a; b; a + b] | _ => row end;
  sum_rows rows := default [] (rows !! 0%nat);
  row_add := Z.add;
}.

Definition layer : MoE :=
  MkMoE 2 3 1 2 [[[1; 0]; [0; 1]]; [[1; 1]; [1; 0]]; [[2; 0]; [0; 2]]] [[[1]; [2]]; [[3]; [4]]; [[5]; [6]]].
Definition x : list (list Z) := [[1; 2]; [3; -1]].

Definition call (N : nat) : Call := MkCall 5 (fun l => rev (concat l)) (rev (seq 0 4)) (replicate 4 (replicate N 9)).
Definition env : Env :=
  MkEnv (MkRun (fun _ => MkLocal [7; 7] [8; 8]) (rev (grid 1 1024)) (replicate 2 [0; 0], replicate 2 [0; 0]))
    (rev (grid 1 1024)) (replicate 4 0, replicate 4 0) (replicate 4 0) (call 2) (call 2) (replicate 4 [0; 0]).

Lemma matrix_dec {A} n k (o : list (list A)) : length o = n -> forallb (fun r => Nat.eqb (length r) k) o = true ->
  matrix n k o.
Proof.
  intros Hn Hk. split; [done|]. apply Forall_forall. intros r Hr. rewrite forallb_forall in Hk.
  apply Nat.eqb_eq, Hk. by apply list_elem_of_In.
Qed.

Lemma layer_valid : valid_moe layer (length x).
Proof. constructor; try (split; [done|repeat constructor]); cbn; vm_compute; split; lia || done. Qed.

Lemma call_valid : valid_call 4 3 2 (call 2).
Proof.
  split; [|split; [|split]].
  - intros l. symmetry. apply Permutation_rev.
  - symmetry. apply Permutation_rev.
  - by apply matrix_dec.
  - vm_compute. lia.
Qed.

Lemma env_valid : valid_env layer (length x) env.
Proof.
  constructor; try done; try apply call_valid; try (by apply matrix_dec).
  - split; [done|]. split; [by apply matrix_dec|]. split; [by apply matrix_dec|]. symmetry. apply Permutation_rev.
  - symmetry. apply Permutation_rev.
Qed.

Lemma moe_forward_correct_witness :
  exists ws ids, Forall3 (is_topk 2) (map gate x) ws ids /\
    moe_forward layer env x = Some (moe_reference layer (map softmax_weights ws) ids x).
Proof.
  apply (moe_forward_correct layer env x); try apply layer_valid; try apply env_valid; try (vm_compute; lia).
  - by apply matrix_dec.
  - repeat constructor; vm_compute; lia.
Defined.

(** The kernels run: the tokens choose experts 2 and 1, and 0 and 2. *)
Example layer_result : moe_forward layer env x =
  Some (moe_reference layer [[66; 33]; [66; 33]] [[2; 1]; [0; 2]] x).
Proof. vm_compute. reflexivity. Qed.
End MoeForwardExample.
