(* ===== verification/QuantizeModel.v ===== *)
(** * Quantizing a model ([quantize_model] of the schemes)

    Every scheme walks over the network with its own [visit_module], which
    replaces layers and records, in a [QuantizeMapping], which parameters of the
    old network become which of the new one.  The theorems say that the mapping
    is right: the new network has exactly the parameters the mapping makes of
    the old ones.

    The functions that compute quantized weights build a tensor program for the
    weight and run it; TVM's compiler is the class [Quantizers], of which only
    the number of a program's results is used.  The caches of built programs
    ([_quantize_func_cache]) are left out: their keys determine the program. *)

From stdpp Require Import base list strings pretty.
From S2P Require Import Prelude PyStr Loader.
From S2P Require Import PyNum NnModule Quantization.
Local Open Scope string_scope.
Local Open Scope list_scope.
Local Open Scope Z_scope.

(** The tensor programs that quantize a weight: [GroupQuantize._quantize] along
    the last axis, [FTQuantize._quantize] followed by the preprocessing of
    CUTLASS, and [PerTensorQuantize.quantize_float8]. *)
Inductive QuantizeProgram : Set :=
| GroupProgram (c : GroupQuantize) (output_transpose : bool)
| FTProgram (c : FTQuantize)
| Float8Program (c : PerTensorQuantize).

(** [return quantized_weight, scale], or only the weight without scales *)
Definition program_outputs (p : QuantizeProgram) : nat :=
  match p with
  | GroupProgram _ _ | FTProgram _ => 2
  | Float8Program c => if use_scale c then 2 else 1
  end.

(** How a program is lowered before it is built: [dl.ApplyDefaultSchedule] or
    [relax.transform.LegalizeOps] *)
Inductive Lowering : Set := DefaultSchedule | LegalizeOps.

(** TVM's arrays and compiler.  [relax_build] builds a lowered program for
    weights of the shape, type and device of the given one. *)
Class Quantizers `{WF : WeightFiles} := {
  nd_shape : nd_array -> list Z;
  (** [device.MASK2STR[device.device_type]] of [weight.device] *)
  nd_device_type : nd_array -> string;
  (** [tvm.get_global_func("relax.ext.cutlass", True)] *)
  has_cutlass : bool;
  relax_build : Lowering -> QuantizeProgram -> nd_array -> res (nd_array -> res (list nd_array));
  (** [nd.empty(shape, dtype)] *)
  nd_empty : list dim -> string -> nd_array;
}.

(** A built program returns the results of the program. *)
Class QuantizerLaws `{QZ : Quantizers} : Prop := {
  build_outputs how p w f w' l : relax_build how p w = Ok f -> f w' = Ok l -> length l = program_outputs p;
}.

Section QuantizeModel.
Context `{WF : WeightFiles} {QZ : Quantizers} {DT : DataTypes}.

(** ** [quantization/utils.py] *)

Definition is_final_fc (name : string) : bool :=
  str_mem name ["head"; "lm_head"; "lm_head.linear"; "embed_out"].

(** [s.endswith(suffix)] *)
Definition endswith (suffix s : string) : bool := startswith (str_rev suffix) (str_rev s).

(** For a linear layer with [out_features] *)
Definition is_moe_gate (name : string) (out_features : dim) : bool :=
  endswith "gate" name && match out_features with DInt n => n <=? 256 | DVar _ => false end.

Definition apply_sharding (shard_strategy : Shard) (name : string) (weight : Param) : res Param :=
  match shard_strategy with
  | ShardSingleDim _ d segs =>
      Ok (mkParam (shape weight) (p_dtype weight) (Some (ShardSingleDim name d segs)))
  | OtherShard _ => Raise (NotImplementedError [Lit "Unknowing sharding strategy"])
  end.

(** [if "shard_strategy" in src.weight.attrs: apply_sharding(shard, f(shard), weight)] *)
Definition shard_as (src : Param) (f : string -> string) (weight : Param) : res Param :=
  match shard_strategy src with
  | Some s => apply_sharding s (f (shard_name s)) weight
  | None => Ok weight
  end.

(** ** The layers that replace others *)

(** [a, b = weight.shape] *)
Definition unpack_shape (p : Param) : res (dim * dim) :=
  match shape p with
  | [a; b] => Ok (a, b)
  | _ => Raise (ValueError [Lit "wrong number of values to unpack"])
  end.

(** The inner dimensions are numbers ([in_features: int], [dim: int]). *)
Definition as_int (d : dim) : res Z := match d with DInt n => Ok n | DVar _ => Raise TypeError end.

(** [self.bias = nn.Parameter((out_features,), ...)], with the attributes of the
    old bias *)
Definition new_bias (out_features : dim) (model_dtype : string) (out_dtype : option string)
    (bias : option Param) : list (string * Param) :=
  match bias with
  | Some b => [("bias", mkParam [out_features] (opt_default model_dtype out_dtype) (shard_strategy b))]
  | None => []
  end.

Definition ceildiv' (a b : Z) : res Z := if b =? 0 then Raise ZeroDivisionError else Ok (ceildiv a b).

(** [GroupQuantizeLinear.__init__]: the packed weight and the scales *)
Definition GroupQuantizeLinear_params (c : GroupQuantize) (in_features : Z) (out_features : dim)
    : res (Param * Param) :=
  let? num_group := ceildiv' in_features (group_size c) in
  let num_shards := gq_tensor_parallel_shards c in
  if (1 <? num_shards) && negb ((in_features * num_shards / group_size c) mod num_shards =? 0) then
    Raise (ValueError [Lit "The groups cannot be evenly distributed"])
  else
    let rows := DInt (num_storage_per_group c * num_group) in
    if String.eqb (linear_weight_layout c) "KN"
    then Ok (Parameter_new [rows; out_features] (storage_dtype c),
             Parameter_new [DInt num_group; out_features] (gq_model_dtype c))
    else Ok (Parameter_new [out_features; rows] (storage_dtype c),
             Parameter_new [out_features; DInt num_group] (gq_model_dtype c)).

(** [GroupQuantizeLinear.from_linear] *)
Definition GroupQuantizeLinear_from_linear (c : GroupQuantize) (out_dtype : option string)
    (weight : Param) (bias : option Param) : res Module' :=
  let? (out_features, in_features) := unpack_shape weight in
  let? in_features := as_int in_features in
  let? (q_weight, q_scale) := GroupQuantizeLinear_params c in_features out_features in
  let? q_weight := shard_as weight (fun n => n +:+ "_q_weight") q_weight in
  let? q_scale := shard_as weight (fun n => n +:+ "_q_scale") q_scale in
  Ok (Quantized "GroupQuantizeLinear"
        (("q_weight", q_weight) :: ("q_scale", q_scale)
         :: new_bias out_features (gq_model_dtype c) out_dtype bias)).

(** [GroupQuantizeEmbedding.from_embedding] *)
Definition GroupQuantizeEmbedding_from_embedding (c : GroupQuantize) (weight : Param) : res Module' :=
  let? (num, d) := unpack_shape weight in
  let? d := as_int d in
  let? num_group := ceildiv' d (group_size c) in
  Ok (Quantized "GroupQuantizeEmbedding"
        [("q_weight", Parameter_new [num; DInt (num_storage_per_group c * num_group)] (storage_dtype c));
         ("q_scale", Parameter_new [num; DInt num_group] (gq_model_dtype c))]).

(** [GroupQuantizeMixtralExperts.from_mixtral_experts] *)
Definition GroupQuantizeMixtralExperts_from (c : GroupQuantize) (num_local_experts in_features out_features : dim)
    (weight : Param) : res Module' :=
  let? in_features := as_int in_features in
  let? num_group := ceildiv' in_features (group_size c) in
  let q_weight := Parameter_new [num_local_experts; out_features;
                                 DInt (num_storage_per_group c * num_group)] (storage_dtype c) in
  let q_scale := Parameter_new [num_local_experts; out_features; DInt num_group] (gq_model_dtype c) in
  if String.eqb (linear_weight_layout c) "KN"
  then Raise (NotImplementedError [Lit "GroupQuantizeMixtralExperts does not support KN layout now."])
  else
    let? q_weight := shard_as weight (fun n => n +:+ "_q_weight") q_weight in
    let? q_scale := shard_as weight (fun n => n +:+ "_q_scale") q_scale in
    Ok (Quantized "GroupQuantizeMixtralExperts" [("q_weight", q_weight); ("q_scale", q_scale)]).

(** [FTQuantizeLinear.from_linear] *)
Definition FTQuantizeLinear_from_linear (c : FTQuantize) (in_features out_features : dim)
    (out_dtype : option string) (bias : option Param) : res Module' :=
  let? in_features := as_int in_features in
  let? out := as_int out_features in
  let cur_group_size := match ft_group_size c with
                        | Some g => if g =? 0 then in_features else g
                        | None => in_features
                        end in
  let? words := ceildiv' out (ft_num_elem_per_storage c) in
  let? num_group := ceildiv' in_features cur_group_size in
  Ok (Quantized "FTQuantizeLinear"
        (("q_weight", Parameter_new [DInt in_features; DInt words] (ft_storage_dtype c))
         :: ("q_scale", Parameter_new [DInt num_group; out_features] (ft_model_dtype c))
         :: new_bias out_features (ft_model_dtype c) out_dtype bias)).

(** [AWQQuantizeLinear.from_linear] *)
Definition AWQQuantizeLinear_from_linear (c : AWQQuantize) (in_features out_features : dim)
    (out_dtype : option string) (bias : option Param) : res Module' :=
  let? in_features := as_int in_features in
  let? out := as_int out_features in
  if (awq_num_elem_per_storage c =? 0) || (awq_group_size c =? 0) then Raise ZeroDivisionError
  else
    let words := DInt (out / awq_num_elem_per_storage c) in
    let groups := DInt (in_features / awq_group_size c) in
    Ok (Quantized "AWQQuantizeLinear"
          (("qweight", Parameter_new [DInt in_features; words] (awq_storage_dtype c))
           :: ("qzeros", Parameter_new [groups; words] (awq_storage_dtype c))
           :: ("scales", Parameter_new [groups; out_features] (awq_model_dtype c))
           :: map (fun b => (fst b, Parameter_new (shape (snd b)) (p_dtype (snd b))))
                (new_bias out_features (awq_model_dtype c) out_dtype bias))).

(** The scales of the per-tensor layers: one number, if there is any; the
    calibration scale comes first among the attributes. *)
Definition one_scale : Param := Parameter_new [DInt 1] "float32".
Definition has_calibration_scale (c : PerTensorQuantize) : bool :=
  use_scale c && String.eqb (calibration_mode c) "inference".
Definition per_tensor_scales (c : PerTensorQuantize) : list (string * Param) :=
  (if has_calibration_scale c then [("q_calibration_scale", one_scale)] else [])
  ++ (if use_scale c then [("q_scale", one_scale)] else []).

(** [PerTensorQuantizeLinear.from_linear] *)
Definition PerTensorQuantizeLinear_from_linear (c : PerTensorQuantize) (out_dtype : option string)
    (weight : Param) (bias : option Param) : res Module' :=
  let? (out_features, in_features) := unpack_shape weight in
  let? in_features := as_int in_features in
  let? words := ceildiv' in_features (pt_num_elem_per_storage c) in
  let? q_weight := shard_as weight (fun n => n +:+ "_q_weight")
                     (Parameter_new [out_features; DInt words] (pt_storage_dtype c)) in
  Ok (Quantized "PerTensorQuantizeLinear"
        (("q_weight", q_weight) :: per_tensor_scales c
         ++ new_bias out_features (pt_model_dtype c) out_dtype bias)).

(** [PerTensorQuantizeEmbedding.from_embedding] *)
Definition PerTensorQuantizeEmbedding_from_embedding (c : PerTensorQuantize) (weight : Param)
    : res Module' :=
  let? (num, d) := unpack_shape weight in
  let? d := as_int d in
  let? words := ceildiv' d (pt_num_elem_per_storage c) in
  Ok (Quantized "PerTensorQuantizeEmbedding"
        (("q_weight", Parameter_new [num; DInt words] (pt_storage_dtype c))
         :: (if use_scale c then [("q_scale", one_scale)] else []))).

(** [PerTensorQuantizeMixtralExperts.from_mixtral_experts], of [_IMPL["fp8"]] *)
Definition PerTensorQuantizeMixtralExperts_from (c : PerTensorQuantize)
    (num_local_experts in_features out_features : dim) (weight : Param) : res Module' :=
  let? t := DataType (weight_dtype c) in
  if is_code [Float8E4M3FN; Float8E5M2] t then
    let? in_features := as_int in_features in
    let? words := ceildiv' in_features (pt_num_elem_per_storage c) in
    let? q_weight := shard_as weight (fun n => n +:+ "_q_weight")
                       (Parameter_new [num_local_experts; out_features; DInt words] (pt_storage_dtype c)) in
    Ok (Quantized "FP8PerTensorQuantizeMixtralExperts" (("q_weight", q_weight) :: per_tensor_scales c))
  else Raise (NotImplementedError []).

(** The scales of the blocks of a weight. *)
Definition blocks (n b : Z) : res Z := if b =? 0 then Raise ZeroDivisionError else Ok ((n + b - 1) / b).

(** [l[i]], where a negative index counts from the end *)
Definition signed_getitem (l : list Z) (i : Z) : res Z :=
  let i := if i <? 0 then i + Z.of_nat (length l) else i in
  if i <? 0 then Raise IndexError else list_getitem l (Z.to_nat i).

(** The sharding of a weight and its scales: [shard.segs] is changed in between. *)
Definition shard_blocks (src : Param) (weight_block_size : list Z) (offset : Z) (weight scale : Param)
    : res (Param * Param) :=
  match shard_strategy src with
  | None => Ok (weight, scale)
  | Some s =>
      let? weight := apply_sharding s (shard_name s) weight in
      let? s := (match s with
                 | ShardSingleDim n d (Some segs) =>
                     let? b := signed_getitem weight_block_size (d - offset) in
                     if b =? 0 then Raise ZeroDivisionError
                     else Ok (ShardSingleDim n d (Some (map (fun x => x / b) segs)))
                 | _ => Ok s
                 end) in
      let? scale := apply_sharding s (shard_name s +:+ "_scale_inv") scale in
      Ok (weight, scale)
  end.

(** [BlockScaleQuantizeLinear.from_linear] *)
Definition BlockScaleQuantizeLinear_from_linear (c : BlockScaleQuantize) (weight_block_size : option (list Z))
    (out_dtype : option string) (weight : Param) (bias : option Param) : res Module' :=
  let? bsz := opt_res weight_block_size AssertionError in
  let? (out_features, in_features) := unpack_shape weight in
  let? out := as_int out_features in
  let? in_ := as_int in_features in
  let? b0 := list_getitem bsz 0 in
  let? b1 := list_getitem bsz 1 in
  let? n0 := blocks out b0 in
  let? n1 := blocks in_ b1 in
  let? (w, s) := shard_blocks weight bsz 0 (Parameter_new [out_features; in_features] (bs_weight_dtype c))
                   (Parameter_new [DInt n0; DInt n1] "float32") in
  Ok (Quantized "BlockScaleQuantizeLinear"
        (("weight", w) :: ("weight_scale_inv", s)
         :: new_bias out_features (bs_model_dtype c) out_dtype bias)).

(** [BlockScaleQuantizeMixtralExperts.from_mixtral_experts] *)
Definition BlockScaleQuantizeMixtralExperts_from (c : BlockScaleQuantize) (weight_block_size : option (list Z))
    (num_local_experts in_features out_features : dim) (weight : Param) : res Module' :=
  let? bsz := opt_res weight_block_size AssertionError in
  let? out := as_int out_features in
  let? in_ := as_int in_features in
  let? b0 := list_getitem bsz 0 in
  let? b1 := list_getitem bsz 1 in
  let? n0 := blocks out b0 in
  let? n1 := blocks in_ b1 in
  let? (w, s) := shard_blocks weight bsz 1
                   (Parameter_new [num_local_experts; out_features; in_features] (bs_weight_dtype c))
                   (Parameter_new [num_local_experts; DInt n0; DInt n1] "float32") in
  Ok (Quantized "BlockScaleQuantizeMixtralExperts" [("weight", w); ("weight_scale_inv", s)]).

(** ** Quantizing a weight *)

Definition last_and_rest (l : list Z) : res (list Z * Z) :=
  match rev l with [] => Raise IndexError | k :: r => Ok (rev r, k) end.

(** [_quantize] along the last axis: the shapes of the packed weight and of the
    scales *)
Definition group_quantize_shapes (c : GroupQuantize) (output_transpose : bool) (weight : list Z)
    : res (list Z * list Z) :=
  let? (lead, k) := last_and_rest weight in
  let? num_group := ceildiv' k (group_size c) in
  let scale := lead ++ [num_group] in
  let quantized_weight := lead ++ [num_storage_per_group c * num_group] in
  if output_transpose then
    if negb (Nat.eqb (length quantized_weight) 2)
    then Raise (ValueError [Lit "Does not support transpose output quantized weight with ndim != 2"])
    else Ok (rev quantized_weight, rev scale)
  else Ok (quantized_weight, scale).

(** [compile_quantize_func(mod, device)], for a program of the weight *)
Definition compile_quantize_func (ir : QuantizeProgram) (weight : nd_array)
    : res (nd_array -> res (list nd_array)) :=
  let device_type := nd_device_type weight in
  if str_mem device_type ["cuda"; "rocm"; "metal"; "vulkan"; "opencl"]
  then relax_build DefaultSchedule ir weight
  else if String.eqb device_type "cpu" then relax_build LegalizeOps ir weight
  else Raise (NotImplementedError [Lit "Device type "; FStr device_type; Lit " is not supported"]).

(** [GroupQuantize.quantize_weight(weight, output_transpose=...)], with the axis
    -1 of its callers.  Building the program evaluates [_quantize], which fails
    where the shapes do. *)
Definition group_quantize_weight (c : GroupQuantize) (output_transpose : bool) (weight : nd_array)
    : res (list nd_array) :=
  let? _ := group_quantize_shapes c output_transpose (nd_shape weight) in
  let? quantize_func := compile_quantize_func (GroupProgram c output_transpose) weight in
  quantize_func weight.

(** [FTQuantize.quantize_weight]; it has a [_compile_quantize_func] of its own. *)
Definition ft_quantize_weight (c : FTQuantize) (weight : nd_array) : res (list nd_array) :=
  let? _ := py_assert has_cutlass in
  let? _ := py_assert (Nat.eqb (length (nd_shape weight)) 2) in
  if String.eqb (nd_device_type weight) "cuda" then
    let? quantize_func := relax_build DefaultSchedule (FTProgram c) weight in
    quantize_func weight
  else Raise (NotImplementedError [Lit "Device type "; FStr (nd_device_type weight); Lit " is not supported"]).

(** [PerTensorQuantize.quantize_weight].  The [else] branch of
    [_create_quantize_func] is [assert NotImplementedError()], which passes and
    leaves [quantize_func] unbound. *)
Definition per_tensor_quantize_weight (c : PerTensorQuantize) (weight : nd_array) : res (list nd_array) :=
  let? t := DataType (weight_dtype c) in
  if is_code [Float8E4M3FN; Float8E5M2] t then
    let? quantize_func := compile_quantize_func (Float8Program c) weight in
    quantize_func weight
  else Raise (OtherError "NameError").

Lemma compile_outputs {QL : QuantizerLaws} p w f w' l :
  compile_quantize_func p w = Ok f -> f w' = Ok l -> length l = program_outputs p.
Proof.
  unfold compile_quantize_func. destruct (str_mem _ _); [|destruct (String.eqb _ _); [|done]]; apply build_outputs.
Qed.

Lemma group_two {QL : QuantizerLaws} c b w l : group_quantize_weight c b w = Ok l -> length l = 2%nat.
Proof.
  unfold group_quantize_weight. intros (_ & _ & (f & Hf & H)%rbind_Ok)%rbind_Ok.
  exact (compile_outputs _ _ _ _ _ Hf H).
Qed.

Lemma ft_two {QL : QuantizerLaws} c w l : ft_quantize_weight c w = Ok l -> length l = 2%nat.
Proof.
  unfold ft_quantize_weight. intros (_ & _ & (_ & _ & H)%rbind_Ok)%rbind_Ok.
  destruct (String.eqb _ _); [|done]. apply rbind_Ok in H as (f & Hf & H). exact (build_outputs _ _ _ _ _ _ Hf H).
Qed.

Lemma per_tensor_two {QL : QuantizerLaws} c w l : per_tensor_quantize_weight c w = Ok l ->
  length l = if use_scale c then 2%nat else 1%nat.
Proof.
  unfold per_tensor_quantize_weight. intros (t & _ & H)%rbind_Ok. destruct (is_code _ _); [|done].
  apply rbind_Ok in H as (f & Hf & H). exact (compile_outputs _ _ _ _ _ Hf H).
Qed.

(** ** [visit_module] *)

(** [quant_map.param_map[name] = names; quant_map.map_func[name] = f] *)
Definition map_weight (name : string) (names : list string) (f : nd_array -> res (list nd_array))
    : M QuantizeMapping unit :=
  mmodify (fun q => mkQuantizeMapping (dict_set (q_param_map q) name names) (dict_set (q_map_func q) name f)).

(** What [visit_module] does with a node: return this node, or [self.visit] it. *)
Inductive Action : Type := Return (m : Module') | Visit (m : Module').

Definition replace (r : res Module') : M QuantizeMapping Action :=
  let! m := mlift r in mret' (Return m).

Definition q_names (name : string) : list string := [name +:+ ".q_weight"; name +:+ ".q_scale"].

(** [GroupQuantize] *)
Definition group_visit_module (c : GroupQuantize) (name : string) (node : Module')
    : M QuantizeMapping Action :=
  match node with
  | Block true _ _ => mret' (Return node)
  | Linear _ out out_dtype w b =>
      if (negb (is_final_fc name) || gq_quantize_final_fc c) && negb (is_moe_gate name out) then
        map_weight (name +:+ ".weight") (q_names name)
          (group_quantize_weight c (String.eqb (linear_weight_layout c) "KN")) ;!
        replace (GroupQuantizeLinear_from_linear c out_dtype w b)
      else mret' (Visit node)
  | Embedding w =>
      if gq_quantize_embedding c then
        map_weight (name +:+ ".weight") (q_names name) (group_quantize_weight c false) ;!
        replace (GroupQuantizeEmbedding_from_embedding c w)
      else mret' (Visit node)
  | MixtralExperts n i o _ w =>
      map_weight (name +:+ ".weight") (q_names name) (group_quantize_weight c false) ;!
      replace (GroupQuantizeMixtralExperts_from c n i o w)
  | _ => mret' (Visit node)
  end.

(** [FTQuantize]; the parameter map is set before it is known whether the layer
    is quantized. *)
Definition ft_fallback (c : FTQuantize) (name : string) (out : dim) (out_dtype : option string) : res bool :=
  if is_final_fc name || bool_decide (out_dtype = Some "float32") then Ok true
  else
    let? out := (if String.eqb (ft_quantize_dtype c) "int4" || String.eqb (ft_quantize_dtype c) "int8"
                 then as_int out else Ok 0) in
    Ok (String.eqb (ft_quantize_dtype c) "int4" && negb (out mod 8 =? 0)
        || String.eqb (ft_quantize_dtype c) "int8" && negb (out mod 4 =? 0)).

Definition set_names (name : string) (names : list string) : M QuantizeMapping unit :=
  mmodify (fun q => mkQuantizeMapping (dict_set (q_param_map q) name names) (q_map_func q)).
Definition set_func (name : string) (f : nd_array -> res (list nd_array)) : M QuantizeMapping unit :=
  mmodify (fun q => mkQuantizeMapping (q_param_map q) (dict_set (q_map_func q) name f)).

Definition ft_visit_module (c : FTQuantize) (name : string) (node : Module') : M QuantizeMapping Action :=
  match node with
  | Linear i out out_dtype w b =>
      set_names (name +:+ ".weight") (q_names name) ;!
      let! fallback := mlift (ft_fallback c name out out_dtype) in
      if fallback then
        let! group_quantize := mlift (fallback_group_quantize c) in
        set_func (name +:+ ".weight") (group_quantize_weight group_quantize false) ;!
        replace (GroupQuantizeLinear_from_linear group_quantize out_dtype w b)
      else if negb (is_moe_gate name out) then
        set_func (name +:+ ".weight") (ft_quantize_weight c) ;!
        replace (FTQuantizeLinear_from_linear c i out out_dtype b)
      else mret' (Visit node)
  | Embedding w =>
      set_names (name +:+ ".weight") (q_names name) ;!
      let! group_quantize := mlift (fallback_group_quantize c) in
      set_func (name +:+ ".weight") (group_quantize_weight group_quantize false) ;!
      replace (GroupQuantizeEmbedding_from_embedding group_quantize w)
  | _ => mret' (Visit node)
  end.

(** [AWQQuantize]: the new parameters are in the checkpoint, nothing is mapped. *)
Definition awq_visit_module (c : AWQQuantize) (name : string) (node : Module') : M QuantizeMapping Action :=
  match node with
  | Linear i out out_dtype _ b =>
      if negb (is_final_fc name) && negb (is_moe_gate name out)
      then replace (AWQQuantizeLinear_from_linear c i out out_dtype b)
      else mret' (Visit node)
  | _ => mret' (Visit node)
  end.

(** [PerTensorQuantize]; a calibration scale is added to what was mapped. *)
Definition with_calibration (f : nd_array -> res (list nd_array)) : nd_array -> res (list nd_array) :=
  fun w => let? l := f w in Ok (l ++ [nd_empty [DInt 1] "float32"]).

Definition per_tensor_map (c : PerTensorQuantize) (name : string) : M QuantizeMapping unit :=
  map_weight (name +:+ ".weight") (if use_scale c then q_names name else [name +:+ ".q_weight"])
    (per_tensor_quantize_weight c).
Definition add_calibration (c : PerTensorQuantize) (name : string) : M QuantizeMapping unit :=
  if has_calibration_scale c then
    let! q := mget in
    let! names := mlift (dict_getitem (q_param_map q) (name +:+ ".weight")) in
    let! f := mlift (dict_getitem (q_map_func q) (name +:+ ".weight")) in
    map_weight (name +:+ ".weight") (names ++ [name +:+ ".q_calibration_scale"]) (with_calibration f)
  else mret' tt.

Definition per_tensor_visit_module (c : PerTensorQuantize) (name : string) (node : Module')
    : M QuantizeMapping Action :=
  match node with
  | Linear _ out out_dtype w b =>
      if quantize_linear c && (negb (is_final_fc name) || pt_quantize_final_fc c)
         && negb (is_moe_gate name out) then
        per_tensor_map c name ;!
        let! op := mlift (PerTensorQuantizeLinear_from_linear c out_dtype w b) in
        add_calibration c name ;! mret' (Return op)
      else mret' (Visit node)
  | Embedding w =>
      if pt_quantize_embedding c then
        per_tensor_map c name ;! replace (PerTensorQuantizeEmbedding_from_embedding c w)
      else mret' (Visit node)
  | MixtralExperts n i o _ w =>
      per_tensor_map c name ;!
      let! op := mlift (PerTensorQuantizeMixtralExperts_from c n i o w) in
      add_calibration c name ;! mret' (Return op)
  | _ => mret' (Visit node)
  end.

(** [BlockScaleQuantize]: multi-head latent attention keeps its modules, and its
    two absorbed weights get scales of their own. *)
Definition mla_weight (c : BlockScaleQuantize) (old : Param) (weight scale : list Z) : res (Param * Param) :=
  let w := Parameter_new (map DInt weight) (bs_weight_dtype c) in
  let s := Parameter_new (map DInt scale) "float32" in
  match shard_strategy old with
  | None => Ok (w, s)
  | Some sh =>
      let? _ := py_assert (match sh with ShardSingleDim _ _ segs => is_none segs | OtherShard _ => true end) in
      let? w := apply_sharding sh (shard_name sh) w in
      let? s := apply_sharding sh (shard_name sh +:+ "_scale_inv") s in
      Ok (w, s)
  end.

Definition mla_blocks (n b : Z) : res Z := if b =? 0 then Raise ZeroDivisionError else Ok (n / b).
Definition is_multiple (n b : Z) : res bool := if b =? 0 then Raise ZeroDivisionError else Ok (n mod b =? 0).

Definition get_param (attrs : dict (Param + Module')) (k : string) : res Param :=
  match dict_get attrs k with Some (inl p) => Ok p | _ => Raise AttributeError end.

Definition quantize_mla (c : BlockScaleQuantize) (weight_block_size : option (list Z)) (mla : option MLA)
    (attrs : dict (Param + Module')) : res (dict (Param + Module')) :=
  let? _ := py_assert (dict_has attrs "w_uv") in
  let? m := opt_res mla AttributeError in
  let? _ := py_assert (bool_decide (Some (block_size m) = weight_block_size)) in
  let? b0 := list_getitem (block_size m) 0 in
  let? nope_ok := is_multiple (qk_nope_head_dim m) b0 in
  let? v_ok := (if nope_ok
                then let? b1 := list_getitem (block_size m) 1 in is_multiple (v_head_dim m) b1
                else Ok false) in
  if negb v_ok then Raise (ValueError [Lit "Invalid DeepSeek model config"])
  else
    let? b1 := list_getitem (block_size m) 1 in
    let? uk := get_param attrs "w_uk" in
    let? uv := get_param attrs "w_uv" in
    let? rank1 := mla_blocks (kv_lora_rank m) b1 in
    let? nope0 := mla_blocks (qk_nope_head_dim m) b0 in
    let? v0 := mla_blocks (v_head_dim m) b0 in
    let? (w_uk, w_uk_scale_inv) := mla_weight c uk [num_heads m; kv_lora_rank m; qk_nope_head_dim m]
                                     [num_heads m; rank1; nope0] in
    let? (w_uv, w_uv_scale_inv) := mla_weight c uv [num_heads m; v_head_dim m; kv_lora_rank m]
                                     [num_heads m; v0; rank1] in
    let attrs := dict_set attrs "w_uk" (inl w_uk) in
    let attrs := dict_set attrs "w_uv" (inl w_uv) in
    let attrs := dict_set attrs "w_uk_scale_inv" (inl w_uk_scale_inv) in
    Ok (dict_set attrs "w_uv_scale_inv" (inl w_uv_scale_inv)).

Definition block_scale_visit_module (c : BlockScaleQuantize) (weight_block_size : option (list Z))
    (name : string) (node : Module') : M QuantizeMapping Action :=
  match node with
  | Block true _ _ => mret' (Return node)
  | Block false mla attrs =>
      if dict_has attrs "w_uk" then
        let! attrs := mlift (quantize_mla c weight_block_size mla attrs) in
        mret' (Visit (Block false mla attrs))
      else mret' (Visit node)
  | Linear _ out out_dtype w b =>
      if negb (is_final_fc name) && negb (is_moe_gate name out)
      then replace (BlockScaleQuantizeLinear_from_linear c weight_block_size out_dtype w b)
      else mret' (Visit node)
  | MixtralExperts n i o _ w => replace (BlockScaleQuantizeMixtralExperts_from c weight_block_size n i o w)
  | _ => mret' (Visit node)
  end.

(** ** [quantize_model] *)

Context {MU : Mutator QuantizeMapping} {CV : Conversion}.

Definition RecursionError : exn := OtherError "RecursionError".

(** The mutator calls [visit_module] on the submodules, and that calls [visit]. *)
Fixpoint walk (visit_module : string -> Module' -> M QuantizeMapping Action) (fuel : nat)
    (name : string) (node : Module') : M QuantizeMapping Module' :=
  match fuel with
  | O => mraise RecursionError
  | S fuel =>
      let! action := visit_module name node in
      match action with
      | Return m => mret' m
      | Visit m => visit (walk visit_module fuel) name m
      end
  end.

(** [model.to(dtype=self.model_dtype); mutator.visit(name_prefix, model)] *)
Definition mutate (visit_module : string -> Module' -> M QuantizeMapping Action) (model_dtype : string)
    (model : Module') (name_prefix : string) : M QuantizeMapping Module' :=
  let model := module_to model model_dtype in
  visit (walk visit_module (depth model)) name_prefix model.

Definition QuantizeMapping_new : QuantizeMapping := mkQuantizeMapping [] [].

(** [quantize_model] of a scheme; [NoQuantize] has none.  [weight_block_size] is
    the attribute of the model, and [tensor_parallel_shards] an argument that
    the per-tensor scheme requires and the others do not take. *)
Definition quantize_model (s : Scheme) (weight_block_size : res (option (list Z)))
    (tensor_parallel_shards : option Z) (model : Module') : M QuantizeMapping Module' :=
  match s, tensor_parallel_shards with
  | SNo _, _ => mraise AttributeError
  | SGroup c, None => mutate (group_visit_module c) (gq_model_dtype c) model ""
  | SAWQ c, None => mutate (awq_visit_module c) (awq_model_dtype c) model ""
  | SFT c, None => mutate (ft_visit_module c) (ft_model_dtype c) model ""
  | SPerTensor c, Some _ => mutate (per_tensor_visit_module c) (pt_model_dtype c) model ""
  | SBlockScale c, None =>
      let! w := mlift weight_block_size in
      mutate (block_scale_visit_module c w) (bs_model_dtype c) model ""
  | _, _ => mraise TypeError
  end.

(** ** What makes a quantization mapping right *)

(** The new names of an old parameter *)
Definition mapped (q : QuantizeMapping) (n : string) : list string :=
  opt_default [n] (dict_get (q_param_map q) n).

Definition arity (f : nd_array -> res (list nd_array)) (l : list string) : Prop :=
  forall w r, f w = Ok r -> length r = length l.

(** From the parameters [old] to [new], extending [q] to [q']: what is mapped
    are old names, the new names are what the mapping makes of them, and the
    functions return as many arrays as there are names. *)
Record Remaps (q q' : QuantizeMapping) (old new : list string) : Prop := {
  remaps_frame n : ~ In n old -> dict_get (q_param_map q') n = dict_get (q_param_map q) n /\
                                dict_get (q_map_func q') n = dict_get (q_map_func q) n;
  remaps_names : Permutation new (flat_map (mapped q') old);
  remaps_funcs n l : In n old -> dict_get (q_param_map q') n = Some l ->
    exists f, dict_get (q_map_func q') n = Some f /\ arity f l;
}.

Definition fresh (q : QuantizeMapping) (names : list string) : Prop :=
  forall n, In n names -> dict_get (q_param_map q) n = None.

Lemma flat_map_mapped_ext q q' l :
  (forall n, In n l -> dict_get (q_param_map q') n = dict_get (q_param_map q) n) ->
  flat_map (mapped q') l = flat_map (mapped q) l.
Proof.
  intros H. induction l as [|n l IH]; [done|]. cbn. rewrite IH by (intros; apply H; by right).
  unfold mapped at 1 3. by rewrite H by by left.
Qed.

Lemma remaps_id q names : fresh q names -> Remaps q q names names.
Proof.
  intros H. split; [done| |].
  - enough (flat_map (mapped q) names = names) as -> by done.
    induction names as [|n l IH]; [done|]. cbn. rewrite IH by (intros x Hx; apply H; by right).
    unfold mapped. by rewrite H by by left.
  - intros n l Hn. by rewrite H.
Qed.

Lemma remaps_app q q1 q2 o1 n1 o2 n2 : NoDup (o1 ++ o2) ->
  Remaps q q1 o1 n1 -> Remaps q1 q2 o2 n2 -> Remaps q q2 (o1 ++ o2) (n1 ++ n2).
Proof.
  intros (_ & Hd & _)%NoDup_app H1 H2.
  assert (forall n, In n o1 -> ~ In n o2) as Hd' by (intros n; rewrite <- !list_elem_of_In; apply Hd).
  split.
  - intros n Hn. rewrite in_app_iff in Hn. destruct (remaps_frame _ _ _ _ H1 n), (remaps_frame _ _ _ _ H2 n); [tauto..|].
    split; congruence.
  - rewrite flat_map_app, (remaps_names _ _ _ _ H1), (remaps_names _ _ _ _ H2). apply Permutation_app_tail.
    erewrite (flat_map_mapped_ext q1 q2); [done|]. intros n Hn. by apply (remaps_frame _ _ _ _ H2), Hd'.
  - intros n l [Hn|Hn]%in_app_iff Hl; [|by eapply remaps_funcs].
    destruct (remaps_frame _ _ _ _ H2 n (Hd' _ Hn)) as [E1 E2]. rewrite E1 in Hl. rewrite E2. by eapply remaps_funcs.
Qed.

Lemma remaps_weight q w l f rest : NoDup (w :: rest) -> fresh q (w :: rest) -> arity f l ->
  forall new, Permutation new (l ++ rest) ->
  Remaps q (mkQuantizeMapping (dict_set (q_param_map q) w l) (dict_set (q_map_func q) w f)) (w :: rest) new.
Proof.
  intros [Hw Hd]%NoDup_cons Hf Ha new Hp. split; cbn [q_param_map q_map_func].
  - intros n Hn. rewrite !dict_get_set. destruct (String.eqb_spec n w) as [->|]; [|done]. destruct Hn. by left.
  - rewrite Hp. cbn [flat_map]. unfold mapped at 1. cbn [q_param_map]. rewrite dict_get_set, String.eqb_refl. cbn.
    apply Permutation_app_head. rewrite (flat_map_mapped_ext q).
    + destruct (remaps_id q rest) as [_ Hr _]; [|exact Hr]. intros n Hn. apply Hf. by right.
    + intros n Hn. cbn. rewrite dict_get_set. destruct (String.eqb_spec n w) as [->|]; [|done].
      destruct Hw. by apply list_elem_of_In.
  - intros n l' Hn. rewrite !dict_get_set. destruct (String.eqb_spec n w) as [->|].
    + intros [= <-]. by exists f.
    + destruct Hn as [->|Hn]; [done|]. rewrite Hf by by right. done.
Qed.

(** A [visit_module] that, on layers with the property [P], only replaces them,
    mapping their weights, and leaves every other module to [visit]. *)
Definition is_block (m : Module') : bool := match m with Block _ _ _ => true | _ => false end.

Class ReplacesLayers (P : string -> Module' -> bool) (vm : string -> Module' -> M QuantizeMapping Action)
    : Prop :=
  replaces name node q a q' : name <> "" -> (is_block node = false -> P name node = true) -> NoDup (param_names name node) ->
    fresh q (param_names name node) -> vm name node q = (Ok a, q') ->
    (a = Visit node /\ q' = q) \/
    exists m, a = Return m /\ (is_block node = true -> m = node /\ q' = q) /\
      (is_block node = false -> Remaps q q' (param_names name node) (param_names name m)).

Section Walk.
Context (P : string -> Module' -> bool) (vm : string -> Module' -> M QuantizeMapping Action)
  {RL : ReplacesLayers P vm}.
Context {MUL : MutatorLaws QuantizeMapping}.

Lemma walk_leaf fuel name node : is_block node = false ->
  visit (walk vm fuel) name node = mret' node.
Proof. intros H. apply visit_leaf. intros nq mla attrs ->. done. Qed.

Definition walk_ok (fuel : nat) : Prop := forall name node q m q',
  name <> "" -> all_layers P name node = true -> NoDup (param_names name node) ->
  fresh q (param_names name node) -> walk vm fuel name node q = (Ok m, q') ->
  Remaps q q' (param_names name node) (param_names name m).

Lemma fresh_app q l1 l2 : fresh q (l1 ++ l2) <-> fresh q l1 /\ fresh q l2.
Proof. unfold fresh. setoid_rewrite in_app_iff. naive_solver. Qed.

Lemma fresh_remaps q q1 o1 n1 l : NoDup (o1 ++ l) -> fresh q l -> Remaps q q1 o1 n1 -> fresh q1 l.
Proof.
  intros (_ & Hd & _)%NoDup_app Hf Hr n Hn. destruct (remaps_frame _ _ _ _ Hr n) as [-> _]; [|by apply Hf].
  rewrite <- list_elem_of_In in Hn |- *. intros Hn'. by eapply Hd.
Qed.

Lemma attrs_ok fuel name nq mla : walk_ok fuel -> forall attrs q attrs' q',
  all_layers P name (Block nq mla attrs) = true -> NoDup (param_names name (Block nq mla attrs)) ->
  fresh q (param_names name (Block nq mla attrs)) ->
  visit_attrs (walk vm fuel) name attrs q = (Ok attrs', q') ->
  Remaps q q' (param_names name (Block nq mla attrs)) (param_names name (Block nq mla attrs')).
Proof.
  intros IH. unfold param_names. cbn [named_params all_layers].
  induction attrs as [|[k [p|m]] attrs IHa]; intros q attrs' q' Hn Hd Hf H; cbn [visit_attrs] in H.
  - injection H as <- <-. by apply remaps_id.
  - cbn [forallb flat_map fst snd app map] in *. apply andb_true_iff in Hn as [_ Hn].
    apply NoDup_cons in Hd as [Hk Hd].
    apply mbind_inv in H as [(as' & q1 & H & [= <- <-])|(e & _ & ?)]; [|done].
    apply (remaps_app _ q _ [_] [_] _ _); cbn [flat_map fst snd app map]; [by apply NoDup_cons| |].
    + apply remaps_id. intros n [<-|[]]. apply Hf. by left.
    + apply IHa; [done|done| |done]. intros n Hn'. apply Hf. by right.
  - cbn [forallb flat_map fst snd] in *. rewrite map_app in *.
    apply andb_true_iff in Hn as [Hkm Hn]. apply andb_true_iff in Hkm as [Hk Hm].
    apply mbind_inv in H as [(m' & q1 & H1 & H)|(e & _ & ?)]; [|done].
    apply mbind_inv in H as [(as' & q2 & H2 & [= <- <-])|(e & _ & ?)]; [|done].
    apply fresh_app in Hf as [Hf1 Hf2]. pose proof Hd as (Hd1 & _ & Hd2)%NoDup_app.
    assert (child_name name k <> "") as Hc.
    { apply child_name_nonempty. intros ->. done. }
    assert (Remaps q q1 (param_names (child_name name k) m) (param_names (child_name name k) m')) as R1.
    { by eapply IH. }
    cbn [flat_map fst snd]. rewrite map_app. eapply remaps_app; [done|exact R1|].
    apply IHa; [done|done| |done]. by eapply fresh_remaps.
Qed.

Lemma walk_remaps fuel : walk_ok fuel.
Proof.
  induction fuel as [|fuel IH]; intros name node q m q' Hname Hn Hd Hf H; [done|]. cbn [walk] in H.
  apply mbind_inv in H as [(a & q1 & H1 & H)|(e & _ & ?)]; [|done].
  assert (is_block node = false -> P name node = true) as HP by (intros E; by destruct node).
  destruct (replaces _ _ _ _ _ Hname HP Hd Hf H1) as [[-> ->]|(m' & -> & Hb & Hl)].
  - destruct (is_block node) eqn:E.
    + destruct node as [| | | |nq mla attrs]; try done. rewrite visit_block in H.
      apply mbind_inv in H as [(as' & q1 & H2 & [= <- <-])|(e & _ & ?)]; [|done].
      by eapply attrs_ok.
    + rewrite walk_leaf in H by done. injection H as <- <-. by apply remaps_id.
  - injection H as <- <-. destruct (is_block node); [|by apply Hl].
    destruct (Hb eq_refl) as [-> ->]. by apply remaps_id.
Qed.

(** The network itself is visited, not replaced. *)
Lemma mutate_remaps {CL : ConversionLaws} dtype model m q' :
  (exists nq mla attrs, model = Block nq mla attrs) ->
  (forall name m, P name (erase m) = P name m) ->
  all_layers P "" model = true -> NoDup (param_names "" model) ->
  mutate vm dtype model "" QuantizeMapping_new = (Ok m, q') ->
  Remaps QuantizeMapping_new q' (param_names "" model) (param_names "" m).
Proof.
  intros (nq & mla & attrs & ->) HP Hn Hd H. unfold mutate in H.
  rewrite <- erase_params, <- (module_to_erase _ dtype), erase_params.
  pose proof (module_to_erase (Block nq mla attrs) dtype) as He.
  remember (module_to (Block nq mla attrs) dtype) as model' eqn:E.
  destruct model' as [| | | |nq' mla' attrs']; try (cbn in He; discriminate He).
  rewrite visit_block in H. apply mbind_inv in H as [(as' & q1 & H2 & [= <- <-])|(e & _ & ?)]; [|done].
  eapply attrs_ok; [apply walk_remaps| | | |exact H2].
  - rewrite <- all_layers_erase, He, all_layers_erase by done. done.
  - rewrite <- erase_params, He, erase_params. done.
  - by intros n _.
Qed.
End Walk.

(** *** The schemes *)

Lemma weight_names name i o d w b : name <> "" ->
  param_names name (Linear i o d w b)
  = (name +:+ ".weight") :: map fst (opt_param (name +:+ ".bias") b).
Proof. intros H. unfold param_names. cbn. by rewrite !child_name_dot. Qed.

Lemma new_bias_names name out dt od b :
  map (fun kp => name +:+ "." +:+ fst kp) (new_bias out dt od b) = map fst (opt_param (name +:+ ".bias") b).
Proof. by destruct b. Qed.

Lemma quantized_names name c ps : name <> "" ->
  param_names name (Quantized c ps) = map (fun kp => name +:+ "." +:+ fst kp) ps.
Proof.
  intros H. unfold param_names. cbn. rewrite map_map. apply map_ext. intros [k p]. by rewrite child_name_dot.
Qed.

Lemma group_linear_names c od w b m name : name <> "" ->
  GroupQuantizeLinear_from_linear c od w b = Ok m ->
  param_names name m = q_names name ++ map fst (opt_param (name +:+ ".bias") b).
Proof.
  intros Hn. unfold GroupQuantizeLinear_from_linear.
  intros ([out in_] & _ & H)%rbind_Ok. apply rbind_Ok in H as (i & _ & H). apply rbind_Ok in H as ([qw qs] & _ & H).
  apply rbind_Ok in H as (qw' & _ & H). apply rbind_Ok in H as (qs' & _ & [= <-]).
  rewrite quantized_names by done. cbn [map fst app]. by rewrite new_bias_names.
Qed.

Lemma group_embedding_names c w m name : name <> "" ->
  GroupQuantizeEmbedding_from_embedding c w = Ok m -> param_names name m = q_names name.
Proof.
  intros Hn. unfold GroupQuantizeEmbedding_from_embedding.
  intros ([out in_] & _ & H)%rbind_Ok. apply rbind_Ok in H as (i & _ & H). apply rbind_Ok in H as (g & _ & [= <-]).
  by rewrite quantized_names.
Qed.

Lemma group_experts_names c n i o w m name : name <> "" ->
  GroupQuantizeMixtralExperts_from c n i o w = Ok m -> param_names name m = q_names name.
Proof.
  intros Hn. unfold GroupQuantizeMixtralExperts_from.
  intros (i' & _ & H)%rbind_Ok. apply rbind_Ok in H as (g & _ & H). destruct (String.eqb _ "KN"); [done|].
  apply rbind_Ok in H as (qw & _ & H). apply rbind_Ok in H as (qs & _ & [= <-]).
  by rewrite quantized_names.
Qed.

(** A weight is mapped, then the layer is replaced. *)
Lemma replace_inv name l f r q a q' :
  (map_weight name l f ;! replace r) q = (Ok a, q') ->
  exists m, r = Ok m /\ a = Return m /\
    q' = mkQuantizeMapping (dict_set (q_param_map q) name l) (dict_set (q_map_func q) name f).
Proof.
  unfold replace. intros [(u & q1 & [= <- <-] & H)|(e & _ & ?)]%mbind_inv; [|done].
  apply mbind_lift_inv in H as [(m & -> & [= <- <-])|(e & _ & ? & _)]; [|done]. by exists m.
Qed.

#[export] Instance group_replaces {QL : QuantizerLaws} c :
  ReplacesLayers (fun _ _ => true) (group_visit_module c).
Proof.
  intros name node q a q' Hn _ Hd Hf H.
  assert (forall b, arity (group_quantize_weight c b) (q_names name)) as Ha by (intros b w r; apply group_two).
  destruct node as [i o od w b|w|n i o t w|cl ps|[] mla attrs]; cbn [group_visit_module] in H.
  - destruct (_ && _); [|injection H as <- <-; by left]. right.
    apply replace_inv in H as (m & Hm & -> & ->). exists m. split; [done|]. split; [done|]. intros _.
    rewrite weight_names in * by done. apply remaps_weight; [done..|].
    by rewrite (group_linear_names _ _ _ _ _ _ Hn Hm).
  - destruct (gq_quantize_embedding c); [|injection H as <- <-; by left]. right.
    apply replace_inv in H as (m & Hm & -> & ->). exists m. split; [done|]. split; [done|]. intros _.
    unfold param_names in Hd, Hf |- * at 1. cbn [named_params map fst] in *. rewrite child_name_dot in * by done.
    apply remaps_weight; [done..|]. by rewrite (group_embedding_names _ _ _ _ Hn Hm).
  - right. apply replace_inv in H as (m & Hm & -> & ->). exists m. split; [done|]. split; [done|]. intros _.
    unfold param_names in Hd, Hf |- * at 1. cbn [named_params map fst] in *. rewrite child_name_dot in * by done.
    apply remaps_weight; [done..|]. by rewrite (group_experts_names _ _ _ _ _ _ _ Hn Hm).
  - injection H as <- <-. by left.
  - injection H as <- <-. right. by eexists.
  - injection H as <- <-. by left.
Qed.

Lemma dict_set_twice {V} (d : dict V) k a b : dict_set (dict_set d k a) k b = dict_set d k b.
Proof.
  induction d as [|[k' v] d IH]; cbn; [by rewrite String.eqb_refl|].
  destruct (String.eqb k k') eqn:E; cbn; rewrite E; [done|]. by rewrite IH.
Qed.

(** The mapping of a per-tensor layer, with its calibration scale. *)
Definition pt_names (c : PerTensorQuantize) (name : string) : list string :=
  (if use_scale c then q_names name else [name +:+ ".q_weight"])
  ++ (if has_calibration_scale c then [name +:+ ".q_calibration_scale"] else []).

Lemma pt_arity {QL : QuantizerLaws} c name :
  arity (per_tensor_quantize_weight c) (if use_scale c then q_names name else [name +:+ ".q_weight"]).
Proof. intros w r H. rewrite (per_tensor_two _ _ _ H). by destruct (use_scale c). Qed.

Lemma with_calibration_arity f l n : arity f l -> arity (with_calibration f) (l ++ [n]).
Proof.
  intros Hf w r. unfold with_calibration. intros (l' & H & [= <-])%rbind_Ok.
  rewrite !length_app, (Hf _ _ H). done.
Qed.

Lemma pt_calibrated {QL : QuantizerLaws} c name r q a q' :
  (per_tensor_map c name ;!
   let! op := mlift r in add_calibration c name ;! mret' (Return op)) q = (Ok a, q') ->
  exists m f, r = Ok m /\ a = Return m /\ arity f (pt_names c name) /\
    q' = mkQuantizeMapping (dict_set (q_param_map q) (name +:+ ".weight") (pt_names c name))
           (dict_set (q_map_func q) (name +:+ ".weight") f).
Proof.
  intros [(u & q1 & [= <- <-] & H)|(e & _ & ?)]%mbind_inv; [|done].
  apply mbind_lift_inv in H as [(m & -> & H)|(e & _ & ? & _)]; [|done].
  apply mbind_inv in H as [(u' & q2 & H1 & [= <- <-])|(e & _ & ?)]; [|done]. exists m.
  pose proof (pt_arity c name) as Ha. unfold add_calibration, pt_names in *.
  destruct (has_calibration_scale c).
  - rewrite (mbind_Ok mget _ _ _ _ eq_refl) in H1. cbn [q_param_map q_map_func] in H1.
    unfold dict_getitem in H1. rewrite !dict_get_set, String.eqb_refl in H1.
    injection H1 as <- <-. cbn [q_param_map q_map_func]. rewrite !dict_set_twice.
    eexists. split_and!; [done..| |done]. by apply with_calibration_arity.
  - injection H1 as <- <-. rewrite app_nil_r. by eexists.
Qed.

Lemma scale_names c : has_calibration_scale c = true -> use_scale c = true.
Proof. unfold has_calibration_scale. by intros [-> _]%andb_true_iff. Qed.

Lemma pt_params_names c name rest qw cl : name <> "" ->
  Permutation (param_names name (Quantized cl (("q_weight", qw) :: per_tensor_scales c ++ rest)))
    (pt_names c name ++ map (fun kp => name +:+ "." +:+ fst kp) rest).
Proof.
  intros Hn. rewrite quantized_names by done. cbn [map]. rewrite map_app.
  unfold per_tensor_scales, pt_names. destruct (has_calibration_scale c) eqn:E.
  - rewrite (scale_names _ E). cbn. constructor. apply perm_swap.
  - by destruct (use_scale c).
Qed.

#[export] Instance per_tensor_replaces {QL : QuantizerLaws} c :
  ReplacesLayers (fun _ _ => true) (per_tensor_visit_module c).
Proof.
  intros name node q a q' Hn _ Hd Hf H.
  destruct node as [i o od w b|w|n i o t w|cl ps|nq mla attrs]; cbn [per_tensor_visit_module] in H;
    try (injection H as <- <-; by left).
  - destruct (_ && _); [|injection H as <- <-; by left]. right.
    apply pt_calibrated in H as (m & f & Hm & -> & Ha & ->). exists m. split; [done|]. split; [done|]. intros _.
    rewrite weight_names in * by done. apply remaps_weight; [done..|].
    unfold PerTensorQuantizeLinear_from_linear in Hm.
    apply rbind_Ok in Hm as ([out in_] & _ & Hm). do 3 (apply rbind_Ok in Hm as (? & _ & Hm)). injection Hm as <-.
    rewrite pt_params_names by done. by rewrite new_bias_names.
  - destruct (pt_quantize_embedding c); [|injection H as <- <-; by left]. right.
    apply replace_inv in H as (m & Hm & -> & ->). exists m. split; [done|]. split; [done|]. intros _.
    unfold param_names in Hd, Hf |- * at 1. cbn [named_params map fst] in *. rewrite child_name_dot in * by done.
    apply remaps_weight; [done..|apply pt_arity|]. unfold PerTensorQuantizeEmbedding_from_embedding in Hm.
    apply rbind_Ok in Hm as ([out in_] & _ & Hm). do 2 (apply rbind_Ok in Hm as (? & _ & Hm)). injection Hm as <-.
    rewrite quantized_names, app_nil_r by done. by destruct (use_scale c).
  - right. apply pt_calibrated in H as (m & f & Hm & -> & Ha & ->). exists m. split; [done|]. split; [done|]. intros _.
    unfold param_names in Hd, Hf |- * at 1. cbn [named_params map fst] in *. rewrite child_name_dot in * by done.
    apply remaps_weight; [done..|]. unfold PerTensorQuantizeMixtralExperts_from in Hm.
    apply rbind_Ok in Hm as (t' & _ & Hm). destruct (is_code _ t'); [|done].
    do 3 (apply rbind_Ok in Hm as (? & _ & Hm)). injection Hm as <-.
    rewrite <- (app_nil_r (per_tensor_scales c)), pt_params_names by done. done.
Qed.

(** FasterTransformer: right where no gate of a mixture of experts is left
    unquantized. *)
Definition ft_quantized (c : FTQuantize) (name : string) (node : Module') : bool :=
  match node with
  | Linear _ out out_dtype _ _ =>
      negb (is_moe_gate name out)
      || match ft_fallback c name out out_dtype with Ok b => b | Raise _ => true end
  | _ => true
  end.

Lemma set_both name l f (k : M QuantizeMapping Action) q :
  (set_func name f ;! k) (mkQuantizeMapping (dict_set (q_param_map q) name l) (q_map_func q))
  = (map_weight name l f ;! k) q.
Proof. done. Qed.

#[export] Instance ft_replaces {QL : QuantizerLaws} c :
  ReplacesLayers (ft_quantized c) (ft_visit_module c).
Proof.
  intros name node q a q' Hn HP Hd Hf H.
  assert (forall g, arity (group_quantize_weight g false) (q_names name)) as Hag by (intros g w r; apply group_two).
  assert (arity (ft_quantize_weight c) (q_names name)) as Haf by (intros w r; apply ft_two).
  destruct node as [i o od w b|w|n i o t w|cl ps|nq mla attrs]; cbn [ft_visit_module] in H;
    try (injection H as <- <-; by left).
  - right. rewrite (mbind_Ok (set_names _ _) _ _ _ _ eq_refl) in H.
    apply mbind_lift_inv in H as [(fb & Hfb & H)|(e & _ & ? & _)]; [|done].
    rewrite weight_names in * by done. specialize (HP eq_refl). cbn [ft_quantized] in HP. rewrite Hfb in HP.
    destruct fb.
    + apply mbind_lift_inv in H as [(g & Hg & H)|(e & _ & ? & _)]; [|done]. rewrite set_both in H.
      apply replace_inv in H as (m & Hm & -> & ->). exists m. split; [done|]. split; [done|]. intros _.
      apply remaps_weight; [done..|]. by rewrite (group_linear_names _ _ _ _ _ _ Hn Hm).
    + rewrite orb_false_r in HP. rewrite HP, set_both in H.
      apply replace_inv in H as (m & Hm & -> & ->). exists m. split; [done|]. split; [done|]. intros _.
      apply remaps_weight; [done..|]. unfold FTQuantizeLinear_from_linear in Hm.
      do 4 (apply rbind_Ok in Hm as (? & _ & Hm)). injection Hm as <-.
      rewrite quantized_names by done. cbn [map fst]. by rewrite new_bias_names.
  - right. rewrite (mbind_Ok (set_names _ _) _ _ _ _ eq_refl) in H.
    apply mbind_lift_inv in H as [(g & Hg & H)|(e & _ & ? & _)]; [|done]. rewrite set_both in H.
    apply replace_inv in H as (m & Hm & -> & ->). exists m. split; [done|]. split; [done|]. intros _.
    unfold param_names in Hd, Hf |- * at 1. cbn [named_params map fst] in *. rewrite child_name_dot in * by done.
    apply remaps_weight; [done..|]. by rewrite (group_embedding_names _ _ _ _ Hn Hm).
Qed.

(** ** Theorems *)

(** The schemes with a mapping, and the layers they are right on. *)
Definition has_mapping (s : Scheme) : bool :=
  match s with SGroup _ | SFT _ | SPerTensor _ => true | _ => false end.
Definition scheme_layers (s : Scheme) : string -> Module' -> bool :=
  match s with SFT c => ft_quantized c | _ => fun _ _ => true end.

Lemma remaps_new q old new : Remaps QuantizeMapping_new q old new ->
  Permutation new (flat_map (mapped q) old) /\
  forall n l, dict_get (q_param_map q) n = Some l ->
    In n old /\ exists f, dict_get (q_map_func q) n = Some f /\ arity f l.
Proof.
  intros R. split; [apply R|]. intros n l Hl. destruct (in_dec String.string_dec n old) as [Hn|Hn].
  - split; [done|]. by eapply remaps_funcs.
  - destruct (remaps_frame _ _ _ _ R n Hn) as [E _]. by rewrite E in Hl.
Qed.

Lemma quantize_remaps {QL : QuantizerLaws} {MUL : MutatorLaws QuantizeMapping} {CL : ConversionLaws}
    s wbs tps model m q :
  has_mapping s = true -> is_block model = true ->
  all_layers (scheme_layers s) "" model = true -> NoDup (param_names "" model) ->
  quantize_model s wbs tps model QuantizeMapping_new = (Ok m, q) ->
  Remaps QuantizeMapping_new q (param_names "" model) (param_names "" m).
Proof.
  intros Hs Hb Hl Hd H.
  assert (exists nq mla attrs, model = Block nq mla attrs) as HB by (destruct model; try done; by repeat eexists).
  destruct s as [|c| |c|c|]; try done; destruct tps as [z|]; try done; cbn [quantize_model scheme_layers] in *.
  - exact (mutate_remaps (fun _ _ => true) _ _ model m q HB (fun _ _ => eq_refl) Hl Hd H).
  - refine (mutate_remaps (ft_quantized c) _ _ model m q HB _ Hl Hd H). by intros name [].
  - exact (mutate_remaps (fun _ _ => true) _ _ model m q HB (fun _ _ => eq_refl) Hl Hd H).
Qed.

(** C27: the quantization mapping is right.  When a scheme that records a
    mapping (group, FasterTransformer or per-tensor quantization) quantizes a
    network, given as a block of layers whose parameters have different names
    (for FasterTransformer: in which no expert gate is left unquantized), the
    parameters of the quantized network are, up to order, what the mapping makes
    of the old ones; and every mapped name is an old parameter whose quantizing
    function, when it returns, returns one array per new name.  The other
    schemes record nothing: AWQ and block-scale quantization replace the layers
    of a checkpoint that is quantized already, and leave the mapping empty. *)
Theorem quantize_model_remaps {QL : QuantizerLaws} {MUL : MutatorLaws QuantizeMapping}
    {CL : ConversionLaws} s weight_block_size tensor_parallel_shards model m q :
  has_mapping s = true -> is_block model = true ->
  all_layers (scheme_layers s) "" model = true -> NoDup (param_names "" model) ->
  quantize_model s weight_block_size tensor_parallel_shards model QuantizeMapping_new = (Ok m, q) ->
  Permutation (param_names "" m) (flat_map (mapped q) (param_names "" model)) /\
  forall n l, dict_get (q_param_map q) n = Some l ->
    In n (param_names "" model) /\ exists f, dict_get (q_map_func q) n = Some f /\ arity f l.
Proof. intros Hs Hb Hl Hd H. by apply remaps_new, (quantize_remaps s weight_block_size tensor_parallel_shards). Qed.

(** FasterTransformer breaks on expert gates.  For a gate of a mixture of
    experts that needs no fallback, the mapping gets names but no function,
    and the layer stays as it is; loading its weight with that mapping raises a
    [KeyError]. *)
Theorem ft_gate_unmapped c name i out out_dtype w b q :
  is_moe_gate name out = true -> ft_fallback c name out out_dtype = Ok false ->
  dict_get (q_map_func q) (name +:+ ".weight") = None ->
  exists q', ft_visit_module c name (Linear i out out_dtype w b) q
      = (Ok (Visit (Linear i out out_dtype w b)), q') /\
    forall loader param, quantize_param_map loader = Some q' ->
      _load_or_quantize loader (name +:+ ".weight") param = Raise (KeyError (name +:+ ".weight")).
Proof.
  intros Hg Hf Hq. eexists. split.
  - cbn [ft_visit_module]. rewrite (mbind_Ok (set_names _ _) _ _ _ _ eq_refl), (mbind_lift _ _ _ _ Hf).
    rewrite Hg. reflexivity.
  - intros loader param Hl. unfold _load_or_quantize. rewrite Hl.
    assert (dict_has (dict_set (q_param_map q) (name +:+ ".weight") (q_names name)) (name +:+ ".weight") = true) as E.
    { rewrite dict_has_set. by rewrite String.eqb_refl. }
    cbn [q_param_map q_map_func]. rewrite E. unfold dict_getitem. rewrite dict_get_set, String.eqb_refl, Hq.
    reflexivity.
Qed.
(** ** The shapes of quantized weights *)

(** An actual shape and an expected one, where a variable stands for anything *)
Definition fits (actual : list Z) (expect : list dim) : Prop :=
  Forall2 (fun a e => match e with DInt n => a = n | DVar _ => True end) actual expect.

Definition layer_weight (m : Module') : option Param :=
  match m with
  | Linear _ _ _ w _ | Embedding w | MixtralExperts _ _ _ _ w => Some w
  | _ => None
  end.

(** The weight of experts has the shape of their constructor. *)
Definition well_shaped (m : Module') : Prop :=
  match m with
  | MixtralExperts n i o _ w => shape w = [n; o; i]
  | _ => True
  end.

Lemma shard_as_shape src f w w' : shard_as src f w = Ok w' -> shape w' = shape w /\ p_dtype w' = p_dtype w.
Proof.
  unfold shard_as, apply_sharding. destruct (shard_strategy src) as [[]|]; intros H; try done; by injection H as <-.
Qed.

Lemma fits_pair a b d1 d2 : fits [a; b] [d1; d2] <-> fits [a] [d1] /\ fits [b] [d2].
Proof. unfold fits. rewrite !Forall2_cons, Forall2_nil. tauto. Qed.

Lemma last_fits l lead d : fits l (lead ++ [DInt d]) -> exists l', l = l' ++ [d] /\ fits l' lead.
Proof.
  intros (l1 & l2 & H1 & H2 & ->)%Forall2_app_inv_r. exists l1.
  inversion H2 as [|x y lx ly Hx Hy]; subst. by inversion Hy.
Qed.

Lemma last_and_rest_app l k : last_and_rest (l ++ [k]) = Ok (l, k).
Proof. unfold last_and_rest. rewrite rev_app_distr. cbn. by rewrite rev_involutive. Qed.

Lemma fits_int n : fits [n] [DInt n].
Proof. by repeat constructor. Qed.

(** A group-quantized weight along the last axis. *)
Lemma group_shapes_fit c lead k g l : ceildiv' k (group_size c) = Ok g -> fits l (lead ++ [DInt k]) ->
  exists sw ss, group_quantize_shapes c false l = Ok (sw, ss) /\
    fits sw (lead ++ [DInt (num_storage_per_group c * g)]) /\ fits ss (lead ++ [DInt g]).
Proof.
  intros Hg (l' & -> & Hl)%last_fits. unfold group_quantize_shapes. rewrite last_and_rest_app. cbn [rbind].
  rewrite Hg. do 2 eexists. split; [done|]. split; (apply Forall2_app; [done|apply fits_int]).
Qed.

Lemma group_shapes_fit_KN c d k g l : ceildiv' k (group_size c) = Ok g -> fits l [d; DInt k] ->
  exists sw ss, group_quantize_shapes c true l = Ok (sw, ss) /\
    fits sw [DInt (num_storage_per_group c * g); d] /\ fits ss [DInt g; d].
Proof.
  intros Hg Hl. inversion Hl as [|x y lx ly Hx Hy]; subst. inversion Hy as [|x' y' lx' ly' Hx' Hy']; subst.
  inversion Hy'; subst. unfold group_quantize_shapes, last_and_rest. cbn [rev app rbind]. rewrite Hg.
  do 2 eexists. split; [done|]. cbn [rev app]. rewrite !fits_pair. repeat split; try apply fits_int; by repeat constructor.
Qed.

(** C29: quantized weights fit their layers.  Whatever layer group quantization
    replaces, the function it records for the weight yields, for a weight of
    the layer's shape, a packed weight and scales of the shapes of the new
    layer's parameters, whose types are the storage and the model type. *)
Theorem group_weights_fit c name node q m q' w actual :
  group_visit_module c name node q = (Ok (Return m), q') ->
  layer_weight node = Some w -> well_shaped node -> fits actual (shape w) ->
  exists cls qw qs rest transpose sw ss,
    m = Quantized cls (("q_weight", qw) :: ("q_scale", qs) :: rest) /\
    dict_get (q_map_func q') (name +:+ ".weight") = Some (group_quantize_weight c transpose) /\
    group_quantize_shapes c transpose actual = Ok (sw, ss) /\
    fits sw (shape qw) /\ p_dtype qw = storage_dtype c /\
    fits ss (shape qs) /\ p_dtype qs = gq_model_dtype c.
Proof.
  intros H Hw Hs Hf. destruct node as [i o od w' b|w'|n i o t w'| |]; try done; cbn [group_visit_module] in H;
    injection Hw as ->.
  - destruct (_ && _); [|done]. apply replace_inv in H as (m' & Hm & [= ->] & ->). cbn [q_map_func].
    rewrite dict_get_set, String.eqb_refl. unfold GroupQuantizeLinear_from_linear in Hm.
    apply rbind_Ok in Hm as ([d1 d2] & Hu & Hm). unfold unpack_shape in Hu.
    destruct (shape w) as [|x1 [|x2 [|]]]; try done. injection Hu as <- <-.
    apply rbind_Ok in Hm as (k & Hk & Hm). destruct x2 as [x2|]; [|done]. injection Hk as <-.
    apply rbind_Ok in Hm as ([qw qs] & Hp & Hm). apply rbind_Ok in Hm as (qw' & Hqw & Hm).
    apply rbind_Ok in Hm as (qs' & Hqs & [= <-]).
    apply shard_as_shape in Hqw as [Sw Tw], Hqs as [Ss Ts].
    unfold GroupQuantizeLinear_params in Hp. apply rbind_Ok in Hp as (g & Hg & Hp). destruct (_ && _); [done|].
    destruct (String.eqb (linear_weight_layout c) "KN") eqn:E; injection Hp as <- <-; cbn in Sw, Tw, Ss, Ts.
    + destruct (group_shapes_fit_KN c x1 x2 g actual Hg Hf) as (sw & ss & Hsh & H1 & H2).
      do 4 eexists. exists true, sw, ss. split; [done|]. by rewrite Sw, Tw, Ss, Ts.
    + destruct (group_shapes_fit c [x1] x2 g actual Hg Hf) as (sw & ss & Hsh & H1 & H2).
      do 4 eexists. exists false, sw, ss. split; [done|]. by rewrite Sw, Tw, Ss, Ts.
  - destruct (gq_quantize_embedding c); [|done]. apply replace_inv in H as (m' & Hm & [= ->] & ->). cbn [q_map_func].
    rewrite dict_get_set, String.eqb_refl. unfold GroupQuantizeEmbedding_from_embedding in Hm.
    apply rbind_Ok in Hm as ([d1 d2] & Hu & Hm). unfold unpack_shape in Hu.
    destruct (shape w) as [|x1 [|x2 [|]]]; try done. injection Hu as <- <-.
    apply rbind_Ok in Hm as (k & Hk & Hm). destruct x2 as [x2|]; [|done]. injection Hk as <-.
    apply rbind_Ok in Hm as (g & Hg & [= <-]).
    destruct (group_shapes_fit c [x1] x2 g actual Hg Hf) as (sw & ss & Hsh & H1 & H2).
    do 4 eexists. exists false, sw, ss. by split_and!.
  - apply replace_inv in H as (m' & Hm & [= ->] & ->). cbn [q_map_func well_shaped] in *.
    rewrite dict_get_set, String.eqb_refl. unfold GroupQuantizeMixtralExperts_from in Hm.
    apply rbind_Ok in Hm as (k & Hk & Hm). destruct i as [i|]; [|done]. injection Hk as <-.
    apply rbind_Ok in Hm as (g & Hg & Hm). destruct (String.eqb _ "KN"); [done|].
    apply rbind_Ok in Hm as (qw' & Hqw & Hm). apply rbind_Ok in Hm as (qs' & Hqs & [= <-]).
    apply shard_as_shape in Hqw as [Sw Tw], Hqs as [Ss Ts]. cbn in Sw, Tw, Ss, Ts. rewrite Hs in Hf.
    destruct (group_shapes_fit c [n; o] i g actual Hg Hf) as (sw & ss & Hsh & H1 & H2).
    do 4 eexists. exists false, sw, ss. split; [done|]. by rewrite Sw, Tw, Ss, Ts.
Qed.
End QuantizeModel.

(** ** Witnesses *)

Module QuantizeWitness.
Import LoaderWitness QuantizationWitness.
#[export] Instance quantizers : Quantizers :=
  {| nd_shape _ := [192; 64]; nd_device_type _ := "cuda"; has_cutlass := true;
     relax_build _ p _ := Ok (fun w => Ok (w :: repeat [1] (program_outputs p - 1))); nd_empty _ _ := [] |}.
#[export] Instance quantizer_laws : QuantizerLaws.
Proof. split. intros how [c b|c|c] w f w' l ? ?; simplify_eq/=; try done. by destruct (use_scale c). Qed.
#[export] Instance mutator : Mutator QuantizeMapping := fun vm name m =>
  match m with
  | Block nq mla attrs => let! attrs := visit_attrs vm name attrs in mret' (Block nq mla attrs)
  | _ => mret' m
  end.
#[export] Instance mutator_laws : MutatorLaws QuantizeMapping.
Proof. split; [done|]. intros vm name [] H; try done. by destruct (H no_quantization mla attrs). Qed.
#[export] Instance conversion : Conversion := fun m _ => m.
#[export] Instance conversion_laws : ConversionLaws.
Proof. done. Qed.

Definition weight (out in_ : Z) : Param := Parameter_new [DInt out; DInt in_] "float16".
Definition linear (out in_ : Z) (bias : bool) : Param + Module' :=
  inr (Linear (DInt in_) (DInt out) None (weight out in_)
         (if bias then Some (Parameter_new [DInt out] "float16") else None)).

(** An embedding, a projection with a bias, a mixture of experts with its gate,
    a norm and the final layer. *)
Definition model : Module' :=
  Block false None
    [("embed_tokens", inr (Embedding (weight 100 64)));
     ("layer", inr (Block false None
        [("qkv_proj", linear 192 64 true);
         ("moe", inr (Block false None
            [("gate", linear 8 64 false);
             ("e1_e3", inr (MixtralExperts (DInt 8) (DInt 64) (DInt 256) 1
                (Parameter_new [DInt 8; DInt 256; DInt 64] "float16")))]));
         ("norm", inl (Parameter_new [DInt 64] "float16"))]));
     ("lm_head", linear 100 64 false)].

Definition scheme : Scheme :=
  match q4f16_1 with Ok c => SGroup c | Raise _ => SNo (mkNoQuantize "" "" "") end.
Definition result : res Module' * QuantizeMapping :=
  quantize_model scheme (Raise AttributeError) None model QuantizeMapping_new.

Example quantize_model_witness :
  exists m q, result = (Ok m, q) /\
    Permutation (param_names "" m) (flat_map (mapped q) (param_names "" model)) /\
    param_names "" m =
      ["embed_tokens.q_weight"; "embed_tokens.q_scale"; "layer.qkv_proj.q_weight"; "layer.qkv_proj.q_scale";
       "layer.qkv_proj.bias"; "layer.moe.gate.weight"; "layer.moe.e1_e3.q_weight"; "layer.moe.e1_e3.q_scale";
       "layer.norm"; "lm_head.q_weight"; "lm_head.q_scale"].
Proof.
  do 2 eexists. split; [reflexivity|]. split; [|reflexivity].
  eapply (quantize_model_remaps scheme (Raise AttributeError) None model); try reflexivity.
  by apply (bool_decide_unpack _).
Defined.

Definition q4f16_ft : FTQuantize :=
  match FTQuantize_new "q4f16_ft" "ft-quant" "int4" "int8" "float16" None with
  | Ok c => c
  | Raise _ => mkFTQuantize "" "" "" "" "" None 0 0
  end.

Example ft_gate_witness :
  exists q', ft_visit_module q4f16_ft "layer.moe.gate"
      (Linear (DInt 64) (DInt 8) None (weight 8 64) None) QuantizeMapping_new
      = (Ok (Visit (Linear (DInt 64) (DInt 8) None (weight 8 64) None)), q') /\
    forall loader param, quantize_param_map loader = Some q' ->
      _load_or_quantize loader "layer.moe.gate.weight" param = Raise (KeyError "layer.moe.gate.weight").
Proof. by apply (ft_gate_unmapped q4f16_ft "layer.moe.gate"). Defined.

(** The projection of the network above, under the layout of [q4f16_1]. *)
Example group_weights_witness :
  exists c m q, q4f16_1 = Ok c /\
    group_visit_module c "qkv_proj" (Linear (DInt 64) (DInt 192) None (weight 192 64) None) QuantizeMapping_new
      = (Ok (Return m), q) /\
    exists cls qw qs rest transpose sw ss,
      m = Quantized cls (("q_weight", qw) :: ("q_scale", qs) :: rest) /\
      dict_get (q_map_func q) "qkv_proj.weight" = Some (group_quantize_weight c transpose) /\
      group_quantize_shapes c transpose [192; 64] = Ok (sw, ss) /\
      fits sw (shape qw) /\ p_dtype qw = storage_dtype c /\
      fits ss (shape qs) /\ p_dtype qs = gq_model_dtype c.
Proof.
  do 3 eexists. split; [reflexivity|]. split; [reflexivity|].
  eapply (group_weights_fit _ "qkv_proj" (Linear (DInt 64) (DInt 192) None (weight 192 64) None)
            QuantizeMapping_new); try reflexivity. by repeat constructor.
Defined.
End QuantizeWitness.
