(* ===== verification/ModelQuantizations.v ===== *)
(** * Quantized networks of the model families ([model/*/*_quantization.py])

    For every family and kind of scheme, the function that builds the network,
    converts it to the type of the scheme and quantizes it; and the table of
    these functions, as [MODELS] of [model/model.py] has it. *)

From stdpp Require Import base list strings.
From S2P Require Import Prelude PyStr Loader.
From S2P Require Import PyNum ModelConfig ModelConfigs.
From S2P Require Import WeightMap NnModule Quantization QuantizeModel.
Local Open Scope string_scope.
Local Open Scope list_scope.
Local Open Scope Z_scope.

(** The networks of the families: their constructors, and the attribute
    [weight_block_size] that some of them have. *)
Class ModelNetworks := {
  build_model : string -> obj -> res Module';
  weight_block_size_of : string -> obj -> res (option (list Z));
}.

Section ModelQuantizations.
Context `{WF : WeightFiles} {QZ : Quantizers} {DT : DataTypes}.
Context {MU : Mutator QuantizeMapping} {CV : Conversion} {MN : ModelNetworks}.

(** [f(model_config, quantization)]; the scheme is an object that the function
    changes. *)
Definition QuantFn : Type := obj -> M Scheme (Module' * QuantizeMapping).

(** [quantization.tensor_parallel_shards = n] *)
Definition with_shards (n : Z) (s : Scheme) : Scheme :=
  match s with
  | SGroup c =>
      SGroup (mkGroupQuantize (gq_name c) (gq_kind c) (group_size c) (quantize_dtype c) (storage_dtype c)
        (gq_model_dtype c) (linear_weight_layout c) (gq_quantize_embedding c) (gq_quantize_final_fc c)
        (num_elem_per_storage c) (num_storage_per_group c) (max_int_value c) n (linear_quant_axis c))
  | SPerTensor c =>
      SPerTensor (mkPerTensorQuantize (pt_name c) (pt_kind c) (activation_dtype c) (weight_dtype c)
        (pt_storage_dtype c) (pt_model_dtype c) (pt_quantize_embedding c) (pt_quantize_final_fc c)
        (quantize_linear c) (use_scale c) (calibration_mode c) (pt_num_elem_per_storage c)
        (pt_max_int_value c) n)
  | _ => s
  end.
(** [self.weight_block_size = weight_block_size], after a block-scale scheme
    has quantized a model *)
Definition with_block_size (w : option (list Z)) (s : Scheme) : Scheme :=
  match s with
  | SBlockScale c => SBlockScale (mkBlockScaleQuantize (bs_name c) (bs_kind c) (bs_weight_dtype c)
                                    (bs_model_dtype c) (bs_quantize_linear c) w)
  | _ => s
  end.

Definition shards_of (model_config : obj) : res Z :=
  let? n := attr model_config "tensor_parallel_shards" in as_index n.

(** [model = Class(model_config); model.to(quantization.model_dtype)] *)
Definition new_model (model_class : string) (model_config : obj) : M Scheme Module' :=
  let! model := mlift (build_model model_class model_config) in
  let! quantization := mget in
  mret' (module_to model (scheme_model_dtype quantization)).

(** [quantization.quantize_model(model, quant_map, "", ...)] on an empty map *)
Definition call_quantize_model (model_class : string) (model_config : obj)
    (tensor_parallel_shards : option Z) (model : Module') : M Scheme (Module' * QuantizeMapping) :=
  let! quantization := mget in
  let w := weight_block_size_of model_class model_config in
  match tensor_parallel_shards with
  | Some n => mmodify (with_shards n)
  | None => mret' tt
  end ;!
  match quantize_model quantization w tensor_parallel_shards model QuantizeMapping_new with
  | (Ok model, quant_map) =>
      mmodify (with_block_size (match w with Ok w => w | Raise _ => None end)) ;!
      mret' (model, quant_map)
  | (Raise e, _) => mraise e
  end.

(** The four bodies of these functions *)
Definition sharded_quant (model_class : string) : QuantFn := fun model_config =>
  let! model := new_model model_class model_config in
  let! shards := mlift (shards_of model_config) in
  mmodify (with_shards shards) ;!
  call_quantize_model model_class model_config None model.
Definition plain_quant (model_class : string) : QuantFn := fun model_config =>
  let! model := new_model model_class model_config in
  call_quantize_model model_class model_config None model.
Definition no_quant (model_class : string) : QuantFn := fun model_config =>
  let! model := new_model model_class model_config in
  mret' (model, QuantizeMapping_new).
Definition per_tensor_quant (model_class : string) : QuantFn := fun model_config =>
  let! model := new_model model_class model_config in
  let! shards := mlift (shards_of model_config) in
  call_quantize_model model_class model_config (Some shards) model.

(** ** The functions of the families *)

Definition baichuan_group_quant : QuantFn := sharded_quant "BaichuanForCausalLM".
Definition baichuan_ft_quant : QuantFn := plain_quant "BaichuanForCausalLM".
Definition baichuan_no_quant : QuantFn := no_quant "BaichuanForCausalLM".
Definition bert_group_quant : QuantFn := sharded_quant "BertModel".
Definition bert_ft_quant : QuantFn := plain_quant "BertModel".
Definition bert_no_quant : QuantFn := no_quant "BertModel".
Definition chatglm3_group_quant : QuantFn := sharded_quant "ChatGLMForCausalLM".
Definition chatglm3_ft_quant : QuantFn := plain_quant "ChatGLMForCausalLM".
Definition chatglm3_no_quant : QuantFn := no_quant "ChatGLMForCausalLM".
Definition cohere_group_quant : QuantFn := sharded_quant "CohereForCausalLM".
Definition cohere_ft_quant : QuantFn := plain_quant "CohereForCausalLM".
Definition cohere_awq_quant : QuantFn := plain_quant "CohereForCausalLM".
Definition cohere_no_quant : QuantFn := no_quant "CohereForCausalLM".
Definition deepseek_group_quant : QuantFn := sharded_quant "DeepseekForCausalLM".
Definition deepseek_ft_quant : QuantFn := plain_quant "DeepseekForCausalLM".
Definition deepseek_no_quant : QuantFn := no_quant "DeepseekForCausalLM".
Definition deepseek_v2_group_quant : QuantFn := sharded_quant "DeepseekV2ForCausalLM".
Definition deepseek_v2_ft_quant : QuantFn := plain_quant "DeepseekV2ForCausalLM".
Definition deepseek_v2_no_quant : QuantFn := no_quant "DeepseekV2ForCausalLM".
Definition deepseek_v2_block_scale_quant : QuantFn := plain_quant "DeepseekV2ForCausalLM".
Definition eagle_group_quant : QuantFn := sharded_quant "EagleForCasualLM".
Definition eagle_ft_quant : QuantFn := plain_quant "EagleForCasualLM".
Definition eagle_awq_quant : QuantFn := plain_quant "EagleForCasualLM".
Definition eagle_no_quant : QuantFn := no_quant "EagleForCasualLM".
Definition gemma_group_quant : QuantFn := sharded_quant "GemmaForCausalLM".
Definition gemma_no_quant : QuantFn := no_quant "GemmaForCausalLM".
Definition gemma2_group_quant : QuantFn := sharded_quant "Gemma2ForCausalLM".
Definition gemma2_no_quant : QuantFn := no_quant "Gemma2ForCausalLM".
Definition gemma3_group_quant : QuantFn := sharded_quant "Gemma3ForCausalLM".
Definition gemma3_no_quant : QuantFn := no_quant "Gemma3ForCausalLM".
Definition gpt2_group_quant : QuantFn := sharded_quant "GPT2LMHeadModel".
Definition gpt2_ft_quant : QuantFn := plain_quant "GPT2LMHeadModel".
Definition gpt2_awq_quant : QuantFn := plain_quant "GPT2LMHeadModel".
Definition gpt2_no_quant : QuantFn := no_quant "GPT2LMHeadModel".
Definition gpt_bigcode_group_quant : QuantFn := sharded_quant "GPTBigCodeForCausalLM".
Definition gpt_bigcode_ft_quant : QuantFn := plain_quant "GPTBigCodeForCausalLM".
Definition gpt_bigcode_awq_quant : QuantFn := plain_quant "GPTBigCodeForCausalLM".
Definition gpt_bigcode_no_quant : QuantFn := no_quant "GPTBigCodeForCausalLM".
Definition gpt_j_group_quant : QuantFn := plain_quant "GPTJForCausalLM".
Definition gpt_j_ft_quant : QuantFn := plain_quant "GPTJForCausalLM".
Definition gpt_j_no_quant : QuantFn := no_quant "GPTJForCausalLM".
Definition gpt_neox_group_quant : QuantFn := sharded_quant "GPTNeoXForCausalLM".
Definition gpt_neox_ft_quant : QuantFn := plain_quant "GPTNeoXForCausalLM".
Definition gpt_neox_no_quant : QuantFn := no_quant "GPTNeoXForCausalLM".
Definition internlm_group_quant : QuantFn := sharded_quant "InternLMForCausalLM".
Definition internlm_ft_quant : QuantFn := plain_quant "InternLMForCausalLM".
Definition internlm_no_quant : QuantFn := no_quant "InternLMForCausalLM".
Definition internlm2_group_quant : QuantFn := sharded_quant "InternLM2ForCausalLM".
Definition internlm2_ft_quant : QuantFn := plain_quant "InternLM2ForCausalLM".
Definition internlm2_no_quant : QuantFn := no_quant "InternLM2ForCausalLM".
Definition llama_group_quant : QuantFn := sharded_quant "LlamaForCausalLM".
Definition llama_ft_quant : QuantFn := plain_quant "LlamaForCausalLM".
Definition llama_awq_quant : QuantFn := plain_quant "LlamaForCausalLM".
Definition llama_no_quant : QuantFn := no_quant "LlamaForCausalLM".
Definition llama_per_tensor_quant : QuantFn := per_tensor_quant "LlamaForCausalLM".
Definition llava_group_quant : QuantFn := sharded_quant "LlavaForCasualLM".
Definition llava_awq_quant : QuantFn := plain_quant "LlavaForCasualLM".
Definition llava_no_quant : QuantFn := no_quant "LlavaForCasualLM".
Definition medusa_no_quant : QuantFn := no_quant "MedusaModel".
Definition minicpm_group_quant : QuantFn := sharded_quant "MiniCPMForCausalLM".
Definition minicpm_ft_quant : QuantFn := plain_quant "MiniCPMForCausalLM".
Definition minicpm_no_quant : QuantFn := no_quant "MiniCPMForCausalLM".
Definition mistral_group_quant : QuantFn := sharded_quant "MistralForCasualLM".
Definition mistral_ft_quant : QuantFn := plain_quant "MistralForCasualLM".
Definition mistral_awq_quant : QuantFn := plain_quant "MistralForCasualLM".
Definition mistral_no_quant : QuantFn := no_quant "MistralForCasualLM".
Definition mixtral_group_quant : QuantFn := sharded_quant "MixtralForCasualLM".
Definition mixtral_ft_quant : QuantFn := plain_quant "MixtralForCasualLM".
Definition mixtral_awq_quant : QuantFn := fun _ => mraise (NotImplementedError [Lit "AWQ is not implemented for Mixtral models."]).
Definition mixtral_no_quant : QuantFn := no_quant "MixtralForCasualLM".
Definition mixtral_per_tensor_quant : QuantFn := per_tensor_quant "MixtralForCasualLM".
Definition nemotron_group_quant : QuantFn := sharded_quant "NemotronForCausalLM".
Definition nemotron_ft_quant : QuantFn := plain_quant "NemotronForCausalLM".
Definition nemotron_awq_quant : QuantFn := plain_quant "NemotronForCausalLM".
Definition nemotron_no_quant : QuantFn := no_quant "NemotronForCausalLM".
Definition nemotron_per_tensor_quant : QuantFn := per_tensor_quant "NemotronForCausalLM".
Definition olmo_group_quant : QuantFn := sharded_quant "OLMoForCausalLM".
Definition olmo_ft_quant : QuantFn := plain_quant "OLMoForCausalLM".
Definition olmo_awq_quant : QuantFn := plain_quant "OLMoForCausalLM".
Definition olmo_no_quant : QuantFn := no_quant "OLMoForCausalLM".
Definition olmo_per_tensor_quant : QuantFn := per_tensor_quant "OLMoForCausalLM".
Definition orion_group_quant : QuantFn := sharded_quant "OrionForCasualLM".
Definition orion_no_quant : QuantFn := no_quant "OrionForCasualLM".
Definition phi_group_quant : QuantFn := sharded_quant "PhiForCausalLM".
Definition phi_ft_quant : QuantFn := plain_quant "PhiForCausalLM".
Definition phi_no_quant : QuantFn := no_quant "PhiForCausalLM".
Definition phi3_group_quant : QuantFn := sharded_quant "Phi3ForCausalLM".
Definition phi3_ft_quant : QuantFn := plain_quant "Phi3ForCausalLM".
Definition phi3_no_quant : QuantFn := no_quant "Phi3ForCausalLM".
Definition phi3v_group_quant : QuantFn := plain_quant "Phi3VForCausalLM".
Definition phi3v_ft_quant : QuantFn := plain_quant "Phi3VForCausalLM".
Definition phi3v_no_quant : QuantFn := no_quant "Phi3VForCausalLM".
Definition qwen_group_quant : QuantFn := sharded_quant "QWenLMHeadModel".
Definition qwen_ft_quant : QuantFn := plain_quant "QWenLMHeadModel".
Definition qwen_no_quant : QuantFn := no_quant "QWenLMHeadModel".
Definition qwen2_group_quant : QuantFn := sharded_quant "QWen2LMHeadModel".
Definition qwen2_ft_quant : QuantFn := plain_quant "QWen2LMHeadModel".
Definition qwen2_no_quant : QuantFn := no_quant "QWen2LMHeadModel".
Definition qwen2_moe_group_quant : QuantFn := sharded_quant "Qwen2MoeForCausalLM".
Definition qwen2_moe_ft_quant : QuantFn := plain_quant "Qwen2MoeForCausalLM".
Definition qwen2_moe_no_quant : QuantFn := no_quant "Qwen2MoeForCausalLM".
Definition qwen3_group_quant : QuantFn := sharded_quant "Qwen3LMHeadModel".
Definition qwen3_ft_quant : QuantFn := plain_quant "Qwen3LMHeadModel".
Definition qwen3_no_quant : QuantFn := no_quant "Qwen3LMHeadModel".
Definition qwen3_block_scale_quant : QuantFn := plain_quant "Qwen3LMHeadModel".
Definition qwen3_moe_group_quant : QuantFn := sharded_quant "Qwen3MoeForCausalLM".
Definition qwen3_moe_ft_quant : QuantFn := plain_quant "Qwen3MoeForCausalLM".
Definition qwen3_moe_no_quant : QuantFn := no_quant "Qwen3MoeForCausalLM".
Definition qwen3_moe_block_scale_quant : QuantFn := plain_quant "Qwen3MoeForCausalLM".
Definition rwkv5_group_quant : QuantFn := sharded_quant "RWKV5_ForCasualLM".
Definition rwkv5_ft_quant : QuantFn := plain_quant "RWKV5_ForCasualLM".
Definition rwkv5_no_quant : QuantFn := no_quant "RWKV5_ForCasualLM".
Definition rwkv6_group_quant : QuantFn := sharded_quant "RWKV6_ForCasualLM".
Definition rwkv6_no_quant : QuantFn := no_quant "RWKV6_ForCasualLM".
Definition stablelm_group_quant : QuantFn := sharded_quant "StableLmForCausalLM".
Definition stablelm_ft_quant : QuantFn := plain_quant "StableLmForCausalLM".
Definition stablelm_no_quant : QuantFn := no_quant "StableLmForCausalLM".
Definition starcoder2_group_quant : QuantFn := sharded_quant "Starcoder2ForCausalLM".
Definition starcoder2_ft_quant : QuantFn := plain_quant "Starcoder2ForCausalLM".
Definition starcoder2_no_quant : QuantFn := no_quant "Starcoder2ForCausalLM".

(** The functions of the models, by the kind of scheme, as [MODELS] lists them. *)
Definition QUANTIZE : dict (dict QuantFn) :=
  [ ("llama",
     [("no-quant", llama_no_quant);
      ("group-quant", llama_group_quant);
      ("ft-quant", llama_ft_quant);
      ("awq", llama_awq_quant);
      ("per-tensor-quant", llama_per_tensor_quant)]);
    ("mistral",
     [("group-quant", mistral_group_quant);
      ("no-quant", mistral_no_quant);
      ("ft-quant", mistral_ft_quant)]);
    ("gemma",
     [("no-quant", gemma_no_quant);
      ("group-quant", gemma_group_quant)]);
    ("gemma2",
     [("no-quant", gemma2_no_quant);
      ("group-quant", gemma2_group_quant)]);
    ("gemma3",
     [("no-quant", gemma3_no_quant);
      ("group-quant", gemma3_group_quant)]);
    ("gemma3_text",
     [("no-quant", gemma3_no_quant);
      ("group-quant", gemma3_group_quant)]);
    ("gpt2",
     [("no-quant", gpt2_no_quant);
      ("group-quant", gpt2_group_quant);
      ("ft-quant", gpt2_ft_quant)]);
    ("mixtral",
     [("no-quant", mixtral_no_quant);
      ("group-quant", mixtral_group_quant);
      ("ft-quant", mixtral_ft_quant);
      ("per-tensor-quant", mixtral_per_tensor_quant)]);
    ("gpt_neox",
     [("no-quant", gpt_neox_no_quant);
      ("group-quant", gpt_neox_group_quant);
      ("ft-quant", gpt_neox_ft_quant)]);
    ("gpt_bigcode",
     [("no-quant", gpt_bigcode_no_quant);
      ("group-quant", gpt_bigcode_group_quant);
      ("ft-quant", gpt_bigcode_ft_quant)]);
    ("phi-msft",
     [("no-quant", phi_no_quant);
      ("group-quant", phi_group_quant);
      ("ft-quant", phi_ft_quant)]);
    ("phi",
     [("no-quant", phi_no_quant);
      ("group-quant", phi_group_quant);
      ("ft-quant", phi_ft_quant)]);
    ("phi3",
     [("no-quant", phi3_no_quant);
      ("group-quant", phi3_group_quant);
      ("ft-quant", phi3_ft_quant)]);
    ("phi3_v",
     [("no-quant", phi3v_no_quant);
      ("group-quant", phi3v_group_quant);
      ("ft-quant", phi3v_ft_quant)]);
    ("qwen",
     [("no-quant", qwen_no_quant);
      ("group-quant", qwen_group_quant);
      ("ft-quant", qwen_ft_quant)]);
    ("qwen2",
     [("no-quant", qwen2_no_quant);
      ("group-quant", qwen2_group_quant);
      ("ft-quant", qwen2_ft_quant)]);
    ("qwen2_moe",
     [("no-quant", qwen2_moe_no_quant);
      ("group-quant", qwen2_moe_group_quant);
      ("ft-quant", qwen2_moe_ft_quant)]);
    ("qwen3",
     [("no-quant", qwen3_no_quant);
      ("group-quant", qwen3_group_quant);
      ("ft-quant", qwen3_ft_quant);
      ("block-scale-quant", qwen3_block_scale_quant)]);
    ("qwen3_moe",
     [("no-quant", qwen3_moe_no_quant);
      ("group-quant", qwen3_moe_group_quant);
      ("ft-quant", qwen3_moe_ft_quant);
      ("block-scale-quant", qwen3_moe_block_scale_quant)]);
    ("deepseek_v2",
     [("no-quant", deepseek_v2_no_quant);
      ("group-quant", deepseek_v2_group_quant);
      ("ft-quant", deepseek_v2_ft_quant)]);
    ("deepseek_v3",
     [("no-quant", deepseek_v2_no_quant);
      ("group-quant", deepseek_v2_group_quant);
      ("ft-quant", deepseek_v2_ft_quant);
      ("block-scale-quant", deepseek_v2_block_scale_quant)]);
    ("stablelm",
     [("no-quant", stablelm_no_quant);
      ("group-quant", stablelm_group_quant);
      ("ft-quant", stablelm_ft_quant)]);
    ("baichuan",
     [("no-quant", baichuan_no_quant);
      ("group-quant", baichuan_group_quant);
      ("ft-quant", baichuan_ft_quant)]);
    ("internlm",
     [("no-quant", internlm_no_quant);
      ("group-quant", internlm_group_quant);
      ("ft-quant", internlm_ft_quant)]);
    ("internlm2",
     [("no-quant", internlm2_no_quant);
      ("group-quant", internlm2_group_quant);
      ("ft-quant", internlm2_ft_quant)]);
    ("rwkv5",
     [("no-quant", rwkv5_no_quant);
      ("group-quant", rwkv5_group_quant);
      ("ft-quant", rwkv5_ft_quant)]);
    ("orion",
     [("no-quant", orion_no_quant);
      ("group-quant", orion_group_quant)]);
    ("llava",
     [("group-quant", llava_group_quant);
      ("no-quant", llava_no_quant);
      ("awq", llava_awq_quant)]);
    ("rwkv6",
     [("no-quant", rwkv6_no_quant);
      ("group-quant", rwkv6_group_quant)]);
    ("chatglm",
     [("no-quant", chatglm3_no_quant);
      ("group-quant", chatglm3_group_quant)]);
    ("eagle",
     [("no-quant", eagle_no_quant);
      ("group-quant", eagle_group_quant);
      ("ft-quant", eagle_ft_quant);
      ("awq", eagle_awq_quant)]);
    ("bert",
     [("no-quant", bert_no_quant);
      ("group-quant", bert_group_quant);
      ("ft-quant", bert_ft_quant)]);
    ("medusa",
     [("no-quant", medusa_no_quant)]);
    ("starcoder2",
     [("no-quant", starcoder2_no_quant);
      ("group-quant", starcoder2_group_quant);
      ("ft-quant", starcoder2_ft_quant)]);
    ("cohere",
     [("no-quant", cohere_no_quant);
      ("group-quant", cohere_group_quant);
      ("ft-quant", cohere_ft_quant)]);
    ("minicpm",
     [("no-quant", minicpm_no_quant);
      ("group-quant", minicpm_group_quant);
      ("ft-quant", minicpm_ft_quant)]);
    ("deepseek",
     [("no-quant", deepseek_no_quant);
      ("group-quant", deepseek_group_quant);
      ("ft-quant", deepseek_ft_quant)]);
    ("gptj",
     [("no-quant", gpt_j_no_quant);
      ("group-quant", gpt_j_group_quant);
      ("ft-quant", gpt_j_ft_quant)]);
    ("olmo",
     [("no-quant", olmo_no_quant);
      ("group-quant", olmo_group_quant);
      ("ft-quant", olmo_ft_quant);
      ("awq", olmo_awq_quant);
      ("per-tensor-quant", olmo_per_tensor_quant)]);
    ("nemotron",
     [("no-quant", nemotron_no_quant);
      ("group-quant", nemotron_group_quant);
      ("ft-quant", nemotron_ft_quant);
      ("awq", nemotron_awq_quant);
      ("per-tensor-quant", nemotron_per_tensor_quant)]) ].
End ModelQuantizations.
