(* ===== verification/ConvertWeight.v ===== *)
(** * Weight conversion ([interface/convert_weight.py], [support/preshard.py])

    [_convert_args] builds and quantizes a network, loads the weights through
    the loader of its family, checks every array against the parameter of its
    name and writes what passed.  Here the components meet: the configuration,
    the quantization function, the weight map and the loader.

    The network of a loader ([Networks]) is now a module tree, so that both
    sides speak of the same parameters.  The environment, the files, the arrays'
    types and the compiled sharding functions are the class [ConvertEnv];
    [tvmjs.dump_ndarray_cache] takes what the generator yields, then calls for
    the metadata and writes the index of the cache, which is the state.  Log
    messages are left out. *)

From Stdlib Require Import SpecFloat Permutation.
From stdpp Require Import base list strings pretty.
From S2P Require Import Prelude PyStr Loader.
From S2P Require Import PyNum ModelConfig ModelConfigs PyArgs.
From S2P Require Import WeightMap WeightMaps NnModule Quantization QuantizeModel ModelQuantizations.
Local Open Scope string_scope.
Local Open Scope list_scope.
Local Open Scope Z_scope.

Class ConvertEnv `{WF : WeightFiles} := {
  (** [os.getenv("MLC_INTERNAL_PRESHARD_NUM")] *)
  preshard_num : option string;
  (** [json.load] of a file *)
  load_json : string -> res (dict json);
  nd_dtype : nd_array -> string;
  (** [DataType(dtype).itemsize()] *)
  itemsize : string -> res Z;
  (** The compiled function of [_create_shard_func] *)
  shard_func : Shard -> Param -> Z -> res (nd_array -> res (list nd_array));
  (** Tracing the forward functions in [export_tvm] *)
  trace : bool -> Module' -> res unit;
}.

Section ConvertWeight.
Context `{WF : WeightFiles} {NP : Numpy} {QZ : Quantizers} {DT : DataTypes}.
Context {MU : Mutator QuantizeMapping} {CV : Conversion} {MN : ModelNetworks}.
Context `{AC : AutoConfig} {CE : ConvertEnv}.

(** ** The networks of the loaders are modules *)

(** What a loader reads of a scheme *)
Definition scheme_view (s : Scheme) : Quantization :=
  mkQuantization (scheme_model_dtype s)
    (match s with SBlockScale _ => true | _ => false end)
    (match s with SBlockScale c => opt_default [] (bs_weight_block_size c) | _ => [] end).

Definition export (allow_extern : bool) (m : Module') : res (dict Param) :=
  let? _ := trace allow_extern m in Ok (named_params "" m).

(** [awq_quant] of the families whose loaders call it *)
Definition AWQ_QUANT : dict QuantFn :=
  [("cohere", cohere_awq_quant); ("eagle", eagle_awq_quant); ("llama", llama_awq_quant);
   ("llava", llava_awq_quant); ("mistral", mistral_awq_quant); ("olmo", olmo_awq_quant)].

(** A module, with the attribute [weight_block_size] *)
#[local] Instance module_networks (s : Scheme) : Networks :=
  {| network := Module' * res (option (list Z));
     build c cfg := let? m := build_model c cfg in Ok (m, weight_block_size_of c cfg);
     to_dtype m dtype := (module_to (fst m) dtype, snd m);
     WeightMap.quantize_model _ m :=
       let? m' := fst (quantize_model s (snd m) None (fst m) QuantizeMapping_new) in Ok (m', snd m);
     awq_quant family cfg _ :=
       let? f := dict_getitem AWQ_QUANT family in
       let? r := fst (f cfg s) in Ok (fst r, Raise AttributeError);
     export_tvm allow_extern m :=
       let? l := export allow_extern (fst m) in
       Ok (map (fun np => (fst np, mkMlcParam (p_dtype (snd np)))) l) |}.

(** ** [support/preshard.py] *)

(** The loop of [apply_preshard] over the parameters *)
Record Presharding : Type := mkPresharding {
  param_to_shard_func : dict string;
  shard_funcs : dict (nd_array -> res (list nd_array));
  new_named_params : dict Param;
}.

Definition preshard_param (tensor_parallel_shards : Z) (p : Presharding) (np : string * Param)
    : res Presharding :=
  let '(name, param) := np in
  match shard_strategy param with
  | Some strategy =>
      let shards := map (_sharded_param_name name) (seq 0 (Z.to_nat tensor_parallel_shards)) in
      let new := fold_left (fun d n => dict_set d n param) shards (new_named_params p) in
      let to_func := dict_set (param_to_shard_func p) name (shard_name strategy) in
      if dict_has (shard_funcs p) (shard_name strategy)
      then Ok (mkPresharding to_func (shard_funcs p) new)
      else
        let? f := shard_func strategy param tensor_parallel_shards in
        Ok (mkPresharding to_func (dict_set (shard_funcs p) (shard_name strategy) f) new)
  | None => Ok (mkPresharding (param_to_shard_func p) (shard_funcs p)
                  (dict_set (new_named_params p) name param))
  end.

Fixpoint preshard_params (tensor_parallel_shards : Z) (p : Presharding) (l : dict Param)
    : res Presharding :=
  match l with
  | [] => Ok p
  | np :: l => let? p := preshard_param tensor_parallel_shards p np in
               preshard_params tensor_parallel_shards p l
  end.

Definition apply_preshard (named_params : dict Param) (tensor_parallel_shards : Z)
    : res (dict Param * dict (nd_array -> res (list nd_array))) :=
  let? p := preshard_params tensor_parallel_shards (mkPresharding [] [] []) named_params in
  let? fs := rmap (fun nf => let? f := dict_getitem (shard_funcs p) (snd nf) in Ok (fst nf, f))
               (param_to_shard_func p) in
  Ok (new_named_params p, fs).

(** ** The checks *)

(** The variables of [_convert_args] that the generator changes, and what it
    has yielded *)
Record Progress : Type := mkProgress {
  expected : dict Param;
  seen : list string;
  total_bytes : pyfloat;
  yielded : list (string * nd_array);
}.

Definition fits_dim (actual : Z) (expect : dim) : bool :=
  match expect with DInt n => actual =? n | DVar _ => true end.
Definition _check_shape (actual : list Z) (expect : list dim) : bool :=
  Nat.eqb (length actual) (length expect) && forallb (fun ae => fits_dim (fst ae) (snd ae)) (combine actual expect).

Definition unknown_param (name : string) : exn := ValueError [Lit "Parameter not found in model: "; FStr name].
Definition duplicated (name : string) : exn :=
  ValueError [Lit "Duplication: Parameter "; FStr name; Lit " already computed"].
Definition json_dim (d : dim) : json := match d with DInt n => JInt n | DVar s => JStr s end.

(** [_check_param] *)
Definition _check_param (name : string) (param : nd_array) : M Progress unit :=
  let! s := mget in
  match dict_get (expected s) name with
  | None => mraise (unknown_param name)
  | Some p =>
      if str_mem name (seen s) then mraise (duplicated name)
      else if negb (_check_shape (nd_shape param) (shape p)) then
        mraise (ValueError [Lit "Parameter "; FStr name; Lit " has shape "; FJson (JArr (map JInt (nd_shape param)));
                            Lit ", but expected "; FJson (JArr (map json_dim (shape p)))])
      else if negb (String.eqb (nd_dtype param) (p_dtype p)) then
        mraise (ValueError [Lit "Parameter "; FStr name; Lit " has dtype "; FStr (nd_dtype param);
                            Lit ", but expected "; FStr (p_dtype p)])
      else mmodify (fun s => mkProgress (dict_del (expected s) name) (seen s) (total_bytes s) (yielded s))
  end.

(** One round of the loop of [_param_generator] *)
Definition accept (np : string * nd_array) : M Progress unit :=
  let '(name, param) := np in
  _check_param name param ;!
  mmodify (fun s => mkProgress (expected s) (set_add (seen s) name) (total_bytes s) (yielded s)) ;!
  let! size := mlift (itemsize (nd_dtype param)) in
  mmodify (fun s => mkProgress (expected s) (seen s)
                      (f64_add (total_bytes s) (f64_of_Z (fold_left Z.mul (nd_shape param) 1 * size)))
                      (yielded s ++ [(name, param)])).

(** ** Loading, one array at a time *)

Definition on_loader {A} (f : M LoaderState A) : M (LoaderState * Progress) A := fun s =>
  let '(r, l) := f (fst s) in (r, (l, snd s)).
Definition on_progress {A} (f : M Progress A) : M (LoaderState * Progress) A := fun s =>
  let '(r, p) := f (snd s) in (r, (fst s, p)).

(** [for name, param in loader.load(...)]: the generator goes on after every
    array *)
Definition load_each (c : LoaderConfig) (preshard_funcs : option (dict (nd_array -> res (list nd_array))))
    (mlc_name : string) : M (LoaderState * Progress) unit :=
  let! param := on_loader (_load_mlc_param c mlc_name) in
  let! loaded := mlift (_load_or_quantize c mlc_name param) in
  mfor (fun np => let! shards := mlift (preshard preshard_funcs np) in
                  mfor (fun np => on_progress (accept np)) shards) loaded.

Definition load_checked (c : LoaderConfig) (preshard_funcs : option (dict (nd_array -> res (list nd_array))))
    : M (LoaderState * Progress) unit :=
  mfor (load_each c preshard_funcs) (_loading_order (extern_param_map c) (torch_to_path c)) ;!
  let! s := mget in
  on_loader (for_paths _unload_file (dict_keys (cached_files (fst s)))).

(** ** [_convert_args] *)

Record ConversionArgs : Type := mkConversionArgs {
  config_path : string;
  quantization : Scheme;
  model : string;
  source_path : string;
  source_format : string;
}.

(** [LOADER] of [loader/loader.py]; all formats have the same loader *)
Definition LOADER : list string := ["huggingface-torch"; "huggingface-safetensor"; "awq"].

(** The model configuration, and whether it is refused *)
Definition load_config (args : ConversionArgs) : res obj :=
  let? m := dict_getitem MODELS (model args) in
  let? d := load_json (config_path args) in
  let? model_config := from_dict (ModelConfigs.config m) d in
  let? _ :=
    if String.eqb (scheme_kind (quantization args)) "ft-quant" then
      match dict_get (o_attrs model_config) "tensor_parallel_shards" with
      | Some n => let? gt := py_gt n (JInt 1) in
                  if gt then Raise (NotImplementedError []) else Ok tt
      | None => Ok tt
      end
    else Ok tt in
  match preshard_num with
  | Some n => let? n := int_of_str n in
              Ok (snd (setattr "tensor_parallel_shards" (JInt n) model_config))
  | None => Ok model_config
  end.

(** The quantized network, its mapping and the scheme as it is then *)
Definition quantized_model (args : ConversionArgs) (model_config : obj)
    : res (Module' * QuantizeMapping * Scheme) :=
  let? fs := dict_getitem QUANTIZE (model args) in
  let? f := dict_getitem fs (scheme_kind (quantization args)) in
  match f model_config (quantization args) with
  | (Ok (m, q), s) => Ok (m, q, s)
  | (Raise e, _) => Raise e
  end.

Definition presharded (named_params : dict Param)
    : res (dict Param * option (dict (nd_array -> res (list nd_array)))) :=
  match preshard_num with
  | Some n => let? n := int_of_str n in
              let? (p, fs) := apply_preshard named_params n in Ok (p, Some fs)
  | None => Ok (named_params, None)
  end.

(** The loader that the generator makes first *)
Definition make_loader (args : ConversionArgs) (model_config : obj) (s : Scheme) (q : QuantizeMapping)
    : res (LoaderConfig * LoaderState) :=
  if negb (str_mem (source_format args) LOADER) then Raise (KeyError (source_format args))
  else
    let? fs := dict_getitem (SOURCES (NN := module_networks s)) (model args) in
    let? f := dict_getitem fs (source_format args) in
    let? m := run_loader f model_config (Some (scheme_view s)) in
    HuggingFaceLoader_init (source_path args) m (Some q).

(** What the index [ndarray-cache.json] of the output directory lists, with its
    metadata: [None] before [tvmjs.dump_ndarray_cache] has written it.  The dump
    writes its shard files while it iterates the generator and the index last,
    so a failure may leave shard files that no index names; those are not
    represented. *)
Record Metadata : Type := mkMetadata { ParamSize : Z; ParamBytes : pyfloat; BitsPerParam : pyfloat }.
Definition NDArrayCache : Type := option (list (string * nd_array) * Metadata).

Definition _metadata_callback (p : Progress) (total_params : Z) : res Metadata :=
  if total_params =? 0 then Raise ZeroDivisionError
  else Ok (mkMetadata (Z.of_nat (length (seen p))) (total_bytes p)
             (SFdiv 53 1024 (SFmul 53 1024 (total_bytes p) (f64_of_Z 8)) (f64_of_Z total_params))).

(** Everything before the dump; the generator, iterated to its end; the rest. *)
Definition prepare (args : ConversionArgs)
    : res (obj * Scheme * QuantizeMapping * Progress * option (dict (nd_array -> res (list nd_array)))) :=
  let? model_config := load_config args in
  let? (m, q, s) := quantized_model args model_config in
  let? named_params := export true m in
  let? (named_params, preshard_funcs) := presharded (dict_of named_params) in
  Ok (model_config, s, q, mkProgress named_params [] (S754_zero false) [], preshard_funcs).

Definition _param_generator (c : LoaderConfig) (l : LoaderState)
    (preshard_funcs : option (dict (nd_array -> res (list nd_array)))) (p : Progress) : res (Progress * Z) :=
  match load_checked c preshard_funcs (l, p) with
  | (Ok _, (l, p)) => Ok (p, total_param_num (stats l))
  | (Raise e, _) => Raise e
  end.

Definition _convert_args (args : ConversionArgs) : M NDArrayCache unit :=
  let! (model_config, s, q, p, preshard_funcs) := mlift (prepare args) in
  let! (c, l) := mlift (make_loader args model_config s q) in
  let! (p, total_params) := mlift (_param_generator c l preshard_funcs p) in
  let! metadata := mlift (_metadata_callback p total_params) in
  mmodify (fun _ => Some (yielded p, metadata)) ;!
  match expected p with
  | [] => mret' tt
  | named_params => mraise (ValueError [Lit "Parameter not found in source: "; FStrs (dict_keys named_params)])
  end.
End ConvertWeight.

(** ** The checks without the cache *)

Section Lemmas.
Context `{WF : WeightFiles} {QZ : Quantizers} {CE : ConvertEnv}.

(** Loading and checking one parameter, every tensor straight from its file *)
Definition each_spec (c : LoaderConfig) (fs : option (dict (nd_array -> res (list nd_array))))
    (n : string) : M Progress unit :=
  let! param := mlift (param_spec c n) in
  let! loaded := mlift (_load_or_quantize c n param) in
  mfor (fun np => let! shards := mlift (preshard fs np) in mfor accept shards) loaded.

(** [on_progress] is a morphism of monads. *)
Lemma mbind_ext {S A B} (m : M S A) (k k' : A -> M S B) s :
  (forall a s, k a s = k' a s) -> mbind' m k s = mbind' m k' s.
Proof. intros H. unfold mbind'. destruct (m s) as [[a|e] s']; [apply H|done]. Qed.

Lemma mfor_ext {S A} (f g : A -> M S unit) l s : (forall x s, f x s = g x s) -> mfor f l s = mfor g l s.
Proof.
  intros H. revert s. induction l as [|x l IH]; intros s; [done|]. cbn [mfor]. unfold mbind'. rewrite H.
  destruct (g x s) as [[u|e] s']; [apply IH|done].
Qed.

Lemma on_progress_lift {A B} (r : res A) (k : A -> M Progress B) s :
  on_progress (let! a := mlift r in k a) s = (let! a := mlift r in on_progress (k a)) s.
Proof. by destruct s, r. Qed.

Lemma on_progress_for {A} (f : A -> M Progress unit) l s :
  on_progress (mfor f l) s = mfor (fun x => on_progress (f x)) l s.
Proof.
  revert s. induction l as [|x l IH]; intros [ls p]; [done|]. cbn [mfor]. unfold mbind', on_progress in *. cbn [fst snd].
  destruct (f x p) as [[u|e] p1]; [|done]. by rewrite <- IH.
Qed.

Lemma load_each_run c fs n ls p : weights_ok c -> cache_ok ls ->
  In n (dict_keys (param_map (extern_param_map c))) ->
  exists ls', load_each c fs n (ls, p) = on_progress (each_spec c fs n) (ls', p) /\ cache_ok ls'.
Proof.
  intros Hw Hc Hn. destruct (load_mlc_param_run c n ls Hw Hc Hn) as (ls' & ts & ps & H & Hok & _).
  exists ls'. split; [|done]. unfold load_each, each_spec. rewrite on_progress_lift.
  transitivity ((let! param := mlift (param_spec c n) in
    let! loaded := mlift (_load_or_quantize c n param) in
    mfor (fun np => let! shards := mlift (preshard fs np) in
                    mfor (fun np => on_progress (accept np)) shards) loaded) (ls', p)).
  { unfold mbind' at 1, on_loader. cbn [fst snd]. by rewrite H. }
  apply mbind_ext. intros param s. rewrite on_progress_lift. apply mbind_ext. intros loaded t.
  rewrite on_progress_for. apply mfor_ext. intros np u. rewrite on_progress_lift. apply mbind_ext.
  intros shards v. by rewrite on_progress_for.
Qed.

Lemma load_checked_run c fs ls p : weights_ok c -> cache_ok ls ->
  exists ls', load_checked c fs (ls, p)
    = on_progress (mfor (each_spec c fs) (_loading_order (extern_param_map c) (torch_to_path c))) (ls', p) /\
    cache_ok ls'.
Proof.
  intros Hw. unfold load_checked.
  assert (forall l, (forall n, In n l -> In n (dict_keys (param_map (extern_param_map c)))) -> forall ls p, cache_ok ls ->
    exists ls', mfor (load_each c fs) l (ls, p) = on_progress (mfor (each_spec c fs) l) (ls', p) /\ cache_ok ls') as H.
  { induction l as [|n l IH]; intros Hl l1 p1 H1; [by exists l1|]. cbn [mfor].
    destruct (load_each_run c fs n l1 p1 Hw H1 (Hl n (or_introl eq_refl))) as (l2 & H2 & Hok2).
    unfold mbind' at 1. rewrite H2. unfold on_progress at 1. cbn [fst snd].
    destruct (each_spec c fs n p1) as [[u|e] p2] eqn:E.
    - destruct (IH (fun x Hx => Hl x (or_intror Hx)) l2 p2 Hok2) as (l3 & H3 & Hok3). exists l3.
      split; [|done]. rewrite H3. unfold on_progress. cbn [fst snd]. unfold mbind'. by rewrite E.
    - exists l2. split; [|done]. unfold on_progress. cbn [fst snd]. unfold mbind'. by rewrite E. }
  intros Hc. destruct (H (_loading_order (extern_param_map c) (torch_to_path c))) with (ls := ls) (p := p)
    as (l1 & H1 & Hok1); [|done|].
  { intros n (ts & t & Hn & _)%order_spec. apply in_map_iff. by exists (n, ts). }
  unfold mbind' at 1. rewrite H1. unfold on_progress. cbn [fst snd].
  destruct (mfor (each_spec c fs) _ p) as [[u|e] p1]; [|by exists l1].
  destruct (unload_all (dict_keys (cached_files l1)) l1 Hok1 (proj1 Hok1) (fun p H => H)) as (l2 & H2 & Hok2 & _).
  exists l2. split; [|done]. unfold mbind', mget, on_loader. cbn [fst snd]. rewrite H2. by destruct u.
Qed.

(** *** Accepting what was loaded *)

Lemma mfor_app {S A} (f : A -> M S unit) l1 l2 s : mfor f (l1 ++ l2) s = (mfor f l1 ;! mfor f l2) s.
Proof.
  revert s. induction l1 as [|x l1 IH]; intros s; [done|]. cbn [mfor app]. unfold mbind' in *.
  destruct (f x s) as [[u|e] s']; [apply IH|done].
Qed.

Lemma mfor_concat {S A B} (f : A -> M S unit) (g : A -> res (list B)) (h : B -> M S unit) l ys s :
  (forall x y s, g x = Ok y -> f x s = mfor h y s) -> rmap g l = Ok ys -> mfor f l s = mfor h (concat ys) s.
Proof.
  intros H. revert ys s. induction l as [|x l IH]; intros ys s Hys; cbn [rmap] in Hys; [by injection Hys as <-|].
  apply rbind_Ok in Hys as (y & Hy & Hys). apply rbind_Ok in Hys as (ys' & Hl & [= <-]).
  cbn [mfor concat]. rewrite mfor_app. unfold mbind'. rewrite (H _ _ _ Hy).
  destruct (mfor h y s) as [[u|e] s']; [by apply IH|done].
Qed.

Lemma each_spec_loaded c fs outs p : load_spec c fs = Ok outs ->
  mfor (each_spec c fs) (_loading_order (extern_param_map c) (torch_to_path c)) p = mfor accept outs p.
Proof.
  intros H. unfold load_spec in H. apply rbind_Ok in H as (ys & Hys & [= <-]).
  eapply mfor_concat; [|exact Hys]. intros n y s Hy. cbn beta in Hy.
  apply rbind_Ok in Hy as (param & Hp & Hy). apply rbind_Ok in Hy as (loaded & Hl & Hy).
  apply rbind_Ok in Hy as (shards & Hs & [= <-]). unfold each_spec.
  rewrite (mbind_lift _ _ _ _ Hp), (mbind_lift _ _ _ _ Hl). eapply mfor_concat; [|exact Hs].
  intros np y t Hy. by rewrite (mbind_lift _ _ _ _ Hy).
Qed.

(** An array that is what the network expects *)
Record expects (p : Param) (w : nd_array) : Prop := {
  expects_shape : _check_shape (nd_shape w) (shape p) = true;
  expects_dtype : nd_dtype w = p_dtype p;
  expects_size : is_ok (itemsize (nd_dtype w)) = true;
}.

Lemma accept_expected s n w p : dict_get (expected s) n = Some p -> ~ In n (seen s) -> expects p w ->
  exists b, accept (n, w) s
    = (Ok tt, mkProgress (dict_del (expected s) n) (seen s ++ [n]) b (yielded s ++ [(n, w)])).
Proof.
  intros Hp Hn [Hs Hd Hi]. unfold accept, _check_param, mbind', mget, mmodify, mlift, mraise. rewrite Hp, Hs, Hd, String.eqb_refl.
  assert (str_mem n (seen s) = false) as Hm.
  { apply not_true_is_false. by rewrite str_mem_In. }
  rewrite Hm. cbn -[str_mem]. unfold set_add. rewrite Hm. rewrite Hd in Hi. destruct (itemsize (p_dtype p)); [|done].
  by eexists.
Qed.

Lemma accept_all outs : forall s, NoDup (map fst outs) -> NoDup (dict_keys (expected s)) ->
  (forall n w, In (n, w) outs -> exists p, dict_get (expected s) n = Some p /\ expects p w) ->
  (forall n, In n (map fst outs) -> ~ In n (seen s)) ->
  exists s', mfor accept outs s = (Ok tt, s') /\ yielded s' = yielded s ++ outs /\
    seen s' = seen s ++ map fst outs /\
    forall n, In n (dict_keys (expected s')) <-> In n (dict_keys (expected s)) /\ ~ In n (map fst outs).
Proof.
  induction outs as [|[n w] outs IH]; intros s Hd Hk He Hs; cbn [mfor map fst] in *.
  - exists s. rewrite !app_nil_r. do 3 (split; [done|]). intros x. simpl. tauto.
  - apply NoDup_cons in Hd as [Hn Hd]. rewrite list_elem_of_In in Hn.
    destruct (He n w) as (p & Hp & Hw); [by left|].
    destruct (accept_expected s n w p Hp) as [b Hb]; [apply Hs; by left|done|].
    rewrite (mbind_Ok _ _ _ _ _ Hb). edestruct (IH (mkProgress (dict_del (expected s) n) (seen s ++ [n]) b (yielded s ++ [(n, w)])))
      as (s' & H1 & H2 & H3 & H4); cbn [expected seen yielded] in *.
    + done.
    + by apply dict_del_NoDup.
    + intros x v Hx. destruct (He x v) as (px & Hpx & Hv); [by right|]. exists px. split; [|done].
      rewrite dict_get_del by done. destruct (String.eqb_spec x n) as [->|]; [|done].
      destruct Hn. apply in_map_iff. by exists (n, v).
    + intros x Hx. rewrite in_app_iff. intros [H|[<-|[]]]; [|done]. by apply (Hs x); [right|].
    + exists s'. rewrite H1, H2, H3, <- !app_assoc. do 3 (split; [done|]). intros x. rewrite H4. clear - Hk.
      rewrite !dict_get_In. setoid_rewrite dict_get_del; [|done]. destruct (String.eqb_spec x n) as [->|Hne].
      * split; [by intros [[v ?] _]|intros [_ []]; by left].
      * split; intros [H1 H2]; (split; [done|]); intros H; apply H2; [|by right].
        destruct H; [congruence|done].
Qed.

(** *** Their names *)

Definition shard_names (fs : option (dict (nd_array -> res (list nd_array)))) (k : nat) (n : string) : list string :=
  match fs with
  | Some fs => if dict_has fs n then map (_sharded_param_name n) (seq 0 k) else [n]
  | None => [n]
  end.
Definition shards_into (fs : option (dict (nd_array -> res (list nd_array)))) (k : nat) : Prop :=
  forall d n f w r, fs = Some d -> dict_get d n = Some f -> f w = Ok r -> length r = k.

Lemma preshard_names fs k np l : shards_into fs k -> preshard fs np = Ok l -> map fst l = shard_names fs k (fst np).
Proof.
  intros Hk. destruct np as [n w]. unfold preshard, shard_names. destruct fs as [fs|]; [|by intros [= <-]].
  cbn [fst]. unfold dict_has. destruct (dict_get fs n) as [f|] eqn:E; [|by intros [= <-]].
  intros (r & Hr & [= <-])%rbind_Ok. rewrite map_map. unfold enumerate. rewrite (Hk _ _ _ _ _ eq_refl E Hr).
  clear - E Hr Hk. pose proof (Hk _ _ _ _ _ eq_refl E Hr) as Hl. clear - Hl.
  assert (forall i l, length l = k -> map (fun x : nat * nd_array => fst (let '(i, p) := x in (_sharded_param_name n i, p)))
    (combine (seq i k) l) = map (_sharded_param_name n) (seq i k)) as H; [|by apply H].
  clear. induction k as [|k IH]; intros i l Hl; [done|]. destruct l as [|x l]; [done|]. injection Hl as Hl.
  cbn [seq combine map fst]. by rewrite IH.
Qed.

Lemma rmap_names {A} (g : A -> res (list (string * nd_array))) (h : A -> list string) l ys :
  (forall x y, In x l -> g x = Ok y -> map fst y = h x) -> rmap g l = Ok ys ->
  map fst (concat ys) = flat_map h l.
Proof.
  revert ys. induction l as [|x l IH]; intros ys H Hys; cbn [rmap] in Hys; [by injection Hys as <-|].
  apply rbind_Ok in Hys as (y & Hy & Hys). apply rbind_Ok in Hys as (ys' & Hl & [= <-]).
  cbn [concat flat_map]. rewrite map_app, (H x y), (IH ys'); try done; [|by left].
  intros z w Hz. apply H. by right.
Qed.

(** A quantization mapping whose functions fit its names *)
Definition sound_mapping (q : QuantizeMapping) : Prop :=
  forall n l, dict_get (q_param_map q) n = Some l -> exists f, dict_get (q_map_func q) n = Some f /\ arity f l.

Lemma load_or_quantize_names c q n w l : quantize_param_map c = Some q -> sound_mapping q ->
  _load_or_quantize c n w = Ok l -> map fst l = mapped q n.
Proof.
  intros Hq Hs. unfold _load_or_quantize, mapped, dict_has, dict_getitem. rewrite Hq.
  destruct (dict_get (q_param_map q) n) as [ns|] eqn:E; [|by intros [= <-]]. cbn [opt_res rbind opt_default].
  destruct (Hs _ _ E) as (f & Hf & Ha). rewrite Hf. cbn [opt_res rbind]. intros (r & Hr & [= <-])%rbind_Ok.
  specialize (Ha _ _ Hr). clear - Ha. revert r Ha. induction ns as [|x ns IH]; intros [|y r] H; try done.
  injection H as H. cbn. by rewrite IH.
Qed.

Lemma loaded_names c q fs k outs : quantize_param_map c = Some q -> sound_mapping q -> shards_into fs k ->
  load_spec c fs = Ok outs ->
  map fst outs = flat_map (shard_names fs k)
    (flat_map (mapped q) (_loading_order (extern_param_map c) (torch_to_path c))).
Proof.
  intros Hq Hs Hk H. unfold load_spec in H. apply rbind_Ok in H as (ys & Hys & [= <-]).
  rewrite (rmap_names _ (fun n => flat_map (shard_names fs k) (mapped q n)) _ _) with (2 := Hys).
  - clear. induction (_loading_order _ _) as [|n l IH]; [done|]. cbn [flat_map]. by rewrite IH, flat_map_app.
  - intros n y _ Hy. apply rbind_Ok in Hy as (param & Hp & Hy). apply rbind_Ok in Hy as (loaded & Hl & Hy).
    apply rbind_Ok in Hy as (shards & Hsh & [= <-]). rewrite (rmap_names _ (fun np => shard_names fs k (fst np)) _ _) with (2 := Hsh).
    + rewrite <- (load_or_quantize_names _ _ _ _ _ Hq Hs Hl). clear.
      induction loaded as [|x l IH]; [done|]. cbn [flat_map map]. by rewrite IH.
    + intros np z _ Hz. by eapply preshard_names.
Qed.

(** *** Presharding *)

Lemma dict_set_fresh {V} (d : dict V) n v : ~ In n (dict_keys d) -> dict_keys (dict_set d n v) = dict_keys d ++ [n].
Proof.
  unfold dict_keys. induction d as [|[k w] d IH]; [done|]. cbn [map fst In dict_set]. intros H.
  destruct (String.eqb_spec n k) as [->|]; [tauto|]. cbn. rewrite IH; tauto.
Qed.

Lemma dict_set_all {V} (v : V) l : forall d, NoDup (dict_keys d ++ l) ->
  dict_keys (fold_left (fun d n => dict_set d n v) l d) = dict_keys d ++ l.
Proof.
  induction l as [|n l IH]; intros d H; [by rewrite app_nil_r|]. cbn [fold_left].
  assert (~ In n (dict_keys d)) as Hn.
  { rewrite <- list_elem_of_In. apply NoDup_app in H as (_ & H & _). intros Hn. apply (H n Hn). left. }
  rewrite IH; rewrite dict_set_fresh, <- app_assoc; done.
Qed.

(** The names a parameter is stored under *)
Definition param_shards (k : nat) (np : string * Param) : list string :=
  match shard_strategy (snd np) with
  | Some _ => map (_sharded_param_name (fst np)) (seq 0 k)
  | None => [fst np]
  end.

Definition compiled (k : nat) (d : dict (nd_array -> res (list nd_array))) : Prop :=
  forall n f w r, dict_get d n = Some f -> f w = Ok r -> length r = k.

(** What TVM's compiled function returns: one shard per worker *)
Definition shards_law : Prop := forall s p n f w r,
  shard_func s p n = Ok f -> f w = Ok r -> length r = Z.to_nat n.

Lemma preshard_params_run (SL : shards_law) n l : forall p p', preshard_params n p l = Ok p' ->
  NoDup (dict_keys (new_named_params p) ++ flat_map (param_shards (Z.to_nat n)) l) ->
  compiled (Z.to_nat n) (shard_funcs p) ->
  dict_keys (new_named_params p') = dict_keys (new_named_params p) ++ flat_map (param_shards (Z.to_nat n)) l /\
  compiled (Z.to_nat n) (shard_funcs p') /\
  forall x, dict_has (param_to_shard_func p') x = dict_has (param_to_shard_func p) x
    || existsb (fun np => String.eqb x (fst np) && negb (is_none (shard_strategy (snd np)))) l.
Proof.
  induction l as [|[m q] l IH]; intros p p' H Hd Hc; cbn [preshard_params flat_map] in *.
  - injection H as <-. rewrite app_nil_r. do 2 (split; [done|]). intros x. by rewrite orb_false_r.
  - apply rbind_Ok in H as (p1 & H1 & H). rewrite app_assoc in Hd.
    assert (dict_keys (new_named_params p1) = dict_keys (new_named_params p) ++ param_shards (Z.to_nat n) (m, q) /\
      compiled (Z.to_nat n) (shard_funcs p1) /\
      forall x, dict_has (param_to_shard_func p1) x = dict_has (param_to_shard_func p) x
        || (String.eqb x m && negb (is_none (shard_strategy q)))) as (Hk & Hf & Hh).
    { apply NoDup_app in Hd as (Hd & _ & _). unfold preshard_param, param_shards in *. cbn [fst snd] in *.
      destruct (shard_strategy q) as [st|]; cbn [is_none negb].
      - destruct (dict_has (shard_funcs p) (shard_name st)).
        + injection H1 as <-. cbn [param_to_shard_func shard_funcs new_named_params]. rewrite dict_set_all by done. do 2 (split; [done|]). intros x.
          rewrite dict_has_set, andb_true_r. apply orb_comm.
        + apply rbind_Ok in H1 as (f & Hs & [= <-]). cbn [param_to_shard_func shard_funcs new_named_params]. rewrite dict_set_all by done. split; [done|]. split.
          * intros x g w r. rewrite dict_get_set. destruct (String.eqb x (shard_name st)); [|apply Hc].
            intros [= <-]. by eapply SL.
          * intros x. rewrite dict_has_set, andb_true_r. apply orb_comm.
      - injection H1 as <-. cbn [param_to_shard_func shard_funcs new_named_params]. rewrite dict_set_fresh.
        2:{ rewrite <- list_elem_of_In. apply NoDup_app in Hd as (_ & Hd & _). intros Hn. apply (Hd m Hn). left. }
        do 2 (split; [done|]). intros x. by rewrite andb_false_r, orb_false_r. }
    destruct (IH _ _ H) as (Hk' & Hf' & Hh'); [by rewrite Hk|done|].
    rewrite Hk', Hk, <- app_assoc. do 2 (split; [done|]). intros x. rewrite Hh', Hh. cbn [existsb fst snd].
    by rewrite orb_assoc.
Qed.

Lemma preshard_funcs_run (d : dict string) (fns : dict (nd_array -> res (list nd_array))) fs :
  rmap (fun nf => let? f := dict_getitem fns (snd nf) in Ok (fst nf, f)) d = Ok fs ->
  dict_keys fs = dict_keys d /\ forall n f, dict_get fs n = Some f -> exists s, dict_get fns s = Some f.
Proof.
  revert fs. induction d as [|[k s] d IH]; intros fs H; cbn [rmap] in H; [by injection H as <-|].
  apply rbind_Ok in H as (kf & Hk & H). apply rbind_Ok in H as (fs' & H & [= <-]).
  apply rbind_Ok in Hk as (f & Hf & [= <-]). destruct (IH _ H) as [H1 H2]. unfold dict_keys in *. cbn [map fst dict_get].
  split; [by rewrite H1|]. intros n g. destruct (String.eqb n k); [|apply H2]. intros [= <-]. exists s.
  unfold dict_getitem in Hf. cbn [snd] in Hf. destruct (dict_get fns s); [by injection Hf as <-|done].
Qed.

Lemma apply_preshard_names (SL : shards_law) l n new fs : apply_preshard l n = Ok (new, fs) ->
  NoDup (dict_keys l) -> NoDup (flat_map (param_shards (Z.to_nat n)) l) ->
  dict_keys new = flat_map (shard_names (Some fs) (Z.to_nat n)) (dict_keys l) /\
  shards_into (Some fs) (Z.to_nat n).
Proof.
  intros H Hd Hf. unfold apply_preshard in H. apply rbind_Ok in H as (p & Hp & H).
  apply rbind_Ok in H as (fs' & Hfs & [= <- <-]).
  destruct (preshard_params_run SL _ _ _ _ Hp) as (Hk & Hc & Hh); [done|done|].
  destruct (preshard_funcs_run _ _ _ Hfs) as [Hkf Hget]. split.
  - rewrite Hk. cbn [new_named_params dict_keys map app]. unfold shard_names.
    assert (forall np, In np l -> dict_has fs' (fst np) = negb (is_none (shard_strategy (snd np)))) as Hhas.
    { intros np Hin. transitivity (dict_has (param_to_shard_func p) (fst np)).
      { apply eq_true_iff_eq. by rewrite !dict_has_In, Hkf. }
      rewrite Hh. cbn [param_to_shard_func dict_has dict_get orb].
      assert (dict_get l (fst np) = Some (snd np)) as Hl by (apply dict_get_NoDup; [done|by destruct np]).
      apply eq_true_iff_eq. rewrite existsb_exists. split.
      - intros (np' & Hin' & [E%String.eqb_eq H]%andb_true_iff). rewrite E in Hl.
        assert (dict_get l (fst np') = Some (snd np')) as Hl' by (apply dict_get_NoDup; [done|by destruct np']).
        congruence.
      - intros Hs. exists np. by rewrite String.eqb_refl. }
    clear - Hhas. induction l as [|np l IH]; [done|]. cbn [flat_map dict_keys map]. rewrite IH by (intros; apply Hhas; by right).
    f_equal. unfold param_shards. rewrite (Hhas np) by by left. by destruct (shard_strategy (snd np)).
  - intros d m f w r [= <-] Hm Hr. destruct (Hget _ _ Hm) as (s & Hs). by eapply Hc.
Qed.

(** *** Counting the parameters *)

(** Sizes are not negative, and every file that can be read has a tensor that
    counts. *)
Definition counted (m : ExternMapping) : Prop := forall path l, read_shard path = Ok l ->
  Forall (fun na => 0 <= array_size (snd na)) l /\
  Exists (fun na => str_mem (fst na) (unused_params m) = false /\ 0 < array_size (snd na)) l.

(** The total is positive once a file is cached, or when [b] says so. *)
Definition counts (b : bool) (s : LoaderState) : Prop :=
  0 <= total_param_num (stats s) /\
  (b = true \/ cached_files s <> [] -> 0 < total_param_num (stats s)).

Class Keeps {A} (P : LoaderState -> Prop) (f : M LoaderState A) : Prop :=
  keeps s r s' : f s = (r, s') -> P s -> P s'.

#[local] Instance keeps_lift {A} P (r : res A) : Keeps P (mlift r).
Proof. by intros s r' s' [= _ <-]. Qed.
#[local] Instance keeps_ret {A} P (a : A) : Keeps P (mret' a).
Proof. by intros s r' s' [= _ <-]. Qed.
#[local] Instance keeps_get P : Keeps P mget.
Proof. by intros s r' s' [= _ <-]. Qed.
#[local] Instance keeps_bind {A B} P (f : M LoaderState A) (k : A -> M LoaderState B) :
  Keeps P f -> (forall a, Keeps P (k a)) -> Keeps P (mbind' f k).
Proof.
  intros Hf Hk s r s' [(a & s1 & H1 & H2)|(e & H1 & _)]%mbind_inv H; [|by eapply Hf].
  eapply Hk; [exact H2|]. by eapply Hf.
Qed.
#[local] Instance keeps_paths P body l : (forall p, Keeps P (body p)) -> Keeps P (for_paths body l).
Proof. intros H. induction l; cbn [for_paths]; apply _. Qed.

Lemma load_params_counts unused l st :
  Forall (fun na => 0 <= array_size (snd na)) l ->
  total_param_num st <= total_param_num (load_params unused l st) /\
  (Exists (fun na => str_mem (fst na) unused = false /\ 0 < array_size (snd na)) l ->
   total_param_num st < total_param_num (load_params unused l st)).
Proof.
  revert st. induction l as [|[n a] l IH]; intros st H; cbn [load_params].
  - split; [done|]. by intros ?%Exists_nil.
  - apply Forall_cons in H as [Ha Hl]. cbn [snd] in Ha.
    set (st1 := if str_mem n unused then _ else _). destruct (IH st1 Hl) as [H1 H2].
    assert (total_param_num st <= total_param_num st1) as H3.
    { unfold st1. destruct (str_mem n unused); cbn; lia. }
    split; [lia|]. intros [[Hu Hs]|He]%Exists_cons; [|specialize (H2 He); lia].
    cbn [fst snd] in *. unfold st1 in *. rewrite Hu in *. cbn in *. lia.
Qed.

#[local] Instance load_file_counts b m p : counted m -> Keeps (counts b) (_load_file m p).
Proof.
  intros Hm s r s' H [H1 H2]. unfold _load_file in H. destruct (read_shard p) as [l|] eqn:E; [|by injection H as _ <-].
  injection H as _ <-. destruct (Hm _ _ E) as [Hl He]. destruct (load_params_counts (unused_params m) l (stats s) Hl) as [_ H].
  specialize (H He). split; cbn [stats]; [lia|]. lia.
Qed.
#[local] Instance unload_file_counts b p : Keeps (counts b) (_unload_file p).
Proof.
  intros s r s' H [H1 H2]. unfold _unload_file in H. destruct (dict_get (cached_files s) p) as [d|]; [|by injection H as _ <-].
  injection H as _ <-. assert (forall (d : dict array) st, total_param_num (fold_left (fun st kv => mem_rm st (nbytes (snd kv))) d st) = total_param_num st) as E.
  { clear. induction d as [|kv d IH]; intros st; [done|]. cbn [fold_left]. by rewrite IH. }
  split; cbn [stats cached_files]; rewrite E; [done|]. intros [Hb|Hc]; apply H2; [by left|right].
  intros E'. by rewrite E' in Hc.
Qed.
#[local] Instance load_mlc_param_counts b c n : counted (extern_param_map c) -> Keeps (counts b) (_load_mlc_param c n).
Proof.
  intros Hm. pose proof (fun p => load_file_counts b (extern_param_map c) p Hm). unfold _load_mlc_param.
  apply keeps_bind; [apply _|intros ts]. apply keeps_bind; [apply _|intros ps]. apply keeps_bind; [apply _|intros s].
  apply keeps_bind; [destruct (set_diff _ _); apply _|intros _]. apply _.
Qed.

(** Loading a parameter that has a source reads, or has read, a file. *)
Lemma load_mlc_param_counted c n s w s' : counted (extern_param_map c) -> counts false s ->
  dict_get (param_map (extern_param_map c)) n <> Some [] ->
  _load_mlc_param c n s = (Ok w, s') -> counts true s'.
Proof.
  intros Hm Hs Hn H. pose proof (load_mlc_param_counts false c n Hm _ _ _ H Hs) as [H1 H2].
  split; [done|]. intros _. apply H2. right. intros E. unfold _load_mlc_param in H.
  apply mbind_lift_inv in H as [(ts & Hts & H)|(e & _ & ? & _)]; [|done].
  destruct ts as [|t ts]; [by unfold dict_getitem in Hts; destruct (dict_get _ n); simplify_eq/=|].
  apply mbind_lift_inv in H as [(ps & _ & H)|(e & _ & ? & _)]; [|done].
  rewrite (mbind_Ok mget _ s s s) in H by done.
  apply mbind_inv in H as [(u1 & s1 & _ & H)|(e & _ & ?)]; [|done].
  apply mbind_inv in H as [(u2 & s2 & _ & H)|(e & _ & ?)]; [|done].
  rewrite (mbind_Ok mget _ s2 s2 s2) in H by done.
  apply mbind_lift_inv in H as [(vs & Hvs & H)|(e & _ & ? & _)]; [|done].
  apply mbind_lift_inv in H as [(g & _ & H)|(e & _ & ? & _)]; [|done].
  apply mbind_lift_inv in H as [(v & _ & H)|(e & _ & ? & _)]; [|done]. injection H as _ ->.
  cbn [rmap] in Hvs. apply rbind_Ok in Hvs as (v1 & Hv1 & _). unfold cached_param in Hv1. rewrite E in Hv1.
  by apply rbind_Ok in Hv1 as (? & _ & Hv1).
Qed.

Lemma on_progress_loader {A} (f : M Progress A) s r s' : on_progress f s = (r, s') -> fst s' = fst s.
Proof. unfold on_progress. destruct (f (snd s)). by intros [= _ <-]. Qed.

Lemma load_each_counts b c fs n s r s' : counted (extern_param_map c) ->
  load_each c fs n s = (r, s') -> counts b (fst s) -> counts b (fst s').
Proof.
  intros Hm H Hs. unfold load_each, mbind' at 1, on_loader in H.
  destruct (_load_mlc_param c n (fst s)) as [[w|e] l] eqn:E; [|injection H as _ <-; by eapply load_mlc_param_counts].
  pose proof (load_mlc_param_counts b _ _ Hm _ _ _ E Hs) as Hl.
  assert (fst s' = l) as ->; [|done]. unfold mbind' at 1, mlift at 1 in H.
  destruct (_load_or_quantize c n w) as [loaded|]; [|by injection H as _ <-].
  rewrite <- (mfor_ext (fun np => on_progress (let! shards := mlift (preshard fs np) in mfor accept shards))) in H.
  2:{ intros np t. rewrite on_progress_lift. apply mbind_ext. intros a u. apply on_progress_for. }
  rewrite <- on_progress_for in H. by apply on_progress_loader in H.
Qed.

Lemma load_checked_counts c fs s u s' : counted (extern_param_map c) -> counts false (fst s) ->
  (forall n, dict_get (param_map (extern_param_map c)) n <> Some []) ->
  _loading_order (extern_param_map c) (torch_to_path c) <> [] ->
  load_checked c fs s = (Ok u, s') -> 0 < total_param_num (stats (fst s')).
Proof.
  intros Hm Hs Hn Ho H. unfold load_checked in H.
  apply mbind_inv in H as [(u1 & s1 & H1 & H)|(e & _ & ?)]; [|done].
  assert (counts true (fst s1)) as Hs1.
  { destruct (_loading_order _ _) as [|n l]; [done|]. clear Ho H. cbn [mfor] in H1.
    apply mbind_inv in H1 as [(u2 & s2 & H2 & H1)|(e & _ & ?)]; [|done].
    assert (counts true (fst s2)) as Hs2.
    { pose proof H2 as H3. unfold load_each in H3. apply mbind_inv in H3 as [(w & s3 & H3 & H4)|(e & _ & ?)]; [|done].
      unfold on_loader in H3. destruct (_load_mlc_param c n (fst s)) as [r l3] eqn:E. injection H3 as -> <-.
      apply load_mlc_param_counted in E; [|done..]. clear H2 H1.
      unfold mbind' at 1, mlift at 1 in H4. destruct (_load_or_quantize c n w) as [loaded|]; [|done].
      rewrite <- (mfor_ext (fun np => on_progress (let! shards := mlift (preshard fs np) in mfor accept shards))) in H4.
      2:{ intros np t. rewrite on_progress_lift. apply mbind_ext. intros a v. apply on_progress_for. }
      rewrite <- on_progress_for in H4. apply on_progress_loader in H4. by rewrite H4. }
    clear H2 Hs. revert s2 Hs2 H1. induction l as [|m l IH]; intros s2 Hs2 H1; cbn [mfor] in H1; [by injection H1 as _ <-|].
    apply mbind_inv in H1 as [(u3 & s3 & H3 & H1)|(e & _ & ?)]; [|done].
    eapply IH; [|exact H1]. by eapply load_each_counts. }
  rewrite (mbind_Ok mget _ s1 s1 s1) in H by done. unfold on_loader in H.
  destruct (for_paths _ _ (fst s1)) as [r l] eqn:E. injection H as -> <-. cbn [fst].
  assert (Keeps (counts true) (for_paths _unload_file (dict_keys (cached_files (fst s1))))) as Hk by apply _.
  destruct (Hk _ _ _ E Hs1) as [_ Ht]. apply Ht. by left.
Qed.

End Lemmas.
