(* ===== verification/ConvertExact.v ===== *)
(** * Weight conversion is exact

    The loader of a family and its quantization function start from the same
    network, so what is loaded has exactly the names of the quantized network:
    conversion is complete ([convert_weight_complete]) and sound
    ([convert_weight_sound]). *)

From Stdlib Require Import SpecFloat Permutation.
From stdpp Require Import base list strings pretty.
From S2P Require Import Prelude PyStr Loader.
From S2P Require Import PyNum ModelConfig ModelConfigs PyArgs.
From S2P Require Import WeightMap WeightMaps NnModule Quantization QuantizeModel ModelQuantizations.
From S2P Require Import ConvertWeight.
Local Open Scope string_scope.
Local Open Scope list_scope.
Local Open Scope Z_scope.

Section Networks.
Context `{WF : WeightFiles} {NP : Numpy} {QZ : Quantizers} {DT : DataTypes}.
Context {MU : Mutator QuantizeMapping} {CV : Conversion} {MN : ModelNetworks}.
Context `{AC : AutoConfig} {CE : ConvertEnv}.
Context {QL : QuantizerLaws} {MUL : MutatorLaws QuantizeMapping} {CL : ConversionLaws}.

(** *** Conversion to another type *)

Lemma module_to_names name m dtype : param_names name (module_to m dtype) = param_names name m.
Proof. by rewrite <- (erase_params name (module_to m dtype)), module_to_erase, erase_params. Qed.

Lemma module_to_block m dtype : is_block (module_to m dtype) = is_block m.
Proof.
  assert (forall m, is_block (erase m) = is_block m) as H by (by intros []).
  by rewrite <- (H (module_to m dtype)), module_to_erase.
Qed.

Lemma module_to_layers s name m dtype :
  all_layers (scheme_layers s) name (module_to m dtype) = all_layers (scheme_layers s) name m.
Proof.
  assert (forall name m, scheme_layers s name (erase m) = scheme_layers s name m) as H by (by destruct s; intros ? []).
  by rewrite <- (all_layers_erase _ name (module_to m dtype) H), module_to_erase, all_layers_erase.
Qed.

(** *** The quantization functions *)

(** A scheme whose kind is that of its class *)
Definition legal_scheme (s : Scheme) : bool :=
  String.eqb (scheme_kind s)
    (match s with
     | SNo _ => "no-quant" | SGroup _ => "group-quant" | SAWQ _ => "awq" | SFT _ => "ft-quant"
     | SPerTensor _ => "per-tensor-quant" | SBlockScale _ => "block-scale-quant"
     end).

(** A network that can be quantized: a module with submodules, whose parameters
    have different names, and, for FasterTransformer, without expert gates that
    stay as they are *)
Definition well_named (s : Scheme) (m : Module') : Prop :=
  is_block m = true /\ all_layers (scheme_layers s) "" m = true /\ NoDup (param_names "" m).

Lemma with_shards_same n s : has_mapping (with_shards n s) = has_mapping s /\
  scheme_layers (with_shards n s) = scheme_layers s /\
  scheme_model_dtype (with_shards n s) = scheme_model_dtype s.
Proof. by destruct s. Qed.

(** Quantizing a converted network *)
Lemma quantize_converted s w tps m0 dtype m q : has_mapping s = true -> well_named s m0 ->
  quantize_model s w tps (module_to m0 dtype) QuantizeMapping_new = (Ok m, q) ->
  Remaps QuantizeMapping_new q (param_names "" m0) (param_names "" m).
Proof.
  intros Hs (Hb & Hl & Hd) H. rewrite <- (module_to_names "" m0 dtype).
  eapply (quantize_remaps s w tps); [done|by rewrite module_to_block|by rewrite module_to_layers| |exact H].
  by rewrite module_to_names.
Qed.

Lemma call_quantize_inv C cfg tps m0 s m q s' :
  call_quantize_model C cfg tps m0 s = (Ok (m, q), s') ->
  (exists w, s' = with_block_size w (match tps with Some n => with_shards n s | None => s end)) /\
  exists w, quantize_model s w tps m0 QuantizeMapping_new = (Ok m, q).
Proof.
  unfold call_quantize_model. rewrite (mbind_Ok mget _ s s s) by done. intros H.
  apply mbind_inv in H as [(u & s1 & H1 & H)|(e & _ & ?)]; [|done].
  destruct (quantize_model s _ tps m0 QuantizeMapping_new) as [[m1|e] q1] eqn:E; [|done].
  unfold mbind', mmodify, mret' in H. injection H as -> -> <-.
  split; [|by exists (weight_block_size_of C cfg)]. eexists. f_equal. destruct tps; by injection H1 as _ <-.
Qed.

Lemma new_model_inv C cfg s m s' : new_model C cfg s = (Ok m, s') ->
  exists m0, build_model C cfg = Ok m0 /\ m = module_to m0 (scheme_model_dtype s) /\ s' = s.
Proof.
  unfold new_model. intros [(m0 & Hm & H)|(e & _ & ? & _)]%mbind_lift_inv; [|done].
  rewrite (mbind_Ok mget _ s s s) in H by done. injection H as <- <-. by exists m0.
Qed.

(** The functions of a class of networks *)
Definition bodies (C : string) : list QuantFn := [sharded_quant C; plain_quant C; no_quant C; per_tensor_quant C].

(** A network and its mapping, from the names [names] of a loader's network *)
Record Quantizes (names : list string) (m : Module') (q : QuantizeMapping) : Prop := {
  quantizes_names : Permutation (param_names "" m) (flat_map (mapped q) names);
  quantizes_sound : sound_mapping q;
}.

Lemma remaps_quantizes names m q : Remaps QuantizeMapping_new q names (param_names "" m) -> Quantizes names m q.
Proof. intros [H1 H2]%remaps_new. split; [done|]. intros n l Hl. by destruct (H2 n l Hl) as [_ H]. Qed.

(** A scheme that changes names only through its mapping *)
Definition maps_names (s : Scheme) : bool := match s with SAWQ _ | SBlockScale _ => false | _ => true end.

Lemma quantize_named s w tps m0 dtype m q : maps_names s = true -> well_named s m0 ->
  quantize_model s w tps (module_to m0 dtype) QuantizeMapping_new = (Ok m, q) ->
  Quantizes (param_names "" m0) m q.
Proof.
  intros Hs Hw H. apply remaps_quantizes. destruct s; try done; by eapply quantize_converted; [| |exact H].
Qed.

Lemma bodies_quantize C f cfg s m q s' m0 : In f (bodies C) -> maps_names s = true ->
  build_model C cfg = Ok m0 -> well_named s m0 -> f cfg s = (Ok (m, q), s') ->
  Quantizes (param_names "" m0) m q.
Proof.
  intros Hf Hs Hm Hw H. assert (exists k, f cfg s = (let! model := new_model C cfg in k model) s /\
    forall r, k (module_to m0 (scheme_model_dtype s)) s = (Ok r, s') ->
      Quantizes (param_names "" m0) (fst r) (snd r)) as (k & Hk & Hq).
  { destruct Hf as [<-|[<-|[<-|[<-|[]]]]]; eexists; (split; [reflexivity|]); intros [m1 q1] Hr; cbn [fst snd].
    - apply mbind_lift_inv in Hr as [(n & _ & Hr)|(e & _ & ? & _)]; [|done].
      rewrite (mbind_Ok (mmodify _) _ s tt (with_shards n s)) in Hr by done.
      apply call_quantize_inv in Hr as (_ & w & Hr).
      eapply (quantize_named (with_shards n s)); [by destruct s| |exact Hr].
      destruct (with_shards_same n s) as (_ & Hl & _). unfold well_named. by rewrite Hl.
    - apply call_quantize_inv in Hr as (_ & w & Hr). by eapply quantize_named.
    - injection Hr as <- <- <-. split; [|by intros n l].
      rewrite module_to_names. clear. induction (param_names "" m0) as [|n l IH]; [done|]. cbn [flat_map].
      by rewrite <- IH.
    - apply mbind_lift_inv in Hr as [(n & _ & Hr)|(e & _ & ? & _)]; [|done].
      apply call_quantize_inv in Hr as (_ & w & Hr). by eapply quantize_named. }
  rewrite Hk in H. apply mbind_inv in H as [(m1 & s1 & H1 & H2)|(e & _ & ?)]; [|done].
  apply new_model_inv in H1 as (m2 & Hm2 & -> & ->). rewrite Hm in Hm2. injection Hm2 as <-.
  by apply (Hq (m, q)).
Qed.

(** AWQ has no mapping: the loader's network is already quantized. *)
Lemma mutate_pure vm dtype m0 q r q' :
  (forall name node q r q', vm name node q = (r, q') -> q' = q) -> mutate vm dtype m0 "" q = (r, q') -> q' = q.
Proof.
  intros Hvm. unfold mutate.
  assert (forall w, (forall name node q r q', w name node q = (r, q') -> q' = q) ->
    forall name node q r q', visit w name node q = (r, q') -> q' = q) as Hv.
  { intros w Hw name node q0 r0 q0' H. destruct node as [| | | |nq mla attrs];
      try (rewrite visit_leaf in H by done; by injection H as _ <-).
    rewrite visit_block in H.
    assert (forall q0 r0 q0', visit_attrs w name attrs q0 = (r0, q0') -> q0' = q0) as Ha.
    { clear - Hw. induction attrs as [|[k [p|m]] attrs IH]; intros q0 r0 q0' H; cbn [visit_attrs] in H.
      - by injection H as _ <-.
      - apply mbind_inv in H as [(a & q1 & H1 & H)|(e & H1 & _)]; [|by eapply IH].
        injection H as _ <-. by eapply IH.
      - apply mbind_inv in H as [(a & q1 & H1 & H)|(e & H1 & _)]; [|by eapply Hw].
        apply Hw in H1 as ->. apply mbind_inv in H as [(b & q1 & H1 & H)|(e & H1 & _)]; [|by eapply IH].
        injection H as _ <-. by eapply IH. }
    apply mbind_inv in H as [(a & q1 & H1 & H)|(e & H1 & _)]; [|by eapply Ha]. injection H as _ <-. by eapply Ha. }
  apply Hv. induction (depth (module_to m0 dtype)) as [|n IH]; intros name node q0 r0 q0' H; cbn [walk] in H.
  - by injection H as _ <-.
  - apply mbind_inv in H as [(a & q1 & H1 & H)|(e & H1 & _)]; [|by eapply Hvm]. apply Hvm in H1 as ->.
    destruct a; [by injection H as _ <-|]. by eapply Hv.
Qed.

Lemma awq_quantizes C cfg c m q s' : plain_quant C cfg (SAWQ c) = (Ok (m, q), s') ->
  q = QuantizeMapping_new /\ s' = SAWQ c.
Proof.
  intros H. apply mbind_inv in H as [(m1 & s1 & H1 & H2)|(e & _ & ?)]; [|done].
  apply new_model_inv in H1 as (m2 & Hm2 & -> & ->). apply call_quantize_inv in H2 as ((w' & ->) & w & H).
  split; [|done]. cbn [quantize_model] in H. eapply mutate_pure; [|exact H]. intros name node q0 r q'.
  unfold awq_visit_module, replace. destruct node; try (by intros [= _ <-]).
  destruct (_ && _); [|by intros [= _ <-]]. destruct (AWQQuantizeLinear_from_linear _ _ _ _ _); by intros [= _ <-].
Qed.

Lemma quantizes_new m : Quantizes (param_names "" m) m QuantizeMapping_new.
Proof.
  split; [|by intros n l]. induction (param_names "" m) as [|n l IH]; [done|]. cbn [flat_map]. by rewrite <- IH.
Qed.

(** *** The families *)

(** The models whose loader for HuggingFace weights maps every parameter, with
    the class of their network, and those whose AWQ loader does. *)
Definition FAMILIES : list (string * string) :=
  [ ("llama", "LlamaForCausalLM"); ("mistral", "MistralForCasualLM");
    ("gemma", "GemmaForCausalLM"); ("gemma2", "Gemma2ForCausalLM");
    ("gemma3", "Gemma3ForCausalLM"); ("gemma3_text", "Gemma3ForCausalLM");
    ("mixtral", "MixtralForCasualLM"); ("gpt_neox", "GPTNeoXForCausalLM");
    ("gpt_bigcode", "GPTBigCodeForCausalLM"); ("phi3_v", "Phi3VForCausalLM");
    ("qwen", "QWenLMHeadModel"); ("qwen2", "QWen2LMHeadModel");
    ("stablelm", "StableLmForCausalLM"); ("baichuan", "BaichuanForCausalLM");
    ("internlm", "InternLMForCausalLM"); ("internlm2", "InternLM2ForCausalLM");
    ("rwkv5", "RWKV5_ForCasualLM"); ("orion", "OrionForCasualLM"); ("llava", "LlavaForCasualLM");
    ("rwkv6", "RWKV6_ForCasualLM"); ("chatglm", "ChatGLMForCausalLM");
    ("eagle", "EagleForCasualLM"); ("bert", "BertModel"); ("medusa", "MedusaModel");
    ("starcoder2", "Starcoder2ForCausalLM"); ("cohere", "CohereForCausalLM");
    ("gptj", "GPTJForCausalLM"); ("olmo", "OLMoForCausalLM");
    ("nemotron", "NemotronForCausalLM") ].
Definition AWQ_FAMILIES : list (string * string) :=
  [("llama", "LlamaForCausalLM"); ("llava", "LlavaForCasualLM"); ("eagle", "EagleForCasualLM");
   ("olmo", "OLMoForCausalLM")].

Lemma dict_get_Forall {V} (P : string * V -> Prop) (d : dict V) k v :
  Forall P d -> dict_get d k = Some v -> P (k, v).
Proof. rewrite List.Forall_forall. intros H Hk. by apply H, dict_get_pair. Qed.

Ltac find_In := repeat (first [left; reflexivity|right]).

Lemma families_functions : Forall (fun tc : string * string => forall fs, dict_get QUANTIZE (fst tc) = Some fs ->
  Forall (fun kf => fst kf = "awq" \/ In (snd kf) (bodies (snd tc))) fs) FAMILIES.
Proof.
  unfold FAMILIES. repeat (constructor; [intros fs [= <-]; repeat (constructor; [first [by left|right; by find_In]|]); constructor|]).
  constructor.
Qed.

Lemma families_loaders s : Forall (fun tc : string * string =>
  forall gs, dict_get (SOURCES (NN := module_networks s)) (fst tc) = Some gs ->
  Forall (fun kg => fst kg = "awq" \/
            exists b, In (snd kg, fun c q => named_parameters_of (NN := module_networks s) b (snd tc) c q)
                        (EXACT (NN := module_networks s))) gs) FAMILIES.
Proof.
  unfold FAMILIES. repeat (constructor; [intros fs [= <-]; repeat (constructor;
    [first [by left|right; exists true; by find_In|right; exists false; by find_In]|]); constructor|]).
  constructor.
Qed.

Lemma awq_families s : Forall (fun tc : string * string =>
  (forall fs, dict_get QUANTIZE (fst tc) = Some fs -> dict_get fs "awq" = Some (plain_quant (snd tc))) /\
  (forall gs, dict_get (SOURCES (NN := module_networks s)) (fst tc) = Some gs ->
     exists g b, dict_get gs "awq" = Some g /\ dict_get AWQ_QUANT (fst tc) = Some (plain_quant (snd tc)) /\
       In (g, fun c q => awq_parameters_of (NN := module_networks s) b (fst tc) c q) (EXACT (NN := module_networks s))))
  AWQ_FAMILIES.
Proof.
  unfold AWQ_FAMILIES. repeat (constructor; [split; [by intros fs [= <-]|intros gs [= <-]; eexists;
    first [exists true; split; [reflexivity|]; split; [reflexivity|by find_In]
          |exists false; split; [reflexivity|]; split; [reflexivity|by find_In]]]|]).
  constructor.
Qed.

(** *** The names of the loader's network *)

Lemma dict_of_keys_In {V} (l : list (string * V)) n : In n (dict_keys (dict_of l)) <-> In n (map fst l).
Proof.
  unfold dict_of. enough (forall d : dict V,
    In n (dict_keys (fold_left (fun d kv => dict_set d (fst kv) (snd kv)) l d)) <-> In n (dict_keys d) \/ In n (map fst l)) as H.
  { rewrite H. simpl. tauto. }
  induction l as [|[k v] l IH]; intros d; cbn [fold_left map In fst snd]; [tauto|].
  rewrite IH, dict_keys_set. split; [intros [[H|H]|H]|intros [H|[H|H]]]; auto.
Qed.

Lemma dict_of_distinct {V} (l : list (string * V)) : NoDup (map fst l) -> dict_of l = l.
Proof.
  unfold dict_of. intros Hd. enough (forall d : dict V, NoDup (map fst (d ++ l)) ->
    fold_left (fun d kv => dict_set d (fst kv) (snd kv)) l d = d ++ l) as H by by apply H.
  induction l as [|[k v] l IH]; intros d H; cbn [fold_left fst snd]; [by rewrite app_nil_r|].
  assert (dict_set d k v = d ++ [(k, v)]) as ->.
  { rewrite map_app in H. apply NoDup_app in H as (_ & H & _). clear - H.
    induction d as [|[k' v'] d IH]; [done|]. cbn [dict_set]. destruct (String.eqb_spec k k') as [->|].
    - destruct (H k'); left.
    - cbn [app]. rewrite IH; [done|]. intros x Hx. apply H. by right. }
  rewrite IH, <- app_assoc; [done| |by rewrite <- app_assoc]. by apply NoDup_cons in Hd as [_ Hd].
Qed.

Lemma module_names s b m named : export_tvm (Networks := module_networks s) b m = Ok named ->
  map fst named = param_names "" (fst m).
Proof.
  cbn [export_tvm module_networks]. unfold export.
  intros (l & (u & _ & [= <-])%rbind_Ok & [= <-])%rbind_Ok. rewrite map_map. done.
Qed.

Lemma source_names s b C cfg v named e e' :
  named_parameters_of (NN := module_networks s) b C cfg (Some v) e = (Ok named, e') ->
  exists m0, build_model C cfg = Ok m0 /\ forall n, In n (dict_keys named) <-> In n (param_names "" m0).
Proof.
  unfold named_parameters_of, named_params_of, built. cbn [build to_dtype module_networks].
  intros [(m & Hm & H)|(x & _ & ? & _)]%mbind_lift_inv; [|done].
  apply rbind_Ok in Hm as (m1 & Hm & [= <-]). apply rbind_Ok in Hm as (m0 & Hm & [= <-]).
  exists m0. split; [done|]. unfold mlift in H. injection H as H _.
  apply rbind_Ok in H as (l & Hl & [= <-]). intros n.
  apply (module_names s b (module_to m0 (model_dtype v), weight_block_size_of C cfg)) in Hl.
  rewrite dict_of_keys_In, Hl. cbn [fst]. by rewrite module_to_names.
Qed.

Lemma awq_source_names s b fam C cfg v named e e' : dict_get AWQ_QUANT fam = Some (plain_quant C) ->
  awq_parameters_of (NN := module_networks s) b fam cfg v e = (Ok named, e') ->
  exists m q s', plain_quant C cfg s = (Ok (m, q), s') /\ forall n, In n (dict_keys named) <-> In n (param_names "" m).
Proof.
  intros Hf. unfold awq_parameters_of, named_params_of. cbn [awq_quant module_networks].
  intros [(m & Hm & H)|(x & _ & ? & _)]%mbind_lift_inv; [|done].
  rewrite (dict_getitem_Ok _ _ _ Hf) in Hm. cbn [rbind] in Hm. apply rbind_Ok in Hm as ([m1 q] & Hm & [= <-]).
  destruct (plain_quant C cfg s) as [r s'] eqn:E. cbn [fst] in Hm. subst r. exists m1, q, s'. split; [done|].
  unfold mlift in H. injection H as H _.
  apply rbind_Ok in H as (l & Hl & [= <-]). intros n.
  apply (module_names s b (m1, Raise AttributeError)) in Hl. by rewrite dict_of_keys_In, Hl.
Qed.

(** *** The conversion *)

(** The models and schemes whose loader is exact *)
Inductive supported (args : ConversionArgs) (C : string) : Prop :=
| supported_weights : In (model args, C) FAMILIES -> source_format args <> "awq" ->
    legal_scheme (quantization args) = true -> maps_names (quantization args) = true -> supported args C
| supported_awq c : In (model args, C) AWQ_FAMILIES -> source_format args = "awq" ->
    quantization args = SAWQ c -> awq_kind c = "awq" -> supported args C.

Lemma legal_kind s : legal_scheme s = true -> maps_names s = true -> scheme_kind s <> "awq".
Proof. unfold legal_scheme. intros ->%String.eqb_eq. by destruct s. Qed.

(** The quantized network has the names that the mapping makes of the loader's. *)
Lemma loader_quantizes args C cfg m q s g named : supported args C ->
  (forall m0, build_model C cfg = Ok m0 -> well_named (quantization args) m0) ->
  quantized_model args cfg = Ok (m, q, s) -> NoDup (param_names "" m) ->
  (let? gs := dict_getitem (SOURCES (NN := module_networks s)) (model args) in dict_getitem gs (source_format args)) = Ok g ->
  run_loader g cfg (Some (scheme_view s)) = Ok named ->
  exists names, Quantizes names m q /\ NoDup names /\
    forall paths n, check_parameter_usage named (dict_keys paths) = Ok tt ->
      In n (_loading_order named paths) <-> In n names /\ dict_get (param_map named) n <> Some [].
Proof.
  intros Hsup Hwell Hq Hm Hg Hrun.
  unfold quantized_model in Hq. apply rbind_Ok in Hq as (fs & Hfs & Hq). apply rbind_Ok in Hq as (f & Hf & Hq).
  unfold dict_getitem in Hfs, Hf. destruct (dict_get QUANTIZE (model args)) as [fs'|] eqn:EQ; [|done].
  injection Hfs as ->. destruct (dict_get fs _) as [f'|] eqn:Ef; [|done]. injection Hf as ->.
  destruct (f cfg (quantization args)) as [[[m1 q1]|e] s1] eqn:E; [|done]. injection Hq as -> -> ->.
  apply rbind_Ok in Hg as (gs & Hgs & Hg). unfold dict_getitem in Hgs, Hg.
  destruct (dict_get SOURCES _) as [gs'|] eqn:ES; [|done]. injection Hgs as ->.
  destruct (dict_get gs _) as [g'|] eqn:Eg; [|done]. injection Hg as ->.
  destruct Hsup as [Hfam Hfmt Hleg Hmaps|c Hfam Hfmt Hs Hk].
  - pose proof families_functions as HF. rewrite List.Forall_forall in HF.
    pose proof (dict_get_Forall _ _ _ _ (HF _ Hfam _ EQ) Ef) as [Hk|Hb]; [by destruct (legal_kind _ Hleg Hmaps)|].
    pose proof (families_loaders s) as HL. rewrite List.Forall_forall in HL.
    pose proof (dict_get_Forall _ _ _ _ (HL _ Hfam _ ES) Eg) as [Hk|[b Hin]]; [done|]. cbn [fst snd] in Hb, Hin.
    assert (exists nd, named_parameters_of (NN := module_networks s) b C cfg (Some (scheme_view s)) ExternMapping_new
      = (Ok nd, ExternMapping_new)) as [nd Hnd].
    { pose proof (exact_covers (NN := module_networks s)) as Hc. rewrite List.Forall_forall in Hc.
      destruct (covers_spec g _ _ _ _ (Hc _ Hin) (fun _ _ => pure_source (NN := module_networks s) _ _ _ _) Hrun) as (nd & Hs & _). by exists nd. }
    destruct (source_names _ _ _ _ _ _ _ _ Hnd) as (m0 & Hm0 & Hn).
    exists (param_names "" m0). split; [|split; [apply (Hwell _ Hm0)|]].
    { eapply bodies_quantize; [exact Hb|done|exact Hm0|by apply Hwell|exact E]. }
    intros paths n Hu. destruct (exact_map (NN := module_networks s) g _ cfg _ named paths Hin Hrun Hu) as (nd' & Hnd' & _ & _ & _ & Ho).
    cbv beta in Hnd'. rewrite Hnd in Hnd'. injection Hnd' as <-. by rewrite Ho, Hn.
  - pose proof (awq_families s) as HA. rewrite List.Forall_forall in HA.
    destruct (HA _ Hfam) as [Hplain Hload]. cbn [fst snd] in Hplain, Hload.
    destruct (Hload _ ES) as (g' & b & Hg' & Hawq & Hin). rewrite Hfmt, Hg' in Eg. injection Eg as ->.
    rewrite Hs in Ef, E. cbn [scheme_kind] in Ef. rewrite Hk, (Hplain _ EQ) in Ef. injection Ef as <-.
    destruct (awq_quantizes _ _ _ _ _ _ E) as [-> ->]. exists (param_names "" m).
    split; [apply quantizes_new|]. split; [done|].
    intros paths n Hu. destruct (exact_map (NN := module_networks (SAWQ c)) g _ cfg _ named paths Hin Hrun Hu) as (nd & Hnd & _ & _ & _ & Ho).
    cbv beta in Hnd. destruct (awq_source_names _ _ _ _ _ _ _ _ _ Hawq Hnd) as (m2 & q2 & s2 & E2 & Hn).
    rewrite E in E2. injection E2 as <- _ _. by rewrite Ho, Hn.
Qed.

(** The names under which the parameters of the quantized network are stored *)
Definition stored_names (l : list (string * Param)) : list string :=
  match preshard_num with
  | Some n => match int_of_str n with
              | Ok n => flat_map (param_shards (Z.to_nat n)) l
              | Raise _ => map fst l
              end
  | None => map fst l
  end.

Lemma presharded_names (SL : shards_law) l new fs : presharded l = Ok (new, fs) ->
  NoDup (dict_keys l) -> NoDup (stored_names l) ->
  exists k, dict_keys new = flat_map (shard_names fs k) (dict_keys l) /\ shards_into fs k /\
    dict_keys new = stored_names l.
Proof.
  unfold presharded, stored_names. intros H Hd Hs. destruct preshard_num as [n|].
  - apply rbind_Ok in H as (z & Hz & H). rewrite Hz in *. apply rbind_Ok in H as ([p f] & Hp & [= <- <-]).
    destruct (apply_preshard_names SL _ _ _ _ Hp Hd Hs) as [H1 H2]. exists (Z.to_nat z). split; [done|]. split; [done|].
    unfold apply_preshard in Hp. apply rbind_Ok in Hp as (p' & Hp & H). apply rbind_Ok in H as (f' & _ & [= <- _]).
    by destruct (preshard_params_run SL _ _ _ _ Hp) as (-> & _).
  - injection H as <- <-. exists 0%nat. split; [|by split; [intros d m f w r|]].
    clear. induction l as [|[n p] l IH]; [done|]. cbn [dict_keys map flat_map fst]. cbn [shard_names app]. by f_equal.
Qed.

Lemma init_run path m q c l : HuggingFaceLoader_init path m q = Ok (c, l) ->
  extern_param_map c = m /\ quantize_param_map c = q /\
  check_parameter_usage m (dict_keys (torch_to_path c)) = Ok tt /\ cache_ok l /\
  (counted m -> counts false l).
Proof.
  unfold HuggingFaceLoader_init. intros (u & _ & H)%rbind_Ok. apply rbind_Ok in H as ([paths s] & H1 & H).
  apply rbind_Ok in H as ([] & Hu & [= <- <-]). cbn [extern_param_map quantize_param_map torch_to_path].
  do 3 (split; [done|]). destruct (str_mem _ _).
  - destruct (_load_file m path _) as [[v|e] s1] eqn:E; [|done]. apply rbind_Ok in H1 as (d & _ & [= _ <-]).
    pose proof E as E'. unfold _load_file in E. destruct (read_shard path) as [r|] eqn:Er; [|done].
    injection E as _ <-. split.
    + split; cbn [cached_files dict_set dict_keys map fst]; [apply NoDup_singleton|].
      intros p d0. cbn [dict_get]. destruct (String.eqb_spec p path) as [->|]; [|done]. intros [= <-]. by exists r.
    + intros Hc. eapply (load_file_counts false m path Hc); [exact E'|]. split; cbn; [done|]. by intros [?|?].
  - destruct (String.eqb _ _); [|done]. apply rbind_Ok in H1 as (w & _ & [= _ <-]). split; [by split; [constructor|]|].
    intros _. split; cbn; [done|]. by intros [?|?].
Qed.

(** *** The theorem's parts *)

Lemma prepare_inv args cfg s q p fs : prepare args = Ok (cfg, s, q, p, fs) ->
  exists m new, quantized_model args cfg = Ok (m, q, s) /\
    presharded (dict_of (named_params "" m)) = Ok (new, fs) /\
    p = mkProgress new [] (S754_zero false) [].
Proof.
  unfold prepare. intros (cfg' & _ & H)%rbind_Ok. apply rbind_Ok in H as ([[m q'] s'] & Hq & H).
  apply rbind_Ok in H as (l & Hl & H). apply rbind_Ok in H as ([new fs'] & Hn & [= -> -> -> <- ->]).
  unfold export in Hl. apply rbind_Ok in Hl as (u & _ & [= <-]). by exists m, new.
Qed.

Lemma make_loader_inv args cfg s q c l : make_loader args cfg s q = Ok (c, l) ->
  exists g, (let? gs := dict_getitem (SOURCES (NN := module_networks s)) (model args) in
             dict_getitem gs (source_format args)) = Ok g /\
    run_loader g cfg (Some (scheme_view s)) = Ok (extern_param_map c) /\
    quantize_param_map c = Some q /\
    check_parameter_usage (extern_param_map c) (dict_keys (torch_to_path c)) = Ok tt /\ cache_ok l /\
    (counted (extern_param_map c) -> counts false l).
Proof.
  unfold make_loader. destruct (negb _); [done|]. intros (gs & Hgs & H)%rbind_Ok.
  apply rbind_Ok in H as (g & Hg & H). apply rbind_Ok in H as (m & Hm & H).
  apply init_run in H as (<- & Hq & Hu & Hc & Hn). exists g. rewrite Hgs. done.
Qed.

(** What is loaded has the names of the network, each once. *)
Lemma loaded_exactly (SL : shards_law) args C cfg s q p fs c l outs : supported args C ->
  (forall m0, build_model C cfg = Ok m0 -> well_named (quantization args) m0) ->
  prepare args = Ok (cfg, s, q, p, fs) ->
  (forall m, quantized_model args cfg = Ok (m, q, s) ->
     NoDup (param_names "" m) /\ NoDup (stored_names (named_params "" m))) ->
  make_loader args cfg s q = Ok (c, l) ->
  (forall n, dict_get (param_map (extern_param_map c)) n <> Some []) ->
  load_spec c fs = Ok outs ->
  Permutation (map fst outs) (dict_keys (expected p)) /\ NoDup (dict_keys (expected p)) /\ seen p = [] /\ yielded p = [].
Proof.
  intros Hsup Hwell Hp Hdist Hmk Hsrc Hload.
  apply prepare_inv in Hp as (m & new & Hqm & Hpre & ->). cbn [expected seen yielded].
  destruct (Hdist m Hqm) as [Hd Hst]. rewrite (dict_of_distinct _ Hd) in Hpre.
  destruct (presharded_names SL _ _ _ Hpre Hd Hst) as (k & Hkeys & Hinto & Hstored).
  apply make_loader_inv in Hmk as (g & Hg & Hrun & Hq & Hu & _).
  destruct (loader_quantizes _ _ _ _ _ _ _ _ Hsup Hwell Hqm Hd Hg Hrun) as (names & [Hperm Hsound] & Hnd & Ho).
  split; [|by rewrite Hstored].
  rewrite (loaded_names c q fs k outs Hq Hsound Hinto Hload), Hkeys.
  assert (Permutation (_loading_order (extern_param_map c) (torch_to_path c)) names) as ->.
  { apply NoDup_Permutation; [apply order_spec|done|]. intros n. rewrite !list_elem_of_In, (Ho _ _ Hu).
    split; [by intros [? _]|intros ?; split; [done|apply Hsrc]]. }
  by rewrite <- Hperm.
Qed.

(** *** What is checked *)

(** What has been yielded, starting from [p0]: parameters of the network, each
    once, in the shape and type expected; the others are still expected. *)
Record checked (p0 p : Progress) : Prop := {
  checked_names : Permutation (map fst (yielded p) ++ dict_keys (expected p)) (dict_keys (expected p0));
  checked_seen : seen p = map fst (yielded p);
  checked_fits n w : In (n, w) (yielded p) ->
    exists x, dict_get (expected p0) n = Some x /\ expects x w;
  checked_rest n x : dict_get (expected p) n = Some x -> dict_get (expected p0) n = Some x;
}.

Lemma dict_del_Permutation {V} (d : dict V) n : In n (dict_keys d) ->
  Permutation (dict_keys d) (n :: dict_keys (dict_del d n)).
Proof.
  unfold dict_keys. induction d as [|[k v] d IH]; [by intros []|]. cbn [map fst dict_del In].
  destruct (String.eqb_spec n k) as [->|Hne]; [done|]. intros [->|H]; [done|]. cbn [map fst].
  rewrite (IH H). constructor.
Qed.

(** A round that goes through *)
Lemma accept_checked p0 n w p u p' : NoDup (dict_keys (expected p0)) -> checked p0 p ->
  accept (n, w) p = (Ok u, p') -> checked p0 p'.
Proof.
  intros Hd [H1 H2 H3 H4]. unfold accept, _check_param.
  destruct p as [exp sn by_ yd]. cbn [expected seen yielded] in *.
  unfold mbind', mget, mmodify, mlift, mraise. cbn [expected seen yielded total_bytes].
  destruct (dict_get exp n) as [x|] eqn:Ex; [|done]. destruct (str_mem n sn) eqn:Em; [done|].
  destruct (_check_shape _ _) eqn:Es; cbn [negb]; [|done].
  destruct (String.eqb_spec (nd_dtype w) (p_dtype x)) as [Et|]; cbn [negb]; [|done].
  destruct (itemsize _) as [sz|] eqn:Ei; [|done]. intros [= <- <-].
  assert (In n (dict_keys exp)) as Hin by (apply dict_get_In; by exists x).
  assert (NoDup (dict_keys exp)) as Hdx by (rewrite <- H1 in Hd; by apply NoDup_app in Hd as (_ & _ & ?)).
  split; cbn [expected seen yielded].
  - rewrite map_app, <- app_assoc. cbn [map fst app]. by rewrite <- (dict_del_Permutation _ _ Hin).
  - unfold set_add. rewrite Em, H2. by rewrite map_app.
  - intros m v [Hm|[[= <- <-]|[]]]%in_app_iff; [by apply H3|]. exists x. split; [by apply H4|].
    split; [done|done|by rewrite Ei].
  - intros m y. rewrite dict_get_del by done. destruct (String.eqb m n); [done|]. apply H4.
Qed.

Lemma mfor_keeps {S A} (P : S -> Prop) (f : A -> M S unit) l s u s' :
  (forall x s u s', f x s = (Ok u, s') -> P s -> P s') -> mfor f l s = (Ok u, s') -> P s -> P s'.
Proof.
  intros Hf. revert s. induction l as [|x l IH]; intros s H Hs; cbn [mfor] in H; [by injection H as _ <-|].
  apply mbind_inv in H as [(v & s1 & H1 & H)|(e & _ & ?)]; [|done]. eapply IH; [exact H|]. by eapply Hf.
Qed.

Lemma load_checked_checked p0 c fs s u s' : NoDup (dict_keys (expected p0)) ->
  load_checked c fs s = (Ok u, s') -> checked p0 (snd s) -> checked p0 (snd s').
Proof.
  intros Hd H Hs. unfold load_checked in H. apply mbind_inv in H as [(v & s1 & H1 & H)|(e & _ & ?)]; [|done].
  rewrite (mbind_Ok mget _ s1 s1 s1) in H by done. unfold on_loader in H.
  destruct (for_paths _ _ _) as [r l]. injection H as _ <-. cbn [snd].
  refine (mfor_keeps (fun s => checked p0 (snd s)) _ _ _ _ _ _ H1 Hs). clear - Hd. intros n s u s' H Hs.
  unfold load_each in H. apply mbind_inv in H as [(w & s1 & H1 & H)|(e & _ & ?)]; [|done].
  apply mbind_lift_inv in H as [(loaded & _ & H)|(e & _ & ? & _)]; [|done].
  refine (mfor_keeps (fun s => checked p0 (snd s)) _ _ _ _ _ _ H _).
  - clear - Hd. intros np s u s' H Hs. apply mbind_lift_inv in H as [(shards & _ & H)|(e & _ & ? & _)]; [|done].
    refine (mfor_keeps (fun s => checked p0 (snd s)) _ _ _ _ _ _ H Hs). clear - Hd. intros [n w] [l p] u [l' p'] H Hs.
    unfold on_progress in H. cbn [fst snd] in *. destruct (accept (n, w) p) as [[v|e] p1] eqn:E; [|done].
    injection H as _ <- <-. by eapply accept_checked.
  - unfold on_loader in H1. destruct (_load_mlc_param c n (fst s)). by injection H1 as _ <-.
Qed.

(** A second array of the same name is said to be unknown, since an accepted
    parameter is no longer expected: the check for duplicates never fires. *)
Theorem duplicate_is_unknown p0 p n w : NoDup (dict_keys (expected p0)) -> checked p0 p -> In n (seen p) ->
  _check_param n w p = (Raise (unknown_param n), p).
Proof.
  intros Hd [H1 H2 _ _] Hn. unfold _check_param, mbind', mget, mraise.
  destruct (dict_get (expected p) n) as [x|] eqn:E; [|done].
  rewrite <- H1 in Hd. apply NoDup_app in Hd as (_ & Hd & _). destruct (Hd n); rewrite list_elem_of_In.
  - by rewrite <- H2.
  - apply dict_get_In. by exists x.
Qed.

Lemma preshard_params_NoDup n l : forall p p', preshard_params n p l = Ok p' ->
  NoDup (dict_keys (new_named_params p)) -> NoDup (dict_keys (new_named_params p')).
Proof.
  induction l as [|[m q] l IH]; intros p p' H Hd; cbn [preshard_params] in H; [by injection H as <-|].
  apply rbind_Ok in H as (p1 & H1 & H). apply (IH _ _ H). clear IH H.
  assert (forall l (d : dict Param), NoDup (dict_keys d) ->
    NoDup (dict_keys (fold_left (fun d n => dict_set d n q) l d))) as Hf.
  { clear. induction l as [|x l IH]; intros d Hd; [done|]. by apply IH, dict_set_NoDup. }
  unfold preshard_param in H1. destruct (shard_strategy q) as [st|].
  - destruct (dict_has _ _); [injection H1 as <-; by apply Hf|].
    apply rbind_Ok in H1 as (f & _ & [= <-]). by apply Hf.
  - injection H1 as <-. by apply dict_set_NoDup.
Qed.

Lemma prepare_NoDup args cfg s q p fs : prepare args = Ok (cfg, s, q, p, fs) -> NoDup (dict_keys (expected p)).
Proof.
  intros (m & new & _ & Hp & ->)%prepare_inv. cbn [expected]. unfold presharded in Hp. destruct preshard_num.
  - apply rbind_Ok in Hp as (z & _ & Hp). apply rbind_Ok in Hp as ([d f] & Hp & [= <- _]).
    unfold apply_preshard in Hp. apply rbind_Ok in Hp as (p1 & H1 & H). apply rbind_Ok in H as (f' & _ & [= <- _]).
    eapply preshard_params_NoDup; [exact H1|constructor].
  - injection Hp as <- _. apply dict_of_NoDup.
Qed.

(** C31: conversion is sound.  Whatever the model, the scheme and the files:
    when [_convert_args] writes anything, every array it writes is a parameter
    of the quantized (and presharded) network in the shape and type of this
    parameter, and no parameter is written twice; when it returns, every
    parameter was written; and when parameters are missing it raises only after
    it has written the others. *)
Theorem convert_weight_sound args cache r outs metadata :
  cache <> Some (outs, metadata) ->
  _convert_args args cache = (r, Some (outs, metadata)) ->
  exists model_config s q p fs rest, prepare args = Ok (model_config, s, q, p, fs) /\
    Permutation (map fst outs ++ rest) (dict_keys (expected p)) /\
    (forall n w, In (n, w) outs -> exists x, dict_get (expected p) n = Some x /\ expects x w) /\
    ParamSize metadata = Z.of_nat (length outs) /\
    r = match rest with
        | [] => Ok tt
        | _ => Raise (ValueError [Lit "Parameter not found in source: "; FStrs rest])
        end.
Proof.
  intros Hne H. unfold _convert_args in H.
  apply mbind_lift_inv in H as [([[[[cfg s] q] p] fs] & Hp & H)|(e & _ & _ & E)]; [|congruence].
  apply mbind_lift_inv in H as [([c l] & _ & H)|(e & _ & _ & E)]; [|congruence].
  apply mbind_lift_inv in H as [([p' total] & Hgen & H)|(e & _ & _ & E)]; [|congruence].
  apply mbind_lift_inv in H as [(md & Hmd & H)|(e & _ & _ & E)]; [|congruence].
  rewrite (mbind_Ok (mmodify _) _ cache tt (Some (yielded p', md))) in H by done.
  assert (checked p p') as [H1 H2 H3 _].
  { unfold _param_generator in Hgen. destruct (load_checked c fs (l, p)) as [[u|e] [l1 p1]] eqn:E; [|done].
    injection Hgen as <- _. refine (load_checked_checked p c fs _ _ _ (prepare_NoDup _ _ _ _ _ _ Hp) E _). cbn [snd].
    pose proof Hp as Hp'. apply prepare_inv in Hp' as (m & new & _ & _ & ->). by split. }
  exists cfg, s, q, p, fs, (dict_keys (expected p')). split; [done|].
  assert (yielded p' = outs /\ md = metadata /\ r = match dict_keys (expected p') with
    | [] => Ok tt | _ => Raise (ValueError [Lit "Parameter not found in source: "; FStrs (dict_keys (expected p'))]) end)
    as (<- & <- & ->).
  { destruct (expected p') as [|kv d]; by injection H as <- <- <-. }
  do 2 (split; [done|]). split; [|done]. unfold _metadata_callback in Hmd. destruct (total =? 0); [done|].
  injection Hmd as <-. cbn [ParamSize]. by rewrite H2, length_map.
Qed.

(** C30: conversion is complete.  For a model and scheme with an exact loader,
    on a network whose parameters have different names: when the files have
    every tensor, all sources are known, and every array comes out in the shape
    and type of its parameter, then [_convert_args] succeeds; what it writes is
    what the loader yields, its names are those of the quantized (and
    presharded) network, each once; and the number of parameters it divides by
    is positive. *)
Theorem convert_weight_complete (SL : shards_law) args C model_config s q p fs c l outs cache :
  supported args C ->
  (forall m0, build_model C model_config = Ok m0 -> well_named (quantization args) m0) ->
  prepare args = Ok (model_config, s, q, p, fs) ->
  (forall m, quantized_model args model_config = Ok (m, q, s) ->
     NoDup (param_names "" m) /\ NoDup (stored_names (named_params "" m))) ->
  make_loader args model_config s q = Ok (c, l) ->
  weights_ok c -> counted (extern_param_map c) ->
  (forall n, dict_get (param_map (extern_param_map c)) n <> Some []) ->
  load_spec c fs = Ok outs -> outs <> [] ->
  (forall n w x, In (n, w) outs -> dict_get (expected p) n = Some x -> expects x w) ->
  Permutation (map fst outs) (dict_keys (expected p)) /\
  exists metadata, _convert_args args cache = (Ok tt, Some (outs, metadata)) /\
    ParamSize metadata = Z.of_nat (length outs).
Proof.
  intros Hsup Hwell Hp Hdist Hmk Hw Hcount Hsrc Hload Hne Hfit.
  destruct (loaded_exactly SL _ _ _ _ _ _ _ _ _ _ Hsup Hwell Hp Hdist Hmk Hsrc Hload) as (Hperm & Hnd & Hs & Hy).
  split; [done|]. pose proof Hmk as Hmk'. apply make_loader_inv in Hmk' as (g & _ & _ & _ & _ & Hcache & Hpos).
  destruct (accept_all outs p) as (p' & Hacc & Hy' & Hs' & Hk').
  - by rewrite Hperm.
  - done.
  - intros n w Hin. assert (In n (dict_keys (expected p))) as [x Hx]%dict_get_In.
    { rewrite <- Hperm. apply in_map_iff. by exists (n, w). }
    exists x. split; [done|]. by eapply Hfit.
  - rewrite Hs. by intros n _ [].
  - rewrite Hy, Hs in *. cbn [app] in Hy', Hs'.
    destruct (load_checked_run c fs l p Hw Hcache) as (l' & Hrun & _).
    rewrite <- (each_spec_loaded _ _ _ p Hload) in Hacc. unfold on_progress in Hrun. cbn [fst snd] in Hrun.
    rewrite Hacc in Hrun.
    assert (0 < total_param_num (stats l')) as Htot.
    { refine (load_checked_counts c fs (l, p) tt (l', p') Hcount (Hpos Hcount) Hsrc _ Hrun).
      intros E. unfold load_spec in Hload. rewrite E in Hload. by injection Hload as <-. }
    assert (expected p' = []) as He.
    { destruct (expected p') as [|[n x] d] eqn:E; [done|]. destruct (Hk' n) as [H _].
      destruct (H (or_introl eq_refl)) as [H1 H2]. by rewrite <- Hperm in H1. }
    unfold _convert_args. rewrite (mbind_lift _ _ _ _ Hp), (mbind_lift _ _ _ _ Hmk).
    assert (_param_generator c l fs p = Ok (p', total_param_num (stats l'))) as Hgen.
    { unfold _param_generator. by rewrite Hrun. }
    rewrite (mbind_lift _ _ _ _ Hgen). unfold _metadata_callback.
    destruct (Z.eqb_spec (total_param_num (stats l')) 0); [lia|]. rewrite (mbind_lift _ _ _ _ eq_refl).
    rewrite He, Hy'. eexists. split; [reflexivity|]. cbn [ParamSize]. by rewrite Hs', length_map.
Qed.
End Networks.

(** ** Witnesses *)

Module ConvertWitness.
(** An array is its shape and its type. *)
Definition shaped : Type := (list Z * string)%type.
#[export] Instance files : WeightFiles :=
  {| array := shaped; nd_array := shaped; nbytes a := 2 * fold_left Z.mul (fst a) 1;
     array_size a := fold_left Z.mul (fst a) 1; as_ndarray a := a; is_file _ := true;
     load_safetensor_shard p :=
       Ok (map (fun n => (n, ([32; 32], "float16")))
         ["model.embed_tokens.weight"; "model.layers.0.self_attn.q_proj.weight";
          "model.layers.0.self_attn.k_proj.weight"; "model.layers.0.self_attn.v_proj.weight";
          "model.layers.0.mlp.gate_proj.weight"; "model.layers.0.mlp.up_proj.weight"; "lm_head.weight"]);
     load_torch_shard p := Raise (FileNotFoundError [FStr p]);
     read_weight_map _ := Ok [] |}.
Definition rows (l : list shaped) : list Z :=
  [fold_left (fun n a => n + nth 0 (fst a) 0) l 0; 32].
#[export] Instance numpy : Numpy :=
  {| np_concatenate l _ := Ok (rows l, "float16"); np_stack l _ := Ok (rows l, "float16");
     astype a dt := match dt with JStr t => Ok (fst a, t) | _ => Raise TypeError end;
     np_shape a := map JInt (fst a); np_reshape a _ := Ok a; np_split a _ _ := Ok [a];
     np_transpose a _ := Ok a; np_add a _ := Ok a; np_divide a _ := Ok a;
     np_exp a := Ok a; np_negative a := Ok a |}.
#[export] Instance quantizers : Quantizers :=
  {| nd_shape a := fst a; nd_device_type _ := "cuda"; has_cutlass := true;
     relax_build _ p _ := Ok (fun w =>
       match p with
       | GroupProgram c b =>
           let? (q, s) := group_quantize_shapes c b (fst w) in Ok [(q, storage_dtype c); (s, gq_model_dtype c)]
       | FTProgram _ => Ok [w; w]
       | Float8Program c => Ok (w :: (if use_scale c then [w] else []))
       end);
     nd_empty _ t := ([], t) |}.
#[export] Instance quantizer_laws : QuantizerLaws.
Proof.
  split. intros how [c b|c|c] w f w' l ? ?; simplify_eq/=; try done; [|by destruct (use_scale c)].
  destruct (group_quantize_shapes c b (fst w')) as [[q s]|]; by simplify_eq/=.
Qed.
#[export] Instance data_types : DataTypes := QuantizationWitness.data_types.
#[export] Instance mutator : Mutator QuantizeMapping := fun vm name m =>
  match m with
  | Block nq mla attrs => let! attrs := visit_attrs vm name attrs in mret' (Block nq mla attrs)
  | _ => mret' m
  end.
#[export] Instance mutator_laws : MutatorLaws QuantizeMapping.
Proof. split; [done|]. intros vm name [] H; try done. by destruct (H no_quantization mla attrs). Qed.
#[export] Instance conversion : Conversion := fun m _ => m.
#[export] Instance conversion_laws : ConversionLaws.
Proof. done. Qed.

(** A Llama of one layer on two workers, which share the attention weight. *)
Definition linear (out : Z) (s : option Shard) : Param + Module' :=
  inr (Linear (DInt 32) (DInt out) None (mkParam [DInt out; DInt 32] "float16" s) None).
Definition block (attrs : list (string * (Param + Module'))) : Param + Module' := inr (Block false None attrs).
Definition llama : Module' :=
  Block false None
    [("model", block
       [("embed_tokens", inr (Embedding (Parameter_new [DInt 32; DInt 32] "float16")));
        ("layers", block [("0", block
           [("self_attn", block [("qkv_proj", linear 48 (Some (ShardSingleDim "_shard_qkv" 0 None)))]);
            ("mlp", block [("gate_up_proj", linear 64 None)])])])]);
     ("lm_head", linear 32 None)].
#[export] Instance networks : ModelNetworks :=
  {| build_model _ _ := Ok llama; weight_block_size_of _ _ := Raise AttributeError |}.
#[export] Instance auto_config : AutoConfig := offline.

Definition halves (w : shaped) : list shaped :=
  let half := ([nth 0 (fst w) 0 / 2; nth 1 (fst w) 0], snd w) in [half; half].
#[export] Instance env : ConvertEnv :=
  {| preshard_num := Some "2";
     load_json _ := Ok [("hidden_size", JInt 32); ("intermediate_size", JInt 32); ("num_attention_heads", JInt 1);
                        ("num_hidden_layers", JInt 1); ("rms_norm_eps", JFloat (S754_zero false));
                        ("vocab_size", JInt 32); ("context_window_size", JInt 128)];
     nd_dtype := snd; itemsize t := Ok (if String.eqb t "uint32" then 4 else 2);
     shard_func _ _ n := if n =? 2 then Ok (fun w => Ok (halves w)) else Raise TypeError; trace _ _ := Ok tt |}.
Lemma shards : shards_law.
Proof. intros s p n f w r H Hr. cbn in H. destruct (Z.eqb_spec n 2) as [->|]; [|done]. by simplify_eq/=. Qed.

Definition args : ConversionArgs :=
  mkConversionArgs "config.json" QuantizeWitness.scheme "llama" "model.safetensors" "huggingface-safetensor".
Definition prepared := match prepare args with Ok p => p | Raise _ => (mkObj [] [], QuantizeWitness.scheme, QuantizeMapping_new, mkProgress [] [] (S754_zero false) [], None) end.
Definition cfg : obj := fst (fst (fst (fst prepared))).
Definition scheme : Scheme := snd (fst (fst (fst prepared))).
Definition mapping : QuantizeMapping := snd (fst (fst prepared)).
Definition progress : Progress := snd (fst prepared).
Definition made : LoaderConfig * LoaderState :=
  match make_loader args cfg scheme mapping with
  | Ok r => r
  | Raise _ => (mkLoaderConfig ExternMapping_new [] None, mkLoaderState [] Stats_new)
  end.
Definition outs : list (string * shaped) :=
  match load_spec (fst made) (snd prepared) with Ok l => l | Raise _ => [] end.

Lemma weights : weights_ok (fst made).
Proof.
  split; [|vm_compute; reflexivity]. intros t p H.
  assert (str_mem t (dict_keys (torch_to_path (fst made))) = true /\ p = "model.safetensors") as [Ht ->].
  { split; [apply str_mem_In, dict_get_In; by exists p|]. vm_compute in H.
    repeat (case_match; [by injection H as <-|]). done. }
  eexists. split; [reflexivity|]. apply dict_has_In, str_mem_In.
  vm_compute in Ht. vm_compute. exact Ht.
Qed.

Lemma all_counted : counted (extern_param_map (fst made)).
Proof.
  intros path l H. unfold read_shard in H. destruct (String.eqb _ _); [|done]. injection H as <-.
  split; [by repeat constructor|]. constructor. vm_compute. by split.
Qed.

Lemma sources n : dict_get (param_map (extern_param_map (fst made))) n <> Some [].
Proof. vm_compute. repeat (case_match; [done|]). done. Qed.

Example convert_weight_witness :
  Permutation (map fst outs) (dict_keys (expected progress)) /\
  exists metadata, _convert_args args None = (Ok tt, Some (outs, metadata)) /\ ParamSize metadata = 10.
Proof.
  refine (convert_weight_complete shards args "LlamaForCausalLM" cfg scheme mapping progress (snd prepared)
    (fst made) (snd made) outs None _ _ _ _ _ weights all_counted sources _ _ _); try (vm_compute; reflexivity).
  - apply supported_weights; try (vm_compute; reflexivity); [by left|done].
  - intros m0 [= <-]. split; [reflexivity|]. split; [reflexivity|]. apply (bool_decide_unpack _). vm_compute. exact I.
  - intros m H. vm_compute in H. injection H as <-. split; apply (bool_decide_unpack _); vm_compute; exact I.
  - vm_compute. discriminate.
  - intros n w x Hin Hx. vm_compute in Hin.
    repeat (destruct Hin as [[= <- <-]|Hin]; [vm_compute in Hx; injection Hx as <-; split; reflexivity|]). destruct Hin.
Defined.

Example convert_sound_witness : exists outs' metadata model_config s q p fs rest,
  _convert_args args None = (Ok tt, Some (outs', metadata)) /\
  prepare args = Ok (model_config, s, q, p, fs) /\
  Permutation (map fst outs' ++ rest) (dict_keys (expected p)) /\ rest = [].
Proof.
  assert (fst (_convert_args args None) = Ok tt) as Hr by (vm_compute; reflexivity).
  assert (snd (_convert_args args None) <> None) as Hs by (vm_compute; discriminate).
  destruct (_convert_args args None) as [r [[outs' metadata]|]] eqn:E; [|by destruct Hs]. cbn [fst] in Hr. subst r.
  destruct (convert_weight_sound args None (Ok tt) outs' metadata) as (cfg' & s & q & p & fs & rest & Hp & H1 & _ & _ & H2);
    [done|exact E|]. exists outs', metadata, cfg', s, q, p, fs, rest. do 3 (split; [done|]). by destruct rest.
Defined.
End ConvertWitness.
